(* ===== verification/_CoqProject ===== *)
-Q . S2P
Prelude.v
K8s.v
GatewayApi.v
ApiBeta.v
ApiAlpha.v
Conversion.v
GoHeap.v
DeepCopy.v
Policy.v
StatusAC.v
Builders.v
BuilderObjects.v
ApplyConfig.v
ApplyObjects.v
ApplySchema.v
Interact.v
Webhook.v
Conditions.v
AuditLog.v
Metrics.v
Ownership.v
GoJSON.v
Metadata.v
Service.v
Sha256.v
Gateway.v
GoNet.v
NetworkPolicy.v
Validation.v
ConfigHash.v
Deployment.v
Schema.v
Handshake.v
McpClient.v
Byo.v
Reconcile.v
Lifecycle.v
Watches.v
Memory.v
Promise.v
SharedStore.v
Providers.v
ProviderSafety.v
QuietCluster.v
Settling.v
HttpRoute.v
HttpRouteConverge.v
Kuadrant.v
KuadrantConverge.v
ProviderScenarios.v
ProviderWatches.v
Interference.v
ProviderRegistry.v
TlsSettings.v
LogLevel.v
Startup.v
Coverage.v
OwnObjects.v
OwnWrites.v
Schemes.v
Readiness.v
