(* ===== verification/Prelude.v ===== *)
(** * mcp-lifecycle-operator: a verification library

    The operator turns MCPServer objects into running MCP servers.  Its parts, under
    src/, and how they interact:

    - api/v1beta1 and api/v1alpha1: the MCPServer schemas (v1beta1 is the stored hub),
      the MCPGatewayBinding schema, the conversion between the two versions, the
      validating webhook and the apply-configuration builders;
    - internal/webhook/policy.go: the admission policy the webhook evaluates;
    - internal/controller: the MCPServer reconciler.  [Reconcile] reads one MCPServer,
      validates its configuration, brings a Deployment, a Service, a NetworkPolicy and
      an MCPGatewayBinding in line with it (or observes a workload and a Service the
      user brought), verifies the endpoint by an MCP handshake, publishes the status by
      server-side apply and decides when to run again.  Its own memory is two maps, the
      handshake retry counts and the hashes of the CA bundles handshakes succeeded with;
    - internal/controller/providers: the controllers that expose MCPGatewayBindings
      through a gateway.  The httproute provider attaches an HTTPRoute to the Gateway the
      binding's ConfigMap names; the kuadrant provider finds the Gateway through an
      MCPGatewayExtension and also registers the server with the MCP gateway.  Both write
      the binding's status, which the MCPServer reconciler reads.  The registry starts a
      provider when the CRDs it needs are served;
    - cmd: start-up from flags and environment, the TLS profile, the runtime log level.

    ** Files

    - Prelude: Go's strings, fmt and integer formatting, notations, tactics, hint
      databases and list lemmas.  GoJSON, GoNet, Sha256: the parts of encoding/json,
      net and crypto/sha256 the operator calls, as executable functions.
    - K8s: the Kubernetes data the operator touches, and the class [Vendor] of functions
      of other modules with the laws [VendorLaws] relied on; [modelVendor] is a concrete
      instance that satisfies them, used by every witness.
    - ApiBeta, ApiAlpha: the two schemas, a record per struct.  Conversion:
      api/v1alpha1/mcpserver_conversion.go.  Schema: the validation markers of both
      versions, as predicates.  StatusAC: the apply-configuration builders of the status,
      as functions.
    - Policy: internal/webhook/policy.go and the decision of
      api/v1alpha1/mcpserver_webhook.go.  Webhook: the validator around it.
    - GoHeap: structs as Go has them in memory, with addresses that may be shared, and what
      a deep copy promises.  DeepCopy: the generated and hand-written deep copies, and the
      patch of [EnsureBindingAnnotations] that relies on one.
    - Builders, BuilderObjects: the statements that apply-configuration builders are made of,
      in memory; what a receiver owns, and what a call promises.  ApplyConfig: the structs
      and methods of api/v1beta1/applyconfiguration and api/v1alpha1/applyconfiguration.
      ApplyObjects: their constructors, getters, [ForKind] and extraction, and the request
      [applyStatus] sends.  ApplySchema: the schema in applyconfiguration/internal.
    - Interact: how the reconciler talks to the world.  A handler is a [prog], a tree of
      API calls, dials, clock readings and outputs (events, metrics, audit records)
      branching on the answers, and [M] adds the reconciler's memory.  [runs] is the
      set of executions for all answers, [mwp] the weakest precondition, [mcalls] and
      [mguard] judge the calls of all executions (the latter against what was observed
      before), [run_in] evaluates a handler in a concrete world.
    - Conditions (mcpserver_controller_conditions.go, cache.go, constants.go), AuditLog
      (audit.go and the emit methods), Metrics (metrics.go), Ownership
      (mcpserver_controller_ownership.go), Metadata (custom_metadata.go), Service
      (mcpserver_controller_service.go), Gateway (mcpserver_controller_gateway.go),
      NetworkPolicy (mcpserver_controller_networkpolicy.go and the networkpolicy files),
      Validation (mcpserver_controller_validation.go), ConfigHash
      (mcpserver_controller_confighash.go), Deployment
      (mcpserver_controller_deployment.go), Handshake (mcpserver_controller_handshake.go,
      mcpserver_controller_tls.go), Byo (mcpserver_controller_byo.go), Reconcile
      (mcpserver_controller.go, mcpserver_controller_endpoint.go): a definition per
      function, with the function's name, composed as in the code.  McpClient:
      [verifyMCPEndpoint], what is behind the dials of the handshake.
    - Lifecycle and Memory: theorems about whole executions of [Reconcile].  Promise: what
      a pass has to have done and seen, as facts about its events, before it may publish
      Verified=True, and that [Reconcile] does.  Readiness: when a pass has to.  Watches:
      [SetupWithManager] and [CacheOptions], and which events make a server run again.
    - SharedStore: the API server as the handlers share it with other clients: a store of
      versioned objects that others write between any two calls, caches that may be stale,
      answers that may be lost.  Interference: what that leaves of the handlers' promises.
    - OwnObjects: the Deployment, Service, NetworkPolicy and binding of one MCPServer in a
      cluster where only the operator writes them, and what a write makes of each.
      OwnWrites: passes of [Reconcile] there.
    - GatewayApi: the Gateway API and Kuadrant objects (providers/kuadrant/api/types.go).
      Providers: providers/gateway.go and predicates.go, and the create-or-update and
      delete steps both providers have.  HttpRoute: providers/httproute/controller.go.
      Kuadrant: providers/kuadrant/controller.go.  A provider's [Reconcile] is a program
      as the reconciler's, over the same calls.
    - ProviderSafety: which calls a provider may make ([provider_write]) and the rules by
      which passes are shown to obey.  QuietCluster: a cluster that stores what a provider
      writes, and how steps act on it.  Settling: the rules by which a pass is shown to
      have nothing left to do.  HttpRouteConverge, KuadrantConverge: convergence and
      registration.  ProviderScenarios: runs that show behaviour one would not expect.
      ProviderWatches: the providers' watches and what is on record before a read.
    - ProviderRegistry: providers/registry.go and crd_watcher.go, a state machine whose
      steps are the watcher's passes in arbitrary environments.
    - TlsSettings: cmd/tlsconfig.go.  LogLevel: cmd/loglevel.go.  Startup: cmd/main.go, as
      a function from flags, environment and the manager's answers to the operator.
    - Coverage: cmd/coverage.go and cmd/coverage_noop.go, as interaction trees.  Schemes:
      the types the API packages register and [init] of cmd/main.go.

    ** What the theorems show

    - Lifecycle, for every answer of the API server and of the endpoint: writes respect
      ownership and follow a read of the object; referenced workloads are never
      written; the published status is well-formed,
      shows an address only when verified, and is published at most once, last; a conflict
      ends the pass before that, without an error, and asks for another after a second; any
      other error of a write is returned, unless the object is found to be another owner's.
    - Promise, end to end: Verified=True is published only after the workload, its Service,
      its NetworkPolicy and its binding are in place, the workload was seen to serve and the
      endpoint answered (or had, for this generation and CA bundle).
    - Readiness, the converse: with a spec that can run, healthy answers to every call and
      an endpoint that answers, each pass publishes the server as ready, with its address.
    - Watches: whatever a reconcile read, a change of it enqueues the server; but for the
      Namespace, which nothing watches.
    - Memory: a reconcile touches only its own server's entries, and a CA bundle hash is
      recorded only with a published verification.
    - Handshake, McpClient: what Verified=True rests on, how TLS is set up, the retry
      schedule, how connections end.
    - DeepCopy: a copy is equal and shares nothing; a patch is against the old state.
    - ApplyConfig, ApplyObjects, ApplySchema: every generated method does what its field's
      name and type call for; chains of calls build new values that depend on the order of
      calls within a field only; the status request refines [StatusAC]; what is built has
      the shape of the schema.
    - Deployment, Service, NetworkPolicy, Gateway, Metadata: what is built, and that
      success means the desired state was written or already there.  NetworkPolicy
      gives policies a meaning (which traffic is admitted) and proves them against it.
    - Validation: accepted configurations are sound; errors are classified exactly.
    - Conditions, Byo: availability is reported exactly; the Pod watch misses no change
      of diagnosis.
    - Schema: what v1alpha1 accepts, v1beta1 accepts; an accepted spec is built into
      well-formed objects.
    - Interference, with other clients writing meanwhile: every change a handler makes is
      to the version of the object it judged, or of a server's or binding's status or of a
      binding's index annotations only, leaving the rest as it is at that moment; deletions
      by name apart, for which two runs show the race.
    - OwnWrites: the reconciler's own writes come to rest, with a bound on the changes of
      each object.  Where a spec leaves out what the API server fills in, a settled object
      is still written in every pass, without effect.
    - Conversion, Policy, Webhook: round trips and their losses, the admission decision
      against a declarative specification, and that it fails safe.
    - ConfigHash, Metrics: the hash is independent of order; one gauge series per type.
    - HttpRoute, Kuadrant, for every answer of the API server: a pass writes only objects
      under its binding's name that it may manage, as its ConfigMap asks and within the
      operator's allowlist, and publishes a URL only for a route it read as accepted.
    - HttpRouteConverge, KuadrantConverge: in a quiet cluster a second pass writes nothing
      (for kuadrant unless the prefix is taken, when no pass ever settles); with valid
      inputs a pass of httproute succeeds with the route in place, and once that is accepted
      it is registered and reported by the MCPServer reconciler.
    - ProviderWatches: whatever a provider gets by name is watched, is referenced by the
      binding on record before it is used, and its events lead back to exactly those
      bindings.  Lists (of other registrations) are not covered.
    - ProviderRegistry: providers are started exactly once, and as soon as they can be.
    - TlsSettings, LogLevel: settings survive propagation to the servers; the level is the
      last valid one read.
    - Startup: configured allowlists fail closed and confine every later pass of the
      providers; what is reported about admission is true of the registered webhook; TLS
      settings reach the servers and leave verification alone.
    - Coverage: the loop flushes at once, once a tick and once more when it is cancelled,
      and then returns; a manager that runs with GOCOVERDIR set could write to it; other
      builds add nothing.
    - Schemes: each of the operator's own types has one kind, the one it writes and waits for.

    ** Modelling choices

    - Machine integers that the code computes with keep their width: the retry counter
      (int32) and the backoff (int64) wrap around, and theorems state the range they
      need.  Strings are byte sequences.  A nil map is distinguished from an empty one
      ([gomap]) where the code does.
    - Every definition is total.  Loops over data are structural; the backoff loop runs
      for its argument.  JSON decoding and encoding have fuel from the length of their
      input, and decoding what was encoded is proved to give it back; an IPv6 address
      has at most eight groups and a byte eight bits, the fuel of those loops.
    - Time is what the calls [CNow] answer.  Logging is left out; audit records, events
      and metrics are outputs of the model.
    - Where the code compares a slice with one that shares its array (the owner
      references in the providers' updates), the value seen through the alias is a
      function of its own, [OwnersAlias], with the law that it is the old or the new one.
      The atomic log level is a cell that logger and reconciler share.
    - crypto/tls's tables of cipher suites and groups are the class [Toolchain]; [go126]
      has those of the toolchain in go.mod, the instance the witness uses.
    - CEL's regular expressions and the schemas of embedded Kubernetes types are the
      classes [CEL] and [Embedded].
    - Lifecycle and ProviderSafety quantify over all answers.  In SharedStore the answers
      come from a store: an oracle chooses at each call what others write before it,
      which past version a read sees, and whether the call takes effect and is answered.
      A status write leaves metadata and spec, a patch what it does not name; what admission
      would do to such a write counts as a later write of somebody else.
    - Convergence is stated in [QuietCluster] for a provider and in [OwnObjects] for the
      reconciler, where nobody else writes: with other writers a pass may always find
      something new to do.  In OwnObjects calls may fail, before or after their effect, and
      everything but the four objects, the spec and its inputs changes at will.
    - That a Deployment becomes available or a gateway accepts a route is the cluster's
      part; Readiness assumes it of the answers and leaves all else of them open.
    - The dialled MCP handshake is the call [CDial], whose answer is arbitrary, because the
      dialer can be replaced; McpClient says what the operator's own dialer answers, over
      an SDK that is the class [SDK].
    - Structs are values wherever sharing does not matter.  Where it does (deep copies) they
      are trees of fields on a heap; loops of the copies are structural in the struct types,
      which are not recursive.  The structs of other modules are the class [Library].
    - Builders write in place, into arrays whose spare capacity is up to the runtime
      ([GoRuntime]).  A configuration's embedded [TypeMeta] is written out as two fields.
      Other modules' structs, their marshalling and [ExtractInto] are the classes [Foreign],
      [Marshaller] and [Extractor].  [MarshallerLaws] asks of the marshalling only that a
      value of a type the schema defines has that type's shape, where an untyped scalar of
      the schema is any JSON scalar, as for the schema's own reader.
    - controller-runtime's predicates and owner handler are the class [ControllerRuntime],
      its schemes the class [Schemes]; that [SetControllerReference] fails only across
      namespaces and where something else is the controller is [ControllerReferences], which
      Readiness and the registration by httproute rely on.
    - The flush loop of the coverage build runs until it is cancelled, so it is an
      interaction tree; theorems are about its complete behaviours.

    ** Not modelled, and why

    - Parsing the schema text, the marker methods [IsApplyConfiguration] and the type
      converters: text and tags without behaviour.  The providers' [SetupWithManager] beyond
      the watch mappings only calls libraries.  test/ is the test harness.
    - The work queue, its rate limits and its fairness are controller-runtime's: the theorems
      say which events enqueue what and what a pass asks for, not when it runs. *)

From stdpp Require Export base option list gmap strings pretty sorting.
From Stdlib Require Export ZArith Lia.
From Stdlib Require Import Ascii.

Declare Scope go_scope.
Delimit Scope go_scope with go.
Global Open Scope string_scope.
Global Open Scope Z_scope.
Global Open Scope list_scope.
Global Open Scope go_scope.

(** Go's [==] on comparable types, as a boolean. *)
Notation "a == b" := (bool_decide (a = b)) (at level 70, no associativity) : go_scope.
Notation "a != b" := (negb (bool_decide (a = b))) (at level 70, no associativity) : go_scope.

(** ** Proof automation *)

Create HintDb go discriminated.
Create Rewrite HintDb go_str.

Ltac bool_to_prop :=
  repeat match goal with
  | H : andb _ _ = true |- _ => apply andb_true_iff in H as [? ?]
  | H : orb _ _ = false |- _ => apply orb_false_iff in H as [? ?]
  | H : negb _ = true |- _ => apply negb_true_iff in H
  | H : negb _ = false |- _ => apply negb_false_iff in H
  | H : bool_decide _ = true |- _ => apply bool_decide_eq_true in H
  | H : bool_decide _ = false |- _ => apply bool_decide_eq_false in H
  | H : Z.ltb _ _ = true |- _ => apply Z.ltb_lt in H
  | H : Z.ltb _ _ = false |- _ => apply Z.ltb_ge in H
  | H : Z.leb _ _ = true |- _ => apply Z.leb_le in H
  | H : Z.leb _ _ = false |- _ => apply Z.leb_gt in H
  | H : Z.eqb _ _ = true |- _ => apply Z.eqb_eq in H
  | H : Z.eqb _ _ = false |- _ => apply Z.eqb_neq in H
  end.

(** Case analysis on the scrutinee of an [if] or a [match]. *)
Ltac split_ifs :=
  repeat match goal with
  | |- context [if ?b then _ else _] =>
      lazymatch b with context [if _ then _ else _] => fail | _ => destruct b eqn:? end
  end; bool_to_prop.

Ltac split_ifs_in H :=
  repeat match type of H with
  | context [if ?b then _ else _] =>
      lazymatch b with context [if _ then _ else _] => fail | _ => destruct b eqn:? end
  end; bool_to_prop.

(** ** The parts of Go's [strings] package the operator uses

    A Go string is a sequence of bytes; [string] is a sequence of 8-bit [ascii]
    characters. *)

Module strings.

Definition HasPrefix (s prefix : string) : bool := String.prefix prefix s.

Fixpoint HasSuffix (s suffix : string) : bool :=
  if s == suffix then true
  else match s with EmptyString => false | String _ s' => HasSuffix s' suffix end.

Fixpoint Contains (s sub : string) : bool :=
  if String.prefix sub s then true
  else match s with EmptyString => false | String _ s' => Contains s' sub end.

(** [strings.LastIndex] for a one-byte separator; [-1] when absent. *)
Fixpoint last_index_from (c : ascii) (s : string) (i acc : Z) : Z :=
  match s with
  | EmptyString => acc
  | String a s' => last_index_from c s' (i + 1) (if Ascii.eqb a c then i else acc)
  end.
Definition LastIndexByte (s : string) (c : ascii) : Z := last_index_from c s 0 (-1).

Fixpoint drop (n : nat) (s : string) : string :=
  match n, s with
  | O, _ => s
  | S n', String _ s' => drop n' s'
  | S _, EmptyString => EmptyString
  end.

Fixpoint take (n : nat) (s : string) : string :=
  match n, s with
  | S n', String a s' => String a (take n' s')
  | _, _ => EmptyString
  end.

Definition TrimPrefix (s prefix : string) : string :=
  if HasPrefix s prefix then drop (String.length prefix) s else s.

Definition Join (l : list string) (sep : string) : string :=
  match l with
  | [] => ""
  | x :: l' => fold_left (fun acc y => acc +:+ sep +:+ y) l' x
  end.

(** [strings.Split] (and [SplitSeq]) on a one-byte separator: always at least one piece. *)
Fixpoint SplitByte (c : ascii) (s : string) : list string :=
  match s with
  | EmptyString => [EmptyString]
  | String a s' =>
      if Ascii.eqb a c then EmptyString :: SplitByte c s'
      else match SplitByte c s' with
           | [] => [String a EmptyString]
           | p :: ps => String a p :: ps
           end
  end.

Definition code (a : ascii) : Z := Z.of_nat (nat_of_ascii a).
Definition chr (z : Z) : ascii := ascii_of_nat (Z.to_nat z).

(** The UTF-8 encodings of the runes [unicode.IsSpace] accepts: tab, newline,
    vertical tab, form feed, carriage return, space, U+0085, U+00A0, U+1680,
    U+2000..U+200A, U+2028, U+2029, U+202F, U+205F and U+3000. *)
Definition bytes (l : list Z) : string :=
  fold_right (fun z s => String (chr z) s) EmptyString l.

Definition spaces : list string :=
  map bytes
    ([[9]; [10]; [11]; [12]; [13]; [32]; [194; 133]; [194; 160]; [225; 154; 128]]
     ++ map (fun z => [226; 128; z]) [128; 129; 130; 131; 132; 133; 134; 135; 136; 137; 138; 168; 169; 175]
     ++ [[226; 129; 159]; [227; 128; 128]]).

Definition leading_space (s : string) : option string :=
  match List.find (fun sp => HasPrefix s sp) spaces with
  | Some sp => Some (drop (String.length sp) s)
  | None => None
  end.

Fixpoint trim_left (fuel : nat) (s : string) : string :=
  match fuel with
  | O => s
  | S fuel' => match leading_space s with Some s' => trim_left fuel' s' | None => s end
  end.

Definition trailing_space (s : string) : option string :=
  match List.find (fun sp => HasSuffix s sp) spaces with
  | Some sp => Some (take (String.length s - String.length sp) s)
  | None => None
  end.

Fixpoint trim_right (fuel : nat) (s : string) : string :=
  match fuel with
  | O => s
  | S fuel' => match trailing_space s with Some s' => trim_right fuel' s' | None => s end
  end.

(** Every step removes at least one byte, so the length of [s] is enough fuel. *)
Definition TrimSpace (s : string) : string :=
  let l := trim_left (String.length s) s in
  trim_right (String.length l) l.

(** [strings.ToLower], exact for the comparisons with ASCII constants the
    operator makes: the only non-ASCII runes whose lower case is ASCII are
    U+0130 (to [i]) and U+212A (to [k]); other non-ASCII bytes are kept. *)
Definition lower_byte (a : ascii) : ascii :=
  if (65 <=? code a) && (code a <=? 90) then chr (code a + 32) else a.

Fixpoint ToLower (s : string) : string :=
  match s with
  | EmptyString => EmptyString
  | String a s' =>
      match s' with
      | String b s'' =>
          if (code a =? 196) && (code b =? 176) then String "i"%char (ToLower s'')
          else match s'' with
               | String c s''' =>
                   if (code a =? 226) && (code b =? 132) && (code c =? 170)
                   then String "k"%char (ToLower s''')
                   else String (lower_byte a) (ToLower s')
               | EmptyString => String (lower_byte a) (ToLower s')
               end
      | EmptyString => String (lower_byte a) EmptyString
      end
  end.

(** [strings.EqualFold] against an ASCII constant: simple Unicode folding adds
    U+017F to the class of [s] and U+212A to the class of [k]. *)
Fixpoint EqualFold (s t : string) : bool :=
  match t with
  | EmptyString => s == ""
  | String c t' =>
      match s with
      | EmptyString => false
      | String a s' =>
          if Ascii.eqb (lower_byte a) (lower_byte c) then EqualFold s' t'
          else match s' with
               | String b s'' =>
                   if Ascii.eqb (lower_byte c) "s"%char && (code a =? 197) && (code b =? 191)
                   then EqualFold s'' t'
                   else match s'' with
                        | String d s''' =>
                            if Ascii.eqb (lower_byte c) "k"%char && (code a =? 226) && (code b =? 132) && (code d =? 170)
                            then EqualFold s''' t' else false
                        | EmptyString => false
                        end
               | EmptyString => false
               end
      end
  end.

End strings.

Example TrimSpace_ex : strings.TrimSpace "  open	" = "open".
Proof. reflexivity. Qed.
Example ToLower_ex : strings.ToLower "ReStricted" = "restricted".
Proof. reflexivity. Qed.
Example Split_ex : strings.SplitByte ","%char "a,,b" = ["a"; ""; "b"].
Proof. reflexivity. Qed.

(** ** Formatting: the verbs of [fmt] the operator uses *)

Module fmt.

(** [%d] *)
Definition d (z : Z) : string := pretty z.

(** [%t] and [%v] on a bool *)
Definition t (b : bool) : string := if b then "true" else "false".

Definition hexdigit (z : Z) : ascii :=
  if z <? 10 then strings.chr (48 + z) else strings.chr (87 + z).

(** [%x] on one byte *)
Definition hexbyte (z : Z) : string :=
  String (hexdigit (z / 16)) (String (hexdigit (z mod 16)) EmptyString).

(** [%x] on a byte slice *)
Definition x (l : list Z) : string := fold_right (fun b s => hexbyte b +:+ s) "" l.

(** [%q] ([strconv.Quote]): control bytes are escaped, printable runes copied. *)
Definition quote_byte (a : ascii) : string :=
  let c := strings.code a in
  if c =? 34 then String (strings.chr 92) (String (strings.chr 34) "")
  else if c =? 92 then String (strings.chr 92) (String (strings.chr 92) "")
  else if c =? 7 then "\a" else if c =? 8 then "\b" else if c =? 12 then "\f"
  else if c =? 10 then "\n" else if c =? 13 then "\r" else if c =? 9 then "\t"
  else if c =? 11 then "\v"
  else if (c <? 32) || (c =? 127) then "\x" +:+ hexbyte c
  else String a "".

Fixpoint quote_body (s : string) : string :=
  match s with
  | EmptyString => ""
  | String a s' => quote_byte a +:+ quote_body s'
  end.

Definition dquote : string := String (strings.chr 34) "".
Definition q (s : string) : string := dquote +:+ quote_body s +:+ dquote.

(** [%v] on a slice of strings *)
Definition vs (l : list string) : string := "[" +:+ strings.Join l " " +:+ "]".

End fmt.

(** ** Machine integers *)

(** The value of a Go [int32] after an arithmetic operation: two's complement wrap-around. *)
Definition wrap32 (z : Z) : Z := (z + 2 ^ 31) mod 2 ^ 32 - 2 ^ 31.
Definition is_int32 (z : Z) : Prop := - 2 ^ 31 <= z < 2 ^ 31.

Lemma wrap32_id z : is_int32 z -> wrap32 z = z.
Proof. unfold is_int32, wrap32. intros. rewrite Z.mod_small; lia. Qed.

Lemma wrap32_range z : is_int32 (wrap32 z).
Proof. unfold is_int32, wrap32. pose proof (Z.mod_pos_bound (z + 2 ^ 31) (2 ^ 32)). lia. Qed.

(** ** Lemmas on strings *)

#[global] Arguments String.append !_ _ : simpl nomatch.
#[global] Arguments String.prefix !_ !_ : simpl nomatch.

Lemma append_nil_r s : (s +:+ "") = s.
Proof. induction s; simpl; congruence. Qed.

Lemma append_assoc (s t u : string) : (s +:+ t) +:+ u = s +:+ t +:+ u.
Proof. induction s; simpl; congruence. Qed.

Lemma length_append s t : (String.length (s +:+ t) = String.length s + String.length t)%nat.
Proof. induction s; simpl; lia. Qed.

Lemma append_inj_l (s t u : string) : s +:+ t = s +:+ u -> t = u.
Proof. induction s; simpl; intros H; [done|]. injection H. auto. Qed.

Lemma append_eq_nil (s t : string) : s +:+ t = "" -> s = "" /\ t = "".
Proof. destruct s; simpl; [auto|discriminate]. Qed.

Lemma prefix_cons a b p s :
  String.prefix (String a p) (String b s) = if Ascii.ascii_dec a b then String.prefix p s else false.
Proof. reflexivity. Qed.

Lemma HasPrefix_spec s p : strings.HasPrefix s p = true <-> exists t, s = p +:+ t.
Proof.
  unfold strings.HasPrefix. revert s. induction p as [|a p IH]; intros s.
  - destruct s; (split; [eauto|done]).
  - destruct s as [|b s]; [split; [done | intros [t ?]; done]|].
    rewrite prefix_cons. destruct (Ascii.ascii_dec a b) as [->|Hne].
    + rewrite IH. split; intros [t H]; exists t; [by rewrite H|]. by injection H.
    + split; [done|]. intros [t H]. injection H. intros; congruence.
Qed.

Lemma HasSuffix_spec s p : strings.HasSuffix s p = true <-> exists t, s = t +:+ p.
Proof.
  induction s as [|a s IH]; simpl.
  - case_bool_decide as H.
    + split; [|done]. intros _. exists "". by rewrite <- H.
    + split; [done|]. intros [t Ht]. symmetry in Ht. by apply append_eq_nil in Ht as [-> ->].
  - case_bool_decide as H.
    + split; [|done]. intros _. exists "". by rewrite <- H.
    + rewrite IH. split; intros [t Ht].
      * exists (String a t). by rewrite Ht.
      * destruct t as [|b t]; simpl in Ht; [congruence|].
        injection Ht as -> ->. eauto.
Qed.

Lemma length_take n s : (n <= String.length s)%nat -> String.length (strings.take n s) = n.
Proof.
  revert s. induction n as [|n IH]; intros [|a s]; simpl; try done; try lia.
  intros. rewrite IH; lia.
Qed.

Lemma take_drop n s : strings.take n s +:+ strings.drop n s = s.
Proof. revert s. induction n; intros [|a s]; simpl; [done..|]. by f_equal. Qed.

Lemma drop_append p t : strings.drop (String.length p) (p +:+ t) = t.
Proof. induction p; simpl; done. Qed.

Lemma TrimPrefix_append p t : strings.TrimPrefix (p +:+ t) p = t.
Proof.
  unfold strings.TrimPrefix.
  replace (strings.HasPrefix (p +:+ t) p) with true.
  - apply drop_append.
  - symmetry. apply HasPrefix_spec. eauto.
Qed.

Lemma split_no_sep c s p : In p (strings.SplitByte c s) -> ~ In c (String.list_ascii_of_string p).
Proof.
  revert p. induction s as [|a s IH]; simpl; intros p Hp.
  - destruct Hp as [<-|[]]. simpl. tauto.
  - destruct (Ascii.eqb_spec a c) as [->|Hne].
    + destruct Hp as [<-|Hp]; simpl; [tauto|auto].
    + destruct (strings.SplitByte c s) as [|q qs].
      * destruct Hp as [<-|[]]. simpl. intuition congruence.
      * destruct Hp as [<-|Hp]; simpl.
        -- intros [H|H]; [congruence|]. apply (IH q); simpl; auto.
        -- apply IH. simpl. auto.
Qed.

#[export] Hint Rewrite append_nil_r append_assoc length_append : go_str.
#[export] Hint Resolve wrap32_range : go.

Example quote_ex : fmt.q "a" = fmt.dquote +:+ "a" +:+ fmt.dquote.
Proof. reflexivity. Qed.
Example hex_ex : fmt.x [0; 171; 255] = "00abff".
Proof. reflexivity. Qed.

(** *** Cutting a string at a separator *)

Fixpoint lacks (c : ascii) (s : string) : bool :=
  match s with
  | EmptyString => true
  | String a s' => negb (Ascii.eqb a c) && lacks c s'
  end.

Lemma lacks_append c s t : lacks c (s +:+ t) = lacks c s && lacks c t.
Proof. induction s; simpl; [done|]. by rewrite IHs, andb_assoc. Qed.

(** The first separator is found again when the parts before it lack it. *)
Lemma cut_first c s1 s2 t1 t2 :
  lacks c s1 = true -> lacks c s2 = true ->
  s1 +:+ String c t1 = s2 +:+ String c t2 -> s1 = s2 /\ t1 = t2.
Proof.
  revert s2. induction s1 as [|a s1 IH]; intros [|b s2] H1 H2 Heq; simpl in *.
  - by injection Heq.
  - injection Heq as -> _. by rewrite Ascii.eqb_refl in H2.
  - injection Heq as -> _. by rewrite Ascii.eqb_refl in H1.
  - apply andb_true_iff in H1 as [_ H1]. apply andb_true_iff in H2 as [_ H2].
    injection Heq as -> Heq. destruct (IH s2 H1 H2 Heq) as [-> ->]. done.
Qed.

(** The last separator is found again when the parts after it lack it. *)
Lemma cut_last c s1 s2 t1 t2 :
  lacks c t1 = true -> lacks c t2 = true ->
  s1 +:+ String c t1 = s2 +:+ String c t2 -> s1 = s2 /\ t1 = t2.
Proof.
  revert s2. induction s1 as [|a s1 IH]; intros [|b s2] H1 H2 Heq; simpl in *.
  - by injection Heq.
  - injection Heq as -> ->. rewrite lacks_append in H1. simpl in H1.
    by rewrite Ascii.eqb_refl, andb_false_r in H1.
  - injection Heq as -> <-. rewrite lacks_append in H2. simpl in H2.
    by rewrite Ascii.eqb_refl, andb_false_r in H2.
  - injection Heq as -> Heq. destruct (IH s2 H1 H2 Heq) as [-> ->]. done.
Qed.

Definition is_digit_or_dash (a : ascii) : bool :=
  Ascii.eqb a "-"%char || ((48 <=? strings.code a) && (strings.code a <=? 57)).

Fixpoint all_chars (f : ascii -> bool) (s : string) : bool :=
  match s with EmptyString => true | String a s' => f a && all_chars f s' end.

Lemma pretty_N_go_chars x s : all_chars is_digit_or_dash s = true -> all_chars is_digit_or_dash (pretty_N_go x s) = true.
Proof.
  revert s. induction (N.lt_wf_0 x) as [x _ IH]; intros s Hs.
  assert (x = 0 ∨ 0 < x)%N as [->|?] by lia; [by rewrite pretty_N_go_0|].
  rewrite pretty_N_go_step by done. apply IH; [by apply N.div_lt|].
  cbn [all_chars]. rewrite Hs. unfold pretty_N_char. by repeat case_match.
Qed.

Lemma fmt_d_chars z : all_chars is_digit_or_dash (fmt.d z) = true.
Proof.
  unfold fmt.d, pretty, pretty_Z. destruct z as [|p|p]; [done| |];
    unfold pretty, pretty_N; (destruct (decide (N.pos p = 0)%N) as [|_]; [done|]).
  - by apply pretty_N_go_chars.
  - cbn [all_chars String.append]. by apply pretty_N_go_chars.
Qed.

Lemma lacks_all_chars c f s : f c = false -> all_chars f s = true -> lacks c s = true.
Proof.
  intros Hc. induction s as [|a s IH]; simpl; [done|].
  intros [Ha Hs]%andb_true_iff. rewrite IH by done. destruct (Ascii.eqb_spec a c); [congruence|done].
Qed.

Lemma fmt_d_inj z1 z2 : fmt.d z1 = fmt.d z2 -> z1 = z2.
Proof. apply (inj pretty). Qed.

(** *** Joining and splitting at a one-byte separator *)

Lemma Join_cons x y l sep : strings.Join (x :: y :: l) sep = x +:+ sep +:+ strings.Join (y :: l) sep.
Proof.
  assert (H : forall z acc, fold_left (fun acc y => acc +:+ sep +:+ y) l (acc +:+ z) = acc +:+ fold_left (fun acc y => acc +:+ sep +:+ y) l z).
  { induction l as [|w l IH]; intros z acc; cbn; [done|]. by rewrite append_assoc, IH. }
  cbn. rewrite <- (append_assoc x sep y). rewrite H. by rewrite append_assoc.
Qed.

Lemma SplitByte_single c s : lacks c s = true -> strings.SplitByte c s = [s].
Proof.
  induction s as [|a s IH]; cbn; [done|]. intros [Ha Hs]%andb_true_iff. rewrite negb_true_iff in Ha.
  by rewrite Ha, IH.
Qed.

Lemma SplitByte_sep c s t : lacks c s = true -> strings.SplitByte c (s +:+ String c t) = s :: strings.SplitByte c t.
Proof.
  induction s as [|a s IH]; cbn.
  - by rewrite Ascii.eqb_refl.
  - intros [Ha Hs]%andb_true_iff. rewrite negb_true_iff in Ha. by rewrite Ha, IH.
Qed.

Lemma Split_Join c l :
  l <> [] -> Forall (fun s => lacks c s = true) l -> strings.SplitByte c (strings.Join l (String c "")) = l.
Proof.
  destruct l as [|x l]; [done|]. intros _. revert x. induction l as [|y l IH]; intros x; rewrite Forall_cons; intros [Hx Hl].
  - by apply SplitByte_single.
  - rewrite Join_cons. cbn [String.append]. rewrite SplitByte_sep by done. by rewrite IH.
Qed.

Lemma Join_nonempty l sep : Exists (fun s => s <> "") l -> strings.Join l sep <> "".
Proof.
  destruct l as [|x l]; [by inversion 1|]. revert x. induction l as [|y l IH]; intros x H.
  - apply Exists_cons in H as [H|H]; [exact H|by inversion H].
  - rewrite Join_cons. intros [-> [_ Hj]%append_eq_nil]%append_eq_nil. apply Exists_cons in H as [?|H]; [done|].
    by apply (IH y H).
Qed.
