(* ===== verification/K8s.v ===== *)
(** * Kubernetes machinery the operator is written against

    The part of [k8s.io/apimachinery], [k8s.io/api] and controller-runtime the
    operator's code reads and writes: Go errors as values, object metadata,
    status conditions, and the data types of the API objects, with the fields
    the operator touches.  Behaviour of those packages beyond data (for example
    [controllerutil.SetControllerReference]) is a parameter, collected in the
    class [Vendor] at the end, with its documented laws in [VendorLaws]. *)

From Stdlib Require Import Ascii.
From S2P Require Import Prelude.

(** ** Errors *)

(** [metav1.StatusReason] of an API server error, as far as the operator tells them apart. *)
Inductive StatusReason :=
| NotFound | Conflict | BadRequest | AlreadyExists | OtherReason (r : string).

(** The Go [error] values that flow through the controller.  [Wrap pre e] is
    [fmt.Errorf(pre + "%w", e)]. *)
Inductive error :=
| StatusError (reason : StatusReason) (message : string)
| ValidationErr (Reason Message : string)
| OwnershipConflictErr (Message : string)
| Errorf (message : string)
| Wrap (pre : string) (e : error).

#[export] Instance StatusReason_eq_dec : EqDecision StatusReason.
Proof. solve_decision. Defined.
#[export] Instance error_eq_dec : EqDecision error.
Proof. solve_decision. Defined.

(** [err.Error()] *)
Fixpoint Error (e : error) : string :=
  match e with
  | StatusError _ m | ValidationErr _ m | OwnershipConflictErr m | Errorf m => m
  | Wrap pre e' => pre +:+ Error e'
  end.

(** [errors.As] for each of the target types: the chain of wrapped errors is searched. *)
Fixpoint reasonForError (e : error) : option StatusReason :=
  match e with
  | StatusError r _ => Some r
  | Wrap _ e' => reasonForError e'
  | _ => None
  end.

Fixpoint asValidationError (e : error) : option (string * string) :=
  match e with
  | ValidationErr r m => Some (r, m)
  | Wrap _ e' => asValidationError e'
  | _ => None
  end.

Fixpoint asOwnershipConflict (e : error) : bool :=
  match e with
  | OwnershipConflictErr _ => true
  | Wrap _ e' => asOwnershipConflict e'
  | _ => false
  end.

Definition IsNotFound (e : error) : bool := reasonForError e == Some NotFound.
Definition IsConflict (e : error) : bool := reasonForError e == Some Conflict.
Definition IsBadRequest (e : error) : bool := reasonForError e == Some BadRequest.

(** [(T, error)] results. *)
Inductive result (A : Type) :=
| Ok (a : A)
| Err (e : error).
Arguments Ok {A} a.
Arguments Err {A} e.

(** ** [map[string]string]: [None] is the nil map. *)

Abbreviation gomap := (option (gmap string string)).

Definition view (m : gomap) : gmap string string := default ∅ m.
Definition mget (m : gomap) (k : string) : option string := view m !! k.
Definition mlen (m : gomap) : nat := size (view m).

(** ** Metadata *)

Record OwnerReference := {
  or_apiVersion : string;
  or_kind : string;
  or_name : string;
  or_uid : string;
  or_controller : option bool;
  or_blockOwnerDeletion : option bool
}.
#[export] Instance OwnerReference_eq_dec : EqDecision OwnerReference.
Proof. solve_decision. Defined.

Record ObjectMeta := {
  om_name : string;
  om_namespace : string;
  om_uid : string;
  om_resourceVersion : string;
  om_generation : Z;
  om_deletionTimestamp : option Z;
  om_labels : gomap;
  om_annotations : gomap;
  om_ownerReferences : list OwnerReference
}.
#[export] Instance ObjectMeta_eq_dec : EqDecision ObjectMeta.
Proof. solve_decision. Defined.

(** The metadata of a Go composite literal that sets name, namespace and labels. *)
Definition newMeta (name namespace : string) (labels : gomap) : ObjectMeta :=
  {| om_name := name; om_namespace := namespace; om_uid := ""; om_resourceVersion := "";
     om_generation := 0; om_deletionTimestamp := None; om_labels := labels;
     om_annotations := None; om_ownerReferences := [] |}.

Definition with_labels (l : gomap) (m : ObjectMeta) : ObjectMeta :=
  {| om_name := om_name m; om_namespace := om_namespace m; om_uid := om_uid m;
     om_resourceVersion := om_resourceVersion m; om_generation := om_generation m;
     om_deletionTimestamp := om_deletionTimestamp m; om_labels := l;
     om_annotations := om_annotations m; om_ownerReferences := om_ownerReferences m |}.

Definition with_annotations (a : gomap) (m : ObjectMeta) : ObjectMeta :=
  {| om_name := om_name m; om_namespace := om_namespace m; om_uid := om_uid m;
     om_resourceVersion := om_resourceVersion m; om_generation := om_generation m;
     om_deletionTimestamp := om_deletionTimestamp m; om_labels := om_labels m;
     om_annotations := a; om_ownerReferences := om_ownerReferences m |}.

Definition with_owners (o : list OwnerReference) (m : ObjectMeta) : ObjectMeta :=
  {| om_name := om_name m; om_namespace := om_namespace m; om_uid := om_uid m;
     om_resourceVersion := om_resourceVersion m; om_generation := om_generation m;
     om_deletionTimestamp := om_deletionTimestamp m; om_labels := om_labels m;
     om_annotations := om_annotations m; om_ownerReferences := o |}.

(** [metav1.GetControllerOf]: the first owner reference marked as controller. *)
Definition is_controller (o : OwnerReference) : bool := default false (or_controller o).
Definition GetControllerOf (m : ObjectMeta) : option OwnerReference :=
  List.find is_controller (om_ownerReferences m).

(** [metav1.IsControlledBy] *)
Definition IsControlledBy (m owner : ObjectMeta) : bool :=
  match GetControllerOf m with
  | Some ref => or_uid ref == om_uid owner
  | None => false
  end.

(** ** Conditions *)

Definition ConditionTrue : string := "True".
Definition ConditionFalse : string := "False".
Definition ConditionUnknown : string := "Unknown".

Record Condition := {
  c_type : string;
  c_status : string;
  c_reason : string;
  c_message : string;
  c_observedGeneration : Z;
  c_lastTransitionTime : Z
}.
#[export] Instance Condition_eq_dec : EqDecision Condition.
Proof. solve_decision. Defined.

(** [meta.FindStatusCondition] *)
Definition FindStatusCondition (conds : list Condition) (t : string) : option Condition :=
  List.find (fun c => c_type c == t) conds.

Lemma FindStatusCondition_type conds t c :
  FindStatusCondition conds t = Some c -> c_type c = t /\ In c conds.
Proof.
  unfold FindStatusCondition. intros H. apply List.find_some in H as [? H].
  bool_to_prop. auto.
Qed.

Lemma FindStatusCondition_None conds t :
  FindStatusCondition conds t = None <-> Forall (fun c => c_type c ≠ t) conds.
Proof.
  unfold FindStatusCondition. induction conds as [|c l IH]; simpl; [naive_solver|].
  case_bool_decide as H; [split; [done|]; rewrite Forall_cons; naive_solver|].
  rewrite IH, Forall_cons. naive_solver.
Qed.

Lemma FindStatusCondition_app l1 l2 t :
  FindStatusCondition (l1 ++ l2) t =
  match FindStatusCondition l1 t with Some c => Some c | None => FindStatusCondition l2 t end.
Proof.
  unfold FindStatusCondition. induction l1 as [|c l IH]; simpl; [done|].
  by case_bool_decide.
Qed.

(** ** API object types

    Fields the operator never reads on their own are collected, in serialized
    form, in a field ending in [_other]; the operator copies and compares it. *)

Inductive IntOrString := IntVal (z : Z) | StrVal (s : string).
#[export] Instance IntOrString_eq_dec : EqDecision IntOrString.
Proof. solve_decision. Defined.

Record LabelSelector := {
  ls_matchLabels : gmap string string;
  ls_matchExpressions : list string
}.
#[export] Instance LabelSelector_eq_dec : EqDecision LabelSelector.
Proof. solve_decision. Defined.

Record KeySelector := { ks_name : string; ks_key : string; ks_optional : option bool }.
#[export] Instance KeySelector_eq_dec : EqDecision KeySelector.
Proof. solve_decision. Defined.

Record EnvVarSource := {
  evs_configMapKeyRef : option KeySelector;
  evs_secretKeyRef : option KeySelector;
  evs_other : string
}.
#[export] Instance EnvVarSource_eq_dec : EqDecision EnvVarSource.
Proof. solve_decision. Defined.

Record EnvVar := { ev_name : string; ev_value : string; ev_valueFrom : option EnvVarSource }.
#[export] Instance EnvVar_eq_dec : EqDecision EnvVar.
Proof. solve_decision. Defined.

Record EnvSource := { es_name : string; es_optional : option bool }.
#[export] Instance EnvSource_eq_dec : EqDecision EnvSource.
Proof. solve_decision. Defined.

Record EnvFromSource := {
  ef_prefix : string;
  ef_configMapRef : option EnvSource;
  ef_secretRef : option EnvSource
}.
#[export] Instance EnvFromSource_eq_dec : EqDecision EnvFromSource.
Proof. solve_decision. Defined.

Record ConfigMapVolumeSource := { cmv_name : string; cmv_optional : option bool; cmv_other : string }.
#[export] Instance ConfigMapVolumeSource_eq_dec : EqDecision ConfigMapVolumeSource.
Proof. solve_decision. Defined.

Record SecretVolumeSource := { sv_secretName : string; sv_optional : option bool; sv_other : string }.
#[export] Instance SecretVolumeSource_eq_dec : EqDecision SecretVolumeSource.
Proof. solve_decision. Defined.

Record EmptyDirVolumeSource := { ed_other : string }.
#[export] Instance EmptyDirVolumeSource_eq_dec : EqDecision EmptyDirVolumeSource.
Proof. solve_decision. Defined.

Record PodSecurityContext := {
  psc_runAsNonRoot : option bool;
  psc_runAsUser : option Z;
  psc_other : string
}.
#[export] Instance PodSecurityContext_eq_dec : EqDecision PodSecurityContext.
Proof. solve_decision. Defined.

Record Capabilities := { cap_add : list string; cap_drop : list string }.
#[export] Instance Capabilities_eq_dec : EqDecision Capabilities.
Proof. solve_decision. Defined.

Record SecurityContext := {
  sc_privileged : option bool;
  sc_allowPrivilegeEscalation : option bool;
  sc_readOnlyRootFilesystem : option bool;
  sc_runAsNonRoot : option bool;
  sc_runAsUser : option Z;
  sc_capabilities : option Capabilities;
  sc_seccompProfile : option string;
  sc_other : string
}.
#[export] Instance SecurityContext_eq_dec : EqDecision SecurityContext.
Proof. solve_decision. Defined.

Record Probe := {
  pr_tcpSocket : option IntOrString;
  pr_initialDelaySeconds : Z;
  pr_timeoutSeconds : Z;
  pr_periodSeconds : Z;
  pr_successThreshold : Z;
  pr_failureThreshold : Z;
  pr_other : string
}.
#[export] Instance Probe_eq_dec : EqDecision Probe.
Proof. solve_decision. Defined.

(** Quantities are kept by value, in thousandths of the unit ([500m] CPU is 500,
    [64Mi] of memory is 64*2^20*1000): [resource.Quantity] is compared by value. *)
Record ResourceRequirements := { rr_requests : gmap string Z; rr_limits : gmap string Z }.
#[export] Instance ResourceRequirements_eq_dec : EqDecision ResourceRequirements.
Proof. solve_decision. Defined.

Record ContainerPort := { cp_name : string; cp_containerPort : Z; cp_protocol : string; cp_other : string }.
#[export] Instance ContainerPort_eq_dec : EqDecision ContainerPort.
Proof. solve_decision. Defined.

Record VolumeMount := {
  vm_name : string;
  vm_mountPath : string;
  vm_readOnly : bool;
  vm_recursiveReadOnly : option string;
  vm_other : string
}.
#[export] Instance VolumeMount_eq_dec : EqDecision VolumeMount.
Proof. solve_decision. Defined.

Record Volume := {
  vol_name : string;
  vol_configMap : option ConfigMapVolumeSource;
  vol_secret : option SecretVolumeSource;
  vol_emptyDir : option EmptyDirVolumeSource;
  vol_other : string
}.
#[export] Instance Volume_eq_dec : EqDecision Volume.
Proof. solve_decision. Defined.

Record Container := {
  ct_name : string;
  ct_image : string;
  ct_imagePullPolicy : string;
  ct_args : list string;
  ct_env : list EnvVar;
  ct_envFrom : list EnvFromSource;
  ct_ports : list ContainerPort;
  ct_securityContext : option SecurityContext;
  ct_resources : ResourceRequirements;
  ct_livenessProbe : option Probe;
  ct_readinessProbe : option Probe;
  ct_volumeMounts : list VolumeMount
}.
#[export] Instance Container_eq_dec : EqDecision Container.
Proof. solve_decision. Defined.

Record PodSpec := {
  ps_containers : list Container;
  ps_imagePullSecrets : list string;
  ps_volumes : list Volume;
  ps_serviceAccountName : string;
  ps_securityContext : option PodSecurityContext;
  ps_other : string
}.
#[export] Instance PodSpec_eq_dec : EqDecision PodSpec.
Proof. solve_decision. Defined.

Record PodTemplate := { pt_labels : gomap; pt_annotations : gomap; pt_spec : PodSpec }.
#[export] Instance PodTemplate_eq_dec : EqDecision PodTemplate.
Proof. solve_decision. Defined.

Record DeploymentCondition := { dc_type : string; dc_status : string; dc_message : string }.

Record Deployment := {
  dep_meta : ObjectMeta;
  dep_replicas : option Z;
  dep_selector : option LabelSelector;
  dep_template : PodTemplate;
  dep_observedGeneration : Z;
  dep_readyReplicas : Z;
  dep_conditions : list DeploymentCondition
}.

Record DaemonSet := {
  ds_meta : ObjectMeta;
  ds_selector : option LabelSelector;
  ds_observedGeneration : Z;
  ds_currentNumberScheduled : Z;
  ds_desiredNumberScheduled : Z;
  ds_numberReady : Z;
  ds_numberAvailable : Z;
  ds_numberUnavailable : Z
}.

Record StatefulSet := {
  sts_meta : ObjectMeta;
  sts_replicas : option Z;
  sts_selector : option LabelSelector;
  sts_observedGeneration : Z;
  sts_readyReplicas : Z;
  sts_availableReplicas : Z;
  sts_updatedReplicas : Z
}.

Record ServicePort := { sp_name : string; sp_port : Z; sp_targetPort : IntOrString; sp_protocol : string;
  sp_other : string }.
#[export] Instance ServicePort_eq_dec : EqDecision ServicePort.
Proof. solve_decision. Defined.

Record Service := {
  svc_meta : ObjectMeta;
  svc_type : string;
  svc_selector : gomap;
  svc_ports : list ServicePort;
  svc_sessionAffinity : string;
  svc_other : string
}.

Record IPBlock := { ipb_cidr : string; ipb_except : list string }.
#[export] Instance IPBlock_eq_dec : EqDecision IPBlock.
Proof. solve_decision. Defined.

Record NetworkPolicyPeer := {
  peer_podSelector : option LabelSelector;
  peer_namespaceSelector : option LabelSelector;
  peer_ipBlock : option IPBlock
}.
#[export] Instance NetworkPolicyPeer_eq_dec : EqDecision NetworkPolicyPeer.
Proof. solve_decision. Defined.

Record NetworkPolicyPort := {
  npp_protocol : option string;
  npp_port : option IntOrString;
  npp_endPort : option Z
}.
#[export] Instance NetworkPolicyPort_eq_dec : EqDecision NetworkPolicyPort.
Proof. solve_decision. Defined.

Record NetworkPolicyIngressRule := { ir_ports : list NetworkPolicyPort; ir_from : list NetworkPolicyPeer }.
#[export] Instance NetworkPolicyIngressRule_eq_dec : EqDecision NetworkPolicyIngressRule.
Proof. solve_decision. Defined.

Record NetworkPolicyEgressRule := { er_ports : list NetworkPolicyPort; er_to : list NetworkPolicyPeer }.
#[export] Instance NetworkPolicyEgressRule_eq_dec : EqDecision NetworkPolicyEgressRule.
Proof. solve_decision. Defined.

Record NetworkPolicySpec := {
  nps_podSelector : LabelSelector;
  nps_policyTypes : list string;
  nps_ingress : list NetworkPolicyIngressRule;
  nps_egress : list NetworkPolicyEgressRule
}.
#[export] Instance NetworkPolicySpec_eq_dec : EqDecision NetworkPolicySpec.
Proof. solve_decision. Defined.

Record NetworkPolicy := { np_meta : ObjectMeta; np_spec : NetworkPolicySpec }.

Record ConfigMap := { cm_meta : ObjectMeta; cm_data : gmap string string; cm_binaryData : gmap string string }.
Record Secret := { sec_meta : ObjectMeta; sec_data : gmap string string }.
Record Namespace := { ns_meta : ObjectMeta }.

Record ContainerStateWaiting := { w_reason : string; w_message : string }.
Record ContainerStateTerminated := { t_reason : string; t_exitCode : Z }.

Record ContainerStatus := {
  cs_name : string;
  cs_image : string;
  cs_restartCount : Z;
  cs_ready : bool;
  cs_waiting : option ContainerStateWaiting;
  cs_running : bool;
  cs_terminated : option ContainerStateTerminated;
  cs_lastTerminated : option ContainerStateTerminated
}.

Record Pod := {
  pod_meta : ObjectMeta;
  pod_initContainerStatuses : list ContainerStatus;
  pod_containerStatuses : list ContainerStatus;
  pod_other : string
}.

(** ** Functions of other packages the controller calls

    - [SetControllerReference apiVersion kind owner obj]: controller-runtime's
      [controllerutil.SetControllerReference] on the object metadata;
    - [OwnersAlias apiVersion kind owner obj]: what the slice of owner references taken
      from [obj] before that call reads after it (the slice shares its array with the
      object, which the call may write in place);
    - [LabelSelectorAsSelector]: apimachinery's, [None] when the selector parses;
    - [DeepDerivative]: [equality.Semantic.DeepDerivative] on pod specs;
    - [IsValidPortName], [IsDNS1123Label], [IsDNS1123Subdomain]: apimachinery's
      validation functions, returning the list of violations;
    - [ParseGroupVersion]: the group of an apiVersion string, [None] when malformed;
    - [AppendCertsFromPEM]: whether a PEM bundle holds a parseable certificate;
    - [SetStatusCondition conditions new now]: apimachinery's [meta.SetStatusCondition],
      with the time it reads as an argument. *)
Class Vendor := {
  SetControllerReference : string -> string -> ObjectMeta -> ObjectMeta -> result ObjectMeta;
  OwnersAlias : string -> string -> ObjectMeta -> ObjectMeta -> list OwnerReference;
  LabelSelectorAsSelector : LabelSelector -> option error;
  DeepDerivative : PodSpec -> PodSpec -> bool;
  IsValidPortName : string -> list string;
  IsDNS1123Label : string -> list string;
  IsDNS1123Subdomain : string -> list string;
  ParseGroupVersion : string -> option string;
  AppendCertsFromPEM : string -> bool;
  SetStatusCondition : list Condition -> Condition -> Z -> list Condition
}.

(** What the operator relies on: a successful [SetControllerReference] only
    changes the owner references, after which the owner is the controller; and
    [DeepDerivative] sees no difference between a value and itself, and compares the
    fields that its first argument sets, here the image of the first container.
    It fails on an object that another owner controls.
    Setting the controller again on an object with the references it left changes nothing, and a slice taken before reads
    either as it was or as the object's references are.  [SetStatusCondition] leaves one
    condition of the given type, with everything but the transition time as given, and
    no other type changed. *)
Class VendorLaws (V : Vendor) : Prop := {
  SetControllerReference_frame av k owner m m' :
    SetControllerReference av k owner m = Ok m' -> m' = with_owners (om_ownerReferences m') m;
  SetControllerReference_controller av k owner m m' :
    SetControllerReference av k owner m = Ok m' ->
    exists ref, GetControllerOf m' = Some ref /\ or_uid ref = om_uid owner /\
                or_name ref = om_name owner /\ or_kind ref = k;
  DeepDerivative_refl p : DeepDerivative p p = true;
  DeepDerivative_image p q c c' cs cs' :
    DeepDerivative p q = true -> ps_containers p = c :: cs -> ps_containers q = c' :: cs' ->
    ct_image c <> "" -> ct_image c' = ct_image c;
  SetControllerReference_again av k owner m m' m2 :
    SetControllerReference av k owner m = Ok m' ->
    om_ownerReferences m2 = om_ownerReferences m' -> om_namespace m2 = om_namespace m' ->
    SetControllerReference av k owner m2 = Ok m2;
  SetControllerReference_others av k owner m m' ref :
    SetControllerReference av k owner m = Ok m' -> GetControllerOf m = Some ref ->
    or_kind ref = k /\ or_name ref = om_name owner;
  OwnersAlias_old_or_new av k owner m m' :
    SetControllerReference av k owner m = Ok m' ->
    OwnersAlias av k owner m = om_ownerReferences m \/ OwnersAlias av k owner m = om_ownerReferences m';
  SetStatusCondition_set conds c now :
    exists c', FindStatusCondition (SetStatusCondition conds c now) (c_type c) = Some c' /\
      c_status c' = c_status c /\ c_reason c' = c_reason c /\ c_message c' = c_message c /\
      c_observedGeneration c' = c_observedGeneration c;
  SetStatusCondition_other conds c now t :
    t <> c_type c -> FindStatusCondition (SetStatusCondition conds c now) t = FindStatusCondition conds t
}.

(** A concrete [Vendor], for evaluating the model. *)
Definition sameOwner (k : string) (owner : ObjectMeta) (o : OwnerReference) : bool :=
  (or_kind o == k) && (or_name o == om_name owner).

Definition controllerRef (av k : string) (owner : ObjectMeta) : OwnerReference :=
  {| or_apiVersion := av; or_kind := k; or_name := om_name owner; or_uid := om_uid owner;
     or_controller := Some true; or_blockOwnerDeletion := Some true |}.

(** Overwrites the first reference to the owner, or appends one. *)
Fixpoint upsertOwnerRef (k : string) (owner : ObjectMeta) (ref : OwnerReference) (l : list OwnerReference) : list OwnerReference :=
  match l with
  | [] => [ref]
  | o :: l' => if sameOwner k owner o then ref :: l' else o :: upsertOwnerRef k owner ref l'
  end.

Definition setControllerReference (av k : string) (owner m : ObjectMeta) : result ObjectMeta :=
  let set := Ok (with_owners (upsertOwnerRef k owner (controllerRef av k owner) (om_ownerReferences m)) m) in
  match GetControllerOf m with
  | Some ref => if sameOwner k owner ref then set else Err (Errorf "already owned by another controller")
  | None => set
  end.

(** The first reference to the owner is overwritten in place, so a slice taken before sees it. *)
Definition ownersAlias (av k : string) (owner m : ObjectMeta) : list OwnerReference :=
  if existsb (sameOwner k owner) (om_ownerReferences m)
  then upsertOwnerRef k owner (controllerRef av k owner) (om_ownerReferences m)
  else om_ownerReferences m.

Fixpoint group_of (s : string) : option string :=
  match s with
  | EmptyString => None
  | String a s' =>
      if Ascii.eqb a "/"%char then Some ""
      else match group_of s' with Some g => Some (String a g) | None => None end
  end.

Definition with_transition (t : Z) (c : Condition) : Condition :=
  {| c_type := c_type c; c_status := c_status c; c_reason := c_reason c; c_message := c_message c;
     c_observedGeneration := c_observedGeneration c; c_lastTransitionTime := t |}.

Fixpoint setStatusCondition (conds : list Condition) (c : Condition) (now : Z) : list Condition :=
  match conds with
  | [] => [with_transition now c]
  | old :: rest =>
      if c_type old == c_type c
      then with_transition (if c_status old == c_status c then c_lastTransitionTime old else now) c :: rest
      else old :: setStatusCondition rest c now
  end.

Definition modelVendor : Vendor :=
  {| SetControllerReference := setControllerReference;
     OwnersAlias := ownersAlias;
     LabelSelectorAsSelector := fun _ => None;
     DeepDerivative := fun a b => a == b;
     IsValidPortName := fun s => if s == "" then ["must not be empty"] else [];
     IsDNS1123Label := fun s => if s == "" then ["must not be empty"] else [];
     IsDNS1123Subdomain := fun s => if s == "" then ["must not be empty"] else [];
     ParseGroupVersion := fun s => match group_of s with Some g => Some g | None => Some "" end;
     AppendCertsFromPEM := fun s => s != "";
     SetStatusCondition := setStatusCondition |}.

Lemma sameOwner_ref av k owner : sameOwner k owner (controllerRef av k owner) = true.
Proof. unfold sameOwner. cbn. by rewrite !bool_decide_eq_true_2. Qed.

(** The owner becomes the controller unless another object is. *)
Lemma upsert_controller av k owner l :
  match List.find is_controller l with Some ref => sameOwner k owner ref = true | None => True end ->
  List.find is_controller (upsertOwnerRef k owner (controllerRef av k owner) l) = Some (controllerRef av k owner).
Proof.
  induction l as [|o l IH]; [done|]. cbn. destruct (sameOwner k owner o) eqn:Es; [done|]. cbn.
  destruct (is_controller o); [congruence|done].
Qed.

Lemma upsert_again k owner ref l :
  sameOwner k owner ref = true -> upsertOwnerRef k owner ref (upsertOwnerRef k owner ref l) = upsertOwnerRef k owner ref l.
Proof.
  intros H. induction l as [|o l IH]; cbn; [by rewrite H|].
  destruct (sameOwner k owner o) eqn:E; cbn; [by rewrite H|]. by rewrite E, IH.
Qed.

Lemma setControllerReference_ok av k owner m m' :
  setControllerReference av k owner m = Ok m' ->
  m' = with_owners (upsertOwnerRef k owner (controllerRef av k owner) (om_ownerReferences m)) m /\
  GetControllerOf m' = Some (controllerRef av k owner).
Proof.
  unfold setControllerReference, GetControllerOf. intros H.
  pose proof (upsert_controller av k owner (om_ownerReferences m)) as Hc.
  destruct (List.find _ _) as [ref|]; [destruct (sameOwner k owner ref)|]; inversion H; subst; cbn; auto.
Qed.

Lemma setControllerReference_others av k owner m m' ref :
  setControllerReference av k owner m = Ok m' -> GetControllerOf m = Some ref -> or_kind ref = k /\ or_name ref = om_name owner.
Proof.
  unfold setControllerReference. intros H Hc. rewrite Hc in H. destruct (sameOwner k owner ref) eqn:E; [|done].
  unfold sameOwner in E. by bool_to_prop.
Qed.

Lemma setControllerReference_again av k owner m m' m2 :
  setControllerReference av k owner m = Ok m' ->
  om_ownerReferences m2 = om_ownerReferences m' -> om_namespace m2 = om_namespace m' ->
  setControllerReference av k owner m2 = Ok m2.
Proof.
  intros [-> H]%setControllerReference_ok Ho _. unfold setControllerReference, GetControllerOf in *.
  rewrite Ho, H, sameOwner_ref. cbn. rewrite upsert_again by apply sameOwner_ref. cbn in Ho. rewrite <- Ho.
  by destruct m2.
Qed.

Lemma ownersAlias_old_or_new av k owner m m' :
  setControllerReference av k owner m = Ok m' ->
  ownersAlias av k owner m = om_ownerReferences m \/ ownersAlias av k owner m = om_ownerReferences m'.
Proof. intros [-> _]%setControllerReference_ok. unfold ownersAlias. destruct (existsb _ _); auto. Qed.

Lemma setStatusCondition_set conds c now :
  exists c', FindStatusCondition (setStatusCondition conds c now) (c_type c) = Some c' /\
    c_status c' = c_status c /\ c_reason c' = c_reason c /\ c_message c' = c_message c /\
    c_observedGeneration c' = c_observedGeneration c.
Proof.
  unfold FindStatusCondition. induction conds as [|o l IH]; cbn; [|case_bool_decide; cbn].
  - rewrite bool_decide_eq_true_2 by done. by eexists.
  - rewrite bool_decide_eq_true_2 by done. by eexists.
  - by rewrite bool_decide_eq_false_2.
Qed.

Lemma setStatusCondition_other conds c now t :
  t <> c_type c -> FindStatusCondition (setStatusCondition conds c now) t = FindStatusCondition conds t.
Proof.
  intros Ht. unfold FindStatusCondition. induction conds as [|o l IH]; cbn; [|case_bool_decide as E; cbn].
  - by rewrite bool_decide_eq_false_2.
  - by rewrite !bool_decide_eq_false_2 by congruence.
  - by rewrite IH.
Qed.

Lemma modelVendor_laws : VendorLaws modelVendor.
Proof.
  split; [| | | |exact setControllerReference_again|exact setControllerReference_others|exact ownersAlias_old_or_new
          |exact setStatusCondition_set|exact setStatusCondition_other]; simpl.
  - by intros av k owner m m' [-> _]%setControllerReference_ok.
  - intros av k owner m m' [_ H]%setControllerReference_ok. by eexists.
  - intros p. by apply bool_decide_eq_true.
  - intros p q c c' cs cs' H Hp Hq _. apply bool_decide_eq_true in H. congruence.
Qed.
