(* ===== verification/GatewayApi.v ===== *)
(** * The objects of the gateway integrations

    The Gateway API types (sigs.k8s.io/gateway-api/apis/v1) with the fields the
    provider controllers read or write, and the Kuadrant types declared in
    internal/controller/providers/kuadrant/api/types.go.  As in K8s, fields that are
    only copied and compared are kept in serialized form in a field ending in
    [_other]. *)

From S2P Require Import Prelude K8s.

(** ** Gateway API *)

Definition GatewayGroupName : string := "gateway.networking.k8s.io".

Record ParentReference := {
  pref_group : option string;
  pref_kind : option string;
  pref_namespace : option string;
  pref_name : string;
  pref_sectionName : option string;
  pref_port : option Z
}.
#[export] Instance ParentReference_eq_dec : EqDecision ParentReference.
Proof. solve_decision. Defined.

Record HTTPPathMatch := { pm_type : option string; pm_value : option string }.
#[export] Instance HTTPPathMatch_eq_dec : EqDecision HTTPPathMatch.
Proof. solve_decision. Defined.

Record HTTPRouteMatch := { rm_path : option HTTPPathMatch; rm_other : string }.
#[export] Instance HTTPRouteMatch_eq_dec : EqDecision HTTPRouteMatch.
Proof. solve_decision. Defined.

Record HTTPBackendRef := {
  br_group : option string;
  br_kind : option string;
  br_name : string;
  br_namespace : option string;
  br_port : option Z;
  br_weight : option Z;
  br_other : string
}.
#[export] Instance HTTPBackendRef_eq_dec : EqDecision HTTPBackendRef.
Proof. solve_decision. Defined.

Record HTTPRouteRule := {
  rule_matches : list HTTPRouteMatch;
  rule_backendRefs : list HTTPBackendRef;
  rule_other : string
}.
#[export] Instance HTTPRouteRule_eq_dec : EqDecision HTTPRouteRule.
Proof. solve_decision. Defined.

Record HTTPRouteSpec := {
  hrs_parentRefs : list ParentReference;
  hrs_hostnames : list string;
  hrs_rules : list HTTPRouteRule;
  hrs_other : string
}.
#[export] Instance HTTPRouteSpec_eq_dec : EqDecision HTTPRouteSpec.
Proof. solve_decision. Defined.

Record RouteParentStatus := { rps_parentRef : ParentReference; rps_conditions : list Condition }.

Record HTTPRoute := {
  route_meta : ObjectMeta;
  route_spec : HTTPRouteSpec;
  route_parents : list RouteParentStatus
}.

Definition RouteConditionAccepted : string := "Accepted".
Definition RouteConditionResolvedRefs : string := "ResolvedRefs".
Definition PathMatchPathPrefix : string := "PathPrefix".

Definition HTTPSProtocolType : string := "HTTPS".
Definition TLSProtocolType : string := "TLS".

Record Listener := { lis_name : string; lis_hostname : option string; lis_protocol : string }.

Definition HostnameAddressType : string := "Hostname".
Definition IPAddressType : string := "IPAddress".

Record GatewayStatusAddress := { ga_type : option string; ga_value : string }.

Record Gateway := {
  gtw_meta : ObjectMeta;
  gtw_listeners : list Listener;
  gtw_addresses : list GatewayStatusAddress
}.

(** ** Kuadrant (kuadrant/api/types.go) *)

Definition KuadrantGroup : string := "mcp.kuadrant.io".
Definition KuadrantVersion : string := "v1".

Record TargetReference := {
  tr_group : string;
  tr_kind : string;
  tr_name : string;
  tr_namespace : string;
  tr_sectionName : string
}.
#[export] Instance TargetReference_eq_dec : EqDecision TargetReference.
Proof. solve_decision. Defined.

Record MCPServerRegistrationSpec := {
  reg_targetRef : TargetReference;
  reg_prefix : string;
  reg_path : string;
  reg_state : string
}.
#[export] Instance MCPServerRegistrationSpec_eq_dec : EqDecision MCPServerRegistrationSpec.
Proof. solve_decision. Defined.

Record MCPServerRegistrationStatus := { reg_conditions : list Condition }.

Record MCPServerRegistration := {
  reg_meta : ObjectMeta;
  reg_spec : MCPServerRegistrationSpec;
  reg_status : MCPServerRegistrationStatus
}.

Record MCPGatewayExtensionSpec := { ext_publicHost : string; ext_targetRef : TargetReference }.

Record MCPGatewayExtensionStatus := { ext_conditions : list Condition }.

Record MCPGatewayExtension := {
  ext_meta : ObjectMeta;
  ext_spec : MCPGatewayExtensionSpec;
  ext_status : MCPGatewayExtensionStatus
}.
