(* ===== verification/ApiBeta.v ===== *)
(** * The v1beta1 API types (api/v1beta1/mcpserver_types.go)

    One record per Go struct, one field per Go field.  Pointers are [option];
    string enumerations stay [string], because the controller's code handles
    values outside the enumeration. *)

From S2P Require Import Prelude K8s.

Definition WorkloadKindDeployment : string := "Deployment".
Definition WorkloadKindDaemonSet : string := "DaemonSet".
Definition WorkloadKindStatefulSet : string := "StatefulSet".

Record WorkloadReference := { wr_name : string; wr_kind : string }.
Record ServiceReference := { sr_name : string }.

Definition SourceTypeContainerImage : string := "ContainerImage".

Record ContainerImageSource := {
  ci_ref : string;
  ci_pullPolicy : string;
  ci_imagePullSecrets : list string
}.

Record Source := { src_type : string; src_containerImage : option ContainerImageSource }.

Definition StorageTypeConfigMap : string := "ConfigMap".
Definition StorageTypeSecret : string := "Secret".
Definition StorageTypeEmptyDir : string := "EmptyDir".

Definition MountPermissionsReadOnly : string := "ReadOnly".
Definition MountPermissionsReadWrite : string := "ReadWrite".
Definition MountPermissionsRecursiveReadOnly : string := "RecursiveReadOnly".

Record StorageSource := {
  ss_type : string;
  ss_configMap : option ConfigMapVolumeSource;
  ss_secret : option SecretVolumeSource;
  ss_emptyDir : option EmptyDirVolumeSource
}.

Record StorageMount := { sm_path : string; sm_permissions : string; sm_source : StorageSource }.

Record ServerConfig := {
  cfg_port : Z;
  cfg_arguments : list string;
  cfg_env : list EnvVar;
  cfg_envFrom : list EnvFromSource;
  cfg_storage : list StorageMount;
  cfg_path : string
}.

Record SecurityConfig := {
  sec_serviceAccountName : string;
  sec_podSecurityContext : option PodSecurityContext;
  sec_securityContext : option SecurityContext
}.

Record HealthConfig := { h_livenessProbe : option Probe; h_readinessProbe : option Probe }.

Record RuntimeConfig := {
  rt_replicas : option Z;
  rt_security : SecurityConfig;
  rt_resources : option ResourceRequirements;
  rt_health : HealthConfig
}.

Record NetworkConfig := {
  net_ingressFrom : list NetworkPolicyPeer;
  net_egressTo : list NetworkPolicyPeer;
  net_egressPorts : list NetworkPolicyPort;
  net_dnsEgressPeer : option NetworkPolicyPeer
}.

Record SecretReference := { secref_name : string }.

Record TLSClientConfig := {
  tls_enabled : bool;
  tls_caBundleSecret : option SecretReference;
  tls_insecureSkipVerify : bool
}.

Record TransportConfig := { tr_tls : option TLSClientConfig }.

Record MCPConfig := { mcp_stateless : option bool }.

Record GatewaySpec := { gw_provider : string; gw_configRef : string }.

Record MCPServerSpec := {
  spec_extraLabels : gomap;
  spec_extraAnnotations : gomap;
  spec_workloadRef : option WorkloadReference;
  spec_serviceRef : option ServiceReference;
  spec_source : Source;
  spec_config : ServerConfig;
  spec_runtime : RuntimeConfig;
  spec_mcp : MCPConfig;
  spec_network : option NetworkConfig;
  spec_transport : option TransportConfig;
  spec_gateway : option GatewaySpec
}.

Record MCPServerAddress := { addr_url : string }.

Record MCPServerCapabilities := {
  caps_tools : bool;
  caps_resources : bool;
  caps_prompts : bool;
  caps_logging : bool;
  caps_completions : bool
}.

Record MCPServerInfo := {
  info_name : string;
  info_version : string;
  info_protocolVersion : string;
  info_instructions : string;
  info_capabilities : option MCPServerCapabilities
}.

Record GatewayBindingStatus := { gbs_name : string; gbs_provider : string }.

Record MCPServerStatus := {
  st_observedGeneration : Z;
  st_deploymentName : string;
  st_serviceName : string;
  st_workloadName : string;
  st_workloadSummary : string;
  st_gatewayBinding : option GatewayBindingStatus;
  st_address : option MCPServerAddress;
  st_serverInfo : option MCPServerInfo;
  st_replicas : Z;
  st_readyReplicas : Z;
  st_conditions : list Condition
}.

Record MCPServer := { srv_meta : ObjectMeta; srv_spec : MCPServerSpec; srv_status : MCPServerStatus }.

(** api/v1beta1/groupversion_info.go *)
Definition GroupVersion_Group : string := "mcp.x-k8s.io".
Definition GroupVersion_Version : string := "v1beta1".
Definition MCPServerKind : string := "MCPServer".

#[export] Instance MCPServerCapabilities_eq_dec : EqDecision MCPServerCapabilities.
Proof. solve_decision. Defined.
#[export] Instance MCPServerInfo_eq_dec : EqDecision MCPServerInfo.
Proof. solve_decision. Defined.

(** Go's zero values, for building concrete objects. *)
Definition zeroSource : Source := {| src_type := ""; src_containerImage := None |}.
Definition zeroConfig : ServerConfig :=
  {| cfg_port := 0; cfg_arguments := []; cfg_env := []; cfg_envFrom := []; cfg_storage := []; cfg_path := "" |}.
Definition zeroSecurity : SecurityConfig :=
  {| sec_serviceAccountName := ""; sec_podSecurityContext := None; sec_securityContext := None |}.
Definition zeroRuntime : RuntimeConfig :=
  {| rt_replicas := None; rt_security := zeroSecurity; rt_resources := None;
     rt_health := {| h_livenessProbe := None; h_readinessProbe := None |} |}.
Definition zeroSpec : MCPServerSpec :=
  {| spec_extraLabels := None; spec_extraAnnotations := None; spec_workloadRef := None;
     spec_serviceRef := None; spec_source := zeroSource; spec_config := zeroConfig;
     spec_runtime := zeroRuntime; spec_mcp := {| mcp_stateless := None |};
     spec_network := None; spec_transport := None; spec_gateway := None |}.
Definition zeroStatus : MCPServerStatus :=
  {| st_observedGeneration := 0; st_deploymentName := ""; st_serviceName := ""; st_workloadName := "";
     st_workloadSummary := ""; st_gatewayBinding := None; st_address := None; st_serverInfo := None;
     st_replicas := 0; st_readyReplicas := 0; st_conditions := [] |}.
