(* ===== verification/ApiAlpha.v ===== *)
(** * The v1alpha1 API types (api/v1alpha1)

    Same conventions as the v1beta1 file; field names carry an [a] prefix. *)

From S2P Require Import Prelude K8s.

Record ContainerImageSource := {
  aci_ref : string;
  aci_pullPolicy : string;
  aci_imagePullSecrets : list string
}.

Record Source := { asrc_type : string; asrc_containerImage : option ContainerImageSource }.

Record StorageSource := {
  ass_type : string;
  ass_configMap : option ConfigMapVolumeSource;
  ass_secret : option SecretVolumeSource;
  ass_emptyDir : option EmptyDirVolumeSource
}.

Record StorageMount := { asm_path : string; asm_permissions : string; asm_source : StorageSource }.

Record ServerConfig := {
  acfg_port : Z;
  acfg_arguments : list string;
  acfg_env : list EnvVar;
  acfg_envFrom : list EnvFromSource;
  acfg_storage : list StorageMount;
  acfg_path : string
}.

Record SecurityConfig := {
  asec_serviceAccountName : string;
  asec_podSecurityContext : option PodSecurityContext;
  asec_securityContext : option SecurityContext
}.

Record HealthConfig := { ah_livenessProbe : option Probe; ah_readinessProbe : option Probe }.

Record RuntimeConfig := {
  art_replicas : option Z;
  art_security : SecurityConfig;
  art_resources : option ResourceRequirements;
  art_health : HealthConfig
}.

Record NetworkConfig := {
  anet_ingressFrom : list NetworkPolicyPeer;
  anet_egressTo : list NetworkPolicyPeer;
  anet_egressPorts : list NetworkPolicyPort;
  anet_dnsEgressPeer : option NetworkPolicyPeer
}.

Record SecretReference := { asecref_name : string }.

Record TLSClientConfig := {
  atls_enabled : bool;
  atls_caBundleSecret : option SecretReference;
  atls_insecureSkipVerify : bool
}.

Record TransportConfig := { atr_tls : option TLSClientConfig }.

Record MCPConfig := { amcp_stateless : option bool }.

Record MCPServerSpec := {
  aspec_extraLabels : gomap;
  aspec_extraAnnotations : gomap;
  aspec_source : Source;
  aspec_config : ServerConfig;
  aspec_runtime : RuntimeConfig;
  aspec_mcp : MCPConfig;
  aspec_network : option NetworkConfig;
  aspec_transport : option TransportConfig
}.

Record MCPServerAddress := { aaddr_url : string }.

Record MCPServerCapabilities := {
  acaps_tools : bool;
  acaps_resources : bool;
  acaps_prompts : bool;
  acaps_logging : bool;
  acaps_completions : bool
}.

Record MCPServerInfo := {
  ainfo_name : string;
  ainfo_version : string;
  ainfo_protocolVersion : string;
  ainfo_instructions : string;
  ainfo_capabilities : option MCPServerCapabilities
}.

Record MCPServerStatus := {
  ast_observedGeneration : Z;
  ast_deploymentName : string;
  ast_serviceName : string;
  ast_address : option MCPServerAddress;
  ast_serverInfo : option MCPServerInfo;
  ast_handshakeRetryCount : Z;
  ast_replicas : Z;
  ast_readyReplicas : Z;
  ast_conditions : list Condition
}.

Record MCPServer := { asrv_meta : ObjectMeta; asrv_spec : MCPServerSpec; asrv_status : MCPServerStatus }.

Definition GroupVersion_Group : string := "mcp.x-k8s.io".
Definition GroupVersion_Version : string := "v1alpha1".
Definition MCPServerKind : string := "MCPServer".

(** api/v1alpha1/mcpgatewaybinding_types.go *)

Record MCPGatewayBindingSpec := {
  mgb_mcpServerRef : string;
  mgb_provider : string;
  mgb_configRef : string
}.
#[export] Instance MCPGatewayBindingSpec_eq_dec : EqDecision MCPGatewayBindingSpec.
Proof. solve_decision. Defined.

Record MCPGatewayBindingStatus := { mgb_url : string; mgb_conditions : list Condition }.

Record MCPGatewayBinding := {
  mgb_meta : ObjectMeta;
  mgb_spec : MCPGatewayBindingSpec;
  mgb_status : MCPGatewayBindingStatus
}.
