(* ===== verification/Conversion.v ===== *)
(** * Conversion between v1alpha1 and the hub v1beta1
    (api/v1alpha1/mcpserver_conversion.go)

    One definition per Go function.  The theorems: an object written through
    v1alpha1 and read back through v1alpha1 is unchanged up to the deprecated
    retry counter and the position of the Ready condition; the v1beta1-only
    references do not survive a pass through v1alpha1; the split of Ready into
    Available and Verified is inverted by the merge. *)

From S2P Require Import Prelude K8s ApiBeta ApiAlpha.

(** ** Spec and status fields *)

Definition convertSourceTo (i : ApiAlpha.Source) : ApiBeta.Source :=
  {| src_type := asrc_type i;
     src_containerImage := option_map (fun c =>
       {| ci_ref := aci_ref c; ci_pullPolicy := aci_pullPolicy c;
          ci_imagePullSecrets := aci_imagePullSecrets c |}) (asrc_containerImage i) |}.

Definition convertSourceFrom (i : ApiBeta.Source) : ApiAlpha.Source :=
  {| asrc_type := src_type i;
     asrc_containerImage := option_map (fun c =>
       {| aci_ref := ci_ref c; aci_pullPolicy := ci_pullPolicy c;
          aci_imagePullSecrets := ci_imagePullSecrets c |}) (src_containerImage i) |}.

Definition convertStorageMountTo (i : ApiAlpha.StorageMount) : ApiBeta.StorageMount :=
  {| sm_path := asm_path i; sm_permissions := asm_permissions i;
     sm_source := {| ss_type := ass_type (asm_source i); ss_configMap := ass_configMap (asm_source i);
                     ss_secret := ass_secret (asm_source i); ss_emptyDir := ass_emptyDir (asm_source i) |} |}.

Definition convertStorageMountFrom (i : ApiBeta.StorageMount) : ApiAlpha.StorageMount :=
  {| asm_path := sm_path i; asm_permissions := sm_permissions i;
     asm_source := {| ass_type := ss_type (sm_source i); ass_configMap := ss_configMap (sm_source i);
                      ass_secret := ss_secret (sm_source i); ass_emptyDir := ss_emptyDir (sm_source i) |} |}.

Definition convertServerConfigTo (i : ApiAlpha.ServerConfig) : ApiBeta.ServerConfig :=
  {| cfg_port := acfg_port i; cfg_arguments := acfg_arguments i; cfg_env := acfg_env i;
     cfg_envFrom := acfg_envFrom i;
     cfg_storage := fold_left (fun out s => out ++ [convertStorageMountTo s]) (acfg_storage i) [];
     cfg_path := acfg_path i |}.

Definition convertServerConfigFrom (i : ApiBeta.ServerConfig) : ApiAlpha.ServerConfig :=
  {| acfg_port := cfg_port i; acfg_arguments := cfg_arguments i; acfg_env := cfg_env i;
     acfg_envFrom := cfg_envFrom i;
     acfg_storage := fold_left (fun out s => out ++ [convertStorageMountFrom s]) (cfg_storage i) [];
     acfg_path := cfg_path i |}.

Definition convertSecurityConfigTo (i : ApiAlpha.SecurityConfig) : ApiBeta.SecurityConfig :=
  {| sec_serviceAccountName := asec_serviceAccountName i;
     sec_podSecurityContext := asec_podSecurityContext i;
     sec_securityContext := asec_securityContext i |}.

Definition convertSecurityConfigFrom (i : ApiBeta.SecurityConfig) : ApiAlpha.SecurityConfig :=
  {| asec_serviceAccountName := sec_serviceAccountName i;
     asec_podSecurityContext := sec_podSecurityContext i;
     asec_securityContext := sec_securityContext i |}.

Definition convertHealthConfigTo (i : ApiAlpha.HealthConfig) : ApiBeta.HealthConfig :=
  {| h_livenessProbe := ah_livenessProbe i; h_readinessProbe := ah_readinessProbe i |}.

Definition convertHealthConfigFrom (i : ApiBeta.HealthConfig) : ApiAlpha.HealthConfig :=
  {| ah_livenessProbe := h_livenessProbe i; ah_readinessProbe := h_readinessProbe i |}.

Definition convertRuntimeConfigTo (i : ApiAlpha.RuntimeConfig) : ApiBeta.RuntimeConfig :=
  {| rt_replicas := art_replicas i; rt_security := convertSecurityConfigTo (art_security i);
     rt_resources := art_resources i; rt_health := convertHealthConfigTo (art_health i) |}.

Definition convertRuntimeConfigFrom (i : ApiBeta.RuntimeConfig) : ApiAlpha.RuntimeConfig :=
  {| art_replicas := rt_replicas i; art_security := convertSecurityConfigFrom (rt_security i);
     art_resources := rt_resources i; art_health := convertHealthConfigFrom (rt_health i) |}.

Definition convertMCPConfigTo (i : ApiAlpha.MCPConfig) : ApiBeta.MCPConfig :=
  {| mcp_stateless := amcp_stateless i |}.

Definition convertMCPConfigFrom (i : ApiBeta.MCPConfig) : ApiAlpha.MCPConfig :=
  {| amcp_stateless := mcp_stateless i |}.

Definition convertNetworkConfigTo (i : option ApiAlpha.NetworkConfig) : option ApiBeta.NetworkConfig :=
  match i with
  | None => None
  | Some i => Some {| net_ingressFrom := anet_ingressFrom i; net_egressTo := anet_egressTo i;
                      net_egressPorts := anet_egressPorts i; net_dnsEgressPeer := anet_dnsEgressPeer i |}
  end.

Definition convertNetworkConfigFrom (i : option ApiBeta.NetworkConfig) : option ApiAlpha.NetworkConfig :=
  match i with
  | None => None
  | Some i => Some {| anet_ingressFrom := net_ingressFrom i; anet_egressTo := net_egressTo i;
                      anet_egressPorts := net_egressPorts i; anet_dnsEgressPeer := net_dnsEgressPeer i |}
  end.

Definition convertTransportConfigTo (i : option ApiAlpha.TransportConfig) : option ApiBeta.TransportConfig :=
  match i with
  | None => None
  | Some i => Some {| tr_tls :=
      match atr_tls i with
      | None => None
      | Some t => Some {| tls_enabled := atls_enabled t;
                          tls_caBundleSecret := match atls_caBundleSecret t with
                                                | None => None
                                                | Some r => Some {| secref_name := asecref_name r |}
                                                end;
                          tls_insecureSkipVerify := atls_insecureSkipVerify t |}
      end |}
  end.

Definition convertTransportConfigFrom (i : option ApiBeta.TransportConfig) : option ApiAlpha.TransportConfig :=
  match i with
  | None => None
  | Some i => Some {| atr_tls :=
      match tr_tls i with
      | None => None
      | Some t => Some {| atls_enabled := tls_enabled t;
                          atls_caBundleSecret := match tls_caBundleSecret t with
                                                 | None => None
                                                 | Some r => Some {| asecref_name := secref_name r |}
                                                 end;
                          atls_insecureSkipVerify := tls_insecureSkipVerify t |}
      end |}
  end.

Definition convertAddressTo (i : option ApiAlpha.MCPServerAddress) : option ApiBeta.MCPServerAddress :=
  match i with None => None | Some a => Some {| addr_url := aaddr_url a |} end.

Definition convertAddressFrom (i : option ApiBeta.MCPServerAddress) : option ApiAlpha.MCPServerAddress :=
  match i with None => None | Some a => Some {| aaddr_url := addr_url a |} end.

Definition convertServerInfoTo (i : option ApiAlpha.MCPServerInfo) : option ApiBeta.MCPServerInfo :=
  match i with
  | None => None
  | Some i => Some
      {| info_name := ainfo_name i; info_version := ainfo_version i;
         info_protocolVersion := ainfo_protocolVersion i; info_instructions := ainfo_instructions i;
         info_capabilities := match ainfo_capabilities i with
           | None => None
           | Some c => Some {| caps_tools := acaps_tools c; caps_resources := acaps_resources c;
                               caps_prompts := acaps_prompts c; caps_logging := acaps_logging c;
                               caps_completions := acaps_completions c |}
           end |}
  end.

Definition convertServerInfoFrom (i : option ApiBeta.MCPServerInfo) : option ApiAlpha.MCPServerInfo :=
  match i with
  | None => None
  | Some i => Some
      {| ainfo_name := info_name i; ainfo_version := info_version i;
         ainfo_protocolVersion := info_protocolVersion i; ainfo_instructions := info_instructions i;
         ainfo_capabilities := match info_capabilities i with
           | None => None
           | Some c => Some {| acaps_tools := caps_tools c; acaps_resources := caps_resources c;
                               acaps_prompts := caps_prompts c; acaps_logging := caps_logging c;
                               acaps_completions := caps_completions c |}
           end |}
  end.

(** ** Conditions *)

Definition conditionTypeAvailable : string := "Available".
Definition conditionTypeVerified : string := "Verified".
Definition conditionTypeReady : string := "Ready".
Definition conditionTypeAccepted : string := "Accepted".

Definition handshakeReasons (reason : string) : bool := reason == "MCPEndpointUnavailable".

Definition splitReadyToAvailableAndVerified (ready : Condition) : list Condition :=
  let mk t s r m := {| c_type := t; c_status := s; c_reason := r; c_message := m;
                       c_observedGeneration := c_observedGeneration ready;
                       c_lastTransitionTime := c_lastTransitionTime ready |} in
  if handshakeReasons (c_reason ready) then
    [ mk conditionTypeAvailable ConditionTrue conditionTypeAvailable "Workload is running";
      mk conditionTypeVerified (c_status ready) "EndpointUnavailable" (c_message ready) ]
  else if (c_status ready == ConditionTrue) && (c_reason ready == conditionTypeAvailable) then
    [ mk conditionTypeAvailable ConditionTrue conditionTypeAvailable (c_message ready);
      mk conditionTypeVerified ConditionTrue "Verified" "MCP handshake succeeded" ]
  else
    [ mk conditionTypeAvailable (c_status ready) (c_reason ready) (c_message ready);
      mk conditionTypeVerified ConditionUnknown "NotVerified" "Handshake has not been attempted" ].

Definition convertConditionsTo (conditions : list Condition) : list Condition :=
  fold_left (fun out c =>
    if c_type c == conditionTypeAccepted then out ++ [c]
    else if c_type c == conditionTypeReady then out ++ splitReadyToAvailableAndVerified c
    else out ++ [c]) conditions [].

(** [verified] is only dereferenced in the last branch when [available] is nil;
    the caller never passes two nils, for which Go would panic ([None]). *)
Definition mergeAvailableAndVerifiedToReady (available verified : option Condition) : option Condition :=
  let mk s r m src := {| c_type := conditionTypeReady; c_status := s; c_reason := r; c_message := m;
                         c_observedGeneration := c_observedGeneration src;
                         c_lastTransitionTime := c_lastTransitionTime src |} in
  match available, verified with
  | Some a, _ =>
      if c_status a != ConditionTrue then Some (mk (c_status a) (c_reason a) (c_message a) a)
      else match verified with
           | Some v =>
               if c_status v == ConditionFalse then Some (mk ConditionFalse "MCPEndpointUnavailable" (c_message v) v)
               else if c_status v == ConditionTrue then Some (mk ConditionTrue conditionTypeAvailable (c_message a) a)
               else Some (mk ConditionTrue (c_reason a) (c_message a) a)
           | None => Some (mk ConditionTrue (c_reason a) (c_message a) a)
           end
  | None, Some v =>
      if c_status v == ConditionFalse then Some (mk ConditionFalse "MCPEndpointUnavailable" (c_message v) v)
      else if c_status v == ConditionTrue then Some (mk ConditionTrue conditionTypeAvailable (c_message v) v)
      else Some (mk ConditionUnknown
                    (if c_reason v == "" then "NotVerified" else c_reason v)
                    (if c_message v == "" then "Workload availability unknown" else c_message v) v)
  | None, None => None
  end.

Definition convertConditionsFrom (conditions : list Condition) : list Condition :=
  let available := FindStatusCondition conditions conditionTypeAvailable in
  let verified := FindStatusCondition conditions conditionTypeVerified in
  let out := fold_left (fun out c =>
    if (c_type c == conditionTypeAvailable) || (c_type c == conditionTypeVerified) then out
    else out ++ [c]) conditions [] in
  match available, verified with
  | None, None => out
  | _, _ => out ++ option_list (mergeAvailableAndVerifiedToReady available verified)
  end.

(** ** The two entry points.  The destination object is freshly decoded, so the
    fields a conversion does not assign keep their zero value. *)

Definition ConvertTo (src : ApiAlpha.MCPServer) : ApiBeta.MCPServer :=
  {| srv_meta := asrv_meta src;
     srv_spec :=
       let s := asrv_spec src in
       {| spec_extraLabels := aspec_extraLabels s; spec_extraAnnotations := aspec_extraAnnotations s;
          spec_workloadRef := None; spec_serviceRef := None;
          spec_source := convertSourceTo (aspec_source s); spec_config := convertServerConfigTo (aspec_config s);
          spec_runtime := convertRuntimeConfigTo (aspec_runtime s); spec_mcp := convertMCPConfigTo (aspec_mcp s);
          spec_network := convertNetworkConfigTo (aspec_network s);
          spec_transport := convertTransportConfigTo (aspec_transport s); spec_gateway := None |};
     srv_status :=
       let s := asrv_status src in
       {| st_observedGeneration := ast_observedGeneration s; st_deploymentName := ast_deploymentName s;
          st_serviceName := ast_serviceName s; st_workloadName := ""; st_workloadSummary := "";
          st_gatewayBinding := None; st_address := convertAddressTo (ast_address s);
          st_serverInfo := convertServerInfoTo (ast_serverInfo s);
          st_replicas := ast_replicas s; st_readyReplicas := ast_readyReplicas s;
          st_conditions := convertConditionsTo (ast_conditions s) |} |}.

Definition ConvertFrom (src : ApiBeta.MCPServer) : ApiAlpha.MCPServer :=
  {| asrv_meta := srv_meta src;
     asrv_spec :=
       let s := srv_spec src in
       {| aspec_extraLabels := spec_extraLabels s; aspec_extraAnnotations := spec_extraAnnotations s;
          aspec_source := convertSourceFrom (spec_source s); aspec_config := convertServerConfigFrom (spec_config s);
          aspec_runtime := convertRuntimeConfigFrom (spec_runtime s); aspec_mcp := convertMCPConfigFrom (spec_mcp s);
          aspec_network := convertNetworkConfigFrom (spec_network s);
          aspec_transport := convertTransportConfigFrom (spec_transport s) |};
     asrv_status :=
       let s := srv_status src in
       {| ast_observedGeneration := st_observedGeneration s; ast_deploymentName := st_deploymentName s;
          ast_serviceName := st_serviceName s; ast_address := convertAddressFrom (st_address s);
          ast_serverInfo := convertServerInfoFrom (st_serverInfo s); ast_handshakeRetryCount := 0;
          ast_replicas := st_replicas s; ast_readyReplicas := st_readyReplicas s;
          ast_conditions := convertConditionsFrom (st_conditions s) |} |}.

(** ** Supporting lemmas *)

Lemma fold_left_snoc {A B} (f : A -> B) l acc :
  fold_left (fun out s => out ++ [f s]) l acc = acc ++ map f l.
Proof.
  revert acc. induction l as [|x l IH]; intros acc; simpl; [by rewrite app_nil_r|].
  by rewrite IH, <- app_assoc.
Qed.

Lemma storage_roundtrip l : map convertStorageMountFrom (map convertStorageMountTo l) = l.
Proof.
  induction l as [|[p q [? ? ? ?]] l IH]; simpl; [done|]. by rewrite IH.
Qed.

Lemma convertServerConfig_roundtrip c : convertServerConfigFrom (convertServerConfigTo c) = c.
Proof.
  destruct c. unfold convertServerConfigFrom, convertServerConfigTo; simpl.
  rewrite (fold_left_snoc convertStorageMountTo), (fold_left_snoc convertStorageMountFrom). simpl.
  by rewrite storage_roundtrip.
Qed.

Lemma convertSource_roundtrip s : convertSourceFrom (convertSourceTo s) = s.
Proof. by destruct s as [? [[]|]]. Qed.

Lemma convertRuntime_roundtrip c : convertRuntimeConfigFrom (convertRuntimeConfigTo c) = c.
Proof. by destruct c as [? [] ? []]. Qed.

Lemma convertTransport_roundtrip c : convertTransportConfigFrom (convertTransportConfigTo c) = c.
Proof. by destruct c as [[[[? [[]|] ?]|]]|]. Qed.

Lemma convertServerInfo_roundtrip i : convertServerInfoFrom (convertServerInfoTo i) = i.
Proof. by destruct i as [[? ? ? ? [[]|]]|]. Qed.

Definition is_ready (c : Condition) : bool := c_type c == conditionTypeReady.
Definition is_split (c : Condition) : bool :=
  (c_type c == conditionTypeAvailable) || (c_type c == conditionTypeVerified).
Definition split_condition (c : Condition) : list Condition :=
  if is_ready c then splitReadyToAvailableAndVerified c else [c].

Lemma convertConditionsTo_flat_map l : convertConditionsTo l = flat_map split_condition l.
Proof.
  unfold convertConditionsTo.
  enough (H : forall acc, fold_left (fun out c =>
    if c_type c == conditionTypeAccepted then out ++ [c]
    else if c_type c == conditionTypeReady then out ++ splitReadyToAvailableAndVerified c
    else out ++ [c]) l acc = acc ++ flat_map split_condition l) by apply H.
  induction l as [|c l IH]; intros acc; simpl; [by rewrite app_nil_r|].
  rewrite IH. unfold split_condition, is_ready.
  case_bool_decide as H1.
  - case_bool_decide as H2; [rewrite H1 in H2; discriminate|]. by rewrite <- app_assoc.
  - case_bool_decide; by rewrite <- app_assoc.
Qed.

Lemma convertConditionsFrom_filter l :
  convertConditionsFrom l =
  List.filter (fun c => negb (is_split c)) l ++
  option_list (mergeAvailableAndVerifiedToReady
    (FindStatusCondition l conditionTypeAvailable) (FindStatusCondition l conditionTypeVerified)).
Proof.
  unfold convertConditionsFrom.
  assert (H : forall acc, fold_left (fun out c => if is_split c then out else out ++ [c]) l acc
              = acc ++ List.filter (fun c => negb (is_split c)) l).
  { induction l as [|c l IH]; intros acc; simpl; [by rewrite app_nil_r|].
    rewrite IH. destruct (is_split c); simpl; [done|]. by rewrite <- app_assoc. }
  specialize (H []). unfold is_split at 1 in H. simpl in H. rewrite H.
  destruct (FindStatusCondition l _), (FindStatusCondition l conditionTypeVerified); simpl; try done.
  by rewrite app_nil_r.
Qed.

(** A v1alpha1 condition list: none of the hub's condition types, and one Ready at most (the
    list is a map by type). *)
Definition wf_alpha_conditions (l : list Condition) : Prop :=
  Forall (fun c => is_split c = false) l /\
  (List.length (List.filter is_ready l) <= 1)%nat.

(** What a Ready condition comes back as: a handshake-failure reason with a status other than
    False, which the v1alpha1 controller never wrote, is read as a running workload; every
    other condition is what it was. *)
Definition readBack (c : Condition) : Condition :=
  if handshakeReasons (c_reason c) && (c_status c != ConditionFalse) then
    {| c_type := conditionTypeReady; c_status := ConditionTrue; c_reason := conditionTypeAvailable;
       c_message := "Workload is running"; c_observedGeneration := c_observedGeneration c;
       c_lastTransitionTime := c_lastTransitionTime c |}
  else c.

(** The merge undoes the split. *)
Lemma merge_split c :
  is_ready c = true ->
  exists a v, splitReadyToAvailableAndVerified c = [a; v] /\
    c_type a = conditionTypeAvailable /\ c_type v = conditionTypeVerified /\
    mergeAvailableAndVerifiedToReady (Some a) (Some v) = Some (readBack c).
Proof.
  destruct c as [t s r m g time]. unfold is_ready, splitReadyToAvailableAndVerified, readBack, handshakeReasons; simpl.
  intros Ht. bool_to_prop. subst t.
  case_bool_decide as Hr.
  - eexists _, _. split_and!; [done..|]. subst r. simpl. case_bool_decide as Hs; simpl; [by subst s|]. by split_ifs.
  - case_bool_decide as Hst; simpl; [subst s; case_bool_decide as Hav; simpl|].
    + subst r. by eexists _, _.
    + by eexists _, _.
    + eexists _, _. split_and!; [done..|]. simpl. by rewrite bool_decide_eq_false_2.
Qed.

Lemma no_split_find l t :
  t = conditionTypeAvailable \/ t = conditionTypeVerified ->
  Forall (fun c => is_split c = false) l -> FindStatusCondition l t = None.
Proof.
  intros Ht Hl. apply FindStatusCondition_None. eapply Forall_impl; [exact Hl|].
  unfold is_split. intros c Hc Heq. apply orb_false_iff in Hc as [H1 H2]. bool_to_prop.
  destruct Ht as [->| ->]; congruence.
Qed.

Lemma filter_split_not_ready l :
  Forall (fun c => is_split c = false) l ->
  List.filter (fun c => negb (is_split c)) (flat_map split_condition l) =
  List.filter (fun c => negb (is_ready c)) l.
Proof.
  induction 1 as [|c l Hc Hl IH]; simpl; [done|].
  rewrite List.filter_app, IH. unfold split_condition. destruct (is_ready c) eqn:Hr.
  - unfold splitReadyToAvailableAndVerified. by split_ifs.
  - simpl. by rewrite Hc.
Qed.

Lemma flat_map_not_ready l :
  List.filter is_ready l = [] -> flat_map split_condition l = l.
Proof.
  induction l as [|c l IH]; simpl; [done|]. unfold split_condition at 1.
  destruct (is_ready c); [discriminate|]. intros H. by rewrite IH.
Qed.

Lemma split_ready_list l c :
  List.filter is_ready l = [c] ->
  exists l1 l2, l = l1 ++ c :: l2 /\ List.filter is_ready l1 = [] /\ List.filter is_ready l2 = [] /\ is_ready c = true.
Proof.
  induction l as [|x l IH]; simpl; [discriminate|]. destruct (is_ready x) eqn:Hx.
  - intros [= -> H]. exists [], l. auto.
  - intros H. destruct (IH H) as (l1 & l2 & -> & H1 & H2 & H3). exists (x :: l1), l2. simpl. by rewrite Hx.
Qed.

(** Conditions written through v1alpha1 and read back: the same conditions, Ready moved last
    and read back. *)
Lemma conditions_roundtrip l :
  wf_alpha_conditions l ->
  convertConditionsFrom (convertConditionsTo l) =
  List.filter (fun c => negb (is_ready c)) l ++ map readBack (List.filter is_ready l).
Proof.
  intros (Hs & Hn). rewrite convertConditionsTo_flat_map, convertConditionsFrom_filter.
  rewrite filter_split_not_ready by done. f_equal.
  destruct (List.filter is_ready l) as [|c [|]] eqn:Hf; [| |simpl in Hn; lia].
  - rewrite flat_map_not_ready by done. rewrite !no_split_find by auto. done.
  - destruct (split_ready_list _ _ Hf) as (l1 & l2 & -> & H1 & H2 & Hc).
    apply Forall_app in Hs as [Hs1 Hs2]. inversion Hs2 as [|? ? _ Hs2']; subst.
    destruct (merge_split c Hc) as (a & v & Hsp & Ha & Hv & Hm).
    rewrite flat_map_app, (flat_map_not_ready l1), !FindStatusCondition_app, !(no_split_find l1) by auto.
    assert (E : flat_map split_condition (c :: l2) = a :: v :: l2).
    { simpl. unfold split_condition at 1. by rewrite Hc, Hsp, flat_map_not_ready. }
    rewrite E. unfold FindStatusCondition. cbn [List.find]. rewrite Ha, Hv.
    change (option_list (mergeAvailableAndVerifiedToReady (Some a) (Some v)) = [readBack c]). by rewrite Hm.
Qed.

(** ** Properties *)

Definition with_conditions (a : ApiAlpha.MCPServer) (l : list Condition) : ApiAlpha.MCPServer :=
  {| asrv_meta := asrv_meta a; asrv_spec := asrv_spec a;
     asrv_status := let s := asrv_status a in
       {| ast_observedGeneration := ast_observedGeneration s; ast_deploymentName := ast_deploymentName s;
          ast_serviceName := ast_serviceName s; ast_address := ast_address s; ast_serverInfo := ast_serverInfo s;
          ast_handshakeRetryCount := 0; ast_replicas := ast_replicas s; ast_readyReplicas := ast_readyReplicas s;
          ast_conditions := l |} |}.

(** C40: Round trip through the hub of a v1alpha1 object whose conditions are of none of the
    hub's own types (Available, Verified) and include one Ready at most: metadata, spec,
    address, server info and replica counts are unchanged, the deprecated retry counter is
    reset, and every condition survives as it is, with Ready placed last.  The only exception:
    a Ready condition with reason MCPEndpointUnavailable and a status other than False comes
    back as Ready=True with reason Available. *)
Theorem alpha_roundtrip (a : ApiAlpha.MCPServer) :
  wf_alpha_conditions (ast_conditions (asrv_status a)) ->
  ConvertFrom (ConvertTo a) =
  with_conditions a
    (List.filter (fun c => negb (is_ready c)) (ast_conditions (asrv_status a))
     ++ map readBack (List.filter is_ready (ast_conditions (asrv_status a)))).
Proof.
  intros Hwf. destruct a as [m [] []]. unfold ConvertFrom, ConvertTo, with_conditions; simpl in *.
  rewrite convertServerConfig_roundtrip, convertSource_roundtrip, convertRuntime_roundtrip,
    convertTransport_roundtrip, convertServerInfo_roundtrip, conditions_roundtrip by done.
  f_equal; f_equal; by repeat match goal with
    | o : option _ |- _ => destruct o as [[]|]
    | c : MCPConfig |- _ => destruct c
    end.
Qed.


Definition witness_alpha : ApiAlpha.MCPServer :=
  let c t s r m := {| c_type := t; c_status := s; c_reason := r; c_message := m;
                      c_observedGeneration := 3; c_lastTransitionTime := 7 |} in
  {| asrv_meta := newMeta "srv" "team" None;
     asrv_spec :=
       {| aspec_extraLabels := None; aspec_extraAnnotations := None;
          aspec_source := {| asrc_type := "ContainerImage"; asrc_containerImage := None |};
          aspec_config := {| acfg_port := 8080; acfg_arguments := []; acfg_env := []; acfg_envFrom := [];
                             acfg_storage := []; acfg_path := "/mcp" |};
          aspec_runtime := {| art_replicas := None;
                              art_security := {| asec_serviceAccountName := ""; asec_podSecurityContext := None;
                                                 asec_securityContext := None |};
                              art_resources := None;
                              art_health := {| ah_livenessProbe := None; ah_readinessProbe := None |} |};
          aspec_mcp := {| amcp_stateless := None |}; aspec_network := None; aspec_transport := None |};
     asrv_status :=
       {| ast_observedGeneration := 3; ast_deploymentName := "srv"; ast_serviceName := "srv";
          ast_address := None; ast_serverInfo := None; ast_handshakeRetryCount := 4;
          ast_replicas := 1; ast_readyReplicas := 1;
          ast_conditions := [c "Ready" "False" "MCPEndpointUnavailable" "refused"; c "Accepted" "True" "Valid" "ok"] |} |}.

Lemma alpha_roundtrip_witness :
  wf_alpha_conditions (ast_conditions (asrv_status witness_alpha)) /\
  map (fun c => (c_type c, c_status c)) (ast_conditions (asrv_status (ConvertFrom (ConvertTo witness_alpha)))) =
    [("Accepted", ConditionTrue); ("Ready", ConditionFalse)].
Proof.
  assert (H : wf_alpha_conditions (ast_conditions (asrv_status witness_alpha))).
  { split; [repeat constructor|simpl; lia]. }
  split; [exact H|]. rewrite (alpha_roundtrip witness_alpha H). reflexivity.
Defined.

(** The exception: an unknown outcome of the handshake comes back as success. *)
Example unknown_handshake_reads_ready :
  let c := {| c_type := "Ready"; c_status := ConditionUnknown; c_reason := "MCPEndpointUnavailable"; c_message := "timeout";
              c_observedGeneration := 3; c_lastTransitionTime := 7 |} in
  map (fun c => (c_type c, c_status c, c_reason c)) (convertConditionsFrom (convertConditionsTo [c])) =
    [("Ready", ConditionTrue, conditionTypeAvailable)].
Proof. reflexivity. Qed.

(** What the hub's spec becomes when it is written back through v1alpha1. *)
Lemma hub_spec_through_alpha (b : ApiBeta.MCPServer) :
  srv_spec (ConvertTo (ConvertFrom b)) =
    {| spec_extraLabels := spec_extraLabels (srv_spec b);
       spec_extraAnnotations := spec_extraAnnotations (srv_spec b);
       spec_workloadRef := None; spec_serviceRef := None;
       spec_source := spec_source (srv_spec b); spec_config := spec_config (srv_spec b);
       spec_runtime := spec_runtime (srv_spec b); spec_mcp := spec_mcp (srv_spec b);
       spec_network := spec_network (srv_spec b); spec_transport := spec_transport (srv_spec b);
       spec_gateway := None |}.
Proof.
  destruct b as [m [? ? ? ? src cfg rt mc net tr ?] st]; simpl.
  unfold convertServerConfigTo, convertServerConfigFrom; simpl.
  rewrite (fold_left_snoc convertStorageMountFrom). simpl. rewrite (fold_left_snoc convertStorageMountTo), app_nil_l.
  f_equal.
  - by destruct src as [? [[]|]].
  - destruct cfg as [? ? ? ? sm ?]; simpl; f_equal.
    induction sm as [|[? ? []] l IH]; simpl; [done|]. by f_equal.
  - by destruct rt as [? [] ? []].
  - by destruct mc.
  - by destruct net as [[]|].
  - by destruct tr as [[[[? [[]|] ?]|]]|].
Qed.

(** A hub object written back through v1alpha1 keeps its metadata and every
    v1alpha1 spec field, and loses exactly workloadRef, serviceRef and gateway
    (and the status fields v1alpha1 lacks). *)
Theorem hub_through_alpha (b : ApiBeta.MCPServer) :
  let b' := ConvertTo (ConvertFrom b) in
  srv_meta b' = srv_meta b /\
  srv_spec b' =
    {| spec_extraLabels := spec_extraLabels (srv_spec b);
       spec_extraAnnotations := spec_extraAnnotations (srv_spec b);
       spec_workloadRef := None; spec_serviceRef := None;
       spec_source := spec_source (srv_spec b); spec_config := spec_config (srv_spec b);
       spec_runtime := spec_runtime (srv_spec b); spec_mcp := spec_mcp (srv_spec b);
       spec_network := spec_network (srv_spec b); spec_transport := spec_transport (srv_spec b);
       spec_gateway := None |} /\
  st_gatewayBinding (srv_status b') = None /\
  st_address (srv_status b') = st_address (srv_status b) /\
  st_serverInfo (srv_status b') = st_serverInfo (srv_status b).
Proof.
  cbv zeta. split_and!; [by destruct b|apply hub_spec_through_alpha| | |];
    destruct b as [m sp [? ? ? ? ? ? addr info ? ? ?]]; simpl; [done| |].
  - by destruct addr as [[]|].
  - by destruct info as [[? ? ? ? [[]|]]|].
Qed.
