(* ===== verification/GoHeap.v ===== *)
(** * Go's memory, for what aliasing matters to

    Elsewhere in this library a struct is a value.  Here it is what Go makes of it: fields
    hold addresses of cells that several structs may share.  [reads] says which tree of
    values a value stands for and through which cells; [copies] is the contract of a deep
    copy, and the lemmas about [pointer], [slice], [stringMap] and [into], the statements
    that deep-copy functions are made of, establish it compositionally. *)

From S2P Require Import Prelude.

Set Warnings "-register-all".

(** ** Values and cells *)

Abbreviation loc := positive.

(** A window of the array in a cell. *)
Record window := { w_array : loc; w_offset : nat; w_len : nat }.

(** What a variable or a field holds; [None] is nil. *)
Inductive val :=
  | VStr (s : string)
  | VBool (b : bool)
  | VInt (z : Z)
  | VPtr (p : option loc)
  | VSlice (w : option window)
  | VMap (p : option loc)
  | VStruct (fields : list (string * val)).

Inductive cell :=
  | Var (v : val)
  | Array (vs : list val)
  | Strings (m : gmap string string).

Abbreviation heap := (gmap loc cell).

(** Types of variables; structs are named. *)
Inductive ty := TStr | TBool | TInt | TPtr (t : ty) | TSlice (t : ty) | TMap | TStruct (name : string).

(** What a value stands for, followed to the end. *)
Inductive deep :=
  | DStr (s : string)
  | DBool (b : bool)
  | DInt (z : Z)
  | DNilPtr
  | DPtr (d : deep)
  | DNilSlice
  | DSlice (ds : list deep)
  | DNilMap
  | DMap (m : gmap string string)
  | DStruct (fields : list (string * deep)).

Fixpoint field {A} (n : string) (fs : list (string * A)) : option A :=
  match fs with
  | [] => None
  | (m, a) :: fs' => if String.eqb m n then Some a else field n fs'
  end.

Fixpoint setField {A} (n : string) (a : A) (fs : list (string * A)) : list (string * A) :=
  match fs with
  | [] => []
  | (m, b) :: fs' => if String.eqb m n then (m, a) :: fs' else (m, b) :: setField n a fs'
  end.

Definition all2 {A B} (R : A -> B -> Prop) : list A -> list B -> Prop :=
  fix go l k {struct k} :=
    match l, k with
    | [], [] => True
    | x :: l', y :: k' => R x y /\ go l' k'
    | _, _ => False
    end.

Definition all1 {A} (R : A -> Prop) : list A -> Prop :=
  fix go k := match k with [] => True | y :: k' => R y /\ go k' end.

(** [v] stands for [d] in [h], through cells that satisfy [P] only. *)
Fixpoint reads (P : loc -> Prop) (h : heap) (v : val) (d : deep) {struct d} : Prop :=
  match d, v with
  | DStr s, VStr s' => s' = s
  | DBool b, VBool b' => b' = b
  | DInt z, VInt z' => z' = z
  | DNilPtr, VPtr None => True
  | DPtr d', VPtr (Some l) => P l /\ exists x, h !! l = Some (Var x) /\ reads P h x d'
  | DNilSlice, VSlice None => True
  | DSlice ds, VSlice (Some w) =>
      P (w_array w) /\ exists xs, h !! w_array w = Some (Array xs) /\
        all2 (reads P h) (take (w_len w) (drop (w_offset w) xs)) ds
  | DNilMap, VMap None => True
  | DMap m, VMap (Some l) => P l /\ h !! l = Some (Strings m)
  | DStruct ds, VStruct xs => all2 (fun x d => x.1 = d.1 /\ reads P h x.2 d.2) xs ds
  | _, _ => False
  end.

Section types.
Context (fieldsOf : string -> option (list (string * ty))).

(** [d] is a value of type [t]. *)
Fixpoint hasType (t : ty) (d : deep) {struct d} : Prop :=
  match d, t with
  | DStr _, TStr | DBool _, TBool | DInt _, TInt | DNilPtr, TPtr _ | DNilSlice, TSlice _ | DNilMap, TMap | DMap _, TMap => True
  | DPtr d', TPtr t' => hasType t' d'
  | DSlice ds, TSlice t' => all1 (hasType t') ds
  | DStruct ds, TStruct n =>
      match fieldsOf n with
      | Some fs => all2 (fun f d => f.1 = d.1 /\ hasType f.2 d.2) fs ds
      | None => False
      end
  | _, _ => False
  end.

(** Values of [t] hold no address. *)
Inductive flat : ty -> Prop :=
  | flat_str : flat TStr
  | flat_bool : flat TBool
  | flat_int : flat TInt
  | flat_struct n fs : fieldsOf n = Some fs -> Forall (fun f => flat f.2) fs -> flat (TStruct n).

End types.

(** ** Programs over the heap *)

(** [None]: a nil dereference, or a field the struct does not have. *)
Definition C (A : Type) : Type := heap -> option (A * heap).
Definition ret {A} (a : A) : C A := fun h => Some (a, h).
Definition bind {A B} (m : C A) (k : A -> C B) : C B := fun h => '(a, h') ← m h; k a h'.
Definition stuck {A} : C A := fun _ => None.
Definition load (l : loc) : C cell := fun h => c ← h !! l; Some (c, h).
Definition store (l : loc) (c : cell) : C unit := fun h => Some (tt, <[l := c]> h).
Definition alloc (c : cell) : C loc := fun h => let l := fresh (dom h) in Some (l, <[l := c]> h).

Notation "x ⇐ m ;; k" := (bind m (fun x => k)) (at level 80, m at level 90, right associativity) : go_scope.

(** [*out = new(T)], and [k] from the old variable to the new, unless nil. *)
Definition pointer (k : val -> C val) (v : val) : C val :=
  match v with
  | VPtr None => ret v
  | VPtr (Some l) =>
      c ⇐ load l ;;
      match c with
      | Var x => x' ⇐ k x ;; l' ⇐ alloc (Var x') ;; ret (VPtr (Some l'))
      | _ => stuck
      end
  | _ => stuck
  end.

Fixpoint each (k : val -> C val) (xs : list val) : C (list val) :=
  match xs with
  | [] => ret []
  | x :: xs' => x' ⇐ k x ;; rest ⇐ each k xs' ;; ret (x' :: rest)
  end.

(** [*out = make([]T, len(in))], and [k] from element to element, unless nil. *)
Definition slice (k : val -> C val) (v : val) : C val :=
  match v with
  | VSlice None => ret v
  | VSlice (Some w) =>
      c ⇐ load (w_array w) ;;
      match c with
      | Array xs =>
          ys ⇐ each k (take (w_len w) (drop (w_offset w) xs)) ;;
          l' ⇐ alloc (Array ys) ;;
          ret (VSlice (Some {| w_array := l'; w_offset := 0; w_len := List.length ys |}))
      | _ => stuck
      end
  | _ => stuck
  end.

(** [*out = make(map[string]string)], and every entry, unless nil. *)
Definition stringMap (v : val) : C val :=
  match v with
  | VMap None => ret v
  | VMap (Some l) =>
      c ⇐ load l ;;
      match c with
      | Strings m => l' ⇐ alloc (Strings m) ;; ret (VMap (Some l'))
      | _ => stuck
      end
  | _ => stuck
  end.

(** [*out = *in], of a variable as a whole. *)
Definition assign (v : val) : C val := ret v.

(** A statement: what becomes of a field. *)
Abbreviation statement := (string * (val -> C val))%type.

Fixpoint runStatements (body : list statement) (src dst : list (string * val)) : C (list (string * val)) :=
  match body with
  | [] => ret dst
  | (n, k) :: body' =>
      match field n src with
      | Some v => v' ⇐ k v ;; runStatements body' src (setField n v' dst)
      | None => stuck
      end
  end.

(** The body of a [DeepCopyInto]: [*out = *in], then a statement for each of these fields.
    The result is what [*out] holds at the end. *)
Definition into (body : list statement) (v : val) : C val :=
  match v with
  | VStruct src => dst ⇐ runStatements body src src ;; ret (VStruct dst)
  | _ => stuck
  end.

(** The contract of a deep copy of values of type [t]: it succeeds on whatever is readable,
    changes no cell, and what it returns stands for the same through new cells only. *)
Definition copies (fieldsOf : string -> option (list (string * ty))) (k : val -> C val) (t : ty) : Prop :=
  forall h v d, hasType fieldsOf t d -> reads (fun _ => True) h v d ->
    exists v' h', k v h = Some (v', h') /\ h ⊆ h' /\ reads (fun l => h !! l = None) h' v' d.

(** ** Reading *)

Lemma all2_Forall2 {A B} (R : A -> B -> Prop) l k : all2 R l k <-> Forall2 R l k.
Proof.
  revert l. induction k as [|y k IH]; intros [|x l]; cbn; try (by split; [constructor|]); try (by split; [|inversion 1]).
  rewrite IH. split; [intros []; by constructor|by inversion 1].
Qed.

Lemma all1_Forall {A} (R : A -> Prop) k : all1 R k <-> Forall R k.
Proof. induction k as [|y k IH]; cbn; [done|]. by rewrite IH, Forall_cons. Qed.

Lemma deep_induction (Q : deep -> Prop) :
  (forall s, Q (DStr s)) -> (forall b, Q (DBool b)) -> (forall z, Q (DInt z)) -> Q DNilPtr -> (forall d, Q d -> Q (DPtr d)) ->
  Q DNilSlice -> (forall ds, Forall Q ds -> Q (DSlice ds)) -> Q DNilMap -> (forall m, Q (DMap m)) ->
  (forall fs, Forall (fun f => Q f.2) fs -> Q (DStruct fs)) -> forall d, Q d.
Proof.
  intros Hs Hb Hz Hnp Hp Hns Hl Hnm Hm Hf. fix self 1. intros [s|b|z| |d| |ds| |m|fs]; [apply Hs|apply Hb|apply Hz|done|apply Hp, self|done| |done|apply Hm| ].
  - apply Hl. revert ds. fix go 1. intros [|d ds]; constructor; [apply self|apply go].
  - apply Hf. revert fs. fix go 1. intros [|f fs]; constructor; [apply self|apply go].
Qed.

(** More addresses may be allowed, and the cells that were not read may change. *)
Lemma reads_mono (P Q : loc -> Prop) (h h' : heap) d :
  (forall l c, P l -> h !! l = Some c -> Q l /\ h' !! l = Some c) -> forall v, reads P h v d -> reads Q h' v d.
Proof.
  intros H. induction d as [s|b|z| |d IH| |ds IH| |m|fs IH] using deep_induction; intros v; destruct v as [| | |[]|[]|[]|]; cbn; try done.
  - intros [HP (x & Hx & Hr)]. destruct (H _ _ HP Hx) as [HQ Hx']. eauto 10.
  - intros [HP (xs & Hx & Hr)]. destruct (H _ _ HP Hx) as [HQ Hx']. split; [done|]. exists xs. split; [done|].
    apply all2_Forall2 in Hr. apply all2_Forall2. revert Hr. generalize (take (w_len w) (drop (w_offset w) xs)) as ys.
    induction IH; intros ys; inversion 1; constructor; eauto.
  - intros [HP Hx]. destruct (H _ _ HP Hx). done.
  - intros Hr. apply all2_Forall2 in Hr. apply all2_Forall2. revert Hr. generalize fields as ys.
    induction IH; intros ys; inversion 1; constructor; [|by eauto]. destruct_and!. eauto.
Qed.

Lemma reads_weaken h h' P v d : h ⊆ h' -> reads P h v d -> reads (fun _ => True) h' v d.
Proof. intros Hs. apply reads_mono. intros l c _ Hl. split; [done|]. by eapply lookup_weaken. Qed.

(** Reading visits cells of the heap only. *)
Lemma reads_dom h v d : reads (fun _ => True) h v d -> reads (fun l => is_Some (h !! l)) h v d.
Proof. apply reads_mono. eauto. Qed.

Lemma reads_grow P h h' v d : h ⊆ h' -> reads P h v d -> reads P h' v d.
Proof. intros Hs. apply reads_mono. intros l c HP Hl. split; [done|]. by eapply lookup_weaken. Qed.

Lemma new_antitone (h h' : heap) g v d : h ⊆ h' -> reads (fun l => h' !! l = None) g v d -> reads (fun l => h !! l = None) g v d.
Proof. intros Hs. apply reads_mono. intros l c HP Hl. split; [|done]. by eapply lookup_weaken_None. Qed.

(** ** Fields *)

Lemma field_setField {A} n m (a : A) fs :
  field m (setField n a fs) = if String.eqb n m then (if bool_decide (n ∈ map fst fs) then Some a else None) else field m fs.
Proof.
  induction fs as [|[p b] fs IH]; cbn; [by destruct (String.eqb n m)|].
  destruct (String.eqb_spec p n) as [->|Hne]; cbn.
  - destruct (String.eqb_spec n m); [|done]. by rewrite bool_decide_true by left.
  - rewrite IH. destruct (String.eqb_spec n m) as [->|Hnm].
    + destruct (String.eqb_spec p m) as [->|_]; [done|]. rewrite (bool_decide_ext (m ∈ p :: map fst fs) (m ∈ map fst fs)); [done|]. set_solver.
    + done.
Qed.

Lemma names_setField {A} n (a : A) fs : map fst (setField n a fs) = map fst fs.
Proof. induction fs as [|[m b] fs IH]; [done|]. cbn. destruct (String.eqb m n); cbn; by rewrite ?IH. Qed.

Lemma field_In {A} n (a : A) fs : field n fs = Some a -> n ∈ map fst fs.
Proof.
  induction fs as [|[m b] fs IH]; cbn; [done|]. destruct (String.eqb_spec m n) as [->|]; intros H; [left|right; eauto].
Qed.

(** Related field lists, field by field. *)
Lemma field_related {A B} (R : A -> B -> Prop) (l : list (string * A)) (k : list (string * B)) n b :
  Forall2 (fun x y => x.1 = y.1 /\ R x.2 y.2) l k -> field n k = Some b -> exists a, field n l = Some a /\ R a b.
Proof.
  induction 1 as [|[m a] [m' b'] l k [Hm HR] _ IH]; cbn in *; [done|]. subst m'.
  destruct (String.eqb m n); [intros [= ->]; eauto|done].
Qed.

Lemma related_fields {A B} (R : A -> B -> Prop) (l : list (string * A)) (k : list (string * B)) :
  NoDup (map fst k) -> map fst l = map fst k ->
  (forall n b, field n k = Some b -> exists a, field n l = Some a /\ R a b) -> Forall2 (fun x y => x.1 = y.1 /\ R x.2 y.2) l k.
Proof.
  revert l. induction k as [|[n b] k IH]; intros [|[m a] l] Hd Hn Hf; try done. cbn in *. injection Hn as -> Hn.
  apply NoDup_cons in Hd as [Hnin Hd]. constructor; [split; [done|]|apply IH; [done|done|]].
  - destruct (Hf n b) as (a' & Ha & HR). { by rewrite String.eqb_refl. } rewrite String.eqb_refl in Ha. by injection Ha as ->.
  - intros n' b' Hb. specialize (Hf n' b'). destruct (String.eqb_spec n n') as [<-|]; [|by apply Hf].
    by apply field_In in Hb.
Qed.

(** ** The statements copy *)

#[local] Arguments alloc : simpl never.

Lemma alloc_new (h : heap) c : exists l, alloc c h = Some (l, <[l := c]> h) /\ h !! l = None.
Proof. exists (fresh (dom h)). split; [done|]. apply not_elem_of_dom, is_fresh. Qed.

Section copies.
Context (fieldsOf : string -> option (list (string * ty))).

Lemma flat_reads P Q (h h' : heap) d : forall t v, flat fieldsOf t -> hasType fieldsOf t d -> reads P h v d -> reads Q h' v d.
Proof.
  induction d as [s|b|z| |d IH| |ds IH| |m|ds IH] using deep_induction; intros t v Hf; inversion Hf as [| | |n fs Hn Hfs]; subst; try done.
  destruct v as [| | | | | |xs]; try done. cbn. rewrite Hn. intros Ht Hr. apply all2_Forall2 in Ht, Hr. apply all2_Forall2.
  clear Hf Hn. revert fs xs Hfs Ht Hr. induction IH as [|[m d] ds Hd _ IH]; intros fs xs Hfs Ht Hr; inversion Ht; inversion Hr; subst; constructor.
  - inversion Hfs; subst. cbn in *. destruct_and!. split; [done|]. eauto.
  - inversion Hfs; subst. eauto.
Qed.

Lemma copies_assign t : flat fieldsOf t -> copies fieldsOf assign t.
Proof. intros Hf h v d Ht Hr. exists v, h. split_and!; [done|done|]. by eapply flat_reads. Qed.

Lemma copies_pointer k t : copies fieldsOf k t -> copies fieldsOf (pointer k) (TPtr t).
Proof.
  intros Hk h v [| | | |d| | | | |] Ht; try done; destruct v as [| | |[l|]| | |]; try done; cbn.
  - intros _. exists (VPtr None), h. done.
  - intros [_ (x & Hl & Hr)]. unfold bind, load, ret. rewrite Hl. cbn. destruct (Hk _ _ _ Ht Hr) as (x' & h' & -> & Hs & Hx). cbn.
    destruct (alloc_new h' (Var x')) as (l' & -> & Hnew). cbn. eexists _, _. split; [done|].
    split; [etrans; [exact Hs|by apply insert_subseteq]|]. cbn. split; [by eapply lookup_weaken_None|].
    exists x'. split; [apply lookup_insert_eq|]. eapply reads_grow; [by apply insert_subseteq|done].
Qed.

Lemma each_copies k t ds : copies fieldsOf k t -> Forall (hasType fieldsOf t) ds -> forall h xs,
  Forall2 (reads (fun _ => True) h) xs ds ->
  exists ys h', each k xs h = Some (ys, h') /\ h ⊆ h' /\ Forall2 (reads (fun l => h !! l = None) h') ys ds.
Proof.
  intros Hk. induction 1 as [|d ds Hd _ IH]; intros h xs Hr; inversion Hr as [|x ? xs' ? Hx Hxs]; subst; cbn; [by exists [], h|].
  unfold bind, ret. destruct (Hk _ _ _ Hd Hx) as (y & h1 & -> & Hs1 & Hy). cbn.
  destruct (IH h1 xs') as (ys & h2 & -> & Hs2 & Hys). { eapply Forall2_impl; [exact Hxs|]. intros. by eapply reads_weaken. }
  cbn. exists (y :: ys), h2. split; [done|]. split; [by etrans|]. constructor; [by eapply reads_grow|].
  eapply Forall2_impl; [exact Hys|]. intros. by eapply new_antitone.
Qed.

Lemma copies_slice k t : copies fieldsOf k t -> copies fieldsOf (slice k) (TSlice t).
Proof.
  intros Hk h v [| | | | | |ds| | |] Ht; try done; destruct v as [| | | |[w|]| |]; try done; cbn.
  - intros _. exists (VSlice None), h. done.
  - intros [_ (xs & Hl & Hr)]. unfold bind, load, ret. rewrite Hl. cbn. apply all2_Forall2 in Hr. apply all1_Forall in Ht.
    destruct (each_copies k t ds Hk Ht _ _ Hr) as (ys & h' & -> & Hs & Hys). cbn.
    destruct (alloc_new h' (Array ys)) as (l' & -> & Hnew). cbn. eexists _, _. split; [done|].
    split; [etrans; [exact Hs|by apply insert_subseteq]|]. cbn. split; [by eapply lookup_weaken_None|].
    exists ys. split; [apply lookup_insert_eq|]. rewrite drop_0, firstn_all. apply all2_Forall2.
    eapply Forall2_impl; [exact Hys|]. intros. eapply reads_grow; [by apply insert_subseteq|done].
Qed.

Lemma copies_stringMap : copies fieldsOf stringMap TMap.
Proof.
  intros h v [| | | | | | | |m|] Ht; try done; destruct v as [| | | | |[l|]|]; try done; cbn.
  - intros _. exists (VMap None), h. done.
  - intros [_ Hl]. unfold bind, load, ret. rewrite Hl. cbn. destruct (alloc_new h (Strings m)) as (l' & -> & Hnew). cbn.
    eexists _, _. split; [done|]. split; [by apply insert_subseteq|]. cbn. split; [done|]. apply lookup_insert_eq.
Qed.

Lemma runStatements_copies (fs : list (string * ty)) (ds : list (string * deep)) src h0 :
  Forall2 (fun f d => f.1 = d.1 /\ hasType fieldsOf f.2 d.2) fs ds ->
  Forall2 (fun x d => x.1 = d.1 /\ reads (fun _ => True) h0 x.2 d.2) src ds ->
  forall body, Forall (fun s : statement => exists t, field s.1 fs = Some t /\ copies fieldsOf s.2 t) body ->
  forall h dst, h0 ⊆ h -> map fst dst = map fst ds ->
  exists dst' h', runStatements body src dst h = Some (dst', h') /\ h ⊆ h' /\ map fst dst' = map fst ds /\
    forall n d, field n ds = Some d ->
      exists v, field n dst' = Some v /\ (reads (fun l => h0 !! l = None) h' v d \/ (~ (n ∈ map fst body) /\ field n dst = Some v)).
Proof.
  intros Ht Hr. induction 1 as [|[n k] body (t & Hf & Hk) _ IH]; intros h dst Hs Hn; cbn in *.
  - exists dst, h. split_and!; [done..|]. intros n d Hd.
    assert (n ∈ map fst dst) by (rewrite Hn; by eapply field_In).
    destruct (field n dst) as [v|] eqn:E; [exists v; split; [done|right; split; [set_solver|done]]|].
    exfalso. clear -H E. induction dst as [|[m w] dst IHd]; cbn in *; [set_solver|]. destruct (String.eqb_spec m n); [done|set_solver].
  - assert (exists d, field n ds = Some d) as [d Hd].
    { clear -Ht Hf. induction Ht as [|[m x] [m' y] ? ? [Hm _] _ IH]; cbn in *; [done|]. subst. destruct (String.eqb m' n); eauto. }
    destruct (field_related _ _ _ _ _ Hr Hd) as (v & Hv & Hrv). destruct (field_related _ _ _ _ _ Ht Hd) as (t' & Hf' & Htd).
    rewrite Hf in Hf'. injection Hf' as <-. rewrite Hv. unfold bind.
    destruct (Hk h v d Htd) as (v' & h1 & -> & Hs1 & Hv'); [by eapply reads_weaken|]. cbn.
    destruct (IH h1 (setField n v' dst)) as (dst' & h2 & -> & Hs2 & Hn2 & Hall); [by etrans|by rewrite names_setField|].
    exists dst', h2. split_and!; [done|by etrans|done|]. intros m e He. destruct (Hall m e He) as (w & Hw & [Hnew|[Hm Hold]]); [by eauto|].
    exists w. split; [done|]. rewrite field_setField in Hold. destruct (String.eqb_spec n m) as [->|Hne].
    + left. destruct (bool_decide _); [|done]. injection Hold as <-. rewrite Hd in He. injection He as <-.
      eapply reads_grow; [exact Hs2|]. by eapply new_antitone.
    + right. split; [set_solver|done].
Qed.

(** A [DeepCopyInto] copies when each field is flat or has a statement that copies it. *)
Lemma copies_into n fs body : fieldsOf n = Some fs -> NoDup (map fst fs) ->
  Forall (fun s : statement => exists t, field s.1 fs = Some t /\ copies fieldsOf s.2 t) body ->
  Forall (fun f => f.1 ∈ map fst body \/ flat fieldsOf f.2) fs ->
  copies fieldsOf (into body) (TStruct n).
Proof.
  intros Hn Hd Hbody Hfs h v [| | | | | | | | |ds] Ht; try done; destruct v as [| | | | | |src]; try done; cbn.
  - cbn in Ht. rewrite Hn in Ht. apply all2_Forall2 in Ht. intros Hr. apply all2_Forall2 in Hr.
    assert (Hnames : map fst src = map fst ds). { clear -Hr. induction Hr as [|? ? ? ? []]; cbn; congruence. }
    assert (Hnames' : map fst fs = map fst ds). { clear -Ht. induction Ht as [|? ? ? ? []]; cbn; congruence. }
    destruct (runStatements_copies fs ds src h Ht Hr body Hbody h src) as (dst & h' & Hrun & Hs & Hnd & Hall); [done|done|].
    unfold bind, ret. rewrite Hrun. cbn. exists (VStruct dst), h'. split_and!; [done|done|]. apply all2_Forall2, related_fields; [by rewrite <- Hnames'|done|].
    intros m d Hm. destruct (Hall m d Hm) as (w & Hw & [Hnew|[Hnot Hold]]); [by eauto|]. exists w. split; [done|].
    destruct (field_related _ _ _ _ _ Hr Hm) as (w' & Hw' & Hrw). rewrite Hold in Hw'. injection Hw' as <-.
    destruct (field_related _ _ _ _ _ Ht Hm) as (t & Hft & Htd). eapply flat_reads; [|exact Htd|exact Hrw].
    rewrite Forall_forall in Hfs. assert (Hin : (m, t) ∈ fs).
    { clear -Hft. induction fs as [|[p u] fs IH]; cbn in *; [done|]. destruct (String.eqb_spec p m) as [->|]; [injection Hft as ->; left|right; auto]. }
    by destruct (Hfs _ Hin).
Qed.

End copies.

(** Copy and original are apart: writes to what the heap had leave the copy, and writes to
    new cells leave the original. *)
Lemma copies_isolated fieldsOf k t h v d : copies fieldsOf k t -> hasType fieldsOf t d -> reads (fun _ => True) h v d ->
  exists v' h', k v h = Some (v', h') /\ h ⊆ h' /\ reads (fun l => h !! l = None) h' v' d /\
    (forall g, (forall l, h !! l = None -> g !! l = h' !! l) -> reads (fun _ => True) g v' d) /\
    (forall g, (forall l, is_Some (h !! l) -> g !! l = h' !! l) -> reads (fun _ => True) g v d).
Proof.
  intros Hk Ht Hr. destruct (Hk _ _ _ Ht Hr) as (v' & h' & Hrun & Hs & Hnew). exists v', h'. split_and!; try done.
  - intros g Hg. eapply reads_mono; [|exact Hnew]. intros l c Hl Hc. split; [done|]. by rewrite Hg.
  - intros g Hg. eapply reads_mono; [|by apply reads_dom]. intros l c Hl Hc. split; [done|]. rewrite Hg by done. by eapply lookup_weaken.
Qed.
