(* ===== verification/DeepCopy.v ===== *)
(** * Deep copies (zz_generated.deepcopy.go of both API versions, providers/kuadrant/api/types.go)

    controller-gen writes a [DeepCopyInto] and a [DeepCopy] for each API struct; those of the
    Kuadrant objects are written by hand.  The controllers rely on them where a struct they
    go on to change, or to put into another object, must not be shared
    ([EnsureBindingAnnotations], [defaultIngressRules], [buildEgressRules]).

    The structs of other modules are known by the fields the code relies on, and come with
    deep copies of their own: [Library] and its laws.  The theorems: a copy stands for the
    same value, and nothing written through one of the two is seen through the other; the
    patch of [EnsureBindingAnnotations] is computed against the binding as it was. *)

From S2P Require Import Prelude GoHeap.

(** ** The structs of other modules *)

Class Library := {
  libFields : string -> option (list (string * ty));
  libCopy : string -> val -> C val
}.

(** Those with a deep copy that the code calls. *)
Definition libraryStructs : list string :=
  [ "corev1.Probe"; "corev1.ConfigMapVolumeSource"; "corev1.SecretVolumeSource"; "corev1.EmptyDirVolumeSource";
    "corev1.EnvVar"; "corev1.EnvFromSource"; "corev1.PodSecurityContext"; "corev1.SecurityContext";
    "corev1.ResourceRequirements"; "networkingv1.NetworkPolicyPeer"; "networkingv1.NetworkPolicyPort";
    "metav1.ObjectMeta"; "metav1.ListMeta"; "metav1.Condition" ].

(** A function for an interface: nil for a nil pointer. *)
Definition object (copy : val -> C val) (v : val) : C (option val) :=
  c ⇐ copy v ;;
  ret (match c with VPtr None => None | _ => Some c end).

(** ** The structs of v1beta1 *)

Definition v1beta1_ContainerImageSource_fields : list (string * ty) :=
  [("Ref", TStr); ("PullPolicy", TStr); ("ImagePullSecrets", TSlice (TStruct "corev1.LocalObjectReference"))].
Definition v1beta1_GatewayBindingStatus_fields : list (string * ty) := [("Name", TStr); ("Provider", TStr)].
Definition v1beta1_GatewaySpec_fields : list (string * ty) := [("Provider", TStr); ("ConfigRef", TStr)].
Definition v1beta1_HealthConfig_fields : list (string * ty) :=
  [("LivenessProbe", TPtr (TStruct "corev1.Probe")); ("ReadinessProbe", TPtr (TStruct "corev1.Probe"))].
Definition v1beta1_MCPConfig_fields : list (string * ty) := [("Stateless", TPtr TBool)].
Definition v1beta1_Source_fields : list (string * ty) :=
  [("Type", TStr); ("ContainerImage", TPtr (TStruct "v1beta1.ContainerImageSource"))].
Definition v1beta1_StorageSource_fields : list (string * ty) :=
  [("Type", TStr); ("ConfigMap", TPtr (TStruct "corev1.ConfigMapVolumeSource"));
   ("Secret", TPtr (TStruct "corev1.SecretVolumeSource")); ("EmptyDir", TPtr (TStruct "corev1.EmptyDirVolumeSource"))].
Definition v1beta1_StorageMount_fields : list (string * ty) :=
  [("Path", TStr); ("Permissions", TStr); ("Source", TStruct "v1beta1.StorageSource")].
Definition v1beta1_ServerConfig_fields : list (string * ty) :=
  [("Port", TInt); ("Arguments", TSlice TStr); ("Env", TSlice (TStruct "corev1.EnvVar"));
   ("EnvFrom", TSlice (TStruct "corev1.EnvFromSource")); ("Storage", TSlice (TStruct "v1beta1.StorageMount"));
   ("Path", TStr)].
Definition v1beta1_SecurityConfig_fields : list (string * ty) :=
  [("ServiceAccountName", TStr); ("PodSecurityContext", TPtr (TStruct "corev1.PodSecurityContext"));
   ("SecurityContext", TPtr (TStruct "corev1.SecurityContext"))].
Definition v1beta1_RuntimeConfig_fields : list (string * ty) :=
  [("Replicas", TPtr TInt); ("Security", TStruct "v1beta1.SecurityConfig");
   ("Resources", TPtr (TStruct "corev1.ResourceRequirements")); ("Health", TStruct "v1beta1.HealthConfig")].
Definition v1beta1_NetworkConfig_fields : list (string * ty) :=
  [("IngressFrom", TSlice (TStruct "networkingv1.NetworkPolicyPeer"));
   ("EgressTo", TSlice (TStruct "networkingv1.NetworkPolicyPeer"));
   ("EgressPorts", TSlice (TStruct "networkingv1.NetworkPolicyPort"));
   ("DNSEgressPeer", TPtr (TStruct "networkingv1.NetworkPolicyPeer"))].
Definition v1beta1_TLSClientConfig_fields : list (string * ty) :=
  [("Enabled", TBool); ("CABundleSecret", TPtr (TStruct "v1beta1.SecretReference")); ("InsecureSkipVerify", TBool)].
Definition v1beta1_TransportConfig_fields : list (string * ty) :=
  [("TLS", TPtr (TStruct "v1beta1.TLSClientConfig"))].
Definition v1beta1_MCPServerSpec_fields : list (string * ty) :=
  [("ExtraLabels", TMap); ("ExtraAnnotations", TMap); ("WorkloadRef", TPtr (TStruct "v1beta1.WorkloadReference"));
   ("ServiceRef", TPtr (TStruct "v1beta1.ServiceReference")); ("Source", TStruct "v1beta1.Source");
   ("Config", TStruct "v1beta1.ServerConfig"); ("Runtime", TStruct "v1beta1.RuntimeConfig");
   ("MCP", TStruct "v1beta1.MCPConfig"); ("Network", TPtr (TStruct "v1beta1.NetworkConfig"));
   ("Transport", TPtr (TStruct "v1beta1.TransportConfig")); ("Gateway", TPtr (TStruct "v1beta1.GatewaySpec"))].
Definition v1beta1_MCPServerInfo_fields : list (string * ty) :=
  [("Name", TStr); ("Version", TStr); ("ProtocolVersion", TStr); ("Instructions", TStr);
   ("Capabilities", TPtr (TStruct "v1beta1.MCPServerCapabilities"))].
Definition v1beta1_MCPServerStatus_fields : list (string * ty) :=
  [("ObservedGeneration", TInt); ("DeploymentName", TStr); ("ServiceName", TStr); ("WorkloadName", TStr);
   ("WorkloadSummary", TStr); ("GatewayBinding", TPtr (TStruct "v1beta1.GatewayBindingStatus"));
   ("Address", TPtr (TStruct "v1beta1.MCPServerAddress")); ("ServerInfo", TPtr (TStruct "v1beta1.MCPServerInfo"));
   ("Replicas", TInt); ("ReadyReplicas", TInt); ("Conditions", TSlice (TStruct "metav1.Condition"))].
Definition v1beta1_MCPServer_fields : list (string * ty) :=
  [("TypeMeta", TStruct "metav1.TypeMeta"); ("ObjectMeta", TStruct "metav1.ObjectMeta");
   ("Spec", TStruct "v1beta1.MCPServerSpec"); ("Status", TStruct "v1beta1.MCPServerStatus")].
Definition v1beta1_MCPServerAddress_fields : list (string * ty) := [("URL", TStr)].
Definition v1beta1_MCPServerCapabilities_fields : list (string * ty) :=
  [("Tools", TBool); ("Resources", TBool); ("Prompts", TBool); ("Logging", TBool); ("Completions", TBool)].
Definition v1beta1_MCPServerList_fields : list (string * ty) :=
  [("TypeMeta", TStruct "metav1.TypeMeta"); ("ListMeta", TStruct "metav1.ListMeta");
   ("Items", TSlice (TStruct "v1beta1.MCPServer"))].
Definition v1beta1_SecretReference_fields : list (string * ty) := [("Name", TStr)].
Definition v1beta1_ServiceReference_fields : list (string * ty) := [("Name", TStr)].
Definition v1beta1_WorkloadReference_fields : list (string * ty) := [("Name", TStr); ("Kind", TStr)].

(** ** The structs of v1alpha1 *)

Definition v1alpha1_ContainerImageSource_fields : list (string * ty) :=
  [("Ref", TStr); ("PullPolicy", TStr); ("ImagePullSecrets", TSlice (TStruct "corev1.LocalObjectReference"))].
Definition v1alpha1_HealthConfig_fields : list (string * ty) :=
  [("LivenessProbe", TPtr (TStruct "corev1.Probe")); ("ReadinessProbe", TPtr (TStruct "corev1.Probe"))].
Definition v1alpha1_MCPConfig_fields : list (string * ty) := [("Stateless", TPtr TBool)].
Definition v1alpha1_MCPGatewayBindingStatus_fields : list (string * ty) :=
  [("URL", TStr); ("Conditions", TSlice (TStruct "metav1.Condition"))].
Definition v1alpha1_MCPGatewayBinding_fields : list (string * ty) :=
  [("TypeMeta", TStruct "metav1.TypeMeta"); ("ObjectMeta", TStruct "metav1.ObjectMeta");
   ("Spec", TStruct "v1alpha1.MCPGatewayBindingSpec"); ("Status", TStruct "v1alpha1.MCPGatewayBindingStatus")].
Definition v1alpha1_MCPGatewayBindingList_fields : list (string * ty) :=
  [("TypeMeta", TStruct "metav1.TypeMeta"); ("ListMeta", TStruct "metav1.ListMeta");
   ("Items", TSlice (TStruct "v1alpha1.MCPGatewayBinding"))].
Definition v1alpha1_MCPGatewayBindingSpec_fields : list (string * ty) :=
  [("MCPServerRef", TStr); ("Provider", TStr); ("ConfigRef", TStr)].
Definition v1alpha1_Source_fields : list (string * ty) :=
  [("Type", TStr); ("ContainerImage", TPtr (TStruct "v1alpha1.ContainerImageSource"))].
Definition v1alpha1_StorageSource_fields : list (string * ty) :=
  [("Type", TStr); ("ConfigMap", TPtr (TStruct "corev1.ConfigMapVolumeSource"));
   ("Secret", TPtr (TStruct "corev1.SecretVolumeSource")); ("EmptyDir", TPtr (TStruct "corev1.EmptyDirVolumeSource"))].
Definition v1alpha1_StorageMount_fields : list (string * ty) :=
  [("Path", TStr); ("Permissions", TStr); ("Source", TStruct "v1alpha1.StorageSource")].
Definition v1alpha1_ServerConfig_fields : list (string * ty) :=
  [("Port", TInt); ("Arguments", TSlice TStr); ("Env", TSlice (TStruct "corev1.EnvVar"));
   ("EnvFrom", TSlice (TStruct "corev1.EnvFromSource")); ("Storage", TSlice (TStruct "v1alpha1.StorageMount"));
   ("Path", TStr)].
Definition v1alpha1_SecurityConfig_fields : list (string * ty) :=
  [("ServiceAccountName", TStr); ("PodSecurityContext", TPtr (TStruct "corev1.PodSecurityContext"));
   ("SecurityContext", TPtr (TStruct "corev1.SecurityContext"))].
Definition v1alpha1_RuntimeConfig_fields : list (string * ty) :=
  [("Replicas", TPtr TInt); ("Security", TStruct "v1alpha1.SecurityConfig");
   ("Resources", TPtr (TStruct "corev1.ResourceRequirements")); ("Health", TStruct "v1alpha1.HealthConfig")].
Definition v1alpha1_NetworkConfig_fields : list (string * ty) :=
  [("IngressFrom", TSlice (TStruct "networkingv1.NetworkPolicyPeer"));
   ("EgressTo", TSlice (TStruct "networkingv1.NetworkPolicyPeer"));
   ("EgressPorts", TSlice (TStruct "networkingv1.NetworkPolicyPort"));
   ("DNSEgressPeer", TPtr (TStruct "networkingv1.NetworkPolicyPeer"))].
Definition v1alpha1_TLSClientConfig_fields : list (string * ty) :=
  [("Enabled", TBool); ("CABundleSecret", TPtr (TStruct "v1alpha1.SecretReference")); ("InsecureSkipVerify", TBool)].
Definition v1alpha1_TransportConfig_fields : list (string * ty) :=
  [("TLS", TPtr (TStruct "v1alpha1.TLSClientConfig"))].
Definition v1alpha1_MCPServerSpec_fields : list (string * ty) :=
  [("ExtraLabels", TMap); ("ExtraAnnotations", TMap); ("Source", TStruct "v1alpha1.Source");
   ("Config", TStruct "v1alpha1.ServerConfig"); ("Runtime", TStruct "v1alpha1.RuntimeConfig");
   ("MCP", TStruct "v1alpha1.MCPConfig"); ("Network", TPtr (TStruct "v1alpha1.NetworkConfig"));
   ("Transport", TPtr (TStruct "v1alpha1.TransportConfig"))].
Definition v1alpha1_MCPServerInfo_fields : list (string * ty) :=
  [("Name", TStr); ("Version", TStr); ("ProtocolVersion", TStr); ("Instructions", TStr);
   ("Capabilities", TPtr (TStruct "v1alpha1.MCPServerCapabilities"))].
Definition v1alpha1_MCPServerStatus_fields : list (string * ty) :=
  [("ObservedGeneration", TInt); ("DeploymentName", TStr); ("ServiceName", TStr);
   ("Address", TPtr (TStruct "v1alpha1.MCPServerAddress")); ("ServerInfo", TPtr (TStruct "v1alpha1.MCPServerInfo"));
   ("HandshakeRetryCount", TInt); ("Replicas", TInt); ("ReadyReplicas", TInt);
   ("Conditions", TSlice (TStruct "metav1.Condition"))].
Definition v1alpha1_MCPServer_fields : list (string * ty) :=
  [("TypeMeta", TStruct "metav1.TypeMeta"); ("ObjectMeta", TStruct "metav1.ObjectMeta");
   ("Spec", TStruct "v1alpha1.MCPServerSpec"); ("Status", TStruct "v1alpha1.MCPServerStatus")].
Definition v1alpha1_MCPServerAddress_fields : list (string * ty) := [("URL", TStr)].
Definition v1alpha1_MCPServerCapabilities_fields : list (string * ty) :=
  [("Tools", TBool); ("Resources", TBool); ("Prompts", TBool); ("Logging", TBool); ("Completions", TBool)].
Definition v1alpha1_MCPServerList_fields : list (string * ty) :=
  [("TypeMeta", TStruct "metav1.TypeMeta"); ("ListMeta", TStruct "metav1.ListMeta");
   ("Items", TSlice (TStruct "v1alpha1.MCPServer"))].
Definition v1alpha1_SecretReference_fields : list (string * ty) := [("Name", TStr)].

(** ** The structs of the Kuadrant objects *)

Definition kuadrant_MCPServerRegistration_fields : list (string * ty) :=
  [("TypeMeta", TStruct "metav1.TypeMeta"); ("ObjectMeta", TStruct "metav1.ObjectMeta");
   ("Spec", TStruct "kuadrant.MCPServerRegistrationSpec"); ("Status", TStruct "kuadrant.MCPServerRegistrationStatus")].
Definition kuadrant_MCPServerRegistrationStatus_fields : list (string * ty) :=
  [("Conditions", TSlice (TStruct "metav1.Condition"))].
Definition kuadrant_MCPServerRegistrationSpec_fields : list (string * ty) :=
  [("TargetRef", TStruct "kuadrant.TargetReference"); ("Prefix", TStr); ("Path", TStr); ("State", TStr)].
Definition kuadrant_TargetReference_fields : list (string * ty) :=
  [("Group", TStr); ("Kind", TStr); ("Name", TStr); ("Namespace", TStr); ("SectionName", TStr)].
Definition kuadrant_MCPServerRegistrationList_fields : list (string * ty) :=
  [("TypeMeta", TStruct "metav1.TypeMeta"); ("ListMeta", TStruct "metav1.ListMeta");
   ("Items", TSlice (TStruct "kuadrant.MCPServerRegistration"))].
Definition kuadrant_MCPGatewayExtension_fields : list (string * ty) :=
  [("TypeMeta", TStruct "metav1.TypeMeta"); ("ObjectMeta", TStruct "metav1.ObjectMeta");
   ("Spec", TStruct "kuadrant.MCPGatewayExtensionSpec"); ("Status", TStruct "kuadrant.MCPGatewayExtensionStatus")].
Definition kuadrant_MCPGatewayExtensionStatus_fields : list (string * ty) :=
  [("Conditions", TSlice (TStruct "metav1.Condition"))].
Definition kuadrant_MCPGatewayExtensionSpec_fields : list (string * ty) :=
  [("PublicHost", TStr); ("TargetRef", TStruct "kuadrant.TargetReference")].
Definition kuadrant_MCPGatewayExtensionList_fields : list (string * ty) :=
  [("TypeMeta", TStruct "metav1.TypeMeta"); ("ListMeta", TStruct "metav1.ListMeta");
   ("Items", TSlice (TStruct "kuadrant.MCPGatewayExtension"))].

(** The structs by name. *)
Definition structs : list (string * list (string * ty)) :=
  [("v1beta1.ContainerImageSource", v1beta1_ContainerImageSource_fields);
   ("v1beta1.GatewayBindingStatus", v1beta1_GatewayBindingStatus_fields);
   ("v1beta1.GatewaySpec", v1beta1_GatewaySpec_fields); ("v1beta1.HealthConfig", v1beta1_HealthConfig_fields);
   ("v1beta1.MCPConfig", v1beta1_MCPConfig_fields); ("v1beta1.Source", v1beta1_Source_fields);
   ("v1beta1.StorageSource", v1beta1_StorageSource_fields); ("v1beta1.StorageMount", v1beta1_StorageMount_fields);
   ("v1beta1.ServerConfig", v1beta1_ServerConfig_fields); ("v1beta1.SecurityConfig", v1beta1_SecurityConfig_fields);
   ("v1beta1.RuntimeConfig", v1beta1_RuntimeConfig_fields); ("v1beta1.NetworkConfig", v1beta1_NetworkConfig_fields);
   ("v1beta1.TLSClientConfig", v1beta1_TLSClientConfig_fields);
   ("v1beta1.TransportConfig", v1beta1_TransportConfig_fields);
   ("v1beta1.MCPServerSpec", v1beta1_MCPServerSpec_fields); ("v1beta1.MCPServerInfo", v1beta1_MCPServerInfo_fields);
   ("v1beta1.MCPServerStatus", v1beta1_MCPServerStatus_fields); ("v1beta1.MCPServer", v1beta1_MCPServer_fields);
   ("v1beta1.MCPServerAddress", v1beta1_MCPServerAddress_fields);
   ("v1beta1.MCPServerCapabilities", v1beta1_MCPServerCapabilities_fields);
   ("v1beta1.MCPServerList", v1beta1_MCPServerList_fields);
   ("v1beta1.SecretReference", v1beta1_SecretReference_fields);
   ("v1beta1.ServiceReference", v1beta1_ServiceReference_fields);
   ("v1beta1.WorkloadReference", v1beta1_WorkloadReference_fields);
   ("v1alpha1.ContainerImageSource", v1alpha1_ContainerImageSource_fields);
   ("v1alpha1.HealthConfig", v1alpha1_HealthConfig_fields); ("v1alpha1.MCPConfig", v1alpha1_MCPConfig_fields);
   ("v1alpha1.MCPGatewayBindingStatus", v1alpha1_MCPGatewayBindingStatus_fields);
   ("v1alpha1.MCPGatewayBinding", v1alpha1_MCPGatewayBinding_fields);
   ("v1alpha1.MCPGatewayBindingList", v1alpha1_MCPGatewayBindingList_fields);
   ("v1alpha1.MCPGatewayBindingSpec", v1alpha1_MCPGatewayBindingSpec_fields);
   ("v1alpha1.Source", v1alpha1_Source_fields); ("v1alpha1.StorageSource", v1alpha1_StorageSource_fields);
   ("v1alpha1.StorageMount", v1alpha1_StorageMount_fields); ("v1alpha1.ServerConfig", v1alpha1_ServerConfig_fields);
   ("v1alpha1.SecurityConfig", v1alpha1_SecurityConfig_fields);
   ("v1alpha1.RuntimeConfig", v1alpha1_RuntimeConfig_fields);
   ("v1alpha1.NetworkConfig", v1alpha1_NetworkConfig_fields);
   ("v1alpha1.TLSClientConfig", v1alpha1_TLSClientConfig_fields);
   ("v1alpha1.TransportConfig", v1alpha1_TransportConfig_fields);
   ("v1alpha1.MCPServerSpec", v1alpha1_MCPServerSpec_fields);
   ("v1alpha1.MCPServerInfo", v1alpha1_MCPServerInfo_fields);
   ("v1alpha1.MCPServerStatus", v1alpha1_MCPServerStatus_fields); ("v1alpha1.MCPServer", v1alpha1_MCPServer_fields);
   ("v1alpha1.MCPServerAddress", v1alpha1_MCPServerAddress_fields);
   ("v1alpha1.MCPServerCapabilities", v1alpha1_MCPServerCapabilities_fields);
   ("v1alpha1.MCPServerList", v1alpha1_MCPServerList_fields);
   ("v1alpha1.SecretReference", v1alpha1_SecretReference_fields);
   ("kuadrant.MCPServerRegistration", kuadrant_MCPServerRegistration_fields);
   ("kuadrant.MCPServerRegistrationStatus", kuadrant_MCPServerRegistrationStatus_fields);
   ("kuadrant.MCPServerRegistrationSpec", kuadrant_MCPServerRegistrationSpec_fields);
   ("kuadrant.TargetReference", kuadrant_TargetReference_fields);
   ("kuadrant.MCPServerRegistrationList", kuadrant_MCPServerRegistrationList_fields);
   ("kuadrant.MCPGatewayExtension", kuadrant_MCPGatewayExtension_fields);
   ("kuadrant.MCPGatewayExtensionStatus", kuadrant_MCPGatewayExtensionStatus_fields);
   ("kuadrant.MCPGatewayExtensionSpec", kuadrant_MCPGatewayExtensionSpec_fields);
   ("kuadrant.MCPGatewayExtensionList", kuadrant_MCPGatewayExtensionList_fields)].

Section deepcopy.
Context `{Lib : Library}.

Definition fieldsOf (n : string) : option (list (string * ty)) :=
  match field n structs with Some fs => Some fs | None => libFields n end.

(** ** api/v1beta1/zz_generated.deepcopy.go *)

Definition v1beta1_ContainerImageSource_DeepCopyInto : val -> C val := into [("ImagePullSecrets", slice assign)].
Definition v1beta1_ContainerImageSource_DeepCopy : val -> C val := pointer v1beta1_ContainerImageSource_DeepCopyInto.

Definition v1beta1_GatewayBindingStatus_DeepCopyInto : val -> C val := into [].
Definition v1beta1_GatewayBindingStatus_DeepCopy : val -> C val := pointer v1beta1_GatewayBindingStatus_DeepCopyInto.

Definition v1beta1_GatewaySpec_DeepCopyInto : val -> C val := into [].
Definition v1beta1_GatewaySpec_DeepCopy : val -> C val := pointer v1beta1_GatewaySpec_DeepCopyInto.

Definition v1beta1_HealthConfig_DeepCopyInto : val -> C val :=
  into [("LivenessProbe", pointer (libCopy "corev1.Probe")); ("ReadinessProbe", pointer (libCopy "corev1.Probe"))].
Definition v1beta1_HealthConfig_DeepCopy : val -> C val := pointer v1beta1_HealthConfig_DeepCopyInto.

Definition v1beta1_MCPConfig_DeepCopyInto : val -> C val := into [("Stateless", pointer assign)].
Definition v1beta1_MCPConfig_DeepCopy : val -> C val := pointer v1beta1_MCPConfig_DeepCopyInto.

Definition v1beta1_Source_DeepCopyInto : val -> C val :=
  into [("ContainerImage", pointer v1beta1_ContainerImageSource_DeepCopyInto)].
Definition v1beta1_Source_DeepCopy : val -> C val := pointer v1beta1_Source_DeepCopyInto.

Definition v1beta1_StorageSource_DeepCopyInto : val -> C val :=
  into
    [("ConfigMap", pointer (libCopy "corev1.ConfigMapVolumeSource"));
     ("Secret", pointer (libCopy "corev1.SecretVolumeSource"));
     ("EmptyDir", pointer (libCopy "corev1.EmptyDirVolumeSource"))].
Definition v1beta1_StorageSource_DeepCopy : val -> C val := pointer v1beta1_StorageSource_DeepCopyInto.

Definition v1beta1_StorageMount_DeepCopyInto : val -> C val := into [("Source", v1beta1_StorageSource_DeepCopyInto)].
Definition v1beta1_StorageMount_DeepCopy : val -> C val := pointer v1beta1_StorageMount_DeepCopyInto.

Definition v1beta1_ServerConfig_DeepCopyInto : val -> C val :=
  into
    [("Arguments", slice assign); ("Env", slice (libCopy "corev1.EnvVar"));
     ("EnvFrom", slice (libCopy "corev1.EnvFromSource")); ("Storage", slice v1beta1_StorageMount_DeepCopyInto)].
Definition v1beta1_ServerConfig_DeepCopy : val -> C val := pointer v1beta1_ServerConfig_DeepCopyInto.

Definition v1beta1_SecurityConfig_DeepCopyInto : val -> C val :=
  into
    [("PodSecurityContext", pointer (libCopy "corev1.PodSecurityContext"));
     ("SecurityContext", pointer (libCopy "corev1.SecurityContext"))].
Definition v1beta1_SecurityConfig_DeepCopy : val -> C val := pointer v1beta1_SecurityConfig_DeepCopyInto.

Definition v1beta1_RuntimeConfig_DeepCopyInto : val -> C val :=
  into
    [("Replicas", pointer assign); ("Security", v1beta1_SecurityConfig_DeepCopyInto);
     ("Resources", pointer (libCopy "corev1.ResourceRequirements")); ("Health", v1beta1_HealthConfig_DeepCopyInto)].
Definition v1beta1_RuntimeConfig_DeepCopy : val -> C val := pointer v1beta1_RuntimeConfig_DeepCopyInto.

Definition v1beta1_NetworkConfig_DeepCopyInto : val -> C val :=
  into
    [("IngressFrom", slice (libCopy "networkingv1.NetworkPolicyPeer"));
     ("EgressTo", slice (libCopy "networkingv1.NetworkPolicyPeer"));
     ("EgressPorts", slice (libCopy "networkingv1.NetworkPolicyPort"));
     ("DNSEgressPeer", pointer (libCopy "networkingv1.NetworkPolicyPeer"))].
Definition v1beta1_NetworkConfig_DeepCopy : val -> C val := pointer v1beta1_NetworkConfig_DeepCopyInto.

Definition v1beta1_TLSClientConfig_DeepCopyInto : val -> C val := into [("CABundleSecret", pointer assign)].
Definition v1beta1_TLSClientConfig_DeepCopy : val -> C val := pointer v1beta1_TLSClientConfig_DeepCopyInto.

Definition v1beta1_TransportConfig_DeepCopyInto : val -> C val :=
  into [("TLS", pointer v1beta1_TLSClientConfig_DeepCopyInto)].
Definition v1beta1_TransportConfig_DeepCopy : val -> C val := pointer v1beta1_TransportConfig_DeepCopyInto.

Definition v1beta1_MCPServerSpec_DeepCopyInto : val -> C val :=
  into
    [("ExtraLabels", stringMap); ("ExtraAnnotations", stringMap); ("WorkloadRef", pointer assign);
     ("ServiceRef", pointer assign); ("Source", v1beta1_Source_DeepCopyInto);
     ("Config", v1beta1_ServerConfig_DeepCopyInto); ("Runtime", v1beta1_RuntimeConfig_DeepCopyInto);
     ("MCP", v1beta1_MCPConfig_DeepCopyInto); ("Network", pointer v1beta1_NetworkConfig_DeepCopyInto);
     ("Transport", pointer v1beta1_TransportConfig_DeepCopyInto); ("Gateway", pointer assign)].
Definition v1beta1_MCPServerSpec_DeepCopy : val -> C val := pointer v1beta1_MCPServerSpec_DeepCopyInto.

Definition v1beta1_MCPServerInfo_DeepCopyInto : val -> C val := into [("Capabilities", pointer assign)].
Definition v1beta1_MCPServerInfo_DeepCopy : val -> C val := pointer v1beta1_MCPServerInfo_DeepCopyInto.

Definition v1beta1_MCPServerStatus_DeepCopyInto : val -> C val :=
  into
    [("GatewayBinding", pointer assign); ("Address", pointer assign);
     ("ServerInfo", pointer v1beta1_MCPServerInfo_DeepCopyInto); ("Conditions", slice (libCopy "metav1.Condition"))].
Definition v1beta1_MCPServerStatus_DeepCopy : val -> C val := pointer v1beta1_MCPServerStatus_DeepCopyInto.

Definition v1beta1_MCPServer_DeepCopyInto : val -> C val :=
  into
    [("TypeMeta", assign); ("ObjectMeta", libCopy "metav1.ObjectMeta"); ("Spec", v1beta1_MCPServerSpec_DeepCopyInto);
     ("Status", v1beta1_MCPServerStatus_DeepCopyInto)].
Definition v1beta1_MCPServer_DeepCopy : val -> C val := pointer v1beta1_MCPServer_DeepCopyInto.
Definition v1beta1_MCPServer_DeepCopyObject : val -> C (option val) := object v1beta1_MCPServer_DeepCopy.

Definition v1beta1_MCPServerAddress_DeepCopyInto : val -> C val := into [].
Definition v1beta1_MCPServerAddress_DeepCopy : val -> C val := pointer v1beta1_MCPServerAddress_DeepCopyInto.

Definition v1beta1_MCPServerCapabilities_DeepCopyInto : val -> C val := into [].
Definition v1beta1_MCPServerCapabilities_DeepCopy : val -> C val := pointer v1beta1_MCPServerCapabilities_DeepCopyInto.

Definition v1beta1_MCPServerList_DeepCopyInto : val -> C val :=
  into [("TypeMeta", assign); ("ListMeta", libCopy "metav1.ListMeta"); ("Items", slice v1beta1_MCPServer_DeepCopyInto)].
Definition v1beta1_MCPServerList_DeepCopy : val -> C val := pointer v1beta1_MCPServerList_DeepCopyInto.
Definition v1beta1_MCPServerList_DeepCopyObject : val -> C (option val) := object v1beta1_MCPServerList_DeepCopy.

Definition v1beta1_SecretReference_DeepCopyInto : val -> C val := into [].
Definition v1beta1_SecretReference_DeepCopy : val -> C val := pointer v1beta1_SecretReference_DeepCopyInto.

Definition v1beta1_ServiceReference_DeepCopyInto : val -> C val := into [].
Definition v1beta1_ServiceReference_DeepCopy : val -> C val := pointer v1beta1_ServiceReference_DeepCopyInto.

Definition v1beta1_WorkloadReference_DeepCopyInto : val -> C val := into [].
Definition v1beta1_WorkloadReference_DeepCopy : val -> C val := pointer v1beta1_WorkloadReference_DeepCopyInto.

(** ** api/v1alpha1/zz_generated.deepcopy.go *)

Definition v1alpha1_ContainerImageSource_DeepCopyInto : val -> C val := into [("ImagePullSecrets", slice assign)].
Definition v1alpha1_ContainerImageSource_DeepCopy : val -> C val := pointer v1alpha1_ContainerImageSource_DeepCopyInto.

Definition v1alpha1_HealthConfig_DeepCopyInto : val -> C val :=
  into [("LivenessProbe", pointer (libCopy "corev1.Probe")); ("ReadinessProbe", pointer (libCopy "corev1.Probe"))].
Definition v1alpha1_HealthConfig_DeepCopy : val -> C val := pointer v1alpha1_HealthConfig_DeepCopyInto.

Definition v1alpha1_MCPConfig_DeepCopyInto : val -> C val := into [("Stateless", pointer assign)].
Definition v1alpha1_MCPConfig_DeepCopy : val -> C val := pointer v1alpha1_MCPConfig_DeepCopyInto.

Definition v1alpha1_MCPGatewayBindingStatus_DeepCopyInto : val -> C val :=
  into [("Conditions", slice (libCopy "metav1.Condition"))].
Definition v1alpha1_MCPGatewayBindingStatus_DeepCopy : val -> C val := pointer v1alpha1_MCPGatewayBindingStatus_DeepCopyInto.

Definition v1alpha1_MCPGatewayBinding_DeepCopyInto : val -> C val :=
  into
    [("TypeMeta", assign); ("ObjectMeta", libCopy "metav1.ObjectMeta"); ("Spec", assign);
     ("Status", v1alpha1_MCPGatewayBindingStatus_DeepCopyInto)].
Definition v1alpha1_MCPGatewayBinding_DeepCopy : val -> C val := pointer v1alpha1_MCPGatewayBinding_DeepCopyInto.
Definition v1alpha1_MCPGatewayBinding_DeepCopyObject : val -> C (option val) := object v1alpha1_MCPGatewayBinding_DeepCopy.

Definition v1alpha1_MCPGatewayBindingList_DeepCopyInto : val -> C val :=
  into
    [("TypeMeta", assign); ("ListMeta", libCopy "metav1.ListMeta");
     ("Items", slice v1alpha1_MCPGatewayBinding_DeepCopyInto)].
Definition v1alpha1_MCPGatewayBindingList_DeepCopy : val -> C val := pointer v1alpha1_MCPGatewayBindingList_DeepCopyInto.
Definition v1alpha1_MCPGatewayBindingList_DeepCopyObject : val -> C (option val) := object v1alpha1_MCPGatewayBindingList_DeepCopy.

Definition v1alpha1_MCPGatewayBindingSpec_DeepCopyInto : val -> C val := into [].
Definition v1alpha1_MCPGatewayBindingSpec_DeepCopy : val -> C val := pointer v1alpha1_MCPGatewayBindingSpec_DeepCopyInto.

Definition v1alpha1_Source_DeepCopyInto : val -> C val :=
  into [("ContainerImage", pointer v1alpha1_ContainerImageSource_DeepCopyInto)].
Definition v1alpha1_Source_DeepCopy : val -> C val := pointer v1alpha1_Source_DeepCopyInto.

Definition v1alpha1_StorageSource_DeepCopyInto : val -> C val :=
  into
    [("ConfigMap", pointer (libCopy "corev1.ConfigMapVolumeSource"));
     ("Secret", pointer (libCopy "corev1.SecretVolumeSource"));
     ("EmptyDir", pointer (libCopy "corev1.EmptyDirVolumeSource"))].
Definition v1alpha1_StorageSource_DeepCopy : val -> C val := pointer v1alpha1_StorageSource_DeepCopyInto.

Definition v1alpha1_StorageMount_DeepCopyInto : val -> C val :=
  into [("Source", v1alpha1_StorageSource_DeepCopyInto)].
Definition v1alpha1_StorageMount_DeepCopy : val -> C val := pointer v1alpha1_StorageMount_DeepCopyInto.

Definition v1alpha1_ServerConfig_DeepCopyInto : val -> C val :=
  into
    [("Arguments", slice assign); ("Env", slice (libCopy "corev1.EnvVar"));
     ("EnvFrom", slice (libCopy "corev1.EnvFromSource")); ("Storage", slice v1alpha1_StorageMount_DeepCopyInto)].
Definition v1alpha1_ServerConfig_DeepCopy : val -> C val := pointer v1alpha1_ServerConfig_DeepCopyInto.

Definition v1alpha1_SecurityConfig_DeepCopyInto : val -> C val :=
  into
    [("PodSecurityContext", pointer (libCopy "corev1.PodSecurityContext"));
     ("SecurityContext", pointer (libCopy "corev1.SecurityContext"))].
Definition v1alpha1_SecurityConfig_DeepCopy : val -> C val := pointer v1alpha1_SecurityConfig_DeepCopyInto.

Definition v1alpha1_RuntimeConfig_DeepCopyInto : val -> C val :=
  into
    [("Replicas", pointer assign); ("Security", v1alpha1_SecurityConfig_DeepCopyInto);
     ("Resources", pointer (libCopy "corev1.ResourceRequirements")); ("Health", v1alpha1_HealthConfig_DeepCopyInto)].
Definition v1alpha1_RuntimeConfig_DeepCopy : val -> C val := pointer v1alpha1_RuntimeConfig_DeepCopyInto.

Definition v1alpha1_NetworkConfig_DeepCopyInto : val -> C val :=
  into
    [("IngressFrom", slice (libCopy "networkingv1.NetworkPolicyPeer"));
     ("EgressTo", slice (libCopy "networkingv1.NetworkPolicyPeer"));
     ("EgressPorts", slice (libCopy "networkingv1.NetworkPolicyPort"));
     ("DNSEgressPeer", pointer (libCopy "networkingv1.NetworkPolicyPeer"))].
Definition v1alpha1_NetworkConfig_DeepCopy : val -> C val := pointer v1alpha1_NetworkConfig_DeepCopyInto.

Definition v1alpha1_TLSClientConfig_DeepCopyInto : val -> C val := into [("CABundleSecret", pointer assign)].
Definition v1alpha1_TLSClientConfig_DeepCopy : val -> C val := pointer v1alpha1_TLSClientConfig_DeepCopyInto.

Definition v1alpha1_TransportConfig_DeepCopyInto : val -> C val :=
  into [("TLS", pointer v1alpha1_TLSClientConfig_DeepCopyInto)].
Definition v1alpha1_TransportConfig_DeepCopy : val -> C val := pointer v1alpha1_TransportConfig_DeepCopyInto.

Definition v1alpha1_MCPServerSpec_DeepCopyInto : val -> C val :=
  into
    [("ExtraLabels", stringMap); ("ExtraAnnotations", stringMap); ("Source", v1alpha1_Source_DeepCopyInto);
     ("Config", v1alpha1_ServerConfig_DeepCopyInto); ("Runtime", v1alpha1_RuntimeConfig_DeepCopyInto);
     ("MCP", v1alpha1_MCPConfig_DeepCopyInto); ("Network", pointer v1alpha1_NetworkConfig_DeepCopyInto);
     ("Transport", pointer v1alpha1_TransportConfig_DeepCopyInto)].
Definition v1alpha1_MCPServerSpec_DeepCopy : val -> C val := pointer v1alpha1_MCPServerSpec_DeepCopyInto.

Definition v1alpha1_MCPServerInfo_DeepCopyInto : val -> C val := into [("Capabilities", pointer assign)].
Definition v1alpha1_MCPServerInfo_DeepCopy : val -> C val := pointer v1alpha1_MCPServerInfo_DeepCopyInto.

Definition v1alpha1_MCPServerStatus_DeepCopyInto : val -> C val :=
  into
    [("Address", pointer assign); ("ServerInfo", pointer v1alpha1_MCPServerInfo_DeepCopyInto);
     ("Conditions", slice (libCopy "metav1.Condition"))].
Definition v1alpha1_MCPServerStatus_DeepCopy : val -> C val := pointer v1alpha1_MCPServerStatus_DeepCopyInto.

Definition v1alpha1_MCPServer_DeepCopyInto : val -> C val :=
  into
    [("TypeMeta", assign); ("ObjectMeta", libCopy "metav1.ObjectMeta"); ("Spec", v1alpha1_MCPServerSpec_DeepCopyInto);
     ("Status", v1alpha1_MCPServerStatus_DeepCopyInto)].
Definition v1alpha1_MCPServer_DeepCopy : val -> C val := pointer v1alpha1_MCPServer_DeepCopyInto.
Definition v1alpha1_MCPServer_DeepCopyObject : val -> C (option val) := object v1alpha1_MCPServer_DeepCopy.

Definition v1alpha1_MCPServerAddress_DeepCopyInto : val -> C val := into [].
Definition v1alpha1_MCPServerAddress_DeepCopy : val -> C val := pointer v1alpha1_MCPServerAddress_DeepCopyInto.

Definition v1alpha1_MCPServerCapabilities_DeepCopyInto : val -> C val := into [].
Definition v1alpha1_MCPServerCapabilities_DeepCopy : val -> C val := pointer v1alpha1_MCPServerCapabilities_DeepCopyInto.

Definition v1alpha1_MCPServerList_DeepCopyInto : val -> C val :=
  into [("TypeMeta", assign); ("ListMeta", libCopy "metav1.ListMeta"); ("Items", slice v1alpha1_MCPServer_DeepCopyInto)].
Definition v1alpha1_MCPServerList_DeepCopy : val -> C val := pointer v1alpha1_MCPServerList_DeepCopyInto.
Definition v1alpha1_MCPServerList_DeepCopyObject : val -> C (option val) := object v1alpha1_MCPServerList_DeepCopy.

Definition v1alpha1_SecretReference_DeepCopyInto : val -> C val := into [].
Definition v1alpha1_SecretReference_DeepCopy : val -> C val := pointer v1alpha1_SecretReference_DeepCopyInto.

(** ** providers/kuadrant/api/types.go *)

Definition kuadrant_MCPServerRegistration_DeepCopyInto : val -> C val :=
  into [("TypeMeta", assign); ("ObjectMeta", libCopy "metav1.ObjectMeta"); ("Spec", assign);
        ("Status", into [("Conditions", slice (libCopy "metav1.Condition"))])].
Definition kuadrant_MCPServerRegistration_DeepCopyObject : val -> C (option val) := object (pointer kuadrant_MCPServerRegistration_DeepCopyInto).

Definition kuadrant_MCPServerRegistrationList_DeepCopyInto : val -> C val :=
  into [("TypeMeta", assign); ("ListMeta", libCopy "metav1.ListMeta"); ("Items", slice kuadrant_MCPServerRegistration_DeepCopyInto)].
Definition kuadrant_MCPServerRegistrationList_DeepCopyObject : val -> C (option val) := object (pointer kuadrant_MCPServerRegistrationList_DeepCopyInto).

Definition kuadrant_MCPGatewayExtension_DeepCopyInto : val -> C val :=
  into [("TypeMeta", assign); ("ObjectMeta", libCopy "metav1.ObjectMeta"); ("Spec", assign);
        ("Status", into [("Conditions", slice (libCopy "metav1.Condition"))])].
Definition kuadrant_MCPGatewayExtension_DeepCopyObject : val -> C (option val) := object (pointer kuadrant_MCPGatewayExtension_DeepCopyInto).

Definition kuadrant_MCPGatewayExtensionList_DeepCopyInto : val -> C val :=
  into [("TypeMeta", assign); ("ListMeta", libCopy "metav1.ListMeta"); ("Items", slice kuadrant_MCPGatewayExtension_DeepCopyInto)].
Definition kuadrant_MCPGatewayExtensionList_DeepCopyObject : val -> C (option val) := object (pointer kuadrant_MCPGatewayExtensionList_DeepCopyInto).

(** All of them, by the struct they copy. *)
Definition deepCopies : list (string * (val -> C val)) :=
  [("v1beta1.ContainerImageSource", v1beta1_ContainerImageSource_DeepCopy);
   ("v1beta1.GatewayBindingStatus", v1beta1_GatewayBindingStatus_DeepCopy);
   ("v1beta1.GatewaySpec", v1beta1_GatewaySpec_DeepCopy); ("v1beta1.HealthConfig", v1beta1_HealthConfig_DeepCopy);
   ("v1beta1.MCPConfig", v1beta1_MCPConfig_DeepCopy); ("v1beta1.Source", v1beta1_Source_DeepCopy);
   ("v1beta1.StorageSource", v1beta1_StorageSource_DeepCopy);
   ("v1beta1.StorageMount", v1beta1_StorageMount_DeepCopy); ("v1beta1.ServerConfig", v1beta1_ServerConfig_DeepCopy);
   ("v1beta1.SecurityConfig", v1beta1_SecurityConfig_DeepCopy);
   ("v1beta1.RuntimeConfig", v1beta1_RuntimeConfig_DeepCopy);
   ("v1beta1.NetworkConfig", v1beta1_NetworkConfig_DeepCopy);
   ("v1beta1.TLSClientConfig", v1beta1_TLSClientConfig_DeepCopy);
   ("v1beta1.TransportConfig", v1beta1_TransportConfig_DeepCopy);
   ("v1beta1.MCPServerSpec", v1beta1_MCPServerSpec_DeepCopy);
   ("v1beta1.MCPServerInfo", v1beta1_MCPServerInfo_DeepCopy);
   ("v1beta1.MCPServerStatus", v1beta1_MCPServerStatus_DeepCopy); ("v1beta1.MCPServer", v1beta1_MCPServer_DeepCopy);
   ("v1beta1.MCPServerAddress", v1beta1_MCPServerAddress_DeepCopy);
   ("v1beta1.MCPServerCapabilities", v1beta1_MCPServerCapabilities_DeepCopy);
   ("v1beta1.MCPServerList", v1beta1_MCPServerList_DeepCopy);
   ("v1beta1.SecretReference", v1beta1_SecretReference_DeepCopy);
   ("v1beta1.ServiceReference", v1beta1_ServiceReference_DeepCopy);
   ("v1beta1.WorkloadReference", v1beta1_WorkloadReference_DeepCopy);
   ("v1alpha1.ContainerImageSource", v1alpha1_ContainerImageSource_DeepCopy);
   ("v1alpha1.HealthConfig", v1alpha1_HealthConfig_DeepCopy); ("v1alpha1.MCPConfig", v1alpha1_MCPConfig_DeepCopy);
   ("v1alpha1.MCPGatewayBindingStatus", v1alpha1_MCPGatewayBindingStatus_DeepCopy);
   ("v1alpha1.MCPGatewayBinding", v1alpha1_MCPGatewayBinding_DeepCopy);
   ("v1alpha1.MCPGatewayBindingList", v1alpha1_MCPGatewayBindingList_DeepCopy);
   ("v1alpha1.MCPGatewayBindingSpec", v1alpha1_MCPGatewayBindingSpec_DeepCopy);
   ("v1alpha1.Source", v1alpha1_Source_DeepCopy); ("v1alpha1.StorageSource", v1alpha1_StorageSource_DeepCopy);
   ("v1alpha1.StorageMount", v1alpha1_StorageMount_DeepCopy);
   ("v1alpha1.ServerConfig", v1alpha1_ServerConfig_DeepCopy);
   ("v1alpha1.SecurityConfig", v1alpha1_SecurityConfig_DeepCopy);
   ("v1alpha1.RuntimeConfig", v1alpha1_RuntimeConfig_DeepCopy);
   ("v1alpha1.NetworkConfig", v1alpha1_NetworkConfig_DeepCopy);
   ("v1alpha1.TLSClientConfig", v1alpha1_TLSClientConfig_DeepCopy);
   ("v1alpha1.TransportConfig", v1alpha1_TransportConfig_DeepCopy);
   ("v1alpha1.MCPServerSpec", v1alpha1_MCPServerSpec_DeepCopy);
   ("v1alpha1.MCPServerInfo", v1alpha1_MCPServerInfo_DeepCopy);
   ("v1alpha1.MCPServerStatus", v1alpha1_MCPServerStatus_DeepCopy);
   ("v1alpha1.MCPServer", v1alpha1_MCPServer_DeepCopy);
   ("v1alpha1.MCPServerAddress", v1alpha1_MCPServerAddress_DeepCopy);
   ("v1alpha1.MCPServerCapabilities", v1alpha1_MCPServerCapabilities_DeepCopy);
   ("v1alpha1.MCPServerList", v1alpha1_MCPServerList_DeepCopy);
   ("v1alpha1.SecretReference", v1alpha1_SecretReference_DeepCopy)].

Definition deepCopyObjects : list (string * (val -> C (option val))) :=
  [("v1beta1.MCPServer", v1beta1_MCPServer_DeepCopyObject);
   ("v1beta1.MCPServerList", v1beta1_MCPServerList_DeepCopyObject);
   ("v1alpha1.MCPGatewayBinding", v1alpha1_MCPGatewayBinding_DeepCopyObject);
   ("v1alpha1.MCPGatewayBindingList", v1alpha1_MCPGatewayBindingList_DeepCopyObject);
   ("v1alpha1.MCPServer", v1alpha1_MCPServer_DeepCopyObject);
   ("v1alpha1.MCPServerList", v1alpha1_MCPServerList_DeepCopyObject);
   ("kuadrant.MCPServerRegistration", kuadrant_MCPServerRegistration_DeepCopyObject);
   ("kuadrant.MCPServerRegistrationList", kuadrant_MCPServerRegistrationList_DeepCopyObject);
   ("kuadrant.MCPGatewayExtension", kuadrant_MCPGatewayExtension_DeepCopyObject);
   ("kuadrant.MCPGatewayExtensionList", kuadrant_MCPGatewayExtensionList_DeepCopyObject)].

End deepcopy.

(** What is relied on of other modules. *)
Class LibraryLaws (Lib : Library) : Prop := {
  LocalObjectReference_fields : libFields "corev1.LocalObjectReference" = Some [("Name", TStr)];
  TypeMeta_fields : libFields "metav1.TypeMeta" = Some [("Kind", TStr); ("APIVersion", TStr)];
  ObjectMeta_fields : exists fs, libFields "metav1.ObjectMeta" = Some fs /\ field "Annotations" fs = Some TMap;
  lib_copies n : n ∈ libraryStructs -> copies fieldsOf (libCopy n) (TStruct n)
}.

(** ** A patch against a copy ([EnsureBindingAnnotations] of providers/gateway.go) *)

Section patch.
Context `{Lib : Library}.

(** [x.f] of the struct in a variable. *)
Definition getField (n : string) (v : val) : C val :=
  match v with VStruct fs => match field n fs with Some x => ret x | None => stuck end | _ => stuck end.

Definition getAnnotations (binding : loc) : C val :=
  c ⇐ load binding ;;
  match c with
  | Var b => m ⇐ getField "ObjectMeta" b ;; getField "Annotations" m
  | _ => stuck
  end.

Definition setAnnotations (binding : loc) (a : val) : C unit :=
  c ⇐ load binding ;;
  match c with
  | Var (VStruct b) =>
      match field "ObjectMeta" b with
      | Some (VStruct m) => store binding (Var (VStruct (setField "ObjectMeta" (VStruct (setField "Annotations" a m)) b)))
      | _ => stuck
      end
  | _ => stuck
  end.

(** The update in place, once an annotation has to change. *)
Definition stampAnnotations (binding : loc) (desired : gmap string string) : C unit :=
  a ⇐ getAnnotations binding ;;
  m ⇐ (match a with
       | VMap None => m ⇐ alloc (Strings ∅) ;; _ ⇐ setAnnotations binding (VMap (Some m)) ;; ret m
       | VMap (Some m) => ret m
       | _ => stuck
       end) ;;
  c ⇐ load m ;;
  match c with
  | Strings old => store m (Strings (desired ∪ old))
  | _ => stuck
  end.

(** The result is what the patch is computed against. *)
Definition patchAnnotations (binding : loc) (desired : gmap string string) : C val :=
  base ⇐ v1alpha1_MCPGatewayBinding_DeepCopy (VPtr (Some binding)) ;;
  _ ⇐ stampAnnotations binding desired ;;
  ret base.

End patch.

(** ** Every function copies *)

Create HintDb copying discriminated.
#[export] Hint Resolve copies_pointer copies_slice copies_stringMap : copying.

Section proofs.
Context {Lib : Library} {Laws : LibraryLaws Lib}.

Lemma fields_of_library n : field n structs = None -> fieldsOf n = libFields n.
Proof. unfold fieldsOf. by intros ->. Qed.

Lemma flat_LocalObjectReference : flat fieldsOf (TStruct "corev1.LocalObjectReference").
Proof. eapply flat_struct; [rewrite fields_of_library by done; apply LocalObjectReference_fields|]. repeat constructor. Qed.

Lemma flat_TypeMeta : flat fieldsOf (TStruct "metav1.TypeMeta").
Proof. eapply flat_struct; [rewrite fields_of_library by done; apply TypeMeta_fields|]. repeat constructor. Qed.

(** A struct of this repository whose fields are flat. *)
Ltac solve_flat :=
  first [exact flat_LocalObjectReference | exact flat_TypeMeta
        | solve [constructor]
        | eapply flat_struct; [reflexivity|]; repeat (apply List.Forall_nil || (apply List.Forall_cons; [cbn; solve_flat|]))].

Ltac solve_copies :=
  lazymatch goal with
  | |- copies _ (libCopy ?n) _ => apply lib_copies; apply (bool_decide_eq_true _); vm_compute; reflexivity
  | |- copies _ assign _ => apply copies_assign; solve_flat
  | |- copies _ (pointer _) _ => apply copies_pointer; solve_copies
  | |- copies _ (slice _) _ => apply copies_slice; solve_copies
  | |- copies _ stringMap _ => apply copies_stringMap
  | |- copies _ (into _) _ => solve_into
  | |- copies _ ?k _ => first [solve [eauto with copying] | let f := eval red in k in change k with f; solve_copies]
  end
with solve_into :=
  eapply copies_into;
  [ reflexivity
  | apply (bool_decide_eq_true _); vm_compute; reflexivity
  | repeat (apply List.Forall_nil || (apply List.Forall_cons; [eexists; split; [reflexivity|cbn [snd]; solve_copies]|]))
  | repeat (apply List.Forall_nil || (apply List.Forall_cons;
      [first [left; apply (bool_decide_eq_true _); vm_compute; reflexivity | right; cbn [snd]; solve_flat]|])) ].

Lemma v1beta1_ContainerImageSource_copies : copies fieldsOf v1beta1_ContainerImageSource_DeepCopyInto (TStruct "v1beta1.ContainerImageSource").
Proof. unfold v1beta1_ContainerImageSource_DeepCopyInto. solve_copies. Qed.
#[local] Hint Resolve v1beta1_ContainerImageSource_copies : copying.
Lemma v1beta1_GatewayBindingStatus_copies : copies fieldsOf v1beta1_GatewayBindingStatus_DeepCopyInto (TStruct "v1beta1.GatewayBindingStatus").
Proof. unfold v1beta1_GatewayBindingStatus_DeepCopyInto. solve_copies. Qed.
#[local] Hint Resolve v1beta1_GatewayBindingStatus_copies : copying.
Lemma v1beta1_GatewaySpec_copies : copies fieldsOf v1beta1_GatewaySpec_DeepCopyInto (TStruct "v1beta1.GatewaySpec").
Proof. unfold v1beta1_GatewaySpec_DeepCopyInto. solve_copies. Qed.
#[local] Hint Resolve v1beta1_GatewaySpec_copies : copying.
Lemma v1beta1_HealthConfig_copies : copies fieldsOf v1beta1_HealthConfig_DeepCopyInto (TStruct "v1beta1.HealthConfig").
Proof. unfold v1beta1_HealthConfig_DeepCopyInto. solve_copies. Qed.
#[local] Hint Resolve v1beta1_HealthConfig_copies : copying.
Lemma v1beta1_MCPConfig_copies : copies fieldsOf v1beta1_MCPConfig_DeepCopyInto (TStruct "v1beta1.MCPConfig").
Proof. unfold v1beta1_MCPConfig_DeepCopyInto. solve_copies. Qed.
#[local] Hint Resolve v1beta1_MCPConfig_copies : copying.
Lemma v1beta1_Source_copies : copies fieldsOf v1beta1_Source_DeepCopyInto (TStruct "v1beta1.Source").
Proof. unfold v1beta1_Source_DeepCopyInto. solve_copies. Qed.
#[local] Hint Resolve v1beta1_Source_copies : copying.
Lemma v1beta1_StorageSource_copies : copies fieldsOf v1beta1_StorageSource_DeepCopyInto (TStruct "v1beta1.StorageSource").
Proof. unfold v1beta1_StorageSource_DeepCopyInto. solve_copies. Qed.
#[local] Hint Resolve v1beta1_StorageSource_copies : copying.
Lemma v1beta1_StorageMount_copies : copies fieldsOf v1beta1_StorageMount_DeepCopyInto (TStruct "v1beta1.StorageMount").
Proof. unfold v1beta1_StorageMount_DeepCopyInto. solve_copies. Qed.
#[local] Hint Resolve v1beta1_StorageMount_copies : copying.
Lemma v1beta1_ServerConfig_copies : copies fieldsOf v1beta1_ServerConfig_DeepCopyInto (TStruct "v1beta1.ServerConfig").
Proof. unfold v1beta1_ServerConfig_DeepCopyInto. solve_copies. Qed.
#[local] Hint Resolve v1beta1_ServerConfig_copies : copying.
Lemma v1beta1_SecurityConfig_copies : copies fieldsOf v1beta1_SecurityConfig_DeepCopyInto (TStruct "v1beta1.SecurityConfig").
Proof. unfold v1beta1_SecurityConfig_DeepCopyInto. solve_copies. Qed.
#[local] Hint Resolve v1beta1_SecurityConfig_copies : copying.
Lemma v1beta1_RuntimeConfig_copies : copies fieldsOf v1beta1_RuntimeConfig_DeepCopyInto (TStruct "v1beta1.RuntimeConfig").
Proof. unfold v1beta1_RuntimeConfig_DeepCopyInto. solve_copies. Qed.
#[local] Hint Resolve v1beta1_RuntimeConfig_copies : copying.
Lemma v1beta1_NetworkConfig_copies : copies fieldsOf v1beta1_NetworkConfig_DeepCopyInto (TStruct "v1beta1.NetworkConfig").
Proof. unfold v1beta1_NetworkConfig_DeepCopyInto. solve_copies. Qed.
#[local] Hint Resolve v1beta1_NetworkConfig_copies : copying.
Lemma v1beta1_TLSClientConfig_copies : copies fieldsOf v1beta1_TLSClientConfig_DeepCopyInto (TStruct "v1beta1.TLSClientConfig").
Proof. unfold v1beta1_TLSClientConfig_DeepCopyInto. solve_copies. Qed.
#[local] Hint Resolve v1beta1_TLSClientConfig_copies : copying.
Lemma v1beta1_TransportConfig_copies : copies fieldsOf v1beta1_TransportConfig_DeepCopyInto (TStruct "v1beta1.TransportConfig").
Proof. unfold v1beta1_TransportConfig_DeepCopyInto. solve_copies. Qed.
#[local] Hint Resolve v1beta1_TransportConfig_copies : copying.
Lemma v1beta1_MCPServerSpec_copies : copies fieldsOf v1beta1_MCPServerSpec_DeepCopyInto (TStruct "v1beta1.MCPServerSpec").
Proof. unfold v1beta1_MCPServerSpec_DeepCopyInto. solve_copies. Qed.
#[local] Hint Resolve v1beta1_MCPServerSpec_copies : copying.
Lemma v1beta1_MCPServerInfo_copies : copies fieldsOf v1beta1_MCPServerInfo_DeepCopyInto (TStruct "v1beta1.MCPServerInfo").
Proof. unfold v1beta1_MCPServerInfo_DeepCopyInto. solve_copies. Qed.
#[local] Hint Resolve v1beta1_MCPServerInfo_copies : copying.
Lemma v1beta1_MCPServerStatus_copies : copies fieldsOf v1beta1_MCPServerStatus_DeepCopyInto (TStruct "v1beta1.MCPServerStatus").
Proof. unfold v1beta1_MCPServerStatus_DeepCopyInto. solve_copies. Qed.
#[local] Hint Resolve v1beta1_MCPServerStatus_copies : copying.
Lemma v1beta1_MCPServer_copies : copies fieldsOf v1beta1_MCPServer_DeepCopyInto (TStruct "v1beta1.MCPServer").
Proof. unfold v1beta1_MCPServer_DeepCopyInto. solve_copies. Qed.
#[local] Hint Resolve v1beta1_MCPServer_copies : copying.
Lemma v1beta1_MCPServerAddress_copies : copies fieldsOf v1beta1_MCPServerAddress_DeepCopyInto (TStruct "v1beta1.MCPServerAddress").
Proof. unfold v1beta1_MCPServerAddress_DeepCopyInto. solve_copies. Qed.
#[local] Hint Resolve v1beta1_MCPServerAddress_copies : copying.
Lemma v1beta1_MCPServerCapabilities_copies : copies fieldsOf v1beta1_MCPServerCapabilities_DeepCopyInto (TStruct "v1beta1.MCPServerCapabilities").
Proof. unfold v1beta1_MCPServerCapabilities_DeepCopyInto. solve_copies. Qed.
#[local] Hint Resolve v1beta1_MCPServerCapabilities_copies : copying.
Lemma v1beta1_MCPServerList_copies : copies fieldsOf v1beta1_MCPServerList_DeepCopyInto (TStruct "v1beta1.MCPServerList").
Proof. unfold v1beta1_MCPServerList_DeepCopyInto. solve_copies. Qed.
#[local] Hint Resolve v1beta1_MCPServerList_copies : copying.
Lemma v1beta1_SecretReference_copies : copies fieldsOf v1beta1_SecretReference_DeepCopyInto (TStruct "v1beta1.SecretReference").
Proof. unfold v1beta1_SecretReference_DeepCopyInto. solve_copies. Qed.
#[local] Hint Resolve v1beta1_SecretReference_copies : copying.
Lemma v1beta1_ServiceReference_copies : copies fieldsOf v1beta1_ServiceReference_DeepCopyInto (TStruct "v1beta1.ServiceReference").
Proof. unfold v1beta1_ServiceReference_DeepCopyInto. solve_copies. Qed.
#[local] Hint Resolve v1beta1_ServiceReference_copies : copying.
Lemma v1beta1_WorkloadReference_copies : copies fieldsOf v1beta1_WorkloadReference_DeepCopyInto (TStruct "v1beta1.WorkloadReference").
Proof. unfold v1beta1_WorkloadReference_DeepCopyInto. solve_copies. Qed.
#[local] Hint Resolve v1beta1_WorkloadReference_copies : copying.
Lemma v1alpha1_ContainerImageSource_copies : copies fieldsOf v1alpha1_ContainerImageSource_DeepCopyInto (TStruct "v1alpha1.ContainerImageSource").
Proof. unfold v1alpha1_ContainerImageSource_DeepCopyInto. solve_copies. Qed.
#[local] Hint Resolve v1alpha1_ContainerImageSource_copies : copying.
Lemma v1alpha1_HealthConfig_copies : copies fieldsOf v1alpha1_HealthConfig_DeepCopyInto (TStruct "v1alpha1.HealthConfig").
Proof. unfold v1alpha1_HealthConfig_DeepCopyInto. solve_copies. Qed.
#[local] Hint Resolve v1alpha1_HealthConfig_copies : copying.
Lemma v1alpha1_MCPConfig_copies : copies fieldsOf v1alpha1_MCPConfig_DeepCopyInto (TStruct "v1alpha1.MCPConfig").
Proof. unfold v1alpha1_MCPConfig_DeepCopyInto. solve_copies. Qed.
#[local] Hint Resolve v1alpha1_MCPConfig_copies : copying.
Lemma v1alpha1_MCPGatewayBindingStatus_copies : copies fieldsOf v1alpha1_MCPGatewayBindingStatus_DeepCopyInto (TStruct "v1alpha1.MCPGatewayBindingStatus").
Proof. unfold v1alpha1_MCPGatewayBindingStatus_DeepCopyInto. solve_copies. Qed.
#[local] Hint Resolve v1alpha1_MCPGatewayBindingStatus_copies : copying.
Lemma v1alpha1_MCPGatewayBinding_copies : copies fieldsOf v1alpha1_MCPGatewayBinding_DeepCopyInto (TStruct "v1alpha1.MCPGatewayBinding").
Proof. unfold v1alpha1_MCPGatewayBinding_DeepCopyInto. solve_copies. Qed.
#[local] Hint Resolve v1alpha1_MCPGatewayBinding_copies : copying.
Lemma v1alpha1_MCPGatewayBindingList_copies : copies fieldsOf v1alpha1_MCPGatewayBindingList_DeepCopyInto (TStruct "v1alpha1.MCPGatewayBindingList").
Proof. unfold v1alpha1_MCPGatewayBindingList_DeepCopyInto. solve_copies. Qed.
#[local] Hint Resolve v1alpha1_MCPGatewayBindingList_copies : copying.
Lemma v1alpha1_MCPGatewayBindingSpec_copies : copies fieldsOf v1alpha1_MCPGatewayBindingSpec_DeepCopyInto (TStruct "v1alpha1.MCPGatewayBindingSpec").
Proof. unfold v1alpha1_MCPGatewayBindingSpec_DeepCopyInto. solve_copies. Qed.
#[local] Hint Resolve v1alpha1_MCPGatewayBindingSpec_copies : copying.
Lemma v1alpha1_Source_copies : copies fieldsOf v1alpha1_Source_DeepCopyInto (TStruct "v1alpha1.Source").
Proof. unfold v1alpha1_Source_DeepCopyInto. solve_copies. Qed.
#[local] Hint Resolve v1alpha1_Source_copies : copying.
Lemma v1alpha1_StorageSource_copies : copies fieldsOf v1alpha1_StorageSource_DeepCopyInto (TStruct "v1alpha1.StorageSource").
Proof. unfold v1alpha1_StorageSource_DeepCopyInto. solve_copies. Qed.
#[local] Hint Resolve v1alpha1_StorageSource_copies : copying.
Lemma v1alpha1_StorageMount_copies : copies fieldsOf v1alpha1_StorageMount_DeepCopyInto (TStruct "v1alpha1.StorageMount").
Proof. unfold v1alpha1_StorageMount_DeepCopyInto. solve_copies. Qed.
#[local] Hint Resolve v1alpha1_StorageMount_copies : copying.
Lemma v1alpha1_ServerConfig_copies : copies fieldsOf v1alpha1_ServerConfig_DeepCopyInto (TStruct "v1alpha1.ServerConfig").
Proof. unfold v1alpha1_ServerConfig_DeepCopyInto. solve_copies. Qed.
#[local] Hint Resolve v1alpha1_ServerConfig_copies : copying.
Lemma v1alpha1_SecurityConfig_copies : copies fieldsOf v1alpha1_SecurityConfig_DeepCopyInto (TStruct "v1alpha1.SecurityConfig").
Proof. unfold v1alpha1_SecurityConfig_DeepCopyInto. solve_copies. Qed.
#[local] Hint Resolve v1alpha1_SecurityConfig_copies : copying.
Lemma v1alpha1_RuntimeConfig_copies : copies fieldsOf v1alpha1_RuntimeConfig_DeepCopyInto (TStruct "v1alpha1.RuntimeConfig").
Proof. unfold v1alpha1_RuntimeConfig_DeepCopyInto. solve_copies. Qed.
#[local] Hint Resolve v1alpha1_RuntimeConfig_copies : copying.
Lemma v1alpha1_NetworkConfig_copies : copies fieldsOf v1alpha1_NetworkConfig_DeepCopyInto (TStruct "v1alpha1.NetworkConfig").
Proof. unfold v1alpha1_NetworkConfig_DeepCopyInto. solve_copies. Qed.
#[local] Hint Resolve v1alpha1_NetworkConfig_copies : copying.
Lemma v1alpha1_TLSClientConfig_copies : copies fieldsOf v1alpha1_TLSClientConfig_DeepCopyInto (TStruct "v1alpha1.TLSClientConfig").
Proof. unfold v1alpha1_TLSClientConfig_DeepCopyInto. solve_copies. Qed.
#[local] Hint Resolve v1alpha1_TLSClientConfig_copies : copying.
Lemma v1alpha1_TransportConfig_copies : copies fieldsOf v1alpha1_TransportConfig_DeepCopyInto (TStruct "v1alpha1.TransportConfig").
Proof. unfold v1alpha1_TransportConfig_DeepCopyInto. solve_copies. Qed.
#[local] Hint Resolve v1alpha1_TransportConfig_copies : copying.
Lemma v1alpha1_MCPServerSpec_copies : copies fieldsOf v1alpha1_MCPServerSpec_DeepCopyInto (TStruct "v1alpha1.MCPServerSpec").
Proof. unfold v1alpha1_MCPServerSpec_DeepCopyInto. solve_copies. Qed.
#[local] Hint Resolve v1alpha1_MCPServerSpec_copies : copying.
Lemma v1alpha1_MCPServerInfo_copies : copies fieldsOf v1alpha1_MCPServerInfo_DeepCopyInto (TStruct "v1alpha1.MCPServerInfo").
Proof. unfold v1alpha1_MCPServerInfo_DeepCopyInto. solve_copies. Qed.
#[local] Hint Resolve v1alpha1_MCPServerInfo_copies : copying.
Lemma v1alpha1_MCPServerStatus_copies : copies fieldsOf v1alpha1_MCPServerStatus_DeepCopyInto (TStruct "v1alpha1.MCPServerStatus").
Proof. unfold v1alpha1_MCPServerStatus_DeepCopyInto. solve_copies. Qed.
#[local] Hint Resolve v1alpha1_MCPServerStatus_copies : copying.
Lemma v1alpha1_MCPServer_copies : copies fieldsOf v1alpha1_MCPServer_DeepCopyInto (TStruct "v1alpha1.MCPServer").
Proof. unfold v1alpha1_MCPServer_DeepCopyInto. solve_copies. Qed.
#[local] Hint Resolve v1alpha1_MCPServer_copies : copying.
Lemma v1alpha1_MCPServerAddress_copies : copies fieldsOf v1alpha1_MCPServerAddress_DeepCopyInto (TStruct "v1alpha1.MCPServerAddress").
Proof. unfold v1alpha1_MCPServerAddress_DeepCopyInto. solve_copies. Qed.
#[local] Hint Resolve v1alpha1_MCPServerAddress_copies : copying.
Lemma v1alpha1_MCPServerCapabilities_copies : copies fieldsOf v1alpha1_MCPServerCapabilities_DeepCopyInto (TStruct "v1alpha1.MCPServerCapabilities").
Proof. unfold v1alpha1_MCPServerCapabilities_DeepCopyInto. solve_copies. Qed.
#[local] Hint Resolve v1alpha1_MCPServerCapabilities_copies : copying.
Lemma v1alpha1_MCPServerList_copies : copies fieldsOf v1alpha1_MCPServerList_DeepCopyInto (TStruct "v1alpha1.MCPServerList").
Proof. unfold v1alpha1_MCPServerList_DeepCopyInto. solve_copies. Qed.
#[local] Hint Resolve v1alpha1_MCPServerList_copies : copying.
Lemma v1alpha1_SecretReference_copies : copies fieldsOf v1alpha1_SecretReference_DeepCopyInto (TStruct "v1alpha1.SecretReference").
Proof. unfold v1alpha1_SecretReference_DeepCopyInto. solve_copies. Qed.
#[local] Hint Resolve v1alpha1_SecretReference_copies : copying.
Lemma kuadrant_MCPServerRegistration_copies : copies fieldsOf kuadrant_MCPServerRegistration_DeepCopyInto (TStruct "kuadrant.MCPServerRegistration").
Proof. unfold kuadrant_MCPServerRegistration_DeepCopyInto. solve_copies. Qed.
#[local] Hint Resolve kuadrant_MCPServerRegistration_copies : copying.
Lemma kuadrant_MCPServerRegistrationList_copies : copies fieldsOf kuadrant_MCPServerRegistrationList_DeepCopyInto (TStruct "kuadrant.MCPServerRegistrationList").
Proof. unfold kuadrant_MCPServerRegistrationList_DeepCopyInto. solve_copies. Qed.
#[local] Hint Resolve kuadrant_MCPServerRegistrationList_copies : copying.
Lemma kuadrant_MCPGatewayExtension_copies : copies fieldsOf kuadrant_MCPGatewayExtension_DeepCopyInto (TStruct "kuadrant.MCPGatewayExtension").
Proof. unfold kuadrant_MCPGatewayExtension_DeepCopyInto. solve_copies. Qed.
#[local] Hint Resolve kuadrant_MCPGatewayExtension_copies : copying.
Lemma kuadrant_MCPGatewayExtensionList_copies : copies fieldsOf kuadrant_MCPGatewayExtensionList_DeepCopyInto (TStruct "kuadrant.MCPGatewayExtensionList").
Proof. unfold kuadrant_MCPGatewayExtensionList_DeepCopyInto. solve_copies. Qed.
#[local] Hint Resolve kuadrant_MCPGatewayExtensionList_copies : copying.

Lemma deepCopies_copy : Forall (fun c => copies fieldsOf c.2 (TPtr (TStruct c.1))) deepCopies.
Proof. repeat (apply List.Forall_cons; [apply copies_pointer; cbn [fst]; eauto with copying|]). apply List.Forall_nil. Qed.

(** An interface holds what the copy returned, and is nil for a nil pointer. *)
Definition objectCopies (c : string * (val -> C (option val))) : Prop :=
  exists k, copies fieldsOf k (TStruct c.1) /\ c.2 = object (pointer k).

Lemma deepCopyObjects_copy : Forall objectCopies deepCopyObjects.
Proof. repeat (apply List.Forall_cons; [eexists; split; [cbn [fst]; eauto with copying|reflexivity]|]). apply List.Forall_nil. Qed.

Lemma object_copies k t h v d : copies fieldsOf k t -> hasType fieldsOf (TPtr t) d -> reads (fun _ => True) h v d ->
  exists c h', object (pointer k) v h = Some (c, h') /\
    (c = None /\ v = VPtr None /\ h' = h \/ exists v', c = Some v' /\ v <> VPtr None /\ pointer k v h = Some (v', h')).
Proof.
  intros Hk Ht Hr. destruct (copies_pointer _ _ _ Hk h v d Ht Hr) as (v' & h' & Hrun & _). unfold object, bind, ret. rewrite Hrun. cbn.
  eexists _, _. split; [reflexivity|]. destruct v as [| | |[l|]| | |]; try done.
  - right. exists v'. split_and!; [|done|done]. cbn in Hrun. unfold bind, load, ret in Hrun. destruct (h !! l) as [[x| |]|]; try done.
    cbn in Hrun. destruct (k x h) as [[x' h1]|]; [|done]. cbn in Hrun. by injection Hrun as <- _.
  - left. injection Hrun as <- <-. done.
Qed.

(** C26: Every generated or hand-written deep copy succeeds on whatever can be read: the copy
    stands for the same value (nil where that is nil), no existing cell is changed, and the
    two are apart: no write to a cell that existed before is seen through the copy, and no
    write to a new cell through the original.  As a [runtime.Object], a nil pointer becomes
    a nil interface and any other its copy. *)
Theorem deep_copy_isolated T h v d :
  hasType fieldsOf (TPtr (TStruct T)) d -> reads (fun _ => True) h v d ->
  (forall copy, In (T, copy) deepCopies ->
     exists v' h', copy v h = Some (v', h') /\ h ⊆ h' /\ reads (fun l => h !! l = None) h' v' d /\
       (forall g, (forall l, h !! l = None -> g !! l = h' !! l) -> reads (fun _ => True) g v' d) /\
       (forall g, (forall l, is_Some (h !! l) -> g !! l = h' !! l) -> reads (fun _ => True) g v d)) /\
  (forall copy, In (T, copy) deepCopyObjects ->
     exists c h', copy v h = Some (c, h') /\ (c = None <-> v = VPtr None) /\
       (forall v', c = Some v' -> h ⊆ h' /\ reads (fun l => h !! l = None) h' v' d)).
Proof.
  intros Ht Hr. split; intros copy Hin.
  - eapply copies_isolated; [|done|done]. by apply (proj1 (List.Forall_forall _ _) deepCopies_copy) in Hin.
  - apply (proj1 (List.Forall_forall _ _) deepCopyObjects_copy) in Hin as (k & Hk & Ek). cbn in Hk, Ek. subst copy.
    destruct (object_copies k _ h v d Hk Ht Hr) as (c & h' & Hrun & Hc). exists c, h'. split; [done|].
    destruct Hc as [(-> & -> & ->)|(v' & -> & Hv & Hcopy)]; [done|]. split; [done|]. intros w [= <-].
    destruct (copies_pointer _ _ _ Hk h v d Ht Hr) as (w & h1 & Hrun' & Hs & Hnew). rewrite Hcopy in Hrun'. by injection Hrun' as <- <-.
Qed.

(** ** The patch of the annotations *)

(** The variable of a binding that can be read, and the annotations in it. *)
Lemma binding_read P h l ds :
  hasType fieldsOf (TStruct "v1alpha1.MCPGatewayBinding") (DStruct ds) -> reads P h (VPtr (Some l)) (DPtr (DStruct ds)) ->
  exists b m dm a da, h !! l = Some (Var (VStruct b)) /\ field "ObjectMeta" b = Some (VStruct m) /\
    field "ObjectMeta" ds = Some (DStruct dm) /\ field "Annotations" m = Some a /\ field "Annotations" dm = Some da /\
    reads P h a da /\ (a = VMap None /\ da = DNilMap \/ exists p old, a = VMap (Some p) /\ da = DMap old).
Proof.
  intros Ht [_ (x & Hl & Hr)]. destruct x as [| | | | | |b]; try done. cbn in Ht, Hr. apply all2_Forall2 in Ht, Hr.
  assert (exists dm, field "ObjectMeta" ds = Some dm) as [dm Hdm].
  { inversion Ht as [|? [] ? ? [Hn1 _] Ht1]; subst. inversion Ht1 as [|? [] ? ? [Hn2 _] _]; subst. cbn in *. subst. cbn. eauto. }
  destruct (field_related _ _ _ _ _ Ht Hdm) as (t & Hft & Hdt). injection Hft as <-.
  destruct (field_related _ _ _ _ _ Hr Hdm) as (m & Hm & Hrm).
  destruct ObjectMeta_fields as (fs & Hfs & Hann). destruct dm as [| | | | | | | | |dm]; try done. cbn in Hdt.
  rewrite Hfs in Hdt. destruct m as [| | | | | |m]; try done. cbn in Hrm. apply all2_Forall2 in Hdt, Hrm.
  assert (exists da, field "Annotations" dm = Some da) as [da Hda].
  { clear -Hdt Hann. induction Hdt as [|[f t] [n d] ? ? [Hn _] _ IH]; cbn in *; [done|]. subst. destruct (String.eqb n "Annotations"); eauto. }
  destruct (field_related _ _ _ _ _ Hdt Hda) as (t' & Hft' & Hdat). rewrite Hann in Hft'. injection Hft' as <-.
  destruct (field_related _ _ _ _ _ Hrm Hda) as (a & Ha & Hra). exists b, m, dm, a, da. split_and!; try done.
  destruct da as [| | | | | | | |old|]; try done; destruct a as [| | | | |[p|]|]; try done; [by left|right; eauto].
Qed.


Lemma bind_run {A B} (m : C A) (k : A -> C B) h a h' : m h = Some (a, h') -> bind m k h = k a h'.
Proof. unfold bind. by intros ->. Qed.

Lemma load_run (h : heap) l c : h !! l = Some c -> load l h = Some (c, h).
Proof. unfold load. by intros ->. Qed.

Lemma getAnnotations_run (h : heap) l b m a : h !! l = Some (Var (VStruct b)) -> field "ObjectMeta" b = Some (VStruct m) ->
  field "Annotations" m = Some a -> getAnnotations l h = Some (a, h).
Proof. intros Hl Hb Hm. unfold getAnnotations. rewrite (bind_run _ _ _ _ _ (load_run _ _ _ Hl)). cbn. unfold bind. rewrite Hb. cbn. by rewrite Hm. Qed.

Lemma setAnnotations_run (h : heap) l b m a : h !! l = Some (Var (VStruct b)) -> field "ObjectMeta" b = Some (VStruct m) ->
  setAnnotations l a h = Some (tt, <[l := Var (VStruct (setField "ObjectMeta" (VStruct (setField "Annotations" a m)) b))]> h).
Proof. intros Hl Hb. unfold setAnnotations. rewrite (bind_run _ _ _ _ _ (load_run _ _ _ Hl)). cbn. by rewrite Hb. Qed.

Lemma field_set_same {A} n (a b : A) fs : field n fs = Some b -> field n (setField n a fs) = Some a.
Proof. intros H. rewrite field_setField, String.eqb_refl. case_bool_decide as Hin; [done|]. by apply field_In in H. Qed.

(** What stamping leaves: the annotations in place, other cells as they were. *)
Lemma stampAnnotations_spec P h l ds desired :
  hasType fieldsOf (TStruct "v1alpha1.MCPGatewayBinding") (DStruct ds) -> reads P h (VPtr (Some l)) (DPtr (DStruct ds)) ->
  exists h' p old, stampAnnotations l desired h = Some (tt, h') /\
    (exists dm, field "ObjectMeta" ds = Some (DStruct dm) /\
       (field "Annotations" dm = Some (DMap old) \/ field "Annotations" dm = Some DNilMap /\ old = ∅)) /\
    getAnnotations l h' = Some (VMap (Some p), h') /\ h' !! p = Some (Strings (desired ∪ old)) /\
    (P p \/ h !! p = None) /\ (forall q, q <> l -> q <> p -> h' !! q = h !! q).
Proof.
  intros Ht Hr. destruct (binding_read _ _ _ _ Ht Hr) as (b & m & dm & a & da & Hl & Hb & Hdb & Hm & Hdm & Hra & Hcase).
  pose proof (getAnnotations_run _ _ _ _ _ Hl Hb Hm) as Hget.
  unfold stampAnnotations. rewrite (bind_run _ _ _ _ _ Hget). destruct Hcase as [[-> ->]|(p & old & -> & ->)].
  - destruct (alloc_new h (Strings ∅)) as (p & Halloc & Hnew). assert (p <> l) as Hpl by (intros ->; by rewrite Hl in Hnew).
    assert (Hl1 : <[p := Strings ∅]> h !! l = Some (Var (VStruct b))) by by rewrite lookup_insert_ne.
    pose proof (setAnnotations_run _ _ _ _ (VMap (Some p)) Hl1 Hb) as Hset. set (h2 := <[l := _]> _) in Hset.
    assert (Hp2 : h2 !! p = Some (Strings ∅)) by (unfold h2; by rewrite lookup_insert_ne, lookup_insert_eq).
    eexists _, p, ∅. split.
    { erewrite bind_run; [|erewrite bind_run by exact Halloc; erewrite bind_run by exact Hset; reflexivity].
      rewrite (bind_run _ _ _ _ _ (load_run _ _ _ Hp2)). reflexivity. }
    split; [by exists dm; eauto|]. split; [|split; [apply lookup_insert_eq|split; [by right|]]].
    + eapply getAnnotations_run; [unfold h2; rewrite (lookup_insert_ne _ p l), lookup_insert_eq by done; reflexivity| |];
        by eapply field_set_same.
    + intros q Hql Hqp. unfold h2. by rewrite !lookup_insert_ne.
  - cbn in Hra. destruct Hra as [HP Hp]. assert (p <> l) as Hpl by (intros ->; by rewrite Hl in Hp).
    eexists _, p, old. split; [erewrite bind_run by reflexivity; rewrite (bind_run _ _ _ _ _ (load_run _ _ _ Hp)); reflexivity|].
    split; [by exists dm; eauto|]. split; [|split; [apply lookup_insert_eq|split; [by left|intros q _ Hqp; by rewrite lookup_insert_ne]]].
    eapply getAnnotations_run; [by rewrite lookup_insert_ne|done|done].
Qed.

(** The patch that records a binding's references is computed against the binding as it
    was: after the annotations were stamped, in place or into a new map, the binding has the
    desired ones over those it had, and the base still stands for what was read, annotations
    included. *)
Theorem patch_base_intact h l d desired :
  hasType fieldsOf (TPtr (TStruct "v1alpha1.MCPGatewayBinding")) d -> d <> DNilPtr -> reads (fun _ => True) h (VPtr (Some l)) d ->
  exists base h' p ds dm old, patchAnnotations l desired h = Some (base, h') /\ reads (fun _ => True) h' base d /\
    d = DPtr (DStruct ds) /\ field "ObjectMeta" ds = Some (DStruct dm) /\
    (field "Annotations" dm = Some (DMap old) \/ field "Annotations" dm = Some DNilMap /\ old = ∅) /\
    getAnnotations l h' = Some (VMap (Some p), h') /\ h' !! p = Some (Strings (desired ∪ old)).
Proof.
  intros Ht Hn Hr. destruct d as [| | | |d| | | | |]; try done. destruct d as [| | | | | | | | |ds]; try done.
  destruct (copies_pointer _ _ _ v1alpha1_MCPGatewayBinding_copies h _ _ Ht Hr) as (base & h1 & Hrun & Hs & Hnew).
  pose proof (reads_grow _ _ _ _ _ Hs (reads_dom _ _ _ Hr)) as Hr1.
  destruct (stampAnnotations_spec _ h1 l ds desired Ht Hr1) as (h2 & p & old & Hstamp & (dm & Hdm & Hold) & Hget & Hp & Hown & Hother).
  exists base, h2, p, ds, dm, old. split_and!; try done.
  - unfold patchAnnotations, v1alpha1_MCPGatewayBinding_DeepCopy, bind, ret. rewrite Hrun. cbn. by rewrite Hstamp.
  - eapply reads_mono; [|exact Hnew]. intros q c Hq Hc. split; [done|]. rewrite Hother; [done| |].
    + intros ->. destruct Hr as [_ (x & Hx & _)]. by rewrite Hq in Hx.
    + intros ->. destruct Hown as [[? Hsome]|Hnone]; congruence.
Qed.


End proofs.

(** ** A concrete library, and concrete heaps *)

Definition modelLibrary : Library := {|
  libFields n :=
    if String.eqb n "metav1.TypeMeta" then Some [("Kind", TStr); ("APIVersion", TStr)]
    else if String.eqb n "metav1.ObjectMeta" then Some [("Name", TStr); ("Labels", TMap); ("Annotations", TMap)]
    else if String.eqb n "networkingv1.NetworkPolicyPeer" then Some [("PodSelector", TPtr (TStruct "metav1.LabelSelector"))]
    else if String.eqb n "metav1.LabelSelector" then Some [("MatchLabels", TMap)]
    else Some [("Name", TStr)];
  libCopy n :=
    if String.eqb n "metav1.ObjectMeta" then into [("Labels", stringMap); ("Annotations", stringMap)]
    else if String.eqb n "networkingv1.NetworkPolicyPeer" then into [("PodSelector", pointer (into [("MatchLabels", stringMap)]))]
    else into []
|}.

Lemma modelLibrary_laws : LibraryLaws modelLibrary.
Proof.
  assert (Hcopies : forall n fs body, @fieldsOf modelLibrary n = Some fs -> bool_decide (NoDup (map fst fs)) = true ->
    Forall (fun s : statement => exists t, field s.1 fs = Some t /\ copies (@fieldsOf modelLibrary) s.2 t) body ->
    Forall (fun f => f.1 ∈ map fst body \/ flat (@fieldsOf modelLibrary) f.2) fs ->
    copies (@fieldsOf modelLibrary) (into body) (TStruct n)).
  { intros n fs body Hn Hd. by apply copies_into; [|apply (bool_decide_eq_true _)]. }
  assert (Hname : forall n, @fieldsOf modelLibrary n = Some [("Name", TStr)] -> copies (@fieldsOf modelLibrary) (into []) (TStruct n)).
  { intros n Hn. apply (Hcopies _ _ _ Hn); [done|constructor|]. apply List.Forall_cons; [right|]; constructor. }
  split; [done|done|by eexists|].
  intros n Hn. unfold libraryStructs in Hn. repeat (apply elem_of_cons in Hn as [->|Hn]); try (by apply Hname); [| |by apply elem_of_nil in Hn].
  - eapply Hcopies; [reflexivity|done| |].
    + repeat constructor. eexists. split; [reflexivity|]. apply copies_pointer. eapply Hcopies; [reflexivity|done| |].
      * repeat constructor. eexists. split; [reflexivity|]. apply copies_stringMap.
      * repeat constructor.
    + repeat constructor.
  - eapply Hcopies; [reflexivity|done| |].
    + repeat constructor; (eexists; split; [reflexivity|apply copies_stringMap]).
    + apply List.Forall_cons; [right; constructor|]. repeat constructor.
Qed.

(** A network configuration whose ingress and egress peers are windows of one array. *)
Definition peer (selector : loc) : val := VStruct [("PodSelector", VPtr (Some selector))].

Definition sharedPeers : heap :=
  {[ 1%positive := Var (VStruct
       [("IngressFrom", VSlice (Some {| w_array := 2%positive; w_offset := 0; w_len := 1 |}));
        ("EgressTo", VSlice (Some {| w_array := 2%positive; w_offset := 0; w_len := 2 |}));
        ("EgressPorts", VSlice None); ("DNSEgressPeer", VPtr None)]);
     2%positive := Array [peer 3%positive; VStruct [("PodSelector", VPtr None)]];
     3%positive := Var (VStruct [("MatchLabels", VMap (Some 4%positive))]);
     4%positive := Strings {[ "app" := "client" ]} ]}.

Definition dpeer : deep := DStruct [("PodSelector", DPtr (DStruct [("MatchLabels", DMap {[ "app" := "client" ]})]))].

Definition sharedPeersValue : deep := DPtr (DStruct
  [("IngressFrom", DSlice [dpeer]); ("EgressTo", DSlice [dpeer; DStruct [("PodSelector", DNilPtr)]]);
   ("EgressPorts", DNilSlice); ("DNSEgressPeer", DNilPtr)]).

Lemma deep_copy_isolated_witness :
  In ("v1beta1.NetworkConfig", @v1beta1_NetworkConfig_DeepCopy modelLibrary) (@deepCopies modelLibrary) /\
  exists v' h', @v1beta1_NetworkConfig_DeepCopy modelLibrary (VPtr (Some 1%positive)) sharedPeers = Some (v', h') /\
    reads (fun l => sharedPeers !! l = None) h' v' sharedPeersValue /\
    reads (fun _ => True) (<[4%positive := Strings ∅]> h') v' sharedPeersValue.
Proof.
  assert (Hin : In ("v1beta1.NetworkConfig", @v1beta1_NetworkConfig_DeepCopy modelLibrary) (@deepCopies modelLibrary)) by (cbn; tauto).
  split; [exact Hin|].
  assert (Hr : reads (fun _ => True) sharedPeers (VPtr (Some 1%positive)) sharedPeersValue).
  { cbn. split_and!; try done. eexists. split; [reflexivity|]. cbn. split_and!; try done.
    - eexists. split; [reflexivity|]. cbn. split_and!; try done. eexists. split; [reflexivity|]. cbn. done.
    - eexists. split; [reflexivity|]. cbn. split_and!; try done. eexists. split; [reflexivity|]. cbn. done. }
  destruct (proj1 (@deep_copy_isolated modelLibrary modelLibrary_laws "v1beta1.NetworkConfig" sharedPeers (VPtr (Some 1%positive)) sharedPeersValue
    ltac:(vm_compute; tauto) Hr) _ Hin) as (v' & h' & Hrun & _ & Hnew & Hold & _).
  exists v', h'. split; [exact Hrun|]. split; [exact Hnew|]. apply Hold. intros l Hl. apply lookup_insert_ne.
  intros <-. discriminate Hl.
Defined.

Definition annotatedBinding : heap :=
  {[ 1%positive := Var (VStruct
       [("TypeMeta", VStruct [("Kind", VStr "MCPGatewayBinding"); ("APIVersion", VStr "mcp.x-k8s.io/v1alpha1")]);
        ("ObjectMeta", VStruct [("Name", VStr "b"); ("Labels", VMap None); ("Annotations", VMap (Some 2%positive))]);
        ("Spec", VStruct [("MCPServerRef", VStr "srv"); ("Provider", VStr "httproute"); ("ConfigRef", VStr "c")]);
        ("Status", VStruct [("URL", VStr ""); ("Conditions", VSlice None)])]);
     2%positive := Strings {[ "gateway" := "old/gw" ]} ]}.

Definition annotatedBindingValue : deep := DPtr (DStruct
  [("TypeMeta", DStruct [("Kind", DStr "MCPGatewayBinding"); ("APIVersion", DStr "mcp.x-k8s.io/v1alpha1")]);
   ("ObjectMeta", DStruct [("Name", DStr "b"); ("Labels", DNilMap); ("Annotations", DMap {[ "gateway" := "old/gw" ]})]);
   ("Spec", DStruct [("MCPServerRef", DStr "srv"); ("Provider", DStr "httproute"); ("ConfigRef", DStr "c")]);
   ("Status", DStruct [("URL", DStr ""); ("Conditions", DNilSlice)])]).

Lemma patch_base_intact_witness :
  exists base h', @patchAnnotations modelLibrary 1%positive {[ "gateway" := "new/gw" ]} annotatedBinding = Some (base, h') /\
    reads (fun _ => True) h' base annotatedBindingValue.
Proof.
  destruct (@patch_base_intact modelLibrary modelLibrary_laws annotatedBinding 1%positive annotatedBindingValue {[ "gateway" := "new/gw" ]})
    as (base & h' & p & ds & dm & old & Hrun & Hbase & _); [vm_compute; tauto|discriminate| |by exists base, h'].
  cbn. split; [exact I|]. eexists. split; [reflexivity|]. cbn. split_and!; done.
Defined.

(** Without the copy the base would follow the binding, and the patch be empty. *)
Example shared_base_follows :
  option_map (fun r => getAnnotations 1%positive r.2) (stampAnnotations 1%positive {[ "gateway" := "new/gw" ]} annotatedBinding)
  = Some (Some (VMap (Some 2%positive), <[2%positive := Strings {[ "gateway" := "new/gw" ]}]> annotatedBinding)).
Proof. vm_compute. reflexivity. Qed.
