(* ===== verification/Policy.v ===== *)
(** * Admission policy (internal/webhook/policy.go) and the validating webhook
    (api/v1alpha1/mcpserver_webhook.go)

    [os.Getenv] is an argument [getenv]; an unset variable reads as the empty
    string.  A [field.ErrorList] is a list of [FieldError]. *)

From Stdlib Require Import Ascii.
From S2P Require Import Prelude K8s ApiAlpha.

Definition privilegedCapabilities : list string :=
  ["ALL"; "SYS_ADMIN"; "SYS_MODULE"; "SYS_RAWIO"; "SYS_PTRACE"; "SYS_BOOT"; "SYS_TIME"; "NET_ADMIN";
   "NET_RAW"; "DAC_READ_SEARCH"; "DAC_OVERRIDE"; "SETUID"; "SETGID"; "SETFCAP"; "LINUX_IMMUTABLE";
   "BPF"; "PERFMON"; "SYSLOG"].

Record AdmissionPolicy := {
  ImageAllowlist : list string;
  RequireImageDigest : bool;
  MaxStorageMounts : option Z;
  RequiredLabels : list string;
  DisallowPrivilegedSecurityContext : bool
}.

Record PolicyFlags := {
  pf_ImageAllowlist : string;
  pf_RequireImageDigest : bool;
  pf_MaxStorageMounts : Z;
  pf_RequiredLabels : string;
  pf_DisallowPrivilegedSecurityContext : bool;
  pf_DisallowPrivilegedSecurityContextSet : bool
}.

(** [strconv.Atoi]: an optional sign and decimal digits, in the range of int64. *)
Fixpoint digits (s : string) (acc : Z) : option Z :=
  match s with
  | EmptyString => Some acc
  | String a s' =>
      let c := strings.code a in
      if (48 <=? c) && (c <=? 57) then digits s' (acc * 10 + (c - 48)) else None
  end.

Definition Atoi (s : string) : option Z :=
  let '(neg, body) := match s with
                      | String a s' => if Ascii.eqb a "-"%char then (true, s')
                                       else if Ascii.eqb a "+"%char then (false, s') else (false, s)
                      | EmptyString => (false, s)
                      end in
  if body == "" then None
  else match digits body 0 with
       | Some n => let v := if neg : bool then - n else n in
                   if (- 2 ^ 63 <=? v) && (v <? 2 ^ 63) then Some v else None
       | None => None
       end.

(** The non-blank, trimmed entries of a comma-separated list. *)
Definition split_trim (raw : string) : list string :=
  List.filter (fun s => s != "") (map strings.TrimSpace (strings.SplitByte ","%char raw)).

Definition ParseAdmissionPolicy (getenv : string -> string) (flags : PolicyFlags) : AdmissionPolicy :=
  let allowlist := if pf_ImageAllowlist flags == "" then getenv "IMAGE_ALLOWLIST" else pf_ImageAllowlist flags in
  let labels := if pf_RequiredLabels flags == "" then getenv "REQUIRED_LABELS" else pf_RequiredLabels flags in
  {| ImageAllowlist := if allowlist != "" then split_trim allowlist else [];
     RequireImageDigest :=
       if pf_RequireImageDigest flags then true
       else let envVal := getenv "REQUIRE_IMAGE_DIGEST" in
            if envVal != "" then strings.EqualFold envVal "true" else false;
     MaxStorageMounts :=
       if 0 <=? pf_MaxStorageMounts flags then Some (pf_MaxStorageMounts flags)
       else let envVal := getenv "MAX_STORAGE_MOUNTS" in
            if envVal != "" then
              match Atoi envVal with
              | Some n => if 0 <=? n then Some n else None
              | None => None
              end
            else None;
     RequiredLabels := if labels != "" then split_trim labels else [];
     DisallowPrivilegedSecurityContext :=
       if pf_DisallowPrivilegedSecurityContextSet flags then pf_DisallowPrivilegedSecurityContext flags
       else let envVal := strings.TrimSpace (getenv "DISALLOW_PRIVILEGED_SECURITY_CONTEXT") in
            if envVal != "" then
              if strings.EqualFold envVal "true" then true
              else if strings.EqualFold envVal "false" then false
              else pf_DisallowPrivilegedSecurityContext flags
            else pf_DisallowPrivilegedSecurityContext flags |}.

Definition HasActiveRules (p : AdmissionPolicy) : bool :=
  negb (bool_decide (ImageAllowlist p = [])) || RequireImageDigest p
  || bool_decide (is_Some (MaxStorageMounts p)) || negb (bool_decide (RequiredLabels p = []))
  || DisallowPrivilegedSecurityContext p.

(** [field.Error] *)
Inductive FieldErrorType := ErrorTypeForbidden | ErrorTypeRequired.
Record FieldError := { fe_type : FieldErrorType; fe_field : string; fe_detail : string }.

Definition Forbidden (field detail : string) : FieldError :=
  {| fe_type := ErrorTypeForbidden; fe_field := field; fe_detail := detail |}.
Definition Required (field detail : string) : FieldError :=
  {| fe_type := ErrorTypeRequired; fe_field := field; fe_detail := detail |}.

(** One iteration of the prefix loop: [true] is [return nil]. *)
Definition allowlist_entry_admits (imageRef prefix : string) : bool :=
  strings.HasPrefix imageRef prefix &&
  match String.get (String.length prefix) imageRef with
  | None => true (* len(imageRef) == len(prefix) *)
  | Some next =>
      Ascii.eqb next "/"%char || Ascii.eqb next "@"%char
      || (Ascii.eqb next ":"%char && strings.Contains prefix "/")
      || strings.HasSuffix prefix "/"
  end.

Definition ValidateImageAllowlist (p : AdmissionPolicy) (imageRef : string) : option FieldError :=
  if bool_decide (ImageAllowlist p = []) then None
  else if existsb (allowlist_entry_admits imageRef) (ImageAllowlist p) then None
  else Some (Forbidden "spec.source.containerImage.ref"
               ("image " +:+ fmt.q imageRef +:+ " does not match any allowed registry prefix: " +:+ fmt.vs (ImageAllowlist p))).

(** The regular expression [@sha256:[a-f0-9]{64}$], unanchored on the left. *)
Definition is_lower_hex (a : ascii) : bool :=
  let c := strings.code a in ((97 <=? c) && (c <=? 102)) || ((48 <=? c) && (c <=? 57)).

Definition digest_at (s : string) : bool :=
  strings.HasPrefix s "@sha256:" &&
  let hex := String.list_ascii_of_string (strings.drop 8 s) in
  (List.length hex =? 64)%nat && forallb is_lower_hex hex.

Fixpoint validDigestRe (s : string) : bool :=
  digest_at s || match s with EmptyString => false | String _ s' => validDigestRe s' end.

Definition ValidateImageDigest (p : AdmissionPolicy) (imageRef : string) : option FieldError :=
  if negb (RequireImageDigest p) then None
  else if validDigestRe imageRef then None
  else Some (Forbidden "spec.source.containerImage.ref"
               ("image " +:+ fmt.q imageRef +:+ " must use a digest reference (@sha256:<64 hex chars>) when digest pinning is required")).

Definition ValidateRuntimePolicy (p : AdmissionPolicy) (storageMountCount : Z) (labels : gomap) : list FieldError :=
  match MaxStorageMounts p with
  | Some max =>
      if max <? storageMountCount
      then [Forbidden "spec.config.storage"
              ("number of storage mounts (" +:+ fmt.d storageMountCount +:+ ") exceeds maximum allowed (" +:+ fmt.d max +:+ ")")]
      else []
  | None => []
  end
  ++ flat_map (fun requiredLabel =>
       match mget labels requiredLabel with
       | Some _ => []
       | None => [Required ("metadata.labels[" +:+ requiredLabel +:+ "]")
                    ("label " +:+ fmt.q requiredLabel +:+ " is required by admission policy")]
       end) (RequiredLabels p).

Definition podPath : string := "spec.runtime.security.podSecurityContext".
Definition containerPath : string := "spec.runtime.security.securityContext".

(** A guarded [append]. *)
Definition when (b : bool) (e : FieldError) : list FieldError := if b then [e] else [].

Definition ValidateSecurityContext (p : AdmissionPolicy) (podSC : option PodSecurityContext)
    (containerSC : option SecurityContext) : list FieldError :=
  if negb (DisallowPrivilegedSecurityContext p) then []
  else
    match podSC with
    | None => []
    | Some sc =>
        when (psc_runAsNonRoot sc == Some false)
          (Forbidden (podPath +:+ ".runAsNonRoot") "runAsNonRoot must not be set to false")
        ++ when (psc_runAsUser sc == Some 0)
          (Forbidden (podPath +:+ ".runAsUser") "running as UID 0 (root) is not allowed")
    end
    ++
    match containerSC with
    | None => []
    | Some sc =>
        when (sc_privileged sc == Some true)
          (Forbidden (containerPath +:+ ".privileged") "privileged containers are not allowed")
        ++ when (sc_allowPrivilegeEscalation sc == Some true)
          (Forbidden (containerPath +:+ ".allowPrivilegeEscalation") "allowPrivilegeEscalation must not be set to true")
        ++ when (sc_runAsNonRoot sc == Some false)
          (Forbidden (containerPath +:+ ".runAsNonRoot") "runAsNonRoot must not be set to false")
        ++ when (sc_runAsUser sc == Some 0)
          (Forbidden (containerPath +:+ ".runAsUser") "running as UID 0 (root) is not allowed")
        ++ match sc_capabilities sc with
           | None => []
           | Some caps =>
               flat_map (fun capAdd =>
                 when (bool_decide (capAdd ∈ privilegedCapabilities))
                   (Forbidden (containerPath +:+ ".capabilities.add")
                      ("adding capability " +:+ fmt.q capAdd +:+ " is not allowed"))) (cap_add caps)
           end
    end.

(** [MCPServerCustomValidator.validate]: the errors of the decision, none when
    the object is admitted.  The audit record it logs is not modelled. *)
Definition validate (policy : option AdmissionPolicy) (srv : ApiAlpha.MCPServer) : list FieldError :=
  match policy with
  | None => []
  | Some p =>
      match asrc_containerImage (aspec_source (asrv_spec srv)) with
      | Some ci => option_list (ValidateImageAllowlist p (aci_ref ci)) ++ option_list (ValidateImageDigest p (aci_ref ci))
      | None => []
      end
      ++ ValidateRuntimePolicy p (Z.of_nat (List.length (acfg_storage (aspec_config (asrv_spec srv)))))
           (om_labels (asrv_meta srv))
      ++ ValidateSecurityContext p
           (asec_podSecurityContext (art_security (aspec_runtime (asrv_spec srv))))
           (asec_securityContext (art_security (aspec_runtime (asrv_spec srv))))
  end.

Definition ValidateCreate (policy : option AdmissionPolicy) (srv : ApiAlpha.MCPServer) : list FieldError :=
  validate policy srv.

(** Deletion is always admitted. *)
Definition ValidateDelete (policy : option AdmissionPolicy) (srv : ApiAlpha.MCPServer) : list FieldError := [].

(** ** Reference specifications *)

(** [rest] is what may follow an allowlist entry in an admitted image reference. *)
Definition at_boundary (prefix rest : string) : Prop :=
  rest = "" \/ (exists t, rest = "/" +:+ t) \/ (exists t, rest = "@" +:+ t) \/
  ((exists t, rest = ":" +:+ t) /\ strings.Contains prefix "/" = true) \/
  (exists t, prefix = t +:+ "/").

Definition digest_pinned (imageRef : string) : Prop :=
  exists pre hex, imageRef = pre +:+ "@sha256:" +:+ hex /\ String.length hex = 64%nat /\
    Forall (fun a => is_lower_hex a = true) (String.list_ascii_of_string hex).

(** The settings the privileged-securityContext guardrail excludes. *)
Definition pod_context_safe (o : option PodSecurityContext) : Prop :=
  forall sc, o = Some sc -> psc_runAsNonRoot sc ≠ Some false /\ psc_runAsUser sc ≠ Some 0.

Definition container_context_safe (o : option SecurityContext) : Prop :=
  forall sc, o = Some sc ->
    sc_privileged sc ≠ Some true /\ sc_allowPrivilegeEscalation sc ≠ Some true /\
    sc_runAsNonRoot sc ≠ Some false /\ sc_runAsUser sc ≠ Some 0 /\
    (forall caps c, sc_capabilities sc = Some caps -> In c (cap_add caps) -> ~ In c privilegedCapabilities).

(** ** Lemmas *)

Lemma get_append p t : String.get (String.length p) (p +:+ t) = String.get 0 t.
Proof. induction p; simpl; auto. Qed.

Lemma allowlist_entry_spec imageRef prefix :
  allowlist_entry_admits imageRef prefix = true <->
  exists rest, imageRef = prefix +:+ rest /\ at_boundary prefix rest.
Proof.
  unfold allowlist_entry_admits. rewrite andb_true_iff, HasPrefix_spec. split.
  - intros [[rest ->] H]. exists rest. split; [done|]. rewrite get_append in H.
    unfold at_boundary. destruct rest as [|a rest]; simpl in H; [auto|right].
    rewrite !orb_true_iff, andb_true_iff, !Ascii.eqb_eq, HasSuffix_spec in H.
    destruct H as [[[-> | ->] | [-> ?]] | [t ?]]; [left|right; left|right; right; left|right; right; right]; eauto.
  - intros (rest & -> & H). split; [eauto|]. rewrite get_append.
    destruct H as [->|[[t ->]|[[t ->]|[[[t ->] H]|[t Ht]]]]]; simpl; try reflexivity.
    + by rewrite H.
    + destruct rest; simpl; [done|]. apply orb_true_iff. right. apply HasSuffix_spec. eauto.
Qed.

Lemma digest_at_spec s :
  digest_at s = true <-> exists hex, s = "@sha256:" +:+ hex /\ String.length hex = 64%nat /\
    Forall (fun a => is_lower_hex a = true) (String.list_ascii_of_string hex).
Proof.
  assert (Hlen : forall h, List.length (String.list_ascii_of_string h) = String.length h)
    by (induction h; simpl; auto).
  unfold digest_at. rewrite andb_true_iff, HasPrefix_spec. split.
  - intros [[hex ->] H]. exists hex. split; [done|].
    change 8%nat with (String.length "@sha256:") in H. rewrite drop_append in H.
    apply andb_true_iff in H as [H1 H2]. apply Nat.eqb_eq in H1. rewrite Hlen in H1.
    split; [done|]. apply List.Forall_forall. by apply forallb_forall.
  - intros (hex & -> & H1 & H2). split; [eauto|].
    change 8%nat with (String.length "@sha256:"). rewrite drop_append.
    apply andb_true_iff. split; [by apply Nat.eqb_eq; rewrite Hlen|].
    apply forallb_forall. by apply List.Forall_forall.
Qed.

Lemma validDigestRe_spec s : validDigestRe s = true <-> digest_pinned s.
Proof.
  unfold digest_pinned. induction s as [|a s IH].
  - cbn [validDigestRe]. rewrite orb_true_iff, digest_at_spec. split.
    + intros [(hex & H & ?)|?]; [exists "", hex; auto|done].
    + intros (pre & hex & H & ?). symmetry in H. apply append_eq_nil in H as [-> H]. left. eauto.
  - cbn [validDigestRe]. rewrite orb_true_iff, digest_at_spec, IH. split.
    + intros [(hex & H & ?)|(pre & hex & -> & ?)]; [exists "", hex; auto|].
      exists (String a pre), hex. auto.
    + intros ([|b pre] & hex & H & ?); [left; eauto|].
      injection H as -> ->. right. eauto.
Qed.

Lemma when_nil b e : when b e = [] <-> b = false.
Proof. by destruct b. Qed.

Lemma when_flat_map {A} (f : A -> bool) g l :
  flat_map (fun x => when (f x) (g x)) l = [] <-> forall x, In x l -> f x = false.
Proof.
  induction l as [|x l IH]; simpl; [naive_solver|].
  rewrite app_nil, when_nil, IH. clear IH. naive_solver.
Qed.

Lemma ValidateSecurityContext_spec p podSC containerSC :
  ValidateSecurityContext p podSC containerSC = [] <->
  (DisallowPrivilegedSecurityContext p = true -> pod_context_safe podSC /\ container_context_safe containerSC).
Proof.
  unfold ValidateSecurityContext, pod_context_safe, container_context_safe.
  destruct (DisallowPrivilegedSecurityContext p); simpl; [|naive_solver].
  rewrite app_nil. split.
  - intros [Hp Hc] _. split.
    + intros sc ->. rewrite app_nil, !when_nil, !bool_decide_eq_false in Hp. naive_solver.
    + intros sc ->. rewrite !app_nil, !when_nil, !bool_decide_eq_false in Hc.
      destruct Hc as (? & ? & ? & ? & Hcaps). split_and!; try done.
      intros caps c Hcap Hin. rewrite Hcap in Hcaps.
      apply (proj1 (when_flat_map _ _ _) Hcaps) in Hin. apply bool_decide_eq_false in Hin.
      intros Hpriv. apply Hin. by apply list_elem_of_In.
  - intros H. destruct (H eq_refl) as [Hp Hc]. split.
    + destruct podSC as [sc|]; [|done]. rewrite app_nil, !when_nil, !bool_decide_eq_false.
      by apply Hp.
    + destruct containerSC as [sc|]; [|done]. destruct (Hc sc eq_refl) as (? & ? & ? & ? & Hcaps).
      rewrite !app_nil, !when_nil, !bool_decide_eq_false. split_and!; try done.
      destruct (sc_capabilities sc) as [caps|]; [|done]. apply when_flat_map. intros c Hin.
      apply bool_decide_eq_false. intros Hpriv. apply list_elem_of_In in Hpriv. by eapply Hcaps.
Qed.

Lemma ValidateImageAllowlist_spec p imageRef :
  ValidateImageAllowlist p imageRef = None <->
  (ImageAllowlist p ≠ [] -> exists prefix rest,
     In prefix (ImageAllowlist p) /\ imageRef = prefix +:+ rest /\ at_boundary prefix rest).
Proof.
  unfold ValidateImageAllowlist. case_bool_decide as H; [naive_solver|].
  destruct (existsb _ _) eqn:E; split; try done.
  - intros _ _. apply existsb_exists in E as (prefix & Hin & E).
    apply allowlist_entry_spec in E as (rest & ? & ?). eauto 10.
  - intros Hex. destruct (Hex H) as (prefix & rest & Hin & ? & ?).
    assert (existsb (allowlist_entry_admits imageRef) (ImageAllowlist p) = true); [|congruence].
    apply existsb_exists. exists prefix. split; [done|]. apply allowlist_entry_spec. eauto.
Qed.

Lemma ValidateImageDigest_spec p imageRef :
  ValidateImageDigest p imageRef = None <-> (RequireImageDigest p = true -> digest_pinned imageRef).
Proof.
  unfold ValidateImageDigest. rewrite <- validDigestRe_spec.
  destruct (RequireImageDigest p), (validDigestRe imageRef); naive_solver.
Qed.

Lemma ValidateRuntimePolicy_spec p n labels :
  ValidateRuntimePolicy p n labels = [] <->
  (forall max, MaxStorageMounts p = Some max -> n <= max) /\
  (forall l, In l (RequiredLabels p) -> is_Some (mget labels l)).
Proof.
  unfold ValidateRuntimePolicy. rewrite app_nil. f_equiv.
  - destruct (MaxStorageMounts p) as [max|]; [|naive_solver].
    destruct (Z.ltb_spec max n); split; try done.
    + intros Hm. specialize (Hm max eq_refl). lia.
    + intros _ max' [= <-]. done.
  - induction (RequiredLabels p) as [|l ls IH]; simpl; [naive_solver|].
    rewrite app_nil, IH. destruct (mget labels l) as [v|] eqn:E; split.
    + intros [_ H] l' [<-|Hin]; [by rewrite E; eexists|by apply H].
    + intros H. split; [done|]. intros. apply H. auto.
    + intros [? _]. done.
    + intros H. destruct (H l) as [? ?]; [by left|]. congruence.
Qed.

Lemma split_trim_nonempty raw s : In s (split_trim raw) -> s ≠ "".
Proof. unfold split_trim. rewrite List.filter_In. intros [_ H]. by bool_to_prop. Qed.

(** A minimal server with the given image, labels and container security context. *)
Definition probe_server (image : string) (storage : list ApiAlpha.StorageMount)
    (sc : option SecurityContext) : ApiAlpha.MCPServer :=
  {| asrv_meta := newMeta "probe" "default" None;
     asrv_spec :=
       {| aspec_extraLabels := None; aspec_extraAnnotations := None;
          aspec_source := {| asrc_type := "ContainerImage";
                             asrc_containerImage := Some {| aci_ref := image; aci_pullPolicy := "";
                                                            aci_imagePullSecrets := [] |} |};
          aspec_config := {| acfg_port := 8080; acfg_arguments := []; acfg_env := []; acfg_envFrom := [];
                             acfg_storage := storage; acfg_path := "" |};
          aspec_runtime := {| art_replicas := None;
                              art_security := {| asec_serviceAccountName := ""; asec_podSecurityContext := None;
                                                 asec_securityContext := sc |};
                              art_resources := None;
                              art_health := {| ah_livenessProbe := None; ah_readinessProbe := None |} |};
          aspec_mcp := {| amcp_stateless := None |}; aspec_network := None; aspec_transport := None |};
     asrv_status :=
       {| ast_observedGeneration := 0; ast_deploymentName := ""; ast_serviceName := ""; ast_address := None;
          ast_serverInfo := None; ast_handshakeRetryCount := 0; ast_replicas := 0; ast_readyReplicas := 0;
          ast_conditions := [] |} |}.

Definition root_context : SecurityContext :=
  {| sc_privileged := Some true; sc_allowPrivilegeEscalation := None; sc_readOnlyRootFilesystem := None;
     sc_runAsNonRoot := None; sc_runAsUser := None; sc_capabilities := None; sc_seccompProfile := None;
     sc_other := "" |}.

Definition empty_mount : ApiAlpha.StorageMount :=
  {| asm_path := "/d"; asm_permissions := "";
     asm_source := {| ass_type := "EmptyDir"; ass_configMap := None; ass_secret := None; ass_emptyDir := None |} |}.

Lemma validate_nil p srv :
  validate (Some p) srv = [] <->
  (forall ci, asrc_containerImage (aspec_source (asrv_spec srv)) = Some ci ->
     ValidateImageAllowlist p (aci_ref ci) = None /\ ValidateImageDigest p (aci_ref ci) = None) /\
  ValidateRuntimePolicy p (Z.of_nat (List.length (acfg_storage (aspec_config (asrv_spec srv)))))
    (om_labels (asrv_meta srv)) = [] /\
  ValidateSecurityContext p
    (asec_podSecurityContext (art_security (aspec_runtime (asrv_spec srv))))
    (asec_securityContext (art_security (aspec_runtime (asrv_spec srv)))) = [].
Proof.
  unfold validate. rewrite !app_nil. f_equiv.
  destruct (asrc_containerImage _) as [ci|]; [|naive_solver].
  rewrite app_nil. split.
  - intros [H1 H2] ci' [= <-]. by destruct (ValidateImageAllowlist _ _), (ValidateImageDigest _ _).
  - intros H. by destruct (H ci eq_refl) as [-> ->].
Qed.

(** ** Properties *)

(** C39: The admission decision in full: with a policy configured an MCPServer is
    admitted exactly when its image, if any, extends an allowlist entry at a path
    boundary and is pinned by a sha256 digest where required, it has at most the
    allowed number of storage mounts, it carries every required label, and (with
    the guardrail on) neither security context asks for a privileged setting. *)
Theorem admission_decision (p : AdmissionPolicy) (srv : ApiAlpha.MCPServer) :
  validate (Some p) srv = [] <->
  (forall ci, asrc_containerImage (aspec_source (asrv_spec srv)) = Some ci ->
     (ImageAllowlist p ≠ [] -> exists prefix rest,
        In prefix (ImageAllowlist p) /\ aci_ref ci = prefix +:+ rest /\ at_boundary prefix rest) /\
     (RequireImageDigest p = true -> digest_pinned (aci_ref ci))) /\
  (forall max, MaxStorageMounts p = Some max ->
     Z.of_nat (List.length (acfg_storage (aspec_config (asrv_spec srv)))) <= max) /\
  (forall l, In l (RequiredLabels p) -> is_Some (mget (om_labels (asrv_meta srv)) l)) /\
  (DisallowPrivilegedSecurityContext p = true ->
     pod_context_safe (asec_podSecurityContext (art_security (aspec_runtime (asrv_spec srv)))) /\
     container_context_safe (asec_securityContext (art_security (aspec_runtime (asrv_spec srv))))).
Proof.
  rewrite validate_nil, ValidateRuntimePolicy_spec, ValidateSecurityContext_spec.
  setoid_rewrite ValidateImageAllowlist_spec. setoid_rewrite ValidateImageDigest_spec. tauto.
Qed.

(** [HasActiveRules] is exact for a policy parsed at startup: it is true if
    and only if there is an MCPServer the webhook rejects, so PolicyEnforced=True
    is never reported for a webhook that admits everything. *)
Theorem active_rules_iff_rejects (getenv : string -> string) (flags : PolicyFlags) :
  let p := ParseAdmissionPolicy getenv flags in
  HasActiveRules p = true <-> exists srv, validate (Some p) srv ≠ [].
Proof.
  intros p.
  assert (Hne : forall s, In s (ImageAllowlist p) -> s ≠ "").
  { subst p. simpl. intros s. case_bool_decide; simpl; [done|]. apply split_trim_nonempty. }
  clearbody p. unfold HasActiveRules. rewrite !orb_true_iff, !negb_true_iff, !bool_decide_eq_false, bool_decide_eq_true.
  split.
  - intros [[[[H|H]|[max H]]|H]|H].
    + exists (probe_server "" [] None). rewrite validate_nil. intros [Hi _].
      destruct (Hi _ eq_refl) as [Ha _]. apply ValidateImageAllowlist_spec in Ha as (q & r & Hin & Heq & _); [|done].
      symmetry in Heq. apply append_eq_nil in Heq as [-> _]. by apply (Hne "").
    + exists (probe_server "" [] None). rewrite validate_nil. intros [Hi _].
      destruct (Hi _ eq_refl) as [_ Hd]. unfold ValidateImageDigest in Hd. by rewrite H in Hd.
    + exists (probe_server "" (repeat empty_mount (S (Z.to_nat max))) None). rewrite validate_nil.
      intros (_ & Hr & _). apply ValidateRuntimePolicy_spec in Hr as [Hr _]. specialize (Hr max H).
      simpl in Hr. rewrite repeat_length in Hr. lia.
    + exists (probe_server "" [] None). rewrite validate_nil. intros (_ & Hr & _).
      apply ValidateRuntimePolicy_spec in Hr as [_ Hr]. destruct (RequiredLabels p) as [|l ls]; [done|].
      destruct (Hr l) as [? Hl]; [by left|]. done.
    + exists (probe_server "" [] (Some root_context)). rewrite validate_nil. intros (_ & _ & Hs).
      apply ValidateSecurityContext_spec in Hs as [_ Hs]; [|done]. by destruct (Hs root_context eq_refl).
  - intros [srv Hsrv].
    destruct (decide (ImageAllowlist p = [])) as [H1|]; [|tauto].
    destruct (RequireImageDigest p) eqn:H2; [tauto|].
    destruct (MaxStorageMounts p) eqn:H3; [left; left; right; eauto|].
    destruct (decide (RequiredLabels p = [])) as [H4|]; [|tauto].
    destruct (DisallowPrivilegedSecurityContext p) eqn:H5; [tauto|].
    exfalso. apply Hsrv, validate_nil. split_and!.
    + intros ci _. rewrite ValidateImageAllowlist_spec, ValidateImageDigest_spec, H2. naive_solver.
    + apply ValidateRuntimePolicy_spec. rewrite H3, H4. naive_solver.
    + apply ValidateSecurityContext_spec. congruence.
Qed.

(** The privileged-securityContext guardrail fails safe: with the flag left
    at its default (on), parsing turns it off only when the environment variable,
    trimmed, reads "false" up to case; a typo keeps it on. *)
Theorem guardrail_fails_safe (getenv : string -> string) (flags : PolicyFlags) :
  pf_DisallowPrivilegedSecurityContext flags = true ->
  DisallowPrivilegedSecurityContext (ParseAdmissionPolicy getenv flags) = false ->
  pf_DisallowPrivilegedSecurityContextSet flags = false /\
  strings.EqualFold (strings.TrimSpace (getenv "DISALLOW_PRIVILEGED_SECURITY_CONTEXT")) "false" = true.
Proof. simpl. intros -> H. split_ifs_in H; done. Qed.

Definition default_flags : PolicyFlags :=
  {| pf_ImageAllowlist := ""; pf_RequireImageDigest := false; pf_MaxStorageMounts := -1; pf_RequiredLabels := "";
     pf_DisallowPrivilegedSecurityContext := true; pf_DisallowPrivilegedSecurityContextSet := false |}.

Lemma guardrail_fails_safe_witness :
  let getenv v := if v == "DISALLOW_PRIVILEGED_SECURITY_CONTEXT" then " False " else "" in
  pf_DisallowPrivilegedSecurityContextSet default_flags = false /\
  strings.EqualFold (strings.TrimSpace (getenv "DISALLOW_PRIVILEGED_SECURITY_CONTEXT")) "false" = true.
Proof.
  intros getenv. apply (guardrail_fails_safe getenv default_flags); vm_compute; reflexivity.
Defined.
