(* ===== verification/StatusAC.v ===== *)
(** * Apply configurations of the MCPServer status
    (api/v1beta1/applyconfiguration/api/v1beta1)

    Server-side apply sends only the fields that are set.  Each [With] method
    sets its field on the receiver and returns it; the controller threads one
    receiver linearly, so the methods are functions from builder to builder.
    [WithConditions] appends. *)

From S2P Require Import Prelude K8s ApiBeta.

Record GatewayBindingStatusApplyConfiguration := {
  gbac_name : option string;
  gbac_provider : option string
}.

Record MCPServerAddressApplyConfiguration := { aac_url : option string }.

Record MCPServerCapabilitiesApplyConfiguration := {
  cac_tools : option bool;
  cac_resources : option bool;
  cac_prompts : option bool;
  cac_logging : option bool;
  cac_completions : option bool
}.

Record MCPServerInfoApplyConfiguration := {
  iac_name : option string;
  iac_version : option string;
  iac_protocolVersion : option string;
  iac_instructions : option string;
  iac_capabilities : option MCPServerCapabilitiesApplyConfiguration
}.

(** client-go's [ConditionApplyConfiguration] *)
Record ConditionApplyConfiguration := {
  cc_type : option string;
  cc_status : option string;
  cc_reason : option string;
  cc_message : option string;
  cc_observedGeneration : option Z;
  cc_lastTransitionTime : option Z
}.

Record MCPServerStatusApplyConfiguration := {
  sac_observedGeneration : option Z;
  sac_deploymentName : option string;
  sac_serviceName : option string;
  sac_workloadName : option string;
  sac_workloadSummary : option string;
  sac_gatewayBinding : option GatewayBindingStatusApplyConfiguration;
  sac_address : option MCPServerAddressApplyConfiguration;
  sac_serverInfo : option MCPServerInfoApplyConfiguration;
  sac_replicas : option Z;
  sac_readyReplicas : option Z;
  sac_conditions : list ConditionApplyConfiguration
}.

Definition MCPServerStatusAC : MCPServerStatusApplyConfiguration :=
  {| sac_observedGeneration := None; sac_deploymentName := None; sac_serviceName := None;
     sac_workloadName := None; sac_workloadSummary := None; sac_gatewayBinding := None;
     sac_address := None; sac_serverInfo := None; sac_replicas := None; sac_readyReplicas := None;
     sac_conditions := [] |}.

Definition WithObservedGeneration (v : Z) (b : MCPServerStatusApplyConfiguration) :=
  {| sac_observedGeneration := Some v; sac_deploymentName := sac_deploymentName b;
     sac_serviceName := sac_serviceName b; sac_workloadName := sac_workloadName b;
     sac_workloadSummary := sac_workloadSummary b; sac_gatewayBinding := sac_gatewayBinding b;
     sac_address := sac_address b; sac_serverInfo := sac_serverInfo b; sac_replicas := sac_replicas b;
     sac_readyReplicas := sac_readyReplicas b; sac_conditions := sac_conditions b |}.

Definition WithDeploymentName (v : string) (b : MCPServerStatusApplyConfiguration) :=
  {| sac_observedGeneration := sac_observedGeneration b; sac_deploymentName := Some v;
     sac_serviceName := sac_serviceName b; sac_workloadName := sac_workloadName b;
     sac_workloadSummary := sac_workloadSummary b; sac_gatewayBinding := sac_gatewayBinding b;
     sac_address := sac_address b; sac_serverInfo := sac_serverInfo b; sac_replicas := sac_replicas b;
     sac_readyReplicas := sac_readyReplicas b; sac_conditions := sac_conditions b |}.

Definition WithServiceName (v : string) (b : MCPServerStatusApplyConfiguration) :=
  {| sac_observedGeneration := sac_observedGeneration b; sac_deploymentName := sac_deploymentName b;
     sac_serviceName := Some v; sac_workloadName := sac_workloadName b;
     sac_workloadSummary := sac_workloadSummary b; sac_gatewayBinding := sac_gatewayBinding b;
     sac_address := sac_address b; sac_serverInfo := sac_serverInfo b; sac_replicas := sac_replicas b;
     sac_readyReplicas := sac_readyReplicas b; sac_conditions := sac_conditions b |}.

Definition WithWorkloadName (v : string) (b : MCPServerStatusApplyConfiguration) :=
  {| sac_observedGeneration := sac_observedGeneration b; sac_deploymentName := sac_deploymentName b;
     sac_serviceName := sac_serviceName b; sac_workloadName := Some v;
     sac_workloadSummary := sac_workloadSummary b; sac_gatewayBinding := sac_gatewayBinding b;
     sac_address := sac_address b; sac_serverInfo := sac_serverInfo b; sac_replicas := sac_replicas b;
     sac_readyReplicas := sac_readyReplicas b; sac_conditions := sac_conditions b |}.

Definition WithWorkloadSummary (v : string) (b : MCPServerStatusApplyConfiguration) :=
  {| sac_observedGeneration := sac_observedGeneration b; sac_deploymentName := sac_deploymentName b;
     sac_serviceName := sac_serviceName b; sac_workloadName := sac_workloadName b;
     sac_workloadSummary := Some v; sac_gatewayBinding := sac_gatewayBinding b;
     sac_address := sac_address b; sac_serverInfo := sac_serverInfo b; sac_replicas := sac_replicas b;
     sac_readyReplicas := sac_readyReplicas b; sac_conditions := sac_conditions b |}.

Definition WithGatewayBinding (v : GatewayBindingStatusApplyConfiguration) (b : MCPServerStatusApplyConfiguration) :=
  {| sac_observedGeneration := sac_observedGeneration b; sac_deploymentName := sac_deploymentName b;
     sac_serviceName := sac_serviceName b; sac_workloadName := sac_workloadName b;
     sac_workloadSummary := sac_workloadSummary b; sac_gatewayBinding := Some v;
     sac_address := sac_address b; sac_serverInfo := sac_serverInfo b; sac_replicas := sac_replicas b;
     sac_readyReplicas := sac_readyReplicas b; sac_conditions := sac_conditions b |}.

Definition WithAddress (v : MCPServerAddressApplyConfiguration) (b : MCPServerStatusApplyConfiguration) :=
  {| sac_observedGeneration := sac_observedGeneration b; sac_deploymentName := sac_deploymentName b;
     sac_serviceName := sac_serviceName b; sac_workloadName := sac_workloadName b;
     sac_workloadSummary := sac_workloadSummary b; sac_gatewayBinding := sac_gatewayBinding b;
     sac_address := Some v; sac_serverInfo := sac_serverInfo b; sac_replicas := sac_replicas b;
     sac_readyReplicas := sac_readyReplicas b; sac_conditions := sac_conditions b |}.

Definition WithServerInfo (v : MCPServerInfoApplyConfiguration) (b : MCPServerStatusApplyConfiguration) :=
  {| sac_observedGeneration := sac_observedGeneration b; sac_deploymentName := sac_deploymentName b;
     sac_serviceName := sac_serviceName b; sac_workloadName := sac_workloadName b;
     sac_workloadSummary := sac_workloadSummary b; sac_gatewayBinding := sac_gatewayBinding b;
     sac_address := sac_address b; sac_serverInfo := Some v; sac_replicas := sac_replicas b;
     sac_readyReplicas := sac_readyReplicas b; sac_conditions := sac_conditions b |}.

Definition WithReplicas (v : Z) (b : MCPServerStatusApplyConfiguration) :=
  {| sac_observedGeneration := sac_observedGeneration b; sac_deploymentName := sac_deploymentName b;
     sac_serviceName := sac_serviceName b; sac_workloadName := sac_workloadName b;
     sac_workloadSummary := sac_workloadSummary b; sac_gatewayBinding := sac_gatewayBinding b;
     sac_address := sac_address b; sac_serverInfo := sac_serverInfo b; sac_replicas := Some v;
     sac_readyReplicas := sac_readyReplicas b; sac_conditions := sac_conditions b |}.

Definition WithReadyReplicas (v : Z) (b : MCPServerStatusApplyConfiguration) :=
  {| sac_observedGeneration := sac_observedGeneration b; sac_deploymentName := sac_deploymentName b;
     sac_serviceName := sac_serviceName b; sac_workloadName := sac_workloadName b;
     sac_workloadSummary := sac_workloadSummary b; sac_gatewayBinding := sac_gatewayBinding b;
     sac_address := sac_address b; sac_serverInfo := sac_serverInfo b; sac_replicas := sac_replicas b;
     sac_readyReplicas := Some v; sac_conditions := sac_conditions b |}.

Definition WithConditions (values : list ConditionApplyConfiguration) (b : MCPServerStatusApplyConfiguration) :=
  {| sac_observedGeneration := sac_observedGeneration b; sac_deploymentName := sac_deploymentName b;
     sac_serviceName := sac_serviceName b; sac_workloadName := sac_workloadName b;
     sac_workloadSummary := sac_workloadSummary b; sac_gatewayBinding := sac_gatewayBinding b;
     sac_address := sac_address b; sac_serverInfo := sac_serverInfo b; sac_replicas := sac_replicas b;
     sac_readyReplicas := sac_readyReplicas b; sac_conditions := sac_conditions b ++ values |}.

(** The condition types of a status, in order. *)
Definition condition_types (b : MCPServerStatusApplyConfiguration) : list (option string) :=
  map cc_type (sac_conditions b).

(** The status an apply configuration publishes for a condition type. *)
Definition published_status (b : MCPServerStatusApplyConfiguration) (t : string) : option string :=
  match List.find (fun c => cc_type c == Some t) (sac_conditions b) with
  | Some c => cc_status c
  | None => None
  end.

(** ** Builders of the nested configurations *)

Definition MCPServerAddressAC : MCPServerAddressApplyConfiguration := {| aac_url := None |}.
Definition Address_WithURL (v : string) (b : MCPServerAddressApplyConfiguration) : MCPServerAddressApplyConfiguration :=
  {| aac_url := Some v |}.

Definition MCPServerInfoAC : MCPServerInfoApplyConfiguration :=
  {| iac_name := None; iac_version := None; iac_protocolVersion := None; iac_instructions := None; iac_capabilities := None |}.
Definition Info_WithName (v : string) (b : MCPServerInfoApplyConfiguration) :=
  {| iac_name := Some v; iac_version := iac_version b; iac_protocolVersion := iac_protocolVersion b;
     iac_instructions := iac_instructions b; iac_capabilities := iac_capabilities b |}.
Definition Info_WithVersion (v : string) (b : MCPServerInfoApplyConfiguration) :=
  {| iac_name := iac_name b; iac_version := Some v; iac_protocolVersion := iac_protocolVersion b;
     iac_instructions := iac_instructions b; iac_capabilities := iac_capabilities b |}.
Definition Info_WithProtocolVersion (v : string) (b : MCPServerInfoApplyConfiguration) :=
  {| iac_name := iac_name b; iac_version := iac_version b; iac_protocolVersion := Some v;
     iac_instructions := iac_instructions b; iac_capabilities := iac_capabilities b |}.
Definition Info_WithInstructions (v : string) (b : MCPServerInfoApplyConfiguration) :=
  {| iac_name := iac_name b; iac_version := iac_version b; iac_protocolVersion := iac_protocolVersion b;
     iac_instructions := Some v; iac_capabilities := iac_capabilities b |}.
Definition Info_WithCapabilities (v : MCPServerCapabilitiesApplyConfiguration) (b : MCPServerInfoApplyConfiguration) :=
  {| iac_name := iac_name b; iac_version := iac_version b; iac_protocolVersion := iac_protocolVersion b;
     iac_instructions := iac_instructions b; iac_capabilities := Some v |}.

Definition MCPServerCapabilitiesAC : MCPServerCapabilitiesApplyConfiguration :=
  {| cac_tools := None; cac_resources := None; cac_prompts := None; cac_logging := None; cac_completions := None |}.
Definition Caps_WithTools (v : bool) (b : MCPServerCapabilitiesApplyConfiguration) :=
  {| cac_tools := Some v; cac_resources := cac_resources b; cac_prompts := cac_prompts b; cac_logging := cac_logging b;
     cac_completions := cac_completions b |}.
Definition Caps_WithResources (v : bool) (b : MCPServerCapabilitiesApplyConfiguration) :=
  {| cac_tools := cac_tools b; cac_resources := Some v; cac_prompts := cac_prompts b; cac_logging := cac_logging b;
     cac_completions := cac_completions b |}.
Definition Caps_WithPrompts (v : bool) (b : MCPServerCapabilitiesApplyConfiguration) :=
  {| cac_tools := cac_tools b; cac_resources := cac_resources b; cac_prompts := Some v; cac_logging := cac_logging b;
     cac_completions := cac_completions b |}.
Definition Caps_WithLogging (v : bool) (b : MCPServerCapabilitiesApplyConfiguration) :=
  {| cac_tools := cac_tools b; cac_resources := cac_resources b; cac_prompts := cac_prompts b; cac_logging := Some v;
     cac_completions := cac_completions b |}.
Definition Caps_WithCompletions (v : bool) (b : MCPServerCapabilitiesApplyConfiguration) :=
  {| cac_tools := cac_tools b; cac_resources := cac_resources b; cac_prompts := cac_prompts b; cac_logging := cac_logging b;
     cac_completions := Some v |}.
