(* ===== verification/Builders.v ===== *)
(** * Apply-configuration builders in memory

    The generated [With] methods change the struct they are called on and return it.  The
    combinators below are the statements these methods are made of, over Go's memory;
    [effect] is what a method is to do to the value its receiver stands for, and [performs]
    the contract that ties the two: a method succeeds and its receiver then stands for the
    changed value, while no cell is written that the receiver does not own.

    [append] writes into spare capacity when there is some; how much a fresh array has is
    up to the runtime. *)

From S2P Require Import Prelude GoHeap.

Set Warnings "-register-all".

#[local] Open Scope go_scope.

(** What an array allocated by [append] has beyond the elements it was asked for. *)
Class GoRuntime := spare : nat -> list val.

(** ** The statements *)

Definition fieldsAt (b : val) : C (loc * list (string * val)) :=
  match b with
  | VPtr (Some l) =>
      c ⇐ load l ;;
      match c with
      | Var (VStruct fs) => ret (l, fs)
      | _ => stuck
      end
  | _ => stuck
  end.

(** [b.F] *)
Definition getField (F : string) (b : val) : C val :=
  at_ ⇐ fieldsAt b ;;
  match field F (snd at_) with
  | Some v => ret v
  | None => stuck
  end.

(** [b.F = v] *)
Definition putField (F : string) (v : val) (b : val) : C unit :=
  at_ ⇐ fieldsAt b ;;
  match field F (snd at_) with
  | Some _ => store (fst at_) (Var (VStruct (setField F v (snd at_))))
  | None => stuck
  end.

(** [b.F = &value; return b] *)
Definition setAddress (F : string) (value b : val) : C val :=
  p ⇐ alloc (Var value) ;;
  _ ⇐ putField F (VPtr (Some p)) b ;;
  ret b.

(** [b.F = value; return b] *)
Definition setPointer (F : string) (value b : val) : C val :=
  _ ⇐ putField F value b ;;
  ret b.

(** [append(s, x)] *)
Definition append1 `{GoRuntime} (s x : val) : C val :=
  match s with
  | VSlice None =>
      p ⇐ alloc (Array (x :: spare 1)) ;;
      ret (VSlice (Some {| w_array := p; w_offset := 0; w_len := 1 |}))
  | VSlice (Some w) =>
      c ⇐ load (w_array w) ;;
      match c with
      | Array xs =>
          if (w_offset w + w_len w <? List.length xs)%nat then
            _ ⇐ store (w_array w) (Array (<[(w_offset w + w_len w)%nat := x]> xs)) ;;
            ret (VSlice (Some {| w_array := w_array w; w_offset := w_offset w; w_len := S (w_len w) |}))
          else
            p ⇐ alloc (Array (take (w_len w) (drop (w_offset w) xs) ++ x :: spare (S (w_len w)))) ;;
            ret (VSlice (Some {| w_array := p; w_offset := 0; w_len := S (w_len w) |}))
      | _ => stuck
      end
  | _ => stuck
  end.

(** [values[i]] *)
Definition element (values : val) (i : nat) : C val :=
  match values with
  | VSlice (Some w) =>
      c ⇐ load (w_array w) ;;
      match c with
      | Array xs =>
          match take (w_len w) (drop (w_offset w) xs) !! i with
          | Some x => ret x
          | None => stuck
          end
      | _ => stuck
      end
  | _ => stuck
  end.

Definition len (values : val) : nat := match values with VSlice (Some w) => w_len w | _ => 0 end.

(** [*x]; a nil pointer panics, as the methods do with a message of their own. *)
Definition deref (x : val) : C val :=
  match x with
  | VPtr (Some p) =>
      c ⇐ load p ;;
      match c with
      | Var v => ret v
      | _ => stuck
      end
  | _ => stuck
  end.

(** [for i := range values { b.F = append(b.F, get(values[i])) }] *)
Fixpoint appendFrom `{GoRuntime} (get : val -> C val) (F : string) (values b : val) (ks : list nat) : C unit :=
  match ks with
  | [] => ret tt
  | i :: ks' =>
      e ⇐ element values i ;;
      x ⇐ get e ;;
      s ⇐ getField F b ;;
      s' ⇐ append1 s x ;;
      _ ⇐ putField F s' b ;;
      appendFrom get F values b ks'
  end.

Definition appendValues `{GoRuntime} (F : string) (values b : val) : C val :=
  _ ⇐ appendFrom ret F values b (seq 0 (len values)) ;;
  ret b.

Definition appendPointers `{GoRuntime} (F : string) (values b : val) : C val :=
  _ ⇐ appendFrom deref F values b (seq 0 (len values)) ;;
  ret b.

(** What ranging over a map sees. *)
Definition entriesOf (m : val) : C (gmap string string) :=
  match m with
  | VMap None => ret ∅
  | VMap (Some p) =>
      c ⇐ load p ;;
      match c with
      | Strings es => ret es
      | _ => stuck
      end
  | _ => stuck
  end.

(** [if b.F == nil && len(entries) > 0 { b.F = make(map[string]string, len(entries)) }],
    then [for k, v := range entries { b.F[k] = v }], of which the order does not matter. *)
Definition putEntries (F : string) (entries b : val) : C val :=
  es ⇐ entriesOf entries ;;
  m ⇐ getField F b ;;
  if (size es =? 0)%nat then ret b
  else
    match m with
    | VMap None =>
        p ⇐ alloc (Strings es) ;;
        _ ⇐ putField F (VMap (Some p)) b ;;
        ret b
    | VMap (Some p) =>
        old ⇐ entriesOf m ;;
        _ ⇐ store p (Strings (es ∪ old)) ;;
        ret b
    | _ => stuck
    end.

(** ** What a receiver owns *)

(** The cell through which a field may be written in place. *)
Definition storage (v : val) : list loc :=
  match v with
  | VSlice (Some w) => [w_array w]
  | VMap (Some p) => [p]
  | _ => []
  end.

Definition owned (l : loc) (fs : list (string * val)) : list loc := l :: concat (map (fun f => storage f.2) fs).

(** A field's value: its own array or map, and beyond it nothing that is written. *)
Definition holds (O : list loc) (h : heap) (v : val) (d : deep) : Prop :=
  match v, d with
  | VSlice (Some w), DSlice ds =>
      exists xs, h !! w_array w = Some (Array xs) /\ (w_offset w + w_len w <= List.length xs)%nat /\
        all2 (reads (fun c => c ∉ O) h) (take (w_len w) (drop (w_offset w) xs)) ds
  | VMap (Some p), DMap m => h !! p = Some (Strings m)
  | _, _ => reads (fun c => c ∉ O) h v d
  end.

(** What surrounds a builder: cells it keeps off, and a field that is accounted for elsewhere. *)
Record surroundings := { kept :> list loc; elsewhere : option string }.
Abbreviation alone := {| kept := []; elsewhere := None |}.

(** The struct at [l] stands for [ds], within [X]. *)
Definition builder (X : surroundings) (h : heap) (l : loc) (fs : list (string * val)) (ds : list (string * deep)) : Prop :=
  h !! l = Some (Var (VStruct fs)) /\ NoDup (owned l fs ++ X) /\ (forall c, c ∈ kept X -> is_Some (h !! c)) /\
  Forall2 (fun x d => x.1 = d.1 /\ (Some x.1 = elsewhere X /\ storage x.2 = [] \/ holds (owned l fs ++ X) h x.2 d.2)) fs ds.

Lemma storage_one v : storage v = [] \/ exists p, storage v = [p].
Proof. destruct v as [| | | |[]|[]|]; cbn; eauto. Qed.

Lemma setField_middle {A} F (v v' : A) f1 f2 : F ∉ map fst f1 -> setField F v' (f1 ++ (F, v) :: f2) = f1 ++ (F, v') :: f2.
Proof.
  induction f1 as [|[m w] f1 IH]; cbn; [by rewrite String.eqb_refl|]. intros [Hne Hin]%not_elem_of_cons.
  destruct (String.eqb_spec m F) as [->|_]; [done|]. by rewrite IH.
Qed.

Lemma split_field {A} F (v : A) fs : field F fs = Some v -> exists f1 f2, fs = f1 ++ (F, v) :: f2 /\ F ∉ map fst f1.
Proof.
  induction fs as [|[m w] fs IH]; cbn; [done|]. destruct (String.eqb_spec m F) as [->|Hne].
  - intros [= ->]. exists [], fs. split; [done|]. by intros ?%elem_of_nil.
  - intros H. destruct (IH H) as (f1 & f2 & -> & Hs). exists ((m, w) :: f1), f2. split; [done|]. cbn. rewrite not_elem_of_cons. auto.
Qed.

(** What is owned besides the field's storage does not depend on the field. *)
Lemma owned_split X l (fs : list (string * val)) F v : field F fs = Some v ->
  exists rest, forall v', owned l (setField F v' fs) ++ X ≡ₚ storage v' ++ rest /\ owned l fs ++ X ≡ₚ storage v ++ rest.
Proof.
  intros Hf. destruct (split_field _ _ _ Hf) as (f1 & f2 & -> & Hnot).
  exists (l :: concat (map (fun f => storage f.2) f1) ++ concat (map (fun f => storage f.2) f2) ++ X). intros v'. rewrite setField_middle by done.
  unfold owned. rewrite !map_app, !concat_app. cbn. split; solve_Permutation.
Qed.

(** Storage is a cell of the heap. *)
Lemma holds_live O h v d p : holds O h v d -> p ∈ storage v -> is_Some (h !! p).
Proof.
  destruct v as [| | | |[w|]|[q|]|]; cbn; try (by intros _ ?%elem_of_nil); intros Hh ->%list_elem_of_singleton; destruct d; cbn in Hh; try done.
  destruct Hh as (xs & -> & _). eauto.
Qed.

Lemma builder_live X h l fs ds : builder X h l fs ds -> forall c, c ∈ owned l fs ++ X -> is_Some (h !! c).
Proof.
  intros (Hl & _ & HX & Hfs) c Hc. apply elem_of_app in Hc as [Hc|Hc]; [|by apply HX]. unfold owned in Hc. apply elem_of_cons in Hc as [->|Hc]; [rewrite Hl; eauto|].
  revert Hc. generalize (owned l fs ++ X) as O, Hfs. clear. intros O. induction 1 as [|[n v] [m d] fs ds [_ Hh] _ IH]; cbn; [by intros ?%elem_of_nil|].
  intros [Hc|Hc]%elem_of_app; [|auto]. destruct Hh as [[_ Hs]|Hh]; [cbn in Hs; rewrite Hs in Hc; by apply elem_of_nil in Hc|by eapply holds_live].
Qed.

(** ** Writing one field *)

(** [h'] differs from [h], on what it had, at most at [l] and in the storage of [v]. *)
Definition touches (l : loc) (v : val) (h h' : heap) : Prop :=
  forall c, is_Some (h !! c) -> c <> l -> c ∉ storage v -> h' !! c = h !! c.

(** The new value keeps the field's storage, drops it or takes a fresh cell. *)
Definition restorage (h : heap) (v v' : val) : Prop :=
  storage v' = storage v \/ storage v' = [] \/ exists p, storage v' = [p] /\ h !! p = None.

Section update.
Context (X : surroundings) (h h' : heap) (l : loc) (fs : list (string * val)) (ds : list (string * deep)) (F : string) (v v' : val).
Context (Hb : builder X h l fs ds) (Hf : field F fs = Some v) (Ht : touches l v h h') (Hs : restorage h v v').

Lemma owned_after c : c ∈ owned l (setField F v' fs) ++ X -> c ∈ owned l fs ++ X \/ h !! c = None.
Proof.
  destruct (owned_split X l fs F v Hf) as (rest & Hp). destruct (Hp v') as [-> ->]. rewrite !elem_of_app.
  destruct Hs as [->|[->|(p & -> & Hn)]]; [by left|rewrite elem_of_nil; tauto|].
  rewrite list_elem_of_singleton. intros [->|?]; auto.
Qed.

Lemma owned_distinct : NoDup (owned l (setField F v' fs) ++ X).
Proof.
  pose proof (builder_live _ _ _ _ _ Hb) as Hlive. destruct Hb as (_ & Hd & _).
  destruct (owned_split X l fs F v Hf) as (rest & Hp). destruct (Hp v') as [E1 E2]. rewrite E1. rewrite E2 in Hd.
  assert (Hrest : forall c, c ∈ rest -> is_Some (h !! c)) by (intros c Hc; apply Hlive; rewrite E2; apply elem_of_app; by right).
  apply NoDup_app in Hd as (Hd1 & Hd2 & Hd3). apply NoDup_app. destruct Hs as [->|[->|(p & -> & Hn)]]; split_and!; try done.
  - constructor.
  - by intros x ?%elem_of_nil.
  - apply NoDup_singleton.
  - intros x ->%list_elem_of_singleton Hin. apply Hrest in Hin as [? Hx]. congruence.
Qed.

(** What kept off the owned cells still reads, and keeps off them. *)
Lemma reads_after a d : reads (fun c => c ∉ owned l fs ++ X) h a d -> reads (fun c => c ∉ owned l (setField F v' fs) ++ X) h' a d.
Proof.
  apply reads_mono. intros c x Hc Hx. split.
  - intros Hin. destruct (owned_after c Hin) as [?|Hn]; [done|congruence].
  - rewrite Ht; [done|eauto| |].
    + intros ->. apply Hc. left.
    + intros Hin. apply Hc. destruct (owned_split X l fs F v Hf) as (rest & Hp). destruct (Hp v') as [_ ->]. apply elem_of_app. by left.
Qed.

Lemma holds_after w d : (forall p, p ∈ storage w -> p ∈ owned l fs /\ p <> l /\ p ∉ storage v) ->
  holds (owned l fs ++ X) h w d -> holds (owned l (setField F v' fs) ++ X) h' w d.
Proof.
  intros Hw Hh. assert (Hk : forall p, p ∈ storage w -> h' !! p = h !! p).
  { intros p Hp. destruct (Hw p Hp) as (Ho & ? & ?). apply Ht; [|done..]. eapply builder_live; [exact Hb|]. apply elem_of_app. by left. }
  destruct w as [| | | |[w|]|[p|]|]; try (by apply reads_after). all: destruct d; cbn in *; try done.
  - destruct Hh as (xs & Hx & Hlen & Hr). exists xs. rewrite Hk by left. split_and!; [done..|].
    apply all2_Forall2 in Hr. apply all2_Forall2. eapply Forall2_impl; [exact Hr|]. intros. by apply reads_after.
  - rewrite Hk by left. done.
Qed.

Lemma others_live c : c ∈ kept X -> is_Some (h' !! c).
Proof.
  intros Hc. assert (Hno : c ∉ owned l fs) by (destruct Hb as (_ & Hd & _); apply NoDup_app in Hd as (_ & Hd & _); intros Ho; by apply (Hd c)).
  rewrite Ht; [apply Hb, Hc|apply Hb, Hc| |].
  - intros ->. apply Hno. left.
  - intros Hin. apply Hno. destruct (owned_split [] l fs F v Hf) as (rest & Hp). destruct (Hp v') as [_ E].
    rewrite app_nil_r in E. rewrite E. apply elem_of_app. by left.
Qed.

Lemma builder_update d' :
  h' !! l = Some (Var (VStruct (setField F v' fs))) ->
  Some F = elsewhere X /\ storage v' = [] \/ holds (owned l (setField F v' fs) ++ X) h' v' d' ->
  builder X h' l (setField F v' fs) (setField F d' ds).
Proof.
  intros Hl Hh. split; [done|]. split; [apply owned_distinct|]. split; [apply others_live|]. pose proof holds_after as Hha. destruct Hb as (_ & Hd & HX & Hfs).
  destruct (split_field _ _ _ Hf) as (f1 & f2 & E & Hnot). rewrite E in Hfs, Hd.
  assert (Hset : setField F v' fs = f1 ++ (F, v') :: f2) by (rewrite E; by apply setField_middle).
  apply Forall2_app_inv_l in Hfs as (d1 & d2 & H1 & H2 & Ed). inversion H2 as [|? [F' d] ? d2' [HF _] H2' E1 E2]; subst.
  cbn in HF. subst F'. assert (Hn1 : map fst f1 = map fst d1) by (clear -H1; induction H1 as [|? ? ? ? []]; cbn; congruence).
  rewrite (setField_middle _ d) by (by rewrite <- Hn1). rewrite Hset in *.
  assert (Hdis : forall f, In f (f1 ++ f2) -> forall p, p ∈ storage f.2 -> p ∈ owned l (f1 ++ (F, v) :: f2) /\ p <> l /\ p ∉ storage v).
  { intros f Hf' p Hp. unfold owned in Hd |- *. rewrite !map_app, !concat_app in *. cbn [map concat] in *.
    set (A := concat (map _ f1)) in *. set (B := concat (map _ f2)) in *.
    assert (HAB : p ∈ A \/ p ∈ B).
    { apply in_app_or in Hf' as [Hin|Hin]; [left|right]; apply list_elem_of_In, in_concat; exists (storage f.2);
        (split; [by apply (in_map (fun f => storage f.2))|by apply list_elem_of_In]). }
    cbn [app] in Hd. apply NoDup_cons in Hd as [Hl' Hd]. rewrite <- !app_assoc in Hd. rewrite !NoDup_app in Hd.
    destruct Hd as (_ & HA & _ & Hv & _ & HB & _). rewrite elem_of_cons, !elem_of_app. rewrite !elem_of_app in Hl'.
    split; [tauto|]. split; [intros ->; tauto|]. intros Hpv. destruct HAB as [Ha|Hb'].
    - apply (HA p Ha). rewrite !elem_of_app. tauto.
    - apply (Hv p Hpv). rewrite !elem_of_app. tauto. }
  assert (Hside : forall g e, Forall2 (fun x d => x.1 = d.1 /\ (Some x.1 = elsewhere X /\ storage x.2 = [] \/ holds (owned l (f1 ++ (F, v) :: f2) ++ X) h x.2 d.2)) g e ->
    (forall f, In f g -> In f (f1 ++ f2)) ->
    Forall2 (fun x d => x.1 = d.1 /\ (Some x.1 = elsewhere X /\ storage x.2 = [] \/ holds (owned l (f1 ++ (F, v') :: f2) ++ X) h' x.2 d.2)) g e).
  { intros g e Hge. induction Hge as [|x y g e [Hn Hxy] _ IH]; intros Hin; constructor; [split; [done|]|apply IH; intros; apply Hin; by right].
    destruct Hxy as [?|Hxy]; [by left|right]. apply Hha; [|done]. intros p Hp. apply (Hdis x); [apply Hin; by left|done]. }
  apply Forall2_app; [|constructor; [done|]]; apply Hside; try done; intros; apply in_or_app; auto.
Qed.
End update.

(** ** One method call *)

(** From [fs], standing for [ds], to [fs'], standing for [ds']: only what is owned is
    written, and only fresh cells become owned. *)
Definition moves (X : surroundings) (l : loc) (h : heap) (fs : list (string * val)) (h' : heap) (fs' : list (string * val)) (ds' : list (string * deep)) : Prop :=
  builder X h' l fs' ds' /\ (forall c, is_Some (h !! c) -> c ∉ owned l fs -> h' !! c = h !! c) /\
  (forall c, c ∈ owned l fs' -> c ∈ owned l fs \/ h !! c = None) /\
  (forall G, Some G = elsewhere X -> field G fs' = field G fs).

Definition pointed (d : deep) : Prop := match d with DNilPtr | DPtr _ => True | _ => False end.

#[local] Arguments alloc : simpl never.
#[local] Arguments putField : simpl never.
#[local] Arguments getField : simpl never.
#[local] Arguments append1 : simpl never.
#[local] Arguments element : simpl never.
#[local] Arguments Nat.ltb : simpl never.

Lemma putField_run F v' l h fs v : h !! l = Some (Var (VStruct fs)) -> field F fs = Some v ->
  putField F v' (VPtr (Some l)) h = Some (tt, <[l := Var (VStruct (setField F v' fs))]> h).
Proof. intros Hl Hf. unfold putField, fieldsAt, bind, load, ret, store. rewrite Hl. cbn. by rewrite Hf. Qed.

Lemma getField_run F l h fs v : h !! l = Some (Var (VStruct fs)) -> field F fs = Some v -> getField F (VPtr (Some l)) h = Some (v, h).
Proof. intros Hl Hf. unfold getField, fieldsAt, bind, load, ret. rewrite Hl. cbn. by rewrite Hf. Qed.

Lemma builder_field (X : surroundings) h l fs ds F d : builder X h l fs ds -> Some F <> elsewhere X -> field F ds = Some d ->
  exists v, field F fs = Some v /\ holds (owned l fs ++ X) h v d.
Proof.
  intros (_ & _ & _ & Hfs) HF. revert Hfs. generalize (owned l fs ++ X) as O. intros O.
  induction 1 as [|[n v] [m e] fs ds [Hn Hh] _ IH]; cbn in *; [done|]. subst m.
  destruct (String.eqb_spec n F) as [->|]; [|done]. intros [= ->]. exists v. split; [done|]. by destruct Hh as [[]|].
Qed.

Lemma pointed_storage O h v d : pointed d -> holds O h v d -> storage v = [].
Proof. destruct d; try done; destruct v as [| | | |[]|[]|]; done. Qed.

Lemma field_storage X l fs F v : field F fs = Some v -> forall c, c ∈ storage v -> c ∈ owned l fs ++ X.
Proof. intros Hf c Hc. destruct (owned_split X l fs F v Hf) as (rest & Hp). destruct (Hp v) as [_ ->]. apply elem_of_app. by left. Qed.

Lemma owned_shrink X l fs F v v' : field F fs = Some v -> storage v' = [] -> forall c, c ∈ owned l (setField F v' fs) ++ X -> c ∈ owned l fs ++ X.
Proof.
  intros Hf Hs c. destruct (owned_split X l fs F v Hf) as (rest & Hp). destruct (Hp v') as [-> ->]. rewrite Hs, !elem_of_app, elem_of_nil. tauto.
Qed.

(** A field's new value is in place, and no cell but the struct and the field's own changed. *)
Lemma moves_update (X : surroundings) l h fs ds F v v' d' h2 :
  builder X h l fs ds -> Some F <> elsewhere X -> field F fs = Some v -> touches l v h h2 -> restorage h v v' ->
  h2 !! l = Some (Var (VStruct (setField F v' fs))) -> holds (owned l (setField F v' fs) ++ X) h2 v' d' ->
  moves X l h fs h2 (setField F v' fs) (setField F d' ds).
Proof.
  intros Hb HF Hf Ht Hs Hl Hh. split; [|split; [|split]].
  - eapply builder_update; try done. by right.
  - intros c Hc Hno. apply Ht; [done| |].
    + intros ->. apply Hno. left.
    + intros Hin. apply Hno. pose proof (field_storage [] l fs F v Hf c Hin). by rewrite app_nil_r in *.
  - intros c Hc. assert (Hc' : c ∈ owned l (setField F v' fs) ++ []) by (by rewrite app_nil_r).
    destruct (owned_after alone h l fs F v v' Hf Hs c Hc') as [Ho|]; [left; cbn in Ho; by rewrite app_nil_r in Ho|by right].
  - intros G HG. rewrite field_setField. destruct (String.eqb_spec F G) as [->|]; [by rewrite HG in HF|done].
Qed.

(** A field is written after cells were, all owned by it or new. *)
Lemma moves_store (X : surroundings) l h fs ds F v v' d' h1 :
  builder X h l fs ds -> Some F <> elsewhere X -> field F fs = Some v -> touches l v h h1 -> restorage h v v' ->
  (touches l v h (<[l := Var (VStruct (setField F v' fs))]> h1) ->
   holds (owned l (setField F v' fs) ++ X) (<[l := Var (VStruct (setField F v' fs))]> h1) v' d') ->
  moves X l h fs (<[l := Var (VStruct (setField F v' fs))]> h1) (setField F v' fs) (setField F d' ds).
Proof.
  intros Hb HF Hf Ht Hs Hh. assert (Ht' : touches l v h (<[l := Var (VStruct (setField F v' fs))]> h1)).
  { intros c Hc Hl Hv. rewrite lookup_insert_ne by done. by apply Ht. }
  eapply moves_update; [done..|apply lookup_insert_eq|by apply Hh].
Qed.

Lemma window_snoc {A} (xs : list A) off n x : (off + n < List.length xs)%nat ->
  take (S n) (drop off (<[(off + n)%nat := x]> xs)) = take n (drop off xs) ++ [x].
Proof.
  intros Hlt. rewrite drop_insert_ge by lia. replace (off + n - off)%nat with n by lia.
  rewrite (take_S_r _ _ x) by (apply list_lookup_insert_eq; rewrite length_drop; lia).
  by rewrite take_insert_ge by lia.
Qed.

Lemma take_snoc {A} (l r : list A) n x : List.length l = n -> take (S n) (l ++ x :: r) = l ++ [x].
Proof. intros <-. induction l as [|y l IH]; cbn; [done|]. by rewrite <- IH. Qed.

Section methods.
Context `{GoRuntime}.
Context (X : surroundings) (h : heap) (l : loc) (fs : list (string * val)) (ds : list (string * deep)) (F : string).
Context (Hb : builder X h l fs ds) (HF : Some F <> elsewhere X).

(** The argument keeps off what the receiver owns. *)
Definition apart (a : val) (d : deep) : Prop := reads (fun c => c ∉ owned l fs ++ X) h a d.

Lemma builder_at : h !! l = Some (Var (VStruct fs)).
Proof. apply Hb. Qed.

Lemma setAddress_moves d a da : field F ds = Some d -> pointed d -> apart a da ->
  exists h' fs', setAddress F a (VPtr (Some l)) h = Some (VPtr (Some l), h') /\ moves X l h fs h' fs' (setField F (DPtr da) ds).
Proof.
  intros Hd Hp Ha. destruct (builder_field _ _ _ _ _ _ _ Hb HF Hd) as (v & Hv & Hh). apply pointed_storage in Hh; [|done].
  destruct (alloc_new h (Var a)) as (p & Hal & Hnew). pose proof builder_at as Hl.
  assert (Hpl : p <> l) by congruence. eexists _, _. split.
  - unfold setAddress, bind, ret. rewrite Hal. cbn. rewrite (putField_run _ _ _ _ fs v); [done| |done]. by rewrite lookup_insert_ne.
  - apply moves_store with (v := v); [done..| | |].
    + intros c [x Hc] _ _. rewrite lookup_insert_ne; [done|congruence].
    + right. by left.
    + intros Ht. split.
      * intros Hin. apply (owned_shrink X l fs F v) in Hin; [|done..]. apply (builder_live _ _ _ _ _ Hb) in Hin as [? ?]. congruence.
      * exists a. split; [by rewrite lookup_insert_ne, lookup_insert_eq|]. eapply reads_after; [done..|right; by left|exact Ha].
Qed.

Lemma setPointer_moves d a da : field F ds = Some d -> pointed d -> pointed da -> apart a da ->
  exists h' fs', setPointer F a (VPtr (Some l)) h = Some (VPtr (Some l), h') /\ moves X l h fs h' fs' (setField F da ds).
Proof.
  intros Hd Hp Hpa Ha. destruct (builder_field _ _ _ _ _ _ _ Hb HF Hd) as (v & Hv & Hh). apply pointed_storage in Hh; [|done].
  assert (Hsa : storage a = []) by (destruct da; try done; by destruct a as [| | |[]| | |]). eexists _, _. split.
  - unfold setPointer, bind, ret. by rewrite (putField_run _ _ _ _ fs v) by (done || apply builder_at).
  - apply moves_store with (v := v); [done..| | |].
    + by intros c _ _ _.
    + right. by left.
    + intros Ht. assert (Hr : reads (fun c => c ∉ owned l (setField F a fs) ++ X) (<[l:=Var (VStruct (setField F a fs))]> h) a da).
      { eapply reads_after; [done..|right; by left|exact Ha]. }
      destruct da; try done; by destruct a as [| | |[]| | |].
Qed.

(** Elements of a slice: none when nil. *)
Definition elements (d : deep) : option (list deep) := match d with DNilSlice => Some [] | DSlice ds => Some ds | _ => None end.

Lemma append1_moves d old x dx : field F ds = Some d -> elements d = Some old -> apart x dx ->
  exists s s' h1 h' fs', getField F (VPtr (Some l)) h = Some (s, h) /\ append1 s x h = Some (s', h1) /\
    putField F s' (VPtr (Some l)) h1 = Some (tt, h') /\ moves X l h fs h' fs' (setField F (DSlice (old ++ [dx])) ds).
Proof.
  intros Hd He Hx. destruct (builder_field _ _ _ _ _ _ _ Hb HF Hd) as (v & Hv & Hh). pose proof builder_at as Hl.
  exists v. rewrite (getField_run F l h fs v) by done.
  destruct d; try done; injection He as <-.
  - destruct v as [| | | |[]|[]|]; try done. destruct (alloc_new h (Array (x :: spare 1))) as (p & Hal & Hnew).
    eexists _, _, _, _. split; [done|]. split; [unfold append1, bind, ret; rewrite Hal; reflexivity|].
    assert (Hpl : p <> l) by congruence.
    split; [apply putField_run with (v := VSlice None); [by rewrite lookup_insert_ne|done]|].
    apply moves_store with (v := VSlice None); [done..| | |].
    + intros c [y Hc] _ _. rewrite lookup_insert_ne; [done|congruence].
    + right. right. by exists p.
    + intros Ht. cbn. exists (x :: spare 1). rewrite lookup_insert_ne, lookup_insert_eq by done.
      split; [done|]. split; [cbn; lia|]. cbn. split; [|done]. eapply reads_after; [done..| |exact Hx]. right. right. by exists p.
  - destruct v as [| | | |[w|]|[]|]; try done. destruct Hh as (xs & Ha & Hlen & Hr). apply all2_Forall2 in Hr.
    assert (Hwl : w_array w <> l).
    { intros E. destruct Hb as (_ & Hnd & _). destruct (owned_split X l fs F _ Hv) as (rest & Hsp).
      destruct (split_field _ _ _ Hv) as (f1 & f2 & -> & _). unfold owned in Hnd. rewrite !map_app, !concat_app in Hnd. cbn in Hnd.
      apply NoDup_cons in Hnd as [Hnd _]. apply Hnd. rewrite E, !elem_of_app, elem_of_cons. tauto. }
    destruct (Nat.ltb_spec (w_offset w + w_len w) (List.length xs)) as [Hlt|Hge].
    + eexists _, _, _, _. split; [done|]. split.
      { unfold append1, bind, load, store, ret. rewrite Ha. cbn. rewrite (proj2 (Nat.ltb_lt _ _)) by done. reflexivity. }
      split; [apply putField_run with (v := VSlice (Some w)); [by rewrite lookup_insert_ne|done]|].
      apply moves_store with (v := VSlice (Some w)); [done..| | |].
      * intros c _ _ Hc. rewrite lookup_insert_ne; [done|]. intros <-. apply Hc. by left.
      * by left.
      * intros Ht. cbn. eexists. rewrite lookup_insert_ne, lookup_insert_eq by done.
        split; [done|]. split; [rewrite length_insert; lia|]. rewrite (window_snoc xs) by done. apply all2_Forall2, Forall2_app.
        -- eapply Forall2_impl; [exact Hr|]. intros y dy Hy. eapply reads_after; [done..|by left|exact Hy].
        -- repeat constructor. eapply reads_after; [done..|by left|exact Hx].
    + destruct (alloc_new h (Array (take (w_len w) (drop (w_offset w) xs) ++ x :: spare (S (w_len w))))) as (p & Hal & Hnew).
      assert (Hpl : p <> l) by congruence. eexists _, _, _, _. split; [done|]. split.
      { unfold append1, bind, load, ret. rewrite Ha. cbn. rewrite (proj2 (Nat.ltb_ge _ _)) by done. cbn in Hal |- *. rewrite Hal. reflexivity. }
      split; [apply putField_run with (v := VSlice (Some w)); [by rewrite lookup_insert_ne|done]|].
      assert (Hn : restorage h (VSlice (Some w)) (VSlice (Some {| w_array := p; w_offset := 0; w_len := S (w_len w) |})))
        by (right; right; by exists p).
      apply moves_store with (v := VSlice (Some w)); [done..| |done|].
      * intros c [y Hc] _ _. rewrite lookup_insert_ne; [done|congruence].
      * intros Ht. cbn. eexists. rewrite lookup_insert_ne, lookup_insert_eq by done. split; [done|].
        assert (Hk : List.length (take (w_len w) (drop (w_offset w) xs)) = w_len w) by (rewrite length_firstn, length_skipn; lia).
        split; [rewrite length_app, Hk; cbn; lia|]. rewrite drop_0, (take_snoc _ _ _ _ Hk). apply all2_Forall2, Forall2_app.
        -- eapply Forall2_impl; [exact Hr|]. intros y dy Hy. eapply reads_after; [done..|exact Hn|exact Hy].
        -- repeat constructor. eapply reads_after; [done..|exact Hn|exact Hx].
Qed.

End methods.

Lemma moves_refl X l h fs ds : builder X h l fs ds -> moves X l h fs h fs ds.
Proof. intros Hb. split_and!; [done|done|by left|done]. Qed.

Lemma moves_trans X l h fs h1 fs1 ds1 h2 fs2 ds2 :
  moves X l h fs h1 fs1 ds1 -> moves X l h1 fs1 h2 fs2 ds2 -> moves X l h fs h2 fs2 ds2.
Proof.
  intros (_ & K1 & N1 & G1) (Hb & K2 & N2 & G2). split; [done|].
  assert (K : forall c, is_Some (h !! c) -> c ∉ owned l fs -> h2 !! c = h !! c).
  { intros c Hc Hno. assert (E : h1 !! c = h !! c) by by apply K1. rewrite K2; [done|by rewrite E|].
    intros Hin. destruct (N1 c Hin) as [?|Hn]; [done|]. rewrite Hn in Hc. by destruct Hc. }
  split; [done|]. split; [|intros G HG; by rewrite G2, G1]. intros c Hc. destruct (decide (c ∈ owned l fs)) as [|Hno]; [by left|right].
  destruct (N2 c Hc) as [Hin|Hn]; [destruct (N1 c Hin); done|]. destruct (h !! c) as [x|] eqn:E; [|done].
  rewrite K1 in Hn; [congruence|by rewrite E|done].
Qed.

(** What is apart from the receiver is untouched by its methods. *)
Lemma moves_apart (X : surroundings) l h fs ds h' fs' ds' a d : builder X h l fs ds -> moves X l h fs h' fs' ds' ->
  reads (fun c => c ∉ owned l fs ++ X) h a d -> reads (fun c => c ∉ owned l fs' ++ X) h' a d.
Proof.
  intros Hb (_ & K & N & _). apply reads_mono. intros c x Hc Hx. rewrite not_elem_of_app in Hc. destruct Hc as [Hc HcX]. split.
  - rewrite not_elem_of_app. split; [|done]. intros Hin. destruct (N c Hin); [done|congruence].
  - rewrite K; [done|eauto|done].
Qed.

Lemma setField_twice {A} n (a b : A) fs : setField n b (setField n a fs) = setField n b fs.
Proof. induction fs as [|[m x] fs IH]; cbn; [done|]. destruct (String.eqb m n) eqn:E; cbn; rewrite E; [done|by rewrite IH]. Qed.

Lemma field_set {A} n (a b : A) fs : field n fs = Some b -> field n (setField n a fs) = Some a.
Proof. induction fs as [|[m x] fs IH]; cbn; [done|]. destruct (String.eqb m n) eqn:E; cbn; rewrite E; [done|apply IH]. Qed.

(** ** The loops *)

(** What [get] makes of an element. *)
Definition gets (get : val -> C val) (view : deep -> option deep) : Prop :=
  forall P h x d, reads P h x d ->
    match view d with Some d' => exists y, get x h = Some (y, h) /\ reads P h y d' | None => get x h = None end.

Lemma gets_ret : gets ret Some.
Proof. intros P h x d Hr. by exists x. Qed.

Definition pointee (d : deep) : option deep := match d with DPtr d' => Some d' | _ => None end.

Lemma gets_deref : gets deref pointee.
Proof.
  intros P h x d Hr. destruct d; destruct x as [| | |[p|]| | |]; try done. destruct Hr as [_ (y & Hl & Hy)].
  exists y. split; [|done]. unfold deref, bind, load, ret. by rewrite Hl.
Qed.

Lemma element_reads P h values ds i d : reads P h values (DSlice ds) -> ds !! i = Some d ->
  exists x, element values i h = Some (x, h) /\ reads P h x d.
Proof.
  intros Hr Hi. destruct values as [| | | |[w|]|[]|]; try done. destruct Hr as [_ (xs & Hx & Hr)]. apply all2_Forall2 in Hr.
  destruct (Forall2_lookup_r _ _ _ _ _ Hr Hi) as (x & Hxi & Hx'). exists x. split; [|done].
  unfold element, bind, load, ret. rewrite Hx. cbn. by rewrite Hxi.
Qed.

(** The field after the elements [news] were appended. *)
Definition appended (F : string) (old news : list deep) (ds : list (string * deep)) : list (string * deep) :=
  match news with [] => ds | _ => setField F (DSlice (old ++ news)) ds end.

Lemma bind_some {A B} (m : C A) (k : A -> C B) (h h' : heap) a : m h = Some (a, h') -> bind m k h = k a h'.
Proof. intros E. unfold bind. by rewrite E. Qed.
Lemma bind_none {A B} (m : C A) (k : A -> C B) (h : heap) : m h = None -> bind m k h = None.
Proof. intros E. unfold bind. by rewrite E. Qed.

Lemma appendFrom_moves `{GoRuntime} get view (X : surroundings) l F values (Hget : gets get view) (HF : Some F <> elsewhere X) rest : forall pre h fs ds d old,
  builder X h l fs ds -> field F ds = Some d -> elements d = Some old ->
  reads (fun c => c ∉ owned l fs ++ X) h values (DSlice (pre ++ rest)) ->
  match mapM view rest with
  | Some news => exists h' fs', appendFrom get F values (VPtr (Some l)) (seq (List.length pre) (List.length rest)) h = Some (tt, h') /\
                   moves X l h fs h' fs' (appended F old news ds)
  | None => appendFrom get F values (VPtr (Some l)) (seq (List.length pre) (List.length rest)) h = None
  end.
Proof.
  induction rest as [|e rest IH]; intros pre h fs ds d old Hb Hd He Hr; cbn [mapM seq List.length appendFrom].
  { exists h, fs. split; [done|]. by apply moves_refl. }
  destruct (element_reads _ _ _ _ (List.length pre) e Hr) as (x & Hx & Hrx).
  { rewrite lookup_app_r by done. by rewrite Nat.sub_diag. }
  rewrite (bind_some _ _ _ _ _ Hx). pose proof (Hget _ _ _ _ Hrx) as Hg.
  destruct (view e) as [d'|]; cbn [mbind option_bind]; [|by apply bind_none].
  destruct Hg as (y & Hy & Hry). rewrite (bind_some _ _ _ _ _ Hy).
  destruct (append1_moves X h l fs ds F Hb HF d old y d' Hd He Hry) as (s & s' & h1 & h2 & fs2 & E1 & E2 & E3 & Hm).
  rewrite (bind_some _ _ _ _ _ E1), (bind_some _ _ _ _ _ E2), (bind_some _ _ _ _ _ E3).
  pose proof (moves_apart _ _ _ _ _ _ _ _ _ _ Hb Hm Hr) as Hr2.
  specialize (IH (pre ++ [e]) h2 fs2 _ (DSlice (old ++ [d'])) (old ++ [d']) (proj1 Hm)).
  rewrite <- app_assoc in IH. specialize (IH (field_set _ _ _ _ Hd) eq_refl Hr2). rewrite length_app, Nat.add_1_r in IH.
  destruct (mapM view rest) as [news|]; cbn; [|done]. destruct IH as (h' & fs' & Hrun & Hm'). exists h', fs'. split; [done|].
  eapply moves_trans; [exact Hm|]. unfold appended in *. destruct news as [|n news]; [done|].
  rewrite setField_twice, <- app_assoc in Hm'. exact Hm'.
Qed.

(** ** The methods as wholes *)

Section wholes.
Context `{GoRuntime}.
Context (X : surroundings) (h : heap) (l : loc) (fs : list (string * val)) (ds : list (string * deep)) (F : string).
Context (Hb : builder X h l fs ds) (HF : Some F <> elsewhere X).

Lemma append_moves get view d old values news_in : gets get view -> field F ds = Some d -> elements d = Some old ->
  apart X h l fs values news_in -> forall das, elements news_in = Some das -> len values = List.length das ->
  match mapM view das with
  | Some news => exists h' fs', (_ ⇐ appendFrom get F values (VPtr (Some l)) (seq 0 (len values)) ;; ret (VPtr (Some l))) h = Some (VPtr (Some l), h') /\
                   moves X l h fs h' fs' (appended F old news ds)
  | None => (_ ⇐ appendFrom get F values (VPtr (Some l)) (seq 0 (len values)) ;; ret (VPtr (Some l))) h = None
  end.
Proof.
  intros Hget Hd He Ha das Hdas Hlen. rewrite Hlen. destruct news_in; try done; injection Hdas as <-.
  { exists h, fs. split; [done|]. by apply moves_refl. }
  pose proof (appendFrom_moves get view X l F values Hget HF ds0 [] h fs ds d old Hb Hd He Ha) as Hm.
  destruct (mapM view ds0) as [news|]; [|by apply bind_none]. destruct Hm as (h' & fs' & Hrun & Hm). exists h', fs'.
  split; [by rewrite (bind_some _ _ _ _ _ Hrun)|done].
Qed.

(** The entries of a map: none when nil. *)
Definition entries (d : deep) : option (gmap string string) := match d with DNilMap => Some ∅ | DMap m => Some m | _ => None end.

Definition merged (old new : gmap string string) : list (string * deep) :=
  if (size new =? 0)%nat then ds else setField F (DMap (new ∪ old)) ds.

Lemma entriesOf_reads P a d es : reads P h a d -> entries d = Some es -> entriesOf a h = Some (es, h).
Proof.
  intros Hr He. destruct d; try done; destruct a as [| | | | |[p|]|]; try done; injection He as <-; [done|].
  destruct Hr as [_ Hl]. unfold entriesOf, bind, load, ret. by rewrite Hl.
Qed.

Lemma setField_same {A} n (a : A) gs : field n gs = Some a -> setField n a gs = gs.
Proof. induction gs as [|[m x] gs IH]; cbn; [done|]. destruct (String.eqb m n); [by intros [= ->]|]. intros. by rewrite IH. Qed.

Lemma putEntries_moves d old a da new : field F ds = Some d -> entries d = Some old -> apart X h l fs a da -> entries da = Some new ->
  exists h' fs', putEntries F a (VPtr (Some l)) h = Some (VPtr (Some l), h') /\ moves X l h fs h' fs' (merged old new).
Proof.
  intros Hd He Ha Hn. destruct (builder_field _ _ _ _ _ _ _ Hb HF Hd) as (v & Hv & Hh). pose proof (builder_at _ _ _ _ _ Hb) as Hl.
  unfold putEntries, merged. rewrite (bind_some _ _ _ _ _ (entriesOf_reads _ _ _ _ Ha Hn)).
  rewrite (bind_some _ _ _ _ _ (getField_run F l h fs v Hl Hv)). destruct (size new =? 0)%nat.
  { exists h, fs. split; [done|]. by apply moves_refl. }
  destruct d; try done; injection He as <-; destruct v as [| | | |[]|[p|]|]; try done.
  - destruct (alloc_new h (Strings new)) as (p & Hal & Hnew). assert (Hpl : p <> l) by congruence.
    rewrite (bind_some _ _ _ _ _ Hal), (bind_some _ _ _ _ _ (putField_run F (VMap (Some p)) l _ fs _ ltac:(by rewrite lookup_insert_ne) Hv)).
    eexists _, _. split; [done|]. rewrite (right_id_L ∅ (∪)). apply moves_store with (v := VMap None); [done..| | |].
    + intros c [y Hc] _ _. rewrite lookup_insert_ne; [done|congruence].
    + right. right. by exists p.
    + intros _. cbn. by rewrite lookup_insert_ne, lookup_insert_eq.
  - assert (Hpl : p <> l) by (intros ->; cbn in Hh; congruence).
    assert (E : entriesOf (VMap (Some p)) h = Some (m, h)) by (unfold entriesOf, bind, load, ret; cbn in Hh; by rewrite Hh).
    rewrite (bind_some _ _ _ _ _ E). eexists _, fs. split; [reflexivity|].
    rewrite <- (setField_same F (VMap (Some p)) fs Hv) at 2. apply moves_update with (v := VMap (Some p)); [done..| | | |].
    + intros c _ _ Hc. rewrite lookup_insert_ne; [done|]. intros <-. apply Hc. by left.
    + by left.
    + by rewrite lookup_insert_ne, setField_same.
    + cbn. by rewrite lookup_insert_eq.
Qed.

End wholes.

(** ** What a method is to do *)

(** The statements, by the field they are about. *)
Inductive change :=
  | Address (F : string)
  | Pointer (F : string)
  | Values (F : string)
  | Pointers (F : string)
  | Entries (F : string).

Definition target (c : change) : string := match c with Address F | Pointer F | Values F | Pointers F | Entries F => F end.

(** The type of the argument, from the struct's fields. *)
Definition argument (c : change) (ts : list (string * ty)) : option ty :=
  match c, field (target c) ts with
  | Address _, Some (TPtr t) => Some t
  | Pointer _, Some (TPtr t) => Some (TPtr t)
  | Values _, Some (TSlice t) => Some (TSlice t)
  | Pointers _, Some (TSlice t) => Some (TSlice (TPtr t))
  | Entries _, Some TMap => Some TMap
  | _, _ => None
  end.

(** What becomes of the struct's fields; [None] when a nil among the arguments panics. *)
Definition effect (c : change) (a : deep) (ds : list (string * deep)) : option (list (string * deep)) :=
  let old := field (target c) ds in
  match c with
  | Address F => Some (setField F (DPtr a) ds)
  | Pointer F => Some (setField F a ds)
  | Values F => Some (appended F (default [] (old ≫= elements)) (default [] (elements a)) ds)
  | Pointers F => news ← mapM pointee (default [] (elements a)); Some (appended F (default [] (old ≫= elements)) news ds)
  | Entries F => Some (merged ds F (default ∅ (old ≫= entries)) (default ∅ (entries a)))
  end.

(** A slice argument lies within its array. *)
Definition whole (a : val) (d : deep) : Prop := forall ds, elements d = Some ds -> len a = List.length ds.

Section contract.
Context `{GoRuntime}.
Context (fieldsOf : string -> option (list (string * ty))).

Lemma typed_field T ts ds F t : fieldsOf T = Some ts -> hasType fieldsOf (TStruct T) (DStruct ds) -> field F ts = Some t ->
  exists d, field F ds = Some d /\ hasType fieldsOf t d.
Proof.
  intros HT Ht. cbn in Ht. rewrite HT in Ht. apply all2_Forall2 in Ht. clear HT.
  induction Ht as [|[n u] [m d] ts ds [Hn Hd] _ IH]; cbn in *; [done|]. subst m. destruct (String.eqb n F); [intros [= ->]; eauto|done].
Qed.

Lemma typed_set T ts ds F t d : fieldsOf T = Some ts -> hasType fieldsOf (TStruct T) (DStruct ds) -> field F ts = Some t ->
  hasType fieldsOf t d -> hasType fieldsOf (TStruct T) (DStruct (setField F d ds)).
Proof.
  intros HT Ht. cbn in *. rewrite HT in *. apply all2_Forall2 in Ht. intros HF Hd. apply all2_Forall2. revert HF. clear HT.
  induction Ht as [|[n u] [m e] ts ds [Hn He] Hts IH]; cbn in *; [done|]. subst m.
  destruct (String.eqb n F); [intros [= ->]|intros HF]; constructor; auto.
Qed.

Lemma typed_pointed t d : hasType fieldsOf (TPtr t) d -> pointed d.
Proof. by destruct d. Qed.
Lemma typed_elements t d : hasType fieldsOf (TSlice t) d -> exists ds, elements d = Some ds /\ Forall (hasType fieldsOf t) ds.
Proof. destruct d; try done; [by exists []|]. intros Ht. exists ds. split; [done|]. by apply all1_Forall in Ht. Qed.
Lemma typed_entries d : hasType fieldsOf TMap d -> exists m, entries d = Some m.
Proof. destruct d; try done; eauto. Qed.

Lemma typed_appended T ts ds F t old news : fieldsOf T = Some ts -> hasType fieldsOf (TStruct T) (DStruct ds) -> field F ts = Some (TSlice t) ->
  Forall (hasType fieldsOf t) old -> Forall (hasType fieldsOf t) news -> hasType fieldsOf (TStruct T) (DStruct (appended F old news ds)).
Proof.
  intros HT Ht HF Ho Hn. unfold appended. destruct news as [|n news]; [done|]. eapply typed_set; [done..|]. cbn. by apply all1_Forall, Forall_app.
Qed.

(** [code], called on a struct of type [T], makes the change [c]. *)
Definition performs (code : val -> val -> C val) (T : string) (c : change) : Prop :=
  forall (X : surroundings) h l fs ds a da ts t,
    builder X h l fs ds -> Some (target c) <> elsewhere X -> fieldsOf T = Some ts -> hasType fieldsOf (TStruct T) (DStruct ds) ->
    argument c ts = Some t -> hasType fieldsOf t da -> apart X h l fs a da -> whole a da ->
    match effect c da ds with
    | Some ds' => exists h' fs', code a (VPtr (Some l)) h = Some (VPtr (Some l), h') /\ moves X l h fs h' fs' ds' /\
                    hasType fieldsOf (TStruct T) (DStruct ds')
    | None => code a (VPtr (Some l)) h = None
    end.

(** Names the field's type, given that the argument has one. *)
Ltac field_type Harg :=
  unfold argument in Harg; cbn [target] in Harg;
  let E := fresh "E" in
  match type of Harg with context [field ?F ?ts] => destruct (field F ts) as [[]|] eqn:E end;
  try discriminate Harg; injection Harg as <-.

Lemma performs_setAddress T F : performs (setAddress F) T (Address F).
Proof.
  intros X h l fs ds a da ts t Hb HF HT Ht Harg Hda Ha _. field_type Harg.
  destruct (typed_field _ _ _ _ _ HT Ht E) as (d & Hd & Htd). apply typed_pointed in Htd as Hp.
  destruct (setAddress_moves X h l fs ds F Hb HF d a da Hd Hp Ha) as (h' & fs' & Hr & Hm). exists h', fs'. split_and!; [done..|].
  eapply typed_set; [done..|]. exact Hda.
Qed.

Lemma performs_setPointer T F : performs (setPointer F) T (Pointer F).
Proof.
  intros X h l fs ds a da ts t Hb HF HT Ht Harg Hda Ha _. field_type Harg.
  destruct (typed_field _ _ _ _ _ HT Ht E) as (d & Hd & Htd). apply typed_pointed in Htd as Hp. apply typed_pointed in Hda as Hpa.
  destruct (setPointer_moves X h l fs ds F Hb HF d a da Hd Hp Hpa Ha) as (h' & fs' & Hr & Hm). exists h', fs'. split_and!; [done..|].
  by eapply typed_set.
Qed.

Lemma performs_appendValues T F : performs (appendValues F) T (Values F).
Proof.
  intros X h l fs ds a da ts t Hb HF HT Ht Harg Hda Ha Hw. field_type Harg.
  destruct (typed_field _ _ _ _ _ HT Ht E) as (d & Hd & Htd). destruct (typed_elements _ _ Htd) as (old & Ho & Hto).
  destruct (typed_elements _ _ Hda) as (das & Hdas & Htdas).
  pose proof (append_moves X h l fs ds F Hb HF ret Some d old a da gets_ret Hd Ho Ha das Hdas (Hw _ Hdas)) as Hm.
  cbn [effect target]. rewrite Hd, Hdas. cbn. rewrite Ho. cbn.
  assert (E' : mapM Some das = Some das) by (clear; induction das as [|x das IH]; cbn; [done|by rewrite IH]). rewrite E' in Hm.
  destruct Hm as (h' & fs' & Hr & Hm). exists h', fs'. split_and!; [exact Hr|done|]. by eapply typed_appended.
Qed.

Lemma performs_appendPointers T F : performs (appendPointers F) T (Pointers F).
Proof.
  intros X h l fs ds a da ts t Hb HF HT Ht Harg Hda Ha Hw. field_type Harg.
  destruct (typed_field _ _ _ _ _ HT Ht E) as (d & Hd & Htd). destruct (typed_elements _ _ Htd) as (old & Ho & Hto).
  destruct (typed_elements _ _ Hda) as (das & Hdas & Htdas).
  pose proof (append_moves X h l fs ds F Hb HF deref pointee d old a da gets_deref Hd Ho Ha das Hdas (Hw _ Hdas)) as Hm.
  cbn [effect target]. rewrite Hd, Hdas. cbn. rewrite Ho. cbn.
  destruct (mapM pointee das) as [news|] eqn:En; cbn; [|exact Hm]. destruct Hm as (h' & fs' & Hr & Hm). exists h', fs'.
  split_and!; [exact Hr|done|]. eapply typed_appended; [done..|].
  clear -Htdas En. revert news En. induction Htdas as [|x das Hx _ IH]; cbn; [by intros ? [= <-]|].
  destruct x; try done. cbn. destruct (mapM pointee das); [|done]. intros ? [= <-]. constructor; [done|by apply IH].
Qed.

Lemma performs_putEntries T F : performs (putEntries F) T (Entries F).
Proof.
  intros X h l fs ds a da ts t Hb HF HT Ht Harg Hda Ha _. field_type Harg.
  destruct (typed_field _ _ _ _ _ HT Ht E) as (d & Hd & Htd). destruct (typed_entries _ Htd) as (old & Ho). destruct (typed_entries _ Hda) as (new & Hn).
  destruct (putEntries_moves X h l fs ds F Hb HF d old a da new Hd Ho Ha Hn) as (h' & fs' & Hr & Hm).
  cbn [effect target]. rewrite Hd, Hn. cbn. rewrite Ho. cbn. exists h', fs'. split_and!; [done..|]. unfold merged.
  destruct (size new =? 0)%nat; [done|]. by eapply typed_set.
Qed.

End contract.
