(* ===== verification/BuilderObjects.v ===== *)
(** * Builders of whole objects, and chains of calls

    The apply configuration of an object reaches its metadata through a pointer that the
    setters fill in on demand; a caller builds configurations by chains of calls.
    [implements] extends the contract of single statements ([Builders.performs]) to both kinds
    of struct, and [chain_runs] to chains. *)

From S2P Require Import Prelude GoHeap Builders.

Set Warnings "-register-all".

#[local] Open Scope go_scope.

#[local] Arguments alloc : simpl never.
#[local] Arguments putField : simpl never.
#[local] Arguments getField : simpl never.

Definition metaField : string := "ObjectMetaApplyConfiguration".

(** [&T{}]: apply configurations have fields that can be nil only. *)
Definition nil (t : ty) : val :=
  match t with
  | TPtr _ => VPtr None
  | TSlice _ => VSlice None
  | TMap => VMap None
  | TStr => VStr ""
  | TBool => VBool false
  | TInt => VInt 0
  | TStruct _ => VStruct []
  end.

Definition zeros (ts : list (string * ty)) : list (string * val) := map (fun f => (f.1, nil f.2)) ts.

Definition new (ts : list (string * ty)) : C val :=
  p ⇐ alloc (Var (VStruct (zeros ts))) ;;
  ret (VPtr (Some p)).

(** client-go's ObjectMetaApplyConfiguration *)
Definition metav1ac_ObjectMeta_fields : list (string * ty) :=
  [("Name", TPtr TStr); ("GenerateName", TPtr TStr); ("Namespace", TPtr TStr); ("UID", TPtr TStr); ("ResourceVersion", TPtr TStr);
   ("Generation", TPtr TInt); ("CreationTimestamp", TPtr (TStruct "metav1.Time")); ("DeletionTimestamp", TPtr (TStruct "metav1.Time"));
   ("DeletionGracePeriodSeconds", TPtr TInt); ("Labels", TMap); ("Annotations", TMap);
   ("OwnerReferences", TSlice (TStruct "metav1ac.OwnerReference")); ("Finalizers", TSlice TStr)].

Definition nilDeep (t : ty) : deep :=
  match t with
  | TPtr _ => DNilPtr
  | TSlice _ => DNilSlice
  | TMap => DNilMap
  | TStr => DStr ""
  | TBool => DBool false
  | TInt => DInt 0
  | TStruct _ => DStruct []
  end.

Definition zerosDeep (ts : list (string * ty)) : list (string * deep) := map (fun f => (f.1, nilDeep f.2)) ts.

(** [ensureObjectMetaApplyConfigurationExists] *)
Definition ensureObjectMeta (b : val) : C unit :=
  m ⇐ getField metaField b ;;
  match m with
  | VPtr None =>
      p ⇐ alloc (Var (VStruct (zeros metav1ac_ObjectMeta_fields))) ;;
      putField metaField (VPtr (Some p)) b
  | VPtr (Some _) => ret tt
  | _ => stuck
  end.

(** A statement about [b.ObjectMetaApplyConfiguration], then [return b]. *)
Definition onMeta (k : val -> C val) (b : val) : C val :=
  _ ⇐ ensureObjectMeta b ;;
  m ⇐ getField metaField b ;;
  _ ⇐ k m ;;
  ret b.

(** [b.ObjectMetaApplyConfiguration.F], of metadata that is made to exist first. *)
Definition getMeta (F : string) (b : val) : C val :=
  _ ⇐ ensureObjectMeta b ;;
  m ⇐ getField metaField b ;;
  getField F m.

(** ** Two structs side by side *)

(** A builder does not see changes of cells it neither owns nor reads. *)
Lemma builder_frame (X X' : surroundings) (h h' : heap) l fs ds :
  builder X h l fs ds -> elsewhere X' = elsewhere X ->
  (forall c, is_Some (h !! c) -> c ∉ kept X -> h' !! c = h !! c) ->
  (forall c, c ∈ kept X' -> c ∈ kept X \/ h !! c = None) ->
  NoDup (owned l fs ++ X') -> (forall c, c ∈ kept X' -> is_Some (h' !! c)) -> builder X' h' l fs ds.
Proof.
  intros Hb He Hk Hn Hd HX. pose proof (builder_live _ _ _ _ _ Hb) as Hlive. destruct Hb as (Hl & Hnd & _ & Hfs).
  assert (Hown : forall c, c ∈ owned l fs -> h' !! c = h !! c).
  { intros c Hc. apply Hk; [apply Hlive, elem_of_app; by left|]. apply NoDup_app in Hnd as (_ & Hnd & _). by apply Hnd. }
  split; [rewrite Hown; [done|left]|]. split; [done|]. split; [done|]. rewrite He.
  assert (Hr : forall a d, reads (fun c => c ∉ owned l fs ++ X) h a d -> reads (fun c => c ∉ owned l fs ++ X') h' a d).
  { intros a d. apply reads_mono. intros c x Hc Hx. rewrite not_elem_of_app in *. destruct Hc as [H1 H2].
    split; [|rewrite Hk; eauto]. split; [done|]. intros Hin. destruct (Hn c Hin); [done|congruence]. }
  assert (Hall : forall x, In x fs -> forall p, p ∈ storage x.2 -> p ∈ owned l fs).
  { intros x Hx p Hp. right. apply list_elem_of_In, in_concat. exists (storage x.2).
    split; [by apply (in_map (fun f => storage f.2))|by apply list_elem_of_In]. }
  assert (Hgo : forall gs es, (forall x, In x gs -> In x fs) ->
    Forall2 (fun x d => x.1 = d.1 /\ (Some x.1 = elsewhere X /\ storage x.2 = [] \/ holds (owned l fs ++ X) h x.2 d.2)) gs es ->
    Forall2 (fun x d => x.1 = d.1 /\ (Some x.1 = elsewhere X /\ storage x.2 = [] \/ holds (owned l fs ++ X') h' x.2 d.2)) gs es).
  { intros gs es Hin Hge. induction Hge as [|x d gs es [Hn' Hx] _ IH]; constructor; [split; [done|]|apply IH; intros; apply Hin; by right].
    destruct Hx as [?|Hx]; [by left|right]. assert (Hs : forall p, p ∈ storage x.2 -> h' !! p = h !! p) by (intros; apply Hown, (Hall x); [apply Hin; by left|done]).
    destruct (x.2) as [| | | |[w|]|[p|]|]; try (by apply Hr). all: destruct (d.2); cbn in *; try done.
    - destruct Hx as (xs & Ha & Hlen & Hel). exists xs. rewrite Hs by left. split_and!; [done..|].
      apply all2_Forall2 in Hel. apply all2_Forall2. eapply Forall2_impl; [exact Hel|]. intros. by apply Hr.
    - by rewrite Hs by left. }
  by apply Hgo.
Qed.

Abbreviation around O := {| kept := O; elsewhere := Some metaField |}.
Abbreviation inside O := {| kept := O; elsewhere := None |}.

(** A configuration under construction: [O] is what its setters may write. *)
Inductive config (h : heap) (l : loc) (ds : list (string * deep)) : list loc -> Prop :=
  | plain fs : field metaField ds = None -> builder alone h l fs ds -> config h l ds (owned l fs)
  | without_meta fs :
      field metaField fs = Some (VPtr None) -> field metaField ds = Some DNilPtr ->
      builder (around []) h l fs ds -> config h l ds (owned l fs)
  | with_meta fs m mfs mds :
      field metaField fs = Some (VPtr (Some m)) -> field metaField ds = Some (DPtr (DStruct mds)) ->
      builder (around (owned m mfs)) h l fs ds -> builder (inside (owned l fs)) h m mfs mds ->
      config h l ds (owned l fs ++ owned m mfs).

(** Only [O] was written, and only fresh cells joined it. *)
Definition evolves (O : list loc) (h : heap) (O' : list loc) (h' : heap) : Prop :=
  (forall c, is_Some (h !! c) -> c ∉ O -> h' !! c = h !! c) /\ (forall c, c ∈ O' -> c ∈ O \/ h !! c = None).

Lemma moves_evolves X l h fs h' fs' ds' : moves X l h fs h' fs' ds' -> evolves (owned l fs) h (owned l fs') h'.
Proof. intros (_ & ? & ? & _). by split. Qed.

Lemma evolves_live O h O' h' c : evolves O h O' h' -> c ∉ O -> is_Some (h !! c) -> is_Some (h' !! c).
Proof. intros [K _] Hc Hl. by rewrite K. Qed.

Section contract.
Context `{GoRuntime}.
Context (fieldsOf : string -> option (list (string * ty))).
Context (Hmeta : fieldsOf "metav1ac.ObjectMeta" = Some metav1ac_ObjectMeta_fields).

(** A setter of the object's own. *)
Lemma own_setter code T c h l ds O a da ts t :
  performs fieldsOf code T c -> config h l ds O -> target c <> metaField -> fieldsOf T = Some ts ->
  hasType fieldsOf (TStruct T) (DStruct ds) -> argument c ts = Some t -> hasType fieldsOf t da ->
  reads (fun x => x ∉ O) h a da -> whole a da ->
  match effect c da ds with
  | Some ds' => exists h' O', code a (VPtr (Some l)) h = Some (VPtr (Some l), h') /\ config h' l ds' O' /\ evolves O h O' h' /\
                  hasType fieldsOf (TStruct T) (DStruct ds')
  | None => code a (VPtr (Some l)) h = None
  end.
Proof.
  intros Hp Ho Hne HT Ht Harg Hda Ha Hw. assert (Hne' : Some (target c) <> Some metaField) by congruence.
  assert (Hmf : forall ds', effect c da ds = Some ds' -> field metaField ds' = field metaField ds).
  { intros ds' He. assert (Hset : forall d, field metaField (setField (target c) d ds) = field metaField ds).
    { intros d. rewrite field_setField. by destruct (String.eqb_spec (target c) metaField). }
    destruct c; cbn [effect target] in *; try (injection He as <-); try apply Hset.
    - unfold appended. destruct (default [] (elements da)); [done|apply Hset].
    - destruct (mapM pointee _) as [[|? ?]|]; cbn in He; try discriminate He; injection He as <-; [done|apply Hset].
    - unfold merged. destruct (_ =? _)%nat; [done|apply Hset]. }
  destruct Ho as [fs Hmd Hb|fs Hm Hmd Hb|fs m mfs mds Hm Hmd Hb Hbm].
  - assert (Ha' : apart alone h l fs a da) by (unfold apart; cbn; by rewrite app_nil_r).
    pose proof (Hp alone h l fs ds a da ts t Hb ltac:(done) HT Ht Harg Hda Ha' Hw) as Hcode.
    destruct (effect c da ds) as [ds'|]; [|done]. destruct Hcode as (h' & fs' & Hr & Hmv & Ht'). exists h', (owned l fs').
    split; [done|]. split; [apply plain; [by rewrite Hmf|apply Hmv]|split; [by eapply moves_evolves|done]].
  - assert (Ha' : apart (around []) h l fs a da) by (unfold apart; cbn; by rewrite app_nil_r).
    pose proof (Hp (around []) h l fs ds a da ts t Hb Hne' HT Ht Harg Hda Ha' Hw) as Hcode.
    destruct (effect c da ds) as [ds'|]; [|done]. destruct Hcode as (h' & fs' & Hr & Hmv & Ht'). exists h', (owned l fs').
    split; [done|]. pose proof Hmv as (Hb' & _ & _ & HG). split; [|split; [by eapply moves_evolves|done]].
    econstructor; [by rewrite HG|by rewrite Hmf|done].
  - pose proof (Hp (around (owned m mfs)) h l fs ds a da ts t Hb Hne' HT Ht Harg Hda Ha Hw) as Hcode.
    destruct (effect c da ds) as [ds'|]; [|done]. destruct Hcode as (h' & fs' & Hr & Hmv & Ht'). exists h', (owned l fs' ++ owned m mfs).
    pose proof Hmv as (Hb' & K & N & HG). split; [done|]. split; [|split; [|done]].
    + eapply with_meta; [by rewrite HG|by rewrite Hmf|done|].
      eapply builder_frame; [exact Hbm|done|exact K|exact N| |].
      * destruct Hb' as (_ & Hd & _). change (NoDup (owned m mfs ++ owned l fs')). rewrite (Permutation_app_comm (owned m mfs) (owned l fs')). exact Hd.
      * intros x Hx. eapply (builder_live _ _ _ _ _ Hb'). apply elem_of_app. by left.
    + split.
      * intros x Hx Hno. rewrite not_elem_of_app in Hno. apply K; tauto.
      * intros x Hx. apply elem_of_app in Hx as [Hx|Hx]; [destruct (N x Hx) as [?|?]; [left; apply elem_of_app; by left|by right]|left; apply elem_of_app; by right].
Qed.

(** The metadata a setter works on. *)
Definition metaOf (ds : list (string * deep)) : list (string * deep) :=
  match field metaField ds with
  | Some (DPtr (DStruct mds)) => mds
  | _ => zerosDeep metav1ac_ObjectMeta_fields
  end.

Lemma owned_zeros p ts : owned p (zeros ts) = [p].
Proof.
  unfold owned. f_equal. induction ts as [|[n t] ts IH]; [done|].
  change (storage (nil t) ++ concat (map (fun f => storage f.2) (zeros ts)) = []). rewrite IH. by destruct t.
Qed.

Lemma builder_new (O : list loc) (h : heap) p ts :
  h !! p = Some (Var (VStruct (zeros ts))) -> NoDup (p :: O) -> (forall c, c ∈ O -> is_Some (h !! c)) ->
  builder (inside O) h p (zeros ts) (zerosDeep ts).
Proof.
  intros Hp Hd HO. split; [done|]. rewrite owned_zeros. split; [done|]. split; [done|].
  clear Hp. induction ts as [|[n t] ts IH]; constructor; [split; [done|right; by destruct t]|done].
Qed.

(** The metadata struct at [m] of the object at [l], once it is there. *)
Definition ensuredAt (O : list loc) (h : heap) (ds : list (string * deep)) (l : loc) (h1 : heap) fs (m : loc) mfs : Prop :=
  getField metaField (VPtr (Some l)) h1 = Some (VPtr (Some m), h1) /\ field metaField fs = Some (VPtr (Some m)) /\
  builder (around (owned m mfs)) h1 l fs (setField metaField (DPtr (DStruct (metaOf ds))) ds) /\
  builder (inside (owned l fs)) h1 m mfs (metaOf ds) /\ evolves O h (owned l fs ++ owned m mfs) h1.

(** A struct put beside an object without metadata. *)
Lemma beside h l fs ds p c0 : builder (around []) h l fs ds -> h !! p = None -> builder (around [p]) (<[p := c0]> h) l fs ds.
Proof.
  intros Hb Hnew. assert (Hk : forall c, is_Some (h !! c) -> <[p := c0]> h !! c = h !! c) by (intros c [x Hc]; rewrite lookup_insert_ne; congruence).
  eapply builder_frame; [exact Hb|done|by intros c Hc _; apply Hk| | |]; cbn [kept].
  - intros c ->%list_elem_of_singleton. by right.
  - apply NoDup_app. pose proof (builder_live _ _ _ _ _ Hb) as Hlive. destruct Hb as (_ & Hnd & _). cbn [kept] in *. rewrite app_nil_r in Hnd. split; [done|].
    split; [|apply NoDup_singleton]. intros c Hc ->%list_elem_of_singleton.
    destruct (Hlive p) as [? ?]; [apply elem_of_app; by left|congruence].
  - intros c ->%list_elem_of_singleton. rewrite lookup_insert_eq. eauto.
Qed.

Lemma ensured_fresh h l fs ds : field metaField fs = Some (VPtr None) -> field metaField ds = Some DNilPtr -> builder (around []) h l fs ds ->
  exists h1 fs1 p, ensureObjectMeta (VPtr (Some l)) h = Some (tt, h1) /\
    ensuredAt (owned l fs) h ds l h1 fs1 p (zeros metav1ac_ObjectMeta_fields).
Proof.
  intros Hf Hd Hb. pose proof (builder_at _ _ _ _ _ Hb) as Hl.
  destruct (alloc_new h (Var (VStruct (zeros metav1ac_ObjectMeta_fields)))) as (p & Hal & Hnew).
  assert (Hpl : p <> l) by congruence. pose proof (beside _ _ _ _ p (Var (VStruct (zeros metav1ac_ObjectMeta_fields))) Hb Hnew) as Hb0.
  set (h0 := <[p := _]> h) in *. set (fs1 := setField metaField (VPtr (Some p)) fs). set (h1 := <[l := Var (VStruct fs1)]> h0).
  assert (Hb1 : builder (around [p]) h1 l fs1 (setField metaField (DPtr (DStruct (metaOf ds))) ds)).
  { apply (builder_update (around [p]) h0 h1 l fs ds metaField (VPtr None) (VPtr (Some p)) Hb0 Hf); [|right; by left|apply lookup_insert_eq|by left].
    intros c _ Hc _. unfold h1. by rewrite lookup_insert_ne. }
  exists h1, fs1, p. unfold ensuredAt. rewrite owned_zeros. split; [|split; [|split; [|split; [|split]]]].
  - unfold ensureObjectMeta. rewrite (bind_some _ _ _ _ _ (getField_run _ _ _ _ _ Hl Hf)), (bind_some _ _ _ _ _ Hal).
    apply putField_run with (v := VPtr None); [|done]. unfold h0. by rewrite lookup_insert_ne.
  - apply getField_run with (fs := fs1); [apply lookup_insert_eq|by eapply field_set].
  - by eapply field_set.
  - done.
  - unfold metaOf. rewrite Hd. apply builder_new.
    + unfold h1, h0. by rewrite lookup_insert_ne, lookup_insert_eq.
    + destruct Hb1 as (_ & Hnd & _). cbn [kept] in Hnd. change (NoDup ([p] ++ owned l fs1)). by rewrite (Permutation_app_comm [p] (owned l fs1)).
    + intros c Hc. apply (builder_live _ _ _ _ _ Hb1). apply elem_of_app. by left.
  - split.
    + intros c [x Hc] Hno. unfold h1, h0. rewrite !lookup_insert_ne; [done|congruence|]. intros <-. apply Hno. left.
    + intros c [Hc|Hc]%elem_of_app; [left|right; by apply list_elem_of_singleton in Hc as ->].
      pose proof (owned_shrink alone l fs metaField (VPtr None) (VPtr (Some p)) Hf eq_refl c) as Hsh. cbn [kept] in Hsh. rewrite !app_nil_r in Hsh. by apply Hsh.
Qed.

Lemma ensured T ts h l ds O : config h l ds O -> fieldsOf T = Some ts -> hasType fieldsOf (TStruct T) (DStruct ds) ->
  field metaField ts = Some (TPtr (TStruct "metav1ac.ObjectMeta")) ->
  hasType fieldsOf (TStruct "metav1ac.ObjectMeta") (DStruct (metaOf ds)) /\
  exists h1 fs m mfs, ensureObjectMeta (VPtr (Some l)) h = Some (tt, h1) /\ ensuredAt O h ds l h1 fs m mfs.
Proof.
  intros Ho HT Ht Hm. destruct (typed_field fieldsOf _ _ _ _ _ HT Ht Hm) as (dm & Hdm & Htm).
  destruct Ho as [fs Hd Hb|fs Hf Hd Hb|fs m mfs mds Hf Hd Hb Hbm]; [congruence|split; [unfold metaOf; rewrite Hd|]..].
  - cbn [hasType]. rewrite Hmeta. cbn. tauto.
  - destruct (ensured_fresh h l fs ds Hf Hd Hb) as (h1 & fs1 & p & ?). eauto 10.
  - rewrite Hd in Hdm. injection Hdm as <-. exact Htm.
  - pose proof (getField_run _ _ _ _ _ (builder_at _ _ _ _ _ Hb) Hf) as Hg. exists h, fs, m, mfs. split.
    + unfold ensureObjectMeta. by rewrite (bind_some _ _ _ _ _ Hg).
    + unfold ensuredAt, metaOf. rewrite Hd, setField_same by done. split_and!; try done. split; [done|]. by left.
Qed.

(** A setter of the metadata's. *)
Lemma meta_setter code T c h l ds O a da ts t :
  performs fieldsOf code "metav1ac.ObjectMeta" c -> config h l ds O -> fieldsOf T = Some ts ->
  hasType fieldsOf (TStruct T) (DStruct ds) -> field metaField ts = Some (TPtr (TStruct "metav1ac.ObjectMeta")) ->
  argument c metav1ac_ObjectMeta_fields = Some t -> hasType fieldsOf t da -> reads (fun x => x ∉ O) h a da -> whole a da ->
  match effect c da (metaOf ds) with
  | Some mds => exists h' O', onMeta (code a) (VPtr (Some l)) h = Some (VPtr (Some l), h') /\
                  config h' l (setField metaField (DPtr (DStruct mds)) ds) O' /\ evolves O h O' h' /\
                  hasType fieldsOf (TStruct T) (DStruct (setField metaField (DPtr (DStruct mds)) ds))
  | None => onMeta (code a) (VPtr (Some l)) h = None
  end.
Proof.
  intros Hp Ho HT Ht Hm Harg Hda Ha Hw.
  destruct (typed_field fieldsOf _ _ _ _ _ HT Ht Hm) as (dm & Hdm & _).
  destruct (ensured T ts h l ds O Ho HT Ht Hm) as (Htm & h1 & fs & m & mfs & E1 & E2 & Hf & Hb & Hbm & K1 & N1).
  assert (Ha' : apart (inside (owned l fs)) h1 m mfs a da).
  { eapply reads_mono; [|exact Ha]. intros x y Hx Hy. cbn [kept]. split; [|rewrite K1; eauto].
    rewrite elem_of_app. intros Hin. destruct (N1 x) as [?|?]; [rewrite elem_of_app; tauto|done|congruence]. }
  pose proof (Hp _ h1 m mfs (metaOf ds) a da metav1ac_ObjectMeta_fields t Hbm ltac:(done) Hmeta Htm Harg Hda Ha' Hw) as Hcode.
  unfold onMeta. rewrite (bind_some _ _ _ _ _ E1), (bind_some _ _ _ _ _ E2).
  destruct (effect c da (metaOf ds)) as [mds|]; [|by apply bind_none].
  destruct Hcode as (h2 & mfs2 & Hr & (Hbm2 & K2 & N2 & _) & Htm2). exists h2, (owned l fs ++ owned m mfs2).
  rewrite (bind_some _ _ _ _ _ Hr). split; [done|]. split; [|split].
  - eapply with_meta; [exact Hf|by eapply field_set| |exact Hbm2].
    assert (Hb' : builder (around (owned m mfs)) h1 l fs (setField metaField (DPtr (DStruct mds)) ds)).
    { rewrite <- (setField_same metaField (VPtr (Some m)) fs Hf) at 1.
      rewrite <- (setField_twice metaField (DPtr (DStruct (metaOf ds))) (DPtr (DStruct mds)) ds).
      apply builder_update with (v := VPtr (Some m)) (h := h1); [done..| | | |].
      all: rewrite ?setField_same by done. 3: by apply (builder_at _ _ _ _ _ Hb). all: cbn; try (by left). done. }
    eapply builder_frame; [exact Hb'|done|exact K2|exact N2| |].
    + pose proof (proj1 (proj2 Hbm2)) as Hnd. cbn [kept] in *. by rewrite (Permutation_app_comm (owned l fs)).
    + intros x Hx. apply (builder_live _ _ _ _ _ Hbm2). apply elem_of_app. by left.
  - split.
    + intros x Hx Hno. assert (H1 : h1 !! x = h !! x) by (by apply K1). rewrite <- H1. apply K2; [by rewrite H1|].
      intros Hin. destruct (N1 x) as [?|Hn]; [rewrite elem_of_app; tauto|done|]. destruct Hx as [? Hx]. congruence.
    + intros x Hx. assert (Hx' : x ∈ owned l fs ++ owned m mfs \/ h1 !! x = None).
      { apply elem_of_app in Hx as [Hx|Hx]; [left; apply elem_of_app; by left|]. destruct (N2 x Hx); [left; apply elem_of_app; by right|by right]. }
      destruct Hx' as [Hx'|Hx']; [by apply N1|]. destruct (decide (x ∈ O)) as [|Hno]; [by left|right].
      destruct (h !! x) as [y|] eqn:Ey; [|done]. rewrite K1 in Hx'; [congruence|eauto|done].
  - eapply typed_set; [done..|]. exact Htm2.
Qed.

(** ** Methods *)

(** What a method is to do: a change of the struct itself, or of its metadata. *)
Inductive setter := Own (c : change) | Meta (c : change).

(** The type of its argument. *)
Definition parameter (s : setter) (ts : list (string * ty)) : option ty :=
  match s with
  | Own c => if String.eqb (target c) metaField then None else argument c ts
  | Meta c =>
      match field metaField ts with
      | Some (TPtr (TStruct n)) => if String.eqb n "metav1ac.ObjectMeta" then argument c metav1ac_ObjectMeta_fields else None
      | _ => None
      end
  end.

Definition after (s : setter) (a : deep) (ds : list (string * deep)) : option (list (string * deep)) :=
  match s with
  | Own c => effect c a ds
  | Meta c => mds ← effect c a (metaOf ds); Some (setField metaField (DPtr (DStruct mds)) ds)
  end.

(** What a call leaves behind: the configuration at [l] stands for what is expected of it;
    a nil that the caller must not pass ends the program. *)
Definition leaves (T : string) (h : heap) (l : loc) (O : list loc) (run : option (val * heap)) (expected : option (list (string * deep))) : Prop :=
  match expected with
  | Some ds' => exists h' O', run = Some (VPtr (Some l), h') /\ config h' l ds' O' /\ evolves O h O' h' /\
                  hasType fieldsOf (TStruct T) (DStruct ds')
  | None => run = None
  end.

(** An argument for [t] that keeps off [O]. *)
Definition suits (O : list loc) (h : heap) (t : ty) (a : val) (d : deep) : Prop :=
  hasType fieldsOf t d /\ reads (fun x => x ∉ O) h a d /\ whole a d.

Definition implements (code : val -> val -> C val) (T : string) (s : setter) : Prop :=
  forall h l ds O a da ts t, config h l ds O -> fieldsOf T = Some ts -> hasType fieldsOf (TStruct T) (DStruct ds) ->
    parameter s ts = Some t -> suits O h t a da -> leaves T h l O (code a (VPtr (Some l)) h) (after s da ds).

Lemma own_implements code T c : performs fieldsOf code T c -> implements code T (Own c).
Proof.
  intros Hp h l ds O a da ts t Ho HT Ht Hpar (Hda & Ha & Hw). cbn in Hpar.
  destruct (String.eqb_spec (target c) metaField) as [|Hne]; [done|]. by eapply own_setter.
Qed.

Lemma meta_implements code T c : performs fieldsOf code "metav1ac.ObjectMeta" c -> implements (fun a => onMeta (code a)) T (Meta c).
Proof.
  intros Hp h l ds O a da ts t Ho HT Ht Hpar (Hda & Ha & Hw). cbn in Hpar.
  destruct (field metaField ts) as [[| | |[| | | | | |n]| | |]|] eqn:Em; try done. destruct (String.eqb_spec n "metav1ac.ObjectMeta") as [->|]; [|done].
  pose proof (meta_setter code T c h l ds O a da ts t Hp Ho HT Ht Em Hpar Hda Ha Hw) as Hm. unfold leaves, after.
  by destruct (effect c da (metaOf ds)).
Qed.

(** ** Chains of calls *)

(** A method, and an argument for it. *)
Record call := { c_code : val -> val -> C val; c_setter : setter; c_argument : val }.

(** [b.WithX(x).WithY(y)…] *)
Fixpoint chain (calls : list call) (b : val) : C val :=
  match calls with
  | [] => ret b
  | c :: calls' => b' ⇐ c_code c (c_argument c) b ;; chain calls' b'
  end.

Fixpoint afterAll (calls : list call) (args : list deep) (ds : list (string * deep)) : option (list (string * deep)) :=
  match calls, args with
  | c :: calls', a :: args' => after (c_setter c) a ds ≫= afterAll calls' args'
  | _, _ => Some ds
  end.

Lemma evolves_trans O h O1 h1 O2 h2 : evolves O h O1 h1 -> evolves O1 h1 O2 h2 -> evolves O h O2 h2.
Proof.
  intros [K1 N1] [K2 N2]. split.
  - intros x Hx Hno. rewrite <- (K1 x Hx Hno). apply K2; [by rewrite K1|]. intros Hin.
    destruct (N1 x Hin) as [?|Hn]; [done|]. destruct Hx as [? Hx]. congruence.
  - intros x Hx. destruct (decide (x ∈ O)) as [|Hno]; [by left|right]. destruct (N2 x Hx) as [Hin|Hn]; [by destruct (N1 x Hin)|].
    destruct (h !! x) as [y|] eqn:Ey; [|done]. rewrite K1 in Hn; [congruence|eauto|done].
Qed.

Lemma evolves_reads O h O' h' a d : evolves O h O' h' -> reads (fun x => x ∉ O) h a d -> reads (fun x => x ∉ O') h' a d.
Proof.
  intros [K N]. apply reads_mono. intros x y Hx Hy. split; [|rewrite K; eauto].
  intros Hin. destruct (N x Hin); [done|congruence].
Qed.

(** A call as it should be: the method implements its setter, and the argument suits it. *)
Definition proper (T : string) (ts : list (string * ty)) (O : list loc) (h : heap) (c : call) (d : deep) : Prop :=
  implements (c_code c) T (c_setter c) /\ exists t, parameter (c_setter c) ts = Some t /\ suits O h t (c_argument c) d.

Lemma proper_evolves T ts O h O' h' c d : evolves O h O' h' -> proper T ts O h c d -> proper T ts O' h' c d.
Proof. intros He [Hi (t & Hp & Ht & Hr & Hw)]. split; [done|]. exists t. split; [done|]. split; [done|]. split; [by eapply evolves_reads|done]. Qed.

Lemma chain_runs T ts calls : forall args h l ds O, fieldsOf T = Some ts -> config h l ds O -> hasType fieldsOf (TStruct T) (DStruct ds) ->
  Forall2 (proper T ts O h) calls args -> leaves T h l O (chain calls (VPtr (Some l)) h) (afterAll calls args ds).
Proof.
  induction calls as [|c calls IH]; intros args h l ds O HT Ho Ht Hall; inversion Hall as [|? d ? args' Hc Hrest]; subst.
  - cbn. exists h, O. split; [done|]. split; [done|]. split; [|done]. split; [done|by left].
  - destruct Hc as [Hi (t & Hpar & Hs)]. pose proof (Hi h l ds O _ d ts t Ho HT Ht Hpar Hs) as Hcall. cbn [chain afterAll].
    destruct (after (c_setter c) d ds) as [ds1|]; cbn in Hcall |- *; [|by apply bind_none].
    destruct Hcall as (h1 & O1 & Hr & Ho1 & He1 & Ht1). rewrite (bind_some _ _ _ _ _ Hr).
    assert (Hrest' : Forall2 (proper T ts O1 h1) calls args') by (eapply Forall2_impl; [exact Hrest|]; intros; by eapply proper_evolves).
    pose proof (IH args' h1 l ds1 O1 HT Ho1 Ht1 Hrest') as Hch. unfold leaves in *. destruct (afterAll calls args' ds1) as [ds2|]; [|done].
    destruct Hch as (h2 & O2 & Hr2 & Ho2 & He2 & Ht2). exists h2, O2. split; [done|]. split; [done|]. split; [|done]. by eapply evolves_trans.
Qed.

(** ** New configurations *)

Definition nilable (t : ty) : bool := match t with TStruct _ => false | _ => true end.

(** The fields of an apply configuration: none is a struct itself, and metadata is behind a pointer. *)
Definition configurable (ts : list (string * ty)) : bool :=
  forallb (fun f => nilable f.2) ts && match field metaField ts with Some (TPtr _) | None => true | _ => false end.

Lemma zeros_typed T ts : fieldsOf T = Some ts -> forallb (fun f => nilable f.2) ts = true -> hasType fieldsOf (TStruct T) (DStruct (zerosDeep ts)).
Proof.
  intros HT Hn. cbn. rewrite HT. clear HT. apply all2_Forall2. induction ts as [|[n t] ts IH]; [constructor|].
  cbn in Hn. apply andb_true_iff in Hn as [Ht Hn]. constructor; [split; [done|by destruct t]|by apply IH].
Qed.

Lemma field_zeros n ts : field n (zeros ts) = nil <$> field n ts.
Proof. induction ts as [|[m t] ts IH]; cbn; [done|]. by destruct (String.eqb m n). Qed.
Lemma field_zerosDeep n ts : field n (zerosDeep ts) = nilDeep <$> field n ts.
Proof. induction ts as [|[m t] ts IH]; cbn; [done|]. by destruct (String.eqb m n). Qed.

(** What a call that makes a configuration returns: one that stands for [ds], and is new. *)
Definition makes (T : string) (h : heap) (run : option (val * heap)) (ds : list (string * deep)) : Prop :=
  exists l O h', run = Some (VPtr (Some l), h') /\ config h' l ds O /\ evolves [] h O h' /\ hasType fieldsOf (TStruct T) (DStruct ds).

(** [&T{}] *)
Lemma new_makes T ts h : fieldsOf T = Some ts -> configurable ts = true -> makes T h (new ts h) (zerosDeep ts).
Proof.
  intros HT Hc. apply andb_true_iff in Hc as [Hn Hm].
  destruct (alloc_new h (Var (VStruct (zeros ts)))) as (p & Hal & Hnew). exists p, [p], (<[p := Var (VStruct (zeros ts))]> h).
  assert (Hb : builder alone (<[p := Var (VStruct (zeros ts))]> h) p (zeros ts) (zerosDeep ts)).
  { apply builder_new; [apply lookup_insert_eq|apply NoDup_singleton|by intros ? ?%elem_of_nil]. }
  split; [unfold new; by rewrite (bind_some _ _ _ _ _ Hal)|]. split; [|split; [split|by apply zeros_typed]].
  - rewrite <- (owned_zeros p ts). destruct (field metaField ts) as [[| | |u| | |]|] eqn:E; try done.
    + apply without_meta; [by rewrite field_zeros, E|by rewrite field_zerosDeep, E|].
      destruct Hb as (H1 & H2 & H3 & H4). split; [done|]. split; [done|]. split; [done|].
      eapply Forall2_impl; [exact H4|]. intros x d [Hx [[? ?]|Hh]]; (split; [done|]); [done|by right].
    + apply plain; [by rewrite field_zerosDeep, E|done].
  - intros x [y Hx] _. rewrite lookup_insert_ne; [done|congruence].
  - intros x ->%list_elem_of_singleton. by right.
Qed.

(** [b := &T{}; b.WithX(x)…; return b] *)
Definition construct (ts : list (string * ty)) (calls : list call) : C val := b ⇐ new ts ;; chain calls b.

Lemma construct_makes T ts calls args h : fieldsOf T = Some ts -> configurable ts = true -> Forall2 (proper T ts [] h) calls args ->
  match afterAll calls args (zerosDeep ts) with
  | Some ds => makes T h (construct ts calls h) ds
  | None => construct ts calls h = None
  end.
Proof.
  intros HT Hc Hall. destruct (new_makes T ts h HT Hc) as (l & O & h1 & Hr & Ho & He & Ht). unfold construct. rewrite (bind_some _ _ _ _ _ Hr).
  assert (Hall' : Forall2 (proper T ts O h1) calls args) by (eapply Forall2_impl; [exact Hall|]; intros; by eapply proper_evolves).
  pose proof (chain_runs T ts calls args h1 l _ O HT Ho Ht Hall') as Hch. unfold leaves in Hch.
  destruct (afterAll calls args (zerosDeep ts)) as [ds|]; [|done]. destruct Hch as (h2 & O2 & Hr2 & Ho2 & He2 & Ht2).
  exists l, O2, h2. split; [done|]. split; [done|]. split; [by eapply evolves_trans|done].
Qed.

(** A value that was there before is untouched by, and apart from, what is made. *)
Lemma makes_apart h O h' a d : evolves [] h O h' -> reads (fun _ => True) h a d -> reads (fun x => x ∉ O) h' a d.
Proof. intros He Hr. eapply evolves_reads; [exact He|]. eapply reads_mono; [|exact Hr]. intros x y _ Hy. split; [by intros ?%elem_of_nil|done]. Qed.

Lemma holds_reads O h v d : holds O h v d -> reads (fun _ => True) h v d.
Proof.
  destruct v as [| | | |[w|]|[p|]|]; cbn [holds]; try (by apply reads_mono). all: destruct d; cbn; try done.
  intros (xs & Hx & _ & Hr). split; [done|]. exists xs. split; [done|]. apply all2_Forall2 in Hr. apply all2_Forall2.
  eapply Forall2_impl; [exact Hr|]. intros y e Hy. eapply reads_mono; [|exact Hy]. done.
Qed.

(** What a builder stands for can be read off it, given the field accounted for elsewhere. *)
Lemma builder_reads (X : surroundings) h l fs ds : builder X h l fs ds ->
  (forall n v d, In (n, v) fs -> In (n, d) ds -> Some n = elsewhere X -> reads (fun _ => True) h v d) ->
  reads (fun _ => True) h (VPtr (Some l)) (DPtr (DStruct ds)).
Proof.
  intros (Hl & _ & _ & Hfs) Hel. cbn. split; [done|]. exists (VStruct fs). split; [done|]. apply all2_Forall2.
  revert Hfs Hel. generalize (owned l fs ++ X). intros O Hfs. clear Hl. induction Hfs as [|[n v] [m d] fs ds [Hn Hx] _ IH]; intros Hel; constructor.
  - cbn in *. subst m. split; [done|]. destruct Hx as [[He _]|Hh]; [by apply (Hel n v d); [left|left|]|].
    by eapply holds_reads.
  - apply IH. intros. apply (Hel n0); [by right..|done].
Qed.

Lemma field_of_entry {A} (fs : list (string * A)) n v : NoDup (map fst fs) -> In (n, v) fs -> field n fs = Some v.
Proof.
  induction fs as [|[m w] fs IH]; cbn; [done|]. intros [Hm Hnd]%NoDup_cons [[= -> ->]|Hin]; [by rewrite String.eqb_refl|].
  destruct (String.eqb_spec m n) as [->|]; [|by apply IH]. exfalso. apply Hm, list_elem_of_In. by apply (in_map fst) in Hin.
Qed.

Lemma builder_names X h l fs ds : builder X h l fs ds -> map fst fs = map fst ds.
Proof. intros (_ & _ & _ & Hfs). induction Hfs as [|? ? ? ? []]; cbn; congruence. Qed.

Lemma typed_names T ts ds : fieldsOf T = Some ts -> hasType fieldsOf (TStruct T) (DStruct ds) -> map fst ts = map fst ds.
Proof. intros HT Ht. cbn in Ht. rewrite HT in Ht. apply all2_Forall2 in Ht. clear HT. induction Ht as [|? ? ? ? []]; cbn; congruence. Qed.

(** [b.F], of the struct itself and of its metadata. *)
Lemma own_read h l ds O F d : config h l ds O -> F <> metaField -> field F ds = Some d ->
  exists v, getField F (VPtr (Some l)) h = Some (v, h) /\ reads (fun _ => True) h v d.
Proof.
  intros Ho Hne Hd. assert (Hne' : Some F <> Some metaField) by congruence.
  destruct Ho as [fs _ Hb|fs _ _ Hb|fs m mfs mds _ _ Hb _]; (destruct (builder_field _ _ _ _ _ _ _ Hb ltac:(done) Hd) as (v & Hv & Hh)); exists v;
    (split; [apply (getField_run _ _ _ _ _ (builder_at _ _ _ _ _ Hb) Hv)|by eapply holds_reads]).
Qed.

Lemma meta_read T ts h l ds O F d : config h l ds O -> fieldsOf T = Some ts -> hasType fieldsOf (TStruct T) (DStruct ds) ->
  field metaField ts = Some (TPtr (TStruct "metav1ac.ObjectMeta")) -> field F (metaOf ds) = Some d ->
  exists v h' O', getMeta F (VPtr (Some l)) h = Some (v, h') /\ reads (fun _ => True) h' v d /\
    config h' l (setField metaField (DPtr (DStruct (metaOf ds))) ds) O' /\ evolves O h O' h'.
Proof.
  intros Ho HT Ht Hm Hd. destruct (typed_field fieldsOf _ _ _ _ _ HT Ht Hm) as (dm & Hdm & _).
  destruct (ensured T ts h l ds O Ho HT Ht Hm) as (_ & h1 & fs & m & mfs & E1 & E2 & Hf & Hb & Hbm & He).
  destruct (builder_field _ _ _ _ _ _ _ Hbm ltac:(done) Hd) as (v & Hv & Hh). exists v, h1, (owned l fs ++ owned m mfs). split; [|split; [|split; [|done]]].
  - unfold getMeta. rewrite (bind_some _ _ _ _ _ E1), (bind_some _ _ _ _ _ E2). apply (getField_run _ _ _ _ _ (builder_at _ _ _ _ _ Hbm) Hv).
  - by eapply holds_reads.
  - eapply with_meta; [exact Hf|by eapply field_set|exact Hb|exact Hbm].
Qed.

(** What a configuration stands for can be read off it. *)
Lemma config_reads T ts h l ds O : fieldsOf T = Some ts -> NoDup (map fst ts) -> hasType fieldsOf (TStruct T) (DStruct ds) ->
  config h l ds O -> reads (fun _ => True) h (VPtr (Some l)) (DPtr (DStruct ds)).
Proof.
  intros HT Hnd Ht Ho. rewrite (typed_names T ts ds HT Ht) in Hnd.
  destruct Ho as [fs Hd Hb|fs Hf Hd Hb|fs m mfs mds Hf Hd Hb Hbm]; (eapply builder_reads; [exact Hb|]); cbn [elsewhere]; [done|..];
    (intros n v d Hv Hd' [= ->]; pose proof Hnd as Hnf; rewrite <- (builder_names _ _ _ _ _ Hb) in Hnf;
     apply (field_of_entry fs) in Hv; [|done]; apply (field_of_entry ds) in Hd'; [|done]).
  - rewrite Hf in Hv. rewrite Hd in Hd'. by injection Hv as <-; injection Hd' as <-.
  - rewrite Hf in Hv. rewrite Hd in Hd'. injection Hv as <-. injection Hd' as <-. by apply (builder_reads _ _ _ _ _ Hbm).
Qed.

End contract.

(** ** Calls added up *)

(** The argument that does at once what two calls do. *)
Definition combine (c : change) (a b : deep) : deep :=
  match c with
  | Address _ | Pointer _ => b
  | Values _ | Pointers _ => DSlice (default [] (elements a) ++ default [] (elements b))
  | Entries _ => DMap (default ∅ (entries b) ∪ default ∅ (entries a))
  end.

Definition changeOf (s : setter) : change := match s with Own c | Meta c => c end.

Lemma setField_none {A} n (a : A) fs : field n fs = None -> setField n a fs = fs.
Proof. induction fs as [|[m x] fs IH]; cbn; [done|]. destruct (String.eqb m n); [done|]. intros. by rewrite IH. Qed.

Lemma appended_twice F old xs ys ds : old = default [] (field F ds ≫= elements) ->
  appended F (default [] (field F (appended F old xs ds) ≫= elements)) ys (appended F old xs ds) = appended F old (xs ++ ys) ds.
Proof.
  intros Hold. unfold appended. destruct xs as [|x xs]; cbn [app]; [by rewrite <- Hold|]. destruct (field F ds) as [d|] eqn:E.
  - rewrite (field_set F _ d) by done. cbn. rewrite setField_twice, <- app_assoc. by destruct ys as [|y ys]; cbn; rewrite ?app_nil_r.
  - rewrite !(setField_none F _ ds E). by destruct ys.
Qed.

Lemma merged_twice F old m1 m2 ds : old = default ∅ (field F ds ≫= entries) ->
  merged (merged ds F old m1) F (default ∅ (field F (merged ds F old m1) ≫= entries)) m2 = merged ds F old (m2 ∪ m1).
Proof.
  intros Hold. unfold merged. destruct (Nat.eqb_spec (size m1) 0) as [H1|H1].
  { apply map_size_empty_inv in H1 as ->. by rewrite (right_id_L ∅ (∪)), <- Hold. }
  destruct (Nat.eqb_spec (size (m2 ∪ m1)) 0) as [H2|H2].
  { exfalso. apply H1. apply map_size_empty_inv in H2. apply map_size_empty_iff, map_eq. intros i.
    pose proof (f_equal (fun m => m !! i) H2) as Hi. cbn in Hi. rewrite lookup_empty in Hi. by apply lookup_union_None in Hi as [_ ->]. }
  destruct (Nat.eqb_spec (size m2) 0) as [H3|H3]; [apply map_size_empty_inv in H3 as ->; by rewrite (left_id_L ∅ (∪))|].
  destruct (field F ds) as [d|] eqn:E; [|by rewrite !(setField_none F _ ds E)].
  rewrite (field_set F _ d) by done. cbn. by rewrite setField_twice, (assoc_L (∪)).
Qed.

Lemma mapM_app_option {A B} (f : A -> option B) l k : mapM f (l ++ k) = xs ← mapM f l; ys ← mapM f k; Some (xs ++ ys).
Proof.
  induction l as [|x l IH]; cbn; [by destruct (mapM f k)|]. destruct (f x); cbn; [|done]. rewrite IH.
  destruct (mapM f l); cbn; [|done]. by destruct (mapM f k).
Qed.

Lemma effects_combine c a b ds : effect c a ds ≫= effect c b = effect c (combine c a b) ds.
Proof.
  destruct c; cbn [effect target combine mbind option_bind].
  - by rewrite setField_twice.
  - by rewrite setField_twice.
  - by rewrite appended_twice.
  - cbn [elements from_option id]. rewrite mapM_app_option. destruct (mapM pointee (default [] (elements a))) as [xs|]; cbn; [|done].
    destruct (mapM pointee (default [] (elements b))) as [ys|]; cbn; [|done]. by rewrite appended_twice.
  - by rewrite merged_twice.
Qed.

Lemma metaOf_set mds ds : is_Some (field metaField ds) -> metaOf (setField metaField (DPtr (DStruct mds)) ds) = mds.
Proof. intros [d Hd]. unfold metaOf. by rewrite (field_set _ _ _ _ Hd). Qed.

(** Two calls of a method do what one does: the last value stands, further elements are
    appended, further entries are put on the map. *)
Lemma calls_combine s a b ds : (forall c, s = Meta c -> is_Some (field metaField ds)) ->
  after s a ds ≫= after s b = after s (combine (changeOf s) a b) ds.
Proof.
  intros Hm. destruct s as [c|c]; cbn [after changeOf]; [apply effects_combine|]. specialize (Hm c eq_refl).
  rewrite <- effects_combine. destruct (effect c a (metaOf ds)) as [mds|]; cbn; [|done]. rewrite metaOf_set by done.
  destruct (effect c b mds); cbn; [|done]. by rewrite setField_twice.
Qed.

(** What a change makes of its field alone. *)
Definition newValue (c : change) (a : deep) (old : option deep) : option (option deep) :=
  match c with
  | Address _ => Some (Some (DPtr a))
  | Pointer _ => Some (Some a)
  | Values _ => Some (match default [] (elements a) with [] => None | news => Some (DSlice (default [] (old ≫= elements) ++ news)) end)
  | Pointers _ =>
      news ← mapM pointee (default [] (elements a));
      Some (match news with [] => None | _ => Some (DSlice (default [] (old ≫= elements) ++ news)) end)
  | Entries _ =>
      let new := default ∅ (entries a) in
      Some (if (size new =? 0)%nat then None else Some (DMap (new ∪ default ∅ (old ≫= entries))))
  end.

Definition put (F : string) (v : option deep) (ds : list (string * deep)) : list (string * deep) :=
  match v with Some d => setField F d ds | None => ds end.

Lemma effect_put c a ds : effect c a ds = v ← newValue c a (field (target c) ds); Some (put (target c) v ds).
Proof.
  destruct c; cbn [effect target newValue]; try done; cbn.
  - unfold appended. by destruct (default [] (elements a)).
  - destruct (mapM pointee _) as [[|? ?]|]; done.
  - unfold merged. by destruct (_ =? _)%nat.
Qed.

Lemma field_put_other F G v ds : F <> G -> field G (put F v ds) = field G ds.
Proof. intros Hne. destruct v; [|done]. cbn. rewrite field_setField. by destruct (String.eqb_spec F G). Qed.

Lemma setField_swap {A} F G (a b : A) fs : F <> G -> setField F a (setField G b fs) = setField G b (setField F a fs).
Proof.
  intros Hne. induction fs as [|[m x] fs IH]; cbn; [done|]. destruct (String.eqb m G) eqn:HG, (String.eqb m F) eqn:HF; cbn; rewrite ?HG, ?HF; try done.
  - apply String.eqb_eq in HG, HF. congruence.
  - by rewrite IH.
Qed.

Lemma put_swap F G v w ds : F <> G -> put F v (put G w ds) = put G w (put F v ds).
Proof. intros Hne. destruct v, w; cbn; try done. by apply setField_swap. Qed.

Lemma effects_swap c1 c2 a b ds : target c1 <> target c2 -> effect c1 a ds ≫= effect c2 b = effect c2 b ds ≫= effect c1 a.
Proof.
  intros Hne. rewrite !effect_put. destruct (newValue c1 a _) as [v|] eqn:E1, (newValue c2 b _) as [w|] eqn:E2; cbn; rewrite ?effect_put.
  all: rewrite ?(field_put_other (target c1) (target c2)), ?(field_put_other (target c2) (target c1)), ?E1, ?E2 by congruence; cbn; try done.
  by rewrite put_swap.
Qed.

(** Two setters that change different fields. *)
Definition differ (s1 s2 : setter) : Prop :=
  match s1, s2 with
  | Own c1, Own c2 | Meta c1, Meta c2 => target c1 <> target c2
  | Own c, Meta _ | Meta _, Own c => target c <> metaField
  end.

Lemma metaOf_put F v ds : F <> metaField -> metaOf (put F v ds) = metaOf ds.
Proof. intros Hne. unfold metaOf. by rewrite field_put_other. Qed.

Lemma own_meta_swap c1 c2 a b ds : target c1 <> metaField ->
  after (Own c1) a ds ≫= after (Meta c2) b = after (Meta c2) b ds ≫= after (Own c1) a.
Proof.
  intros Hne. cbn [after]. rewrite effect_put. destruct (newValue c1 a _) as [v|] eqn:E1; cbn.
  - rewrite metaOf_put by done. destruct (effect c2 b (metaOf ds)) as [mds|]; cbn; [|done]. rewrite effect_put.
    change (setField metaField (DPtr (DStruct mds)) ds) with (put metaField (Some (DPtr (DStruct mds))) ds).
    rewrite field_put_other, E1 by congruence. cbn.
    change (setField metaField (DPtr (DStruct mds)) (put (target c1) v ds)) with (put metaField (Some (DPtr (DStruct mds))) (put (target c1) v ds)).
    by rewrite put_swap by congruence.
  - destruct (effect c2 b (metaOf ds)) as [mds|]; cbn; [|done]. rewrite effect_put.
    change (setField metaField (DPtr (DStruct mds)) ds) with (put metaField (Some (DPtr (DStruct mds))) ds).
    by rewrite field_put_other, E1 by congruence.
Qed.

Lemma setters_swap s1 s2 a b ds : differ s1 s2 -> (forall c, s1 = Meta c -> is_Some (field metaField ds)) ->
  after s1 a ds ≫= after s2 b = after s2 b ds ≫= after s1 a.
Proof.
  intros Hd Hm. destruct s1 as [c1|c1], s2 as [c2|c2]; cbn [differ] in Hd.
  - by apply effects_swap.
  - by apply own_meta_swap.
  - symmetry. by apply own_meta_swap.
  - specialize (Hm c1 eq_refl). pose proof (effects_swap c1 c2 a b (metaOf ds) Hd) as He. cbn [after].
    destruct (effect c1 a (metaOf ds)) as [m1|] eqn:E1, (effect c2 b (metaOf ds)) as [m2|] eqn:E2; cbn in *; rewrite ?metaOf_set by done.
    + rewrite He. destruct (effect c1 a m2); cbn; [|done]. by rewrite !setField_twice.
    + by rewrite He.
    + by rewrite <- He.
    + done.
Qed.

(** Setters leave the fields' names alone. *)
Lemma setField_names {A} n (a : A) fs : map fst (setField n a fs) = map fst fs.
Proof. induction fs as [|[m x] fs IH]; cbn; [done|]. destruct (String.eqb m n); cbn; by rewrite ?IH. Qed.

Lemma after_names s a ds ds' : after s a ds = Some ds' -> map fst ds' = map fst ds.
Proof.
  destruct s as [c|c]; cbn [after].
  - rewrite effect_put. destruct (newValue c a _) as [[v|]|]; cbn; [|by intros [= <-]|done]. intros [= <-]. apply setField_names.
  - destruct (effect c a (metaOf ds)); cbn; [|done]. intros [= <-]. apply setField_names.
Qed.
