(* ===== verification/ApplyConfig.v ===== *)
(** * Apply configurations (api/v1beta1/applyconfiguration, api/v1alpha1/applyconfiguration)

    controller-gen writes, for each API struct, a struct whose fields are all optional, a
    constructor and a [With] method per field; for the kinds, getters and the functions that
    extract what a field manager owns; and [ForKind].  The embedded [TypeMeta] is written
    out as its two fields.

    [calledFor] says from a field's name and type alone what its method is to do;
    [methods_do_what_fields_call_for] that each of them does, for every memory its receiver
    and argument may be in. *)

From S2P Require Import Prelude ApiBeta ApiAlpha GoHeap Builders BuilderObjects.

Set Warnings "-register-all".

#[local] Open Scope go_scope.

(** ** The structs of v1beta1 *)

Definition acv1beta1_ContainerImageSourceApplyConfiguration : list (string * ty) :=
  [("Ref", TPtr TStr); ("PullPolicy", TPtr TStr);
   ("ImagePullSecrets", TSlice (TStruct "corev1.LocalObjectReference"))].
Definition acv1beta1_GatewayBindingStatusApplyConfiguration : list (string * ty) :=
  [("Name", TPtr TStr); ("Provider", TPtr TStr)].
Definition acv1beta1_GatewaySpecApplyConfiguration : list (string * ty) :=
  [("Provider", TPtr TStr); ("ConfigRef", TPtr TStr)].
Definition acv1beta1_HealthConfigApplyConfiguration : list (string * ty) :=
  [("LivenessProbe", TPtr (TStruct "corev1.Probe")); ("ReadinessProbe", TPtr (TStruct "corev1.Probe"))].
Definition acv1beta1_MCPConfigApplyConfiguration : list (string * ty) := [("Stateless", TPtr TBool)].
Definition acv1beta1_MCPServerApplyConfiguration : list (string * ty) :=
  [("Kind", TPtr TStr); ("APIVersion", TPtr TStr);
   ("ObjectMetaApplyConfiguration", TPtr (TStruct "metav1ac.ObjectMeta"));
   ("Spec", TPtr (TStruct "acv1beta1.MCPServerSpec")); ("Status", TPtr (TStruct "acv1beta1.MCPServerStatus"))].
Definition acv1beta1_MCPServerAddressApplyConfiguration : list (string * ty) := [("URL", TPtr TStr)].
Definition acv1beta1_MCPServerCapabilitiesApplyConfiguration : list (string * ty) :=
  [("Tools", TPtr TBool); ("Resources", TPtr TBool); ("Prompts", TPtr TBool); ("Logging", TPtr TBool);
   ("Completions", TPtr TBool)].
Definition acv1beta1_MCPServerInfoApplyConfiguration : list (string * ty) :=
  [("Name", TPtr TStr); ("Version", TPtr TStr); ("ProtocolVersion", TPtr TStr); ("Instructions", TPtr TStr);
   ("Capabilities", TPtr (TStruct "acv1beta1.MCPServerCapabilities"))].
Definition acv1beta1_MCPServerSpecApplyConfiguration : list (string * ty) :=
  [("ExtraLabels", TMap); ("ExtraAnnotations", TMap); ("WorkloadRef", TPtr (TStruct "acv1beta1.WorkloadReference"));
   ("ServiceRef", TPtr (TStruct "acv1beta1.ServiceReference")); ("Source", TPtr (TStruct "acv1beta1.Source"));
   ("Config", TPtr (TStruct "acv1beta1.ServerConfig")); ("Runtime", TPtr (TStruct "acv1beta1.RuntimeConfig"));
   ("MCP", TPtr (TStruct "acv1beta1.MCPConfig")); ("Network", TPtr (TStruct "acv1beta1.NetworkConfig"));
   ("Transport", TPtr (TStruct "acv1beta1.TransportConfig")); ("Gateway", TPtr (TStruct "acv1beta1.GatewaySpec"))].
Definition acv1beta1_MCPServerStatusApplyConfiguration : list (string * ty) :=
  [("ObservedGeneration", TPtr TInt); ("DeploymentName", TPtr TStr); ("ServiceName", TPtr TStr);
   ("WorkloadName", TPtr TStr); ("WorkloadSummary", TPtr TStr);
   ("GatewayBinding", TPtr (TStruct "acv1beta1.GatewayBindingStatus"));
   ("Address", TPtr (TStruct "acv1beta1.MCPServerAddress"));
   ("ServerInfo", TPtr (TStruct "acv1beta1.MCPServerInfo")); ("Replicas", TPtr TInt); ("ReadyReplicas", TPtr TInt);
   ("Conditions", TSlice (TStruct "metav1ac.Condition"))].
Definition acv1beta1_NetworkConfigApplyConfiguration : list (string * ty) :=
  [("IngressFrom", TSlice (TStruct "networkingv1.NetworkPolicyPeer"));
   ("EgressTo", TSlice (TStruct "networkingv1.NetworkPolicyPeer"));
   ("EgressPorts", TSlice (TStruct "networkingv1.NetworkPolicyPort"));
   ("DNSEgressPeer", TPtr (TStruct "networkingv1.NetworkPolicyPeer"))].
Definition acv1beta1_RuntimeConfigApplyConfiguration : list (string * ty) :=
  [("Replicas", TPtr TInt); ("Security", TPtr (TStruct "acv1beta1.SecurityConfig"));
   ("Resources", TPtr (TStruct "corev1.ResourceRequirements")); ("Health", TPtr (TStruct "acv1beta1.HealthConfig"))].
Definition acv1beta1_SecretReferenceApplyConfiguration : list (string * ty) := [("Name", TPtr TStr)].
Definition acv1beta1_SecurityConfigApplyConfiguration : list (string * ty) :=
  [("ServiceAccountName", TPtr TStr); ("PodSecurityContext", TPtr (TStruct "corev1.PodSecurityContext"));
   ("SecurityContext", TPtr (TStruct "corev1.SecurityContext"))].
Definition acv1beta1_ServerConfigApplyConfiguration : list (string * ty) :=
  [("Port", TPtr TInt); ("Arguments", TSlice TStr); ("Env", TSlice (TStruct "corev1.EnvVar"));
   ("EnvFrom", TSlice (TStruct "corev1.EnvFromSource")); ("Storage", TSlice (TStruct "acv1beta1.StorageMount"));
   ("Path", TPtr TStr)].
Definition acv1beta1_ServiceReferenceApplyConfiguration : list (string * ty) := [("Name", TPtr TStr)].
Definition acv1beta1_SourceApplyConfiguration : list (string * ty) :=
  [("Type", TPtr TStr); ("ContainerImage", TPtr (TStruct "acv1beta1.ContainerImageSource"))].
Definition acv1beta1_StorageMountApplyConfiguration : list (string * ty) :=
  [("Path", TPtr TStr); ("Permissions", TPtr TStr); ("Source", TPtr (TStruct "acv1beta1.StorageSource"))].
Definition acv1beta1_StorageSourceApplyConfiguration : list (string * ty) :=
  [("Type", TPtr TStr); ("ConfigMap", TPtr (TStruct "corev1.ConfigMapVolumeSource"));
   ("Secret", TPtr (TStruct "corev1.SecretVolumeSource")); ("EmptyDir", TPtr (TStruct "corev1.EmptyDirVolumeSource"))].
Definition acv1beta1_TLSClientConfigApplyConfiguration : list (string * ty) :=
  [("Enabled", TPtr TBool); ("CABundleSecret", TPtr (TStruct "acv1beta1.SecretReference"));
   ("InsecureSkipVerify", TPtr TBool)].
Definition acv1beta1_TransportConfigApplyConfiguration : list (string * ty) :=
  [("TLS", TPtr (TStruct "acv1beta1.TLSClientConfig"))].
Definition acv1beta1_WorkloadReferenceApplyConfiguration : list (string * ty) :=
  [("Name", TPtr TStr); ("Kind", TPtr TStr)].

(** ** The structs of v1alpha1 *)

Definition acv1alpha1_ContainerImageSourceApplyConfiguration : list (string * ty) :=
  [("Ref", TPtr TStr); ("PullPolicy", TPtr TStr);
   ("ImagePullSecrets", TSlice (TStruct "corev1.LocalObjectReference"))].
Definition acv1alpha1_HealthConfigApplyConfiguration : list (string * ty) :=
  [("LivenessProbe", TPtr (TStruct "corev1.Probe")); ("ReadinessProbe", TPtr (TStruct "corev1.Probe"))].
Definition acv1alpha1_MCPConfigApplyConfiguration : list (string * ty) := [("Stateless", TPtr TBool)].
Definition acv1alpha1_MCPGatewayBindingApplyConfiguration : list (string * ty) :=
  [("Kind", TPtr TStr); ("APIVersion", TPtr TStr);
   ("ObjectMetaApplyConfiguration", TPtr (TStruct "metav1ac.ObjectMeta"));
   ("Spec", TPtr (TStruct "acv1alpha1.MCPGatewayBindingSpec"));
   ("Status", TPtr (TStruct "acv1alpha1.MCPGatewayBindingStatus"))].
Definition acv1alpha1_MCPGatewayBindingSpecApplyConfiguration : list (string * ty) :=
  [("MCPServerRef", TPtr TStr); ("Provider", TPtr TStr); ("ConfigRef", TPtr TStr)].
Definition acv1alpha1_MCPGatewayBindingStatusApplyConfiguration : list (string * ty) :=
  [("URL", TPtr TStr); ("Conditions", TSlice (TStruct "metav1ac.Condition"))].
Definition acv1alpha1_MCPServerApplyConfiguration : list (string * ty) :=
  [("Kind", TPtr TStr); ("APIVersion", TPtr TStr);
   ("ObjectMetaApplyConfiguration", TPtr (TStruct "metav1ac.ObjectMeta"));
   ("Spec", TPtr (TStruct "acv1alpha1.MCPServerSpec")); ("Status", TPtr (TStruct "acv1alpha1.MCPServerStatus"))].
Definition acv1alpha1_MCPServerAddressApplyConfiguration : list (string * ty) := [("URL", TPtr TStr)].
Definition acv1alpha1_MCPServerCapabilitiesApplyConfiguration : list (string * ty) :=
  [("Tools", TPtr TBool); ("Resources", TPtr TBool); ("Prompts", TPtr TBool); ("Logging", TPtr TBool);
   ("Completions", TPtr TBool)].
Definition acv1alpha1_MCPServerInfoApplyConfiguration : list (string * ty) :=
  [("Name", TPtr TStr); ("Version", TPtr TStr); ("ProtocolVersion", TPtr TStr); ("Instructions", TPtr TStr);
   ("Capabilities", TPtr (TStruct "acv1alpha1.MCPServerCapabilities"))].
Definition acv1alpha1_MCPServerSpecApplyConfiguration : list (string * ty) :=
  [("ExtraLabels", TMap); ("ExtraAnnotations", TMap); ("Source", TPtr (TStruct "acv1alpha1.Source"));
   ("Config", TPtr (TStruct "acv1alpha1.ServerConfig")); ("Runtime", TPtr (TStruct "acv1alpha1.RuntimeConfig"));
   ("MCP", TPtr (TStruct "acv1alpha1.MCPConfig")); ("Network", TPtr (TStruct "acv1alpha1.NetworkConfig"));
   ("Transport", TPtr (TStruct "acv1alpha1.TransportConfig"))].
Definition acv1alpha1_MCPServerStatusApplyConfiguration : list (string * ty) :=
  [("ObservedGeneration", TPtr TInt); ("DeploymentName", TPtr TStr); ("ServiceName", TPtr TStr);
   ("Address", TPtr (TStruct "acv1alpha1.MCPServerAddress"));
   ("ServerInfo", TPtr (TStruct "acv1alpha1.MCPServerInfo")); ("HandshakeRetryCount", TPtr TInt);
   ("Replicas", TPtr TInt); ("ReadyReplicas", TPtr TInt); ("Conditions", TSlice (TStruct "metav1ac.Condition"))].
Definition acv1alpha1_NetworkConfigApplyConfiguration : list (string * ty) :=
  [("IngressFrom", TSlice (TStruct "networkingv1.NetworkPolicyPeer"));
   ("EgressTo", TSlice (TStruct "networkingv1.NetworkPolicyPeer"));
   ("EgressPorts", TSlice (TStruct "networkingv1.NetworkPolicyPort"));
   ("DNSEgressPeer", TPtr (TStruct "networkingv1.NetworkPolicyPeer"))].
Definition acv1alpha1_RuntimeConfigApplyConfiguration : list (string * ty) :=
  [("Replicas", TPtr TInt); ("Security", TPtr (TStruct "acv1alpha1.SecurityConfig"));
   ("Resources", TPtr (TStruct "corev1.ResourceRequirements")); ("Health", TPtr (TStruct "acv1alpha1.HealthConfig"))].
Definition acv1alpha1_SecretReferenceApplyConfiguration : list (string * ty) := [("Name", TPtr TStr)].
Definition acv1alpha1_SecurityConfigApplyConfiguration : list (string * ty) :=
  [("ServiceAccountName", TPtr TStr); ("PodSecurityContext", TPtr (TStruct "corev1.PodSecurityContext"));
   ("SecurityContext", TPtr (TStruct "corev1.SecurityContext"))].
Definition acv1alpha1_ServerConfigApplyConfiguration : list (string * ty) :=
  [("Port", TPtr TInt); ("Arguments", TSlice TStr); ("Env", TSlice (TStruct "corev1.EnvVar"));
   ("EnvFrom", TSlice (TStruct "corev1.EnvFromSource")); ("Storage", TSlice (TStruct "acv1alpha1.StorageMount"));
   ("Path", TPtr TStr)].
Definition acv1alpha1_SourceApplyConfiguration : list (string * ty) :=
  [("Type", TPtr TStr); ("ContainerImage", TPtr (TStruct "acv1alpha1.ContainerImageSource"))].
Definition acv1alpha1_StorageMountApplyConfiguration : list (string * ty) :=
  [("Path", TPtr TStr); ("Permissions", TPtr TStr); ("Source", TPtr (TStruct "acv1alpha1.StorageSource"))].
Definition acv1alpha1_StorageSourceApplyConfiguration : list (string * ty) :=
  [("Type", TPtr TStr); ("ConfigMap", TPtr (TStruct "corev1.ConfigMapVolumeSource"));
   ("Secret", TPtr (TStruct "corev1.SecretVolumeSource")); ("EmptyDir", TPtr (TStruct "corev1.EmptyDirVolumeSource"))].
Definition acv1alpha1_TLSClientConfigApplyConfiguration : list (string * ty) :=
  [("Enabled", TPtr TBool); ("CABundleSecret", TPtr (TStruct "acv1alpha1.SecretReference"));
   ("InsecureSkipVerify", TPtr TBool)].
Definition acv1alpha1_TransportConfigApplyConfiguration : list (string * ty) :=
  [("TLS", TPtr (TStruct "acv1alpha1.TLSClientConfig"))].

(** The structs by name. *)
Definition structs : list (string * list (string * ty)) :=
  [("acv1beta1.ContainerImageSource", acv1beta1_ContainerImageSourceApplyConfiguration);
   ("acv1beta1.GatewayBindingStatus", acv1beta1_GatewayBindingStatusApplyConfiguration);
   ("acv1beta1.GatewaySpec", acv1beta1_GatewaySpecApplyConfiguration);
   ("acv1beta1.HealthConfig", acv1beta1_HealthConfigApplyConfiguration);
   ("acv1beta1.MCPConfig", acv1beta1_MCPConfigApplyConfiguration);
   ("acv1beta1.MCPServer", acv1beta1_MCPServerApplyConfiguration);
   ("acv1beta1.MCPServerAddress", acv1beta1_MCPServerAddressApplyConfiguration);
   ("acv1beta1.MCPServerCapabilities", acv1beta1_MCPServerCapabilitiesApplyConfiguration);
   ("acv1beta1.MCPServerInfo", acv1beta1_MCPServerInfoApplyConfiguration);
   ("acv1beta1.MCPServerSpec", acv1beta1_MCPServerSpecApplyConfiguration);
   ("acv1beta1.MCPServerStatus", acv1beta1_MCPServerStatusApplyConfiguration);
   ("acv1beta1.NetworkConfig", acv1beta1_NetworkConfigApplyConfiguration);
   ("acv1beta1.RuntimeConfig", acv1beta1_RuntimeConfigApplyConfiguration);
   ("acv1beta1.SecretReference", acv1beta1_SecretReferenceApplyConfiguration);
   ("acv1beta1.SecurityConfig", acv1beta1_SecurityConfigApplyConfiguration);
   ("acv1beta1.ServerConfig", acv1beta1_ServerConfigApplyConfiguration);
   ("acv1beta1.ServiceReference", acv1beta1_ServiceReferenceApplyConfiguration);
   ("acv1beta1.Source", acv1beta1_SourceApplyConfiguration);
   ("acv1beta1.StorageMount", acv1beta1_StorageMountApplyConfiguration);
   ("acv1beta1.StorageSource", acv1beta1_StorageSourceApplyConfiguration);
   ("acv1beta1.TLSClientConfig", acv1beta1_TLSClientConfigApplyConfiguration);
   ("acv1beta1.TransportConfig", acv1beta1_TransportConfigApplyConfiguration);
   ("acv1beta1.WorkloadReference", acv1beta1_WorkloadReferenceApplyConfiguration);
   ("acv1alpha1.ContainerImageSource", acv1alpha1_ContainerImageSourceApplyConfiguration);
   ("acv1alpha1.HealthConfig", acv1alpha1_HealthConfigApplyConfiguration);
   ("acv1alpha1.MCPConfig", acv1alpha1_MCPConfigApplyConfiguration);
   ("acv1alpha1.MCPGatewayBinding", acv1alpha1_MCPGatewayBindingApplyConfiguration);
   ("acv1alpha1.MCPGatewayBindingSpec", acv1alpha1_MCPGatewayBindingSpecApplyConfiguration);
   ("acv1alpha1.MCPGatewayBindingStatus", acv1alpha1_MCPGatewayBindingStatusApplyConfiguration);
   ("acv1alpha1.MCPServer", acv1alpha1_MCPServerApplyConfiguration);
   ("acv1alpha1.MCPServerAddress", acv1alpha1_MCPServerAddressApplyConfiguration);
   ("acv1alpha1.MCPServerCapabilities", acv1alpha1_MCPServerCapabilitiesApplyConfiguration);
   ("acv1alpha1.MCPServerInfo", acv1alpha1_MCPServerInfoApplyConfiguration);
   ("acv1alpha1.MCPServerSpec", acv1alpha1_MCPServerSpecApplyConfiguration);
   ("acv1alpha1.MCPServerStatus", acv1alpha1_MCPServerStatusApplyConfiguration);
   ("acv1alpha1.NetworkConfig", acv1alpha1_NetworkConfigApplyConfiguration);
   ("acv1alpha1.RuntimeConfig", acv1alpha1_RuntimeConfigApplyConfiguration);
   ("acv1alpha1.SecretReference", acv1alpha1_SecretReferenceApplyConfiguration);
   ("acv1alpha1.SecurityConfig", acv1alpha1_SecurityConfigApplyConfiguration);
   ("acv1alpha1.ServerConfig", acv1alpha1_ServerConfigApplyConfiguration);
   ("acv1alpha1.Source", acv1alpha1_SourceApplyConfiguration);
   ("acv1alpha1.StorageMount", acv1alpha1_StorageMountApplyConfiguration);
   ("acv1alpha1.StorageSource", acv1alpha1_StorageSourceApplyConfiguration);
   ("acv1alpha1.TLSClientConfig", acv1alpha1_TLSClientConfigApplyConfiguration);
   ("acv1alpha1.TransportConfig", acv1alpha1_TransportConfigApplyConfiguration)].

(** The structs of other modules. *)
Class Foreign := foreign : string -> option (list (string * ty)).

(** [managedfields.ExtractInto]: the fields of an object that a manager owns, by a schema
    type, written into an apply configuration; or an error. *)
Class Extractor := extractInto : val -> string -> string -> val -> string -> C (option string).

(** [o.F], of an API object's embedded [ObjectMeta]. *)
Definition ofObjectMeta (F : string) (o : val) : C val :=
  m ⇐ getField "ObjectMeta" o ;;
  match m with
  | VStruct fs => match field F fs with Some v => ret v | None => stuck end
  | _ => stuck
  end.

Section methods.
Context `{Foreign} `{GoRuntime} `{Extractor}.

Definition acFieldsOf (T : string) : option (list (string * ty)) :=
  if String.eqb T "metav1ac.ObjectMeta" then Some metav1ac_ObjectMeta_fields
  else match field T structs with Some ts => Some ts | None => foreign T end.

(** *** v1beta1/containerimagesource.go *)

Definition acv1beta1_ContainerImageSource : C val := new acv1beta1_ContainerImageSourceApplyConfiguration.
Definition acv1beta1_ContainerImageSource_WithRef (value b : val) : C val := setAddress "Ref" value b.
Definition acv1beta1_ContainerImageSource_WithPullPolicy (value b : val) : C val := setAddress "PullPolicy" value b.
Definition acv1beta1_ContainerImageSource_WithImagePullSecrets (values b : val) : C val := appendValues "ImagePullSecrets" values b.
(** *** v1beta1/gatewaybindingstatus.go *)

Definition acv1beta1_GatewayBindingStatus : C val := new acv1beta1_GatewayBindingStatusApplyConfiguration.
Definition acv1beta1_GatewayBindingStatus_WithName (value b : val) : C val := setAddress "Name" value b.
Definition acv1beta1_GatewayBindingStatus_WithProvider (value b : val) : C val := setAddress "Provider" value b.
(** *** v1beta1/gatewayspec.go *)

Definition acv1beta1_GatewaySpec : C val := new acv1beta1_GatewaySpecApplyConfiguration.
Definition acv1beta1_GatewaySpec_WithProvider (value b : val) : C val := setAddress "Provider" value b.
Definition acv1beta1_GatewaySpec_WithConfigRef (value b : val) : C val := setAddress "ConfigRef" value b.
(** *** v1beta1/healthconfig.go *)

Definition acv1beta1_HealthConfig : C val := new acv1beta1_HealthConfigApplyConfiguration.
Definition acv1beta1_HealthConfig_WithLivenessProbe (value b : val) : C val := setAddress "LivenessProbe" value b.
Definition acv1beta1_HealthConfig_WithReadinessProbe (value b : val) : C val := setAddress "ReadinessProbe" value b.
(** *** v1beta1/mcpconfig.go *)

Definition acv1beta1_MCPConfig : C val := new acv1beta1_MCPConfigApplyConfiguration.
Definition acv1beta1_MCPConfig_WithStateless (value b : val) : C val := setAddress "Stateless" value b.
(** *** v1beta1/mcpserver.go *)

Definition acv1beta1_MCPServer_WithKind (value b : val) : C val := setAddress "Kind" value b.
Definition acv1beta1_MCPServer_WithAPIVersion (value b : val) : C val := setAddress "APIVersion" value b.
Definition acv1beta1_MCPServer_WithName (value : val) : val -> C val := onMeta (setAddress "Name" value).
Definition acv1beta1_MCPServer_WithGenerateName (value : val) : val -> C val := onMeta (setAddress "GenerateName" value).
Definition acv1beta1_MCPServer_WithNamespace (value : val) : val -> C val := onMeta (setAddress "Namespace" value).
Definition acv1beta1_MCPServer_WithUID (value : val) : val -> C val := onMeta (setAddress "UID" value).
Definition acv1beta1_MCPServer_WithResourceVersion (value : val) : val -> C val := onMeta (setAddress "ResourceVersion" value).
Definition acv1beta1_MCPServer_WithGeneration (value : val) : val -> C val := onMeta (setAddress "Generation" value).
Definition acv1beta1_MCPServer_WithCreationTimestamp (value : val) : val -> C val := onMeta (setAddress "CreationTimestamp" value).
Definition acv1beta1_MCPServer_WithDeletionTimestamp (value : val) : val -> C val := onMeta (setAddress "DeletionTimestamp" value).
Definition acv1beta1_MCPServer_WithDeletionGracePeriodSeconds (value : val) : val -> C val := onMeta (setAddress "DeletionGracePeriodSeconds" value).
Definition acv1beta1_MCPServer_WithLabels (entries : val) : val -> C val := onMeta (putEntries "Labels" entries).
Definition acv1beta1_MCPServer_WithAnnotations (entries : val) : val -> C val := onMeta (putEntries "Annotations" entries).
Definition acv1beta1_MCPServer_WithOwnerReferences (values : val) : val -> C val := onMeta (appendPointers "OwnerReferences" values).
Definition acv1beta1_MCPServer_WithFinalizers (values : val) : val -> C val := onMeta (appendValues "Finalizers" values).
Definition acv1beta1_MCPServer_ensureObjectMetaApplyConfigurationExists : val -> C unit := ensureObjectMeta.
Definition acv1beta1_MCPServer_WithSpec (value b : val) : C val := setPointer "Spec" value b.
Definition acv1beta1_MCPServer_WithStatus (value b : val) : C val := setPointer "Status" value b.
Definition acv1beta1_MCPServer_GetKind (b : val) : C val := getField "Kind" b.
Definition acv1beta1_MCPServer_GetAPIVersion (b : val) : C val := getField "APIVersion" b.
Definition acv1beta1_MCPServer_GetName (b : val) : C val := getMeta "Name" b.
Definition acv1beta1_MCPServer_GetNamespace (b : val) : C val := getMeta "Namespace" b.
Definition acv1beta1_MCPServer (name namespace : val) : C val :=
  b ⇐ new acv1beta1_MCPServerApplyConfiguration ;;
  _ ⇐ acv1beta1_MCPServer_WithName name b ;;
  _ ⇐ acv1beta1_MCPServer_WithNamespace namespace b ;;
  _ ⇐ acv1beta1_MCPServer_WithKind (VStr "MCPServer") b ;;
  _ ⇐ acv1beta1_MCPServer_WithAPIVersion (VStr "mcp.x-k8s.io/v1beta1") b ;;
  ret b.
Definition acv1beta1_ExtractMCPServerFrom (mCPServer : val) (fieldManager subresource : string) : C (option val * option string) :=
  b ⇐ new acv1beta1_MCPServerApplyConfiguration ;;
  err ⇐ extractInto mCPServer "com.github.kubernetes-sigs.mcp-lifecycle-operator.api.v1beta1.MCPServer" fieldManager b subresource ;;
  match err with
  | Some e => ret (None, Some e)
  | None =>
      name ⇐ ofObjectMeta "Name" mCPServer ;;
      _ ⇐ acv1beta1_MCPServer_WithName name b ;;
      namespace ⇐ ofObjectMeta "Namespace" mCPServer ;;
      _ ⇐ acv1beta1_MCPServer_WithNamespace namespace b ;;
      _ ⇐ acv1beta1_MCPServer_WithKind (VStr "MCPServer") b ;;
      _ ⇐ acv1beta1_MCPServer_WithAPIVersion (VStr "mcp.x-k8s.io/v1beta1") b ;;
      ret (Some b, None)
  end.
Definition acv1beta1_ExtractMCPServer (mCPServer : val) (fieldManager : string) : C (option val * option string) :=
  acv1beta1_ExtractMCPServerFrom mCPServer fieldManager "".
Definition acv1beta1_ExtractMCPServerStatus (mCPServer : val) (fieldManager : string) : C (option val * option string) :=
  acv1beta1_ExtractMCPServerFrom mCPServer fieldManager "status".
(** *** v1beta1/mcpserveraddress.go *)

Definition acv1beta1_MCPServerAddress : C val := new acv1beta1_MCPServerAddressApplyConfiguration.
Definition acv1beta1_MCPServerAddress_WithURL (value b : val) : C val := setAddress "URL" value b.
(** *** v1beta1/mcpservercapabilities.go *)

Definition acv1beta1_MCPServerCapabilities : C val := new acv1beta1_MCPServerCapabilitiesApplyConfiguration.
Definition acv1beta1_MCPServerCapabilities_WithTools (value b : val) : C val := setAddress "Tools" value b.
Definition acv1beta1_MCPServerCapabilities_WithResources (value b : val) : C val := setAddress "Resources" value b.
Definition acv1beta1_MCPServerCapabilities_WithPrompts (value b : val) : C val := setAddress "Prompts" value b.
Definition acv1beta1_MCPServerCapabilities_WithLogging (value b : val) : C val := setAddress "Logging" value b.
Definition acv1beta1_MCPServerCapabilities_WithCompletions (value b : val) : C val := setAddress "Completions" value b.
(** *** v1beta1/mcpserverinfo.go *)

Definition acv1beta1_MCPServerInfo : C val := new acv1beta1_MCPServerInfoApplyConfiguration.
Definition acv1beta1_MCPServerInfo_WithName (value b : val) : C val := setAddress "Name" value b.
Definition acv1beta1_MCPServerInfo_WithVersion (value b : val) : C val := setAddress "Version" value b.
Definition acv1beta1_MCPServerInfo_WithProtocolVersion (value b : val) : C val := setAddress "ProtocolVersion" value b.
Definition acv1beta1_MCPServerInfo_WithInstructions (value b : val) : C val := setAddress "Instructions" value b.
Definition acv1beta1_MCPServerInfo_WithCapabilities (value b : val) : C val := setPointer "Capabilities" value b.
(** *** v1beta1/mcpserverspec.go *)

Definition acv1beta1_MCPServerSpec : C val := new acv1beta1_MCPServerSpecApplyConfiguration.
Definition acv1beta1_MCPServerSpec_WithExtraLabels (entries b : val) : C val := putEntries "ExtraLabels" entries b.
Definition acv1beta1_MCPServerSpec_WithExtraAnnotations (entries b : val) : C val := putEntries "ExtraAnnotations" entries b.
Definition acv1beta1_MCPServerSpec_WithWorkloadRef (value b : val) : C val := setPointer "WorkloadRef" value b.
Definition acv1beta1_MCPServerSpec_WithServiceRef (value b : val) : C val := setPointer "ServiceRef" value b.
Definition acv1beta1_MCPServerSpec_WithSource (value b : val) : C val := setPointer "Source" value b.
Definition acv1beta1_MCPServerSpec_WithConfig (value b : val) : C val := setPointer "Config" value b.
Definition acv1beta1_MCPServerSpec_WithRuntime (value b : val) : C val := setPointer "Runtime" value b.
Definition acv1beta1_MCPServerSpec_WithMCP (value b : val) : C val := setPointer "MCP" value b.
Definition acv1beta1_MCPServerSpec_WithNetwork (value b : val) : C val := setPointer "Network" value b.
Definition acv1beta1_MCPServerSpec_WithTransport (value b : val) : C val := setPointer "Transport" value b.
Definition acv1beta1_MCPServerSpec_WithGateway (value b : val) : C val := setPointer "Gateway" value b.
(** *** v1beta1/mcpserverstatus.go *)

Definition acv1beta1_MCPServerStatus : C val := new acv1beta1_MCPServerStatusApplyConfiguration.
Definition acv1beta1_MCPServerStatus_WithObservedGeneration (value b : val) : C val := setAddress "ObservedGeneration" value b.
Definition acv1beta1_MCPServerStatus_WithDeploymentName (value b : val) : C val := setAddress "DeploymentName" value b.
Definition acv1beta1_MCPServerStatus_WithServiceName (value b : val) : C val := setAddress "ServiceName" value b.
Definition acv1beta1_MCPServerStatus_WithWorkloadName (value b : val) : C val := setAddress "WorkloadName" value b.
Definition acv1beta1_MCPServerStatus_WithWorkloadSummary (value b : val) : C val := setAddress "WorkloadSummary" value b.
Definition acv1beta1_MCPServerStatus_WithGatewayBinding (value b : val) : C val := setPointer "GatewayBinding" value b.
Definition acv1beta1_MCPServerStatus_WithAddress (value b : val) : C val := setPointer "Address" value b.
Definition acv1beta1_MCPServerStatus_WithServerInfo (value b : val) : C val := setPointer "ServerInfo" value b.
Definition acv1beta1_MCPServerStatus_WithReplicas (value b : val) : C val := setAddress "Replicas" value b.
Definition acv1beta1_MCPServerStatus_WithReadyReplicas (value b : val) : C val := setAddress "ReadyReplicas" value b.
Definition acv1beta1_MCPServerStatus_WithConditions (values b : val) : C val := appendPointers "Conditions" values b.
(** *** v1beta1/networkconfig.go *)

Definition acv1beta1_NetworkConfig : C val := new acv1beta1_NetworkConfigApplyConfiguration.
Definition acv1beta1_NetworkConfig_WithIngressFrom (values b : val) : C val := appendValues "IngressFrom" values b.
Definition acv1beta1_NetworkConfig_WithEgressTo (values b : val) : C val := appendValues "EgressTo" values b.
Definition acv1beta1_NetworkConfig_WithEgressPorts (values b : val) : C val := appendValues "EgressPorts" values b.
Definition acv1beta1_NetworkConfig_WithDNSEgressPeer (value b : val) : C val := setAddress "DNSEgressPeer" value b.
(** *** v1beta1/runtimeconfig.go *)

Definition acv1beta1_RuntimeConfig : C val := new acv1beta1_RuntimeConfigApplyConfiguration.
Definition acv1beta1_RuntimeConfig_WithReplicas (value b : val) : C val := setAddress "Replicas" value b.
Definition acv1beta1_RuntimeConfig_WithSecurity (value b : val) : C val := setPointer "Security" value b.
Definition acv1beta1_RuntimeConfig_WithResources (value b : val) : C val := setAddress "Resources" value b.
Definition acv1beta1_RuntimeConfig_WithHealth (value b : val) : C val := setPointer "Health" value b.
(** *** v1beta1/secretreference.go *)

Definition acv1beta1_SecretReference : C val := new acv1beta1_SecretReferenceApplyConfiguration.
Definition acv1beta1_SecretReference_WithName (value b : val) : C val := setAddress "Name" value b.
(** *** v1beta1/securityconfig.go *)

Definition acv1beta1_SecurityConfig : C val := new acv1beta1_SecurityConfigApplyConfiguration.
Definition acv1beta1_SecurityConfig_WithServiceAccountName (value b : val) : C val := setAddress "ServiceAccountName" value b.
Definition acv1beta1_SecurityConfig_WithPodSecurityContext (value b : val) : C val := setAddress "PodSecurityContext" value b.
Definition acv1beta1_SecurityConfig_WithSecurityContext (value b : val) : C val := setAddress "SecurityContext" value b.
(** *** v1beta1/serverconfig.go *)

Definition acv1beta1_ServerConfig : C val := new acv1beta1_ServerConfigApplyConfiguration.
Definition acv1beta1_ServerConfig_WithPort (value b : val) : C val := setAddress "Port" value b.
Definition acv1beta1_ServerConfig_WithArguments (values b : val) : C val := appendValues "Arguments" values b.
Definition acv1beta1_ServerConfig_WithEnv (values b : val) : C val := appendValues "Env" values b.
Definition acv1beta1_ServerConfig_WithEnvFrom (values b : val) : C val := appendValues "EnvFrom" values b.
Definition acv1beta1_ServerConfig_WithStorage (values b : val) : C val := appendPointers "Storage" values b.
Definition acv1beta1_ServerConfig_WithPath (value b : val) : C val := setAddress "Path" value b.
(** *** v1beta1/servicereference.go *)

Definition acv1beta1_ServiceReference : C val := new acv1beta1_ServiceReferenceApplyConfiguration.
Definition acv1beta1_ServiceReference_WithName (value b : val) : C val := setAddress "Name" value b.
(** *** v1beta1/source.go *)

Definition acv1beta1_Source : C val := new acv1beta1_SourceApplyConfiguration.
Definition acv1beta1_Source_WithType (value b : val) : C val := setAddress "Type" value b.
Definition acv1beta1_Source_WithContainerImage (value b : val) : C val := setPointer "ContainerImage" value b.
(** *** v1beta1/storagemount.go *)

Definition acv1beta1_StorageMount : C val := new acv1beta1_StorageMountApplyConfiguration.
Definition acv1beta1_StorageMount_WithPath (value b : val) : C val := setAddress "Path" value b.
Definition acv1beta1_StorageMount_WithPermissions (value b : val) : C val := setAddress "Permissions" value b.
Definition acv1beta1_StorageMount_WithSource (value b : val) : C val := setPointer "Source" value b.
(** *** v1beta1/storagesource.go *)

Definition acv1beta1_StorageSource : C val := new acv1beta1_StorageSourceApplyConfiguration.
Definition acv1beta1_StorageSource_WithType (value b : val) : C val := setAddress "Type" value b.
Definition acv1beta1_StorageSource_WithConfigMap (value b : val) : C val := setAddress "ConfigMap" value b.
Definition acv1beta1_StorageSource_WithSecret (value b : val) : C val := setAddress "Secret" value b.
Definition acv1beta1_StorageSource_WithEmptyDir (value b : val) : C val := setAddress "EmptyDir" value b.
(** *** v1beta1/tlsclientconfig.go *)

Definition acv1beta1_TLSClientConfig : C val := new acv1beta1_TLSClientConfigApplyConfiguration.
Definition acv1beta1_TLSClientConfig_WithEnabled (value b : val) : C val := setAddress "Enabled" value b.
Definition acv1beta1_TLSClientConfig_WithCABundleSecret (value b : val) : C val := setPointer "CABundleSecret" value b.
Definition acv1beta1_TLSClientConfig_WithInsecureSkipVerify (value b : val) : C val := setAddress "InsecureSkipVerify" value b.
(** *** v1beta1/transportconfig.go *)

Definition acv1beta1_TransportConfig : C val := new acv1beta1_TransportConfigApplyConfiguration.
Definition acv1beta1_TransportConfig_WithTLS (value b : val) : C val := setPointer "TLS" value b.
(** *** v1beta1/workloadreference.go *)

Definition acv1beta1_WorkloadReference : C val := new acv1beta1_WorkloadReferenceApplyConfiguration.
Definition acv1beta1_WorkloadReference_WithName (value b : val) : C val := setAddress "Name" value b.
Definition acv1beta1_WorkloadReference_WithKind (value b : val) : C val := setAddress "Kind" value b.

(** *** v1alpha1/containerimagesource.go *)

Definition acv1alpha1_ContainerImageSource : C val := new acv1alpha1_ContainerImageSourceApplyConfiguration.
Definition acv1alpha1_ContainerImageSource_WithRef (value b : val) : C val := setAddress "Ref" value b.
Definition acv1alpha1_ContainerImageSource_WithPullPolicy (value b : val) : C val := setAddress "PullPolicy" value b.
Definition acv1alpha1_ContainerImageSource_WithImagePullSecrets (values b : val) : C val := appendValues "ImagePullSecrets" values b.
(** *** v1alpha1/healthconfig.go *)

Definition acv1alpha1_HealthConfig : C val := new acv1alpha1_HealthConfigApplyConfiguration.
Definition acv1alpha1_HealthConfig_WithLivenessProbe (value b : val) : C val := setAddress "LivenessProbe" value b.
Definition acv1alpha1_HealthConfig_WithReadinessProbe (value b : val) : C val := setAddress "ReadinessProbe" value b.
(** *** v1alpha1/mcpconfig.go *)

Definition acv1alpha1_MCPConfig : C val := new acv1alpha1_MCPConfigApplyConfiguration.
Definition acv1alpha1_MCPConfig_WithStateless (value b : val) : C val := setAddress "Stateless" value b.
(** *** v1alpha1/mcpgatewaybinding.go *)

Definition acv1alpha1_MCPGatewayBinding_WithKind (value b : val) : C val := setAddress "Kind" value b.
Definition acv1alpha1_MCPGatewayBinding_WithAPIVersion (value b : val) : C val := setAddress "APIVersion" value b.
Definition acv1alpha1_MCPGatewayBinding_WithName (value : val) : val -> C val := onMeta (setAddress "Name" value).
Definition acv1alpha1_MCPGatewayBinding_WithGenerateName (value : val) : val -> C val := onMeta (setAddress "GenerateName" value).
Definition acv1alpha1_MCPGatewayBinding_WithNamespace (value : val) : val -> C val := onMeta (setAddress "Namespace" value).
Definition acv1alpha1_MCPGatewayBinding_WithUID (value : val) : val -> C val := onMeta (setAddress "UID" value).
Definition acv1alpha1_MCPGatewayBinding_WithResourceVersion (value : val) : val -> C val := onMeta (setAddress "ResourceVersion" value).
Definition acv1alpha1_MCPGatewayBinding_WithGeneration (value : val) : val -> C val := onMeta (setAddress "Generation" value).
Definition acv1alpha1_MCPGatewayBinding_WithCreationTimestamp (value : val) : val -> C val := onMeta (setAddress "CreationTimestamp" value).
Definition acv1alpha1_MCPGatewayBinding_WithDeletionTimestamp (value : val) : val -> C val := onMeta (setAddress "DeletionTimestamp" value).
Definition acv1alpha1_MCPGatewayBinding_WithDeletionGracePeriodSeconds (value : val) : val -> C val := onMeta (setAddress "DeletionGracePeriodSeconds" value).
Definition acv1alpha1_MCPGatewayBinding_WithLabels (entries : val) : val -> C val := onMeta (putEntries "Labels" entries).
Definition acv1alpha1_MCPGatewayBinding_WithAnnotations (entries : val) : val -> C val := onMeta (putEntries "Annotations" entries).
Definition acv1alpha1_MCPGatewayBinding_WithOwnerReferences (values : val) : val -> C val := onMeta (appendPointers "OwnerReferences" values).
Definition acv1alpha1_MCPGatewayBinding_WithFinalizers (values : val) : val -> C val := onMeta (appendValues "Finalizers" values).
Definition acv1alpha1_MCPGatewayBinding_ensureObjectMetaApplyConfigurationExists : val -> C unit := ensureObjectMeta.
Definition acv1alpha1_MCPGatewayBinding_WithSpec (value b : val) : C val := setPointer "Spec" value b.
Definition acv1alpha1_MCPGatewayBinding_WithStatus (value b : val) : C val := setPointer "Status" value b.
Definition acv1alpha1_MCPGatewayBinding_GetKind (b : val) : C val := getField "Kind" b.
Definition acv1alpha1_MCPGatewayBinding_GetAPIVersion (b : val) : C val := getField "APIVersion" b.
Definition acv1alpha1_MCPGatewayBinding_GetName (b : val) : C val := getMeta "Name" b.
Definition acv1alpha1_MCPGatewayBinding_GetNamespace (b : val) : C val := getMeta "Namespace" b.
Definition acv1alpha1_MCPGatewayBinding (name namespace : val) : C val :=
  b ⇐ new acv1alpha1_MCPGatewayBindingApplyConfiguration ;;
  _ ⇐ acv1alpha1_MCPGatewayBinding_WithName name b ;;
  _ ⇐ acv1alpha1_MCPGatewayBinding_WithNamespace namespace b ;;
  _ ⇐ acv1alpha1_MCPGatewayBinding_WithKind (VStr "MCPGatewayBinding") b ;;
  _ ⇐ acv1alpha1_MCPGatewayBinding_WithAPIVersion (VStr "mcp.x-k8s.io/v1alpha1") b ;;
  ret b.
(** *** v1alpha1/mcpgatewaybindingspec.go *)

Definition acv1alpha1_MCPGatewayBindingSpec : C val := new acv1alpha1_MCPGatewayBindingSpecApplyConfiguration.
Definition acv1alpha1_MCPGatewayBindingSpec_WithMCPServerRef (value b : val) : C val := setAddress "MCPServerRef" value b.
Definition acv1alpha1_MCPGatewayBindingSpec_WithProvider (value b : val) : C val := setAddress "Provider" value b.
Definition acv1alpha1_MCPGatewayBindingSpec_WithConfigRef (value b : val) : C val := setAddress "ConfigRef" value b.
(** *** v1alpha1/mcpgatewaybindingstatus.go *)

Definition acv1alpha1_MCPGatewayBindingStatus : C val := new acv1alpha1_MCPGatewayBindingStatusApplyConfiguration.
Definition acv1alpha1_MCPGatewayBindingStatus_WithURL (value b : val) : C val := setAddress "URL" value b.
Definition acv1alpha1_MCPGatewayBindingStatus_WithConditions (values b : val) : C val := appendPointers "Conditions" values b.
(** *** v1alpha1/mcpserver.go *)

Definition acv1alpha1_MCPServer_WithKind (value b : val) : C val := setAddress "Kind" value b.
Definition acv1alpha1_MCPServer_WithAPIVersion (value b : val) : C val := setAddress "APIVersion" value b.
Definition acv1alpha1_MCPServer_WithName (value : val) : val -> C val := onMeta (setAddress "Name" value).
Definition acv1alpha1_MCPServer_WithGenerateName (value : val) : val -> C val := onMeta (setAddress "GenerateName" value).
Definition acv1alpha1_MCPServer_WithNamespace (value : val) : val -> C val := onMeta (setAddress "Namespace" value).
Definition acv1alpha1_MCPServer_WithUID (value : val) : val -> C val := onMeta (setAddress "UID" value).
Definition acv1alpha1_MCPServer_WithResourceVersion (value : val) : val -> C val := onMeta (setAddress "ResourceVersion" value).
Definition acv1alpha1_MCPServer_WithGeneration (value : val) : val -> C val := onMeta (setAddress "Generation" value).
Definition acv1alpha1_MCPServer_WithCreationTimestamp (value : val) : val -> C val := onMeta (setAddress "CreationTimestamp" value).
Definition acv1alpha1_MCPServer_WithDeletionTimestamp (value : val) : val -> C val := onMeta (setAddress "DeletionTimestamp" value).
Definition acv1alpha1_MCPServer_WithDeletionGracePeriodSeconds (value : val) : val -> C val := onMeta (setAddress "DeletionGracePeriodSeconds" value).
Definition acv1alpha1_MCPServer_WithLabels (entries : val) : val -> C val := onMeta (putEntries "Labels" entries).
Definition acv1alpha1_MCPServer_WithAnnotations (entries : val) : val -> C val := onMeta (putEntries "Annotations" entries).
Definition acv1alpha1_MCPServer_WithOwnerReferences (values : val) : val -> C val := onMeta (appendPointers "OwnerReferences" values).
Definition acv1alpha1_MCPServer_WithFinalizers (values : val) : val -> C val := onMeta (appendValues "Finalizers" values).
Definition acv1alpha1_MCPServer_ensureObjectMetaApplyConfigurationExists : val -> C unit := ensureObjectMeta.
Definition acv1alpha1_MCPServer_WithSpec (value b : val) : C val := setPointer "Spec" value b.
Definition acv1alpha1_MCPServer_WithStatus (value b : val) : C val := setPointer "Status" value b.
Definition acv1alpha1_MCPServer_GetKind (b : val) : C val := getField "Kind" b.
Definition acv1alpha1_MCPServer_GetAPIVersion (b : val) : C val := getField "APIVersion" b.
Definition acv1alpha1_MCPServer_GetName (b : val) : C val := getMeta "Name" b.
Definition acv1alpha1_MCPServer_GetNamespace (b : val) : C val := getMeta "Namespace" b.
Definition acv1alpha1_MCPServer (name namespace : val) : C val :=
  b ⇐ new acv1alpha1_MCPServerApplyConfiguration ;;
  _ ⇐ acv1alpha1_MCPServer_WithName name b ;;
  _ ⇐ acv1alpha1_MCPServer_WithNamespace namespace b ;;
  _ ⇐ acv1alpha1_MCPServer_WithKind (VStr "MCPServer") b ;;
  _ ⇐ acv1alpha1_MCPServer_WithAPIVersion (VStr "mcp.x-k8s.io/v1alpha1") b ;;
  ret b.
(** *** v1alpha1/mcpserveraddress.go *)

Definition acv1alpha1_MCPServerAddress : C val := new acv1alpha1_MCPServerAddressApplyConfiguration.
Definition acv1alpha1_MCPServerAddress_WithURL (value b : val) : C val := setAddress "URL" value b.
(** *** v1alpha1/mcpservercapabilities.go *)

Definition acv1alpha1_MCPServerCapabilities : C val := new acv1alpha1_MCPServerCapabilitiesApplyConfiguration.
Definition acv1alpha1_MCPServerCapabilities_WithTools (value b : val) : C val := setAddress "Tools" value b.
Definition acv1alpha1_MCPServerCapabilities_WithResources (value b : val) : C val := setAddress "Resources" value b.
Definition acv1alpha1_MCPServerCapabilities_WithPrompts (value b : val) : C val := setAddress "Prompts" value b.
Definition acv1alpha1_MCPServerCapabilities_WithLogging (value b : val) : C val := setAddress "Logging" value b.
Definition acv1alpha1_MCPServerCapabilities_WithCompletions (value b : val) : C val := setAddress "Completions" value b.
(** *** v1alpha1/mcpserverinfo.go *)

Definition acv1alpha1_MCPServerInfo : C val := new acv1alpha1_MCPServerInfoApplyConfiguration.
Definition acv1alpha1_MCPServerInfo_WithName (value b : val) : C val := setAddress "Name" value b.
Definition acv1alpha1_MCPServerInfo_WithVersion (value b : val) : C val := setAddress "Version" value b.
Definition acv1alpha1_MCPServerInfo_WithProtocolVersion (value b : val) : C val := setAddress "ProtocolVersion" value b.
Definition acv1alpha1_MCPServerInfo_WithInstructions (value b : val) : C val := setAddress "Instructions" value b.
Definition acv1alpha1_MCPServerInfo_WithCapabilities (value b : val) : C val := setPointer "Capabilities" value b.
(** *** v1alpha1/mcpserverspec.go *)

Definition acv1alpha1_MCPServerSpec : C val := new acv1alpha1_MCPServerSpecApplyConfiguration.
Definition acv1alpha1_MCPServerSpec_WithExtraLabels (entries b : val) : C val := putEntries "ExtraLabels" entries b.
Definition acv1alpha1_MCPServerSpec_WithExtraAnnotations (entries b : val) : C val := putEntries "ExtraAnnotations" entries b.
Definition acv1alpha1_MCPServerSpec_WithSource (value b : val) : C val := setPointer "Source" value b.
Definition acv1alpha1_MCPServerSpec_WithConfig (value b : val) : C val := setPointer "Config" value b.
Definition acv1alpha1_MCPServerSpec_WithRuntime (value b : val) : C val := setPointer "Runtime" value b.
Definition acv1alpha1_MCPServerSpec_WithMCP (value b : val) : C val := setPointer "MCP" value b.
Definition acv1alpha1_MCPServerSpec_WithNetwork (value b : val) : C val := setPointer "Network" value b.
Definition acv1alpha1_MCPServerSpec_WithTransport (value b : val) : C val := setPointer "Transport" value b.
(** *** v1alpha1/mcpserverstatus.go *)

Definition acv1alpha1_MCPServerStatus : C val := new acv1alpha1_MCPServerStatusApplyConfiguration.
Definition acv1alpha1_MCPServerStatus_WithObservedGeneration (value b : val) : C val := setAddress "ObservedGeneration" value b.
Definition acv1alpha1_MCPServerStatus_WithDeploymentName (value b : val) : C val := setAddress "DeploymentName" value b.
Definition acv1alpha1_MCPServerStatus_WithServiceName (value b : val) : C val := setAddress "ServiceName" value b.
Definition acv1alpha1_MCPServerStatus_WithAddress (value b : val) : C val := setPointer "Address" value b.
Definition acv1alpha1_MCPServerStatus_WithServerInfo (value b : val) : C val := setPointer "ServerInfo" value b.
Definition acv1alpha1_MCPServerStatus_WithHandshakeRetryCount (value b : val) : C val := setAddress "HandshakeRetryCount" value b.
Definition acv1alpha1_MCPServerStatus_WithReplicas (value b : val) : C val := setAddress "Replicas" value b.
Definition acv1alpha1_MCPServerStatus_WithReadyReplicas (value b : val) : C val := setAddress "ReadyReplicas" value b.
Definition acv1alpha1_MCPServerStatus_WithConditions (values b : val) : C val := appendPointers "Conditions" values b.
(** *** v1alpha1/networkconfig.go *)

Definition acv1alpha1_NetworkConfig : C val := new acv1alpha1_NetworkConfigApplyConfiguration.
Definition acv1alpha1_NetworkConfig_WithIngressFrom (values b : val) : C val := appendValues "IngressFrom" values b.
Definition acv1alpha1_NetworkConfig_WithEgressTo (values b : val) : C val := appendValues "EgressTo" values b.
Definition acv1alpha1_NetworkConfig_WithEgressPorts (values b : val) : C val := appendValues "EgressPorts" values b.
Definition acv1alpha1_NetworkConfig_WithDNSEgressPeer (value b : val) : C val := setAddress "DNSEgressPeer" value b.
(** *** v1alpha1/runtimeconfig.go *)

Definition acv1alpha1_RuntimeConfig : C val := new acv1alpha1_RuntimeConfigApplyConfiguration.
Definition acv1alpha1_RuntimeConfig_WithReplicas (value b : val) : C val := setAddress "Replicas" value b.
Definition acv1alpha1_RuntimeConfig_WithSecurity (value b : val) : C val := setPointer "Security" value b.
Definition acv1alpha1_RuntimeConfig_WithResources (value b : val) : C val := setAddress "Resources" value b.
Definition acv1alpha1_RuntimeConfig_WithHealth (value b : val) : C val := setPointer "Health" value b.
(** *** v1alpha1/secretreference.go *)

Definition acv1alpha1_SecretReference : C val := new acv1alpha1_SecretReferenceApplyConfiguration.
Definition acv1alpha1_SecretReference_WithName (value b : val) : C val := setAddress "Name" value b.
(** *** v1alpha1/securityconfig.go *)

Definition acv1alpha1_SecurityConfig : C val := new acv1alpha1_SecurityConfigApplyConfiguration.
Definition acv1alpha1_SecurityConfig_WithServiceAccountName (value b : val) : C val := setAddress "ServiceAccountName" value b.
Definition acv1alpha1_SecurityConfig_WithPodSecurityContext (value b : val) : C val := setAddress "PodSecurityContext" value b.
Definition acv1alpha1_SecurityConfig_WithSecurityContext (value b : val) : C val := setAddress "SecurityContext" value b.
(** *** v1alpha1/serverconfig.go *)

Definition acv1alpha1_ServerConfig : C val := new acv1alpha1_ServerConfigApplyConfiguration.
Definition acv1alpha1_ServerConfig_WithPort (value b : val) : C val := setAddress "Port" value b.
Definition acv1alpha1_ServerConfig_WithArguments (values b : val) : C val := appendValues "Arguments" values b.
Definition acv1alpha1_ServerConfig_WithEnv (values b : val) : C val := appendValues "Env" values b.
Definition acv1alpha1_ServerConfig_WithEnvFrom (values b : val) : C val := appendValues "EnvFrom" values b.
Definition acv1alpha1_ServerConfig_WithStorage (values b : val) : C val := appendPointers "Storage" values b.
Definition acv1alpha1_ServerConfig_WithPath (value b : val) : C val := setAddress "Path" value b.
(** *** v1alpha1/source.go *)

Definition acv1alpha1_Source : C val := new acv1alpha1_SourceApplyConfiguration.
Definition acv1alpha1_Source_WithType (value b : val) : C val := setAddress "Type" value b.
Definition acv1alpha1_Source_WithContainerImage (value b : val) : C val := setPointer "ContainerImage" value b.
(** *** v1alpha1/storagemount.go *)

Definition acv1alpha1_StorageMount : C val := new acv1alpha1_StorageMountApplyConfiguration.
Definition acv1alpha1_StorageMount_WithPath (value b : val) : C val := setAddress "Path" value b.
Definition acv1alpha1_StorageMount_WithPermissions (value b : val) : C val := setAddress "Permissions" value b.
Definition acv1alpha1_StorageMount_WithSource (value b : val) : C val := setPointer "Source" value b.
(** *** v1alpha1/storagesource.go *)

Definition acv1alpha1_StorageSource : C val := new acv1alpha1_StorageSourceApplyConfiguration.
Definition acv1alpha1_StorageSource_WithType (value b : val) : C val := setAddress "Type" value b.
Definition acv1alpha1_StorageSource_WithConfigMap (value b : val) : C val := setAddress "ConfigMap" value b.
Definition acv1alpha1_StorageSource_WithSecret (value b : val) : C val := setAddress "Secret" value b.
Definition acv1alpha1_StorageSource_WithEmptyDir (value b : val) : C val := setAddress "EmptyDir" value b.
(** *** v1alpha1/tlsclientconfig.go *)

Definition acv1alpha1_TLSClientConfig : C val := new acv1alpha1_TLSClientConfigApplyConfiguration.
Definition acv1alpha1_TLSClientConfig_WithEnabled (value b : val) : C val := setAddress "Enabled" value b.
Definition acv1alpha1_TLSClientConfig_WithCABundleSecret (value b : val) : C val := setPointer "CABundleSecret" value b.
Definition acv1alpha1_TLSClientConfig_WithInsecureSkipVerify (value b : val) : C val := setAddress "InsecureSkipVerify" value b.
(** *** v1alpha1/transportconfig.go *)

Definition acv1alpha1_TransportConfig : C val := new acv1alpha1_TransportConfigApplyConfiguration.
Definition acv1alpha1_TransportConfig_WithTLS (value b : val) : C val := setPointer "TLS" value b.

(** ** utils.go *)

Definition acv1beta1_kinds : list (string * list (string * ty)) :=
  [("ContainerImageSource", acv1beta1_ContainerImageSourceApplyConfiguration);
   ("GatewayBindingStatus", acv1beta1_GatewayBindingStatusApplyConfiguration);
   ("GatewaySpec", acv1beta1_GatewaySpecApplyConfiguration);
   ("HealthConfig", acv1beta1_HealthConfigApplyConfiguration); ("MCPConfig", acv1beta1_MCPConfigApplyConfiguration);
   ("MCPServer", acv1beta1_MCPServerApplyConfiguration);
   ("MCPServerAddress", acv1beta1_MCPServerAddressApplyConfiguration);
   ("MCPServerCapabilities", acv1beta1_MCPServerCapabilitiesApplyConfiguration);
   ("MCPServerInfo", acv1beta1_MCPServerInfoApplyConfiguration);
   ("MCPServerSpec", acv1beta1_MCPServerSpecApplyConfiguration);
   ("MCPServerStatus", acv1beta1_MCPServerStatusApplyConfiguration);
   ("NetworkConfig", acv1beta1_NetworkConfigApplyConfiguration);
   ("RuntimeConfig", acv1beta1_RuntimeConfigApplyConfiguration);
   ("SecretReference", acv1beta1_SecretReferenceApplyConfiguration);
   ("SecurityConfig", acv1beta1_SecurityConfigApplyConfiguration);
   ("ServerConfig", acv1beta1_ServerConfigApplyConfiguration);
   ("ServiceReference", acv1beta1_ServiceReferenceApplyConfiguration);
   ("Source", acv1beta1_SourceApplyConfiguration); ("StorageMount", acv1beta1_StorageMountApplyConfiguration);
   ("StorageSource", acv1beta1_StorageSourceApplyConfiguration);
   ("TLSClientConfig", acv1beta1_TLSClientConfigApplyConfiguration);
   ("TransportConfig", acv1beta1_TransportConfigApplyConfiguration);
   ("WorkloadReference", acv1beta1_WorkloadReferenceApplyConfiguration)].
Definition acv1beta1_ForKind (group version kind : string) : C (option val) :=
  if String.eqb group ApiBeta.GroupVersion_Group && String.eqb version ApiBeta.GroupVersion_Version then
    match field kind acv1beta1_kinds with
    | Some ts => b ⇐ new ts ;; ret (Some b)
    | None => ret None
    end
  else ret None.

Definition acv1alpha1_kinds : list (string * list (string * ty)) :=
  [("ContainerImageSource", acv1alpha1_ContainerImageSourceApplyConfiguration);
   ("HealthConfig", acv1alpha1_HealthConfigApplyConfiguration);
   ("MCPConfig", acv1alpha1_MCPConfigApplyConfiguration);
   ("MCPGatewayBinding", acv1alpha1_MCPGatewayBindingApplyConfiguration);
   ("MCPGatewayBindingSpec", acv1alpha1_MCPGatewayBindingSpecApplyConfiguration);
   ("MCPGatewayBindingStatus", acv1alpha1_MCPGatewayBindingStatusApplyConfiguration);
   ("MCPServer", acv1alpha1_MCPServerApplyConfiguration);
   ("MCPServerAddress", acv1alpha1_MCPServerAddressApplyConfiguration);
   ("MCPServerCapabilities", acv1alpha1_MCPServerCapabilitiesApplyConfiguration);
   ("MCPServerInfo", acv1alpha1_MCPServerInfoApplyConfiguration);
   ("MCPServerSpec", acv1alpha1_MCPServerSpecApplyConfiguration);
   ("MCPServerStatus", acv1alpha1_MCPServerStatusApplyConfiguration);
   ("NetworkConfig", acv1alpha1_NetworkConfigApplyConfiguration);
   ("RuntimeConfig", acv1alpha1_RuntimeConfigApplyConfiguration);
   ("SecretReference", acv1alpha1_SecretReferenceApplyConfiguration);
   ("SecurityConfig", acv1alpha1_SecurityConfigApplyConfiguration);
   ("ServerConfig", acv1alpha1_ServerConfigApplyConfiguration); ("Source", acv1alpha1_SourceApplyConfiguration);
   ("StorageMount", acv1alpha1_StorageMountApplyConfiguration);
   ("StorageSource", acv1alpha1_StorageSourceApplyConfiguration);
   ("TLSClientConfig", acv1alpha1_TLSClientConfigApplyConfiguration);
   ("TransportConfig", acv1alpha1_TransportConfigApplyConfiguration)].
Definition acv1alpha1_ForKind (group version kind : string) : C (option val) :=
  if String.eqb group ApiAlpha.GroupVersion_Group && String.eqb version ApiAlpha.GroupVersion_Version then
    match field kind acv1alpha1_kinds with
    | Some ts => b ⇐ new ts ;; ret (Some b)
    | None => ret None
    end
  else ret None.

(** Every method that sets a field: its struct, the field it is named after, and its code. *)
Definition methods : list (string * string * (val -> val -> C val)) :=
  [("acv1beta1.ContainerImageSource", "Ref", acv1beta1_ContainerImageSource_WithRef);
   ("acv1beta1.ContainerImageSource", "PullPolicy", acv1beta1_ContainerImageSource_WithPullPolicy);
   ("acv1beta1.ContainerImageSource", "ImagePullSecrets", acv1beta1_ContainerImageSource_WithImagePullSecrets);
   ("acv1beta1.GatewayBindingStatus", "Name", acv1beta1_GatewayBindingStatus_WithName);
   ("acv1beta1.GatewayBindingStatus", "Provider", acv1beta1_GatewayBindingStatus_WithProvider);
   ("acv1beta1.GatewaySpec", "Provider", acv1beta1_GatewaySpec_WithProvider);
   ("acv1beta1.GatewaySpec", "ConfigRef", acv1beta1_GatewaySpec_WithConfigRef);
   ("acv1beta1.HealthConfig", "LivenessProbe", acv1beta1_HealthConfig_WithLivenessProbe);
   ("acv1beta1.HealthConfig", "ReadinessProbe", acv1beta1_HealthConfig_WithReadinessProbe);
   ("acv1beta1.MCPConfig", "Stateless", acv1beta1_MCPConfig_WithStateless);
   ("acv1beta1.MCPServer", "Kind", acv1beta1_MCPServer_WithKind);
   ("acv1beta1.MCPServer", "APIVersion", acv1beta1_MCPServer_WithAPIVersion);
   ("acv1beta1.MCPServer", "Name", acv1beta1_MCPServer_WithName);
   ("acv1beta1.MCPServer", "GenerateName", acv1beta1_MCPServer_WithGenerateName);
   ("acv1beta1.MCPServer", "Namespace", acv1beta1_MCPServer_WithNamespace);
   ("acv1beta1.MCPServer", "UID", acv1beta1_MCPServer_WithUID);
   ("acv1beta1.MCPServer", "ResourceVersion", acv1beta1_MCPServer_WithResourceVersion);
   ("acv1beta1.MCPServer", "Generation", acv1beta1_MCPServer_WithGeneration);
   ("acv1beta1.MCPServer", "CreationTimestamp", acv1beta1_MCPServer_WithCreationTimestamp);
   ("acv1beta1.MCPServer", "DeletionTimestamp", acv1beta1_MCPServer_WithDeletionTimestamp);
   ("acv1beta1.MCPServer", "DeletionGracePeriodSeconds", acv1beta1_MCPServer_WithDeletionGracePeriodSeconds);
   ("acv1beta1.MCPServer", "Labels", acv1beta1_MCPServer_WithLabels);
   ("acv1beta1.MCPServer", "Annotations", acv1beta1_MCPServer_WithAnnotations);
   ("acv1beta1.MCPServer", "OwnerReferences", acv1beta1_MCPServer_WithOwnerReferences);
   ("acv1beta1.MCPServer", "Finalizers", acv1beta1_MCPServer_WithFinalizers);
   ("acv1beta1.MCPServer", "Spec", acv1beta1_MCPServer_WithSpec);
   ("acv1beta1.MCPServer", "Status", acv1beta1_MCPServer_WithStatus);
   ("acv1beta1.MCPServerAddress", "URL", acv1beta1_MCPServerAddress_WithURL);
   ("acv1beta1.MCPServerCapabilities", "Tools", acv1beta1_MCPServerCapabilities_WithTools);
   ("acv1beta1.MCPServerCapabilities", "Resources", acv1beta1_MCPServerCapabilities_WithResources);
   ("acv1beta1.MCPServerCapabilities", "Prompts", acv1beta1_MCPServerCapabilities_WithPrompts);
   ("acv1beta1.MCPServerCapabilities", "Logging", acv1beta1_MCPServerCapabilities_WithLogging);
   ("acv1beta1.MCPServerCapabilities", "Completions", acv1beta1_MCPServerCapabilities_WithCompletions);
   ("acv1beta1.MCPServerInfo", "Name", acv1beta1_MCPServerInfo_WithName);
   ("acv1beta1.MCPServerInfo", "Version", acv1beta1_MCPServerInfo_WithVersion);
   ("acv1beta1.MCPServerInfo", "ProtocolVersion", acv1beta1_MCPServerInfo_WithProtocolVersion);
   ("acv1beta1.MCPServerInfo", "Instructions", acv1beta1_MCPServerInfo_WithInstructions);
   ("acv1beta1.MCPServerInfo", "Capabilities", acv1beta1_MCPServerInfo_WithCapabilities);
   ("acv1beta1.MCPServerSpec", "ExtraLabels", acv1beta1_MCPServerSpec_WithExtraLabels);
   ("acv1beta1.MCPServerSpec", "ExtraAnnotations", acv1beta1_MCPServerSpec_WithExtraAnnotations);
   ("acv1beta1.MCPServerSpec", "WorkloadRef", acv1beta1_MCPServerSpec_WithWorkloadRef);
   ("acv1beta1.MCPServerSpec", "ServiceRef", acv1beta1_MCPServerSpec_WithServiceRef);
   ("acv1beta1.MCPServerSpec", "Source", acv1beta1_MCPServerSpec_WithSource);
   ("acv1beta1.MCPServerSpec", "Config", acv1beta1_MCPServerSpec_WithConfig);
   ("acv1beta1.MCPServerSpec", "Runtime", acv1beta1_MCPServerSpec_WithRuntime);
   ("acv1beta1.MCPServerSpec", "MCP", acv1beta1_MCPServerSpec_WithMCP);
   ("acv1beta1.MCPServerSpec", "Network", acv1beta1_MCPServerSpec_WithNetwork);
   ("acv1beta1.MCPServerSpec", "Transport", acv1beta1_MCPServerSpec_WithTransport);
   ("acv1beta1.MCPServerSpec", "Gateway", acv1beta1_MCPServerSpec_WithGateway);
   ("acv1beta1.MCPServerStatus", "ObservedGeneration", acv1beta1_MCPServerStatus_WithObservedGeneration);
   ("acv1beta1.MCPServerStatus", "DeploymentName", acv1beta1_MCPServerStatus_WithDeploymentName);
   ("acv1beta1.MCPServerStatus", "ServiceName", acv1beta1_MCPServerStatus_WithServiceName);
   ("acv1beta1.MCPServerStatus", "WorkloadName", acv1beta1_MCPServerStatus_WithWorkloadName);
   ("acv1beta1.MCPServerStatus", "WorkloadSummary", acv1beta1_MCPServerStatus_WithWorkloadSummary);
   ("acv1beta1.MCPServerStatus", "GatewayBinding", acv1beta1_MCPServerStatus_WithGatewayBinding);
   ("acv1beta1.MCPServerStatus", "Address", acv1beta1_MCPServerStatus_WithAddress);
   ("acv1beta1.MCPServerStatus", "ServerInfo", acv1beta1_MCPServerStatus_WithServerInfo);
   ("acv1beta1.MCPServerStatus", "Replicas", acv1beta1_MCPServerStatus_WithReplicas);
   ("acv1beta1.MCPServerStatus", "ReadyReplicas", acv1beta1_MCPServerStatus_WithReadyReplicas);
   ("acv1beta1.MCPServerStatus", "Conditions", acv1beta1_MCPServerStatus_WithConditions);
   ("acv1beta1.NetworkConfig", "IngressFrom", acv1beta1_NetworkConfig_WithIngressFrom);
   ("acv1beta1.NetworkConfig", "EgressTo", acv1beta1_NetworkConfig_WithEgressTo);
   ("acv1beta1.NetworkConfig", "EgressPorts", acv1beta1_NetworkConfig_WithEgressPorts);
   ("acv1beta1.NetworkConfig", "DNSEgressPeer", acv1beta1_NetworkConfig_WithDNSEgressPeer);
   ("acv1beta1.RuntimeConfig", "Replicas", acv1beta1_RuntimeConfig_WithReplicas);
   ("acv1beta1.RuntimeConfig", "Security", acv1beta1_RuntimeConfig_WithSecurity);
   ("acv1beta1.RuntimeConfig", "Resources", acv1beta1_RuntimeConfig_WithResources);
   ("acv1beta1.RuntimeConfig", "Health", acv1beta1_RuntimeConfig_WithHealth);
   ("acv1beta1.SecretReference", "Name", acv1beta1_SecretReference_WithName);
   ("acv1beta1.SecurityConfig", "ServiceAccountName", acv1beta1_SecurityConfig_WithServiceAccountName);
   ("acv1beta1.SecurityConfig", "PodSecurityContext", acv1beta1_SecurityConfig_WithPodSecurityContext);
   ("acv1beta1.SecurityConfig", "SecurityContext", acv1beta1_SecurityConfig_WithSecurityContext);
   ("acv1beta1.ServerConfig", "Port", acv1beta1_ServerConfig_WithPort);
   ("acv1beta1.ServerConfig", "Arguments", acv1beta1_ServerConfig_WithArguments);
   ("acv1beta1.ServerConfig", "Env", acv1beta1_ServerConfig_WithEnv);
   ("acv1beta1.ServerConfig", "EnvFrom", acv1beta1_ServerConfig_WithEnvFrom);
   ("acv1beta1.ServerConfig", "Storage", acv1beta1_ServerConfig_WithStorage);
   ("acv1beta1.ServerConfig", "Path", acv1beta1_ServerConfig_WithPath);
   ("acv1beta1.ServiceReference", "Name", acv1beta1_ServiceReference_WithName);
   ("acv1beta1.Source", "Type", acv1beta1_Source_WithType);
   ("acv1beta1.Source", "ContainerImage", acv1beta1_Source_WithContainerImage);
   ("acv1beta1.StorageMount", "Path", acv1beta1_StorageMount_WithPath);
   ("acv1beta1.StorageMount", "Permissions", acv1beta1_StorageMount_WithPermissions);
   ("acv1beta1.StorageMount", "Source", acv1beta1_StorageMount_WithSource);
   ("acv1beta1.StorageSource", "Type", acv1beta1_StorageSource_WithType);
   ("acv1beta1.StorageSource", "ConfigMap", acv1beta1_StorageSource_WithConfigMap);
   ("acv1beta1.StorageSource", "Secret", acv1beta1_StorageSource_WithSecret);
   ("acv1beta1.StorageSource", "EmptyDir", acv1beta1_StorageSource_WithEmptyDir);
   ("acv1beta1.TLSClientConfig", "Enabled", acv1beta1_TLSClientConfig_WithEnabled);
   ("acv1beta1.TLSClientConfig", "CABundleSecret", acv1beta1_TLSClientConfig_WithCABundleSecret);
   ("acv1beta1.TLSClientConfig", "InsecureSkipVerify", acv1beta1_TLSClientConfig_WithInsecureSkipVerify);
   ("acv1beta1.TransportConfig", "TLS", acv1beta1_TransportConfig_WithTLS);
   ("acv1beta1.WorkloadReference", "Name", acv1beta1_WorkloadReference_WithName);
   ("acv1beta1.WorkloadReference", "Kind", acv1beta1_WorkloadReference_WithKind);
   ("acv1alpha1.ContainerImageSource", "Ref", acv1alpha1_ContainerImageSource_WithRef);
   ("acv1alpha1.ContainerImageSource", "PullPolicy", acv1alpha1_ContainerImageSource_WithPullPolicy);
   ("acv1alpha1.ContainerImageSource", "ImagePullSecrets", acv1alpha1_ContainerImageSource_WithImagePullSecrets);
   ("acv1alpha1.HealthConfig", "LivenessProbe", acv1alpha1_HealthConfig_WithLivenessProbe);
   ("acv1alpha1.HealthConfig", "ReadinessProbe", acv1alpha1_HealthConfig_WithReadinessProbe);
   ("acv1alpha1.MCPConfig", "Stateless", acv1alpha1_MCPConfig_WithStateless);
   ("acv1alpha1.MCPGatewayBinding", "Kind", acv1alpha1_MCPGatewayBinding_WithKind);
   ("acv1alpha1.MCPGatewayBinding", "APIVersion", acv1alpha1_MCPGatewayBinding_WithAPIVersion);
   ("acv1alpha1.MCPGatewayBinding", "Name", acv1alpha1_MCPGatewayBinding_WithName);
   ("acv1alpha1.MCPGatewayBinding", "GenerateName", acv1alpha1_MCPGatewayBinding_WithGenerateName);
   ("acv1alpha1.MCPGatewayBinding", "Namespace", acv1alpha1_MCPGatewayBinding_WithNamespace);
   ("acv1alpha1.MCPGatewayBinding", "UID", acv1alpha1_MCPGatewayBinding_WithUID);
   ("acv1alpha1.MCPGatewayBinding", "ResourceVersion", acv1alpha1_MCPGatewayBinding_WithResourceVersion);
   ("acv1alpha1.MCPGatewayBinding", "Generation", acv1alpha1_MCPGatewayBinding_WithGeneration);
   ("acv1alpha1.MCPGatewayBinding", "CreationTimestamp", acv1alpha1_MCPGatewayBinding_WithCreationTimestamp);
   ("acv1alpha1.MCPGatewayBinding", "DeletionTimestamp", acv1alpha1_MCPGatewayBinding_WithDeletionTimestamp);
   ("acv1alpha1.MCPGatewayBinding", "DeletionGracePeriodSeconds", acv1alpha1_MCPGatewayBinding_WithDeletionGracePeriodSeconds);
   ("acv1alpha1.MCPGatewayBinding", "Labels", acv1alpha1_MCPGatewayBinding_WithLabels);
   ("acv1alpha1.MCPGatewayBinding", "Annotations", acv1alpha1_MCPGatewayBinding_WithAnnotations);
   ("acv1alpha1.MCPGatewayBinding", "OwnerReferences", acv1alpha1_MCPGatewayBinding_WithOwnerReferences);
   ("acv1alpha1.MCPGatewayBinding", "Finalizers", acv1alpha1_MCPGatewayBinding_WithFinalizers);
   ("acv1alpha1.MCPGatewayBinding", "Spec", acv1alpha1_MCPGatewayBinding_WithSpec);
   ("acv1alpha1.MCPGatewayBinding", "Status", acv1alpha1_MCPGatewayBinding_WithStatus);
   ("acv1alpha1.MCPGatewayBindingSpec", "MCPServerRef", acv1alpha1_MCPGatewayBindingSpec_WithMCPServerRef);
   ("acv1alpha1.MCPGatewayBindingSpec", "Provider", acv1alpha1_MCPGatewayBindingSpec_WithProvider);
   ("acv1alpha1.MCPGatewayBindingSpec", "ConfigRef", acv1alpha1_MCPGatewayBindingSpec_WithConfigRef);
   ("acv1alpha1.MCPGatewayBindingStatus", "URL", acv1alpha1_MCPGatewayBindingStatus_WithURL);
   ("acv1alpha1.MCPGatewayBindingStatus", "Conditions", acv1alpha1_MCPGatewayBindingStatus_WithConditions);
   ("acv1alpha1.MCPServer", "Kind", acv1alpha1_MCPServer_WithKind);
   ("acv1alpha1.MCPServer", "APIVersion", acv1alpha1_MCPServer_WithAPIVersion);
   ("acv1alpha1.MCPServer", "Name", acv1alpha1_MCPServer_WithName);
   ("acv1alpha1.MCPServer", "GenerateName", acv1alpha1_MCPServer_WithGenerateName);
   ("acv1alpha1.MCPServer", "Namespace", acv1alpha1_MCPServer_WithNamespace);
   ("acv1alpha1.MCPServer", "UID", acv1alpha1_MCPServer_WithUID);
   ("acv1alpha1.MCPServer", "ResourceVersion", acv1alpha1_MCPServer_WithResourceVersion);
   ("acv1alpha1.MCPServer", "Generation", acv1alpha1_MCPServer_WithGeneration);
   ("acv1alpha1.MCPServer", "CreationTimestamp", acv1alpha1_MCPServer_WithCreationTimestamp);
   ("acv1alpha1.MCPServer", "DeletionTimestamp", acv1alpha1_MCPServer_WithDeletionTimestamp);
   ("acv1alpha1.MCPServer", "DeletionGracePeriodSeconds", acv1alpha1_MCPServer_WithDeletionGracePeriodSeconds);
   ("acv1alpha1.MCPServer", "Labels", acv1alpha1_MCPServer_WithLabels);
   ("acv1alpha1.MCPServer", "Annotations", acv1alpha1_MCPServer_WithAnnotations);
   ("acv1alpha1.MCPServer", "OwnerReferences", acv1alpha1_MCPServer_WithOwnerReferences);
   ("acv1alpha1.MCPServer", "Finalizers", acv1alpha1_MCPServer_WithFinalizers);
   ("acv1alpha1.MCPServer", "Spec", acv1alpha1_MCPServer_WithSpec);
   ("acv1alpha1.MCPServer", "Status", acv1alpha1_MCPServer_WithStatus);
   ("acv1alpha1.MCPServerAddress", "URL", acv1alpha1_MCPServerAddress_WithURL);
   ("acv1alpha1.MCPServerCapabilities", "Tools", acv1alpha1_MCPServerCapabilities_WithTools);
   ("acv1alpha1.MCPServerCapabilities", "Resources", acv1alpha1_MCPServerCapabilities_WithResources);
   ("acv1alpha1.MCPServerCapabilities", "Prompts", acv1alpha1_MCPServerCapabilities_WithPrompts);
   ("acv1alpha1.MCPServerCapabilities", "Logging", acv1alpha1_MCPServerCapabilities_WithLogging);
   ("acv1alpha1.MCPServerCapabilities", "Completions", acv1alpha1_MCPServerCapabilities_WithCompletions);
   ("acv1alpha1.MCPServerInfo", "Name", acv1alpha1_MCPServerInfo_WithName);
   ("acv1alpha1.MCPServerInfo", "Version", acv1alpha1_MCPServerInfo_WithVersion);
   ("acv1alpha1.MCPServerInfo", "ProtocolVersion", acv1alpha1_MCPServerInfo_WithProtocolVersion);
   ("acv1alpha1.MCPServerInfo", "Instructions", acv1alpha1_MCPServerInfo_WithInstructions);
   ("acv1alpha1.MCPServerInfo", "Capabilities", acv1alpha1_MCPServerInfo_WithCapabilities);
   ("acv1alpha1.MCPServerSpec", "ExtraLabels", acv1alpha1_MCPServerSpec_WithExtraLabels);
   ("acv1alpha1.MCPServerSpec", "ExtraAnnotations", acv1alpha1_MCPServerSpec_WithExtraAnnotations);
   ("acv1alpha1.MCPServerSpec", "Source", acv1alpha1_MCPServerSpec_WithSource);
   ("acv1alpha1.MCPServerSpec", "Config", acv1alpha1_MCPServerSpec_WithConfig);
   ("acv1alpha1.MCPServerSpec", "Runtime", acv1alpha1_MCPServerSpec_WithRuntime);
   ("acv1alpha1.MCPServerSpec", "MCP", acv1alpha1_MCPServerSpec_WithMCP);
   ("acv1alpha1.MCPServerSpec", "Network", acv1alpha1_MCPServerSpec_WithNetwork);
   ("acv1alpha1.MCPServerSpec", "Transport", acv1alpha1_MCPServerSpec_WithTransport);
   ("acv1alpha1.MCPServerStatus", "ObservedGeneration", acv1alpha1_MCPServerStatus_WithObservedGeneration);
   ("acv1alpha1.MCPServerStatus", "DeploymentName", acv1alpha1_MCPServerStatus_WithDeploymentName);
   ("acv1alpha1.MCPServerStatus", "ServiceName", acv1alpha1_MCPServerStatus_WithServiceName);
   ("acv1alpha1.MCPServerStatus", "Address", acv1alpha1_MCPServerStatus_WithAddress);
   ("acv1alpha1.MCPServerStatus", "ServerInfo", acv1alpha1_MCPServerStatus_WithServerInfo);
   ("acv1alpha1.MCPServerStatus", "HandshakeRetryCount", acv1alpha1_MCPServerStatus_WithHandshakeRetryCount);
   ("acv1alpha1.MCPServerStatus", "Replicas", acv1alpha1_MCPServerStatus_WithReplicas);
   ("acv1alpha1.MCPServerStatus", "ReadyReplicas", acv1alpha1_MCPServerStatus_WithReadyReplicas);
   ("acv1alpha1.MCPServerStatus", "Conditions", acv1alpha1_MCPServerStatus_WithConditions);
   ("acv1alpha1.NetworkConfig", "IngressFrom", acv1alpha1_NetworkConfig_WithIngressFrom);
   ("acv1alpha1.NetworkConfig", "EgressTo", acv1alpha1_NetworkConfig_WithEgressTo);
   ("acv1alpha1.NetworkConfig", "EgressPorts", acv1alpha1_NetworkConfig_WithEgressPorts);
   ("acv1alpha1.NetworkConfig", "DNSEgressPeer", acv1alpha1_NetworkConfig_WithDNSEgressPeer);
   ("acv1alpha1.RuntimeConfig", "Replicas", acv1alpha1_RuntimeConfig_WithReplicas);
   ("acv1alpha1.RuntimeConfig", "Security", acv1alpha1_RuntimeConfig_WithSecurity);
   ("acv1alpha1.RuntimeConfig", "Resources", acv1alpha1_RuntimeConfig_WithResources);
   ("acv1alpha1.RuntimeConfig", "Health", acv1alpha1_RuntimeConfig_WithHealth);
   ("acv1alpha1.SecretReference", "Name", acv1alpha1_SecretReference_WithName);
   ("acv1alpha1.SecurityConfig", "ServiceAccountName", acv1alpha1_SecurityConfig_WithServiceAccountName);
   ("acv1alpha1.SecurityConfig", "PodSecurityContext", acv1alpha1_SecurityConfig_WithPodSecurityContext);
   ("acv1alpha1.SecurityConfig", "SecurityContext", acv1alpha1_SecurityConfig_WithSecurityContext);
   ("acv1alpha1.ServerConfig", "Port", acv1alpha1_ServerConfig_WithPort);
   ("acv1alpha1.ServerConfig", "Arguments", acv1alpha1_ServerConfig_WithArguments);
   ("acv1alpha1.ServerConfig", "Env", acv1alpha1_ServerConfig_WithEnv);
   ("acv1alpha1.ServerConfig", "EnvFrom", acv1alpha1_ServerConfig_WithEnvFrom);
   ("acv1alpha1.ServerConfig", "Storage", acv1alpha1_ServerConfig_WithStorage);
   ("acv1alpha1.ServerConfig", "Path", acv1alpha1_ServerConfig_WithPath);
   ("acv1alpha1.Source", "Type", acv1alpha1_Source_WithType);
   ("acv1alpha1.Source", "ContainerImage", acv1alpha1_Source_WithContainerImage);
   ("acv1alpha1.StorageMount", "Path", acv1alpha1_StorageMount_WithPath);
   ("acv1alpha1.StorageMount", "Permissions", acv1alpha1_StorageMount_WithPermissions);
   ("acv1alpha1.StorageMount", "Source", acv1alpha1_StorageMount_WithSource);
   ("acv1alpha1.StorageSource", "Type", acv1alpha1_StorageSource_WithType);
   ("acv1alpha1.StorageSource", "ConfigMap", acv1alpha1_StorageSource_WithConfigMap);
   ("acv1alpha1.StorageSource", "Secret", acv1alpha1_StorageSource_WithSecret);
   ("acv1alpha1.StorageSource", "EmptyDir", acv1alpha1_StorageSource_WithEmptyDir);
   ("acv1alpha1.TLSClientConfig", "Enabled", acv1alpha1_TLSClientConfig_WithEnabled);
   ("acv1alpha1.TLSClientConfig", "CABundleSecret", acv1alpha1_TLSClientConfig_WithCABundleSecret);
   ("acv1alpha1.TLSClientConfig", "InsecureSkipVerify", acv1alpha1_TLSClientConfig_WithInsecureSkipVerify);
   ("acv1alpha1.TransportConfig", "TLS", acv1alpha1_TransportConfig_WithTLS)].

(** ** What the methods are to do *)

(** The types that [With] methods take by pointer. *)
Definition isConfiguration (t : ty) : bool :=
  match t with
  | TStruct n => String.prefix "acv1" n || String.prefix "metav1ac." n
  | _ => false
  end.

(** A field that points to a configuration is given the pointer, any other pointer field the
    address of the value; slices of configurations are built of what pointers point to. *)
Definition changeFor (F : string) (t : ty) : option change :=
  match t with
  | TPtr t' => Some (if isConfiguration t' then Pointer F else Address F)
  | TSlice t' => Some (if isConfiguration t' then Pointers F else Values F)
  | TMap => Some (Entries F)
  | _ => None
  end.

(** What the method for the field [F] of [T], or of its metadata, is to do. *)
Definition calledFor (T F : string) : option setter :=
  ts ← acFieldsOf T;
  match field F ts with
  | Some t => if String.eqb F metaField then None else Own <$> changeFor F t
  | None =>
      match field metaField ts with
      | Some _ => t ← field F metav1ac_ObjectMeta_fields; Meta <$> changeFor F t
      | None => None
      end
  end.

(** The type of its argument. *)
Definition takes (T F : string) : option ty := ts ← acFieldsOf T; s ← calledFor T F; parameter s ts.

(** [b.WithF(x).WithG(y)…], by the table. *)
Definition methodFor (T F : string) : option (val -> val -> C val) :=
  snd <$> List.find (fun m => String.eqb m.1.1 T && String.eqb m.1.2 F) methods.

Fixpoint callAll (T : string) (calls : list (string * val)) (b : val) : C val :=
  match calls with
  | [] => ret b
  | (F, a) :: calls' =>
      match methodFor T F with
      | Some code => b' ⇐ code a b ;; callAll T calls' b'
      | None => stuck
      end
  end.

(** What the calls are to make of the fields. *)
Fixpoint expected (T : string) (calls : list (string * deep)) (ds : list (string * deep)) : option (list (string * deep)) :=
  match calls with
  | [] => Some ds
  | (F, d) :: calls' => s ← calledFor T F; ds' ← after s d ds; expected T calls' ds'
  end.

(** The argument [a] of a call stands for [d], and is of the type the method takes. *)
Definition fits (T : string) (h : heap) (c : string * val) (e : string * deep) : Prop :=
  c.1 = e.1 /\ exists t, takes T c.1 = Some t /\ suits acFieldsOf [] h t c.2 e.2.

(** ** Each method does it *)

Lemma performs_own code T F c t ts t' : acFieldsOf T = Some ts -> field F ts = Some t -> String.eqb F metaField = false ->
  changeFor F t = Some c -> parameter (Own c) ts = Some t' -> performs acFieldsOf code T c ->
  exists s, calledFor T F = Some s /\ is_Some (takes T F) /\ implements acFieldsOf code T s.
Proof.
  intros HT Ht HF Hc Ht' Hp. exists (Own c). assert (E : calledFor T F = Some (Own c)) by (unfold calledFor; rewrite HT; cbn; by rewrite Ht, HF, Hc).
  split; [done|]. split; [|by apply own_implements]. unfold takes. rewrite HT, E. eauto.
Qed.

Lemma performs_meta code T F c t ts t' tm : acFieldsOf T = Some ts -> field F ts = None -> field metaField ts = Some tm ->
  field F metav1ac_ObjectMeta_fields = Some t -> changeFor F t = Some c -> parameter (Meta c) ts = Some t' ->
  performs acFieldsOf code "metav1ac.ObjectMeta" c ->
  exists s, calledFor T F = Some s /\ is_Some (takes T F) /\ implements acFieldsOf (fun a => onMeta (code a)) T s.
Proof.
  intros HT Ht Hm Hf Hc Ht' Hp. exists (Meta c).
  assert (E : calledFor T F = Some (Meta c)).
  { unfold calledFor. rewrite HT. cbn. rewrite Ht, Hm. cbn in Hf |- *. rewrite Hf. cbn. by rewrite Hc. }
  split; [done|]. split; [|by apply meta_implements]. unfold takes. rewrite HT, E. eauto.
Qed.

Ltac performs :=
  first [apply performs_setAddress | apply performs_setPointer | apply performs_appendValues | apply performs_appendPointers | apply performs_putEntries].

Ltac method :=
  first [eapply performs_own; [reflexivity|reflexivity|reflexivity|reflexivity|reflexivity|performs]
        |eapply performs_meta; [reflexivity|reflexivity|reflexivity|reflexivity|reflexivity|reflexivity|performs]].

Lemma methods_implement :
  Forall (fun m => exists s, calledFor m.1.1 m.1.2 = Some s /\ is_Some (takes m.1.1 m.1.2) /\ implements acFieldsOf m.2 m.1.1 s) methods.
Proof. unfold methods. repeat (constructor; [cbn [fst snd]; method|]). constructor. Qed.

Lemma methodFor_implements T F code : methodFor T F = Some code ->
  exists s, calledFor T F = Some s /\ is_Some (takes T F) /\ implements acFieldsOf code T s.
Proof.
  intros Hm. unfold methodFor in Hm. destruct (List.find _ methods) as [[[T' F'] code']|] eqn:E; [|done]. injection Hm as <-.
  apply List.find_some in E as [Hin E]. cbn in E. apply andb_true_iff in E as [->%String.eqb_eq ->%String.eqb_eq].
  pose proof methods_implement as Hall. rewrite List.Forall_forall in Hall. by apply (Hall _ Hin).
Qed.

(** Every field has its method. *)
Definition fieldNames (T : string) (ts : list (string * ty)) : list string :=
  let own := List.filter (fun F => negb (String.eqb F metaField)) (map fst ts) in
  match field metaField ts with
  | Some _ => own ++ map fst metav1ac_ObjectMeta_fields
  | None => own
  end.

Definition hasMethods (x : string * list (string * ty)) : bool :=
  forallb (fun F => match methodFor x.1 F with Some _ => true | None => false end) (fieldNames x.1 x.2).

Lemma all_have_methods : forallb hasMethods structs = true.
Proof. vm_compute. reflexivity. Qed.

Lemma calledFor_struct T F s : calledFor T F = Some s -> exists ts, acFieldsOf T = Some ts.
Proof. unfold calledFor. destruct (acFieldsOf T); [eauto|done]. Qed.

Lemma field_name_In {A} n (fs : list (string * A)) a : field n fs = Some a -> In n (map fst fs).
Proof. induction fs as [|[m b] fs IH]; cbn; [done|]. destruct (String.eqb_spec m n) as [->|]; [by left|right; by apply IH]. Qed.

Lemma field_entry {A} n (fs : list (string * A)) a : field n fs = Some a -> In (n, a) fs.
Proof. induction fs as [|[m b] fs IH]; cbn; [done|]. destruct (String.eqb_spec m n) as [->|]; [intros [= ->]; by left|right; by apply IH]. Qed.

Lemma struct_fields T ts : field T structs = Some ts -> acFieldsOf T = Some ts.
Proof.
  intros HT. unfold acFieldsOf. destruct (String.eqb_spec T "metav1ac.ObjectMeta") as [->|]; [vm_compute in HT; discriminate HT|]. by rewrite HT.
Qed.

Lemma takes_has_method T ts F : field T structs = Some ts -> is_Some (takes T F) -> is_Some (methodFor T F).
Proof.
  intros HT [t Ht]. pose proof all_have_methods as Hall. rewrite forallb_forall in Hall. specialize (Hall _ (field_entry _ _ _ HT)).
  unfold hasMethods in Hall. cbn [fst snd] in Hall. rewrite forallb_forall in Hall.
  assert (Hin : In F (fieldNames T ts)).
  { unfold takes, calledFor in Ht. rewrite (struct_fields _ _ HT) in Ht. cbn in Ht. unfold fieldNames. destruct (field F ts) as [u|] eqn:EF.
    - destruct (String.eqb F metaField) eqn:Em; [done|].
      assert (Hown : In F (List.filter (fun G => negb (String.eqb G metaField)) (map fst ts))) by (apply filter_In; split; [by eapply field_name_In|by rewrite Em]).
      destruct (field metaField ts); [apply in_or_app; by left|done].
    - destruct (field metaField ts); [|done]. apply in_or_app. right.
      destruct (field F metav1ac_ObjectMeta_fields) eqn:Ef; [by eapply field_name_In|]. cbn in Ef, Ht. by rewrite Ef in Ht. }
  specialize (Hall F Hin). destruct (methodFor T F); [eauto|done].
Qed.

(** ** Chains of calls *)

Lemma callAll_chain T ts calls : forall h args, field T structs = Some ts -> Forall2 (fits T h) calls args ->
  exists cs, Forall2 (proper acFieldsOf T ts [] h) cs (map snd args) /\ (forall b h', callAll T calls b h' = chain cs b h') /\
    forall ds, expected T args ds = afterAll cs (map snd args) ds.
Proof.
  induction calls as [|[F a] calls IH]; intros h args HT Hall; inversion Hall as [|? [G d] ? args' Hc Hrest]; subst.
  { exists []. split; [constructor|]. by split. }
  destruct Hc as [HG (t & Ht & Hs)]. cbn in HG. subst G. destruct (IH h args' HT Hrest) as (cs & Hcs & Hrun & Hexp).
  destruct (takes_has_method T ts F HT) as [code Hcode]; [by exists t|]. destruct (methodFor_implements T F code Hcode) as (s & Es & _ & Himp).
  exists ({| c_code := code; c_setter := s; c_argument := a |} :: cs). cbn [map snd]. split; [|split].
  - constructor; [|done]. split; [done|]. exists t. split; [|done]. cbn in Ht |- *. unfold takes in Ht. rewrite (struct_fields _ _ HT), Es in Ht. exact Ht.
  - intros b h'. cbn [callAll chain c_code c_argument]. rewrite Hcode. unfold bind. destruct (code a b h') as [[b' h'']|]; [apply Hrun|done].
  - intros ds. cbn [expected afterAll c_setter]. rewrite Es. cbn. destruct (after s d ds); cbn; [apply Hexp|done].
Qed.

(** Structs are fit for [new]. *)
Definition wellFormed (x : string * list (string * ty)) : bool := configurable x.2 && bool_decide (NoDup (map fst x.2)).

Lemma all_well_formed : forallb wellFormed structs = true.
Proof. vm_compute. reflexivity. Qed.

Lemma struct_well_formed T ts : field T structs = Some ts -> configurable ts = true /\ NoDup (map fst ts).
Proof.
  intros HT. pose proof all_well_formed as Hall. rewrite forallb_forall in Hall. specialize (Hall _ (field_entry _ _ _ HT)).
  apply andb_true_iff in Hall as [Hc Hn]. split; [done|]. by apply bool_decide_eq_true in Hn.
Qed.

Lemma config_owns h l ds O : config h l ds O -> l ∈ O.
Proof. intros [fs _ _|fs _ _ _|fs m mfs mds _ _ _ _]; rewrite ?elem_of_app; [left|left|left; left]. Qed.

(** What making a configuration comes to: a new pointer that stands for [ds]; nothing that was
    there before has changed. *)
Definition returns (T : string) (h : heap) (run : option (val * heap)) (ds : list (string * deep)) : Prop :=
  exists l h', run = Some (VPtr (Some l), h') /\ h !! l = None /\ h ⊆ h' /\
    reads (fun _ => True) h' (VPtr (Some l)) (DPtr (DStruct ds)) /\ hasType acFieldsOf (TStruct T) (DStruct ds).

Lemma makes_returns T ts h run ds : field T structs = Some ts -> makes acFieldsOf T h run ds -> returns T h run ds.
Proof.
  intros HT (l & O & h' & Hr & Ho & [K N] & Ht). exists l, h'. split; [done|]. split.
  - destruct (N l (config_owns _ _ _ _ Ho)) as [Hin|]; [by apply elem_of_nil in Hin|done].
  - split; [|split; [|done]].
    + apply map_subseteq_spec. intros c x Hx. rewrite K; [done|eauto|by intros ?%elem_of_nil].
    + apply (config_reads acFieldsOf T ts h' l ds O); [by apply struct_fields|apply (struct_well_formed T ts HT)|done..].
Qed.

(** Calls of any methods, in any order and any number, build what they are called for; a nil
    where a configuration is expected panics. *)
Lemma built_by_calls T ts calls args h : field T structs = Some ts -> Forall2 (fits T h) calls args ->
  match expected T args (zerosDeep ts) with
  | Some ds => returns T h ((b ⇐ new ts ;; callAll T calls b) h) ds
  | None => (b ⇐ new ts ;; callAll T calls b) h = None
  end.
Proof.
  intros HT Hall. destruct (callAll_chain T ts calls h args HT Hall) as (cs & Hcs & Hrun & ->).
  assert (E : (b ⇐ new ts ;; callAll T calls b) h = construct ts cs h).
  { unfold construct, bind. destruct (new ts h) as [[b h']|]; [apply Hrun|done]. }
  rewrite E. destruct (struct_well_formed T ts HT) as [Hc _].
  pose proof (construct_makes acFieldsOf T ts cs (map snd args) h (struct_fields _ _ HT) Hc Hcs) as Hm.
  destruct (afterAll cs (map snd args) (zerosDeep ts)); [by eapply makes_returns|done].
Qed.

(** ** The order of calls *)

Lemma changeFor_target F t c : changeFor F t = Some c -> target c = F.
Proof. destruct t; cbn; try done; [destruct (isConfiguration _)|destruct (isConfiguration _)|]; by intros [= <-]. Qed.

Lemma calledFor_target T F s : calledFor T F = Some s ->
  target (changeOf s) = F /\ (forall c, s = Own c -> F <> metaField) /\
  (forall c, s = Meta c -> exists ts, acFieldsOf T = Some ts /\ is_Some (field metaField ts)).
Proof.
  unfold calledFor. destruct (acFieldsOf T) as [ts|]; cbn [mbind option_bind]; [|done]. destruct (field F ts) as [t|].
  - destruct (String.eqb_spec F metaField) as [->|Hne]; [done|]. destruct (changeFor F t) as [c|] eqn:E; [|done]. intros [= <-].
    split; [by eapply changeFor_target|]. by split.
  - destruct (field metaField ts) as [tm|] eqn:Em; [|done].
    destruct (field F metav1ac_ObjectMeta_fields) as [t|]; cbn [mbind option_bind]; [|done].
    destruct (changeFor F t) as [c|] eqn:E; [|done]. intros [= <-]. split; [by eapply changeFor_target|]. split; [done|]. intros _ _. exists ts. by rewrite Em.
Qed.

Lemma named_differ T F G s1 s2 : calledFor T F = Some s1 -> calledFor T G = Some s2 -> F <> G -> differ s1 s2.
Proof.
  intros [E1 [O1 _]]%calledFor_target [E2 [O2 _]]%calledFor_target Hne.
  destruct s1 as [c1|c1], s2 as [c2|c2]; cbn in *; subst; [done|by eapply O1|by eapply O2|done].
Qed.

Lemma field_named {A B} n (fs : list (string * A)) (gs : list (string * B)) : map fst fs = map fst gs -> is_Some (field n fs) -> is_Some (field n gs).
Proof.
  revert gs. induction fs as [|[m a] fs IH]; intros [|[k b] gs]; cbn; try done. intros [= -> Hn]. destruct (String.eqb k n); [eauto|by apply IH].
Qed.

(** Calls for different fields may change places. *)
Lemma expected_swap T ts F G a b rest ds : acFieldsOf T = Some ts -> map fst ds = map fst ts -> F <> G ->
  expected T ((F, a) :: (G, b) :: rest) ds = expected T ((G, b) :: (F, a) :: rest) ds.
Proof.
  intros HT Hn Hne. cbn [expected]. destruct (calledFor T F) as [s1|] eqn:E1, (calledFor T G) as [s2|] eqn:E2; cbn [mbind option_bind]; try done.
  2: by destruct (after s1 a ds). 2: by destruct (after s2 b ds).
  pose proof (setters_swap s1 s2 a b ds (named_differ _ _ _ _ _ E1 E2 Hne)) as Hs.
  assert (Hm : forall c, s1 = Meta c -> is_Some (field metaField ds)).
  { intros c Hc. destruct (calledFor_target _ _ _ E1) as (_ & _ & Hm). destruct (Hm c Hc) as (ts' & HT' & Hf). rewrite HT in HT'. injection HT' as <-.
    by eapply field_named. }
  specialize (Hs Hm). destruct (after s1 a ds) as [d1|], (after s2 b ds) as [d2|]; cbn in Hs |- *; [by rewrite Hs| | |done].
  - by rewrite Hs.
  - by rewrite <- Hs.
Qed.

(** The calls for one field, in their order. *)
Definition callsFor {A} (F : string) (calls : list (string * A)) : list (string * A) := List.filter (fun c => String.eqb c.1 F) calls.

Lemma expected_front T ts F a pre post : acFieldsOf T = Some ts -> callsFor F pre = [] -> forall ds, map fst ds = map fst ts ->
  expected T (pre ++ (F, a) :: post) ds = expected T ((F, a) :: pre ++ post) ds.
Proof.
  intros HT. induction pre as [|[G b] pre IH]; intros Hpre ds Hn; [done|]. cbn in Hpre. destruct (String.eqb_spec G F) as [|Hne]; [done|].
  cbn [app]. rewrite (expected_swap T ts F G) by (done || congruence).
  change (expected T ((G, b) :: ?c) ds) with (s ← calledFor T G; ds' ← after s b ds; expected T c ds').
  destruct (calledFor T G) as [s|]; cbn [mbind option_bind]; [|done]. destruct (after s b ds) as [ds'|] eqn:E; cbn [mbind option_bind]; [|done].
  apply IH; [done|]. by rewrite (after_names _ _ _ _ E).
Qed.

Lemma callsFor_first {A} F (a : A) rest calls : callsFor F calls = (F, a) :: rest ->
  exists pre post, calls = pre ++ (F, a) :: post /\ callsFor F pre = [] /\ callsFor F post = rest.
Proof.
  induction calls as [|[G b] calls IH]; cbn; [done|]. destruct (String.eqb_spec G F) as [->|Hne].
  - intros [= -> Hr]. exists [], calls. done.
  - intros Hr. destruct (IH Hr) as (pre & post & -> & Hp & Hq). exists ((G, b) :: pre), post. split; [done|]. split; [|done].
    cbn. by destruct (String.eqb_spec G F).
Qed.

Lemma callsFor_cons {A} F G (a : A) k : callsFor F ((G, a) :: k) = if String.eqb G F then (G, a) :: callsFor F k else callsFor F k.
Proof. done. Qed.

Lemma callsFor_app {A} F (k l : list (string * A)) : callsFor F (k ++ l) = callsFor F k ++ callsFor F l.
Proof. apply List.filter_app. Qed.

(** What is expected depends on the calls of each method, not on how they interleave. *)
Lemma expected_order T ts k : acFieldsOf T = Some ts -> forall l, (forall F, callsFor F k = callsFor F l) -> forall ds, map fst ds = map fst ts ->
  expected T k ds = expected T l ds.
Proof.
  intros HT. induction k as [|[F a] k IH]; intros l Heq ds Hn.
  - destruct l as [|[G b] l]; [done|]. specialize (Heq G). cbn in Heq. by rewrite String.eqb_refl in Heq.
  - pose proof (Heq F) as HF. cbn in HF. rewrite String.eqb_refl in HF. symmetry in HF. destruct (callsFor_first _ _ _ _ HF) as (pre & post & -> & Hp & Hq).
    rewrite (expected_front T ts) by done. cbn [expected]. destruct (calledFor T F) as [s|]; cbn [mbind option_bind]; [|done].
    destruct (after s a ds) as [ds'|] eqn:E; cbn [mbind option_bind]; [|done]. apply IH; [|by rewrite (after_names _ _ _ _ E)].
    intros G. specialize (Heq G). rewrite callsFor_app in Heq |- *. rewrite !callsFor_cons in Heq.
    destruct (String.eqb_spec F G) as [E'|Hne]; [|done]. rewrite <- E' in Heq |- *. rewrite Hp in Heq |- *. by injection Heq.
Qed.

(** Two chains with the same calls of each method build the same configuration, however the
    calls for different fields interleave; when one panics, so does the other. *)
Theorem order_matters_within_a_field_only T ts calls1 args1 calls2 args2 h : field T structs = Some ts ->
  Forall2 (fits T h) calls1 args1 -> Forall2 (fits T h) calls2 args2 -> (forall F, callsFor F args1 = callsFor F args2) ->
  let run calls := (b ⇐ new ts ;; callAll T calls b) h in
  (run calls1 = None /\ run calls2 = None) \/ exists ds, returns T h (run calls1) ds /\ returns T h (run calls2) ds.
Proof.
  intros HT Hc1 Hc2 Heq. pose proof (built_by_calls T ts calls1 args1 h HT Hc1) as B1. pose proof (built_by_calls T ts calls2 args2 h HT Hc2) as B2.
  rewrite (expected_order T ts args1 (struct_fields _ _ HT) args2 Heq) in B1 by (unfold zerosDeep; rewrite map_map; by apply map_ext).
  destruct (expected T args2 (zerosDeep ts)) as [ds|]; [right; by exists ds|by left].
Qed.

End methods.

(** Client-go's condition, and arrays without spare capacity. *)
Definition someForeign : Foreign := fun n => if String.eqb n "metav1ac.Condition" then Some [("Type", TPtr TStr); ("Status", TPtr TStr)] else None.
Definition noSpare : GoRuntime := fun _ => [].

Lemma order_matters_within_a_field_only_witness :
  let calls1 := [("Replicas", VInt 1); ("WorkloadName", VStr "a"); ("Replicas", VInt 2)] in
  let calls2 := [("WorkloadName", VStr "a"); ("Replicas", VInt 1); ("Replicas", VInt 2)] in
  let run calls := (b ⇐ @acv1beta1_MCPServerStatus ;; @callAll noSpare "acv1beta1.MCPServerStatus" calls b) ∅ in
  (run calls1 = None /\ run calls2 = None) \/
  exists ds, @returns someForeign "acv1beta1.MCPServerStatus" ∅ (run calls1) ds /\ @returns someForeign "acv1beta1.MCPServerStatus" ∅ (run calls2) ds.
Proof.
  cbn zeta.
  assert (Hint : forall n, @fits someForeign "acv1beta1.MCPServerStatus" ∅ ("Replicas", VInt n) ("Replicas", DInt n)).
  { intros n. split; [done|]. exists TInt. split; [reflexivity|]. split; [done|]. split; [done|by intros ?]. }
  assert (Hstr : @fits someForeign "acv1beta1.MCPServerStatus" ∅ ("WorkloadName", VStr "a") ("WorkloadName", DStr "a")).
  { split; [done|]. exists TStr. split; [reflexivity|]. split; [done|]. split; [done|by intros ?]. }
  apply (@order_matters_within_a_field_only someForeign noSpare "acv1beta1.MCPServerStatus" acv1beta1_MCPServerStatusApplyConfiguration _
    [("Replicas", DInt 1); ("WorkloadName", DStr "a"); ("Replicas", DInt 2)] _ [("WorkloadName", DStr "a"); ("Replicas", DInt 1); ("Replicas", DInt 2)] ∅ eq_refl).
  - repeat constructor; try apply Hint; apply Hstr.
  - repeat constructor; try apply Hint; apply Hstr.
  - intros F. unfold callsFor. cbn [List.filter fst]. destruct (String.eqb_spec "Replicas" F) as [<-|Hne]; [done|]. by destruct (String.eqb "WorkloadName" F).
Defined.
