(* ===== verification/ApplyObjects.v ===== *)
(** * Objects to apply: their constructors, getters and extraction, and the status request

    An object's configuration is made under its name and kind, filled by calls, and read by
    the getters.  [status_requests_refine] ties the generated code to [StatusAC], which the
    model of the controller builds statuses with: what the controller sends is what it means
    to send. *)

From S2P Require Import Prelude K8s ApiBeta ApiAlpha StatusAC GoHeap Builders BuilderObjects ApplyConfig.

Set Warnings "-register-all".

#[local] Open Scope go_scope.

(** ** Statuses *)

Definition encode {A} (f : A -> deep) (a : option A) : deep := match a with Some x => DPtr (f x) | None => DNilPtr end.

Definition encodeBinding (b : GatewayBindingStatusApplyConfiguration) : deep :=
  DStruct [("Name", encode DStr (gbac_name b)); ("Provider", encode DStr (gbac_provider b))].
Definition encodeAddress (b : MCPServerAddressApplyConfiguration) : deep := DStruct [("URL", encode DStr (aac_url b))].
Definition encodeCapabilities (b : MCPServerCapabilitiesApplyConfiguration) : deep :=
  DStruct [("Tools", encode DBool (cac_tools b)); ("Resources", encode DBool (cac_resources b)); ("Prompts", encode DBool (cac_prompts b));
           ("Logging", encode DBool (cac_logging b)); ("Completions", encode DBool (cac_completions b))].
Definition encodeInfo (b : MCPServerInfoApplyConfiguration) : deep :=
  DStruct [("Name", encode DStr (iac_name b)); ("Version", encode DStr (iac_version b)); ("ProtocolVersion", encode DStr (iac_protocolVersion b));
           ("Instructions", encode DStr (iac_instructions b)); ("Capabilities", encode encodeCapabilities (iac_capabilities b))].

Section statuses.
(** How client-go lays out a condition. *)
Context (encodeCondition : ConditionApplyConfiguration -> deep).

Definition encodeConditions (cs : list ConditionApplyConfiguration) : deep :=
  match cs with [] => DNilSlice | _ => DSlice (map encodeCondition cs) end.

Definition encodeStatus (b : MCPServerStatusApplyConfiguration) : list (string * deep) :=
  [("ObservedGeneration", encode DInt (sac_observedGeneration b)); ("DeploymentName", encode DStr (sac_deploymentName b));
   ("ServiceName", encode DStr (sac_serviceName b)); ("WorkloadName", encode DStr (sac_workloadName b));
   ("WorkloadSummary", encode DStr (sac_workloadSummary b)); ("GatewayBinding", encode encodeBinding (sac_gatewayBinding b));
   ("Address", encode encodeAddress (sac_address b)); ("ServerInfo", encode encodeInfo (sac_serverInfo b));
   ("Replicas", encode DInt (sac_replicas b)); ("ReadyReplicas", encode DInt (sac_readyReplicas b));
   ("Conditions", encodeConditions (sac_conditions b))].

(** A call on a status, as the controller makes it. *)
Inductive statusCall :=
  | ObservedGeneration (v : Z)
  | DeploymentName (v : string)
  | ServiceName (v : string)
  | WorkloadName (v : string)
  | WorkloadSummary (v : string)
  | GatewayBinding (v : GatewayBindingStatusApplyConfiguration)
  | Address_ (v : MCPServerAddressApplyConfiguration)
  | ServerInfo (v : MCPServerInfoApplyConfiguration)
  | Replicas (v : Z)
  | ReadyReplicas (v : Z)
  | Conditions (vs : list ConditionApplyConfiguration).

(** What it makes of the value. *)
Definition onValue (c : statusCall) : MCPServerStatusApplyConfiguration -> MCPServerStatusApplyConfiguration :=
  match c with
  | ObservedGeneration v => WithObservedGeneration v
  | DeploymentName v => WithDeploymentName v
  | ServiceName v => WithServiceName v
  | WorkloadName v => WithWorkloadName v
  | WorkloadSummary v => WithWorkloadSummary v
  | GatewayBinding v => WithGatewayBinding v
  | Address_ v => WithAddress v
  | ServerInfo v => WithServerInfo v
  | Replicas v => WithReplicas v
  | ReadyReplicas v => WithReadyReplicas v
  | Conditions vs => WithConditions vs
  end.

(** The method it calls, and what its argument stands for. *)
Definition inMemory (c : statusCall) : string * deep :=
  match c with
  | ObservedGeneration v => ("ObservedGeneration", DInt v)
  | DeploymentName v => ("DeploymentName", DStr v)
  | ServiceName v => ("ServiceName", DStr v)
  | WorkloadName v => ("WorkloadName", DStr v)
  | WorkloadSummary v => ("WorkloadSummary", DStr v)
  | GatewayBinding v => ("GatewayBinding", DPtr (encodeBinding v))
  | Address_ v => ("Address", DPtr (encodeAddress v))
  | ServerInfo v => ("ServerInfo", DPtr (encodeInfo v))
  | Replicas v => ("Replicas", DInt v)
  | ReadyReplicas v => ("ReadyReplicas", DInt v)
  | Conditions vs => ("Conditions", DSlice (map (fun c => DPtr (encodeCondition c)) vs))
  end.

Definition statusOf (cs : list statusCall) : MCPServerStatusApplyConfiguration := fold_left (fun b c => onValue c b) cs MCPServerStatusAC.

End statuses.

Section objects.
Context `{Foreign} `{GoRuntime} `{Extractor}.

(** What [applyStatus] has the API server apply (controller/mcpserver_controller.go). *)
Definition statusToApply (name namespace : string) (status : val) : C val :=
  b ⇐ acv1beta1_MCPServer (VStr name) (VStr namespace) ;;
  acv1beta1_MCPServer_WithStatus status b.

(** The getters, by kind and field. *)
Definition getters : list (string * string * (val -> C val)) :=
  [("acv1beta1.MCPServer", "Kind", acv1beta1_MCPServer_GetKind); ("acv1beta1.MCPServer", "APIVersion", acv1beta1_MCPServer_GetAPIVersion);
   ("acv1beta1.MCPServer", "Name", acv1beta1_MCPServer_GetName); ("acv1beta1.MCPServer", "Namespace", acv1beta1_MCPServer_GetNamespace);
   ("acv1alpha1.MCPServer", "Kind", acv1alpha1_MCPServer_GetKind); ("acv1alpha1.MCPServer", "APIVersion", acv1alpha1_MCPServer_GetAPIVersion);
   ("acv1alpha1.MCPServer", "Name", acv1alpha1_MCPServer_GetName); ("acv1alpha1.MCPServer", "Namespace", acv1alpha1_MCPServer_GetNamespace);
   ("acv1alpha1.MCPGatewayBinding", "Kind", acv1alpha1_MCPGatewayBinding_GetKind);
   ("acv1alpha1.MCPGatewayBinding", "APIVersion", acv1alpha1_MCPGatewayBinding_GetAPIVersion);
   ("acv1alpha1.MCPGatewayBinding", "Name", acv1alpha1_MCPGatewayBinding_GetName);
   ("acv1alpha1.MCPGatewayBinding", "Namespace", acv1alpha1_MCPGatewayBinding_GetNamespace)].

(** What a getter is to find. *)
Definition valueOf (F : string) (ds : list (string * deep)) : option deep :=
  match field F ds with Some d => Some d | None => field F (metaOf ds) end.

(** ** Kinds *)

(** A method returns its receiver. *)
Definition returnsReceiver (code : val -> C val) : Prop := forall b h r h', code b h = Some (r, h') -> r = b.

Lemma setAddress_receiver F a : returnsReceiver (setAddress F a).
Proof. intros b h r h' Hr. unfold setAddress, bind, ret in Hr. by repeat case_match || simplify_option_eq. Qed.
Lemma onMeta_receiver k : returnsReceiver (onMeta k).
Proof. intros b h r h' Hr. unfold onMeta, bind, ret in Hr. by repeat case_match || simplify_option_eq. Qed.

(** What the constructor of a kind begins with. *)
Definition identity (kind version name namespace : string) : list (string * string) :=
  [("Name", name); ("Namespace", namespace); ("Kind", kind); ("APIVersion", version)].
Definition strings (xs : list (string * string)) : list (string * val) := map (fun x => (x.1, VStr x.2)) xs.
Definition deepStrings (xs : list (string * string)) : list (string * deep) := map (fun x => (x.1, DStr x.2)) xs.

(** [b.WithX(x)] as a statement, and as an expression. *)
Lemma statement_chains {A} (code : val -> C val) (k : val -> C A) (rest : C A) b h :
  returnsReceiver code -> (forall h', rest h' = k b h') -> (_ ⇐ code b ;; rest) h = (b' ⇐ code b ;; k b') h.
Proof. intros Hc Hk. unfold bind. destruct (code b h) as [[r h']|] eqn:E; [|done]. rewrite (Hc _ _ _ _ E). apply Hk. Qed.

Lemma bind_assoc {A B D} (m : C A) (k : A -> C B) (k' : B -> C D) h : bind (bind m k) k' h = bind m (fun a => bind (k a) k') h.
Proof. unfold bind. by destruct (m h) as [[a h']|]. Qed.

Lemma bind_ext {A B} (m : C A) (k k' : A -> C B) h : (forall a h', k a h' = k' a h') -> bind m k h = bind m k' h.
Proof. intros Hk. unfold bind. destruct (m h) as [[a h']|]; [apply Hk|done]. Qed.

(** A constructor is the calls of its methods. *)
Lemma constructor_calls T ts kind version name namespace calls h
  (withName withNamespace withKind withVersion : val -> val -> C val) :
  methodFor T "Name" = Some withName -> methodFor T "Namespace" = Some withNamespace -> methodFor T "Kind" = Some withKind ->
  methodFor T "APIVersion" = Some withVersion ->
  returnsReceiver (withName (VStr name)) -> returnsReceiver (withNamespace (VStr namespace)) ->
  returnsReceiver (withKind (VStr kind)) -> returnsReceiver (withVersion (VStr version)) ->
  (b ⇐ (b ⇐ new ts ;; _ ⇐ withName (VStr name) b ;; _ ⇐ withNamespace (VStr namespace) b ;; _ ⇐ withKind (VStr kind) b ;;
        _ ⇐ withVersion (VStr version) b ;; ret b) ;; callAll T calls b) h =
  (b ⇐ new ts ;; callAll T (strings (identity kind version name namespace) ++ calls) b) h.
Proof.
  intros M1 M2 M3 M4 R1 R2 R3 R4. rewrite bind_assoc. apply bind_ext. intros b h0.
  cbn [strings identity map app callAll fst snd]. rewrite M1, M2, M3, M4. rewrite !bind_assoc.
  apply statement_chains; [done|]. intros h1. rewrite !bind_assoc. apply statement_chains; [done|]. intros h2. rewrite !bind_assoc.
  apply statement_chains; [done|]. intros h3. rewrite !bind_assoc. by apply statement_chains.
Qed.

Lemma fits_string T h F s : takes T F = Some TStr -> fits T h (F, VStr s) (F, DStr s).
Proof. intros HF. split; [done|]. exists TStr. split; [done|]. split; [done|]. split; [done|]. by intros ds. Qed.

(** The kinds, and the code of their constructors. *)
Definition kinds : list (string * string * string * (val -> val -> C val)) :=
  [("acv1beta1.MCPServer", "MCPServer", "mcp.x-k8s.io/v1beta1", acv1beta1_MCPServer);
   ("acv1alpha1.MCPServer", "MCPServer", "mcp.x-k8s.io/v1alpha1", acv1alpha1_MCPServer);
   ("acv1alpha1.MCPGatewayBinding", "MCPGatewayBinding", "mcp.x-k8s.io/v1alpha1", acv1alpha1_MCPGatewayBinding)].

Lemma kinds_call T kind version code : In (T, kind, version, code) kinds ->
  exists ts, field T structs = Some ts /\ Forall (fun F => takes T F = Some TStr) ["Name"; "Namespace"; "Kind"; "APIVersion"] /\
    forall name namespace calls h, (b ⇐ code (VStr name) (VStr namespace) ;; callAll T calls b) h =
      (b ⇐ new ts ;; callAll T (strings (identity kind version name namespace) ++ calls) b) h.
Proof.
  intros [[= <- <- <- <-]|[[= <- <- <- <-]|[[= <- <- <- <-]|[]]]]; eexists; (split; [reflexivity|]); (split; [repeat constructor|]);
    intros; (apply constructor_calls; [reflexivity..| | | |]); first [apply setAddress_receiver|apply onMeta_receiver].
Qed.

(** An object under construction: what the calls were for, on top of its identity. *)
Lemma objects_built T kind version code ts name namespace calls args h :
  In (T, kind, version, code) kinds -> field T structs = Some ts -> Forall2 (fits T h) calls args ->
  let run := (b ⇐ code (VStr name) (VStr namespace) ;; callAll T calls b) h in
  match expected T (deepStrings (identity kind version name namespace) ++ args) (zerosDeep ts) with
  | Some ds => returns T h run ds
  | None => run = None
  end.
Proof.
  intros Hk HT Hall. destruct (kinds_call _ _ _ _ Hk) as (ts' & HT' & Hstr & Hrun). rewrite HT in HT'. injection HT' as <-. cbn zeta. rewrite Hrun.
  apply (built_by_calls T ts); [done|]. apply Forall2_app; [|done]. rewrite !Forall_cons in Hstr. destruct Hstr as (? & ? & ? & ? & _).
  repeat constructor; by apply fits_string.
Qed.

(** ** Getters *)

Lemma typed_field_names T ts ds F : acFieldsOf T = Some ts -> hasType acFieldsOf (TStruct T) (DStruct ds) ->
  field F ts = None -> field F ds = None.
Proof.
  intros HT Ht. cbn in Ht. rewrite HT in Ht. apply all2_Forall2 in Ht. clear HT.
  induction Ht as [|[n u] [m d] ts ds [Hn Hd] _ IH]; cbn in *; [done|]. subst m. destruct (String.eqb n F); [done|exact IH].
Qed.

(** A getter finds what the configuration stands for; metadata is made to exist on the way. *)
Lemma getters_answer T F code h l ds O : In (T, F, code) getters -> config h l ds O -> hasType acFieldsOf (TStruct T) (DStruct ds) ->
  exists v h' O' d, valueOf F ds = Some d /\ code (VPtr (Some l)) h = Some (v, h') /\ reads (fun _ => True) h' v d /\ evolves O h O' h' /\
    (config h' l ds O' \/ config h' l (setField metaField (DPtr (DStruct (metaOf ds))) ds) O').
Proof.
  intros Hg Ho Ht.
  assert (Hown : forall ts t, acFieldsOf T = Some ts -> F <> metaField -> field F ts = Some t -> code = getField F ->
    exists v h' O' d, valueOf F ds = Some d /\ code (VPtr (Some l)) h = Some (v, h') /\ reads (fun _ => True) h' v d /\ evolves O h O' h' /\
      (config h' l ds O' \/ config h' l (setField metaField (DPtr (DStruct (metaOf ds))) ds) O')).
  { intros ts t HT Hne Hf ->. destruct (typed_field acFieldsOf _ _ _ _ _ HT Ht Hf) as (d & Hd & _).
    destruct (own_read h l ds O F d Ho Hne Hd) as (v & Hv & Hr). exists v, h, O, d. unfold valueOf. rewrite Hd.
    split; [done|]. split; [done|]. split; [done|]. split; [split; [done|by left]|by left]. }
  assert (Hmeta : forall ts t, acFieldsOf T = Some ts -> field metaField ts = Some (TPtr (TStruct "metav1ac.ObjectMeta")) -> field F ts = None ->
    field F metav1ac_ObjectMeta_fields = Some t -> code = getMeta F ->
    exists v h' O' d, valueOf F ds = Some d /\ code (VPtr (Some l)) h = Some (v, h') /\ reads (fun _ => True) h' v d /\ evolves O h O' h' /\
      (config h' l ds O' \/ config h' l (setField metaField (DPtr (DStruct (metaOf ds))) ds) O')).
  { intros ts t HT Hm Hf Hmf ->. pose proof (typed_field_names _ _ _ _ HT Ht Hf) as Hno.
    destruct (ensured acFieldsOf eq_refl T ts h l ds O Ho HT Ht Hm) as (Htm & _).
    destruct (typed_field acFieldsOf "metav1ac.ObjectMeta" metav1ac_ObjectMeta_fields (metaOf ds) F t eq_refl Htm Hmf) as (d & Hd & _).
    destruct (meta_read acFieldsOf eq_refl T ts h l ds O F d Ho HT Ht Hm Hd) as (v & h' & O' & Hv & Hr & Hc & He).
    exists v, h', O', d. unfold valueOf. rewrite Hno. split; [done|]. split; [done|]. split; [done|]. split; [done|by right]. }
  cbn [getters In] in Hg. repeat destruct Hg as [[= <- <- <-]|Hg]; try done.
  all: first [eapply Hown; [reflexivity|done|reflexivity|reflexivity]|eapply Hmeta; reflexivity].
Qed.

(** ** utils.go *)

Lemma field_app {A} n (f1 f2 : list (string * A)) : field n (f1 ++ f2) = match field n f1 with Some a => Some a | None => field n f2 end.
Proof. induction f1 as [|[m a] f1 IH]; cbn; [done|]. by destruct (String.eqb m n). Qed.

Definition prefixed {A} (p : string) (fs : list (string * A)) : list (string * A) := map (fun f => ((p ++ f.1)%string, f.2)) fs.

Lemma field_prefixed {A} p k (fs : list (string * A)) : field (p ++ k) (prefixed p fs) = field k fs.
Proof.
  induction fs as [|[m a] fs IH]; [done|]. cbn [prefixed map field fst snd]. fold (prefixed p fs). rewrite IH.
  assert (E : String.eqb (p ++ m) (p ++ k) = String.eqb m k) by (clear; induction p as [|c p IHp]; cbn; [done|by rewrite Ascii.eqb_refl]). by rewrite E.
Qed.

Lemma structs_by_kind : structs = prefixed "acv1beta1." acv1beta1_kinds ++ prefixed "acv1alpha1." acv1alpha1_kinds.
Proof. reflexivity. Qed.

Lemma other_version {A} k (fs : list (string * A)) : field ("acv1beta1." ++ k) (prefixed "acv1alpha1." fs) = None.
Proof. induction fs as [|[m a] fs IH]; [done|]. cbn in *. exact IH. Qed.
Lemma other_version' {A} k (fs : list (string * A)) : field ("acv1alpha1." ++ k) (prefixed "acv1beta1." fs) = None.
Proof. induction fs as [|[m a] fs IH]; [done|]. cbn in *. exact IH. Qed.

(** [ForKind] makes the empty configuration of the struct its name says, for the API's own
    group and version, and of every such struct; for anything else it has none. *)
Definition forKind (known : bool) (T : string) : C (option val) :=
  match (if known then field T structs else None) with
  | Some ts => b ⇐ new ts ;; ret (Some b)
  | None => ret None
  end.

Lemma ForKind_by_name group version kind :
  acv1beta1_ForKind group version kind = forKind (String.eqb group "mcp.x-k8s.io" && String.eqb version "v1beta1") ("acv1beta1." ++ kind) /\
  acv1alpha1_ForKind group version kind = forKind (String.eqb group "mcp.x-k8s.io" && String.eqb version "v1alpha1") ("acv1alpha1." ++ kind).
Proof.
  unfold forKind, acv1beta1_ForKind, acv1alpha1_ForKind. rewrite structs_by_kind, !field_app, !field_prefixed, other_version, other_version'.
  split; destruct (_ && _); try done. by destruct (field kind acv1beta1_kinds).
Qed.

(** ** Extraction *)

(** The object at [o] has this identity. *)
Definition identified (h : heap) (o : val) (name namespace : string) : Prop :=
  exists p fs ms, o = VPtr (Some p) /\ h !! p = Some (Var (VStruct fs)) /\ field "ObjectMeta" fs = Some (VStruct ms) /\
    field "Name" ms = Some (VStr name) /\ field "Namespace" ms = Some (VStr namespace).

(** [ExtractInto] writes what it extracts into the configuration and leaves the rest alone. *)
Definition Extracts : Prop := forall o schemaType manager l subresource h ds O,
  config h l ds O -> hasType acFieldsOf (TStruct "acv1beta1.MCPServer") (DStruct ds) ->
  exists err h' ds' O', extractInto o schemaType manager (VPtr (Some l)) subresource h = Some (err, h') /\ evolves O h O' h' /\
    (err = None -> config h' l ds' O' /\ hasType acFieldsOf (TStruct "acv1beta1.MCPServer") (DStruct ds')).

Lemma ofObjectMeta_run h o name namespace : identified h o name namespace ->
  ofObjectMeta "Name" o h = Some (VStr name, h) /\ ofObjectMeta "Namespace" o h = Some (VStr namespace, h).
Proof.
  intros (p & fs & ms & -> & Hp & Hm & Hn & Hns). unfold ofObjectMeta.
  rewrite !(bind_some _ _ _ _ _ (getField_run _ _ _ _ _ Hp Hm)), Hn, Hns. done.
Qed.

Lemma identified_evolves h O h' O' o name namespace : evolves O h O' h' -> (forall p, o = VPtr (Some p) -> p ∉ O) ->
  identified h o name namespace -> identified h' o name namespace.
Proof. intros [K _] Ho (p & fs & ms & -> & Hp & Hrest). exists p, fs, ms. split; [done|]. split; [|done]. rewrite K; [done|eauto|by apply Ho]. Qed.

(** One of the calls that give an object its identity. *)
Lemma identity_call F code s h l ds O : In F ["Name"; "Namespace"; "Kind"; "APIVersion"] -> methodFor "acv1beta1.MCPServer" F = Some code ->
  config h l ds O -> hasType acFieldsOf (TStruct "acv1beta1.MCPServer") (DStruct ds) ->
  exists c ds' h' O', calledFor "acv1beta1.MCPServer" F = Some c /\ after c (DStr s) ds = Some ds' /\
    code (VStr s) (VPtr (Some l)) h = Some (VPtr (Some l), h') /\ config h' l ds' O' /\ evolves O h O' h' /\
    hasType acFieldsOf (TStruct "acv1beta1.MCPServer") (DStruct ds').
Proof.
  intros HF Hcode Ho Ht. destruct (methodFor_implements _ _ _ Hcode) as (c & Hc & _ & Himp).
  assert (Hs : suits acFieldsOf O h TStr (VStr s) (DStr s)) by (split; [done|split; [done|by intros ?]]).
  assert (Hpar : parameter c acv1beta1_MCPServerApplyConfiguration = Some TStr /\ exists ds', after c (DStr s) ds = Some ds').
  { cbn [In] in HF. repeat destruct HF as [<-|HF]; try done; vm_compute in Hc; injection Hc as <-; (split; [reflexivity|]); eexists; reflexivity. }
  destruct Hpar as [Hpar [ds' Hds]]. pose proof (Himp h l ds O _ _ _ TStr Ho eq_refl Ht Hpar Hs) as Hl. rewrite Hds in Hl.
  destruct Hl as (h' & O' & Hr & Hc' & He & Ht'). exists c, ds', h', O'. auto 10.
Qed.

(** What is extracted carries the object's own identity, whatever the manager owned. *)
Theorem extraction_keeps_identity o name namespace manager subresource h : Extracts -> identified h o name namespace ->
  exists h', h ⊆ h' /\
    ((exists err, acv1beta1_ExtractMCPServerFrom o manager subresource h = Some ((None, Some err), h')) \/
     exists l ds O ds', acv1beta1_ExtractMCPServerFrom o manager subresource h = Some ((Some (VPtr (Some l)), None), h') /\ config h' l ds O /\
       hasType acFieldsOf (TStruct "acv1beta1.MCPServer") (DStruct ds) /\
       expected "acv1beta1.MCPServer" (deepStrings (identity "MCPServer" "mcp.x-k8s.io/v1beta1" name namespace)) ds' = Some ds).
Proof.
  intros Hex Hid. destruct (new_makes acFieldsOf "acv1beta1.MCPServer" acv1beta1_MCPServerApplyConfiguration h eq_refl eq_refl) as (l & O & h1 & Hr & Ho & He & Ht).
  destruct (Hex o "com.github.kubernetes-sigs.mcp-lifecycle-operator.api.v1beta1.MCPServer" manager l subresource h1 _ O Ho Ht) as (err & h2 & ds2 & O2 & Hr2 & He2 & Hok).
  assert (Hsub : forall O' h', evolves [] h O' h' -> h ⊆ h').
  { intros O' h' [K _]. apply map_subseteq_spec. intros c x Hx. rewrite K; [done|eauto|by intros ?%elem_of_nil]. }
  assert (Hid' : forall O' h', evolves [] h O' h' -> identified h' o name namespace).
  { intros O' h' He'. eapply identified_evolves; [exact He'| |done]. by intros ? _ ?%elem_of_nil. }
  pose proof (evolves_trans _ _ _ _ _ _ He He2) as E2.
  unfold acv1beta1_ExtractMCPServerFrom. rewrite (bind_some _ _ _ _ _ Hr), (bind_some _ _ _ _ _ Hr2).
  destruct err as [e|]; [exists h2; split; [by eapply Hsub|left; by exists e]|]. destruct (Hok eq_refl) as [Ho2 Ht2].
  destruct (identity_call "Name" _ name h2 l ds2 O2 ltac:(by left) eq_refl Ho2 Ht2) as (c3 & ds3 & h3 & O3 & C3 & A3 & R3 & Ho3 & E3 & Ht3).
  pose proof (evolves_trans _ _ _ _ _ _ E2 E3) as E3'.
  destruct (identity_call "Namespace" _ namespace h3 l ds3 O3 ltac:(by right; left) eq_refl Ho3 Ht3) as (c4 & ds4 & h4 & O4 & C4 & A4 & R4 & Ho4 & E4 & Ht4).
  pose proof (evolves_trans _ _ _ _ _ _ E3' E4) as E4'.
  destruct (identity_call "Kind" _ "MCPServer" h4 l ds4 O4 ltac:(by right; right; left) eq_refl Ho4 Ht4) as (c5 & ds5 & h5 & O5 & C5 & A5 & R5 & Ho5 & E5 & Ht5).
  destruct (identity_call "APIVersion" _ "mcp.x-k8s.io/v1beta1" h5 l ds5 O5 ltac:(by right; right; right; left) eq_refl Ho5 Ht5) as (c6 & ds6 & h6 & O6 & C6 & A6 & R6 & Ho6 & E6 & Ht6).
  exists h6. split; [eapply Hsub; do 2 (eapply evolves_trans; [|eassumption]); exact E4'|]. right. exists l, ds6, O6, ds2. split; [|split; [done|split; [done|]]].
  - rewrite (bind_some _ _ _ _ _ (proj1 (ofObjectMeta_run h2 o name namespace (Hid' _ _ E2)))), (bind_some _ _ _ _ _ R3).
    rewrite (bind_some _ _ _ _ _ (proj2 (ofObjectMeta_run h3 o name namespace (Hid' _ _ E3')))), (bind_some _ _ _ _ _ R4).
    by rewrite (bind_some _ _ _ _ _ R5), (bind_some _ _ _ _ _ R6).
  - cbn [deepStrings identity map expected fst snd]. rewrite C3. cbn [mbind option_bind]. rewrite A3. cbn [mbind option_bind].
    rewrite C4. cbn [mbind option_bind]. rewrite A4. cbn [mbind option_bind]. rewrite C5. cbn [mbind option_bind]. rewrite A5. cbn [mbind option_bind].
    rewrite C6. cbn [mbind option_bind]. by rewrite A6.
Qed.

(** ** Statuses in memory *)

Section request.
Context (encodeCondition : ConditionApplyConfiguration -> deep).
Abbreviation T_status := "acv1beta1.MCPServerStatus".
Abbreviation T_server := "acv1beta1.MCPServer".

Lemma pointees_of {A} (f : A -> deep) l : mapM pointee (map (fun c => DPtr (f c)) l) = Some (map f l).
Proof. induction l as [|x l IH]; cbn; [done|]. by rewrite IH. Qed.

Lemma status_call c b cs : expected T_status (inMemory encodeCondition c :: cs) (encodeStatus encodeCondition b) =
  expected T_status cs (encodeStatus encodeCondition (onValue c b)).
Proof.
  destruct c; try reflexivity. cbn [expected inMemory onValue]. change (calledFor T_status "Conditions") with (Some (Own (Pointers "Conditions"))).
  cbn [mbind option_bind after effect target elements default from_option id]. rewrite pointees_of. cbn [mbind option_bind].
  destruct b as [? ? ? ? ? ? ? ? ? ? old]. unfold encodeStatus, encodeConditions, appended. cbn.
  destruct vs as [|x vs]; cbn; [by rewrite app_nil_r|]. destruct old as [|y old]; cbn; [done|]. by rewrite map_app.
Qed.

Lemma status_calls cs : forall b, expected T_status (map (inMemory encodeCondition) cs) (encodeStatus encodeCondition b) =
  Some (encodeStatus encodeCondition (fold_left (fun b c => onValue c b) cs b)).
Proof. induction cs as [|c cs IH]; intros b; [done|]. cbn [map fold_left]. rewrite status_call. apply IH. Qed.

(** The apply configuration of a server's status, field by field. *)
Definition statusRequest (name namespace : string) (status : list (string * deep)) : list (string * deep) :=
  [("Kind", DPtr (DStr "MCPServer")); ("APIVersion", DPtr (DStr "mcp.x-k8s.io/v1beta1"));
   (metaField, DPtr (DStruct (setField "Namespace" (DPtr (DStr namespace)) (setField "Name" (DPtr (DStr name)) (zerosDeep metav1ac_ObjectMeta_fields)))));
   ("Spec", DNilPtr); ("Status", DPtr (DStruct status))].

(** C27: A status is built by calls, and an object to apply is built around it: in memory, the
    object stands for the server's identity and the status that [StatusAC] computes, and for
    nothing else; it is new, and what was there before is as it was. *)
Theorem status_requests_refine name namespace cs calls h :
  Forall2 (fits T_status h) calls (map (inMemory encodeCondition) cs) ->
  returns T_server h
    ((status ⇐ (b ⇐ acv1beta1_MCPServerStatus ;; callAll T_status calls b) ;;
      statusToApply name namespace status) h)
    (statusRequest name namespace (encodeStatus encodeCondition (statusOf cs))).
Proof.
  intros Hall. pose proof (built_by_calls T_status _ calls _ h eq_refl Hall) as Hs.
  change (zerosDeep _) with (encodeStatus encodeCondition MCPServerStatusAC) in Hs. rewrite status_calls in Hs.
  destruct Hs as (s & h1 & Hrun & Hnew & Hsub & Hr & Ht). rewrite (bind_some _ _ _ _ _ Hrun).
  assert (Hfit : fits T_server h1 ("Status", VPtr (Some s)) ("Status", DPtr (DStruct (encodeStatus encodeCondition (statusOf cs))))).
  { split; [done|]. exists (TPtr (TStruct T_status)). split; [reflexivity|]. split; [exact Ht|]. split; [|by intros ds].
    eapply reads_mono; [|exact Hr]. intros c x _ Hx. split; [by intros ?%elem_of_nil|done]. }
  pose proof (objects_built T_server _ _ acv1beta1_MCPServer _ name namespace [_] [_] h1 ltac:(by left) eq_refl ltac:(constructor; [exact Hfit|constructor])) as Ho.
  cbn zeta in Ho. match type of Ho with match ?e with _ => _ end => replace e with (Some (statusRequest name namespace (encodeStatus encodeCondition (statusOf cs)))) in Ho by reflexivity end.
  destruct Ho as (l & h2 & Hrun2 & Hl & Hsub2 & Hr2 & Ht2). exists l, h2.
  split; [|split; [|split; [|by split]]].
  - rewrite <- Hrun2. apply bind_ext. intros b h'. cbn [callAll]. change (methodFor T_server "Status") with (Some acv1beta1_MCPServer_WithStatus).
    unfold bind, ret. by destruct (acv1beta1_MCPServer_WithStatus _ b h') as [[? ?]|].
  - destruct (h !! l) as [x|] eqn:E; [|done]. rewrite (lookup_weaken _ _ _ _ E Hsub) in Hl. done.
  - by transitivity h1.
Qed.
End request.

End objects.

Lemma status_requests_refine_witness :
  let condition c := DStruct [("Type", encode DStr (cc_type c)); ("Status", encode DStr (cc_status c))] in
  let ready := {| cc_type := Some "Ready"; cc_status := Some "True"; cc_reason := None; cc_message := None; cc_observedGeneration := None; cc_lastTransitionTime := None |} in
  let t := 1%positive in let s := 2%positive in let c := 3%positive in let args := 4%positive in
  let h : heap := list_to_map [(t, Var (VStr "Ready")); (s, Var (VStr "True"));
     (c, Var (VStruct [("Type", VPtr (Some t)); ("Status", VPtr (Some s))])); (args, Array [VPtr (Some c)])] in
  @returns someForeign "acv1beta1.MCPServer" h
    ((status ⇐ (b ⇐ acv1beta1_MCPServerStatus ;;
                @callAll noSpare "acv1beta1.MCPServerStatus"
                  [("Conditions", VSlice (Some {| w_array := args; w_offset := 0; w_len := 1 |})); ("Replicas", VInt 3)] b) ;;
      statusToApply "srv" "ns" status) h)
    (statusRequest "srv" "ns" (encodeStatus condition (WithReplicas 3 (WithConditions [ready] MCPServerStatusAC)))).
Proof.
  intros condition ready t s c args h.
  apply (@status_requests_refine someForeign noSpare condition "srv" "ns" [Conditions [ready]; Replicas 3]).
  constructor; [|constructor; [|constructor]].
  - split; [done|]. exists (TSlice (TPtr (TStruct "metav1ac.Condition"))). split; [reflexivity|]. split; [cbn; tauto|]. split; [|by intros ? [= <-]].
    cbn. split; [by intros ?%elem_of_nil|]. eexists. split; [reflexivity|]. cbn. split; [|done]. split; [by intros ?%elem_of_nil|]. eexists. split; [reflexivity|].
    cbn. split; [split; [done|]|split; [split; [done|]|done]]; (split; [by intros ?%elem_of_nil|]); eexists; (split; [reflexivity|done]).
  - split; [done|]. exists TInt. split; [reflexivity|]. split; [done|]. split; [done|by intros ?].
Defined.
