(* ===== verification/ApplySchema.v ===== *)
(** * The schema of the apply configurations (api/v1beta1/applyconfiguration/internal)

    [internal.Parser] parses a schema from a string that is generated along with the
    builders; the API machinery merges and extracts configurations by it.  It is written out
    below type by type.  The theorems: it is closed and its list keys exist, and whatever the
    builders of [ApplyConfig] make, once marshalled, has the shape it prescribes. *)

From S2P Require Import Prelude GoHeap Builders BuilderObjects ApplyConfig.

Set Warnings "-register-all".

#[local] Open Scope go_scope.

(** ** Schemas, as structured-merge-diff has them *)

Inductive ref :=
  | Named (n : string)
  | Scalar (s : string)
  | ListOf (e : ref) (relationship : string) (keys : list string)
  | MapOf (e : ref)
  | AnyOf (s : string) (e : ref) (elements : string) (v : ref) (entries : string).

Record schemaField := { sf_name : string; sf_type : ref; sf_default : option string }.

Inductive typeDef :=
  | StructType (fs : list schemaField)
  | AtomicStruct (fs : list schemaField)
  | MapType (e : ref)
  | ScalarType (s : string)
  | UntypedType (s : string) (e : ref) (elements : string) (v : ref) (entries : string).

Definition fld (n : string) (t : ref) : schemaField := {| sf_name := n; sf_type := t; sf_default := None |}.
Definition withDefault (n : string) (t : ref) (d : string) : schemaField := {| sf_name := n; sf_type := t; sf_default := Some d |}.

(** Packages. *)
Definition beta (n : string) : string := "com.github.kubernetes-sigs.mcp-lifecycle-operator.api.v1beta1." ++ n.
Definition core (n : string) : string := "io.k8s.api.core.v1." ++ n.
Definition networking (n : string) : string := "io.k8s.api.networking.v1." ++ n.
Definition meta (n : string) : string := "io.k8s.apimachinery.pkg.apis.meta.v1." ++ n.

(** ** internal.go *)

Definition schema_beta_ContainerImageSource : typeDef :=
  StructType [
    fld "imagePullSecrets" (ListOf (Named (core "LocalObjectReference")) "associative" ["name"]);
    fld "pullPolicy" (Named (core "PullPolicy")); fld "ref" (Scalar "string")].
Definition schema_beta_GatewayBindingStatus : typeDef :=
  StructType [
    fld "name" (Scalar "string"); fld "provider" (Scalar "string")].
Definition schema_beta_GatewaySpec : typeDef :=
  StructType [
    fld "configRef" (Scalar "string"); fld "provider" (Scalar "string")].
Definition schema_beta_HealthConfig : typeDef :=
  StructType [
    fld "livenessProbe" (Named (core "Probe")); fld "readinessProbe" (Named (core "Probe"))].
Definition schema_beta_MCPConfig : typeDef := StructType [fld "stateless" (Scalar "boolean")].
Definition schema_beta_MCPServer : typeDef :=
  StructType [
    fld "apiVersion" (Scalar "string"); fld "kind" (Scalar "string"); fld "metadata" (Named (meta "ObjectMeta"));
    fld "spec" (Named (beta "MCPServerSpec")); fld "status" (Named (beta "MCPServerStatus"))].
Definition schema_beta_MCPServerAddress : typeDef := StructType [fld "url" (Scalar "string")].
Definition schema_beta_MCPServerCapabilities : typeDef :=
  StructType [
    fld "completions" (Scalar "boolean"); fld "logging" (Scalar "boolean"); fld "prompts" (Scalar "boolean");
    fld "resources" (Scalar "boolean"); fld "tools" (Scalar "boolean")].
Definition schema_beta_MCPServerInfo : typeDef :=
  StructType [
    fld "capabilities" (Named (beta "MCPServerCapabilities")); fld "instructions" (Scalar "string");
    fld "name" (Scalar "string"); fld "protocolVersion" (Scalar "string"); fld "version" (Scalar "string")].
Definition schema_beta_MCPServerSpec : typeDef :=
  StructType [
    fld "config" (Named (beta "ServerConfig")); fld "extraAnnotations" (MapOf (Scalar "string"));
    fld "extraLabels" (MapOf (Scalar "string")); fld "gateway" (Named (beta "GatewaySpec"));
    fld "mcp" (Named (beta "MCPConfig")); fld "network" (Named (beta "NetworkConfig"));
    fld "runtime" (Named (beta "RuntimeConfig")); fld "serviceRef" (Named (beta "ServiceReference"));
    fld "source" (Named (beta "Source")); fld "transport" (Named (beta "TransportConfig"));
    fld "workloadRef" (Named (beta "WorkloadReference"))].
Definition schema_beta_MCPServerStatus : typeDef :=
  StructType [
    fld "address" (Named (beta "MCPServerAddress"));
    fld "conditions" (ListOf (Named (meta "Condition")) "associative" ["type"]);
    fld "deploymentName" (Scalar "string"); fld "gatewayBinding" (Named (beta "GatewayBindingStatus"));
    fld "observedGeneration" (Scalar "numeric"); fld "readyReplicas" (Scalar "numeric");
    fld "replicas" (Scalar "numeric"); fld "serverInfo" (Named (beta "MCPServerInfo"));
    fld "serviceName" (Scalar "string"); fld "workloadName" (Scalar "string");
    fld "workloadSummary" (Scalar "string")].
Definition schema_beta_MountPermissions : typeDef := ScalarType "string".
Definition schema_beta_NetworkConfig : typeDef :=
  StructType [
    fld "dnsEgressPeer" (Named (networking "NetworkPolicyPeer"));
    fld "egressPorts" (ListOf (Named (networking "NetworkPolicyPort")) "atomic" []);
    fld "egressTo" (ListOf (Named (networking "NetworkPolicyPeer")) "atomic" []);
    fld "ingressFrom" (ListOf (Named (networking "NetworkPolicyPeer")) "atomic" [])].
Definition schema_beta_RuntimeConfig : typeDef :=
  StructType [
    fld "health" (Named (beta "HealthConfig")); fld "replicas" (Scalar "numeric");
    fld "resources" (Named (core "ResourceRequirements")); fld "security" (Named (beta "SecurityConfig"))].
Definition schema_beta_SecretReference : typeDef := StructType [fld "name" (Scalar "string")].
Definition schema_beta_SecurityConfig : typeDef :=
  StructType [
    fld "podSecurityContext" (Named (core "PodSecurityContext"));
    fld "securityContext" (Named (core "SecurityContext")); fld "serviceAccountName" (Scalar "string")].
Definition schema_beta_ServerConfig : typeDef :=
  StructType [
    fld "arguments" (ListOf (Scalar "string") "atomic" []); fld "env" (ListOf (Named (core "EnvVar")) "atomic" []);
    fld "envFrom" (ListOf (Named (core "EnvFromSource")) "atomic" []); withDefault "path" (Scalar "string") "/mcp";
    fld "port" (Scalar "numeric"); fld "storage" (ListOf (Named (beta "StorageMount")) "associative" ["path"])].
Definition schema_beta_ServiceReference : typeDef := StructType [fld "name" (Scalar "string")].
Definition schema_beta_Source : typeDef :=
  StructType [
    fld "containerImage" (Named (beta "ContainerImageSource")); fld "type" (Named (beta "SourceType"))].
Definition schema_beta_SourceType : typeDef := ScalarType "string".
Definition schema_beta_StorageMount : typeDef :=
  StructType [
    fld "path" (Scalar "string"); withDefault "permissions" (Named (beta "MountPermissions")) "ReadOnly";
    fld "source" (Named (beta "StorageSource"))].
Definition schema_beta_StorageSource : typeDef :=
  StructType [
    fld "configMap" (Named (core "ConfigMapVolumeSource")); fld "emptyDir" (Named (core "EmptyDirVolumeSource"));
    fld "secret" (Named (core "SecretVolumeSource")); fld "type" (Named (beta "StorageType"))].
Definition schema_beta_StorageType : typeDef := ScalarType "string".
Definition schema_beta_TLSClientConfig : typeDef :=
  StructType [
    fld "caBundleSecret" (Named (beta "SecretReference")); fld "enabled" (Scalar "boolean");
    fld "insecureSkipVerify" (Scalar "boolean")].
Definition schema_beta_TransportConfig : typeDef := StructType [fld "tls" (Named (beta "TLSClientConfig"))].
Definition schema_beta_WorkloadKind : typeDef := ScalarType "string".
Definition schema_beta_WorkloadReference : typeDef :=
  StructType [
    fld "kind" (Named (beta "WorkloadKind")); fld "name" (Scalar "string")].
Definition schema_core_AppArmorProfile : typeDef :=
  StructType [
    fld "localhostProfile" (Scalar "string"); fld "type" (Named (core "AppArmorProfileType"))].
Definition schema_core_AppArmorProfileType : typeDef := ScalarType "string".
Definition schema_core_Capabilities : typeDef :=
  StructType [
    fld "add" (ListOf (Named (core "Capability")) "atomic" []);
    fld "drop" (ListOf (Named (core "Capability")) "atomic" [])].
Definition schema_core_Capability : typeDef := ScalarType "string".
Definition schema_core_ConfigMapEnvSource : typeDef :=
  AtomicStruct [
    withDefault "name" (Scalar "string") ""; fld "optional" (Scalar "boolean")].
Definition schema_core_ConfigMapKeySelector : typeDef :=
  AtomicStruct [
    fld "key" (Scalar "string"); withDefault "name" (Scalar "string") ""; fld "optional" (Scalar "boolean")].
Definition schema_core_ConfigMapVolumeSource : typeDef :=
  AtomicStruct [
    fld "defaultMode" (Scalar "numeric"); fld "defaultUser" (Scalar "numeric");
    fld "items" (ListOf (Named (core "KeyToPath")) "atomic" []); withDefault "name" (Scalar "string") "";
    fld "optional" (Scalar "boolean")].
Definition schema_core_EmptyDirVolumeSource : typeDef :=
  StructType [
    fld "medium" (Named (core "StorageMedium")); fld "mode" (Scalar "numeric");
    fld "sizeLimit" (Named "io.k8s.apimachinery.pkg.api.resource.Quantity")].
Definition schema_core_EnvFromSource : typeDef :=
  StructType [
    fld "configMapRef" (Named (core "ConfigMapEnvSource")); fld "prefix" (Scalar "string");
    fld "secretRef" (Named (core "SecretEnvSource"))].
Definition schema_core_EnvVar : typeDef :=
  StructType [
    fld "name" (Scalar "string"); fld "value" (Scalar "string"); fld "valueFrom" (Named (core "EnvVarSource"))].
Definition schema_core_EnvVarSource : typeDef :=
  StructType [
    fld "configMapKeyRef" (Named (core "ConfigMapKeySelector")); fld "fieldRef" (Named (core "ObjectFieldSelector"));
    fld "fileKeyRef" (Named (core "FileKeySelector")); fld "resourceFieldRef" (Named (core "ResourceFieldSelector"));
    fld "secretKeyRef" (Named (core "SecretKeySelector"))].
Definition schema_core_ExecAction : typeDef := StructType [fld "command" (ListOf (Scalar "string") "atomic" [])].
Definition schema_core_FileKeySelector : typeDef :=
  AtomicStruct [
    fld "key" (Scalar "string"); withDefault "optional" (Scalar "boolean") "false"; fld "path" (Scalar "string");
    fld "volumeName" (Scalar "string")].
Definition schema_core_GRPCAction : typeDef :=
  StructType [
    fld "mode" (Named (core "GRPCProbeMode")); fld "port" (Scalar "numeric");
    withDefault "service" (Scalar "string") ""].
Definition schema_core_GRPCProbeMode : typeDef := ScalarType "string".
Definition schema_core_HTTPGetAction : typeDef :=
  StructType [
    fld "host" (Scalar "string"); fld "httpHeaders" (ListOf (Named (core "HTTPHeader")) "atomic" []);
    fld "path" (Scalar "string"); fld "port" (Named "io.k8s.apimachinery.pkg.util.intstr.IntOrString");
    fld "protocol" (Named (core "HTTPProtocol")); fld "scheme" (Named (core "URIScheme"))].
Definition schema_core_HTTPHeader : typeDef :=
  StructType [
    fld "name" (Scalar "string"); fld "value" (Scalar "string")].
Definition schema_core_HTTPProtocol : typeDef := ScalarType "string".
Definition schema_core_KeyToPath : typeDef :=
  StructType [
    fld "key" (Scalar "string"); fld "mode" (Scalar "numeric"); fld "path" (Scalar "string");
    fld "user" (Scalar "numeric")].
Definition schema_core_LocalObjectReference : typeDef := AtomicStruct [withDefault "name" (Scalar "string") ""].
Definition schema_core_ObjectFieldSelector : typeDef :=
  AtomicStruct [
    fld "apiVersion" (Scalar "string"); fld "fieldPath" (Scalar "string")].
Definition schema_core_PodFSGroupChangePolicy : typeDef := ScalarType "string".
Definition schema_core_PodSELinuxChangePolicy : typeDef := ScalarType "string".
Definition schema_core_PodSecurityContext : typeDef :=
  StructType [
    fld "appArmorProfile" (Named (core "AppArmorProfile")); fld "fsGroup" (Scalar "numeric");
    fld "fsGroupChangePolicy" (Named (core "PodFSGroupChangePolicy")); fld "runAsGroup" (Scalar "numeric");
    fld "runAsNonRoot" (Scalar "boolean"); fld "runAsUser" (Scalar "numeric");
    fld "seLinuxChangePolicy" (Named (core "PodSELinuxChangePolicy"));
    fld "seLinuxOptions" (Named (core "SELinuxOptions")); fld "seccompProfile" (Named (core "SeccompProfile"));
    fld "supplementalGroups" (ListOf (Scalar "numeric") "atomic" []);
    fld "supplementalGroupsPolicy" (Named (core "SupplementalGroupsPolicy"));
    fld "sysctls" (ListOf (Named (core "Sysctl")) "atomic" []);
    fld "windowsOptions" (Named (core "WindowsSecurityContextOptions"))].
Definition schema_core_Probe : typeDef :=
  StructType [
    fld "exec" (Named (core "ExecAction")); fld "failureThreshold" (Scalar "numeric");
    fld "grpc" (Named (core "GRPCAction")); fld "httpGet" (Named (core "HTTPGetAction"));
    fld "initialDelaySeconds" (Scalar "numeric"); fld "periodSeconds" (Scalar "numeric");
    fld "successThreshold" (Scalar "numeric"); fld "tcpSocket" (Named (core "TCPSocketAction"));
    fld "terminationGracePeriodSeconds" (Scalar "numeric"); fld "timeoutSeconds" (Scalar "numeric")].
Definition schema_core_ProcMountType : typeDef := ScalarType "string".
Definition schema_core_Protocol : typeDef := ScalarType "string".
Definition schema_core_PullPolicy : typeDef := ScalarType "string".
Definition schema_core_ResourceClaim : typeDef :=
  StructType [
    fld "name" (Scalar "string"); fld "request" (Scalar "string")].
Definition schema_core_ResourceFieldSelector : typeDef :=
  AtomicStruct [
    fld "containerName" (Scalar "string"); fld "divisor" (Named "io.k8s.apimachinery.pkg.api.resource.Quantity");
    fld "resource" (Scalar "string")].
Definition schema_core_ResourceList : typeDef := MapType (Named "io.k8s.apimachinery.pkg.api.resource.Quantity").
Definition schema_core_ResourceRequirements : typeDef :=
  StructType [
    fld "claims" (ListOf (Named (core "ResourceClaim")) "associative" ["name"]);
    fld "limits" (Named (core "ResourceList")); fld "requests" (Named (core "ResourceList"))].
Definition schema_core_SELinuxOptions : typeDef :=
  StructType [
    fld "level" (Scalar "string"); fld "role" (Scalar "string"); fld "type" (Scalar "string");
    fld "user" (Scalar "string")].
Definition schema_core_SeccompProfile : typeDef :=
  StructType [
    fld "localhostProfile" (Scalar "string"); fld "type" (Named (core "SeccompProfileType"))].
Definition schema_core_SeccompProfileType : typeDef := ScalarType "string".
Definition schema_core_SecretEnvSource : typeDef :=
  AtomicStruct [
    withDefault "name" (Scalar "string") ""; fld "optional" (Scalar "boolean")].
Definition schema_core_SecretKeySelector : typeDef :=
  AtomicStruct [
    fld "key" (Scalar "string"); withDefault "name" (Scalar "string") ""; fld "optional" (Scalar "boolean")].
Definition schema_core_SecretVolumeSource : typeDef :=
  StructType [
    fld "defaultMode" (Scalar "numeric"); fld "defaultUser" (Scalar "numeric");
    fld "items" (ListOf (Named (core "KeyToPath")) "atomic" []); fld "optional" (Scalar "boolean");
    fld "secretName" (Scalar "string")].
Definition schema_core_SecurityContext : typeDef :=
  StructType [
    fld "allowPrivilegeEscalation" (Scalar "boolean"); fld "appArmorProfile" (Named (core "AppArmorProfile"));
    fld "capabilities" (Named (core "Capabilities")); fld "privileged" (Scalar "boolean");
    fld "procMount" (Named (core "ProcMountType")); fld "readOnlyRootFilesystem" (Scalar "boolean");
    fld "runAsGroup" (Scalar "numeric"); fld "runAsNonRoot" (Scalar "boolean"); fld "runAsUser" (Scalar "numeric");
    fld "seLinuxOptions" (Named (core "SELinuxOptions")); fld "seccompProfile" (Named (core "SeccompProfile"));
    fld "windowsOptions" (Named (core "WindowsSecurityContextOptions"))].
Definition schema_core_StorageMedium : typeDef := ScalarType "string".
Definition schema_core_SupplementalGroupsPolicy : typeDef := ScalarType "string".
Definition schema_core_Sysctl : typeDef := StructType [fld "name" (Scalar "string"); fld "value" (Scalar "string")].
Definition schema_core_TCPSocketAction : typeDef :=
  StructType [
    fld "host" (Scalar "string"); fld "port" (Named "io.k8s.apimachinery.pkg.util.intstr.IntOrString")].
Definition schema_core_URIScheme : typeDef := ScalarType "string".
Definition schema_core_WindowsSecurityContextOptions : typeDef :=
  StructType [
    fld "gmsaCredentialSpec" (Scalar "string"); fld "gmsaCredentialSpecName" (Scalar "string");
    fld "hostProcess" (Scalar "boolean"); fld "runAsUserName" (Scalar "string")].
Definition schema_networking_IPBlock : typeDef :=
  StructType [
    fld "cidr" (Scalar "string"); fld "except" (ListOf (Scalar "string") "atomic" [])].
Definition schema_networking_NetworkPolicyPeer : typeDef :=
  StructType [
    fld "ipBlock" (Named (networking "IPBlock")); fld "namespaceSelector" (Named (meta "LabelSelector"));
    fld "podSelector" (Named (meta "LabelSelector"))].
Definition schema_networking_NetworkPolicyPort : typeDef :=
  StructType [
    fld "endPort" (Scalar "numeric"); fld "port" (Named "io.k8s.apimachinery.pkg.util.intstr.IntOrString");
    fld "protocol" (Named (core "Protocol"))].
Definition schema_Quantity : typeDef :=
  UntypedType "untyped" (Named "__untyped_atomic_") "atomic" (Named "__untyped_deduced_") "separable".
Definition schema_meta_Condition : typeDef :=
  StructType [
    fld "lastTransitionTime" (Named (meta "Time")); fld "message" (Scalar "string");
    fld "observedGeneration" (Scalar "numeric"); fld "reason" (Scalar "string");
    fld "status" (Named (meta "ConditionStatus")); fld "type" (Scalar "string")].
Definition schema_meta_ConditionStatus : typeDef := ScalarType "string".
Definition schema_meta_FieldsV1 : typeDef := MapType (AnyOf "untyped" (Named "__untyped_atomic_") "atomic" (Named "__untyped_deduced_") "separable").
Definition schema_meta_LabelSelector : typeDef :=
  AtomicStruct [
    fld "matchExpressions" (ListOf (Named (meta "LabelSelectorRequirement")) "atomic" []);
    fld "matchLabels" (MapOf (Scalar "string"))].
Definition schema_meta_LabelSelectorOperator : typeDef := ScalarType "string".
Definition schema_meta_LabelSelectorRequirement : typeDef :=
  StructType [
    fld "key" (Scalar "string"); fld "operator" (Named (meta "LabelSelectorOperator"));
    fld "values" (ListOf (Scalar "string") "atomic" [])].
Definition schema_meta_ManagedFieldsEntry : typeDef :=
  StructType [
    fld "apiVersion" (Scalar "string"); fld "fieldsType" (Scalar "string"); fld "fieldsV1" (Named (meta "FieldsV1"));
    fld "manager" (Scalar "string"); fld "operation" (Named (meta "ManagedFieldsOperationType"));
    fld "subresource" (Scalar "string"); fld "time" (Named (meta "Time"))].
Definition schema_meta_ManagedFieldsOperationType : typeDef := ScalarType "string".
Definition schema_meta_ObjectMeta : typeDef :=
  StructType [
    fld "annotations" (MapOf (Scalar "string")); fld "creationTimestamp" (Named (meta "Time"));
    fld "deletionGracePeriodSeconds" (Scalar "numeric"); fld "deletionTimestamp" (Named (meta "Time"));
    fld "finalizers" (ListOf (Scalar "string") "associative" []); fld "generateName" (Scalar "string");
    fld "generation" (Scalar "numeric"); fld "labels" (MapOf (Scalar "string"));
    fld "managedFields" (ListOf (Named (meta "ManagedFieldsEntry")) "atomic" []); fld "name" (Scalar "string");
    fld "namespace" (Scalar "string");
    fld "ownerReferences" (ListOf (Named (meta "OwnerReference")) "associative" ["uid"]);
    fld "resourceVersion" (Scalar "string"); fld "selfLink" (Scalar "string");
    fld "uid" (Named "io.k8s.apimachinery.pkg.types.UID")].
Definition schema_meta_OwnerReference : typeDef :=
  AtomicStruct [
    fld "apiVersion" (Scalar "string"); fld "blockOwnerDeletion" (Scalar "boolean");
    fld "controller" (Scalar "boolean"); fld "kind" (Scalar "string"); fld "name" (Scalar "string");
    fld "uid" (Named "io.k8s.apimachinery.pkg.types.UID")].
Definition schema_meta_Time : typeDef := ScalarType "untyped".
Definition schema_UID : typeDef := ScalarType "string".
Definition schema_IntOrString : typeDef :=
  UntypedType "untyped" (Named "__untyped_atomic_") "atomic" (Named "__untyped_deduced_") "separable".
Definition schema_untyped_atomic : typeDef :=
  UntypedType "untyped" (Named "__untyped_atomic_") "atomic" (Named "__untyped_atomic_") "atomic".
Definition schema_untyped_deduced : typeDef :=
  UntypedType "untyped" (Named "__untyped_atomic_") "atomic" (Named "__untyped_deduced_") "separable".

(** The types by name. *)
Definition schemaTypes : list (string * typeDef) :=
  [((beta "ContainerImageSource"), schema_beta_ContainerImageSource);
   ((beta "GatewayBindingStatus"), schema_beta_GatewayBindingStatus);
   ((beta "GatewaySpec"), schema_beta_GatewaySpec); ((beta "HealthConfig"), schema_beta_HealthConfig);
   ((beta "MCPConfig"), schema_beta_MCPConfig); ((beta "MCPServer"), schema_beta_MCPServer);
   ((beta "MCPServerAddress"), schema_beta_MCPServerAddress);
   ((beta "MCPServerCapabilities"), schema_beta_MCPServerCapabilities);
   ((beta "MCPServerInfo"), schema_beta_MCPServerInfo); ((beta "MCPServerSpec"), schema_beta_MCPServerSpec);
   ((beta "MCPServerStatus"), schema_beta_MCPServerStatus);
   ((beta "MountPermissions"), schema_beta_MountPermissions); ((beta "NetworkConfig"), schema_beta_NetworkConfig);
   ((beta "RuntimeConfig"), schema_beta_RuntimeConfig); ((beta "SecretReference"), schema_beta_SecretReference);
   ((beta "SecurityConfig"), schema_beta_SecurityConfig); ((beta "ServerConfig"), schema_beta_ServerConfig);
   ((beta "ServiceReference"), schema_beta_ServiceReference); ((beta "Source"), schema_beta_Source);
   ((beta "SourceType"), schema_beta_SourceType); ((beta "StorageMount"), schema_beta_StorageMount);
   ((beta "StorageSource"), schema_beta_StorageSource); ((beta "StorageType"), schema_beta_StorageType);
   ((beta "TLSClientConfig"), schema_beta_TLSClientConfig); ((beta "TransportConfig"), schema_beta_TransportConfig);
   ((beta "WorkloadKind"), schema_beta_WorkloadKind); ((beta "WorkloadReference"), schema_beta_WorkloadReference);
   ((core "AppArmorProfile"), schema_core_AppArmorProfile);
   ((core "AppArmorProfileType"), schema_core_AppArmorProfileType);
   ((core "Capabilities"), schema_core_Capabilities); ((core "Capability"), schema_core_Capability);
   ((core "ConfigMapEnvSource"), schema_core_ConfigMapEnvSource);
   ((core "ConfigMapKeySelector"), schema_core_ConfigMapKeySelector);
   ((core "ConfigMapVolumeSource"), schema_core_ConfigMapVolumeSource);
   ((core "EmptyDirVolumeSource"), schema_core_EmptyDirVolumeSource);
   ((core "EnvFromSource"), schema_core_EnvFromSource); ((core "EnvVar"), schema_core_EnvVar);
   ((core "EnvVarSource"), schema_core_EnvVarSource); ((core "ExecAction"), schema_core_ExecAction);
   ((core "FileKeySelector"), schema_core_FileKeySelector); ((core "GRPCAction"), schema_core_GRPCAction);
   ((core "GRPCProbeMode"), schema_core_GRPCProbeMode); ((core "HTTPGetAction"), schema_core_HTTPGetAction);
   ((core "HTTPHeader"), schema_core_HTTPHeader); ((core "HTTPProtocol"), schema_core_HTTPProtocol);
   ((core "KeyToPath"), schema_core_KeyToPath); ((core "LocalObjectReference"), schema_core_LocalObjectReference);
   ((core "ObjectFieldSelector"), schema_core_ObjectFieldSelector);
   ((core "PodFSGroupChangePolicy"), schema_core_PodFSGroupChangePolicy);
   ((core "PodSELinuxChangePolicy"), schema_core_PodSELinuxChangePolicy);
   ((core "PodSecurityContext"), schema_core_PodSecurityContext); ((core "Probe"), schema_core_Probe);
   ((core "ProcMountType"), schema_core_ProcMountType); ((core "Protocol"), schema_core_Protocol);
   ((core "PullPolicy"), schema_core_PullPolicy); ((core "ResourceClaim"), schema_core_ResourceClaim);
   ((core "ResourceFieldSelector"), schema_core_ResourceFieldSelector);
   ((core "ResourceList"), schema_core_ResourceList);
   ((core "ResourceRequirements"), schema_core_ResourceRequirements);
   ((core "SELinuxOptions"), schema_core_SELinuxOptions); ((core "SeccompProfile"), schema_core_SeccompProfile);
   ((core "SeccompProfileType"), schema_core_SeccompProfileType);
   ((core "SecretEnvSource"), schema_core_SecretEnvSource);
   ((core "SecretKeySelector"), schema_core_SecretKeySelector);
   ((core "SecretVolumeSource"), schema_core_SecretVolumeSource);
   ((core "SecurityContext"), schema_core_SecurityContext); ((core "StorageMedium"), schema_core_StorageMedium);
   ((core "SupplementalGroupsPolicy"), schema_core_SupplementalGroupsPolicy); ((core "Sysctl"), schema_core_Sysctl);
   ((core "TCPSocketAction"), schema_core_TCPSocketAction); ((core "URIScheme"), schema_core_URIScheme);
   ((core "WindowsSecurityContextOptions"), schema_core_WindowsSecurityContextOptions);
   ((networking "IPBlock"), schema_networking_IPBlock);
   ((networking "NetworkPolicyPeer"), schema_networking_NetworkPolicyPeer);
   ((networking "NetworkPolicyPort"), schema_networking_NetworkPolicyPort);
   ("io.k8s.apimachinery.pkg.api.resource.Quantity", schema_Quantity); ((meta "Condition"), schema_meta_Condition);
   ((meta "ConditionStatus"), schema_meta_ConditionStatus); ((meta "FieldsV1"), schema_meta_FieldsV1);
   ((meta "LabelSelector"), schema_meta_LabelSelector);
   ((meta "LabelSelectorOperator"), schema_meta_LabelSelectorOperator);
   ((meta "LabelSelectorRequirement"), schema_meta_LabelSelectorRequirement);
   ((meta "ManagedFieldsEntry"), schema_meta_ManagedFieldsEntry);
   ((meta "ManagedFieldsOperationType"), schema_meta_ManagedFieldsOperationType);
   ((meta "ObjectMeta"), schema_meta_ObjectMeta); ((meta "OwnerReference"), schema_meta_OwnerReference);
   ((meta "Time"), schema_meta_Time); ("io.k8s.apimachinery.pkg.types.UID", schema_UID);
   ("io.k8s.apimachinery.pkg.util.intstr.IntOrString", schema_IntOrString);
   ("__untyped_atomic_", schema_untyped_atomic); ("__untyped_deduced_", schema_untyped_deduced)].

(** ** The JSON names of the configurations' fields *)

Definition acv1beta1_ContainerImageSource_json : list (string * string) :=
  [("Ref", "ref"); ("PullPolicy", "pullPolicy"); ("ImagePullSecrets", "imagePullSecrets")].
Definition acv1beta1_GatewayBindingStatus_json : list (string * string) :=
  [("Name", "name"); ("Provider", "provider")].
Definition acv1beta1_GatewaySpec_json : list (string * string) :=
  [("Provider", "provider"); ("ConfigRef", "configRef")].
Definition acv1beta1_HealthConfig_json : list (string * string) :=
  [("LivenessProbe", "livenessProbe"); ("ReadinessProbe", "readinessProbe")].
Definition acv1beta1_MCPConfig_json : list (string * string) := [("Stateless", "stateless")].
Definition acv1beta1_MCPServer_json : list (string * string) :=
  [("Kind", "kind"); ("APIVersion", "apiVersion"); ("ObjectMetaApplyConfiguration", "metadata"); ("Spec", "spec");
   ("Status", "status")].
Definition acv1beta1_MCPServerAddress_json : list (string * string) := [("URL", "url")].
Definition acv1beta1_MCPServerCapabilities_json : list (string * string) :=
  [("Tools", "tools"); ("Resources", "resources"); ("Prompts", "prompts"); ("Logging", "logging");
   ("Completions", "completions")].
Definition acv1beta1_MCPServerInfo_json : list (string * string) :=
  [("Name", "name"); ("Version", "version"); ("ProtocolVersion", "protocolVersion");
   ("Instructions", "instructions"); ("Capabilities", "capabilities")].
Definition acv1beta1_MCPServerSpec_json : list (string * string) :=
  [("ExtraLabels", "extraLabels"); ("ExtraAnnotations", "extraAnnotations"); ("WorkloadRef", "workloadRef");
   ("ServiceRef", "serviceRef"); ("Source", "source"); ("Config", "config"); ("Runtime", "runtime"); ("MCP", "mcp");
   ("Network", "network"); ("Transport", "transport"); ("Gateway", "gateway")].
Definition acv1beta1_MCPServerStatus_json : list (string * string) :=
  [("ObservedGeneration", "observedGeneration"); ("DeploymentName", "deploymentName");
   ("ServiceName", "serviceName"); ("WorkloadName", "workloadName"); ("WorkloadSummary", "workloadSummary");
   ("GatewayBinding", "gatewayBinding"); ("Address", "address"); ("ServerInfo", "serverInfo");
   ("Replicas", "replicas"); ("ReadyReplicas", "readyReplicas"); ("Conditions", "conditions")].
Definition acv1beta1_NetworkConfig_json : list (string * string) :=
  [("IngressFrom", "ingressFrom"); ("EgressTo", "egressTo"); ("EgressPorts", "egressPorts");
   ("DNSEgressPeer", "dnsEgressPeer")].
Definition acv1beta1_RuntimeConfig_json : list (string * string) :=
  [("Replicas", "replicas"); ("Security", "security"); ("Resources", "resources"); ("Health", "health")].
Definition acv1beta1_SecretReference_json : list (string * string) := [("Name", "name")].
Definition acv1beta1_SecurityConfig_json : list (string * string) :=
  [("ServiceAccountName", "serviceAccountName"); ("PodSecurityContext", "podSecurityContext");
   ("SecurityContext", "securityContext")].
Definition acv1beta1_ServerConfig_json : list (string * string) :=
  [("Port", "port"); ("Arguments", "arguments"); ("Env", "env"); ("EnvFrom", "envFrom"); ("Storage", "storage");
   ("Path", "path")].
Definition acv1beta1_ServiceReference_json : list (string * string) := [("Name", "name")].
Definition acv1beta1_Source_json : list (string * string) := [("Type", "type"); ("ContainerImage", "containerImage")].
Definition acv1beta1_StorageMount_json : list (string * string) :=
  [("Path", "path"); ("Permissions", "permissions"); ("Source", "source")].
Definition acv1beta1_StorageSource_json : list (string * string) :=
  [("Type", "type"); ("ConfigMap", "configMap"); ("Secret", "secret"); ("EmptyDir", "emptyDir")].
Definition acv1beta1_TLSClientConfig_json : list (string * string) :=
  [("Enabled", "enabled"); ("CABundleSecret", "caBundleSecret"); ("InsecureSkipVerify", "insecureSkipVerify")].
Definition acv1beta1_TransportConfig_json : list (string * string) := [("TLS", "tls")].
Definition acv1beta1_WorkloadReference_json : list (string * string) := [("Name", "name"); ("Kind", "kind")].

Definition jsonNames : list (string * list (string * string)) :=
  [("acv1beta1.ContainerImageSource", acv1beta1_ContainerImageSource_json);
   ("acv1beta1.GatewayBindingStatus", acv1beta1_GatewayBindingStatus_json);
   ("acv1beta1.GatewaySpec", acv1beta1_GatewaySpec_json); ("acv1beta1.HealthConfig", acv1beta1_HealthConfig_json);
   ("acv1beta1.MCPConfig", acv1beta1_MCPConfig_json); ("acv1beta1.MCPServer", acv1beta1_MCPServer_json);
   ("acv1beta1.MCPServerAddress", acv1beta1_MCPServerAddress_json);
   ("acv1beta1.MCPServerCapabilities", acv1beta1_MCPServerCapabilities_json);
   ("acv1beta1.MCPServerInfo", acv1beta1_MCPServerInfo_json);
   ("acv1beta1.MCPServerSpec", acv1beta1_MCPServerSpec_json);
   ("acv1beta1.MCPServerStatus", acv1beta1_MCPServerStatus_json);
   ("acv1beta1.NetworkConfig", acv1beta1_NetworkConfig_json);
   ("acv1beta1.RuntimeConfig", acv1beta1_RuntimeConfig_json);
   ("acv1beta1.SecretReference", acv1beta1_SecretReference_json);
   ("acv1beta1.SecurityConfig", acv1beta1_SecurityConfig_json);
   ("acv1beta1.ServerConfig", acv1beta1_ServerConfig_json);
   ("acv1beta1.ServiceReference", acv1beta1_ServiceReference_json); ("acv1beta1.Source", acv1beta1_Source_json);
   ("acv1beta1.StorageMount", acv1beta1_StorageMount_json);
   ("acv1beta1.StorageSource", acv1beta1_StorageSource_json);
   ("acv1beta1.TLSClientConfig", acv1beta1_TLSClientConfig_json);
   ("acv1beta1.TransportConfig", acv1beta1_TransportConfig_json);
   ("acv1beta1.WorkloadReference", acv1beta1_WorkloadReference_json)].

(** ** Well-formed schemas *)

Fixpoint namedIn (r : ref) : list string :=
  match r with
  | Named n => [n]
  | Scalar _ => []
  | ListOf e _ _ => namedIn e
  | MapOf e => namedIn e
  | AnyOf _ e _ v _ => namedIn e ++ namedIn v
  end.

Definition refsOf (d : typeDef) : list ref :=
  match d with
  | StructType fs | AtomicStruct fs => map sf_type fs
  | MapType e => [e]
  | ScalarType _ => []
  | UntypedType _ e _ v _ => [e; v]
  end.

(** The fields of the struct that a reference leads to. *)
Definition structOf (r : ref) : option (list schemaField) :=
  match r with
  | Named n => match field n schemaTypes with Some (StructType fs) | Some (AtomicStruct fs) => Some fs | _ => None end
  | _ => None
  end.

Definition scalarOf (r : ref) : option string :=
  match r with
  | Scalar s => Some s
  | Named n => match field n schemaTypes with Some (ScalarType s) => Some s | _ => None end
  | _ => None
  end.

Definition typeOfField (n : string) (fs : list schemaField) : option ref :=
  sf_type <$> List.find (fun f => String.eqb (sf_name f) n) fs.

(** The keys of an associative list are scalars of its elements, there is one at least, and
    no other list has keys; an associative list of scalars is a set. *)
Definition keysExist (r : ref) : bool :=
  match r with
  | ListOf e rel keys =>
      if String.eqb rel "associative" then
        match structOf e with
        | Some fs => negb (List.length keys =? 0)%nat && forallb (fun k => match typeOfField k fs ≫= scalarOf with Some _ => true | None => false end) keys
        | None => match scalarOf e with Some _ => (List.length keys =? 0)%nat | None => false end
        end
      else (List.length keys =? 0)%nat
  | _ => true
  end.

Definition defined (n : string) : bool := match field n schemaTypes with Some _ => true | None => false end.
Definition wellFormedType (d : typeDef) : bool := forallb (fun r => forallb defined (namedIn r) && keysExist r) (refsOf d).

Lemma types_well_formed : forallb (fun t => wellFormedType t.2) schemaTypes = true.
Proof. vm_compute. reflexivity. Qed.

(** The schema can be resolved wherever the API machinery follows it: every type it names is
    defined, and what identifies the elements of an associative list are scalar fields they
    have. *)
Lemma schema_well_formed T d r : field T schemaTypes = Some d -> In r (refsOf d) ->
  (forall n, In n (namedIn r) -> exists d', field n schemaTypes = Some d') /\
  (forall e keys, r = ListOf e "associative" keys ->
     match structOf e with
     | Some fs => keys <> [] /\ forall k, In k keys -> exists t s, typeOfField k fs = Some t /\ scalarOf t = Some s
     | None => keys = [] /\ exists s, scalarOf e = Some s
     end).
Proof.
  intros HT Hr. pose proof types_well_formed as Hall. rewrite forallb_forall in Hall. specialize (Hall _ (field_entry _ _ _ HT)).
  unfold wellFormedType in Hall. cbn [fst snd] in Hall. rewrite forallb_forall in Hall. apply Hall, andb_true_iff in Hr as [Hn Hk]. split.
  - intros n Hin. rewrite forallb_forall in Hn. apply Hn in Hin. unfold defined in Hin. destruct (field n schemaTypes) as [d'|]; [by exists d'|done].
  - intros e keys ->. unfold keysExist in Hk. rewrite String.eqb_refl in Hk. destruct (structOf e) as [fs|].
    + apply andb_true_iff in Hk as [Hne Hks]. split; [by intros ->|]. intros k Hin. rewrite forallb_forall in Hks. apply Hks in Hin.
      destruct (typeOfField k fs) as [t|]; cbn in Hin; [|done]. destruct (scalarOf t) as [s|] eqn:Es; [by exists t, s|done].
    + destruct (scalarOf e) as [s|]; [|done]. apply Nat.eqb_eq in Hk. split; [by destruct keys|by exists s].
Qed.

(** ** What configurations look like to the API machinery *)

Inductive json :=
  | JNull
  | JString (s : string)
  | JBoolean (b : bool)
  | JNumber (z : Z)
  | JArray (vs : list json)
  | JObject (fs : list (string * json)).

(** What the API machinery allows where it expects values of a type: the kind of scalars, the
    type of the elements of a list, and the fields of an object, by their names or all alike;
    types that are untyped allow all three. *)
Inductive objectShape := Fields (fs : list schemaField) | Entries_ (e : ref).
Record atom := { at_scalar : option string; at_list : option ref; at_map : option objectShape }.

Definition atomOf (d : typeDef) : atom :=
  match d with
  | StructType fs | AtomicStruct fs => {| at_scalar := None; at_list := None; at_map := Some (Fields fs) |}
  | MapType e => {| at_scalar := None; at_list := None; at_map := Some (Entries_ e) |}
  | ScalarType s => {| at_scalar := Some s; at_list := None; at_map := None |}
  | UntypedType s e _ v _ => {| at_scalar := Some s; at_list := Some e; at_map := Some (Entries_ v) |}
  end.

Definition resolve (r : ref) : option atom :=
  match r with
  | Named n => atomOf <$> field n schemaTypes
  | Scalar s => Some {| at_scalar := Some s; at_list := None; at_map := None |}
  | ListOf e _ _ => Some {| at_scalar := None; at_list := Some e; at_map := None |}
  | MapOf e => Some {| at_scalar := None; at_list := None; at_map := Some (Entries_ e) |}
  | AnyOf s e _ v _ => Some {| at_scalar := Some s; at_list := Some e; at_map := Some (Entries_ v) |}
  end.

(** Where [r] is expected a scalar of kind [s] is allowed. *)
Definition allows (r : ref) (s : string) : Prop := exists a s', resolve r = Some a /\ at_scalar a = Some s' /\ (s' = s \/ s' = "untyped").
Definition fieldType (o : objectShape) (n : string) : option ref :=
  match o with Fields fs => typeOfField n fs | Entries_ e => Some e end.

(** [v] has the shape that [r] prescribes: objects have fields of the schema only.  Null is a
    value of every type. *)
Fixpoint shaped (r : ref) (v : json) {struct v} : Prop :=
  match v with
  | JNull => is_Some (resolve r)
  | JString _ => allows r "string"
  | JBoolean _ => allows r "boolean"
  | JNumber _ => allows r "numeric"
  | JArray vs => exists a e, resolve r = Some a /\ at_list a = Some e /\ all1 (shaped e) vs
  | JObject fs => exists a o, resolve r = Some a /\ at_map a = Some o /\
                    all1 (fun f => exists t, fieldType o f.1 = Some t /\ shaped t f.2) fs
  end.

Lemma scalar_allows r s : scalarOf r = Some s -> allows r s.
Proof.
  unfold scalarOf, allows. destruct r as [n|s'| | |]; try done.
  - destruct (field n schemaTypes) as [[| | |s'|]|] eqn:E; try done. intros [= ->]. cbn [resolve]. rewrite E. eexists _, _. split; [reflexivity|]. split; [reflexivity|by left].
  - intros [= ->]. eexists _, _. split; [reflexivity|]. split; [reflexivity|by left].
Qed.

Lemma struct_resolves r sfs : structOf r = Some sfs -> exists a, resolve r = Some a /\ at_map a = Some (Fields sfs).
Proof.
  unfold structOf. destruct r as [n| | | |]; try done.
  destruct (field n schemaTypes) as [[| | | |]|] eqn:E; try done; intros [= ->]; cbn [resolve]; rewrite E; eexists; (split; [reflexivity|done]).
Qed.

(** How the structs of other modules are marshalled. *)
Class Marshaller := foreignJSON : string -> list (string * deep) -> json.

Section marshal.
Context `{Foreign} `{Marshaller}.

(** What [omitempty] leaves out: the zero values but for structs, and whatever has no elements. *)
Definition omitted (d : deep) : bool :=
  match d with
  | DStr s => bool_decide (s = "")
  | DBool b => negb b
  | DInt z => (z =? 0)%Z
  | DNilPtr | DNilSlice | DNilMap => true
  | DSlice ds => (List.length ds =? 0)%nat
  | DMap m => bool_decide (m = ∅)
  | DPtr _ | DStruct _ => false
  end.

(** The fields of a struct that are not omitted. *)
Definition marshalFields (m : ty -> deep -> json) (names : list (string * string)) : list (string * ty) -> list (string * deep) -> list (string * json) :=
  fix go ts ds {struct ds} :=
    match ts, ds with
    | (F, t) :: ts', (_, d) :: ds' =>
        match field F names with
        | Some j => if omitted d then go ts' ds' else (j, m t d) :: go ts' ds'
        | None => go ts' ds'
        end
    | _, _ => []
    end.

(** [json.Marshal] of a configuration, whose fields are all [omitempty]. *)
Fixpoint marshal (t : ty) (d : deep) {struct d} : json :=
  match d with
  | DStr s => JString s
  | DBool b => JBoolean b
  | DInt z => JNumber z
  | DNilPtr | DNilSlice | DNilMap => JNull
  | DPtr d' => match t with TPtr t' => marshal t' d' | _ => JNull end
  | DSlice ds => match t with TSlice t' => JArray (map (marshal t') ds) | _ => JNull end
  | DMap m => JObject (map (fun e => (e.1, JString e.2)) (map_to_list m))
  | DStruct ds =>
      match t with
      | TStruct n =>
          match field n structs, field n jsonNames with
          | Some ts, Some names => JObject (marshalFields marshal names ts ds)
          | _, _ => foreignJSON n ds
          end
      | _ => JNull
      end
  end.

(** The schema's name for a struct. *)
Definition schemaName (n : string) : option string :=
  match String.index 0 "." n with
  | Some i =>
      let pkg := String.substring 0 i n in
      let name := String.substring (S i) (String.length n - S i) n in
      if String.eqb pkg "acv1beta1" then Some (beta name)
      else if String.eqb pkg "corev1" then Some (core name)
      else if String.eqb pkg "networkingv1" then Some (networking name)
      else if String.eqb pkg "metav1ac" then Some (meta name)
      else None
  | None => None
  end.

(** Values of [t] are shaped by [r]. *)
Fixpoint ofType (t : ty) (r : ref) : bool :=
  match t with
  | TStr => bool_decide (scalarOf r = Some "string")
  | TBool => bool_decide (scalarOf r = Some "boolean")
  | TInt => bool_decide (scalarOf r = Some "numeric")
  | TPtr t' => ofType t' r
  | TSlice t' => match r with ListOf e _ _ => ofType t' e | _ => false end
  | TMap => match r with MapOf e => bool_decide (scalarOf e = Some "string") | _ => false end
  | TStruct n => match r, schemaName n with Named m, Some m' => String.eqb m m' && defined m | _, _ => false end
  end.

(** The fields of a struct are those of its schema. *)
Definition conforms (T : string) (ts : list (string * ty)) : bool :=
  match field T jsonNames, schemaName T ≫= (fun n => structOf (Named n)) with
  | Some names, Some sfs =>
      forallb (fun f => match field f.1 names with
                        | Some j => match typeOfField j sfs with Some r => ofType f.2 r | None => false end
                        | None => false
                        end) ts
      && (List.length ts =? List.length sfs)%nat && bool_decide (NoDup (map snd names))
  | _, _ => false
  end.

Definition ofBeta (T : string) : bool := String.prefix "acv1beta1." T.

Lemma structs_conform : forallb (fun x => negb (ofBeta x.1) || conforms x.1 x.2) structs = true.
Proof. vm_compute. reflexivity. Qed.

(** The other modules' structs that the schema knows are marshalled to what it has them be. *)
Class MarshallerLaws : Prop := foreign_shaped : forall n m ds, field n structs = None -> schemaName n = Some m -> defined m = true ->
  hasType acFieldsOf (TStruct n) (DStruct ds) -> shaped (Named m) (foreignJSON n ds).
Context `{MarshallerLaws}.

Lemma conforming T ts : field T structs = Some ts -> ofBeta T = true ->
  exists names m sfs, field T jsonNames = Some names /\ schemaName T = Some m /\ structOf (Named m) = Some sfs /\
    Forall (fun f => exists j r, field f.1 names = Some j /\ typeOfField j sfs = Some r /\ ofType f.2 r = true) ts.
Proof.
  intros HT Hb. pose proof structs_conform as Hall. rewrite forallb_forall in Hall. specialize (Hall _ (field_entry _ _ _ HT)).
  cbn [fst snd] in Hall. rewrite Hb in Hall. cbn [negb orb] in Hall. unfold conforms in Hall.
  destruct (field T jsonNames) as [names|]; [|done]. destruct (schemaName T) as [m|]; [|done]. cbn [mbind option_bind] in Hall.
  destruct (structOf (Named m)) as [sfs|] eqn:Es; [|done]. exists names, m, sfs. split; [done|]. split; [done|]. split; [done|].
  rewrite !andb_true_iff in Hall. destruct Hall as [[Hall _] _]. rewrite forallb_forall in Hall. apply List.Forall_forall. intros f Hf. specialize (Hall f Hf).
  destruct (field f.1 names) as [j|]; [|done]. destruct (typeOfField j sfs) as [r|] eqn:Er; [|done]. by exists j, r.
Qed.

(** The version of a struct that the schema knows. *)
Definition versioned (x : string * list (string * ty)) : bool := ofBeta x.1 || match schemaName x.1 with None => true | _ => false end.
Lemma structs_versioned : forallb versioned structs = true.
Proof. vm_compute. reflexivity. Qed.

Lemma known_struct n m ts : field n structs = Some ts -> schemaName n = Some m -> ofBeta n = true.
Proof.
  intros HT Hm. pose proof structs_versioned as Hall. rewrite forallb_forall in Hall. specialize (Hall _ (field_entry _ _ _ HT)).
  unfold versioned in Hall. cbn [fst] in Hall. rewrite Hm, orb_false_r in Hall. done.
Qed.

Lemma marshalFields_shaped names sfs ts ds :
  Forall2 (fun f d => f.1 = d.1 /\ hasType acFieldsOf f.2 d.2) ts ds ->
  Forall (fun f => exists j r, field f.1 names = Some j /\ typeOfField j sfs = Some r /\ ofType f.2 r = true) ts ->
  Forall (fun d => forall t r, hasType acFieldsOf t d.2 -> ofType t r = true -> shaped r (marshal t d.2)) ds ->
  all1 (fun f => exists t, fieldType (Fields sfs) f.1 = Some t /\ shaped t f.2) (marshalFields marshal names ts ds).
Proof.
  induction 1 as [|[F t] [G d] ts ds [Hn Ht] _ IH]; intros Hc Hi; [done|]. cbn in Hn. subst G.
  apply Forall_cons in Hc as [(j & r & Hj & Hr & Hof) Hc]. apply Forall_cons in Hi as [Hd Hi]. cbn [fst snd] in *. specialize (IH Hc Hi).
  cbn [marshalFields]. rewrite Hj. destruct (omitted d); [exact IH|]. split; [|exact IH]. exists r. split; [exact Hr|by apply Hd].
Qed.

Lemma ofType_resolves t r : ofType t r = true -> is_Some (resolve r).
Proof.
  revert r. induction t as [| | |t IH|t IH| |n]; intros r; cbn [ofType]; try (intros (a & s & -> & _)%bool_decide_eq_true%scalar_allows; by exists a).
  - apply IH.
  - by destruct r.
  - by destruct r.
  - destruct r as [m| | | |]; try done. destruct (schemaName n); [|done]. intros [_ Hd]%andb_true_iff. unfold defined in Hd. cbn [resolve].
    destruct (field m schemaTypes); [by eexists|done].
Qed.

Lemma marshal_fits d : forall t r, hasType acFieldsOf t d -> ofType t r = true -> shaped r (marshal t d).
Proof.
  induction d as [s|b|z| |d IH| |ds IH| |m|ds IH] using deep_induction; intros t r Ht Hr; destruct t as [| | |t|t| |n]; try done;
    try (by apply (ofType_resolves _ _ Hr)); try (by apply bool_decide_eq_true, scalar_allows in Hr).
  - by apply (IH t r).
  - cbn [ofType] in Hr. destruct r as [| |e rel keys| |]; try done. cbn [marshal shaped]. eexists _, e. split; [reflexivity|]. split; [done|].
    cbn [hasType] in Ht. apply all1_Forall in Ht. apply all1_Forall, Forall_map.
    clear -IH Ht Hr. induction Ht as [|x xs Hx _ IHx]; constructor; apply Forall_cons in IH as [Hd IH]; [by apply Hd|by apply IHx].
  - cbn [ofType] in Hr. destruct r as [| | |e|]; try done. apply bool_decide_eq_true, scalar_allows in Hr. cbn [marshal shaped].
    eexists _, (Entries_ e). split; [reflexivity|]. split; [done|]. apply all1_Forall, Forall_map, Forall_true. intros y. by exists e.
  - cbn [ofType] in Hr. destruct r as [m| | | |]; try done. destruct (schemaName n) as [m'|] eqn:Em; [|done]. apply andb_true_iff in Hr as [Hm Hdef]. apply String.eqb_eq in Hm as <-.
    destruct (field n structs) as [ts|] eqn:HT.
    + destruct (conforming n ts HT (known_struct _ _ _ HT Em)) as (names & m' & sfs & Hn & Em' & Hs & Hc). rewrite Em in Em'. injection Em' as <-.
      cbn [marshal]. rewrite HT, Hn. destruct (struct_resolves _ _ Hs) as (a & Ha & Hmap). exists a, (Fields sfs). split; [done|]. split; [done|].
      cbn [hasType] in Ht. rewrite (struct_fields _ _ HT) in Ht. apply all2_Forall2 in Ht. by apply marshalFields_shaped.
    + cbn [marshal]. rewrite HT. by apply foreign_shaped.
Qed.

(** C28: Calls of the generated methods build what the schema prescribes for the struct: the
    fields that are sent have the names, and the values the types, by which the API machinery
    merges them.  What is sent is an object; the structs of other modules are sent as the
    schema has them be. *)
Theorem built_configurations_are_shaped `{GoRuntime} T ts calls args h :
  field T structs = Some ts -> ofBeta T = true -> Forall2 (fits T h) calls args ->
  let run := (b ⇐ new ts ;; callAll T calls b) h in
  match expected T args (zerosDeep ts) with
  | Some ds => returns T h run ds /\ exists m fs, schemaName T = Some m /\ marshal (TStruct T) (DStruct ds) = JObject fs /\ shaped (Named m) (JObject fs)
  | None => run = None
  end.
Proof.
  intros HT Hb Hall. pose proof (built_by_calls T ts calls args h HT Hall) as Hbuilt. cbn zeta.
  destruct (expected T args (zerosDeep ts)) as [ds|]; [|done]. destruct (conforming T ts HT Hb) as (names & m & sfs & Hn & Hm & Hs & _).
  split; [done|]. assert (Hdef : defined m = true) by (cbn [structOf] in Hs; unfold defined; by destruct (field m schemaTypes)).
  destruct Hbuilt as (_ & _ & _ & _ & _ & _ & Ht). assert (Hsh : shaped (Named m) (marshal (TStruct T) (DStruct ds))).
  { apply marshal_fits; [exact Ht|]. cbn [ofType]. by rewrite Hm, String.eqb_refl, Hdef. }
  exists m. revert Hsh. cbn [marshal]. rewrite HT, Hn. intros Hsh. by eexists.
Qed.

End marshal.

(** ** Client-go's condition and port, and how they are marshalled: a time as a string, a
    port by number as a number and by name as a string *)

Definition clientGo : Foreign := fun n =>
  if String.eqb n "metav1ac.Condition" then
    Some [("Type", TPtr TStr); ("Status", TPtr TStr); ("ObservedGeneration", TPtr TInt); ("LastTransitionTime", TPtr (TStruct "metav1.Time"));
          ("Reason", TPtr TStr); ("Message", TPtr TStr)]
  else if String.eqb n "metav1.Time" then Some [("Unix", TInt)]
  else if String.eqb n "networkingv1.NetworkPolicyPort" then Some [("Protocol", TPtr TStr); ("Port", TPtr (TStruct "intstr.IntOrString")); ("EndPort", TPtr TInt)]
  else if String.eqb n "intstr.IntOrString" then Some [("Type", TInt); ("IntVal", TInt); ("StrVal", TStr)]
  else None.

Definition stringField (j : string) (d : option deep) : list (string * json) :=
  match d with Some (DPtr (DStr s)) => [(j, JString s)] | _ => [] end.

Definition numberField (j : string) (d : option deep) : list (string * json) :=
  match d with Some (DPtr (DInt z)) => [(j, JNumber z)] | _ => [] end.

Definition foreignField (j : string) (to : list (string * deep) -> json) (d : option deep) : list (string * json) :=
  match d with Some (DPtr (DStruct ds)) => [(j, to ds)] | _ => [] end.

Definition timeJSON (ds : list (string * deep)) : json :=
  match field "Unix" ds with Some (DInt z) => JString ("1970-01-01T00:00:00Z plus " ++ pretty z ++ " seconds") | _ => JNull end.

Definition intOrStringJSON (ds : list (string * deep)) : json :=
  match field "Type" ds, field "IntVal" ds, field "StrVal" ds with
  | Some (DInt 0), Some (DInt z), _ => JNumber z
  | _, _, Some (DStr s) => JString s
  | _, _, _ => JNull
  end.

Definition clientJSON : Marshaller := fun n ds =>
  if String.eqb n "metav1ac.Condition" then
    JObject (stringField "type" (field "Type" ds) ++ stringField "status" (field "Status" ds) ++
             numberField "observedGeneration" (field "ObservedGeneration" ds) ++ foreignField "lastTransitionTime" timeJSON (field "LastTransitionTime" ds) ++
             stringField "reason" (field "Reason" ds) ++ stringField "message" (field "Message" ds))
  else if String.eqb n "networkingv1.NetworkPolicyPort" then
    JObject (stringField "protocol" (field "Protocol" ds) ++ foreignField "port" intOrStringJSON (field "Port" ds) ++ numberField "endPort" (field "EndPort" ds))
  else JObject (stringField "name" (field "Name" ds) ++ stringField "namespace" (field "Namespace" ds)).

Lemma all1_app {A} (P : A -> Prop) l l' : all1 P l -> all1 P l' -> all1 P (l ++ l').
Proof. rewrite !all1_Forall. apply Forall_app_2. Qed.

(** A field of the schema takes what allows its values. *)
Ltac allowed := eexists _, _; split; [reflexivity|]; split; [reflexivity|by (left + right)].

Lemma stringField_shaped o j d t : fieldType o j = Some t -> allows t "string" ->
  all1 (fun f => exists t, fieldType o f.1 = Some t /\ shaped t f.2) (stringField j d).
Proof. intros Hj Ha. destruct d as [[| | | |[]| | | | |]|]; try done. split; [|done]. by exists t. Qed.

Lemma numberField_shaped o j d t : fieldType o j = Some t -> allows t "numeric" ->
  all1 (fun f => exists t, fieldType o f.1 = Some t /\ shaped t f.2) (numberField j d).
Proof. intros Hj Ha. destruct d as [[| | | |[]| | | | |]|]; try done. split; [|done]. by exists t. Qed.

Lemma foreignField_shaped o j to d t : fieldType o j = Some t -> (forall ds, shaped t (to ds)) ->
  all1 (fun f => exists t, fieldType o f.1 = Some t /\ shaped t f.2) (foreignField j to d).
Proof. intros Hj Ha. destruct d as [[| | | |[]| | | | |]|]; try done. split; [|done]. exists t. split; [done|apply Ha]. Qed.

Lemma timeJSON_shaped ds : shaped (Named (meta "Time")) (timeJSON ds).
Proof. unfold timeJSON. destruct (field "Unix" ds) as [[]|]; try (by eexists). allowed. Qed.

Lemma intOrStringJSON_shaped ds : shaped (Named "io.k8s.apimachinery.pkg.util.intstr.IntOrString") (intOrStringJSON ds).
Proof.
  unfold intOrStringJSON. destruct (field "Type" ds) as [[| |[]| | | | | | |]|], (field "IntVal" ds) as [[]|], (field "StrVal" ds) as [[]|];
    try (by eexists); allowed.
Qed.

Lemma client_laws : @MarshallerLaws clientGo clientJSON.
Proof.
  intros n m ds HT Hm Hd Ht. cbn [hasType] in Ht. unfold acFieldsOf in Ht. rewrite HT in Ht. unfold foreign, clientGo in Ht. unfold foreignJSON, clientJSON.
  destruct (String.eqb_spec n "metav1ac.ObjectMeta") as [->|_].
  - vm_compute in Hm. injection Hm as <-. eexists _, _. split; [reflexivity|]. split; [reflexivity|]. cbn [String.eqb Ascii.eqb Bool.eqb].
    apply all1_app; (eapply stringField_shaped; [reflexivity|allowed]).
  - destruct (String.eqb_spec n "metav1ac.Condition") as [->|_].
    { vm_compute in Hm. injection Hm as <-. eexists _, _. split; [reflexivity|]. split; [reflexivity|].
      repeat (apply all1_app; [first [eapply stringField_shaped; [reflexivity|allowed] | eapply numberField_shaped; [reflexivity|allowed]
        | eapply foreignField_shaped; [reflexivity|apply timeJSON_shaped]]|]). eapply stringField_shaped; [reflexivity|allowed]. }
    destruct (String.eqb_spec n "metav1.Time") as [->|_]; [by vm_compute in Hm|].
    destruct (String.eqb_spec n "networkingv1.NetworkPolicyPort") as [->|_].
    { vm_compute in Hm. injection Hm as <-. eexists _, _. split; [reflexivity|]. split; [reflexivity|].
      apply all1_app; [eapply stringField_shaped; [reflexivity|allowed]|].
      apply all1_app; [eapply foreignField_shaped; [reflexivity|apply intOrStringJSON_shaped]|eapply numberField_shaped; [reflexivity|allowed]]. }
    destruct (String.eqb_spec n "intstr.IntOrString") as [->|_]; [by vm_compute in Hm|done].
Qed.

(** A closed value is read off the heap. *)
Ltac reads_all := repeat (cbn; match goal with
  | |- _ /\ _ => split
  | |- exists _, _ => eexists
  | |- _ ∉ [] => by intros ?%elem_of_nil
  | |- _ => reflexivity
  | |- _ => exact I
  end).

(** A status with a condition that has a transition time, and a network configuration with a
    port by number: what is built, and what is sent. *)
Lemma built_configurations_are_shaped_witness :
  let cell l v : loc * cell := (l, Var v) in
  let h : heap := list_to_map [cell 1%positive (VStr "Ready"); cell 2%positive (VStr "True"); cell 3%positive (VStruct [("Unix", VInt 7)]);
    cell 4%positive (VStruct [("Type", VPtr (Some 1%positive)); ("Status", VPtr (Some 2%positive)); ("ObservedGeneration", VPtr None);
                              ("LastTransitionTime", VPtr (Some 3%positive)); ("Reason", VPtr None); ("Message", VPtr None)]);
    (5%positive, Array [VPtr (Some 4%positive)]);
    cell 6%positive (VStruct [("Type", VInt 0); ("IntVal", VInt 443); ("StrVal", VStr "")]);
    (7%positive, Array [VStruct [("Protocol", VPtr None); ("Port", VPtr (Some 6%positive)); ("EndPort", VPtr None)]])] in
  let slice a := VSlice (Some {| w_array := a; w_offset := 0; w_len := 1 |}) in
  let condition := DStruct [("Type", DPtr (DStr "Ready")); ("Status", DPtr (DStr "True")); ("ObservedGeneration", DNilPtr);
    ("LastTransitionTime", DPtr (DStruct [("Unix", DInt 7)])); ("Reason", DNilPtr); ("Message", DNilPtr)] in
  let port := DStruct [("Protocol", DNilPtr); ("Port", DPtr (DStruct [("Type", DInt 0); ("IntVal", DInt 443); ("StrVal", DStr "")])); ("EndPort", DNilPtr)] in
  let status := setField "Conditions" (DSlice [condition]) (setField "Replicas" (DPtr (DInt 3)) (zerosDeep acv1beta1_MCPServerStatusApplyConfiguration)) in
  let network := setField "EgressPorts" (DSlice [port]) (zerosDeep acv1beta1_NetworkConfigApplyConfiguration) in
  (@returns clientGo "acv1beta1.MCPServerStatus" h
    ((b ⇐ @acv1beta1_MCPServerStatus ;; @callAll noSpare "acv1beta1.MCPServerStatus" [("Replicas", VInt 3); ("Conditions", slice 5%positive)] b) h) status /\
   exists m fs, schemaName "acv1beta1.MCPServerStatus" = Some m /\
     @marshal clientJSON (TStruct "acv1beta1.MCPServerStatus") (DStruct status) = JObject fs /\ shaped (Named m) (JObject fs)) /\
  (@returns clientGo "acv1beta1.NetworkConfig" h
    ((b ⇐ @acv1beta1_NetworkConfig ;; @callAll noSpare "acv1beta1.NetworkConfig" [("EgressPorts", slice 7%positive)] b) h) network /\
   exists m fs, schemaName "acv1beta1.NetworkConfig" = Some m /\
     @marshal clientJSON (TStruct "acv1beta1.NetworkConfig") (DStruct network) = JObject fs /\ shaped (Named m) (JObject fs)).
Proof.
  intros cell h slice condition port status network. split.
  - apply (@built_configurations_are_shaped clientGo clientJSON client_laws noSpare "acv1beta1.MCPServerStatus" acv1beta1_MCPServerStatusApplyConfiguration _
      [("Replicas", DInt 3); ("Conditions", DSlice [DPtr condition])] h eq_refl eq_refl).
    constructor; [|constructor; [|constructor]].
    + split; [done|]. exists TInt. split; [reflexivity|]. split; [done|]. split; [done|by intros ?].
    + split; [done|]. exists (TSlice (TPtr (TStruct "metav1ac.Condition"))). split; [reflexivity|]. split; [cbn; tauto|]. split; [|by intros ? [= <-]]. reads_all.
  - apply (@built_configurations_are_shaped clientGo clientJSON client_laws noSpare "acv1beta1.NetworkConfig" acv1beta1_NetworkConfigApplyConfiguration _
      [("EgressPorts", DSlice [port])] h eq_refl eq_refl).
    constructor; [|constructor]. split; [done|]. exists (TSlice (TStruct "networkingv1.NetworkPolicyPort")). split; [reflexivity|]. split; [cbn; tauto|]. split; [|by intros ? [= <-]]. reads_all.
Defined.

(** What they are sent as. *)
Example times_and_ports_are_sent :
  @marshal clientJSON (TStruct "acv1beta1.MCPServerStatus") (DStruct (setField "Conditions" (DSlice
    [DStruct [("Type", DPtr (DStr "Ready")); ("LastTransitionTime", DPtr (DStruct [("Unix", DInt 7)]))]]) (zerosDeep acv1beta1_MCPServerStatusApplyConfiguration))) =
    JObject [("conditions", JArray [JObject [("type", JString "Ready"); ("lastTransitionTime", JString "1970-01-01T00:00:00Z plus 7 seconds")]])] /\
  @marshal clientJSON (TStruct "acv1beta1.NetworkConfig") (DStruct (setField "EgressPorts" (DSlice
    [DStruct [("Port", DPtr (DStruct [("Type", DInt 0); ("IntVal", DInt 443); ("StrVal", DStr "")]))]]) (zerosDeep acv1beta1_NetworkConfigApplyConfiguration))) =
    JObject [("egressPorts", JArray [JObject [("port", JNumber 443)]])].
Proof. split; vm_compute; reflexivity. Qed.
