(* ===== verification/Interact.v ===== *)
(** * Controllers as interactive programs

    A controller talks to the API server, dials MCP endpoints, reads the clock
    and emits events, audit records and metrics.  A handler is a finite program
    [prog] whose nodes are such calls; the environment chooses every answer, so a
    theorem about [runs] covers every behaviour of the API server, including
    errors on any call and concurrent changes between calls.

    [M] threads the reconciler's in-memory state (two [sync.Map]s) through the
    program.  [wp] is the weakest precondition over all answers; [calls_all]
    the invariant that every call satisfies a predicate; [interp] runs a program
    against a concrete environment. *)

From S2P Require Import Prelude K8s GatewayApi ApiBeta ApiAlpha StatusAC.

(** ** API objects by kind *)

Inductive kind :=
| KMCPServer | KNamespace | KDeployment | KDaemonSet | KStatefulSet | KService
| KNetworkPolicy | KBinding | KConfigMap | KSecret
| KHTTPRoute | KGateway | KRegistration | KExtension.

Definition obj (k : kind) : Type :=
  match k with
  | KMCPServer => ApiBeta.MCPServer
  | KNamespace => Namespace
  | KDeployment => Deployment
  | KDaemonSet => DaemonSet
  | KStatefulSet => StatefulSet
  | KService => Service
  | KNetworkPolicy => NetworkPolicy
  | KBinding => MCPGatewayBinding
  | KConfigMap => ConfigMap
  | KSecret => Secret
  | KHTTPRoute => HTTPRoute
  | KGateway => Gateway
  | KRegistration => MCPServerRegistration
  | KExtension => MCPGatewayExtension
  end.

#[export] Instance kind_eq_dec : EqDecision kind.
Proof. solve_decision. Defined.

Definition meta_of (k : kind) : obj k -> ObjectMeta :=
  match k return obj k -> ObjectMeta with
  | KMCPServer => srv_meta
  | KNamespace => ns_meta
  | KDeployment => dep_meta
  | KDaemonSet => ds_meta
  | KStatefulSet => sts_meta
  | KService => svc_meta
  | KNetworkPolicy => np_meta
  | KBinding => mgb_meta
  | KConfigMap => cm_meta
  | KSecret => sec_meta
  | KHTTPRoute => route_meta
  | KGateway => gtw_meta
  | KRegistration => reg_meta
  | KExtension => ext_meta
  end.

(** ** Outputs: Kubernetes events, audit records and metric updates *)

Inductive metricOp :=
| CounterInc (metric : string) (labels : list (string * string))
| Observe (metric : string) (labels : list (string * string))
| RecordCondition (name namespace condType status reason : string)
| CleanupMetrics (name namespace : string).

Inductive output :=
| OEvent (eventtype reason action note : string)
| OAudit (operation : string) (fields : list (string * string))
| OMetric (op : metricOp).

(** ** Calls and their answers *)

(** [r.Get] reads through the manager's cache, [r.APIReader.Get] does not.
    [CPatch k base modified] sends the merge patch of the two objects, [CUpdateStatus]
    writes the status subresource, [CList] lists a kind in a namespace or in all. *)
Inductive reader := Cached | Direct.

Record Preconditions := { pre_uid : string; pre_resourceVersion : string }.

(** The TLS settings of the HTTP transport handed to the dialer. *)
Record TLSConfig := {
  tc_minVersion : Z;
  tc_insecureSkipVerify : bool;
  tc_rootCAs : option string;
  tc_cipherSuites : list Z;
  tc_curvePreferences : list Z
}.

Inductive Call :=
| CGet (rd : reader) (k : kind) (ns name : string)
| CCreate (k : kind) (o : obj k)
| CUpdate (k : kind) (o : obj k)
| CDelete (k : kind) (o : obj k) (pre : option Preconditions)
| CListPods (ns : string) (sel : LabelSelector)
| CListMCPServers (ns indexKey value : string)
| CApplyStatus (ns name : string) (st : MCPServerStatusApplyConfiguration)
| CPatch (k : kind) (base modified : obj k)
| CUpdateStatus (k : kind) (o : obj k)
| CList (k : kind) (ns : option string)
| CDial (url : string) (transport : option TLSConfig)
| CNow
| COut (o : output).

Definition resp (c : Call) : Type :=
  match c with
  | CGet _ k _ _ => result (obj k)
  | CCreate k _ => result (obj k)
  | CUpdate k _ => result (obj k)
  | CDelete _ _ _ => option error
  | CListPods _ _ => result (list Pod)
  | CListMCPServers _ _ _ => result (list ApiBeta.MCPServer)
  | CApplyStatus _ _ _ => option error
  | CPatch k _ _ => result (obj k)
  | CUpdateStatus _ _ => option error
  | CList k _ => result (list (obj k))
  | CDial _ _ => result (option ApiBeta.MCPServerInfo)
  | CNow => Z
  | COut _ => unit
  end.

Inductive prog (A : Type) : Type :=
| Ret (a : A)
| Do (c : Call) (k : resp c -> prog A).
Arguments Ret {A} a.
Arguments Do {A} c k.

Fixpoint pbind {A B} (p : prog A) (f : A -> prog B) : prog B :=
  match p with
  | Ret a => f a
  | Do c k => Do c (fun r => pbind (k r) f)
  end.

(** ** The reconciler's in-memory state *)

Record handshakeRetryState := { hr_generation : Z; hr_count : Z }.

Record RState := {
  tlsCABundleHashes : gmap string string;
  handshakeRetries : gmap string handshakeRetryState
}.

Definition M (A : Type) : Type := RState -> prog (A * RState).

#[export] Instance M_ret : MRet M := fun A a s => Ret (a, s).
#[export] Instance M_bind : MBind M := fun A B f m s => pbind (m s) (fun '(a, s') => f a s').

Definition call (c : Call) : M (resp c) := fun s => Do c (fun r => Ret (r, s)).
Definition get_state : M RState := fun s => Ret (s, s).
Definition put_state (s' : RState) : M unit := fun s => Ret (tt, s').
Definition out (o : output) : M unit := call (COut o).

(** [if err != nil { return nil, err }] *)
Notation "x ←? m ; k" :=
  (mbind (fun r => match r with Ok x => k | Err e => mret (Err e) end) m)
  (at level 20, m at level 100, k at level 200, only parsing) : go_scope.

(** ** Executions *)

Inductive event := Ev (c : Call) (r : resp c).

(** The object of kind [k] that a successful read returned. *)
Definition read_of (k : kind) (e : event) : option (obj k) :=
  match e with
  | Ev c r =>
      match c return resp c -> option (obj k) with
      | CGet _ k' _ _ => fun r =>
          match r with
          | Ok o => match decide (k' = k) with left H => Some (eq_rect k' obj o k H) | right _ => None end
          | Err _ => None
          end
      | _ => fun _ => None
      end r
  end.

(** The error of a failed read. *)
Definition read_error (e : event) : option error :=
  match e with
  | Ev c r =>
      match c return resp c -> option error with
      | CGet _ _ _ _ => fun r => match r with Ok _ => None | Err err => Some err end
      | _ => fun _ => None
      end r
  end.

Lemma Ev_get_inj rd k ns n a rd' ns' n' b :
  Ev (CGet rd k ns n) (Ok a) = Ev (CGet rd' k ns' n') (Ok b) -> a = b.
Proof.
  intros H. apply (f_equal (read_of k)) in H. simpl in H.
  destruct (decide (k = k)) as [e|]; [|done].
  rewrite (Eqdep_dec.UIP_dec kind_eq_dec e eq_refl) in H. by injection H.
Qed.

Fixpoint runs {A} (p : prog A) (tr : list event) (a : A) : Prop :=
  match p with
  | Ret b => tr = [] /\ a = b
  | Do c k => exists r tr', tr = Ev c r :: tr' /\ runs (k r) tr' a
  end.

Fixpoint wp {A} (p : prog A) (Q : list event -> A -> Prop) : Prop :=
  match p with
  | Ret a => Q [] a
  | Do c k => forall r, wp (k r) (fun tr a => Q (Ev c r :: tr) a)
  end.

Fixpoint calls_all {A} (P : Call -> Prop) (p : prog A) : Prop :=
  match p with
  | Ret _ => True
  | Do c k => P c /\ forall r, calls_all P (k r)
  end.

(** Running against an environment with state [S]. *)
Fixpoint interp {A S} (h : S -> forall c, resp c * S) (p : prog A) (s : S) : list event * A * S :=
  match p with
  | Ret a => ([], a, s)
  | Do c k => let '(r, s') := h s c in
              let '(tr, a, s'') := interp h (k r) s' in (Ev c r :: tr, a, s'')
  end.

(** ** Laws *)

Lemma pbind_ret_r {A} (p : prog A) : (forall Q, wp (pbind p Ret) Q <-> wp p Q).
Proof. induction p as [a|c k IH]; simpl; intros Q; [done|]. by setoid_rewrite IH. Qed.

Lemma wp_mono {A} (p : prog A) (Q Q' : list event -> A -> Prop) :
  wp p Q -> (forall tr a, Q tr a -> Q' tr a) -> wp p Q'.
Proof. revert Q Q'. induction p as [a|c k IH]; simpl; eauto. Qed.

Lemma wp_runs {A} (p : prog A) Q : wp p Q <-> forall tr a, runs p tr a -> Q tr a.
Proof.
  revert Q. induction p as [b|c k IH]; simpl; intros Q.
  - split; [by intros H tr a [-> ->]|auto].
  - setoid_rewrite IH. split.
    + intros H tr a (r & tr' & -> & Hr). eauto.
    + intros H r tr a Hr. eauto 6.
Qed.

Lemma wp_bind {A B} (p : prog A) (f : A -> prog B) Q :
  wp (pbind p f) Q <-> wp p (fun tr a => wp (f a) (fun tr' b => Q (tr ++ tr') b)).
Proof. revert Q. induction p as [a|c k IH]; simpl; intros Q; [done|]. by setoid_rewrite IH. Qed.

Lemma wp_conj {A} (p : prog A) Q1 Q2 :
  wp p Q1 -> wp p Q2 -> wp p (fun tr a => Q1 tr a /\ Q2 tr a).
Proof. rewrite !wp_runs. eauto. Qed.

Lemma calls_all_runs {A} P (p : prog A) tr a :
  calls_all P p -> runs p tr a -> Forall (fun e => let '(Ev c _) := e in P c) tr.
Proof.
  revert tr a. induction p as [b|c k IH]; simpl; intros tr a.
  - by intros _ [-> _].
  - intros [Hc Hk] (r & tr' & -> & Hr). constructor; [done|]. by eapply IH.
Qed.

Lemma calls_all_bind {A B} P (p : prog A) (f : A -> prog B) :
  calls_all P p -> (forall a, calls_all P (f a)) -> calls_all P (pbind p f).
Proof. induction p as [a|c k IH]; simpl; [auto|]. intros [Hc Hk] Hf. split; auto. Qed.

Lemma calls_all_mono {A} (P P' : Call -> Prop) (p : prog A) :
  (forall c, P c -> P' c) -> calls_all P p -> calls_all P' p.
Proof. intros HP. induction p as [a|c k IH]; simpl; [done|]. intros [Hc Hk]. split; auto. Qed.

Lemma interp_runs {A S} (h : S -> forall c, resp c * S) (p : prog A) s :
  runs p (fst (fst (interp h p s))) (snd (fst (interp h p s))).
Proof.
  revert s. induction p as [a|c k IH]; simpl; intros s; [done|].
  destruct (h s c) as [r s'] eqn:E. specialize (IH r s').
  destruct (interp h (k r) s') as [[tr a] s'']. simpl in *. eauto.
Qed.

(** *** The same notions on [M] *)

Definition mwp {A} (m : M A) (s : RState) (Q : list event -> A -> RState -> Prop) : Prop :=
  wp (m s) (fun tr '(a, s') => Q tr a s').

(** Every call of [m], from any state, satisfies [P]. *)
Definition mcalls {A} (P : Call -> Prop) (m : M A) : Prop := forall s, calls_all P (m s).

Lemma mwp_ret {A} (a : A) s Q : Q [] a s -> mwp (mret a) s Q.
Proof. done. Qed.

Lemma mwp_bind {A B} (m : M A) (f : A -> M B) s Q :
  mwp m s (fun tr a s' => mwp (f a) s' (fun tr' b s'' => Q (tr ++ tr') b s'')) -> mwp (m ≫= f) s Q.
Proof.
  unfold mwp, mbind, M_bind. rewrite wp_bind. intros H. eapply wp_mono; [exact H|].
  by intros tr [a s'].
Qed.

Lemma mwp_mono {A} (m : M A) s Q Q' :
  mwp m s Q -> (forall tr a s', Q tr a s' -> Q' tr a s') -> mwp m s Q'.
Proof. unfold mwp. intros H HQ. eapply wp_mono; [exact H|]. intros tr [a s']. auto. Qed.

Lemma mwp_call c s (Q : list event -> resp c -> RState -> Prop) :
  (forall r, Q [Ev c r] r s) -> mwp (call c) s Q.
Proof. unfold mwp. simpl. auto. Qed.

Lemma mwp_get s Q : Q [] s s -> mwp get_state s Q.
Proof. done. Qed.

Lemma mwp_put s s' Q : Q [] tt s' -> mwp (put_state s') s Q.
Proof. done. Qed.

Lemma mwp_runs {A} (m : M A) s Q :
  mwp m s Q -> forall tr a s', runs (m s) tr (a, s') -> Q tr a s'.
Proof. unfold mwp. rewrite wp_runs. intros H tr a s' Hr. by specialize (H tr (a, s') Hr). Qed.

(** Turns a goal about a run [H] into a weakest precondition. *)
Ltac by_wp H :=
  match type of H with
  | runs (?m ?s) ?tr (?a, ?s') =>
      pattern tr, a, s';
      match goal with |- ?Q tr a s' => refine (mwp_runs m s Q _ tr a s' H); clear H; cbv beta end
  end.

Lemma mcalls_ret {A} P (a : A) : mcalls P (mret a : M A).
Proof. done. Qed.

Lemma mcalls_bind {A B} P (m : M A) (f : A -> M B) :
  mcalls P m -> (forall a, mcalls P (f a)) -> mcalls P (m ≫= f).
Proof. intros Hm Hf s. apply calls_all_bind; [apply Hm|]. intros [a s']. apply Hf. Qed.

Lemma mcalls_call (P : Call -> Prop) c : P c -> mcalls P (call c).
Proof. intros H s. simpl. auto. Qed.

Lemma mcalls_get P : mcalls P get_state.
Proof. done. Qed.

Lemma mcalls_put P s : mcalls P (put_state s).
Proof. done. Qed.

Lemma mcalls_mono {A} (P P' : Call -> Prop) (m : M A) :
  (forall c, P c -> P' c) -> mcalls P m -> mcalls P' m.
Proof. intros HP Hm s. eapply calls_all_mono; [exact HP|apply Hm]. Qed.

(** A handler that never fails to answer produces a run: [runs] is inhabited by
    evaluating the program. *)
Lemma mrun {A E} (h : E -> forall c, resp c * E) (m : M A) s e tr a s' e' :
  interp h (m s) e = (tr, (a, s'), e') -> runs (m s) tr (a, s').
Proof. intros H. pose proof (interp_runs h (m s) e) as Hr. rewrite H in Hr. exact Hr. Qed.

Create HintDb calls discriminated.
#[export] Hint Resolve mcalls_ret mcalls_get mcalls_put : calls.

(** Walks a handler, splitting binds and case analyses, and leaves the calls
    whose predicate it cannot discharge. *)
Ltac calls_step :=
  match goal with
  | |- mcalls _ (mbind _ _) => apply mcalls_bind; [|intros ?]
  | |- mcalls _ (mret _) => apply mcalls_ret
  | |- mcalls _ (call _) => apply mcalls_call
  | |- mcalls _ (out _) => apply mcalls_call
  | |- mcalls _ get_state => apply mcalls_get
  | |- mcalls _ (put_state _) => apply mcalls_put
  | |- mcalls _ (match ?x with _ => _ end) => destruct x
  | |- mcalls _ (let '(_, _) := ?x in _) => destruct x
  end.

Ltac calls_tac := repeat (first [ solve [eauto with calls] | calls_step ]); try done.

(** ** A concrete environment, for evaluating handlers

    A fixed snapshot of the cluster; writes succeed unless [w_write] says otherwise. *)
Record World := {
  w_get : forall (rd : reader) (k : kind) (ns name : string), result (obj k);
  w_write : option error;
  w_pods : list Pod;
  w_servers : list ApiBeta.MCPServer;
  w_list : forall (k : kind) (ns : option string), list (obj k);
  w_status : option error;
  w_dial : result (option ApiBeta.MCPServerInfo);
  w_now : Z
}.

Definition answer (w : World) (_ : unit) (c : Call) : resp c * unit :=
  (match c return resp c with
   | CGet rd k ns name => w_get w rd k ns name
   | CCreate k o => match w_write w with Some e => Err e | None => Ok o end
   | CUpdate k o => match w_write w with Some e => Err e | None => Ok o end
   | CDelete _ _ _ => w_write w
   | CListPods _ _ => Ok (w_pods w)
   | CListMCPServers _ _ _ => Ok (w_servers w)
   | CApplyStatus _ _ _ => w_status w
   | CPatch k _ o => match w_write w with Some e => Err e | None => Ok o end
   | CUpdateStatus _ _ => w_status w
   | CList k ns => Ok (w_list w k ns)
   | CDial _ _ => w_dial w
   | CNow => w_now w
   | COut _ => tt
   end, tt).

(** The run of [m] from [s] in the world [w]. *)
Definition run_in {A} (w : World) (m : M A) (s : RState) : list event * (A * RState) :=
  fst (interp (answer w) (m s) tt).

Definition emptyState : RState := {| tlsCABundleHashes := ∅; handshakeRetries := ∅ |}.

(** An empty cluster. *)
Definition emptyWorld : World :=
  {| w_get := fun _ _ _ _ => Err (StatusError NotFound "not found"); w_write := None; w_pods := [];
     w_servers := []; w_list := fun _ _ => []; w_status := None; w_dial := Err (Errorf "connection refused"); w_now := 0 |}.

Lemma run_in_runs {A} w (m : M A) s : runs (m s) (fst (run_in w m s)) (snd (run_in w m s)).
Proof. apply interp_runs. Qed.

(** ** Calls judged by what was observed before them

    [guard P h p]: in every execution of [p] after the events [h] (latest first),
    each call [c] made after the events [h'] satisfies [P h' c]. *)
Fixpoint guard {A} (P : list event -> Call -> Prop) (h : list event) (p : prog A) : Prop :=
  match p with
  | Ret _ => True
  | Do c k => P h c /\ forall r, guard P (Ev c r :: h) (k r)
  end.

Definition mguard {A} (P : list event -> Call -> Prop) (m : M A) : Prop := forall s h, guard P h (m s).

Lemma guard_bind_hist {A B} P (p : prog A) (f : A -> prog B) h :
  guard P h p -> (forall tr a, runs p tr a -> guard P (rev tr ++ h) (f a)) -> guard P h (pbind p f).
Proof.
  revert h. induction p as [a|c k IH]; simpl; intros h Hp Hf.
  - apply (Hf [] a). auto.
  - destruct Hp as [Hc Hk]. split; [done|]. intros r. apply IH; [done|].
    intros tr a Hr. specialize (Hf (Ev c r :: tr) a). simpl in Hf. rewrite <- app_assoc in Hf.
    apply Hf. eauto.
Qed.

Lemma guard_bind {A B} P (p : prog A) (f : A -> prog B) h :
  guard P h p -> (forall h' a, guard P h' (f a)) -> guard P h (pbind p f).
Proof. intros Hp Hf. apply guard_bind_hist; auto. Qed.

Lemma guard_trace {A} P (p : prog A) h tr a tr1 c r tr2 :
  guard P h p -> runs p tr a -> tr = tr1 ++ Ev c r :: tr2 -> P (rev tr1 ++ h) c.
Proof.
  revert h tr tr1. induction p as [b|c' k IH]; simpl; intros h tr tr1.
  - intros _ [-> _]. by destruct tr1.
  - intros [Hc Hk] (r' & tr' & -> & Hr) Heq. destruct tr1 as [|e tr1]; simpl in *.
    + by injection Heq as <- _ _.
    + injection Heq as <- ->. rewrite <- app_assoc. by eapply (IH r' (Ev c' r' :: h) (tr1 ++ Ev c r :: tr2)).
Qed.

Lemma mguard_ret {A} P (a : A) : mguard P (mret a : M A).
Proof. done. Qed.

Lemma mguard_bind {A B} P (m : M A) (f : A -> M B) :
  mguard P m -> (forall a, mguard P (f a)) -> mguard P (m ≫= f).
Proof. intros Hm Hf s h. apply guard_bind; [apply Hm|]. intros h' [a s']. apply Hf. Qed.

Lemma mguard_call (P : list event -> Call -> Prop) c : (forall h, P h c) -> mguard P (call c).
Proof. intros H s h. simpl. auto. Qed.

Lemma guard_call {B} (P : list event -> Call -> Prop) c (f : resp c -> M B) s h :
  P h c -> (forall r, guard P (Ev c r :: h) (f r s)) -> guard P h ((call c ≫= f) s).
Proof. intros Hc Hf. simpl. split; [apply Hc|]. intros r. apply Hf. Qed.

Lemma mguard_read {B} (P : list event -> Call -> Prop) c (f : resp c -> M B) :
  (forall h, P h c) -> (forall r s h, guard P (Ev c r :: h) (f r s)) -> mguard P (call c ≫= f).
Proof. intros Hc Hf s h. simpl. split; [apply Hc|]. intros r. apply Hf. Qed.

Lemma mguard_calls {A} (P : list event -> Call -> Prop) (P' : Call -> Prop) (m : M A) :
  (forall h c, P' c -> P h c) -> mcalls P' m -> mguard P m.
Proof.
  intros HP Hm s h. specialize (Hm s). revert h. induction (m s) as [a|c k IH]; simpl; [done|].
  intros h. destruct Hm as [Hc Hk]. auto.
Qed.

(** The continuation is judged after the events of [m]. *)
Lemma guard_bind_mwp {A B} P (m : M A) (f : A -> M B) s h :
  guard P h (m s) -> mwp m s (fun tr a s' => guard P (rev tr ++ h) (f a s')) -> guard P h ((m ≫= f) s).
Proof.
  intros Hm Hf. apply guard_bind_hist; [done|]. intros tr [a s'] Hr. exact (mwp_runs _ _ _ Hf tr a s' Hr).
Qed.

Lemma guard_bind_assoc {A B C} P (m : M A) (f : A -> M B) (g : B -> M C) s h :
  guard P h ((m ≫= (fun a => f a ≫= g)) s) -> guard P h (((m ≫= f) ≫= g) s).
Proof.
  unfold mbind, M_bind. revert h. induction (m s) as [[a s']|c k IH]; cbn; intros h; [done|].
  intros [Hc Hk]. split; [done|]. auto.
Qed.

Lemma mguard_runs {A} P (m : M A) s tr a tr1 c r tr2 :
  mguard P m -> runs (m s) tr a -> tr = tr1 ++ Ev c r :: tr2 -> P (rev tr1) c.
Proof.
  intros Hm Hr Heq. pose proof (guard_trace P (m s) [] tr a tr1 c r tr2 (Hm s []) Hr Heq) as H.
  by rewrite app_nil_r in H.
Qed.

Lemma mguard_get P : mguard P get_state.
Proof. done. Qed.
Lemma mguard_put P s : mguard P (put_state s).
Proof. done. Qed.

#[export] Hint Resolve mguard_ret mguard_get mguard_put : calls.

Ltac guard_step :=
  match goal with
  | |- mguard _ (mbind _ _) => apply mguard_bind; [|intros ?]
  | |- mguard _ (mret _) => apply mguard_ret
  | |- mguard _ (match ?x with _ => _ end) => destruct x
  end.

Ltac guard_tac := repeat (first [ solve [eauto with calls] | guard_step ]); try done.
