(* ===== verification/Webhook.v ===== *)
(** * The admission webhook (api/v1alpha1/mcpserver_webhook.go)

    [MCPServerCustomValidator] around the policy checks of Policy.v: the decision of
    [validate] for creations and updates, and the warning about references that an
    update through v1alpha1 would drop.  The webhook shares the API-call language of
    the controller (Interact.v) for its one read, and touches none of the
    controller's state.  What the client asked for ([admission.RequestFromContext])
    is a parameter of the call. *)

From S2P Require Import Prelude K8s ApiBeta ApiAlpha Conversion Policy StatusAC Interact.

Record GroupVersionKind := { gvk_group : string; gvk_version : string; gvk_kind : string }.

(** The fields of [admission.Request] the webhook looks at. *)
Record AdmissionRequest := { req_kind : GroupVersionKind; req_requestKind : option GroupVersionKind }.

(** [GroupVersion.String()] *)
Definition gv_string (group version : string) : string := group +:+ "/" +:+ version.

Definition lossWarning : string :=
  "Updating through " +:+ gv_string ApiAlpha.GroupVersion_Group ApiAlpha.GroupVersion_Version
  +:+ " may discard workloadRef or serviceRef; use "
  +:+ gv_string ApiBeta.GroupVersion_Group ApiBeta.GroupVersion_Version +:+ " instead".

(** The kind the client used, before the API server's conversion. *)
Definition clientKind (req : AdmissionRequest) : GroupVersionKind := default (req_kind req) (req_requestKind req).

Definition usedAlpha (req : AdmissionRequest) : bool :=
  let kind := clientKind req in
  negb ((gvk_group kind != ApiAlpha.GroupVersion_Group) || (gvk_version kind != ApiAlpha.GroupVersion_Version)
        || (gvk_kind kind != ApiAlpha.MCPServerKind)).

(** [hasReader] is [v.Reader != nil]; [req] is [None] when the context carries no
    request. *)
Definition alphaReferenceLossWarnings (hasReader : bool) (req : option AdmissionRequest) (mcpServer : ApiAlpha.MCPServer)
    : M (list string) :=
  if negb hasReader then mret []
  else
    match req with
    | None => mret []
    | Some q =>
        if negb (usedAlpha q) then mret []
        else
          got ← call (CGet Direct KMCPServer (om_namespace (asrv_meta mcpServer)) (om_name (asrv_meta mcpServer)));
          match got with
          | Err _ => mret []
          | Ok stored =>
              match spec_workloadRef (srv_spec stored), spec_serviceRef (srv_spec stored) with
              | None, None => mret []
              | _, _ => mret [lossWarning]
              end
          end
    end.

(** The warnings and the errors of the decision. *)
Definition ValidateUpdate (policy : option AdmissionPolicy) (hasReader : bool) (req : option AdmissionRequest)
    (old mcpServer : ApiAlpha.MCPServer) : M (list string * list FieldError) :=
  match validate policy mcpServer with
  | [] => warnings ← alphaReferenceLossWarnings hasReader req mcpServer; mret (warnings, [])
  | errs => mret ([], errs)
  end.

(** ** Properties *)

(** The stored object has references the v1alpha1 schema lacks. *)
Definition has_references (b : ApiBeta.MCPServer) : Prop :=
  spec_workloadRef (srv_spec b) ≠ None \/ spec_serviceRef (srv_spec b) ≠ None.

Definition stored_read (mcpServer : ApiAlpha.MCPServer) (b : ApiBeta.MCPServer) : event :=
  Ev (CGet Direct KMCPServer (om_namespace (asrv_meta mcpServer)) (om_name (asrv_meta mcpServer))) (Ok b).

Lemma stored_read_inj srv b b' : [stored_read srv b] = [stored_read srv b'] -> b = b'.
Proof. intros [= H]%(f_equal (omap (read_of KMCPServer))). exact H. Qed.

Lemma mwp_loss_warnings hasReader req srv s :
  mwp (alphaReferenceLossWarnings hasReader req srv) s (fun tr ws s' =>
    s' = s /\
    ((ws = [] /\ forall b, tr = [stored_read srv b] -> ~ has_references b) \/
     (ws = [lossWarning] /\ hasReader = true /\ (exists q, req = Some q /\ usedAlpha q = true) /\
      exists b, tr = [stored_read srv b] /\ has_references b))).
Proof.
  unfold alphaReferenceLossWarnings, has_references.
  destruct hasReader; simpl; [|apply mwp_ret; split; [done|left; split; [done|by intros]]].
  destruct req as [q|]; [|apply mwp_ret; split; [done|left; split; [done|by intros]]].
  destruct (usedAlpha q) eqn:Hq; simpl; [|apply mwp_ret; split; [done|left; split; [done|by intros]]].
  apply mwp_bind, mwp_call. intros [stored|e].
  - destruct (spec_workloadRef (srv_spec stored)) eqn:Hw, (spec_serviceRef (srv_spec stored)) eqn:Hs;
      apply mwp_ret; (split; [done|]); simpl.
    4: { left. split; [done|]. intros b <-%stored_read_inj. rewrite Hw, Hs. tauto. }
    all: right; split_and!; eauto; eexists; split; [done|]; rewrite ?Hw, ?Hs; by auto.
  - apply mwp_ret. split; [done|]. left. split; [done|]. intros b Hb%(f_equal (omap (read_of KMCPServer))). by cbn in Hb.
Qed.

Lemma mwp_ValidateUpdate policy hasReader req old srv s :
  mwp (ValidateUpdate policy hasReader req old srv) s (fun tr r s' =>
    snd r = ValidateCreate policy srv /\ s' = s /\
    (fst r ≠ [] -> snd r = [] /\ hasReader = true /\ exists q, req = Some q /\ usedAlpha q = true) /\
    (forall b, tr = [stored_read srv b] -> fst r ≠ [] <-> has_references b)).
Proof.
  unfold ValidateUpdate, ValidateCreate. destruct (validate policy srv) eqn:E; [|by apply mwp_ret].
  apply mwp_bind. eapply mwp_mono; [apply mwp_loss_warnings|].
  intros tr1 ws1 s1 [-> [[-> Hno]|(-> & Hr & Hq & b & -> & Hb)]]; apply mwp_ret; rewrite app_nil_r; cbn [fst snd].
  - split_and!; [done..|]. intros b Hb. split; [done|]. intros Hh. by destruct (Hno b Hb).
  - split_and!; [done..| |].
    + intros _. auto.
    + intros b' Hb'. apply stored_read_inj in Hb' as <-. by split; [intros _|].
Qed.

Lemma ValidateUpdate_warns policy hasReader req old srv s tr ws errs s' :
  runs (ValidateUpdate policy hasReader req old srv s) tr ((ws, errs), s') ->
  forall b, tr = [stored_read srv b] -> ws ≠ [] <-> has_references b.
Proof.
  intros H. pose proof (mwp_runs _ _ _ (mwp_ValidateUpdate policy hasReader req old srv s) _ _ _ H) as (_ & _ & _ & Hb). exact Hb.
Qed.

(** An update is decided exactly as a creation of the same object would be, whatever
    the API server answers: the reference-loss check only adds a warning.  The client
    is warned only about an admitted update it made through v1alpha1, and, when the
    stored object could be read, exactly when that object carries a reference. *)
Theorem update_decision policy hasReader req old srv s tr ws errs s' :
  runs (ValidateUpdate policy hasReader req old srv s) tr ((ws, errs), s') ->
  errs = ValidateCreate policy srv /\ s' = s /\
  (ws ≠ [] -> errs = [] /\ hasReader = true /\ exists q, req = Some q /\ usedAlpha q = true) /\
  (forall b, tr = [stored_read srv b] -> ws ≠ [] <-> has_references b).
Proof. exact (mwp_runs _ _ _ (mwp_ValidateUpdate policy hasReader req old srv s) tr (ws, errs) s'). Qed.

(** What an unchanged write-back through v1alpha1 costs, and what the client is told:
    with the stored object [b] read, there is no warning exactly when both references
    survive; without a warning the spec survives exactly when [b] has no gateway, so
    the loss of [spec.gateway] is never reported. *)
Theorem alpha_write_back_loss policy req old b s tr ws s' :
  runs (ValidateUpdate policy true req old (ConvertFrom b) s) tr ((ws, []), s') ->
  tr = [stored_read (ConvertFrom b) b] ->
  let b' := ConvertTo (ConvertFrom b) in
  (ws = [] <-> spec_workloadRef (srv_spec b') = spec_workloadRef (srv_spec b) /\
               spec_serviceRef (srv_spec b') = spec_serviceRef (srv_spec b)) /\
  (ws = [] -> srv_spec b' = srv_spec b <-> spec_gateway (srv_spec b) = None).
Proof.
  intros H Htr. pose proof (ValidateUpdate_warns _ _ _ _ _ _ _ _ _ _ H b Htr) as Hw. clear H. rename Hw into H. cbv zeta.
  rewrite hub_spec_through_alpha. cbn [spec_workloadRef spec_serviceRef].
  assert (ws = [] <-> spec_workloadRef (srv_spec b) = None /\ spec_serviceRef (srv_spec b) = None) as Hws.
  { unfold has_references in H. split.
    - intros ->. split; [destruct (spec_workloadRef (srv_spec b)) eqn:E|destruct (spec_serviceRef (srv_spec b)) eqn:E];
        [destruct (proj2 H)|..|destruct (proj2 H)|]; by auto.
    - intros [Hw Hs]. destruct ws; [done|]. destruct (proj1 H) as [C|C]; [done|by rewrite Hw in C|by rewrite Hs in C]. }
  split.
  - rewrite Hws. split; intros [-> ->]; done || (by split; symmetry).
  - intros [Hw Hs]%Hws. destruct (srv_spec b); cbn in *; subst. split; [by intros [=]|by intros ->].
Qed.

(** An update through v1alpha1 of an object with a workload reference. *)
Definition storedBeta (workload : option WorkloadReference) (gateway : option GatewaySpec) : ApiBeta.MCPServer :=
  {| srv_meta := newMeta "srv" "ns" None;
     srv_spec := {| spec_extraLabels := None; spec_extraAnnotations := None; spec_workloadRef := workload;
       spec_serviceRef := None; spec_source := zeroSource; spec_config := zeroConfig;
       spec_runtime := zeroRuntime; spec_mcp := {| mcp_stateless := None |};
       spec_network := None; spec_transport := None; spec_gateway := gateway |};
     srv_status := zeroStatus |}.
Definition alphaRequest : AdmissionRequest :=
  {| req_kind := {| gvk_group := "mcp.x-k8s.io"; gvk_version := "v1alpha1"; gvk_kind := "MCPServer" |}; req_requestKind := None |}.
Definition storedWorld (b : ApiBeta.MCPServer) : World :=
  {| w_get := fun _ k _ _ => match k return result (obj k) with KMCPServer => Ok b | _ => Err (StatusError NotFound "not found") end;
     w_write := None; w_pods := []; w_servers := []; w_list := fun _ _ => []; w_status := None; w_dial := Err (Errorf "connection refused"); w_now := 0 |}.

(** The update of an object with a workload reference is admitted with a warning. *)
Lemma update_decision_witness :
  let b := storedBeta (Some {| wr_kind := "Deployment"; wr_name := "mine" |}) None in
  [] = ValidateCreate None (ConvertFrom b).
Proof.
  intros b.
  pose proof (run_in_runs (storedWorld b) (ValidateUpdate None true (Some alphaRequest) (ConvertFrom b) (ConvertFrom b)) emptyState) as H.
  exact (proj1 (update_decision _ _ _ _ _ _ _ _ _ _ H)).
Defined.

Lemma alpha_write_back_loss_witness :
  let b := storedBeta None (Some {| gw_provider := "httproute"; gw_configRef := "gw" |}) in
  ~ srv_spec (ConvertTo (ConvertFrom b)) = srv_spec b.
Proof.
  intros b.
  pose proof (run_in_runs (storedWorld b) (ValidateUpdate None true (Some alphaRequest) (ConvertFrom b) (ConvertFrom b)) emptyState) as H.
  intros E. pose proof (proj2 (alpha_write_back_loss _ _ _ b _ _ _ _ H eq_refl) eq_refl) as [Hg _].
  specialize (Hg E). discriminate Hg.
Defined.
