(* ===== verification/Conditions.v ===== *)
(** * Status conditions (internal/controller/mcpserver_controller_conditions.go)

    Constants of the controller package, the reconciler's configuration, the
    condition constructors, pod failure diagnosis, and the derivation of the
    Available condition from a Deployment. *)

From Stdlib Require Import Ascii.
From S2P Require Import Prelude K8s ApiBeta ApiAlpha StatusAC Interact.

(** ** Constants (mcpserver_controller.go, constants.go) *)

Definition ConditionTypeAccepted : string := "Accepted".
Definition ConditionTypeAvailable : string := "Available".
Definition ConditionTypeVerified : string := "Verified".
Definition ReasonValid : string := "Valid".
Definition ReasonInvalid : string := "Invalid".
Definition ReasonAvailable : string := "Available".
Definition ReasonConfigurationInvalid : string := "ConfigurationInvalid".
Definition ReasonWorkloadUnavailable : string := "WorkloadUnavailable".
Definition ReasonServiceUnavailable : string := "ServiceUnavailable".
Definition ReasonNetworkPolicyUnavailable : string := "NetworkPolicyUnavailable".
Definition ReasonScaledToZero : string := "ScaledToZero".
Definition ReasonInitializing : string := "Initializing".
Definition ReasonVerified : string := "Verified".
Definition ReasonNotVerified : string := "NotVerified".
Definition ReasonEndpointUnavailable : string := "EndpointUnavailable".
Definition ReasonAuthSkipped : string := "AuthSkipped".
Definition WaitingReasonImagePullBackOff : string := "ImagePullBackOff".
Definition WaitingReasonErrImagePull : string := "ErrImagePull".
Definition WaitingReasonCrashLoopBackOff : string := "CrashLoopBackOff".
Definition WaitingReasonCreateContainerConfigError : string := "CreateContainerConfigError".
Definition TerminatedReasonOOMKilled : string := "OOMKilled".
Definition ConditionTypeRegistered : string := "Registered".
Definition ConditionTypeGatewayRegistered : string := "GatewayRegistered".
Definition ReasonGatewayRegistered : string := "GatewayRegistered".
Definition ReasonGatewayNotRegistered : string := "GatewayNotRegistered".
Definition ReasonGatewayBindingNotFound : string := "BindingNotFound".
Definition ConditionTypeNetworkPolicyRestricted : string := "NetworkPolicyRestricted".
Definition ConditionTypePolicyEnforced : string := "PolicyEnforced".
Definition ReasonWebhookEnabled : string := "WebhookEnabled".
Definition ReasonWebhookDisabled : string := "WebhookDisabled".
Definition ReasonNoPolicyConfigured : string := "NoPolicyConfigured".

Definition LabelKeyApp : string := "app".
Definition LabelKeyMCPServer : string := "mcp-server".
Definition ManagedWorkloadName : string := "mcp-server".
Definition mcpPortName : string := "mcp".

(** ** The reconciler's configuration ([MCPServerReconciler], its in-memory maps
    being [RState]).  [Scheme] gives the registered kind of a Go type; [Recorder] says
    whether an event recorder is set. *)
Record MCPServerReconciler := {
  Scheme : kind -> option string;
  Recorder : bool;
  TLSEnvVars : list EnvVar;
  TLSProfile : option (TLSConfig -> TLSConfig);
  NetworkPolicyDefaultPosture : string;
  OperatorNamespace : string;
  OperatorPodLabels : gmap string string;
  WebhookEnabled : bool;
  AdmissionPolicyActive : bool
}.

(** ** Condition constructors *)

Definition newCondition (condType status reason message : string) (observedGeneration : Z) : M Condition :=
  now ← call CNow;
  mret {| c_type := condType; c_status := status; c_reason := reason; c_message := message;
          c_observedGeneration := observedGeneration; c_lastTransitionTime := now |}.

Definition with_time (t : Z) (c : Condition) : Condition :=
  {| c_type := c_type c; c_status := c_status c; c_reason := c_reason c; c_message := c_message c;
     c_observedGeneration := c_observedGeneration c; c_lastTransitionTime := t |}.

Definition with_message (m : string) (c : Condition) : Condition :=
  {| c_type := c_type c; c_status := c_status c; c_reason := c_reason c; c_message := m;
     c_observedGeneration := c_observedGeneration c; c_lastTransitionTime := c_lastTransitionTime c |}.

Definition preserveLastTransitionTime (condition : Condition) (existing : list Condition) : Condition :=
  match FindStatusCondition existing (c_type condition) with
  | Some e => if c_status e == c_status condition then with_time (c_lastTransitionTime e) condition else condition
  | None => condition
  end.

Definition newAvailableCondition (status reason message : string) (generation : Z)
    (existing : list Condition) : M Condition :=
  c ← newCondition ConditionTypeAvailable status reason message generation;
  mret (preserveLastTransitionTime c existing).

Definition newNotVerifiedCondition (generation : Z) (existing : list Condition) : M Condition :=
  c ← newCondition ConditionTypeVerified ConditionUnknown ReasonNotVerified
        "Handshake has not been attempted" generation;
  mret (preserveLastTransitionTime c existing).

Definition policyEnforced (r : MCPServerReconciler) : string * string * string :=
  if negb (WebhookEnabled r) then
    (ConditionFalse, ReasonWebhookDisabled,
     "Validating admission webhook is disabled; image allowlist, digest pinning, storage-mount and securityContext admission policies are NOT enforced. Enable it (--enable-webhook) in production to validate MCPServer specs.")
  else if negb (AdmissionPolicyActive r) then
    (ConditionFalse, ReasonNoPolicyConfigured,
     "Validating admission webhook is enabled but no admission rules are configured; MCPServer specs are still admitted without validation. Configure an image allowlist, digest pinning, storage-mount or securityContext policy.")
  else
    (ConditionTrue, ReasonWebhookEnabled,
     "Validating admission webhook is enabled; configured admission policies are enforced on MCPServer specs.").

Definition policyEnforcedCondition (r : MCPServerReconciler) (generation : Z) (existing : list Condition) : M Condition :=
  let '(status, reason, message) := policyEnforced r in
  c ← newCondition ConditionTypePolicyEnforced status reason message generation;
  mret (preserveLastTransitionTime c existing).

Definition conditionToAC (c : Condition) : ConditionApplyConfiguration :=
  {| cc_type := Some (c_type c); cc_status := Some (c_status c); cc_reason := Some (c_reason c);
     cc_message := Some (c_message c); cc_observedGeneration := Some (c_observedGeneration c);
     cc_lastTransitionTime := Some (c_lastTransitionTime c) |}.

Definition acceptedConditionIsTrue (conditions : list Condition) : bool :=
  match FindStatusCondition conditions ConditionTypeAccepted with
  | Some c => c_status c == ConditionTrue
  | None => false
  end.

Definition serverIsFullyReady (conditions : list Condition) : bool :=
  match FindStatusCondition conditions ConditionTypeAvailable,
        FindStatusCondition conditions ConditionTypeVerified with
  | Some avail, Some verified => (c_status avail == ConditionTrue) && (c_status verified == ConditionTrue)
  | _, _ => false
  end.

(** The shape shared by the five [duplicate...] predicates. *)
Definition duplicate_condition (t reason : string) (conditions : list Condition) (message : string) : bool :=
  match FindStatusCondition conditions t with
  | Some prev => (c_status prev == ConditionFalse) && (c_reason prev == reason) && (c_message prev == message)
  | None => false
  end.

Definition duplicateHandshakeUnavailable := duplicate_condition ConditionTypeVerified ReasonEndpointUnavailable.
Definition duplicateWorkloadUnavailable := duplicate_condition ConditionTypeAvailable ReasonWorkloadUnavailable.
Definition duplicateServiceUnavailable := duplicate_condition ConditionTypeAvailable ReasonServiceUnavailable.
Definition duplicateNetworkPolicyUnavailable := duplicate_condition ConditionTypeAvailable ReasonNetworkPolicyUnavailable.
Definition duplicateGatewayBindingUnavailable := duplicate_condition ConditionTypeAvailable ReasonGatewayNotRegistered.

(** ** Pod failure diagnosis *)

Inductive failureKind :=
| failureImagePull | failureCrashLoop | failureConfigError | failureOOMKilled | failureNotReady.
#[export] Instance failureKind_eq_dec : EqDecision failureKind.
Proof. solve_decision. Defined.

Definition failureKind_string (k : failureKind) : string :=
  match k with
  | failureImagePull => "ImagePull"
  | failureCrashLoop => "CrashLoop"
  | failureConfigError => "ConfigError"
  | failureOOMKilled => "OOMKilled"
  | failureNotReady => "NotReady"
  end.

Record containerFailure := {
  cf_Kind : failureKind;
  cf_Pod : string;
  cf_Container : string;
  cf_Init : bool;
  cf_Image : string;
  cf_Detail : string;
  cf_ExitCode : option Z;
  cf_Restarts : Z
}.

Definition classifyContainer (cs : ContainerStatus) (podName : string) (init : bool) : option containerFailure :=
  let f kind detail exit :=
    Some {| cf_Kind := kind; cf_Pod := podName; cf_Container := cs_name cs; cf_Init := init;
            cf_Image := cs_image cs; cf_Detail := detail; cf_ExitCode := exit; cf_Restarts := cs_restartCount cs |} in
  let rest :=
    match cs_terminated cs with
    | Some t => if t_reason t == TerminatedReasonOOMKilled then f failureOOMKilled "" (Some (t_exitCode t))
                else if cs_running cs && negb (cs_ready cs) && (0 <? cs_restartCount cs)
                     then f failureNotReady "" None else None
    | None => if cs_running cs && negb (cs_ready cs) && (0 <? cs_restartCount cs)
              then f failureNotReady "" None else None
    end in
  match cs_waiting cs with
  | Some w =>
      if (w_reason w == WaitingReasonImagePullBackOff) || (w_reason w == WaitingReasonErrImagePull)
      then f failureImagePull (w_message w) None
      else if w_reason w == WaitingReasonCrashLoopBackOff
      then f failureCrashLoop "" (option_map t_exitCode (cs_lastTerminated cs))
      else if w_reason w == WaitingReasonCreateContainerConfigError
      then f failureConfigError (w_message w) None
      else rest
  | None => rest
  end.

Definition failureMessage (f : containerFailure) : string :=
  match cf_Kind f with
  | failureImagePull =>
      "Image pull failed for " +:+ fmt.q (cf_Image f) +:+ ": " +:+ cf_Detail f +:+ " (pod: " +:+ cf_Pod f +:+ ")"
  | failureCrashLoop =>
      match cf_ExitCode f with
      | Some e => "Container crashing: exit code " +:+ fmt.d e +:+ ", restarts: " +:+ fmt.d (cf_Restarts f)
                  +:+ " (pod: " +:+ cf_Pod f +:+ ")"
      | None => "Container crashing: restarts: " +:+ fmt.d (cf_Restarts f) +:+ " (pod: " +:+ cf_Pod f +:+ ")"
      end
  | failureConfigError => "Container config error: " +:+ cf_Detail f +:+ " (pod: " +:+ cf_Pod f +:+ ")"
  | failureOOMKilled =>
      "Container OOMKilled: exit code " +:+ fmt.d (default 0 (cf_ExitCode f)) +:+ ", restarts: "
      +:+ fmt.d (cf_Restarts f) +:+ " (pod: " +:+ cf_Pod f +:+ ")"
  | failureNotReady =>
      "Container not passing health checks: restarts: " +:+ fmt.d (cf_Restarts f) +:+ " (pod: " +:+ cf_Pod f +:+ ")"
  end.

Definition failureSignature (f : containerFailure) : string :=
  let exit := match cf_ExitCode f with Some e => fmt.d e | None => "none" end in
  failureKind_string (cf_Kind f) +:+ "|" +:+ cf_Container f +:+ "|" +:+ fmt.t (cf_Init f) +:+ "|"
  +:+ cf_Image f +:+ "|" +:+ cf_Detail f +:+ "|" +:+ exit.

(** The first [Some] of [f] along a list: a loop that returns from its body. *)
Fixpoint first_some {A B} (f : A -> option B) (l : list A) : option B :=
  match l with
  | [] => None
  | x :: l' => match f x with Some y => Some y | None => first_some f l' end
  end.

Definition firstFailure (pod : Pod) : option containerFailure :=
  match first_some (fun cs => classifyContainer cs (om_name (pod_meta pod)) true) (pod_initContainerStatuses pod) with
  | Some f => Some f
  | None => first_some (fun cs => classifyContainer cs (om_name (pod_meta pod)) false) (pod_containerStatuses pod)
  end.

Definition analyzePodFailures (pods : list Pod) : string :=
  match first_some firstFailure pods with
  | Some f => failureMessage f
  | None => ""
  end.

Definition podFailureSignature (pod : Pod) : string :=
  match firstFailure pod with
  | Some f => failureSignature f
  | None => ""
  end.

(** [podDiagnosticsChangedPredicate]; every event of the Pod watch carries pods. *)
Inductive podEvent :=
| PodCreate (pod : Pod)
| PodUpdate (oldPod newPod : Pod)
| PodDelete (pod : Pod) (deleteStateUnknown : bool)
| PodGeneric (pod : Pod).

Definition podDiagnosticsChangedPredicate (e : podEvent) : bool :=
  match e with
  | PodCreate pod => podFailureSignature pod != ""
  | PodUpdate oldPod newPod => podFailureSignature oldPod != podFailureSignature newPod
  | PodDelete pod unknown => if unknown then true else podFailureSignature pod != ""
  | PodGeneric _ => false
  end.

(** cache.go: the transform applied to every Pod entering the manager's cache. *)
Definition stripPodForDiagnostics (pod : Pod) : Pod :=
  {| pod_meta := with_annotations None (pod_meta pod);
     pod_initContainerStatuses := pod_initContainerStatuses pod;
     pod_containerStatuses := pod_containerStatuses pod;
     pod_other := "" |}.

(** ** Deployment availability *)

Record deploymentState := {
  state_available : bool;
  state_progressing : bool;
  state_replicaFailure : bool;
  state_message : string
}.

Definition DeploymentAvailable : string := "Available".
Definition DeploymentProgressing : string := "Progressing".
Definition DeploymentReplicaFailure : string := "ReplicaFailure".

Definition extractDeploymentState (d : Deployment) : deploymentState :=
  let step '(st, progressingMessage, availableMessage) cond :=
    if dc_type cond == DeploymentAvailable then
      ({| state_available := dc_status cond == "True"; state_progressing := state_progressing st;
          state_replicaFailure := state_replicaFailure st; state_message := state_message st |},
       progressingMessage,
       if dc_status cond == "False" then dc_message cond else availableMessage)
    else if dc_type cond == DeploymentProgressing then
      ({| state_available := state_available st; state_progressing := dc_status cond == "True";
          state_replicaFailure := state_replicaFailure st; state_message := state_message st |},
       (if dc_status cond == "False" then dc_message cond else progressingMessage),
       availableMessage)
    else if dc_type cond == DeploymentReplicaFailure then
      (if dc_status cond == "True" then
         {| state_available := state_available st; state_progressing := state_progressing st;
            state_replicaFailure := true;
            state_message := if dc_message cond != "" then dc_message cond else state_message st |}
       else st, progressingMessage, availableMessage)
    else (st, progressingMessage, availableMessage) in
  let '(st, progressingMessage, availableMessage) :=
    fold_left step (dep_conditions d)
      ({| state_available := false; state_progressing := false; state_replicaFailure := false; state_message := "" |}, "", "") in
  let message1 := if state_message st == "" then progressingMessage else state_message st in
  let message2 := if message1 == "" then availableMessage else message1 in
  {| state_available := state_available st; state_progressing := state_progressing st;
     state_replicaFailure := state_replicaFailure st; state_message := message2 |}.

Section with_vendor.
Context `{V : Vendor}.

Definition getPodFailureMessage (d : Deployment) : M string :=
  match dep_selector d with
  | None => mret ""
  | Some sel =>
      match LabelSelectorAsSelector sel with
      | Some _ => mret ""
      | None =>
          pods ← call (CListPods (om_namespace (dep_meta d)) sel);
          match pods with
          | Err _ => mret ""
          | Ok items => mret (analyzePodFailures items)
          end
      end
  end.

Definition reconcileAvailableCondition (d : Deployment) (acceptedCondition : Condition) (generation : Z)
    (existing : list Condition) : M Condition :=
  if c_status acceptedCondition == ConditionFalse then
    newAvailableCondition ConditionFalse ReasonConfigurationInvalid
      "Configuration must be fixed before server can start" generation existing
  else if dep_replicas d == Some 0 then
    newAvailableCondition ConditionTrue ReasonScaledToZero "Server is ready (scaled to 0 replicas)" generation existing
  else if (List.length (dep_conditions d) =? 0)%nat && (dep_readyReplicas d =? 0) then
    newAvailableCondition ConditionUnknown ReasonInitializing "Waiting for Deployment to report status" generation existing
  else
    let state := extractDeploymentState d in
    if (0 <? dep_observedGeneration d) && (dep_observedGeneration d <? om_generation (dep_meta d)) then
      newAvailableCondition ConditionFalse ReasonWorkloadUnavailable "Deployment is processing spec update" generation existing
    else if state_available state && (0 <? dep_readyReplicas d) then
      newAvailableCondition ConditionTrue ReasonAvailable
        ("MCP server is ready (" +:+ fmt.d (dep_readyReplicas d) +:+ " of "
         +:+ fmt.d (default 1 (dep_replicas d)) +:+ " instances healthy)") generation existing
    else
      podFailureMessage ← getPodFailureMessage d;
      if state_replicaFailure state
         || (negb (state_progressing state) && negb (state_available state))
         || (state_progressing state && (dep_readyReplicas d =? 0) && (podFailureMessage != ""))
      then
        let msg := if podFailureMessage == "" then
                     if state_message state != ""
                     then "No healthy instances (pod details unavailable)" +:+ ": " +:+ state_message state
                     else "No healthy instances (pod details unavailable)"
                   else podFailureMessage in
        newAvailableCondition ConditionFalse ReasonWorkloadUnavailable msg generation existing
      else
        newAvailableCondition ConditionFalse ReasonWorkloadUnavailable
          "Waiting for instances to become healthy" generation existing.

End with_vendor.

(** ** Lemmas *)

(** A condition that a constructor builds at time [t]. *)
Definition condition_at (t : Z) (condType status reason message : string) (generation : Z) : Condition :=
  {| c_type := condType; c_status := status; c_reason := reason; c_message := message;
     c_observedGeneration := generation; c_lastTransitionTime := t |}.

Lemma preserve_fields c ex :
  c_type (preserveLastTransitionTime c ex) = c_type c /\
  c_status (preserveLastTransitionTime c ex) = c_status c /\
  c_reason (preserveLastTransitionTime c ex) = c_reason c /\
  c_message (preserveLastTransitionTime c ex) = c_message c /\
  c_observedGeneration (preserveLastTransitionTime c ex) = c_observedGeneration c.
Proof. unfold preserveLastTransitionTime. destruct (FindStatusCondition _ _); [case_bool_decide|]; done. Qed.

Lemma preserve_type c ex : c_type (preserveLastTransitionTime c ex) = c_type c.
Proof. apply preserve_fields. Qed.
Lemma preserve_status c ex : c_status (preserveLastTransitionTime c ex) = c_status c.
Proof. apply preserve_fields. Qed.
Lemma preserve_reason c ex : c_reason (preserveLastTransitionTime c ex) = c_reason c.
Proof. apply preserve_fields. Qed.
Lemma preserve_message c ex : c_message (preserveLastTransitionTime c ex) = c_message c.
Proof. apply preserve_fields. Qed.

Create Rewrite HintDb cond.
#[export] Hint Rewrite preserve_type preserve_status preserve_reason preserve_message : cond.

Lemma mwp_newCondition t st rs ms g s Q :
  (forall now, Q [Ev CNow now] (condition_at now t st rs ms g) s) ->
  mwp (newCondition t st rs ms g) s Q.
Proof. intros H. apply mwp_bind, mwp_call. intros now. apply mwp_ret. apply H. Qed.

Lemma mwp_newAvailableCondition st rs ms g ex s Q :
  (forall now, Q [Ev CNow now] (preserveLastTransitionTime (condition_at now ConditionTypeAvailable st rs ms g) ex) s) ->
  mwp (newAvailableCondition st rs ms g ex) s Q.
Proof.
  intros H. apply mwp_bind, mwp_newCondition. intros now. apply mwp_ret. apply H.
Qed.

Lemma mwp_newNotVerifiedCondition g ex s Q :
  (forall now, Q [Ev CNow now] (preserveLastTransitionTime (condition_at now ConditionTypeVerified ConditionUnknown
      ReasonNotVerified "Handshake has not been attempted" g) ex) s) ->
  mwp (newNotVerifiedCondition g ex) s Q.
Proof.
  intros H. apply mwp_bind, mwp_newCondition. intros now. apply mwp_ret. apply H.
Qed.

Lemma mwp_policyEnforcedCondition r g ex s Q :
  (forall now, Q [Ev CNow now] (preserveLastTransitionTime
      (condition_at now ConditionTypePolicyEnforced (fst (fst (policyEnforced r))) (snd (fst (policyEnforced r)))
         (snd (policyEnforced r)) g) ex) s) ->
  mwp (policyEnforcedCondition r g ex) s Q.
Proof.
  intros H. unfold policyEnforcedCondition. destruct (policyEnforced r) as [[st rs] ms].
  apply mwp_bind, mwp_newCondition. intros now. apply mwp_ret. apply H.
Qed.

(** Calls of the condition helpers: the clock, and the pod list of the diagnosis. *)
Definition reads_clock (c : Call) : Prop := match c with CNow => True | _ => False end.
Definition observes (c : Call) : Prop := match c with CNow | CListPods _ _ => True | _ => False end.

Lemma newCondition_calls t st rs ms g : mcalls reads_clock (newCondition t st rs ms g).
Proof. unfold newCondition. calls_tac. Qed.
Lemma newAvailableCondition_calls st rs ms g ex : mcalls reads_clock (newAvailableCondition st rs ms g ex).
Proof. apply mcalls_bind; [apply newCondition_calls|calls_tac]. Qed.
Lemma newNotVerifiedCondition_calls g ex : mcalls reads_clock (newNotVerifiedCondition g ex).
Proof. apply mcalls_bind; [apply newCondition_calls|calls_tac]. Qed.
Lemma policyEnforcedCondition_calls r g ex : mcalls reads_clock (policyEnforcedCondition r g ex).
Proof.
  unfold policyEnforcedCondition. destruct (policyEnforced r) as [[? ?] ?].
  apply mcalls_bind; [apply newCondition_calls|calls_tac].
Qed.

Lemma reads_clock_observes c : reads_clock c -> observes c.
Proof. by destruct c. Qed.

Lemma newAvailableCondition_observes st rs ms g ex : mcalls observes (newAvailableCondition st rs ms g ex).
Proof. eapply mcalls_mono; [apply reads_clock_observes|apply newAvailableCondition_calls]. Qed.
#[export] Hint Resolve newAvailableCondition_observes : calls.

Lemma reconcileAvailableCondition_calls `{V : Vendor} d acc g ex :
  mcalls observes (reconcileAvailableCondition d acc g ex).
Proof. unfold reconcileAvailableCondition, getPodFailureMessage. calls_tac. Qed.

(** *** The clock of a condition *)

(** The transition time the API conventions ask for: kept while the status is unchanged. *)
Definition transition_time (existing : list Condition) (t st : string) (now : Z) : Z :=
  match FindStatusCondition existing t with
  | Some e => if c_status e == st then c_lastTransitionTime e else now
  | None => now
  end.

Lemma preserve_time c ex :
  c_lastTransitionTime (preserveLastTransitionTime c ex) =
  transition_time ex (c_type c) (c_status c) (c_lastTransitionTime c).
Proof.
  unfold preserveLastTransitionTime, transition_time.
  destruct (FindStatusCondition _ _); [case_bool_decide|]; done.
Qed.

(** *** What the fold over the Deployment's conditions computes *)

Definition last_status (t : string) (conds : list DeploymentCondition) : option string :=
  option_map dc_status (List.find (fun c => dc_type c == t) (List.rev conds)).

Lemma last_status_snoc t conds c :
  last_status t (conds ++ [c]) = if dc_type c == t then Some (dc_status c) else last_status t conds.
Proof. unfold last_status. rewrite rev_unit. simpl. by case_bool_decide. Qed.

Lemma extract_available d :
  state_available (extractDeploymentState d) = (last_status DeploymentAvailable (dep_conditions d) == Some "True").
Proof.
  unfold extractDeploymentState.
  match goal with |- context [fold_left ?f _ ?i] => set (step := f); set (init := i) end.
  assert (H : state_available (fst (fst (fold_left step (dep_conditions d) init))) =
              (last_status DeploymentAvailable (dep_conditions d) == Some "True")).
  { induction (dep_conditions d) as [|c l IH] using rev_ind; [done|].
    rewrite fold_left_app, last_status_snoc. cbn [fold_left].
    destruct (fold_left step l init) as [[st pm] am]. cbn [fst] in IH.
    unfold step. destruct (bool_decide (dc_type c = DeploymentAvailable)); cbn [fst state_available].
    - apply bool_decide_ext. split; congruence.
    - destruct (bool_decide (dc_type c = DeploymentProgressing)); [exact IH|].
      destruct (bool_decide (dc_type c = DeploymentReplicaFailure)); [|exact IH].
      destruct (bool_decide (dc_status c = "True")); exact IH. }
  destruct (fold_left step (dep_conditions d) init) as [[st pm] am]. exact H.
Qed.

(** The workload serves traffic: at least one ready replica, a current status, and
    the Deployment reports itself available. *)
Definition serving (d : Deployment) : Prop :=
  last_status DeploymentAvailable (dep_conditions d) = Some "True" /\ 0 < dep_readyReplicas d /\
  ~ (0 < dep_observedGeneration d < om_generation (dep_meta d)).

(** What a run of [reconcileAvailableCondition] may return. *)
Definition available_spec (d : Deployment) (acc : Condition) (g : Z) (ex : list Condition) (c : Condition) : Prop :=
  c_type c = ConditionTypeAvailable /\ c_observedGeneration c = g /\
  (c_status c = ConditionTrue /\ c_reason c = ReasonAvailable <->
     c_status acc <> ConditionFalse /\ dep_replicas d <> Some 0 /\ serving d) /\
  (c_status c = ConditionTrue /\ c_reason c = ReasonScaledToZero <->
     c_status acc <> ConditionFalse /\ dep_replicas d = Some 0) /\
  (c_status c = ConditionTrue -> c_reason c = ReasonAvailable \/ c_reason c = ReasonScaledToZero) /\
  (exists now, c_lastTransitionTime c = transition_time ex ConditionTypeAvailable (c_status c) now).

Lemma available_spec_intro d acc g ex st rs ms now :
  (st = ConditionTrue /\ rs = ReasonAvailable <-> c_status acc <> ConditionFalse /\ dep_replicas d <> Some 0 /\ serving d) ->
  (st = ConditionTrue /\ rs = ReasonScaledToZero <-> c_status acc <> ConditionFalse /\ dep_replicas d = Some 0) ->
  (st = ConditionTrue -> rs = ReasonAvailable \/ rs = ReasonScaledToZero) ->
  available_spec d acc g ex
    (preserveLastTransitionTime (condition_at now ConditionTypeAvailable st rs ms g) ex).
Proof.
  intros H1 H2 H3. unfold available_spec. autorewrite with cond. rewrite preserve_time. cbn.
  rewrite (proj2 (proj2 (proj2 (proj2 (preserve_fields (condition_at now ConditionTypeAvailable st rs ms g) ex))))).
  eauto 10.
Qed.

Lemma mwp_getPodFailureMessage `{V : Vendor} d s (Q : list event -> string -> RState -> Prop) :
  (forall tr m, Q tr m s) -> mwp (getPodFailureMessage d) s Q.
Proof.
  intros H. unfold getPodFailureMessage.
  destruct (dep_selector d); [|by apply mwp_ret].
  destruct (LabelSelectorAsSelector _); [by apply mwp_ret|].
  apply mwp_bind, mwp_call. intros [items|e]; by apply mwp_ret.
Qed.

(** Closes a branch that reports a status other than True. *)
Ltac not_available :=
  intros; split; [done|];
  apply available_spec_intro;
    [ split; [by intros [? ?]|intros (Ha & Hr & Hs); exfalso; unfold serving in Hs; destruct Hs as (? & ? & ?)]
    | split; [by intros [? ?]|intros (Ha & Hr)]
    | done ];
  first [lia | congruence | tauto].

Lemma mwp_reconcileAvailableCondition `{V : Vendor} d acc g ex s :
  mwp (reconcileAvailableCondition d acc g ex) s (fun _ c s' => s' = s /\ available_spec d acc g ex c).
Proof.
  unfold reconcileAvailableCondition.
  case_bool_decide as Hacc; [apply mwp_newAvailableCondition; not_available|].
  case_bool_decide as Hrep.
  { apply mwp_newAvailableCondition. intros; split; [done|].
    apply available_spec_intro; [|by split|eauto]. split; [by intros [_ ?]|by intros (_ & ? & _)]. }
  destruct (_ && (dep_readyReplicas d =? 0)) eqn:E1.
  { apply andb_true_iff in E1 as [_ E1%Z.eqb_eq].
    apply mwp_newAvailableCondition. not_available. }
  destruct (_ && (_ <? om_generation _)) eqn:E2.
  { apply andb_true_iff in E2 as [?%Z.ltb_lt ?%Z.ltb_lt].
    apply mwp_newAvailableCondition. not_available. }
  apply andb_false_iff in E2. rewrite extract_available.
  destruct (bool_decide (_ = Some "True") && _) eqn:E3.
  { apply andb_true_iff in E3 as [E3%bool_decide_eq_true E4%Z.ltb_lt].
    apply mwp_newAvailableCondition. intros; split; [done|].
    apply available_spec_intro; [|split; [by intros [_ ?]|by intros [_ ?]]|eauto].
    split; [|done]. intros _. unfold serving. split_and!; try done.
    destruct E2 as [?%Z.ltb_ge|?%Z.ltb_ge]; lia. }
  assert (Hns : ~ serving d).
  { intros (Ha & Hb & _). rewrite bool_decide_eq_true_2, (proj2 (Z.ltb_lt _ _)) in E3 by done. done. }
  unfold serving in Hns. apply mwp_bind, mwp_getPodFailureMessage. intros tr1 m.
  match goal with |- mwp (if ?b then _ else _) _ _ => destruct b end;
    apply mwp_newAvailableCondition; not_available.
Qed.

(** C35: For every answer of the API server, [reconcileAvailableCondition] reports
    Available=True/Available exactly when the configuration is not rejected, the
    Deployment is not scaled to zero, its status is current, its last Available
    condition is True and a replica is ready; Available=True/ScaledToZero exactly
    when the accepted configuration asks for zero replicas; no other True; and the
    transition time moves only when the status changes.  The reconciler's state is
    left alone. *)
Theorem available_condition_correct `{V : Vendor} d acc g ex s tr c s' :
  runs (reconcileAvailableCondition d acc g ex s) tr (c, s') ->
  s' = s /\ available_spec d acc g ex c.
Proof. intros Hr. by_wp Hr. apply mwp_reconcileAvailableCondition. Qed.

Definition sampleDeployment : Deployment :=
  {| dep_meta := newMeta "srv" "ns" None; dep_replicas := Some 2; dep_selector := None;
     dep_template := {| pt_labels := None; pt_annotations := None;
       pt_spec := {| ps_containers := []; ps_imagePullSecrets := []; ps_volumes := []; ps_serviceAccountName := "";
                     ps_securityContext := None; ps_other := "" |} |};
     dep_observedGeneration := 1; dep_readyReplicas := 1;
     dep_conditions := [{| dc_type := "Available"; dc_status := "True"; dc_message := "" |}] |}.

Lemma available_condition_correct_witness :
  exists c, fst (snd (run_in emptyWorld (@reconcileAvailableCondition modelVendor sampleDeployment
                        (condition_at 0 "Accepted" "True" "Valid" "" 1) 1 []) emptyState)) = c /\
    c_status c = ConditionTrue /\
    available_spec sampleDeployment (condition_at 0 "Accepted" "True" "Valid" "" 1) 1 [] c.
Proof.
  eexists. split; [reflexivity|]. split; [reflexivity|].
  refine (proj2 (@available_condition_correct modelVendor _ _ _ _ emptyState _ _ emptyState _)).
  exact (run_in_runs emptyWorld (@reconcileAvailableCondition modelVendor sampleDeployment
            (condition_at 0 "Accepted" "True" "Valid" "" 1) 1 []) emptyState).
Defined.

(** *** Pod diagnosis through the Pod watch *)

(** A diagnosis, without the parts that change on every restart. *)
Definition same_diagnosis (a b : option containerFailure) : Prop :=
  match a, b with
  | Some f, Some g =>
      cf_Kind f = cf_Kind g /\ cf_Container f = cf_Container g /\ cf_Init f = cf_Init g /\
      cf_Image f = cf_Image g /\ cf_Detail f = cf_Detail g /\ cf_ExitCode f = cf_ExitCode g
  | None, None => True
  | _, _ => False
  end.

Definition bar : ascii := "|"%char.

(** Names and images a kubelet can report hold no separator character. *)
Definition separable (f : containerFailure) : bool := lacks bar (cf_Container f) && lacks bar (cf_Image f).

Definition exit_string (e : option Z) : string := match e with Some z => fmt.d z | None => "none" end.

Lemma exit_string_lacks e : lacks bar (exit_string e) = true.
Proof. destruct e; [|done]. eapply lacks_all_chars; [|apply fmt_d_chars]. done. Qed.

Lemma exit_string_inj a b : exit_string a = exit_string b -> a = b.
Proof.
  destruct a as [a|], b as [b|]; simpl; intros H; [by apply fmt_d_inj in H; subst| | |done];
    match type of H with ?l = _ => pose proof (fmt_d_chars a) as Hc || pose proof (fmt_d_chars b) as Hc end;
    [rewrite H in Hc|rewrite <- H in Hc]; discriminate.
Qed.

Lemma failureSignature_shape f :
  failureSignature f = failureKind_string (cf_Kind f) +:+ String bar (cf_Container f +:+ String bar
    (fmt.t (cf_Init f) +:+ String bar (cf_Image f +:+ String bar (cf_Detail f +:+ String bar (exit_string (cf_ExitCode f)))))).
Proof. reflexivity. Qed.

Lemma failureSignature_inj f g :
  separable f = true -> separable g = true -> failureSignature f = failureSignature g ->
  same_diagnosis (Some f) (Some g).
Proof.
  unfold separable. intros [Hf1 Hf2]%andb_true_iff [Hg1 Hg2]%andb_true_iff. rewrite !failureSignature_shape.
  intros [Hk H]%cut_first; [|by destruct (cf_Kind f)|by destruct (cf_Kind g)].
  apply cut_first in H as [Hc H]; [|done|done].
  apply cut_first in H as [Hi H]; [|by destruct (cf_Init f)|by destruct (cf_Init g)].
  apply cut_first in H as [Him H]; [|done|done].
  apply cut_last in H as [Hd He]; [|apply exit_string_lacks|apply exit_string_lacks].
  apply exit_string_inj in He. simpl. split_and!; try done.
  - by destruct (cf_Kind f), (cf_Kind g).
  - by destruct (cf_Init f), (cf_Init g).
Qed.

Lemma failureSignature_nonempty f : failureSignature f <> "".
Proof. rewrite failureSignature_shape. by destruct (cf_Kind f). Qed.

Definition separable_pod (p : Pod) : bool :=
  match firstFailure p with Some f => separable f | None => true end.

(** An update of a Pod that the watch filters out cannot have changed the
    diagnosis: kind, container, image, detail and exit code are those of the old
    pod, even though both pods went through the cache transform; a pod first seen
    with a failure, or deleted with one, is always reported. *)
Theorem pod_watch_complete old new unknown :
  separable_pod old = true -> separable_pod new = true ->
  (podDiagnosticsChangedPredicate (PodUpdate (stripPodForDiagnostics old) (stripPodForDiagnostics new)) = false <->
     same_diagnosis (firstFailure old) (firstFailure new)) /\
  (podDiagnosticsChangedPredicate (PodCreate (stripPodForDiagnostics new)) = false <-> analyzePodFailures [new] = "") /\
  (podDiagnosticsChangedPredicate (PodDelete (stripPodForDiagnostics new) unknown) = false ->
     analyzePodFailures [new] = "").
Proof.
  unfold separable_pod, podDiagnosticsChangedPredicate, podFailureSignature, analyzePodFailures. cbn [first_some].
  change (firstFailure (stripPodForDiagnostics old)) with (firstFailure old).
  change (firstFailure (stripPodForDiagnostics new)) with (firstFailure new).
  intros Ho Hn. rewrite !negb_false_iff, !bool_decide_eq_true. split_and!.
  - destruct (firstFailure old) as [f|], (firstFailure new) as [g|]; simpl.
    + split; [by apply failureSignature_inj|]. intros (? & ? & ? & ? & ? & ?).
      rewrite !failureSignature_shape. congruence.
    + split; [intros ?%failureSignature_nonempty|]; done.
    + split; [intros H; symmetry in H; by apply failureSignature_nonempty in H|done].
    + done.
  - destruct (firstFailure new) as [g|]; [|done]. split; [by intros ?%failureSignature_nonempty|].
    unfold failureMessage. by destruct (cf_Kind g), (cf_ExitCode g).
  - destruct unknown; [done|]. rewrite negb_false_iff, bool_decide_eq_true.
    destruct (firstFailure new) as [g|]; [by intros ?%failureSignature_nonempty|done].
Qed.

Definition crashingPod (restarts : Z) : Pod :=
  {| pod_meta := newMeta "srv-0" "ns" (Some {[ "mcp-server" := "srv" ]}); pod_initContainerStatuses := [];
     pod_containerStatuses :=
       [{| cs_name := "mcp-server"; cs_image := "img:1"; cs_restartCount := restarts; cs_ready := false;
           cs_waiting := Some {| w_reason := "CrashLoopBackOff"; w_message := "back-off" |};
           cs_running := false; cs_terminated := None;
           cs_lastTerminated := Some {| t_reason := "Error"; t_exitCode := 2 |} |}];
     pod_other := "spec" |}.

(** A crash loop that merely restarts again is filtered out. *)
Lemma pod_watch_complete_witness :
  podDiagnosticsChangedPredicate (PodUpdate (stripPodForDiagnostics (crashingPod 3))
                                            (stripPodForDiagnostics (crashingPod 4))) = false /\
  same_diagnosis (firstFailure (crashingPod 3)) (firstFailure (crashingPod 4)).
Proof.
  split; [reflexivity|].
  apply (pod_watch_complete (crashingPod 3) (crashingPod 4) false); reflexivity.
Defined.
