(* ===== verification/AuditLog.v ===== *)
(** * Audit records, Kubernetes events and metric updates

    internal/controller/audit.go, the [emit...] methods of
    mcpserver_controller.go and the recording functions of metrics.go.  Each is a
    handler that only produces output, so the reconciler's theorems about API
    calls are insensitive to it ([outputs] below). *)

From S2P Require Import Prelude K8s ApiAlpha ApiBeta StatusAC Interact Conditions.

(** ** audit.go *)

Definition auditFields (mcpServer : MCPServer) : list (string * string) :=
  [("mcpserver", om_name (srv_meta mcpServer));
   ("namespace", om_namespace (srv_meta mcpServer));
   ("generation", fmt.d (om_generation (srv_meta mcpServer)));
   ("resourceVersion", om_resourceVersion (srv_meta mcpServer))].

Definition audit (mcpServer : MCPServer) (operation : string) (fields : list (string * string)) : M unit :=
  out (OAudit operation (auditFields mcpServer ++ fields)).

(** [time.Duration.Milliseconds]: nanoseconds divided towards zero. *)
Definition Milliseconds (d : Z) : Z := Z.quot d 1000000.

Definition auditHandshakeAttempt (mcpServer : MCPServer) (url : string) : M unit :=
  audit mcpServer "HandshakeAttempt" [("url", url)].

Definition auditHandshakeSuccess (mcpServer : MCPServer) (url : string) (info : option MCPServerInfo) (duration : Z) : M unit :=
  audit mcpServer "HandshakeSuccess"
    ([("url", url); ("durationMs", fmt.d (Milliseconds duration))] ++
     match info with
     | Some i => [("protocolVersion", info_protocolVersion i); ("serverName", info_name i); ("serverVersion", info_version i)]
     | None => []
     end).

Definition auditHandshakeFailed (mcpServer : MCPServer) (url : string) (err : error) (duration : Z) : M unit :=
  audit mcpServer "HandshakeFailed"
    [("url", url); ("error", Error err); ("durationMs", fmt.d (Milliseconds duration))].

Definition auditHandshakeAuthSkip (mcpServer : MCPServer) (url : string) (err : error) : M unit :=
  audit mcpServer "HandshakeAuthSkip" [("url", url); ("error", Error err)].

Definition auditHandshakeRetriesExhausted (mcpServer : MCPServer) (retries max : Z) : M unit :=
  audit mcpServer "HandshakeRetriesExhausted" [("retries", fmt.d retries); ("max", fmt.d max)].

Definition auditCapabilityChange (mcpServer : MCPServer) (diff : string) : M unit :=
  audit mcpServer "CapabilityChange" [("diff", diff)].

Definition auditNetworkPolicyCreated (mcpServer : MCPServer) (netpolName : string)
    (hasIngressRestriction hasEgressRestriction : bool) : M unit :=
  audit mcpServer "NetworkPolicyCreated"
    [("networkPolicy", netpolName); ("hasIngressRestriction", fmt.t hasIngressRestriction);
     ("hasEgressRestriction", fmt.t hasEgressRestriction)].

Definition auditNetworkPolicyUpdated (mcpServer : MCPServer) (netpolName : string) : M unit :=
  audit mcpServer "NetworkPolicyUpdated" [("networkPolicy", netpolName)].

Definition auditConfigurationRejected (mcpServer : MCPServer) (reason message : string) : M unit :=
  audit mcpServer "ConfigurationRejected" [("reason", reason); ("message", message)].

Definition auditOwnershipViolation (mcpServer : MCPServer) (resource resourceKind existingOwner : string) : M unit :=
  audit mcpServer "OwnershipViolation"
    [("resource", resource); ("resourceKind", resourceKind); ("existingOwner", existingOwner)].

(** ** Events (mcpserver_controller.go) *)

Definition EventTypeNormal : string := "Normal".
Definition EventTypeWarning : string := "Warning".
Definition EventReasonCapabilityChanged : string := "CapabilityChanged".
Definition ReasonInsecureTLS : string := "InsecureTLSConfigured".

(** [if r.Recorder == nil { return }; r.Recorder.Eventf(...)] *)
Definition Eventf (r : MCPServerReconciler) (eventtype reason action note : string) : M unit :=
  if negb (Recorder r) then mret tt else out (OEvent eventtype reason action note).

Definition emitConfigurationInvalid (r : MCPServerReconciler) (mcpServer : MCPServer) (reason message : string) : M unit :=
  Eventf r EventTypeWarning reason "ConfigurationValidation"
    ("MCPServer " +:+ om_name (srv_meta mcpServer) +:+ ": " +:+ message).

Definition emitConfigurationAccepted (r : MCPServerReconciler) (mcpServer : MCPServer) : M unit :=
  Eventf r EventTypeNormal ReasonValid "ConfigurationAccepted"
    ("MCPServer " +:+ om_name (srv_meta mcpServer) +:+ " configuration is valid; Accepted=True").

Definition emitServerReady (r : MCPServerReconciler) (mcpServer : MCPServer) : M unit :=
  Eventf r EventTypeNormal ReasonAvailable "ServerReady"
    ("MCPServer " +:+ om_name (srv_meta mcpServer) +:+ " is ready; Available=True, Verified=True").

Definition emitInsecureTLSWarning (r : MCPServerReconciler) (mcpServer : MCPServer) : M unit :=
  Eventf r EventTypeWarning ReasonInsecureTLS "InsecureTLSConfigured"
    ("MCPServer " +:+ om_name (srv_meta mcpServer) +:+ ": spec.transport.tls.insecureSkipVerify is enabled; TLS certificate verification is disabled for MCP handshakes, exposing connections to man-in-the-middle attacks").

Definition emitHandshakeAuthSkip (r : MCPServerReconciler) (mcpServer : MCPServer) (mcpURL : string) : M unit :=
  Eventf r EventTypeWarning ReasonAuthSkipped "HandshakeAuthSkipped"
    ("MCPServer " +:+ om_name (srv_meta mcpServer) +:+ ": endpoint " +:+ mcpURL +:+ " is reachable but the MCP protocol was NOT verified because it requires authentication; it is treated as reachable and its address is published").

Definition emitWorkloadUnavailable (r : MCPServerReconciler) (mcpServer : MCPServer) (message : string) : M unit :=
  Eventf r EventTypeWarning ReasonWorkloadUnavailable "DeploymentReconcileFailed"
    ("MCPServer " +:+ om_name (srv_meta mcpServer) +:+ ": " +:+ message).

Definition emitServiceReconcileFailed (r : MCPServerReconciler) (mcpServer : MCPServer) (message : string) : M unit :=
  Eventf r EventTypeWarning ReasonServiceUnavailable "ServiceReconcileFailed"
    ("MCPServer " +:+ om_name (srv_meta mcpServer) +:+ ": " +:+ message).

Definition emitNetworkPolicyReconcileFailed (r : MCPServerReconciler) (mcpServer : MCPServer) (message : string) : M unit :=
  Eventf r EventTypeWarning ReasonNetworkPolicyUnavailable "NetworkPolicyReconcileFailed"
    ("MCPServer " +:+ om_name (srv_meta mcpServer) +:+ ": " +:+ message).

Definition emitGatewayBindingReconcileFailed (r : MCPServerReconciler) (mcpServer : MCPServer) (message : string) : M unit :=
  Eventf r EventTypeWarning ReasonGatewayNotRegistered "GatewayBindingReconcileFailed"
    ("MCPServer " +:+ om_name (srv_meta mcpServer) +:+ ": " +:+ message).

Definition emitMCPHandshakeFailed (r : MCPServerReconciler) (mcpServer : MCPServer) (message : string) : M unit :=
  Eventf r EventTypeWarning ReasonEndpointUnavailable "MCPHandshakeFailed"
    ("MCP handshake failed for MCPServer " +:+ om_name (srv_meta mcpServer) +:+ ": " +:+ message).

Definition emitMCPHandshakeRetriesExhausted (r : MCPServerReconciler) (mcpServer : MCPServer) (retryCount : Z) : M unit :=
  Eventf r EventTypeWarning ReasonEndpointUnavailable "MCPHandshakeRetriesExhausted"
    ("MCP handshake retries exhausted for MCPServer " +:+ om_name (srv_meta mcpServer) +:+ " after " +:+ fmt.d retryCount
     +:+ " attempts; fix the MCP endpoint or update spec to retry").

Definition emitCapabilityChangeDetected (r : MCPServerReconciler) (mcpServer : MCPServer) (diff : string) : M unit :=
  Eventf r EventTypeWarning EventReasonCapabilityChanged "CapabilityChangeDetected"
    ("MCP server capabilities changed: " +:+ diff).

Definition maybeEmitWorkloadUnavailableEvent (r : MCPServerReconciler) (mcpServer : MCPServer)
    (availableCondition : Condition) : M unit :=
  if (c_status availableCondition == ConditionFalse) && (c_reason availableCondition == ReasonWorkloadUnavailable)
     && negb (duplicateWorkloadUnavailable (st_conditions (srv_status mcpServer)) (c_message availableCondition))
  then emitWorkloadUnavailable r mcpServer (c_message availableCondition)
  else mret tt.

(** ** Metrics *)

Definition recordCondition (mcpServer : MCPServer) (c : Condition) : M unit :=
  out (OMetric (RecordCondition (om_name (srv_meta mcpServer)) (om_namespace (srv_meta mcpServer))
                  (c_type c) (c_status c) (c_reason c))).

(** [reconcileDuration.With(phase).Observe(...)]; the measured value is not modelled. *)
Definition observePhase (phase : string) : M unit :=
  out (OMetric (Observe "reconcile_phase_duration_seconds" [("phase", phase)])).

Definition MetricReasonReconcileError : string := "ReconcileError".

Definition incFailures (counter : string) (mcpServer : MCPServer) (reason : string) : M unit :=
  out (OMetric (CounterInc counter [("name", om_name (srv_meta mcpServer));
                                    ("namespace", om_namespace (srv_meta mcpServer)); ("reason", reason)])).

(** ** Output only *)

Definition outputs (c : Call) : Prop := match c with COut _ => True | _ => False end.

Definition silent {A} (m : M A) : Prop := mcalls outputs m /\ forall s, mwp m s (fun _ _ s' => s' = s).

Lemma silent_out o : silent (out o).
Proof. split; [by apply mcalls_call|]. intros s. by apply mwp_call. Qed.
Lemma silent_ret {A} (a : A) : silent (mret a : M A).
Proof. split; [apply mcalls_ret|]. intros s. by apply mwp_ret. Qed.
Lemma silent_Eventf r t rs a n : silent (Eventf r t rs a n).
Proof. unfold Eventf. destruct (negb _); [apply silent_ret|apply silent_out]. Qed.
Lemma silent_maybeEmit r srv c : silent (maybeEmitWorkloadUnavailableEvent r srv c).
Proof.
  unfold maybeEmitWorkloadUnavailableEvent. destruct (_ && _ && _); [apply silent_Eventf|apply silent_ret].
Qed.
