(* ===== verification/Metrics.v ===== *)
(** * Metrics (internal/controller/metrics.go)

    The condition gauge and the clean-up of a deleted server's series.  The
    Prometheus client library is behind the interface [MetricVec]; the theorems are
    proved against its laws, which the finite-map instance at the end satisfies. *)

From S2P Require Import Prelude K8s ApiAlpha ApiBeta StatusAC Interact.

Abbreviation Labels := (gmap string string).

(** A vector of series indexed by label sets: [prometheus.GaugeVec], [CounterVec] and
    [HistogramVec] as far as they are used here. *)
Class MetricVec := {
  vec : Type;
  value : vec -> Labels -> option Z;
  DeletePartialMatch : Labels -> vec -> vec;
  SetWith : Labels -> Z -> vec -> vec
}.

(** [DeletePartialMatch] deletes the series that carry all the given labels, [With(l).Set]
    sets one series. *)
Class MetricVecLaws (P : MetricVec) : Prop := {
  value_DeletePartialMatch l v l' : value (DeletePartialMatch l v) l' = if decide (l ⊆ l') then None else value v l';
  value_SetWith l z v l' : value (SetWith l z v) l' = if decide (l = l') then Some z else value v l'
}.

Definition serverLabels (name namespace : string) : Labels := {[ "name" := name; "namespace" := namespace ]}.
Definition typeLabels (name namespace condType : string) : Labels := <[ "type" := condType ]> (serverLabels name namespace).
Definition conditionLabels (name namespace condType status reason : string) : Labels :=
  <[ "reason" := reason ]> (<[ "status" := status ]> (typeLabels name namespace condType)).

Section with_vec.
Context `{P : MetricVec}.

Definition recordCondition (name namespace condType status reason : string) (conditionInfo : vec) : vec :=
  SetWith (conditionLabels name namespace condType status reason) 1
    (DeletePartialMatch (typeLabels name namespace condType) conditionInfo).

(** The vectors that carry a server's name. *)
Record registry := {
  conditionInfo : vec;
  validationFailuresTotal : vec;
  deploymentFailuresTotal : vec;
  serviceFailuresTotal : vec;
  networkPolicyFailuresTotal : vec;
  handshakeTotal : vec;
  handshakeDuration : vec;
  capabilityChangesTotal : vec;
  gatewayBindingFailuresTotal : vec
}.

Definition cleanupMetrics (name namespace : string) (g : registry) : registry :=
  let labels := serverLabels name namespace in
  {| conditionInfo := DeletePartialMatch labels (conditionInfo g);
     validationFailuresTotal := DeletePartialMatch labels (validationFailuresTotal g);
     deploymentFailuresTotal := DeletePartialMatch labels (deploymentFailuresTotal g);
     serviceFailuresTotal := DeletePartialMatch labels (serviceFailuresTotal g);
     networkPolicyFailuresTotal := DeletePartialMatch labels (networkPolicyFailuresTotal g);
     handshakeTotal := DeletePartialMatch labels (handshakeTotal g);
     handshakeDuration := DeletePartialMatch labels (handshakeDuration g);
     capabilityChangesTotal := DeletePartialMatch labels (capabilityChangesTotal g);
     gatewayBindingFailuresTotal := DeletePartialMatch labels (gatewayBindingFailuresTotal g) |}.

(** The gauge after the metric updates of a run. *)
Definition gaugeStep (v : vec) (op : metricOp) : vec :=
  match op with
  | RecordCondition name namespace condType status reason => recordCondition name namespace condType status reason v
  | CleanupMetrics name namespace => DeletePartialMatch (serverLabels name namespace) v
  | _ => v
  end.

Definition gaugeAfter (ops : list metricOp) (v : vec) : vec := fold_left gaugeStep ops v.

Definition active (v : vec) (l : Labels) : Prop := is_Some (value v l).

(** Every active series is a condition of some server, and no two are of one type. *)
Definition one_per_type (v : vec) : Prop :=
  (forall l, active v l -> exists n ns t st rs, l = conditionLabels n ns t st rs) /\
  (forall n ns t st rs st' rs',
     active v (conditionLabels n ns t st rs) -> active v (conditionLabels n ns t st' rs') -> st = st' /\ rs = rs').

End with_vec.

(** ** Labels *)

Lemma conditionLabels_lookup n ns t st rs :
  conditionLabels n ns t st rs !! "name" = Some n /\ conditionLabels n ns t st rs !! "namespace" = Some ns /\
  conditionLabels n ns t st rs !! "type" = Some t /\ conditionLabels n ns t st rs !! "status" = Some st /\
  conditionLabels n ns t st rs !! "reason" = Some rs.
Proof. repeat split. Qed.

Lemma conditionLabels_inj n ns t st rs n' ns' t' st' rs' :
  conditionLabels n ns t st rs = conditionLabels n' ns' t' st' rs' -> n = n' /\ ns = ns' /\ t = t' /\ st = st' /\ rs = rs'.
Proof.
  intros E. destruct (conditionLabels_lookup n ns t st rs) as (H1 & H2 & H3 & H4 & H5).
  rewrite E in H1, H2, H3, H4, H5. destruct (conditionLabels_lookup n' ns' t' st' rs') as (G1 & G2 & G3 & G4 & G5).
  rewrite G1 in H1. rewrite G2 in H2. rewrite G3 in H3. rewrite G4 in H4. rewrite G5 in H5. simplify_eq. done.
Qed.

Lemma serverLabels_match n ns n' ns' t st rs :
  serverLabels n ns ⊆ conditionLabels n' ns' t st rs <-> n = n' /\ ns = ns'.
Proof.
  destruct (conditionLabels_lookup n' ns' t st rs) as (G1 & G2 & _). split.
  - intros H. rewrite map_subseteq_spec in H.
    assert (H1 : conditionLabels n' ns' t st rs !! "name" = Some n) by (apply H; reflexivity).
    assert (H2 : conditionLabels n' ns' t st rs !! "namespace" = Some ns) by (apply H; reflexivity). simplify_eq. done.
  - intros [-> ->]. apply map_subseteq_spec. intros k v Hk. unfold serverLabels in Hk.
    apply lookup_insert_Some in Hk as [[<- <-]|[_ Hk]]; [done|]. apply lookup_singleton_Some in Hk as [<- <-]. done.
Qed.

Lemma typeLabels_match n ns t n' ns' t' st rs :
  typeLabels n ns t ⊆ conditionLabels n' ns' t' st rs <-> n = n' /\ ns = ns' /\ t = t'.
Proof.
  destruct (conditionLabels_lookup n' ns' t' st rs) as (G1 & G2 & G3 & _). split.
  - intros H. rewrite map_subseteq_spec in H.
    assert (H1 : conditionLabels n' ns' t' st rs !! "name" = Some n) by (apply H; reflexivity).
    assert (H2 : conditionLabels n' ns' t' st rs !! "namespace" = Some ns) by (apply H; reflexivity).
    assert (H3 : conditionLabels n' ns' t' st rs !! "type" = Some t) by (apply H; reflexivity). simplify_eq. done.
  - intros (-> & -> & ->). apply map_subseteq_spec. intros k v Hk. unfold typeLabels in Hk.
    apply lookup_insert_Some in Hk as [[<- <-]|[_ Hk]]; [done|]. unfold serverLabels in Hk.
    apply lookup_insert_Some in Hk as [[<- <-]|[_ Hk]]; [done|]. apply lookup_singleton_Some in Hk as [<- <-]. done.
Qed.

(** ** The invariant *)

Section invariant.
Context `{P : MetricVec} {L : MetricVecLaws P}.

Lemma active_delete l v l' : active (DeletePartialMatch l v) l' <-> active v l' /\ ~ l ⊆ l'.
Proof.
  unfold active. rewrite value_DeletePartialMatch. case_decide; [|tauto]. split; [by intros [? ?]|by intros [_ ?]].
Qed.

Lemma active_record n ns t st rs v l :
  active (recordCondition n ns t st rs v) l <->
  l = conditionLabels n ns t st rs \/ (active v l /\ ~ typeLabels n ns t ⊆ l).
Proof.
  unfold recordCondition. unfold active at 1. rewrite value_SetWith. case_decide as E.
  - subst. split; [auto|eauto].
  - fold (active (DeletePartialMatch (typeLabels n ns t) v) l). rewrite active_delete. split; [auto|intros [->|?]; done].
Qed.

Lemma one_per_type_step v op : one_per_type v -> one_per_type (gaugeStep v op).
Proof.
  intros [Hs Hu]. destruct op as [| |n ns t st rs|n ns]; try done; cbn; (split; [intros l|intros n1 ns1 t1 st1 rs1 st2 rs2]).
  - rewrite active_record. intros [->|[H _]]; [eauto 6|auto].
  - rewrite !active_record, !typeLabels_match. intros [E1|[A1 N1]] [E2|[A2 N2]].
    + apply conditionLabels_inj in E1, E2. destruct_and!. subst. done.
    + apply conditionLabels_inj in E1. destruct_and!. subst. by destruct N2.
    + apply conditionLabels_inj in E2. destruct_and!. subst. by destruct N1.
    + eauto.
  - rewrite active_delete. intros [H _]. auto.
  - rewrite !active_delete. intros [A1 _] [A2 _]. eauto.
Qed.

(** The condition gauge: whatever conditions are recorded and whatever servers are
    cleaned up, each server has at most one active series per condition type; after a
    condition is recorded its series is active with value 1; and after a clean-up no
    series of the server is left, while those of other servers are untouched. *)
Theorem condition_gauge_one_per_type ops v :
  one_per_type v ->
  one_per_type (gaugeAfter ops v) /\
  (forall n ns t st rs, value (gaugeAfter (ops ++ [RecordCondition n ns t st rs]) v) (conditionLabels n ns t st rs) = Some 1) /\
  (forall n ns t st rs, ~ active (gaugeAfter (ops ++ [CleanupMetrics n ns]) v) (conditionLabels n ns t st rs)) /\
  (forall n ns n' ns' t st rs, n <> n' \/ ns <> ns' ->
     value (gaugeAfter (ops ++ [CleanupMetrics n ns]) v) (conditionLabels n' ns' t st rs) =
     value (gaugeAfter ops v) (conditionLabels n' ns' t st rs)).
Proof.
  intros Hv. unfold gaugeAfter. setoid_rewrite fold_left_app. cbn. split_and!.
  - revert v Hv. induction ops as [|op ops IH]; intros v Hv; cbn; [done|]. by apply IH, one_per_type_step.
  - intros. unfold recordCondition. by rewrite value_SetWith, decide_True.
  - intros n ns t st rs. rewrite active_delete, serverLabels_match. tauto.
  - intros n ns n' ns' t st rs Hne. rewrite value_DeletePartialMatch, decide_False; [done|]. rewrite serverLabels_match. intuition.
Qed.

(** A deleted server leaves nothing behind: in every vector that carries server names
    no series of it remains, and the series of other servers keep their values. *)
Theorem cleanup_removes_server n ns g l :
  Forall (fun f : registry -> vec =>
            value (f (cleanupMetrics n ns g)) l = if decide (serverLabels n ns ⊆ l) then None else value (f g) l)
    [conditionInfo; validationFailuresTotal; deploymentFailuresTotal; serviceFailuresTotal; networkPolicyFailuresTotal;
     handshakeTotal; handshakeDuration; capabilityChangesTotal; gatewayBindingFailuresTotal].
Proof. repeat constructor; apply value_DeletePartialMatch. Qed.

End invariant.

(** ** An instance *)

#[export] Instance mapVec : MetricVec :=
  {| vec := gmap Labels Z; value := fun v l => v !! l;
     DeletePartialMatch := fun l v => filter (fun kv => ~ l ⊆ fst kv) v; SetWith := fun l z v => <[ l := z ]> v |}.

#[export] Instance mapVec_laws : MetricVecLaws mapVec.
Proof.
  split; intros; cbn in *.
  - rewrite map_lookup_filter. destruct (v !! l') as [z|]; cbn; [|destruct (decide _); done].
    case_guard as Hg; destruct (decide _); cbn in *; done.
  - case_decide as E; [subst; apply lookup_insert_eq|by apply lookup_insert_ne].
Qed.

Definition sampleOps : list metricOp :=
  [RecordCondition "a" "ns" "Available" "False" "Initializing"; RecordCondition "b" "ns" "Available" "True" "Available";
   RecordCondition "a" "ns" "Available" "True" "Available"].
Definition noSeries : vec (MetricVec := mapVec) := (∅ : gmap Labels Z).

Lemma condition_gauge_one_per_type_witness :
  value (gaugeAfter sampleOps noSeries) (conditionLabels "a" "ns" "Available" "False" "Initializing") = None /\
  one_per_type (gaugeAfter sampleOps noSeries).
Proof.
  split; [vm_compute; reflexivity|]. apply (condition_gauge_one_per_type (P := mapVec) sampleOps noSeries).
  split; [intros l [z H]|intros n ns t st rs st' rs' [z H]]; unfold noSeries in H; cbn in H; by rewrite lookup_empty in H.
Defined.

Definition sampleRegistry : registry (P := mapVec) :=
  {| conditionInfo := {[ conditionLabels "a" "ns" "Available" "True" "Available" := 1 ]}; validationFailuresTotal := ∅;
     deploymentFailuresTotal := {[ serverLabels "a" "ns" := 4 ]}; serviceFailuresTotal := ∅; networkPolicyFailuresTotal := ∅;
     handshakeTotal := ∅; handshakeDuration := ∅; capabilityChangesTotal := ∅; gatewayBindingFailuresTotal := ∅ |}.

Lemma cleanup_removes_server_witness :
  value (deploymentFailuresTotal sampleRegistry) (serverLabels "a" "ns") = Some 4 /\
  value (deploymentFailuresTotal (cleanupMetrics "a" "ns" sampleRegistry)) (serverLabels "a" "ns") = None.
Proof.
  split; [vm_compute; reflexivity|].
  pose proof (cleanup_removes_server (P := mapVec) "a" "ns" sampleRegistry (serverLabels "a" "ns")) as H.
  rewrite Forall_forall in H. rewrite (H deploymentFailuresTotal) by (right; right; left).
  vm_compute. reflexivity.
Defined.
