(* ===== verification/Ownership.v ===== *)
(** * Ownership of managed resources (internal/controller/mcpserver_controller_ownership.go)

    [validateOwnership] with its functional specification [manageable], and
    [managed_write], the discipline every write of the operator follows: it is
    stated on the history of calls, so it says which object a write was based on. *)

From S2P Require Import Prelude K8s ApiAlpha ApiBeta StatusAC Interact Conditions AuditLog.

Section with_vendor.
Context `{V : Vendor}.

Definition isSameGroupKind (ownerRef : OwnerReference) (expectedGroup expectedKind : string) : bool :=
  if or_kind ownerRef != expectedKind then false
  else match ParseGroupVersion (or_apiVersion ownerRef) with
       | None => false
       | Some group => group == expectedGroup
       end.

Definition gvkKind (r : MCPServerReconciler) (k : kind) : string :=
  match Scheme r k with Some name => name | None => "<unknown>" end.

Definition IsOwnershipConflict (err : error) : bool := asOwnershipConflict err.

Definition validateOwnership (r : MCPServerReconciler) (k : kind) (o : ObjectMeta) (mcpServer : MCPServer) : M (option error) :=
  let srv := srv_meta mcpServer in
  match GetControllerOf o with
  | None =>
      auditOwnershipViolation mcpServer (om_name o) (gvkKind r k) "<none>" ;;
      mret (Some (OwnershipConflictErr ("resource " +:+ om_namespace o +:+ "/" +:+ om_name o +:+
        " exists but has no controller owner; delete the resource first or choose a different name for the MCPServer")))
  | Some controllerOwner =>
      if or_uid controllerOwner == om_uid srv then mret None
      else if isSameGroupKind controllerOwner GroupVersion_Group MCPServerKind
              && (or_name controllerOwner == om_name srv) && (om_namespace o == om_namespace srv)
      then mret None
      else
        auditOwnershipViolation mcpServer (om_name o) (or_kind controllerOwner) (or_name controllerOwner) ;;
        mret (Some (OwnershipConflictErr ("resource " +:+ om_namespace o +:+ "/" +:+ om_name o +:+ " is owned by "
          +:+ or_kind controllerOwner +:+ "/" +:+ or_name controllerOwner +:+ " (UID: " +:+ or_uid controllerOwner
          +:+ "), cannot be managed by MCPServer " +:+ om_namespace srv +:+ "/" +:+ om_name srv
          +:+ " (UID: " +:+ om_uid srv +:+ ")")))
  end.

(** ** Specification *)

(** The object's controller is this MCPServer, or an MCPServer (of any version of
    the API group) of the same name in the same namespace, whose object this one
    replaced. *)
Definition manageable (o : ObjectMeta) (mcpServer : MCPServer) : Prop :=
  exists ref, GetControllerOf o = Some ref /\
    (or_uid ref = om_uid (srv_meta mcpServer) \/
     or_kind ref = MCPServerKind /\ ParseGroupVersion (or_apiVersion ref) = Some GroupVersion_Group /\
     or_name ref = om_name (srv_meta mcpServer) /\ om_namespace o = om_namespace (srv_meta mcpServer)).

Lemma isSameGroupKind_spec ref g k :
  isSameGroupKind ref g k = true <-> or_kind ref = k /\ ParseGroupVersion (or_apiVersion ref) = Some g.
Proof.
  unfold isSameGroupKind. case_bool_decide as H1; simpl; [|naive_solver].
  destruct (ParseGroupVersion _) as [g'|]; [rewrite bool_decide_eq_true|]; naive_solver.
Qed.

(** [validateOwnership] decides [manageable]; a refusal is an ownership conflict
    and leaves exactly one audit record. *)
Lemma mwp_validateOwnership r k o srv s (Q : list event -> option error -> RState -> Prop) :
  (manageable o srv -> Q [] None s) ->
  (forall fields msg, ~ manageable o srv ->
     Q [Ev (COut (OAudit "OwnershipViolation" (auditFields srv ++ fields))) tt] (Some (OwnershipConflictErr msg)) s) ->
  mwp (validateOwnership r k o srv) s Q.
Proof.
  intros Hyes Hno. unfold validateOwnership, manageable in *.
  destruct (GetControllerOf o) as [ref|] eqn:E.
  - case_bool_decide as Huid; [apply mwp_ret, Hyes; eauto|].
    destruct (_ && _) eqn:Eb.
    + apply andb_true_iff in Eb as [[Hk%isSameGroupKind_spec Hn%bool_decide_eq_true]%andb_true_iff Hns%bool_decide_eq_true].
      apply mwp_ret, Hyes. exists ref. naive_solver.
    + apply mwp_bind, mwp_call. intros []. apply mwp_ret, Hno. intros (ref' & [= <-] & [?|(Hk & Hg & Hn & Hns)]); [done|].
      rewrite (proj2 (isSameGroupKind_spec _ _ _)), !bool_decide_eq_true_2 in Eb by done. done.
  - apply mwp_bind, mwp_call. intros []. apply mwp_ret, Hno. by intros (? & ? & _).
Qed.

Lemma validateOwnership_outputs r k o srv : mcalls outputs (validateOwnership r k o srv).
Proof. unfold validateOwnership, auditOwnershipViolation, audit. calls_tac. Qed.

(** ** The write discipline *)

(** [o] keeps the identity and the version of the object [o0] it was read as, so
    the API server rejects the write if the object changed in between. *)
Definition same_version (o o0 : ObjectMeta) : Prop :=
  om_name o = om_name o0 /\ om_namespace o = om_namespace o0 /\ om_uid o = om_uid o0 /\
  om_resourceVersion o = om_resourceVersion o0.

Definition read_before (h : list event) (k : kind) (o0 : obj k) : Prop :=
  exists rd ns name, In (Ev (CGet rd k ns name) (Ok o0)) h.

Definition absent_before (h : list event) (k : kind) (ns name : string) : Prop :=
  exists rd e, In (Ev (CGet rd k ns name) (Err e)) h /\ IsNotFound e = true.

(** Preconditions for exactly the version that was read. *)
Definition pinned (o : ObjectMeta) : Preconditions := {| pre_uid := om_uid o; pre_resourceVersion := om_resourceVersion o |}.

(** Kinds the operator may write. *)
Definition managed_kind (k : kind) : bool :=
  match k with KDeployment | KService | KNetworkPolicy | KBinding => true | _ => false end.

Definition managed_write (mcpServer : MCPServer) (h : list event) (c : Call) : Prop :=
  match c with
  | CCreate k o =>
      managed_kind k = true /\ om_namespace (meta_of k o) = om_namespace (srv_meta mcpServer) /\
      absent_before h k (om_namespace (meta_of k o)) (om_name (meta_of k o)) /\
      (exists ref, GetControllerOf (meta_of k o) = Some ref /\ or_uid ref = om_uid (srv_meta mcpServer))
  | CUpdate k o =>
      managed_kind k = true /\
      exists o0, read_before h k o0 /\ manageable (meta_of k o0) mcpServer /\ same_version (meta_of k o) (meta_of k o0)
  | CDelete k o pre =>
      (k = KService /\ pre = Some (pinned (meta_of k o)) \/ k = KBinding) /\ read_before h k o /\ manageable (meta_of k o) mcpServer
  | CApplyStatus ns name _ => ns = om_namespace (srv_meta mcpServer) /\ name = om_name (srv_meta mcpServer)
  | CPatch _ _ _ | CUpdateStatus _ _ => False
  | _ => True
  end.

Lemma managed_outputs srv h c : outputs c -> managed_write srv h c.
Proof. by destruct c. Qed.
Lemma managed_observes srv h c : observes c -> managed_write srv h c.
Proof. by destruct c. Qed.

(** Reads of any kind, the clock and outputs need no justification. *)
Definition no_write (c : Call) : Prop :=
  match c with CCreate _ _ | CUpdate _ _ | CDelete _ _ _ | CApplyStatus _ _ _ | CPatch _ _ _ | CUpdateStatus _ _ => False | _ => True end.
Lemma managed_no_write srv h c : no_write c -> managed_write srv h c.
Proof. by destruct c. Qed.
Lemma outputs_no_write c : outputs c -> no_write c.
Proof. by destruct c. Qed.
Lemma observes_no_write c : observes c -> no_write c.
Proof. by destruct c. Qed.

(** After an accepted validation the history is unchanged. *)
Lemma guard_validateOwnership {B} r k o srv (f : option error -> M B) s h :
  (manageable o srv -> forall s', guard (managed_write srv) h (f None s')) ->
  (forall e s' h', guard (managed_write srv) h' (f (Some e) s')) ->
  guard (managed_write srv) h ((validateOwnership r k o srv ≫= f) s).
Proof.
  intros Hyes Hno. apply guard_bind_mwp.
  - eapply mguard_calls; [apply managed_outputs|apply validateOwnership_outputs].
  - apply mwp_validateOwnership; eauto.
Qed.

Lemma same_version_owners m m0 l : same_version m m0 -> same_version (with_owners l m) m0.
Proof. done. Qed.
Lemma same_version_refl m : same_version m m.
Proof. done. Qed.

End with_vendor.

#[export] Hint Resolve same_version_refl : calls.
