(* ===== verification/GoJSON.v ===== *)
(** * encoding/json on [map[string]string]

    The part of Go's encoding/json the operator uses: [Marshal] and [Unmarshal] of
    a [map[string]string] (custom_metadata.go keeps one in an annotation), byte by
    byte, and the round trip between them. *)

From Stdlib Require Import Ascii.
From S2P Require Import Prelude K8s.

Module utf8.

Definition between (lo hi : Z) (a : ascii) : bool := (lo <=? strings.code a) && (strings.code a <=? hi).
Definition cont : ascii -> bool := between 128 191.
Definition ascii_byte (a : ascii) : bool := strings.code a <? 128.

Definition two (a b : ascii) : bool := between 194 223 a && cont b.

Definition three (a b c : ascii) : bool :=
  (between 224 224 a && between 160 191 b || between 225 236 a && cont b
   || between 237 237 a && between 128 159 b || between 238 239 a && cont b) && cont c.

Definition four (a b c d : ascii) : bool :=
  (between 240 240 a && between 144 191 b || between 241 243 a && cont b || between 244 244 a && between 128 143 b)
  && cont c && cont d.

(** The well-formed sequence at the head of [s], if any, and the rest:
    [utf8.DecodeRuneInString]. *)
Definition rune (s : string) : option (string * string) :=
  match s with
  | String a s1 =>
      if ascii_byte a then Some (String a "", s1)
      else match s1 with
           | String b s2 =>
               if two a b then Some (String a (String b ""), s2)
               else match s2 with
                    | String c s3 =>
                        if three a b c then Some (String a (String b (String c "")), s3)
                        else match s3 with
                             | String d s4 => if four a b c d then Some (String a (String b (String c (String d ""))), s4) else None
                             | EmptyString => None
                             end
                    | EmptyString => None
                    end
           | EmptyString => None
           end
  | EmptyString => None
  end.

(** The UTF-8 encoding of a code point. *)
Definition encode (r : Z) : string :=
  if r <? 128 then strings.bytes [r]
  else if r <? 2048 then strings.bytes [192 + Z.shiftr r 6; 128 + Z.land r 63]
  else if r <? 65536 then strings.bytes [224 + Z.shiftr r 12; 128 + Z.land (Z.shiftr r 6) 63; 128 + Z.land r 63]
  else strings.bytes [240 + Z.shiftr r 18; 128 + Z.land (Z.shiftr r 12) 63;
                      128 + Z.land (Z.shiftr r 6) 63; 128 + Z.land r 63].

Definition RuneError : string := encode 65533.

(** Well-formed strings: a sequence of runes. *)
Inductive valid : string -> Prop :=
| valid_nil : valid ""
| valid_cons u s : rune (u +:+ s) = Some (u, s) -> valid s -> valid (u +:+ s).

End utf8.

Module json.

Definition dq : ascii := strings.chr 34.
Definition bs : ascii := strings.chr 92.

(** The escape of one ASCII byte; [htmlSafeSet] bytes stand for themselves. *)
Definition escape_byte (a : ascii) : string :=
  let z := strings.code a in
  if (z =? 34) || (z =? 92) then String bs (String a "")
  else if z =? 8 then String bs "b" else if z =? 12 then String bs "f" else if z =? 10 then String bs "n"
  else if z =? 13 then String bs "r" else if z =? 9 then String bs "t"
  else if (z <? 32) || (z =? 60) || (z =? 62) || (z =? 38) then String bs ("u00" +:+ fmt.hexbyte z)
  else String a "".

(** U+2028 and U+2029 are escaped as well. *)
Definition line_separator (u : string) : option string :=
  if u == utf8.encode 8232 then Some (String bs "u2028")
  else if u == utf8.encode 8233 then Some (String bs "u2029") else None.

Definition escape_rune (u : string) : string :=
  match u with
  | String a "" => escape_byte a
  | _ => match line_separator u with Some e => e | None => u end
  end.

(** [appendString]; a byte that starts no rune becomes the replacement character. *)
Fixpoint escape (fuel : nat) (s : string) : string :=
  match fuel, s with
  | O, _ | _, EmptyString => ""
  | S n, String _ s1 =>
      match utf8.rune s with
      | Some (u, rest) => escape_rune u +:+ escape n rest
      | None => String bs "ufffd" +:+ escape n s1
      end
  end.

Definition quoted (s : string) : string := String dq (escape (String.length s) s +:+ String dq "").

Definition member (kv : string * string) : string := quoted kv.1 +:+ ":" +:+ quoted kv.2.

(** Keys in byte order. *)
Definition key_le (a b : string * string) : Prop := String.le a.1 b.1.
#[export] Instance key_le_dec a b : Decision (key_le a b).
Proof. unfold key_le. apply _. Defined.
Definition sorted_entries (m : gmap string string) : list (string * string) := merge_sort key_le (map_to_list m).

Definition Marshal (m : gomap) : string :=
  match m with
  | None => "null"
  | Some g => "{" +:+ strings.Join (map member (sorted_entries g)) "," +:+ "}"
  end.

(** ** Decoding *)

Definition hexval (a : ascii) : option Z :=
  let z := strings.code a in
  if (48 <=? z) && (z <=? 57) then Some (z - 48)
  else if (97 <=? z) && (z <=? 102) then Some (z - 87)
  else if (65 <=? z) && (z <=? 70) then Some (z - 55) else None.

(** Four hexadecimal digits. *)
Definition hex4 (s : string) : option (Z * string) :=
  match s with
  | String a (String b (String c (String d rest))) =>
      match hexval a, hexval b, hexval c, hexval d with
      | Some w, Some x, Some y, Some z => Some (w * 4096 + x * 256 + y * 16 + z, rest)
      | _, _, _, _ => None
      end
  | _ => None
  end.

Definition is_surrogate (r : Z) : bool := (55296 <=? r) && (r <? 57344).

(** The low surrogate that completes [r], if an escape with one follows. *)
Definition low_surrogate (r : Z) (s : string) : option (Z * string) :=
  match s with
  | String b (String u s') =>
      if Ascii.eqb b bs && Ascii.eqb u "u"%char then
        match hex4 s' with
        | Some (r1, rest) =>
            if (55296 <=? r) && (r <? 56320) && (56320 <=? r1) && (r1 <? 57344)
            then Some (65536 + Z.shiftl (r - 55296) 10 + (r1 - 56320), rest) else None
        | None => None
        end
      else None
  | _ => None
  end.

Definition simple_escape (a : ascii) : option string :=
  let z := strings.code a in
  if (z =? 34) || (z =? 92) || (z =? 47) then Some (String a "")
  else if z =? 98 then Some (strings.bytes [8]) else if z =? 102 then Some (strings.bytes [12])
  else if z =? 110 then Some (strings.bytes [10]) else if z =? 114 then Some (strings.bytes [13])
  else if z =? 116 then Some (strings.bytes [9]) else None.

(** The string literal whose opening quote was consumed, and what follows it. *)
Fixpoint unquote (fuel : nat) (s : string) : option (string * string) :=
  match fuel, s with
  | O, _ | _, EmptyString => None
  | S n, String a s1 =>
      if Ascii.eqb a dq then Some ("", s1)
      else if Ascii.eqb a bs then
        match s1 with
        | String e s2 =>
            if Ascii.eqb e "u"%char then
              match hex4 s2 with
              | Some (r, s3) =>
                  if is_surrogate r then
                    match low_surrogate r s3 with
                    | Some (r', s4) => match unquote n s4 with Some (t, rest) => Some (utf8.encode r' +:+ t, rest) | None => None end
                    | None => match unquote n s3 with Some (t, rest) => Some (utf8.RuneError +:+ t, rest) | None => None end
                    end
                  else match unquote n s3 with Some (t, rest) => Some (utf8.encode r +:+ t, rest) | None => None end
              | None => None
              end
            else match simple_escape e with
                 | Some c => match unquote n s2 with Some (t, rest) => Some (c +:+ t, rest) | None => None end
                 | None => None
                 end
        | EmptyString => None
        end
      else if strings.code a <? 32 then None
      else match utf8.rune s with
           | Some (u, s2) => match unquote n s2 with Some (t, rest) => Some (u +:+ t, rest) | None => None end
           | None => match unquote n s1 with Some (t, rest) => Some (utf8.RuneError +:+ t, rest) | None => None end
           end
  end.

Definition is_space (a : ascii) : bool :=
  let z := strings.code a in (z =? 32) || (z =? 9) || (z =? 10) || (z =? 13).

Fixpoint skip_space (s : string) : string :=
  match s with
  | String a s' => if is_space a then skip_space s' else s
  | EmptyString => ""
  end.

Definition string_literal (s : string) : option (string * string) :=
  match s with
  | String a s' => if Ascii.eqb a dq then unquote (String.length s') s' else None
  | EmptyString => None
  end.

(** A member's value: a string, or null, which leaves the zero value. *)
Definition string_value (s : string) : option (string * string) :=
  match string_literal s with
  | Some r => Some r
  | None => if strings.HasPrefix s "null" then Some ("", strings.drop 4 s) else None
  end.

(** Members up to the closing brace; a later entry replaces an earlier one. *)
Fixpoint members (fuel : nat) (s : string) (acc : gmap string string) : option (gmap string string * string) :=
  match fuel with
  | O => None
  | S n =>
      match string_literal (skip_space s) with
      | Some (k, s1) =>
          match skip_space s1 with
          | String c s2 =>
              if Ascii.eqb c ":"%char then
                match string_value (skip_space s2) with
                | Some (v, s3) =>
                    match skip_space s3 with
                    | String d s4 =>
                        if Ascii.eqb d ","%char then members n s4 (<[k:=v]> acc)
                        else if Ascii.eqb d "}"%char then Some (<[k:=v]> acc, s4) else None
                    | EmptyString => None
                    end
                | None => None
                end
              else None
          | EmptyString => None
          end
      | None => None
      end
  end.

Definition at_end (s : string) (m : gmap string string) : result (gmap string string) :=
  if skip_space s == "" then Ok m else Err (Errorf "invalid character after top-level value").

(** The text of the decoder's error is not modelled; that there is one is. *)
Definition Unmarshal (s : string) : result (gmap string string) :=
  match skip_space s with
  | String a s1 =>
      if Ascii.eqb a "{"%char then
        match skip_space s1 with
        | String b s2 =>
            if Ascii.eqb b "}"%char then at_end s2 ∅
            else match members (String.length s1) s1 ∅ with
                 | Some (m, rest) => at_end rest m
                 | None => Err (Errorf "invalid JSON object of strings")
                 end
        | EmptyString => Err (Errorf "unexpected end of JSON input")
        end
      else if strings.HasPrefix (skip_space s) "null" then at_end (strings.drop 4 (skip_space s)) ∅
      else Err (Errorf "invalid JSON object of strings")
  | EmptyString => Err (Errorf "unexpected end of JSON input")
  end.

End json.

Example marshal_ex :
  json.Marshal (Some {[ "b" := "x<y"; "a" := "1" ]}) =
  "{" +:+ fmt.q "a" +:+ ":" +:+ fmt.q "1" +:+ "," +:+ fmt.q "b" +:+ ":"
  +:+ json.quoted "x<y" +:+ "}" /\
  json.quoted "x<y" = fmt.dquote +:+ "x\u003cy" +:+ fmt.dquote.
Proof. vm_compute. done. Qed.

(** ** Round trip *)

Lemma rune_ext u s t : utf8.rune (u +:+ s) = Some (u, s) -> utf8.rune (u +:+ t) = Some (u, t).
Proof.
  unfold utf8.rune. destruct u as [|a [|b [|c [|d [|e u]]]]]; simpl; intros H;
    repeat (case_match; simplify_eq/=; try done).
Qed.

Lemma rune_cases u s :
  utf8.rune (u +:+ s) = Some (u, s) ->
  (exists a, u = String a "" /\ utf8.ascii_byte a = true) \/
  (exists a b v, u = String a (String b v) /\ utf8.ascii_byte a = false).
Proof.
  unfold utf8.rune. destruct u as [|a [|b v]]; simpl; intros H.
  - destruct s as [|? s]; [done|]. repeat (case_match; simplify_eq/=).
  - left. exists a. split; [done|]. repeat (case_match; simplify_eq/=); done.
  - right. exists a, b, v. split; [done|]. destruct (utf8.ascii_byte a) eqn:E; simplify_eq/=; done.
Qed.

Definition cons_result (u : string) (r : option (string * string)) : option (string * string) :=
  match r with Some (t, rest) => Some (u +:+ t, rest) | None => None end.

Lemma unquote_ascii a n t :
  utf8.ascii_byte a = true ->
  json.unquote (S n) (json.escape_byte a +:+ t) = cons_result (String a "") (json.unquote n t).
Proof.
  destruct a as [[][][][][][][][]]; intros Ha; try discriminate Ha;
    cbn -[json.unquote utf8.encode]; reflexivity.
Qed.

Lemma unquote_raw a b v s n t :
  utf8.rune (String a (String b v) +:+ s) = Some (String a (String b v), s) -> utf8.ascii_byte a = false ->
  json.unquote (S n) (String a (String b v) +:+ t) = cons_result (String a (String b v)) (json.unquote n t).
Proof.
  intros Hr Ha. apply rune_ext with (t := t) in Hr. cbn [String.append] in *.
  cbn -[utf8.rune Ascii.eqb]. rewrite Hr.
  unfold utf8.ascii_byte in Ha. apply Z.ltb_ge in Ha.
  destruct (Ascii.eqb_spec a json.dq) as [->|]; [by vm_compute in Ha|].
  destruct (Ascii.eqb_spec a json.bs) as [->|]; [by vm_compute in Ha|].
  rewrite (proj2 (Z.ltb_ge _ _)) by lia. reflexivity.
Qed.

Lemma unquote_rune u s n t :
  utf8.rune (u +:+ s) = Some (u, s) ->
  json.unquote (S n) (json.escape_rune u +:+ t) = cons_result u (json.unquote n t).
Proof.
  intros Hr. destruct (rune_cases u s Hr) as [(a & -> & Ha)|(a & b & v & -> & Ha)].
  - by apply unquote_ascii.
  - unfold json.escape_rune, json.line_separator.
    case_bool_decide as H1; [rewrite H1; reflexivity|].
    case_bool_decide as H2; [rewrite H2; reflexivity|].
    by eapply unquote_raw.
Qed.

Lemma escape_rune_length u s :
  utf8.rune (u +:+ s) = Some (u, s) -> (1 <= String.length u <= String.length (json.escape_rune u))%nat.
Proof.
  intros Hr. destruct (rune_cases u s Hr) as [(a & -> & Ha)|(a & b & v & -> & Ha)].
  - simpl. unfold json.escape_byte. repeat case_match; simpl; lia.
  - unfold json.escape_rune, json.line_separator.
    case_bool_decide as H1; [rewrite H1; vm_compute; lia|].
    case_bool_decide as H2; [rewrite H2; vm_compute; lia|]. simpl. lia.
Qed.

Lemma escape_step u s n :
  utf8.rune (u +:+ s) = Some (u, s) -> json.escape (S n) (u +:+ s) = json.escape_rune u +:+ json.escape n s.
Proof.
  intros Hr. destruct (u +:+ s) as [|a w] eqn:E; [by destruct u; [destruct s|]|].
  cbn [json.escape]. by rewrite Hr.
Qed.

Lemma escape_length s n :
  utf8.valid s -> (String.length s <= n)%nat -> (String.length s <= String.length (json.escape n s))%nat.
Proof.
  intros Hv. revert n. induction Hv as [|u s Hr Hv IH]; intros n Hn; [simpl; lia|].
  pose proof (escape_rune_length u s Hr). rewrite length_append in *.
  destruct n as [|n]; [lia|]. rewrite escape_step by done. rewrite length_append.
  specialize (IH n). lia.
Qed.

Lemma unquote_escape s n m rest :
  utf8.valid s -> (String.length s <= n)%nat -> (String.length s < m)%nat ->
  json.unquote m (json.escape n s +:+ String json.dq rest) = Some (s, rest).
Proof.
  intros Hv. revert n m. induction Hv as [|u s Hr Hv IH]; intros n m Hn Hm.
  - destruct m; [lia|]. by destruct n.
  - pose proof (escape_rune_length u s Hr). rewrite length_append in *.
    destruct n as [|n], m as [|m]; try lia. rewrite escape_step, append_assoc by done.
    erewrite unquote_rune by done. rewrite IH by lia. reflexivity.
Qed.

Lemma string_literal_quoted s rest :
  utf8.valid s -> json.string_literal (json.quoted s +:+ rest) = Some (s, rest).
Proof.
  intros Hv. unfold json.quoted, json.string_literal. cbn [String.append].
  rewrite Ascii.eqb_refl, append_assoc. cbn [String.append].
  apply unquote_escape; [done|lia|]. rewrite length_append. simpl.
  pose proof (escape_length s (String.length s) Hv). lia.
Qed.

Lemma skip_space_quoted s rest : json.skip_space (json.quoted s +:+ rest) = json.quoted s +:+ rest.
Proof. reflexivity. Qed.

Definition valid_entry (kv : string * string) : Prop := utf8.valid kv.1 /\ utf8.valid kv.2.

Fixpoint join_members (l : list (string * string)) : string :=
  match l with
  | [] => ""
  | [x] => json.member x
  | x :: l' => json.member x +:+ "," +:+ join_members l'
  end.

Lemma join_members_cons x y l : join_members (x :: y :: l) = json.member x +:+ "," +:+ join_members (y :: l).
Proof. reflexivity. Qed.

Lemma fold_join l s : fold_left (fun acc y => acc +:+ "," +:+ y) (map json.member l) s =
  match l with [] => s | _ => s +:+ "," +:+ join_members l end.
Proof.
  revert s. induction l as [|x l IH]; intros s; [done|]. cbn [map fold_left]. rewrite IH.
  destruct l as [|y l]; [done|]. cbn [join_members]. by rewrite !append_assoc.
Qed.

Lemma Join_members l : strings.Join (map json.member l) "," = join_members l.
Proof. destruct l as [|x l]; [done|]. cbn [map strings.Join]. rewrite fold_join. by destruct l. Qed.

Definition insert_entry (m : gmap string string) (kv : string * string) : gmap string string := <[kv.1:=kv.2]> m.

Lemma members_join l n rest acc :
  l <> [] -> Forall valid_entry l -> (List.length l <= n)%nat ->
  json.members n (join_members l +:+ "}" +:+ rest) acc = Some (fold_left insert_entry l acc, rest).
Proof.
  intros Hne Hl. revert n acc. induction Hl as [|[k v] l [Hk Hv] Hl IH]; intros n acc Hn; [done|].
  destruct n as [|n]; [simpl in Hn; lia|]. cbn [fst snd] in *.
  assert (Hlit : forall tail, json.members (S n) (json.member (k, v) +:+ tail) acc =
     match json.skip_space tail with
     | String d s4 => if Ascii.eqb d ","%char then json.members n s4 (<[k:=v]> acc)
                      else if Ascii.eqb d "}"%char then Some (<[k:=v]> acc, s4) else None
     | EmptyString => None
     end).
  { intros tail. cbn [json.members]. unfold json.member. cbn [fst snd].
    rewrite append_assoc, skip_space_quoted, string_literal_quoted by done.
    pose proof (string_literal_quoted v tail Hv) as Hs. pose proof (skip_space_quoted v tail) as Hsp.
    rewrite append_assoc. remember (json.quoted v +:+ tail) as w.
    cbn -[json.string_value json.skip_space json.members].
    change (json.skip_space (String ":" w)) with (String ":"%char w). cbv iota beta.
    rewrite Ascii.eqb_refl, Hsp. unfold json.string_value. by rewrite Hs. }
  destruct l as [|kv l].
  - cbn [join_members]. rewrite Hlit. reflexivity.
  - rewrite join_members_cons, append_assoc, Hlit.
    specialize (IH ltac:(done) n (<[k:=v]> acc) ltac:(simpl in *; lia)).
    rewrite append_assoc. change ("," +:+ ?x) with (String ","%char x). exact IH.
Qed.

Lemma fold_insert_entries l acc :
  NoDup l.*1 -> fold_left insert_entry l acc = list_to_map l ∪ acc.
Proof.
  revert acc. induction l as [|[k v] l IH]; intros acc Hnd; simpl in *.
  - by rewrite (left_id_L ∅ (∪)).
  - inversion Hnd as [|? ? Hk Hnd']; subst. rewrite IH by done. unfold insert_entry. cbn [fst snd].
    rewrite <- insert_union_r by (by apply not_elem_of_list_to_map_1). by rewrite insert_union_l.
Qed.

Lemma sorted_entries_perm m : json.sorted_entries m ≡ₚ map_to_list m.
Proof. apply merge_sort_Permutation. Qed.

Lemma sorted_entries_map m : list_to_map (json.sorted_entries m) = m.
Proof.
  rewrite <- (list_to_map_to_list m) at 2. apply list_to_map_proper.
  - rewrite sorted_entries_perm. apply NoDup_fst_map_to_list.
  - apply sorted_entries_perm.
Qed.

Lemma join_members_length l : (List.length l <= String.length (join_members l))%nat.
Proof.
  induction l as [|x l IH]; [done|]. destruct l as [|y l].
  - simpl. lia.
  - rewrite join_members_cons, !length_append. change (String.length ",") with 1%nat. cbn [List.length] in *. lia.
Qed.

Lemma Unmarshal_object w :
  json.Unmarshal (String "{"%char (String json.dq w)) =
  match json.members (String.length (String json.dq w)) (String json.dq w) ∅ with
  | Some (m, rest) => json.at_end rest m
  | None => Err (Errorf "invalid JSON object of strings")
  end.
Proof. reflexivity. Qed.

(** Decoding what [Marshal] wrote gives back the map, for maps of well-formed strings. *)
Lemma Unmarshal_Marshal m :
  (forall k v, m !! k = Some v -> utf8.valid k /\ utf8.valid v) ->
  json.Unmarshal (json.Marshal (Some m)) = Ok m.
Proof.
  intros Hv. unfold json.Marshal. rewrite Join_members.
  assert (Hl : Forall valid_entry (json.sorted_entries m)).
  { rewrite sorted_entries_perm. apply Forall_forall. intros [k v] H%elem_of_map_to_list. by apply Hv. }
  pose proof (sorted_entries_map m) as Hm. pose proof (sorted_entries_perm m) as Hp.
  assert (Hnd : NoDup (json.sorted_entries m).*1) by (rewrite Hp; apply NoDup_fst_map_to_list).
  destruct (json.sorted_entries m) as [|[k v] l] eqn:E.
  - simpl in Hm. subst m. reflexivity.
  - assert (Hmem : json.members (String.length (join_members ((k, v) :: l) +:+ "}"))
                     (join_members ((k, v) :: l) +:+ "}") ∅ = Some (m, "")).
    { rewrite <- (append_nil_r "}") at 2. rewrite members_join; [|done|done|].
      - rewrite fold_insert_entries by done. by rewrite (right_id_L ∅ (∪)), Hm.
      - rewrite length_append. pose proof (join_members_length ((k, v) :: l)). lia. }
    assert (Hhead : exists w, join_members ((k, v) :: l) +:+ "}" = String json.dq w).
    { destruct l; cbn [join_members]; unfold json.member, json.quoted; cbn [String.append fst]; eauto. }
    destruct Hhead as [w Hw].
    change ("{" +:+ join_members ((k, v) :: l) +:+ "}") with (String "{"%char (join_members ((k, v) :: l) +:+ "}")).
    rewrite Hw in *. by rewrite Unmarshal_object, Hmem.
Qed.

Lemma valid_ascii s : all_chars utf8.ascii_byte s = true -> utf8.valid s.
Proof.
  induction s as [|a s IH]; [intros; constructor|]. cbn [all_chars].
  intros [Ha Hs]%andb_true_iff. change (String a s) with (String a "" +:+ s).
  constructor; [|auto]. cbn. by rewrite Ha.
Qed.
