(* ===== verification/Metadata.v ===== *)
(** * Custom labels and annotations (internal/controller/custom_metadata.go)

    The operator copies [spec.extraLabels] and [spec.extraAnnotations] onto the
    objects it manages and remembers what it copied, as JSON, in two annotations,
    so that entries removed from the spec are removed from the objects. *)

From S2P Require Import Prelude K8s ApiAlpha ApiBeta StatusAC Interact Conditions GoJSON.

(** ** Labels of managed workloads (mcpserver_controller_deployment.go) *)

Definition managedWorkloadLabels (mcpServerName : string) : gmap string string :=
  {[ LabelKeyApp := ManagedWorkloadName; LabelKeyMCPServer := mcpServerName ]}.

Definition managedWorkloadSelector (mcpServerName : string) : gmap string string :=
  {[ LabelKeyMCPServer := mcpServerName ]}.

(** ** custom_metadata.go *)

Definition managedExtraLabels : string := "mcp.x-k8s.io/managed-extra-labels".
Definition managedExtraAnnotations : string := "mcp.x-k8s.io/managed-extra-annotations".
Definition reservedAnnotationPrefix : string := "mcp.x-k8s.io/".

Definition reservedLabelKeys (k : string) : bool := (k == LabelKeyApp) || (k == LabelKeyMCPServer).

(** The keys of [m] that [drop] does not select; a map without entries is returned as it is. *)
Definition filterKeys (drop : string -> bool) (m : gomap) : gomap :=
  if (mlen m =? 0)%nat then m else Some (filter (fun kv => drop kv.1 = false) (view m)).

Definition filterReservedKeys : gomap -> gomap := filterKeys reservedLabelKeys.
Definition filterReservedAnnotationKeys : gomap -> gomap :=
  filterKeys (fun k => strings.HasPrefix k reservedAnnotationPrefix).

(** [mergeMaps]; its only error is a nil destination. *)
Definition mergeMaps (dst src : gomap) : result gomap :=
  match dst with
  | None => Err (Errorf "destination map not initialized")
  | Some d => Ok (Some (view src ∪ d))
  end.

(** [delete(m, key)] for every key of [keys]; a no-op on a nil map. *)
Definition deleteKeys (keys : gmap string string) (m : gomap) : gomap := option_map (fun g => g ∖ keys) m.
Definition deleteKey (k : string) (m : gomap) : gomap := option_map (delete k) m.
Definition setKey (k v : string) (m : gomap) : gomap := option_map <[k := v]> m.
Definition orMake (m : gomap) : gomap := match m with None => Some ∅ | Some g => Some g end.

(** The map recorded in the annotation [key]. *)
Definition recorded (key : string) (annotations : gomap) : result (gmap string string) :=
  match mget annotations key with
  | Some v => json.Unmarshal v
  | None => Ok ∅
  end.

Definition applyCustomObjectMetadata (mcpServer : MCPServer) (o : ObjectMeta) : result ObjectMeta :=
  match recorded managedExtraLabels (om_annotations o) with
  | Err e => Err (Wrap "retrieving current custom labels failed; " e)
  | Ok currentLabels =>
    let effectiveLabels := filterReservedKeys (spec_extraLabels (srv_spec mcpServer)) in
    let '(labels1, annotations1) :=
      if view effectiveLabels == currentLabels then (om_labels o, om_annotations o)
      else (deleteKeys currentLabels (om_labels o), deleteKey managedExtraLabels (om_annotations o)) in
    let effectiveAnnotations := filterReservedAnnotationKeys (spec_extraAnnotations (srv_spec mcpServer)) in
    match recorded managedExtraAnnotations annotations1 with
    | Err e => Err (Wrap "retrieving current custom annotations failed; " e)
    | Ok currentAnnotations =>
      let annotations2 :=
        if view effectiveAnnotations == currentAnnotations then annotations1
        else deleteKey managedExtraAnnotations (deleteKeys currentAnnotations annotations1) in
      if (mlen effectiveLabels =? 0)%nat && (mlen effectiveAnnotations =? 0)%nat
         && (size currentLabels =? 0)%nat && (size currentAnnotations =? 0)%nat
      then Ok (with_annotations annotations2 (with_labels labels1 o))
      else
        match (if (0 <? mlen effectiveLabels)%nat then mergeMaps (orMake labels1) effectiveLabels
               else Ok (orMake labels1)) with
        | Err e => Err (Wrap "appending labels failed; " e)
        | Ok labels3 =>
          match (if (0 <? mlen effectiveAnnotations)%nat then mergeMaps (orMake annotations2) effectiveAnnotations
                 else Ok (orMake annotations2)) with
          | Err e => Err (Wrap "appending annotations failed; " e)
          | Ok annotations3 =>
            let extraLabelsByte := json.Marshal effectiveLabels in
            let annotations4 := if (extraLabelsByte != "") && (extraLabelsByte != "null")
                                then setKey managedExtraLabels extraLabelsByte annotations3 else annotations3 in
            let extraAnnotationsByte := json.Marshal effectiveAnnotations in
            let annotations5 := if (extraAnnotationsByte != "") && (extraAnnotationsByte != "null")
                                then setKey managedExtraAnnotations extraAnnotationsByte annotations4 else annotations4 in
            Ok (with_annotations annotations5 (with_labels labels3 o))
          end
        end
    end
  end.

Definition applyCustomServiceMetadata := applyCustomObjectMetadata.
Definition applyCustomNetworkPolicyMetadata := applyCustomObjectMetadata.

(** The pod template side of [applyCustomDeploymentMetadata]: the recorded entries
    are removed when they changed, then the effective ones are merged in. *)
Definition refresh (old effective m : gomap) : gomap :=
  let m1 := if view effective == view old then m else deleteKeys (view old) m in
  if (0 <? mlen effective)%nat then Some (view effective ∪ view m1) else m1.

Definition applyCustomDeploymentMetadata (mcpServer : MCPServer) (d : Deployment) : result Deployment :=
  let oldLabels := match recorded managedExtraLabels (om_annotations (dep_meta d)) with Ok m => Some m | Err _ => None end in
  let oldAnnotations := match recorded managedExtraAnnotations (om_annotations (dep_meta d)) with Ok m => Some m | Err _ => None end in
  match applyCustomObjectMetadata mcpServer (dep_meta d) with
  | Err e => Err e
  | Ok m =>
      let effectiveLabels := filterReservedKeys (spec_extraLabels (srv_spec mcpServer)) in
      let effectiveAnnotations := filterReservedAnnotationKeys (spec_extraAnnotations (srv_spec mcpServer)) in
      Ok {| dep_meta := m; dep_replicas := dep_replicas d; dep_selector := dep_selector d;
            dep_template := {| pt_labels := refresh oldLabels effectiveLabels (pt_labels (dep_template d));
                               pt_annotations := refresh oldAnnotations effectiveAnnotations (pt_annotations (dep_template d));
                               pt_spec := pt_spec (dep_template d) |};
            dep_observedGeneration := dep_observedGeneration d; dep_readyReplicas := dep_readyReplicas d;
            dep_conditions := dep_conditions d |}
  end.

Definition missing_key (m : gomap) (k : string) : bool := match mget m k with Some _ => false | None => true end.

(** The shape shared by [objectLabelsChanged] and [objectAnnotationsChanged]:
    [target] is the object's map, [extras] the further maps that must hold the keys. *)
Definition recordedChanged (key : string) (effective annotations target : gomap) (extras : list gomap) : bool :=
  match recorded key annotations with
  | Err _ => true
  | Ok current =>
      if (0 <? size current)%nat then
        ((0 <? mlen effective)%nat && (current != view effective)) || (mlen effective =? 0)%nat
        || existsb (fun k => missing_key target k || existsb (fun m => missing_key m k) extras) (map fst (map_to_list current))
      else (0 <? mlen effective)%nat
  end.

Definition objectLabelsChanged (mcpServer : MCPServer) (o : ObjectMeta) (extraLabelMaps : list gomap) : bool :=
  recordedChanged managedExtraLabels (filterReservedKeys (spec_extraLabels (srv_spec mcpServer)))
    (om_annotations o) (om_labels o) extraLabelMaps.

Definition objectAnnotationsChanged (mcpServer : MCPServer) (o : ObjectMeta) (extraAnnotationMaps : list gomap) : bool :=
  recordedChanged managedExtraAnnotations (filterReservedAnnotationKeys (spec_extraAnnotations (srv_spec mcpServer)))
    (om_annotations o) (om_annotations o) extraAnnotationMaps.

Definition deploymentLabelsChanged (mcpServer : MCPServer) (d : Deployment) : bool :=
  objectLabelsChanged mcpServer (dep_meta d) [pt_labels (dep_template d)].
Definition deploymentAnnotationsChanged (mcpServer : MCPServer) (d : Deployment) : bool :=
  objectAnnotationsChanged mcpServer (dep_meta d) [pt_annotations (dep_template d)].
Definition serviceLabelsChanged (mcpServer : MCPServer) (s : Service) : bool := objectLabelsChanged mcpServer (svc_meta s) [].
Definition serviceAnnotationsChanged (mcpServer : MCPServer) (s : Service) : bool := objectAnnotationsChanged mcpServer (svc_meta s) [].
Definition networkPolicyLabelsChanged (mcpServer : MCPServer) (n : NetworkPolicy) : bool := objectLabelsChanged mcpServer (np_meta n) [].
Definition networkPolicyAnnotationsChanged (mcpServer : MCPServer) (n : NetworkPolicy) : bool := objectAnnotationsChanged mcpServer (np_meta n) [].

(** ** The object's identity is untouched *)

Lemma applyCustom_frame srv o o' :
  applyCustomObjectMetadata srv o = Ok o' ->
  o' = with_annotations (om_annotations o') (with_labels (om_labels o') o).
Proof.
  unfold applyCustomObjectMetadata. intros H.
  repeat (case_match; simplify_eq/=; try done).
Qed.

Lemma applyCustom_meta srv o o' :
  applyCustomObjectMetadata srv o = Ok o' ->
  om_name o' = om_name o /\ om_namespace o' = om_namespace o /\ om_uid o' = om_uid o /\
  om_resourceVersion o' = om_resourceVersion o /\ om_ownerReferences o' = om_ownerReferences o /\
  GetControllerOf o' = GetControllerOf o.
Proof. intros H. rewrite (applyCustom_frame srv o o' H). done. Qed.

(** ** What a successful application computes *)

Definition effL (srv : MCPServer) : gomap := filterReservedKeys (spec_extraLabels (srv_spec srv)).
Definition effA (srv : MCPServer) : gomap := filterReservedAnnotationKeys (spec_extraAnnotations (srv_spec srv)).

(** Recording a nil map writes nothing. *)
Definition put (key : string) (e : gomap) (g : gmap string string) : gmap string string :=
  match e with Some _ => <[key := json.Marshal e]> g | None => g end.

Lemma Marshal_recorded e : (json.Marshal e != "") && (json.Marshal e != "null") = match e with Some _ => true | None => false end.
Proof. by destruct e. Qed.

Lemma mergeMaps_orMake (l e : gomap) :
  (if (0 <? mlen e)%nat then mergeMaps (orMake l) e else Ok (orMake l)) = Ok (Some (view e ∪ view l)).
Proof.
  destruct (Nat.ltb_spec 0 (mlen e)).
  - destruct l; done.
  - unfold mlen in *. assert (view e = ∅) as -> by (apply map_size_empty_inv; lia).
    rewrite (left_id_L ∅ (∪)). by destruct l.
Qed.

(** The maps after the recorded entries that changed were removed. *)
Definition cleaned (eff cur : gmap string string) (m : gomap) : gomap := if eff == cur then m else deleteKeys cur m.
Definition cleanedA (key : string) (eff cur : gmap string string) (m : gomap) : gomap :=
  if eff == cur then m else deleteKey key (deleteKeys cur m).
Definition unrecorded (key : string) (eff cur : gmap string string) (m : gomap) : gomap :=
  if eff == cur then m else deleteKey key m.

Lemma applyCustom_inv srv o o' :
  applyCustomObjectMetadata srv o = Ok o' ->
  exists curL curA,
    let l1 := cleaned (view (effL srv)) curL (om_labels o) in
    let a1 := unrecorded managedExtraLabels (view (effL srv)) curL (om_annotations o) in
    let a2 := cleanedA managedExtraAnnotations (view (effA srv)) curA a1 in
    recorded managedExtraLabels (om_annotations o) = Ok curL /\ recorded managedExtraAnnotations a1 = Ok curA /\
    (view (effL srv) = ∅ /\ view (effA srv) = ∅ /\ curL = ∅ /\ curA = ∅ /\ o' = o \/
     om_labels o' = Some (view (effL srv) ∪ view l1) /\
     om_annotations o' = Some (put managedExtraAnnotations (effA srv)
                                (put managedExtraLabels (effL srv) (view (effA srv) ∪ view a2)))).
Proof.
  unfold applyCustomObjectMetadata. fold (effL srv) (effA srv).
  destruct (recorded managedExtraLabels (om_annotations o)) as [curL|] eqn:EL; [|done].
  replace (if view (effL srv) == curL then _ else _)
    with (cleaned (view (effL srv)) curL (om_labels o), unrecorded managedExtraLabels (view (effL srv)) curL (om_annotations o))
    by (unfold cleaned, unrecorded; by case_bool_decide).
  cbv beta iota zeta. fold (cleanedA managedExtraAnnotations).
  set (l1 := cleaned _ _ _). set (a1 := unrecorded _ _ _ _).
  destruct (recorded managedExtraAnnotations a1) as [curA|] eqn:EA; [|done].
  rewrite !mergeMaps_orMake, !Marshal_recorded. fold (cleanedA managedExtraAnnotations (view (effA srv)) curA a1).
  set (a2 := cleanedA _ _ _ _). intros H. exists curL, curA. split; [done|]. split; [done|].
  destruct (_ && _ && _ && _) eqn:E.
  - left. rewrite !andb_true_iff, !Nat.eqb_eq in E. destruct E as [[[H1 H2] H3] H4].
    apply map_size_empty_inv in H1, H2, H3, H4.
    subst curL curA. unfold a2, a1, l1, cleaned, cleanedA, unrecorded in H.
    rewrite !bool_decide_eq_true_2 in H by done. injection H as <-. by destruct o.
  - right. injection H as <-. cbn. split; [done|].
    destruct (effL srv), (effA srv); done.
Qed.

Lemma filterKeys_lookup drop m k :
  view (filterKeys drop m) !! k = if drop k then None else view m !! k.
Proof.
  unfold filterKeys. destruct (Nat.eqb_spec (mlen m) 0) as [H|H].
  - unfold mlen in H. apply map_size_empty_inv in H. rewrite H, lookup_empty. by case_match.
  - cbn [view from_option id]. rewrite map_lookup_filter. destruct (view m !! k); simpl; [|by case_match].
    destruct (drop k) eqn:E; case_guard; simpl in *; congruence.
Qed.

Lemma effA_reserved srv k : strings.HasPrefix k reservedAnnotationPrefix = true -> view (effA srv) !! k = None.
Proof. intros H. unfold effA, filterReservedAnnotationKeys. by rewrite filterKeys_lookup, H. Qed.

Lemma effL_reserved srv k : reservedLabelKeys k = true -> view (effL srv) !! k = None.
Proof. intros H. unfold effL, filterReservedKeys. by rewrite filterKeys_lookup, H. Qed.

(** Labels and annotations of an object stored by the API server are well-formed text. *)
Definition well_formed (m : gomap) : Prop := forall k v, view m !! k = Some v -> utf8.valid k /\ utf8.valid v.
Definition extras_well_formed (srv : MCPServer) : Prop :=
  well_formed (spec_extraLabels (srv_spec srv)) /\ well_formed (spec_extraAnnotations (srv_spec srv)).

Lemma well_formed_filter drop m : well_formed m -> well_formed (filterKeys drop m).
Proof. intros H k v. rewrite filterKeys_lookup. case_match; [done|apply H]. Qed.

Lemma recorded_some key (e : gomap) g :
  well_formed e -> g !! key = Some (json.Marshal e) -> is_Some e -> recorded key (Some g) = Ok (view e).
Proof. intros Hw H [m ->]. unfold recorded, mget. cbn. rewrite H. by apply Unmarshal_Marshal. Qed.

Lemma put_other key e g k : k <> key -> put key e g !! k = g !! k.
Proof. intros. destruct e; [|done]. by apply lookup_insert_ne. Qed.

Lemma deleteKeys_lookup keys m k :
  view (deleteKeys keys m) !! k = match keys !! k with Some _ => None | None => view m !! k end.
Proof.
  destruct m; simpl; [|case_match; by rewrite ?lookup_empty]. rewrite lookup_difference. by case_match.
Qed.

Lemma deleteKey_lookup key m k : view (deleteKey key m) !! k = if decide (key = k) then None else view m !! k.
Proof.
  destruct m; simpl; [|case_decide; by rewrite ?lookup_empty].
  case_decide; [subst; apply lookup_delete_eq|by apply lookup_delete_ne].
Qed.

(** After a cleaning step the record is either the effective map or absent. *)
Lemma recorded_unrecorded key eff cur a :
  recorded key a = Ok cur -> eff = ∅ -> recorded key (unrecorded key eff cur a) = Ok ∅.
Proof.
  intros H ->. unfold unrecorded. case_bool_decide as E; [by subst|].
  unfold recorded, mget. by rewrite deleteKey_lookup, decide_True.
Qed.

Lemma recorded_absent_or key a a' m :
  recorded key a = Ok m -> (view a' !! key = view a !! key \/ (view a' !! key = None /\ m = ∅)) -> recorded key a' = Ok m.
Proof. unfold recorded, mget. intros H [->|[-> ->]]; done. Qed.

Section correct.
Context (srv : MCPServer) (o o' : ObjectMeta).
Hypothesis Hwf : extras_well_formed srv.
Hypothesis Happly : applyCustomObjectMetadata srv o = Ok o'.

Lemma effL_wf : well_formed (effL srv).
Proof. apply well_formed_filter, Hwf. Qed.
Lemma effA_wf : well_formed (effA srv).
Proof. apply well_formed_filter, Hwf. Qed.

Lemma recorded_after :
  recorded managedExtraLabels (om_annotations o') = Ok (view (effL srv)) /\
  recorded managedExtraAnnotations (om_annotations o') = Ok (view (effA srv)).
Proof.
  destruct (applyCustom_inv srv o o' Happly) as (curL & curA & HL & HA & [(H1 & H2 & -> & -> & ->)|[_ Ha]]).
  - rewrite HL, H1, H2. split; [done|].
    unfold unrecorded in HA. rewrite bool_decide_eq_true_2 in HA by done. done.
  - rewrite Ha. split.
    + destruct (effL srv) as [e|] eqn:E.
      * apply recorded_some; [rewrite <- E; apply effL_wf| |eauto].
        rewrite put_other by done. apply lookup_insert_eq.
      * eapply recorded_absent_or; [by apply recorded_unrecorded|].
        cbn [view from_option id]. rewrite put_other by done. cbn [put].
        rewrite lookup_union_r by (by apply effA_reserved).
        unfold cleanedA. case_bool_decide; [by left|].
        rewrite deleteKey_lookup, decide_False, deleteKeys_lookup by done.
        case_match; [by right|by left].
    + destruct (effA srv) as [e|] eqn:E.
      * apply recorded_some; [rewrite <- E; apply effA_wf| |eauto]. apply lookup_insert_eq.
      * cbn [put view from_option id]. unfold recorded, mget. cbn [view from_option id].
        rewrite put_other, (left_id_L ∅ (∪)) by done. unfold cleanedA. cbn [view from_option id].
        case_bool_decide as Hc; [|by rewrite deleteKey_lookup, decide_True]. subst curA. exact HA.
Qed.

Lemma merged_after :
  view (effL srv) ⊆ view (om_labels o') /\ view (effA srv) ⊆ view (om_annotations o').
Proof.
  destruct (applyCustom_inv srv o o' Happly) as (curL & curA & HL & HA & [(H1 & H2 & -> & -> & ->)|[Hl Ha]]).
  - rewrite H1, H2. split; apply map_empty_subseteq.
  - rewrite Hl, Ha. cbn [view from_option id]. split; [apply map_union_subseteq_l|].
    apply map_subseteq_spec. intros k v Hk.
    assert (strings.HasPrefix k reservedAnnotationPrefix = false) as Hr.
    { destruct (strings.HasPrefix k _) eqn:E; [|done]. by rewrite (effA_reserved _ _ E) in Hk. }
    rewrite !put_other by (intros ->; done). by rewrite lookup_union, Hk, union_Some_l.
Qed.

Lemma made_after : 0 < Z.of_nat (mlen (effL srv) + mlen (effA srv)) ->
  om_labels o' = Some (view (om_labels o')) /\ om_annotations o' = Some (view (om_annotations o')) /\
  (forall e, effL srv = Some e -> view (om_annotations o') !! managedExtraLabels = Some (json.Marshal (effL srv))) /\
  (forall e, effA srv = Some e -> view (om_annotations o') !! managedExtraAnnotations = Some (json.Marshal (effA srv))).
Proof.
  intros Hpos. destruct (applyCustom_inv srv o o' Happly) as (curL & curA & HL & HA & [(H1 & H2 & _)|[Hl Ha]]).
  - unfold mlen in Hpos. rewrite H1, H2, !map_size_empty in Hpos. lia.
  - rewrite Hl, Ha. cbn [view from_option id]. split_and!; [done|done| |]; intros e E; rewrite E.
    + rewrite put_other by done. apply lookup_insert_eq.
    + apply lookup_insert_eq.
Qed.

End correct.

Lemma recordedChanged_converged key eff a target extras :
  recorded key a = Ok (view eff) -> Forall (fun m => view eff ⊆ view m) (target :: extras) ->
  recordedChanged key eff a target extras = false.
Proof.
  intros Hr Hs. inversion Hs as [|? ? Ht He]; subst. unfold recordedChanged. rewrite Hr. fold (mlen eff).
  destruct (Nat.ltb_spec 0 (mlen eff)) as [Hp|]; [|done].
  rewrite bool_decide_eq_true_2 by done. rewrite (proj2 (Nat.eqb_neq (mlen eff) 0)) by lia. cbn.
  apply not_true_iff_false. intros (k & [[k' v] [<- Hk]]%in_map_iff & Hb)%existsb_exists.
  apply list_elem_of_In, elem_of_map_to_list in Hk. cbn [fst] in Hb.
  assert (Hin : forall m, view eff ⊆ view m -> missing_key m k' = false).
  { intros m Hm. unfold missing_key, mget. by rewrite (lookup_weaken _ _ _ _ Hk Hm). }
  rewrite (Hin target Ht) in Hb. cbn in Hb. apply existsb_exists in Hb as (m & Hm & Hb).
  rewrite Forall_forall in He. apply list_elem_of_In in Hm. by rewrite (Hin m (He m Hm)) in Hb.
Qed.

(** A label (or annotation) afterwards: the effective entry; else gone if it had been
    recorded; else what it was. *)
Definition merged (eff cur : gmap string string) (m : gomap) (k : string) : option string :=
  match eff !! k with
  | Some v => Some v
  | None => match cur !! k with Some _ => None | None => mget m k end
  end.

Lemma cleaned_lookup eff cur m k : eff !! k = None -> view (cleaned eff cur m) !! k = merged eff cur m k.
Proof.
  intros H. unfold cleaned, merged. rewrite H. case_bool_decide as E.
  - subst. by rewrite H.
  - apply deleteKeys_lookup.
Qed.

Lemma applyCustom_labels srv o o' cur k :
  applyCustomObjectMetadata srv o = Ok o' -> recorded managedExtraLabels (om_annotations o) = Ok cur ->
  mget (om_labels o') k = merged (view (effL srv)) cur (om_labels o) k.
Proof.
  intros H Hcur. destruct (applyCustom_inv srv o o' H) as (curL & curA & HL & HA & HC).
  rewrite Hcur in HL. injection HL as <-.
  destruct HC as [(H1 & _ & -> & _ & ->)|[Hl _]].
  - unfold merged. by rewrite H1, !lookup_empty.
  - unfold mget. rewrite Hl. cbn [view from_option id]. destruct (view (effL srv) !! k) as [v|] eqn:E.
    + unfold merged. rewrite E. by rewrite lookup_union, E, union_Some_l.
    + rewrite lookup_union_r by done. by apply cleaned_lookup.
Qed.

Lemma applyCustom_annotations srv o o' cur k :
  applyCustomObjectMetadata srv o = Ok o' -> recorded managedExtraAnnotations (om_annotations o) = Ok cur ->
  k <> managedExtraLabels -> k <> managedExtraAnnotations ->
  mget (om_annotations o') k = merged (view (effA srv)) cur (om_annotations o) k.
Proof.
  intros H Hcur Hk1 Hk2. destruct (applyCustom_inv srv o o' H) as (curL & curA & HL & HA & HC).
  assert (curA = cur) as ->.
  { unfold recorded, mget, unrecorded in HA, Hcur. case_bool_decide; [congruence|].
    rewrite deleteKey_lookup, decide_False in HA by done. congruence. }
  destruct HC as [(_ & H1 & _ & -> & ->)|[_ Ha]].
  - unfold merged. by rewrite H1, !lookup_empty.
  - unfold mget. rewrite Ha. cbn [view from_option id]. rewrite !put_other by done.
    assert (Hun : view (unrecorded managedExtraLabels (view (effL srv)) curL (om_annotations o)) !! k = view (om_annotations o) !! k).
    { unfold unrecorded. case_bool_decide; [done|]. by rewrite deleteKey_lookup, decide_False. }
    unfold merged, mget. destruct (view (effA srv) !! k) as [v|] eqn:E.
    + by rewrite lookup_union, E, union_Some_l.
    + rewrite lookup_union_r by done. unfold cleanedA. case_bool_decide as Ec.
      * subst cur. by rewrite E.
      * rewrite deleteKey_lookup, decide_False, deleteKeys_lookup by done. by rewrite Hun.
Qed.

Lemma with_same_meta o : with_annotations (om_annotations o) (with_labels (om_labels o) o) = o.
Proof. by destruct o. Qed.

Lemma applyCustom_idempotent srv o o' :
  extras_well_formed srv -> applyCustomObjectMetadata srv o = Ok o' -> applyCustomObjectMetadata srv o' = Ok o'.
Proof.
  intros Hwf H. destruct (recorded_after srv o o' Hwf H) as [HL HA]. destruct (merged_after srv o o' H) as [Hl Ha].
  unfold applyCustomObjectMetadata. fold (effL srv) (effA srv). rewrite HL, bool_decide_eq_true_2 by done.
  rewrite HA, bool_decide_eq_true_2, !mergeMaps_orMake, !Marshal_recorded by done. fold (mlen (effL srv)) (mlen (effA srv)).
  destruct (_ && _ && _ && _) eqn:E; [by rewrite with_same_meta|].
  destruct (made_after srv o o' H) as (Hml & Hma & HpL & HpA).
  { rewrite !andb_false_iff, !Nat.eqb_neq in E. lia. }
  rewrite !map_subseteq_union, <- Hml by done. f_equal.
  assert (Heq : forall key (e : gomap) (g : gmap string string), (forall x, e = Some x -> g !! key = Some (json.Marshal e)) ->
     (if match e with Some _ => true | None => false end then setKey key (json.Marshal e) (Some g) else Some g) = Some g).
  { intros key [x|] g Hg; [|done]. cbn. f_equal. by apply insert_id, (Hg x). }
  rewrite (Heq _ _ _ HpL), (Heq _ _ _ HpA), <- Hma. apply with_same_meta.
Qed.

(** Custom metadata: on success every effective extra label and annotation is on
    the object, entries that had been recorded and left the spec are gone, all others
    are untouched (so the reserved selector labels are never overwritten), the change
    detectors of the next reconcile are quiet, and applying again changes nothing. *)
Theorem custom_metadata_converges srv o o' curL curA :
  extras_well_formed srv ->
  recorded managedExtraLabels (om_annotations o) = Ok curL ->
  recorded managedExtraAnnotations (om_annotations o) = Ok curA ->
  applyCustomObjectMetadata srv o = Ok o' ->
  (forall k, mget (om_labels o') k = merged (view (effL srv)) curL (om_labels o) k) /\
  (forall k, k <> managedExtraLabels -> k <> managedExtraAnnotations ->
     mget (om_annotations o') k = merged (view (effA srv)) curA (om_annotations o) k) /\
  (forall k, reservedLabelKeys k = true -> curL !! k = None -> mget (om_labels o') k = mget (om_labels o) k) /\
  objectLabelsChanged srv o' [] = false /\ objectAnnotationsChanged srv o' [] = false /\
  applyCustomObjectMetadata srv o' = Ok o'.
Proof.
  intros Hwf HL HA H. destruct (recorded_after srv o o' Hwf H) as [RL RA]. destruct (merged_after srv o o' H) as [ML MA].
  split_and!.
  - intros k. by apply applyCustom_labels.
  - intros k ??. by apply applyCustom_annotations.
  - intros k Hr Hc. rewrite (applyCustom_labels _ _ _ _ _ H HL). unfold merged. by rewrite effL_reserved, Hc.
  - apply recordedChanged_converged; [done|by constructor].
  - apply recordedChanged_converged; [done|by constructor].
  - by apply applyCustom_idempotent with o.
Qed.

Lemma well_formed_ascii m :
  forallb (fun kv => all_chars utf8.ascii_byte kv.1 && all_chars utf8.ascii_byte kv.2) (map_to_list (view m)) = true ->
  well_formed m.
Proof.
  intros H k v Hk. rewrite forallb_forall in H. specialize (H (k, v)).
  rewrite <- list_elem_of_In, elem_of_map_to_list in H. specialize (H Hk).
  apply andb_true_iff in H as [H1 H2]. split; by apply valid_ascii.
Qed.

(** A server whose extra labels try to take over a selector label. *)
Definition labelledServer : MCPServer :=
  {| srv_meta := newMeta "srv" "ns" None;
     srv_spec := {| spec_extraLabels := Some {[ "team" := "blue"; "app" := "evil" ]};
                    spec_extraAnnotations := Some {[ "note" := "x"; "mcp.x-k8s.io/config-hash" := "forged" ]};
                    spec_workloadRef := None; spec_serviceRef := None; spec_source := zeroSource;
                    spec_config := zeroConfig; spec_runtime := zeroRuntime; spec_mcp := {| mcp_stateless := None |};
                    spec_network := None; spec_transport := None; spec_gateway := None |};
     srv_status := zeroStatus |}.

Definition labelledObject : ObjectMeta :=
  with_annotations (Some {[ managedExtraLabels := json.Marshal (Some {[ "old" := "1" ]}) ]})
    (newMeta "srv" "ns" (Some {[ "app" := "mcp-server"; "old" := "1" ]})).

Definition labelledResult : ObjectMeta :=
  match applyCustomObjectMetadata labelledServer labelledObject with Ok o => o | Err _ => labelledObject end.

Lemma custom_metadata_converges_witness :
  om_labels labelledResult = Some {[ "app" := "mcp-server"; "team" := "blue" ]} /\
  objectLabelsChanged labelledServer labelledResult [] = false /\
  applyCustomObjectMetadata labelledServer labelledResult = Ok labelledResult.
Proof.
  split; [vm_compute; reflexivity|].
  destruct (custom_metadata_converges labelledServer labelledObject labelledResult {[ "old" := "1" ]} ∅)
    as (_ & _ & _ & H1 & _ & H2).
  - split; apply well_formed_ascii; vm_compute; reflexivity.
  - vm_compute. reflexivity.
  - vm_compute. reflexivity.
  - vm_compute. reflexivity.
  - exact (conj H1 H2).
Defined.
