(* ===== verification/Service.v ===== *)
(** * Services (internal/controller/mcpserver_controller_service.go)

    Creating, updating and adopting the managed Service, resolving the endpoint of
    a referenced one, and removing the managed Service once a reference replaces it. *)

From S2P Require Import Prelude K8s ApiAlpha ApiBeta StatusAC Interact Conditions AuditLog Ownership Metadata.

(** ** Owner references, shared with the other managed kinds *)

Definition MCPServerAPIVersion : string := GroupVersion_Group +:+ "/" +:+ GroupVersion_Version.

(** [SetControllerReference] fails only across namespaces and where something else is the
    controller. *)
Class ControllerReferences (V : Vendor) : Prop := {
  ParseGroupVersion_own : ParseGroupVersion MCPServerAPIVersion = Some GroupVersion_Group;
  SetControllerReference_succeeds av k owner m :
    om_namespace m = om_namespace owner ->
    (forall ref, GetControllerOf m = Some ref ->
       or_kind ref = k /\ or_name ref = om_name owner /\ ParseGroupVersion (or_apiVersion ref) = ParseGroupVersion av) ->
    exists m', SetControllerReference av k owner m = Ok m'
}.

#[export] Instance modelVendor_references : ControllerReferences modelVendor.
Proof.
  split; [reflexivity|]. intros av k owner m _ Href. cbn. unfold setControllerReference.
  destruct (GetControllerOf m) as [ref|]; [|eauto]. destruct (Href ref eq_refl) as (Hk & Hn & _).
  unfold sameOwner. rewrite !bool_decide_eq_true_2 by done. cbn. eauto.
Qed.

(** [string(GetControllerOf(o).UID)], empty without a controller *)
Definition ownerUID (o : ObjectMeta) : string := match GetControllerOf o with Some ref => or_uid ref | None => "" end.

Definition ownershipChanged (before after : ObjectMeta) : bool :=
  match GetControllerOf after with Some ref => ownerUID before != or_uid ref | None => false end.

Definition with_svc_meta (m : ObjectMeta) (s : Service) : Service :=
  {| svc_meta := m; svc_type := svc_type s; svc_selector := svc_selector s; svc_ports := svc_ports s;
     svc_sessionAffinity := svc_sessionAffinity s; svc_other := svc_other s |}.

Section with_vendor.
Context `{V : Vendor}.

(** [controllerutil.SetControllerReference(mcpServer, obj, r.Scheme)] *)
Definition setController (mcpServer : MCPServer) (o : ObjectMeta) : result ObjectMeta :=
  SetControllerReference MCPServerAPIVersion MCPServerKind (srv_meta mcpServer) o.

Definition createService (mcpServer : MCPServer) (selector : gomap) : Service :=
  let name := om_name (srv_meta mcpServer) in
  let port := cfg_port (spec_config (srv_spec mcpServer)) in
  let targetPort := match spec_workloadRef (srv_spec mcpServer) with
                    | Some _ => IntVal port
                    | None => StrVal mcpPortName
                    end in
  {| svc_meta := newMeta name (om_namespace (srv_meta mcpServer)) (Some (managedWorkloadLabels name));
     svc_type := "ClusterIP";
     svc_selector := selector;
     svc_ports := [{| sp_name := mcpPortName; sp_port := port; sp_targetPort := targetPort;
                      sp_protocol := "TCP"; sp_other := "" |}];
     svc_sessionAffinity := if default false (mcp_stateless (spec_mcp (srv_spec mcpServer))) then "None" else "ClientIP";
     svc_other := "" |}.

Definition serviceNeedsUpdate (mcpServer : MCPServer) (service existing : Service) (ownerChanged : bool) : bool :=
  (svc_ports service != svc_ports existing)
  || (view (svc_selector service) != view (svc_selector existing))
  || (svc_sessionAffinity existing != svc_sessionAffinity service)
  || serviceLabelsChanged mcpServer existing
  || serviceAnnotationsChanged mcpServer existing
  || ownerChanged.

Definition reconcileService (r : MCPServerReconciler) (mcpServer : MCPServer) (selector : gomap) : M (option error) :=
  let service0 := createService mcpServer selector in
  match setController mcpServer (svc_meta service0) with
  | Err e => mret (Some e)
  | Ok m =>
    let service := with_svc_meta m service0 in
    got ← call (CGet Cached KService (om_namespace (svc_meta service)) (om_name (svc_meta service)));
    match got with
    | Err e =>
        if IsNotFound e then
          match applyCustomServiceMetadata mcpServer (svc_meta service) with
          | Err e' => mret (Some (Wrap "applying custom metadata failed; " e'))
          | Ok m' =>
              created ← call (CCreate KService (with_svc_meta m' service));
              match created with Err e' => mret (Some e') | Ok _ => mret None end
          end
        else mret (Some e)
    | Ok existing =>
        owned ← validateOwnership r KService (svc_meta existing) mcpServer;
        match owned with
        | Some e => mret (Some e)
        | None =>
          match setController mcpServer (svc_meta existing) with
          | Err e => mret (Some e)
          | Ok m1 =>
            let existing1 := with_svc_meta m1 existing in
            if serviceNeedsUpdate mcpServer service existing1 (ownershipChanged (svc_meta existing) m1) then
              match applyCustomServiceMetadata mcpServer m1 with
              | Err e => mret (Some (Wrap "applying custom service metadata; " e))
              | Ok m2 =>
                  updated ← call (CUpdate KService
                    {| svc_meta := m2; svc_type := svc_type existing; svc_selector := svc_selector service;
                       svc_ports := svc_ports service; svc_sessionAffinity := svc_sessionAffinity service;
                       svc_other := svc_other existing |});
                  match updated with Err e => mret (Some e) | Ok _ => mret None end
              end
            else mret None
          end
        end
    end
  end.

(** ** Endpoints *)

Record ServiceEndpoint := { ep_name : string; ep_port : Z }.

Definition resolveServicePort (rd : reader) (serviceName namespace : string) (configPort : Z) : M (Z * option error) :=
  if 0 <? configPort then mret (configPort, None)
  else
    got ← call (CGet rd KService namespace serviceName);
    match got with
    | Err e => if IsNotFound e then mret (0, Some (Errorf ("referenced Service " +:+ serviceName +:+ " not found")))
               else mret (0, Some e)
    | Ok svc =>
        match svc_ports svc with
        | [] => mret (0, Some (Errorf ("referenced Service " +:+ serviceName +:+ " has no ports")))
        | p0 :: _ =>
            match List.find (fun p => sp_name p == mcpPortName) (svc_ports svc) with
            | Some p => mret (sp_port p, None)
            | None => mret (sp_port p0, None)
            end
        end
    end.

Definition serviceNameFor (server : MCPServer) : string :=
  match spec_serviceRef (srv_spec server) with
  | Some ref => sr_name ref
  | None => om_name (srv_meta server)
  end.

Definition ResolveServiceEndpoint (rd : reader) (server : MCPServer) : M (ServiceEndpoint * option error) :=
  match spec_serviceRef (srv_spec server) with
  | None => mret ({| ep_name := serviceNameFor server; ep_port := cfg_port (spec_config (srv_spec server)) |}, None)
  | Some _ =>
      let name := serviceNameFor server in
      let configPort := match spec_workloadRef (srv_spec server) with
                        | None => 0
                        | Some _ => cfg_port (spec_config (srv_spec server))
                        end in
      r ← resolveServicePort rd name (om_namespace (srv_meta server)) configPort;
      mret ({| ep_name := name; ep_port := fst r |}, snd r)
  end.

Definition cleanupManagedServiceForBYO (mcpServer : MCPServer) : M (option error) :=
  let srv := srv_meta mcpServer in
  let selfReference := match spec_serviceRef (srv_spec mcpServer) with
                       | Some ref => sr_name ref == om_name srv
                       | None => false
                       end in
  if selfReference then mret None else
  got ← call (CGet Cached KService (om_namespace srv) (om_name srv));
  match got with
  | Err e => if IsNotFound e then mret None else mret (Some e)
  | Ok managedSvc =>
      match GetControllerOf (svc_meta managedSvc) with
      | None => mret None
      | Some owner =>
          if or_uid owner != om_uid srv then mret None else
          external ← call (CGet Direct KService (om_namespace srv) (serviceNameFor mcpServer));
          match external with
          | Err e => if IsNotFound e then mret (Some (Errorf ("referenced Service " +:+ serviceNameFor mcpServer +:+ " not found")))
                     else mret (Some e)
          | Ok _ =>
              deleted ← call (CDelete KService managedSvc
                (Some {| pre_uid := om_uid (svc_meta managedSvc); pre_resourceVersion := om_resourceVersion (svc_meta managedSvc) |}));
              match deleted with
              | Some e => if IsNotFound e || IsConflict e then mret None else mret (Some e)
              | None => mret None
              end
          end
      end
  end.

Definition ReconcilePhaseService : string := "service".

Definition reconcileServiceOrBYO (r : MCPServerReconciler) (mcpServer : MCPServer) (selector : gomap)
    : M (ServiceEndpoint * option error) :=
  match spec_serviceRef (srv_spec mcpServer) with
  | Some _ =>
      res ← ResolveServiceEndpoint Direct mcpServer;
      match snd res with
      | Some e => mret (fst res, Some e)
      | None =>
          cleaned ← cleanupManagedServiceForBYO mcpServer;
          mret (fst res, cleaned)
      end
  | None =>
      err ← reconcileService r mcpServer selector;
      observePhase ReconcilePhaseService ;;
      match err with
      | Some e => mret ({| ep_name := ""; ep_port := 0 |}, Some e)
      | None => mret ({| ep_name := serviceNameFor mcpServer; ep_port := cfg_port (spec_config (srv_spec mcpServer)) |}, None)
      end
  end.

(** ** The write discipline *)

Context {L : VendorLaws V}.

Lemma setController_frame srv o o' : setController srv o = Ok o' -> o' = with_owners (om_ownerReferences o') o.
Proof. apply SetControllerReference_frame. Qed.

Lemma setController_uid srv o o' :
  setController srv o = Ok o' -> exists ref, GetControllerOf o' = Some ref /\ or_uid ref = om_uid (srv_meta srv).
Proof. intros H. destruct (SetControllerReference_controller _ _ _ _ _ H) as (ref & ? & ? & _). eauto. Qed.

(** A freshly built object, owned and labelled, may be created once it was seen absent. *)
Lemma managed_create srv k (o : obj k) m0 m1 h rd e :
  managed_kind k = true -> om_namespace m0 = om_namespace (srv_meta srv) ->
  setController srv m0 = Ok m1 -> applyCustomObjectMetadata srv m1 = Ok (meta_of k o) -> IsNotFound e = true ->
  managed_write srv (Ev (CGet rd k (om_namespace m1) (om_name m1)) (Err e) :: h) (CCreate k o).
Proof.
  intros Hk Hns Hm1 Hm2 He. apply applyCustom_meta in Hm2 as (Hn & Hns' & _ & _ & _ & Hctl).
  destruct (setController_uid _ _ _ Hm1) as (ref & Href & Huid).
  apply setController_frame in Hm1. cbn [managed_write]. split; [done|].
  rewrite Hn, Hns', Hctl. split; [|split].
  - rewrite Hm1. exact Hns.
  - exists rd, e. split; [left; reflexivity|done].
  - eauto.
Qed.

(** An update of the object just read, after ownership was validated and refreshed. *)
Lemma managed_update srv k (o existing : obj k) m1 h rd ns name :
  managed_kind k = true -> manageable (meta_of k existing) srv ->
  setController srv (meta_of k existing) = Ok m1 -> same_version (meta_of k o) m1 ->
  managed_write srv (Ev (CGet rd k ns name) (Ok existing) :: h) (CUpdate k o).
Proof.
  intros Hk Hman Hm1 Hv. split; [done|]. exists existing. split; [|split; [done|]].
  - exists rd, ns, name. left. reflexivity.
  - apply setController_frame in Hm1. rewrite Hm1 in Hv. exact Hv.
Qed.

Lemma applyCustom_same_version srv o o' : applyCustomObjectMetadata srv o = Ok o' -> same_version o' o.
Proof. intros H. apply applyCustom_meta in H as (?&?&?&?&_). done. Qed.

Lemma reconcileService_managed r srv sel : mguard (managed_write srv) (reconcileService r srv sel).
Proof.
  unfold reconcileService. destruct (setController srv (svc_meta (createService srv sel))) as [m|e] eqn:Em; [|guard_tac].
  apply mguard_read; [done|]. intros [existing|e] s h.
  - apply guard_validateOwnership; [|intros; exact I].
    intros Hman s'. destruct (setController srv (svc_meta existing)) as [m1|e] eqn:E1; [|exact I].
    destruct (serviceNeedsUpdate _ _ _ _); [|exact I].
    destruct (applyCustomServiceMetadata srv m1) as [m2|e] eqn:E2; [|exact I].
    split; [|by intros [|]].
    eapply managed_update; [done|exact Hman|exact E1|]. by apply applyCustom_same_version with srv.
  - destruct (IsNotFound e) eqn:Ee; [|exact I].
    destruct (applyCustomServiceMetadata srv _) as [m2|] eqn:E2; [|exact I].
    split; [|by intros [|]]. eapply managed_create; [done| |exact Em|exact E2|done]. done.
Qed.

Lemma resolveServicePort_reads rd n ns p : mcalls no_write (resolveServicePort rd n ns p).
Proof. unfold resolveServicePort. calls_tac. Qed.

Lemma mwp_ResolveServiceEndpoint_name rd srv s :
  mwp (ResolveServiceEndpoint rd srv) s (fun _ r s' => ep_name (fst r) = serviceNameFor srv /\ s' = s).
Proof.
  unfold ResolveServiceEndpoint. destruct (spec_serviceRef _); [|done].
  apply mwp_bind. eapply (mwp_mono _ _ (fun _ _ s' => s' = s)); [|by intros tr a s' ->; apply mwp_ret].
  unfold resolveServicePort. destruct (0 <? _); [done|]. apply mwp_bind, mwp_call. intros [svc|e].
  - destruct (svc_ports svc); [done|]. by destruct (List.find _ _).
  - by destruct (IsNotFound e).
Qed.

Lemma ResolveServiceEndpoint_reads rd srv : mcalls no_write (ResolveServiceEndpoint rd srv).
Proof.
  unfold ResolveServiceEndpoint. destruct (spec_serviceRef _); [|calls_tac].
  apply mcalls_bind; [apply resolveServicePort_reads|calls_tac].
Qed.

Lemma cleanupManagedServiceForBYO_managed srv : mguard (managed_write srv) (cleanupManagedServiceForBYO srv).
Proof.
  unfold cleanupManagedServiceForBYO. match goal with |- mguard _ (if ?b then _ else _) => destruct b end; [done|].
  apply mguard_read; [done|]. intros [svc|e] s h; [|by destruct (IsNotFound e)].
  destruct (GetControllerOf (svc_meta svc)) as [ref|] eqn:Ec; [|exact I].
  case_bool_decide as Hu; [|exact I]. simpl. split; [exact I|].
  intros [ext|e]; [|by destruct (IsNotFound e)]. simpl. split; [|intros [e|]; [by destruct (_ || _)|done]].
  split; [auto|]. split; [|exists ref; auto].
  eexists _, _, _. right. left. reflexivity.
Qed.

Lemma reconcileServiceOrBYO_managed r srv sel : mguard (managed_write srv) (reconcileServiceOrBYO r srv sel).
Proof.
  unfold reconcileServiceOrBYO. destruct (spec_serviceRef (srv_spec srv)).
  - apply mguard_bind; [eapply mguard_calls; [apply managed_no_write|apply ResolveServiceEndpoint_reads]|].
    intros [ep [e|]]; [done|]. apply mguard_bind; [apply cleanupManagedServiceForBYO_managed|done].
  - apply mguard_bind; [apply reconcileService_managed|]. intros err.
    apply mguard_bind; [by apply mguard_call|]. intros _. by destruct err.
Qed.

End with_vendor.

(** ** Switching to a referenced Service *)

(** The calls allowed while a [serviceRef] is set: reads, and the deletion of the
    Service named after the MCPServer, which this very MCPServer controls, as it was
    read, under UID and resourceVersion preconditions, after the referenced (other)
    Service was seen to exist. *)
Definition safe_cleanup (srv : MCPServer) (h : list event) (c : Call) : Prop :=
  match c with
  | CGet _ KService ns _ => ns = om_namespace (srv_meta srv)
  | CDelete KService svc pre =>
      serviceNameFor srv <> om_name (srv_meta srv) /\
      (exists rd, In (Ev (CGet rd KService (om_namespace (srv_meta srv)) (om_name (srv_meta srv))) (Ok svc)) h) /\
      (exists ref, GetControllerOf (svc_meta svc) = Some ref /\ or_uid ref = om_uid (srv_meta srv)) /\
      (exists ext, In (Ev (CGet Direct KService (om_namespace (srv_meta srv)) (serviceNameFor srv)) (Ok ext)) h) /\
      pre = Some {| pre_uid := om_uid (svc_meta svc); pre_resourceVersion := om_resourceVersion (svc_meta svc) |}
  | _ => False
  end.

Lemma cleanupManagedServiceForBYO_safe srv :
  spec_serviceRef (srv_spec srv) <> None -> mguard (safe_cleanup srv) (cleanupManagedServiceForBYO srv).
Proof.
  intros Href. unfold cleanupManagedServiceForBYO.
  destruct (spec_serviceRef (srv_spec srv)) as [ref|] eqn:Er; [|done].
  case_bool_decide as Hself; [done|]. apply mguard_read; [done|].
  intros [svc|e] s h; [|by destruct (IsNotFound e)].
  destruct (GetControllerOf (svc_meta svc)) as [own|] eqn:Ec; [|exact I].
  case_bool_decide as Hu; [|exact I]. simpl. split; [done|].
  intros [ext|e]; [|by destruct (IsNotFound e)]. simpl.
  split; [|intros [e|]; [by destruct (_ || _)|done]].
  split_and!; [by unfold serviceNameFor; rewrite Er|eexists; right; left; done|eauto|eexists; left; done|done].
Qed.

(** While a [serviceRef] is set, [reconcileServiceOrBYO] never creates or updates
    a Service and deletes at most the stale managed one: not the referenced Service,
    only if this MCPServer controls it by UID, only after the referenced Service was
    read, and with preconditions pinning the version it read. *)
Theorem byo_service_switch_safe `{V : Vendor} r srv sel s tr res tr1 c a tr2 :
  spec_serviceRef (srv_spec srv) <> None ->
  runs (reconcileServiceOrBYO r srv sel s) tr res ->
  tr = tr1 ++ Ev c a :: tr2 -> safe_cleanup srv (rev tr1) c.
Proof.
  intros Href Hr Heq. revert Hr Heq. apply mguard_runs. unfold reconcileServiceOrBYO.
  destruct (spec_serviceRef (srv_spec srv)) as [ref|] eqn:Er; [|done].
  apply mguard_bind.
  - unfold ResolveServiceEndpoint. rewrite Er. apply mguard_bind; [|by intros].
    unfold resolveServicePort. match goal with |- mguard _ (if ?b then _ else _) => destruct b end; [done|].
    apply mguard_read; [done|]. intros [svc|e] s' h.
    + destruct (svc_ports svc); [exact I|]. by destruct (List.find _ _).
    + by destruct (IsNotFound e).
  - intros [ep [e|]]; [done|]. apply mguard_bind; [|done].
    apply cleanupManagedServiceForBYO_safe. by rewrite Er.
Qed.

(** ** The managed Service converges *)

(** [svc] exposes the MCP port to the selected pods and belongs to [srv]. *)
Definition service_ready (srv : MCPServer) (sel : gomap) (svc : Service) : Prop :=
  svc_ports svc = svc_ports (createService srv sel) /\
  view (svc_selector svc) = view sel /\
  svc_sessionAffinity svc = svc_sessionAffinity (createService srv sel) /\
  (exists ref, GetControllerOf (svc_meta svc) = Some ref /\ or_uid ref = om_uid (srv_meta srv)).

(** What a successful reconcile leaves in the cluster: the object it wrote, or the
    one it read and found up to date. *)
Definition service_outcome (srv : MCPServer) (sel : gomap) (tr : list event) : Prop :=
  exists svc, service_ready srv sel svc /\
    ((exists a, In (Ev (CCreate KService svc) (Ok a)) tr) \/ (exists a, In (Ev (CUpdate KService svc) (Ok a)) tr) \/
     (exists m, In (Ev (CGet Cached KService (om_namespace (srv_meta srv)) (om_name (srv_meta srv)))
                      (Ok (with_svc_meta m svc))) tr /\ ownerUID m = om_uid (srv_meta srv))).

Lemma mwp_validateOwnership_simple `{V : Vendor} r k o srv s (Q : list event -> option error -> RState -> Prop) :
  (manageable o srv -> Q [] None s) -> (forall tr e, Q tr (Some e) s) -> mwp (validateOwnership r k o srv) s Q.
Proof. intros H1 H2. apply mwp_validateOwnership; auto. Qed.

Lemma orb_chain_false a b c d e f :
  a || b || c || d || e || f = false -> a = false /\ b = false /\ c = false /\ d = false /\ e = false /\ f = false.
Proof. rewrite !orb_false_iff. tauto. Qed.

Lemma mwp_reconcileService_outcome `{V : Vendor} {L : VendorLaws V} r srv sel s :
  mwp (reconcileService r srv sel) s (fun tr res _ => res = None -> service_outcome srv sel tr).
Proof.
  unfold reconcileService. destruct (setController srv (svc_meta (createService srv sel))) as [m|] eqn:Em; [|by apply mwp_ret].
  pose proof (setController_frame _ _ _ Em) as Hm.
  apply mwp_bind, mwp_call. intros [ex|e].
  - apply mwp_bind, mwp_validateOwnership_simple; [|intros; by apply mwp_ret]. intros Hman.
    destruct (setController srv (svc_meta ex)) as [m1|] eqn:E1; [|by apply mwp_ret].
    pose proof (setController_uid _ _ _ E1) as (ref & Href & Huid).
    destruct (serviceNeedsUpdate _ _ _ _) eqn:En.
    + destruct (applyCustomServiceMetadata srv m1) as [m2|] eqn:E2; [|by apply mwp_ret].
      apply mwp_bind, mwp_call. intros [a|e]; apply mwp_ret; intros; [|done].
      eexists. split; [|right; left; eexists; right; left; reflexivity].
      split_and!; try done. exists ref. split; [|done]. cbn.
      by rewrite (proj2 (proj2 (proj2 (proj2 (proj2 (applyCustom_meta _ _ _ E2)))))).
    + apply mwp_ret. intros _. apply orb_chain_false in En as (Hp & Hs & Ha & _ & _ & Ho).
      bool_to_prop. unfold ownershipChanged in Ho. rewrite Href in Ho. bool_to_prop.
      exists (with_svc_meta m1 ex). split; [split_and!; cbn in *; try done; eauto|].
      right. right. exists (svc_meta ex). split; [|congruence].
      left. rewrite Hm. cbn. by destruct ex.
  - destruct (IsNotFound e); [|by apply mwp_ret].
    destruct (applyCustomServiceMetadata srv _) as [m2|] eqn:E2; [|by apply mwp_ret].
    apply mwp_bind, mwp_call. intros [a|e']; apply mwp_ret; intros; [|done].
    eexists. split; [|left; eexists; right; left; reflexivity].
    destruct (setController_uid _ _ _ Em) as (ref & Href & Huid).
    split_and!; try done. exists ref. split; [|done]. cbn.
    by rewrite (proj2 (proj2 (proj2 (proj2 (proj2 (applyCustom_meta _ _ _ E2)))))).
Qed.

(** When [reconcileService] reports success, a Service with the desired port,
    selector and session affinity, controlled by this MCPServer, is what it wrote or
    what it read. *)
Theorem service_converges `{V : Vendor} {L : VendorLaws V} r srv sel s tr s' :
  runs (reconcileService r srv sel s) tr (None, s') -> service_outcome srv sel tr.
Proof. intros Hr. by apply (mwp_runs _ s _ (mwp_reconcileService_outcome r srv sel s) _ _ _ Hr). Qed.

(** ** Concrete runs *)

Definition sampleSpec : MCPServerSpec :=
  {| spec_extraLabels := None; spec_extraAnnotations := None; spec_workloadRef := None; spec_serviceRef := None;
     spec_source := {| src_type := SourceTypeContainerImage;
                       src_containerImage := Some {| ci_ref := "reg/img:1"; ci_pullPolicy := ""; ci_imagePullSecrets := [] |} |};
     spec_config := {| cfg_port := 8080; cfg_arguments := []; cfg_env := []; cfg_envFrom := []; cfg_storage := []; cfg_path := "/mcp" |};
     spec_runtime := zeroRuntime; spec_mcp := {| mcp_stateless := None |};
     spec_network := None; spec_transport := None; spec_gateway := None |}.

Definition sampleMeta : ObjectMeta :=
  {| om_name := "srv"; om_namespace := "ns"; om_uid := "uid-1"; om_resourceVersion := "7"; om_generation := 1;
     om_deletionTimestamp := None; om_labels := None; om_annotations := None; om_ownerReferences := [] |}.

Definition serverWith (sp : MCPServerSpec) : MCPServer := {| srv_meta := sampleMeta; srv_spec := sp; srv_status := zeroStatus |}.
Definition sampleServer : MCPServer := serverWith sampleSpec.

Definition with_serviceRef (ref : option ServiceReference) (sp : MCPServerSpec) : MCPServerSpec :=
  {| spec_extraLabels := spec_extraLabels sp; spec_extraAnnotations := spec_extraAnnotations sp;
     spec_workloadRef := spec_workloadRef sp; spec_serviceRef := ref; spec_source := spec_source sp;
     spec_config := spec_config sp; spec_runtime := spec_runtime sp; spec_mcp := spec_mcp sp;
     spec_network := spec_network sp; spec_transport := spec_transport sp; spec_gateway := spec_gateway sp |}.

Definition sampleReconciler : MCPServerReconciler :=
  {| Scheme := fun _ => Some "Service"; Recorder := true; TLSEnvVars := []; TLSProfile := None;
     NetworkPolicyDefaultPosture := "restricted"; OperatorNamespace := "mcp-system";
     OperatorPodLabels := {[ "control-plane" := "controller-manager" ]};
     WebhookEnabled := true; AdmissionPolicyActive := true |}.

(** The owner reference the operator puts on what it manages. *)
Definition sampleOwner : OwnerReference :=
  {| or_apiVersion := MCPServerAPIVersion; or_kind := MCPServerKind; or_name := "srv"; or_uid := "uid-1";
     or_controller := Some true; or_blockOwnerDeletion := Some true |}.

Definition managedService : Service :=
  with_svc_meta (with_owners [sampleOwner] (svc_meta (createService sampleServer None))) (createService sampleServer None).

(** A cluster that holds the managed Service and the referenced one. *)
Definition serviceWorld : World :=
  {| w_get := fun _ k _ _ => match k return result (obj k) with
                             | KService => Ok managedService
                             | _ => Err (StatusError NotFound "not found")
                             end;
     w_write := None; w_pods := []; w_servers := []; w_list := fun _ _ => []; w_status := None; w_dial := Ok None; w_now := 0 |}.

Lemma service_converges_witness :
  fst (snd (run_in emptyWorld (@reconcileService modelVendor sampleReconciler sampleServer None) emptyState)) = None /\
  service_outcome sampleServer None
    (fst (run_in emptyWorld (@reconcileService modelVendor sampleReconciler sampleServer None) emptyState)).
Proof.
  split; [vm_compute; reflexivity|].
  refine (@service_converges modelVendor modelVendor_laws sampleReconciler sampleServer None emptyState _ emptyState _).
  exact (run_in_runs emptyWorld (@reconcileService modelVendor sampleReconciler sampleServer None) emptyState).
Defined.

Definition byoServiceServer : MCPServer := serverWith (with_serviceRef (Some {| sr_name := "ext" |}) sampleSpec).

(** The stale managed Service is deleted by the fourth call. *)
Lemma byo_service_switch_safe_witness :
  exists tr1 svc pre a tr2,
    fst (run_in serviceWorld (@reconcileServiceOrBYO modelVendor sampleReconciler byoServiceServer None) emptyState) =
      tr1 ++ Ev (CDelete KService svc pre) a :: tr2 /\
    safe_cleanup byoServiceServer (rev tr1) (CDelete KService svc pre).
Proof.
  eexists [_; _; _], _, _, _, []. split; [reflexivity|].
  refine (@byo_service_switch_safe modelVendor sampleReconciler byoServiceServer None emptyState _ _ _ _ _ _ _ _ _).
  - discriminate.
  - exact (run_in_runs serviceWorld (@reconcileServiceOrBYO modelVendor sampleReconciler byoServiceServer None) emptyState).
  - reflexivity.
Defined.
