(* ===== verification/Sha256.v ===== *)
(** * crypto/sha256

    SHA-256 (FIPS 180-4) as a function on bytes: 32-bit words are [Z] with the
    wrap-around written out.  The operator names gateway bindings with it and
    fingerprints configuration data. *)

From Stdlib Require Import Ascii.
From S2P Require Import Prelude.

Module sha256.

Definition word (z : Z) : Z := Z.land z (2 ^ 32 - 1).
Definition add (a b : Z) : Z := word (a + b).
Definition rotr (n : Z) (a : Z) : Z := Z.lor (Z.shiftr a n) (word (Z.shiftl a (32 - n))).
Definition lnot (a : Z) : Z := Z.lxor a (2 ^ 32 - 1).

Definition Ch (x y z : Z) : Z := Z.lxor (Z.land x y) (Z.land (lnot x) z).
Definition Maj (x y z : Z) : Z := Z.lxor (Z.lxor (Z.land x y) (Z.land x z)) (Z.land y z).
Definition S0 (x : Z) : Z := Z.lxor (Z.lxor (rotr 2 x) (rotr 13 x)) (rotr 22 x).
Definition S1 (x : Z) : Z := Z.lxor (Z.lxor (rotr 6 x) (rotr 11 x)) (rotr 25 x).
Definition s0 (x : Z) : Z := Z.lxor (Z.lxor (rotr 7 x) (rotr 18 x)) (Z.shiftr x 3).
Definition s1 (x : Z) : Z := Z.lxor (Z.lxor (rotr 17 x) (rotr 19 x)) (Z.shiftr x 10).

(** The constants are those of FIPS 180-4: the first 32 bits of the fractional parts
    of the cube roots of the first 64 primes, and of the square roots of the first
    eight. *)
Definition is_prime (n : nat) : bool :=
  (2 <=? n)%nat && forallb (fun d => negb (n mod d =? 0)%nat) (seq 2 (n - 2)).
Definition primes : list Z := Eval vm_compute in map Z.of_nat (List.filter is_prime (seq 0 312)).

(** The greatest [r] below [lo + 2 ^ bits] with [r ^ 3 <= z], bit by bit. *)
Fixpoint cbrt (bits : nat) (z lo : Z) : Z :=
  match bits with
  | O => lo
  | S b => let m := lo + 2 ^ Z.of_nat b in cbrt b z (if m * m * m <=? z then m else lo)
  end.

Definition K : list Z := Eval vm_compute in map (fun p => word (cbrt 40 (p * 2 ^ 96) 0)) primes.
Definition H0 : list Z := Eval vm_compute in map (fun p => word (Z.sqrt (p * 2 ^ 64))) (firstn 8 primes).

Record state := { A : Z; B : Z; C : Z; D : Z; E : Z; F : Z; G : Z; H : Z }.

Definition init : state := Eval vm_compute in
  {| A := nth 0 H0 0; B := nth 1 H0 0; C := nth 2 H0 0; D := nth 3 H0 0;
     E := nth 4 H0 0; F := nth 5 H0 0; G := nth 6 H0 0; H := nth 7 H0 0 |}.

(** Big-endian words of a block. *)
Fixpoint words (l : list Z) : list Z :=
  match l with
  | a :: b :: c :: d :: l' => (Z.shiftl a 24 + Z.shiftl b 16 + Z.shiftl c 8 + d) :: words l'
  | _ => []
  end.

(** The message schedule, newest word first; [n] words are still to be computed. *)
Fixpoint extend (n : nat) (w : list Z) : list Z :=
  match n with
  | O => w
  | S n' => extend n' (add (add (s1 (nth 1 w 0)) (nth 6 w 0)) (add (s0 (nth 14 w 0)) (nth 15 w 0)) :: w)
  end.

Definition round (st : state) (kw : Z * Z) : state :=
  let t1 := add (add (H st) (S1 (E st))) (add (Ch (E st) (F st) (G st)) (add kw.1 kw.2)) in
  let t2 := add (S0 (A st)) (Maj (A st) (B st) (C st)) in
  {| A := add t1 t2; B := A st; C := B st; D := C st; E := add (D st) t1; F := E st; G := F st; H := G st |}.

Definition compress (st : state) (block : list Z) : state :=
  let w := rev (extend 48 (rev (words block))) in
  let r := fold_left round (zip K w) st in
  {| A := add (A st) (A r); B := add (B st) (B r); C := add (C st) (C r); D := add (D st) (D r);
     E := add (E st) (E r); F := add (F st) (F r); G := add (G st) (G r); H := add (H st) (H r) |}.

(** Padding: a one bit, zeros, and the bit length in eight bytes. *)
Definition pad (l : list Z) : list Z :=
  let n := List.length l in
  let zeros := ((119 - n mod 64) mod 64)%nat in
  l ++ [128] ++ replicate zeros 0
    ++ map (fun i => Z.land (Z.shiftr (8 * Z.of_nat n) (8 * i)) 255) [7; 6; 5; 4; 3; 2; 1; 0].

Fixpoint blocks (fuel : nat) (st : state) (l : list Z) : state :=
  match fuel with
  | O => st
  | S n => match l with [] => st | _ => blocks n (compress st (firstn 64 l)) (skipn 64 l) end
  end.

Definition be32 (w : Z) : list Z :=
  [Z.land (Z.shiftr w 24) 255; Z.land (Z.shiftr w 16) 255; Z.land (Z.shiftr w 8) 255; Z.land w 255].

(** Each block takes 64 bytes, so the length of the padded message is enough fuel. *)
Definition Sum256 (l : list Z) : list Z :=
  let p := pad l in
  let st := blocks (List.length p) init p in
  concat (map be32 [A st; B st; C st; D st; E st; F st; G st; H st]).

Definition bytes_of (s : string) : list Z := map strings.code (String.list_ascii_of_string s).

(** [fmt.Sprintf("%x", sha256.Sum256([]byte(s)))] *)
Definition hex (s : string) : string := fmt.x (Sum256 (bytes_of s)).

End sha256.

(** FIPS 180-4 test vectors. *)
Example sha256_abc : sha256.hex "abc" = "ba7816bf8f01cfea414140de5dae2223b00361a396177a9cb410ff61f20015ad".
Proof. vm_compute. reflexivity. Qed.
Example sha256_empty : sha256.hex "" = "e3b0c44298fc1c149afbf4c8996fb92427ae41e4649b934ca495991b7852b855".
Proof. vm_compute. reflexivity. Qed.
Example sha256_two_blocks :
  sha256.hex "abcdbcdecdefdefgefghfghighijhijkijkljklmklmnlmnomnopnopq" =
  "248d6a61d20638b8e5c026930c3e6039a33ce45964ff2167f6ecedd419db06c1".
Proof. vm_compute. reflexivity. Qed.

Lemma fmt_x_length l : String.length (fmt.x l) = (2 * List.length l)%nat.
Proof.
  induction l as [|b l IH]; [done|]. unfold fmt.x in *. cbn [fold_right].
  rewrite length_append, IH. unfold fmt.hexbyte. simpl. lia.
Qed.

Lemma Sum256_length l : List.length (sha256.Sum256 l) = 32%nat.
Proof. reflexivity. Qed.

Lemma sha256_hex_length s : String.length (sha256.hex s) = 64%nat.
Proof. unfold sha256.hex. by rewrite fmt_x_length, Sum256_length. Qed.

Lemma sha256_hex_nonempty s : sha256.hex s <> "".
Proof. intros H. pose proof (sha256_hex_length s) as L. by rewrite H in L. Qed.
