(* ===== verification/Gateway.v ===== *)
(** * Gateway bindings (internal/controller/mcpserver_controller_gateway.go)

    The MCPServer controller's side of gateway integration: it owns one
    MCPGatewayBinding per server and folds the binding's state into the status. *)

From S2P Require Import Prelude K8s ApiAlpha ApiBeta StatusAC Interact Conditions AuditLog Ownership Sha256 Metadata Service.

Definition gatewayBindingSuffix : string := "-gateway-binding".

Definition gatewayBindingName (mcpServerName : string) : string :=
  let name := mcpServerName +:+ gatewayBindingSuffix in
  if (String.length name <=? 253)%nat then name
  else
    let hash := strings.take 8 (sha256.hex mcpServerName) in
    strings.take (253 - String.length gatewayBindingSuffix - 1 - String.length hash) mcpServerName
      +:+ "-" +:+ hash +:+ gatewayBindingSuffix.

Definition with_mgb_meta (m : ObjectMeta) (b : MCPGatewayBinding) : MCPGatewayBinding :=
  {| mgb_meta := m; mgb_spec := mgb_spec b; mgb_status := mgb_status b |}.

Section with_vendor.
Context `{V : Vendor}.

Definition cleanupGatewayBindingIfRemoved (r : MCPServerReconciler) (mcpServer : MCPServer) : M unit :=
  match spec_gateway (srv_spec mcpServer) with
  | Some _ => mret tt
  | None =>
      got ← call (CGet Cached KBinding (om_namespace (srv_meta mcpServer)) (gatewayBindingName (om_name (srv_meta mcpServer))));
      match got with
      | Err _ => mret tt
      | Ok existing =>
          ownerErr ← validateOwnership r KBinding (mgb_meta existing) mcpServer;
          match ownerErr with
          | Some _ => mret tt
          | None => call (CDelete KBinding existing None) ;; mret tt
          end
      end
  end.

(** The binding the spec asks for. *)
Definition desiredBinding (mcpServer : MCPServer) (gw : GatewaySpec) : MCPGatewayBinding :=
  {| mgb_meta := newMeta (gatewayBindingName (om_name (srv_meta mcpServer))) (om_namespace (srv_meta mcpServer)) None;
     mgb_spec := {| mgb_mcpServerRef := om_name (srv_meta mcpServer);
                    mgb_provider := gw_provider gw; mgb_configRef := gw_configRef gw |};
     mgb_status := {| mgb_url := ""; mgb_conditions := [] |} |}.

Definition reconcileGatewayBinding (r : MCPServerReconciler) (mcpServer : MCPServer) : M (option error) :=
  let bindingName := gatewayBindingName (om_name (srv_meta mcpServer)) in
  got ← call (CGet Cached KBinding (om_namespace (srv_meta mcpServer)) bindingName);
  match spec_gateway (srv_spec mcpServer) with
  | None =>
      match got with
      | Ok existing =>
          ownerErr ← validateOwnership r KBinding (mgb_meta existing) mcpServer;
          match ownerErr with
          | Some e => mret (Some e)
          | None => call (CDelete KBinding existing None)
          end
      | Err e => if IsNotFound e then mret None else mret (Some e)
      end
  | Some gw =>
      let desired0 := desiredBinding mcpServer gw in
      match setController mcpServer (mgb_meta desired0) with
      | Err e => mret (Some (Wrap "setting controller reference on MCPGatewayBinding: " e))
      | Ok m =>
        let desired := with_mgb_meta m desired0 in
        match got with
        | Err e =>
            if IsNotFound e then
              created ← call (CCreate KBinding desired);
              match created with Err e' => mret (Some e') | Ok _ => mret None end
            else mret (Some e)
        | Ok existing =>
            ownerErr ← validateOwnership r KBinding (mgb_meta existing) mcpServer;
            match ownerErr with
            | Some e => mret (Some e)
            | None =>
                if mgb_provider (mgb_spec existing) != mgb_provider (mgb_spec desired) then
                  deleted ← call (CDelete KBinding existing None);
                  match deleted with
                  | Some e => mret (Some (Wrap "deleting MCPGatewayBinding for provider change: " e))
                  | None => mret None
                  end
                else if mgb_spec existing != mgb_spec desired then
                  updated ← call (CUpdate KBinding
                    {| mgb_meta := mgb_meta existing; mgb_spec := mgb_spec desired; mgb_status := mgb_status existing |});
                  match updated with Err e => mret (Some e) | Ok _ => mret None end
                else mret None
            end
        end
      end
  end.

Record gatewayStatus := {
  gws_condition : Condition;
  gws_bindingStatus : option GatewayBindingStatus;
  gws_gatewayAddress : string;
  gws_err : option error
}.

Definition with_gws_condition (c : Condition) (g : gatewayStatus) : gatewayStatus :=
  {| gws_condition := c; gws_bindingStatus := gws_bindingStatus g;
     gws_gatewayAddress := gws_gatewayAddress g; gws_err := gws_err g |}.

(** Returns the mutated [gwStatus] with the Available condition and the URL. *)
Definition applyGatewayStatus (mcpServer : MCPServer) (gwStatus : gatewayStatus) (availableCondition : Condition)
    (mcpURL : string) : M (gatewayStatus * Condition * string) :=
  let existing := st_conditions (srv_status mcpServer) in
  let gw := with_gws_condition (preserveLastTransitionTime (gws_condition gwStatus) existing) gwStatus in
  recordCondition mcpServer (gws_condition gw) ;;
  let url := if gws_gatewayAddress gw != "" then gws_gatewayAddress gw else mcpURL in
  if (c_status (gws_condition gw) != ConditionTrue) && (c_status availableCondition != ConditionFalse) then
    available ← newAvailableCondition ConditionFalse ReasonGatewayNotRegistered (c_message (gws_condition gw))
                  (om_generation (srv_meta mcpServer)) existing;
    recordCondition mcpServer available ;;
    mret (gw, available, url)
  else mret (gw, availableCondition, url).

Definition bindingStatusAC (b : GatewayBindingStatus) : GatewayBindingStatusApplyConfiguration :=
  {| gbac_name := Some (gbs_name b); gbac_provider := Some (gbs_provider b) |}.

Definition applyGatewayStatusToAC (status : MCPServerStatusApplyConfiguration) (gwStatus : option gatewayStatus)
    (acceptedCondition availableCondition verifiedCondition : Condition) : MCPServerStatusApplyConfiguration :=
  match gwStatus with
  | None => WithConditions [conditionToAC acceptedCondition; conditionToAC availableCondition; conditionToAC verifiedCondition] status
  | Some gw =>
      let status1 := WithConditions [conditionToAC acceptedCondition; conditionToAC availableCondition;
                                     conditionToAC verifiedCondition; conditionToAC (gws_condition gw)] status in
      match gws_bindingStatus gw with
      | Some b => WithGatewayBinding (bindingStatusAC b) status1
      | None => status1
      end
  end.

Definition reconcileGatewayCondition (mcpServer : MCPServer) : M (option gatewayStatus) :=
  let generation := om_generation (srv_meta mcpServer) in
  match spec_gateway (srv_spec mcpServer) with
  | None => mret None
  | Some _ =>
      got ← call (CGet Cached KBinding (om_namespace (srv_meta mcpServer)) (gatewayBindingName (om_name (srv_meta mcpServer))));
      match got with
      | Err e =>
          if IsNotFound e then
            c ← newCondition ConditionTypeGatewayRegistered ConditionFalse ReasonGatewayBindingNotFound
                  "MCPGatewayBinding not found" generation;
            mret (Some {| gws_condition := c; gws_bindingStatus := None; gws_gatewayAddress := ""; gws_err := None |})
          else
            c ← newCondition ConditionTypeGatewayRegistered ConditionFalse ReasonGatewayNotRegistered
                  ("Failed to check MCPGatewayBinding: " +:+ Error e) generation;
            mret (Some {| gws_condition := c; gws_bindingStatus := None; gws_gatewayAddress := ""; gws_err := Some e |})
      | Ok binding =>
          let bs := {| gbs_name := om_name (mgb_meta binding); gbs_provider := mgb_provider (mgb_spec binding) |} in
          let registered := FindStatusCondition (mgb_conditions (mgb_status binding)) ConditionTypeRegistered in
          let isRegistered := match registered with
                              | Some c => (c_status c == ConditionTrue) && negb (c_observedGeneration c <? om_generation (mgb_meta binding))
                              | None => false
                              end in
          if negb isRegistered then
            let msg := match registered with
                       | Some c => c_message c
                       | None => "Waiting for gateway integration controller to register binding; if this persists, verify that a controller for provider "
                                 +:+ fmt.q (mgb_provider (mgb_spec binding)) +:+ " is running"
                       end in
            c ← newCondition ConditionTypeGatewayRegistered ConditionFalse ReasonGatewayNotRegistered msg generation;
            mret (Some {| gws_condition := c; gws_bindingStatus := Some bs; gws_gatewayAddress := ""; gws_err := None |})
          else
            c ← newCondition ConditionTypeGatewayRegistered ConditionTrue ReasonGatewayRegistered
                  "Gateway integration is active" generation;
            mret (Some {| gws_condition := c; gws_bindingStatus := Some bs;
                          gws_gatewayAddress := mgb_url (mgb_status binding); gws_err := None |})
      end
  end.

End with_vendor.

(** ** Names *)

Lemma take_length_le n s : (String.length (strings.take n s) <= n)%nat.
Proof. revert s. induction n as [|n IH]; intros [|a s]; simpl; [lia..|]. specialize (IH s). lia. Qed.

Lemma hash_prefix_length s : String.length (strings.take 8 (sha256.hex s)) = 8%nat.
Proof. apply length_take. rewrite sha256_hex_length. lia. Qed.

(** The name of a gateway binding always fits the 253 bytes Kubernetes allows;
    names up to 237 bytes only get the suffix, longer ones keep their first 228
    bytes, eight hash digits and the suffix, and use the room exactly. *)
Theorem gateway_binding_name_fits n :
  (String.length (gatewayBindingName n) <= 253)%nat /\
  ((String.length n <= 237)%nat -> gatewayBindingName n = n +:+ gatewayBindingSuffix) /\
  ((237 < String.length n)%nat ->
     String.length (gatewayBindingName n) = 253%nat /\
     gatewayBindingName n = strings.take 228 n +:+ "-" +:+ strings.take 8 (sha256.hex n) +:+ gatewayBindingSuffix).
Proof.
  unfold gatewayBindingName. rewrite hash_prefix_length, length_append.
  change (String.length gatewayBindingSuffix) with 16%nat. change (253 - 16 - 1 - 8)%nat with 228%nat.
  destruct (Nat.leb_spec (String.length n + 16) 253) as [H|H].
  - rewrite length_append. change (String.length gatewayBindingSuffix) with 16%nat. split_and!; [lia|done|lia].
  - assert (Hl : String.length (strings.take 228 n +:+ "-" +:+ strings.take 8 (sha256.hex n) +:+ gatewayBindingSuffix) = 253%nat).
    { rewrite !length_append, hash_prefix_length, length_take by lia. done. }
    rewrite Hl. split_and!; [lia|lia|done].
Qed.

(** ** Write discipline *)

Section discipline.
Context `{V : Vendor} {L : VendorLaws V}.

Lemma managed_delete srv (b : MCPGatewayBinding) h rd ns name :
  manageable (mgb_meta b) srv -> managed_write srv (Ev (CGet rd KBinding ns name) (Ok b) :: h) (CDelete KBinding b None).
Proof. intros H. split; [auto|]. split; [|done]. exists rd, ns, name. left. done. Qed.

Lemma cleanupGatewayBindingIfRemoved_managed r srv : mguard (managed_write srv) (cleanupGatewayBindingIfRemoved r srv).
Proof.
  unfold cleanupGatewayBindingIfRemoved. destruct (spec_gateway _); [done|].
  apply mguard_read; [done|]. intros [ex|e] s h; [|done].
  apply guard_validateOwnership; [|done]. intros Hman s'. split; [by apply managed_delete|done].
Qed.

Lemma reconcileGatewayBinding_managed r srv : mguard (managed_write srv) (reconcileGatewayBinding r srv).
Proof.
  unfold reconcileGatewayBinding. apply mguard_read; [done|]. intros got s h.
  destruct (spec_gateway _) as [gw|].
  - destruct (setController srv (mgb_meta (desiredBinding srv gw))) as [m|] eqn:Em; [|done].
    destruct got as [ex|e].
    + apply guard_validateOwnership; [|done]. intros Hman s'.
      destruct (mgb_provider _ != _).
      * split; [by apply managed_delete|]. by intros [|].
      * destruct (mgb_spec _ != _); [|done]. split; [|by intros [|]].
        split; [done|]. exists ex. split; [eexists _, _, _; left; reflexivity|]. split; [done|]. cbn. done.
    + destruct (IsNotFound e) eqn:Ee; [|done]. split; [|by intros [|]].
      pose proof (setController_frame _ _ _ Em) as Hf. destruct (setController_uid _ _ _ Em) as (ref & Href & Hu).
      cbn. split_and!; [done|by rewrite Hf| |by exists ref].
      exists Cached, e. split; [|done]. left. rewrite Hf. reflexivity.
  - destruct got as [ex|e]; [|by destruct (IsNotFound e)].
    apply guard_validateOwnership; [|done]. intros Hman s'. split; [by apply managed_delete|done].
Qed.

Lemma reconcileGatewayCondition_reads srv : mcalls no_write (reconcileGatewayCondition srv).
Proof.
  unfold reconcileGatewayCondition, newCondition. destruct (spec_gateway _); [|calls_tac].
  apply mcalls_bind; [by apply mcalls_call|]. intros [b|e]; [|calls_tac].
  match goal with |- mcalls _ (if ?b then _ else _) => destruct b end; calls_tac.
Qed.

End discipline.

(** ** Soundness of the gateway status *)

(** The binding is registered: its controller reported Registered=True for the
    binding's current generation. *)
Definition binding_registered (b : MCPGatewayBinding) : Prop :=
  exists c, FindStatusCondition (mgb_conditions (mgb_status b)) ConditionTypeRegistered = Some c /\
    c_status c = ConditionTrue /\ om_generation (mgb_meta b) <= c_observedGeneration c.

Definition gateway_status_sound (srv : MCPServer) (tr : list event) (gw : gatewayStatus) : Prop :=
  c_type (gws_condition gw) = ConditionTypeGatewayRegistered /\
  c_observedGeneration (gws_condition gw) = om_generation (srv_meta srv) /\
  (c_status (gws_condition gw) = ConditionTrue \/ c_status (gws_condition gw) = ConditionFalse) /\
  (c_status (gws_condition gw) = ConditionTrue <->
     exists b, In (Ev (CGet Cached KBinding (om_namespace (srv_meta srv)) (gatewayBindingName (om_name (srv_meta srv)))) (Ok b)) tr /\
       binding_registered b) /\
  (gws_gatewayAddress gw <> "" ->
     c_status (gws_condition gw) = ConditionTrue /\
     exists b, In (Ev (CGet Cached KBinding (om_namespace (srv_meta srv)) (gatewayBindingName (om_name (srv_meta srv)))) (Ok b)) tr /\
       gws_gatewayAddress gw = mgb_url (mgb_status b)).

Lemma mwp_reconcileGatewayCondition srv s (Q : list event -> option gatewayStatus -> RState -> Prop) :
  (spec_gateway (srv_spec srv) = None -> Q [] None s) ->
  (forall tr gw, gateway_status_sound srv tr gw -> Q tr (Some gw) s) ->
  mwp (reconcileGatewayCondition srv) s Q.
Proof.
  intros Hnone Hsome. unfold reconcileGatewayCondition. destruct (spec_gateway _) as [g|]; [|by apply mwp_ret, Hnone].
  apply mwp_bind, mwp_call. intros [b|e].
  - set (reg := FindStatusCondition _ _).
    set (ok := match reg with Some c => _ | None => false end).
    assert (Hok : ok = true <-> binding_registered b).
    { unfold ok, binding_registered. fold reg. destruct reg as [c|]; [|naive_solver].
      rewrite andb_true_iff, bool_decide_eq_true, negb_true_iff, Z.ltb_ge. naive_solver. }
    destruct ok; cbn [negb]; apply mwp_bind, mwp_newCondition; intros now; apply mwp_ret, Hsome;
      (refine (conj eq_refl (conj eq_refl (conj _ (conj _ _)))); [cbn; auto| |]).
    + split; [intros _|done]. exists b. split; [left; done|by apply Hok].
    + intros _. split; [done|]. exists b. split; [left|]; done.
    + split; [done|]. intros (b' & [Hb|[Hb|[]]] & Hr); [|discriminate].
      apply Ev_get_inj in Hb as <-. by apply Hok in Hr.
    + done.
  - destruct (IsNotFound e); apply mwp_bind, mwp_newCondition; intros now; apply mwp_ret, Hsome;
      (refine (conj eq_refl (conj eq_refl (conj _ (conj _ _)))); [cbn; auto| |done]);
      (split; [done|]; intros (b' & [Hb|[Hb|[]]] & Hr); by apply (f_equal (read_of KBinding)) in Hb).
Qed.

(** GatewayRegistered=True is reported exactly when the binding just read is
    registered for its current generation, and only then is the gateway's URL used as
    the server's address. *)
Theorem gateway_condition_sound srv s tr gw s' :
  runs (reconcileGatewayCondition srv s) tr (Some gw, s') -> gateway_status_sound srv tr gw.
Proof.
  intros Hr. cut (match Some gw with Some g => gateway_status_sound srv tr g | None => True end); [done|]. revert Hr.
  apply (mwp_runs _ s (fun tr o _ => match o with Some g => gateway_status_sound srv tr g | None => True end)).
  apply mwp_reconcileGatewayCondition; auto.
Qed.

Definition gatewayServer : MCPServer :=
  serverWith {| spec_extraLabels := None; spec_extraAnnotations := None; spec_workloadRef := None; spec_serviceRef := None;
                spec_source := spec_source sampleSpec; spec_config := spec_config sampleSpec; spec_runtime := zeroRuntime;
                spec_mcp := {| mcp_stateless := None |}; spec_network := None; spec_transport := None;
                spec_gateway := Some {| gw_provider := "httproute"; gw_configRef := "gw" |} |}.

Definition registeredBinding : MCPGatewayBinding :=
  {| mgb_meta := with_owners [sampleOwner] (newMeta "srv-gateway-binding" "ns" None);
     mgb_spec := {| mgb_mcpServerRef := "srv"; mgb_provider := "httproute"; mgb_configRef := "gw" |};
     mgb_status := {| mgb_url := "https://gw.example/mcp";
                      mgb_conditions := [condition_at 0 ConditionTypeRegistered ConditionTrue "Registered" "" 1] |} |}.

Definition gatewayWorld : World :=
  {| w_get := fun _ k _ _ => match k return result (obj k) with
                             | KBinding => Ok registeredBinding
                             | _ => Err (StatusError NotFound "not found")
                             end;
     w_write := None; w_pods := []; w_servers := []; w_list := fun _ _ => []; w_status := None; w_dial := Ok None; w_now := 0 |}.

Lemma gateway_condition_sound_witness :
  exists gw, fst (snd (run_in gatewayWorld (reconcileGatewayCondition gatewayServer) emptyState)) = Some gw /\
    gws_gatewayAddress gw = "https://gw.example/mcp" /\
    gateway_status_sound gatewayServer (fst (run_in gatewayWorld (reconcileGatewayCondition gatewayServer) emptyState)) gw.
Proof.
  eexists. split; [reflexivity|]. split; [reflexivity|].
  refine (gateway_condition_sound gatewayServer emptyState _ _ emptyState _).
  exact (run_in_runs gatewayWorld (reconcileGatewayCondition gatewayServer) emptyState).
Defined.
