(* ===== verification/GoNet.v ===== *)
(** * net.ParseCIDR and friends

    The part of Go's net and net/netip packages behind the operator's CIDR checks:
    address parsing, CIDR parsing, [IPMask.Size] and [IPNet.Contains].  An address is
    its list of bytes. *)

From Stdlib Require Import Ascii.
From S2P Require Import Prelude.

Module net.

Definition IP := list Z.
Record IPNet := { IPNet_IP : IP; IPNet_Mask : list Z }.

Definition digit (a : ascii) : option Z :=
  let z := strings.code a in if (48 <=? z) && (z <=? 57) then Some (z - 48) else None.

Definition hexdigit (a : ascii) : option Z :=
  let z := strings.code a in
  if (48 <=? z) && (z <=? 57) then Some (z - 48)
  else if (97 <=? z) && (z <=? 102) then Some (z - 87)
  else if (65 <=? z) && (z <=? 70) then Some (z - 55) else None.

(** A decimal number; [None] if a character is not a digit. *)
Fixpoint decimal (s : string) (acc : Z) : option Z :=
  match s with
  | EmptyString => Some acc
  | String a s' => match digit a with Some d => decimal s' (acc * 10 + d) | None => None end
  end.

(** [dtoi]: numbers from 0xFFFFFF on are refused; so is an empty string. *)
Definition dtoi (s : string) : option Z :=
  if s == "" then None
  else match decimal s 0 with Some n => if n <? 16777215 then Some n else None | None => None end.

(** One octet: no leading zero, at most 255. *)
Definition octet (s : string) : option Z :=
  match s with
  | EmptyString => None
  | String a s' =>
      if Ascii.eqb a "0"%char && (s' != "") then None
      else match decimal s 0 with Some n => if n <=? 255 then Some n else None | None => None end
  end.

Definition parseIPv4Fields (s : string) : option (list Z) :=
  match strings.SplitByte "."%char s with
  | [a; b; c; d] =>
      match octet a, octet b, octet c, octet d with
      | Some a', Some b', Some c', Some d' => Some [a'; b'; c'; d']
      | _, _, _, _ => None
      end
  | _ => None
  end.

(** The hexadecimal digits at the head of [s]: value, number of digits, rest. *)
Fixpoint hexrun (s : string) (acc : Z) (off : nat) : Z * nat * string :=
  match s with
  | String a s' => match hexdigit a with Some d => hexrun s' (acc * 16 + d) (S off) | None => (acc, off, s) end
  | EmptyString => (acc, off, s)
  end.

(** The loop of [parseIPv6]: bytes read so far, where the ellipsis was seen, input. *)
Fixpoint groups (fuel : nat) (ip : list Z) (ellipsis : option nat) (s : string) : option (list Z * option nat * string) :=
  match fuel with
  | O => Some (ip, ellipsis, s)
  | S n =>
      let '(acc, off, rest) := hexrun s 0 0 in
      if (off =? 0)%nat || (4 <? off)%nat then None
      else match rest with
      | EmptyString => Some (ip ++ [Z.shiftr acc 8; Z.land acc 255], ellipsis, "")
      | String c rest' =>
          if Ascii.eqb c "."%char then
            if match ellipsis with None => negb (List.length ip =? 12)%nat | Some _ => false end then None
            else if (16 <? List.length ip + 4)%nat then None
            else match parseIPv4Fields s with Some f => Some (ip ++ f, ellipsis, "") | None => None end
          else
            let ip' := ip ++ [Z.shiftr acc 8; Z.land acc 255] in
            if negb (Ascii.eqb c ":"%char) then None
            else match rest' with
            | EmptyString => None
            | String c2 rest2 =>
                if Ascii.eqb c2 ":"%char then
                  match ellipsis with
                  | Some _ => None
                  | None => if rest2 == "" then Some (ip', Some (List.length ip'), "")
                            else groups n ip' (Some (List.length ip')) rest2
                  end
                else groups n ip' ellipsis rest'
            end
      end
  end.

(** Eight groups of two bytes at most: the fuel of the loop bound [i < 16]. *)
Definition parseIPv6 (s : string) : option IP :=
  let lead := strings.HasPrefix s "::" in
  let s1 := if lead then strings.drop 2 s else s in
  if lead && (s1 == "") then Some (replicate 16 0)
  else match groups 8 [] (if lead then Some 0%nat else None) s1 with
  | None => None
  | Some (ip, ellipsis, rest) =>
      if rest != "" then None
      else if (List.length ip <? 16)%nat then
        match ellipsis with
        | None => None
        | Some e => Some (firstn e ip ++ replicate (16 - List.length ip) 0 ++ skipn e ip)
        end
      else match ellipsis with Some _ => None | None => Some ip end
  end.

(** The first of '.', ':' and '%' decides. *)
Fixpoint addr_kind (s : string) : option ascii :=
  match s with
  | EmptyString => None
  | String a s' =>
      if Ascii.eqb a "."%char || Ascii.eqb a ":"%char || Ascii.eqb a "%"%char then Some a else addr_kind s'
  end.

(** [netip.ParseAddr] for addresses without a zone, which [ParseCIDR] refuses. *)
Definition ParseAddr (s : string) : option IP :=
  if strings.Contains s "%" then None
  else match addr_kind s with
  | Some a => if Ascii.eqb a "."%char then parseIPv4Fields s else parseIPv6 s
  | None => None
  end.

(** [strings.Cut(s, "%")]: what precedes and what follows the first ['%']. *)
Fixpoint cut_zone (s : string) : string * option string :=
  match s with
  | EmptyString => ("", None)
  | String a s' =>
      if Ascii.eqb a "%"%char then ("", Some s')
      else let '(l, z) := cut_zone s' in (String a l, z)
  end.

(** [netip.ParseAddr]: an IPv6 address may carry a zone, which must not be empty. *)
Definition ParseZonedAddr (s : string) : option IP :=
  match addr_kind s with
  | Some a =>
      if Ascii.eqb a "."%char then parseIPv4Fields s
      else if Ascii.eqb a ":"%char then
        match cut_zone s with
        | (l, None) => parseIPv6 l
        | (l, Some z) => if z == "" then None else parseIPv6 l
        end
      else None
  | None => None
  end.

(** [netip.Addr.Is6], IPv4-mapped addresses included. *)
Definition Is6 (ip : IP) : bool := (List.length ip =? 16)%nat.

(** [net.CIDRMask(ones, 8*n)] *)
Fixpoint CIDRMask (ones : Z) (n : nat) : list Z :=
  match n with
  | O => []
  | S n' => if 8 <=? ones then 255 :: CIDRMask (ones - 8) n'
            else Z.land (Z.lnot (Z.shiftr 255 ones)) 255 :: CIDRMask 0 n'
  end.

Fixpoint zip_land (a b : list Z) : list Z :=
  match a, b with x :: a', y :: b' => Z.land x y :: zip_land a' b' | _, _ => [] end.

Fixpoint cut_slash (s : string) : option (string * string) :=
  match s with
  | EmptyString => None
  | String a s' => if Ascii.eqb a "/"%char then Some ("", s')
                   else match cut_slash s' with Some (x, y) => Some (String a x, y) | None => None end
  end.

(** The network of a CIDR; IPv4 networks have four bytes, IPv6 ones sixteen. *)
Definition ParseCIDR (s : string) : option IPNet :=
  match cut_slash s with
  | None => None
  | Some (addr, mask) =>
      match ParseAddr addr, dtoi mask with
      | Some ip, Some n =>
          if n <=? 8 * Z.of_nat (List.length ip) then
            let m := CIDRMask n (List.length ip) in Some {| IPNet_IP := zip_land ip m; IPNet_Mask := m |}
          else None
      | _, _ => None
      end
  end.

Definition ParseCIDR_error (s : string) : string := "invalid CIDR address: " +:+ s.

(** [simpleMaskLength] *)
Fixpoint leading_ones (fuel : nat) (v : Z) : Z :=
  match fuel with
  | O => 0
  | S n => if Z.testbit v 7 then 1 + leading_ones n (Z.land (Z.shiftl v 1) 255) else 0
  end.

Fixpoint mask_length (m : list Z) : Z :=
  match m with
  | [] => 0
  | v :: m' => if v =? 255 then 8 + mask_length m' else leading_ones 8 v
  end.

(** [IPMask.Size] on the contiguous masks [CIDRMask] builds. *)
Definition Size (m : list Z) : Z * Z := (mask_length m, 8 * Z.of_nat (List.length m)).

(** An IPv4 address mapped into IPv6 is used as IPv4. *)
Definition To4 (ip : IP) : option IP :=
  match ip with
  | [_; _; _; _] => Some ip
  | [0; 0; 0; 0; 0; 0; 0; 0; 0; 0; 255; 255; a; b; c; d] => Some [a; b; c; d]
  | _ => None
  end.

Definition reduce (ip : IP) : IP := match To4 ip with Some x => x | None => ip end.

Definition networkNumberAndMask (n : IPNet) : IP * list Z :=
  let ip := reduce (IPNet_IP n) in
  match List.length (IPNet_Mask n), List.length ip with
  | 4%nat, 4%nat => (ip, IPNet_Mask n)
  | 16%nat, 4%nat => (ip, skipn 12 (IPNet_Mask n))
  | 16%nat, 16%nat => (ip, IPNet_Mask n)
  | _, _ => ([], [])
  end.

Definition Contains (n : IPNet) (ip : IP) : bool :=
  let '(nn, m) := networkNumberAndMask n in
  let x := reduce ip in
  (List.length x =? List.length nn)%nat && (zip_land nn m == zip_land x m).

End net.

Example cidr_v4 : net.ParseCIDR "10.1.2.3/8" = Some {| net.IPNet_IP := [10; 0; 0; 0]; net.IPNet_Mask := [255; 0; 0; 0] |}.
Proof. reflexivity. Qed.
Example cidr_v6 : net.ParseCIDR "2001:db8::1:0:0:1/64" =
  Some {| net.IPNet_IP := [32; 1; 13; 184; 0; 0; 0; 0; 0; 0; 0; 0; 0; 0; 0; 0]; net.IPNet_Mask := replicate 8 255 ++ replicate 8 0 |}.
Proof. reflexivity. Qed.
Example cidr_mapped : option_map net.IPNet_IP (net.ParseCIDR "::ffff:1.2.3.4/128") =
  Some [0; 0; 0; 0; 0; 0; 0; 0; 0; 0; 255; 255; 1; 2; 3; 4].
Proof. reflexivity. Qed.
Example cidr_bad : map net.ParseCIDR ["10.0.0.0"; "10.0.0.0/33"; "010.0.0.0/8"; "1::2::3/64"; "fe80::1%eth0/64"; "1.2.3/8"; "::1:/64"] = replicate 7 None.
Proof. reflexivity. Qed.

(** ** Facts about masks *)

Lemma zip_land_length a b : List.length (net.zip_land a b) = Nat.min (List.length a) (List.length b).
Proof. revert b. induction a as [|x a IH]; intros [|y b]; simpl; auto. Qed.

Lemma CIDRMask_length o n : List.length (net.CIDRMask o n) = n.
Proof. revert o. induction n as [|n IH]; intros o; simpl; [done|]. destruct (8 <=? o); simpl; by rewrite IH. Qed.

(** The partial byte of a mask. *)
Definition mask_byte (o : Z) : Z := Z.land (Z.lnot (Z.shiftr 255 o)) 255.

Lemma small_cases o : 0 <= o < 8 -> o = 0 \/ o = 1 \/ o = 2 \/ o = 3 \/ o = 4 \/ o = 5 \/ o = 6 \/ o = 7.
Proof. lia. Qed.

Lemma mask_byte_land o1 o2 : 0 <= o1 <= o2 -> o2 < 8 -> Z.land (mask_byte o2) (mask_byte o1) = mask_byte o1.
Proof.
  intros H1 H2. destruct (small_cases o1) as [->|[->|[->|[->|[->|[->|[->| ->]]]]]]]; [lia|..];
  destruct (small_cases o2) as [->|[->|[->|[->|[->|[->|[->| ->]]]]]]]; solve [lia|reflexivity].
Qed.

Lemma mask_byte_255 o : Z.land 255 (mask_byte o) = mask_byte o.
Proof. unfold mask_byte. rewrite (Z.land_comm 255), <- Z.land_assoc. done. Qed.

(** A longer mask contains the shorter one. *)
Lemma CIDRMask_land o1 o2 n :
  0 <= o1 <= o2 -> net.zip_land (net.CIDRMask o2 n) (net.CIDRMask o1 n) = net.CIDRMask o1 n.
Proof.
  revert o1 o2. induction n as [|n IH]; intros o1 o2 H; [done|]. cbn [net.CIDRMask].
  destruct (Z.leb_spec 8 o1), (Z.leb_spec 8 o2); try lia; cbn [net.zip_land]; f_equal;
    try (apply IH; lia); fold (mask_byte o1) (mask_byte o2).
  - apply mask_byte_255.
  - apply mask_byte_land; lia.
Qed.

Lemma zip_land_assoc a b c : net.zip_land (net.zip_land a b) c = net.zip_land a (net.zip_land b c).
Proof.
  revert b c. induction a as [|x a IH]; intros [|y b] [|z c]; simpl; [done..|]. by rewrite IH, Z.land_assoc.
Qed.

Lemma zip_land_skipn n a b : net.zip_land (skipn n a) (skipn n b) = skipn n (net.zip_land a b).
Proof.
  revert a b. induction n as [|n IH]; intros a b; [done|]. destruct a as [|x a], b as [|y b]; simpl; try done.
  destruct (skipn n a); done.
Qed.

Lemma mask_length_CIDRMask o n : 0 <= o <= 8 * Z.of_nat n -> net.mask_length (net.CIDRMask o n) = o.
Proof.
  revert o. induction n as [|n IH]; intros o H; [simpl in *; lia|]. cbn [net.CIDRMask].
  destruct (Z.leb_spec 8 o).
  - cbn [net.mask_length]. rewrite Z.eqb_refl, IH; lia.
  - destruct (small_cases o) as [->|[->|[->|[->|[->|[->|[->| ->]]]]]]]; [lia|reflexivity..].
Qed.

Lemma decimal_nonneg s acc n : 0 <= acc -> net.decimal s acc = Some n -> 0 <= n.
Proof.
  revert acc. induction s as [|a s IH]; simpl; intros acc H Hd; [by simplify_eq|].
  destruct (net.digit a) as [d|] eqn:E; [|done]. apply (IH (acc * 10 + d)); [|done].
  unfold net.digit in E. case_match eqn:Eb; simplify_eq. apply andb_true_iff in Eb. lia.
Qed.

Lemma dtoi_nonneg s n : net.dtoi s = Some n -> 0 <= n.
Proof.
  unfold net.dtoi. case_match; [done|]. destruct (net.decimal s 0) as [m|] eqn:E; [|done].
  case_match; [|done]. intros [= <-]. by apply (decimal_nonneg s 0).
Qed.

Lemma parseIPv4Fields_length s f : net.parseIPv4Fields s = Some f -> List.length f = 4%nat.
Proof. unfold net.parseIPv4Fields. repeat case_match; intros; simplify_eq; done. Qed.

Lemma groups_length n ip e s ip' e' s' :
  net.groups n ip e s = Some (ip', e', s') -> (List.length ip + 2 * n <= 16)%nat -> (List.length ip' <= 16)%nat.
Proof.
  revert ip e s. induction n as [|n IH]; cbn [net.groups]; intros ip e s H Hl; [simplify_eq; lia|].
  destruct (net.hexrun s 0 0) as [[acc off] rest]. destruct (_ || _); [done|].
  destruct rest as [|c rest]; [simplify_eq; rewrite length_app; simpl; lia|].
  destruct (Ascii.eqb c "."%char).
  - destruct (match e with None => _ | Some _ => _ end); [done|].
    destruct (Nat.ltb_spec 16 (List.length ip + 4)); [done|].
    destruct (net.parseIPv4Fields s) as [f|] eqn:Ef; simplify_eq.
    rewrite length_app, (parseIPv4Fields_length _ _ Ef). lia.
  - destruct (negb _); [done|]. destruct rest as [|c2 rest]; [done|].
    destruct (Ascii.eqb c2 ":"%char).
    + destruct e; [done|]. case_bool_decide; simplify_eq; [rewrite length_app; simpl; lia|].
      apply IH in H; [done|]. rewrite length_app. simpl. lia.
    + apply IH in H; [done|]. rewrite length_app. simpl. lia.
Qed.

Lemma ParseAddr_length s ip : net.ParseAddr s = Some ip -> List.length ip = 4%nat \/ List.length ip = 16%nat.
Proof.
  unfold net.ParseAddr. case_match; [done|]. destruct (net.addr_kind s) as [a|]; [|done].
  case_match; [intros H'; left; by apply parseIPv4Fields_length in H'|]. intros H'. right. revert H'.
  unfold net.parseIPv6. destruct (_ && _); [by intros [= <-]|].
  destruct (net.groups _ _ _ _) as [[[l e] rest]|] eqn:Eg; [|done].
  apply groups_length in Eg; [|simpl; lia]. destruct (rest != ""); [done|].
  destruct (Nat.ltb_spec (List.length l) 16); destruct e as [e|]; try done; intros [= <-].
  - rewrite !length_app, length_replicate, length_firstn, length_skipn. lia.
  - lia.
Qed.

Lemma ParseCIDR_shape s n :
  net.ParseCIDR s = Some n ->
  exists ip o, n = {| net.IPNet_IP := net.zip_land ip (net.CIDRMask o (List.length ip));
                      net.IPNet_Mask := net.CIDRMask o (List.length ip) |} /\ 0 <= o <= 8 * Z.of_nat (List.length ip) /\
    (List.length ip = 4%nat \/ List.length ip = 16%nat).
Proof.
  unfold net.ParseCIDR. destruct (net.cut_slash s) as [[a m]|]; [|done].
  destruct (net.ParseAddr a) as [ip|] eqn:Ea; [|done]. destruct (net.dtoi m) as [o|] eqn:E; [|done].
  destruct (Z.leb_spec o (8 * Z.of_nat (List.length ip))); [|done]. intros [= <-].
  exists ip, o. split; [done|]. apply dtoi_nonneg in E. split; [lia|]. by apply ParseAddr_length in Ea.
Qed.

Lemma ParseCIDR_size s n : net.ParseCIDR s = Some n ->
  exists o, net.IPNet_Mask n = net.CIDRMask o (List.length (net.IPNet_Mask n)) /\ 0 <= o /\
    net.Size (net.IPNet_Mask n) = (o, 8 * Z.of_nat (List.length (net.IPNet_Mask n))) /\
    List.length (net.IPNet_IP n) = List.length (net.IPNet_Mask n) /\
    (List.length (net.IPNet_Mask n) = 4%nat \/ List.length (net.IPNet_Mask n) = 16%nat).
Proof.
  intros H. apply ParseCIDR_shape in H as (ip & o & -> & Ho & Hip). cbn. exists o.
  rewrite zip_land_length, !CIDRMask_length. split_and!; [done|lia| |lia|done].
  unfold net.Size. by rewrite mask_length_CIDRMask, CIDRMask_length.
Qed.

(** ** Nested networks *)

Definition mask_for (m : list Z) (ip : net.IP) : list Z :=
  match List.length m, List.length ip with
  | 4%nat, 4%nat | 16%nat, 16%nat => m
  | 16%nat, 4%nat => skipn 12 m
  | _, _ => []
  end.

Lemma networkNumberAndMask_ok n :
  List.length (net.IPNet_IP n) = List.length (net.IPNet_Mask n) ->
  (List.length (net.IPNet_Mask n) = 4%nat \/ List.length (net.IPNet_Mask n) = 16%nat) ->
  net.networkNumberAndMask n = (net.reduce (net.IPNet_IP n), mask_for (net.IPNet_Mask n) (net.reduce (net.IPNet_IP n))).
Proof.
  intros Hl Hm. unfold net.networkNumberAndMask, mask_for.
  assert (Hr : (List.length (net.reduce (net.IPNet_IP n)) = 4%nat \/
          List.length (net.reduce (net.IPNet_IP n)) = List.length (net.IPNet_Mask n))).
  { unfold net.reduce. destruct (net.To4 (net.IPNet_IP n)) as [x|] eqn:E; [left|by right].
    unfold net.To4 in E. repeat case_match; simplify_eq; done. }
  destruct Hm as [Hm|Hm]; rewrite Hm in *; destruct Hr as [Hr|Hr]; rewrite Hr; done.
Qed.

Lemma mask_for_land o1 o2 n ip :
  0 <= o1 <= o2 ->
  net.zip_land (mask_for (net.CIDRMask o2 n) ip) (mask_for (net.CIDRMask o1 n) ip) = mask_for (net.CIDRMask o1 n) ip.
Proof.
  intros H. unfold mask_for. rewrite !CIDRMask_length.
  repeat (case_match; try done; try (by apply CIDRMask_land)).
  rewrite zip_land_skipn. by rewrite CIDRMask_land.
Qed.

Lemma mask_for_length m a b : List.length a = List.length b -> mask_for m a = mask_for m b.
Proof. unfold mask_for. by intros ->. Qed.

(** If [inner] starts inside [outer] and its mask is at least as long, it lies inside. *)
Lemma Contains_nested s1 s2 outer inner ip :
  net.ParseCIDR s1 = Some outer -> net.ParseCIDR s2 = Some inner ->
  snd (net.Size (net.IPNet_Mask outer)) = snd (net.Size (net.IPNet_Mask inner)) ->
  fst (net.Size (net.IPNet_Mask outer)) <= fst (net.Size (net.IPNet_Mask inner)) ->
  net.Contains outer (net.IPNet_IP inner) = true -> net.Contains inner ip = true -> net.Contains outer ip = true.
Proof.
  intros H1 H2 Hbits Hones. apply ParseCIDR_size in H1 as (o1 & M1 & P1 & S1 & L1 & B1).
  apply ParseCIDR_size in H2 as (o2 & M2 & P2 & S2 & L2 & B2).
  rewrite S1, S2 in *. cbn [fst snd] in *.
  assert (Hlen : List.length (net.IPNet_Mask outer) = List.length (net.IPNet_Mask inner)) by lia.
  unfold net.Contains. rewrite !networkNumberAndMask_ok by done.
  rewrite !andb_true_iff, !Nat.eqb_eq, !bool_decide_eq_true. intros [La Ea] [Lb Eb].
  split; [congruence|]. rewrite Ea. clear Ea.
  set (x := net.reduce (net.IPNet_IP inner)) in *. set (y := net.reduce ip) in *.
  assert (Hm : mask_for (net.IPNet_Mask outer) (net.reduce (net.IPNet_IP outer)) =
               net.zip_land (mask_for (net.IPNet_Mask inner) x) (mask_for (net.IPNet_Mask outer) x)).
  { rewrite (mask_for_length _ _ x) by done. rewrite M1, M2, Hlen. symmetry. apply mask_for_land. lia. }
  rewrite Hm, <- !zip_land_assoc. by rewrite Eb.
Qed.
