(* ===== verification/NetworkPolicy.v ===== *)
(** * Operand NetworkPolicies

    mcpserver_controller_networkpolicy.go, networkpolicy_defaults.go,
    networkpolicy_operator_peer.go and networkpolicy_gateway_peer.go of
    internal/controller: which traffic the policy of a managed workload admits, how
    it is reconciled, and the posture reported about it. *)

From Stdlib Require Import Ascii.
From S2P Require Import Prelude K8s ApiAlpha ApiBeta StatusAC Interact Conditions AuditLog Ownership GoNet Metadata Service Gateway.

(** ** networkpolicy_defaults.go *)

Definition PostureOpen : string := "open".
Definition PostureRestricted : string := "restricted".

Definition ParseDefaultPosture (value : string) : result string :=
  let v := strings.ToLower (strings.TrimSpace value) in
  if (v == "") || (v == PostureOpen) then Ok PostureOpen
  else if v == PostureRestricted then Ok PostureRestricted
  else Err (Errorf ("invalid network policy default posture " +:+ fmt.q value +:+ ": must be "
                    +:+ fmt.q PostureOpen +:+ " or " +:+ fmt.q PostureRestricted)).

Definition ingressPorts (mcpServer : MCPServer) : list NetworkPolicyPort :=
  [{| npp_port := Some (IntVal (cfg_port (spec_config (srv_spec mcpServer))));
      npp_protocol := Some "TCP"; npp_endPort := None |}].

(** The sources the user configured. *)
Definition ingressFrom (mcpServer : MCPServer) : list NetworkPolicyPeer :=
  match spec_network (srv_spec mcpServer) with Some n => net_ingressFrom n | None => [] end.

Definition defaultIngressRules (mcpServer : MCPServer) (posture : string) (derivedPeers : list NetworkPolicyPeer)
    : list NetworkPolicyIngressRule :=
  match ingressFrom mcpServer with
  | _ :: _ => [{| ir_ports := ingressPorts mcpServer; ir_from := ingressFrom mcpServer |}]
  | [] =>
      if posture == PostureRestricted then
        match derivedPeers with
        | _ :: _ => [{| ir_ports := ingressPorts mcpServer; ir_from := derivedPeers |}]
        | [] => []
        end
      else [{| ir_ports := ingressPorts mcpServer; ir_from := [] |}]
  end.

(** ** Derived peers *)

Definition gatewayProviderHTTPRoute : string := "httproute".
Definition gatewayProviderKuadrant : string := "kuadrant".
Definition gatewayConfigKeyNamespace : string := "gateway-namespace".
Definition kuadrantConfigKeyExtensionNamespace : string := "extension-namespace".
Definition namespaceNameLabel : string := "kubernetes.io/metadata.name".

Definition namespaceNamePeer (namespace : string) : NetworkPolicyPeer :=
  {| peer_podSelector := None;
     peer_namespaceSelector := Some {| ls_matchLabels := {[ namespaceNameLabel := namespace ]}; ls_matchExpressions := [] |};
     peer_ipBlock := None |}.

Definition operatorIngressPeers (r : MCPServerReconciler) (mcpServer : MCPServer) : list NetworkPolicyPeer :=
  if NetworkPolicyDefaultPosture r != PostureRestricted then []
  else match ingressFrom mcpServer with
  | _ :: _ => []
  | [] =>
      if (OperatorNamespace r == "") || (size (OperatorPodLabels r) =? 0)%nat then []
      else
        let peer := namespaceNamePeer (OperatorNamespace r) in
        [{| peer_podSelector := Some {| ls_matchLabels := OperatorPodLabels r; ls_matchExpressions := [] |};
            peer_namespaceSelector := peer_namespaceSelector peer; peer_ipBlock := peer_ipBlock peer |}]
  end.

Definition resolveGatewaySourceNamespace (mcpServer : MCPServer) (gw : GatewaySpec) (dataKey : string) : M (result string) :=
  if gw_configRef gw == "" then mret (Ok "")
  else
    got ← call (CGet Direct KConfigMap (om_namespace (srv_meta mcpServer)) (gw_configRef gw));
    match got with
    | Err e => if IsNotFound e then mret (Ok "") else mret (Err e)
    | Ok cm => mret (Ok (strings.TrimSpace (default "" (cm_data cm !! dataKey))))
    end.

Definition gatewayIngressPeers (r : MCPServerReconciler) (mcpServer : MCPServer) : M (result (list NetworkPolicyPeer)) :=
  if NetworkPolicyDefaultPosture r != PostureRestricted then mret (Ok [])
  else match spec_gateway (srv_spec mcpServer) with
  | None => mret (Ok [])
  | Some gw =>
    match ingressFrom mcpServer with
    | _ :: _ => mret (Ok [])
    | [] =>
      let configKey := if gw_provider gw == gatewayProviderHTTPRoute then Some gatewayConfigKeyNamespace
                       else if gw_provider gw == gatewayProviderKuadrant then Some kuadrantConfigKeyExtensionNamespace
                       else None in
      match configKey with
      | None => mret (Ok [])
      | Some key =>
          namespace ← resolveGatewaySourceNamespace mcpServer gw key;
          match namespace with
          | Err e => mret (Err (Wrap ("resolving gateway namespace for MCPServer " +:+ fmt.q (om_name (srv_meta mcpServer)) +:+ ": ") e))
          | Ok ns => if ns == "" then mret (Ok []) else mret (Ok [namespaceNamePeer ns])
          end
      end
    end
  end.

(** ** Building the policy *)

Definition dnsPorts : list NetworkPolicyPort :=
  [{| npp_protocol := Some "UDP"; npp_port := Some (IntVal 53); npp_endPort := None |};
   {| npp_protocol := Some "TCP"; npp_port := Some (IntVal 53); npp_endPort := None |}].

Definition buildEgressRules (mcpServer : MCPServer) : list NetworkPolicyEgressRule :=
  match spec_network (srv_spec mcpServer) with
  | None => [{| er_ports := []; er_to := [] |}]
  | Some n =>
      match net_egressTo n, net_egressPorts n with
      | [], [] => [{| er_ports := []; er_to := [] |}]
      | to, ports =>
          [{| er_ports := dnsPorts; er_to := match net_dnsEgressPeer n with Some p => [p] | None => [] end |};
           {| er_ports := ports; er_to := to |}]
      end
  end.

Definition createNetworkPolicy (r : MCPServerReconciler) (mcpServer : MCPServer) (derivedPeers : list NetworkPolicyPeer) : NetworkPolicy :=
  let name := om_name (srv_meta mcpServer) in
  {| np_meta := newMeta name (om_namespace (srv_meta mcpServer)) (Some (managedWorkloadLabels name));
     np_spec := {| nps_podSelector := {| ls_matchLabels := managedWorkloadSelector name; ls_matchExpressions := [] |};
                   nps_policyTypes := ["Ingress"; "Egress"];
                   nps_ingress := defaultIngressRules mcpServer (NetworkPolicyDefaultPosture r) derivedPeers;
                   nps_egress := buildEgressRules mcpServer |} |}.

(** ** Posture *)

Definition isEmptyLabelSelector (selector : LabelSelector) : bool :=
  (size (ls_matchLabels selector) =? 0)%nat && (List.length (ls_matchExpressions selector) =? 0)%nat.

Definition isUniversalCIDR (cidr : string) : bool :=
  match net.ParseCIDR cidr with
  | None => false
  | Some ipNet => fst (net.Size (net.IPNet_Mask ipNet)) =? 0
  end.

Definition peerRestrictsSource (peer : NetworkPolicyPeer) : bool :=
  match peer_ipBlock peer with
  | Some b => negb (List.length (ipb_except b) =? 0)%nat || negb (isUniversalCIDR (ipb_cidr b))
  | None =>
      match peer_podSelector peer, peer_namespaceSelector peer with
      | Some ps, Some ns => negb (isEmptyLabelSelector ps) || negb (isEmptyLabelSelector ns)
      | Some ps, None => true
      | None, Some ns => negb (isEmptyLabelSelector ns)
      | None, None => false
      end
  end.

Definition peerAdmitsAllSources (peer : NetworkPolicyPeer) : bool := negb (peerRestrictsSource peer).

Definition hasIngressSourceRestriction (netpol : NetworkPolicy) : bool :=
  if (List.length (nps_ingress (np_spec netpol)) =? 0)%nat
     && existsb (fun t => t == "Ingress") (nps_policyTypes (np_spec netpol)) then true
  else existsb (fun rule => negb (List.length (ir_ports rule) =? 0)%nat
                            && (negb (List.length (ir_from rule) =? 0)%nat && negb (existsb peerAdmitsAllSources (ir_from rule))))
         (nps_ingress (np_spec netpol)).

Definition hasEgressDestinationRestriction (netpol : NetworkPolicy) : bool :=
  existsb (fun rule => negb (List.length (er_to rule) =? 0)%nat || negb (List.length (er_ports rule) =? 0)%nat)
    (nps_egress (np_spec netpol)).

Definition egressDestinationsRestricted (mcpServer : MCPServer) : bool :=
  match spec_network (srv_spec mcpServer) with
  | Some n => negb (List.length (net_egressTo n) =? 0)%nat
  | None => false
  end.

Definition ReasonNetworkPolicyRestricted : string := "Restricted".
Definition ReasonNetworkPolicyIngressUnrestricted : string := "IngressUnrestricted".
Definition ReasonNetworkPolicyEgressUnrestricted : string := "EgressUnrestricted".
Definition ReasonNetworkPolicyUnrestricted : string := "Unrestricted".

Definition posture (mcpServer : MCPServer) (netpol : NetworkPolicy) : string * string * string :=
  match hasIngressSourceRestriction netpol, hasEgressDestinationRestriction netpol with
  | true, true =>
      (ConditionTrue, ReasonNetworkPolicyRestricted,
       if egressDestinationsRestricted mcpServer
       then "NetworkPolicy restricts both ingress sources and egress destinations"
       else "NetworkPolicy restricts ingress sources and limits egress to specific ports")
  | true, false => (ConditionFalse, ReasonNetworkPolicyEgressUnrestricted, "NetworkPolicy allows egress to any destination")
  | false, true => (ConditionFalse, ReasonNetworkPolicyIngressUnrestricted, "NetworkPolicy allows ingress from any source")
  | false, false => (ConditionFalse, ReasonNetworkPolicyUnrestricted,
                     "NetworkPolicy allows ingress from any source and egress to any destination")
  end.

Definition networkPolicyPostureConditionFor (mcpServer : MCPServer) (generation : Z) (existing : list Condition)
    (netpol : NetworkPolicy) : M Condition :=
  let '(status, reason, message) := posture mcpServer netpol in
  c ← newCondition ConditionTypeNetworkPolicyRestricted status reason message generation;
  mret (preserveLastTransitionTime c existing).

Definition networkPolicyPostureCondition (r : MCPServerReconciler) (mcpServer : MCPServer) (generation : Z)
    (existing : list Condition) : M Condition :=
  networkPolicyPostureConditionFor mcpServer generation existing (createNetworkPolicy r mcpServer []).

Definition with_np_meta (m : ObjectMeta) (n : NetworkPolicy) : NetworkPolicy := {| np_meta := m; np_spec := np_spec n |}.

Section with_vendor.
Context `{V : Vendor}.

Definition networkPolicyNeedsUpdate (mcpServer : MCPServer) (netpol existing : NetworkPolicy) (ownerChanged : bool) : bool :=
  (np_spec netpol != np_spec existing) || networkPolicyLabelsChanged mcpServer existing
  || networkPolicyAnnotationsChanged mcpServer existing || ownerChanged.

Definition ensureNetworkPolicy (r : MCPServerReconciler) (mcpServer : MCPServer) : M (result NetworkPolicy) :=
  gateway ← gatewayIngressPeers r mcpServer;
  match gateway with
  | Err e => mret (Err e)
  | Ok gatewayPeers =>
    let netpol0 := createNetworkPolicy r mcpServer (operatorIngressPeers r mcpServer ++ gatewayPeers) in
    match setController mcpServer (np_meta netpol0) with
    | Err e => mret (Err e)
    | Ok m =>
      let netpol := with_np_meta m netpol0 in
      got ← call (CGet Cached KNetworkPolicy (om_namespace (np_meta netpol)) (om_name (np_meta netpol)));
      match got with
      | Err e =>
          if IsNotFound e then
            match applyCustomNetworkPolicyMetadata mcpServer (np_meta netpol) with
            | Err e' => mret (Err (Wrap "applying custom metadata failed; " e'))
            | Ok m' =>
                created ← call (CCreate KNetworkPolicy (with_np_meta m' netpol));
                match created with
                | Err e' => mret (Err e')
                | Ok stored =>
                    auditNetworkPolicyCreated mcpServer (om_name (np_meta stored))
                      (hasIngressSourceRestriction stored) (hasEgressDestinationRestriction stored) ;;
                    mret (Ok stored)
                end
            end
          else mret (Err e)
      | Ok existing =>
          owned ← validateOwnership r KNetworkPolicy (np_meta existing) mcpServer;
          match owned with
          | Some e => mret (Err e)
          | None =>
            match setController mcpServer (np_meta existing) with
            | Err e => mret (Err e)
            | Ok m1 =>
              if networkPolicyNeedsUpdate mcpServer netpol (with_np_meta m1 existing) (ownershipChanged (np_meta existing) m1) then
                let m2 := with_labels (Some (view (om_labels (np_meta netpol)) ∪ view (om_labels m1))) m1 in
                match applyCustomNetworkPolicyMetadata mcpServer m2 with
                | Err e => mret (Err (Wrap "applying custom networkpolicy metadata; " e))
                | Ok m3 =>
                    updated ← call (CUpdate KNetworkPolicy {| np_meta := m3; np_spec := np_spec netpol |});
                    match updated with
                    | Err e => mret (Err e)
                    | Ok stored => auditNetworkPolicyUpdated mcpServer (om_name (np_meta stored)) ;; mret (Ok netpol)
                    end
                end
              else mret (Ok netpol)
            end
          end
      end
    end
  end.

Definition reconcileNetworkPolicy (r : MCPServerReconciler) (mcpServer : MCPServer) : M (option error) :=
  res ← ensureNetworkPolicy r mcpServer;
  mret (match res with Err e => Some e | Ok _ => None end).

End with_vendor.

(** ** What a NetworkPolicy admits

    The documented meaning of networking.k8s.io/v1 policies: rules are alternatives,
    the ports and the peers of a rule must both match, an empty list matches
    everything, and selector expressions are decided by [expr]. *)

Section semantics.
Context (expr : string -> gmap string string -> Prop).

Record endpoint := {
  e_namespaceLabels : gmap string string;
  e_podLabels : gmap string string;
  e_sameNamespace : bool;
  e_ip : net.IP
}.

Definition selects (sel : LabelSelector) (labels : gmap string string) : Prop :=
  ls_matchLabels sel ⊆ labels /\ Forall (fun e => expr e labels) (ls_matchExpressions sel).

Definition in_cidr (cidr : string) (ip : net.IP) : Prop :=
  exists n, net.ParseCIDR cidr = Some n /\ net.Contains n ip = true.

Definition peer_admits (p : NetworkPolicyPeer) (e : endpoint) : Prop :=
  match peer_ipBlock p with
  | Some b => in_cidr (ipb_cidr b) (e_ip e) /\ Forall (fun x => ~ in_cidr x (e_ip e)) (ipb_except b)
  | None =>
      match peer_podSelector p, peer_namespaceSelector p with
      | Some ps, Some ns => selects ps (e_podLabels e) /\ selects ns (e_namespaceLabels e)
      | Some ps, None => e_sameNamespace e = true /\ selects ps (e_podLabels e)
      | None, Some ns => selects ns (e_namespaceLabels e)
      | None, None => False
      end
  end.

(** Numeric ports only; a named port never matches a port number. *)
Definition port_admits (p : NetworkPolicyPort) (proto : string) (port : Z) : Prop :=
  default "TCP" (npp_protocol p) = proto /\
  match npp_port p with
  | None => True
  | Some (IntVal z) => match npp_endPort p with Some last => z <= port <= last | None => port = z end
  | Some (StrVal _) => False
  end.

Definition any_or {A} (P : A -> Prop) (l : list A) : Prop := l = [] \/ Exists P l.

Definition ingress_admits (p : NetworkPolicySpec) (e : endpoint) (proto : string) (port : Z) : Prop :=
  Exists (fun rule => any_or (fun q => port_admits q proto port) (ir_ports rule) /\
                      any_or (fun q => peer_admits q e) (ir_from rule)) (nps_ingress p).

Definition egress_admits (p : NetworkPolicySpec) (e : endpoint) (proto : string) (port : Z) : Prop :=
  Exists (fun rule => any_or (fun q => port_admits q proto port) (er_ports rule) /\
                      any_or (fun q => peer_admits q e) (er_to rule)) (nps_egress p).

(** The operator's own controller pod. *)
Definition from_operator (r : MCPServerReconciler) (e : endpoint) : Prop :=
  OperatorNamespace r <> "" /\ OperatorPodLabels r <> ∅ /\
  e_namespaceLabels e !! namespaceNameLabel = Some (OperatorNamespace r) /\ OperatorPodLabels r ⊆ e_podLabels e.

Definition in_namespace (ns : string) (e : endpoint) : Prop := e_namespaceLabels e !! namespaceNameLabel = Some ns.

Lemma namespaceNamePeer_admits ns e : peer_admits (namespaceNamePeer ns) e <-> in_namespace ns e.
Proof.
  unfold peer_admits, namespaceNamePeer, selects, in_namespace.
  cbn [peer_ipBlock peer_podSelector peer_namespaceSelector ls_matchLabels ls_matchExpressions].
  rewrite map_singleton_subseteq_l. naive_solver constructor.
Qed.

Lemma operatorIngressPeers_admits r srv e p :
  In p (operatorIngressPeers r srv) -> peer_admits p e -> from_operator r e.
Proof.
  unfold operatorIngressPeers. case_bool_decide as Hr; [|done]. cbn [negb].
  destruct (ingressFrom srv); [|done]. destruct (_ || _) eqn:E; [done|].
  apply orb_false_iff in E as [E1%bool_decide_eq_false E2%Nat.eqb_neq].
  intros [<-|[]]. unfold peer_admits, namespaceNamePeer, selects.
  cbn [peer_ipBlock peer_podSelector peer_namespaceSelector ls_matchLabels ls_matchExpressions]. intros [[Hp _] [Hn _]].
  rewrite map_singleton_subseteq_l in Hn. split_and!; try done. intros H. by rewrite H, map_size_empty in E2.
Qed.

Lemma any_or_single {A} (P : A -> Prop) x : any_or P [x] <-> P x.
Proof. unfold any_or. rewrite Exists_cons, Exists_nil. naive_solver. Qed.

Lemma any_or_nonempty {A} (P : A -> Prop) l : l <> [] -> any_or P l -> exists x, In x l /\ P x.
Proof.
  intros Hl [->|H]; [done|]. apply Exists_exists in H as (x & Hx & HP). exists x. split; [|done]. by apply list_elem_of_In.
Qed.

Lemma ingressPorts_admit srv proto port :
  any_or (fun q => port_admits q proto port) (ingressPorts srv) <->
  proto = "TCP" /\ port = cfg_port (spec_config (srv_spec srv)).
Proof. unfold ingressPorts. rewrite any_or_single. unfold port_admits. cbn. naive_solver. Qed.

(** Under the restricted posture, without configured sources, only derived peers are admitted. *)
Lemma restricted_admits r srv peers e proto port :
  NetworkPolicyDefaultPosture r = PostureRestricted -> ingressFrom srv = [] ->
  ingress_admits (np_spec (createNetworkPolicy r srv peers)) e proto port ->
  proto = "TCP" /\ port = cfg_port (spec_config (srv_spec srv)) /\ exists p, In p peers /\ peer_admits p e.
Proof.
  intros Hr Hi. unfold ingress_admits, createNetworkPolicy, defaultIngressRules. cbn.
  rewrite Hi, Hr, bool_decide_eq_true_2 by done. destruct peers as [|p peers]; [by rewrite Exists_nil|].
  rewrite Exists_cons, Exists_nil. intros [[[-> ->]%ingressPorts_admit Hf]|[]]. cbn in Hf.
  split_and!; [done|done|]. by apply any_or_nonempty in Hf.
Qed.

End semantics.

(** ** The policies that are written *)

(** The gateway peers a run resolved: none, or the namespace a ConfigMap of the
    server's namespace named. *)
Definition gateway_source (srv : MCPServer) (h : list event) (ns : string) : Prop :=
  exists name key cm, In (Ev (CGet Direct KConfigMap (om_namespace (srv_meta srv)) name) (Ok cm)) h /\
    ns = strings.TrimSpace (default "" (cm_data cm !! key)) /\ ns <> "" /\
    (exists gw, spec_gateway (srv_spec srv) = Some gw /\ gw_configRef gw = name).

Definition gateway_peers (srv : MCPServer) (h : list event) (peers : list NetworkPolicyPeer) : Prop :=
  peers = [] \/ exists ns, gateway_source srv h ns /\ peers = [namespaceNamePeer ns].

Lemma mwp_gatewayIngressPeers r srv s (Q : list event -> result (list NetworkPolicyPeer) -> RState -> Prop) :
  (forall tr peers, gateway_peers srv tr peers -> Q tr (Ok peers) s) -> (forall tr e, Q tr (Err e) s) ->
  mwp (gatewayIngressPeers r srv) s Q.
Proof.
  intros Hok Herr. assert (Hnil : forall tr, Q tr (Ok []) s) by (intros; apply Hok; by left).
  unfold gatewayIngressPeers. destruct (_ != _); [by apply mwp_ret|].
  destruct (spec_gateway (srv_spec srv)) as [gw|] eqn:Eg; [|by apply mwp_ret]. destruct (ingressFrom srv); [|by apply mwp_ret].
  match goal with |- mwp (match ?k with _ => _ end) _ _ => destruct k as [key|] end; [|by apply mwp_ret].
  apply mwp_bind. unfold resolveGatewaySourceNamespace.
  destruct (gw_configRef gw == "") ; [by apply mwp_ret, mwp_ret|].
  apply mwp_bind, mwp_call. intros [cm|e].
  - apply mwp_ret. case_bool_decide as Hns; apply mwp_ret; [done|]. apply Hok. right. eexists. split; [|reflexivity].
    exists (gw_configRef gw), key, cm. split; [left; reflexivity|]. split_and!; try done. eauto.
  - destruct (IsNotFound e); apply mwp_ret, mwp_ret; auto.
Qed.

Lemma gateway_peers_mono srv h h' peers : (forall e, In e h -> In e h') -> gateway_peers srv h peers -> gateway_peers srv h' peers.
Proof.
  intros Hin [->|(ns & (name & key & cm & ? & ?) & ->)]; [by left|]. right. exists ns. split; [|done].
  exists name, key, cm. auto.
Qed.

(** The spec of a policy the operator may write after the events [h]. *)
Definition policy_written (r : MCPServerReconciler) (srv : MCPServer) (h : list event) (spec : NetworkPolicySpec) : Prop :=
  exists peers, gateway_peers srv h peers /\
    spec = np_spec (createNetworkPolicy r srv (operatorIngressPeers r srv ++ peers)).

Definition writes_policy (r : MCPServerReconciler) (srv : MCPServer) (h : list event) (c : Call) : Prop :=
  match c with
  | CCreate KNetworkPolicy p | CUpdate KNetworkPolicy p => policy_written r srv h (np_spec p)
  | _ => True
  end.

Section discipline.
Context `{V : Vendor} {L : VendorLaws V}.

(** [ensureNetworkPolicy] after the gateway peers are known, for any predicate that
    its reads, outputs and the two writes satisfy. *)
Lemma guard_ensureNetworkPolicy P r srv :
  (forall h c, no_write c -> P h c) ->
  (forall h peers m0 m1 m2 e,
     gateway_peers srv h peers -> IsNotFound e = true ->
     m0 = np_meta (createNetworkPolicy r srv (operatorIngressPeers r srv ++ peers)) ->
     setController srv m0 = Ok m1 -> applyCustomObjectMetadata srv m1 = Ok m2 ->
     P (Ev (CGet Cached KNetworkPolicy (om_namespace m1) (om_name m1)) (Err e) :: h)
       (CCreate KNetworkPolicy {| np_meta := m2; np_spec := np_spec (createNetworkPolicy r srv (operatorIngressPeers r srv ++ peers)) |})) ->
  (forall h peers ex m1 lbl m2 ns name,
     gateway_peers srv h peers -> manageable (np_meta ex) srv ->
     setController srv (np_meta ex) = Ok m1 -> applyCustomObjectMetadata srv (with_labels lbl m1) = Ok m2 ->
     P (Ev (CGet Cached KNetworkPolicy ns name) (Ok ex) :: h)
       (CUpdate KNetworkPolicy {| np_meta := m2; np_spec := np_spec (createNetworkPolicy r srv (operatorIngressPeers r srv ++ peers)) |})) ->
  mguard P (ensureNetworkPolicy r srv).
Proof.
  intros Hno Hcreate Hupdate s h. unfold ensureNetworkPolicy. apply guard_bind_mwp.
  { eapply (mguard_calls P no_write); [done|]. unfold gatewayIngressPeers, resolveGatewaySourceNamespace. calls_tac. }
  apply mwp_gatewayIngressPeers; [|done]. intros tr peers Hp.
  assert (Hp' : gateway_peers srv (rev tr ++ h) peers).
  { eapply gateway_peers_mono; [|exact Hp]. intros e He. apply in_app_iff. left. by apply in_rev in He. }
  destruct (setController srv _) as [m|] eqn:Em; [|done].
  apply guard_call; [by apply Hno|]. intros [ex|e].
  - apply guard_bind_mwp; [eapply (mguard_calls P outputs); [intros ? []; try done; intros; by apply Hno|apply validateOwnership_outputs]|].
    apply mwp_validateOwnership; [|done]. intros Hman.
    destruct (setController srv (np_meta ex)) as [m1|] eqn:E1; [|done].
    destruct (networkPolicyNeedsUpdate _ _ _ _); [|done].
    destruct (applyCustomNetworkPolicyMetadata _ _) as [m3|] eqn:E3; [|done].
    apply guard_call; [by eapply Hupdate|]. intros [stored|]; [|done]. split; [by apply Hno|done].
  - destruct (IsNotFound e) eqn:Ee; [|done].
    destruct (applyCustomNetworkPolicyMetadata _ _) as [m3|] eqn:E3; [|done].
    apply guard_call; [by eapply Hcreate|]. intros [stored|]; [|done]. split; [by apply Hno|done].
Qed.

Lemma ensureNetworkPolicy_managed r srv : mguard (managed_write srv) (ensureNetworkPolicy r srv).
Proof.
  apply guard_ensureNetworkPolicy.
  - apply managed_no_write.
  - intros h peers m0 m1 m2 e _ He -> H1 H2. eapply managed_create; [done| |exact H1|exact H2|done]. done.
  - intros h peers ex m1 lbl m2 ns name _ Hman H1 H2. eapply managed_update; [done|exact Hman|exact H1|].
    by apply applyCustom_same_version in H2.
Qed.

Lemma ensureNetworkPolicy_writes r srv : mguard (writes_policy r srv) (ensureNetworkPolicy r srv).
Proof.
  assert (Hw : forall h e peers, gateway_peers srv h peers ->
     policy_written r srv (e :: h) (np_spec (createNetworkPolicy r srv (operatorIngressPeers r srv ++ peers)))).
  { intros h e peers Hp. exists peers. split; [|done]. eapply gateway_peers_mono; [|exact Hp]. by right. }
  apply guard_ensureNetworkPolicy; [by intros h []|intros; by apply Hw|intros; by apply Hw].
Qed.

End discipline.

(** ** Restricted ingress *)

(** What a written policy may admit under the restricted posture. *)
Definition ingress_confined (expr : string -> gmap string string -> Prop) (r : MCPServerReconciler) (srv : MCPServer)
    (h : list event) (c : Call) : Prop :=
  match c with
  | CCreate KNetworkPolicy p | CUpdate KNetworkPolicy p =>
      forall e proto port, ingress_admits expr (np_spec p) e proto port ->
        proto = "TCP" /\ port = cfg_port (spec_config (srv_spec srv)) /\
        (from_operator r e \/ exists ns, gateway_source srv h ns /\ in_namespace ns e)
  | _ => True
  end.

Lemma written_confined expr r srv h spec :
  NetworkPolicyDefaultPosture r = PostureRestricted -> ingressFrom srv = [] -> policy_written r srv h spec ->
  forall e proto port, ingress_admits expr spec e proto port ->
    proto = "TCP" /\ port = cfg_port (spec_config (srv_spec srv)) /\
    (from_operator r e \/ exists ns, gateway_source srv h ns /\ in_namespace ns e).
Proof.
  intros Hr Hi (peers & Hp & ->) e proto port Ha.
  apply restricted_admits in Ha; [|done|done]. destruct Ha as (-> & -> & p & [Hin|Hin]%in_app_iff & Ha).
  - split_and!; [done|done|]. left. by eapply operatorIngressPeers_admits.
  - split_and!; [done|done|]. right. destruct Hp as [->|(ns & Hg & ->)]; [destruct Hin|].
    destruct Hin as [<-|[]]. exists ns. split; [exact Hg|]. by apply (namespaceNamePeer_admits expr).
Qed.

(** C33: Under the restricted posture, a server that configures no ingress source only
    ever gets policies that admit TCP traffic to the server port from the operator's
    own controller pod or from the namespace its gateway ConfigMap named; never from
    anywhere else. *)
Theorem restricted_posture_confines_ingress `{V : Vendor} {L : VendorLaws V} expr r srv s tr res tr1 c a tr2 :
  NetworkPolicyDefaultPosture r = PostureRestricted -> ingressFrom srv = [] ->
  runs (ensureNetworkPolicy r srv s) tr res -> tr = tr1 ++ Ev c a :: tr2 ->
  ingress_confined expr r srv (rev tr1) c.
Proof.
  intros Hr Hi Hrun Htr. pose proof (mguard_runs _ _ _ _ _ _ _ _ _ (ensureNetworkPolicy_writes r srv) Hrun Htr) as Hw.
  destruct c as [|k o|k o| | | | | | | | | |]; try exact I; destruct k; try exact I; exact (written_confined expr r srv _ _ Hr Hi Hw).
Qed.

(** ** Egress *)

(** C34: Egress is exactly what the spec says: unrestricted while neither destinations
    nor ports are configured; otherwise DNS (to the DNS peer, if one is named) and the
    configured destinations on the configured ports. *)
Theorem egress_exact expr r srv peers e proto port :
  egress_admits expr (np_spec (createNetworkPolicy r srv peers)) e proto port <->
  match spec_network (srv_spec srv) with
  | None => True
  | Some n =>
      net_egressTo n = [] /\ net_egressPorts n = [] \/
      (proto = "UDP" \/ proto = "TCP") /\ port = 53 /\
        (forall p, net_dnsEgressPeer n = Some p -> peer_admits expr p e) \/
      any_or (fun q => port_admits q proto port) (net_egressPorts n) /\
        any_or (fun q => peer_admits expr q e) (net_egressTo n)
  end.
Proof.
  assert (Hall : Exists (fun rule => any_or (fun q => port_admits q proto port) (er_ports rule) /\
                     any_or (fun q => peer_admits expr q e) (er_to rule)) [{| er_ports := []; er_to := [] |}] <-> True).
  { rewrite Exists_cons. split; [done|]. intros _. left. split; by left. }
  assert (Hdns : any_or (fun q => port_admits q proto port) dnsPorts <-> (proto = "UDP" \/ proto = "TCP") /\ port = 53).
  { unfold any_or, dnsPorts. rewrite !Exists_cons, Exists_nil. unfold port_admits. cbn. naive_solver. }
  unfold egress_admits, createNetworkPolicy, buildEgressRules. cbn [np_spec nps_egress].
  destruct (spec_network (srv_spec srv)) as [n|]; [|done].
  assert (Hto : any_or (fun q => peer_admits expr q e) (match net_dnsEgressPeer n with Some p => [p] | None => [] end) <->
                (forall p, net_dnsEgressPeer n = Some p -> peer_admits expr p e)).
  { destruct (net_dnsEgressPeer n); [rewrite any_or_single; naive_solver|]. split; [done|]. intros _. by left. }
  destruct (net_egressTo n) as [|x to] eqn:Et, (net_egressPorts n) as [|y ports] eqn:Ep;
    [rewrite Hall; naive_solver|..];
    rewrite !Exists_cons, Exists_nil; cbn [er_ports er_to]; rewrite Hdns, Hto; naive_solver.
Qed.

(** ** Posture *)

Lemma namespaceNamePeer_restricts ns : peerRestrictsSource (namespaceNamePeer ns) = true.
Proof. reflexivity. Qed.

Lemma operatorIngressPeers_restrict r srv : existsb peerAdmitsAllSources (operatorIngressPeers r srv) = false.
Proof.
  unfold operatorIngressPeers. repeat case_match; try done. cbn. unfold peerAdmitsAllSources, peerRestrictsSource. cbn.
  by rewrite orb_true_r.
Qed.

(** The spec restricts egress. *)
Definition egress_configured (srv : MCPServer) : Prop :=
  exists n, spec_network (srv_spec srv) = Some n /\ (net_egressTo n <> [] \/ net_egressPorts n <> []).

(** Ingress is restricted: every configured source narrows, or none is configured
    and the default posture is restricted. *)
Definition ingress_restricted (r : MCPServerReconciler) (srv : MCPServer) : Prop :=
  match ingressFrom srv with
  | [] => NetworkPolicyDefaultPosture r = PostureRestricted
  | from => Forall (fun p => peerRestrictsSource p = true) from
  end.

Lemma hasIngress_spec r srv peers :
  existsb peerAdmitsAllSources peers = false ->
  hasIngressSourceRestriction (createNetworkPolicy r srv peers) = true <-> ingress_restricted r srv.
Proof.
  intros Hp. unfold hasIngressSourceRestriction, ingress_restricted, createNetworkPolicy, defaultIngressRules.
  cbn [np_spec nps_ingress nps_policyTypes]. destruct (ingressFrom srv) as [|x from] eqn:Ei.
  - case_bool_decide as Hr.
    + split; [done|]. intros _. destruct peers as [|p peers]; [done|].
      cbn [List.length Nat.eqb andb existsb ir_ports ir_from ingressPorts negb]. cbn [existsb] in Hp. by rewrite Hp.
    + cbn. split; done.
  - assert (Hb : forall l, existsb peerAdmitsAllSources l = false <-> Forall (fun p => peerRestrictsSource p = true) l).
    { induction l as [|p l IH]; cbn; [split; [constructor|done]|].
      rewrite orb_false_iff, IH, Forall_cons. unfold peerAdmitsAllSources. by rewrite negb_false_iff. }
    rewrite <- Hb. cbn [List.length Nat.eqb andb existsb ir_ports ir_from ingressPorts negb].
    rewrite orb_false_r, negb_true_iff. done.
Qed.

Lemma hasEgress_spec r srv peers :
  hasEgressDestinationRestriction (createNetworkPolicy r srv peers) = true <-> egress_configured srv.
Proof.
  unfold hasEgressDestinationRestriction, egress_configured, createNetworkPolicy, buildEgressRules. cbn [np_spec nps_egress].
  destruct (spec_network (srv_spec srv)) as [n|]; [|cbn; split; [done|by intros (? & ? & _)]].
  destruct (net_egressTo n) eqn:E1, (net_egressPorts n) eqn:E2.
  1: { cbn. split; [done|]. intros (n' & [= <-] & H). rewrite E1, E2 in H. by destruct H. }
  all: cbn; rewrite orb_true_r; (split; [intros _|done]); exists n; rewrite E1, E2; auto.
Qed.

(** The posture reported for the policy of a pass: NetworkPolicyRestricted is True
    exactly when ingress is restricted and egress is configured, the reason names the
    direction that is open otherwise, and the verdict does not depend on the derived
    peers. *)
Theorem posture_reported r srv g ex s gwPeers tr c s' h :
  gateway_peers srv h gwPeers ->
  runs (networkPolicyPostureConditionFor srv g ex
          (createNetworkPolicy r srv (operatorIngressPeers r srv ++ gwPeers)) s) tr (c, s') ->
  c_type c = ConditionTypeNetworkPolicyRestricted /\ c_observedGeneration c = g /\
  (c_status c = ConditionTrue <-> ingress_restricted r srv /\ egress_configured srv) /\
  (c_status c = ConditionFalse <-> ~ (ingress_restricted r srv /\ egress_configured srv)) /\
  (c_reason c = ReasonNetworkPolicyIngressUnrestricted <-> ~ ingress_restricted r srv /\ egress_configured srv) /\
  (c_reason c = ReasonNetworkPolicyEgressUnrestricted <-> ingress_restricted r srv /\ ~ egress_configured srv) /\
  posture srv (createNetworkPolicy r srv (operatorIngressPeers r srv ++ gwPeers)) = posture srv (createNetworkPolicy r srv []).
Proof.
  intros Hgw Hrun. set (np := createNetworkPolicy _ _ _).
  assert (Hnone : existsb peerAdmitsAllSources (operatorIngressPeers r srv ++ gwPeers) = false).
  { rewrite existsb_app, operatorIngressPeers_restrict. destruct Hgw as [->|(ns & _ & ->)]; done. }
  pose proof (hasIngress_spec r srv _ Hnone) as Hi. pose proof (hasEgress_spec r srv (operatorIngressPeers r srv ++ gwPeers)) as He.
  pose proof (hasIngress_spec r srv [] eq_refl) as Hi0. pose proof (hasEgress_spec r srv []) as He0. fold np in Hi, He.
  assert (Hpost : posture srv np = posture srv (createNetworkPolicy r srv [])).
  { unfold posture.
    replace (hasIngressSourceRestriction (createNetworkPolicy r srv [])) with (hasIngressSourceRestriction np)
      by (apply eq_true_iff_eq; rewrite Hi, Hi0; done).
    replace (hasEgressDestinationRestriction (createNetworkPolicy r srv [])) with (hasEgressDestinationRestriction np)
      by (apply eq_true_iff_eq; rewrite He, He0; done). done. }
  clear Hi0 He0. fold np in Hrun. by_wp Hrun. unfold networkPolicyPostureConditionFor.
  destruct (posture srv np) as [[st rs] ms] eqn:Ep. apply mwp_bind, mwp_newCondition. intros now. apply mwp_ret.
  autorewrite with cond. rewrite (proj2 (proj2 (proj2 (proj2 (preserve_fields _ _))))). cbn.
  unfold posture in Ep.
  destruct (hasIngressSourceRestriction np), (hasEgressDestinationRestriction np); injection Ep as <- <- <-;
    clear - Hi He Hpost; split_and!; try done;
    assert (ConditionTrue <> ConditionFalse) by done;
    assert (ReasonNetworkPolicyRestricted <> ReasonNetworkPolicyIngressUnrestricted) by done;
    assert (ReasonNetworkPolicyRestricted <> ReasonNetworkPolicyEgressUnrestricted) by done;
    assert (ReasonNetworkPolicyEgressUnrestricted <> ReasonNetworkPolicyIngressUnrestricted) by done;
    assert (ReasonNetworkPolicyUnrestricted <> ReasonNetworkPolicyIngressUnrestricted) by done;
    assert (ReasonNetworkPolicyUnrestricted <> ReasonNetworkPolicyEgressUnrestricted) by done;
    intuition congruence.
Qed.

(** ** Concrete runs *)

Definition gatewayConfig : ConfigMap :=
  {| cm_meta := newMeta "gw" "ns" None; cm_data := {[ "gateway-namespace" := " istio-ingress " ]}; cm_binaryData := ∅ |}.

Definition policyWorld : World :=
  {| w_get := fun _ k _ _ => match k return result (obj k) with
                             | KConfigMap => Ok gatewayConfig
                             | _ => Err (StatusError NotFound "not found")
                             end;
     w_write := None; w_pods := []; w_servers := []; w_list := fun _ _ => []; w_status := None; w_dial := Ok None; w_now := 0 |}.

(** The policy is created by the third call and admits the gateway's namespace. *)
Lemma restricted_posture_confines_ingress_witness :
  exists tr1 p a tr2,
    fst (run_in policyWorld (@ensureNetworkPolicy modelVendor sampleReconciler gatewayServer) emptyState) =
      tr1 ++ Ev (CCreate KNetworkPolicy p) a :: tr2 /\
    nps_ingress (np_spec p) = [{| ir_ports := ingressPorts gatewayServer;
      ir_from := operatorIngressPeers sampleReconciler gatewayServer ++ [namespaceNamePeer "istio-ingress"] |}] /\
    ingress_confined (fun _ _ => False) sampleReconciler gatewayServer (rev tr1) (CCreate KNetworkPolicy p).
Proof.
  eexists [_; _], _, _, [_]. split; [reflexivity|]. split; [reflexivity|].
  refine (@restricted_posture_confines_ingress modelVendor modelVendor_laws _ sampleReconciler gatewayServer emptyState
            _ _ _ _ _ _ _ _ _ _).
  - reflexivity.
  - reflexivity.
  - exact (run_in_runs policyWorld (@ensureNetworkPolicy modelVendor sampleReconciler gatewayServer) emptyState).
  - reflexivity.
Defined.

Lemma posture_reported_witness :
  exists c, fst (snd (run_in emptyWorld (networkPolicyPostureConditionFor sampleServer 1 []
      (createNetworkPolicy sampleReconciler sampleServer (operatorIngressPeers sampleReconciler sampleServer ++ []))) emptyState)) = c /\
    c_reason c = ReasonNetworkPolicyEgressUnrestricted /\
    (c_reason c = ReasonNetworkPolicyEgressUnrestricted <->
       ingress_restricted sampleReconciler sampleServer /\ ~ egress_configured sampleServer).
Proof.
  eexists. split; [reflexivity|]. split; [reflexivity|].
  refine (proj1 (proj2 (proj2 (proj2 (proj2 (proj2
    (posture_reported sampleReconciler sampleServer 1 [] emptyState [] _ _ emptyState [] _ _))))))).
  - left. reflexivity.
  - exact (run_in_runs emptyWorld (networkPolicyPostureConditionFor sampleServer 1 []
      (createNetworkPolicy sampleReconciler sampleServer (operatorIngressPeers sampleReconciler sampleServer ++ []))) emptyState).
Defined.
