(* ===== verification/Validation.v ===== *)
(** * Configuration validation (internal/controller/mcpserver_controller_validation.go)

    [validateConfigAndResolveWorkload] and everything it calls, with the resolution of
    a referenced workload ([getWorkload], [workloadSelector] of
    mcpserver_controller_byo.go).  A [ValidationErr] is permanent, any other error is
    transient. *)

From S2P Require Import Prelude K8s ApiAlpha ApiBeta StatusAC Interact Conditions AuditLog Ownership GoNet Metadata Service Gateway.

(** ** Referenced workloads *)

Inductive workload :=
| WDeployment (d : Deployment)
| WDaemonSet (d : DaemonSet)
| WStatefulSet (s : StatefulSet).

Definition getWorkload (rd : reader) (name knd namespace : string) : M (result workload) :=
  let wrap e := Wrap ("getting referenced " +:+ knd +:+ " " +:+ fmt.q name +:+ ": ") e in
  if knd == WorkloadKindDeployment then
    got ← call (CGet rd KDeployment namespace name);
    mret (match got with Ok d => Ok (WDeployment d) | Err e => Err (wrap e) end)
  else if knd == WorkloadKindDaemonSet then
    got ← call (CGet rd KDaemonSet namespace name);
    mret (match got with Ok d => Ok (WDaemonSet d) | Err e => Err (wrap e) end)
  else if knd == WorkloadKindStatefulSet then
    got ← call (CGet rd KStatefulSet namespace name);
    mret (match got with Ok d => Ok (WStatefulSet d) | Err e => Err (wrap e) end)
  else mret (Err (ValidationErr ReasonInvalid ("unsupported workloadRef kind: " +:+ knd))).

Definition workloadSelector (w : workload) : option LabelSelector :=
  match w with
  | WDeployment d => dep_selector d
  | WDaemonSet d => ds_selector d
  | WStatefulSet s => sts_selector s
  end.

(** ** Errors and references *)

Definition classifyAPIError (resourceDesc namespace : string) (err : error) : error :=
  if IsNotFound err then ValidationErr ReasonInvalid (resourceDesc +:+ " not found in namespace '" +:+ namespace +:+ "'")
  else if IsBadRequest err then ValidationErr ReasonInvalid ("Invalid " +:+ resourceDesc +:+ " reference: " +:+ Error err)
  else Wrap ("transient error validating " +:+ resourceDesc +:+ ": ") err.

Definition validateReferencedConfigMap (namespace name resourceDesc : string) : M (option error) :=
  got ← call (CGet Direct KConfigMap namespace name);
  mret (match got with Err e => Some (classifyAPIError resourceDesc namespace e) | Ok _ => None end).

Definition validateReferencedSecret (namespace name resourceDesc : string) : M (option error) :=
  got ← call (CGet Direct KSecret namespace name);
  mret (match got with Err e => Some (classifyAPIError resourceDesc namespace e) | Ok _ => None end).

Definition caBundleKey : string := "ca.crt".

(** [opt != nil && *opt] *)
Definition isOptional (o : option bool) : bool := default false o.

Definition invalid (msg : string) : option error := Some (ValidationErr ReasonInvalid msg).

Definition validateStorageMount (mcpServer : MCPServer) (storage : StorageMount) (index : Z) : M (option error) :=
  let ns := om_namespace (srv_meta mcpServer) in
  let src := sm_source storage in
  if ss_type src == StorageTypeConfigMap then
    match ss_configMap src with
    | None => mret (invalid ("ConfigMap must be set for storage mount at index " +:+ fmt.d index))
    | Some cm =>
        if cmv_name cm == "" then mret (invalid ("ConfigMap name must not be empty for storage mount at index " +:+ fmt.d index))
        else if isOptional (cmv_optional cm) then mret None
        else validateReferencedConfigMap ns (cmv_name cm) ("ConfigMap '" +:+ cmv_name cm +:+ "'")
    end
  else if ss_type src == StorageTypeSecret then
    match ss_secret src with
    | None => mret (invalid ("Secret must be set for storage mount at index " +:+ fmt.d index))
    | Some sec =>
        if sv_secretName sec == "" then mret (invalid ("Secret name must not be empty for storage mount at index " +:+ fmt.d index))
        else if isOptional (sv_optional sec) then mret None
        else validateReferencedSecret ns (sv_secretName sec) ("Secret '" +:+ sv_secretName sec +:+ "'")
    end
  else if ss_type src == StorageTypeEmptyDir then
    match ss_emptyDir src with
    | None => mret (invalid ("EmptyDir must be set for storage mount at index " +:+ fmt.d index))
    | Some _ => mret None
    end
  else mret (invalid ("Unsupported storage type '" +:+ ss_type src +:+ "' at index " +:+ fmt.d index)).

(** Two checks in a row: the first error is returned. *)
Definition andThen (m k : M (option error)) : M (option error) :=
  r ← m; match r with Some e => mret (Some e) | None => k end.

Definition validateEnvFrom (mcpServer : MCPServer) (envFrom : EnvFromSource) (index : Z) : M (option error) :=
  let ns := om_namespace (srv_meta mcpServer) in
  andThen
    (match ef_configMapRef envFrom with
     | Some ref => if isOptional (es_optional ref) then mret None
                   else validateReferencedConfigMap ns (es_name ref)
                          ("ConfigMap '" +:+ es_name ref +:+ "' (envFrom index " +:+ fmt.d index +:+ ")")
     | None => mret None
     end)
    (match ef_secretRef envFrom with
     | Some ref => if isOptional (es_optional ref) then mret None
                   else validateReferencedSecret ns (es_name ref)
                          ("Secret '" +:+ es_name ref +:+ "' (envFrom index " +:+ fmt.d index +:+ ")")
     | None => mret None
     end).

Definition validateEnvValueFrom (mcpServer : MCPServer) (env : EnvVar) (index : Z) : M (option error) :=
  let ns := om_namespace (srv_meta mcpServer) in
  match ev_valueFrom env with
  | None => mret None
  | Some vf =>
      andThen
        (match evs_configMapKeyRef vf with
         | Some ref => if isOptional (ks_optional ref) then mret None
                       else validateReferencedConfigMap ns (ks_name ref)
                              ("ConfigMap '" +:+ ks_name ref +:+ "' referenced by env var '" +:+ ev_name env
                               +:+ "' (env index " +:+ fmt.d index +:+ ")")
         | None => mret None
         end)
        (match evs_secretKeyRef vf with
         | Some ref => if isOptional (ks_optional ref) then mret None
                       else validateReferencedSecret ns (ks_name ref)
                              ("Secret '" +:+ ks_name ref +:+ "' referenced by env var '" +:+ ev_name env
                               +:+ "' (env index " +:+ fmt.d index +:+ ")")
         | None => mret None
         end)
  end.

(** [for i, x := range l { if err := f(x, i); err != nil { return err } }] *)
Fixpoint eachM {A} (f : A -> Z -> M (option error)) (l : list A) (i : Z) : M (option error) :=
  match l with
  | [] => mret None
  | x :: l' => andThen (f x i) (eachM f l' (i + 1))
  end.

Fixpoint each {A} (f : A -> Z -> option error) (l : list A) (i : Z) : option error :=
  match l with
  | [] => None
  | x :: l' => match f x i with Some e => Some e | None => each f l' (i + 1) end
  end.

(** ** Network peers *)

(** One exception of an IP block: it parses and lies within [cidr]. *)
Definition validateExcept (fieldPath cidr : string) (cidrNet : net.IPNet) (except : string) (j : Z) : option error :=
  match net.ParseCIDR except with
  | None => invalid (fieldPath +:+ ": invalid ipBlock.except[" +:+ fmt.d j +:+ "] " +:+ fmt.q except +:+ ": " +:+ net.ParseCIDR_error except)
  | Some exceptNet =>
      let '(parentOnes, parentBits) := net.Size (net.IPNet_Mask cidrNet) in
      let '(exceptOnes, exceptBits) := net.Size (net.IPNet_Mask exceptNet) in
      if negb (parentBits =? exceptBits) || (exceptOnes <? parentOnes) || negb (net.Contains cidrNet (net.IPNet_IP exceptNet))
      then invalid (fieldPath +:+ ": ipBlock.except[" +:+ fmt.d j +:+ "] " +:+ fmt.q except +:+ " is not within cidr " +:+ fmt.q cidr)
      else None
  end.

Definition validateNetworkPolicyPeerAtPath (peer : NetworkPolicyPeer) (fieldPath : string) : option error :=
  match peer_podSelector peer, peer_namespaceSelector peer, peer_ipBlock peer with
  | None, None, None => invalid (fieldPath +:+ ": must specify at least one of podSelector, namespaceSelector, or ipBlock")
  | _, _, None => None
  | None, None, Some b =>
      if ipb_cidr b == "" then invalid (fieldPath +:+ ": ipBlock.cidr must not be empty")
      else match net.ParseCIDR (ipb_cidr b) with
           | None => invalid (fieldPath +:+ ": invalid ipBlock.cidr " +:+ fmt.q (ipb_cidr b) +:+ ": " +:+ net.ParseCIDR_error (ipb_cidr b))
           | Some cidrNet => each (validateExcept fieldPath (ipb_cidr b) cidrNet) (ipb_except b) 0
           end
  | _, _, Some _ => invalid (fieldPath +:+ ": ipBlock cannot be combined with podSelector or namespaceSelector")
  end.

Definition validateNetworkPolicyPeer (fieldPath : string) (peer : NetworkPolicyPeer) (index : Z) : option error :=
  validateNetworkPolicyPeerAtPath peer (fieldPath +:+ "[" +:+ fmt.d index +:+ "]").

Section with_vendor.
Context `{V : Vendor}.

Definition validateNetworkPolicyPort (fieldPath : string) (port : NetworkPolicyPort) (index : Z) : option error :=
  let at_index := fieldPath +:+ "[" +:+ fmt.d index +:+ "]: " in
  let badProtocol := match npp_protocol port with
                     | Some p => if (p == "TCP") || (p == "UDP") || (p == "SCTP") then None
                                 else invalid (at_index +:+ "unsupported protocol " +:+ fmt.q p)
                     | None => None
                     end in
  match badProtocol with
  | Some e => Some e
  | None =>
    let badPort := match npp_port port with
                   | Some (IntVal p) => if (p <? 1) || (65535 <? p) then invalid (at_index +:+ "port " +:+ fmt.d p +:+ " out of range 1-65535") else None
                   | Some (StrVal s) => match IsValidPortName s with
                                        | err :: _ => invalid (at_index +:+ "invalid port name " +:+ fmt.q s +:+ ": " +:+ err)
                                        | [] => None
                                        end
                   | None => None
                   end in
    match badPort with
    | Some e => Some e
    | None =>
      match npp_endPort port with
      | None => None
      | Some endPort =>
          match npp_port port with
          | None => invalid (at_index +:+ "endPort requires port to be set")
          | Some (StrVal s) => invalid (at_index +:+ "endPort requires a numeric port, not " +:+ fmt.q s)
          | Some (IntVal p) =>
              if endPort <? wrap32 p then invalid (at_index +:+ "endPort " +:+ fmt.d endPort +:+ " must be >= port " +:+ fmt.d p)
              else if (endPort <? 1) || (65535 <? endPort) then invalid (at_index +:+ "endPort " +:+ fmt.d endPort +:+ " out of range 1-65535")
              else None
          end
      end
    end
  end.

Definition validateNetwork (n : NetworkConfig) : option error :=
  match each (validateNetworkPolicyPeer "network.ingressFrom") (net_ingressFrom n) 0 with
  | Some e => Some e
  | None =>
    match each (validateNetworkPolicyPeer "network.egressTo") (net_egressTo n) 0 with
    | Some e => Some e
    | None =>
      match each (validateNetworkPolicyPort "network.egressPorts") (net_egressPorts n) 0 with
      | Some e => Some e
      | None =>
        match net_dnsEgressPeer n with
        | Some p => validateNetworkPolicyPeerAtPath p "network.dnsEgressPeer"
        | None => None
        end
      end
    end
  end.

Definition validateCABundleSecret (namespace name : string) : M (option error) :=
  got ← call (CGet Direct KSecret namespace name);
  mret match got with
       | Err e => Some (classifyAPIError "TLS CA bundle Secret" namespace e)
       | Ok secret =>
           match sec_data secret !! caBundleKey with
           | None => invalid ("TLS CA bundle Secret " +:+ fmt.q name +:+ " does not contain key " +:+ fmt.q caBundleKey)
           | Some caPEM =>
               if AppendCertsFromPEM caPEM then None
               else invalid ("TLS CA bundle Secret " +:+ fmt.q name +:+ " key " +:+ fmt.q caBundleKey +:+ " contains no valid PEM certificates")
           end
       end.

Definition validateTLS (mcpServer : MCPServer) : M (option error) :=
  match spec_transport (srv_spec mcpServer) with
  | Some {| tr_tls := Some tlsCfg |} =>
      if tls_enabled tlsCfg then
        match tls_caBundleSecret tlsCfg with
        | Some ref => if tls_insecureSkipVerify tlsCfg
                      then mret (invalid "insecureSkipVerify and caBundleSecret are mutually exclusive")
                      else validateCABundleSecret (om_namespace (srv_meta mcpServer)) (secref_name ref)
        | None => mret None
        end
      else mret None
  | _ => mret None
  end.

Definition validateWorkloadRef (mcpServer : MCPServer) (ref : WorkloadReference) : M (result workload) :=
  let desc := "referenced " +:+ wr_kind ref +:+ " " +:+ fmt.q (wr_name ref) in
  got ← getWorkload Direct (wr_name ref) (wr_kind ref) (om_namespace (srv_meta mcpServer));
  match got with
  | Err e =>
      match asValidationError e with
      | Some (reason, message) => mret (Err (ValidationErr reason message))
      | None => mret (Err (classifyAPIError desc (om_namespace (srv_meta mcpServer)) e))
      end
  | Ok w =>
      match spec_serviceRef (srv_spec mcpServer) with
      | Some _ => mret (Ok w)
      | None =>
          let noLabels := ValidationErr ReasonInvalid (desc +:+ " has no matchLabels in its selector; set serviceRef to provide a Service with a suitable selector") in
          match workloadSelector w with
          | None => mret (Err noLabels)
          | Some sel =>
              if (size (ls_matchLabels sel) =? 0)%nat then mret (Err noLabels)
              else if negb (List.length (ls_matchExpressions sel) =? 0)%nat then
                mret (Err (ValidationErr ReasonInvalid (desc +:+ " uses matchExpressions in its selector; set serviceRef to avoid routing traffic to pods outside the workload")))
              else mret (Ok w)
          end
      end
  end.

Definition validateServiceRef (mcpServer : MCPServer) (ref : ServiceReference) : M (option error) :=
  got ← call (CGet Direct KService (om_namespace (srv_meta mcpServer)) (sr_name ref));
  mret (match got with
        | Err e => Some (classifyAPIError ("referenced Service " +:+ fmt.q (sr_name ref)) (om_namespace (srv_meta mcpServer)) e)
        | Ok _ => None
        end).

(** The checks of operator-managed workloads: storage, envFrom and env references. *)
Definition validateManaged (mcpServer : MCPServer) : M (option error) :=
  let cfg := spec_config (srv_spec mcpServer) in
  andThen (eachM (validateStorageMount mcpServer) (cfg_storage cfg) 0)
    (andThen (eachM (validateEnvFrom mcpServer) (cfg_envFrom cfg) 0)
             (eachM (validateEnvValueFrom mcpServer) (cfg_env cfg) 0)).

(** The order of the checks: workloadRef, serviceRef, references, network, TLS. *)
Definition validateConfigAndResolveWorkload (mcpServer : MCPServer) : M (result (option workload)) :=
  w ← match spec_workloadRef (srv_spec mcpServer) with
      | Some ref => r ← validateWorkloadRef mcpServer ref;
                    mret (match r with Ok w => Ok (Some w) | Err e => Err e end)
      | None => mret (Ok None)
      end;
  match w with
  | Err e => mret (Err e)
  | Ok workload =>
    err ← andThen (match spec_serviceRef (srv_spec mcpServer) with
                   | Some ref => validateServiceRef mcpServer ref
                   | None => mret None
                   end)
          (andThen (match spec_workloadRef (srv_spec mcpServer) with
                    | None => validateManaged mcpServer
                    | Some _ => mret None
                    end)
           (andThen (mret (match spec_network (srv_spec mcpServer) with
                           | Some n => validateNetwork n
                           | None => None
                           end))
                    (validateTLS mcpServer)));
    mret (match err with Some e => Err e | None => Ok workload end)
  end.

End with_vendor.

(** ** Permanent and transient failures *)

(** A read failed for a reason a retry may cure. *)
Definition transient_failure (e : event) : Prop :=
  match e with
  | Ev (CGet _ _ _ _) (Err err) => IsNotFound err = false /\ IsBadRequest err = false /\ asValidationError err = None
  | _ => False
  end.

Definition transient (e : error) : Prop := asValidationError e = None.

(** The outcome of a check is transient exactly when a read failed transiently. *)
Definition check_outcome (s : RState) (tr : list event) (res : option error) (s' : RState) : Prop :=
  s' = s /\ ((exists e, res = Some e /\ transient e) <-> Exists transient_failure tr).

Lemma check_pure s res : (forall e, res = Some e -> ~ transient e) -> check_outcome s [] res s.
Proof. intros H. split; [done|]. rewrite Exists_nil. split; [|done]. intros (e & -> & Ht). by eapply H. Qed.

Lemma check_none s : check_outcome s [] None s.
Proof. by apply check_pure. Qed.

Lemma check_invalid s msg : check_outcome s [] (invalid msg) s.
Proof. apply check_pure. by intros e [= <-]. Qed.

Lemma check_event s ev res : ~ transient_failure ev -> (forall e, res = Some e -> ~ transient e) -> check_outcome s [ev] res s.
Proof.
  intros Hev Hres. split; [done|]. rewrite Exists_cons, Exists_nil. split; [|by intros [|[]]].
  intros (e & He & Ht). by apply Hres in He.
Qed.

Lemma check_transient s ev e : (transient e <-> transient_failure ev) -> check_outcome s [ev] (Some e) s.
Proof.
  intros H. split; [done|]. rewrite Exists_cons, Exists_nil, <- H. split; [|intros [Ht|[]]; eauto].
  intros (e' & [= <-] & Ht). auto.
Qed.

Lemma IsNotFound_Wrap p e : IsNotFound (Wrap p e) = IsNotFound e.
Proof. done. Qed.

Lemma classify_transient d ns e :
  transient (classifyAPIError d ns e) <-> IsNotFound e = false /\ IsBadRequest e = false /\ asValidationError e = None.
Proof.
  unfold classifyAPIError, transient. destruct (IsNotFound e), (IsBadRequest e); cbn; intuition congruence.
Qed.

Lemma check_get {k} s rd ns n (got : result (obj k)) d dns :
  check_outcome s [Ev (CGet rd k ns n) got] (match got with Err e => Some (classifyAPIError d dns e) | Ok _ => None end) s.
Proof.
  destruct got as [o|e]; [apply check_event; [intros H; exact H|done]|]. apply check_transient, classify_transient.
Qed.

Lemma mwp_andThen m k s :
  mwp m s (check_outcome s) -> mwp k s (check_outcome s) -> mwp (andThen m k) s (check_outcome s).
Proof.
  intros Hm Hk. apply mwp_bind. eapply mwp_mono; [exact Hm|]. intros tr res s' [-> H]. destruct res as [e|].
  - apply mwp_ret. rewrite app_nil_r. done.
  - eapply mwp_mono; [exact Hk|]. intros tr' res' s' [-> H']. split; [done|]. rewrite Exists_app, <- H'.
    split; [naive_solver|]. intros [Hbad|]; [|done]. apply H in Hbad as (e & [=] & _).
Qed.

Lemma mwp_eachM {A} (f : A -> Z -> M (option error)) l i s :
  (forall x j, mwp (f x j) s (check_outcome s)) -> mwp (eachM f l i) s (check_outcome s).
Proof.
  intros Hf. revert i. induction l as [|x l IH]; intros i; cbn [eachM]; [apply mwp_ret, check_none|].
  apply mwp_andThen; auto.
Qed.

Lemma each_permanent {A} (f : A -> Z -> option error) l i e :
  (forall x j e, f x j = Some e -> ~ transient e) -> each f l i = Some e -> ~ transient e.
Proof.
  intros Hf. revert i. induction l as [|x l IH]; intros i; cbn; [done|].
  destruct (f x i) eqn:E; [intros [= <-]; by eapply Hf|apply IH].
Qed.

Lemma mwp_ref_check {k} ns n d dns s :
  mwp (got ← call (CGet Direct k ns n); mret (match got with Err e => Some (classifyAPIError d dns e) | Ok _ => None end))
    s (check_outcome s).
Proof. apply mwp_bind, mwp_call. intros got. apply mwp_ret. apply (check_get (k:=k)). Qed.

Lemma invalid_permanent msg e : invalid msg = Some e -> ~ transient e.
Proof. by intros [= <-]. Qed.

Create HintDb checks discriminated.
#[export] Hint Resolve check_none check_invalid : checks.

Ltac check_tac :=
  repeat match goal with
  | |- mwp (andThen _ _) _ _ => apply mwp_andThen
  | |- mwp (mret _) _ _ => apply mwp_ret; eauto with checks
  | |- mwp (validateReferencedConfigMap _ _ _) _ _ => apply mwp_ref_check
  | |- mwp (validateReferencedSecret _ _ _) _ _ => apply mwp_ref_check
  | |- mwp (match ?x with _ => _ end) _ _ => destruct x
  end.

Lemma validateStorageMount_check srv st i s : mwp (validateStorageMount srv st i) s (check_outcome s).
Proof. unfold validateStorageMount. check_tac. Qed.
Lemma validateEnvFrom_check srv e i s : mwp (validateEnvFrom srv e i) s (check_outcome s).
Proof. unfold validateEnvFrom. check_tac. Qed.
Lemma validateEnvValueFrom_check srv e i s : mwp (validateEnvValueFrom srv e i) s (check_outcome s).
Proof. unfold validateEnvValueFrom. check_tac. Qed.

Lemma validateNetworkPolicyPeerAtPath_permanent p path e :
  validateNetworkPolicyPeerAtPath p path = Some e -> ~ transient e.
Proof.
  unfold validateNetworkPolicyPeerAtPath.
  destruct (peer_podSelector p), (peer_namespaceSelector p), (peer_ipBlock p) as [b|]; try done; try apply invalid_permanent.
  case_match; [apply invalid_permanent|]. destruct (net.ParseCIDR _); [|apply invalid_permanent].
  apply each_permanent. intros x j e'. unfold validateExcept. destruct (net.ParseCIDR x); [|apply invalid_permanent].
  destruct (net.Size _), (net.Size _). case_match; [apply invalid_permanent|done].
Qed.

Section transient.
Context `{V : Vendor}.

Lemma validateNetworkPolicyPort_permanent path p i e : validateNetworkPolicyPort path p i = Some e -> ~ transient e.
Proof.
  unfold validateNetworkPolicyPort. intros H.
  repeat (case_match; simplify_eq/=; try done); eauto using invalid_permanent.
Qed.

Lemma validateNetwork_permanent n e : validateNetwork n = Some e -> ~ transient e.
Proof.
  unfold validateNetwork.
  assert (Hpeer : forall p x j e, validateNetworkPolicyPeer p x j = Some e -> ~ transient e).
  { intros p x j e'. apply validateNetworkPolicyPeerAtPath_permanent. }
  destruct (each _ (net_ingressFrom n) 0) eqn:E1; [intros [= <-]; eapply each_permanent; [|exact E1]; eauto|].
  destruct (each _ (net_egressTo n) 0) eqn:E2; [intros [= <-]; eapply each_permanent; [|exact E2]; eauto|].
  destruct (each _ (net_egressPorts n) 0) eqn:E3;
    [intros [= <-]; eapply each_permanent; [apply validateNetworkPolicyPort_permanent|exact E3]|].
  destruct (net_dnsEgressPeer n); [apply validateNetworkPolicyPeerAtPath_permanent|done].
Qed.

Lemma validateTLS_check srv s : mwp (validateTLS srv) s (check_outcome s).
Proof.
  unfold validateTLS. destruct (spec_transport _) as [[[cfg|]]|]; try (apply mwp_ret, check_none).
  destruct (tls_enabled cfg); [|apply mwp_ret, check_none].
  destruct (tls_caBundleSecret cfg) as [ref|]; [|apply mwp_ret, check_none].
  destruct (tls_insecureSkipVerify cfg); [apply mwp_ret, check_invalid|].
  unfold validateCABundleSecret. apply mwp_bind, mwp_call. intros got. apply mwp_ret.
  pose proof (check_get (k:=KSecret) s Direct (om_namespace (srv_meta srv)) (secref_name ref) got "TLS CA bundle Secret" (om_namespace (srv_meta srv))) as H.
  destruct got as [sec|e]; [|exact H]. split; [done|]. cbn. destruct H as [_ H]. rewrite <- H.
  split; [intros (e & He & Ht)|by intros (? & [=] & _)]. exfalso. revert Ht.
  destruct (sec_data sec !! caBundleKey); [destruct (AppendCertsFromPEM _); [done|]|]; by apply invalid_permanent in He.
Qed.

Lemma validateServiceRef_check srv ref s : mwp (validateServiceRef srv ref) s (check_outcome s).
Proof. apply (mwp_ref_check (k:=KService)). Qed.

Definition result_outcome {A} (s : RState) (tr : list event) (res : result A) (s' : RState) : Prop :=
  check_outcome s tr (match res with Err e => Some e | Ok _ => None end) s'.

(** The three outcomes of [getWorkload]. *)
Lemma mwp_getWorkload rd n knd ns s (Q : list event -> result workload -> RState -> Prop) :
  (forall msg, Q [] (Err (ValidationErr ReasonInvalid msg)) s) ->
  (forall k (o : obj k) w, Q [Ev (CGet rd k ns n) (Ok o)] (Ok w) s) ->
  (forall k e pre, Q [Ev (CGet rd k ns n) (Err e)] (Err (Wrap pre e)) s) ->
  mwp (getWorkload rd n knd ns) s Q.
Proof.
  intros H1 H2 H3. unfold getWorkload.
  destruct (knd == WorkloadKindDeployment); [|destruct (knd == WorkloadKindDaemonSet); [|destruct (knd == WorkloadKindStatefulSet)]];
    try (apply mwp_bind, mwp_call; intros [d|e]; apply mwp_ret; [apply H2|apply H3]).
  by apply mwp_ret.
Qed.

Lemma validateWorkloadRef_check srv ref s : mwp (validateWorkloadRef srv ref) s (result_outcome s).
Proof.
  unfold validateWorkloadRef. apply mwp_bind, mwp_getWorkload.
  - intros msg. apply mwp_ret. apply (check_invalid s msg).
  - intros k o w.
    assert (Hinv : forall msg, check_outcome s [Ev (CGet Direct k (om_namespace (srv_meta srv)) (wr_name ref)) (Ok o)] (invalid msg) s).
    { intros msg. apply check_event; [intros H; exact H|apply invalid_permanent]. }
    assert (Hok : check_outcome s [Ev (CGet Direct k (om_namespace (srv_meta srv)) (wr_name ref)) (Ok o)] None s).
    { apply check_event; [intros H; exact H|done]. }
    repeat (match goal with |- mwp (match ?x with _ => _ end) _ _ => destruct x end); apply mwp_ret;
      first [exact Hok | apply Hinv].
  - intros k e pre. cbn [asValidationError].
    destruct (asValidationError e) as [[reason message]|] eqn:Ev; apply mwp_ret.
    + apply check_transient. split; [done|]. intros (_ & _ & ?). congruence.
    + apply check_transient. apply (classify_transient _ _ (Wrap pre e)).
Qed.

Lemma validate_outcome srv s : mwp (validateConfigAndResolveWorkload srv) s (result_outcome s).
Proof.
  unfold validateConfigAndResolveWorkload. apply mwp_bind.
  assert (Hrest : forall w tr, ~ Exists transient_failure tr ->
    mwp (err ← andThen (match spec_serviceRef (srv_spec srv) with
                   | Some ref => validateServiceRef srv ref
                   | None => mret None
                   end)
          (andThen (match spec_workloadRef (srv_spec srv) with
                    | None => validateManaged srv
                    | Some _ => mret None
                    end)
           (andThen (mret (match spec_network (srv_spec srv) with
                           | Some n => validateNetwork n
                           | None => None
                           end))
                    (validateTLS srv)));
      mret (match err with Some e => Err e | None => Ok w end)) s
      (fun tr' res s' => result_outcome (A:=option workload) s (tr ++ tr') res s')).
  { intros w tr Htr. apply mwp_bind. eapply mwp_mono with (Q := check_outcome s).
    - repeat apply mwp_andThen.
      + destruct (spec_serviceRef _); [apply validateServiceRef_check|apply mwp_ret, check_none].
      + destruct (spec_workloadRef _); [apply mwp_ret, check_none|]. unfold validateManaged.
        repeat apply mwp_andThen; apply mwp_eachM; intros;
          [apply validateStorageMount_check|apply validateEnvFrom_check|apply validateEnvValueFrom_check].
      + apply mwp_ret, check_pure. destruct (spec_network _); [|done]. apply validateNetwork_permanent.
      + apply validateTLS_check.
    - intros tr' err s' [-> H]. apply mwp_ret. rewrite app_nil_r. split; [done|]. rewrite Exists_app.
      rewrite <- H. destruct err; cbn; (split; [auto|]); (intros [Hb|Hx]; [by destruct (Htr Hb)|exact Hx]). }
  destruct (spec_workloadRef (srv_spec srv)) as [ref|].
  - apply mwp_bind. eapply mwp_mono; [apply validateWorkloadRef_check|]. intros tr res s' [-> H]. apply mwp_ret.
    rewrite app_nil_r. destruct res as [w|e].
    + apply Hrest. rewrite <- H. by intros (? & [=] & _).
    + apply mwp_ret. rewrite app_nil_r. split; [done|]. exact H.
  - apply mwp_ret. apply Hrest. intros Hn. by apply Exists_nil in Hn.
Qed.

End transient.

(** C29: Validation classifies failures exactly: it fails with a retryable error if and
    only if some read failed for a reason other than NotFound or BadRequest; every
    other rejection is a permanent [ValidationError]; and it touches no state. *)
Theorem validation_classifies_errors `{V : Vendor} srv s tr res s' :
  runs (validateConfigAndResolveWorkload srv s) tr (res, s') ->
  s' = s /\ ((exists e, res = Err e /\ asValidationError e = None) <-> Exists transient_failure tr).
Proof.
  intros Hr. by_wp Hr. eapply mwp_mono; [apply validate_outcome|]. intros tr' res' s'' [-> H]. split; [done|].
  rewrite <- H. unfold transient. destruct res' as [w|e]; split; intros (e' & He & ?); simplify_eq; eauto.
Qed.

(** ** What an accepted configuration guarantees *)

(** A peer selects pods or names an IP block, not both, and every exception of the
    block lies inside it. *)
Definition peer_sound (p : NetworkPolicyPeer) : Prop :=
  match peer_ipBlock p with
  | None => peer_podSelector p <> None \/ peer_namespaceSelector p <> None
  | Some b =>
      peer_podSelector p = None /\ peer_namespaceSelector p = None /\
      exists n, net.ParseCIDR (ipb_cidr b) = Some n /\
        Forall (fun x => exists n', net.ParseCIDR x = Some n' /\
                   forall ip, net.Contains n' ip = true -> net.Contains n ip = true) (ipb_except b)
  end.

Definition port_sound (p : NetworkPolicyPort) : Prop :=
  (forall x, npp_protocol p = Some x -> x = "TCP" \/ x = "UDP" \/ x = "SCTP") /\
  (forall z, npp_port p = Some (IntVal z) -> 1 <= z <= 65535) /\
  (forall e, npp_endPort p = Some e -> exists z, npp_port p = Some (IntVal z) /\ z <= e <= 65535).

Lemma each_none {A} (f : A -> Z -> option error) l i (P : A -> Prop) :
  each f l i = None -> (forall x j, f x j = None -> P x) -> Forall P l.
Proof.
  intros H HP. revert i H. induction l as [|x l IH]; intros i; cbn; [constructor|].
  destruct (f x i) eqn:E; [done|]. intros H. constructor; eauto.
Qed.

Lemma validateExcept_sound path cidr n x j :
  net.ParseCIDR cidr = Some n -> validateExcept path cidr n x j = None ->
  exists n', net.ParseCIDR x = Some n' /\ forall ip, net.Contains n' ip = true -> net.Contains n ip = true.
Proof.
  intros Hn. unfold validateExcept. destruct (net.ParseCIDR x) as [n'|] eqn:Hn'; [|done].
  destruct (net.Size (net.IPNet_Mask n)) as [o b] eqn:E1, (net.Size (net.IPNet_Mask n')) as [o' b'] eqn:E2.
  destruct (_ || _ || _) eqn:E; [done|]. intros _. rewrite !orb_false_iff, !negb_false_iff, Z.eqb_eq, Z.ltb_ge in E.
  destruct E as [[Hb Ho] Hc]. exists n'. split; [done|]. intros ip.
  apply (Contains_nested cidr x); rewrite ?E1, ?E2; done.
Qed.

Lemma validatePeer_sound p path : validateNetworkPolicyPeerAtPath p path = None -> peer_sound p.
Proof.
  unfold validateNetworkPolicyPeerAtPath, peer_sound.
  destruct (peer_podSelector p), (peer_namespaceSelector p), (peer_ipBlock p) as [b|]; try done; try (intros; by (left + right)).
  case_bool_decide; [done|]. destruct (net.ParseCIDR (ipb_cidr b)) as [n|] eqn:E; [|done].
  intros Hx. split_and!; [done|done|]. exists n. split; [done|].
  eapply each_none; [exact Hx|]. intros x j. by apply validateExcept_sound.
Qed.

Lemma validatePort_sound `{V : Vendor} path p i : validateNetworkPolicyPort path p i = None -> port_sound p.
Proof.
  unfold validateNetworkPolicyPort, port_sound. intros H.
  destruct (npp_protocol p) as [x|] eqn:Ep; [destruct (_ || _ || _) eqn:Eo; [|done]|].
  all: destruct (npp_port p) as [[z|n]|] eqn:Eport.
  all: try (destruct ((z <? 1) || (65535 <? z)) eqn:Er; [done|]).
  all: try (destruct (IsValidPortName n); [|done]).
  all: destruct (npp_endPort p) as [e|] eqn:Ee; try done.
  all: try (destruct (e <? wrap32 z) eqn:Elt; [done|]; destruct ((e <? 1) || (65535 <? e)) eqn:Er2; [done|]).
  all: repeat match goal with H : _ || _ = false |- _ => apply orb_false_iff in H as [? ?] end.
  all: repeat match goal with H : (_ <? _) = false |- _ => apply Z.ltb_ge in H end.
  all: try rewrite wrap32_id in * by (unfold is_int32; lia).
  all: split_and!; intros ? [=]; subst; try lia; try (eexists; split; [reflexivity|lia]).
  all: rewrite !orb_true_iff, !bool_decide_eq_true in Eo; tauto.
Qed.

(** The ConfigMaps and Secrets an operator-managed workload requires. *)
Definition storage_refs (st : StorageMount) : list (kind * string) :=
  let src := sm_source st in
  if ss_type src == StorageTypeConfigMap then
    match ss_configMap src with Some cm => if isOptional (cmv_optional cm) then [] else [(KConfigMap, cmv_name cm)] | None => [] end
  else if ss_type src == StorageTypeSecret then
    match ss_secret src with Some sec => if isOptional (sv_optional sec) then [] else [(KSecret, sv_secretName sec)] | None => [] end
  else [].

Definition env_ref (k : kind) (o : option EnvSource) : list (kind * string) :=
  match o with Some ref => if isOptional (es_optional ref) then [] else [(k, es_name ref)] | None => [] end.
Definition envFrom_refs (e : EnvFromSource) : list (kind * string) :=
  env_ref KConfigMap (ef_configMapRef e) ++ env_ref KSecret (ef_secretRef e).

Definition key_ref (k : kind) (o : option KeySelector) : list (kind * string) :=
  match o with Some ref => if isOptional (ks_optional ref) then [] else [(k, ks_name ref)] | None => [] end.
Definition envVar_refs (e : EnvVar) : list (kind * string) :=
  match ev_valueFrom e with
  | Some vf => key_ref KConfigMap (evs_configMapKeyRef vf) ++ key_ref KSecret (evs_secretKeyRef vf)
  | None => []
  end.

Definition required_refs (srv : MCPServer) : list (kind * string) :=
  let cfg := spec_config (srv_spec srv) in
  concat (map storage_refs (cfg_storage cfg)) ++ concat (map envFrom_refs (cfg_envFrom cfg))
  ++ concat (map envVar_refs (cfg_env cfg)).

(** The reference was resolved by an uncached read. *)
Definition resolved (srv : MCPServer) (tr : list event) (ref : kind * string) : Prop :=
  exists o : obj ref.1, In (Ev (CGet Direct ref.1 (om_namespace (srv_meta srv)) ref.2) (Ok o)) tr.

Definition resolves (srv : MCPServer) (refs : list (kind * string)) (tr : list event) (res : option error) (_ : RState) : Prop :=
  res = None -> Forall (resolved srv tr) refs.

Lemma resolved_app srv tr tr' ref : resolved srv tr ref \/ resolved srv tr' ref -> resolved srv (tr ++ tr') ref.
Proof. intros [[o H]|[o H]]; exists o; apply in_app_iff; auto. Qed.

Ltac resolves_ret := apply mwp_ret; intros ?; first [discriminate | constructor].

Lemma mwp_andThen_resolves srv m k r1 r2 s :
  (forall s, mwp m s (resolves srv r1)) -> (forall s, mwp k s (resolves srv r2)) ->
  mwp (andThen m k) s (resolves srv (r1 ++ r2)).
Proof.
  intros Hm Hk. apply mwp_bind. eapply mwp_mono; [apply Hm|]. intros tr res s' H. destruct res as [e|]; [resolves_ret|].
  eapply mwp_mono; [apply Hk|]. intros tr' res' s'' H' Hn. apply Forall_app.
  split; (eapply Forall_impl; [by (apply H + apply H')|]); intros ref ?; apply resolved_app; auto.
Qed.

Lemma mwp_eachM_resolves {A} srv (f : A -> Z -> M (option error)) (refs : A -> list (kind * string)) l i s :
  (forall x j s, mwp (f x j) s (resolves srv (refs x))) -> mwp (eachM f l i) s (resolves srv (concat (map refs l))).
Proof.
  intros Hf. revert i s. induction l as [|x l IH]; intros i s; cbn [eachM map concat]; [resolves_ret|].
  apply mwp_andThen_resolves; auto.
Qed.

Lemma mwp_ref_resolves srv k n d s :
  mwp (got ← call (CGet Direct k (om_namespace (srv_meta srv)) n);
       mret (match got with Err e => Some (classifyAPIError d (om_namespace (srv_meta srv)) e) | Ok _ => None end))
    s (resolves srv [(k, n)]).
Proof.
  apply mwp_bind, mwp_call. intros [o|e]; apply mwp_ret; intros H; [|done]. constructor; [|constructor].
  exists o. left. reflexivity.
Qed.

Lemma validateStorageMount_resolves srv st i s : mwp (validateStorageMount srv st i) s (resolves srv (storage_refs st)).
Proof.
  unfold validateStorageMount, storage_refs. destruct (ss_type _ == StorageTypeConfigMap).
  - destruct (ss_configMap _) as [cm|]; [|resolves_ret]. case_bool_decide; [resolves_ret|].
    destruct (isOptional _); [resolves_ret|apply (mwp_ref_resolves srv KConfigMap)].
  - destruct (ss_type _ == StorageTypeSecret).
    + destruct (ss_secret _) as [sec|]; [|resolves_ret]. case_bool_decide; [resolves_ret|].
      destruct (isOptional _); [resolves_ret|apply (mwp_ref_resolves srv KSecret)].
    + repeat (match goal with |- mwp (match ?x with _ => _ end) _ _ => destruct x end); resolves_ret.
Qed.

Lemma validateEnvFrom_resolves srv e i s : mwp (validateEnvFrom srv e i) s (resolves srv (envFrom_refs e)).
Proof.
  apply mwp_andThen_resolves; intros s'; unfold env_ref.
  - destruct (ef_configMapRef e) as [ref|]; [|resolves_ret].
    destruct (isOptional _); [resolves_ret|apply (mwp_ref_resolves srv KConfigMap)].
  - destruct (ef_secretRef e) as [ref|]; [|resolves_ret].
    destruct (isOptional _); [resolves_ret|apply (mwp_ref_resolves srv KSecret)].
Qed.

Lemma validateEnvValueFrom_resolves srv e i s : mwp (validateEnvValueFrom srv e i) s (resolves srv (envVar_refs e)).
Proof.
  unfold validateEnvValueFrom, envVar_refs. destruct (ev_valueFrom e) as [vf|]; [|resolves_ret].
  apply mwp_andThen_resolves; intros s'; unfold key_ref.
  - destruct (evs_configMapKeyRef vf) as [ref|]; [|resolves_ret].
    destruct (isOptional _); [resolves_ret|apply (mwp_ref_resolves srv KConfigMap)].
  - destruct (evs_secretKeyRef vf) as [ref|]; [|resolves_ret].
    destruct (isOptional _); [resolves_ret|apply (mwp_ref_resolves srv KSecret)].
Qed.

Lemma validateManaged_resolves srv s : mwp (validateManaged srv) s (resolves srv (required_refs srv)).
Proof.
  unfold validateManaged, required_refs. apply mwp_andThen_resolves; intros s1.
  - apply mwp_eachM_resolves. apply validateStorageMount_resolves.
  - apply mwp_andThen_resolves; intros s2; apply mwp_eachM_resolves;
      [apply validateEnvFrom_resolves|apply validateEnvValueFrom_resolves].
Qed.

Lemma resolved_in srv tr tr' ref : resolved srv tr ref -> incl tr tr' -> resolved srv tr' ref.
Proof. intros [o H] Hi. exists o. by apply Hi. Qed.

(** The CA bundle that verifies the server's certificate, where the spec asks for one: its
    Secret was read past the cache and has certificates under the key; verification is not
    switched off at the same time. *)
Definition bundle_found `{V : Vendor} (srv : MCPServer) (tr : list event) : Prop :=
  forall t cfg ref, spec_transport (srv_spec srv) = Some t -> tr_tls t = Some cfg -> tls_enabled cfg = true ->
    tls_caBundleSecret cfg = Some ref ->
    tls_insecureSkipVerify cfg = false /\
    exists (o : Secret) pem, In (Ev (CGet Direct KSecret (om_namespace (srv_meta srv)) (secref_name ref)) (Ok o)) tr /\
      sec_data o !! caBundleKey = Some pem /\ AppendCertsFromPEM pem = true.

Lemma bundle_found_in `{V : Vendor} srv tr tr' : bundle_found srv tr -> incl tr tr' -> bundle_found srv tr'.
Proof.
  intros H Hi t cfg ref Ht Hc He Hr. destruct (H t cfg ref Ht Hc He Hr) as (Hn & o & pem & Ho & Hp).
  split; [done|]. exists o, pem. split; [by apply Hi|done].
Qed.

Lemma validateTLS_finds `{V : Vendor} srv s : mwp (validateTLS srv) s (fun tr res _ => res = None -> bundle_found srv tr).
Proof.
  unfold validateTLS, bundle_found. destruct (spec_transport _) as [t|]; [|by apply mwp_ret].
  destruct t as [[cfg|]]; [|apply mwp_ret; by intros _ ? ? ? [= <-]].
  destruct (tls_enabled cfg) eqn:Ee; [|apply mwp_ret; intros _ ? ? ? [= <-] [= <-]; by rewrite Ee].
  destruct (tls_caBundleSecret cfg) as [ref|] eqn:Er; [|apply mwp_ret; intros _ ? ? ? [= <-] [= <-] _; by rewrite Er].
  destruct (tls_insecureSkipVerify cfg) eqn:Es; [by apply mwp_ret|].
  unfold validateCABundleSecret. apply mwp_bind, mwp_call. intros [o|e]; apply mwp_ret; [|done].
  destruct (sec_data o !! caBundleKey) as [pem|] eqn:Ed; [|done]. destruct (AppendCertsFromPEM pem) eqn:Ep; [|done].
  intros _ t' cfg' ref' [= <-] [= <-] _ Hr. rewrite Er in Hr. injection Hr as <-. split; [done|]. exists o, pem. split; [by left|done].
Qed.

Lemma validateServiceRef_finds `{V : Vendor} srv ref s :
  mwp (validateServiceRef srv ref) s (fun tr res _ => res = None -> resolved srv tr (KService, sr_name ref)).
Proof. apply mwp_bind, mwp_call. intros [o|e]; apply mwp_ret; [|done]. intros _. exists o. by left. Qed.

(** The parts of an accepted configuration, as found by the run [tr]. *)
Definition accepted `{V : Vendor} (srv : MCPServer) (tr : list event) (w : option workload) : Prop :=
  match spec_workloadRef (srv_spec srv) with
  | None => w = None /\ Forall (resolved srv tr) (required_refs srv)
  | Some _ =>
      exists wl, w = Some wl /\
        (spec_serviceRef (srv_spec srv) = None ->
         exists sel, workloadSelector wl = Some sel /\ ls_matchLabels sel <> ∅ /\ ls_matchExpressions sel = [])
  end /\
  (forall n, spec_network (srv_spec srv) = Some n ->
     Forall peer_sound (net_ingressFrom n) /\ Forall peer_sound (net_egressTo n) /\
     Forall port_sound (net_egressPorts n) /\ (forall p, net_dnsEgressPeer n = Some p -> peer_sound p)) /\
  (forall ref, spec_serviceRef (srv_spec srv) = Some ref -> resolved srv tr (KService, sr_name ref)) /\
  bundle_found srv tr.

Section accepted.
Context `{V : Vendor}.

Lemma validateNetwork_sound n :
  validateNetwork n = None ->
  Forall peer_sound (net_ingressFrom n) /\ Forall peer_sound (net_egressTo n) /\
  Forall port_sound (net_egressPorts n) /\ (forall p, net_dnsEgressPeer n = Some p -> peer_sound p).
Proof.
  unfold validateNetwork. intros H.
  assert (Hpeer : forall path x j, validateNetworkPolicyPeer path x j = None -> peer_sound x) by (intros; by eapply validatePeer_sound).
  destruct (each _ (net_ingressFrom n) 0) eqn:E1; [done|]. destruct (each _ (net_egressTo n) 0) eqn:E2; [done|].
  destruct (each _ (net_egressPorts n) 0) eqn:E3; [done|].
  split_and!.
  - eapply each_none; [exact E1|]. intros x j. apply Hpeer.
  - eapply each_none; [exact E2|]. intros x j. apply Hpeer.
  - eapply each_none; [exact E3|]. intros x j. apply validatePort_sound.
  - intros p Hp. rewrite Hp in H. by eapply validatePeer_sound.
Qed.

Lemma validateWorkloadRef_accepts srv ref s :
  mwp (validateWorkloadRef srv ref) s (fun _ res _ => forall wl, res = Ok wl ->
    spec_serviceRef (srv_spec srv) = None ->
    exists sel, workloadSelector wl = Some sel /\ ls_matchLabels sel <> ∅ /\ ls_matchExpressions sel = []).
Proof.
  unfold validateWorkloadRef. apply mwp_bind, mwp_getWorkload.
  - intros msg. by apply mwp_ret.
  - intros k o w. destruct (spec_serviceRef (srv_spec srv)); [by apply mwp_ret|].
    destruct (workloadSelector w) as [sel|] eqn:Ew; [|by apply mwp_ret].
    destruct (Nat.eqb_spec (size (ls_matchLabels sel)) 0) as [|Hsz]; [by apply mwp_ret|].
    destruct (negb _) eqn:El; [by apply mwp_ret|].
    apply negb_false_iff, Nat.eqb_eq in El. apply mwp_ret. intros wl [= <-] _. exists sel. split_and!; [done| |].
    + intros He. apply Hsz. by rewrite He, map_size_empty.
    + by destruct (ls_matchExpressions sel).
  - intros k e pre. destruct (asValidationError _) as [[? ?]|]; by apply mwp_ret.
Qed.

(** [andThen], keeping a fact about the first trace and one about the second. *)
Lemma mwp_andThen_none m k s (P1 P2 : list event -> Prop) :
  mwp m s (fun tr res _ => res = None -> P1 tr) -> (forall s', mwp k s' (fun tr res _ => res = None -> P2 tr)) ->
  mwp (andThen m k) s (fun tr res _ => res = None -> exists t1 t2, tr = t1 ++ t2 /\ P1 t1 /\ P2 t2).
Proof.
  intros Hm Hk. apply mwp_bind. eapply mwp_mono; [exact Hm|]. intros tr res s' H. destruct res as [e|]; [by apply mwp_ret|].
  eapply mwp_mono; [apply Hk|]. intros tr' res' s'' H' Hn. exists tr, tr'. auto.
Qed.

(** What follows the lookup of a referenced workload. *)
Lemma validation_rest srv s (tr : list event) (w : option workload) :
  mwp (err ← andThen (match spec_serviceRef (srv_spec srv) with Some ref => validateServiceRef srv ref | None => mret None end)
        (andThen (match spec_workloadRef (srv_spec srv) with None => validateManaged srv | Some _ => mret None end)
         (andThen (mret (match spec_network (srv_spec srv) with Some n => validateNetwork n | None => None end))
                  (validateTLS srv)));
    mret (match err with Some e => Err e | None => Ok w end : result (option workload))) s
    (fun tr' res _ => forall w', res = Ok w' -> w' = w /\
       (spec_workloadRef (srv_spec srv) = None -> Forall (resolved srv (tr ++ tr')) (required_refs srv)) /\
       (forall n, spec_network (srv_spec srv) = Some n -> validateNetwork n = None) /\
       (forall ref, spec_serviceRef (srv_spec srv) = Some ref -> resolved srv (tr ++ tr') (KService, sr_name ref)) /\
       bundle_found srv (tr ++ tr')).
Proof.
  apply mwp_bind. eapply mwp_mono.
  - apply (mwp_andThen_none _ _ _ (fun t => forall ref, spec_serviceRef (srv_spec srv) = Some ref -> resolved srv t (KService, sr_name ref))).
    { destruct (spec_serviceRef _) as [sref|]; [|by apply mwp_ret].
      eapply mwp_mono; [apply validateServiceRef_finds|]. intros t res s2 H Hn ? [= <-]. by apply H. }
    intros s1. apply (mwp_andThen_none _ _ _ (fun t => spec_workloadRef (srv_spec srv) = None -> Forall (resolved srv t) (required_refs srv))).
    + destruct (spec_workloadRef _); [by apply mwp_ret|]. eapply mwp_mono; [apply validateManaged_resolves|].
      intros t res s2 H Hn _. by apply H.
    + intros s2. apply (mwp_andThen_none _ _ _ (fun _ => forall n, spec_network (srv_spec srv) = Some n -> validateNetwork n = None) (bundle_found srv)).
      * apply mwp_ret. intros H n Hn. by rewrite Hn in H.
      * intros s3. apply validateTLS_finds.
  - intros t err s1 H. apply mwp_ret. intros w' Hw. destruct err; [done|]. injection Hw as <-.
    destruct (H eq_refl) as (t1 & t2 & -> & H0 & t3 & t4 & -> & H1 & t5 & t6 & -> & H2 & H3).
    split_and!; [done| |done| |].
    + intros Hw. eapply Forall_impl; [by apply H1|]. intros ref Hres. apply (resolved_in _ _ _ _ Hres).
      intros x Hx. rewrite !in_app_iff. tauto.
    + intros ref Href. apply (resolved_in _ _ _ _ (H0 ref Href)). intros x Hx. rewrite !in_app_iff. tauto.
    + apply (bundle_found_in _ _ _ H3). intros x Hx. rewrite !in_app_iff. tauto.
Qed.

(** C18: A configuration that validation accepts is sound: every ConfigMap and Secret that a
    managed workload requires, the Service that is referenced and the Secret of the CA
    bundle were found by uncached reads, the bundle with certificates under its key and
    without switching verification off; a referenced workload without its own Service has a
    non-empty label-only selector (so the managed Service selects exactly its pods), every
    peer is well-formed with its exceptions inside its block, and ports and port ranges are
    within 1-65535. *)
Theorem accepted_config_sound srv s tr w s' :
  runs (validateConfigAndResolveWorkload srv s) tr (Ok w, s') -> accepted srv tr w.
Proof.
  intros Hr. cut (forall w', Ok w = Ok w' -> accepted srv tr w'); [eauto|]. by_wp Hr.
  unfold validateConfigAndResolveWorkload, accepted. apply mwp_bind.
  pose proof (validation_rest srv s) as Hrest.
  destruct (spec_workloadRef (srv_spec srv)) as [ref|] eqn:Er.
  - apply mwp_bind. pose proof (wp_conj _ _ _ (validateWorkloadRef_check srv ref s) (validateWorkloadRef_accepts srv ref s)) as Hb.
    eapply wp_mono; [exact Hb|]. intros tr1 [res s1] [[-> _] Hsel].
    apply mwp_ret. destruct res as [wl|e]; [|by apply mwp_ret].
    eapply mwp_mono; [apply (Hrest tr1)|]. intros t res s1 H w' Hw. destruct (H w' Hw) as (-> & _ & Hn & Hs & Hb').
    split; [|split; [intros n Hn'; by apply validateNetwork_sound, Hn|]].
    + exists wl. split; [done|]. by apply Hsel.
    + by rewrite app_nil_r.
  - apply mwp_ret. eapply mwp_mono; [apply (Hrest [])|]. intros t res s1 H w' Hw. destruct (H w' Hw) as (-> & H1 & Hn & Hs).
    split; [split; [done|by apply H1]|]. split; [|done]. intros n Hn'. by apply validateNetwork_sound, Hn.
Qed.

Lemma validate_reads srv : mcalls no_write (validateConfigAndResolveWorkload srv).
Proof.
  assert (Hge : forall A (f : A -> Z -> M (option error)) l i, (forall x j, mcalls no_write (f x j)) -> mcalls no_write (eachM f l i)).
  { intros A f l i Hf. revert i. induction l as [|x l IH]; intros i; cbn [eachM]; [calls_tac|].
    apply mcalls_bind; [apply Hf|]. intros [e|]; [calls_tac|apply IH]. }
  unfold validateConfigAndResolveWorkload, validateWorkloadRef, getWorkload, validateServiceRef, validateManaged, validateTLS,
    validateCABundleSecret, andThen. calls_tac;
    apply Hge; intros; unfold validateStorageMount, validateEnvFrom, validateEnvValueFrom, validateReferencedConfigMap,
      validateReferencedSecret, andThen; calls_tac.
Qed.

End accepted.

(** ** Concrete runs *)

Definition errorWorld (e : error) : World :=
  {| w_get := fun _ _ _ _ => Err e; w_write := None; w_pods := []; w_servers := []; w_list := fun _ _ => []; w_status := None;
     w_dial := Ok None; w_now := 0 |}.

(** A throttled API server makes validation fail transiently. *)
Lemma validation_classifies_errors_witness :
  exists e, fst (snd (run_in (errorWorld (StatusError (OtherReason "TooManyRequests") "slow down"))
      (@validateConfigAndResolveWorkload modelVendor byoServiceServer) emptyState)) = Err e /\
    Exists transient_failure (fst (run_in (errorWorld (StatusError (OtherReason "TooManyRequests") "slow down"))
      (@validateConfigAndResolveWorkload modelVendor byoServiceServer) emptyState)).
Proof.
  eexists. split; [reflexivity|].
  eapply (@validation_classifies_errors modelVendor byoServiceServer emptyState _ _ emptyState).
  - exact (run_in_runs (errorWorld (StatusError (OtherReason "TooManyRequests") "slow down"))
      (@validateConfigAndResolveWorkload modelVendor byoServiceServer) emptyState).
  - eexists. split; reflexivity.
Defined.

Definition storageServer : MCPServer :=
  serverWith {| spec_extraLabels := None; spec_extraAnnotations := None; spec_workloadRef := None; spec_serviceRef := None;
    spec_source := spec_source sampleSpec;
    spec_config := {| cfg_port := 8080; cfg_arguments := []; cfg_env := []; cfg_envFrom := [];
      cfg_storage := [{| sm_path := "/etc/cfg"; sm_permissions := "";
        sm_source := {| ss_type := StorageTypeConfigMap;
          ss_configMap := Some {| cmv_name := "settings"; cmv_optional := None; cmv_other := "" |};
          ss_secret := None; ss_emptyDir := None |} |}];
      cfg_path := "" |};
    spec_runtime := zeroRuntime; spec_mcp := {| mcp_stateless := None |};
    spec_network := Some {| net_ingressFrom := [{| peer_podSelector := None; peer_namespaceSelector := None;
        peer_ipBlock := Some {| ipb_cidr := "10.0.0.0/8"; ipb_except := ["10.1.0.0/16"] |} |}];
      net_egressTo := []; net_egressPorts := []; net_dnsEgressPeer := None |};
    spec_transport := Some {| tr_tls := Some {| tls_enabled := true; tls_insecureSkipVerify := false;
      tls_caBundleSecret := Some {| secref_name := "ca" |} |} |};
    spec_gateway := None |}.

Definition configWorld : World :=
  {| w_get := fun _ k _ _ => match k return result (obj k) with
                             | KConfigMap => Ok {| cm_meta := newMeta "settings" "ns" None; cm_data := {[ "a" := "1" ]}; cm_binaryData := ∅ |}
                             | KSecret => Ok {| sec_meta := newMeta "ca" "ns" None; sec_data := {[ caBundleKey := "pem" ]} |}
                             | _ => Err (StatusError NotFound "not found")
                             end;
     w_write := None; w_pods := []; w_servers := []; w_list := fun _ _ => []; w_status := None; w_dial := Ok None; w_now := 0 |}.

Lemma accepted_config_sound_witness :
  fst (snd (run_in configWorld (@validateConfigAndResolveWorkload modelVendor storageServer) emptyState)) = Ok None /\
  required_refs storageServer = [(KConfigMap, "settings")] /\
  @accepted modelVendor storageServer (fst (run_in configWorld (@validateConfigAndResolveWorkload modelVendor storageServer) emptyState)) None.
Proof.
  split; [vm_compute; reflexivity|]. split; [reflexivity|].
  refine (@accepted_config_sound modelVendor storageServer emptyState _ _ emptyState _).
  exact (run_in_runs configWorld (@validateConfigAndResolveWorkload modelVendor storageServer) emptyState).
Defined.
