(* ===== verification/ConfigHash.v ===== *)
(** * Configuration hash and watch indexes
    (internal/controller/mcpserver_controller_confighash.go)

    The names of the ConfigMaps and Secrets an MCPServer references, which key the
    watch indexes; the hash of their data, which rolls the pods when it changes; and
    the functions that map watch events to reconcile requests. *)

From Stdlib Require Import Ascii.
From S2P Require Import Prelude K8s ApiAlpha ApiBeta StatusAC Interact Conditions Sha256 Metadata Service.

(** ** Index extractors *)

(** [if !seen[name] { names = append(names, name); seen[name] = true }]: [names] holds
    exactly the names seen. *)
Definition add_name (names : list string) (name : string) : list string :=
  if existsb (fun n => n == name) names then names else names ++ [name].

Definition add_names : list string -> list string -> list string := fold_left add_name.

Definition storageConfigMap (st : StorageMount) : list string :=
  if ss_type (sm_source st) == StorageTypeConfigMap
  then match ss_configMap (sm_source st) with Some cm => [cmv_name cm] | None => [] end else [].

Definition storageSecret (st : StorageMount) : list string :=
  if ss_type (sm_source st) == StorageTypeSecret
  then match ss_secret (sm_source st) with Some sec => [sv_secretName sec] | None => [] end else [].

Definition envFromName (o : option EnvSource) : list string := match o with Some ref => [es_name ref] | None => [] end.
Definition keyRefName (o : option KeySelector) : list string := match o with Some ref => [ks_name ref] | None => [] end.

Definition envConfigMap (e : EnvVar) : list string :=
  match ev_valueFrom e with Some vf => keyRefName (evs_configMapKeyRef vf) | None => [] end.
Definition envSecret (e : EnvVar) : list string :=
  match ev_valueFrom e with Some vf => keyRefName (evs_secretKeyRef vf) | None => [] end.

Definition extractConfigMapNames (mcpServer : MCPServer) : list string :=
  let cfg := spec_config (srv_spec mcpServer) in
  let names1 := add_names (concat (map storageConfigMap (cfg_storage cfg))) [] in
  let names2 := add_names (concat (map (fun e => envFromName (ef_configMapRef e)) (cfg_envFrom cfg))) names1 in
  let names3 := add_names (concat (map envConfigMap (cfg_env cfg))) names2 in
  match spec_gateway (srv_spec mcpServer) with
  | Some gw => if gw_configRef gw != "" then add_name names3 (gw_configRef gw) else names3
  | None => names3
  end.

Definition extractPodSecretNames (mcpServer : MCPServer) : list string :=
  let cfg := spec_config (srv_spec mcpServer) in
  let names1 := add_names (concat (map storageSecret (cfg_storage cfg))) [] in
  let names2 := add_names (concat (map (fun e => envFromName (ef_secretRef e)) (cfg_envFrom cfg))) names1 in
  add_names (concat (map envSecret (cfg_env cfg))) names2.

Definition caBundleName (mcpServer : MCPServer) : option string :=
  match spec_transport (srv_spec mcpServer) with
  | Some {| tr_tls := Some {| tls_caBundleSecret := Some ref |} |} => Some (secref_name ref)
  | _ => None
  end.

Definition extractSecretNames (mcpServer : MCPServer) : list string :=
  let secrets := extractPodSecretNames mcpServer in
  match caBundleName mcpServer with
  | Some name => add_name secrets name
  | None => secrets
  end.

Definition extractWorkloadRefNames (mcpServer : MCPServer) : list string :=
  match spec_workloadRef (srv_spec mcpServer) with Some ref => [wr_name ref] | None => [] end.

Definition extractServiceRefNames (mcpServer : MCPServer) : list string :=
  match spec_serviceRef (srv_spec mcpServer) with Some ref => [sr_name ref] | None => [] end.

(** ** The hash *)

Definition sort_strings (l : list string) : list string := merge_sort String.le l.

Definition keys_of (m : gmap string string) : list string := map fst (map_to_list m).

Definition NUL : string := String (strings.chr 0) "".

(** What is fed to the hash for one ConfigMap and for one Secret. *)
Definition configMapStream (name : string) (cm : ConfigMap) : string :=
  fold_left (fun h k => h +:+ "configmap/" +:+ name +:+ "/" +:+ k +:+ "=" +:+
                        (match cm_data cm !! k with Some v => v | None => default "" (cm_binaryData cm !! k) end) +:+ NUL)
    (sort_strings (keys_of (cm_data cm) ++ keys_of (cm_binaryData cm))) "".

Definition secretStream (name : string) (secret : Secret) : string :=
  fold_left (fun h k => h +:+ "secret/" +:+ name +:+ "/" +:+ k +:+ "=" +:+ default "" (sec_data secret !! k) +:+ NUL)
    (sort_strings (keys_of (sec_data secret))) "".

(** One loop over referenced objects: the bytes written and whether any object was
    found; a missing object is skipped, any other error ends the loop. *)
Fixpoint hashObjects (k : kind) (stream : string -> obj k -> string) (namespace : string) (names : list string)
    (h : string) (dataWritten : bool) : M (result (string * bool)) :=
  match names with
  | [] => mret (Ok (h, dataWritten))
  | name :: names' =>
      got ← call (CGet Direct k namespace name);
      match got with
      | Err e => if IsNotFound e then hashObjects k stream namespace names' h dataWritten else mret (Err e)
      | Ok o => hashObjects k stream namespace names' (h +:+ stream name o) true
      end
  end.

Definition computeConfigHash (mcpServer : MCPServer) : M (result string) :=
  let configMapNames := extractConfigMapNames mcpServer in
  let secretNames := extractPodSecretNames mcpServer in
  if (List.length configMapNames =? 0)%nat && (List.length secretNames =? 0)%nat then mret (Ok "")
  else
    let ns := om_namespace (srv_meta mcpServer) in
    r1 ← hashObjects KConfigMap configMapStream ns (sort_strings configMapNames) "" false;
    match r1 with
    | Err e => mret (Err e)
    | Ok hw1 =>
        r2 ← hashObjects KSecret secretStream ns (sort_strings secretNames) (fst hw1) (snd hw1);
        match r2 with
        | Err e => mret (Err e)
        | Ok hw => if snd hw : bool then mret (Ok (sha256.hex (fst hw))) else mret (Ok "")
        end
    end.

Definition configHashAnnotation : string := "mcp.x-k8s.io/config-hash".

Definition with_template_annotations (a : gomap) (d : Deployment) : Deployment :=
  {| dep_meta := dep_meta d; dep_replicas := dep_replicas d; dep_selector := dep_selector d;
     dep_template := {| pt_labels := pt_labels (dep_template d); pt_annotations := a; pt_spec := pt_spec (dep_template d) |};
     dep_observedGeneration := dep_observedGeneration d; dep_readyReplicas := dep_readyReplicas d;
     dep_conditions := dep_conditions d |}.

Definition applyConfigHash (mcpServer : MCPServer) (deployment : Deployment) : M (result Deployment) :=
  r ← computeConfigHash mcpServer;
  match r with
  | Err e => mret (Err e)
  | Ok configHash =>
      if configHash != ""
      then mret (Ok (with_template_annotations
                       (setKey configHashAnnotation configHash (orMake (pt_annotations (dep_template deployment)))) deployment))
      else mret (Ok deployment)
  end.

(** ** Watch mapping *)

Definition Request : Type := string * string.

Definition requestFor (srv : MCPServer) : Request := (om_namespace (srv_meta srv), om_name (srv_meta srv)).

Definition findMCPServersForResource (resourceName namespace indexKey : string) : M (list Request) :=
  got ← call (CListMCPServers namespace indexKey resourceName);
  match got with
  | Err _ => mret []
  | Ok items => mret (map requestFor items)
  end.

Definition configMapIndexKey : string := "spec.configMapRefs".
Definition secretIndexKey : string := "spec.secretRefs".
Definition workloadRefIndexKey : string := "spec.workloadRef".
Definition serviceRefIndexKey : string := "spec.serviceRef".

Definition findMCPServersForConfigMap (o : ObjectMeta) := findMCPServersForResource (om_name o) (om_namespace o) configMapIndexKey.
Definition findMCPServersForSecret (o : ObjectMeta) := findMCPServersForResource (om_name o) (om_namespace o) secretIndexKey.
Definition findMCPServersForWorkload (o : ObjectMeta) := findMCPServersForResource (om_name o) (om_namespace o) workloadRefIndexKey.
Definition findMCPServersForBYOService (o : ObjectMeta) := findMCPServersForResource (om_name o) (om_namespace o) serviceRefIndexKey.

Definition findMCPServersForPod (pod : ObjectMeta) : list Request :=
  match mget (om_labels pod) LabelKeyMCPServer with
  | Some name => if name == "" then [] else [(om_namespace pod, name)]
  | None => []
  end.

(** ** Facts about the extractors *)

Lemma add_name_In names n x : In x (add_name names n) <-> In x names \/ x = n.
Proof.
  unfold add_name. destruct (existsb _ names) eqn:E.
  - apply existsb_exists in E as (y & Hy & He%bool_decide_eq_true). subst. intuition congruence.
  - rewrite in_app_iff. cbn. intuition.
Qed.

Lemma add_name_NoDup names n : NoDup names -> NoDup (add_name names n).
Proof.
  intros H. unfold add_name. destruct (existsb _ names) eqn:E; [done|]. apply NoDup_app. split_and!; [done| |apply NoDup_singleton].
  intros x Hx [->|[]%elem_of_nil]%elem_of_cons. apply not_true_iff_false in E. apply E, existsb_exists.
  exists n. split; [by apply list_elem_of_In|by apply bool_decide_eq_true].
Qed.

Lemma add_names_In l names x : In x (add_names l names) <-> In x names \/ In x l.
Proof.
  unfold add_names. revert names. induction l as [|n l IH]; intros names; cbn; [tauto|].
  rewrite IH, add_name_In. intuition.
Qed.

Lemma add_names_NoDup l names : NoDup names -> NoDup (add_names l names).
Proof. revert names. induction l as [|n l IH]; intros names H; cbn; [done|]. by apply IH, add_name_NoDup. Qed.

Lemma extractConfigMapNames_NoDup srv : NoDup (extractConfigMapNames srv).
Proof.
  unfold extractConfigMapNames. assert (NoDup (@nil string)) by constructor.
  destruct (spec_gateway _); [case_match; [apply add_name_NoDup|]|]; by repeat apply add_names_NoDup.
Qed.

Lemma extractPodSecretNames_NoDup srv : NoDup (extractPodSecretNames srv).
Proof. unfold extractPodSecretNames. repeat apply add_names_NoDup. constructor. Qed.

(** ** Order independence *)

#[export] Instance string_le_antisymm : AntiSymm (=) String.le.
Proof. apply _. Qed.

Lemma sort_strings_perm l l' : l ≡ₚ l' -> sort_strings l = sort_strings l'.
Proof.
  intros H. apply (Sorted_unique String.le); [apply Sorted_merge_sort, _|apply Sorted_merge_sort, _|].
  unfold sort_strings. by rewrite !merge_sort_Permutation.
Qed.

Lemma NoDup_same_elements {A} (l l' : list A) : NoDup l -> NoDup l' -> (forall x, In x l <-> In x l') -> l ≡ₚ l'.
Proof. intros H H' Hx. apply NoDup_Permutation; [done..|]. intros x. rewrite !list_elem_of_In. apply Hx. Qed.

(** The configuration hash depends only on which objects are referenced and on
    their data: servers of one namespace that reference the same ConfigMaps and the
    same pod Secrets, in any order and with any repetition, run the same hash
    computation, call for call. *)
Theorem config_hash_order_independent srv1 srv2 s :
  om_namespace (srv_meta srv1) = om_namespace (srv_meta srv2) ->
  (forall n, In n (extractConfigMapNames srv1) <-> In n (extractConfigMapNames srv2)) ->
  (forall n, In n (extractPodSecretNames srv1) <-> In n (extractPodSecretNames srv2)) ->
  computeConfigHash srv1 s = computeConfigHash srv2 s.
Proof.
  intros Hns Hc Hs.
  assert (Pc : extractConfigMapNames srv1 ≡ₚ extractConfigMapNames srv2)
    by (apply NoDup_same_elements; [apply extractConfigMapNames_NoDup..|done]).
  assert (Ps : extractPodSecretNames srv1 ≡ₚ extractPodSecretNames srv2)
    by (apply NoDup_same_elements; [apply extractPodSecretNames_NoDup..|done]).
  unfold computeConfigHash.
  by rewrite Hns, (Permutation_length Pc), (Permutation_length Ps), (sort_strings_perm _ _ Pc), (sort_strings_perm _ _ Ps).
Qed.

Definition envServer (names : list string) : MCPServer :=
  serverWith {| spec_extraLabels := None; spec_extraAnnotations := None; spec_workloadRef := None; spec_serviceRef := None;
    spec_source := spec_source sampleSpec;
    spec_config := {| cfg_port := 8080; cfg_arguments := []; cfg_env := [];
      cfg_envFrom := map (fun n => {| ef_prefix := ""; ef_configMapRef := Some {| es_name := n; es_optional := None |}; ef_secretRef := None |}) names;
      cfg_storage := []; cfg_path := "" |};
    spec_runtime := zeroRuntime; spec_mcp := {| mcp_stateless := None |}; spec_network := None;
    spec_transport := None; spec_gateway := None |}.

Lemma config_hash_order_independent_witness :
  computeConfigHash (envServer ["b"; "a"; "b"]) emptyState = computeConfigHash (envServer ["a"; "b"]) emptyState.
Proof.
  apply config_hash_order_independent; [reflexivity| |]; intros n; vm_compute; tauto.
Defined.

(** The bytes fed to the hash do not determine the data: a value may contain the
    terminator, so a ConfigMap with one entry and one with two can be hashed alike
    (and the pods would not be rolled). *)
Theorem config_hash_stream_ambiguous :
  exists cm1 cm2, cm_data cm1 <> cm_data cm2 /\ cm_binaryData cm1 = ∅ /\ cm_binaryData cm2 = ∅ /\
    configMapStream "cm" cm1 = configMapStream "cm" cm2 /\ configMapStream "cm" cm1 <> "".
Proof.
  exists {| cm_meta := newMeta "cm" "ns" None; cm_binaryData := ∅; cm_data := {[ "a" := "1" +:+ NUL +:+ "configmap/cm/b=2" ]} |},
         {| cm_meta := newMeta "cm" "ns" None; cm_binaryData := ∅; cm_data := {[ "a" := "1"; "b" := "2" ]} |}.
  split; [intros H; apply (f_equal size) in H; vm_compute in H; discriminate|].
  split; [done|]. split; [done|]. split; [vm_compute; reflexivity|]. vm_compute. discriminate.
Qed.

(** ** Reads that a watch covers *)

(** The kinds of object the operator owns. *)
Definition ownedKinds : list kind := [KDeployment; KService; KNetworkPolicy; KBinding].

(** Every uncached read of a dependency names an object whose changes the watch
    indexes map back to the MCPServer, and every cached one an object of an owned kind. *)
Definition indexed_read (srv : MCPServer) (c : Call) : Prop :=
  match c with
  | CGet rd KConfigMap ns name =>
      rd = Direct /\ ns = om_namespace (srv_meta srv) /\ In name (extractConfigMapNames srv)
  | CGet rd KSecret ns name =>
      rd = Direct /\ ns = om_namespace (srv_meta srv) /\ In name (extractSecretNames srv)
  | CGet Direct (KDeployment | KDaemonSet | KStatefulSet) ns name =>
      ns = om_namespace (srv_meta srv) /\ In name (extractWorkloadRefNames srv)
  | CGet Direct KService ns name =>
      ns = om_namespace (srv_meta srv) /\ In name (extractServiceRefNames srv)
  | CGet Direct _ _ _ => False
  | CGet Cached k _ _ => In k ownedKinds
  | CList _ _ | CListMCPServers _ _ _ => False
  | _ => True
  end.

Lemma podSecret_indexed srv n : In n (extractPodSecretNames srv) -> In n (extractSecretNames srv).
Proof. unfold extractSecretNames. intros H. destruct (caBundleName srv); [|done]. apply add_name_In. auto. Qed.

Lemma caBundle_indexed srv n : caBundleName srv = Some n -> In n (extractSecretNames srv).
Proof. unfold extractSecretNames. intros ->. apply add_name_In. auto. Qed.

Lemma sort_strings_In l x : In x (sort_strings l) <-> In x l.
Proof. unfold sort_strings. rewrite <- !list_elem_of_In. by rewrite merge_sort_Permutation. Qed.

Lemma hashObjects_calls (P : Call -> Prop) k stream ns names h w :
  (forall n, In n names -> P (CGet Direct k ns n)) -> mcalls P (hashObjects k stream ns names h w).
Proof.
  revert h w. induction names as [|n names IH]; intros h w H; cbn [hashObjects]; [apply mcalls_ret|].
  apply mcalls_bind; [apply mcalls_call, H; by left|]. intros [o|e].
  - apply IH. intros n' Hn. apply H. by right.
  - destruct (IsNotFound e); [|apply mcalls_ret]. apply IH. intros n' Hn. apply H. by right.
Qed.

Lemma computeConfigHash_calls (P : Call -> Prop) srv :
  (forall n, In n (extractConfigMapNames srv) -> P (CGet Direct KConfigMap (om_namespace (srv_meta srv)) n)) ->
  (forall n, In n (extractPodSecretNames srv) -> P (CGet Direct KSecret (om_namespace (srv_meta srv)) n)) ->
  mcalls P (computeConfigHash srv).
Proof.
  intros Hc Hs. unfold computeConfigHash. destruct (_ && _); [apply mcalls_ret|].
  apply mcalls_bind.
  { apply hashObjects_calls. intros n Hn. apply Hc. by apply sort_strings_In. }
  intros [hw|e]; [|apply mcalls_ret]. apply mcalls_bind.
  { apply hashObjects_calls. intros n Hn. apply Hs. by apply sort_strings_In. }
  intros [hw2|e]; [|apply mcalls_ret]. destruct (snd hw2); apply mcalls_ret.
Qed.

Lemma applyConfigHash_calls (P : Call -> Prop) srv d :
  (forall n, In n (extractConfigMapNames srv) -> P (CGet Direct KConfigMap (om_namespace (srv_meta srv)) n)) ->
  (forall n, In n (extractPodSecretNames srv) -> P (CGet Direct KSecret (om_namespace (srv_meta srv)) n)) ->
  mcalls P (applyConfigHash srv d).
Proof.
  intros Hc Hs. apply mcalls_bind; [by apply computeConfigHash_calls|]. intros [h|e]; [|apply mcalls_ret].
  destruct (h != ""); apply mcalls_ret.
Qed.

(** The names in the index, by where they are referenced. *)
Lemma configMap_indexed srv n :
  (In n (concat (map storageConfigMap (cfg_storage (spec_config (srv_spec srv))))) \/
   In n (concat (map (fun e => envFromName (ef_configMapRef e)) (cfg_envFrom (spec_config (srv_spec srv))))) \/
   In n (concat (map envConfigMap (cfg_env (spec_config (srv_spec srv))))) \/
   (exists gw, spec_gateway (srv_spec srv) = Some gw /\ gw_configRef gw = n /\ n <> "")) ->
  In n (extractConfigMapNames srv).
Proof.
  unfold extractConfigMapNames. intros H. destruct (spec_gateway (srv_spec srv)) as [gw|].
  - destruct (gw_configRef gw != "") eqn:E; [rewrite add_name_In|]; rewrite !add_names_In;
      destruct H as [?|[?|[?|(g & [= <-] & <- & Hne)]]]; auto.
    by rewrite bool_decide_eq_false_2 in E.
  - rewrite !add_names_In. destruct H as [?|[?|[?|(g & [=] & _)]]]; auto.
Qed.

Lemma secret_indexed srv n :
  (In n (concat (map storageSecret (cfg_storage (spec_config (srv_spec srv))))) \/
   In n (concat (map (fun e => envFromName (ef_secretRef e)) (cfg_envFrom (spec_config (srv_spec srv))))) \/
   In n (concat (map envSecret (cfg_env (spec_config (srv_spec srv)))))) ->
  In n (extractSecretNames srv).
Proof.
  intros H. apply podSecret_indexed. unfold extractPodSecretNames. rewrite !add_names_In. tauto.
Qed.
