(* ===== verification/Deployment.v ===== *)
(** * The managed Deployment (internal/controller/mcpserver_controller_deployment.go)

    Building the Deployment from the spec, deciding whether the existing one differs,
    and creating, updating or adopting it. *)

From Stdlib Require Import Ascii.
From S2P Require Import Prelude K8s ApiAlpha ApiBeta StatusAC Interact Conditions AuditLog Ownership GoJSON Metadata Service ConfigHash.

(** ** Defaults *)

Definition defaultContainerSecurityContext : SecurityContext :=
  {| sc_privileged := None; sc_allowPrivilegeEscalation := Some false; sc_readOnlyRootFilesystem := Some true;
     sc_runAsNonRoot := Some true; sc_runAsUser := None;
     sc_capabilities := Some {| cap_add := []; cap_drop := ["ALL"] |};
     sc_seccompProfile := Some "RuntimeDefault"; sc_other := "" |}.

(** 50m CPU and 64Mi of memory requested, 500m and 256Mi at most. *)
Definition defaultContainerResources : ResourceRequirements :=
  {| rr_requests := {[ "cpu" := 50; "memory" := 64 * 2 ^ 20 * 1000 ]};
     rr_limits := {[ "cpu" := 500; "memory" := 256 * 2 ^ 20 * 1000 ]} |}.

(** [if x == 0 { x = d }] *)
Definition orDefault (d x : Z) : Z := if x =? 0 then d else x.

Definition withProbeDefaults (probe : Probe) : Probe :=
  {| pr_tcpSocket := pr_tcpSocket probe; pr_initialDelaySeconds := pr_initialDelaySeconds probe;
     pr_timeoutSeconds := orDefault 1 (pr_timeoutSeconds probe); pr_periodSeconds := orDefault 10 (pr_periodSeconds probe);
     pr_successThreshold := orDefault 1 (pr_successThreshold probe);
     pr_failureThreshold := orDefault 3 (pr_failureThreshold probe); pr_other := pr_other probe |}.

Definition defaultMCPReadinessProbe (port : Z) : Probe :=
  withProbeDefaults {| pr_tcpSocket := Some (IntVal port); pr_initialDelaySeconds := 0; pr_timeoutSeconds := 0;
                       pr_periodSeconds := 0; pr_successThreshold := 0; pr_failureThreshold := 0; pr_other := "" |}.

(** ** Storage *)

Definition volumeName (i : Z) : string := "vol-" +:+ fmt.d i.

Definition storageMountOf (i : Z) (storage : StorageMount) : VolumeMount :=
  let permissions := if sm_permissions storage == "" then MountPermissionsReadOnly else sm_permissions storage in
  {| vm_name := volumeName i; vm_mountPath := sm_path storage;
     vm_readOnly := (permissions == MountPermissionsReadOnly) || (permissions == MountPermissionsRecursiveReadOnly);
     vm_recursiveReadOnly := if permissions == MountPermissionsRecursiveReadOnly then Some "Enabled" else None;
     vm_other := "" |}.

Definition storageVolumeOf (i : Z) (storage : StorageMount) : Volume :=
  let src := sm_source storage in
  {| vol_name := volumeName i;
     vol_configMap := if ss_type src == StorageTypeConfigMap then ss_configMap src else None;
     vol_secret := if ss_type src == StorageTypeSecret then ss_secret src else None;
     vol_emptyDir := if ss_type src == StorageTypeEmptyDir then ss_emptyDir src else None;
     vol_other := "" |}.

Fixpoint indexed {A B} (f : Z -> A -> B) (l : list A) (i : Z) : list B :=
  match l with [] => [] | x :: l' => f i x :: indexed f l' (i + 1) end.

Definition processStorageMounts (mcpServer : MCPServer) : list Volume * list VolumeMount :=
  let storage := cfg_storage (spec_config (srv_spec mcpServer)) in
  (indexed storageVolumeOf storage 0, indexed storageMountOf storage 0).

(** ** Building the Deployment *)

Definition tlsEnvVarOverridden (name : string) (tlsVars : list EnvVar) : bool :=
  existsb (fun v => ev_name v == name) tlsVars.

Definition createDeployment (r : MCPServerReconciler) (mcpServer : MCPServer) : result Deployment :=
  let spec := srv_spec mcpServer in
  let name := om_name (srv_meta mcpServer) in
  if src_type (spec_source spec) == SourceTypeContainerImage then
    match src_containerImage (spec_source spec) with
    | None => Err (Errorf "containerImage must be set when source type is ContainerImage")
    | Some image =>
        let cfg := spec_config spec in
        let rt := spec_runtime spec in
        let '(volumes, volumeMounts) := processStorageMounts mcpServer in
        let container :=
          {| ct_name := ManagedWorkloadName; ct_image := ci_ref image; ct_imagePullPolicy := ci_pullPolicy image;
             ct_args := cfg_arguments cfg;
             ct_env := List.filter (fun e => negb (tlsEnvVarOverridden (ev_name e) (TLSEnvVars r))) (cfg_env cfg) ++ TLSEnvVars r;
             ct_envFrom := cfg_envFrom cfg;
             ct_ports := [{| cp_name := mcpPortName; cp_containerPort := cfg_port cfg; cp_protocol := "TCP"; cp_other := "" |}];
             ct_securityContext := match sec_securityContext (rt_security rt) with
                                   | Some sc => Some sc
                                   | None => Some defaultContainerSecurityContext
                                   end;
             ct_resources := default defaultContainerResources (rt_resources rt);
             ct_livenessProbe := option_map withProbeDefaults (h_livenessProbe (rt_health rt));
             ct_readinessProbe := match h_readinessProbe (rt_health rt) with
                                  | Some p => Some (withProbeDefaults p)
                                  | None => Some (defaultMCPReadinessProbe (cfg_port cfg))
                                  end;
             ct_volumeMounts := volumeMounts |} in
        Ok {| dep_meta := newMeta name (om_namespace (srv_meta mcpServer)) (Some (managedWorkloadLabels name));
              dep_replicas := Some (default 1 (rt_replicas rt));
              dep_selector := Some {| ls_matchLabels := managedWorkloadSelector name; ls_matchExpressions := [] |};
              dep_template :=
                {| pt_labels := Some (managedWorkloadLabels name); pt_annotations := None;
                   pt_spec := {| ps_containers := [container]; ps_imagePullSecrets := ci_imagePullSecrets image;
                                 ps_volumes := volumes; ps_serviceAccountName := sec_serviceAccountName (rt_security rt);
                                 ps_securityContext := match sec_podSecurityContext (rt_security rt) with
                                                       | Some c => Some c
                                                       | None => Some {| psc_runAsNonRoot := None; psc_runAsUser := None; psc_other := "" |}
                                                       end;
                                 ps_other := "" |} |};
              dep_observedGeneration := 0; dep_readyReplicas := 0; dep_conditions := [] |}
    end
  else Err (Errorf ("unsupported source type: " +:+ src_type (spec_source spec))).

(** ** Comparing *)

Definition PullAlways : string := "Always".
Definition PullIfNotPresent : string := "IfNotPresent".

Definition defaultImagePullPolicy (image : string) : string :=
  if strings.Contains image "@" then PullIfNotPresent
  else
    let lastSlash := strings.LastIndexByte image "/"%char in
    let lastColon := strings.LastIndexByte image ":"%char in
    if (lastColon <=? lastSlash) || strings.HasSuffix image ":latest" then PullAlways else PullIfNotPresent.

Definition imagePullPolicyNeedsUpdate (existing desired : Container) : bool :=
  if ct_imagePullPolicy desired != "" then ct_imagePullPolicy existing != ct_imagePullPolicy desired
  else if ct_imagePullPolicy existing == "" then false
  else ct_imagePullPolicy existing != defaultImagePullPolicy (ct_image desired).

(** [nil] and empty lists are one value here. *)
Definition sameImagePullSecrets (existing desired : list string) : bool := existing == desired.

Section with_vendor.
Context `{V : Vendor}.

Definition deploymentNeedsUpdate (mcpServer : MCPServer) (existing desired : Deployment) (ownerChanged : bool) : bool :=
  let oldPodSpec := pt_spec (dep_template existing) in
  let newPodSpec := pt_spec (dep_template desired) in
  match ps_containers oldPodSpec, ps_containers newPodSpec with
  | [], _ => true
  | _, [] => false
  | old :: _, new :: _ =>
      negb (DeepDerivative newPodSpec oldPodSpec)
      || imagePullPolicyNeedsUpdate old new
      || negb (sameImagePullSecrets (ps_imagePullSecrets oldPodSpec) (ps_imagePullSecrets newPodSpec))
      || (ct_args old != ct_args new)
      || (ct_env old != ct_env new)
      || (ct_envFrom old != ct_envFrom new)
      || (ps_securityContext oldPodSpec != ps_securityContext newPodSpec)
      || (ps_volumes oldPodSpec != ps_volumes newPodSpec)
      || (ct_volumeMounts old != ct_volumeMounts new)
      || (ct_resources old != ct_resources new)
      || (ct_ports old != ct_ports new)
      || (ct_securityContext old != ct_securityContext new)
      || (ct_livenessProbe old != ct_livenessProbe new)
      || (ct_readinessProbe old != ct_readinessProbe new)
      || (ps_serviceAccountName oldPodSpec != ps_serviceAccountName newPodSpec)
      || (dep_replicas existing != dep_replicas desired)
      || (view (pt_labels (dep_template existing)) != view (pt_labels (dep_template desired)))
      || (view (pt_annotations (dep_template existing)) != view (pt_annotations (dep_template desired)))
      || deploymentAnnotationsChanged mcpServer existing
      || deploymentLabelsChanged mcpServer existing
      || ownerChanged
  end.

Definition with_dep_meta (m : ObjectMeta) (d : Deployment) : Deployment :=
  {| dep_meta := m; dep_replicas := dep_replicas d; dep_selector := dep_selector d; dep_template := dep_template d;
     dep_observedGeneration := dep_observedGeneration d; dep_readyReplicas := dep_readyReplicas d;
     dep_conditions := dep_conditions d |}.

(** The existing Deployment with the desired replicas and pod template. *)
Definition withDesired (desired existing : Deployment) : Deployment :=
  {| dep_meta := dep_meta existing; dep_replicas := dep_replicas desired; dep_selector := dep_selector existing;
     dep_template := dep_template desired; dep_observedGeneration := dep_observedGeneration existing;
     dep_readyReplicas := dep_readyReplicas existing; dep_conditions := dep_conditions existing |}.

Definition reconcileDeployment (r : MCPServerReconciler) (mcpServer : MCPServer) : M (result Deployment) :=
  match createDeployment r mcpServer with
  | Err e => mret (Err e)
  | Ok deployment0 =>
    match setController mcpServer (dep_meta deployment0) with
    | Err e => mret (Err e)
    | Ok m =>
      hashed ← applyConfigHash mcpServer (with_dep_meta m deployment0);
      match hashed with
      | Err e => mret (Err e)
      | Ok deployment =>
        got ← call (CGet Cached KDeployment (om_namespace (dep_meta deployment)) (om_name (dep_meta deployment)));
        match got with
        | Err e =>
            if IsNotFound e then
              match applyCustomDeploymentMetadata mcpServer deployment with
              | Err e' => mret (Err (Wrap "applying custom metadata failed; " e'))
              | Ok d => call (CCreate KDeployment d)
              end
            else mret (Err e)
        | Ok existing =>
            owned ← validateOwnership r KDeployment (dep_meta existing) mcpServer;
            match owned with
            | Some e => mret (Err e)
            | None =>
              match setController mcpServer (dep_meta existing) with
              | Err e => mret (Err e)
              | Ok m1 =>
                let existing1 := with_dep_meta m1 existing in
                if deploymentNeedsUpdate mcpServer existing1 deployment (ownershipChanged (dep_meta existing) m1) then
                  match applyCustomDeploymentMetadata mcpServer (withDesired deployment existing1) with
                  | Err e => mret (Err (Wrap "applying custom metadata failed; " e))
                  | Ok d =>
                      updated ← call (CUpdate KDeployment d);
                      match updated with
                      | Err e => mret (Err e)
                      | Ok stored => call (CGet Cached KDeployment (om_namespace (dep_meta stored)) (om_name (dep_meta stored)))
                      end
                  end
                else mret (Ok existing1)
              end
            end
        end
      end
    end
  end.

End with_vendor.

(** ** Metadata of a Deployment *)

Lemma applyCustomDeployment_inv srv d d' :
  applyCustomDeploymentMetadata srv d = Ok d' ->
  applyCustomObjectMetadata srv (dep_meta d) = Ok (dep_meta d') /\
  exists curL curA,
    recorded managedExtraLabels (om_annotations (dep_meta d)) = Ok curL /\
    recorded managedExtraAnnotations (om_annotations (dep_meta d)) = Ok curA /\
    d' = {| dep_meta := dep_meta d'; dep_replicas := dep_replicas d; dep_selector := dep_selector d;
            dep_template := {| pt_labels := refresh (Some curL) (effL srv) (pt_labels (dep_template d));
                               pt_annotations := refresh (Some curA) (effA srv) (pt_annotations (dep_template d));
                               pt_spec := pt_spec (dep_template d) |};
            dep_observedGeneration := dep_observedGeneration d; dep_readyReplicas := dep_readyReplicas d;
            dep_conditions := dep_conditions d |}.
Proof.
  unfold applyCustomDeploymentMetadata. intros H.
  destruct (applyCustomObjectMetadata srv (dep_meta d)) as [m|] eqn:Em; [|done].
  pose proof (applyCustom_inv _ _ _ Em) as (curL & curA & HL & HA & _).
  assert (HA' : recorded managedExtraAnnotations (om_annotations (dep_meta d)) = Ok curA).
  { unfold unrecorded in HA. case_bool_decide; [done|].
    unfold recorded, mget in HA. rewrite deleteKey_lookup, decide_False in HA by done. done. }
  rewrite HL, HA' in H. injection H as <-. split; [done|]. exists curL, curA. done.
Qed.

Lemma refresh_empty old eff m : view eff = ∅ -> view old = ∅ -> refresh old eff m = m.
Proof.
  intros He Ho. unfold refresh, mlen. by rewrite He, Ho, bool_decide_eq_true_2, map_size_empty by done.
Qed.

(** ** Write discipline *)

Section discipline.
Context `{V : Vendor} {L : VendorLaws V}.

Lemma applyConfigHash_meta srv d s (Q : list event -> result Deployment -> RState -> Prop) :
  (forall tr d', dep_meta d' = dep_meta d -> Q tr (Ok d') s) -> (forall tr e, Q tr (Err e) s) ->
  mwp (computeConfigHash srv) s (fun tr _ s' => s' = s) ->
  mwp (applyConfigHash srv d) s Q.
Proof.
  intros H1 H2 Hc. apply mwp_bind. eapply mwp_mono; [exact Hc|]. intros tr [h|e] s' ->; [|apply mwp_ret, H2].
  destruct (h != ""); apply mwp_ret, H1; done.
Qed.

Lemma hashObjects_state k stream ns names h w s : mwp (hashObjects k stream ns names h w) s (fun _ _ s' => s' = s).
Proof.
  revert h w. induction names as [|n names IH]; intros h w; cbn [hashObjects]; [by apply mwp_ret|].
  apply mwp_bind, mwp_call. intros [o|e]; [apply IH|]. destruct (IsNotFound e); [apply IH|by apply mwp_ret].
Qed.

Lemma computeConfigHash_state srv s : mwp (computeConfigHash srv) s (fun _ _ s' => s' = s).
Proof.
  unfold computeConfigHash. destruct (_ && _); [by apply mwp_ret|].
  apply mwp_bind. eapply mwp_mono; [apply hashObjects_state|]. intros tr [hw|e] s' ->; [|by apply mwp_ret].
  apply mwp_bind. eapply mwp_mono; [apply hashObjects_state|]. intros tr2 [hw2|e] s2 ->; [|by apply mwp_ret].
  destruct (snd hw2); by apply mwp_ret.
Qed.

Lemma createDeployment_namespace r srv d : createDeployment r srv = Ok d ->
  om_namespace (dep_meta d) = om_namespace (srv_meta srv) /\ om_name (dep_meta d) = om_name (srv_meta srv).
Proof. unfold createDeployment. intros H. repeat case_match; simplify_eq; done. Qed.

Lemma reconcileDeployment_managed r srv : mguard (managed_write srv) (reconcileDeployment r srv).
Proof.
  unfold reconcileDeployment. destruct (createDeployment r srv) as [d0|] eqn:Ed; [|done].
  destruct (setController srv (dep_meta d0)) as [m|] eqn:Em; [|done]. intros s h.
  apply guard_bind_mwp.
  { eapply mguard_calls; [apply managed_no_write|]. by apply applyConfigHash_calls. }
  apply applyConfigHash_meta; [| |apply computeConfigHash_state]; [|done]. intros tr d Hd. cbn in Hd.
  apply guard_call; [done|]. intros [ex|e].
  - apply guard_validateOwnership; [|done]. intros Hman s'.
    destruct (setController srv (dep_meta ex)) as [m1|] eqn:E1; [|done].
    destruct (deploymentNeedsUpdate _ _ _ _); [|done].
    destruct (applyCustomDeploymentMetadata _ _) as [d2|] eqn:E2; [|done].
    apply guard_call; [|intros [stored|]; done].
    apply applyCustomDeployment_inv in E2 as [E2 _].
    eapply managed_update; [done|exact Hman|exact E1|]. by apply applyCustom_same_version in E2.
  - destruct (IsNotFound e) eqn:Ee; [|done].
    destruct (applyCustomDeploymentMetadata _ _) as [d2|] eqn:E2; [|done].
    split; [|done]. apply applyCustomDeployment_inv in E2 as [E2 _]. rewrite Hd in *.
    eapply managed_create; [done| |exact Em|exact E2|done]. by apply createDeployment_namespace in Ed as [? _].
Qed.

End discipline.

(** ** What is built *)

Section built.

Lemma indexed_map {A B C} (g : B -> C) (f : Z -> A -> B) l i :
  map g (indexed f l i) = indexed (fun i x => g (f i x)) l i.
Proof. revert i. induction l as [|x l IH]; intros i; cbn; [done|]. by rewrite IH. Qed.

Lemma indexed_const {A B} (f : A -> B) l i : indexed (fun _ x => f x) l i = map f l.
Proof. revert i. induction l as [|x l IH]; intros i; cbn; [done|]. by rewrite IH. Qed.

Lemma indexed_elem {A B} (f : Z -> A -> B) l i y :
  In y (indexed f l i) -> exists j x, i <= j < i + Z.of_nat (List.length l) /\ In x l /\ y = f j x.
Proof.
  revert i. induction l as [|x l IH]; intros i; cbn; [done|]. intros [<-|H].
  - exists i, x. split; [lia|]. auto.
  - apply IH in H as (j & z & ? & ? & ->). exists j, z. split; [lia|]. auto.
Qed.

Lemma volumeName_inj i j : volumeName i = volumeName j -> i = j.
Proof. unfold volumeName. cbn. intros [= H]. by apply fmt_d_inj. Qed.

Lemma volumeNames_NoDup {A} (l : list A) i : NoDup (indexed (fun i _ => volumeName i) l i).
Proof.
  revert i. induction l as [|x l IH]; intros i; cbn; constructor; [|done].
  rewrite list_elem_of_In. intros H. apply indexed_elem in H as (j & z & ? & ? & H). apply volumeName_inj in H. lia.
Qed.

Definition probe_timed (p : Probe) : Prop :=
  pr_timeoutSeconds p <> 0 /\ pr_periodSeconds p <> 0 /\ pr_successThreshold p <> 0 /\ pr_failureThreshold p <> 0.

Lemma withProbeDefaults_timed p : probe_timed (withProbeDefaults p).
Proof. unfold probe_timed, withProbeDefaults, orDefault. cbn. split_and!; case_match; lia. Qed.

Lemma withProbeDefaults_idem p : withProbeDefaults (withProbeDefaults p) = withProbeDefaults p.
Proof.
  unfold withProbeDefaults, orDefault. cbn. destruct p; cbn. f_equal; repeat case_match; lia.
Qed.

(** The pod mounts each storage entry at its path, from a volume of its own. *)
Definition storage_mounted (srv : MCPServer) (p : PodSpec) (c : Container) : Prop :=
  let storage := cfg_storage (spec_config (srv_spec srv)) in
  NoDup (map vol_name (ps_volumes p)) /\
  map vm_name (ct_volumeMounts c) = map vol_name (ps_volumes p) /\
  map vm_mountPath (ct_volumeMounts c) = map sm_path storage /\
  (forall m, In m (ct_volumeMounts c) -> vm_readOnly m = false ->
     exists st, In st storage /\ sm_path st = vm_mountPath m /\ sm_permissions st <> "" /\
                sm_permissions st <> MountPermissionsReadOnly /\ sm_permissions st <> MountPermissionsRecursiveReadOnly).

(** The operator's TLS variables are the only ones of their names, and every other
    variable of the spec is passed on. *)
Definition tls_env_wins (r : MCPServerReconciler) (srv : MCPServer) (c : Container) : Prop :=
  (forall e, In e (TLSEnvVars r) -> In e (ct_env c)) /\
  (forall e v, In e (ct_env c) -> In v (TLSEnvVars r) -> ev_name v = ev_name e -> In e (TLSEnvVars r)) /\
  (forall e, In e (cfg_env (spec_config (srv_spec srv))) -> In e (ct_env c) \/ exists v, In v (TLSEnvVars r) /\ ev_name v = ev_name e).

(** Unless the user chose a security context: no privilege escalation, no
    capabilities, a read-only root, not root, the runtime's seccomp profile. *)
Definition restricted_by_default (srv : MCPServer) (c : Container) : Prop :=
  sec_securityContext (rt_security (spec_runtime (srv_spec srv))) = None ->
  exists sc, ct_securityContext c = Some sc /\
    sc_privileged sc <> Some true /\ sc_allowPrivilegeEscalation sc = Some false /\
    sc_readOnlyRootFilesystem sc = Some true /\ sc_runAsNonRoot sc = Some true /\
    sc_seccompProfile sc = Some "RuntimeDefault" /\
    exists caps, sc_capabilities sc = Some caps /\ cap_add caps = [] /\ In "ALL" (cap_drop caps).

Lemma processStorageMounts_mounted srv p c :
  ps_volumes p = fst (processStorageMounts srv) -> ct_volumeMounts c = snd (processStorageMounts srv) ->
  storage_mounted srv p c.
Proof.
  intros Hv Hm. unfold storage_mounted. rewrite Hv, Hm. cbn [processStorageMounts fst snd]. rewrite !indexed_map.
  split_and!; [apply volumeNames_NoDup|done|apply (indexed_const sm_path)|].
  intros m Hi Hro. apply indexed_elem in Hi as (j & st & _ & Hst & ->). exists st. cbn in *.
  split_and!; [done..| | |]; intros E; rewrite E in Hro; done.
Qed.

Lemma tls_env_filter r srv c :
  ct_env c = List.filter (fun e => negb (tlsEnvVarOverridden (ev_name e) (TLSEnvVars r)))
               (cfg_env (spec_config (srv_spec srv))) ++ TLSEnvVars r ->
  tls_env_wins r srv c.
Proof.
  intros Hc. unfold tls_env_wins. rewrite Hc. split_and!.
  - intros e He. apply in_or_app. auto.
  - intros e v He Hv Hn. apply in_app_or in He as [He|He]; [|done].
    apply filter_In in He as [_ He]. apply negb_true_iff in He. unfold tlsEnvVarOverridden in He.
    rewrite (proj2 (existsb_exists _ _)) in He; [done|]. exists v. split; [done|]. by apply bool_decide_eq_true.
  - intros e He. destruct (tlsEnvVarOverridden (ev_name e) (TLSEnvVars r)) eqn:E.
    + right. apply existsb_exists in E as (v & Hv & E). apply bool_decide_eq_true in E. eauto.
    + left. apply in_or_app. left. apply filter_In. by rewrite E.
Qed.

(** C32: The pod the operator builds: one container running the spec's image, whose
    selector matches the pod's own labels and the managed Service's selector; storage
    entries mounted from pairwise distinct volumes, writable only on request; the TLS
    environment of the operator taking precedence; restricted privileges unless the
    user chose a security context; and probes whose timings the API server would not
    default. *)
Theorem deployment_built r srv d :
  createDeployment r srv = Ok d ->
  exists image c,
    src_containerImage (spec_source (srv_spec srv)) = Some image /\
    ps_containers (pt_spec (dep_template d)) = [c] /\ ct_image c = ci_ref image /\
    (exists sel, dep_selector d = Some sel /\ ls_matchExpressions sel = [] /\
       ls_matchLabels sel = managedWorkloadSelector (om_name (srv_meta srv)) /\
       ls_matchLabels sel ⊆ view (pt_labels (dep_template d))) /\
    map cp_containerPort (ct_ports c) = [cfg_port (spec_config (srv_spec srv))] /\
    storage_mounted srv (pt_spec (dep_template d)) c /\ tls_env_wins r srv c /\ restricted_by_default srv c /\
    (exists p, ct_readinessProbe c = Some p /\ probe_timed p) /\
    (forall p, ct_livenessProbe c = Some p -> probe_timed p).
Proof.
  unfold createDeployment. intros H.
  destruct (src_type _ == SourceTypeContainerImage); [|done].
  destruct (src_containerImage _) as [image|]; [|done]. injection H as <-.
  eexists image, _. split; [done|]. split; [reflexivity|]. cbn [dep_selector dep_template pt_labels pt_spec ct_image ct_ports ct_readinessProbe ct_livenessProbe].
  split_and!; [done| |done|by apply processStorageMounts_mounted|by apply tls_env_filter| | |].
  - eexists. split_and!; [done..|]. cbn [ls_matchLabels view]. unfold managedWorkloadSelector, managedWorkloadLabels, LabelKeyMCPServer, LabelKeyApp.
    apply map_singleton_subseteq_l. unfold view. reflexivity.
  - intros Hn. cbn [ct_securityContext]. rewrite Hn. eexists. split; [reflexivity|]. split_and!; try done.
    eexists. split_and!; try done. by left.
  - destruct (h_readinessProbe _) as [p|]; eexists; (split; [done|]); apply withProbeDefaults_timed.
  - intros p. destruct (h_livenessProbe _) as [q|]; [|done]. intros [= <-]. apply withProbeDefaults_timed.
Qed.

End built.

(** ** Convergence *)

Ltac in_trace := rewrite ?in_app_iff; cbn [In app]; auto 10.

Section converge.
Context `{V : Vendor} {L : VendorLaws V}.

(** [d] runs the pods that [desired] describes. *)
Definition runs_desired (desired d : Deployment) : Prop :=
  dep_replicas d = dep_replicas desired /\
  exists old olds new,
    ps_containers (pt_spec (dep_template d)) = old :: olds /\ ps_containers (pt_spec (dep_template desired)) = [new] /\
    (ct_image new <> "" -> ct_image old = ct_image new) /\
    ct_args old = ct_args new /\ ct_env old = ct_env new /\ ct_envFrom old = ct_envFrom new /\
    ct_ports old = ct_ports new /\ ct_resources old = ct_resources new /\
    ct_securityContext old = ct_securityContext new /\ ct_volumeMounts old = ct_volumeMounts new /\
    ct_livenessProbe old = ct_livenessProbe new /\ ct_readinessProbe old = ct_readinessProbe new /\
    ps_volumes (pt_spec (dep_template d)) = ps_volumes (pt_spec (dep_template desired)) /\
    ps_securityContext (pt_spec (dep_template d)) = ps_securityContext (pt_spec (dep_template desired)) /\
    ps_serviceAccountName (pt_spec (dep_template d)) = ps_serviceAccountName (pt_spec (dep_template desired)).

Definition controlled_by (srv : MCPServer) (o : ObjectMeta) : Prop :=
  exists ref, GetControllerOf o = Some ref /\ or_uid ref = om_uid (srv_meta srv).

(** The Deployment behind a successful reconcile: created, updated, or read. *)
Definition deployment_outcome (r : MCPServerReconciler) (srv : MCPServer) (tr : list event) : Prop :=
  exists desired d, createDeployment r srv = Ok desired /\ runs_desired desired d /\ controlled_by srv (dep_meta d) /\
    ((exists a, In (Ev (CCreate KDeployment d) (Ok a)) tr) \/ (exists a, In (Ev (CUpdate KDeployment d) (Ok a)) tr) \/
     (exists m, In (Ev (CGet Cached KDeployment (om_namespace (srv_meta srv)) (om_name (srv_meta srv)))
                      (Ok (with_dep_meta m d))) tr /\ ownerUID m = om_uid (srv_meta srv))).

Lemma createDeployment_one r srv d : createDeployment r srv = Ok d ->
  exists c, ps_containers (pt_spec (dep_template d)) = [c].
Proof. unfold createDeployment. intros H. repeat case_match; simplify_eq; by eexists. Qed.

(** Replacing the template keeps what matters. *)
Lemma runs_desired_same desired d :
  (exists c, ps_containers (pt_spec (dep_template desired)) = [c]) ->
  dep_replicas d = dep_replicas desired -> pt_spec (dep_template d) = pt_spec (dep_template desired) ->
  runs_desired desired d.
Proof.
  intros [c Hc] Hr Hp. split; [done|]. rewrite Hp. exists c, [], c. split_and!; done.
Qed.

Lemma up_to_date_runs_desired srv existing desired ch :
  (exists c, ps_containers (pt_spec (dep_template desired)) = [c]) ->
  deploymentNeedsUpdate srv existing desired ch = false -> runs_desired desired existing /\ ch = false.
Proof.
  intros [new Hn] H. unfold deploymentNeedsUpdate in H. rewrite Hn in H.
  destruct (ps_containers (pt_spec (dep_template existing))) as [|old olds] eqn:Ho; [done|].
  rewrite !orb_false_iff in H. destruct_and!. bool_to_prop. repeat match goal with H : negb _ = false |- _ => apply negb_false_iff in H end.
  split; [|done]. split; [done|]. exists old, olds, new. split_and!; try done.
  intros. by eapply DeepDerivative_image.
Qed.

Lemma applyCustomDeployment_keeps srv d d' :
  applyCustomDeploymentMetadata srv d = Ok d' ->
  dep_replicas d' = dep_replicas d /\ pt_spec (dep_template d') = pt_spec (dep_template d) /\
  GetControllerOf (dep_meta d') = GetControllerOf (dep_meta d).
Proof.
  intros H. apply applyCustomDeployment_inv in H as (Hm & curL & curA & _ & _ & ->). cbn. split_and!; try done.
  by apply applyCustom_meta in Hm as (_ & _ & _ & _ & _ & ->).
Qed.

(** What [applyConfigHash] leaves alone. *)
Lemma applyConfigHash_keeps srv d s (Q : list event -> result Deployment -> RState -> Prop) :
  (forall tr d', dep_meta d' = dep_meta d -> dep_replicas d' = dep_replicas d ->
     pt_spec (dep_template d') = pt_spec (dep_template d) -> pt_labels (dep_template d') = pt_labels (dep_template d) ->
     Q tr (Ok d') s) ->
  (forall tr e, Q tr (Err e) s) -> mwp (applyConfigHash srv d) s Q.
Proof.
  intros H1 H2. apply mwp_bind. eapply mwp_mono; [apply computeConfigHash_state|]. intros tr [h|e] s' ->; [|apply mwp_ret, H2].
  destruct (h != ""); apply mwp_ret, H1; done.
Qed.

Lemma mwp_reconcileDeployment_outcome r srv s :
  mwp (reconcileDeployment r srv) s (fun tr res _ => match res with Ok _ => deployment_outcome r srv tr | Err _ => True end).
Proof.
  unfold reconcileDeployment. destruct (createDeployment r srv) as [d0|] eqn:Ed; [|by apply mwp_ret].
  pose proof (createDeployment_one _ _ _ Ed) as Hone. pose proof (createDeployment_namespace _ _ _ Ed) as [Hns Hnm].
  destruct (setController srv (dep_meta d0)) as [m|] eqn:Em; [|by apply mwp_ret].
  pose proof (setController_frame _ _ _ Em) as Hm.
  apply mwp_bind, applyConfigHash_keeps; [|intros; by apply mwp_ret]. intros tr1 d1 Hd1 Hr1 Hp1 _. cbn in Hd1, Hr1, Hp1.
  assert (Hkey : om_namespace (dep_meta d1) = om_namespace (srv_meta srv) /\ om_name (dep_meta d1) = om_name (srv_meta srv))
    by (rewrite Hd1, Hm; cbn; auto). destruct Hkey as [Kns Knm].
  apply mwp_bind, mwp_call. intros [ex|e].
  - apply mwp_bind, mwp_validateOwnership_simple; [|intros; by apply mwp_ret]. intros Hman.
    destruct (setController srv (dep_meta ex)) as [m1|] eqn:E1; [|by apply mwp_ret].
    pose proof (setController_uid _ _ _ E1) as (ref & Href & Huid).
    destruct (deploymentNeedsUpdate _ _ _ _) eqn:En.
    + destruct (applyCustomDeploymentMetadata _ _) as [d2|] eqn:E2; [|by apply mwp_ret].
      apply applyCustomDeployment_keeps in E2 as (Hr2 & Hp2 & Hg2). cbn in Hr2, Hp2, Hg2.
      apply mwp_bind, mwp_call. intros [stored|e]; [|by apply mwp_ret]. apply mwp_call. intros [got|e]; [|done].
      exists d0, d2. split_and!; [done| |exists ref; by rewrite Hg2|].
      * apply runs_desired_same; congruence.
      * right; left. exists stored. in_trace.
    + apply mwp_ret. apply up_to_date_runs_desired in En as [Hrun Hch]; [|by rewrite Hp1].
      unfold ownershipChanged in Hch. rewrite Href in Hch. bool_to_prop.
      exists d0, (with_dep_meta m1 ex). split_and!; [done| |by exists ref|].
      * destruct Hrun as [Hrep Hrun]. split; [congruence|]. by rewrite Hp1 in Hrun.
      * right. right. exists (dep_meta ex). split; [|congruence]. rewrite Kns, Knm.
        destruct ex. cbn. in_trace.
  - destruct (IsNotFound e); [|by apply mwp_ret].
    destruct (applyCustomDeploymentMetadata _ _) as [d2|] eqn:E2; [|by apply mwp_ret].
    apply applyCustomDeployment_keeps in E2 as (Hr2 & Hp2 & Hg2).
    apply mwp_call. intros [a|e']; [|done].
    destruct (setController_uid _ _ _ Em) as (ref & Href & Huid).
    exists d0, d2. split_and!; [done| |exists ref; by rewrite Hg2, Hd1|].
    + apply runs_desired_same; congruence.
    + left. exists a. in_trace.
Qed.

(** C30: When [reconcileDeployment] succeeds, a Deployment running the desired pods
    (image, arguments, environment, ports, resources, security, probes, volumes,
    replicas) and controlled by this MCPServer is what it wrote or what it read: drift
    in any of these fields is repaired before success is reported. *)
Theorem deployment_converges r srv s tr d s' :
  runs (reconcileDeployment r srv s) tr (Ok d, s') -> deployment_outcome r srv tr.
Proof. intros Hr. exact (mwp_runs _ s _ (mwp_reconcileDeployment_outcome r srv s) _ _ _ Hr). Qed.

End converge.

(** ** When the written Deployment is stable *)

Section settle.
Context `{V : Vendor} {L : VendorLaws V}.

(** [desired] is [d0] after the configuration hash was put on the template. *)
Definition hashed (d0 desired : Deployment) : Prop :=
  dep_replicas desired = dep_replicas d0 /\ pt_spec (dep_template desired) = pt_spec (dep_template d0) /\
  pt_labels (dep_template desired) = pt_labels (dep_template d0) /\
  (pt_annotations (dep_template desired) = None \/
   exists h, pt_annotations (dep_template desired) = Some {[ configHashAnnotation := h ]}).

(** The recorded extras hold no key the operator reserves, as it writes them. *)
Definition records_unreserved (curL curA : gmap string string) : Prop :=
  (forall k, reservedLabelKeys k = true -> curL !! k = None) /\
  (forall k, strings.HasPrefix k reservedAnnotationPrefix = true -> curA !! k = None).

Lemma refresh_disjoint cur eff m :
  (forall k, is_Some (view m !! k) -> cur !! k = None) -> view (refresh (Some cur) eff m) = view eff ∪ view m.
Proof.
  intros H. assert (Hm : view (if view eff == view (Some cur) then m else deleteKeys (view (Some cur)) m) = view m).
  { case_bool_decide; [done|]. apply map_eq. intros k. rewrite deleteKeys_lookup. cbn [view from_option id].
    destruct (view m !! k) eqn:E; [rewrite H by eauto; done|by case_match]. }
  unfold refresh. destruct (Nat.ltb_spec 0 (mlen eff)).
  - rewrite Hm. done.
  - rewrite Hm. unfold mlen in *. rewrite (map_size_empty_inv (view eff)) by lia. by rewrite (left_id_L ∅ (∪)).
Qed.

Lemma union_same_iff (e m : gmap string string) : e ##ₘ m -> e ∪ m = m <-> e = ∅.
Proof.
  intros Hd. split; [|intros ->; apply (left_id_L ∅ (∪))]. intros H. apply map_empty. intros k.
  destruct (e !! k) as [v|] eqn:E; [|done]. assert (m !! k = Some v) by (rewrite <- H, lookup_union, E; apply union_Some_l).
  exfalso. by eapply map_disjoint_spec.
Qed.

Lemma reserved_labels name k : is_Some (managedWorkloadLabels name !! k) -> reservedLabelKeys k = true.
Proof.
  unfold managedWorkloadLabels, reservedLabelKeys. intros [v H].
  apply lookup_insert_Some in H as [[<- _]|[_ H]]; [done|]. apply lookup_singleton_Some in H as [<- _]. done.
Qed.

Lemma createDeployment_labels r srv d : createDeployment r srv = Ok d ->
  pt_labels (dep_template d) = Some (managedWorkloadLabels (om_name (srv_meta srv))).
Proof. unfold createDeployment. intros H. repeat case_match; simplify_eq; done. Qed.

Lemma hashed_annotations d0 desired k :
  hashed d0 desired -> is_Some (view (pt_annotations (dep_template desired)) !! k) ->
  strings.HasPrefix k reservedAnnotationPrefix = true.
Proof.
  intros (_ & _ & _ & [->|[h ->]]) [v H]; cbn [view from_option id] in H; [done|].
  by apply lookup_singleton_Some in H as [<- _].
Qed.

(** The comparison of a Deployment with the pods of [desired] comes down to the
    metadata. *)
Lemma deploymentNeedsUpdate_same srv d desired :
  (exists c, ps_containers (pt_spec (dep_template desired)) = [c]) ->
  dep_replicas d = dep_replicas desired -> pt_spec (dep_template d) = pt_spec (dep_template desired) ->
  deploymentAnnotationsChanged srv d = false -> deploymentLabelsChanged srv d = false ->
  deploymentNeedsUpdate srv d desired false =
    (view (pt_labels (dep_template d)) != view (pt_labels (dep_template desired)))
    || (view (pt_annotations (dep_template d)) != view (pt_annotations (dep_template desired))).
Proof.
  intros [c Hc] Hr Hp Ha Hl. unfold deploymentNeedsUpdate, sameImagePullSecrets, imagePullPolicyNeedsUpdate.
  rewrite Hp, Hc, Hr, Ha, Hl, DeepDerivative_refl, !(bool_decide_eq_true_2 _ eq_refl).
  rewrite !orb_false_r. destruct (ct_imagePullPolicy c == "") eqn:E; done.
Qed.

(** The Deployment that an update writes is up to date for the next reconcile
    exactly when the MCPServer has no extra labels or annotations to apply. With
    extras, the pod template carries them, the comparison is made with a template that
    does not, and every later reconcile issues another Update. *)
Theorem deployment_settles_iff_no_extras r srv d0 desired base d' curL curA :
  createDeployment r srv = Ok d0 -> hashed d0 desired -> extras_well_formed srv ->
  recorded managedExtraLabels (om_annotations (dep_meta base)) = Ok curL ->
  recorded managedExtraAnnotations (om_annotations (dep_meta base)) = Ok curA ->
  records_unreserved curL curA ->
  applyCustomDeploymentMetadata srv (withDesired desired base) = Ok d' ->
  deploymentNeedsUpdate srv d' desired false = false <-> view (effL srv) = ∅ /\ view (effA srv) = ∅.
Proof.
  intros Hd0 Hh Hwf HL HA [HrL HrA] H. pose proof (createDeployment_one _ _ _ Hd0) as Hone.
  pose proof (createDeployment_labels _ _ _ Hd0) as Hlab. destruct Hh as (Hrep & Hps & Hpl & Hpa) eqn:Eh. clear Eh.
  apply applyCustomDeployment_inv in H as (Hm & curL' & curA' & HL' & HA' & Hd').
  cbn in Hm, HL', HA', Hd'. rewrite HL in HL'. rewrite HA in HA'. injection HL' as <-. injection HA' as <-.
  destruct (recorded_after srv _ _ Hwf Hm) as [RL RA]. destruct (merged_after srv _ _ Hm) as [ML MA].
  assert (TL : view (pt_labels (dep_template d')) = view (effL srv) ∪ view (pt_labels (dep_template desired))).
  { rewrite Hd'. apply refresh_disjoint. intros k Hk. rewrite Hpl, Hlab in Hk. by apply HrL, (reserved_labels _ _ Hk). }
  assert (TA : view (pt_annotations (dep_template d')) = view (effA srv) ∪ view (pt_annotations (dep_template desired))).
  { rewrite Hd'. apply refresh_disjoint. intros k Hk. by apply HrA, (hashed_annotations d0 desired). }
  rewrite deploymentNeedsUpdate_same; [|by rewrite Hps|by rewrite Hd'|by rewrite Hd'| |].
  - rewrite TL, TA, orb_false_iff, !negb_false_iff, !bool_decide_eq_true, !union_same_iff; [done| |].
    + apply map_disjoint_spec. intros k x y Hx Hy. rewrite effA_reserved in Hx; [done|]. by eapply hashed_annotations.
    + apply map_disjoint_spec. intros k x y Hx Hy. rewrite effL_reserved in Hx; [done|].
      rewrite Hpl, Hlab in Hy. by eapply reserved_labels.
  - apply recordedChanged_converged; [done|]. repeat constructor; [done|]. rewrite TA. apply map_union_subseteq_l.
  - apply recordedChanged_converged; [done|]. repeat constructor; [done|]. rewrite TL. apply map_union_subseteq_l.
Qed.

End settle.

(** ** Concrete runs *)

Definition richSpec (labels : gomap) : MCPServerSpec :=
  {| spec_extraLabels := labels; spec_extraAnnotations := None; spec_workloadRef := None; spec_serviceRef := None;
     spec_source := spec_source sampleSpec;
     spec_config := {| cfg_port := 8080; cfg_arguments := ["--http"];
                       cfg_env := [{| ev_name := "SSL_CERT_DIR"; ev_value := "/evil"; ev_valueFrom := None |};
                                   {| ev_name := "MODE"; ev_value := "x"; ev_valueFrom := None |}];
                       cfg_envFrom := [];
                       cfg_storage := [{| sm_path := "/tmp"; sm_permissions := MountPermissionsReadWrite;
                                          sm_source := {| ss_type := StorageTypeEmptyDir; ss_configMap := None; ss_secret := None;
                                                          ss_emptyDir := None |} |}];
                       cfg_path := "/mcp" |};
     spec_runtime := zeroRuntime; spec_mcp := {| mcp_stateless := None |};
     spec_network := None; spec_transport := None; spec_gateway := None |}.

Definition richServer : MCPServer := serverWith (richSpec None).
Definition extrasServer : MCPServer := serverWith (richSpec (Some {[ "team" := "blue" ]})).

Definition tlsReconciler : MCPServerReconciler :=
  {| Scheme := Scheme sampleReconciler; Recorder := true;
     TLSEnvVars := [{| ev_name := "SSL_CERT_DIR"; ev_value := "/etc/ssl"; ev_valueFrom := None |}]; TLSProfile := None;
     NetworkPolicyDefaultPosture := "restricted"; OperatorNamespace := "mcp-system";
     OperatorPodLabels := OperatorPodLabels sampleReconciler; WebhookEnabled := true; AdmissionPolicyActive := true |}.

Definition builtFor (r : MCPServerReconciler) (srv : MCPServer) : Deployment :=
  match createDeployment r srv with
  | Ok d => d
  | Err _ => {| dep_meta := newMeta "" "" None; dep_replicas := None; dep_selector := None;
                dep_template := {| pt_labels := None; pt_annotations := None;
                                   pt_spec := {| ps_containers := []; ps_imagePullSecrets := []; ps_volumes := [];
                                                 ps_serviceAccountName := ""; ps_securityContext := None; ps_other := "" |} |};
                dep_observedGeneration := 0; dep_readyReplicas := 0; dep_conditions := [] |}
  end.

Lemma deployment_built_witness :
  exists c, ps_containers (pt_spec (dep_template (builtFor tlsReconciler richServer))) = [c] /\
    map ev_name (ct_env c) = ["MODE"; "SSL_CERT_DIR"] /\ tls_env_wins tlsReconciler richServer c.
Proof.
  destruct (deployment_built tlsReconciler richServer (builtFor tlsReconciler richServer) eq_refl)
    as (image & c & _ & Hc & _ & _ & _ & _ & Ht & _).
  exists c. split; [done|]. split; [|done]. cbn in Hc. injection Hc as <-. vm_compute. reflexivity.
Defined.

Lemma deployment_converges_witness :
  deployment_outcome tlsReconciler richServer
    (fst (run_in emptyWorld (@reconcileDeployment modelVendor tlsReconciler richServer) emptyState)).
Proof.
  refine (@deployment_converges modelVendor modelVendor_laws tlsReconciler richServer emptyState _ _ emptyState _).
  exact (run_in_runs emptyWorld (@reconcileDeployment modelVendor tlsReconciler richServer) emptyState).
Defined.

Definition settledFor (srv : MCPServer) : Deployment :=
  let d := builtFor tlsReconciler srv in
  match applyCustomDeploymentMetadata srv (withDesired d d) with Ok d' => d' | Err _ => d end.

(** Without extras nothing is left to do; one extra label and the next reconcile updates again. *)
Lemma deployment_settles_iff_no_extras_witness :
  @deploymentNeedsUpdate modelVendor richServer (settledFor richServer) (builtFor tlsReconciler richServer) false = false /\
  @deploymentNeedsUpdate modelVendor extrasServer (settledFor extrasServer) (builtFor tlsReconciler extrasServer) false <> false.
Proof.
  split.
  - apply (@deployment_settles_iff_no_extras modelVendor modelVendor_laws tlsReconciler richServer
             (builtFor tlsReconciler richServer) _ (builtFor tlsReconciler richServer) _ ∅ ∅); try reflexivity.
    + split_and!; [reflexivity..|]. by left.
    + split; apply well_formed_ascii; vm_compute; reflexivity.
    + split; intros k _; apply lookup_empty.
    + split; vm_compute; reflexivity.
  - intros H. apply (@deployment_settles_iff_no_extras modelVendor modelVendor_laws tlsReconciler extrasServer
             (builtFor tlsReconciler extrasServer) _ (builtFor tlsReconciler extrasServer) _ ∅ ∅) in H as [H _]; try reflexivity.
    + vm_compute in H. discriminate H.
    + split_and!; [reflexivity..|]. by left.
    + split; apply well_formed_ascii; vm_compute; reflexivity.
    + split; intros k _; apply lookup_empty.
Defined.
