(* ===== verification/Schema.v ===== *)
(** * The schema of the API types (markers of api/v1beta1 and api/v1alpha1 mcpserver_types.go)

    The kubebuilder markers become the schema against which the API server checks a
    written object.  Here they are predicates on the Go values, read through the JSON the
    values are encoded to: a field that [omitempty] or [omitzero] leaves out is absent.
    The regular expressions and the DNS format are the API server's ([CEL], [Vendor]), the
    schemas of the Kubernetes types that specs embed are theirs ([Embedded]).

    The theorems: what v1alpha1 accepts converts to what v1beta1 accepts; which v1beta1
    objects can be written back through v1alpha1; and a managed MCPServer that the schema
    accepts is built without error into a well-formed Deployment. *)

From Stdlib Require Import Ascii.
From S2P Require Import Prelude K8s ApiBeta ApiAlpha Conversion Interact Conditions Ownership Service Deployment.

(** ** What the API server evaluates *)

(** [self.matches(re)] and [self.find(re)] of the CEL string library. *)
Class CEL := { matches : string -> string -> bool; find : string -> string -> string }.

(** The schemas of the Kubernetes types. *)
Class Embedded := {
  ok_EnvVar : EnvVar -> bool;
  ok_EnvFromSource : EnvFromSource -> bool;
  ok_ConfigMapVolumeSource : ConfigMapVolumeSource -> bool;
  ok_SecretVolumeSource : SecretVolumeSource -> bool;
  ok_EmptyDirVolumeSource : EmptyDirVolumeSource -> bool;
  ok_PodSecurityContext : PodSecurityContext -> bool;
  ok_SecurityContext : SecurityContext -> bool;
  ok_Probe : Probe -> bool;
  ok_ResourceRequirements : ResourceRequirements -> bool;
  ok_NetworkPolicyPeer : NetworkPolicyPeer -> bool;
  ok_NetworkPolicyPort : NetworkPolicyPort -> bool
}.

(** Characters of a UTF-8 string: its bytes but the continuation bytes. *)
Fixpoint runeCount (s : string) : Z :=
  match s with
  | EmptyString => 0
  | String a s' => (if Z.land (strings.code a) 192 =? 128 then 0 else 1) + runeCount s'
  end.

Definition maxLength (n : Z) (s : string) : bool := runeCount s <=? n.
Definition enum (l : list string) (s : string) : bool := existsb (String.eqb s) l.
#[local] Arguments enum : simpl never.
Definition optional {A} (f : A -> bool) (o : option A) : bool := match o with Some x => f x | None => true end.
(** Entries of a [listType=map] have distinct keys. *)
Definition distinct (l : list string) : bool := bool_decide (NoDup l).
Definition implies (a b : bool) : bool := negb a || b.

(** [has(self.f)] of a pointer, a string, a number and a slice. *)
Definition hasPtr {A} (o : option A) : bool := match o with Some _ => true | None => false end.
Definition hasStr (s : string) : bool := s != "".
Definition hasNum (z : Z) : bool := negb (z =? 0).
Definition hasList {A} (l : list A) : bool := match l with [] => false | _ => true end.
Definition hasMap (m : gomap) : bool := negb (bool_decide (view m = ∅)).

Section schema.
Context `{V : Vendor} `{C : CEL} `{E : Embedded}.

(** ** Rules both versions share *)

Definition reDomain : string :=
  "^([a-zA-Z0-9]|[a-zA-Z0-9][a-zA-Z0-9-]*[a-zA-Z0-9])((\.([a-zA-Z0-9]|[a-zA-Z0-9][a-zA-Z0-9-]*[a-zA-Z0-9]))+)?(:[0-9]+)?\b".
Definition reName : string := "(\/[a-z0-9]+((([._]|__|[-]*)[a-z0-9]+)+)?((\/[a-z0-9]+((([._]|__|[-]*)[a-z0-9]+)+)?)+)?)".
Definition reDigest : string := "(@.*:)".
Definition reTag : string := ":.*$".
Definition reTagChars : string := ":[\w][\w.-]*$".
Definition reDigestAlgorithm : string := "(@[A-Za-z][A-Za-z0-9]*([-_+.][A-Za-z][A-Za-z0-9]*)*[:])".
Definition reDigestHex : string := ":[0-9A-Fa-f]*$".

(** The rules on [ref], in order. *)
Definition imageRules (ref : string) : list bool :=
  let digest := find ref reDigest in
  let tag := find ref reTag in
  [ matches ref reDomain;
    find ref reName != "";
    (digest != "") || (tag != "");
    if digest == "" then (if tag != "" then runeCount (strings.drop 1 tag) <=? 127 else true) else true;
    if digest == "" then (if tag != "" then matches tag reTagChars else true) else true;
    if digest != "" then matches digest reDigestAlgorithm else true;
    if digest != "" then 32 <=? runeCount (strings.drop 1 tag) else true;
    if digest != "" then matches tag reDigestHex else true ].

Definition ok_imageRef (ref : string) : bool := hasStr ref && maxLength 1000 ref && forallb (fun b => b) (imageRules ref).

Definition ok_pullPolicy (p : string) : bool := implies (hasStr p) (enum ["Always"; "IfNotPresent"; "Never"] p).

Definition ok_imagePullSecrets (l : list string) : bool := distinct l && forallb (fun name => name != "") l.

Definition ok_mountPath (path : string) : bool :=
  hasStr path && maxLength 4096 path && strings.HasPrefix path "/" && negb (strings.Contains path ":").

Definition ok_permissions (p : string) : bool :=
  implies (hasStr p) (enum [MountPermissionsReadOnly; MountPermissionsReadWrite; MountPermissionsRecursiveReadOnly] p).

(** An absent path gets the default [/mcp]. *)
Definition ok_serverPath (path : string) : bool :=
  implies (hasStr path)
    (maxLength 253 path && strings.HasPrefix path "/" && negb (strings.Contains path " ") && negb (strings.Contains path "?")
     && negb (strings.Contains path "#")
     && (negb (strings.Contains path (String (strings.chr 10) "")) && negb (strings.Contains path (String (strings.chr 13) ""))
         && negb (strings.Contains path (String (strings.chr 9) "")))).

Definition ok_port (port : Z) : bool := implies (hasNum port) ((1 <=? port) && (port <=? 65535)).

Definition ok_arguments (l : list string) : bool := forallb (fun arg => 0 <? runeCount arg) l.

Definition ok_serviceAccountName (name : string) : bool :=
  implies (hasStr name) (maxLength 253 name && ((name == "") || negb (hasList (IsDNS1123Subdomain name)))).

(** ** v1beta1 *)

Definition ok_ContainerImageSource (c : ApiBeta.ContainerImageSource) : bool :=
  ok_imageRef (ci_ref c) && ok_pullPolicy (ci_pullPolicy c) && ok_imagePullSecrets (ci_imagePullSecrets c).

Definition ok_Source (s : ApiBeta.Source) : bool :=
  hasStr (src_type s) && enum [SourceTypeContainerImage] (src_type s) && optional ok_ContainerImageSource (src_containerImage s)
  && (if src_type s == "ContainerImage" then hasPtr (src_containerImage s) else negb (hasPtr (src_containerImage s))).

Definition ok_StorageSource (s : ApiBeta.StorageSource) : bool :=
  hasStr (ss_type s) && enum [StorageTypeConfigMap; StorageTypeSecret; StorageTypeEmptyDir] (ss_type s)
  && optional ok_ConfigMapVolumeSource (ss_configMap s) && optional ok_SecretVolumeSource (ss_secret s)
  && optional ok_EmptyDirVolumeSource (ss_emptyDir s)
  && (if ss_type s == "ConfigMap" then hasPtr (ss_configMap s) else negb (hasPtr (ss_configMap s)))
  && (if ss_type s == "Secret" then hasPtr (ss_secret s) else negb (hasPtr (ss_secret s)))
  && (if ss_type s == "EmptyDir" then hasPtr (ss_emptyDir s) else negb (hasPtr (ss_emptyDir s))).

(** A zero source is left out, and fails for its missing type. *)
Definition ok_StorageMount (m : ApiBeta.StorageMount) : bool :=
  ok_mountPath (sm_path m) && ok_permissions (sm_permissions m) && ok_StorageSource (sm_source m).

Definition ok_ServerConfig (c : ApiBeta.ServerConfig) : bool :=
  ok_port (cfg_port c) && ok_arguments (cfg_arguments c) && forallb ok_EnvVar (cfg_env c) && forallb ok_EnvFromSource (cfg_envFrom c)
  && (Z.of_nat (List.length (cfg_storage c)) <=? 64) && distinct (map sm_path (cfg_storage c))
  && forallb ok_StorageMount (cfg_storage c) && ok_serverPath (cfg_path c).

Definition ok_SecurityConfig (s : ApiBeta.SecurityConfig) : bool :=
  ok_serviceAccountName (sec_serviceAccountName s) && optional ok_PodSecurityContext (sec_podSecurityContext s)
  && optional ok_SecurityContext (sec_securityContext s).

Definition hasSecurity (s : ApiBeta.SecurityConfig) : bool :=
  hasStr (sec_serviceAccountName s) || hasPtr (sec_podSecurityContext s) || hasPtr (sec_securityContext s).

Definition hasHealth (h : ApiBeta.HealthConfig) : bool := hasPtr (h_livenessProbe h) || hasPtr (h_readinessProbe h).

(** [MinProperties=1] holds of what is not left out. *)
Definition ok_HealthConfig (h : ApiBeta.HealthConfig) : bool :=
  optional ok_Probe (h_livenessProbe h) && optional ok_Probe (h_readinessProbe h).

Definition hasRuntime (r : ApiBeta.RuntimeConfig) : bool :=
  hasPtr (rt_replicas r) || hasSecurity (rt_security r) || hasPtr (rt_resources r) || hasHealth (rt_health r).

Definition ok_RuntimeConfig (r : ApiBeta.RuntimeConfig) : bool :=
  optional (fun n => 0 <=? n) (rt_replicas r) && ok_SecurityConfig (rt_security r)
  && optional ok_ResourceRequirements (rt_resources r) && ok_HealthConfig (rt_health r).

Definition ok_NetworkConfig (n : ApiBeta.NetworkConfig) : bool :=
  forallb ok_NetworkPolicyPeer (net_ingressFrom n) && forallb ok_NetworkPolicyPeer (net_egressTo n)
  && forallb ok_NetworkPolicyPort (net_egressPorts n) && optional ok_NetworkPolicyPeer (net_dnsEgressPeer n).

Definition ok_TransportConfig (t : ApiBeta.TransportConfig) : bool :=
  optional (fun tls => optional (fun ref => secref_name ref != "") (tls_caBundleSecret tls)) (tr_tls t).

Definition ok_GatewaySpec (g : GatewaySpec) : bool :=
  (gw_provider g != "") && maxLength 253 (gw_provider g) && maxLength 253 (gw_configRef g).

Definition ok_WorkloadReference (w : WorkloadReference) : bool :=
  (wr_name w != "") && enum [WorkloadKindDeployment; WorkloadKindDaemonSet; WorkloadKindStatefulSet] (wr_kind w).

Definition ok_ServiceReference (s : ServiceReference) : bool := sr_name s != "".

Definition hasSource (s : ApiBeta.Source) : bool := hasStr (src_type s) || hasPtr (src_containerImage s).

Definition hasConfig (c : ApiBeta.ServerConfig) : bool :=
  hasNum (cfg_port c) || hasList (cfg_arguments c) || hasList (cfg_env c) || hasList (cfg_envFrom c) || hasList (cfg_storage c)
  || hasStr (cfg_path c).

Definition hasMCP (m : ApiBeta.MCPConfig) : bool := hasPtr (mcp_stateless m).

(** The rules on the spec, in order, but the last, which compares with the old spec.  (A slice
    that is empty but not nil keeps its struct present, which these rules do not notice.) *)
Definition specRules (s : ApiBeta.MCPServerSpec) : list bool :=
  let workloadRef := hasPtr (spec_workloadRef s) in
  let serviceRef := hasPtr (spec_serviceRef s) in
  let config := spec_config s in
  let runtime := spec_runtime s in
  [ negb workloadRef || negb (hasSource (spec_source s));
    workloadRef || hasSource (spec_source s);
    negb workloadRef || negb (hasConfig config) || negb (hasList (cfg_storage config));
    negb workloadRef || negb (hasConfig config) || negb (hasList (cfg_env config));
    negb workloadRef || negb (hasConfig config) || negb (hasList (cfg_envFrom config));
    negb workloadRef || negb (hasConfig config) || negb (hasList (cfg_arguments config));
    negb workloadRef || negb (hasRuntime runtime) || negb (hasPtr (rt_replicas runtime));
    negb workloadRef || negb (hasRuntime runtime) || negb (hasPtr (rt_resources runtime));
    negb workloadRef || negb (hasRuntime runtime) || negb (hasSecurity (rt_security runtime));
    negb workloadRef || negb (hasRuntime runtime) || negb (hasHealth (rt_health runtime));
    negb workloadRef || negb (hasPtr (spec_network s));
    negb serviceRef || negb (hasMCP (spec_mcp s)) || negb (hasPtr (mcp_stateless (spec_mcp s)));
    (workloadRef && serviceRef) || (hasConfig config && hasNum (cfg_port config));
    negb (workloadRef && serviceRef) || negb (hasMap (spec_extraLabels s));
    negb (workloadRef && serviceRef) || negb (hasMap (spec_extraAnnotations s)) ].

Definition ok_MCPServerSpec (s : ApiBeta.MCPServerSpec) : bool :=
  optional ok_WorkloadReference (spec_workloadRef s) && optional ok_ServiceReference (spec_serviceRef s)
  && implies (hasSource (spec_source s)) (ok_Source (spec_source s)) && ok_ServerConfig (spec_config s)
  && ok_RuntimeConfig (spec_runtime s) && optional ok_NetworkConfig (spec_network s)
  && optional ok_TransportConfig (spec_transport s) && optional ok_GatewaySpec (spec_gateway s)
  && forallb (fun b => b) (specRules s).

(** An update also keeps the mode. *)
Definition ok_update (old new : ApiBeta.MCPServerSpec) : bool :=
  ok_MCPServerSpec new && Bool.eqb (hasPtr (spec_workloadRef new)) (hasPtr (spec_workloadRef old)).

(** ** v1alpha1 *)

Definition ok_alpha_ContainerImageSource (c : ApiAlpha.ContainerImageSource) : bool :=
  ok_imageRef (aci_ref c) && ok_pullPolicy (aci_pullPolicy c) && ok_imagePullSecrets (aci_imagePullSecrets c).

Definition ok_alpha_Source (s : ApiAlpha.Source) : bool :=
  hasStr (asrc_type s) && enum [SourceTypeContainerImage] (asrc_type s)
  && optional ok_alpha_ContainerImageSource (asrc_containerImage s)
  && (if asrc_type s == "ContainerImage" then hasPtr (asrc_containerImage s) else negb (hasPtr (asrc_containerImage s))).

Definition ok_alpha_StorageSource (s : ApiAlpha.StorageSource) : bool :=
  hasStr (ass_type s) && enum [StorageTypeConfigMap; StorageTypeSecret; StorageTypeEmptyDir] (ass_type s)
  && optional ok_ConfigMapVolumeSource (ass_configMap s) && optional ok_SecretVolumeSource (ass_secret s)
  && optional ok_EmptyDirVolumeSource (ass_emptyDir s)
  && (if ass_type s == "ConfigMap" then hasPtr (ass_configMap s) else negb (hasPtr (ass_configMap s)))
  && (if ass_type s == "Secret" then hasPtr (ass_secret s) else negb (hasPtr (ass_secret s)))
  && (if ass_type s == "EmptyDir" then hasPtr (ass_emptyDir s) else negb (hasPtr (ass_emptyDir s))).

Definition ok_alpha_StorageMount (m : ApiAlpha.StorageMount) : bool :=
  ok_mountPath (asm_path m) && ok_permissions (asm_permissions m) && ok_alpha_StorageSource (asm_source m).

(** The port is required. *)
Definition ok_alpha_ServerConfig (c : ApiAlpha.ServerConfig) : bool :=
  hasNum (acfg_port c) && ok_port (acfg_port c) && ok_arguments (acfg_arguments c) && forallb ok_EnvVar (acfg_env c)
  && forallb ok_EnvFromSource (acfg_envFrom c)
  && (Z.of_nat (List.length (acfg_storage c)) <=? 64) && distinct (map asm_path (acfg_storage c))
  && forallb ok_alpha_StorageMount (acfg_storage c) && ok_serverPath (acfg_path c).

Definition ok_alpha_SecurityConfig (s : ApiAlpha.SecurityConfig) : bool :=
  ok_serviceAccountName (asec_serviceAccountName s) && optional ok_PodSecurityContext (asec_podSecurityContext s)
  && optional ok_SecurityContext (asec_securityContext s).

Definition ok_alpha_HealthConfig (h : ApiAlpha.HealthConfig) : bool :=
  optional ok_Probe (ah_livenessProbe h) && optional ok_Probe (ah_readinessProbe h).

Definition ok_alpha_RuntimeConfig (r : ApiAlpha.RuntimeConfig) : bool :=
  optional (fun n => 0 <=? n) (art_replicas r) && ok_alpha_SecurityConfig (art_security r)
  && optional ok_ResourceRequirements (art_resources r) && ok_alpha_HealthConfig (art_health r).

Definition ok_alpha_NetworkConfig (n : ApiAlpha.NetworkConfig) : bool :=
  forallb ok_NetworkPolicyPeer (anet_ingressFrom n) && forallb ok_NetworkPolicyPeer (anet_egressTo n)
  && forallb ok_NetworkPolicyPort (anet_egressPorts n) && optional ok_NetworkPolicyPeer (anet_dnsEgressPeer n).

Definition ok_alpha_TransportConfig (t : ApiAlpha.TransportConfig) : bool :=
  optional (fun tls => optional (fun ref => asecref_name ref != "") (atls_caBundleSecret tls)) (atr_tls t).

(** Source and config are required: they are left out when zero, and fail for their
    required fields otherwise. *)
Definition ok_alpha_MCPServerSpec (s : ApiAlpha.MCPServerSpec) : bool :=
  ok_alpha_Source (aspec_source s) && ok_alpha_ServerConfig (aspec_config s) && ok_alpha_RuntimeConfig (aspec_runtime s)
  && optional ok_alpha_NetworkConfig (aspec_network s) && optional ok_alpha_TransportConfig (aspec_transport s).

End schema.

(** ** Conversion and the schema *)

Section conversion.
Context `{V : Vendor} `{C : CEL} `{E : Embedded}.

Lemma optional_map {A B} (f : B -> bool) (g : A -> B) o : optional f (option_map g o) = optional (fun x => f (g x)) o.
Proof. by destruct o. Qed.

Lemma forallb_map {A B} (f : B -> bool) (g : A -> B) l : forallb f (map g l) = forallb (fun x => f (g x)) l.
Proof. induction l as [|x l IH]; cbn; by rewrite ?IH. Qed.

Lemma forallb_ext' {A} (f g : A -> bool) l : (forall x, f x = g x) -> forallb f l = forallb g l.
Proof. intros H. induction l as [|x l IH]; cbn; by rewrite ?IH, ?H. Qed.

Lemma ok_Source_from s : ok_alpha_Source (convertSourceFrom s) = ok_Source s.
Proof. by destruct s as [t [[]|]]. Qed.

Lemma ok_StorageMount_from m : ok_alpha_StorageMount (convertStorageMountFrom m) = ok_StorageMount m.
Proof. by destruct m as [? ? []]. Qed.

Lemma ok_ServerConfig_from c : ok_alpha_ServerConfig (convertServerConfigFrom c) = hasNum (cfg_port c) && ok_ServerConfig c.
Proof.
  unfold ok_alpha_ServerConfig, ok_ServerConfig, convertServerConfigFrom. cbn. rewrite fold_left_snoc. cbn.
  rewrite forallb_map, map_map, length_map, (forallb_ext' _ _ _ ok_StorageMount_from). by rewrite !andb_assoc.
Qed.

Lemma ok_RuntimeConfig_from r : ok_alpha_RuntimeConfig (convertRuntimeConfigFrom r) = ok_RuntimeConfig r.
Proof. by destruct r as [? [] ? []]. Qed.

Lemma ok_NetworkConfig_from n : optional ok_alpha_NetworkConfig (convertNetworkConfigFrom n) = optional ok_NetworkConfig n.
Proof. by destruct n as [[]|]. Qed.

Lemma ok_TransportConfig_from t : optional ok_alpha_TransportConfig (convertTransportConfigFrom t) = optional ok_TransportConfig t.
Proof. by destruct t as [[[[? [[]|] ?]|]]|]. Qed.

(** A v1alpha1 spec is checked as what it converts to, port required. *)
Lemma ok_ServerConfig_to c : ok_ServerConfig (convertServerConfigTo c) && hasNum (acfg_port c) = ok_alpha_ServerConfig c.
Proof. by rewrite <- (convertServerConfig_roundtrip c) at 3; rewrite ok_ServerConfig_from, andb_comm. Qed.
Lemma ok_Source_to s : ok_Source (convertSourceTo s) = ok_alpha_Source s.
Proof. by rewrite <- ok_Source_from, convertSource_roundtrip. Qed.
Lemma ok_RuntimeConfig_to r : ok_RuntimeConfig (convertRuntimeConfigTo r) = ok_alpha_RuntimeConfig r.
Proof. by rewrite <- ok_RuntimeConfig_from, convertRuntime_roundtrip. Qed.
Lemma ok_TransportConfig_to t : optional ok_TransportConfig (convertTransportConfigTo t) = optional ok_alpha_TransportConfig t.
Proof. by rewrite <- ok_TransportConfig_from, convertTransport_roundtrip. Qed.
Lemma ok_NetworkConfig_to n : optional ok_NetworkConfig (convertNetworkConfigTo n) = optional ok_alpha_NetworkConfig n.
Proof. by destruct n as [[]|]. Qed.

Lemma ok_Source_present s : ok_Source s = true -> hasSource s = true.
Proof. unfold ok_Source, hasSource. by destruct (hasStr (src_type s)). Qed.

(** What v1beta1 asks beyond the parts: source, port and mode. *)
Lemma ok_managed_spec s : spec_workloadRef s = None ->
  ok_MCPServerSpec s = true <->
  optional ok_ServiceReference (spec_serviceRef s) = true /\ ok_Source (spec_source s) = true /\ ok_ServerConfig (spec_config s) = true /\
  hasNum (cfg_port (spec_config s)) = true /\ ok_RuntimeConfig (spec_runtime s) = true /\
  optional ok_NetworkConfig (spec_network s) = true /\ optional ok_TransportConfig (spec_transport s) = true /\
  optional ok_GatewaySpec (spec_gateway s) = true /\ (spec_serviceRef s = None \/ mcp_stateless (spec_mcp s) = None).
Proof.
  intros Hw. unfold ok_MCPServerSpec, specRules. rewrite Hw. cbn. rewrite !andb_true_r, !andb_true_iff.
  pose proof (ok_Source_present (spec_source s)) as Hsrc. unfold hasConfig, hasMCP.
  destruct (hasSource (spec_source s)), (ok_Source (spec_source s)), (hasNum (cfg_port (spec_config s))),
    (spec_serviceRef s), (mcp_stateless (spec_mcp s)); cbn; intuition (try done).
Qed.

(** A referenced workload leaves no source. *)
Lemma ok_byo_spec s w : spec_workloadRef s = Some w -> ok_MCPServerSpec s = true -> ok_Source (spec_source s) = false.
Proof.
  intros Hw. unfold ok_MCPServerSpec, specRules. rewrite Hw. cbn. intros H.
  destruct (ok_Source (spec_source s)) eqn:Eo; [|done]. apply ok_Source_present in Eo. rewrite Eo in H.
  cbn in H. by rewrite ?andb_false_r in H.
Qed.

Lemma ok_alpha_spec_from b :
  ok_alpha_MCPServerSpec (asrv_spec (ConvertFrom b)) =
  ok_Source (spec_source (srv_spec b)) && (hasNum (cfg_port (spec_config (srv_spec b))) && ok_ServerConfig (spec_config (srv_spec b)))
  && ok_RuntimeConfig (spec_runtime (srv_spec b)) && optional ok_NetworkConfig (spec_network (srv_spec b))
  && optional ok_TransportConfig (spec_transport (srv_spec b)).
Proof.
  unfold ok_alpha_MCPServerSpec. cbn [ConvertFrom asrv_spec aspec_source aspec_config aspec_runtime aspec_network aspec_transport].
  by rewrite ok_Source_from, ok_ServerConfig_from, ok_RuntimeConfig_from, ok_NetworkConfig_from, ok_TransportConfig_from.
Qed.

Lemma alpha_accepted_converts a :
  ok_alpha_MCPServerSpec (asrv_spec a) = true -> ok_MCPServerSpec (srv_spec (ConvertTo a)) = true.
Proof.
  intros H. unfold ok_alpha_MCPServerSpec in H. rewrite <- ok_Source_to, <- ok_ServerConfig_to, <- ok_RuntimeConfig_to, <- ok_NetworkConfig_to, <- ok_TransportConfig_to in H.
  rewrite !andb_true_iff in H. destruct H as [[[[? [? ?]] ?] ?] ?].
  apply ok_managed_spec; [done|]. cbn [ConvertTo srv_spec spec_serviceRef spec_source spec_config spec_runtime spec_network spec_transport spec_gateway optional].
  split_and!; auto.
Qed.

Lemma hub_accepted_alpha b : ok_MCPServerSpec (srv_spec b) = true ->
  ok_alpha_MCPServerSpec (asrv_spec (ConvertFrom b)) = true <-> spec_workloadRef (srv_spec b) = None.
Proof.
  intros H. rewrite ok_alpha_spec_from, !andb_true_iff. destruct (spec_workloadRef (srv_spec b)) as [w|] eqn:Ew.
  - rewrite (ok_byo_spec _ _ Ew H). by intuition.
  - apply (ok_managed_spec _ Ew) in H. tauto.
Qed.

End conversion.

(** C20: Writes through v1alpha1 stay within the schema of the stored version: whatever
    v1alpha1 accepts converts to a spec that v1beta1 accepts, of a managed server without
    references; a stored spec, read and written back through v1alpha1, is accepted there
    exactly when it names no workload; and an accepted v1alpha1 write breaks the rule that
    the mode is fixed exactly when the stored server has a workload reference. *)
Theorem alpha_schema_sound `{V : Vendor} `{C : CEL} `{E : Embedded} a b :
  (ok_alpha_MCPServerSpec (asrv_spec a) = true ->
     ok_MCPServerSpec (srv_spec (ConvertTo a)) = true /\
     ok_update (srv_spec b) (srv_spec (ConvertTo a)) = negb (hasPtr (spec_workloadRef (srv_spec b)))) /\
  (ok_MCPServerSpec (srv_spec b) = true ->
     ok_alpha_MCPServerSpec (asrv_spec (ConvertFrom b)) = true <-> spec_workloadRef (srv_spec b) = None).
Proof.
  split; [|apply hub_accepted_alpha]. intros Ha. apply alpha_accepted_converts in Ha. split; [done|].
  unfold ok_update. rewrite Ha. cbn. by destruct (spec_workloadRef (srv_spec b)).
Qed.

(** ** What the operator builds from an accepted spec *)

(** A volume has one source. *)
Definition one_source (v : Volume) : Prop :=
  (exists c, vol_configMap v = Some c /\ vol_secret v = None /\ vol_emptyDir v = None) \/
  (exists s, vol_configMap v = None /\ vol_secret v = Some s /\ vol_emptyDir v = None) \/
  (exists e, vol_configMap v = None /\ vol_secret v = None /\ vol_emptyDir v = Some e).

Lemma enum_In l s : enum l s = true <-> In s l.
Proof. unfold enum. rewrite existsb_exists. split; [intros (x & ? & ->%String.eqb_eq); done|]. intros H. exists s. by rewrite String.eqb_refl. Qed.

Section built.
Context `{V : Vendor} `{C : CEL} `{E : Embedded}.

Lemma ok_StorageSource_one s i path perms : ok_StorageSource s = true ->
  one_source (storageVolumeOf i {| sm_path := path; sm_permissions := perms; sm_source := s |}).
Proof.
  unfold ok_StorageSource, storageVolumeOf, one_source. cbn. intros H. bool_to_prop.
  unfold StorageTypeConfigMap, StorageTypeSecret, StorageTypeEmptyDir in *.
  destruct s as [t cm sec ed]; cbn in *.
  repeat case_bool_decide; subst; try done; destruct cm, sec, ed; cbn in *; try done; eauto 10.
  apply enum_In in H6. cbn in H6. naive_solver.
Qed.

Lemma storage_one_source l i : forallb ok_StorageMount l = true -> Forall one_source (indexed storageVolumeOf l i).
Proof.
  intros H. rewrite forallb_forall in H. apply List.Forall_forall. intros v Hv.
  apply indexed_elem in Hv as (j & m & _ & Hm & ->). apply H in Hm. unfold ok_StorageMount in Hm. bool_to_prop.
  destruct m. by apply ok_StorageSource_one.
Qed.

Lemma storage_mounts_at l i : map vm_mountPath (indexed storageMountOf l i) = map sm_path l.
Proof. rewrite indexed_map. exact (indexed_const sm_path l i). Qed.

Lemma ok_port_range port : hasNum port = true -> ok_port port = true -> 1 <= port <= 65535.
Proof. unfold ok_port, implies. intros -> H2. cbn in H2. bool_to_prop. lia. Qed.

Lemma ok_mountPath_absolute path : ok_mountPath path = true -> strings.HasPrefix path "/" = true /\ strings.Contains path ":" = false.
Proof. unfold ok_mountPath. intros H. bool_to_prop. auto. Qed.

Lemma ok_replicas rt : ok_RuntimeConfig rt = true -> 0 <= default 1 (rt_replicas rt).
Proof. unfold ok_RuntimeConfig. intros H. bool_to_prop. destruct (rt_replicas rt) as [n|]; cbn in *; lia. Qed.

Lemma ok_Source_image s : ok_Source s = true ->
  src_type s = SourceTypeContainerImage /\ exists image, src_containerImage s = Some image /\ ci_ref image <> "".
Proof.
  unfold ok_Source. rewrite !andb_true_iff. intros [[[_ He] Hc] Hi]. apply enum_In in He as [He|[]]. rewrite <- He in Hi.
  split; [done|]. destruct (src_containerImage s) as [image|]; [|done]. exists image. split; [done|].
  unfold optional, ok_ContainerImageSource, ok_imageRef, hasStr in Hc. by bool_to_prop.
Qed.

Lemma ok_storage cfg : ok_ServerConfig cfg = true ->
  ok_port (cfg_port cfg) = true /\ distinct (map sm_path (cfg_storage cfg)) = true /\ forallb ok_StorageMount (cfg_storage cfg) = true.
Proof. unfold ok_ServerConfig. intros H. bool_to_prop. auto. Qed.

(** C19: A managed MCPServer whose spec the schema accepts never fails to be built, and what
    is built is well-formed: an image, ports within 1-65535 in Pod and Service, a replica
    count that is not negative, and volumes with exactly one source each, mounted at
    absolute, pairwise distinct paths without a colon. *)
Theorem accepted_spec_builds r srv selector :
  ok_MCPServerSpec (srv_spec srv) = true -> spec_workloadRef (srv_spec srv) = None ->
  exists d c n, createDeployment r srv = Ok d /\ ps_containers (pt_spec (dep_template d)) = [c] /\ ct_image c <> "" /\
    Forall (fun p => 1 <= cp_containerPort p <= 65535) (ct_ports c) /\
    Forall (fun p => 1 <= sp_port p <= 65535) (svc_ports (createService srv selector)) /\
    dep_replicas d = Some n /\ 0 <= n /\
    Forall one_source (ps_volumes (pt_spec (dep_template d))) /\ NoDup (map vm_mountPath (ct_volumeMounts c)) /\
    Forall (fun m => strings.HasPrefix (vm_mountPath m) "/" = true /\ strings.Contains (vm_mountPath m) ":" = false) (ct_volumeMounts c).
Proof.
  intros Hok Hw. apply (ok_managed_spec _ Hw) in Hok as (_ & Hsrc & Hcfg & Hport & Hrt & _).
  apply ok_Source_image in Hsrc as (Ht & image & Eimg & Href). apply ok_storage in Hcfg as (Hp & Hd & Hm).
  pose proof (ok_port_range _ Hport Hp) as Hrange. unfold createDeployment. rewrite Ht, Eimg. cbn.
  eexists _, _, _. split_and!; [reflexivity|reflexivity|exact Href| | |reflexivity| | | |].
  - by apply Forall_singleton.
  - by apply Forall_singleton.
  - by apply ok_replicas.
  - by apply storage_one_source.
  - cbn. rewrite storage_mounts_at. by apply bool_decide_eq_true in Hd.
  - cbn. apply (Forall_map vm_mountPath (fun path => strings.HasPrefix path "/" = true /\ strings.Contains path ":" = false)).
    rewrite storage_mounts_at, Forall_map. apply List.Forall_forall. intros m Hin. rewrite forallb_forall in Hm.
    apply Hm in Hin. unfold ok_StorageMount in Hin. bool_to_prop. by apply ok_mountPath_absolute.
Qed.

End built.

(** ** A concrete server

    Images with a registry, a name and a tag, and API server functions that know the
    expressions on them. *)

Definition firstByte (c : ascii) (s : string) : nat := String.length (hd "" (strings.SplitByte c s)).

#[local] Instance sampleCEL : CEL := {|
  matches := fun _ _ => true;
  find := fun s re =>
    if re == reTag then strings.drop (firstByte ":"%char s) s
    else if re == reName then strings.drop (firstByte "/"%char s) s
    else ""
|}.

#[local] Instance sampleEmbedded : Embedded := {|
  ok_EnvVar := fun e => ev_name e != ""; ok_EnvFromSource := fun _ => true;
  ok_ConfigMapVolumeSource := fun _ => true; ok_SecretVolumeSource := fun _ => true; ok_EmptyDirVolumeSource := fun _ => true;
  ok_PodSecurityContext := fun _ => true; ok_SecurityContext := fun _ => true; ok_Probe := fun _ => true;
  ok_ResourceRequirements := fun _ => true; ok_NetworkPolicyPeer := fun _ => true; ok_NetworkPolicyPort := fun _ => true
|}.

Definition alphaServer : ApiAlpha.MCPServer :=
  {| asrv_meta := newMeta "srv" "ns" None;
     asrv_spec :=
       {| aspec_extraLabels := None; aspec_extraAnnotations := None;
          aspec_source := {| asrc_type := "ContainerImage";
                             asrc_containerImage := Some {| aci_ref := "ghcr.io/org/files:v1"; aci_pullPolicy := "";
                                                            aci_imagePullSecrets := ["regcred"] |} |};
          aspec_config := {| acfg_port := 8080; acfg_arguments := ["--verbose"]; acfg_env := []; acfg_envFrom := [];
                             acfg_storage := [{| asm_path := "/tmp"; asm_permissions := "ReadWrite";
                                                 asm_source := {| ass_type := "EmptyDir"; ass_configMap := None; ass_secret := None;
                                                                  ass_emptyDir := Some {| ed_other := "" |} |} |}];
                             acfg_path := "/mcp" |};
          aspec_runtime := {| art_replicas := Some 2;
                              art_security := {| asec_serviceAccountName := "reader"; asec_podSecurityContext := None; asec_securityContext := None |};
                              art_resources := None; art_health := {| ah_livenessProbe := None; ah_readinessProbe := None |} |};
          aspec_mcp := {| amcp_stateless := Some true |}; aspec_network := None; aspec_transport := None |};
     asrv_status := {| ast_observedGeneration := 0; ast_deploymentName := ""; ast_serviceName := ""; ast_address := None; ast_serverInfo := None;
                       ast_handshakeRetryCount := 0; ast_replicas := 0; ast_readyReplicas := 0; ast_conditions := [] |} |}.

Definition byoHubServer : ApiBeta.MCPServer := serverWith
  {| spec_extraLabels := None; spec_extraAnnotations := None;
     spec_workloadRef := Some {| wr_name := "agent"; wr_kind := WorkloadKindDaemonSet |};
     spec_serviceRef := Some {| sr_name := "agent" |};
     spec_source := zeroSource; spec_config := zeroConfig; spec_runtime := zeroRuntime; spec_mcp := {| mcp_stateless := None |};
     spec_network := None; spec_transport := None; spec_gateway := None |}.

Lemma alphaServer_accepted : @ok_alpha_MCPServerSpec modelVendor sampleCEL sampleEmbedded (asrv_spec alphaServer) = true.
Proof. vm_compute. reflexivity. Qed.

Lemma byoHubServer_accepted : @ok_MCPServerSpec modelVendor sampleCEL sampleEmbedded (srv_spec byoHubServer) = true.
Proof. vm_compute. reflexivity. Qed.

(** A v1alpha1 manifest written over a server with a workload reference. *)
Lemma alpha_schema_sound_witness :
  @ok_MCPServerSpec modelVendor sampleCEL sampleEmbedded (srv_spec (ConvertTo alphaServer)) = true /\
  @ok_update modelVendor sampleCEL sampleEmbedded (srv_spec byoHubServer) (srv_spec (ConvertTo alphaServer)) = false /\
  @ok_alpha_MCPServerSpec modelVendor sampleCEL sampleEmbedded (asrv_spec (ConvertFrom byoHubServer)) <> true.
Proof.
  destruct (@alpha_schema_sound modelVendor sampleCEL sampleEmbedded alphaServer byoHubServer) as [H1 H2].
  destruct (H1 alphaServer_accepted) as [Ha Hu]. split; [exact Ha|]. split; [exact Hu|].
  intros H. discriminate (proj1 (H2 byoHubServer_accepted) H).
Defined.

Lemma accepted_spec_builds_witness :
  exists d c n, createDeployment sampleReconciler (ConvertTo alphaServer) = Ok d /\
    ps_containers (pt_spec (dep_template d)) = [c] /\ dep_replicas d = Some n /\ 0 <= n.
Proof.
  destruct (@accepted_spec_builds modelVendor sampleCEL sampleEmbedded sampleReconciler (ConvertTo alphaServer) None)
    as (d & c & n & Hd & Hc & _ & _ & _ & Hn & Hpos & _).
  - apply (@alpha_accepted_converts modelVendor sampleCEL sampleEmbedded alphaServer alphaServer_accepted).
  - reflexivity.
  - exists d, c, n. split; [exact Hd|]. split; [exact Hc|]. split; [exact Hn|exact Hpos].
Defined.
