(* ===== verification/Handshake.v ===== *)
(** * Endpoint verification (mcpserver_controller_handshake.go, mcpserver_controller_tls.go)

    The TLS transport of the MCP client, the handshake and the Verified condition it
    yields, the in-memory retry count and its backoff, and the comparison of the
    capabilities a server reports.  The MCP client library is behind the call [CDial]. *)

From S2P Require Import Prelude K8s ApiAlpha ApiBeta StatusAC Interact Conditions AuditLog Sha256 Service ConfigHash.

(** ** TLS *)

Definition caBundleKey : string := "ca.crt".
Definition VersionTLS12 : Z := 771.

Definition urlScheme (mcpServer : MCPServer) : string :=
  match spec_transport (srv_spec mcpServer) with
  | Some {| tr_tls := Some tls |} => if tls_enabled tls then "https" else "http"
  | _ => "http"
  end.

Definition tlsConfigWith (insecure : bool) (rootCAs : option string) : TLSConfig :=
  {| tc_minVersion := VersionTLS12; tc_insecureSkipVerify := insecure; tc_rootCAs := rootCAs;
     tc_cipherSuites := []; tc_curvePreferences := [] |}.

Section with_vendor.
Context `{V : Vendor}.

(** [None] is a nil transport; otherwise the transport is a clone of the default one
    with this TLS configuration. *)
Definition buildTLSTransport (rd : reader) (namespace : string) (tlsConfig : option TLSClientConfig) : M (result (option TLSConfig)) :=
  match tlsConfig with
  | None => mret (Ok None)
  | Some tls =>
      if negb (tls_enabled tls) then mret (Ok None)
      else if tls_insecureSkipVerify tls then mret (Ok (Some (tlsConfigWith true None)))
      else
        match tls_caBundleSecret tls with
        | None => mret (Ok (Some (tlsConfigWith false None)))
        | Some ref =>
            got ← call (CGet rd KSecret namespace (secref_name ref));
            match got with
            | Err e => mret (Err (Wrap ("fetching CA bundle Secret " +:+ fmt.q (secref_name ref) +:+ ": ") e))
            | Ok secret =>
                match sec_data secret !! caBundleKey with
                | None => mret (Err (Errorf ("secret " +:+ fmt.q (secref_name ref) +:+ " does not contain key " +:+ fmt.q caBundleKey)))
                | Some caPEM =>
                    if negb (AppendCertsFromPEM caPEM)
                    then mret (Err (Errorf ("secret " +:+ fmt.q (secref_name ref) +:+ " key " +:+ fmt.q caBundleKey
                                            +:+ " contains no valid PEM certificates")))
                    else mret (Ok (Some (tlsConfigWith false (Some caPEM))))
                end
            end
        end
  end.

Definition with_minVersion (v : Z) (cfg : TLSConfig) : TLSConfig :=
  {| tc_minVersion := v; tc_insecureSkipVerify := tc_insecureSkipVerify cfg; tc_rootCAs := tc_rootCAs cfg;
     tc_cipherSuites := tc_cipherSuites cfg; tc_curvePreferences := tc_curvePreferences cfg |}.

Definition applyTLSProfileWithFloor (cfg : TLSConfig) (profile : TLSConfig -> TLSConfig) : TLSConfig :=
  let floor := tc_minVersion cfg in
  let cfg' := profile cfg in
  if tc_minVersion cfg' <? floor then with_minVersion floor cfg' else cfg'.

Definition stateKey (mcpServer : MCPServer) : string :=
  om_namespace (srv_meta mcpServer) +:+ "/" +:+ om_name (srv_meta mcpServer).

Definition with_hashes (h : gmap string string) (s : RState) : RState :=
  {| tlsCABundleHashes := h; handshakeRetries := handshakeRetries s |}.
Definition with_retries (h : gmap string handshakeRetryState) (s : RState) : RState :=
  {| tlsCABundleHashes := tlsCABundleHashes s; handshakeRetries := h |}.

Definition updateTLSCABundleHash (mcpServer : MCPServer) (hash : string) (verifiedCondition : Condition) : M unit :=
  s ← get_state;
  let key := stateKey mcpServer in
  if hash == "" then put_state (with_hashes (delete key (tlsCABundleHashes s)) s)
  else if c_status verifiedCondition == ConditionTrue then put_state (with_hashes (<[key := hash]> (tlsCABundleHashes s)) s)
  else mret tt.

Definition computeTLSCABundleHash (rd : reader) (namespace : string) (tlsConfig : option TLSClientConfig) : M string :=
  match tlsConfig with
  | None => mret ""
  | Some tls =>
      match tls_caBundleSecret tls with
      | Some ref =>
          if negb (tls_enabled tls) || tls_insecureSkipVerify tls then mret ""
          else
            got ← call (CGet rd KSecret namespace (secref_name ref));
            match got with
            | Err _ => mret ""
            | Ok secret =>
                match sec_data secret !! caBundleKey with
                | None => mret ""
                | Some caPEM => mret (sha256.hex caPEM)
                end
            end
      | None => mret ""
      end
  end.

(** ** The handshake *)

(** [prometheus.Labels] of the handshake counter. *)
Definition withResult (labels : list (string * string)) (res : string) : list (string * string) := labels ++ [("result", res)].

Definition metricLabels (mcpServer : MCPServer) : list (string * string) :=
  [("name", om_name (srv_meta mcpServer)); ("namespace", om_namespace (srv_meta mcpServer))].

Definition handshakeTotal (mcpServer : MCPServer) (res : string) : M unit :=
  out (OMetric (CounterInc "handshake_total" (withResult (metricLabels mcpServer) res))).

(** The status texts of net/http for 401 and 403. *)
Definition isHTTPAuthError (err : error) : bool :=
  strings.HasSuffix (Error err) (": " +:+ "Unauthorized") || strings.HasSuffix (Error err) (": " +:+ "Forbidden").

Definition emptyInfo : MCPServerInfo :=
  {| info_name := ""; info_version := ""; info_protocolVersion := ""; info_instructions := ""; info_capabilities := None |}.

(** A Verified condition that keeps the transition time of the previous one. *)
Definition verifiedWith (mcpServer : MCPServer) (status reason message : string) : M Condition :=
  c ← newCondition ConditionTypeVerified status reason message (om_generation (srv_meta mcpServer));
  mret (preserveLastTransitionTime c (st_conditions (srv_status mcpServer))).

Definition isTrue (c : option Condition) : bool :=
  match c with Some c => c_status c == ConditionTrue | None => false end.

(** The TLS part of [reconcileHandshake]: the transport to dial with. *)
Definition handshakeTransport (r : MCPServerReconciler) (mcpServer : MCPServer) : M (result (option TLSConfig)) :=
  match spec_transport (srv_spec mcpServer) with
  | Some {| tr_tls := Some tls |} =>
      (if tls_enabled tls && tls_insecureSkipVerify tls then emitInsecureTLSWarning r mcpServer else mret tt) ;;
      built ← buildTLSTransport Direct (om_namespace (srv_meta mcpServer)) (Some tls);
      match built with
      | Err e => mret (Err e)
      | Ok None => mret (Ok None)
      | Ok (Some cfg) =>
          mret (Ok (Some (match TLSProfile r with Some profile => applyTLSProfileWithFloor cfg profile | None => cfg end)))
      end
  | _ => mret (Ok None)
  end.

(** The part of [reconcileHandshake] after the already-verified shortcut. *)
Definition attemptHandshake (r : MCPServerReconciler) (mcpServer : MCPServer) (mcpURL : string) : M (Condition * option MCPServerInfo) :=
  let conditions := st_conditions (srv_status mcpServer) in
  let existingVerified := FindStatusCondition conditions ConditionTypeVerified in
  transport ← handshakeTransport r mcpServer;
  match transport with
  | Err tlsErr =>
      handshakeTotal mcpServer "failure" ;;
      c ← verifiedWith mcpServer ConditionFalse ReasonEndpointUnavailable ("TLS configuration error: " +:+ Error tlsErr);
      mret (c, None)
  | Ok tlsTransport =>
      auditHandshakeAttempt mcpServer mcpURL ;;
      start ← call CNow;
      dialed ← call (CDial mcpURL tlsTransport);
      now ← call CNow;
      let elapsed := now - start in
      out (OMetric (Observe "handshake_duration_seconds" (metricLabels mcpServer))) ;;
      match dialed with
      | Err err =>
          if isHTTPAuthError err then
            handshakeTotal mcpServer "auth_skip" ;;
            auditHandshakeAuthSkip mcpServer mcpURL err ;;
            emitHandshakeAuthSkip r mcpServer mcpURL ;;
            c ← verifiedWith mcpServer ConditionTrue ReasonAuthSkipped
                  "Endpoint reachable but MCP protocol not verified: requires authentication";
            mret (c, Some emptyInfo)
          else
            handshakeTotal mcpServer "failure" ;;
            auditHandshakeFailed mcpServer mcpURL err elapsed ;;
            c ← newCondition ConditionTypeVerified ConditionFalse ReasonEndpointUnavailable
                  ("MCP endpoint is not serving a valid MCP protocol: " +:+ Error err) (om_generation (srv_meta mcpServer));
            mret (if isTrue existingVerified then c else preserveLastTransitionTime c conditions, None)
      | Ok info =>
          handshakeTotal mcpServer "success" ;;
          auditHandshakeSuccess mcpServer mcpURL info elapsed ;;
          c ← verifiedWith mcpServer ConditionTrue ReasonVerified "MCP handshake succeeded";
          mret (c, info)
      end
  end.

Definition reconcileHandshake (r : MCPServerReconciler) (mcpServer : MCPServer) (mcpURL : string)
    (availableCondition : Condition) (tlsCABundleHash : string) : M (Condition * option MCPServerInfo) :=
  let conditions := st_conditions (srv_status mcpServer) in
  let generation := om_generation (srv_meta mcpServer) in
  s ← get_state;
  let previousHash := default "" (tlsCABundleHashes s !! stateKey mcpServer) in
  let existingVerified := FindStatusCondition conditions ConditionTypeVerified in
  if (c_status availableCondition != ConditionTrue) || (c_reason availableCondition != ReasonAvailable) then
    c ← newNotVerifiedCondition generation conditions;
    mret (c, None)
  else
    match existingVerified, st_serverInfo (srv_status mcpServer),
          isTrue existingVerified && (st_observedGeneration (srv_status mcpServer) =? generation)
          && (previousHash == tlsCABundleHash) with
    | Some c, Some info, true =>
        handshakeTotal mcpServer "skip" ;;
        mret (c, Some info)
    | _, _, _ => attemptHandshake r mcpServer mcpURL
    end.

End with_vendor.

(** The parts of the MCP library's [InitializeResult] that are kept. *)
Record Implementation := { impl_name : string; impl_version : string }.
Record ServerCapabilities := {
  scap_tools : bool; scap_resources : bool; scap_prompts : bool; scap_logging : bool; scap_completions : bool
}.
Record InitializeResult := {
  ir_protocolVersion : string;
  ir_instructions : string;
  ir_serverInfo : option Implementation;
  ir_capabilities : option ServerCapabilities
}.

(** Each capability field says whether the pointer of that name is set. *)
Definition extractServerInfo (res : option InitializeResult) : option MCPServerInfo :=
  match res with
  | None => None
  | Some res =>
      Some {| info_name := match ir_serverInfo res with Some i => impl_name i | None => "" end;
              info_version := match ir_serverInfo res with Some i => impl_version i | None => "" end;
              info_protocolVersion := ir_protocolVersion res; info_instructions := ir_instructions res;
              info_capabilities := option_map (fun c => {| caps_tools := scap_tools c; caps_resources := scap_resources c;
                caps_prompts := scap_prompts c; caps_logging := scap_logging c; caps_completions := scap_completions c |})
                (ir_capabilities res) |}
  end.

(** ** Retries *)

Definition Second : Z := 1000000000.
Definition requeueDelayConflict : Z := 1 * Second.
Definition requeueDelayMCPHandshake : Z := 10 * Second.
Definition maxRequeueDelayMCPHandshake : Z := 120 * Second.
Definition maxMCPHandshakeRetries : Z := 10.

Definition wrap64 (z : Z) : Z := (z + 2 ^ 63) mod 2 ^ 64 - 2 ^ 63.

Fixpoint backoffLoop (n : nat) (delay : Z) : Z :=
  match n with
  | O => delay
  | S n' => let delay' := wrap64 (delay * 2) in
            if maxRequeueDelayMCPHandshake <? delay' then maxRequeueDelayMCPHandshake else backoffLoop n' delay'
  end.

(** [for range retryCount] runs no iteration for a negative count. *)
Definition mcpHandshakeBackoff (retryCount : Z) : Z := backoffLoop (Z.to_nat retryCount) requeueDelayMCPHandshake.

(** [ctrl.Result]; 0 asks for no timed requeue. *)
Record Result := { RequeueAfter : Z }.
Definition noRequeue : Result := {| RequeueAfter := 0 |}.

Definition handshakeRequeue (mcpServer : MCPServer) (verifiedCondition : Condition) (retryCount : Z) : M (option Result) :=
  if (c_status verifiedCondition != ConditionFalse) || (c_reason verifiedCondition != ReasonEndpointUnavailable) then mret None
  else if maxMCPHandshakeRetries <=? retryCount then
    auditHandshakeRetriesExhausted mcpServer retryCount maxMCPHandshakeRetries ;;
    mret (Some noRequeue)
  else mret (Some {| RequeueAfter := mcpHandshakeBackoff (retryCount - 1) |}).

(** The count is an [int32]. Returns it with the condition, whose message is
    extended once retries are exhausted. *)
Definition reconcileHandshakeEventsAndRetryCount (r : MCPServerReconciler) (mcpServer : MCPServer)
    (verifiedCondition : Condition) : M (Z * Condition) :=
  let key := stateKey mcpServer in
  let generation := om_generation (srv_meta mcpServer) in
  s ← get_state;
  if c_reason verifiedCondition != ReasonEndpointUnavailable then
    put_state (with_retries (delete key (handshakeRetries s)) s) ;;
    mret (0, verifiedCondition)
  else
    let prev0 := default {| hr_generation := 0; hr_count := 0 |} (handshakeRetries s !! key) in
    let prev := if hr_generation prev0 =? generation then prev0 else {| hr_generation := generation; hr_count := 0 |} in
    let next := {| hr_generation := generation; hr_count := wrap32 (hr_count prev + 1) |} in
    put_state (with_retries (<[key := next]> (handshakeRetries s)) s) ;;
    let baseMessage := c_message verifiedCondition in
    let verified :=
      if maxMCPHandshakeRetries <=? hr_count next
      then with_message (baseMessage +:+ " Automatic retries exhausted after " +:+ fmt.d maxMCPHandshakeRetries
                         +:+ " attempts; not retrying until the spec or CA bundle changes.") verifiedCondition
      else verifiedCondition in
    (if duplicateHandshakeUnavailable (st_conditions (srv_status mcpServer)) (c_message verified) then mret tt
     else emitMCPHandshakeFailed r mcpServer baseMessage) ;;
    (if (maxMCPHandshakeRetries <=? hr_count next) && (hr_count prev <? maxMCPHandshakeRetries)
     then emitMCPHandshakeRetriesExhausted r mcpServer (hr_count next) else mret tt) ;;
    mret (hr_count next, verified).

(** ** Capabilities *)

Definition noCapabilities : MCPServerCapabilities :=
  {| caps_tools := false; caps_resources := false; caps_prompts := false; caps_logging := false; caps_completions := false |}.

Definition capDiff (name : string) (old new : bool) : list string :=
  if Bool.eqb old new then [] else [name +:+ ": " +:+ fmt.t old +:+ "->" +:+ fmt.t new].

Definition capabilityDiffMessage (old new : option MCPServerCapabilities) : string :=
  let oldCaps := default noCapabilities old in
  let newCaps := default noCapabilities new in
  strings.Join
    (capDiff "tools" (caps_tools oldCaps) (caps_tools newCaps)
     ++ capDiff "resources" (caps_resources oldCaps) (caps_resources newCaps)
     ++ capDiff "prompts" (caps_prompts oldCaps) (caps_prompts newCaps)
     ++ capDiff "logging" (caps_logging oldCaps) (caps_logging newCaps)
     ++ capDiff "completions" (caps_completions oldCaps) (caps_completions newCaps)) ", ".

Definition capabilityChangeMessage (mcpServer : MCPServer) (serverInfo : option MCPServerInfo) : string :=
  match serverInfo, st_serverInfo (srv_status mcpServer) with
  | Some new, Some old =>
      match info_capabilities new, info_capabilities old with
      | None, None => ""
      | _, _ => capabilityDiffMessage (info_capabilities old) (info_capabilities new)
      end
  | _, _ => ""
  end.

(** ** Backoff *)

Lemma wrap64_id z : - 2 ^ 63 <= z < 2 ^ 63 -> wrap64 z = z.
Proof. intros. unfold wrap64. rewrite Z.mod_small; lia. Qed.

Lemma backoffLoop_min n d :
  0 < d <= maxRequeueDelayMCPHandshake -> backoffLoop n d = Z.min (d * 2 ^ Z.of_nat n) maxRequeueDelayMCPHandshake.
Proof.
  unfold maxRequeueDelayMCPHandshake, Second. revert d. induction n as [|n IH]; intros d Hd.
  - cbn [backoffLoop]. change (2 ^ Z.of_nat 0) with 1. lia.
  - cbn [backoffLoop]. rewrite wrap64_id by lia. unfold maxRequeueDelayMCPHandshake, Second.
    rewrite Nat2Z.inj_succ, Z.pow_succ_r by lia. pose proof (Z.pow_pos_nonneg 2 (Z.of_nat n)).
    destruct (Z.ltb_spec (120 * 1000000000) (d * 2)); [nia|]. rewrite IH by lia. f_equal. ring.
Qed.

(** The [k]-th wait: doubling from ten seconds, at most two minutes. *)
Definition wait_after (k : Z) : Z := Z.min (requeueDelayMCPHandshake * 2 ^ (k - 1)) maxRequeueDelayMCPHandshake.

Lemma backoff_wait k : 1 <= k -> mcpHandshakeBackoff (k - 1) = wait_after k.
Proof.
  intros Hk. unfold mcpHandshakeBackoff, wait_after. rewrite backoffLoop_min by (unfold requeueDelayMCPHandshake, maxRequeueDelayMCPHandshake, Second; lia).
  by rewrite Z2Nat.id by lia.
Qed.

(** ** A run of failed handshakes *)

(** One reconcile whose handshake failed with [c]: the bookkeeping and the requeue. *)
Definition failedAttempt (r : MCPServerReconciler) (srv : MCPServer) (c : Condition) : M (option Result) :=
  counted ← reconcileHandshakeEventsAndRetryCount r srv c;
  handshakeRequeue srv (snd counted) (fst counted).

Fixpoint failedAttempts (r : MCPServerReconciler) (srv : MCPServer) (c : Condition) (n : nat) : M (list (option Result)) :=
  match n with
  | O => mret []
  | S n' => x ← failedAttempt r srv c; xs ← failedAttempts r srv c n'; mret (x :: xs)
  end.

Definition unavailable (c : Condition) : Prop := c_status c = ConditionFalse /\ c_reason c = ReasonEndpointUnavailable.

(** The failures counted so far for this generation. *)
Definition failures_in (s : RState) (srv : MCPServer) : Z :=
  match handshakeRetries s !! stateKey srv with
  | Some st => if hr_generation st =? om_generation (srv_meta srv) then hr_count st else 0
  | None => 0
  end.

(** What the requeue after the [k]-th failure asks for: a wait, or nothing any more. *)
Definition requeue_after (k : Z) : option Result :=
  Some {| RequeueAfter := if k <? maxMCPHandshakeRetries then wait_after k else 0 |}.

Fixpoint requeues_from (k : Z) (n : nat) : list (option Result) :=
  match n with O => [] | S n' => requeue_after k :: requeues_from (k + 1) n' end.

Lemma mwp_silent {A} (m : M A) s (Q : list event -> A -> RState -> Prop) :
  silent m -> (forall tr a, Forall (fun e => let '(Ev c _) := e in outputs c) tr -> Q tr a s) -> mwp m s Q.
Proof.
  intros [Hc Hs] HQ. unfold mwp. specialize (Hs s). unfold mwp in Hs. rewrite wp_runs in *. intros tr [a s'] Hr.
  specialize (Hs _ _ Hr). cbn in Hs. subst s'. apply HQ. by eapply calls_all_runs; [apply Hc|].
Qed.

(** Sequencing after something that only produces output. *)
Lemma mwp_then_silent {A B} (m : M A) (f : A -> M B) s (Q : list event -> B -> RState -> Prop) :
  silent m -> (forall tr a, Forall (fun e => let '(Ev c _) := e in outputs c) tr ->
                 mwp (f a) s (fun tr' b s' => Q (tr ++ tr') b s')) -> mwp (m ≫= f) s Q.
Proof. intros Hm Hf. apply mwp_bind, mwp_silent; [done|]. intros tr a Htr. by apply Hf. Qed.

Lemma silent_if (b : bool) (m1 m2 : M unit) : silent m1 -> silent m2 -> silent (if b then m1 else m2).
Proof. by destruct b. Qed.

Lemma mwp_retry r srv c s (Q : list event -> Z * Condition -> RState -> Prop) :
  unavailable c -> 0 <= failures_in s srv < 2 ^ 31 - 1 ->
  (forall tr c' s', unavailable c' -> failures_in s' srv = failures_in s srv + 1 ->
     Q tr (failures_in s srv + 1, c') s') ->
  mwp (reconcileHandshakeEventsAndRetryCount r srv c) s Q.
Proof.
  intros [Hst Hrs] Hb HQ. unfold reconcileHandshakeEventsAndRetryCount.
  apply mwp_bind, mwp_get. rewrite Hrs, bool_decide_eq_true_2 by done. cbn [negb].
  set (prev := if hr_generation _ =? _ then _ else _).
  assert (Hp : hr_count prev = failures_in s srv).
  { unfold prev, failures_in. destruct (handshakeRetries s !! stateKey srv) as [st|]; cbn; by case_match. }
  assert (Hn : wrap32 (hr_count prev + 1) = failures_in s srv + 1) by (rewrite Hp; apply wrap32_id; unfold is_int32; lia).
  rewrite Hn. apply mwp_bind, mwp_put.
  apply mwp_then_silent; [apply silent_if; [apply silent_ret|apply silent_Eventf]|]. intros tr1 _ _.
  apply mwp_then_silent; [apply silent_if; [apply silent_Eventf|apply silent_ret]|]. intros tr2 _ _.
  apply mwp_ret. apply HQ.
  - split; by destruct (_ <=? _).
  - unfold failures_in at 1. cbn. rewrite lookup_insert_eq. cbn. by rewrite Z.eqb_refl.
Qed.

Lemma silent_exhausted srv a b : silent (auditHandshakeRetriesExhausted srv a b).
Proof. apply silent_out. Qed.

Lemma mwp_failedAttempt r srv c s (Q : list event -> option Result -> RState -> Prop) :
  unavailable c -> 0 <= failures_in s srv < 2 ^ 31 - 1 ->
  (forall tr s', failures_in s' srv = failures_in s srv + 1 -> Q tr (requeue_after (failures_in s srv + 1)) s') ->
  mwp (failedAttempt r srv c) s Q.
Proof.
  intros Hu Hb HQ. apply mwp_bind, mwp_retry; [done..|]. intros tr c' s' [Hst Hrs] Hf. cbn [fst snd].
  unfold handshakeRequeue. rewrite Hst, Hrs, !bool_decide_eq_true_2 by done. cbn [negb orb].
  unfold requeue_after in HQ. rewrite Z.ltb_antisym in HQ.
  destruct (maxMCPHandshakeRetries <=? failures_in s srv + 1); cbn [negb] in HQ.
  - apply mwp_then_silent; [apply silent_exhausted|]. intros tr2 _ _. apply mwp_ret. rewrite app_nil_r. by apply HQ.
  - apply mwp_ret. rewrite backoff_wait by lia. by apply HQ.
Qed.

(** C15: Retry schedule: however the previous attempts went, the [k]-th consecutive
    failed handshake of a generation requeues after 10s, 20s, 40s, 80s and then 120s,
    and from the tenth failure on no requeue is asked for. *)
Theorem handshake_retry_schedule r srv c n s tr res s' :
  unavailable c -> 0 <= failures_in s srv -> failures_in s srv + Z.of_nat n < 2 ^ 31 ->
  runs (failedAttempts r srv c n s) tr (res, s') ->
  res = requeues_from (failures_in s srv + 1) n /\ failures_in s' srv = failures_in s srv + Z.of_nat n.
Proof.
  intros Hu H0 Hn Hr. by_wp Hr. revert s H0 Hn. induction n as [|n IH]; intros s H0 Hn; cbn [failedAttempts requeues_from].
  - apply mwp_ret. split; [done|lia].
  - apply mwp_bind, mwp_failedAttempt; [done|lia|]. intros tr1 s1 H1.
    apply mwp_bind. eapply mwp_mono; [apply IH; lia|]. intros tr2 xs s2 [-> H2]. apply mwp_ret.
    rewrite H1 in *. split; [done|lia].
Qed.

Definition failedCondition : Condition := condition_at 0 ConditionTypeVerified ConditionFalse ReasonEndpointUnavailable "refused" 1.

Lemma handshake_retry_schedule_witness :
  map (fun x => match x with Some r => RequeueAfter r / Second | None => -1 end) (requeues_from 1 11) =
    [10; 20; 40; 80; 120; 120; 120; 120; 120; 0; 0] /\
  fst (snd (run_in emptyWorld (failedAttempts sampleReconciler sampleServer failedCondition 11) emptyState)) = requeues_from 1 11.
Proof.
  split; [vm_compute; reflexivity|].
  pose proof (run_in_runs emptyWorld (failedAttempts sampleReconciler sampleServer failedCondition 11) emptyState) as Hr.
  destruct (snd (run_in emptyWorld (failedAttempts sampleReconciler sampleServer failedCondition 11) emptyState)) as [res s'].
  refine (proj1 (handshake_retry_schedule sampleReconciler sampleServer failedCondition 11 emptyState _ _ _ _ _ _ Hr)).
  - split; reflexivity.
  - vm_compute. discriminate.
  - vm_compute. reflexivity.
Defined.

(** ** What the handshake dials *)

Definition dial : Type := string * option TLSConfig * result (option MCPServerInfo).

Definition dial_of (e : event) : list dial :=
  match e with
  | Ev c r =>
      match c return resp c -> list dial with
      | CDial url tp => fun r => [(url, tp, r)]
      | _ => fun _ => []
      end r
  end.

Definition dials (tr : list event) : list dial := concat (map dial_of tr).

Lemma dials_app tr1 tr2 : dials (tr1 ++ tr2) = dials tr1 ++ dials tr2.
Proof. unfold dials. by rewrite map_app, concat_app. Qed.
Lemma dials_cons e tr : dials (e :: tr) = dial_of e ++ dials tr.
Proof. done. Qed.

Lemma dials_outputs tr : Forall (fun e => let '(Ev c _) := e in outputs c) tr -> dials tr = [].
Proof. induction 1 as [|[c a] tr Hc _ IH]; [done|]. rewrite dials_cons, IH. by destruct c. Qed.

Section verified.
Context `{V : Vendor}.
Context (r : MCPServerReconciler) (srv : MCPServer).

(** The TLS settings a dial must respect when the spec enables TLS. *)
Definition secure_transport (tls : TLSClientConfig) (cfg : TLSConfig) : Prop :=
  VersionTLS12 <= tc_minVersion cfg /\
  tc_insecureSkipVerify cfg = tls_insecureSkipVerify tls /\
  (tls_insecureSkipVerify tls = false -> tls_caBundleSecret tls <> None ->
   exists caPEM, tc_rootCAs cfg = Some caPEM /\ AppendCertsFromPEM caPEM = true).

Definition tlsOf : option TLSClientConfig :=
  match spec_transport (srv_spec srv) with Some t => tr_tls t | None => None end.

Definition transport_ok (tp : option TLSConfig) : Prop :=
  match tlsOf with
  | Some tls => if tls_enabled tls then exists cfg, tp = Some cfg /\ secure_transport tls cfg else tp = None
  | None => tp = None
  end.

(** The operator's TLS profile leaves certificate verification alone. *)
Definition keeps_trust : Prop :=
  forall p cfg, TLSProfile r = Some p ->
    tc_insecureSkipVerify (p cfg) = tc_insecureSkipVerify cfg /\ tc_rootCAs (p cfg) = tc_rootCAs cfg.

Lemma applyTLSProfileWithFloor_floor p cfg : tc_minVersion cfg <= tc_minVersion (applyTLSProfileWithFloor cfg p).
Proof. unfold applyTLSProfileWithFloor. destruct (Z.ltb_spec (tc_minVersion (p cfg)) (tc_minVersion cfg)); cbn; lia. Qed.

Lemma applyTLSProfileWithFloor_trust p cfg :
  tc_insecureSkipVerify (applyTLSProfileWithFloor cfg p) = tc_insecureSkipVerify (p cfg) /\
  tc_rootCAs (applyTLSProfileWithFloor cfg p) = tc_rootCAs (p cfg).
Proof. unfold applyTLSProfileWithFloor. by destruct (_ <? _). Qed.

Lemma mwp_buildTLSTransport rd ns tls s (Q : list event -> result (option TLSConfig) -> RState -> Prop) :
  (forall tr tp, dials tr = [] ->
     (if tls_enabled tls then exists cfg, tp = Some cfg /\ secure_transport tls cfg else tp = None) -> Q tr (Ok tp) s) ->
  (forall tr e, dials tr = [] -> Q tr (Err e) s) ->
  mwp (buildTLSTransport rd ns (Some tls)) s Q.
Proof.
  intros H1 H2. unfold buildTLSTransport. destruct (tls_enabled tls) eqn:Ee; cbn [negb]; [|by apply mwp_ret, H1].
  destruct (tls_insecureSkipVerify tls) eqn:Ei.
  { apply mwp_ret, H1; [done|]. eexists. split; [done|]. split_and!; [done..|]. by rewrite Ei. }
  destruct (tls_caBundleSecret tls) as [ref|] eqn:Ec.
  - apply mwp_bind, mwp_call. intros [secret|e]; [|by apply mwp_ret, H2].
    destruct (sec_data secret !! caBundleKey) as [pem|]; [|by apply mwp_ret, H2].
    destruct (AppendCertsFromPEM pem) eqn:Ep; cbn [negb]; [|by apply mwp_ret, H2].
    apply mwp_ret, H1; [done|]. eexists. split; [done|]. split_and!; [done..|]. eauto.
  - apply mwp_ret, H1; [done|]. eexists. split; [done|]. by split_and!.
Qed.

Hypothesis Htrust : keeps_trust.

Lemma mwp_handshakeTransport s (Q : list event -> result (option TLSConfig) -> RState -> Prop) :
  (forall tr tp, dials tr = [] -> transport_ok tp -> Q tr (Ok tp) s) ->
  (forall tr e, dials tr = [] -> Q tr (Err e) s) ->
  mwp (handshakeTransport r srv) s Q.
Proof.
  intros H1 H2. unfold handshakeTransport. unfold transport_ok, tlsOf in H1.
  destruct (spec_transport (srv_spec srv)) as [[[tls|]]|]; [|by apply mwp_ret, H1..]. cbn [tr_tls] in H1.
  apply mwp_then_silent; [apply silent_if; [apply silent_Eventf|apply silent_ret]|]. intros tr1 _ Ht1.
  apply dials_outputs in Ht1. apply mwp_bind, mwp_buildTLSTransport.
  - intros tr tp Htr Htp. destruct tp as [cfg|].
    + apply mwp_ret. apply H1; [by rewrite !dials_app, Ht1, Htr|].
      destruct (tls_enabled tls); [|done]. destruct Htp as (cfg' & [= <-] & Hm & Hi & Hc). eexists. split; [done|].
      destruct (TLSProfile r) as [p|] eqn:Ep; [|done].
      destruct (applyTLSProfileWithFloor_trust p cfg) as [Ti Tc]. destruct (Htrust p cfg Ep) as [Pi Pc].
      pose proof (applyTLSProfileWithFloor_floor p cfg). unfold secure_transport. rewrite Ti, Tc, Pi, Pc.
      split_and!; [lia|done..].
    + apply mwp_ret. apply H1; [by rewrite !dials_app, Ht1, Htr|]. by destruct (tls_enabled tls).
  - intros tr e Htr. apply mwp_ret, H2. by rewrite !dials_app, Ht1, Htr.
Qed.

(** The four outcomes of the handshake step. *)
Inductive outcome (url hash : string) (avail : Condition) (s : RState) : list dial -> Condition -> option MCPServerInfo -> Prop :=
| not_attempted c :
    c_status avail <> ConditionTrue \/ c_reason avail <> ReasonAvailable ->
    c_status c = ConditionUnknown -> c_reason c = ReasonNotVerified -> outcome url hash avail s [] c None
| kept c info :
    c_status avail = ConditionTrue -> c_reason avail = ReasonAvailable ->
    FindStatusCondition (st_conditions (srv_status srv)) ConditionTypeVerified = Some c -> c_status c = ConditionTrue ->
    st_observedGeneration (srv_status srv) = om_generation (srv_meta srv) ->
    st_serverInfo (srv_status srv) = Some info -> default "" (tlsCABundleHashes s !! stateKey srv) = hash ->
    outcome url hash avail s [] c (Some info)
| failed ds c :
    c_status avail = ConditionTrue -> c_reason avail = ReasonAvailable ->
    (ds = [] \/ exists tp e, ds = [(url, tp, Err e)] /\ transport_ok tp /\ isHTTPAuthError e = false) ->
    unavailable c -> outcome url hash avail s ds c None
| reached tp a c info :
    c_status avail = ConditionTrue -> c_reason avail = ReasonAvailable -> transport_ok tp -> c_status c = ConditionTrue ->
    (a = Ok info /\ c_reason c = ReasonVerified \/
     exists e, a = Err e /\ isHTTPAuthError e = true /\ c_reason c = ReasonAuthSkipped /\ info = Some emptyInfo) ->
    outcome url hash avail s [(url, tp, a)] c info.

Lemma mwp_verifiedWith st rs ms s (Q : list event -> Condition -> RState -> Prop) :
  (forall tr c, dials tr = [] -> c_type c = ConditionTypeVerified -> c_status c = st -> c_reason c = rs -> Q tr c s) ->
  mwp (verifiedWith srv st rs ms) s Q.
Proof.
  intros H. apply mwp_bind, mwp_newCondition. intros now. apply mwp_ret. apply H; [done|..];
    unfold preserveLastTransitionTime; repeat case_match; done.
Qed.

Lemma silent_handshakeTotal x : silent (handshakeTotal srv x).
Proof. apply silent_out. Qed.

Definition handshake_post url hash avail s (tr : list event) (ci : Condition * option MCPServerInfo) (s' : RState) : Prop :=
  s' = s /\ c_type (fst ci) = ConditionTypeVerified /\ outcome url hash avail s (dials tr) (fst ci) (snd ci).

Ltac quiet H := apply dials_outputs in H.

Lemma mwp_attemptHandshake url avail hash s :
  c_status avail = ConditionTrue -> c_reason avail = ReasonAvailable ->
  mwp (attemptHandshake r srv url) s (handshake_post url hash avail s).
Proof.
  intros Hs Hr. apply mwp_bind, mwp_handshakeTransport.
  2:{ intros tr e Htr. apply mwp_then_silent; [apply silent_handshakeTotal|]. intros tr1 _ H1. quiet H1.
      apply mwp_bind, mwp_verifiedWith. intros tr2 c Htr2 Ht Hst Hrs. apply mwp_ret. split_and!; [done..|].
      rewrite !dials_app, Htr, H1, Htr2. apply failed; [done..|by left|by split]. }
  intros tr tp Htr Htp. apply mwp_then_silent; [apply silent_out|]. intros tr1 _ H1. quiet H1.
  apply mwp_bind, mwp_call. intros start. apply mwp_bind, mwp_call. intros dialed. apply mwp_bind, mwp_call. intros now.
  apply mwp_then_silent; [apply silent_out|]. intros tr2 _ H2. quiet H2. destruct dialed as [info|err].
  - apply mwp_then_silent; [apply silent_handshakeTotal|]. intros tr3 _ H3. quiet H3.
    apply mwp_then_silent; [apply silent_out|]. intros tr4 _ H4. quiet H4.
    apply mwp_bind, mwp_verifiedWith. intros tr5 c H5 Ht Hst Hrs. apply mwp_ret. split_and!; [done..|].
    rewrite !dials_app, Htr, H1, H2, H3, H4, H5. eapply reached; eauto.
  - destruct (isHTTPAuthError err) eqn:Eauth.
    + apply mwp_then_silent; [apply silent_handshakeTotal|]. intros tr3 _ H3. quiet H3.
      apply mwp_then_silent; [apply silent_out|]. intros tr4 _ H4. quiet H4.
      apply mwp_then_silent; [apply silent_Eventf|]. intros tr5 _ H5. quiet H5.
      apply mwp_bind, mwp_verifiedWith. intros tr6 c H6 Ht Hst Hrs. apply mwp_ret. split_and!; [done..|].
      rewrite !dials_app, Htr, H1, H2, H3, H4, H5, H6. eapply reached; eauto 8.
    + apply mwp_then_silent; [apply silent_handshakeTotal|]. intros tr3 _ H3. quiet H3.
      apply mwp_then_silent; [apply silent_out|]. intros tr4 _ H4. quiet H4.
      apply mwp_bind, mwp_newCondition. intros t. apply mwp_ret.
      split; [done|]. split; [unfold preserveLastTransitionTime; cbn; repeat case_match; done|].
      rewrite !dials_app, Htr, H1, H2, H3, H4. apply failed; [done..|eauto 6|].
      unfold preserveLastTransitionTime; cbn; split; repeat case_match; done.
Qed.

Lemma mwp_reconcileHandshake url avail hash s :
  mwp (reconcileHandshake r srv url avail hash) s (handshake_post url hash avail s).
Proof.
  unfold reconcileHandshake. apply mwp_bind, mwp_get.
  destruct ((_ != ConditionTrue) || _) eqn:Ea.
  { apply orb_true_iff in Ea. apply mwp_bind, mwp_newNotVerifiedCondition. intros now. apply mwp_ret.
    split; [done|]. split; [unfold preserveLastTransitionTime; cbn; repeat case_match; done|].
    apply not_attempted; [|unfold preserveLastTransitionTime; cbn; repeat case_match; done..].
    destruct Ea; bool_to_prop; auto. }
  bool_to_prop.
  destruct (FindStatusCondition _ ConditionTypeVerified) as [c|] eqn:Ef; [|by apply mwp_attemptHandshake].
  destruct (st_serverInfo (srv_status srv)) as [info|] eqn:Ei; [|by apply mwp_attemptHandshake].
  destruct (isTrue (Some c) && _ && _) eqn:Eb; [|by apply mwp_attemptHandshake].
  cbn [isTrue] in Eb. bool_to_prop. apply mwp_then_silent; [apply silent_handshakeTotal|]. intros tr _ Htr. quiet Htr.
  apply mwp_ret. split; [done|]. split; [by apply FindStatusCondition_type in Ef as [? _]|].
  rewrite !dials_app, Htr. by apply kept.
Qed.

End verified.

(** Verification: the Verified condition is True only for a workload that is
    Available with reason Available, and only because either this generation was
    already verified with the same CA bundle (then nothing is dialled), or the one dial
    of the endpoint completed the handshake or was refused for lack of credentials; a
    dial uses TLS exactly when the spec enables it, with at least TLS 1.2, certificate
    verification unless the spec disables it, and the given CA bundle; failures are
    reported as EndpointUnavailable and without server information; the in-memory state
    is untouched. *)
Theorem handshake_outcomes `{V : Vendor} r srv url avail hash s tr c info s' :
  keeps_trust r ->
  runs (reconcileHandshake r srv url avail hash s) tr ((c, info), s') ->
  s' = s /\ c_type c = ConditionTypeVerified /\ outcome srv url hash avail s (dials tr) c info.
Proof.
  intros Ht Hr. pose proof (mwp_runs _ _ _ (mwp_reconcileHandshake r srv Ht url avail hash s) tr (c, info) s' Hr) as H.
  exact H.
Qed.

Definition tlsServer : MCPServer :=
  serverWith {| spec_extraLabels := None; spec_extraAnnotations := None; spec_workloadRef := None; spec_serviceRef := None;
    spec_source := spec_source sampleSpec; spec_config := spec_config sampleSpec; spec_runtime := zeroRuntime;
    spec_mcp := {| mcp_stateless := None |}; spec_network := None;
    spec_transport := Some {| tr_tls := Some {| tls_enabled := true; tls_caBundleSecret := None; tls_insecureSkipVerify := false |} |};
    spec_gateway := None |}.

(** An operator profile that would lower the minimum version to TLS 1.0. *)
Definition laxReconciler : MCPServerReconciler :=
  {| Scheme := Scheme sampleReconciler; Recorder := true; TLSEnvVars := []; TLSProfile := Some (with_minVersion 769);
     NetworkPolicyDefaultPosture := "restricted"; OperatorNamespace := "mcp-system";
     OperatorPodLabels := OperatorPodLabels sampleReconciler; WebhookEnabled := true; AdmissionPolicyActive := true |}.

Definition availableNow : Condition := condition_at 0 ConditionTypeAvailable ConditionTrue ReasonAvailable "" 1.

Lemma handshake_outcomes_witness :
  let run := run_in emptyWorld (@reconcileHandshake modelVendor laxReconciler tlsServer "https://srv.ns.svc" availableNow "") emptyState in
  dials (fst run) = [("https://srv.ns.svc", Some (tlsConfigWith false None), Err (Errorf "connection refused"))] /\
  @outcome modelVendor tlsServer "https://srv.ns.svc" "" availableNow emptyState (dials (fst run)) (fst (fst (snd run))) None.
Proof.
  cbv zeta. split; [vm_compute; reflexivity|].
  refine (proj2 (proj2 (@handshake_outcomes modelVendor laxReconciler tlsServer "https://srv.ns.svc" availableNow "" emptyState _ _ None emptyState _ _))).
  - intros p cfg [= <-]. done.
  - exact (run_in_runs emptyWorld (@reconcileHandshake modelVendor laxReconciler tlsServer "https://srv.ns.svc" availableNow "") emptyState).
Defined.

(** ** Capability changes *)

Lemma Join_empty l : Forall (fun x => x <> "") l -> strings.Join l ", " = "" <-> l = [].
Proof.
  intros Hl. split; [|by intros ->]. destruct l as [|x l]; [done|]. inversion Hl as [|? ? Hx _]; subst. cbn [strings.Join].
  assert (Hne : forall acc, acc <> "" -> fold_left (fun acc y => acc +:+ ", " +:+ y) l acc <> "").
  { clear. induction l as [|y l IH]; intros acc Ha; cbn [fold_left]; [done|]. apply IH. by destruct acc. }
  intros H. by apply Hne in H.
Qed.

Lemma capDiff_empty name a b : capDiff name a b = [] <-> a = b.
Proof. unfold capDiff. by destruct a, b. Qed.

Lemma capDiff_text name a b : name <> "" -> Forall (fun x => x <> "") (capDiff name a b).
Proof. intros H. unfold capDiff. destruct (Bool.eqb a b); repeat constructor. by destruct name. Qed.

(** A capability change is announced exactly when some capability differs, a
    missing record counting as none of them. *)
Theorem capability_diff_iff old new :
  capabilityDiffMessage old new = "" <-> default noCapabilities old = default noCapabilities new.
Proof.
  unfold capabilityDiffMessage. rewrite Join_empty.
  - destruct (default noCapabilities old), (default noCapabilities new). cbn.
    split.
    + intros H. apply app_eq_nil in H as [H1 H]. apply app_eq_nil in H as [H2 H]. apply app_eq_nil in H as [H3 H].
      apply app_eq_nil in H as [H4 H5]. apply capDiff_empty in H1, H2, H3, H4, H5. by subst.
    + intros [= -> -> -> -> ->]. unfold capDiff. by rewrite !Bool.eqb_reflx.
  - rewrite !Forall_app. split_and!; by apply capDiff_text.
Qed.
