(* ===== verification/McpClient.v ===== *)
(** * The MCP handshake on the wire (verifyMCPEndpoint of mcpserver_controller_handshake.go)

    What is behind the call [CDial]: the operator as a client of the MCP SDK.  The SDK is
    the class [SDK]: connecting answers with a session or an error, and a session knows the
    result of the protocol's initialization.  The steps taken are recorded, because the
    order in which a connection is torn down matters to servers.

    The theorem composes this with [reconcileHandshake]: an endpoint is reported as verified
    only after a session with it was initialized, or after it asked for credentials. *)

From S2P Require Import Prelude K8s ApiBeta Interact Conditions Handshake.

(** internal/controller/mcpserver_controller.go *)
Definition mcpClientName : string := "mcp-lifecycle-operator".
Definition MCPClientVersion : string := "v0.1.0".

(** [http.Client]; without a transport it uses Go's default. *)
Record httpClient := { Timeout : Z; Transport : option TLSConfig }.

(** The SDK's [StreamableClientTransport]. *)
Record StreamableClientTransport := {
  Endpoint : string;
  HTTPClient : httpClient;
  DisableStandaloneSSE : bool;
  MaxRetries : Z
}.

Class SDK := {
  Session : Type;
  Connect : Implementation -> StreamableClientTransport -> result Session;
  SessionInitializeResult : Session -> option InitializeResult
}.

Section client.
Context `{S : SDK}.

Inductive step :=
  | WithCancel
  | Connecting (client : Implementation) (transport : StreamableClientTransport)
  | Cancel
  | Close (session : Session).

Definition mcpClient : Implementation := {| impl_name := mcpClientName; impl_version := MCPClientVersion |}.

Definition clientTransport (url : string) (httpTransport : option TLSConfig) : StreamableClientTransport :=
  {| Endpoint := url;
     HTTPClient := {| Timeout := 10 * Second; Transport := httpTransport |};
     DisableStandaloneSSE := true;
     MaxRetries := -1 |}.

(** The steps, with the result.  The deferred function runs after the result is computed. *)
Definition verifyMCPEndpoint (url : string) (httpTransport : option TLSConfig) : list step * result (option MCPServerInfo) :=
  let transport := clientTransport url httpTransport in
  match Connect mcpClient transport with
  | Err err => ([WithCancel; Connecting mcpClient transport; Cancel], Err err)
  | Ok session =>
      ([WithCancel; Connecting mcpClient transport; Cancel; Close session], Ok (extractServerInfo (SessionInitializeResult session)))
  end.

(** The connection context: open from [WithCancel] to [Cancel]. *)
Fixpoint contextOpen (steps : list step) (open : bool) : bool :=
  match steps with
  | [] => open
  | WithCancel :: rest => contextOpen rest true
  | Cancel :: rest => contextOpen rest false
  | _ :: rest => contextOpen rest open
  end.

Definition closed (session : Session) (steps : list step) : Prop :=
  exists before after, steps = before ++ Close session :: after /\ contextOpen before false = false.

(** No connection is left behind: the context is cancelled, there is one attempt to
    connect, and a session that was opened is closed, with the context cancelled before. *)
Definition released (url : string) (tp : option TLSConfig) : Prop :=
  let steps := fst (verifyMCPEndpoint url tp) in
  contextOpen steps false = false /\
  (forall c t, In (Connecting c t) steps -> c = mcpClient /\ t = clientTransport url tp) /\
  (forall session, Connect mcpClient (clientTransport url tp) = Ok session -> closed session steps).

(** Every dial is answered by the operator's own dialer. *)
Definition ownDialer (tr : list event) : Prop :=
  Forall (fun d : dial => let '(url, tp, a) := d in a = snd (verifyMCPEndpoint url tp)) (dials tr).

Lemma always_released url tp : released url tp.
Proof.
  unfold released, verifyMCPEndpoint. destruct (Connect mcpClient _) as [session|e]; cbn; (split; [done|]); split.
  - intros c t Hin. repeat destruct Hin as [Hin|Hin]; try done. by injection Hin as <- <-.
  - intros session' [= <-]. by exists [WithCancel; Connecting mcpClient (clientTransport url tp); Cancel], [].
  - intros c t Hin. repeat destruct Hin as [Hin|Hin]; try done. by injection Hin as <- <-.
  - done.
Qed.

(** C10: What Verified=True means when the operator dials itself: unless the verification of
    this generation was kept without dialling, there was one connection, to the server's own
    URL and over the transport its spec asks for; either the MCP session was initialized, and
    the server information is what the session reported, or the endpoint asked for
    credentials; and whatever the outcome the connection's context is cancelled, before the
    session is closed. *)
Theorem verified_speaks_mcp `{V : Vendor} r srv url avail hash s tr c info s' :
  keeps_trust r -> runs (reconcileHandshake r srv url avail hash s) tr ((c, info), s') -> ownDialer tr ->
  c_status c = ConditionTrue -> dials tr <> [] ->
  exists tp a, dials tr = [(url, tp, a)] /\ transport_ok srv tp /\ released url tp /\
    ((exists session, Connect mcpClient (clientTransport url tp) = Ok session /\ c_reason c = ReasonVerified /\
        info = extractServerInfo (SessionInitializeResult session)) \/
     (exists e, Connect mcpClient (clientTransport url tp) = Err e /\ isHTTPAuthError e = true /\ c_reason c = ReasonAuthSkipped /\
        info = Some emptyInfo)).
Proof.
  intros Ht Hr Hown Hc Hd. pose proof (mwp_runs _ _ _ (mwp_reconcileHandshake r srv Ht url avail hash s) tr (c, info) s' Hr) as (_ & _ & Ho).
  cbn in Ho. remember (dials tr) as ds eqn:E. destruct Ho as [| |ds c ? ? ? [Hf _]|tp a c info ? ? Htp Hst Hcase]; try done.
  - rewrite Hf in Hc. done.
  - exists tp, a. split_and!; [done|done|apply always_released|]. unfold ownDialer in Hown. rewrite <- E in Hown.
    inversion Hown as [|? ? Ha _]; subst. unfold verifyMCPEndpoint in *.
    destruct (Connect mcpClient _) as [session|e]; cbn in *; destruct Hcase as [[Ha Hrs]|(e' & Ha & Hauth & Hrs & Hi)]; try done.
    + left. injection Ha as <-. eauto.
    + right. injection Ha as <-. eauto 6.
Qed.

End client.

(** ** A concrete SDK and endpoint *)

Definition sampleResult : InitializeResult :=
  {| ir_protocolVersion := "2025-06-18"; ir_instructions := "";
     ir_serverInfo := Some {| impl_name := "weather"; impl_version := "1.2.0" |};
     ir_capabilities := Some {| scap_tools := true; scap_resources := false; scap_prompts := false; scap_logging := false; scap_completions := false |} |}.

(** One endpoint that speaks the protocol. *)
Definition sampleSDK : SDK := {|
  Session := InitializeResult;
  Connect client transport := if Endpoint transport == "https://srv.ns.svc/mcp" then Ok sampleResult else Err (Errorf "connection refused");
  SessionInitializeResult session := Some session
|}.

Definition liveWorld : World :=
  {| w_get := w_get emptyWorld; w_write := None; w_pods := []; w_servers := []; w_list := fun _ _ => []; w_status := None;
     w_dial := snd (@verifyMCPEndpoint sampleSDK "https://srv.ns.svc/mcp" (Some (tlsConfigWith false None))); w_now := 0 |}.

Lemma verified_speaks_mcp_witness :
  let run := run_in liveWorld (@reconcileHandshake modelVendor laxReconciler tlsServer "https://srv.ns.svc/mcp" availableNow "") emptyState in
  option_map info_name (snd (fst (snd run))) = Some "weather" /\
  exists tp a, dials (fst run) = [("https://srv.ns.svc/mcp", tp, a)] /\ @released sampleSDK "https://srv.ns.svc/mcp" tp.
Proof.
  cbv zeta. split; [vm_compute; reflexivity|].
  assert (Htrust : keeps_trust laxReconciler) by (by intros p cfg [= <-]).
  destruct (@verified_speaks_mcp sampleSDK modelVendor laxReconciler tlsServer "https://srv.ns.svc/mcp" availableNow "" emptyState _ _ _ _
    Htrust
    (run_in_runs liveWorld (@reconcileHandshake modelVendor laxReconciler tlsServer "https://srv.ns.svc/mcp" availableNow "") emptyState))
    as (tp & a & Hd & _ & Hrel & _).
  - vm_compute. repeat constructor.
  - vm_compute. reflexivity.
  - vm_compute. discriminate.
  - exists tp, a. split; [exact Hd|exact Hrel].
Defined.
