(* ===== verification/Byo.v ===== *)
(** * Referenced workloads (internal/controller/mcpserver_controller_byo.go)

    The availability of a Deployment, DaemonSet or StatefulSet that the user brings.
    [getWorkload] and [workloadSelector] are in the validation file, [reconcileBYO] in
    the file of the reconciler. *)

From S2P Require Import Prelude K8s ApiAlpha ApiBeta StatusAC Interact Conditions AuditLog Service Validation.

Record workloadObservation := {
  wo_selector : option LabelSelector;
  wo_replicas : Z;
  wo_readyReplicas : Z;
  wo_availability : Condition
}.

(** An Available condition for [server]. *)
Definition availableFor (server : MCPServer) (status reason message : string) : M Condition :=
  newAvailableCondition status reason message (om_generation (srv_meta server)) (st_conditions (srv_status server)).

(** [None] when the status is current. *)
Definition workloadProgressCondition (server : MCPServer) (knd : string) (generation observedGeneration : Z) : M (option Condition) :=
  if observedGeneration =? 0 then
    c ← availableFor server ConditionUnknown ReasonInitializing ("Waiting for BYO " +:+ knd +:+ " to report status");
    mret (Some c)
  else if observedGeneration <? generation then
    c ← availableFor server ConditionFalse ReasonWorkloadUnavailable ("BYO " +:+ knd +:+ " is processing spec update");
    mret (Some c)
  else mret None.

Definition daemonSetAvailability (server : MCPServer) (ds : DaemonSet) : M Condition :=
  pending ← workloadProgressCondition server "DaemonSet" (om_generation (ds_meta ds)) (ds_observedGeneration ds);
  match pending with
  | Some condition => mret condition
  | None =>
      if ds_desiredNumberScheduled ds =? 0 then
        availableFor server ConditionFalse ReasonWorkloadUnavailable
          ("DaemonSet " +:+ om_name (ds_meta ds) +:+ " has no nodes matching its scheduling constraints")
      else
        let message := "BYO DaemonSet: " +:+ fmt.d (ds_numberAvailable ds) +:+ " of " +:+ fmt.d (ds_desiredNumberScheduled ds)
          +:+ " instances available (" +:+ fmt.d (ds_numberReady ds) +:+ " ready); " +:+ fmt.d (ds_numberUnavailable ds)
          +:+ " unavailable; " +:+ fmt.d (ds_currentNumberScheduled ds) +:+ " of " +:+ fmt.d (ds_desiredNumberScheduled ds)
          +:+ " instances scheduled" in
        if 0 <? ds_numberAvailable ds then availableFor server ConditionTrue ReasonAvailable message
        else availableFor server ConditionFalse ReasonWorkloadUnavailable message
  end.

Definition statefulSetAvailability (server : MCPServer) (sts : StatefulSet) : M Condition :=
  let desired := default 1 (sts_replicas sts) in
  if desired =? 0 then availableFor server ConditionTrue ReasonScaledToZero "BYO StatefulSet is scaled to zero"
  else
    pending ← workloadProgressCondition server "StatefulSet" (om_generation (sts_meta sts)) (sts_observedGeneration sts);
    match pending with
    | Some condition => mret condition
    | None =>
        let message0 := "BYO StatefulSet: " +:+ fmt.d (sts_availableReplicas sts) +:+ " of " +:+ fmt.d desired
          +:+ " instances available (" +:+ fmt.d (sts_readyReplicas sts) +:+ " ready)" in
        let message := if sts_updatedReplicas sts <? desired then message0 +:+ "; rolling update in progress" else message0 in
        if 0 <? sts_availableReplicas sts then availableFor server ConditionTrue ReasonAvailable message
        else availableFor server ConditionFalse ReasonWorkloadUnavailable message
    end.

Section with_vendor.
Context `{V : Vendor}.

(** [None] is a nil object, the only value outside the three types here. *)
Definition observeWorkload (server : MCPServer) (o : option workload) (acceptedCondition : Condition) : M (result workloadObservation) :=
  match o with
  | Some (WDeployment d) =>
      c ← reconcileAvailableCondition d acceptedCondition (om_generation (srv_meta server)) (st_conditions (srv_status server));
      mret (Ok {| wo_selector := dep_selector d; wo_replicas := default 1 (dep_replicas d);
                  wo_readyReplicas := dep_readyReplicas d; wo_availability := c |})
  | Some (WDaemonSet ds) =>
      c ← daemonSetAvailability server ds;
      mret (Ok {| wo_selector := ds_selector ds; wo_replicas := ds_desiredNumberScheduled ds;
                  wo_readyReplicas := ds_numberReady ds; wo_availability := c |})
  | Some (WStatefulSet sts) =>
      c ← statefulSetAvailability server sts;
      mret (Ok {| wo_selector := sts_selector sts; wo_replicas := default 1 (sts_replicas sts);
                  wo_readyReplicas := sts_readyReplicas sts; wo_availability := c |})
  | None => mret (Err (Errorf "unsupported workload type: <nil>"))
  end.

End with_vendor.

(** ** What is observed *)

(** The workload serves: its status is current and an instance is available. *)
Definition byo_serving (w : workload) : Prop :=
  match w with
  | WDeployment d => dep_replicas d <> Some 0 /\ serving d
  | WDaemonSet ds =>
      ds_observedGeneration ds <> 0 /\ om_generation (ds_meta ds) <= ds_observedGeneration ds /\
      ds_desiredNumberScheduled ds <> 0 /\ 0 < ds_numberAvailable ds
  | WStatefulSet sts =>
      sts_replicas sts <> Some 0 /\ sts_observedGeneration sts <> 0 /\
      om_generation (sts_meta sts) <= sts_observedGeneration sts /\ 0 < sts_availableReplicas sts
  end.

Definition byo_idle (w : workload) : Prop :=
  match w with
  | WDeployment d => dep_replicas d = Some 0
  | WDaemonSet _ => False
  | WStatefulSet sts => sts_replicas sts = Some 0
  end.

Definition observed (w : workload) (c : Condition) : Prop :=
  c_type c = ConditionTypeAvailable /\
  (c_status c = ConditionTrue /\ c_reason c = ReasonAvailable <-> byo_serving w) /\
  (c_status c = ConditionTrue /\ c_reason c = ReasonScaledToZero <-> byo_idle w).

Lemma mwp_availableFor server st rs ms s (Q : list event -> Condition -> RState -> Prop) :
  (forall tr c, c_type c = ConditionTypeAvailable -> c_status c = st -> c_reason c = rs -> Q tr c s) ->
  mwp (availableFor server st rs ms) s Q.
Proof.
  intros H. apply mwp_newAvailableCondition. intros now.
  apply H; unfold preserveLastTransitionTime; cbn; repeat case_match; done.
Qed.

Lemma mwp_workloadProgressCondition server knd g og s (Q : list event -> option Condition -> RState -> Prop) :
  (og <> 0 -> g <= og -> Q [] None s) ->
  (forall tr c, og = 0 \/ og < g -> c_type c = ConditionTypeAvailable -> c_status c <> ConditionTrue -> Q tr (Some c) s) ->
  mwp (workloadProgressCondition server knd g og) s Q.
Proof.
  intros H1 H2. unfold workloadProgressCondition. destruct (Z.eqb_spec og 0).
  { apply mwp_bind, mwp_availableFor. intros tr c Ht Hs _. apply mwp_ret, H2; [by left|done|by rewrite Hs]. }
  destruct (Z.ltb_spec og g).
  - apply mwp_bind, mwp_availableFor. intros tr c Ht Hs _. apply mwp_ret, H2; [by right|done|by rewrite Hs].
  - apply mwp_ret, H1; lia.
Qed.

Lemma observed_false w c :
  c_type c = ConditionTypeAvailable -> c_status c <> ConditionTrue -> ~ byo_serving w -> ~ byo_idle w -> observed w c.
Proof. unfold observed. tauto. Qed.

Lemma daemonSet_observed server ds s :
  mwp (daemonSetAvailability server ds) s (fun _ c _ => observed (WDaemonSet ds) c).
Proof.
  unfold daemonSetAvailability. apply mwp_bind, mwp_workloadProgressCondition.
  - intros Ho Hg. destruct (Z.eqb_spec (ds_desiredNumberScheduled ds) 0).
    { apply mwp_availableFor. intros tr c Ht Hs Hr. apply observed_false; [done|by rewrite Hs| |by intros []]. cbn. tauto. }
    destruct (Z.ltb_spec 0 (ds_numberAvailable ds)); apply mwp_availableFor; intros tr c Ht Hs Hr.
    + unfold observed. rewrite Hs, Hr. cbn. split_and!; [done|tauto|split; [by intros [_ ?]|done]].
    + apply observed_false; [done|by rewrite Hs| |by intros []]. cbn. lia.
  - intros tr c Hp Ht Hs. apply mwp_ret. apply observed_false; [done..| |by intros []]. cbn. lia.
Qed.

Lemma statefulSet_observed server sts s :
  mwp (statefulSetAvailability server sts) s (fun _ c _ => observed (WStatefulSet sts) c).
Proof.
  unfold statefulSetAvailability. destruct (Z.eqb_spec (default 1 (sts_replicas sts)) 0) as [Hz|Hz].
  { assert (Hn : sts_replicas sts = Some 0) by (destruct (sts_replicas sts); cbn in Hz; congruence).
    apply mwp_availableFor. intros tr c Ht Hs Hr. unfold observed. rewrite Hs, Hr. cbn.
    split_and!; [done|split; [by intros [_ ?]|by intros [? _]]|tauto]. }
  assert (Hn : sts_replicas sts <> Some 0) by (intros E; by rewrite E in Hz).
  apply mwp_bind, mwp_workloadProgressCondition.
  - intros Ho Hg. destruct (Z.ltb_spec 0 (sts_availableReplicas sts)); apply mwp_availableFor; intros tr c Ht Hs Hr.
    + unfold observed. rewrite Hs, Hr. cbn. split_and!; [done|tauto|split; [by intros [_ ?]|done]].
    + apply observed_false; [done|by rewrite Hs| |exact Hn]. cbn. lia.
  - intros tr c Hp Ht Hs. apply mwp_ret. apply observed_false; [done..| |exact Hn]. cbn. lia.
Qed.

Lemma mwp_observeWorkload `{V : Vendor} server w accepted s :
  c_status accepted <> ConditionFalse ->
  mwp (observeWorkload server (Some w) accepted) s (fun _ res _ =>
    match res with Ok obs => observed w (wo_availability obs) /\ wo_selector obs = workloadSelector w | Err _ => True end).
Proof.
  intros Hacc.
  destruct w as [d|ds|sts]; apply mwp_bind; (eapply mwp_mono; [first [apply mwp_reconcileAvailableCondition | apply daemonSet_observed | apply statefulSet_observed]|]).
  - intros tr' c s1 (_ & Ht & _ & H1 & H2 & _). apply mwp_ret. split; [|done]. unfold observed. cbn.
    split_and!; [done|rewrite H1|rewrite H2]; tauto.
  - intros tr' c s1 H. by apply mwp_ret.
  - intros tr' c s1 H. by apply mwp_ret.
Qed.

(** A referenced workload is Available with reason Available exactly when its
    status is current and at least one instance is available (for a Deployment, the
    condition of managed ones), and ScaledToZero exactly when zero replicas are asked
    for, which a DaemonSet cannot be. *)
Theorem byo_availability `{V : Vendor} server w accepted s tr obs s' :
  c_status accepted <> ConditionFalse ->
  runs (observeWorkload server (Some w) accepted s) tr (Ok obs, s') ->
  observed w (wo_availability obs) /\ wo_selector obs = workloadSelector w.
Proof. intros Hacc Hr. exact (mwp_runs _ s _ (mwp_observeWorkload server w accepted s Hacc) _ _ _ Hr). Qed.

Definition sampleDaemonSet : DaemonSet :=
  {| ds_meta := newMeta "agent" "ns" None; ds_selector := None; ds_observedGeneration := 1; ds_currentNumberScheduled := 3;
     ds_desiredNumberScheduled := 3; ds_numberReady := 2; ds_numberAvailable := 1; ds_numberUnavailable := 2 |}.

Definition acceptedNow : Condition := condition_at 0 ConditionTypeAccepted ConditionTrue ReasonValid "" 1.

Definition observedDaemonSet : workloadObservation :=
  match fst (snd (run_in emptyWorld (@observeWorkload modelVendor sampleServer (Some (WDaemonSet sampleDaemonSet)) acceptedNow) emptyState)) with
  | Ok o => o
  | Err _ => {| wo_selector := None; wo_replicas := 0; wo_readyReplicas := 0; wo_availability := acceptedNow |}
  end.

Lemma byo_availability_witness :
  c_message (wo_availability observedDaemonSet) =
    "BYO DaemonSet: 1 of 3 instances available (2 ready); 2 unavailable; 3 of 3 instances scheduled" /\
  observed (WDaemonSet sampleDaemonSet) (wo_availability observedDaemonSet).
Proof.
  split; [vm_compute; reflexivity|].
  refine (proj1 (@byo_availability modelVendor sampleServer (WDaemonSet sampleDaemonSet) acceptedNow emptyState _ observedDaemonSet emptyState _ _)).
  - discriminate.
  - exact (run_in_runs emptyWorld (@observeWorkload modelVendor sampleServer (Some (WDaemonSet sampleDaemonSet)) acceptedNow) emptyState).
Defined.
