(* ===== verification/Reconcile.v ===== *)
(** * The reconciler (mcpserver_controller.go, mcpserver_controller_endpoint.go,
    [reconcileBYO] of mcpserver_controller_byo.go)

    One reconcile of an MCPServer, from the request to the requeue: the failure
    handlers, the endpoint phase shared by managed and referenced workloads, and
    [Reconcile] itself. *)

From S2P Require Import Prelude K8s ApiAlpha ApiBeta StatusAC Interact Conditions AuditLog Ownership GoJSON Metadata Service.
From S2P Require Import Gateway NetworkPolicy Validation ConfigHash Deployment Handshake Byo.

(** ** Status *)

Definition workloadStatusConfiguration (server : MCPServer) (replicas readyReplicas : Z) : MCPServerStatusApplyConfiguration :=
  let status := WithReadyReplicas readyReplicas (WithReplicas replicas
    (WithServiceName (serviceNameFor server) (WithObservedGeneration (om_generation (srv_meta server)) MCPServerStatusAC))) in
  match spec_workloadRef (srv_spec server) with
  | Some ref =>
      let name := wr_kind ref +:+ "/" +:+ wr_name ref in
      WithWorkloadSummary ("BYO:" +:+ name) (WithWorkloadName name status)
  | None =>
      let status1 := WithDeploymentName (om_name (srv_meta server)) status in
      match src_containerImage (spec_source (srv_spec server)) with
      | Some image => WithWorkloadSummary (ci_ref image) status1
      | None => status1
      end
  end.

Definition withNonEmpty (v : string) (f : string -> MCPServerInfoApplyConfiguration -> MCPServerInfoApplyConfiguration)
    (si : MCPServerInfoApplyConfiguration) : MCPServerInfoApplyConfiguration :=
  if v != "" then f v si else si.

Definition serverInfoToAC (info : MCPServerInfo) : MCPServerInfoApplyConfiguration :=
  let si1 := withNonEmpty (info_name info) Info_WithName MCPServerInfoAC in
  let si2 := withNonEmpty (info_version info) Info_WithVersion si1 in
  let si3 := withNonEmpty (info_protocolVersion info) Info_WithProtocolVersion si2 in
  let si4 := withNonEmpty (info_instructions info) Info_WithInstructions si3 in
  match info_capabilities info with
  | Some caps =>
      Info_WithCapabilities
        (Caps_WithCompletions (caps_completions caps) (Caps_WithLogging (caps_logging caps) (Caps_WithPrompts (caps_prompts caps)
          (Caps_WithResources (caps_resources caps) (Caps_WithTools (caps_tools caps) MCPServerCapabilitiesAC))))) si4
  | None => si4
  end.

Definition withAddressWhenVerified (status : MCPServerStatusApplyConfiguration) (verifiedCondition : Condition)
    (mcpURL : string) : MCPServerStatusApplyConfiguration :=
  if c_status verifiedCondition == ConditionTrue then WithAddress (Address_WithURL mcpURL MCPServerAddressAC) status else status.

Definition applyStatus (mcpServer : MCPServer) (status : MCPServerStatusApplyConfiguration) : M (option error) :=
  call (CApplyStatus (om_namespace (srv_meta mcpServer)) (om_name (srv_meta mcpServer)) status).

Definition carried (mcpServer : MCPServer) (t : string) : list ConditionApplyConfiguration :=
  match FindStatusCondition (st_conditions (srv_status mcpServer)) t with
  | Some c => [conditionToAC c]
  | None => []
  end.

Definition appendPersistentConditions (r : MCPServerReconciler) (mcpServer : MCPServer)
    (conditions : list ConditionApplyConfiguration) (freshPosture : option Condition) : M (list ConditionApplyConfiguration) :=
  pe ← policyEnforcedCondition r (om_generation (srv_meta mcpServer)) (st_conditions (srv_status mcpServer));
  mret (conditions ++ [conditionToAC pe] ++ carried mcpServer ConditionTypeGatewayRegistered ++
        match freshPosture with
        | Some posture => [conditionToAC posture]
        | None => carried mcpServer ConditionTypeNetworkPolicyRestricted
        end).

(** [if mcpServer.Status.GatewayBinding != nil { status.WithGatewayBinding(...) }] *)
Definition withPreviousBinding (mcpServer : MCPServer) (status : MCPServerStatusApplyConfiguration) : MCPServerStatusApplyConfiguration :=
  match st_gatewayBinding (srv_status mcpServer) with
  | Some b => WithGatewayBinding (bindingStatusAC b) status
  | None => status
  end.

Definition shouldSkipReconciliation (mcpServer : MCPServer) (namespace : string) : M (bool * option error) :=
  match om_deletionTimestamp (srv_meta mcpServer) with
  | Some _ => mret (true, None)
  | None =>
      got ← call (CGet Cached KNamespace "" namespace);
      match got with
      | Err e => if IsNotFound e then mret (true, None) else mret (false, Some e)
      | Ok ns => match om_deletionTimestamp (ns_meta ns) with Some _ => mret (true, None) | None => mret (false, None) end
      end
  end.

(** ** Failure handlers *)

Record resourceFailureParams := {
  fp_counter : string;
  fp_reason : string;
  fp_resource : string;
  fp_isDuplicate : list Condition -> string -> bool;
  fp_emitEvent : MCPServer -> string -> M unit;
  fp_networkPolicyPosture : option Condition
}.

(** A condition that keeps the transition time of the one it replaces. *)
Definition conditionFor (mcpServer : MCPServer) (t status reason message : string) : M Condition :=
  c ← newCondition t status reason message (om_generation (srv_meta mcpServer));
  mret (preserveLastTransitionTime c (st_conditions (srv_status mcpServer))).

Definition notVerifiedFor (mcpServer : MCPServer) : M Condition :=
  newNotVerifiedCondition (om_generation (srv_meta mcpServer)) (st_conditions (srv_status mcpServer)).

Section with_vendor.
Context `{V : Vendor}.

(** The common end of the failure handlers: after the status was applied, an
    ownership conflict is not retried. *)
Definition reportFailure (mcpServer : MCPServer) (status : MCPServerStatusApplyConfiguration) (err : error) : M (Result * option error) :=
  applied ← applyStatus mcpServer status;
  match applied with
  | Some statusErr => mret (noRequeue, Some statusErr)
  | None => if IsOwnershipConflict err then mret (noRequeue, None) else mret (noRequeue, Some err)
  end.

Definition handleDeploymentReconcileError (r : MCPServerReconciler) (mcpServer : MCPServer) (acceptedCondition : Condition)
    (err : error) : M (Result * option error) :=
  if IsConflict err then mret ({| RequeueAfter := requeueDelayConflict |}, None)
  else
    incFailures "deployment_failures_total" mcpServer MetricReasonReconcileError ;;
    availableCondition ← conditionFor mcpServer ConditionTypeAvailable ConditionFalse ReasonWorkloadUnavailable
                           ("Failed to reconcile Deployment: " +:+ Error err);
    verifiedCondition ← notVerifiedFor mcpServer;
    recordCondition mcpServer availableCondition ;;
    (if duplicateWorkloadUnavailable (st_conditions (srv_status mcpServer)) (c_message availableCondition) then mret tt
     else emitWorkloadUnavailable r mcpServer (c_message availableCondition)) ;;
    conditions ← appendPersistentConditions r mcpServer
                   [conditionToAC acceptedCondition; conditionToAC availableCondition; conditionToAC verifiedCondition] None;
    reportFailure mcpServer
      (withPreviousBinding mcpServer (WithConditions conditions
        (workloadStatusConfiguration mcpServer (st_replicas (srv_status mcpServer)) (st_readyReplicas (srv_status mcpServer))))) err.

Definition reconcilePermanentValidationError (r : MCPServerReconciler) (mcpServer : MCPServer) (reason message : string) : M (option error) :=
  let existing := st_conditions (srv_status mcpServer) in
  acceptedCondition ← conditionFor mcpServer ConditionTypeAccepted ConditionFalse reason message;
  recordCondition mcpServer acceptedCondition ;;
  incFailures "validation_failures_total" mcpServer reason ;;
  availableCondition ← conditionFor mcpServer ConditionTypeAvailable ConditionFalse ReasonConfigurationInvalid
                         "Configuration must be fixed before server can start";
  verifiedCondition ← notVerifiedFor mcpServer;
  let prevAccepted := FindStatusCondition existing ConditionTypeAccepted in
  conditions ← appendPersistentConditions r mcpServer
                 [conditionToAC acceptedCondition; conditionToAC availableCondition; conditionToAC verifiedCondition] None;
  applied ← applyStatus mcpServer
    (withPreviousBinding mcpServer (WithConditions conditions
      (workloadStatusConfiguration mcpServer (st_replicas (srv_status mcpServer)) (st_readyReplicas (srv_status mcpServer)))));
  match applied with
  | Some err => mret (Some err)
  | None =>
      (if match prevAccepted with
          | Some p => (c_status p == ConditionFalse) && (c_reason p == reason) && (c_message p == message)
          | None => false
          end
       then mret tt else emitConfigurationInvalid r mcpServer reason message) ;;
      auditConfigurationRejected mcpServer reason message ;;
      recordCondition mcpServer availableCondition ;;
      mret None
  end.

Definition handleResourceFailure (r : MCPServerReconciler) (mcpServer : MCPServer) (status : MCPServerStatusApplyConfiguration)
    (acceptedCondition : Condition) (reconcileErr : error) (params : resourceFailureParams) : M (Result * option error) :=
  if IsConflict reconcileErr then mret ({| RequeueAfter := requeueDelayConflict |}, None)
  else
    incFailures (fp_counter params) mcpServer MetricReasonReconcileError ;;
    availableCondition ← conditionFor mcpServer ConditionTypeAvailable ConditionFalse (fp_reason params)
                           ("Failed to reconcile " +:+ fp_resource params +:+ ": " +:+ Error reconcileErr);
    verifiedCondition ← notVerifiedFor mcpServer;
    recordCondition mcpServer availableCondition ;;
    (if fp_isDuplicate params (st_conditions (srv_status mcpServer)) (c_message availableCondition) then mret tt
     else fp_emitEvent params mcpServer (c_message availableCondition)) ;;
    conditions ← appendPersistentConditions r mcpServer
                   [conditionToAC acceptedCondition; conditionToAC availableCondition; conditionToAC verifiedCondition]
                   (fp_networkPolicyPosture params);
    reportFailure mcpServer (withPreviousBinding mcpServer (WithConditions conditions status)) reconcileErr.

Definition serviceFailure (r : MCPServerReconciler) : resourceFailureParams :=
  {| fp_counter := "service_failures_total"; fp_reason := ReasonServiceUnavailable; fp_resource := "Service";
     fp_isDuplicate := duplicateServiceUnavailable; fp_emitEvent := emitServiceReconcileFailed r; fp_networkPolicyPosture := None |}.
Definition networkPolicyFailure (r : MCPServerReconciler) : resourceFailureParams :=
  {| fp_counter := "networkpolicy_failures_total"; fp_reason := ReasonNetworkPolicyUnavailable; fp_resource := "NetworkPolicy";
     fp_isDuplicate := duplicateNetworkPolicyUnavailable; fp_emitEvent := emitNetworkPolicyReconcileFailed r;
     fp_networkPolicyPosture := None |}.
Definition gatewayBindingFailure (r : MCPServerReconciler) (posture : option Condition) : resourceFailureParams :=
  {| fp_counter := "gateway_binding_failures_total"; fp_reason := ReasonGatewayNotRegistered; fp_resource := "MCPGatewayBinding";
     fp_isDuplicate := duplicateGatewayBindingUnavailable; fp_emitEvent := emitGatewayBindingReconcileFailed r;
     fp_networkPolicyPosture := posture |}.

(** ** The endpoint phase *)

Definition DefaultMCPPath : string := "/mcp".

Definition endpointURL (mcpServer : MCPServer) (endpoint : ServiceEndpoint) : string :=
  let path := if cfg_path (spec_config (srv_spec mcpServer)) == "" then DefaultMCPPath else cfg_path (spec_config (srv_spec mcpServer)) in
  urlScheme mcpServer +:+ "://" +:+ ep_name endpoint +:+ "." +:+ om_namespace (srv_meta mcpServer) +:+ ".svc.cluster.local:"
  +:+ fmt.d (ep_port endpoint) +:+ path.

Definition currentCABundleHash (mcpServer : MCPServer) : M string :=
  match spec_transport (srv_spec mcpServer) with
  | Some {| tr_tls := Some tls |} => computeTLSCABundleHash Direct (om_namespace (srv_meta mcpServer)) (Some tls)
  | _ => mret ""
  end.

(** The gateway's part: its status, with the Available condition and the URL it may
    override. *)
Definition gatewayOverride (mcpServer : MCPServer) (availableCondition : Condition) (mcpURL : string)
    : M (option gatewayStatus * Condition * string) :=
  gwStatus ← reconcileGatewayCondition mcpServer;
  match gwStatus with
  | Some g =>
      applied ← applyGatewayStatus mcpServer g availableCondition mcpURL;
      mret (Some (fst (fst applied)), snd (fst applied), snd applied)
  | None => mret (None, availableCondition, mcpURL)
  end.

(** The status of a completed endpoint phase, in the order its parts are set. *)
Definition endpointStatus (status : MCPServerStatusApplyConfiguration) (gwStatus : option gatewayStatus)
    (acceptedCondition availableCondition verifiedCondition : Condition) (networkPolicyCondition : option Condition)
    (policyEnforced : Condition) (mcpURL : string) (serverInfo : option MCPServerInfo) : MCPServerStatusApplyConfiguration :=
  let status1 := applyGatewayStatusToAC status gwStatus acceptedCondition availableCondition verifiedCondition in
  let status2 := match networkPolicyCondition with Some c => WithConditions [conditionToAC c] status1 | None => status1 end in
  let status3 := withAddressWhenVerified (WithConditions [conditionToAC policyEnforced] status2) verifiedCondition mcpURL in
  match serverInfo with Some info => WithServerInfo (serverInfoToAC info) status3 | None => status3 end.

(** What follows a successful status update. *)
Definition finishEndpoint (r : MCPServerReconciler) (mcpServer : MCPServer) (tlsCABundleHash capDiff : string)
    (verifiedCondition : Condition) (handshakeRetryCount : Z) (gwErr : option error) : M (Result * option error) :=
  updateTLSCABundleHash mcpServer tlsCABundleHash verifiedCondition ;;
  (if capDiff != "" then
     out (OMetric (CounterInc "capability_changes_total" (metricLabels mcpServer))) ;;
     emitCapabilityChangeDetected r mcpServer capDiff ;;
     auditCapabilityChange mcpServer capDiff
   else mret tt) ;;
  requeue ← handshakeRequeue mcpServer verifiedCondition handshakeRetryCount;
  match requeue with
  | Some res => mret (res, None)
  | None => mret (noRequeue, gwErr)
  end.

Definition reconcileEndpoint (r : MCPServerReconciler) (mcpServer : MCPServer) (acceptedCondition availableCondition0 : Condition)
    (status : MCPServerStatusApplyConfiguration) (endpoint : ServiceEndpoint) (networkPolicyCondition : option Condition)
    : M (Result * option error) :=
  let existing := st_conditions (srv_status mcpServer) in
  gwBindingErr ← reconcileGatewayBinding r mcpServer;
  observePhase "gatewaybinding" ;;
  match gwBindingErr with
  | Some err => handleResourceFailure r mcpServer status acceptedCondition err (gatewayBindingFailure r networkPolicyCondition)
  | None =>
    let mcpURL := endpointURL mcpServer endpoint in
    tlsCABundleHash ← currentCABundleHash mcpServer;
    handshake ← reconcileHandshake r mcpServer mcpURL availableCondition0 tlsCABundleHash;
    let serverInfo := snd handshake in
    recordCondition mcpServer (fst handshake) ;;
    counted ← reconcileHandshakeEventsAndRetryCount r mcpServer (fst handshake);
    let verifiedCondition := snd counted in
    gw ← gatewayOverride mcpServer availableCondition0 mcpURL;
    let gwStatus := fst (fst gw) in
    let availableCondition := snd (fst gw) in
    (if negb (serverIsFullyReady existing) && (c_status availableCondition == ConditionTrue) && (c_status verifiedCondition == ConditionTrue)
     then emitServerReady r mcpServer else mret tt) ;;
    pe ← policyEnforcedCondition r (om_generation (srv_meta mcpServer)) existing;
    applied ← applyStatus mcpServer
      (endpointStatus status gwStatus acceptedCondition availableCondition verifiedCondition networkPolicyCondition pe (snd gw) serverInfo);
    match applied with
    | Some err => mret (noRequeue, Some err)
    | None => finishEndpoint r mcpServer tlsCABundleHash (capabilityChangeMessage mcpServer serverInfo) verifiedCondition (fst counted)
                match gwStatus with Some g => gws_err g | None => None end
    end
  end.

(** ** Referenced workloads *)

Definition reconcileBYO (r : MCPServerReconciler) (mcpServer : MCPServer) (acceptedCondition : Condition)
    (w : option workload) : M (Result * option error) :=
  observed ← observeWorkload mcpServer w acceptedCondition;
  match observed with
  | Err e => mret (noRequeue, Some e)
  | Ok observation =>
      let availableCondition := wo_availability observation in
      recordCondition mcpServer availableCondition ;;
      maybeEmitWorkloadUnavailableEvent r mcpServer availableCondition ;;
      let status := workloadStatusConfiguration mcpServer (wo_replicas observation) (wo_readyReplicas observation) in
      let selector := option_map ls_matchLabels (wo_selector observation) in
      resolved ← reconcileServiceOrBYO r mcpServer selector;
      match snd resolved with
      | Some err => handleResourceFailure r mcpServer status acceptedCondition err (serviceFailure r)
      | None => reconcileEndpoint r mcpServer acceptedCondition availableCondition status (fst resolved) None
      end
  end.

(** ** [Reconcile] *)

(** Everything after the configuration was accepted, for operator-managed workloads. *)
Definition reconcileManaged (r : MCPServerReconciler) (mcpServer : MCPServer) (acceptedCondition : Condition) : M (Result * option error) :=
  let generation := om_generation (srv_meta mcpServer) in
  let existing := st_conditions (srv_status mcpServer) in
  deployed ← reconcileDeployment r mcpServer;
  observePhase "deployment" ;;
  match deployed with
  | Err err => handleDeploymentReconcileError r mcpServer acceptedCondition err
  | Ok existingDeployment =>
      let status := workloadStatusConfiguration mcpServer (default 1 (dep_replicas existingDeployment)) (dep_readyReplicas existingDeployment) in
      resolved ← reconcileServiceOrBYO r mcpServer (Some (managedWorkloadSelector (om_name (srv_meta mcpServer))));
      match snd resolved with
      | Some svcErr => handleResourceFailure r mcpServer status acceptedCondition svcErr (serviceFailure r)
      | None =>
          ensured ← ensureNetworkPolicy r mcpServer;
          observePhase "networkpolicy" ;;
          match ensured with
          | Err err => handleResourceFailure r mcpServer status acceptedCondition err (networkPolicyFailure r)
          | Ok netpol =>
              networkPolicyCondition ← networkPolicyPostureConditionFor mcpServer generation existing netpol;
              recordCondition mcpServer networkPolicyCondition ;;
              availableCondition ← reconcileAvailableCondition existingDeployment acceptedCondition generation existing;
              recordCondition mcpServer availableCondition ;;
              maybeEmitWorkloadUnavailableEvent r mcpServer availableCondition ;;
              reconcileEndpoint r mcpServer acceptedCondition availableCondition status (fst resolved) (Some networkPolicyCondition)
          end
      end
  end.

(** Everything after the deletion checks. *)
Definition reconcileLive (r : MCPServerReconciler) (mcpServer : MCPServer) : M (Result * option error) :=
  let existing := st_conditions (srv_status mcpServer) in
  cleanupGatewayBindingIfRemoved r mcpServer ;;
  let pendingAcceptedEvent := negb (acceptedConditionIsTrue existing) in
  validated ← validateConfigAndResolveWorkload mcpServer;
  observePhase "validation" ;;
  match validated with
  | Err err =>
      match asValidationError err with
      | Some (reason, message) =>
          e ← reconcilePermanentValidationError r mcpServer reason message;
          mret (noRequeue, e)
      | None => mret (noRequeue, Some err)
      end
  | Ok w =>
      acceptedCondition ← conditionFor mcpServer ConditionTypeAccepted ConditionTrue ReasonValid "Configuration is valid";
      recordCondition mcpServer acceptedCondition ;;
      (if pendingAcceptedEvent then emitConfigurationAccepted r mcpServer else mret tt) ;;
      match spec_workloadRef (srv_spec mcpServer) with
      | Some _ => reconcileBYO r mcpServer acceptedCondition w
      | None => reconcileManaged r mcpServer acceptedCondition
      end
  end.

Definition cleanupMetrics (name namespace : string) : M unit := out (OMetric (CleanupMetrics name namespace)).

Definition Reconcile (r : MCPServerReconciler) (req : Request) : M (Result * option error) :=
  let '(namespace, name) := req in
  got ← call (CGet Cached KMCPServer namespace name);
  match got with
  | Err err =>
      if IsNotFound err then
        s ← get_state;
        let key := namespace +:+ "/" +:+ name in
        put_state {| tlsCABundleHashes := delete key (tlsCABundleHashes s); handshakeRetries := delete key (handshakeRetries s) |} ;;
        cleanupMetrics name namespace ;;
        mret (noRequeue, None)
      else mret (noRequeue, Some err)
  | Ok mcpServer =>
      skip ← shouldSkipReconciliation mcpServer namespace;
      match skip with
      | (_, Some err) => mret (noRequeue, Some err)
      | (true, None) => mret (noRequeue, None)
      | (false, None) => reconcileLive r mcpServer
      end
  end.

End with_vendor.

(** ** Server information *)

(** What a client reads back from the applied configuration: absent fields are zero. *)
Definition infoOfAC (ac : MCPServerInfoApplyConfiguration) : MCPServerInfo :=
  {| info_name := default "" (iac_name ac); info_version := default "" (iac_version ac);
     info_protocolVersion := default "" (iac_protocolVersion ac); info_instructions := default "" (iac_instructions ac);
     info_capabilities := option_map (fun c => {| caps_tools := default false (cac_tools c); caps_resources := default false (cac_resources c);
       caps_prompts := default false (cac_prompts c); caps_logging := default false (cac_logging c);
       caps_completions := default false (cac_completions c) |}) (iac_capabilities ac) |}.

(** The server information survives the round trip through the apply configuration:
    omitting empty fields loses nothing, and capabilities that are false are sent as
    such, so a capability that disappears is withdrawn from the status. *)
Theorem server_info_roundtrip info :
  infoOfAC (serverInfoToAC info) = info /\
  (forall caps, info_capabilities info = Some caps -> exists ac, iac_capabilities (serverInfoToAC info) = Some ac /\
     cac_tools ac = Some (caps_tools caps) /\ cac_resources ac = Some (caps_resources caps) /\ cac_prompts ac = Some (caps_prompts caps) /\
     cac_logging ac = Some (caps_logging caps) /\ cac_completions ac = Some (caps_completions caps)).
Proof.
  destruct info as [n v p i c]. unfold serverInfoToAC, withNonEmpty, infoOfAC. cbn. split.
  - repeat case_bool_decide; subst; cbn; destruct c as [[]|]; cbn; subst; done.
  - intros caps ->. by eexists.
Qed.
