(* ===== verification/Lifecycle.v ===== *)
(** * The reconciler as a whole

    Theorems about every run of [Reconcile]: what it may write, what it may read, the
    shape of the status it publishes, and how a run ends. *)

From S2P Require Import Prelude K8s ApiAlpha ApiBeta StatusAC Interact Conditions AuditLog Ownership GoJSON Metadata Service.
From S2P Require Import Gateway NetworkPolicy Validation ConfigHash Deployment Handshake Byo Reconcile.

(** ** The calls of the sub-handlers *)

Definition no_apply (c : Call) : Prop := match c with CApplyStatus _ _ _ => False | _ => True end.

(** Neither a Deployment nor a NetworkPolicy is written. *)
Definition spares_workload (c : Call) : Prop :=
  match c with
  | CCreate k _ | CUpdate k _ | CDelete k _ _ => k <> KDeployment /\ k <> KNetworkPolicy
  | _ => True
  end.

Definition byo (srv : MCPServer) : bool := match spec_workloadRef (srv_spec srv) with Some _ => true | None => false end.

(** What holds of every call of a sub-handler: dependencies are read through the
    indexes, the status is left to the reconciler, and with a referenced workload
    neither Deployments nor NetworkPolicies are touched. *)
Definition sub_call (srv : MCPServer) (c : Call) : Prop :=
  indexed_read srv c /\ no_apply c /\ (byo srv = true -> spares_workload c).

(** ... and when it writes nothing. *)
Definition quiet_call (srv : MCPServer) (c : Call) : Prop := sub_call srv c /\ no_write c.

Ltac sub_tac := intros; calls_tac; try (unfold quiet_call, sub_call, ownedKinds; cbn; split_and!; solve [done | by intros _ | tauto]).

Section sub.
Context `{V : Vendor}.
Context (r : MCPServerReconciler) (srv : MCPServer).

Lemma sub_outputs c : outputs c -> sub_call srv c.
Proof. by destruct c. Qed.

Lemma sub_clock c : reads_clock c -> sub_call srv c.
Proof. by destruct c. Qed.

Lemma sub_observes c : observes c -> sub_call srv c.
Proof. by destruct c. Qed.

Lemma sub_out o : mcalls (sub_call srv) (out o).
Proof. by apply mcalls_call. Qed.

Lemma sub_silent {A} (m : M A) : silent m -> mcalls (sub_call srv) m.
Proof. intros [H _]. eapply mcalls_mono; [apply sub_outputs|exact H]. Qed.

Lemma quiet_observes c : observes c -> quiet_call srv c.
Proof. by destruct c. Qed.

Lemma quiet_silent {A} (m : M A) : silent m -> mcalls (quiet_call srv) m.
Proof. intros [H _]. eapply mcalls_mono; [|exact H]. by intros []. Qed.

Lemma sub_newCondition t st rs ms g : mcalls (sub_call srv) (newCondition t st rs ms g).
Proof. eapply mcalls_mono; [apply sub_clock|apply newCondition_calls]. Qed.

Lemma sub_validateOwnership k o : mcalls (sub_call srv) (validateOwnership r k o srv).
Proof. eapply mcalls_mono; [apply sub_outputs|apply validateOwnership_outputs]. Qed.

Lemma sub_owned k ns n : In k ownedKinds -> sub_call srv (CGet Cached k ns n).
Proof. intros Hk. split; [|done]. unfold ownedKinds in *. cbn in Hk. destruct k; cbn; intuition discriminate. Qed.

Ltac owned_read := apply mcalls_call, sub_owned; cbn; tauto.

Lemma sub_cleanupGatewayBinding : mcalls (sub_call srv) (cleanupGatewayBindingIfRemoved r srv).
Proof.
  unfold cleanupGatewayBindingIfRemoved. destruct (spec_gateway _); [apply mcalls_ret|].
  apply mcalls_bind; [owned_read|]. intros [b|e]; [|sub_tac].
  apply mcalls_bind; [apply sub_validateOwnership|]. sub_tac.
Qed.

Lemma sub_reconcileGatewayBinding : mcalls (sub_call srv) (reconcileGatewayBinding r srv).
Proof.
  unfold reconcileGatewayBinding. apply mcalls_bind; [owned_read|]. intros got.
  destruct (spec_gateway _) as [gw|].
  - destruct (setController _ _); [|sub_tac]. destruct got; [|sub_tac].
    apply mcalls_bind; [apply sub_validateOwnership|]. sub_tac.
  - destruct got; [|sub_tac]. apply mcalls_bind; [apply sub_validateOwnership|]. sub_tac.
Qed.

Lemma sub_reconcileGatewayCondition : mcalls (quiet_call srv) (reconcileGatewayCondition srv).
Proof. unfold reconcileGatewayCondition, newCondition. destruct (spec_gateway _); sub_tac. Qed.

Lemma sub_reconcileDeployment : byo srv = false -> mcalls (sub_call srv) (reconcileDeployment r srv).
Proof.
  intros Hb. assert (Hs : forall c, sub_call srv c <-> indexed_read srv c /\ no_apply c)
    by (intros c; unfold sub_call; rewrite Hb; intuition congruence).
  unfold reconcileDeployment. destruct (createDeployment r srv) as [d0|]; [|sub_tac].
  destruct (setController _ _); [|sub_tac].
  apply mcalls_bind.
  { apply applyConfigHash_calls; intros n Hn; apply Hs; cbn; split_and!; try done. by apply podSecret_indexed. }
  intros [d|e]; [|sub_tac]. apply mcalls_bind; [owned_read|]. intros [ex|e].
  - apply mcalls_bind; [apply sub_validateOwnership|]. intros [e|]; [sub_tac|]. sub_tac; by apply Hs.
  - sub_tac; by apply Hs.
Qed.

Lemma sub_ensureNetworkPolicy : byo srv = false -> mcalls (sub_call srv) (ensureNetworkPolicy r srv).
Proof.
  intros Hb. assert (Hs : forall c, sub_call srv c <-> indexed_read srv c /\ no_apply c)
    by (intros c; unfold sub_call; rewrite Hb; intuition congruence).
  unfold ensureNetworkPolicy. apply mcalls_bind.
  { unfold gatewayIngressPeers. destruct (_ != _); [sub_tac|]. destruct (spec_gateway (srv_spec srv)) as [gw|] eqn:Eg; [|sub_tac].
    destruct (ingressFrom srv); [|sub_tac]. destruct (if _ == _ then _ else _) as [key|]; [|sub_tac].
    apply mcalls_bind; [|sub_tac]. unfold resolveGatewaySourceNamespace.
    destruct (gw_configRef gw == "") eqn:Ec; [sub_tac|]. apply bool_decide_eq_false in Ec.
    apply mcalls_bind; [|sub_tac]. apply mcalls_call. apply Hs. cbn. split_and!; [done..| |done].
    apply configMap_indexed. do 3 right. eauto. }
  intros [peers|e]; [|sub_tac]. destruct (setController _ _); [|sub_tac].
  apply mcalls_bind; [owned_read|]. intros [ex|e].
  - apply mcalls_bind; [apply sub_validateOwnership|]. intros [e|]; [sub_tac|].
    unfold auditNetworkPolicyUpdated, audit. sub_tac; by apply Hs.
  - unfold auditNetworkPolicyCreated, audit. sub_tac; by apply Hs.
Qed.

Lemma sub_reconcileServiceOrBYO sel : mcalls (sub_call srv) (reconcileServiceOrBYO r srv sel).
Proof.
  assert (Hdirect : spec_serviceRef (srv_spec srv) <> None ->
            sub_call srv (CGet Direct KService (om_namespace (srv_meta srv)) (serviceNameFor srv))).
  { intros Hr. split; [|done]. cbn. split; [done|]. unfold extractServiceRefNames, serviceNameFor.
    destruct (spec_serviceRef (srv_spec srv)); [by left|done]. }
  unfold reconcileServiceOrBYO. destruct (spec_serviceRef (srv_spec srv)) as [ref|] eqn:Er.
  - apply mcalls_bind.
    { unfold ResolveServiceEndpoint. rewrite Er. apply mcalls_bind; [|sub_tac]. unfold resolveServicePort.
      match goal with |- mcalls _ (if ?b then _ else _) => destruct b end; [sub_tac|].
      apply mcalls_bind; [apply mcalls_call, Hdirect; done|]. sub_tac. }
    intros res. destruct (snd res); [sub_tac|]. apply mcalls_bind; [|sub_tac].
    unfold cleanupManagedServiceForBYO. rewrite Er. destruct (sr_name ref == _); [sub_tac|].
    apply mcalls_bind; [owned_read|]. intros [ms|e]; [|sub_tac].
    destruct (GetControllerOf _); [|sub_tac]. destruct (_ != _); [sub_tac|].
    apply mcalls_bind; [apply mcalls_call, Hdirect; done|]. sub_tac.
  - apply mcalls_bind; [|unfold observePhase; sub_tac].
    unfold reconcileService. destruct (setController _ _); [|sub_tac]. apply mcalls_bind; [owned_read|].
    intros [ex|e]; [|sub_tac]. apply mcalls_bind; [apply sub_validateOwnership|]. sub_tac.
Qed.

Lemma calls_andThen P m k : mcalls P m -> mcalls P k -> mcalls P (andThen m k).
Proof. intros Hm Hk. apply mcalls_bind; [done|]. intros [e|]; [apply mcalls_ret|done]. Qed.

Lemma calls_eachM {A} P (f : A -> Z -> M (option error)) l i :
  (forall x j, In x l -> mcalls P (f x j)) -> mcalls P (eachM f l i).
Proof.
  revert i. induction l as [|x l IH]; intros i H; cbn [eachM]; [apply mcalls_ret|].
  apply calls_andThen; [apply H; by left|]. apply IH. intros y j Hy. apply H. by right.
Qed.

Lemma sub_configMap n : In n (extractConfigMapNames srv) -> quiet_call srv (CGet Direct KConfigMap (om_namespace (srv_meta srv)) n).
Proof. by intros H. Qed.
Lemma sub_secret n : In n (extractSecretNames srv) -> quiet_call srv (CGet Direct KSecret (om_namespace (srv_meta srv)) n).
Proof. by intros H. Qed.

Lemma in_concat_map {A} (f : A -> list string) l x n : In x l -> In n (f x) -> In n (concat (map f l)).
Proof. intros Hx Hn. apply in_concat. exists (f x). split; [by apply in_map|done]. Qed.

Lemma sub_validateStorageMount st i : In st (cfg_storage (spec_config (srv_spec srv))) -> mcalls (quiet_call srv) (validateStorageMount srv st i).
Proof.
  intros Hin. unfold validateStorageMount.
  destruct (ss_type _ == StorageTypeConfigMap) eqn:E1.
  { destruct (ss_configMap _) as [cm|] eqn:Ec; [|sub_tac]. destruct (_ == ""); [sub_tac|]. destruct (isOptional _); [sub_tac|].
    apply mcalls_bind; [|sub_tac]. apply mcalls_call, sub_configMap, configMap_indexed. left. eapply in_concat_map; [done|].
    unfold storageConfigMap. rewrite E1, Ec. by left. }
  destruct (ss_type _ == StorageTypeSecret) eqn:E2; [|sub_tac].
  destruct (ss_secret _) as [sec|] eqn:Ec; [|sub_tac]. destruct (_ == ""); [sub_tac|]. destruct (isOptional _); [sub_tac|].
  apply mcalls_bind; [|sub_tac]. apply mcalls_call, sub_secret, secret_indexed. left. eapply in_concat_map; [done|].
  unfold storageSecret. rewrite E2, Ec. by left.
Qed.

Lemma sub_validateEnvFrom e i : In e (cfg_envFrom (spec_config (srv_spec srv))) -> mcalls (quiet_call srv) (validateEnvFrom srv e i).
Proof.
  intros Hin. unfold validateEnvFrom. apply calls_andThen.
  - destruct (ef_configMapRef e) as [ref|] eqn:Er; [|sub_tac]. destruct (isOptional _); [sub_tac|].
    apply mcalls_bind; [|sub_tac]. apply mcalls_call, sub_configMap, configMap_indexed. right. left.
    eapply in_concat_map; [done|]. cbn. rewrite Er. by left.
  - destruct (ef_secretRef e) as [ref|] eqn:Er; [|sub_tac]. destruct (isOptional _); [sub_tac|].
    apply mcalls_bind; [|sub_tac]. apply mcalls_call, sub_secret, secret_indexed. right. left.
    eapply in_concat_map; [done|]. cbn. rewrite Er. by left.
Qed.

Lemma sub_validateEnvValueFrom e i : In e (cfg_env (spec_config (srv_spec srv))) -> mcalls (quiet_call srv) (validateEnvValueFrom srv e i).
Proof.
  intros Hin. unfold validateEnvValueFrom. destruct (ev_valueFrom e) as [vf|] eqn:Ev; [|sub_tac]. apply calls_andThen.
  - destruct (evs_configMapKeyRef vf) as [ref|] eqn:Er; [|sub_tac]. destruct (isOptional _); [sub_tac|].
    apply mcalls_bind; [|sub_tac]. apply mcalls_call, sub_configMap, configMap_indexed. right. right. left.
    eapply in_concat_map; [done|]. unfold envConfigMap. rewrite Ev, Er. by left.
  - destruct (evs_secretKeyRef vf) as [ref|] eqn:Er; [|sub_tac]. destruct (isOptional _); [sub_tac|].
    apply mcalls_bind; [|sub_tac]. apply mcalls_call, sub_secret, secret_indexed. right. right.
    eapply in_concat_map; [done|]. unfold envSecret. rewrite Ev, Er. by left.
Qed.

Lemma caBundleName_of tls ref t :
  spec_transport (srv_spec srv) = Some {| tr_tls := Some tls |} -> t = tls -> tls_caBundleSecret tls = Some ref ->
  In (secref_name ref) (extractSecretNames srv).
Proof. intros Ht -> Hr. apply caBundle_indexed. unfold caBundleName. rewrite Ht. destruct tls. cbn in Hr. by subst. Qed.

Lemma sub_validate : mcalls (quiet_call srv) (validateConfigAndResolveWorkload srv).
Proof.
  unfold validateConfigAndResolveWorkload. apply mcalls_bind.
  { destruct (spec_workloadRef (srv_spec srv)) as [ref|] eqn:Ew; [|sub_tac]. apply mcalls_bind; [|sub_tac].
    assert (Hr : forall k, In k [KDeployment; KDaemonSet; KStatefulSet] ->
              quiet_call srv (CGet Direct k (om_namespace (srv_meta srv)) (wr_name ref))).
    { intros k Hk. assert (In (wr_name ref) (extractWorkloadRefNames srv)) by (unfold extractWorkloadRefNames; rewrite Ew; by left).
      destruct Hk as [<-|[<-|[<-|[]]]]; done. }
    unfold validateWorkloadRef, getWorkload. apply mcalls_bind; [|sub_tac].
    sub_tac; apply Hr; cbn; auto. }
  intros [w|e]; [|sub_tac]. apply mcalls_bind; [|sub_tac].
  apply calls_andThen.
  { destruct (spec_serviceRef (srv_spec srv)) as [ref|] eqn:Er; [|sub_tac]. apply mcalls_bind; [|sub_tac]. apply mcalls_call.
    split; [|done]. split; [|done]. cbn. split; [done|]. unfold extractServiceRefNames. rewrite Er. by left. }
  apply calls_andThen.
  { destruct (spec_workloadRef _); [sub_tac|]. apply calls_andThen; [|apply calls_andThen]; apply calls_eachM; intros x j Hx;
      [by apply sub_validateStorageMount|by apply sub_validateEnvFrom|by apply sub_validateEnvValueFrom]. }
  apply calls_andThen; [sub_tac|]. unfold validateTLS.
  destruct (spec_transport (srv_spec srv)) as [[[tls|]]|] eqn:Et; [|sub_tac..]. destruct (tls_enabled tls); [|sub_tac].
  destruct (tls_caBundleSecret tls) as [ref|] eqn:Ec; [|sub_tac]. destruct (tls_insecureSkipVerify tls); [sub_tac|].
  apply mcalls_bind; [|sub_tac]. by eapply mcalls_call, sub_secret, caBundleName_of.
Qed.

Lemma sub_currentCABundleHash : mcalls (quiet_call srv) (currentCABundleHash srv).
Proof.
  unfold currentCABundleHash. destruct (spec_transport (srv_spec srv)) as [[[tls|]]|] eqn:Et; [|sub_tac..].
  unfold computeTLSCABundleHash. destruct (tls_caBundleSecret tls) as [ref|] eqn:Ec; [|sub_tac].
  destruct (_ || _); [sub_tac|]. apply mcalls_bind; [|sub_tac]. by eapply mcalls_call, sub_secret, caBundleName_of.
Qed.

Lemma sub_handshakeTransport : mcalls (quiet_call srv) (handshakeTransport r srv).
Proof.
  unfold handshakeTransport. destruct (spec_transport (srv_spec srv)) as [[[tls|]]|] eqn:Et; [|sub_tac..].
  apply mcalls_bind; [apply quiet_silent; destruct (_ && _); [apply silent_Eventf|apply silent_ret]|]. intros _.
  apply mcalls_bind; [|sub_tac]. unfold buildTLSTransport. destruct (negb _); [sub_tac|]. destruct (tls_insecureSkipVerify tls); [sub_tac|].
  destruct (tls_caBundleSecret tls) as [ref|] eqn:Ec; [|sub_tac].
  apply mcalls_bind; [|sub_tac]. by eapply mcalls_call, sub_secret, caBundleName_of.
Qed.

Lemma sub_reconcileHandshake url avail hash : mcalls (quiet_call srv) (reconcileHandshake r srv url avail hash).
Proof.
  assert (Ha : mcalls (quiet_call srv) (attemptHandshake r srv url)).
  { unfold attemptHandshake. apply mcalls_bind; [apply sub_handshakeTransport|]. intros [tp|e].
    - unfold auditHandshakeAttempt, auditHandshakeSuccess, auditHandshakeFailed, auditHandshakeAuthSkip, audit, handshakeTotal,
        emitHandshakeAuthSkip, Eventf, verifiedWith, newCondition. sub_tac.
    - unfold handshakeTotal, verifiedWith, newCondition. sub_tac. }
  unfold reconcileHandshake, newNotVerifiedCondition, newCondition, handshakeTotal. sub_tac.
Qed.

Lemma sub_retryCount c : mcalls (quiet_call srv) (reconcileHandshakeEventsAndRetryCount r srv c).
Proof. unfold reconcileHandshakeEventsAndRetryCount, emitMCPHandshakeFailed, emitMCPHandshakeRetriesExhausted, Eventf. sub_tac. Qed.

Lemma sub_handshakeRequeue c n : mcalls (quiet_call srv) (handshakeRequeue srv c n).
Proof. unfold handshakeRequeue, auditHandshakeRetriesExhausted, audit. sub_tac. Qed.

Lemma sub_applyGatewayStatus g avail url : mcalls (quiet_call srv) (applyGatewayStatus srv g avail url).
Proof. unfold applyGatewayStatus, recordCondition, newAvailableCondition, newCondition. sub_tac. Qed.

Lemma sub_observeWorkload w acc : mcalls (quiet_call srv) (observeWorkload srv w acc).
Proof.
  unfold observeWorkload. destruct w as [[d|ds|sts]|]; [..|sub_tac]; (apply mcalls_bind; [|sub_tac]).
  - eapply mcalls_mono; [apply quiet_observes|apply reconcileAvailableCondition_calls].
  - unfold daemonSetAvailability, workloadProgressCondition, availableFor, newAvailableCondition, newCondition. sub_tac.
  - unfold statefulSetAvailability, workloadProgressCondition, availableFor, newAvailableCondition, newCondition. sub_tac.
Qed.

End sub.

(** ** Values a handler returns *)

(** Every run of [m] returns a value satisfying [Post]. *)
Definition returns {A} (m : M A) (Post : A -> Prop) : Prop := forall s, mwp m s (fun _ a _ => Post a).

Lemma mguard_bind_val {A B} P (m : M A) (f : A -> M B) (Post : A -> Prop) :
  mguard P m -> returns m Post -> (forall a, Post a -> mguard P (f a)) -> mguard P (m ≫= f).
Proof.
  intros Hm Hv Hf s h. apply guard_bind_mwp; [apply Hm|]. eapply mwp_mono; [apply Hv|]. intros tr a s' Ha. by apply Hf.
Qed.

Lemma mwp_any {A} (m : M A) s : mwp m s (fun _ _ _ => True).
Proof. unfold mwp. rewrite wp_runs. by intros tr [a s'] _. Qed.

Lemma mwp_conj {A} (m : M A) s Q1 Q2 : mwp m s Q1 -> mwp m s Q2 -> mwp m s (fun tr a s' => Q1 tr a s' /\ Q2 tr a s').
Proof. unfold mwp. rewrite !wp_runs. intros H1 H2 tr [a s'] Hr. split; [apply (H1 tr (a, s') Hr)|apply (H2 tr (a, s') Hr)]. Qed.

Lemma returns_bind {A B} (m : M A) (f : A -> M B) Post : (forall a, returns (f a) Post) -> returns (m ≫= f) Post.
Proof. intros Hf s. apply mwp_bind. eapply mwp_mono; [apply mwp_any|]. intros tr a s' _. apply Hf. Qed.

Lemma mguard_and {A} (P Q : list event -> Call -> Prop) (m : M A) :
  mguard P m -> mguard Q m -> mguard (fun h c => P h c /\ Q h c) m.
Proof.
  intros HP HQ s h. specialize (HP s h). specialize (HQ s h). revert h HP HQ.
  induction (m s) as [a|c k IH]; intros h; cbn; [done|]. intros [H1 H2] [H3 H4]. split; [done|]. intros a. by apply IH.
Qed.

Lemma mguard_mono {A} (P Q : list event -> Call -> Prop) (m : M A) :
  (forall h c, P h c -> Q h c) -> mguard P m -> mguard Q m.
Proof.
  intros HPQ HP s h. specialize (HP s h). revert h HP.
  induction (m s) as [a|c k IH]; intros h; cbn; [done|]. intros [H1 H2]. split; [by apply HPQ|]. intros a. by apply IH.
Qed.

Definition is_condition (t st : string) (c : Condition) : Prop := c_type c = t /\ c_status c = st.

Lemma returns_conditionFor srv t st rs ms : returns (conditionFor srv t st rs ms) (is_condition t st).
Proof.
  intros s. apply mwp_bind, mwp_newCondition. intros now. apply mwp_ret. split; autorewrite with cond; done.
Qed.

Lemma returns_notVerifiedFor srv : returns (notVerifiedFor srv) (is_condition ConditionTypeVerified ConditionUnknown).
Proof. intros s. apply mwp_newNotVerifiedCondition. intros now. split; autorewrite with cond; done. Qed.

(** ** The published status *)

(** What every status carries from the start: the generation it speaks about and the
    Service; no address, no conditions. *)
Definition base_status (srv : MCPServer) (st : MCPServerStatusApplyConfiguration) : Prop :=
  sac_observedGeneration st = Some (om_generation (srv_meta srv)) /\ sac_serviceName st = Some (serviceNameFor srv) /\
  sac_address st = None /\ sac_conditions st = [] /\
  (byo srv = true -> sac_deploymentName st = None) /\ (byo srv = false -> sac_workloadName st = None).

Lemma workloadStatus_base srv n m : base_status srv (workloadStatusConfiguration srv n m).
Proof.
  unfold base_status, workloadStatusConfiguration, byo.
  destruct (spec_workloadRef _); [done|]. destruct (src_containerImage _); done.
Qed.

(** The three conditions every status reports are consistent: a rejected configuration
    is neither available nor verified. *)
Definition consistent (acc avail ver : string) : Prop :=
  acc = ConditionTrue \/ acc = ConditionFalse /\ avail = ConditionFalse /\ ver = ConditionUnknown.

Definition published (srv : MCPServer) (st : MCPServerStatusApplyConfiguration) : Prop :=
  sac_observedGeneration st = Some (om_generation (srv_meta srv)) /\ sac_serviceName st = Some (serviceNameFor srv) /\
  (byo srv = true -> sac_deploymentName st = None) /\ (byo srv = false -> sac_workloadName st = None) /\
  NoDup (condition_types st) /\ In (Some ConditionTypePolicyEnforced) (condition_types st) /\
  (exists acc avail ver,
     published_status st ConditionTypeAccepted = Some acc /\ published_status st ConditionTypeAvailable = Some avail /\
     published_status st ConditionTypeVerified = Some ver /\ consistent acc avail ver /\
     (sac_address st <> None -> ver = ConditionTrue)).

Definition extra_types : list (option string) :=
  [Some ConditionTypePolicyEnforced; Some ConditionTypeGatewayRegistered; Some ConditionTypeNetworkPolicyRestricted].

Lemma published_intro srv base st acc avail ver rest :
  base_status srv base ->
  sac_observedGeneration st = sac_observedGeneration base -> sac_serviceName st = sac_serviceName base ->
  sac_deploymentName st = sac_deploymentName base -> sac_workloadName st = sac_workloadName base ->
  sac_conditions st = [conditionToAC acc; conditionToAC avail; conditionToAC ver] ++ rest ->
  c_type acc = ConditionTypeAccepted -> c_type avail = ConditionTypeAvailable -> c_type ver = ConditionTypeVerified ->
  NoDup (map cc_type rest) -> Forall (fun t => In t extra_types) (map cc_type rest) ->
  In (Some ConditionTypePolicyEnforced) (map cc_type rest) ->
  consistent (c_status acc) (c_status avail) (c_status ver) ->
  (sac_address st <> None -> c_status ver = ConditionTrue) ->
  published srv st.
Proof.
  intros (Hg & Hn & _ & _ & Hd & Hw) Eg En Ed Ew Ec Ta Tv Tr Hnd Hex Hpe Hcon Haddr.
  unfold published, condition_types, published_status. rewrite Eg, En, Ed, Ew, Ec. cbn [map app List.find conditionToAC cc_type cc_status].
  rewrite Ta, Tv, Tr. split_and!; [done..| | |].
  - assert (Hno : forall t, ~ In t extra_types -> t ∉ map cc_type rest).
    { intros t Ht Hin. apply Ht. rewrite Forall_forall in Hex. by apply Hex. }
    repeat (apply NoDup_cons; split;
      [intros Hx; repeat (apply elem_of_cons in Hx as [H0|Hx]; [discriminate H0|]); revert Hx; apply Hno; vm_compute;
       intuition discriminate|]).
    done.
  - do 3 right. done.
  - exists (c_status acc), (c_status avail), (c_status ver). done.
Qed.

(** ** The discipline of a reconcile *)

Definition status_ok (srv : MCPServer) (c : Call) : Prop := match c with CApplyStatus _ _ st => published srv st | _ => True end.

Definition reconcile_call `{V : Vendor} (srv : MCPServer) (h : list event) (c : Call) : Prop :=
  managed_write srv h c /\ indexed_read srv c /\ (byo srv = true -> spares_workload c) /\ status_ok srv c.

Definition extras (rest : list ConditionApplyConfiguration) : Prop :=
  NoDup (map cc_type rest) /\ Forall (fun t => In t extra_types) (map cc_type rest) /\
  In (Some ConditionTypePolicyEnforced) (map cc_type rest).

Section walk.
Context `{V : Vendor} {L : VendorLaws V}.
Context (r : MCPServerReconciler) (srv : MCPServer).

Lemma rc_sub {A} (m : M A) : mguard (managed_write srv) m -> mcalls (sub_call srv) m -> mguard (reconcile_call srv) m.
Proof.
  intros Hm Hs. apply (mguard_mono (fun h c => managed_write srv h c /\ sub_call srv c)).
  - intros h c (Hw & Hi & Hn & Hb). split_and!; [done..|]. by destruct c.
  - apply mguard_and; [done|]. eapply mguard_calls; [|exact Hs]. done.
Qed.

Lemma rc_read {A} (m : M A) : mcalls no_write m -> mcalls (sub_call srv) m -> mguard (reconcile_call srv) m.
Proof. intros Hn. apply rc_sub. eapply mguard_calls; [apply managed_no_write|exact Hn]. Qed.

Lemma rc_quiet {A} (m : M A) : mcalls (quiet_call srv) m -> mguard (reconcile_call srv) m.
Proof. intros H. apply rc_read; eapply mcalls_mono; try exact H; by intros c []. Qed.

Lemma rc_silent {A} (m : M A) : silent m -> mguard (reconcile_call srv) m.
Proof. intros Hm. apply rc_read; [eapply mcalls_mono; [apply outputs_no_write|apply Hm]|by apply sub_silent]. Qed.

Lemma rc_clock {A} (m : M A) : mcalls reads_clock m -> mguard (reconcile_call srv) m.
Proof. intros Hm. apply rc_read; (eapply mcalls_mono; [|exact Hm]); [by intros []|apply sub_clock]. Qed.

Lemma rc_conditionFor t st rs ms : mguard (reconcile_call srv) (conditionFor srv t st rs ms).
Proof. apply rc_clock. unfold conditionFor, newCondition. calls_tac. Qed.
Lemma rc_notVerifiedFor : mguard (reconcile_call srv) (notVerifiedFor srv).
Proof. apply rc_clock, newNotVerifiedCondition_calls. Qed.

Lemma rc_append conds fresh : mguard (reconcile_call srv) (appendPersistentConditions r srv conds fresh).
Proof. apply mguard_bind; [apply rc_clock, policyEnforcedCondition_calls|]. done. Qed.

Lemma carried_types t : map cc_type (carried srv t) = [] \/ map cc_type (carried srv t) = [Some t].
Proof.
  unfold carried. destruct (FindStatusCondition _ t) as [c|] eqn:E; [|by left]. right. cbn.
  by rewrite (proj1 (FindStatusCondition_type _ _ _ E)).
Qed.

Lemma extras_list pe gw np :
  c_type pe = ConditionTypePolicyEnforced ->
  (map cc_type gw = [] \/ map cc_type gw = [Some ConditionTypeGatewayRegistered]) ->
  (map cc_type np = [] \/ map cc_type np = [Some ConditionTypeNetworkPolicyRestricted]) ->
  extras ([conditionToAC pe] ++ gw ++ np) /\ extras (gw ++ np ++ [conditionToAC pe]).
Proof.
  intros Hp Hg Hn. unfold extras. rewrite !map_app. cbn [map conditionToAC cc_type]. rewrite Hp.
  assert (Hd : forall l, bool_decide (NoDup l) && forallb (fun t => existsb (fun x => x == t) extra_types) l
                         && existsb (fun x => x == Some ConditionTypePolicyEnforced) l = true ->
            NoDup l /\ Forall (fun t => In t extra_types) l /\ In (Some ConditionTypePolicyEnforced) l).
  { intros l Hl. bool_to_prop. split_and!; [done| |].
    - apply Forall_forall. intros t Ht. rewrite forallb_forall in *. 
      match goal with H : forall x, In x l -> _ |- _ => specialize (H t (proj1 (list_elem_of_In _ _) Ht)) end.
      match goal with H : existsb _ extra_types = true |- _ => apply existsb_exists in H as (x & Hx & E) end.
      apply bool_decide_eq_true in E. by subst.
    - match goal with H : existsb _ l = true |- _ => apply existsb_exists in H as (x & Hx & E) end.
      apply bool_decide_eq_true in E. by subst. }
  split; apply Hd; destruct Hg as [-> | ->], Hn as [-> | ->]; vm_compute; reflexivity.
Qed.

Lemma returns_policyEnforced g ex :
  returns (policyEnforcedCondition r g ex) (fun c => c_type c = ConditionTypePolicyEnforced).
Proof. intros s. apply mwp_policyEnforcedCondition. intros now. by autorewrite with cond. Qed.

Lemma returns_append conds fresh :
  (forall p, fresh = Some p -> c_type p = ConditionTypeNetworkPolicyRestricted) ->
  returns (appendPersistentConditions r srv conds fresh) (fun l => exists rest, l = conds ++ rest /\ extras rest).
Proof.
  intros Hf s. apply mwp_bind. eapply mwp_mono; [apply returns_policyEnforced|]. intros tr pe s' Hpe. apply mwp_ret.
  eexists. split; [reflexivity|]. apply extras_list; [done|apply carried_types|].
  destruct fresh as [p|]; [|apply carried_types]. right. cbn. by rewrite (Hf p).
Qed.

Lemma rc_applyStatus st : published srv st -> mguard (reconcile_call srv) (applyStatus srv st).
Proof. intros H. by apply mguard_call. Qed.

Lemma failure_published base acc avail ver rest :
  base_status srv base -> c_type acc = ConditionTypeAccepted ->
  is_condition ConditionTypeAvailable ConditionFalse avail -> is_condition ConditionTypeVerified ConditionUnknown ver ->
  c_status acc = ConditionTrue \/ c_status acc = ConditionFalse -> extras rest ->
  published srv (withPreviousBinding srv
    (WithConditions ([conditionToAC acc; conditionToAC avail; conditionToAC ver] ++ rest) base)).
Proof.
  intros Hb Ha [Tv Sv] [Tr Sr] Hs (Hnd & Hex & Hpe). pose proof Hb as (_ & _ & Haddr & Hc & _).
  eapply (published_intro srv base _ acc avail ver rest); try done; unfold withPreviousBinding.
  1-4: by destruct (st_gatewayBinding _).
  - destruct (st_gatewayBinding _); cbn; by rewrite Hc.
  - rewrite Sv, Sr. unfold consistent. naive_solver.
  - destruct (st_gatewayBinding _); cbn; by rewrite Haddr.
Qed.

Lemma rc_reportFailure st err : published srv st -> mguard (reconcile_call srv) (reportFailure srv st err).
Proof. intros H. apply mguard_bind; [by apply rc_applyStatus|]. intros [e|]; [done|]. by destruct (IsOwnershipConflict err). Qed.

(** A configuration that was accepted. *)
Definition accepted_condition (c : Condition) : Prop := is_condition ConditionTypeAccepted ConditionTrue c.

Lemma rc_handleDeploymentReconcileError acc err :
  accepted_condition acc -> mguard (reconcile_call srv) (handleDeploymentReconcileError r srv acc err).
Proof.
  intros [Ta Sa]. unfold handleDeploymentReconcileError. destruct (IsConflict err); [done|].
  apply mguard_bind; [apply rc_silent, silent_out|]. intros _.
  eapply mguard_bind_val; [apply rc_conditionFor|apply returns_conditionFor|]. intros avail Hav.
  eapply mguard_bind_val; [apply rc_notVerifiedFor|apply returns_notVerifiedFor|]. intros ver Hver.
  apply mguard_bind; [apply rc_silent, silent_out|]. intros _.
  apply mguard_bind; [apply rc_silent, silent_if; [apply silent_ret|apply silent_Eventf]|]. intros _.
  eapply mguard_bind_val; [apply rc_append|by apply returns_append|]. intros conds (rest & -> & Hrest).
  apply rc_reportFailure, failure_published; auto using workloadStatus_base.
Qed.

Lemma rc_reconcilePermanentValidationError reason message :
  mguard (reconcile_call srv) (reconcilePermanentValidationError r srv reason message).
Proof.
  unfold reconcilePermanentValidationError.
  eapply mguard_bind_val; [apply rc_conditionFor|apply returns_conditionFor|]. intros acc [Ta Sa].
  apply mguard_bind; [apply rc_silent, silent_out|]. intros _.
  apply mguard_bind; [apply rc_silent, silent_out|]. intros _.
  eapply mguard_bind_val; [apply rc_conditionFor|apply returns_conditionFor|]. intros avail Hav.
  eapply mguard_bind_val; [apply rc_notVerifiedFor|apply returns_notVerifiedFor|]. intros ver Hver.
  eapply mguard_bind_val; [apply rc_append|by apply returns_append|]. intros conds (rest & -> & Hrest).
  apply mguard_bind; [apply rc_applyStatus, failure_published; auto using workloadStatus_base|].
  intros [e|]; [done|].
  apply mguard_bind; [apply rc_silent, silent_if; [apply silent_ret|apply silent_Eventf]|]. intros _.
  apply mguard_bind; [apply rc_silent, silent_out|]. intros _.
  apply mguard_bind; [apply rc_silent, silent_out|]. done.
Qed.

Lemma rc_handleResourceFailure base acc err params :
  base_status srv base -> accepted_condition acc -> (forall m s, silent (fp_emitEvent params m s)) ->
  (forall p, fp_networkPolicyPosture params = Some p -> c_type p = ConditionTypeNetworkPolicyRestricted) ->
  mguard (reconcile_call srv) (handleResourceFailure r srv base acc err params).
Proof.
  intros Hb [Ta Sa] He Hp. unfold handleResourceFailure. destruct (IsConflict err); [done|].
  apply mguard_bind; [apply rc_silent, silent_out|]. intros _.
  eapply mguard_bind_val; [apply rc_conditionFor|apply returns_conditionFor|]. intros avail Hav.
  eapply mguard_bind_val; [apply rc_notVerifiedFor|apply returns_notVerifiedFor|]. intros ver Hver.
  apply mguard_bind; [apply rc_silent, silent_out|]. intros _.
  apply mguard_bind; [apply rc_silent, silent_if; [apply silent_ret|apply He]|]. intros _.
  eapply mguard_bind_val; [apply rc_append|by apply returns_append|]. intros conds (rest & -> & Hrest).
  apply rc_reportFailure, failure_published; auto.
Qed.

Lemma returns_verified url avail hash :
  returns (reconcileHandshake r srv url avail hash) (fun ci => c_type (fst ci) = ConditionTypeVerified).
Proof.
  assert (Hv : forall st rs ms (info : option MCPServerInfo),
            returns (c ← verifiedWith srv st rs ms; mret (c, info)) (fun ci => c_type (fst ci) = ConditionTypeVerified)).
  { intros st rs ms info s. apply mwp_bind, mwp_verifiedWith. intros tr c _ Ht _ _. by apply mwp_ret. }
  assert (Ha : returns (attemptHandshake r srv url) (fun ci => c_type (fst ci) = ConditionTypeVerified)).
  { apply returns_bind. intros [tp|e].
    - do 2 (apply returns_bind; intros ?). apply returns_bind; intros dialed. do 2 (apply returns_bind; intros ?).
      destruct dialed as [info|err].
      + do 2 (apply returns_bind; intros ?). apply Hv.
      + destruct (isHTTPAuthError err); [do 3 (apply returns_bind; intros ?); apply Hv|].
        do 2 (apply returns_bind; intros ?). intros s. apply mwp_bind, mwp_newCondition. intros now. apply mwp_ret.
        destruct (isTrue _); cbn; by autorewrite with cond.
    - apply returns_bind. intros _. apply Hv. }
  unfold reconcileHandshake. apply returns_bind. intros s0. destruct (_ || _).
  { intros s. apply mwp_bind, mwp_newNotVerifiedCondition. intros now. apply mwp_ret. cbn. by autorewrite with cond. }
  destruct (FindStatusCondition _ ConditionTypeVerified) as [c|] eqn:Ef; [|apply Ha].
  destruct (st_serverInfo _); [|apply Ha]. destruct (_ && _); [|apply Ha].
  apply returns_bind. intros _ s. apply mwp_ret. by apply FindStatusCondition_type in Ef as [? _].
Qed.

Lemma returns_retryCount c :
  returns (reconcileHandshakeEventsAndRetryCount r srv c) (fun nc => c_type (snd nc) = c_type c /\ c_status (snd nc) = c_status c).
Proof.
  unfold reconcileHandshakeEventsAndRetryCount. apply returns_bind. intros s0. destruct (_ != _).
  { apply returns_bind. intros _ s. by apply mwp_ret. }
  do 3 (apply returns_bind; intros _). intros s. apply mwp_ret. by destruct (_ <=? _).
Qed.

(** The gateway's part keeps the types of the conditions. *)
Lemma returns_gatewayOverride avail url :
  c_type avail = ConditionTypeAvailable ->
  returns (gatewayOverride srv avail url) (fun gw => c_type (snd (fst gw)) = ConditionTypeAvailable /\
    forall g, fst (fst gw) = Some g -> c_type (gws_condition g) = ConditionTypeGatewayRegistered).
Proof.
  intros Ha s. apply mwp_bind, mwp_reconcileGatewayCondition; [intros _; by apply mwp_ret|].
  intros tr g (Ht & _). unfold applyGatewayStatus. apply mwp_bind, mwp_bind. eapply mwp_mono; [apply mwp_any|]. intros ? ? ? _.
  destruct (_ && _).
  - apply mwp_bind, mwp_newAvailableCondition. intros now. apply mwp_bind. eapply mwp_mono; [apply mwp_any|]. intros ? ? ? _.
    apply mwp_ret, mwp_ret. cbn. split; [by autorewrite with cond|]. intros g' [= <-]. cbn. by autorewrite with cond.
  - apply mwp_ret, mwp_ret. cbn. split; [done|]. intros g' [= <-]. cbn. by autorewrite with cond.
Qed.

Lemma sub_gatewayOverride avail url : mcalls (quiet_call srv) (gatewayOverride srv avail url).
Proof.
  apply mcalls_bind; [apply sub_reconcileGatewayCondition|]. intros [g|]; [|apply mcalls_ret].
  apply mcalls_bind; [apply sub_applyGatewayStatus|]. intros; apply mcalls_ret.
Qed.

Lemma endpoint_published base gw acc avail ver np pe url info :
  base_status srv base -> accepted_condition acc -> c_type avail = ConditionTypeAvailable -> c_type ver = ConditionTypeVerified ->
  (forall g, gw = Some g -> c_type (gws_condition g) = ConditionTypeGatewayRegistered) ->
  (forall p, np = Some p -> c_type p = ConditionTypeNetworkPolicyRestricted) -> c_type pe = ConditionTypePolicyEnforced ->
  published srv (endpointStatus base gw acc avail ver np pe url info).
Proof.
  intros Hb [Ta Sa] Tv Tr Hg Hn Hp. pose proof Hb as (_ & _ & Haddr & Hc & _).
  set (gwc := match gw with Some g => [conditionToAC (gws_condition g)] | None => [] end).
  set (npc := match np with Some p => [conditionToAC p] | None => [] end).
  destruct (extras_list pe gwc npc) as [_ (Hnd & Hex & Hpe)]; [done|..].
  { unfold gwc. destruct gw as [g|]; [right|by left]. cbn. by rewrite (Hg g). }
  { unfold npc. destruct np as [p|]; [right|by left]. cbn. by rewrite (Hn p). }
  eapply (published_intro srv base _ acc avail ver (gwc ++ npc ++ [conditionToAC pe])); try done;
    unfold endpointStatus, withAddressWhenVerified, applyGatewayStatusToAC.
  1-4: destruct gw as [[? [?|] ? ?]|], np, info; by case_bool_decide.
  - unfold gwc, npc. destruct gw as [[? [?|] ? ?]|], np, info; case_bool_decide; cbn; by rewrite Hc.
  - by left.
  - intros Hne. destruct (c_status ver == ConditionTrue) eqn:E; [by apply bool_decide_eq_true in E|].
    exfalso. apply Hne. destruct gw as [[? [?|] ? ?]|], np, info; cbn; done.
Qed.

Lemma rc_finishEndpoint hash diff ver n gwErr : mguard (reconcile_call srv) (finishEndpoint r srv hash diff ver n gwErr).
Proof.
  unfold finishEndpoint. apply mguard_bind.
  { unfold updateTLSCABundleHash. apply mguard_bind; [done|]. intros s. guard_tac. }
  intros _. apply mguard_bind.
  { apply rc_quiet. unfold emitCapabilityChangeDetected, Eventf, auditCapabilityChange, audit. sub_tac. }
  intros _. apply mguard_bind; [apply rc_quiet, sub_handshakeRequeue|]. by intros [res|].
Qed.

Lemma rc_reconcileEndpoint acc avail base ep np :
  base_status srv base -> accepted_condition acc -> c_type avail = ConditionTypeAvailable ->
  (forall p, np = Some p -> c_type p = ConditionTypeNetworkPolicyRestricted) ->
  mguard (reconcile_call srv) (reconcileEndpoint r srv acc avail base ep np).
Proof.
  intros Hb Hacc Ha Hn. unfold reconcileEndpoint.
  apply mguard_bind; [apply rc_sub; [apply reconcileGatewayBinding_managed|apply sub_reconcileGatewayBinding]|]. intros gwErr.
  apply mguard_bind; [apply rc_silent, silent_out|]. intros _.
  destruct gwErr as [e|]; [apply rc_handleResourceFailure; try done; intros; apply silent_Eventf|].
  apply mguard_bind; [apply rc_quiet, sub_currentCABundleHash|]. intros hash.
  eapply mguard_bind_val; [apply rc_quiet, sub_reconcileHandshake|apply returns_verified|]. intros [ver info] Hver. cbn [fst snd].
  apply mguard_bind; [apply rc_silent, silent_out|]. intros _.
  eapply mguard_bind_val; [apply rc_quiet, sub_retryCount|apply returns_retryCount|]. intros [n ver'] [Hv1 Hv2]. cbn [fst snd] in *.
  eapply mguard_bind_val; [apply rc_quiet, sub_gatewayOverride|by apply returns_gatewayOverride|]. intros gw [Hg1 Hg2].
  apply mguard_bind; [apply rc_silent, silent_if; [apply silent_Eventf|apply silent_ret]|]. intros _.
  eapply mguard_bind_val; [apply rc_clock, policyEnforcedCondition_calls|apply returns_policyEnforced|]. intros pe Hpe.
  apply mguard_bind; [apply rc_applyStatus, endpoint_published; try done; congruence|].
  intros [e|]; [done|]. apply rc_finishEndpoint.
Qed.

Lemma returns_observeWorkload w acc :
  returns (observeWorkload srv w acc) (fun res => forall o, res = Ok o -> c_type (wo_availability o) = ConditionTypeAvailable).
Proof.
  intros s. destruct w as [[d|ds|sts]|]; [apply mwp_bind..|by apply mwp_ret].
  - eapply mwp_mono; [apply mwp_reconcileAvailableCondition|]. intros tr c s' (_ & Ht & _). apply mwp_ret. by intros o [= <-].
  - eapply mwp_mono; [apply daemonSet_observed|]. intros tr c s' (Ht & _). apply mwp_ret. by intros o [= <-].
  - eapply mwp_mono; [apply statefulSet_observed|]. intros tr c s' (Ht & _). apply mwp_ret. by intros o [= <-].
Qed.

Lemma rc_service sel : mguard (reconcile_call srv) (reconcileServiceOrBYO r srv sel).
Proof. apply rc_sub; [apply reconcileServiceOrBYO_managed|apply sub_reconcileServiceOrBYO]. Qed.

Lemma rc_reconcileBYO acc w : accepted_condition acc -> mguard (reconcile_call srv) (reconcileBYO r srv acc w).
Proof.
  intros Hacc. unfold reconcileBYO.
  eapply mguard_bind_val; [apply rc_quiet, sub_observeWorkload|apply returns_observeWorkload|]. intros [o|e] Ho; [|done].
  apply mguard_bind; [apply rc_silent, silent_out|]. intros _.
  apply mguard_bind; [apply rc_silent, silent_maybeEmit|]. intros _.
  apply mguard_bind; [apply rc_service|]. intros [ep [e|]]; cbn [fst snd].
  - apply rc_handleResourceFailure; try done; [apply workloadStatus_base|intros; apply silent_Eventf].
  - apply rc_reconcileEndpoint; try done; [apply workloadStatus_base|by apply Ho].
Qed.

Lemma returns_posture g ex np :
  returns (networkPolicyPostureConditionFor srv g ex np) (fun c => c_type c = ConditionTypeNetworkPolicyRestricted).
Proof.
  intros s. unfold networkPolicyPostureConditionFor. destruct (posture srv np) as [[st rs] ms].
  apply mwp_bind, mwp_newCondition. intros now. apply mwp_ret. by autorewrite with cond.
Qed.

Lemma rc_reconcileManaged acc : byo srv = false -> accepted_condition acc -> mguard (reconcile_call srv) (reconcileManaged r srv acc).
Proof.
  intros Hb Hacc. unfold reconcileManaged.
  apply mguard_bind; [apply rc_sub; [apply reconcileDeployment_managed|by apply sub_reconcileDeployment]|]. intros dep.
  apply mguard_bind; [apply rc_silent, silent_out|]. intros _.
  destruct dep as [d|e]; [|by apply rc_handleDeploymentReconcileError].
  apply mguard_bind; [apply rc_service|]. intros [ep [e|]]; cbn [fst snd].
  { apply rc_handleResourceFailure; try done; [apply workloadStatus_base|intros; apply silent_Eventf]. }
  apply mguard_bind; [apply rc_sub; [apply ensureNetworkPolicy_managed|by apply sub_ensureNetworkPolicy]|]. intros np.
  apply mguard_bind; [apply rc_silent, silent_out|]. intros _.
  destruct np as [np|e].
  2:{ apply rc_handleResourceFailure; try done; [apply workloadStatus_base|intros; apply silent_Eventf]. }
  eapply mguard_bind_val; [|apply returns_posture|].
  { apply rc_clock. unfold networkPolicyPostureConditionFor, newCondition. destruct (posture srv np) as [[? ?] ?]. calls_tac. }
  intros posture Hp. apply mguard_bind; [apply rc_silent, silent_out|]. intros _.
  eapply (mguard_bind_val _ _ _ (fun c => c_type c = ConditionTypeAvailable)).
  { apply rc_quiet. eapply mcalls_mono; [apply quiet_observes|apply reconcileAvailableCondition_calls]. }
  { intros s. eapply mwp_mono; [apply mwp_reconcileAvailableCondition|]. by intros tr c s' (_ & Ht & _). }
  intros avail Hav. apply mguard_bind; [apply rc_silent, silent_out|]. intros _.
  apply mguard_bind; [apply rc_silent, silent_maybeEmit|]. intros _.
  apply rc_reconcileEndpoint; try done; [apply workloadStatus_base|by intros p [= <-]].
Qed.

Lemma rc_reconcileLive : mguard (reconcile_call srv) (reconcileLive r srv).
Proof.
  unfold reconcileLive.
  apply mguard_bind; [apply rc_sub; [apply cleanupGatewayBindingIfRemoved_managed|apply sub_cleanupGatewayBinding]|]. intros _.
  apply mguard_bind; [apply rc_quiet, sub_validate|]. intros validated.
  apply mguard_bind; [apply rc_silent, silent_out|]. intros _.
  destruct validated as [w|e].
  2:{ destruct (asValidationError e) as [[reason message]|]; [|done].
      apply mguard_bind; [apply rc_reconcilePermanentValidationError|]. done. }
  eapply mguard_bind_val; [apply rc_conditionFor|apply returns_conditionFor|]. intros acc Hacc.
  apply mguard_bind; [apply rc_silent, silent_out|]. intros _.
  apply mguard_bind; [apply rc_silent, silent_if; [apply silent_Eventf|apply silent_ret]|]. intros _.
  destruct (spec_workloadRef (srv_spec srv)) eqn:Ew.
  - by apply rc_reconcileBYO.
  - apply rc_reconcileManaged; [unfold byo; by rewrite Ew|done].
Qed.

End walk.

(** ** Every call of a reconcile *)

(** The MCPServer this reconcile works on, and that it is to be reconciled: it was read,
    neither it nor its namespace is being deleted. *)
Definition live_before (req : Request) (h : list event) (srv : MCPServer) : Prop :=
  In (Ev (CGet Cached KMCPServer (fst req) (snd req)) (Ok srv)) h /\
  om_deletionTimestamp (srv_meta srv) = None /\
  exists ns, In (Ev (CGet Cached KNamespace "" (fst req)) (Ok ns)) h /\ om_deletionTimestamp (ns_meta ns) = None.

Definition first_reads (req : Request) (c : Call) : Prop :=
  match c with
  | CGet Cached KMCPServer ns name => (ns, name) = req
  | CGet Cached KNamespace ns name => ns = "" /\ name = fst req
  | COut _ => True
  | _ => False
  end.

Definition reconcile_discipline `{V : Vendor} (req : Request) (h : list event) (c : Call) : Prop :=
  first_reads req c \/ exists srv, live_before req h srv /\ reconcile_call srv h c.

Section discipline.
Context `{V : Vendor} {L : VendorLaws V}.

Lemma guard_extend {A} (P Q : list event -> Call -> Prop) (p : prog A) h :
  (forall tr c, P (tr ++ h) c -> Q (tr ++ h) c) -> guard P h p -> guard Q h p.
Proof.
  intros HPQ. revert h HPQ. induction p as [a|c k IH]; intros h HPQ; cbn; [done|]. intros [Hc Hk].
  split; [by apply (HPQ [])|]. intros x. apply IH; [|done]. intros tr c' H.
  specialize (HPQ (tr ++ [Ev c x]) c'). rewrite <- app_assoc in HPQ. by apply HPQ.
Qed.

Lemma Reconcile_discipline r req : mguard (reconcile_discipline req) (Reconcile r req).
Proof.
  destruct req as [ns name]. unfold Reconcile. apply mguard_read; [intros h; by left|]. intros [srv|e] s h.
  2:{ destruct (IsNotFound e); [|done]. cbn. split; [by left|done]. }
  unfold shouldSkipReconciliation. destruct (om_deletionTimestamp (srv_meta srv)) eqn:Ed; [done|].
  cbn. split; [by left|]. intros [n|e].
  2:{ cbn. repeat case_match; done. }
  cbn. destruct (om_deletionTimestamp (ns_meta n)) eqn:En; [cbn; done|]. cbn.
  eapply guard_extend; [|apply rc_reconcileLive]. intros tr c H. right. exists srv. split; [|done].
  split_and!; [|done|]; cbn [fst snd]; [|exists n; split; [|done]]; apply in_or_app; right; cbn; auto.
Qed.

End discipline.

(** ** How a reconcile ends *)

Definition each_call (P : Call -> Prop) (tr : list event) : Prop := Forall (fun e => let '(Ev c _) := e in P c) tr.

Definition no_create (c : Call) : Prop := match c with CCreate _ _ | CUpdate _ _ => False | _ => True end.

(** The status was applied: once, as the last thing but for events and metrics; an
    error of the update is the error of the reconcile. *)
Definition concluded (Q : list event -> MCPServerStatusApplyConfiguration -> option error -> Result -> option error -> Prop)
    (tr : list event) (res : Result * option error) : Prop :=
  exists tr1 ns name st a tr2,
    tr = tr1 ++ Ev (CApplyStatus ns name st) a :: tr2 /\ each_call no_apply tr1 /\ each_call outputs tr2 /\
    (forall e, a = Some e -> snd res = Some e) /\ Q tr1 st a (fst res) (snd res).

Section outcomes.
Context `{V : Vendor}.
Context (r : MCPServerReconciler) (srv : MCPServer).

(** One of the resources could not be reconciled, with this error and these calls. *)
Definition phase_failed (tr : list event) (e : error) : Prop :=
  exists s1 s2,
    runs (reconcileDeployment r srv s1) tr (Err e, s2) \/
    (exists selector endpoint, runs (reconcileServiceOrBYO r srv selector s1) tr ((endpoint, Some e), s2)) \/
    runs (ensureNetworkPolicy r srv s1) tr (Err e, s2) \/
    runs (reconcileGatewayBinding r srv s1) tr (Some e, s2).

Definition failing (tr : list event) (e : error) : Prop :=
  exists tr0 tr1 tr2, tr = tr0 ++ tr1 ++ tr2 /\ phase_failed tr1 e.

(** The binding could not be read for the gateway condition. *)
Definition unread (tr : list event) (e : error) : Prop := exists ns n, In (Ev (CGet Cached KBinding ns n) (Err e)) tr.

(** Validation failed with an error that is not the user's to fix, which ends the pass. *)
Definition validation_failed (tr : list event) (res : Result * option error) : Prop :=
  exists e s1 s2 tr0 tr1 tr2, res = (noRequeue, Some e) /\ tr = tr0 ++ tr1 ++ tr2 /\
    runs (validateConfigAndResolveWorkload srv s1) tr1 (Err e, s2) /\ asValidationError e = None /\ each_call outputs tr2.

Definition conflictRequeue : Result := {| RequeueAfter := requeueDelayConflict |}.

(** ... or not at all: after a conflict, which asks for a requeue and returns no error, or
    after validation could not be done, which returns its error.  [Y] are errors of resources
    that failed before. *)
Definition deferred_by (Y : error -> Prop) (tr : list event) (res : Result * option error) : Prop :=
  each_call no_apply tr /\
  ((res = (conflictRequeue, None) /\ exists e, IsConflict e = true /\ (Y e \/ failing tr e)) \/ validation_failed tr res).
Definition deferred : list event -> Result * option error -> Prop := deferred_by (fun _ => False).

(** A status of an accepted configuration; an error that is returned although the status
    could be applied is no conflict of a resource that failed, or it is that of the read of
    the binding.  [X] are such errors from before. *)
Definition explained (tr : list event) (e : error) : Prop := (IsConflict e = false /\ failing tr e) \/ unread tr e.
Definition accepts_by (X : error -> Prop) (tr : list event) (st : MCPServerStatusApplyConfiguration) (a : option error) (res : Result) (err : option error) : Prop :=
  published_status st ConditionTypeAccepted = Some ConditionTrue /\
  (a = None -> forall e, err = Some e -> X e \/ explained tr e).
Definition accepts : list event -> MCPServerStatusApplyConfiguration -> option error -> Result -> option error -> Prop := accepts_by (fun _ => False).

Definition rejects (tr : list event) (st : MCPServerStatusApplyConfiguration) (a : option error) (res : Result) (err : option error) : Prop :=
  published_status st ConditionTypeAccepted = Some ConditionFalse /\ each_call no_create tr /\ res = noRequeue /\ err = a.

Definition ends_by (X Y : error -> Prop) (m : M (Result * option error)) : Prop :=
  forall s, mwp m s (fun tr res _ => concluded (accepts_by X) tr res \/ deferred_by Y tr res).

Lemma failing_prefix tr tr' e : failing tr' e -> failing (tr ++ tr') e.
Proof. intros (tr0 & tr1 & tr2 & -> & H). exists (tr ++ tr0), tr1, tr2. by rewrite <- app_assoc. Qed.
Lemma failing_here tr tr' e : phase_failed tr e -> failing (tr ++ tr') e.
Proof. intros H. by exists [], tr, tr'. Qed.
Lemma validation_failed_prefix tr tr' res : validation_failed tr' res -> validation_failed (tr ++ tr') res.
Proof. intros (e & s1 & s2 & tr0 & tr1 & tr2 & H1 & -> & H). exists e, s1, s2, (tr ++ tr0), tr1, tr2. by rewrite <- app_assoc. Qed.
Lemma explained_prefix tr tr' e : explained tr' e -> explained (tr ++ tr') e.
Proof.
  intros [[Hc H]|(ns & n & H)]; [left; split; [done|by apply failing_prefix]|right]. exists ns, n. apply in_app_iff. by right.
Qed.
Lemma explained_extend tr tr' e : explained tr e -> explained (tr ++ tr') e.
Proof.
  intros [[Hc (tr0 & tr1 & tr2 & -> & H)]|(ns & n & H)]; [left|right].
  - split; [done|]. exists tr0, tr1, (tr2 ++ tr'). by rewrite <- !app_assoc.
  - exists ns, n. apply in_app_iff. by left.
Qed.
Lemma failing_extend tr tr' e : failing tr e -> failing (tr ++ tr') e.
Proof. intros (tr0 & tr1 & tr2 & -> & H). exists tr0, tr1, (tr2 ++ tr'). by rewrite <- !app_assoc. Qed.

End outcomes.

Lemma each_call_app P tr1 tr2 : each_call P (tr1 ++ tr2) <-> each_call P tr1 /\ each_call P tr2.
Proof. apply Forall_app. Qed.

Lemma mwp_each_call {A} P (m : M A) s : mcalls P m -> mwp m s (fun tr _ _ => each_call P tr).
Proof. intros H. unfold mwp. rewrite wp_runs. intros tr [a s'] Hr. eapply calls_all_runs; [apply H|exact Hr]. Qed.

Lemma outputs_no_apply c : outputs c -> no_apply c.
Proof. by destruct c. Qed.

(** The run itself. *)
Lemma mwp_self {A} (m : M A) s : mwp m s (fun tr a s' => runs (m s) tr (a, s')).
Proof. unfold mwp. rewrite wp_runs. by intros tr [a s']. Qed.

Lemma concluded_prefix Q Q' tr tr' res : each_call no_apply tr ->
  (forall t st a x err, Q t st a x err -> Q' (tr ++ t) st a x err) -> concluded Q tr' res -> concluded Q' (tr ++ tr') res.
Proof.
  intros Htr HQ (tr1 & ns & n & st & x & tr2 & -> & H1 & H2 & H3 & H4).
  exists (tr ++ tr1), ns, n, st, x, tr2. rewrite app_assoc. split_and!; try done; [by apply each_call_app|by apply HQ].
Qed.

Section ends.
Context `{V : Vendor} {L : VendorLaws V}.
Context (r : MCPServerReconciler) (srv : MCPServer).

Abbreviation ends_by := (ends_by r srv).

(** A part of the pass without a status; what the rest counts as failed, it saw fail. *)
Lemma ends_step {A} (m : M A) f X Y (X' Y' : A -> error -> Prop) :
  (forall s, mwp m s (fun tr a _ => each_call no_apply tr /\ (forall e, X' a e -> X e \/ explained r srv tr e) /\
     (forall e, Y' a e -> Y e \/ failing r srv tr e))) ->
  (forall a, ends_by (X' a) (Y' a) (f a)) -> ends_by X Y (m ≫= f).
Proof.
  intros Hm Hf s. apply mwp_bind. eapply mwp_mono; [apply Hm|]. intros tr a s' (Htr & HX & HY).
  eapply mwp_mono; [apply Hf|]. intros tr' res s'' [H|[H1 H2]].
  - left. eapply concluded_prefix; [exact Htr| |exact H]. intros t st b x err [Hst He]. split; [done|]. intros Hb e Hx.
    destruct (He Hb e Hx) as [Hp|Hp]; [|right; by apply explained_prefix].
    destruct (HX e Hp) as [?|?]; [by left|right; by apply explained_extend].
  - right. split; [by apply each_call_app|]. destruct H2 as [[-> (e & Hc & H2)]|H2]; [left|right; by apply validation_failed_prefix].
    split; [done|]. exists e. split; [done|]. destruct H2 as [Hp|Hp]; [|right; by apply failing_prefix].
    destruct (HY e Hp) as [?|?]; [by left|right; by apply failing_extend].
Qed.

(** A part of which nothing is remembered. *)
Lemma accepts_bind {A} (m : M A) f X Y : mcalls no_apply m -> (forall a, ends_by X Y (f a)) -> ends_by X Y (m ≫= f).
Proof.
  intros Hm Hf. apply (ends_step _ _ _ _ (fun _ => X) (fun _ => Y)); [|done]. intros s.
  eapply mwp_mono; [by apply mwp_each_call|]. intros tr a s' Htr. auto.
Qed.

(** The reconciliation of a resource, whose error the rest handles. *)
Lemma phase_bind {A} (m : M A) f (failed : A -> error -> Prop) :
  mcalls no_apply m -> (forall s tr a s' e, runs (m s) tr (a, s') -> failed a e -> phase_failed r srv tr e) ->
  (forall a, ends_by (fun e => IsConflict e = false /\ failed a e) (failed a) (f a)) ->
  ends_by (fun _ => False) (fun _ => False) (m ≫= f).
Proof.
  intros Hm Hp Hf. eapply ends_step; [|exact Hf]. intros s. eapply mwp_mono; [apply mwp_conj; [by apply mwp_each_call|apply mwp_self]|].
  intros tr a s' [Htr Hr]. split; [done|]. rewrite <- (app_nil_r tr).
  split; [intros e [Hc He]; right; left; split; [done|]|intros e He; right]; apply failing_here; by eapply Hp.
Qed.

Lemma ends_weaken (X Y X' Y' : error -> Prop) m : (forall e, X e -> X' e) -> (forall e, Y e -> Y' e) -> ends_by X Y m -> ends_by X' Y' m.
Proof.
  intros HX HY Hm s. eapply mwp_mono; [apply Hm|]. intros tr res s' [H|[H1 H2]].
  - left. apply (concluded_prefix (accepts_by r srv X) _ []); [constructor| |exact H]. intros t st a x err [Hst He]. split; [done|].
    intros Ha e Hx. destruct (He Ha e Hx); auto.
  - right. split; [done|]. destruct H2 as [[-> (e & Hc & H2)]|H2]; [left|by right]. split; [done|]. exists e. split; [done|]. destruct H2; auto.
Qed.

Lemma sub_no_apply {A} (m : M A) : mcalls (sub_call srv) m -> mcalls no_apply m.
Proof. apply mcalls_mono. by intros c (_ & ? & _). Qed.
Lemma quiet_no_apply {A} (m : M A) : mcalls (quiet_call srv) m -> mcalls no_apply m.
Proof. intros H. apply sub_no_apply. eapply mcalls_mono; [|exact H]. by intros c []. Qed.
Lemma silent_no_apply {A} (m : M A) : silent m -> mcalls no_apply m.
Proof. intros H. by apply sub_no_apply, sub_silent. Qed.
Lemma clock_no_apply {A} (m : M A) : mcalls reads_clock m -> mcalls no_apply m.
Proof. apply mcalls_mono. by intros []. Qed.

Lemma ends_conflict X (Y : error -> Prop) e : IsConflict e = true -> Y e -> ends_by X Y (mret ({| RequeueAfter := requeueDelayConflict |}, None)).
Proof. intros Hc He s. apply mwp_ret. right. split; [constructor|]. left. split; [done|]. exists e. auto. Qed.

(** Applying the status and finishing with output only. *)
Lemma ends_applyStatus X Y st f :
  published_status st ConditionTypeAccepted = Some ConditionTrue ->
  (forall e s, mwp (f (Some e)) s (fun tr res _ => each_call outputs tr /\ snd res = Some e)) ->
  (forall s, mwp (f None) s (fun tr res _ => each_call outputs tr /\ forall e, snd res = Some e -> X e)) ->
  ends_by X Y (applyStatus srv st ≫= f).
Proof.
  intros Hst Hs Hn s. apply mwp_bind, mwp_call. intros [e|].
  - eapply mwp_mono; [apply Hs|]. intros tr res s' (H1 & H2). left. eexists [], _, _, st, (Some e), tr.
    split; [reflexivity|]. split; [constructor|]. split; [done|]. split; [by intros e' [= <-]|by split].
  - eapply mwp_mono; [apply Hn|]. intros tr res s' (H1 & H3). left. eexists [], _, _, st, None, tr.
    split; [reflexivity|]. split; [constructor|]. split; [done|]. split; [done|]. split; [done|]. intros _ e He. left. by apply H3.
Qed.

Definition starts_with (acc : Condition) (st : MCPServerStatusApplyConfiguration) : Prop :=
  exists rest, sac_conditions st = conditionToAC acc :: rest.

Lemma starts_with_accepted acc st x :
  is_condition ConditionTypeAccepted x acc -> starts_with acc st -> published_status st ConditionTypeAccepted = Some x.
Proof.
  intros [Ht Hs] [rest Hr]. unfold published_status. rewrite Hr. cbn [List.find conditionToAC cc_type cc_status].
  rewrite Ht, bool_decide_eq_true_2 by done. cbn. by rewrite Hs.
Qed.

Lemma ends_reportFailure acc st err (X Y : error -> Prop) :
  accepted_condition acc -> starts_with acc st -> X err -> ends_by X Y (reportFailure srv st err).
Proof.
  intros Ha Hst HX. apply ends_applyStatus; [by eapply starts_with_accepted|intros e s|intros s].
  - apply mwp_ret. split; [constructor|done].
  - destruct (IsOwnershipConflict err); apply mwp_ret; (split; [constructor|]); [done|]. by intros e [= <-].
Qed.

Lemma conditionFor_no_apply t st rs ms : mcalls no_apply (conditionFor srv t st rs ms).
Proof. unfold conditionFor, newCondition. calls_tac. Qed.
Lemma notVerifiedFor_no_apply : mcalls no_apply (notVerifiedFor srv).
Proof. apply clock_no_apply, newNotVerifiedCondition_calls. Qed.
Lemma append_no_apply conds fresh : mcalls no_apply (appendPersistentConditions r srv conds fresh).
Proof. apply mcalls_bind; [apply clock_no_apply, policyEnforcedCondition_calls|]. intros; apply mcalls_ret. Qed.

(** A failure status begins with the accepted condition it was given. *)
Lemma failure_starts base acc conds rest :
  sac_conditions base = [] -> conds = conditionToAC acc :: rest ->
  starts_with acc (withPreviousBinding srv (WithConditions conds base)).
Proof. intros Hb ->. exists rest. unfold withPreviousBinding. destruct (st_gatewayBinding _); cbn; by rewrite Hb. Qed.

Lemma returns_append_prefix conds fresh :
  returns (appendPersistentConditions r srv conds fresh) (fun l => exists rest, l = conds ++ rest).
Proof. apply returns_bind. intros pe s. apply mwp_ret. by eexists. Qed.

(** As [accepts_bind], for a prefix whose value matters. *)
Lemma accepts_bind_val {A} (m : M A) f (Post : A -> Prop) X Y :
  mcalls no_apply m -> returns m Post -> (forall a, Post a -> ends_by X Y (f a)) -> ends_by X Y (m ≫= f).
Proof.
  intros Hm Hp Hf s. apply mwp_bind. eapply mwp_mono.
  - apply mwp_conj; [apply (mwp_each_call no_apply m s Hm)|apply Hp].
  - intros tr a s' [Htr Ha].
    eapply mwp_mono; [by apply Hf|]. intros tr' res s'' [H|[H1 H2]].
    + left. eapply concluded_prefix; [exact Htr| |exact H]. intros t st b x err [Hst He]. split; [done|]. intros Hb e Hx.
      destruct (He Hb e Hx) as [?|?]; [by left|right; by apply explained_prefix].
    + right. split; [by apply each_call_app|]. destruct H2 as [[-> (e & Hc & H2)]|H2]; [left|right; by apply validation_failed_prefix].
      split; [done|]. exists e. split; [done|]. destruct H2 as [Hy|Hp']; [by left|right; by apply failing_prefix].
Qed.

(** The error of a resource: a conflict is deferred, another error reported. *)
Definition just (err : error) : error -> Prop := eq err.

Lemma ends_handleDeploymentReconcileError acc err :
  accepted_condition acc -> ends_by (fun e => IsConflict e = false /\ just err e) (just err) (handleDeploymentReconcileError r srv acc err).
Proof.
  intros Ha. unfold handleDeploymentReconcileError. destruct (IsConflict err) eqn:Hc; [by apply (ends_conflict _ _ err)|].
  apply accepts_bind; [apply silent_no_apply, silent_out|]. intros _.
  apply accepts_bind; [apply conditionFor_no_apply|]. intros avail.
  apply accepts_bind; [apply notVerifiedFor_no_apply|]. intros ver.
  apply accepts_bind; [apply silent_no_apply, silent_out|]. intros _.
  apply accepts_bind; [apply silent_no_apply, silent_if; [apply silent_ret|apply silent_Eventf]|]. intros _.
  eapply accepts_bind_val; [apply append_no_apply|apply returns_append_prefix|]. intros conds [rest ->].
  eapply ends_reportFailure; [done| |done]. eapply failure_starts; [apply workloadStatus_base|done].
Qed.

Lemma ends_handleResourceFailure base acc err params :
  base_status srv base -> accepted_condition acc -> (forall m s, silent (fp_emitEvent params m s)) ->
  ends_by (fun e => IsConflict e = false /\ just err e) (just err) (handleResourceFailure r srv base acc err params).
Proof.
  intros Hb Ha He. unfold handleResourceFailure. destruct (IsConflict err) eqn:Hc; [by apply (ends_conflict _ _ err)|].
  apply accepts_bind; [apply silent_no_apply, silent_out|]. intros _.
  apply accepts_bind; [apply conditionFor_no_apply|]. intros avail.
  apply accepts_bind; [apply notVerifiedFor_no_apply|]. intros ver.
  apply accepts_bind; [apply silent_no_apply, silent_out|]. intros _.
  apply accepts_bind; [apply silent_no_apply, silent_if; [apply silent_ret|apply He]|]. intros _.
  eapply accepts_bind_val; [apply append_no_apply|apply returns_append_prefix|]. intros conds [rest ->].
  eapply ends_reportFailure; [done| |done]. eapply failure_starts; [apply Hb|done].
Qed.

Lemma finishEndpoint_outputs hash diff ver n gwErr : mcalls outputs (finishEndpoint r srv hash diff ver n gwErr).
Proof.
  unfold finishEndpoint, updateTLSCABundleHash, emitCapabilityChangeDetected, Eventf, auditCapabilityChange, audit, handshakeRequeue,
    auditHandshakeRetriesExhausted, audit. calls_tac.
Qed.

Lemma endpoint_starts base gw acc avail ver np pe url info :
  sac_conditions base = [] -> starts_with acc (endpointStatus base gw acc avail ver np pe url info).
Proof.
  intros Hb. unfold endpointStatus, withAddressWhenVerified, applyGatewayStatusToAC, starts_with.
  destruct gw as [[? [?|] ? ?]|], np, info; case_bool_decide; eexists; cbn; by rewrite Hb.
Qed.

(** The error of a completed pass is that of the gateway condition. *)
Lemma finishEndpoint_error hash diff ver n gwErr : returns (finishEndpoint r srv hash diff ver n gwErr) (fun res => forall e, snd res = Some e -> gwErr = Some e).
Proof.
  unfold finishEndpoint. do 2 (apply returns_bind; intros _). intros s. apply mwp_bind. eapply mwp_mono; [apply mwp_any|].
  intros tr [res|] s' _; by apply mwp_ret.
Qed.

Lemma applyGatewayStatus_error g avail url : returns (applyGatewayStatus srv g avail url) (fun a => gws_err (fst (fst a)) = gws_err g).
Proof.
  unfold applyGatewayStatus. apply returns_bind. intros _. destruct (_ && _); [do 2 (apply returns_bind; intros ?)|]; intros s; by apply mwp_ret.
Qed.

(** ... which the read of the binding answered. *)
Lemma gatewayOverride_error avail url s :
  mwp (gatewayOverride srv avail url) s (fun tr gw _ => forall g e, fst (fst gw) = Some g -> gws_err g = Some e -> unread tr e).
Proof.
  assert (Hc : forall s0, mwp (reconcileGatewayCondition srv) s0 (fun tr o _ => forall g e, o = Some g -> gws_err g = Some e -> unread tr e)).
  { intros s0. unfold reconcileGatewayCondition. destruct (spec_gateway _); [|by apply mwp_ret].
    apply mwp_bind, mwp_call. intros [b|e].
    - destruct (negb _); apply mwp_bind; (eapply mwp_mono; [apply mwp_any|]); intros t c s1 _; apply mwp_ret; by intros x y [= <-].
    - destruct (IsNotFound e); apply mwp_bind; (eapply mwp_mono; [apply mwp_any|]); intros t c s1 _; apply mwp_ret; intros y x [= <-]; [done|].
      intros [= <-]. eexists _, _. by left. }
  unfold gatewayOverride. apply mwp_bind. eapply mwp_mono; [apply Hc|]. intros tr [g|] s1 H; [|by apply mwp_ret].
  apply mwp_bind. eapply mwp_mono; [apply (applyGatewayStatus_error g avail url)|]. intros t ap s2 Hap. apply mwp_ret. cbn.
  intros g' e [= <-] He. rewrite Hap in He. destruct (H g e eq_refl He) as (ns & n & Hin). exists ns, n. apply in_app_iff. by left.
Qed.

Lemma ends_reconcileEndpoint acc avail base ep np :
  base_status srv base -> accepted_condition acc -> ends_by (fun _ => False) (fun _ => False) (reconcileEndpoint r srv acc avail base ep np).
Proof.
  intros Hb Ha. unfold reconcileEndpoint.
  apply (phase_bind _ _ (fun err e => err = Some e)); [apply sub_no_apply, sub_reconcileGatewayBinding| |].
  { intros s tr a s' e Hr ->. eexists _, _. right. right. right. exact Hr. }
  intros gwErr. apply accepts_bind; [apply silent_no_apply, silent_out|]. intros _.
  destruct gwErr as [e|].
  { eapply ends_weaken; [| |apply (ends_handleResourceFailure base acc e)]; try done.
    - by intros e' [? <-].
    - by intros e' <-.
    - intros; apply silent_Eventf. }
  eapply (ends_weaken (fun _ => False) (fun _ => False)); [done..|].
  apply accepts_bind; [apply quiet_no_apply, sub_currentCABundleHash|]. intros hash.
  apply accepts_bind; [apply quiet_no_apply, sub_reconcileHandshake|]. intros hs.
  apply accepts_bind; [apply silent_no_apply, silent_out|]. intros _.
  apply accepts_bind; [apply quiet_no_apply, sub_retryCount|]. intros counted.
  apply (ends_step _ _ _ _ (fun gw e => exists g, fst (fst gw) = Some g /\ gws_err g = Some e) (fun _ _ => False)).
  { intros s. eapply mwp_mono; [apply mwp_conj; [apply mwp_each_call, quiet_no_apply, sub_gatewayOverride|apply gatewayOverride_error]|].
    intros tr gw s' [Htr Hgw]. split; [done|]. split; [|done]. intros e (g & Hg & He). right. right. by eapply Hgw. }
  intros gw.
  apply accepts_bind; [apply silent_no_apply, silent_if; [apply silent_Eventf|apply silent_ret]|]. intros _.
  apply accepts_bind; [apply clock_no_apply, policyEnforcedCondition_calls|]. intros pe.
  apply ends_applyStatus; [eapply starts_with_accepted; [exact Ha|apply endpoint_starts, Hb]|intros e s|intros s].
  - apply mwp_ret. split; [constructor|done].
  - eapply mwp_mono; [apply mwp_conj; [apply mwp_each_call, finishEndpoint_outputs|apply finishEndpoint_error]|]. intros tr res s' [Htr He].
    split; [done|]. intros e Hx. specialize (He e Hx). destruct (fst (fst gw)) as [g|]; [by exists g|done].
Qed.

Lemma ends_service_failure base acc err :
  base_status srv base -> accepted_condition acc ->
  ends_by (fun e => IsConflict e = false /\ just err e) (just err) (handleResourceFailure r srv base acc err (serviceFailure r)).
Proof. intros. apply ends_handleResourceFailure; try done. intros; apply silent_Eventf. Qed.

(** The Service, and what follows. *)
Lemma ends_service base acc selector f :
  base_status srv base -> accepted_condition acc ->
  (forall x, ends_by (fun _ => False) (fun _ => False) (f x)) ->
  ends_by (fun _ => False) (fun _ => False)
    (resolved ← reconcileServiceOrBYO r srv selector;
     match snd resolved with
     | Some err => handleResourceFailure r srv base acc err (serviceFailure r)
     | None => f resolved
     end).
Proof.
  intros Hb Ha Hf. apply (phase_bind _ _ (fun x e => snd x = Some e)); [apply sub_no_apply, sub_reconcileServiceOrBYO| |].
  { intros s tr [ep err] s' e Hr He. cbn in He. subst err. eexists _, _. right. left. eexists _, _. exact Hr. }
  intros [ep [e|]]; cbn [fst snd].
  - eapply ends_weaken; [| |by apply ends_service_failure]; [by intros e' [? <-]|by intros e' <-].
  - eapply (ends_weaken (fun _ => False) (fun _ => False)); [done..|apply Hf].
Qed.

Lemma observeWorkload_succeeds w acc : returns (observeWorkload srv (Some w) acc) (fun o => exists x, o = Ok x).
Proof. destruct w; apply returns_bind; intros c s0; apply mwp_ret; by eexists. Qed.

Lemma ends_reconcileBYO acc w : accepted_condition acc -> ends_by (fun _ => False) (fun _ => False) (reconcileBYO r srv acc (Some w)).
Proof.
  intros Ha. unfold reconcileBYO.
  eapply accepts_bind_val; [apply quiet_no_apply, sub_observeWorkload|apply observeWorkload_succeeds|].
  intros o [x ->].
  apply accepts_bind; [apply silent_no_apply, silent_out|]. intros _.
  apply accepts_bind; [apply silent_no_apply, silent_maybeEmit|]. intros _.
  apply ends_service; [apply workloadStatus_base|done|]. intros ep.
  apply ends_reconcileEndpoint; [apply workloadStatus_base|done].
Qed.

Lemma ends_reconcileManaged acc : byo srv = false -> accepted_condition acc -> ends_by (fun _ => False) (fun _ => False) (reconcileManaged r srv acc).
Proof.
  intros Hb Ha. unfold reconcileManaged.
  apply (phase_bind _ _ (fun x e => x = Err e)); [by apply sub_no_apply, sub_reconcileDeployment| |].
  { intros s tr a s' e Hr ->. eexists _, _. by left. }
  intros dep. apply accepts_bind; [apply silent_no_apply, silent_out|]. intros _.
  destruct dep as [d|e].
  2:{ eapply ends_weaken; [| |by apply ends_handleDeploymentReconcileError]; [by intros e' [? <-]|by intros e' <-]. }
  eapply (ends_weaken (fun _ => False) (fun _ => False)); [done..|].
  apply ends_service; [apply workloadStatus_base|done|]. intros ep.
  apply (phase_bind _ _ (fun x e => x = Err e)); [by apply sub_no_apply, sub_ensureNetworkPolicy| |].
  { intros s tr a s' e Hr ->. eexists _, _. right. right. by left. }
  intros np. apply accepts_bind; [apply silent_no_apply, silent_out|]. intros _.
  destruct np as [np|e].
  2:{ eapply ends_weaken; [| |apply ends_handleResourceFailure; [apply workloadStatus_base|done|intros; apply silent_Eventf]];
        [by intros e' [? <-]|by intros e' <-]. }
  eapply (ends_weaken (fun _ => False) (fun _ => False)); [done..|].
  apply accepts_bind.
  { apply clock_no_apply. unfold networkPolicyPostureConditionFor, newCondition. destruct (posture srv np) as [[? ?] ?]. calls_tac. }
  intros po. apply accepts_bind; [apply silent_no_apply, silent_out|]. intros _.
  apply accepts_bind.
  { eapply quiet_no_apply, mcalls_mono; [apply quiet_observes|apply reconcileAvailableCondition_calls]. }
  intros avail. apply accepts_bind; [apply silent_no_apply, silent_out|]. intros _.
  apply accepts_bind; [apply silent_no_apply, silent_maybeEmit|]. intros _.
  apply ends_reconcileEndpoint; [apply workloadStatus_base|done].
Qed.

(** A rejection: reads, one status with Accepted=False, output. *)
Definition rejection (tr : list event) (err : option error) : Prop :=
  exists tr1 ns name st tr2,
    tr = tr1 ++ Ev (CApplyStatus ns name st) err :: tr2 /\ each_call no_write tr1 /\ each_call outputs tr2 /\
    published_status st ConditionTypeAccepted = Some ConditionFalse.

Definition rejecting (m : M (option error)) : Prop := forall s, mwp m s (fun tr err _ => rejection tr err).

Lemma rejecting_bind {A} (m : M A) f (Post : A -> Prop) :
  mcalls no_write m -> returns m Post -> (forall a, Post a -> rejecting (f a)) -> rejecting (m ≫= f).
Proof.
  intros Hm Hp Hf s. apply mwp_bind. eapply mwp_mono.
  - apply mwp_conj; [apply (mwp_each_call no_write m s Hm)|apply Hp].
  - intros tr a s' [Htr Ha]. eapply mwp_mono; [by apply Hf|].
    intros tr' err s'' (tr1 & ns & n & st & tr2 & -> & H1 & H2 & H3).
    exists (tr ++ tr1), ns, n, st, tr2. rewrite app_assoc. split_and!; try done. by apply each_call_app.
Qed.

Lemma silent_no_write {A} (m : M A) : silent m -> mcalls no_write m.
Proof. intros [H _]. eapply mcalls_mono; [apply outputs_no_write|exact H]. Qed.
Lemma clock_no_write {A} (m : M A) : mcalls reads_clock m -> mcalls no_write m.
Proof. apply mcalls_mono. by intros []. Qed.

Lemma reconcilePermanentValidationError_rejecting reason message :
  rejecting (reconcilePermanentValidationError r srv reason message).
Proof.
  unfold reconcilePermanentValidationError.
  eapply rejecting_bind; [apply clock_no_write; unfold conditionFor, newCondition; calls_tac|apply returns_conditionFor|].
  intros acc Hacc.
  assert (Hq : forall A (m : M A) f, silent m -> (forall a, rejecting (f a)) -> rejecting (m ≫= f)).
  { intros A m f Hm Hf. eapply (rejecting_bind _ _ (fun _ => True)); [by apply silent_no_write|intros s; apply mwp_any|auto]. }
  apply Hq; [apply silent_out|]. intros _. apply Hq; [apply silent_out|]. intros _.
  eapply rejecting_bind; [apply clock_no_write; unfold conditionFor, newCondition; calls_tac|apply returns_conditionFor|].
  intros avail _. eapply rejecting_bind; [apply clock_no_write, newNotVerifiedCondition_calls|apply returns_notVerifiedFor|].
  intros ver _. eapply rejecting_bind; [|apply returns_append_prefix|].
  { apply mcalls_bind; [apply clock_no_write, policyEnforcedCondition_calls|]. intros; apply mcalls_ret. }
  intros conds [rest ->] s. apply mwp_bind, mwp_call.
  set (st := withPreviousBinding _ _).
  assert (Hst : published_status st ConditionTypeAccepted = Some ConditionFalse).
  { eapply starts_with_accepted; [exact Hacc|]. eapply failure_starts; [apply workloadStatus_base|done]. }
  intros [e|].
  - apply mwp_ret. eexists [], _, _, st, []. split_and!; [reflexivity|constructor..|done].
  - eapply mwp_mono with (fun tr err _ => each_call outputs tr /\ err = None).
    + apply mwp_conj.
      * apply mwp_each_call. unfold emitConfigurationInvalid, Eventf, auditConfigurationRejected, audit, recordCondition. calls_tac.
      * revert s. fold (returns (A:=option error)). do 3 (apply returns_bind; intros _). intros s. by apply mwp_ret.
    + intros tr err s' [Htr ->]. eexists [], _, _, st, tr. split_and!; [reflexivity|constructor|done|done].
Qed.

(** What is accepted with a referenced workload is that workload. *)
Lemma validate_resolves_workload : returns (validateConfigAndResolveWorkload srv)
  (fun res => forall w, res = Ok w -> spec_workloadRef (srv_spec srv) <> None -> exists x, w = Some x).
Proof.
  unfold validateConfigAndResolveWorkload. intros s. apply mwp_bind.
  eapply mwp_mono with (fun _ w _ => forall x, w = Ok x -> spec_workloadRef (srv_spec srv) <> None -> exists y, x = Some y).
  - destruct (spec_workloadRef _) as [ref|]; [|by apply mwp_ret]. apply mwp_bind. eapply mwp_mono; [apply mwp_any|].
    intros tr [w|e] s' _; apply mwp_ret; [|done]. intros x [= <-] _. by exists w.
  - intros tr [w|e] s' Hw; [|by apply mwp_ret]. apply mwp_bind. eapply mwp_mono; [apply mwp_any|].
    intros tr' [err|] s'' _; apply mwp_ret; [done|]. intros x [= <-]. by apply Hw.
Qed.

(** The outcome of a pass over a live server. *)
Definition outcome_ok (tr : list event) (res : Result * option error) : Prop :=
  concluded (fun tr st a res err => accepts r srv tr st a res err \/ rejects tr st a res err) tr res \/ deferred r srv tr res.

(** Calls before it that neither create or update nor touch the status change nothing. *)
Lemma outcome_prefix tr tr' res : each_call (fun c => no_apply c /\ no_create c) tr -> outcome_ok tr' res -> outcome_ok (tr ++ tr') res.
Proof.
  intros Htr. assert (Ha : each_call no_apply tr) by (eapply Forall_impl; [exact Htr|]; by intros [c ?] []).
  assert (Hc : each_call no_create tr) by (eapply Forall_impl; [exact Htr|]; by intros [c ?] []).
  intros [H|[H1 H2]].
  - left. eapply concluded_prefix; [exact Ha| |exact H]. intros t st a x err [[Hst He]|(H1 & H2 & H3 & H4)]; [left|right].
    + split; [done|]. intros Hn e Hx. destruct (He Hn e Hx) as [[]|?]. right. by apply explained_prefix.
    + split_and!; try done. by apply each_call_app.
  - right. split; [by apply each_call_app|]. destruct H2 as [[-> (e & Hx & [[]|H2])]|H2]; [left|right; by apply validation_failed_prefix].
    split; [done|]. exists e. split; [done|]. right. by apply failing_prefix.
Qed.

Lemma ends_reconcileLive s : mwp (reconcileLive r srv) s (fun tr res _ => outcome_ok tr res).
Proof.
  assert (Hm : forall A (m : M A), mcalls no_write m -> mcalls (fun c => no_apply c /\ no_create c) m).
  { intros A m. apply mcalls_mono. by intros []. }
  assert (Hb : forall A (m : M A) f s, mcalls (fun c => no_apply c /\ no_create c) m ->
    (forall a s, mwp (f a) s (fun tr res _ => outcome_ok tr res)) -> mwp (m ≫= f) s (fun tr res _ => outcome_ok tr res)).
  { intros A m f s0 Hc Hf. apply mwp_bind. eapply mwp_mono; [by apply mwp_each_call|]. intros tr a s1 Htr.
    eapply mwp_mono; [apply Hf|]. intros tr' res s2. by apply outcome_prefix. }
  unfold reconcileLive. apply Hb.
  { unfold cleanupGatewayBindingIfRemoved. destruct (spec_gateway _); [apply mcalls_ret|].
    apply mcalls_bind; [by apply mcalls_call|]. intros [b|e]; [|apply mcalls_ret].
    apply mcalls_bind; [apply Hm; eapply mcalls_mono; [apply outputs_no_write|apply validateOwnership_outputs]|]. intros [e|]; calls_tac. }
  intros _ s0. apply mwp_bind.
  eapply mwp_mono; [apply mwp_conj; [apply mwp_self|apply mwp_conj; [apply mwp_each_call, validate_reads|apply validate_resolves_workload]]|].
  intros tr validated s1 (Hrun & Hnw & Hw).
  assert (Hpre : each_call (fun c => no_apply c /\ no_create c) tr) by (eapply Forall_impl; [exact Hnw|]; by intros [[] ?]).
  destruct validated as [w|e]; [|destruct (asValidationError e) as [[reason message]|] eqn:Ee].
  - eapply mwp_mono with (fun tr' res _ => outcome_ok tr' res); [|intros tr' res s2; by apply outcome_prefix].
    apply Hb; [apply Hm, silent_no_write, silent_out|]. intros _ s2.
    eapply mwp_mono with (fun tr' res _ => concluded (accepts r srv) tr' res \/ deferred r srv tr' res).
    2:{ intros tr' res s3 [H|H]; [left|by right]. apply (concluded_prefix (accepts r srv) _ []); [constructor| |exact H]. by left. }
    revert s2. change (ends_by (fun _ => False) (fun _ => False) (acceptedCondition ← conditionFor srv ConditionTypeAccepted ConditionTrue ReasonValid "Configuration is valid";
      recordCondition srv acceptedCondition ;;
      (if negb (acceptedConditionIsTrue (st_conditions (srv_status srv))) then emitConfigurationAccepted r srv else mret tt) ;;
      match spec_workloadRef (srv_spec srv) with
      | Some _ => reconcileBYO r srv acceptedCondition w
      | None => reconcileManaged r srv acceptedCondition
      end)).
    eapply accepts_bind_val; [apply conditionFor_no_apply|apply returns_conditionFor|]. intros acc Ha.
    apply accepts_bind; [apply silent_no_apply, silent_out|]. intros _.
    apply accepts_bind; [apply silent_no_apply, silent_if; [apply silent_Eventf|apply silent_ret]|]. intros _.
    destruct (spec_workloadRef (srv_spec srv)) eqn:Ew.
    + destruct (Hw w eq_refl) as [x ->]; [done|]. by apply ends_reconcileBYO.
    + apply ends_reconcileManaged; [unfold byo; by rewrite Ew|done].
  - eapply mwp_mono with (fun tr' res _ => outcome_ok tr' res); [|intros tr' res s2; by apply outcome_prefix].
    apply Hb; [apply Hm, silent_no_write, silent_out|]. intros _ s2. apply mwp_bind.
    eapply mwp_mono; [apply reconcilePermanentValidationError_rejecting|].
    intros tr' err s3 (tr1 & ns & n & st & tr2 & -> & H1 & H2 & H3). apply mwp_ret. left.
    exists tr1, ns, n, st, err, tr2. rewrite app_nil_r. split_and!; try done.
    + eapply Forall_impl; [exact H1|]. by intros [[] ?].
    + right. split_and!; try done. eapply Forall_impl; [exact H1|]. by intros [[] ?].
  - apply mwp_bind. eapply mwp_mono; [apply mwp_each_call, silent_out|]. intros tr2 [] s2 Ho. apply mwp_ret. right.
    rewrite app_nil_r. split; [apply each_call_app; split; [eapply Forall_impl; [exact Hpre|by intros [c ?] []]|eapply Forall_impl; [exact Ho|by intros [[] ?]]]|].
    right. exists e, s0, s1, [], tr, tr2. by split_and!.
Qed.

End ends.

(** ** Writes that are refused *)

(** The error with which a create or an update was answered. *)
Definition refusal (ev : event) : option error :=
  let '(Ev c a) := ev in
  match c return resp c -> option error with
  | CCreate _ _ | CUpdate _ _ => fun a => match a with Err e => Some e | Ok _ => None end
  | _ => fun _ => None
  end a.

Definition refused (e : error) (tr : list event) : Prop := exists ev, In ev tr /\ refusal ev = Some e.

(** What a pass has to make of it: of a conflict a requeue after one second, without an error
    and without a status; any other error may not be swallowed, unless it says that the object
    is somebody else's. *)
Definition answers (e : error) (tr : list event) (res : Result * option error) : Prop :=
  if IsConflict e then res = (conflictRequeue, None) /\ each_call no_apply tr
  else IsOwnershipConflict e = false -> snd res <> None.

(** Neither creates nor updates nor touches the status. *)
Definition plain (c : Call) : Prop := no_apply c /\ no_create c.

(** A part whose result tells what was refused. *)
Definition tells {A} (failed : A -> error -> Prop) (m : M A) : Prop :=
  forall s, mwp m s (fun tr a _ => forall e, refused e tr -> failed a e).

(** The rest of a pass: it answers what is refused, and it answers to an error from before. *)
Definition responds (m : M (Result * option error)) : Prop := forall s, mwp m s (fun tr res _ => forall e, refused e tr -> answers e tr res).
Definition answers_to (e : error) (m : M (Result * option error)) : Prop := forall s, mwp m s (fun tr res _ => answers e tr res).

Lemma refused_app e tr tr' : refused e (tr ++ tr') <-> refused e tr \/ refused e tr'.
Proof. unfold refused. setoid_rewrite in_app_iff. naive_solver. Qed.

Lemma refused_created e tr : refused e tr -> ~ each_call no_create tr.
Proof.
  intros ([c a] & Hin & He) Htr. unfold each_call in Htr. rewrite List.Forall_forall in Htr.
  specialize (Htr _ Hin). by destruct c.
Qed.

Lemma answers_prefix e tr tr' res : each_call no_apply tr -> answers e tr' res -> answers e (tr ++ tr') res.
Proof. unfold answers. destruct (IsConflict e); [|done]. intros Htr [-> H]. split; [done|]. by apply each_call_app. Qed.

Lemma plain_no_create {A} (m : M A) : mcalls plain m -> mcalls no_create m.
Proof. apply mcalls_mono. by intros c []. Qed.
Lemma plain_no_apply {A} (m : M A) : mcalls plain m -> mcalls no_apply m.
Proof. apply mcalls_mono. by intros c []. Qed.
Lemma no_write_plain {A} (m : M A) : mcalls no_write m -> mcalls plain m.
Proof. apply mcalls_mono. by intros []. Qed.
Lemma quiet_plain {A} srv (m : M A) : mcalls (quiet_call srv) m -> mcalls plain m.
Proof. intros H. apply no_write_plain. eapply mcalls_mono; [|exact H]. by intros c []. Qed.
Lemma silent_plain {A} (m : M A) : silent m -> mcalls plain m.
Proof. intros [H _]. eapply mcalls_mono; [|exact H]. by intros []. Qed.
Lemma clock_plain {A} (m : M A) : mcalls reads_clock m -> mcalls plain m.
Proof. apply mcalls_mono. by intros []. Qed.

Lemma tells_calls {A} failed (m : M A) : mcalls no_create m -> tells failed m.
Proof. intros H s. eapply mwp_mono; [by apply mwp_each_call|]. intros tr a s' Htr e He. by destruct (refused_created _ _ He). Qed.
Lemma tells_ret {A} failed (a : A) : tells failed (mret a).
Proof. apply tells_calls, mcalls_ret. Qed.
Lemma tells_read {A} failed rd k ns n (f : _ -> M A) : (forall x, tells failed (f x)) -> tells failed (call (CGet rd k ns n) ≫= f).
Proof. intros H s. apply mwp_bind, mwp_call. intros x. eapply mwp_mono; [apply H|]. intros tr a s' Ht e ([c y] & [<-|Hin] & He); [done|]. apply Ht. by eexists. Qed.

Lemma tells_bind {A B} failed (m : M A) (f : A -> M B) : mcalls no_create m -> (forall a, tells failed (f a)) -> tells failed (m ≫= f).
Proof.
  intros Hm Hf s. apply mwp_bind. eapply mwp_mono; [by apply mwp_each_call|]. intros tr a s' Htr.
  eapply mwp_mono; [apply Hf|]. intros tr' b s'' H e [He|He]%refused_app; [by destruct (refused_created _ _ He)|auto].
Qed.

(** The one write of a part, with what follows it. *)
Lemma tells_write {A} (failed : A -> error -> Prop) c (f : resp c -> M A) :
  (forall x, mcalls no_create (f x)) -> (forall x e, refusal (Ev c x) = Some e -> returns (f x) (fun a => failed a e)) ->
  tells failed (call c ≫= f).
Proof.
  intros Hf He s. apply mwp_bind, mwp_call. intros x.
  eapply mwp_mono; [apply mwp_conj; [apply mwp_each_call, Hf|]|].
  - instantiate (1 := fun _ a _ => forall e, refusal (Ev c x) = Some e -> failed a e).
    destruct (refusal (Ev c x)) as [e|] eqn:E; [|eapply mwp_mono; [apply mwp_any|done]].
    eapply mwp_mono; [by apply He|]. by intros tr a s' H e' [= <-].
  - intros tr a s' [Htr Hx] e (ev & [<-|Hin] & Hr); [auto|]. by destruct (refused_created e tr); [eexists|].
Qed.

Ltac tells_tac :=
  repeat first
  [ apply tells_ret
  | apply tells_read; intros ?
  | apply tells_bind; [eapply mcalls_mono; [|apply validateOwnership_outputs]; by intros []|intros ?]
  | apply tells_write; [intros []; calls_tac|intros [] ? [= <-] ?; apply mwp_ret; done]
  | match goal with |- tells _ (match ?x with _ => _ end) => destruct x end ].

Section refusals.
Context `{V : Vendor} {L : VendorLaws V}.
Context (r : MCPServerReconciler) (srv : MCPServer).

Lemma tells_reconcileGatewayBinding : tells (fun a e => a = Some e) (reconcileGatewayBinding r srv).
Proof. unfold reconcileGatewayBinding. cbv zeta. tells_tac. all: apply tells_calls; calls_tac. Qed.

Lemma tells_reconcileService sel : tells (fun a e => a = Some e) (reconcileService r srv sel).
Proof. unfold reconcileService. cbv zeta. tells_tac. Qed.

Lemma tells_reconcileServiceOrBYO sel : tells (fun a e => snd a = Some e) (reconcileServiceOrBYO r srv sel).
Proof.
  unfold reconcileServiceOrBYO. destruct (spec_serviceRef (srv_spec srv)).
  - apply tells_calls. unfold ResolveServiceEndpoint, resolveServicePort, cleanupManagedServiceForBYO. calls_tac.
  - intros s. apply mwp_bind. eapply mwp_mono; [apply tells_reconcileService|]. intros tr err s' He.
    apply mwp_bind. eapply mwp_mono; [apply mwp_each_call, silent_out|]. intros tr1 [] s1 Ho.
    assert (Hx : forall e, refused e (tr ++ tr1 ++ []) -> err = Some e).
    { intros e. rewrite app_nil_r, refused_app. intros [H|H]; [auto|]. destruct (refused_created _ _ H).
      eapply Forall_impl; [exact Ho|]. by intros [[] ?]. }
    destruct err; apply mwp_ret; intros ? H; specialize (Hx _ H); cbn; congruence.
Qed.

Lemma tells_reconcileDeployment : tells (fun a e => a = Err e) (reconcileDeployment r srv).
Proof.
  unfold reconcileDeployment. cbv zeta. destruct (createDeployment r srv); [|apply tells_ret]. destruct (setController _ _); [|apply tells_ret].
  apply tells_bind; [apply plain_no_create, no_write_plain; by apply applyConfigHash_calls|]. intros [d|e]; [|apply tells_ret].
  tells_tac.
Qed.

Lemma tells_ensureNetworkPolicy : tells (fun a e => a = Err e) (ensureNetworkPolicy r srv).
Proof.
  unfold ensureNetworkPolicy. cbv zeta. apply tells_bind.
  { unfold gatewayIngressPeers, resolveGatewaySourceNamespace. calls_tac. }
  intros [peers|e]; [|apply tells_ret]. destruct (setController _ _); [|apply tells_ret].
  unfold auditNetworkPolicyCreated, auditNetworkPolicyUpdated, audit. tells_tac.
Qed.

(** The rest of a pass. *)
Lemma responds_calls m : mcalls no_create m -> responds m.
Proof. intros Hm s. eapply mwp_mono; [by apply (tells_calls (fun _ _ => False))|]. intros tr res s' H e He. by destruct (H e He). Qed.

Lemma responds_bind {A} (m : M A) f : mcalls plain m -> (forall a, responds (f a)) -> responds (m ≫= f).
Proof.
  intros Hm Hf s. apply mwp_bind. eapply mwp_mono; [apply mwp_conj; apply mwp_each_call; [by apply plain_no_create|by apply plain_no_apply]|].
  intros tr a s' [Hc Ha]. eapply mwp_mono; [apply Hf|]. intros tr' res s'' H e [He|He]%refused_app; [by destruct (refused_created _ _ He)|].
  apply answers_prefix; auto.
Qed.

Lemma answers_bind {A} e (m : M A) f : mcalls plain m -> (forall a, answers_to e (f a)) -> answers_to e (m ≫= f).
Proof.
  intros Hm Hf s. apply mwp_bind. eapply mwp_mono; [by apply mwp_each_call, plain_no_apply|]. intros tr a s' Ha.
  eapply mwp_mono; [apply Hf|]. intros tr' res s'' H. by apply answers_prefix.
Qed.

Lemma phase_responds {A} (failed : A -> error -> Prop) (m : M A) f :
  mcalls no_apply m -> tells failed m -> (forall a, responds (f a)) -> (forall a e, failed a e -> answers_to e (f a)) -> responds (m ≫= f).
Proof.
  intros Hm Ht Hf He s. apply mwp_bind. eapply mwp_mono; [apply mwp_conj; [by apply mwp_each_call|apply Ht]|]. intros tr a s' [Ha Hx].
  eapply mwp_mono; [apply mwp_conj; [apply Hf|]|].
  - instantiate (1 := fun tr' res _ => forall e, refused e tr -> answers e tr' res). unfold mwp. rewrite wp_runs. intros tr' [res s1] Hr e H.
    exact (mwp_runs _ _ _ (He a e (Hx e H) s') _ _ _ Hr).
  - intros tr' res s'' [H1 H2] e [H|H]%refused_app; apply answers_prefix; auto.
Qed.

(** A failure that is reported: a conflict ends the pass, anything else is returned. *)
Lemma answers_returned e m : IsConflict e = false -> returns m (fun res => IsOwnershipConflict e = false -> snd res <> None) -> answers_to e m.
Proof. intros Hc Hm s. eapply mwp_mono; [apply Hm|]. intros tr res s' H. unfold answers. by rewrite Hc. Qed.

Lemma returns_reportFailure st e : returns (reportFailure srv st e) (fun res => IsOwnershipConflict e = false -> snd res <> None).
Proof.
  apply returns_bind. intros [x|] s; [by apply mwp_ret|]. destruct (IsOwnershipConflict e); by apply mwp_ret.
Qed.

Lemma answers_conflict e : IsConflict e = true -> answers_to e (mret ({| RequeueAfter := requeueDelayConflict |}, None)).
Proof. intros Hc s. apply mwp_ret. unfold answers. rewrite Hc. split; [done|constructor]. Qed.

Lemma answers_handleDeploymentReconcileError acc e : answers_to e (handleDeploymentReconcileError r srv acc e).
Proof.
  unfold handleDeploymentReconcileError. destruct (IsConflict e) eqn:Hc; [by apply answers_conflict|].
  apply answers_returned; [done|]. do 6 (apply returns_bind; intros ?). apply returns_reportFailure.
Qed.

Lemma answers_handleResourceFailure base acc e params : answers_to e (handleResourceFailure r srv base acc e params).
Proof.
  unfold handleResourceFailure. destruct (IsConflict e) eqn:Hc; [by apply answers_conflict|].
  apply answers_returned; [done|]. do 6 (apply returns_bind; intros ?). apply returns_reportFailure.
Qed.

Lemma reportFailure_calls st e : mcalls no_create (reportFailure srv st e).
Proof. unfold reportFailure, applyStatus. calls_tac. Qed.

Lemma append_no_create conds fresh : mcalls no_create (appendPersistentConditions r srv conds fresh).
Proof. apply mcalls_bind; [apply plain_no_create, clock_plain, policyEnforcedCondition_calls|]. intros; apply mcalls_ret. Qed.
Lemma conditionFor_no_create t st rs ms : mcalls no_create (conditionFor srv t st rs ms).
Proof. unfold conditionFor, newCondition. calls_tac. Qed.
Lemma notVerifiedFor_no_create : mcalls no_create (notVerifiedFor srv).
Proof. apply plain_no_create, clock_plain, newNotVerifiedCondition_calls. Qed.
Lemma silent_no_create {A} (m : M A) : silent m -> mcalls no_create m.
Proof. intros H. by apply plain_no_create, silent_plain. Qed.

Lemma responds_handleDeploymentReconcileError acc e : responds (handleDeploymentReconcileError r srv acc e).
Proof.
  apply responds_calls. unfold handleDeploymentReconcileError. destruct (IsConflict e); [apply mcalls_ret|].
  apply mcalls_bind; [apply silent_no_create, silent_out|]. intros _.
  apply mcalls_bind; [apply conditionFor_no_create|]. intros ?. apply mcalls_bind; [apply notVerifiedFor_no_create|]. intros ?.
  apply mcalls_bind; [apply silent_no_create, silent_out|]. intros _.
  apply mcalls_bind; [apply silent_no_create, silent_if; [apply silent_ret|apply silent_Eventf]|]. intros _.
  apply mcalls_bind; [apply append_no_create|]. intros ?. apply reportFailure_calls.
Qed.

Lemma responds_handleResourceFailure base acc e params :
  (forall m s, silent (fp_emitEvent params m s)) -> responds (handleResourceFailure r srv base acc e params).
Proof.
  intros He. apply responds_calls. unfold handleResourceFailure. destruct (IsConflict e); [apply mcalls_ret|].
  apply mcalls_bind; [apply silent_no_create, silent_out|]. intros _.
  apply mcalls_bind; [apply conditionFor_no_create|]. intros ?. apply mcalls_bind; [apply notVerifiedFor_no_create|]. intros ?.
  apply mcalls_bind; [apply silent_no_create, silent_out|]. intros _.
  apply mcalls_bind; [apply silent_no_create, silent_if; [apply silent_ret|apply He]|]. intros _.
  apply mcalls_bind; [apply append_no_create|]. intros ?. apply reportFailure_calls.
Qed.

Lemma responds_reconcileEndpoint acc avail base ep np : responds (reconcileEndpoint r srv acc avail base ep np).
Proof.
  unfold reconcileEndpoint. eapply phase_responds; [apply sub_no_apply with (srv := srv), sub_reconcileGatewayBinding|apply tells_reconcileGatewayBinding| |].
  - intros gwErr. apply responds_bind; [apply silent_plain, silent_out|]. intros _.
    destruct gwErr as [e|]; [apply responds_handleResourceFailure; intros; apply silent_Eventf|]. apply responds_calls. cbv zeta.
    apply mcalls_bind; [eapply plain_no_create, quiet_plain, sub_currentCABundleHash|]. intros hash.
    apply mcalls_bind; [eapply plain_no_create, quiet_plain, sub_reconcileHandshake|]. intros hs.
    apply mcalls_bind; [apply silent_no_create, silent_out|]. intros _.
    apply mcalls_bind; [eapply plain_no_create, quiet_plain, sub_retryCount|]. intros counted.
    apply mcalls_bind; [eapply plain_no_create, quiet_plain, sub_gatewayOverride|]. intros gw.
    apply mcalls_bind; [apply silent_no_create, silent_if; [apply silent_Eventf|apply silent_ret]|]. intros _.
    apply mcalls_bind; [apply plain_no_create, clock_plain, policyEnforcedCondition_calls|]. intros pe.
    apply mcalls_bind; [by apply mcalls_call|]. intros [e|]; [apply mcalls_ret|].
    eapply mcalls_mono; [|apply finishEndpoint_outputs]. by intros [].
  - intros gwErr e ->. apply answers_bind; [apply silent_plain, silent_out|]. intros _. apply answers_handleResourceFailure.
Qed.

Lemma responds_service sel base acc f :
  (forall x, responds (f x)) ->
  responds (resolved ← reconcileServiceOrBYO r srv sel;
          match snd resolved with
          | Some err => handleResourceFailure r srv base acc err (serviceFailure r)
          | None => f resolved
          end).
Proof.
  intros Hf. eapply phase_responds; [apply sub_no_apply with (srv := srv), sub_reconcileServiceOrBYO|apply tells_reconcileServiceOrBYO| |].
  - intros x. destruct (snd x); [apply responds_handleResourceFailure; intros; apply silent_Eventf|apply Hf].
  - cbn beta. intros x e ->. apply answers_handleResourceFailure.
Qed.

Lemma responds_reconcileBYO acc w : responds (reconcileBYO r srv acc w).
Proof.
  unfold reconcileBYO. apply responds_bind; [eapply quiet_plain, sub_observeWorkload|]. intros [o|e]; [|apply responds_calls, mcalls_ret].
  apply responds_bind; [apply silent_plain, silent_out|]. intros _. apply responds_bind; [apply silent_plain, silent_maybeEmit|]. intros _.
  apply responds_service. intros ep. apply responds_reconcileEndpoint.
Qed.

Lemma responds_reconcileManaged acc : byo srv = false -> responds (reconcileManaged r srv acc).
Proof.
  intros Hb. unfold reconcileManaged.
  eapply phase_responds; [by eapply sub_no_apply, sub_reconcileDeployment|apply tells_reconcileDeployment| |].
  2:{ intros d e ->. apply answers_bind; [apply silent_plain, silent_out|]. intros _. apply answers_handleDeploymentReconcileError. }
  intros dep. apply responds_bind; [apply silent_plain, silent_out|]. intros _.
  destruct dep as [d|e]; [|apply responds_handleDeploymentReconcileError]. apply responds_service. intros ep.
  eapply phase_responds; [by eapply sub_no_apply, sub_ensureNetworkPolicy|apply tells_ensureNetworkPolicy| |].
  2:{ intros np e ->. apply answers_bind; [apply silent_plain, silent_out|]. intros _. apply answers_handleResourceFailure. }
  intros np. apply responds_bind; [apply silent_plain, silent_out|]. intros _.
  destruct np as [np|e]; [|apply responds_handleResourceFailure; intros; apply silent_Eventf].
  apply responds_bind.
  { apply clock_plain. unfold networkPolicyPostureConditionFor, newCondition. destruct (posture srv np) as [[? ?] ?]. calls_tac. }
  intros po. apply responds_bind; [apply silent_plain, silent_out|]. intros _.
  apply responds_bind; [apply (quiet_plain srv); eapply mcalls_mono; [apply quiet_observes|apply reconcileAvailableCondition_calls]|].
  intros avail. apply responds_bind; [apply silent_plain, silent_out|]. intros _.
  apply responds_bind; [apply silent_plain, silent_maybeEmit|]. intros _. apply responds_reconcileEndpoint.
Qed.

Lemma responds_reconcileLive : responds (reconcileLive r srv).
Proof.
  unfold reconcileLive. apply responds_bind.
  { unfold cleanupGatewayBindingIfRemoved. destruct (spec_gateway _); [apply mcalls_ret|].
    apply mcalls_bind; [by apply mcalls_call|]. intros [b|e]; [|apply mcalls_ret].
    apply mcalls_bind; [eapply mcalls_mono; [|apply validateOwnership_outputs]; by intros []|]. intros [e|]; calls_tac. }
  intros _. apply responds_bind; [apply no_write_plain, validate_reads|]. intros validated.
  apply responds_bind; [apply silent_plain, silent_out|]. intros _. destruct validated as [w|e].
  - apply responds_bind; [apply clock_plain; unfold conditionFor, newCondition; calls_tac|]. intros acc.
    apply responds_bind; [apply silent_plain, silent_out|]. intros _.
    apply responds_bind; [apply silent_plain, silent_if; [apply silent_Eventf|apply silent_ret]|]. intros _.
    destruct (spec_workloadRef (srv_spec srv)) eqn:Ew; [apply responds_reconcileBYO|]. apply responds_reconcileManaged. unfold byo. by rewrite Ew.
  - destruct (asValidationError e) as [[reason message]|]; [|apply responds_calls, mcalls_ret]. apply responds_calls.
    apply mcalls_bind; [|intros; apply mcalls_ret].
    unfold reconcilePermanentValidationError.
    apply mcalls_bind; [apply conditionFor_no_create|]. intros ?.
    apply mcalls_bind; [apply silent_no_create, silent_out|]. intros _. apply mcalls_bind; [apply silent_no_create, silent_out|]. intros _.
    apply mcalls_bind; [apply conditionFor_no_create|]. intros ?. apply mcalls_bind; [apply notVerifiedFor_no_create|]. intros ?.
    apply mcalls_bind; [apply append_no_create|]. intros ?. apply mcalls_bind; [by apply mcalls_call|]. intros [x|]; [apply mcalls_ret|].
    apply mcalls_bind; [apply silent_no_create, silent_if; [apply silent_ret|apply silent_Eventf]|]. intros _.
    apply mcalls_bind; [apply silent_no_create, silent_out|]. intros _. apply mcalls_bind; [apply silent_no_create, silent_out|]. intros; apply mcalls_ret.
Qed.

End refusals.

Lemma Reconcile_responds `{V : Vendor} {L : VendorLaws V} r req : responds (Reconcile r req).
Proof.
  destruct req as [ns name]. unfold Reconcile. apply responds_bind; [by apply mcalls_call|]. intros [mcpServer|e]; [|apply responds_calls; calls_tac].
  apply responds_bind; [apply no_write_plain; unfold shouldSkipReconciliation; calls_tac|]. intros [[] [e|]]; try apply responds_calls, mcalls_ret.
  apply responds_reconcileLive.
Qed.

(** ** The theorems *)

(** The calls of a run, each with the events before it, latest first. *)
Fixpoint in_context (h tr : list event) : list (list event * Call) :=
  match tr with
  | [] => []
  | Ev c a :: tr' => (h, c) :: in_context (Ev c a :: h) tr'
  end.

Lemma guard_in_context {A} P (p : prog A) h tr a :
  guard P h p -> runs p tr a -> Forall (fun hc => P (fst hc) (snd hc)) (in_context h tr).
Proof.
  revert h tr. induction p as [b|c k IH]; intros h tr; cbn.
  - by intros _ [-> _].
  - intros [Hc Hk] (x & tr' & -> & Hr). cbn. constructor; [done|]. by eapply IH.
Qed.

Section theorems.
Context `{V : Vendor} {L : VendorLaws V}.
Context (r : MCPServerReconciler) (req : Request).

Lemma reconcile_in_context s tr res :
  runs (Reconcile r req s) tr res -> Forall (fun hc => reconcile_discipline req (fst hc) (snd hc)) (in_context [] tr).
Proof. intros Hr. eapply guard_in_context; [apply Reconcile_discipline|exact Hr]. Qed.

(** C3: Ownership discipline: every create, update, delete and status update of a
    reconcile is for an MCPServer that was read at its start and that neither is being
    deleted nor lives in a namespace being deleted. Objects are created only after
    being found absent, in the server's namespace and under its control; updated only
    from a version that was read and that the server may manage; deleted only if they
    are Services or bindings it may manage. *)
Theorem reconcile_writes_owned s tr res :
  runs (Reconcile r req s) tr res ->
  Forall (fun hc => no_write (snd hc) \/ exists srv, live_before req (fst hc) srv /\ managed_write srv (fst hc) (snd hc)) (in_context [] tr).
Proof.
  intros Hr. eapply Forall_impl; [by eapply reconcile_in_context|]. intros [h c] [H|(srv & Hl & Hc)].
  - left. by destruct c as [[] []| | | | | | | | | | | |].
  - right. exists srv. split; [done|apply Hc].
Qed.

(** Watch completeness: every ConfigMap, Secret, referenced workload and referenced
    Service that a reconcile reads is one whose changes the watch indexes map back to
    the MCPServer. *)
Theorem reconcile_reads_watched s tr res :
  runs (Reconcile r req s) tr res ->
  Forall (fun hc => first_reads req (snd hc) \/ exists srv, live_before req (fst hc) srv /\ indexed_read srv (snd hc)) (in_context [] tr).
Proof.
  intros Hr. eapply Forall_impl; [by eapply reconcile_in_context|]. intros [h c] [H|(srv & Hl & Hc)]; [by left|].
  right. exists srv. split; [done|apply Hc].
Qed.

(** C4: Status shape: every status that is published names the current generation and
    the Service, reports each condition type once, among them Accepted, Available,
    Verified and PolicyEnforced; a rejected configuration is Available=False and
    Verified=Unknown; and an address is published only with Verified=True. *)
Theorem reconcile_status_well_formed s tr res :
  runs (Reconcile r req s) tr res ->
  Forall (fun hc => match snd hc with
                    | CApplyStatus ns name st => exists srv, live_before req (fst hc) srv /\ ns = om_namespace (srv_meta srv) /\
                                                   name = om_name (srv_meta srv) /\ published srv st
                    | _ => True
                    end) (in_context [] tr).
Proof.
  intros Hr. eapply Forall_impl; [by eapply reconcile_in_context|].
  intros [h c] [H|(srv & Hl & Hw & _ & _ & Hs)]; destruct c; try done. exists srv. cbn in *. tauto.
Qed.

(** C7: A referenced workload is never touched: with [workloadRef] set, no Deployment
    and no NetworkPolicy is created, updated or deleted. *)
Theorem byo_workload_untouched s tr res :
  runs (Reconcile r req s) tr res ->
  Forall (fun hc => no_write (snd hc) \/ exists srv, live_before req (fst hc) srv /\
                      (spec_workloadRef (srv_spec srv) <> None -> spares_workload (snd hc))) (in_context [] tr).
Proof.
  intros Hr. eapply Forall_impl; [by eapply reconcile_in_context|]. intros [h c] [H|(srv & Hl & _ & _ & Hb & _)].
  - left. by destruct c as [[] []| | | | | | | | | | | |].
  - right. exists srv. split; [done|]. intros Hw. apply Hb. unfold byo. by destruct (spec_workloadRef _).
Qed.

(** C5: Outcome: a reconcile either writes nothing at all; or it is cut short without touching
    the status, by a conflict in reconciling the Deployment, the Service, the NetworkPolicy or
    the binding, which asks for a requeue after one second and returns no error, or by
    validation failing with an error that is not the user's to fix, which it returns; or it
    publishes the status exactly once, as its last call but for events and metrics, returning
    the error of that update if there is one, and otherwise no error but that of a resource
    that failed without a conflict or of the read of the binding.  Whenever a create or an
    update is answered with a conflict, the pass ends the first of these ways; whenever it is
    answered with another error, an error is returned, unless the answer says that somebody
    else owns the object.  A status with Accepted=False is published only when nothing was
    created or updated, and asks for no requeue. *)
Theorem reconcile_outcome s tr res s' :
  runs (Reconcile r req s) tr (res, s') ->
  (each_call no_write tr \/
   exists srv, In (Ev (CGet Cached KMCPServer (fst req) (snd req)) (Ok srv)) tr /\
     (deferred r srv tr res \/
      concluded (fun tr st a res err => accepts r srv tr st a res err \/ rejects tr st a res err) tr res)) /\
  forall e, refused e tr -> answers e tr res.
Proof.
  intros Hr. split; [|exact (mwp_runs _ _ _ (Reconcile_responds r req s) _ _ _ Hr)].
  by_wp Hr. destruct req as [ns name]. unfold Reconcile. apply mwp_bind, mwp_call. intros [srv|e].
  2:{ destruct (IsNotFound e); [|apply mwp_ret; left; repeat constructor].
      apply mwp_bind, mwp_get, mwp_bind, mwp_put, mwp_bind, mwp_call. intros []. apply mwp_ret. left. repeat constructor. }
  unfold shouldSkipReconciliation. destruct (om_deletionTimestamp (srv_meta srv)).
  { apply mwp_bind, mwp_ret, mwp_ret. left. repeat constructor. }
  apply mwp_bind, mwp_bind, mwp_call. intros [n|e].
  2:{ destruct (IsNotFound e); apply mwp_ret, mwp_ret; left; repeat constructor. }
  destruct (om_deletionTimestamp (ns_meta n)); apply mwp_ret; [apply mwp_ret; left; repeat constructor|].
  eapply mwp_mono; [apply ends_reconcileLive|]. cbn. intros t x s1 H. right. exists srv. split; [by left|].
  apply or_comm. apply (outcome_prefix r srv [_; _]); [by repeat constructor|exact H].
Qed.

End theorems.

(** ** Concrete runs *)

Definition readyDeployment (srv : MCPServer) : Deployment :=
  let d := builtFor sampleReconciler srv in
  {| dep_meta := with_owners [sampleOwner] (dep_meta d); dep_replicas := Some 1; dep_selector := dep_selector d;
     dep_template := dep_template d; dep_observedGeneration := 1; dep_readyReplicas := 1;
     dep_conditions := [{| dc_type := DeploymentAvailable; dc_status := "True"; dc_message := "" |}] |}.

(** A cluster where [srv] runs: its Deployment is ready, its Service exists, the
    NetworkPolicy and the gateway binding do not, and the endpoint answers. *)
Definition liveWorld (srv : MCPServer) : World :=
  {| w_get := fun _ k _ _ => match k return result (obj k) with
                             | KMCPServer => Ok srv
                             | KNamespace => Ok {| ns_meta := newMeta "ns" "" None |}
                             | KDeployment => Ok (readyDeployment srv)
                             | KService => Ok managedService
                             | _ => Err (StatusError NotFound "not found")
                             end;
     w_write := None; w_pods := []; w_servers := []; w_list := fun _ _ => []; w_status := None;
     w_dial := Ok (Some {| info_name := "srv"; info_version := "1"; info_protocolVersion := "2025-06-18"; info_instructions := "";
                           info_capabilities := Some noCapabilities |});
     w_now := 5 |}.

Definition liveRun (srv : MCPServer) : list event * ((Result * option error) * RState) :=
  run_in (liveWorld srv) (@Reconcile modelVendor sampleReconciler ("ns", "srv")) emptyState.

Definition statuses (tr : list event) : list MCPServerStatusApplyConfiguration :=
  concat (map (fun e => let '(Ev c _) := e in match c with CApplyStatus _ _ st => [st] | _ => [] end) tr).

Definition write_kinds (tr : list event) : list string :=
  concat (map (fun e => let '(Ev c _) := e in
                 match c with
                 | CCreate _ o => ["create"] | CUpdate _ _ => ["update"] | CDelete _ _ _ => ["delete"] | CApplyStatus _ _ _ => ["status"]
                 | _ => []
                 end) tr).

(** The server is found ready: Available and Verified, with its address. *)
Example live_run_ready :
  map (fun st => (published_status st ConditionTypeAvailable, published_status st ConditionTypeVerified, sac_address st))
      (statuses (fst (liveRun sampleServer))) =
  [(Some "True", Some "True", Some {| aac_url := Some "http://srv.ns.svc.cluster.local:8080/mcp" |})] /\
  write_kinds (fst (liveRun sampleServer)) = ["update"; "create"; "status"].
Proof. split; vm_compute; reflexivity. Qed.

(** While the gateway binding is not registered the server is reported unavailable, yet
    its cluster-internal address is published, since that depends on Verified alone. *)
Example address_published_while_unavailable :
  map (fun st => (published_status st ConditionTypeAvailable, published_status st ConditionTypeVerified, sac_address st))
      (statuses (fst (liveRun gatewayServer))) =
  [(Some "False", Some "True", Some {| aac_url := Some "http://srv.ns.svc.cluster.local:8080/mcp" |})].
Proof. vm_compute. reflexivity. Qed.

(** The run has writes, so the disciplines above are not vacuous in it. *)
Lemma reconcile_writes_owned_witness :
  write_kinds (fst (liveRun sampleServer)) = ["update"; "create"; "status"] /\
  Forall (fun hc => no_write (snd hc) \/ exists srv, live_before ("ns", "srv") (fst hc) srv /\ @managed_write modelVendor srv (fst hc) (snd hc))
    (in_context [] (fst (liveRun sampleServer))).
Proof.
  split; [vm_compute; reflexivity|].
  exact (@reconcile_writes_owned modelVendor modelVendor_laws sampleReconciler ("ns", "srv") emptyState _ _
    (run_in_runs (liveWorld sampleServer) (@Reconcile modelVendor sampleReconciler ("ns", "srv")) emptyState)).
Defined.

(** Names read without the cache. *)
Definition direct_reads (tr : list event) : list string :=
  concat (map (fun e => let '(Ev c _) := e in match c with CGet Direct _ _ n => [n] | _ => [] end) tr).

Lemma reconcile_reads_watched_witness :
  direct_reads (fst (liveRun gatewayServer)) = ["gw"; "gw"] /\
  Forall (fun hc => first_reads ("ns", "srv") (snd hc) \/ exists srv, live_before ("ns", "srv") (fst hc) srv /\ indexed_read srv (snd hc))
    (in_context [] (fst (liveRun gatewayServer))).
Proof.
  split; [vm_compute; reflexivity|].
  exact (@reconcile_reads_watched modelVendor modelVendor_laws sampleReconciler ("ns", "srv") emptyState _ _
    (run_in_runs (liveWorld gatewayServer) (@Reconcile modelVendor sampleReconciler ("ns", "srv")) emptyState)).
Defined.

Lemma reconcile_status_well_formed_witness :
  List.length (statuses (fst (liveRun gatewayServer))) = 1%nat /\
  Forall (fun hc => match snd hc with
                    | CApplyStatus ns name st => exists srv, live_before ("ns", "srv") (fst hc) srv /\ ns = om_namespace (srv_meta srv) /\
                                                   name = om_name (srv_meta srv) /\ published srv st
                    | _ => True
                    end) (in_context [] (fst (liveRun gatewayServer))).
Proof.
  split; [vm_compute; reflexivity|].
  exact (@reconcile_status_well_formed modelVendor modelVendor_laws sampleReconciler ("ns", "srv") emptyState _ _
    (run_in_runs (liveWorld gatewayServer) (@Reconcile modelVendor sampleReconciler ("ns", "srv")) emptyState)).
Defined.

(** A server that references a Deployment, whose Service has to be updated. *)
Definition with_workloadRef (ref : option WorkloadReference) (sp : MCPServerSpec) : MCPServerSpec :=
  {| spec_extraLabels := spec_extraLabels sp; spec_extraAnnotations := spec_extraAnnotations sp;
     spec_workloadRef := ref; spec_serviceRef := spec_serviceRef sp; spec_source := spec_source sp;
     spec_config := spec_config sp; spec_runtime := spec_runtime sp; spec_mcp := spec_mcp sp;
     spec_network := spec_network sp; spec_transport := spec_transport sp; spec_gateway := spec_gateway sp |}.
Definition byoServer : MCPServer :=
  serverWith (with_workloadRef (Some {| wr_name := "mine"; wr_kind := WorkloadKindDeployment |}) sampleSpec).

Lemma byo_workload_untouched_witness :
  write_kinds (fst (liveRun byoServer)) = ["update"; "status"] /\
  Forall (fun hc => no_write (snd hc) \/ exists srv, live_before ("ns", "srv") (fst hc) srv /\
                      (spec_workloadRef (srv_spec srv) <> None -> spares_workload (snd hc))) (in_context [] (fst (liveRun byoServer))).
Proof.
  split; [vm_compute; reflexivity|].
  exact (@byo_workload_untouched modelVendor modelVendor_laws sampleReconciler ("ns", "srv") emptyState _ _
    (run_in_runs (liveWorld byoServer) (@Reconcile modelVendor sampleReconciler ("ns", "srv")) emptyState)).
Defined.

(** A server whose envFrom names a missing ConfigMap is rejected. *)
Definition rejectedServer : MCPServer := envServer ["absent"].

Lemma reconcile_outcome_witness :
  map (fun st => published_status st ConditionTypeAccepted) (statuses (fst (liveRun rejectedServer))) = [Some "False"] /\
  write_kinds (fst (liveRun rejectedServer)) = ["status"] /\
  (each_call no_write (fst (liveRun rejectedServer)) \/
   exists srv, In (Ev (CGet Cached KMCPServer "ns" "srv") (Ok srv)) (fst (liveRun rejectedServer)) /\
     (@deferred modelVendor sampleReconciler srv (fst (liveRun rejectedServer)) (fst (snd (liveRun rejectedServer))) \/
      concluded (fun tr st a res err => @accepts modelVendor sampleReconciler srv tr st a res err \/ rejects tr st a res err)
        (fst (liveRun rejectedServer)) (fst (snd (liveRun rejectedServer))))) /\
  forall e, refused e (fst (liveRun rejectedServer)) -> answers e (fst (liveRun rejectedServer)) (fst (snd (liveRun rejectedServer))).
Proof.
  split; [vm_compute; reflexivity|]. split; [vm_compute; reflexivity|].
  pose proof (run_in_runs (liveWorld rejectedServer) (@Reconcile modelVendor sampleReconciler ("ns", "srv")) emptyState) as Hr.
  unfold liveRun. destruct (snd (run_in (liveWorld rejectedServer) (@Reconcile modelVendor sampleReconciler ("ns", "srv")) emptyState)) as [res s'].
  exact (@reconcile_outcome modelVendor modelVendor_laws sampleReconciler ("ns", "srv") emptyState _ res s' Hr).
Defined.

(** An update that meets a conflict: no status, no error, a requeue after one second. *)
Example conflict_requeues :
  let w := liveWorld sampleServer in
  let run := run_in {| w_get := w_get w; w_write := Some (StatusError Conflict "modified"); w_pods := w_pods w; w_servers := w_servers w;
                       w_list := w_list w; w_status := w_status w; w_dial := w_dial w; w_now := w_now w |}
               (@Reconcile modelVendor sampleReconciler ("ns", "srv")) emptyState in
  fst (snd run) = (conflictRequeue, None) /\ write_kinds (fst run) = ["update"].
Proof. split; vm_compute; reflexivity. Qed.
