(* ===== verification/Watches.v ===== *)
(** * The MCPServer controller's watches (SetupWithManager, CacheOptions)

    What the reconciler reads is tied to the events that make it run again: the indexes,
    watches and predicates registered with the manager, the cache they see the cluster
    through, and what an event of an object enqueues.  controller-runtime's predicates and
    owner handler are the class [ControllerRuntime]; a map-function handler runs its
    function on each object of the event, and a list by an index answers with the cached
    servers whose extractor gives the value, as its documentation says.

    The theorem: whatever a reconcile read but its Namespace, a change of it enqueues the
    server. *)

From S2P Require Import Prelude K8s ApiBeta Interact Conditions Ownership Service Gateway ConfigHash Handshake Reconcile Lifecycle.

(** ** Events *)

(** What a watch that sees metadata tells. *)
Inductive change :=
  | Created (o : ObjectMeta)
  | Updated (old new : ObjectMeta)
  | Deleted (o : ObjectMeta).

Definition newest (c : change) : ObjectMeta := match c with Created o | Updated _ o | Deleted o => o end.
Definition objects (c : change) : list ObjectMeta := match c with Created o | Deleted o => [o] | Updated old new => [old; new] end.

Inductive Event := ObjectEvent (k : kind) (c : change) | PodEvent (e : podEvent).

Class ControllerRuntime := {
  GenerationChangedPredicate : change -> bool;
  AnnotationChangedPredicate : change -> bool;
  LabelChangedPredicate : change -> bool;
  ResourceVersionChangedPredicate : change -> bool;
  (** [EnqueueRequestForOwner] of MCPServers, for controllers only. *)
  enqueueOwner : change -> list Request
}.

(** There is a new version, or the object came or went. *)
Definition changed (c : change) : Prop :=
  match c with Updated old new => om_resourceVersion old <> om_resourceVersion new | _ => True end.

(** The object is controlled by an MCPServer of this name. *)
Definition controlledBy (name : string) (o : ObjectMeta) : Prop :=
  exists ref, GetControllerOf o = Some ref /\ or_apiVersion ref = GroupVersion_Group +:+ "/" +:+ GroupVersion_Version /\
    or_kind ref = MCPServerKind /\ or_name ref = name.

Class ControllerRuntimeLaws (R : ControllerRuntime) : Prop := {
  ResourceVersionChanged_passes c : changed c -> ResourceVersionChangedPredicate c = true;
  GenerationChanged_passes c :
    match c with Updated old new => om_generation old <> om_generation new | _ => True end -> GenerationChangedPredicate c = true;
  enqueueOwner_controller c o name : In o (objects c) -> controlledBy name o -> In (om_namespace o, name) (enqueueOwner c)
}.

(** ** The registration *)

Section setup.
Context `{R : ControllerRuntime}.

(** The manager's answers. *)
Record Manager := { IndexField : string -> option error; Complete : option error }.

Record Watch := { w_kind : kind; w_map : ObjectMeta -> M (list Request); w_predicate : change -> bool }.

Record Registration := {
  indexes : list (string * (MCPServer -> list string));
  forPredicate : change -> bool;
  owns : list kind;
  podPredicate : podEvent -> bool;
  podMap : ObjectMeta -> list Request;
  metadataWatches : list Watch;
  controllerName : string
}.

Definition registration : Registration := {|
  indexes := [ (configMapIndexKey, extractConfigMapNames); (secretIndexKey, extractSecretNames);
               (workloadRefIndexKey, extractWorkloadRefNames); (serviceRefIndexKey, extractServiceRefNames) ];
  forPredicate c := GenerationChangedPredicate c || AnnotationChangedPredicate c || LabelChangedPredicate c;
  owns := [KDeployment; KService; KNetworkPolicy; KBinding];
  podPredicate := podDiagnosticsChangedPredicate;
  podMap := findMCPServersForPod;
  metadataWatches :=
    [ {| w_kind := KConfigMap; w_map := findMCPServersForConfigMap; w_predicate := ResourceVersionChangedPredicate |};
      {| w_kind := KSecret; w_map := findMCPServersForSecret; w_predicate := ResourceVersionChangedPredicate |};
      {| w_kind := KDeployment; w_map := findMCPServersForWorkload; w_predicate := ResourceVersionChangedPredicate |};
      {| w_kind := KDaemonSet; w_map := findMCPServersForWorkload; w_predicate := ResourceVersionChangedPredicate |};
      {| w_kind := KStatefulSet; w_map := findMCPServersForWorkload; w_predicate := ResourceVersionChangedPredicate |};
      {| w_kind := KService; w_map := findMCPServersForBYOService; w_predicate := ResourceVersionChangedPredicate |} ];
  controllerName := "mcpserver"
|}.

(** The indexes first; the first error ends it. *)
Definition SetupWithManager (mgr : Manager) : result Registration :=
  match IndexField mgr configMapIndexKey with
  | Some err => Err (Wrap "failed to setup ConfigMap index: " err)
  | None =>
  match IndexField mgr secretIndexKey with
  | Some err => Err (Wrap "failed to setup Secret index: " err)
  | None =>
  match IndexField mgr workloadRefIndexKey with
  | Some err => Err (Wrap "failed to setup workloadRef index: " err)
  | None =>
  match IndexField mgr serviceRefIndexKey with
  | Some err => Err (Wrap "failed to setup serviceRef index: " err)
  | None => match Complete mgr with Some err => Err err | None => Ok registration end
  end end end end.

(** cache.go: the Pods the manager's cache holds, and what of them.  The requirement that
    a label exists is well-formed for this key. *)
Definition CacheOptions (pod : Pod) : option Pod :=
  match mget (om_labels (pod_meta pod)) LabelKeyMCPServer with
  | Some _ => Some (stripPodForDiagnostics pod)
  | None => None
  end.

(** A change of a Pod, as the cache reports it: one that comes to match, or no longer does,
    is reported as created or deleted. *)
Definition podUpdated (old new : Pod) : option podEvent :=
  match CacheOptions old, CacheOptions new with
  | Some o, Some n => Some (PodUpdate o n)
  | None, Some n => Some (PodCreate n)
  | Some o, None => Some (PodDelete o false)
  | None, None => None
  end.

(** ** What an event enqueues *)

(** A list by an index, from the servers in the cache. *)
Definition answered (reg : Registration) (cached : list MCPServer) (_ : unit) (c : Call) : resp c * unit :=
  match c return resp c * unit with
  | CListMCPServers ns key value =>
      (match List.find (fun ix => fst ix == key) (indexes reg) with
       | Some ix => Ok (List.filter (fun srv => (om_namespace (srv_meta srv) == ns) && existsb (String.eqb value) (snd ix srv)) cached)
       | None => Err (Errorf "no index")
       end, tt)
  | c => answer emptyWorld tt c
  end.

Definition mapped (reg : Registration) (cached : list MCPServer) (f : ObjectMeta -> M (list Request)) (o : ObjectMeta) : list Request :=
  fst (snd (fst (interp (answered reg cached) (f o emptyState) tt))).

Definition podObjects (e : podEvent) : list Pod :=
  match e with PodCreate p | PodDelete p _ | PodGeneric p => [p] | PodUpdate old new => [old; new] end.

Definition enqueued (reg : Registration) (cached : list MCPServer) (e : Event) : list Request :=
  match e with
  | ObjectEvent k c =>
      (if (k == KMCPServer) && forPredicate reg c then [(om_namespace (newest c), om_name (newest c))] else [])
      ++ (if existsb (fun k' => k == k') (owns reg) then enqueueOwner c else [])
      ++ concat (map (fun w => if (k == w_kind w) && w_predicate w c then concat (map (mapped reg cached (w_map w)) (objects c)) else [])
                   (metadataWatches reg))
  | PodEvent e => if podPredicate reg e then concat (map (fun p => podMap reg (pod_meta p)) (podObjects e)) else []
  end.

End setup.

(** ** Changes of what was read lead back *)

Section complete.
Context `{V : Vendor} {L : VendorLaws V} {R : ControllerRuntime} {RL : ControllerRuntimeLaws R}.

(** The object [ns/name] is one the change is about. *)
Definition about (ns name : string) (c : change) : Prop :=
  exists o, In o (objects c) /\ om_namespace o = ns /\ om_name o = name.

Lemma mapped_index cached srv key ex o :
  List.find (fun ix => fst ix == key) (indexes registration) = Some (key, ex) -> In srv cached ->
  om_namespace o = om_namespace (srv_meta srv) -> In (om_name o) (ex srv) ->
  In (requestFor srv) (mapped registration cached (fun o => findMCPServersForResource (om_name o) (om_namespace o) key) o).
Proof.
  intros Hix Hin Hns Hname. unfold mapped, findMCPServersForResource.
  unfold mbind, M_bind, call. cbn [interp pbind]. unfold answered at 1. rewrite Hix. cbn.
  apply in_map, filter_In. split; [done|]. apply andb_true_iff. split; [by apply bool_decide_eq_true|].
  apply existsb_exists. exists (om_name o). split; [done|]. apply String.eqb_refl.
Qed.

(** A metadata watch delivers what its function maps. *)
Lemma watch_delivers cached k f c o q :
  In {| w_kind := k; w_map := f; w_predicate := ResourceVersionChangedPredicate |} (metadataWatches registration) ->
  changed c -> In o (objects c) -> In q (mapped registration cached f o) ->
  In q (enqueued registration cached (ObjectEvent k c)).
Proof.
  intros Hw Hc Ho Hq. cbn [enqueued]. rewrite !in_app_iff. right. right. apply in_concat. eexists. split; [by apply in_map|].
  cbn beta. cbn [w_kind w_predicate w_map]. rewrite ResourceVersionChanged_passes, bool_decide_true by done. cbn.
  apply in_concat. eexists. split; [by apply in_map|done].
Qed.

(** Every read that goes through an index is delivered. *)
Lemma indexed_delivered cached srv k ns name c :
  indexed_read srv (CGet Direct k ns name) -> In srv cached -> changed c -> about ns name c ->
  In (requestFor srv) (enqueued registration cached (ObjectEvent k c)).
Proof.
  intros Hi Hin Hc (o & Ho & Hns & Hname). subst ns name.
  destruct k; cbn in Hi; try done; destruct_and?.
  - eapply (watch_delivers _ KDeployment findMCPServersForWorkload); [cbn; tauto|done..|]. by eapply mapped_index.
  - eapply (watch_delivers _ KDaemonSet findMCPServersForWorkload); [cbn; tauto|done..|]. by eapply mapped_index.
  - eapply (watch_delivers _ KStatefulSet findMCPServersForWorkload); [cbn; tauto|done..|]. by eapply mapped_index.
  - eapply (watch_delivers _ KService findMCPServersForBYOService); [cbn; tauto|done..|]. by eapply mapped_index.
  - eapply (watch_delivers _ KConfigMap findMCPServersForConfigMap); [cbn; tauto|done..|]. by eapply mapped_index.
  - eapply (watch_delivers _ KSecret findMCPServersForSecret); [cbn; tauto|done..|]. by eapply mapped_index.
Qed.

Lemma owned_delivered cached k c o name :
  In k ownedKinds -> In o (objects c) -> controlledBy name o -> In (om_namespace o, name) (enqueued registration cached (ObjectEvent k c)).
Proof.
  intros Hk Ho Hn. cbn [enqueued]. rewrite !in_app_iff. right. left.
  replace (existsb _ _) with true; [by apply enqueueOwner_controller|]. symmetry. apply existsb_exists. exists k.
  split; [exact Hk|by apply bool_decide_eq_true].
Qed.

(** A change that the controller's own object is watched for. *)
Definition respecified (c : change) : Prop :=
  match c with Updated old new => om_generation old <> om_generation new | _ => True end.

Lemma server_delivered cached c : respecified c ->
  In (om_namespace (newest c), om_name (newest c)) (enqueued registration cached (ObjectEvent KMCPServer c)).
Proof.
  intros Hc. cbn [enqueued]. rewrite in_app_iff. left. cbn [forPredicate registration].
  rewrite (GenerationChanged_passes c) by done. by left.
Qed.

(** Between two states of a Pod with the server's label, through the cache. *)
Lemma pod_delivered cached old new e name :
  mget (om_labels (pod_meta old)) LabelKeyMCPServer = Some name -> mget (om_labels (pod_meta new)) LabelKeyMCPServer = Some name ->
  name <> "" -> podUpdated old new = Some e -> podFailureSignature old <> podFailureSignature new ->
  In (om_namespace (pod_meta new), name) (enqueued registration cached (PodEvent e)).
Proof.
  intros Ho Hn Hne He Hs. unfold podUpdated, CacheOptions in He. rewrite Ho, Hn in He. injection He as <-.
  cbn [enqueued podPredicate registration podDiagnosticsChangedPredicate].
  change (podFailureSignature (stripPodForDiagnostics old)) with (podFailureSignature old).
  change (podFailureSignature (stripPodForDiagnostics new)) with (podFailureSignature new).
  rewrite bool_decide_false by done. cbn [negb podObjects map concat]. apply in_app_iff. right. apply in_app_iff. left.
  unfold podMap, registration, findMCPServersForPod.
  change (om_labels (pod_meta (stripPodForDiagnostics new))) with (om_labels (pod_meta new)).
  rewrite Hn, bool_decide_false by done. by left.
Qed.

(** What a read of a reconcile says about later events. *)
Definition delivered (reg : Registration) (req : Request) (h : list event) (c : Call) : Prop :=
  forall cached ch,
  match c with
  | CGet Direct k ns name =>
      exists srv, live_before req h srv /\
        (In srv cached -> changed ch -> about ns name ch -> In (requestFor srv) (enqueued reg cached (ObjectEvent k ch)))
  | CGet Cached KNamespace ns name =>
      ns = "" /\ name = fst req /\ enqueued reg cached (ObjectEvent KNamespace ch) = []
  | CGet Cached KMCPServer ns name =>
      (ns, name) = req /\
      (respecified ch -> om_namespace (newest ch) = ns -> om_name (newest ch) = name ->
      In (ns, name) (enqueued reg cached (ObjectEvent KMCPServer ch)))
  | CGet Cached k _ _ =>
      forall o name, In o (objects ch) -> controlledBy name o -> In (om_namespace o, name) (enqueued reg cached (ObjectEvent k ch))
  | CListPods _ _ =>
      forall old new e name,
        mget (om_labels (pod_meta old)) LabelKeyMCPServer = Some name -> mget (om_labels (pod_meta new)) LabelKeyMCPServer = Some name ->
        name <> "" -> podUpdated old new = Some e -> podFailureSignature old <> podFailureSignature new ->
        In (om_namespace (pod_meta new), name) (enqueued reg cached (PodEvent e))
  | CList _ _ | CListMCPServers _ _ _ => False
  | _ => True
  end.

Lemma SetupWithManager_registers mgr reg : SetupWithManager mgr = Ok reg -> reg = registration.
Proof. unfold SetupWithManager. repeat case_match; by intros [= <-]. Qed.

(** C6: What a reconcile reads of other objects is watched, but for the Namespace.  Once the
    controller is set up, for every execution: each object read past the cache is one whose
    creation, deletion or change of version, through the registered indexes, watches and
    predicates, enqueues the server it was read for; the MCPServer read is the request's own
    and is enqueued when its generation changes; each other kind read from the cache is one
    whose every event enqueues the MCPServer that controls the object; and a change of the
    diagnosis of Pods with a server's label is delivered through the trimmed Pod cache.  The
    one exception is the request's own Namespace, which decides whether the pass is skipped:
    no event of a Namespace enqueues anything.  Nothing is listed but Pods.  If an index or
    the controller cannot be registered, the set-up fails. *)
Theorem dependency_changes_delivered mgr r req s tr res :
  runs (Reconcile r req s) tr res ->
  match SetupWithManager mgr with
  | Ok reg => Forall (fun hc => delivered reg req (fst hc) (snd hc)) (in_context [] tr)
  | Err _ => Complete mgr <> None \/ exists key, In key [configMapIndexKey; secretIndexKey; workloadRefIndexKey; serviceRefIndexKey] /\
                                             IndexField mgr key <> None
  end.
Proof.
  intros Hr. destruct (SetupWithManager mgr) as [reg|e] eqn:E.
  - apply SetupWithManager_registers in E as ->. eapply Forall_impl; [by eapply reconcile_in_context|].
    intros [h c] Hc cached ch. cbn [fst snd] in *.
    assert (Hpods : forall ns sel, c = CListPods ns sel -> delivered registration req h c).
    { intros ns sel -> ? ? old new e name. apply pod_delivered. }
    destruct Hc as [Hf|(srv & Hl & _ & Hi & _)].
    + destruct c as [[] [] ns name| | | | | | | | | | | |]; try done; cbn in Hf.
      * split; [done|]. intros Hc <- <-. by apply server_delivered.
      * destruct Hf as [-> ->]. done.
    + destruct c as [rd k ns name| | | |ns sel| | | | | | | |]; try done; [|exact (Hpods ns sel eq_refl cached ch)].
      destruct rd.
      * destruct k; try done; try (intros; apply owned_delivered; [cbn; tauto|done..]); cbn in Hi; intuition discriminate.
      * exists srv. split; [done|]. intros Hin Hch Ha. by eapply indexed_delivered.
  - unfold SetupWithManager in E.
    destruct (IndexField mgr configMapIndexKey) eqn:E1; [right; exists configMapIndexKey; cbn; split; [tauto|congruence]|].
    destruct (IndexField mgr secretIndexKey) eqn:E2; [right; exists secretIndexKey; cbn; split; [tauto|congruence]|].
    destruct (IndexField mgr workloadRefIndexKey) eqn:E3; [right; exists workloadRefIndexKey; cbn; split; [tauto|congruence]|].
    destruct (IndexField mgr serviceRefIndexKey) eqn:E4; [right; exists serviceRefIndexKey; cbn; split; [tauto|congruence]|].
    destruct (Complete mgr); [left; done|done].
Qed.

(** What the exception costs: a pass that does not find the Namespace, which the cache may
    not have seen yet, ends without an error or a requeue, and no event of the Namespace
    starts another. *)
Lemma unseen_namespace_not_retried r req s srv e tr res s' :
  IsNotFound e = true ->
  runs (Reconcile r req s)
    (Ev (CGet Cached KMCPServer (fst req) (snd req)) (Ok srv) :: Ev (CGet Cached KNamespace "" (fst req)) (Err e) :: tr) (res, s') ->
  tr = [] /\ res = (noRequeue, None) /\ forall cached ch, enqueued registration cached (ObjectEvent KNamespace ch) = [].
Proof.
  intros He Hr. destruct req as [ns name]. destruct Hr as (x & t & E & Hr).
  pose proof (f_equal tl E) as Ht. cbn in Ht. subst t. apply (f_equal (fun tr => hd_error tr ≫= read_of KMCPServer)) in E. cbn in E. destruct x as [srv'|]; [|done].
  cbn in Hr. unfold shouldSkipReconciliation in Hr. destruct (om_deletionTimestamp (srv_meta srv')); [by destruct Hr|].
  destruct Hr as (x & t & E' & Hr). pose proof (f_equal tl E') as Ht. cbn in Ht. subst t.
  apply (f_equal (fun tr => match tr with Ev (CGet _ _ _ _) (Err e') :: _ => Some e' | _ => None end)) in E'. destruct x as [|e']; [done|].
  injection E' as <-. cbn in Hr. rewrite He in Hr. by destruct Hr as [-> [= -> ->]].
Qed.

End complete.

(** ** A concrete runtime *)

Definition modelRuntime : ControllerRuntime := {|
  GenerationChangedPredicate c := match c with Updated old new => om_generation old != om_generation new | _ => true end;
  AnnotationChangedPredicate c := match c with Updated old new => view (om_annotations old) != view (om_annotations new) | _ => true end;
  LabelChangedPredicate c := match c with Updated old new => view (om_labels old) != view (om_labels new) | _ => true end;
  ResourceVersionChangedPredicate c := match c with Updated old new => om_resourceVersion old != om_resourceVersion new | _ => true end;
  enqueueOwner c := concat (map (fun o =>
    match GetControllerOf o with
    | Some ref =>
        if (or_apiVersion ref == GroupVersion_Group +:+ "/" +:+ GroupVersion_Version) && (or_kind ref == MCPServerKind)
        then [(om_namespace o, or_name ref)] else []
    | None => []
    end) (objects c))
|}.

Lemma modelRuntime_laws : ControllerRuntimeLaws modelRuntime.
Proof.
  split.
  - intros [|old new|] H; cbn; [done| |done]. by rewrite bool_decide_false.
  - intros [|old new|] H; cbn; [done| |done]. by rewrite bool_decide_false.
  - intros c o name Ho (ref & Hr & Ha & Hk & <-). cbn. apply in_concat. eexists. split; [apply in_map, Ho|].
    cbn beta. rewrite Hr, Ha, Hk, !bool_decide_true by done. by left.
Qed.

Definition workingManager : Manager := {| IndexField _ := None; Complete := None |}.

(** The ConfigMap that the gateway server names, in a new version: the map function runs on
    both states. *)
Definition gwConfig (version : string) : ObjectMeta :=
  {| om_name := "gw"; om_namespace := "ns"; om_uid := "cm-uid"; om_resourceVersion := version; om_generation := 0;
     om_deletionTimestamp := None; om_labels := None; om_annotations := None; om_ownerReferences := [] |}.
Definition gwConfigChanged : Event := ObjectEvent KConfigMap (Updated (gwConfig "1") (gwConfig "2")).

Lemma dependency_changes_delivered_witness :
  @enqueued modelRuntime (@registration modelRuntime) [gatewayServer] gwConfigChanged = [("ns", "srv"); ("ns", "srv")] /\
  Forall (fun hc => @delivered modelRuntime (@registration modelRuntime) ("ns", "srv") (fst hc) (snd hc)) (in_context [] (fst (liveRun gatewayServer))).
Proof.
  split; [vm_compute; reflexivity|].
  exact (@dependency_changes_delivered modelVendor modelVendor_laws modelRuntime modelRuntime_laws workingManager sampleReconciler ("ns", "srv")
    emptyState _ _ (run_in_runs (liveWorld gatewayServer) (@Reconcile modelVendor sampleReconciler ("ns", "srv")) emptyState)).
Defined.
