(* ===== verification/Memory.v ===== *)
(** * The reconciler's in-memory state

    The two maps [tlsCABundleHashes] and [handshakeRetries] across a reconcile: which
    entries may change, and what a recorded CA bundle hash stands for. *)

From Stdlib Require Import Ascii.
From S2P Require Import Prelude K8s ApiAlpha ApiBeta StatusAC Interact Conditions AuditLog Ownership GoJSON Metadata Service.
From S2P Require Import Gateway NetworkPolicy Validation ConfigHash Deployment Sha256 Handshake Byo Reconcile Lifecycle.

(** ** Handlers that leave the state alone *)

Definition stateless {A} (m : M A) : Prop := forall s, mwp m s (fun _ _ s' => s' = s).

Lemma stateless_ret {A} (a : A) : stateless (mret a : M A).
Proof. intros s. by apply mwp_ret. Qed.
Lemma stateless_call c : stateless (call c).
Proof. intros s. by apply mwp_call. Qed.
Lemma stateless_get : stateless get_state.
Proof. intros s. by apply mwp_get. Qed.
Lemma stateless_bind {A B} (m : M A) (f : A -> M B) : stateless m -> (forall a, stateless (f a)) -> stateless (m ≫= f).
Proof. intros Hm Hf s. apply mwp_bind. eapply mwp_mono; [apply Hm|]. intros tr a s' ->. apply Hf. Qed.
Lemma stateless_silent {A} (m : M A) : silent m -> stateless m.
Proof. by intros []. Qed.

Create HintDb stateless discriminated.
#[export] Hint Resolve stateless_ret stateless_call stateless_get : stateless.

Ltac stateless_step :=
  match goal with
  | |- stateless (mbind _ _) => apply stateless_bind; [|intros ?]
  | |- stateless (mret _) => apply stateless_ret
  | |- stateless (call _) => apply stateless_call
  | |- stateless (out _) => apply stateless_call
  | |- stateless (match ?x with _ => _ end) => destruct x
  | |- stateless (let '(_, _) := ?x in _) => destruct x
  end.
Ltac stateless_tac := intros; repeat first [solve [eauto with stateless] | stateless_step].

Section stateless.
Context `{V : Vendor}.
Context (r : MCPServerReconciler) (srv : MCPServer).

Lemma stateless_newCondition t st rs ms g : stateless (newCondition t st rs ms g).
Proof. unfold newCondition. stateless_tac. Qed.
Lemma stateless_newAvailable st rs ms g ex : stateless (newAvailableCondition st rs ms g ex).
Proof. unfold newAvailableCondition. apply stateless_bind; [apply stateless_newCondition|stateless_tac]. Qed.
Lemma stateless_notVerified g ex : stateless (newNotVerifiedCondition g ex).
Proof. unfold newNotVerifiedCondition. apply stateless_bind; [apply stateless_newCondition|stateless_tac]. Qed.
Lemma stateless_policyEnforced g ex : stateless (policyEnforcedCondition r g ex).
Proof.
  unfold policyEnforcedCondition. destruct (policyEnforced r) as [[? ?] ?].
  apply stateless_bind; [apply stateless_newCondition|stateless_tac].
Qed.
Lemma stateless_Eventf t rs a n : stateless (Eventf r t rs a n).
Proof. unfold Eventf. stateless_tac. Qed.
Lemma stateless_audit op fields : stateless (audit srv op fields).
Proof. apply stateless_call. Qed.
Lemma stateless_recordCondition c : stateless (recordCondition srv c).
Proof. apply stateless_call. Qed.
Lemma stateless_validateOwnership k o : stateless (validateOwnership r k o srv).
Proof. unfold validateOwnership, auditOwnershipViolation, audit. stateless_tac. Qed.
Lemma stateless_conditionFor t st rs ms : stateless (conditionFor srv t st rs ms).
Proof. unfold conditionFor. apply stateless_bind; [apply stateless_newCondition|stateless_tac]. Qed.
End stateless.

#[export] Hint Resolve stateless_newCondition stateless_newAvailable stateless_notVerified stateless_policyEnforced stateless_Eventf
  stateless_audit stateless_recordCondition stateless_validateOwnership stateless_conditionFor : stateless.

Section stateless_handlers.
Context `{V : Vendor}.
Context (r : MCPServerReconciler) (srv : MCPServer).

Lemma stateless_cleanupGatewayBinding : stateless (cleanupGatewayBindingIfRemoved r srv).
Proof. unfold cleanupGatewayBindingIfRemoved. stateless_tac. Qed.
Lemma stateless_reconcileGatewayBinding : stateless (reconcileGatewayBinding r srv).
Proof. unfold reconcileGatewayBinding. stateless_tac. Qed.
Lemma stateless_gatewayOverride avail url : stateless (gatewayOverride srv avail url).
Proof. unfold gatewayOverride, reconcileGatewayCondition, applyGatewayStatus. stateless_tac. Qed.

Lemma stateless_configHash : stateless (computeConfigHash srv).
Proof. intros s. apply computeConfigHash_state. Qed.

Lemma stateless_reconcileDeployment : stateless (reconcileDeployment r srv).
Proof.
  unfold reconcileDeployment. stateless_tac. unfold applyConfigHash.
  apply stateless_bind; [apply stateless_configHash|stateless_tac].
Qed.

Lemma stateless_reconcileServiceOrBYO sel : stateless (reconcileServiceOrBYO r srv sel).
Proof.
  unfold reconcileServiceOrBYO, ResolveServiceEndpoint, resolveServicePort, cleanupManagedServiceForBYO, reconcileService, observePhase.
  stateless_tac.
Qed.

Lemma stateless_ensureNetworkPolicy : stateless (ensureNetworkPolicy r srv).
Proof.
  unfold ensureNetworkPolicy, gatewayIngressPeers, resolveGatewaySourceNamespace, auditNetworkPolicyCreated, auditNetworkPolicyUpdated.
  stateless_tac.
Qed.

Lemma stateless_eachM {A} (f : A -> Z -> M (option error)) l i : (forall x j, stateless (f x j)) -> stateless (eachM f l i).
Proof.
  intros Hf. revert i. induction l as [|x l IH]; intros i; cbn [eachM]; [apply stateless_ret|].
  apply stateless_bind; [apply Hf|]. intros [e|]; [apply stateless_ret|apply IH].
Qed.

Lemma stateless_validate : stateless (validateConfigAndResolveWorkload srv).
Proof.
  unfold validateConfigAndResolveWorkload, validateWorkloadRef, getWorkload, validateServiceRef, validateManaged, validateTLS,
    validateCABundleSecret, andThen.
  stateless_tac; apply stateless_eachM; intros;
    unfold validateStorageMount, validateEnvFrom, validateEnvValueFrom, validateReferencedConfigMap, validateReferencedSecret, andThen;
    stateless_tac.
Qed.

Lemma stateless_currentCABundleHash : stateless (currentCABundleHash srv).
Proof. unfold currentCABundleHash, computeTLSCABundleHash. stateless_tac. Qed.

Lemma stateless_reconcileHandshake url avail hash : stateless (reconcileHandshake r srv url avail hash).
Proof.
  unfold reconcileHandshake, attemptHandshake, handshakeTransport, buildTLSTransport, handshakeTotal, verifiedWith, emitInsecureTLSWarning,
    emitHandshakeAuthSkip, auditHandshakeAttempt, auditHandshakeSuccess, auditHandshakeFailed, auditHandshakeAuthSkip. stateless_tac.
Qed.

Lemma stateless_available d acc g ex : stateless (reconcileAvailableCondition d acc g ex).
Proof. intros s. eapply mwp_mono; [apply mwp_reconcileAvailableCondition|]. by intros tr c s' [-> _]. Qed.

Lemma stateless_observeWorkload w acc : stateless (observeWorkload srv w acc).
Proof.
  unfold observeWorkload, daemonSetAvailability, statefulSetAvailability, workloadProgressCondition, availableFor. stateless_tac.
  apply stateless_available.
Qed.

Lemma stateless_append conds fresh : stateless (appendPersistentConditions r srv conds fresh).
Proof. unfold appendPersistentConditions. stateless_tac. Qed.

Lemma stateless_handleDeploymentReconcileError acc err : stateless (handleDeploymentReconcileError r srv acc err).
Proof.
  unfold handleDeploymentReconcileError, notVerifiedFor, emitWorkloadUnavailable, reportFailure, applyStatus, incFailures.
  stateless_tac; apply stateless_append.
Qed.

Lemma stateless_handleResourceFailure base acc err params :
  (forall m s, silent (fp_emitEvent params m s)) -> stateless (handleResourceFailure r srv base acc err params).
Proof.
  intros He. unfold handleResourceFailure, notVerifiedFor, reportFailure, applyStatus, incFailures.
  stateless_tac; [apply stateless_silent, He|apply stateless_append].
Qed.

Lemma stateless_permanent reason message : stateless (reconcilePermanentValidationError r srv reason message).
Proof.
  unfold reconcilePermanentValidationError, notVerifiedFor, emitConfigurationInvalid, auditConfigurationRejected, applyStatus, incFailures.
  stateless_tac; apply stateless_append.
Qed.

End stateless_handlers.

(** ** What a reconcile does to the state *)

(** [h] is the hash of the CA bundle that this run read for [srv]. *)
Definition bundle_read (srv : MCPServer) (tr : list event) (h : string) : Prop :=
  exists name secret caPEM,
    caBundleName srv = Some name /\
    In (Ev (CGet Direct KSecret (om_namespace (srv_meta srv)) name) (Ok secret)) tr /\
    sec_data secret !! caBundleKey = Some caPEM /\ h = sha256.hex caPEM.

(** A status with an address was published. *)
Definition address_published (srv : MCPServer) (tr : list event) : Prop :=
  exists st, In (Ev (CApplyStatus (om_namespace (srv_meta srv)) (om_name (srv_meta srv)) st) None) tr /\ sac_address st <> None.

Definition same_elsewhere (key : string) (s s' : RState) : Prop :=
  forall k, k <> key -> tlsCABundleHashes s' !! k = tlsCABundleHashes s !! k /\ handshakeRetries s' !! k = handshakeRetries s !! k.

Definition remembers (srv : MCPServer) (s : RState) (tr : list event) (s' : RState) : Prop :=
  same_elsewhere (stateKey srv) s s' /\
  (forall h, tlsCABundleHashes s' !! stateKey srv = Some h ->
     tlsCABundleHashes s !! stateKey srv = Some h \/ (bundle_read srv tr h /\ address_published srv tr)).

Lemma remembers_refl srv s tr : remembers srv s tr s.
Proof. split; [done|auto]. Qed.

Lemma remembers_prefix srv s tr tr' s' : remembers srv s tr' s' -> remembers srv s (tr ++ tr') s'.
Proof.
  intros [H1 H2]. split; [done|]. intros h Hh. destruct (H2 h Hh) as [?|[(n & sec & pem & ? & Hin & ?) (st & Hst & ?)]]; [by left|right].
  split; [exists n, sec, pem|exists st]; rewrite in_app_iff; auto.
Qed.

Section memory.
Context `{V : Vendor}.
Context (r : MCPServerReconciler) (srv : MCPServer).

Definition keeps {A} (m : M A) : Prop := forall s, mwp m s (fun tr _ s' => remembers srv s tr s').

Lemma keeps_stateless {A} (m : M A) : stateless m -> keeps m.
Proof. intros H s. eapply mwp_mono; [apply H|]. intros tr a s' ->. apply remembers_refl. Qed.

Lemma keeps_bind {A B} (m : M A) (f : A -> M B) : stateless m -> (forall a, keeps (f a)) -> keeps (m ≫= f).
Proof.
  intros Hm Hf s. apply mwp_bind. eapply mwp_mono; [apply Hm|]. intros tr a s' ->. eapply mwp_mono; [apply Hf|].
  intros tr' b s'' H. by apply remembers_prefix.
Qed.

(** Stepping over a stateless prefix in a walk with an explicit trace. *)
Lemma mwp_skip {A B} (m : M A) (f : A -> M B) s (Q : list event -> B -> RState -> Prop) :
  stateless m -> (forall tr a, mwp (f a) s (fun tr' b s' => Q (tr ++ tr') b s')) -> mwp (m ≫= f) s Q.
Proof. intros Hm Hf. apply mwp_bind. eapply mwp_mono; [apply Hm|]. intros tr a s' ->. apply Hf. Qed.

Lemma mwp_currentCABundleHash s (Q : list event -> string -> RState -> Prop) :
  (forall tr h, h = "" \/ bundle_read srv tr h -> Q tr h s) -> mwp (currentCABundleHash srv) s Q.
Proof.
  intros HQ. unfold currentCABundleHash.
  destruct (spec_transport (srv_spec srv)) as [[[tls|]]|] eqn:Et; [|apply mwp_ret, HQ; by left..].
  unfold computeTLSCABundleHash. destruct (tls_caBundleSecret tls) as [ref|] eqn:Ec; [|apply mwp_ret, HQ; by left].
  destruct (_ || _); [apply mwp_ret, HQ; by left|]. apply mwp_bind, mwp_call. intros [secret|e]; [|apply mwp_ret, HQ; by left].
  destruct (sec_data secret !! _) as [pem|] eqn:Ep; [|apply mwp_ret, HQ; by left]. apply mwp_ret, HQ. right.
  exists (secref_name ref), secret, pem. split_and!; [|by left|done|done].
  unfold caBundleName. rewrite Et. destruct tls. cbn in Ec. by subst.
Qed.

Lemma mwp_retryCount_frame c s (Q : list event -> Z * Condition -> RState -> Prop) :
  (forall tr x s', tlsCABundleHashes s' = tlsCABundleHashes s -> c_status (snd x) = c_status c ->
     (forall k, k <> stateKey srv -> handshakeRetries s' !! k = handshakeRetries s !! k) -> Q tr x s') ->
  mwp (reconcileHandshakeEventsAndRetryCount r srv c) s Q.
Proof.
  intros HQ. unfold reconcileHandshakeEventsAndRetryCount. apply mwp_bind, mwp_get.
  destruct (_ != _).
  { apply mwp_bind, mwp_put. apply mwp_ret, HQ; [done|done|]. intros k Hk. cbn. by rewrite lookup_delete_ne. }
  apply mwp_bind, mwp_put.
  apply mwp_skip; [apply stateless_silent, silent_if; [apply silent_ret|apply silent_Eventf]|]. intros tr1 _.
  apply mwp_skip; [apply stateless_silent, silent_if; [apply silent_Eventf|apply silent_ret]|]. intros tr2 _.
  apply mwp_ret, HQ; [done|by destruct (_ <=? _)|]. intros k Hk. cbn. by rewrite lookup_insert_ne.
Qed.

Lemma mwp_finishEndpoint hash diff ver n gwErr s (Q : list event -> Result * option error -> RState -> Prop) :
  (forall tr x s', handshakeRetries s' = handshakeRetries s ->
     (forall k, k <> stateKey srv -> tlsCABundleHashes s' !! k = tlsCABundleHashes s !! k) ->
     (forall h, tlsCABundleHashes s' !! stateKey srv = Some h ->
        tlsCABundleHashes s !! stateKey srv = Some h \/ (h = hash /\ hash <> "" /\ c_status ver = ConditionTrue)) -> Q tr x s') ->
  mwp (finishEndpoint r srv hash diff ver n gwErr) s Q.
Proof.
  intros HQ. unfold finishEndpoint. apply mwp_bind.
  assert (Hrest : forall s', handshakeRetries s' = handshakeRetries s ->
     (forall k, k <> stateKey srv -> tlsCABundleHashes s' !! k = tlsCABundleHashes s !! k) ->
     (forall h, tlsCABundleHashes s' !! stateKey srv = Some h ->
        tlsCABundleHashes s !! stateKey srv = Some h \/ (h = hash /\ hash <> "" /\ c_status ver = ConditionTrue)) ->
     forall tr0, mwp ((if diff != "" then out (OMetric (CounterInc "capability_changes_total" (metricLabels srv))) ;;
        emitCapabilityChangeDetected r srv diff ;; auditCapabilityChange srv diff else mret tt) ;;
       requeue ← handshakeRequeue srv ver n; match requeue with Some res => mret (res, None) | None => mret (noRequeue, gwErr) end) s'
       (fun tr x s'' => Q (tr0 ++ tr) x s'')).
  { intros s' H1 H2 H3 tr0. apply mwp_skip.
    { unfold emitCapabilityChangeDetected, auditCapabilityChange. stateless_tac. }
    intros tr1 _. apply mwp_skip; [unfold handshakeRequeue, auditHandshakeRetriesExhausted; stateless_tac|].
    intros tr2 [res|]; by apply mwp_ret, HQ. }
  unfold updateTLSCABundleHash. apply mwp_bind, mwp_get.
  destruct (hash == "") eqn:Eh; [|apply bool_decide_eq_false in Eh].
  - apply mwp_put. refine (Hrest _ _ _ _ _); [done|intros k Hk; cbn; by rewrite lookup_delete_ne|]. intros h. cbn. by rewrite lookup_delete_eq.
  - destruct (c_status ver == ConditionTrue) eqn:Ev; [apply bool_decide_eq_true in Ev|apply mwp_ret, (Hrest s); auto].
    apply mwp_put. refine (Hrest _ _ _ _ _); [done|intros k Hk; cbn; by rewrite lookup_insert_ne|]. intros h. cbn. rewrite lookup_insert_eq.
    intros [= <-]. right. auto.
Qed.

Lemma endpoint_address base gw acc avail ver np pe url info :
  c_status ver = ConditionTrue -> sac_address (endpointStatus base gw acc avail ver np pe url info) <> None.
Proof.
  intros Hv. unfold endpointStatus, withAddressWhenVerified. rewrite bool_decide_eq_true_2 by done. by destruct info.
Qed.

Lemma keeps_reconcileEndpoint acc avail base ep np : keeps (reconcileEndpoint r srv acc avail base ep np).
Proof.
  unfold reconcileEndpoint. apply keeps_bind; [apply stateless_reconcileGatewayBinding|]. intros gwErr.
  apply keeps_bind; [apply stateless_call|]. intros _.
  destruct gwErr as [e|]; [apply keeps_stateless, stateless_handleResourceFailure; intros; apply silent_Eventf|].
  intros s. apply mwp_bind, mwp_currentCABundleHash. intros tr1 hash Hhash.
  apply mwp_skip; [apply stateless_reconcileHandshake|]. intros tr2 [ver info]. cbn [fst snd].
  apply mwp_skip; [apply stateless_call|]. intros tr3 _.
  apply mwp_bind, mwp_retryCount_frame. intros tr4 [n ver'] s1 Hh1 Hv Hr1. cbn [fst snd] in *.
  apply mwp_skip; [apply stateless_gatewayOverride|]. intros tr5 gw.
  apply mwp_skip; [apply stateless_silent, silent_if; [apply silent_Eventf|apply silent_ret]|]. intros tr6 _.
  apply mwp_skip; [apply stateless_policyEnforced|]. intros tr7 pe.
  assert (Hsame : forall tr, remembers srv s tr s1).
  { intros tr. split; [intros k Hk; by rewrite Hh1, Hr1|]. rewrite Hh1. auto. }
  apply mwp_bind, mwp_call. intros [e|]; [apply mwp_ret, Hsame|].
  apply mwp_finishEndpoint. intros tr8 x s2 Hr2 Hk2 Hh2. split.
  - intros k Hk. by rewrite Hk2, Hr2, Hh1, Hr1.
  - intros h Hh. destruct (Hh2 h Hh) as [H|(-> & Hne & Hver)]; [left; by rewrite <- Hh1|right].
    destruct Hhash as [->|(nm & sec & pem & ? & Hin & ?)]; [done|]. split.
    + exists nm, sec, pem. rewrite !in_app_iff. auto.
    + eexists. rewrite !in_app_iff. split; [do 7 right; left; left; reflexivity|]. by apply endpoint_address.
Qed.

Lemma keeps_reconcileLive : keeps (reconcileLive r srv).
Proof.
  unfold reconcileLive. apply keeps_bind; [apply stateless_cleanupGatewayBinding|]. intros _.
  apply keeps_bind; [apply stateless_validate|]. intros validated.
  apply keeps_bind; [apply stateless_call|]. intros _.
  destruct validated as [w|e].
  2:{ apply keeps_stateless. destruct (asValidationError e) as [[reason message]|]; [|apply stateless_ret].
      apply stateless_bind; [apply stateless_permanent|stateless_tac]. }
  apply keeps_bind; [apply stateless_conditionFor|]. intros acc.
  apply keeps_bind; [apply stateless_call|]. intros _.
  apply keeps_bind; [apply stateless_silent, silent_if; [apply silent_Eventf|apply silent_ret]|]. intros _.
  destruct (spec_workloadRef (srv_spec srv)).
  - unfold reconcileBYO. apply keeps_bind; [apply stateless_observeWorkload|]. intros [o|e]; [|apply keeps_stateless, stateless_ret].
    apply keeps_bind; [apply stateless_call|]. intros _.
    apply keeps_bind; [apply stateless_silent, silent_maybeEmit|]. intros _.
    apply keeps_bind; [apply stateless_reconcileServiceOrBYO|]. intros [ep [e|]]; cbn [fst snd]; [|apply keeps_reconcileEndpoint].
    apply keeps_stateless, stateless_handleResourceFailure. intros; apply silent_Eventf.
  - unfold reconcileManaged. apply keeps_bind; [apply stateless_reconcileDeployment|]. intros dep.
    apply keeps_bind; [apply stateless_call|]. intros _.
    destruct dep as [d|e]; [|apply keeps_stateless, stateless_handleDeploymentReconcileError].
    apply keeps_bind; [apply stateless_reconcileServiceOrBYO|]. intros [ep [e|]]; cbn [fst snd].
    { apply keeps_stateless, stateless_handleResourceFailure. intros; apply silent_Eventf. }
    apply keeps_bind; [apply stateless_ensureNetworkPolicy|]. intros np. apply keeps_bind; [apply stateless_call|]. intros _.
    destruct np as [np|e]; [|apply keeps_stateless, stateless_handleResourceFailure; intros; apply silent_Eventf].
    apply keeps_bind; [unfold networkPolicyPostureConditionFor; stateless_tac|]. intros po.
    apply keeps_bind; [apply stateless_call|]. intros _. apply keeps_bind; [apply stateless_available|]. intros avail.
    apply keeps_bind; [apply stateless_call|]. intros _. apply keeps_bind; [apply stateless_silent, silent_maybeEmit|]. intros _.
    apply keeps_reconcileEndpoint.
Qed.

End memory.

(** ** Theorems *)

Section theorems.
Context `{V : Vendor} {L : VendorLaws V}.

Definition slash : ascii := "/"%char.
Definition keyOf (req : Request) : string := fst req +:+ "/" +:+ snd req.

(** The API server answers a read with the object of that namespace and name. *)
Definition answers_by_name (req : Request) (tr : list event) : Prop :=
  forall srv, In (Ev (CGet Cached KMCPServer (fst req) (snd req)) (Ok srv)) tr ->
    om_namespace (srv_meta srv) = fst req /\ om_name (srv_meta srv) = snd req.

(** Either the server is gone and forgotten, or nothing changed, or it was reconciled. *)
Lemma mwp_Reconcile_state r req s :
  mwp (Reconcile r req) s (fun tr _ s' =>
    (exists e, In (Ev (CGet Cached KMCPServer (fst req) (snd req)) (Err e)) tr /\ IsNotFound e = true /\
       s' = {| tlsCABundleHashes := delete (keyOf req) (tlsCABundleHashes s); handshakeRetries := delete (keyOf req) (handshakeRetries s) |}) \/
    s' = s \/
    (exists srv, In (Ev (CGet Cached KMCPServer (fst req) (snd req)) (Ok srv)) tr /\ remembers srv s tr s')).
Proof.
  destruct req as [ns name]. unfold Reconcile. apply mwp_bind, mwp_call. intros [srv|e]; cbn [fst snd].
  - apply mwp_skip; [unfold shouldSkipReconciliation; stateless_tac|]. intros tr [[] [e|]]; [by apply mwp_ret; auto..|].
    eapply mwp_mono; [apply keeps_reconcileLive|]. intros tr' x s' H.
    right. right. exists srv. split; [by left|]. rewrite app_assoc. by apply remembers_prefix.
  - destruct (IsNotFound e) eqn:Ee; [|by apply mwp_ret; auto].
    apply mwp_bind, mwp_get, mwp_bind, mwp_put. apply mwp_bind, mwp_call. intros []. apply mwp_ret. left. exists e.
    split; [by left|]. by split.
Qed.

Lemma keyOf_inj a b : lacks slash (fst a) = true -> lacks slash (fst b) = true -> keyOf a = keyOf b -> a = b.
Proof.
  destruct a as [ns n], b as [ns' n']. unfold keyOf. cbn. intros H1 H2 H. apply cut_first in H as [-> ->]; done.
Qed.

(** A server that is gone is forgotten. *)
Lemma mwp_Reconcile_gone r req s :
  mwp (Reconcile r req) s (fun tr _ s' => forall e tr', tr = Ev (CGet Cached KMCPServer (fst req) (snd req)) (Err e) :: tr' ->
    IsNotFound e = true -> tlsCABundleHashes s' !! keyOf req = None /\ handshakeRetries s' !! keyOf req = None).
Proof.
  destruct req as [ns n]. unfold Reconcile. apply mwp_bind, mwp_call. intros [srv|err].
  - apply wp_runs. intros tr [a s'] _ e tr' H _. exfalso.
    apply (f_equal (fun l => match l with x :: _ => read_of KMCPServer x | [] => None end)) in H. cbn in H. done.
  - destruct (IsNotFound err) eqn:E.
    + apply mwp_bind, mwp_get. apply mwp_bind, mwp_put. apply mwp_bind, mwp_call. intros []. apply mwp_ret.
      intros _ _ _ _. unfold keyOf. cbn. by rewrite !lookup_delete_eq.
    + apply mwp_ret. intros e tr' H He. exfalso.
      assert (err = e) as ->; [|congruence].
      apply (f_equal (fun l => match l with x :: _ => read_error x | [] => None end)) in H. cbn in H. by injection H.
Qed.

(** C16: Isolation: a reconcile changes the in-memory entries of its own MCPServer only,
    so that reconciles of different servers do not disturb each other's retry counts
    and CA bundle hashes; and a server that is gone is forgotten. *)
Theorem reconcile_memory_local r req other s tr res s' :
  runs (Reconcile r req s) tr (res, s') -> answers_by_name req tr ->
  lacks slash (fst req) = true -> lacks slash (fst other) = true -> other <> req ->
  tlsCABundleHashes s' !! keyOf other = tlsCABundleHashes s !! keyOf other /\
  handshakeRetries s' !! keyOf other = handshakeRetries s !! keyOf other /\
  (forall e tr', tr = Ev (CGet Cached KMCPServer (fst req) (snd req)) (Err e) :: tr' -> IsNotFound e = true ->
     tlsCABundleHashes s' !! keyOf req = None /\ handshakeRetries s' !! keyOf req = None).
Proof.
  intros Hr Hn H1 H2 Hne. pose proof (mwp_runs _ _ _ (mwp_Reconcile_gone r req s) tr res s' Hr) as Hgone. assert (Hk : keyOf other <> keyOf req) by (intros E; apply keyOf_inj in E; congruence).
  destruct (mwp_runs _ _ _ (mwp_Reconcile_state r req s) tr res s' Hr) as [(e & _ & _ & ->)|[->|(srv & Hin & [Hs _])]]; [|by split_and!|].
  - cbn in *. rewrite !lookup_delete_ne by done. by split_and!.
  - destruct (Hn srv Hin) as [Ens En]. unfold stateKey in Hs. rewrite Ens, En in Hs. destruct (Hs _ Hk) as [-> ->]. by split_and!.
Qed.

Lemma in_in_context c a tr h : In (Ev c a) tr -> exists h', In (h', c) (in_context h tr).
Proof.
  revert h. induction tr as [|[c' a'] tr IH]; intros h; [done|]. intros [H|H].
  - injection H as -> _. exists h. by left.
  - destruct (IH (Ev c' a' :: h) H) as [h' Hh]. exists h'. by right.
Qed.

(** C17: What a recorded CA bundle hash means: if after a reconcile a hash is recorded for
    the server that was not there before, it is the hash of the CA bundle this very
    reconcile read, and a status with Verified=True was published successfully. So the
    shortcut that skips the handshake while the recorded hash is current never relies
    on a bundle that no handshake succeeded with. *)
Theorem ca_hash_recorded_when_verified r req s tr res s' h :
  runs (Reconcile r req s) tr (res, s') -> answers_by_name req tr ->
  tlsCABundleHashes s' !! keyOf req = Some h -> tlsCABundleHashes s !! keyOf req <> Some h ->
  exists srv st, In (Ev (CGet Cached KMCPServer (fst req) (snd req)) (Ok srv)) tr /\ bundle_read srv tr h /\
    In (Ev (CApplyStatus (fst req) (snd req) st) None) tr /\ published_status st ConditionTypeVerified = Some ConditionTrue.
Proof.
  intros Hr Hn Hh Hnew.
  destruct (mwp_runs _ _ _ (mwp_Reconcile_state r req s) tr res s' Hr) as [(e & _ & _ & ->)|[->|(srv & Hin & [_ Hs])]]; [|done|].
  - cbn in Hh. by rewrite lookup_delete_eq in Hh.
  - destruct (Hn srv Hin) as [Ens En]. unfold stateKey in Hs. rewrite Ens, En in Hs.
    destruct (Hs h Hh) as [?|[Hb (st & Hst & Haddr)]]; [done|]. exists srv, st. rewrite Ens, En in Hst. split_and!; [done..|].
    pose proof (reconcile_in_context r req s tr (res, s') Hr) as Hd. rewrite Forall_forall in Hd.
    destruct (in_in_context _ _ _ [] Hst) as [h' Hc]. apply list_elem_of_In in Hc.
    destruct (Hd _ Hc) as [Hf|(srv' & _ & _ & _ & _ & Hp)]; [done|].
    destruct Hp as (_ & _ & _ & _ & _ & _ & acc & avail & ver & _ & _ & -> & _ & Hv). by rewrite Hv.
Qed.

End theorems.

(** ** Concrete runs *)

Definition named_answers (req : Request) (e : event) : bool :=
  match read_of KMCPServer e with
  | Some srv => (om_namespace (srv_meta srv) == fst req) && (om_name (srv_meta srv) == snd req)
  | None => true
  end.

Lemma answers_by_name_check req tr : forallb (named_answers req) tr = true -> answers_by_name req tr.
Proof.
  intros H srv Hin. rewrite forallb_forall in H. specialize (H _ Hin). unfold named_answers in H.
  change (read_of KMCPServer (Ev (CGet Cached KMCPServer (fst req) (snd req)) (Ok srv))) with (Some srv) in H.
  apply andb_true_iff in H as [H1 H2]. apply bool_decide_eq_true in H1, H2. by split.
Qed.

(** A server whose endpoint is reached over TLS with a CA bundle of its own. *)
Definition caServer : MCPServer :=
  serverWith {| spec_extraLabels := None; spec_extraAnnotations := None; spec_workloadRef := None; spec_serviceRef := None;
    spec_source := spec_source sampleSpec; spec_config := spec_config sampleSpec; spec_runtime := zeroRuntime;
    spec_mcp := {| mcp_stateless := None |}; spec_network := None;
    spec_transport := Some {| tr_tls := Some {| tls_enabled := true; tls_caBundleSecret := Some {| secref_name := "ca" |};
                                                tls_insecureSkipVerify := false |} |};
    spec_gateway := None |}.

Definition caWorld : World :=
  {| w_get := fun rd k ns n => match k return result (obj k) with
                               | KSecret => Ok {| sec_meta := newMeta n ns None; sec_data := {[ "ca.crt" := "PEM" ]} |}
                               | k => w_get (liveWorld caServer) rd k ns n
                               end;
     w_write := None; w_pods := []; w_servers := []; w_list := fun _ _ => []; w_status := None; w_dial := w_dial (liveWorld caServer); w_now := 5 |}.

Definition caRun : list event * ((Result * option error) * RState) :=
  run_in caWorld (@Reconcile modelVendor sampleReconciler ("ns", "srv")) emptyState.

Lemma ca_hash_recorded_when_verified_witness :
  tlsCABundleHashes (snd (snd caRun)) !! "ns/srv" = Some (sha256.hex "PEM") /\
  exists srv st, In (Ev (CGet Cached KMCPServer "ns" "srv") (Ok srv)) (fst caRun) /\ bundle_read srv (fst caRun) (sha256.hex "PEM") /\
    In (Ev (CApplyStatus "ns" "srv" st) None) (fst caRun) /\ published_status st ConditionTypeVerified = Some ConditionTrue.
Proof.
  assert (Hh : tlsCABundleHashes (snd (snd caRun)) !! "ns/srv" = Some (sha256.hex "PEM")) by (vm_compute; reflexivity).
  split; [exact Hh|].
  assert (Hn : answers_by_name ("ns", "srv") (fst caRun)) by (apply answers_by_name_check; vm_compute; reflexivity).
  pose proof (run_in_runs caWorld (@Reconcile modelVendor sampleReconciler ("ns", "srv")) emptyState) as Hr. fold caRun in Hr.
  destruct (snd caRun) as [res s'].
  refine (@ca_hash_recorded_when_verified modelVendor modelVendor_laws sampleReconciler ("ns", "srv") emptyState _ res s' _ Hr Hn Hh _).
  vm_compute. discriminate.
Defined.

Definition busyState : RState :=
  {| tlsCABundleHashes := {[ "ns/other" := "abc" ]}; handshakeRetries := {[ "ns/other" := {| hr_generation := 1; hr_count := 3 |} ]} |}.

Definition busyRun : list event * ((Result * option error) * RState) :=
  run_in (liveWorld sampleServer) (@Reconcile modelVendor sampleReconciler ("ns", "srv")) busyState.

Lemma reconcile_memory_local_witness :
  tlsCABundleHashes (snd (snd busyRun)) !! "ns/other" = Some "abc" /\
  handshakeRetries (snd (snd busyRun)) !! "ns/other" = Some {| hr_generation := 1; hr_count := 3 |}.
Proof.
  assert (Hn : answers_by_name ("ns", "srv") (fst busyRun)) by (apply answers_by_name_check; vm_compute; reflexivity).
  pose proof (run_in_runs (liveWorld sampleServer) (@Reconcile modelVendor sampleReconciler ("ns", "srv")) busyState) as Hr.
  fold busyRun in Hr. destruct (snd busyRun) as [res s'].
  destruct (@reconcile_memory_local modelVendor sampleReconciler ("ns", "srv") ("ns", "other") busyState _ res s' Hr Hn) as (H1 & H2 & _).
  - reflexivity.
  - reflexivity.
  - discriminate.
  - split; [exact H1|exact H2].
Defined.
