(* ===== verification/Promise.v ===== *)
(** * What a published Verified=True rests on

    A specification of a whole pass, against which [Reconcile] is proved: before the
    status says Verified=True, the pass has the workload in place and saw it serve, has the
    Service, the NetworkPolicy and the gateway binding in place, and the endpoint of that
    very Service answered over the transport the spec asks for, or had answered for this
    generation with this CA bundle. *)

From S2P Require Import Prelude K8s ApiAlpha ApiBeta StatusAC Interact Conditions AuditLog Ownership Metadata Service.
From S2P Require Import Gateway NetworkPolicy Validation ConfigHash Deployment Handshake Byo Reconcile Lifecycle Memory.

(** ** Facts about the events so far

    A fact is stable when more events do not invalidate it. *)

Class Stable (F : list event -> Prop) : Prop := stable : forall h h', incl h h' -> F h -> F h'.

#[export] Instance stable_const (P : Prop) : Stable (fun _ => P).
Proof. by intros h h' _. Qed.
#[export] Instance stable_in e : Stable (fun h => In e h).
Proof. intros h h' Hi H. by apply Hi. Qed.
#[export] Instance stable_and F G : Stable F -> Stable G -> Stable (fun h => F h /\ G h).
Proof. intros HF HG h h' Hi [H1 H2]. split; [by eapply HF|by eapply HG]. Qed.
#[export] Instance stable_or F G : Stable F -> Stable G -> Stable (fun h => F h \/ G h).
Proof. intros HF HG h h' Hi [H|H]; [left; by eapply HF|right; by eapply HG]. Qed.
#[export] Instance stable_exists {A} (F : A -> list event -> Prop) : (forall a, Stable (F a)) -> Stable (fun h => exists a, F a h).
Proof. intros HF h h' Hi [a H]. exists a. by eapply HF. Qed.

Ltac stable_step :=
  first
    [ apply stable_const | apply stable_in | apply stable_and | apply stable_or | apply stable_exists; intros ?
    | typeclasses eauto ].
Ltac stable_tac := repeat case_match; repeat stable_step.

(** An event is among those of a concrete trace. *)
Ltac pick := first [reflexivity | left; pick | right; pick].
Ltac seen := rewrite ?in_app_iff; cbn; repeat split; pick.

(** ** What a pass establishes *)

(** The Deployment a pass goes on with: as the API server stored it on creation, as read
    back after an update, or as read and found up to date. *)
Definition current_deployment (srv : MCPServer) (d : Deployment) (h : list event) : Prop :=
  (exists d0, In (Ev (CCreate KDeployment d0) (Ok d)) h) \/
  (exists d0 stored, In (Ev (CUpdate KDeployment d0) (Ok stored)) h /\
     In (Ev (CGet Cached KDeployment (om_namespace (dep_meta stored)) (om_name (dep_meta stored))) (Ok d)) h) \/
  In (Ev (CGet Cached KDeployment (om_namespace (srv_meta srv)) (om_name (srv_meta srv))) (Ok d)) h.

(** The NetworkPolicy with the spec's rules was written, or read and found up to date. *)
Definition policy_in_place (r : MCPServerReconciler) (srv : MCPServer) (h : list event) : Prop :=
  exists peers p, gateway_peers srv h peers /\ np_spec p = np_spec (createNetworkPolicy r srv (operatorIngressPeers r srv ++ peers)) /\
    controlled_by srv (np_meta p) /\
    ((exists a, In (Ev (CCreate KNetworkPolicy p) (Ok a)) h) \/ (exists a, In (Ev (CUpdate KNetworkPolicy p) (Ok a)) h) \/
     (exists m ns n, In (Ev (CGet Cached KNetworkPolicy ns n) (Ok (with_np_meta m p))) h /\ ownerUID m = om_uid (srv_meta srv))).

(** The referenced workload, as read from the API server itself. *)
Definition workload_read (srv : MCPServer) (ref : WorkloadReference) (w : workload) (h : list event) : Prop :=
  let read k := CGet Direct k (om_namespace (srv_meta srv)) (wr_name ref) in
  match w with
  | WDeployment d => In (Ev (read KDeployment) (Ok d)) h
  | WDaemonSet d => In (Ev (read KDaemonSet) (Ok d)) h
  | WStatefulSet d => In (Ev (read KStatefulSet) (Ok d)) h
  end.

(** A workload serves, whose pods [sel] selects. *)
Definition workload_serves (r : MCPServerReconciler) (srv : MCPServer) (sel : gomap) (h : list event) : Prop :=
  match spec_workloadRef (srv_spec srv) with
  | None =>
      sel = Some (managedWorkloadSelector (om_name (srv_meta srv))) /\ deployment_outcome r srv h /\ policy_in_place r srv h /\
      exists d, current_deployment srv d h /\ dep_replicas d <> Some 0 /\ serving d
  | Some ref =>
      exists w, workload_read srv ref w h /\ byo_serving w /\ sel = option_map ls_matchLabels (workloadSelector w)
  end.

(** The Service that leads to it on [port]: the operator's own, or the one the spec names. *)
Definition exposed (srv : MCPServer) (sel : gomap) (port : Z) (h : list event) : Prop :=
  match spec_serviceRef (srv_spec srv) with
  | None => service_outcome srv sel h /\ port = cfg_port (spec_config (srv_spec srv))
  | Some ref =>
      (spec_workloadRef (srv_spec srv) <> None /\ 0 < port /\ port = cfg_port (spec_config (srv_spec srv))) \/
      exists svc p, In (Ev (CGet Direct KService (om_namespace (srv_meta srv)) (sr_name ref)) (Ok svc)) h /\
        In p (svc_ports svc) /\ port = sp_port p
  end.

(** The gateway binding the spec asks for was written or found, or deleted to change its
    provider; without a gateway there is none. *)
Definition bound (srv : MCPServer) (h : list event) : Prop :=
  let name := gatewayBindingName (om_name (srv_meta srv)) in
  let read := CGet Cached KBinding (om_namespace (srv_meta srv)) name in
  let deleted := exists b, In (Ev (CDelete KBinding b None) None) h in
  match spec_gateway (srv_spec srv) with
  | None => deleted \/ exists e, IsNotFound e = true /\ In (Ev read (Err e)) h
  | Some gw =>
      let desired := mgb_spec (desiredBinding srv gw) in
      deleted \/ (exists b a, mgb_spec b = desired /\ In (Ev (CCreate KBinding b) (Ok a)) h) \/
      (exists b a, mgb_spec b = desired /\ In (Ev (CUpdate KBinding b) (Ok a)) h) \/
      (exists b, mgb_spec b = desired /\ In (Ev read (Ok b)) h)
  end.

(** The endpoint answered, or refused for lack of credentials, over a transport that fits
    the spec. *)
Definition dialled `{V : Vendor} (srv : MCPServer) (url : string) (h : list event) : Prop :=
  exists tp a, In (Ev (CDial url tp) a) h /\ transport_ok srv tp /\
    ((exists info, a = Ok info) \/ exists e, a = Err e /\ isHTTPAuthError e = true).

(** It had been verified for this generation, with the CA bundle of hash [hash]. *)
Definition still_verified (srv : MCPServer) (s : RState) (hash : string) : Prop :=
  exists c info, FindStatusCondition (st_conditions (srv_status srv)) ConditionTypeVerified = Some c /\
    c_status c = ConditionTrue /\ st_observedGeneration (srv_status srv) = om_generation (srv_meta srv) /\
    st_serverInfo (srv_status srv) = Some info /\ default "" (tlsCABundleHashes s !! stateKey srv) = hash.

Definition endpoint_answered `{V : Vendor} (srv : MCPServer) (s : RState) (url : string) (h : list event) : Prop :=
  dialled srv url h \/ exists hash, still_verified srv s hash /\ (hash = "" \/ bundle_read srv h hash).

(** Everything Verified=True rests on, for one Service endpoint. *)
Definition rests_on `{V : Vendor} (r : MCPServerReconciler) (srv : MCPServer) (s : RState) (h : list event) : Prop :=
  exists sel port, workload_serves r srv sel h /\ exposed srv sel port h /\ bound srv h /\
    endpoint_answered srv s (endpointURL srv {| ep_name := serviceNameFor srv; ep_port := port |}) h.

Definition verified_true (st : MCPServerStatusApplyConfiguration) : Prop :=
  published_status st ConditionTypeVerified = Some ConditionTrue.

(** ** The facts are stable *)

#[export] Instance current_deployment_stable srv d : Stable (current_deployment srv d).
Proof. unfold current_deployment. stable_tac. Qed.
#[export] Instance deployment_outcome_stable `{V : Vendor} r srv : Stable (deployment_outcome r srv).
Proof. unfold deployment_outcome. stable_tac. Qed.
#[export] Instance gateway_peers_stable srv peers : Stable (fun h => gateway_peers srv h peers).
Proof. intros h h' Hi. by apply gateway_peers_mono. Qed.
#[export] Instance policy_in_place_stable r srv : Stable (policy_in_place r srv).
Proof. unfold policy_in_place. stable_tac. Qed.
#[export] Instance workload_read_stable srv ref w : Stable (workload_read srv ref w).
Proof. unfold workload_read. destruct w; stable_tac. Qed.
#[export] Instance workload_serves_stable `{V : Vendor} r srv sel : Stable (workload_serves r srv sel).
Proof. unfold workload_serves. stable_tac. Qed.
#[export] Instance service_outcome_stable srv sel : Stable (service_outcome srv sel).
Proof. unfold service_outcome. stable_tac. Qed.
#[export] Instance exposed_stable srv sel port : Stable (exposed srv sel port).
Proof. unfold exposed. stable_tac. Qed.
#[export] Instance bound_stable srv : Stable (bound srv).
Proof. unfold bound. stable_tac. Qed.
#[export] Instance bundle_read_stable `{V : Vendor} srv hash : Stable (fun h => bundle_read srv h hash).
Proof. unfold bundle_read. stable_tac. Qed.
#[export] Instance dialled_stable `{V : Vendor} srv url : Stable (dialled srv url).
Proof. unfold dialled. stable_tac. Qed.
#[export] Instance endpoint_answered_stable `{V : Vendor} srv s url : Stable (endpoint_answered srv s url).
Proof. unfold endpoint_answered. stable_tac. Qed.

#[export] Instance rests_on_stable `{V : Vendor} r srv s : Stable (rests_on r srv s).
Proof. unfold rests_on. stable_tac. Qed.

(** ** What each handler establishes *)

Section establish.
Context `{V : Vendor} {L : VendorLaws V}.
Context (r : MCPServerReconciler) (srv : MCPServer).

Lemma reconcileDeployment_current s :
  mwp (reconcileDeployment r srv) s (fun tr res _ => match res with
    | Ok d => exists d', current_deployment srv d' tr /\ dep_replicas d' = dep_replicas d /\ (serving d -> serving d')
    | Err _ => True end).
Proof.
  unfold reconcileDeployment. destruct (createDeployment r srv) as [d0|] eqn:Ed; [|by apply mwp_ret].
  pose proof (createDeployment_namespace _ _ _ Ed) as [Hns Hnm].
  destruct (setController srv (dep_meta d0)) as [m|] eqn:Em; [|by apply mwp_ret].
  pose proof (setController_frame _ _ _ Em) as Hm.
  apply mwp_bind, applyConfigHash_keeps; [|intros; by apply mwp_ret]. intros tr1 d1 Hd1 _ _ _. cbn in Hd1.
  assert (Hkey : om_namespace (dep_meta d1) = om_namespace (srv_meta srv) /\ om_name (dep_meta d1) = om_name (srv_meta srv))
    by (rewrite Hd1, Hm; cbn; auto). destruct Hkey as [-> ->].
  apply mwp_bind, mwp_call. intros [ex|e].
  - apply mwp_bind, mwp_validateOwnership_simple; [|intros; by apply mwp_ret]. intros _.
    destruct (setController srv (dep_meta ex)) as [m1|] eqn:E1; [|by apply mwp_ret].
    destruct (deploymentNeedsUpdate _ _ _ _).
    + destruct (applyCustomDeploymentMetadata _ _) as [d2|]; [|by apply mwp_ret].
      apply mwp_bind, mwp_call. intros [stored|e]; [|by apply mwp_ret]. apply mwp_call. intros [d|e]; [|done].
      exists d. split; [|done]. right. left. exists d2, stored. seen.
    + apply mwp_ret. exists ex. split; [|split; [done|]].
      * right. right. seen.
      * unfold serving. cbn. by rewrite (setController_frame _ _ _ E1).
  - destruct (IsNotFound e); [|by apply mwp_ret].
    destruct (applyCustomDeploymentMetadata _ _) as [d2|]; [|by apply mwp_ret].
    apply mwp_call. intros [d|e']; [|done]. exists d. split; [|done]. left. exists d2. seen.
Qed.

Lemma ensureNetworkPolicy_in_place s :
  mwp (ensureNetworkPolicy r srv) s (fun tr res _ => match res with Ok _ => policy_in_place r srv tr | Err _ => True end).
Proof.
  unfold ensureNetworkPolicy. apply mwp_bind, mwp_gatewayIngressPeers; [|intros; by apply mwp_ret]. intros tr peers Hp.
  destruct (setController srv _) as [m|] eqn:Em; [|by apply mwp_ret].
  set (np := createNetworkPolicy _ _ _) in *.
  assert (Hpeers : forall tr', gateway_peers srv (tr ++ tr') peers)
    by (intros tr'; eapply gateway_peers_mono; [|exact Hp]; intros; apply in_or_app; by left).
  apply mwp_bind, mwp_call. intros [ex|e].
  - apply mwp_bind, mwp_validateOwnership_simple; [|intros; by apply mwp_ret]. intros _.
    destruct (setController srv (np_meta ex)) as [m1|] eqn:E1; [|by apply mwp_ret].
    pose proof (setController_uid _ _ _ E1) as (ref & Href & Huid).
    destruct (networkPolicyNeedsUpdate _ _ _ _) eqn:En.
    + destruct (applyCustomNetworkPolicyMetadata srv _) as [m3|] eqn:E3; [|by apply mwp_ret].
      apply mwp_bind, mwp_call. intros [stored|e]; [|by apply mwp_ret].
      apply mwp_then_silent; [apply silent_out|]. intros tr2 _ _. apply mwp_ret.
      exists peers, {| np_meta := m3; np_spec := np_spec np |}. split_and!; [apply Hpeers|done| |].
      * exists ref. split; [|done]. cbn.
        by rewrite (proj2 (proj2 (proj2 (proj2 (proj2 (applyCustom_meta _ _ _ E3)))))).
      * right. left. exists stored. seen.
    + apply mwp_ret. unfold networkPolicyNeedsUpdate in En. rewrite !orb_false_iff in En. destruct En as [[[Hs _] _] Ho].
      bool_to_prop. unfold ownershipChanged in Ho. rewrite Href in Ho. bool_to_prop.
      exists peers, (with_np_meta m1 ex). split_and!; [apply Hpeers|by symmetry|by exists ref|].
      right. right. exists (np_meta ex). do 2 eexists. split; [|congruence].
      assert (with_np_meta (np_meta ex) (with_np_meta m1 ex) = ex) as -> by (by destruct ex).
      seen.
  - destruct (IsNotFound e); [|by apply mwp_ret].
    destruct (applyCustomNetworkPolicyMetadata srv _) as [m2|] eqn:E2; [|by apply mwp_ret].
    apply mwp_bind, mwp_call. intros [stored|e']; [|by apply mwp_ret].
    apply mwp_then_silent; [apply silent_out|]. intros tr2 _ _. apply mwp_ret.
    exists peers, (with_np_meta m2 np). split_and!; [apply Hpeers|done| |].
    + destruct (setController_uid _ _ _ Em) as (ref & Href & Huid). exists ref. split; [|done]. cbn.
      by rewrite (proj2 (proj2 (proj2 (proj2 (proj2 (applyCustom_meta _ _ _ E2)))))).
    + left. exists stored. seen.
Qed.

Lemma resolveServicePort_found n ns p s :
  mwp (resolveServicePort Direct n ns p) s (fun tr res _ => snd res = None ->
    (0 < p /\ fst res = p) \/
    exists svc sp, In (Ev (CGet Direct KService ns n) (Ok svc)) tr /\ In sp (svc_ports svc) /\ fst res = sp_port sp).
Proof.
  unfold resolveServicePort. destruct (Z.ltb_spec 0 p); [apply mwp_ret; by left|].
  apply mwp_bind, mwp_call. intros [svc|e]; [|destruct (IsNotFound e); by apply mwp_ret].
  destruct (svc_ports svc) as [|p0 ps] eqn:Ep; [by apply mwp_ret|].
  destruct (List.find _ _) as [sp|] eqn:Ef; apply mwp_ret; intros _; right; exists svc; rewrite Ep.
  - exists sp. apply find_some in Ef as [? _]. split; [by left|done].
  - exists p0. split; [by left|split; [by left|done]].
Qed.

Lemma reconcileServiceOrBYO_exposed sel s :
  mwp (reconcileServiceOrBYO r srv sel) s (fun tr res _ => snd res = None ->
    ep_name (fst res) = serviceNameFor srv /\ exposed srv sel (ep_port (fst res)) tr).
Proof.
  unfold reconcileServiceOrBYO, exposed. destruct (spec_serviceRef (srv_spec srv)) as [ref|] eqn:Er.
  - apply mwp_bind. unfold ResolveServiceEndpoint. rewrite Er. apply mwp_bind.
    eapply mwp_mono; [apply resolveServicePort_found|]. intros tr [p err] s1 Hp. apply mwp_ret. cbn in Hp |- *.
    destruct err as [e|]; [by apply mwp_ret|]. apply mwp_bind. eapply mwp_mono; [apply mwp_any|]. intros tr2 res s2 _.
    apply mwp_ret. cbn. intros _. split; [done|]. unfold serviceNameFor in Hp. rewrite Er in Hp.
    destruct (Hp eq_refl) as [[H1 ->]|(svc & sp & Hin & H2 & ->)].
    + left. destruct (spec_workloadRef (srv_spec srv)); [by split_and!|lia].
    + right. exists svc, sp. rewrite !in_app_iff. auto.
  - apply mwp_bind. eapply mwp_mono; [apply mwp_reconcileService_outcome|]. intros tr err s1 Ho.
    apply mwp_then_silent; [apply silent_out|]. intros tr2 _ _. destruct err as [e|]; apply mwp_ret; [done|]. intros _.
    split; [done|]. split; [|done]. eapply service_outcome_stable; [|by apply Ho]. intros x Hx. apply in_or_app. by left.
Qed.

Lemma reconcileGatewayBinding_bound s :
  mwp (reconcileGatewayBinding r srv) s (fun tr res _ => res = None -> bound srv tr).
Proof.
  unfold reconcileGatewayBinding, bound. apply mwp_bind, mwp_call. intros got. destruct (spec_gateway (srv_spec srv)) as [gw|].
  - destruct (setController srv _) as [m|]; [|by apply mwp_ret]. destruct got as [ex|e].
    + apply mwp_bind, mwp_validateOwnership_simple; [|intros; by apply mwp_ret]. intros _.
      case_bool_decide as Hpr.
      * case_bool_decide as Hsp; cbn [negb].
        -- apply mwp_ret. intros _. do 3 right. exists ex. cbn in Hsp. split; [done|]. by left.
        -- apply mwp_bind, mwp_call. intros [a|e]; apply mwp_ret; [|done]. intros _. do 2 right. left.
           eexists _, a. split; [|seen]. done.
      * apply mwp_bind, mwp_call. intros [e|]; apply mwp_ret; [done|]. intros _. left. exists ex. seen.
    + destruct (IsNotFound e); [|by apply mwp_ret]. apply mwp_bind, mwp_call. intros [a|e']; apply mwp_ret; [|done].
      intros _. right. left. eexists _, a. split; [|seen]. done.
  - destruct got as [ex|e].
    + apply mwp_bind, mwp_validateOwnership_simple; [|intros; by apply mwp_ret]. intros _.
      apply mwp_call. intros [e|]; [done|]. intros _. left. exists ex. seen.
    + destruct (IsNotFound e) eqn:En; apply mwp_ret; [|done]. intros _. right. exists e. split; [done|]. by left.
Qed.

Lemma in_dials url tp a tr : In (url, tp, a) (dials tr) -> In (Ev (CDial url tp) a) tr.
Proof.
  unfold dials. intros (l & Hl & Hin)%in_concat. apply in_map_iff in Hl as ([c x] & <- & He).
  destruct c; cbn in Hin; try done. destruct Hin as [[= -> -> ->]|[]]. done.
Qed.

Lemma reconcileHandshake_answered url avail hash s :
  keeps_trust r ->
  mwp (reconcileHandshake r srv url avail hash) s (fun tr ci _ =>
    c_type (fst ci) = ConditionTypeVerified /\
    (c_status (fst ci) = ConditionTrue -> c_status avail = ConditionTrue /\ c_reason avail = ReasonAvailable /\
      (dialled srv url tr \/ still_verified srv s hash))).
Proof.
  intros Ht. eapply mwp_mono; [by apply mwp_reconcileHandshake|]. intros tr [c info] s' (-> & Hty & Ho). cbn in *.
  split; [done|]. intros Hc. remember (dials tr) as ds eqn:E.
  destruct Ho as [c Hna Hu|c info ? ? Hf Hs Hg Hi Hh|ds c ? ? ? [Hf _]|tp a c info ? ? Htp Hs Hcase].
  - by rewrite Hu in Hc.
  - split_and!; [done..|]. right. exists c, info. done.
  - by rewrite Hf in Hc.
  - split_and!; [done..|]. left. exists tp, a. split; [apply in_dials; rewrite <- E; by left|].
    split; [done|]. destruct Hcase as [[-> _]|(e & -> & Ha & _)]; eauto.
Qed.

Lemma validateWorkloadRef_read ref s :
  mwp (validateWorkloadRef srv ref) s (fun tr res _ => match res with Ok w => workload_read srv ref w tr | Err _ => True end).
Proof.
  unfold validateWorkloadRef, getWorkload. apply mwp_bind.
  apply (mwp_mono _ _ (fun tr res _ => match res with Ok w => workload_read srv ref w tr | Err _ => True end)).
  - destruct (_ == WorkloadKindDeployment); [|destruct (_ == WorkloadKindDaemonSet); [|destruct (_ == WorkloadKindStatefulSet)]];
      [apply mwp_bind, mwp_call; intros [d|e]; apply mwp_ret; [by left|done]..|by apply mwp_ret].
  - intros tr [w|e] s1 Hw; [|destruct (asValidationError e) as [[? ?]|]; by apply mwp_ret].
    assert (Hr : workload_read srv ref w (tr ++ [])) by (by rewrite app_nil_r).
    repeat case_match; by apply mwp_ret.
Qed.

Lemma validate_workload s :
  mwp (validateConfigAndResolveWorkload srv) s (fun tr res _ => match res with
    | Ok w => match spec_workloadRef (srv_spec srv) with
              | Some ref => exists wl, w = Some wl /\ workload_read srv ref wl tr
              | None => w = None
              end
    | Err _ => True end).
Proof.
  unfold validateConfigAndResolveWorkload. apply mwp_bind.
  destruct (spec_workloadRef (srv_spec srv)) as [ref|].
  - apply mwp_bind. eapply mwp_mono; [apply validateWorkloadRef_read|]. intros tr [w|e] s1 Hw; apply mwp_ret; [|by apply mwp_ret].
    apply mwp_bind. eapply mwp_mono; [apply mwp_any|]. intros tr2 [e|] s2 _; apply mwp_ret; [done|]. exists w. split; [done|].
    eapply workload_read_stable; [|exact Hw]. intros x Hx. rewrite !in_app_iff. auto.
  - apply mwp_ret, mwp_bind. eapply mwp_mono; [apply mwp_any|]. by intros tr2 [e|] s2 _; apply mwp_ret.
Qed.

End establish.

(** ** When a status says Verified=True

    [claims P m]: what [m] publishes is the server's, and says Verified=True only if [P]. *)

Definition claim (srv : MCPServer) (P : Prop) (c : Call) : Prop :=
  match c with
  | CApplyStatus ns name st => ns = om_namespace (srv_meta srv) /\ name = om_name (srv_meta srv) /\ (verified_true st -> P)
  | _ => True
  end.

Lemma no_apply_claim srv P c : no_apply c -> claim srv P c.
Proof. by destruct c. Qed.

(** The Verified condition of a status that begins with the three conditions. *)
Lemma published_verified st acc avail ver rest :
  sac_conditions st = conditionToAC acc :: conditionToAC avail :: conditionToAC ver :: rest ->
  c_type acc = ConditionTypeAccepted -> c_type avail = ConditionTypeAvailable -> c_type ver = ConditionTypeVerified ->
  published_status st ConditionTypeVerified = Some (c_status ver).
Proof. intros Hc Ha Hv Hr. unfold published_status. rewrite Hc. cbn. by rewrite Ha, Hv, Hr. Qed.

Section failures.
Context `{V : Vendor}.
Context (r : MCPServerReconciler) (srv : MCPServer).

Lemma failure_unverified base acc avail ver rest :
  sac_conditions base = [] -> c_type acc = ConditionTypeAccepted ->
  is_condition ConditionTypeAvailable ConditionFalse avail -> is_condition ConditionTypeVerified ConditionUnknown ver ->
  ~ verified_true (withPreviousBinding srv (WithConditions ([conditionToAC acc; conditionToAC avail; conditionToAC ver] ++ rest) base)).
Proof.
  intros Hb Ha [Tv _] [Tr Sr]. unfold verified_true. rewrite (published_verified _ acc avail ver rest); [by rewrite Sr| |done..].
  unfold withPreviousBinding. destruct (st_gatewayBinding _); cbn; by rewrite Hb.
Qed.

Definition claims {A} (P : Prop) (m : M A) : Prop := mguard (fun _ c => claim srv P c) m.

Lemma claims_quiet {A} P (m : M A) : mcalls no_apply m -> claims P m.
Proof. apply mguard_calls. intros _ c. apply no_apply_claim. Qed.

Lemma claims_bind {A B} P (m : M A) (f : A -> M B) : mcalls no_apply m -> (forall a, claims P (f a)) -> claims P (m ≫= f).
Proof. intros Hm Hf. apply mguard_bind; [by apply claims_quiet|done]. Qed.

Lemma claims_bind_val {A B} P (m : M A) (f : A -> M B) Post :
  mcalls no_apply m -> returns m Post -> (forall a, Post a -> claims P (f a)) -> claims P (m ≫= f).
Proof. intros Hm. apply mguard_bind_val. by apply claims_quiet. Qed.

Lemma claims_out {A B} P (m : M A) (f : A -> M B) : silent m -> (forall a, claims P (f a)) -> claims P (m ≫= f).
Proof. intros Hm. by apply claims_bind, (silent_no_apply srv). Qed.

Lemma claims_applyStatus {B} P st (f : option error -> M B) :
  (verified_true st -> P) -> (forall e, claims P (f e)) -> claims P (applyStatus srv st ≫= f).
Proof. intros Hst Hf. apply mguard_bind; [by apply mguard_call|done]. Qed.

(** The failure handlers claim nothing. *)
Abbreviation fails := (claims False).

Lemma fails_reportFailure st err : ~ verified_true st -> fails (reportFailure srv st err).
Proof. intros Hst. apply claims_applyStatus; [done|]. intros [e|]; [done|]. by destruct (IsOwnershipConflict err). Qed.

(** From the failed Available condition on, every failure handler goes the same way. *)
Lemma fails_conditions {B} rs ms (f : Condition -> Condition -> M B) :
  (forall avail ver, is_condition ConditionTypeAvailable ConditionFalse avail -> is_condition ConditionTypeVerified ConditionUnknown ver ->
     fails (f avail ver)) ->
  fails (avail ← conditionFor srv ConditionTypeAvailable ConditionFalse rs ms; ver ← notVerifiedFor srv; f avail ver).
Proof.
  intros Hf. eapply claims_bind_val; [apply conditionFor_no_apply|apply returns_conditionFor|]. intros avail Ha.
  eapply claims_bind_val; [apply notVerifiedFor_no_apply|apply returns_notVerifiedFor|]. auto.
Qed.

Lemma fails_handleDeploymentReconcileError acc err :
  c_type acc = ConditionTypeAccepted -> fails (handleDeploymentReconcileError r srv acc err).
Proof.
  intros Ha. unfold handleDeploymentReconcileError. destruct (IsConflict err); [done|].
  apply claims_out; [apply silent_out|]. intros _. apply fails_conditions. intros avail ver Hav Hver.
  apply claims_out; [apply silent_out|]. intros _.
  apply claims_out; [apply silent_if; [apply silent_ret|apply silent_Eventf]|]. intros _.
  eapply claims_bind_val; [apply append_no_apply|apply returns_append_prefix|]. intros conds [rest ->].
  apply fails_reportFailure. apply failure_unverified; [apply workloadStatus_base|done..].
Qed.

Lemma fails_handleResourceFailure base acc err params :
  sac_conditions base = [] -> c_type acc = ConditionTypeAccepted -> (forall m s, silent (fp_emitEvent params m s)) ->
  fails (handleResourceFailure r srv base acc err params).
Proof.
  intros Hb Ha He. unfold handleResourceFailure. destruct (IsConflict err); [done|].
  apply claims_out; [apply silent_out|]. intros _. apply fails_conditions. intros avail ver Hav Hver.
  apply claims_out; [apply silent_out|]. intros _.
  apply claims_out; [apply silent_if; [apply silent_ret|apply He]|]. intros _.
  eapply claims_bind_val; [apply append_no_apply|apply returns_append_prefix|]. intros conds [rest ->].
  by apply fails_reportFailure, failure_unverified.
Qed.

Lemma fails_reconcilePermanentValidationError reason message :
  fails (reconcilePermanentValidationError r srv reason message).
Proof.
  unfold reconcilePermanentValidationError.
  eapply claims_bind_val; [apply conditionFor_no_apply|apply returns_conditionFor|]. intros acc [Ta _].
  apply claims_out; [apply silent_out|]. intros _.
  apply claims_out; [apply silent_out|]. intros _. apply fails_conditions. intros avail ver Hav Hver.
  eapply claims_bind_val; [apply append_no_apply|apply returns_append_prefix|]. intros conds [rest ->].
  apply claims_applyStatus; [apply failure_unverified; [apply workloadStatus_base|done..]|]. intros [e|]; [done|].
  apply claims_out; [apply silent_if; [apply silent_ret|apply silent_Eventf]|]. intros _.
  apply claims_out; [apply silent_out|]. intros _.
  by apply claims_out; [apply silent_out|].
Qed.

End failures.

(** Closes the failure branches of the walk. *)
Ltac resource_fails :=
  apply fails_handleResourceFailure; [first [apply workloadStatus_base | done]|done|intros; apply silent_Eventf].

(** ** The walk

    [vouched K m]: after events for which [K] holds, every Verified=True that [m] publishes
    rests on what the pass has done and seen by then. *)

Section walk.
Context `{V : Vendor} {L : VendorLaws V}.
Context (r : MCPServerReconciler) (srv : MCPServer) (s : RState).
Context (Htrust : keeps_trust r).

Definition vouched_call (h : list event) (c : Call) : Prop :=
  match c with
  | CApplyStatus ns name st => ns = om_namespace (srv_meta srv) /\ name = om_name (srv_meta srv) /\ (verified_true st -> rests_on r srv s h)
  | _ => True
  end.

Definition vouched {A} (K : list event -> Prop) (m : M A) : Prop := forall h, K h -> guard vouched_call h (m s).

(** What is claimed under [P] is vouched for when [P] comes with everything it rests on. *)
Lemma guard_claims {A} (P : Prop) (m : M A) s' h :
  (P -> rests_on r srv s h) -> claims srv P m -> guard vouched_call h (m s').
Proof.
  intros HP Hm. eapply guard_extend; [|apply Hm]. intros tr c Hc. destruct c; try done. destruct Hc as (-> & -> & Hc).
  split_and!; [done..|]. intros Hv.
  eapply rests_on_stable; [|exact (HP (Hc Hv))]. intros x Hx. apply in_or_app. by right.
Qed.

Lemma vouched_fails {A} (m : M A) K : claims srv False m -> vouched K m.
Proof. intros Hm h _. by apply (guard_claims False). Qed.

(** A step that leaves the state alone and establishes [Post]. *)
Lemma vouched_bind {A B} K (m : M A) (f : A -> M B) (Post : A -> list event -> Prop) :
  Stable K -> (forall a, Stable (Post a)) -> mcalls no_apply m -> stateless m -> mwp m s (fun tr a _ => Post a tr) ->
  (forall a, vouched (fun h => K h /\ Post a h) (f a)) -> vouched K (m ≫= f).
Proof.
  intros HK HP Hm Hs Hpost Hf h Hh. apply guard_bind_mwp.
  - eapply mguard_calls; [|exact Hm]. intros h' c Hc. by destruct c.
  - eapply mwp_mono; [apply mwp_conj; [apply Hs|exact Hpost]|]. intros tr a s' [-> Ha]. apply Hf. split.
    + eapply HK; [|exact Hh]. intros x Hx. apply in_or_app. by right.
    + eapply HP; [|exact Ha]. intros x Hx. apply in_or_app. left. by apply (proj1 (in_rev tr x)).
Qed.

Lemma vouched_skip {A B} K (m : M A) (f : A -> M B) :
  Stable K -> mcalls no_apply m -> stateless m -> (forall a, vouched K (f a)) -> vouched K (m ≫= f).
Proof.
  intros HK Hm Hs Hf. apply (vouched_bind K m f (fun _ _ => True)); try done.
  - apply mwp_any.
  - intros a h [Hh _]. by apply Hf.
Qed.

Lemma vouched_silent {A B} K (m : M A) (f : A -> M B) :
  Stable K -> silent m -> (forall a, vouched K (f a)) -> vouched K (m ≫= f).
Proof. intros HK Hm. apply vouched_skip; [done|by apply (silent_no_apply srv)|by apply stateless_silent]. Qed.

Lemma stable_if (P : Prop) F : Stable F -> Stable (fun h => P -> F h).
Proof. intros HF h h' Hi H HP. eapply HF; [exact Hi|auto]. Qed.

Lemma vouched_mono {A} (K K' : list event -> Prop) (m : M A) : (forall h, K h -> K' h) -> vouched K' m -> vouched K m.
Proof. intros HK Hm h Hh. by apply Hm, HK. Qed.

Lemma endpoint_verified base gw acc avail ver np pe url info :
  sac_conditions base = [] -> c_type acc = ConditionTypeAccepted -> c_type avail = ConditionTypeAvailable ->
  c_type ver = ConditionTypeVerified ->
  published_status (endpointStatus base gw acc avail ver np pe url info) ConditionTypeVerified = Some (c_status ver).
Proof.
  intros Hb. unfold endpointStatus, withAddressWhenVerified, applyGatewayStatusToAC.
  destruct gw as [[? [?|] ? ?]|], np, info; case_bool_decide; eapply published_verified; cbn; by rewrite Hb.
Qed.

(** A pure fact moves to the context. *)
Lemma vouched_pure {A} K (P : Prop) (m : M A) : (P -> vouched K m) -> vouched (fun h => K h /\ P) m.
Proof. intros Hm h [Hh HP]. by apply Hm. Qed.

Lemma vouched_exists {A B} (K : B -> list event -> Prop) (m : M A) : (forall b, vouched (K b) m) -> vouched (fun h => exists b, K b h) m.
Proof. intros Hm h [b Hh]. by apply (Hm b). Qed.

(** The endpoint phase: given a workload that serves whenever it is available, and a
    Service in front of it. *)
Lemma vouched_reconcileEndpoint K sel acc avail base ep np :
  Stable K -> sac_conditions base = [] -> c_type acc = ConditionTypeAccepted -> c_type avail = ConditionTypeAvailable ->
  ep_name ep = serviceNameFor srv ->
  (forall h, K h -> c_status avail = ConditionTrue -> c_reason avail = ReasonAvailable -> workload_serves r srv sel h) ->
  (forall h, K h -> exposed srv sel (ep_port ep) h) ->
  vouched K (reconcileEndpoint r srv acc avail base ep np).
Proof.
  intros HK Hb Ta Tv Hep Hw He. unfold reconcileEndpoint.
  apply (vouched_bind _ _ _ (fun err h => err = None -> bound srv h)); [done|intros; apply stable_if, _| | | |].
  { apply (sub_no_apply srv), sub_reconcileGatewayBinding. }
  { apply stateless_reconcileGatewayBinding. }
  { apply reconcileGatewayBinding_bound. }
  intros gwErr. destruct gwErr as [e|].
  { apply vouched_fails, (claims_out srv); [apply silent_out|]. intros _.
    resource_fails. }
  apply (vouched_mono _ (fun h => K h /\ bound srv h)); [intros h [H1 H2]; auto|].
  apply vouched_silent; [stable_tac|apply silent_out|]. intros _.
  apply (vouched_bind _ _ _ (fun hash h => hash = "" \/ bundle_read srv h hash)); [stable_tac|intros; stable_tac| | | |].
  { apply (quiet_no_apply srv), sub_currentCABundleHash. }
  { apply stateless_currentCABundleHash. }
  { by apply mwp_currentCABundleHash. }
  intros hash. set (url := endpointURL srv ep).
  apply (vouched_bind _ _ _ (fun ci h => c_type (fst ci) = ConditionTypeVerified /\ (c_status (fst ci) = ConditionTrue ->
    c_status avail = ConditionTrue /\ c_reason avail = ReasonAvailable /\ (dialled srv url h \/ still_verified srv s hash)))).
  { stable_tac. }
  { intros ci. apply stable_and; [stable_tac|]. apply stable_if. stable_tac. }
  { apply (quiet_no_apply srv), sub_reconcileHandshake. }
  { apply stateless_reconcileHandshake. }
  { by apply reconcileHandshake_answered. }
  intros [ver info] h (((Hk & Hbd) & Hhash) & Tr & Hver). cbn [fst snd] in *.
  match goal with |- guard _ _ (?m _) => change (guard vouched_call h (m s)) end.
  apply (guard_claims (c_status ver = ConditionTrue)).
  { intros Hv. destruct (Hver Hv) as (Ha & Hr & Hans). destruct ep as [n port]. cbn in Hep. subst n.
    exists sel, port. split_and!; [by apply Hw|by apply He|done|]. destruct Hans as [Hd|Hs]; [by left|right; by exists hash]. }
  apply (claims_out srv); [apply silent_out|]. intros _.
  eapply claims_bind_val; [apply (quiet_no_apply srv), sub_retryCount|apply returns_retryCount|].
  intros [n ver'] [Hv1 Hv2]. cbn [fst snd] in *.
  eapply claims_bind_val; [apply (quiet_no_apply srv), sub_gatewayOverride|by apply returns_gatewayOverride|]. intros gw [Hg _].
  apply (claims_out srv); [apply silent_if; [apply silent_Eventf|apply silent_ret]|]. intros _.
  apply claims_bind; [apply clock_no_apply, policyEnforcedCondition_calls|]. intros pe.
  apply claims_applyStatus.
  { unfold verified_true. rewrite endpoint_verified; [|done|done|done|by rewrite Hv1]. rewrite Hv2. by intros [= ->]. }
  intros [e|]; [done|]. apply (claims_quiet srv). eapply mcalls_mono; [apply outputs_no_apply|apply finishEndpoint_outputs].
Qed.
(** A Service of [reconcileServiceOrBYO], or its error. *)
Lemma vouched_service {B} K sel (f : ServiceEndpoint * option error -> M B) :
  Stable K ->
  (forall ep, ep_name ep = serviceNameFor srv -> vouched (fun h => K h /\ exposed srv sel (ep_port ep) h) (f (ep, None))) ->
  (forall ep e, claims srv False (f (ep, Some e))) -> vouched K (reconcileServiceOrBYO r srv sel ≫= f).
Proof.
  intros HK Hok Herr. apply (vouched_bind _ _ _ (fun res h => snd res = None ->
    ep_name (fst res) = serviceNameFor srv /\ exposed srv sel (ep_port (fst res)) h)); [done| | | | |].
  { intros res. apply stable_if. stable_tac. }
  { apply (sub_no_apply srv), sub_reconcileServiceOrBYO. }
  { apply stateless_reconcileServiceOrBYO. }
  { apply reconcileServiceOrBYO_exposed. }
  intros [ep [e|]]; [by apply vouched_fails|]. intros h [Hk H]. destruct (H eq_refl) as [Hep Hex]. by apply Hok.
Qed.

Lemma vouched_reconcileBYO ref acc wl :
  spec_workloadRef (srv_spec srv) = Some ref -> accepted_condition acc ->
  vouched (workload_read srv ref wl) (reconcileBYO r srv acc (Some wl)).
Proof.
  intros Eref [Ta Sa]. unfold reconcileBYO.
  apply (vouched_bind _ _ _ (fun res _ => match res with Ok obs => observed wl (wo_availability obs) /\
    wo_selector obs = workloadSelector wl | Err _ => True end)); [apply _|intros; apply stable_const| | | |].
  { apply (quiet_no_apply srv), sub_observeWorkload. }
  { apply stateless_observeWorkload. }
  { apply mwp_observeWorkload. by rewrite Sa. }
  intros [obs|e]; [|by apply vouched_fails, claims_quiet, mcalls_ret].
  apply vouched_pure. intros [(Tv & Hserve & _) Hsel].
  apply vouched_silent; [apply _|apply silent_out|]. intros _.
  apply vouched_silent; [apply _|apply silent_maybeEmit|]. intros _.
  apply vouched_service; [apply _| |]; cbn [fst snd].
  - intros ep Hep. eapply (vouched_reconcileEndpoint _ (option_map ls_matchLabels (wo_selector obs))); try done.
    + stable_tac.
    + apply workloadStatus_base.
    + intros h [Hread _] Hs Hr. unfold workload_serves. rewrite Eref. exists wl. rewrite Hsel. split_and!; [done| |done].
      by apply Hserve.
    + by intros h [_ He].
  - intros ep e. resource_fails.
Qed.

Lemma vouched_reconcileManaged acc :
  spec_workloadRef (srv_spec srv) = None -> accepted_condition acc -> vouched (fun _ => True) (reconcileManaged r srv acc).
Proof.
  intros Eref [Ta Sa]. assert (Hb : byo srv = false) by (unfold byo; by rewrite Eref). unfold reconcileManaged.
  apply (vouched_bind _ _ _ (fun res h => match res with
    | Ok d => deployment_outcome r srv h /\
        exists d', current_deployment srv d' h /\ (dep_replicas d' = dep_replicas d /\ (serving d -> serving d'))
    | Err _ => True end)).
  { apply stable_const. }
  { intros [d|e]; stable_tac. }
  { by apply (sub_no_apply srv), sub_reconcileDeployment. }
  { apply stateless_reconcileDeployment. }
  { eapply mwp_mono; [apply mwp_conj; [apply mwp_reconcileDeployment_outcome|apply reconcileDeployment_current]|].
    by intros tr [d|e] s' [H1 H2]. }
  intros [d|e].
  2:{ apply vouched_fails, (claims_out srv); [apply silent_out|]. intros _. by apply fails_handleDeploymentReconcileError. }
  apply vouched_silent; [stable_tac|apply silent_out|]. intros _.
  apply vouched_service; [stable_tac| |]; cbn [fst snd].
  2:{ intros ep e. resource_fails. }
  intros ep Hep.
  apply (vouched_bind _ _ _ (fun res h => match res with Ok _ => policy_in_place r srv h | Err _ => True end)).
  { stable_tac. }
  { intros [np|e]; stable_tac. }
  { by apply (sub_no_apply srv), sub_ensureNetworkPolicy. }
  { apply stateless_ensureNetworkPolicy. }
  { apply ensureNetworkPolicy_in_place. }
  intros [np|e].
  2:{ apply vouched_fails, (claims_out srv); [apply silent_out|]. intros _.
      resource_fails. }
  apply vouched_silent; [stable_tac|apply silent_out|]. intros _.
  apply vouched_skip; [stable_tac| | |].
  { apply clock_no_apply. unfold networkPolicyPostureConditionFor, newCondition. destruct (posture srv np) as [[? ?] ?]. calls_tac. }
  { unfold networkPolicyPostureConditionFor. stable_tac. stateless_tac. }
  intros po. apply vouched_silent; [stable_tac|apply silent_out|]. intros _.
  apply (vouched_bind _ _ _ (fun c _ => available_spec d acc (om_generation (srv_meta srv)) (st_conditions (srv_status srv)) c)).
  { stable_tac. }
  { intros c. apply stable_const. }
  { eapply mcalls_mono; [|apply reconcileAvailableCondition_calls]. by intros []. }
  { apply stateless_available. }
  { eapply mwp_mono; [apply mwp_reconcileAvailableCondition|]. by intros tr c s' [_ H]. }
  intros avail. apply vouched_pure. intros (Tv & _ & Havail & _).
  apply vouched_silent; [stable_tac|apply silent_out|]. intros _.
  apply vouched_silent; [stable_tac|apply silent_maybeEmit|]. intros _.
  eapply (vouched_reconcileEndpoint _ (Some (managedWorkloadSelector (om_name (srv_meta srv))))); try done.
  - stable_tac.
  - apply workloadStatus_base.
  - intros h (((_ & Ho & d' & Hd & Hrep & Hsv) & _) & Hnp) Hs Hr. unfold workload_serves. rewrite Eref.
    destruct (proj1 Havail (conj Hs Hr)) as (_ & H0 & Hsrv). split_and!; [done..|]. exists d'. split_and!; [done|congruence|auto].
  - by intros h ((_ & He) & _).
Qed.

Lemma vouched_reconcileLive : vouched (fun _ => True) (reconcileLive r srv).
Proof.
  unfold reconcileLive.
  apply vouched_skip; [apply stable_const|apply (sub_no_apply srv), sub_cleanupGatewayBinding|apply stateless_cleanupGatewayBinding|].
  intros _.
  apply (vouched_bind _ _ _ (fun res h => match res with
    | Ok w => match spec_workloadRef (srv_spec srv) with
              | Some ref => exists wl, w = Some wl /\ workload_read srv ref wl h
              | None => w = None
              end
    | Err _ => True end)).
  { apply stable_const. }
  { intros [w|e]; stable_tac. }
  { apply (quiet_no_apply srv), sub_validate. }
  { apply stateless_validate. }
  { apply validate_workload. }
  intros [w|e].
  2:{ apply vouched_fails, (claims_out srv); [apply silent_out|]. intros _.
      destruct (asValidationError e) as [[reason message]|]; [|by apply (claims_quiet srv)].
      apply mguard_bind; [apply fails_reconcilePermanentValidationError|]. done. }
  apply vouched_silent; [stable_tac|apply silent_out|]. intros _.
  apply (vouched_bind _ _ _ (fun c _ => accepted_condition c)); [stable_tac|intros; apply stable_const| | | |].
  { apply conditionFor_no_apply. }
  { apply stateless_conditionFor. }
  { apply returns_conditionFor. }
  intros acc. apply vouched_pure. intros Hacc.
  apply vouched_silent; [stable_tac|apply silent_out|]. intros _.
  apply vouched_silent; [stable_tac|apply silent_if; [apply silent_Eventf|apply silent_ret]|]. intros _.
  destruct (spec_workloadRef (srv_spec srv)) as [ref|] eqn:Eref.
  - apply (vouched_mono _ (fun h => exists wl, workload_read srv ref wl h /\ w = Some wl)); [intros h (_ & wl & ? & ?); eauto|].
    apply vouched_exists. intros wl. apply vouched_pure. intros ->. by apply vouched_reconcileBYO.
  - eapply vouched_mono; [|by apply vouched_reconcileManaged]. done.
Qed.

End walk.

(** ** The theorem *)

(** The server is live, and its Verified=True rests on what was done and seen. *)
Definition promise_kept `{V : Vendor} (r : MCPServerReconciler) (req : Request) (s : RState) (h : list event) (c : Call) : Prop :=
  match c with
  | CApplyStatus ns name st =>
      exists srv, live_before req h srv /\ ns = om_namespace (srv_meta srv) /\ name = om_name (srv_meta srv) /\
        (verified_true st -> rests_on r srv s h)
  | _ => True
  end.

(** C1: The promise of Verified=True, end to end: a pass publishes it only for a live
    MCPServer, and only after it has (a) for a managed workload created, updated or found
    up to date the Deployment its spec asks for and the NetworkPolicy that guards it, and
    seen the Deployment serve; for a referenced one, seen that workload serve in an uncached
    read; (b) put in place the Service that selects these pods, or resolved the port of the
    one the spec names; (c) settled the gateway binding; and (d) been answered by the
    endpoint at that Service's address and port over a transport that fits the spec's TLS
    settings, unless this generation was already verified with the CA bundle the pass read. *)
Theorem verified_true_is_earned `{V : Vendor} {L : VendorLaws V} r req s tr res :
  keeps_trust r -> runs (Reconcile r req s) tr res ->
  Forall (fun hc => promise_kept r req s (fst hc) (snd hc)) (in_context [] tr).
Proof.
  intros Ht Hr. eapply (guard_in_context _ (Reconcile r req s)); [|exact Hr]. destruct req as [ns name]. unfold Reconcile.
  apply guard_call; [done|]. intros [srv|e].
  2:{ destruct (IsNotFound e); cbn; [|done]. by split. }
  unfold shouldSkipReconciliation. destruct (om_deletionTimestamp (srv_meta srv)) eqn:Ed; [done|].
  cbn. split; [done|]. intros [n|e]; [|cbn; repeat case_match; done].
  cbn. destruct (om_deletionTimestamp (ns_meta n)) eqn:En; [cbn; done|]. cbn.
  eapply guard_extend; [|by apply vouched_reconcileLive]. intros tr' c H. destruct c; try done. destruct H as (-> & -> & H).
  exists srv. split_and!; try done. split_and!; [|done|]; cbn [fst snd]; [|exists n; split; [|done]]; apply in_or_app; right; cbn; auto.
Qed.

(** A pass that publishes Verified=True. *)
Lemma verified_true_is_earned_witness :
  map (fun st => published_status st ConditionTypeVerified) (statuses (fst (liveRun sampleServer))) = [Some "True"] /\
  Forall (fun hc => @promise_kept modelVendor sampleReconciler ("ns", "srv") emptyState (fst hc) (snd hc))
    (in_context [] (fst (liveRun sampleServer))).
Proof.
  split; [vm_compute; reflexivity|].
  refine (@verified_true_is_earned modelVendor modelVendor_laws sampleReconciler ("ns", "srv") emptyState _ _ _ _).
  - intros p cfg [=].
  - exact (run_in_runs (liveWorld sampleServer) (@Reconcile modelVendor sampleReconciler ("ns", "srv")) emptyState).
Defined.
