(* ===== verification/SharedStore.v ===== *)
(** * An API server shared with other clients

    Objects have versions: the server stamps every write with a resource version it never
    used before, and an update must name the version it replaces; a status write leaves
    the rest of an object as it is, and a patch what it does not name.  Between any two calls of
    a handler other clients may write and remove whatever they like, caches may answer with
    any version there ever was, and a write may take effect although its answer is lost.
    An oracle decides all of that; [srun] runs a handler against it and records the store
    before and after each call. *)

From S2P Require Import Prelude K8s GatewayApi ApiAlpha ApiBeta StatusAC Interact Conditions Ownership Service Gateway NetworkPolicy Deployment.

Definition Key : Type := string * string.

Definition key_of (k : kind) (o : obj k) : Key := (om_namespace (meta_of k o), om_name (meta_of k o)).

(** [o] with other metadata. *)
Definition with_meta_of (k : kind) (m : ObjectMeta) : obj k -> obj k :=
  match k return obj k -> obj k with
  | KMCPServer => fun o => {| srv_meta := m; srv_spec := srv_spec o; srv_status := srv_status o |}
  | KNamespace => fun _ => {| ns_meta := m |}
  | KDeployment => with_dep_meta m
  | KDaemonSet => fun o =>
      {| ds_meta := m; ds_selector := ds_selector o; ds_observedGeneration := ds_observedGeneration o;
         ds_currentNumberScheduled := ds_currentNumberScheduled o; ds_desiredNumberScheduled := ds_desiredNumberScheduled o;
         ds_numberReady := ds_numberReady o; ds_numberAvailable := ds_numberAvailable o; ds_numberUnavailable := ds_numberUnavailable o |}
  | KStatefulSet => fun o =>
      {| sts_meta := m; sts_replicas := sts_replicas o; sts_selector := sts_selector o; sts_observedGeneration := sts_observedGeneration o;
         sts_readyReplicas := sts_readyReplicas o; sts_availableReplicas := sts_availableReplicas o; sts_updatedReplicas := sts_updatedReplicas o |}
  | KService => with_svc_meta m
  | KNetworkPolicy => with_np_meta m
  | KBinding => with_mgb_meta m
  | KConfigMap => fun o => {| cm_meta := m; cm_data := cm_data o; cm_binaryData := cm_binaryData o |}
  | KSecret => fun o => {| sec_meta := m; sec_data := sec_data o |}
  | KHTTPRoute => fun o => {| route_meta := m; route_spec := route_spec o; route_parents := route_parents o |}
  | KGateway => fun o => {| gtw_meta := m; gtw_listeners := gtw_listeners o; gtw_addresses := gtw_addresses o |}
  | KRegistration => fun o => {| reg_meta := m; reg_spec := reg_spec o; reg_status := reg_status o |}
  | KExtension => fun o => {| ext_meta := m; ext_spec := ext_spec o; ext_status := ext_status o |}
  end.

Lemma meta_with_meta k m o : meta_of k (with_meta_of k m o) = m.
Proof. by destruct k. Qed.

(** [o] with the status of [new], which is all that a status write takes over; kinds without
    a status keep what they have. *)
Definition with_status_of (k : kind) : obj k -> obj k -> obj k :=
  match k return obj k -> obj k -> obj k with
  | KMCPServer => fun new o => {| srv_meta := srv_meta o; srv_spec := srv_spec o; srv_status := srv_status new |}
  | KDeployment => fun new o =>
      {| dep_meta := dep_meta o; dep_replicas := dep_replicas o; dep_selector := dep_selector o; dep_template := dep_template o;
         dep_observedGeneration := dep_observedGeneration new; dep_readyReplicas := dep_readyReplicas new; dep_conditions := dep_conditions new |}
  | KDaemonSet => fun new o =>
      {| ds_meta := ds_meta o; ds_selector := ds_selector o; ds_observedGeneration := ds_observedGeneration new;
         ds_currentNumberScheduled := ds_currentNumberScheduled new; ds_desiredNumberScheduled := ds_desiredNumberScheduled new;
         ds_numberReady := ds_numberReady new; ds_numberAvailable := ds_numberAvailable new; ds_numberUnavailable := ds_numberUnavailable new |}
  | KStatefulSet => fun new o =>
      {| sts_meta := sts_meta o; sts_replicas := sts_replicas o; sts_selector := sts_selector o; sts_observedGeneration := sts_observedGeneration new;
         sts_readyReplicas := sts_readyReplicas new; sts_availableReplicas := sts_availableReplicas new; sts_updatedReplicas := sts_updatedReplicas new |}
  | KBinding => fun new o => {| mgb_meta := mgb_meta o; mgb_spec := mgb_spec o; mgb_status := mgb_status new |}
  | KHTTPRoute => fun new o => {| route_meta := route_meta o; route_spec := route_spec o; route_parents := route_parents new |}
  | KGateway => fun new o => {| gtw_meta := gtw_meta o; gtw_listeners := gtw_listeners o; gtw_addresses := gtw_addresses new |}
  | KRegistration => fun new o => {| reg_meta := reg_meta o; reg_spec := reg_spec o; reg_status := reg_status new |}
  | KExtension => fun new o => {| ext_meta := ext_meta o; ext_spec := ext_spec o; ext_status := ext_status new |}
  | _ => fun _ o => o
  end.

Lemma meta_with_status k new o : meta_of k (with_status_of k new o) = meta_of k o.
Proof. by destruct k. Qed.

(** A merge patch, [client.MergeFrom base] of [m], on what is there: a field on which the two
    agree stays, and so does each entry of a map; a map without entries is not sent. *)
Definition merge_field {A} `{EqDecision A} (base m cur : A) : A := if decide (base = m) then cur else m.
Definition merge_entries (base m cur : gomap) : gomap :=
  if decide (view base = view m) then cur
  else if decide (view m = ∅) then None
  else Some (filter (fun kv => view base !! kv.1 <> Some kv.2) (view m) ∪ (view cur ∖ (view base ∖ view m))).

Definition merge_binding (base m cur : MCPGatewayBinding) : MCPGatewayBinding :=
  {| mgb_meta :=
       with_annotations (merge_entries (om_annotations (mgb_meta base)) (om_annotations (mgb_meta m)) (om_annotations (mgb_meta cur)))
         (with_labels (merge_entries (om_labels (mgb_meta base)) (om_labels (mgb_meta m)) (om_labels (mgb_meta cur)))
            (with_owners (merge_field (om_ownerReferences (mgb_meta base)) (om_ownerReferences (mgb_meta m)) (om_ownerReferences (mgb_meta cur)))
               (mgb_meta cur)));
     mgb_spec :=
       {| mgb_mcpServerRef := merge_field (mgb_mcpServerRef (mgb_spec base)) (mgb_mcpServerRef (mgb_spec m)) (mgb_mcpServerRef (mgb_spec cur));
          mgb_provider := merge_field (mgb_provider (mgb_spec base)) (mgb_provider (mgb_spec m)) (mgb_provider (mgb_spec cur));
          mgb_configRef := merge_field (mgb_configRef (mgb_spec base)) (mgb_configRef (mgb_spec m)) (mgb_configRef (mgb_spec cur)) |};
     mgb_status := mgb_status cur |}.

(** Only bindings are patched; of other kinds it is not said what is merged. *)
Definition merged (k : kind) : obj k -> obj k -> obj k -> obj k :=
  match k return obj k -> obj k -> obj k -> obj k with KBinding => merge_binding | _ => fun _ m _ => m end.

Lemma merge_field_same {A} `{EqDecision A} (x cur : A) : merge_field x x cur = cur.
Proof. unfold merge_field. by rewrite decide_True. Qed.
Lemma merge_entries_same x cur : merge_entries x x cur = cur.
Proof. unfold merge_entries. by rewrite decide_True. Qed.

(** An entry on which base and modified object agree stays, where none is removed. *)
Lemma merge_entries_stay base m cur k : (forall k, is_Some (mget base k) -> is_Some (mget m k)) ->
  mget m k = mget base k -> mget (merge_entries base m cur) k = mget cur k.
Proof.
  unfold mget, merge_entries. intros Hsub Hk. case_decide as E1; [done|]. case_decide as E2.
  - destruct E1. rewrite E2. apply map_empty. intros i. destruct (view base !! i) eqn:Ei; [|done].
    destruct (Hsub i) as [v Hv]; [by eexists|]. by rewrite E2, lookup_empty in Hv.
  - cbn. rewrite lookup_union, lookup_difference, lookup_difference, Hk. destruct (view base !! k) as [v|] eqn:Eb.
    + rewrite (map_lookup_filter_None_2 _ _ k); [by rewrite left_id by apply _|]. right. intros v' Hv' Hne. cbn in Hne. congruence.
    + rewrite (map_lookup_filter_None_2 _ _ k); [by rewrite left_id by apply _|]. by left.
Qed.

(** The metadata the server stores: key and identity as given, a new version. *)
Definition stamped (key : Key) (uid version : string) (m : ObjectMeta) : ObjectMeta :=
  {| om_name := snd key; om_namespace := fst key; om_uid := uid; om_resourceVersion := version;
     om_generation := om_generation m; om_deletionTimestamp := om_deletionTimestamp m; om_labels := om_labels m;
     om_annotations := om_annotations m; om_ownerReferences := om_ownerReferences m |}.

(** ** The store *)

Record Store := {
  live : forall k, gmap Key (obj k);
  past : forall k, list (obj k);
  next : Z
}.

Definition update_kind {T : kind -> Type} (f : forall k, T k) (k : kind) (v : T k) : forall k', T k' :=
  fun k' => match decide (k = k') with left e => eq_rect k T v k' e | right _ => f k' end.

(** Stores [o] under [key], in a new version. *)
Definition commit (k : kind) (key : Key) (uid : string) (o : obj k) (st : Store) : obj k * Store :=
  let o' := with_meta_of k (stamped key uid (fmt.d (next st)) (meta_of k o)) o in
  (o', {| live := update_kind (live st) k (<[key := o']> (live st k));
          past := update_kind (past st) k (o' :: past st k);
          next := next st + 1 |}).

Definition remove (k : kind) (key : Key) (st : Store) : Store :=
  {| live := update_kind (live st) k (delete key (live st k)); past := past st; next := next st |}.

(** What other clients do: any object under any key with any identity, or its removal. *)
Inductive Other := Write (k : kind) (key : Key) (uid : string) (o : obj k) | Remove (k : kind) (key : Key).

Definition other (st : Store) (w : Other) : Store :=
  match w with Write k key uid o => snd (commit k key uid o st) | Remove k key => remove k key st end.

(** What the oracle decides at one call: what others did before it; whether it is served,
    fails, or takes effect with its answer lost; which version a cache holds; what
    admission makes of a written object; the identity of a created one; whether
    finalizers keep a deleted one; and the answers that do not come from the store. *)
Inductive outcome := Served | Failed (e : error) | Lost (e : error).

Record Choice := {
  ch_others : list Other;
  ch_outcome : outcome;
  ch_cached : nat;
  ch_admit : forall k, obj k -> obj k;
  ch_uid : string;
  ch_finalizers : bool;
  ch_answer : forall c : Call, resp c
}.

Definition not_found : error := StatusError NotFound "not found".
Definition stale : error := StatusError Conflict "the object has been modified".

(** The answer to a read. *)
Definition serve_get (ch : Choice) (st : Store) (rd : reader) (k : kind) (key : Key) : result (obj k) :=
  let found := match rd with
               | Direct => live st k !! key
               | Cached => nth_error (List.filter (fun o => bool_decide (key_of k o = key)) (past st k)) (ch_cached ch)
               end in
  match ch_outcome ch with
  | Served => match found with Some o => Ok o | None => Err not_found end
  | Failed e | Lost e => Err e
  end.

(** The effect of a write, or why there is none. *)
Definition effect_create (ch : Choice) (st : Store) (k : kind) (o : obj k) : result (obj k * Store) :=
  match live st k !! key_of k o with
  | Some _ => Err (StatusError AlreadyExists "already exists")
  | None => Ok (commit k (key_of k o) (ch_uid ch) (ch_admit ch k o) st)
  end.

(** An update names the identity and the version it replaces. *)
Definition effect_update (ch : Choice) (st : Store) (k : kind) (o : obj k) : result (obj k * Store) :=
  match live st k !! key_of k o with
  | None => Err not_found
  | Some cur =>
      if (om_uid (meta_of k cur) == om_uid (meta_of k o)) && (om_resourceVersion (meta_of k cur) == om_resourceVersion (meta_of k o))
      then Ok (commit k (key_of k o) (om_uid (meta_of k cur)) (ch_admit ch k o) st)
      else Err stale
  end.

(** A patch is merged into whatever is there.  (Admission that alters the result is a write
    of others that follows at once; the same holds for status writes, where it may only
    alter the status.) *)
Definition effect_patch (st : Store) (k : kind) (base m : obj k) : result (obj k * Store) :=
  match live st k !! key_of k m with
  | None => Err not_found
  | Some cur => Ok (commit k (key_of k m) (om_uid (meta_of k cur)) (merged k base m cur) st)
  end.

(** A status update names identity and version like any other, and takes over the status. *)
Definition effect_status (ch : Choice) (st : Store) (k : kind) (o : obj k) : result (obj k * Store) :=
  match live st k !! key_of k o with
  | None => Err not_found
  | Some cur =>
      if (om_uid (meta_of k cur) == om_uid (meta_of k o)) && (om_resourceVersion (meta_of k cur) == om_resourceVersion (meta_of k o))
      then Ok (commit k (key_of k o) (om_uid (meta_of k cur)) (with_status_of k (ch_admit ch k o) cur) st)
      else Err stale
  end.

Definition meets (pre : option Preconditions) (m : ObjectMeta) : bool :=
  match pre with
  | None => true
  | Some p => (pre_uid p == om_uid m) && (pre_resourceVersion p == om_resourceVersion m)
  end.

Definition effect_delete (ch : Choice) (st : Store) (k : kind) (o : obj k) (pre : option Preconditions) : result Store :=
  match live st k !! key_of k o with
  | None => Err not_found
  | Some cur =>
      if meets pre (meta_of k cur)
      then Ok (if ch_finalizers ch then snd (commit k (key_of k o) (om_uid (meta_of k cur)) (ch_admit ch k cur) st)
               else remove k (key_of k o) st)
      else Err stale
  end.

(** Status of an MCPServer by server-side apply: no version is named, and only the status
    changes, to what the oracle says the merge and admission make of it. *)
Definition effect_apply (ch : Choice) (st : Store) (key : Key) : result Store :=
  match live st KMCPServer !! key with
  | None => Err not_found
  | Some cur => Ok (snd (commit KMCPServer key (om_uid (srv_meta cur)) (with_status_of KMCPServer (ch_admit ch KMCPServer cur) cur) st))
  end.

(** The answer to a write and the store after it. *)
Definition answered {A} (ch : Choice) (st : Store) (eff : result (A * Store)) : result A * Store :=
  match ch_outcome ch with
  | Served => match eff with Ok (o, st') => (Ok o, st') | Err e => (Err e, st) end
  | Failed e => (Err e, st)
  | Lost e => (Err e, match eff with Ok (_, st') => st' | Err _ => st end)
  end.

Definition done_or_error (r : result unit * Store) : option error * Store :=
  (match fst r with Ok _ => None | Err e => Some e end, snd r).

Definition quietly {A} (r : result A) (f : A -> Store) : result (unit * Store) :=
  match r with Ok x => Ok (tt, f x) | Err e => Err e end.

Definition serve (ch : Choice) (st : Store) (c : Call) : resp c * Store :=
  match c return resp c * Store with
  | CGet rd k ns name => (serve_get ch st rd k (ns, name), st)
  | CCreate k o => answered ch st (effect_create ch st k o)
  | CUpdate k o => answered ch st (effect_update ch st k o)
  | CDelete k o pre => done_or_error (answered ch st (quietly (effect_delete ch st k o pre) (fun st' => st')))
  | CPatch k base m => answered ch st (effect_patch st k base m)
  | CUpdateStatus k o => done_or_error (answered ch st (quietly (effect_status ch st k o) snd))
  | CApplyStatus ns name _ => done_or_error (answered ch st (quietly (effect_apply ch st (ns, name)) (fun st' => st')))
  | COut o => (tt, st)
  | c => (ch_answer ch c, st)
  end.

(** ** Running a handler *)

Record Step := { before : Store; ev : event; after : Store }.

Fixpoint srun {A} (oracle : nat -> Choice) (n : nat) (p : prog A) (st : Store) : list Step * A * Store :=
  match p with
  | Ret a => ([], a, st)
  | Do c k =>
      let st1 := fold_left other (ch_others (oracle n)) st in
      let '(r, st2) := serve (oracle n) st1 c in
      let '(steps, a, st3) := srun oracle (S n) (k r) st2 in
      ({| before := st1; ev := Ev c r; after := st2 |} :: steps, a, st3)
  end.

(** The steps of a handler from the start. *)
Definition steps_of {A} (oracle : nat -> Choice) (m : M A) (s : RState) (st : Store) : list Step :=
  fst (fst (srun oracle 0 (m s) st)).

Lemma srun_runs {A} oracle n (p : prog A) st :
  runs p (map ev (fst (fst (srun oracle n p st)))) (snd (fst (srun oracle n p st))).
Proof.
  revert n st. induction p as [a|c k IH]; intros n st; cbn; [done|].
  destruct (serve _ _ c) as [r st2]. specialize (IH r (S n) st2).
  destruct (srun oracle (S n) (k r) st2) as [[steps a] st3]. cbn in *. eauto.
Qed.

(** ** Versions are unique *)

Lemma update_kind_same {T : kind -> Type} (f : forall k, T k) k v : update_kind f k v k = v.
Proof. unfold update_kind. destruct (decide (k = k)) as [e|]; [|done]. by rewrite (Eqdep_dec.UIP_dec kind_eq_dec e eq_refl). Qed.
Lemma update_kind_other {T : kind -> Type} (f : forall k, T k) k v k' : k <> k' -> update_kind f k v k' = f k'.
Proof. intros H. unfold update_kind. by destruct (decide (k = k')). Qed.

Definition version_of (k : kind) (o : obj k) : string := om_resourceVersion (meta_of k o).

(** What is stored is a version there was, under its own key; versions are numbered in
    order; and a version number tells the object. *)
Record coherent (st : Store) : Prop := {
  coherent_live k key o : live st k !! key = Some o -> In o (past st k) /\ key_of k o = key;
  coherent_number k o : In o (past st k) -> exists i, i < next st /\ version_of k o = fmt.d i;
  coherent_unique k v w : In v (past st k) -> In w (past st k) -> version_of k v = version_of k w -> v = w
}.

Lemma coherent_commit k key uid o st : coherent st -> coherent (snd (commit k key uid o st)).
Proof.
  intros [Hl Hn Hu]. set (o' := fst (commit k key uid o st)).
  assert (Hv : version_of k o' = fmt.d (next st)) by (unfold version_of, o'; cbn; by rewrite meta_with_meta).
  assert (Hkey : key_of k o' = key) by (unfold key_of, o'; cbn; rewrite meta_with_meta; by destruct key).
  assert (Hp : forall x, In x (past st k) -> version_of k x <> fmt.d (next st)).
  { intros x Hx E. destruct (Hn k x Hx) as (i & Hi & E'). rewrite E in E'. apply fmt_d_inj in E'. lia. }
  split; cbn; intros k'; destruct (decide (k = k')) as [<-|Hk]; rewrite ?update_kind_same, ?(update_kind_other _ k _ k') by done.
  - intros key' x. rewrite lookup_insert_Some. intros [[<- <-]|[_ Hx]]; [split; [by left|done]|].
    apply Hl in Hx as [? ?]. split; [by right|done].
  - intros key' x Hx. by apply Hl.
  - intros x [<-|Hx]; [exists (next st); split; [lia|done]|]. destruct (Hn k x Hx) as (i & ? & ?). exists i. split; [lia|done].
  - intros x Hx. destruct (Hn k' x Hx) as (i & ? & ?). exists i. split; [lia|done].
  - intros v w [<-|Hv'] [<-|Hw'] E; [done| | |by apply Hu].
    + destruct (Hp w Hw'). exact (eq_trans (eq_sym E) Hv).
    + destruct (Hp v Hv'). exact (eq_trans E Hv).
  - apply Hu.
Qed.

Lemma commit_past k key uid (o x : obj k) st st' : commit k key uid o st = (x, st') -> In x (past st' k).
Proof. unfold commit. intros [= <- <-]. cbn. rewrite update_kind_same. by left. Qed.

Lemma commit_key k key uid (o x : obj k) st st' : commit k key uid o st = (x, st') -> key_of k x = key.
Proof. unfold commit, key_of. intros [= <- _]. rewrite meta_with_meta. by destruct key. Qed.

Lemma coherent_remove k key st : coherent st -> coherent (remove k key st).
Proof.
  intros [Hl Hn Hu]. split; cbn; [|done..]. intros k'. destruct (decide (k = k')) as [<-|Hk].
  - rewrite update_kind_same. intros key' x. rewrite lookup_delete_Some. intros [_ Hx]. by apply Hl.
  - rewrite (update_kind_other _ k _ k') by done. apply Hl.
Qed.

(** ** What a step does to the store

    [moved k key st st']: only the entry of one object changed, and no version is forgotten. *)
Definition keeps (st st' : Store) : Prop := (coherent st -> coherent st') /\ forall k, incl (past st k) (past st' k).

Definition only_at (k : kind) (key : Key) (st st' : Store) : Prop :=
  forall k' key', live st' k' !! key' <> live st k' !! key' -> k' = k /\ key' = key.

#[export] Instance keeps_preorder : PreOrder keeps.
Proof.
  split; [by intros x; split; [|intros k; apply incl_refl]|]. intros a b c [H1 H2] [H3 H4]. split; [auto|]. intros k. eapply incl_tran; [apply H2|apply H4].
Qed.

Lemma keeps_commit k key uid o st : keeps st (snd (commit k key uid o st)).
Proof.
  split; [apply coherent_commit|]. intros k'. cbn. destruct (decide (k = k')) as [<-|Hk].
  - rewrite update_kind_same. apply incl_tl, incl_refl.
  - rewrite (update_kind_other _ k _ k') by done. apply incl_refl.
Qed.

Lemma keeps_remove k key st : keeps st (remove k key st).
Proof. split; [apply coherent_remove|]. intros k'. apply incl_refl. Qed.

Lemma only_at_commit k key uid o st : only_at k key st (snd (commit k key uid o st)).
Proof.
  intros k' key' H. cbn in H. destruct (decide (k = k')) as [<-|Hk].
  - split; [done|]. rewrite update_kind_same in H. destruct (decide (key = key')) as [|Hk]; [done|].
    by rewrite lookup_insert_ne in H.
  - by rewrite (update_kind_other _ k _ k') in H.
Qed.

Lemma only_at_remove k key st : only_at k key st (remove k key st).
Proof.
  intros k' key' H. cbn in H. destruct (decide (k = k')) as [<-|Hk].
  - split; [done|]. rewrite update_kind_same in H. destruct (decide (key = key')) as [|Hk]; [done|].
    by rewrite lookup_delete_ne in H.
  - by rewrite (update_kind_other _ k _ k') in H.
Qed.

Lemma keeps_others l st : keeps st (fold_left other l st).
Proof.
  revert st. induction l as [|w l IH]; intros st; cbn; [done|]. etransitivity; [|apply IH].
  destruct w; [apply keeps_commit|apply keeps_remove].
Qed.

(** ** What a call does to the store *)

Lemma commit_live k key uid o st :
  live (snd (commit k key uid o st)) k !! key = Some (with_meta_of k (stamped key uid (fmt.d (next st)) (meta_of k o)) o).
Proof. cbn. by rewrite update_kind_same, lookup_insert_eq. Qed.

#[local] Opaque commit.

(** The object under the key of a write, with the version it was checked against. *)
Definition replaces (k : kind) (o : obj k) (st : Store) : Prop :=
  exists cur, live st k !! key_of k o = Some cur /\ om_uid (meta_of k cur) = om_uid (meta_of k o) /\ version_of k cur = version_of k o.

(** The entry under [key] was [cur], and is now [o] in a new version. *)
Definition rewritten (k : kind) (key : Key) (cur o : obj k) (st st' : Store) : Prop :=
  live st k !! key = Some cur /\
  exists version, live st' k !! key = Some (with_meta_of k (stamped key (om_uid (meta_of k cur)) version (meta_of k o)) o).

(** Where a call may change the store, when it does, and what patches and status writes make
    of the object. *)
Definition effect_of (c : Call) (st st' : Store) : Prop :=
  st' = st \/
  match c with
  | CCreate k o => only_at k (key_of k o) st st' /\ live st k !! key_of k o = None
  | CUpdate k o => only_at k (key_of k o) st st' /\ replaces k o st
  | CUpdateStatus k o => only_at k (key_of k o) st st' /\ exists cur s, rewritten k (key_of k o) cur (with_status_of k s cur) st st'
  | CDelete k o pre =>
      only_at k (key_of k o) st st' /\ exists cur, live st k !! key_of k o = Some cur /\ meets pre (meta_of k cur) = true
  | CPatch k base m => only_at k (key_of k m) st st' /\ exists cur, rewritten k (key_of k m) cur (merged k base m cur) st st'
  | CApplyStatus ns name _ =>
      only_at KMCPServer (ns, name) st st' /\ exists cur s, rewritten KMCPServer (ns, name) cur (with_status_of KMCPServer s cur) st st'
  | _ => False
  end.

Lemma answered_effect {A} ch st (eff : result (A * Store)) (P : Store -> Prop) :
  P st -> (forall x st', eff = Ok (x, st') -> P st') -> P (snd (answered ch st eff)).
Proof. intros H0 H. unfold answered. destruct eff as [[x st']|], (ch_outcome ch); cbn; eauto. Qed.

Lemma effect_update_spec ch st k o x st' : effect_update ch st k o = Ok (x, st') ->
  keeps st st' /\ only_at k (key_of k o) st st' /\ replaces k o st.
Proof.
  unfold effect_update. destruct (live st k !! key_of k o) as [cur|] eqn:E; [|done].
  destruct (_ && _) eqn:Eb; [|done]. bool_to_prop. intros [= <- <-].
  split; [apply keeps_commit|]. split; [apply only_at_commit|]. by exists cur.
Qed.

Lemma serve_effect ch st c r st' : serve ch st c = (r, st') -> keeps st st' /\ effect_of c st st'.
Proof.
  intros E. apply (f_equal snd) in E. cbn [snd] in E. subst st'.
  assert (Hsame : forall c, keeps st st /\ effect_of c st st) by (intros; split; [done|by left]).
  destruct c; try apply Hsame;
    lazymatch goal with |- context [effect_of ?c] =>
      match eval unfold serve in (serve ch st c) with context [answered ch st ?eff] =>
        apply (answered_effect ch st eff (fun st' => keeps st st' /\ effect_of c st st')); [apply Hsame|] end end; intros x st'.
  - unfold effect_create. destruct (live st k !! key_of k o) eqn:El; [done|]. intros [= <- <-].
    split; [apply keeps_commit|right]. by split; [apply only_at_commit|].
  - intros (? & ? & ?)%effect_update_spec. split; [done|by right].
  - unfold effect_delete. destruct (live st k !! key_of k o) as [cur|] eqn:El; [|done].
    destruct (meets pre (meta_of k cur)) eqn:Em; [|done]. intros [= <- <-].
    destruct (ch_finalizers ch); (split; [first [apply keeps_commit|apply keeps_remove]|right]);
      (split; [first [apply only_at_commit|apply only_at_remove]|eauto]).
  - unfold effect_apply. destruct (live st KMCPServer !! _) eqn:El; [|done]. intros [= <- <-].
    split; [apply keeps_commit|right]. split; [apply only_at_commit|]. eexists _, _. split; [done|]. eexists. apply commit_live.
  - unfold effect_patch. destruct (live st k !! key_of k modified) eqn:El; [|done]. intros [= <- <-].
    split; [apply keeps_commit|right]. split; [apply only_at_commit|]. eexists. split; [done|]. eexists. apply commit_live.
  - unfold effect_status. destruct (live st k !! key_of k o) as [cur|] eqn:El; [|done]. destruct (_ && _); [|done].
    intros [= <- <-]. split; [apply keeps_commit|right]. split; [apply only_at_commit|]. eexists _, _. split; [done|]. eexists. apply commit_live.
Qed.

(** A read answers with a version there was, under the name asked for. *)
Lemma serve_read ch st rd k key o : coherent st -> serve_get ch st rd k key = Ok o -> In o (past st k) /\ key_of k o = key.
Proof.
  intros Hc. unfold serve_get. destruct (ch_outcome ch); [|done|done].
  destruct rd; (destruct (_ : option (obj k)) as [x|] eqn:E; [|done]); intros [= <-].
  - apply nth_error_In, filter_In in E as [? Hk]. bool_to_prop. done.
  - by apply (coherent_live _ Hc).
Qed.

Lemma served_read ch st c r st' rd k ns name (o : obj k) : coherent st -> serve ch st c = (r, st') ->
  Ev c r = Ev (CGet rd k ns name) (Ok o) -> In o (past st k) /\ key_of k o = (ns, name).
Proof.
  intros Hc Es Heq. assert (c = CGet rd k ns name) as -> by congruence. cbn in Es. injection Es as Er _. subst r.
  destruct (serve_get ch st rd k (ns, name)) as [x|e] eqn:E; [|discriminate (f_equal read_error Heq)].
  apply Ev_get_inj in Heq as <-. by apply (serve_read _ _ _ _ _ _ Hc) in E.
Qed.

(** ** Steps under a discipline *)

(** What was read before is among the versions of the store, under the name asked for. *)
Definition reads_known (h : list event) (st : Store) : Prop :=
  forall rd k ns name (o : obj k), In (Ev (CGet rd k ns name) (Ok o)) h -> In o (past st k) /\ key_of k o = (ns, name).

(** So is what a patch answered, under the name it was sent for. *)
Definition patches_known (h : list event) (st : Store) : Prop :=
  forall k base m (o : obj k), In (Ev (CPatch k base m) (Ok o)) h -> In o (past st k) /\ key_of k o = key_of k m.

Lemma patches_known_mono h st st' : keeps st st' -> patches_known h st -> patches_known h st'.
Proof. intros [_ Hi] Hr k base m o Ho. apply Hr in Ho as [Ho ?]. split; [by apply Hi|done]. Qed.

(** What a successful patch sent, and what it answered. *)
Definition patched_of (k : kind) (e : event) : option (obj k * obj k) :=
  match e with
  | Ev c r =>
      match c return resp c -> option (obj k * obj k) with
      | CPatch k' _ m => fun r =>
          match r with
          | Ok o => match decide (k' = k) with left H => Some (eq_rect k' obj m k H, eq_rect k' obj o k H) | right _ => None end
          | Err _ => None
          end
      | _ => fun _ => None
      end r
  end.

Lemma patched_of_patch k base m (o : obj k) : patched_of k (Ev (CPatch k base m) (Ok o)) = Some (m, o).
Proof. cbn. destruct (decide (k = k)) as [Hk|]; [|done]. by rewrite (Eqdep_dec.UIP_dec kind_eq_dec Hk eq_refl). Qed.

Lemma served_patch ch st c r st' k base m (o : obj k) : serve ch st c = (r, st') ->
  Ev c r = Ev (CPatch k base m) (Ok o) -> In o (past st' k) /\ key_of k o = key_of k m.
Proof.
  intros Es Heq. assert (exists b' m', c = CPatch k b' m') as (b' & m' & ->) by (destruct c; try discriminate Heq; injection Heq as -> _ _ _; eauto).
  apply (f_equal (patched_of k)) in Heq. rewrite patched_of_patch in Heq. cbn in Heq, Es.
  destruct r as [x|]; [|done]. destruct (decide (k = k)) as [Hk|]; [|done]. rewrite (Eqdep_dec.UIP_dec kind_eq_dec Hk eq_refl) in Heq.
  injection Heq as -> ->. unfold answered, effect_patch in Es. destruct (ch_outcome ch), (live st k !! key_of k m) as [cur|]; try done.
  destruct (commit _ _ _ _ _) as [y st2] eqn:Ec. injection Es as -> ->. split; [by apply commit_past in Ec|by apply commit_key in Ec].
Qed.

Lemma reads_known_mono h st st' : keeps st st' -> reads_known h st -> reads_known h st'.
Proof. intros [_ Hi] Hr rd k ns name o Ho. apply Hr in Ho as [Ho ?]. split; [by apply Hi|done]. Qed.

(** Each call of a history obeyed [P] when it was made. *)
Fixpoint obeyed (P : list event -> Call -> Prop) (h : list event) : Prop :=
  match h with [] => True | Ev c _ :: h' => P h' c /\ obeyed P h' end.

(** In a run that obeys [P], each call is made after a history that obeys it, in a store
    that knows what was read. *)
Definition step_ok (P : list event -> Call -> Prop) (s : Step) : Prop :=
  exists h, (let '(Ev c _) := ev s in P h c /\ effect_of c (before s) (after s)) /\ coherent (before s) /\
    reads_known h (before s) /\ patches_known h (before s) /\ obeyed P h.

Lemma srun_guard {A} P oracle n (p : prog A) h st :
  guard P h p -> coherent st -> reads_known h st -> patches_known h st -> obeyed P h ->
  Forall (step_ok P) (fst (fst (srun oracle n p st))).
Proof.
  revert n h st. induction p as [a|c k IH]; intros n h st; cbn; [done|]. intros [Hc Hk] Hst Hr Hp Hob.
  set (st1 := fold_left other _ st). destruct (serve (oracle n) st1 c) as [r st2] eqn:Es.
  assert (K1 : keeps st st1) by apply keeps_others. assert (Hst1 : coherent st1) by by apply K1.
  pose proof (serve_effect _ _ _ _ _ Es) as [K2 He].
  assert (Hr1 : reads_known h st1) by by eapply reads_known_mono.
  assert (Hp1 : patches_known h st1) by by eapply patches_known_mono.
  specialize (IH r (S n) (Ev c r :: h) st2 (Hk r) (proj1 K2 Hst1)).
  destruct (srun oracle (S n) (k r) st2) as [[steps a] st3]. cbn in *. constructor; [by exists h|]. apply IH; [| |by split].
  - intros rd kd ns name o [Heq|Hin]; [|by eapply reads_known_mono].
    destruct (served_read _ _ _ _ _ _ _ _ _ _ Hst1 Es Heq) as [Ho ?]. split; [by apply K2|done].
  - intros kd base m o [Heq|Hin]; [by eapply served_patch|by eapply patches_known_mono].
Qed.

Lemma steps_guard {A} P oracle (m : M A) s st : mguard P m -> coherent st -> Forall (step_ok P) (steps_of oracle m s st).
Proof. intros Hm Hst. apply (srun_guard P oracle 0 (m s) []); [apply Hm|done|by intros ?????[]|by intros ????[]|done]. Qed.

(** What an update replaces is the very version it was made from. *)
Lemma replaces_read h st k (o o0 : obj k) : coherent st -> reads_known h st -> read_before h k o0 ->
  same_version (meta_of k o) (meta_of k o0) -> replaces k o st -> live st k !! key_of k o = Some o0.
Proof.
  intros Hc Hr (rd & ns & name & Ho0) (_ & _ & _ & Hv) (cur & Hl & _ & Hcv). rewrite Hl. f_equal.
  apply (coherent_unique _ Hc k); [by apply (coherent_live _ Hc) in Hl as [? _]|by apply Hr in Ho0 as [? _]|].
  unfold version_of in *. congruence.
Qed.
