(* ===== verification/Providers.v ===== *)
(** * What the gateway providers share (internal/controller/providers/gateway.go, predicates.go)

    A provider controller turns an MCPGatewayBinding of its own provider into gateway
    objects and reports on it in the binding's status.  This file holds the steps both
    providers use: checking host names, reading a Gateway's address and scheme,
    judging a route, writing the binding's status and its reverse-index annotations,
    and keeping an object the binding owns in its desired state ([createOrUpdate], the
    body the two controllers repeat per kind).

    The provider reconcilers keep no memory between passes, so the state that [M]
    threads is only passed through here. *)

From Stdlib Require Import Ascii.
From S2P Require Import Prelude K8s GatewayApi ApiAlpha ApiBeta Interact Conditions Ownership Service Gateway GoNet ConfigHash Handshake Reconcile.

Definition maxHostnameLength : nat := 253.
Definition maxLabelLength : nat := 63.

Definition SchemeHTTP : string := "http".
Definition SchemeHTTPS : string := "https".

Definition ReasonPublicAddressPending : string := "PublicAddressPending".

Definition MCPGatewayBindingKind : string := "MCPGatewayBinding".

Definition AnnotationGatewayRef : string := "mcp.x-k8s.io/gateway-ref".
Definition AnnotationServiceRef : string := "mcp.x-k8s.io/service-ref".
Definition AnnotationExtensionRef : string := "mcp.x-k8s.io/extension-ref".

(** ** Gateways and routes *)

Definition isParentAccepted (parent : RouteParentStatus) : bool :=
  existsb (fun cond => (c_type cond == RouteConditionAccepted) && (c_status cond == ConditionTrue)) (rps_conditions parent).

Definition ProtocolToScheme (protocol : string) : string :=
  if (protocol == HTTPSProtocolType) || (protocol == TLSProtocolType) then SchemeHTTPS else SchemeHTTP.

(** The namespace a parent reference of [route] points to. *)
Definition parentNamespace (route : HTTPRoute) (ref : ParentReference) : string :=
  default (om_namespace (route_meta route)) (pref_namespace ref).

(** One iteration over the conditions: what [accepted] and [resolvedRefs] become. *)
Definition judgeCondition (generation : Z) (acc : bool * bool) (cond : Condition) : bool * bool :=
  if c_observedGeneration cond <? generation then acc
  else
    let '(accepted, resolvedRefs) := acc in
    (if (c_type cond == RouteConditionAccepted) && (c_status cond == ConditionTrue) then true else accepted,
     if (c_type cond == RouteConditionResolvedRefs) && (c_status cond == ConditionTrue) then true else resolvedRefs).

Fixpoint acceptedByParents (route : HTTPRoute) (gwName gwNamespace : string) (parents : list RouteParentStatus) : bool :=
  match parents with
  | [] => false
  | parent :: rest =>
      if pref_name (rps_parentRef parent) != gwName then acceptedByParents route gwName gwNamespace rest
      else if parentNamespace route (rps_parentRef parent) != gwNamespace then acceptedByParents route gwName gwNamespace rest
      else
        let '(accepted, resolvedRefs) :=
          fold_left (judgeCondition (om_generation (route_meta route))) (rps_conditions parent) (false, false) in
        if accepted && resolvedRefs then true else acceptedByParents route gwName gwNamespace rest
  end.

Definition IsHTTPRouteAccepted (route : HTTPRoute) (gwName gwNamespace : string) : bool :=
  acceptedByParents route gwName gwNamespace (route_parents route).

Definition FormatHost (host : string) : string :=
  match net.ParseZonedAddr host with
  | Some addr => if net.Is6 addr then "[" +:+ host +:+ "]" else host
  | None => host
  end.

(** The address loop, with the first IP seen so far. *)
Fixpoint firstAddress (addrs : list GatewayStatusAddress) (firstIP : string) : string :=
  match addrs with
  | [] => firstIP
  | addr :: rest =>
      if ga_type addr == Some HostnameAddressType then ga_value addr
      else firstAddress rest
        (if firstIP == "" then
           match ga_type addr with
           | None => ga_value addr
           | Some t => if t == IPAddressType then ga_value addr else firstIP
           end
         else firstIP)
  end.

Definition GatewayAddress (gwName gwNamespace : string) : M (result string) :=
  got ← call (CGet Cached KGateway gwNamespace gwName);
  match got with
  | Err e => if IsNotFound e then mret (Ok "")
             else mret (Err (Wrap ("failed to get Gateway " +:+ gwNamespace +:+ "/" +:+ gwName +:+ ": ") e))
  | Ok gw => mret (Ok (firstAddress (gtw_addresses gw) ""))
  end.

(** The scheme once the accepting Gateway is known. *)
Definition schemeOfGateway (gw : Gateway) (sectionName : option string) : string :=
  let bySection := match sectionName with
                   | Some sn => List.find (fun l => lis_name l == sn) (gtw_listeners gw)
                   | None => None
                   end in
  match bySection with
  | Some listener => ProtocolToScheme (lis_protocol listener)
  | None =>
      if existsb (fun l => (lis_protocol l == HTTPSProtocolType) || (lis_protocol l == TLSProtocolType)) (gtw_listeners gw)
      then SchemeHTTPS else SchemeHTTP
  end.

Fixpoint schemeFromParents (route : HTTPRoute) (gwName gwNamespace : string) (parents : list RouteParentStatus) : M (result string) :=
  match parents with
  | [] => mret (Ok SchemeHTTP)
  | parent :: rest =>
      if negb (isParentAccepted parent) then schemeFromParents route gwName gwNamespace rest
      else if pref_name (rps_parentRef parent) != gwName then schemeFromParents route gwName gwNamespace rest
      else if parentNamespace route (rps_parentRef parent) != gwNamespace then schemeFromParents route gwName gwNamespace rest
      else
        got ← call (CGet Cached KGateway gwNamespace gwName);
        match got with
        | Err e => if IsNotFound e then mret (Ok SchemeHTTP)
                   else mret (Err (Wrap ("failed to get Gateway " +:+ gwNamespace +:+ "/" +:+ gwName +:+ ": ") e))
        | Ok gw => mret (Ok (schemeOfGateway gw (pref_sectionName (rps_parentRef parent))))
        end
  end.

Definition SchemeFromAcceptedRoute (route : HTTPRoute) (gwName gwNamespace : string) : M (result string) :=
  schemeFromParents route gwName gwNamespace (route_parents route).

Definition RefKey (namespace name : string) : string := namespace +:+ "/" +:+ name.

Definition bindingKey (b : MCPGatewayBinding) : Request := (om_namespace (mgb_meta b), om_name (mgb_meta b)).

(** [binding.Annotations[k]] *)
Definition annotation (b : MCPGatewayBinding) (k : string) : string := default "" (mget (om_annotations (mgb_meta b)) k).

(** The predicate on the objects of a watch; [None] is an object of another type. *)
Definition MatchesProvider (name : string) (o : option MCPGatewayBinding) : bool :=
  match o with Some binding => mgb_provider (mgb_spec binding) == name | None => false end.

(** The requests for the listed bindings of a provider that [sel] selects. *)
Definition selectBindings (provider : string) (sel : MCPGatewayBinding -> bool) (items : list MCPGatewayBinding) : list Request :=
  map bindingKey (List.filter (fun b => (mgb_provider (mgb_spec b) == provider) && sel b) items).

Definition FindBindingsForService (provider : string) (service : ObjectMeta) : M (list Request) :=
  got ← call (CList KBinding (Some (om_namespace service)));
  match got with
  | Err _ => mret []
  | Ok items =>
      let ref := RefKey (om_namespace service) (om_name service) in
      mret (selectBindings provider (fun b => annotation b AnnotationServiceRef == ref) items)
  end.

(** ** Objects owned by a binding

    The kinds a provider creates for a binding: a spec it compares and replaces as a
    whole, beside the metadata. *)
Class Owned (k : kind) := {
  ospec : Type;
  ospec_eq_dec : EqDecision ospec;
  spec_of : obj k -> ospec;
  set_spec : ospec -> obj k -> obj k;
  set_meta : ObjectMeta -> obj k -> obj k;
  noun : string
}.
#[export] Existing Instance ospec_eq_dec.

Class OwnedLaws (k : kind) `{Owned k} : Prop := {
  meta_set_meta m o : meta_of k (set_meta m o) = m;
  meta_set_spec sp o : meta_of k (set_spec sp o) = meta_of k o;
  spec_set_spec sp o : spec_of (set_spec sp o) = sp;
  spec_set_meta m o : spec_of (set_meta m o) = spec_of o;
  set_same o : set_spec (spec_of o) (set_meta (meta_of k o) o) = o
}.

#[export] Instance Owned_HTTPRoute : Owned KHTTPRoute := {|
  ospec := HTTPRouteSpec;
  ospec_eq_dec := HTTPRouteSpec_eq_dec;
  spec_of := (route_spec : obj KHTTPRoute -> HTTPRouteSpec);
  set_spec := fun sp (o : obj KHTTPRoute) => {| route_meta := route_meta o; route_spec := sp; route_parents := route_parents o |};
  set_meta := fun m (o : obj KHTTPRoute) => {| route_meta := m; route_spec := route_spec o; route_parents := route_parents o |};
  noun := "HTTPRoute"
|}.

#[export] Instance Owned_MCPServerRegistration : Owned KRegistration := {|
  ospec := MCPServerRegistrationSpec;
  ospec_eq_dec := MCPServerRegistrationSpec_eq_dec;
  spec_of := (reg_spec : obj KRegistration -> MCPServerRegistrationSpec);
  set_spec := fun sp (o : obj KRegistration) => {| reg_meta := reg_meta o; reg_spec := sp; reg_status := reg_status o |};
  set_meta := fun m (o : obj KRegistration) => {| reg_meta := m; reg_spec := reg_spec o; reg_status := reg_status o |};
  noun := "MCPServerRegistration"
|}.

#[export] Instance OwnedLaws_HTTPRoute : OwnedLaws KHTTPRoute.
Proof. split; try done. by intros []. Qed.
#[export] Instance OwnedLaws_MCPServerRegistration : OwnedLaws KRegistration.
Proof. split; try done. by intros []. Qed.

Section with_vendor.
Context `{V : Vendor}.

Definition ValidateHostname (value : string) : option error :=
  if value == "" then Some (Errorf "hostname must not be empty")
  else match net.ParseZonedAddr value with
  | Some _ => Some (Errorf ("hostname " +:+ fmt.q value +:+ " must be a DNS name, not an IP address"))
  | None =>
      if (maxHostnameLength <? String.length value)%nat
      then Some (Errorf ("hostname " +:+ fmt.q value +:+ " exceeds the maximum length of 253 characters"))
      else
        let toCheck := strings.TrimPrefix value "*." in
        match IsDNS1123Subdomain toCheck with
        | _ :: _ as errs => Some (Errorf ("hostname " +:+ fmt.q value +:+ " is not a valid DNS name: " +:+ strings.Join errs "; "))
        | [] =>
            if existsb (fun label => (maxLabelLength <? String.length label)%nat) (strings.SplitByte "."%char toCheck)
            then Some (Errorf ("hostname " +:+ fmt.q value +:+ " has a DNS label longer than 63 characters"))
            else None
        end
  end.

Definition with_binding_status (st : MCPGatewayBindingStatus) (b : MCPGatewayBinding) : MCPGatewayBinding :=
  {| mgb_meta := mgb_meta b; mgb_spec := mgb_spec b; mgb_status := st |}.

(** The condition the status update asks for; its transition time is left unset. *)
Definition registeredCondition (binding : MCPGatewayBinding) (status reason message : string) : Condition :=
  {| c_type := ConditionTypeRegistered; c_status := status; c_reason := reason; c_message := message;
     c_observedGeneration := om_generation (mgb_meta binding); c_lastTransitionTime := 0 |}.

(** The status already says all of this about this generation. *)
Definition statusUpToDate (binding : MCPGatewayBinding) (status reason message url : string) : bool :=
  match FindStatusCondition (mgb_conditions (mgb_status binding)) ConditionTypeRegistered with
  | Some existing =>
      (c_status existing == status) && (c_reason existing == reason) && (c_message existing == message)
      && (mgb_url (mgb_status binding) == url)
      && (c_observedGeneration existing =? om_generation (mgb_meta binding))
  | None => false
  end.

Definition UpdateBindingStatus (binding : MCPGatewayBinding) (status reason message url : string) : M (option error) :=
  if statusUpToDate binding status reason message url then mret None
  else
    now ← call CNow;
    call (CUpdateStatus KBinding (with_binding_status
      {| mgb_url := url;
         mgb_conditions := SetStatusCondition (mgb_conditions (mgb_status binding))
                             (registeredCondition binding status reason message) now |} binding)).

(** The binding as the API server answered the patch; unchanged without one. *)
Definition EnsureBindingAnnotations (binding : MCPGatewayBinding) (desired : gmap string string) : M (result MCPGatewayBinding) :=
  let changed := existsb (fun '(k, v) => annotation binding k != v) (map_to_list desired) in
  if negb changed then mret (Ok binding)
  else
    let annotations := desired ∪ view (om_annotations (mgb_meta binding)) in
    call (CPatch KBinding binding (with_mgb_meta (with_annotations (Some annotations) (mgb_meta binding)) binding)).

(** Returns the binding with the endpoint, or the error of the patch. *)
Definition ResolveAndRecordBackendService (binding : MCPGatewayBinding) (server : MCPServer)
    : M (result (MCPGatewayBinding * ServiceEndpoint * option error)) :=
  resolved ← ResolveServiceEndpoint Direct server;
  let '(endpoint, resolveErr) := resolved in
  binding' ←? EnsureBindingAnnotations binding
    {[ AnnotationServiceRef := RefKey (om_namespace (srv_meta server)) (ep_name endpoint) ]};
  mret (Ok (binding', endpoint, resolveErr)).

(** [controllerutil.SetControllerReference(binding, obj, r.Scheme)] *)
Definition bindingController (binding : MCPGatewayBinding) (o : ObjectMeta) : result ObjectMeta :=
  SetControllerReference MCPServerAPIVersion MCPGatewayBindingKind (mgb_meta binding) o.

(** The references held as [ownersBefore], read after [SetControllerReference]. *)
Definition ownersBefore (binding : MCPGatewayBinding) (o : ObjectMeta) : list OwnerReference :=
  OwnersAlias MCPServerAPIVersion MCPGatewayBindingKind (mgb_meta binding) o.

Definition createOrUpdate (k : kind) `{O : Owned k} (binding : MCPGatewayBinding) (desired : obj k) : M (option error) :=
  match bindingController binding (meta_of k desired) with
  | Err e => mret (Some (Wrap ("setting controller reference on " +:+ noun +:+ ": ") e))
  | Ok m =>
      got ← call (CGet Cached k (om_namespace m) (om_name m));
      match got with
      | Err e =>
          if IsNotFound e then
            created ← call (CCreate k (set_meta m desired));
            match created with Err createErr => mret (Some createErr) | Ok _ => mret None end
          else mret (Some e)
      | Ok existing =>
          match bindingController binding (meta_of k existing) with
          | Err e => mret (Some (Wrap ("setting controller reference on existing " +:+ noun +:+ ": ") e))
          | Ok m' =>
              let ownersChanged := ownersBefore binding (meta_of k existing) != om_ownerReferences m' in
              if ownersChanged || (spec_of existing != spec_of desired) then
                updated ← call (CUpdate k (set_spec (spec_of desired) (set_meta m' existing)));
                match updated with Err updateErr => mret (Some updateErr) | Ok _ => mret None end
              else mret None
          end
      end
  end.

(** Removes the binding's object of kind [k], when there is one and the binding controls it. *)
Definition deleteStale (k : kind) `{O : Owned k} (binding : MCPGatewayBinding) : M (option error) :=
  got ← call (CGet Cached k (om_namespace (mgb_meta binding)) (om_name (mgb_meta binding)));
  match got with
  | Err e => if IsNotFound e then mret None else mret (Some (Wrap ("checking for stale " +:+ noun +:+ ": ") e))
  | Ok o =>
      if IsControlledBy (meta_of k o) (mgb_meta binding) then
        deleted ← call (CDelete k o None);
        match deleted with
        | Some e => if IsNotFound e then mret None else mret (Some (Wrap ("deleting stale " +:+ noun +:+ ": ") e))
        | None => mret None
        end
      else mret None
  end.

End with_vendor.

(** The HTTPRoute spec both providers ask for: one parent, one path rule, one backend. *)
Definition routeSpec (gwName gwNamespace : string) (sectionName : option string) (hostnames : list string)
    (path : string) (endpoint : ServiceEndpoint) : HTTPRouteSpec :=
  {| hrs_parentRefs := [{| pref_group := Some GatewayGroupName; pref_kind := Some "Gateway"; pref_namespace := Some gwNamespace;
                           pref_name := gwName; pref_sectionName := sectionName; pref_port := None |}];
     hrs_hostnames := hostnames;
     hrs_rules := [{| rule_matches := [{| rm_path := Some {| pm_type := Some PathMatchPathPrefix; pm_value := Some path |};
                                          rm_other := "" |}];
                      rule_backendRefs := [{| br_group := Some ""; br_kind := Some "Service"; br_name := ep_name endpoint;
                                              br_namespace := None; br_port := Some (ep_port endpoint);
                                              br_weight := Some 1; br_other := "" |}];
                      rule_other := "" |}];
     hrs_other := "" |}.

(** [mcpServer.Spec.Config.Path], with the default *)
Definition serverPath (mcpServer : MCPServer) : string :=
  if cfg_path (spec_config (srv_spec mcpServer)) == "" then DefaultMCPPath else cfg_path (spec_config (srv_spec mcpServer)).

(** ** Host names *)

(** A DNS name, possibly below a wildcard label, within the limits of RFC 1123. *)
Definition valid_hostname `{V : Vendor} (h : string) : Prop :=
  h <> "" /\ net.ParseZonedAddr h = None /\ (String.length h <= 253)%nat /\
  IsDNS1123Subdomain (strings.TrimPrefix h "*.") = [] /\
  Forall (fun label => (String.length label <= 63)%nat) (strings.SplitByte "."%char (strings.TrimPrefix h "*.")).

Lemma existsb_false {A} (f : A -> bool) l : existsb f l = false <-> Forall (fun x => f x = false) l.
Proof.
  induction l as [|x l IH]; cbn; [by split; [constructor|]|].
  rewrite orb_false_iff, IH, Forall_cons. done.
Qed.

Lemma ValidateHostname_None `{V : Vendor} h : ValidateHostname h = None <-> valid_hostname h.
Proof.
  unfold ValidateHostname, valid_hostname, maxHostnameLength, maxLabelLength.
  case_bool_decide as Hne; [naive_solver|].
  destruct (net.ParseZonedAddr h); [naive_solver|].
  destruct (Nat.ltb_spec 253 (String.length h)) as [Hl|Hl]; [split; [done|]; intros (_ & _ & ? & _); lia|].
  destruct (IsDNS1123Subdomain _) as [|er ers] eqn:Ed; [|naive_solver].
  destruct (existsb _ _) eqn:Ee.
  - split; [done|]. intros (_ & _ & _ & _ & Hf). apply existsb_exists in Ee as (x & Hx & Hlt).
    rewrite List.Forall_forall in Hf. specialize (Hf x Hx). apply Nat.ltb_lt in Hlt. lia.
  - apply existsb_false in Ee. split; [|done]. intros _. split_and!; try done.
    eapply Forall_impl; [exact Ee|]. intros x Hx%Nat.ltb_ge. done.
Qed.

Lemma FormatHost_dns `{V : Vendor} h : valid_hostname h -> FormatHost h = h.
Proof. intros (_ & H & _). unfold FormatHost. by rewrite H. Qed.

(** ** Route acceptance *)

Definition condition_current (generation : Z) (t : string) (conds : list Condition) : Prop :=
  exists c, In c conds /\ c_type c = t /\ c_status c = ConditionTrue /\ generation <= c_observedGeneration c.

(** A parent of the route that is the given Gateway reports, for the current
    generation of the route, both Accepted and ResolvedRefs. *)
Definition accepted_by (route : HTTPRoute) (gwName gwNamespace : string) : Prop :=
  exists parent, In parent (route_parents route) /\
    pref_name (rps_parentRef parent) = gwName /\ parentNamespace route (rps_parentRef parent) = gwNamespace /\
    condition_current (om_generation (route_meta route)) RouteConditionAccepted (rps_conditions parent) /\
    condition_current (om_generation (route_meta route)) RouteConditionResolvedRefs (rps_conditions parent).

Definition is_current (generation : Z) (t : string) (c : Condition) : bool :=
  negb (c_observedGeneration c <? generation) && ((c_type c == t) && (c_status c == ConditionTrue)).

Lemma is_current_spec g t c :
  is_current g t c = true <-> c_type c = t /\ c_status c = ConditionTrue /\ g <= c_observedGeneration c.
Proof. unfold is_current. rewrite !andb_true_iff, negb_true_iff, Z.ltb_ge, !bool_decide_eq_true. tauto. Qed.

Lemma fold_current (sel : bool * bool -> bool) g t conds acc :
  (forall acc c, sel (judgeCondition g acc c) = sel acc || is_current g t c) ->
  sel (fold_left (judgeCondition g) conds acc) = true <-> sel acc = true \/ condition_current g t conds.
Proof.
  intros Hstep. revert acc. induction conds as [|c conds IH]; intros acc; cbn.
  - split; [auto|]. intros [?|(? & [] & _)]. done.
  - rewrite IH, Hstep, orb_true_iff, is_current_spec. unfold condition_current. cbn. split.
    + intros [[?|?]|(c' & ? & ?)]; eauto 6.
    + intros [?|(c' & [<-|?] & ?)]; eauto 6.
Qed.

Lemma judge_accepted g acc c : fst (judgeCondition g acc c) = fst acc || is_current g RouteConditionAccepted c.
Proof.
  unfold judgeCondition, is_current. destruct acc as [a r]. destruct (_ <? _); cbn; [by rewrite orb_false_r|].
  destruct (_ && _); by rewrite ?orb_true_r, ?orb_false_r.
Qed.

Lemma judge_resolved g acc c : snd (judgeCondition g acc c) = snd acc || is_current g RouteConditionResolvedRefs c.
Proof.
  unfold judgeCondition, is_current. destruct acc as [a r]. destruct (_ <? _); cbn; [by rewrite orb_false_r|].
  destruct ((c_type c == RouteConditionResolvedRefs) && _); by rewrite ?orb_true_r, ?orb_false_r.
Qed.

Lemma IsHTTPRouteAccepted_spec route gwName gwNamespace :
  IsHTTPRouteAccepted route gwName gwNamespace = true <-> accepted_by route gwName gwNamespace.
Proof.
  unfold IsHTTPRouteAccepted, accepted_by. induction (route_parents route) as [|p ps IH]; cbn.
  - split; [done|]. by intros (? & [] & _).
  - assert (Hskip : forall Q : RouteParentStatus -> Prop, ~ Q p -> (exists x, In x ps /\ Q x) <-> (exists x, (p = x \/ In x ps) /\ Q x)).
    { intros Q HQ. split; [intros (x & ? & ?); eauto|]. intros (x & [<-|?] & ?); [done|eauto]. }
    case_bool_decide as Hn; cbn; [|by rewrite IH, <- Hskip by tauto].
    case_bool_decide as Hns; cbn; [|by rewrite IH, <- Hskip by tauto].
    pose proof (fold_current fst (om_generation (route_meta route)) _ (rps_conditions p) (false, false) (judge_accepted _)) as Ha.
    pose proof (fold_current snd (om_generation (route_meta route)) _ (rps_conditions p) (false, false) (judge_resolved _)) as Hr.
    destruct (fold_left _ _ _) as [a r]. cbn in Ha, Hr. destruct (a && r) eqn:E.
    + apply andb_true_iff in E as [-> ->]. split; [intros _|done]. exists p.
      destruct Ha as [[|Ha] _]; [done|done|]. destruct Hr as [[|Hr] _]; [done|done|]. auto 10.
    + rewrite IH, <- Hskip; [done|]. intros (_ & _ & Hx1 & Hx2). by rewrite (proj2 Ha), (proj2 Hr) in E by auto.
Qed.
