(* ===== verification/ProviderSafety.v ===== *)
(** * What a gateway provider may write

    [provider_write] is the discipline of the calls of a provider's pass over one
    binding, judged against what was read before: which object a write was based on,
    who controls it, and what backs a Registered=True.  It is parametrised by what the
    provider may ask for ([desired]) and by what justifies a published URL
    ([justified]); the lemmas here prove it for the steps the providers share, in the
    shape "the rest of the pass obeys it from any longer history". *)

From S2P Require Import Prelude K8s GatewayApi ApiAlpha ApiBeta StatusAC Interact Conditions Ownership Service Gateway ConfigHash Handshake Reconcile Providers.

(** The binding as read at the start of the pass or as answered by a patch. *)
Definition binding_seen (req : Request) (h : list event) (b : MCPGatewayBinding) : Prop :=
  In (Ev (CGet Cached KBinding (fst req) (snd req)) (Ok b)) h \/
  exists base m, In (Ev (CPatch KBinding base m) (Ok b)) h.

Definition controlled_by (b : MCPGatewayBinding) (o : ObjectMeta) : Prop :=
  exists ref, GetControllerOf o = Some ref /\ or_uid ref = om_uid (mgb_meta b) /\
    or_name ref = om_name (mgb_meta b) /\ or_kind ref = MCPGatewayBindingKind.

(** No other owner controls it: no controller at all, or a binding of this name. *)
Definition adoptable (b : MCPGatewayBinding) (o : ObjectMeta) : Prop :=
  forall ref, GetControllerOf o = Some ref -> or_kind ref = MCPGatewayBindingKind /\ or_name ref = om_name (mgb_meta b).

Definition index_keys : list string := [AnnotationGatewayRef; AnnotationServiceRef; AnnotationExtensionRef].

(** Only the reverse-index annotations differ, and none is removed. *)
Definition reindexed (base m : MCPGatewayBinding) : Prop :=
  m = with_mgb_meta (with_annotations (om_annotations (mgb_meta m)) (mgb_meta base)) base /\
  (forall k, ~ In k index_keys -> mget (om_annotations (mgb_meta m)) k = mget (om_annotations (mgb_meta base)) k) /\
  (forall k, is_Some (mget (om_annotations (mgb_meta base)) k) -> is_Some (mget (om_annotations (mgb_meta m)) k)).

Definition status_of (b : MCPGatewayBinding) : list Condition := mgb_conditions (mgb_status b).

(** [o] is [b] with a status whose Registered condition is about [b]'s generation;
    True needs a justification of the URL, and without it no URL is published. *)
Definition reports (justified : string -> Prop) (b o : MCPGatewayBinding) : Prop :=
  o = with_binding_status (mgb_status o) b /\
  (forall t, t <> ConditionTypeRegistered -> FindStatusCondition (status_of o) t = FindStatusCondition (status_of b) t) /\
  exists c, FindStatusCondition (status_of o) ConditionTypeRegistered = Some c /\
    c_observedGeneration c = om_generation (mgb_meta b) /\
    (c_status c = ConditionTrue /\ justified (mgb_url (mgb_status o)) \/
     c_status c = ConditionFalse /\ mgb_url (mgb_status o) = "").

(** [o] was read under the binding's name, in its namespace. *)
Definition read_named (h : list event) (b : MCPGatewayBinding) (k : kind) (o : obj k) : Prop :=
  In (Ev (CGet Cached k (om_namespace (mgb_meta b)) (om_name (mgb_meta b))) (Ok o)) h.

Lemma read_named_before h b k (o : obj k) : read_named h b k o -> read_before h k o.
Proof. intros H. by do 3 eexists. Qed.

(** The scheme a client has to use: https when a listener that may serve it is secured. *)
Definition secured (l : Listener) : bool := existsb (String.eqb (lis_protocol l)) ["HTTPS"; "TLS"].
Definition servedScheme (ls : list Listener) : string := if existsb secured ls then "https" else "http".

(** The listener a route names, or all of the Gateway when it names none that is there. *)
Definition servingListeners (gw : GatewayApi.Gateway) (sectionName : option string) : list Listener :=
  match sectionName ≫= fun sn => List.find (fun l => lis_name l == sn) (gtw_listeners gw) with
  | Some l => [l]
  | None => gtw_listeners gw
  end.

Lemma secured_spec l : secured l = (lis_protocol l == HTTPSProtocolType) || (lis_protocol l == TLSProtocolType).
Proof.
  unfold secured. cbn. rewrite orb_false_r.
  assert (Heq : forall s t, String.eqb s t = bool_decide (s = t))
    by (intros s t; destruct (String.eqb_spec s t); [by rewrite bool_decide_true|by rewrite bool_decide_false]).
  by rewrite !Heq.
Qed.

Lemma ProtocolToScheme_served l : ProtocolToScheme (lis_protocol l) = servedScheme [l].
Proof. unfold servedScheme. cbn [existsb]. rewrite orb_false_r, secured_spec. done. Qed.

Lemma schemeOfGateway_served gw sectionName : schemeOfGateway gw sectionName = servedScheme (servingListeners gw sectionName).
Proof.
  assert (Hall : forall ls, existsb (fun l => (lis_protocol l == HTTPSProtocolType) || (lis_protocol l == TLSProtocolType)) ls
                            = existsb secured ls).
  { induction ls as [|l ls IH]; cbn [existsb]; [done|]. by rewrite IH, secured_spec. }
  unfold schemeOfGateway, servingListeners. rewrite Hall. destruct sectionName as [sn|]; cbn [mbind option_bind]; [|done].
  destruct (List.find _ _); [apply ProtocolToScheme_served|done].
Qed.

Definition provider_write (req : Request) (desired : list event -> forall k, obj k -> Prop)
    (justified : list event -> MCPGatewayBinding -> string -> Prop) (h : list event) (c : Call) : Prop :=
  match c with
  | CCreate k o =>
      desired h k o /\ absent_before h k (om_namespace (meta_of k o)) (om_name (meta_of k o)) /\
      exists b, binding_seen req h b /\ controlled_by b (meta_of k o) /\
        om_name (meta_of k o) = om_name (mgb_meta b) /\ om_namespace (meta_of k o) = om_namespace (mgb_meta b)
  | CUpdate k o =>
      desired h k o /\
      exists b o0, binding_seen req h b /\ read_named h b k o0 /\ adoptable b (meta_of k o0) /\
        controlled_by b (meta_of k o) /\ same_version (meta_of k o) (meta_of k o0) /\
        meta_of k o = with_owners (om_ownerReferences (meta_of k o)) (meta_of k o0)
  | CDelete k o _ =>
      (k = KHTTPRoute \/ k = KRegistration) /\
      exists b, binding_seen req h b /\ read_named h b k o /\ IsControlledBy (meta_of k o) (mgb_meta b) = true
  | CPatch k base m =>
      match k return obj k -> obj k -> Prop with
      | KBinding => fun base m => binding_seen req h base /\ reindexed base m
      | _ => fun _ _ => False
      end base m
  | CUpdateStatus k o =>
      match k return obj k -> Prop with
      | KBinding => fun o => exists b, binding_seen req h b /\ reports (justified h b) b o
      | _ => fun _ => False
      end o
  | CApplyStatus _ _ _ => False
  | _ => True
  end.

Lemma provider_no_write req D J h c : no_write c -> provider_write req D J h c.
Proof. by destruct c. Qed.

Section steps.
Context `{V : Vendor} {L : VendorLaws V}.
Context (req : Request) (D : list event -> forall k, obj k -> Prop) (J : list event -> MCPGatewayBinding -> string -> Prop).

Abbreviation P := (provider_write req D J).

Lemma binding_seen_mono h h' b : incl h h' -> binding_seen req h b -> binding_seen req h' b.
Proof. intros Hi [H|(x & y & H)]; [left|right]; eauto. Qed.

(** A read, whatever it answers, then the rest. *)
Lemma safe_read {B} c (f : resp c -> M B) s h :
  no_write c -> (forall r, guard P (Ev c r :: h) (f r s)) -> guard P h ((call c ≫= f) s).
Proof. intros Hc Hf. apply guard_call; [by apply provider_no_write|done]. Qed.

(** A part of the pass that only reads. *)
Lemma safe_reads {A B} (m : M A) (f : A -> M B) s h :
  mcalls no_write m -> (forall tr a s', guard P (rev tr ++ h) (f a s')) -> guard P h ((m ≫= f) s).
Proof.
  intros Hm Hf. apply guard_bind_hist; [|by intros tr [a s'] _; apply Hf].
  eapply (mguard_calls P no_write m); [apply provider_no_write|exact Hm].
Qed.

Lemma with_status_reports justified b status reason message url now :
  (status = ConditionTrue /\ justified url \/ status = ConditionFalse /\ url = "") ->
  reports justified b (with_binding_status
    {| mgb_url := url; mgb_conditions := SetStatusCondition (status_of b) (registeredCondition b status reason message) now |} b).
Proof.
  intros Hs. split; [done|]. split.
  - intros t Ht. by apply SetStatusCondition_other.
  - destruct (SetStatusCondition_set (status_of b) (registeredCondition b status reason message) now)
      as (c & Hc & Hst & _ & _ & Hg). exists c. rewrite Hst, Hg. auto.
Qed.

Lemma safe_UpdateBindingStatus b status reason message url s h :
  binding_seen req h b ->
  (status = ConditionTrue /\ (forall h', incl h h' -> J h' b url) \/ status = ConditionFalse /\ url = "") ->
  guard P h (UpdateBindingStatus b status reason message url s).
Proof.
  intros Hb Hs. unfold UpdateBindingStatus. destruct (statusUpToDate _ _ _ _ _); [done|].
  apply safe_read; [done|]. intros now. split; [|done]. exists b. split.
  - eapply binding_seen_mono; [|exact Hb]. apply incl_tl, incl_refl.
  - apply with_status_reports. destruct Hs as [[? HJ]|?]; [left; split; [done|]; apply HJ, incl_tl, incl_refl|auto].
Qed.

(** The status update closing a pass: its answer is the pass's. *)
Lemma safe_status_end {B} b status reason message url (f : option error -> B) s h :
  binding_seen req h b ->
  (status = ConditionTrue /\ (forall h', incl h h' -> J h' b url) \/ status = ConditionFalse /\ url = "") ->
  guard P h ((e ← UpdateBindingStatus b status reason message url; mret (f e) : M B) s).
Proof. intros Hb Hs. apply guard_bind; [by apply safe_UpdateBindingStatus|]. by intros h' [e s']. Qed.

Lemma desired_annotations b (d : gmap string string) :
  (forall k v, d !! k = Some v -> In k index_keys) ->
  reindexed b (with_mgb_meta (with_annotations (Some (d ∪ view (om_annotations (mgb_meta b)))) (mgb_meta b)) b).
Proof.
  intros Hd. split; [done|]. split; intros k Hk; unfold mget in *; cbn in *; rewrite lookup_union.
  - destruct (d !! k) eqn:E; [by apply Hd in E|]. by rewrite left_id by apply _.
  - destruct Hk as [v ->]. destruct (d !! k); by eexists.
Qed.

Lemma safe_EnsureBindingAnnotations {B} b (d : gmap string string) (f : result MCPGatewayBinding -> M B) s h :
  binding_seen req h b -> (forall k v, d !! k = Some v -> In k index_keys) ->
  (forall b' h' s', incl h h' -> binding_seen req h' b' -> guard P h' (f (Ok b') s')) ->
  (forall e h' s', guard P h' (f (Err e) s')) ->
  guard P h ((EnsureBindingAnnotations b d ≫= f) s).
Proof.
  intros Hb Hd Hok Herr. unfold EnsureBindingAnnotations.
  destruct (negb _); [apply (Hok b h s); [apply incl_refl|done]|].
  apply guard_call; [split; [done|by apply desired_annotations]|]. intros [b'|e]; [|apply Herr].
  apply Hok; [apply incl_tl, incl_refl|]. right. eexists _, _. left. reflexivity.
Qed.

Lemma safe_ResolveAndRecord {B} b srv (f : result (MCPGatewayBinding * ServiceEndpoint * option error) -> M B) s h :
  binding_seen req h b ->
  (forall b' ep e h' s', incl h h' -> binding_seen req h' b' -> ep_name ep = serviceNameFor srv ->
     guard P h' (f (Ok (b', ep, e)) s')) ->
  (forall e h' s', guard P h' (f (Err e) s')) ->
  guard P h ((ResolveAndRecordBackendService b srv ≫= f) s).
Proof.
  intros Hb Hok Herr. unfold ResolveAndRecordBackendService. apply guard_bind_assoc.
  apply guard_bind_mwp; [eapply (mguard_calls P no_write); [apply provider_no_write|apply ResolveServiceEndpoint_reads]|].
  eapply mwp_mono; [apply mwp_ResolveServiceEndpoint_name|]. intros tr [ep er] s1 [Hep ->]. cbn in Hep.
  apply guard_bind_assoc, safe_EnsureBindingAnnotations.
  - eapply binding_seen_mono; [|exact Hb]. by apply incl_appr, incl_refl.
  - intros k v. rewrite lookup_singleton_Some. intros [<- _]. cbn. auto.
  - intros b' h' s' Hi Hb'. cbn. apply Hok; [|done..]. eapply incl_tran; [|exact Hi]. by apply incl_appr, incl_refl.
  - intros e h' s'. apply Herr.
Qed.

Lemma bindingController_spec b o o' :
  bindingController b o = Ok o' -> o' = with_owners (om_ownerReferences o') o /\ controlled_by b o'.
Proof.
  intros H. split; [by apply SetControllerReference_frame in H|].
  apply SetControllerReference_controller in H as (ref & ? & ? & ? & ?). by exists ref.
Qed.

Lemma safe_createOrUpdate k `{O : Owned k} `{!OwnedLaws k} b (o : obj k) s h :
  binding_seen req h b ->
  om_name (meta_of k o) = om_name (mgb_meta b) -> om_namespace (meta_of k o) = om_namespace (mgb_meta b) ->
  (forall h' o', incl h h' -> spec_of o' = spec_of o -> D h' k o') ->
  guard P h (createOrUpdate k b o s).
Proof.
  intros Hb Hn Hns HD. unfold createOrUpdate.
  destruct (bindingController b (meta_of k o)) as [m|e] eqn:Em; [|done].
  apply bindingController_spec in Em as [Hm Hctl]. apply safe_read; [done|]. intros [ex|e].
  - destruct (bindingController b (meta_of k ex)) as [m'|e'] eqn:Em'; [|done].
    assert (Had : adoptable b (meta_of k ex)) by (intros ref; by apply (SetControllerReference_others _ _ _ _ _ _ Em')).
    apply bindingController_spec in Em' as [Hm' Hctl']. destruct (_ || _); [|done]. split; [|by intros []].
    cbn. rewrite meta_set_spec, meta_set_meta. split; [apply HD; [apply incl_tl, incl_refl|apply spec_set_spec]|].
    exists b, ex. split_and!; [|left; rewrite Hm; cbn; by rewrite Hn, Hns|done|done|by rewrite Hm'|done].
    eapply binding_seen_mono; [|exact Hb]. apply incl_tl, incl_refl.
  - destruct (IsNotFound e) eqn:Ee; [|done]. split; [|by intros []].
    cbn. rewrite meta_set_meta. split; [apply HD; [apply incl_tl, incl_refl|apply spec_set_meta]|]. split.
    + exists Cached, e. split; [by left|done].
    + exists b. split; [eapply binding_seen_mono; [|exact Hb]; apply incl_tl, incl_refl|]. rewrite Hm. auto.
Qed.

Lemma safe_deleteStale k `{O : Owned k} b s h :
  k = KHTTPRoute \/ k = KRegistration -> binding_seen req h b -> guard P h (deleteStale k b s).
Proof.
  intros Hk Hb. unfold deleteStale. apply safe_read; [done|]. intros [o|e]; [|by destruct (IsNotFound e)].
  destruct (IsControlledBy _ _) eqn:Ec; [|done]. split; [|intros [e|]; [cbn; by destruct (IsNotFound e)|done]].
  split; [done|]. exists b. split; [|split; [by left|done]].
  eapply binding_seen_mono; [|exact Hb]. apply incl_tl, incl_refl.
Qed.

(** A step of the pass, then the rest from the longer history. *)
Lemma safe_step {A B} (m : M A) (f : A -> M B) s h :
  guard P h (m s) -> (forall a h' s', incl h h' -> guard P h' (f a s')) -> guard P h ((m ≫= f) s).
Proof.
  intros Hm Hf. apply guard_bind_hist; [done|]. intros tr [a s'] _. apply Hf. by apply incl_appr, incl_refl.
Qed.

End steps.
