(* ===== verification/QuietCluster.v ===== *)
(** * A cluster in which only the provider acts

    The environment against which convergence of the gateway providers is stated: one
    binding with its HTTPRoute and registration, which writes change as the API server
    does (a write of a new spec raises the generation), while every other object stays
    as it is.  [exec] runs a handler in it; [silent] says that a run answers [res],
    writes nothing and leaves the cluster as it is. *)

From S2P Require Import Prelude K8s GatewayApi ApiAlpha ApiBeta StatusAC Interact Conditions Ownership Service Gateway ConfigHash Handshake Reconcile Lifecycle Providers ProviderSafety.

Record Cluster := {
  cl_binding : MCPGatewayBinding;
  cl_route : option HTTPRoute;
  cl_registration : option MCPServerRegistration;
  cl_registrations : list MCPServerRegistration;
  cl_get : forall (rd : reader) (k : kind) (ns name : string), result (obj k);
  cl_now : Z
}.

Definition set_binding (b : MCPGatewayBinding) (c : Cluster) : Cluster :=
  {| cl_binding := b; cl_route := cl_route c; cl_registration := cl_registration c;
     cl_registrations := cl_registrations c; cl_get := cl_get c; cl_now := cl_now c |}.
Definition set_route (o : option HTTPRoute) (c : Cluster) : Cluster :=
  {| cl_binding := cl_binding c; cl_route := o; cl_registration := cl_registration c;
     cl_registrations := cl_registrations c; cl_get := cl_get c; cl_now := cl_now c |}.
Definition set_registration (o : option MCPServerRegistration) (c : Cluster) : Cluster :=
  {| cl_binding := cl_binding c; cl_route := cl_route c; cl_registration := o;
     cl_registrations := cl_registrations c; cl_get := cl_get c; cl_now := cl_now c |}.

Definition missing : error := StatusError NotFound "not found".

Definition with_generation (g : Z) (m : ObjectMeta) : ObjectMeta :=
  {| om_name := om_name m; om_namespace := om_namespace m; om_uid := om_uid m;
     om_resourceVersion := om_resourceVersion m; om_generation := g;
     om_deletionTimestamp := om_deletionTimestamp m; om_labels := om_labels m;
     om_annotations := om_annotations m; om_ownerReferences := om_ownerReferences m |}.

(** Stored objects of an owned kind; [None] where the cluster keeps none. *)
Definition slot (k : kind) (c : Cluster) : option (obj k) :=
  match k return option (obj k) with
  | KHTTPRoute => cl_route c
  | KRegistration => cl_registration c
  | _ => None
  end.

Definition set_slot (k : kind) : option (obj k) -> Cluster -> Cluster :=
  match k return option (obj k) -> Cluster -> Cluster with
  | KHTTPRoute => set_route
  | KRegistration => set_registration
  | _ => fun _ c => c
  end.

Definition owned_kind (k : kind) : bool := match k with KHTTPRoute | KRegistration => true | _ => false end.

(** A created object has generation 1; an update with another spec raises it. *)
Definition stored (k : kind) (c : Cluster) : obj k -> obj k :=
  match k return obj k -> obj k with
  | KHTTPRoute => fun o =>
      set_meta (k := KHTTPRoute) (with_generation
        match cl_route c with
        | None => 1
        | Some old => if route_spec old == route_spec o then om_generation (route_meta old) else om_generation (route_meta old) + 1
        end (route_meta o)) o
  | KRegistration => fun o =>
      set_meta (k := KRegistration) (with_generation
        match cl_registration c with
        | None => 1
        | Some old => if reg_spec old == reg_spec o then om_generation (reg_meta old) else om_generation (reg_meta old) + 1
        end (reg_meta o)) o
  | _ => fun o => o
  end.

Definition getObject (c : Cluster) (rd : reader) (k : kind) (ns name : string) : result (obj k) :=
  let own := bool_decide ((ns, name) = bindingKey (cl_binding c)) in
  match k return result (obj k) with
  | KBinding => if own then Ok (cl_binding c) else Err missing
  | KHTTPRoute => if own then match cl_route c with Some o => Ok o | None => Err missing end
                  else cl_get c rd KHTTPRoute ns name
  | KRegistration => if own then match cl_registration c with Some o => Ok o | None => Err missing end
                     else cl_get c rd KRegistration ns name
  | k => cl_get c rd k ns name
  end.

Definition listObjects (c : Cluster) (k : kind) : list (obj k) :=
  match k return list (obj k) with
  | KBinding => [cl_binding c]
  | KRegistration => cl_registrations c ++ option_list (cl_registration c)
  | _ => []
  end.

Definition cluster_step (c : Cluster) (cl : Call) : resp cl * Cluster :=
  match cl return resp cl * Cluster with
  | CGet rd k ns name => (getObject c rd k ns name, c)
  | CCreate k o => (Ok (stored k c o), set_slot k (Some (stored k c o)) c)
  | CUpdate k o => (Ok (stored k c o), set_slot k (Some (stored k c o)) c)
  | CDelete k _ _ => (None, set_slot k None c)
  | CPatch k _ o => (Ok o, match k return obj k -> Cluster with KBinding => fun o => set_binding o c | _ => fun _ => c end o)
  | CUpdateStatus k o =>
      (None, match k return obj k -> Cluster with
             | KBinding => fun o => set_binding (with_binding_status (mgb_status o) (cl_binding c)) c
             | _ => fun _ => c
             end o)
  | CList k _ => (Ok (listObjects c k), c)
  | CListPods _ _ => (Ok [], c)
  | CListMCPServers _ _ _ => (Ok [], c)
  | CApplyStatus _ _ _ => (None, c)
  | CDial _ _ => (Err (Errorf "connection refused"), c)
  | CNow => (cl_now c, c)
  | COut _ => (tt, c)
  end.

(** ** Running handlers *)

Definition exec {A} (m : M A) (s : RState) (c : Cluster) : list event * (A * RState) * Cluster :=
  interp cluster_step (m s) c.

(** The run of [m] answers [a] in the cluster [c'], the memory unchanged. *)
Definition goes {A} (m : M A) (c : Cluster) (a : A) (c' : Cluster) : Prop :=
  forall s, exists tr, exec m s c = (tr, (a, s), c').

Definition silent {A} (m : M A) (c : Cluster) (a : A) : Prop :=
  forall s, exists tr, exec m s c = (tr, (a, s), c) /\ each_call no_write tr.

Lemma interp_bind {A B S} (h : S -> forall c, resp c * S) (p : prog A) (f : A -> prog B) s :
  interp h (pbind p f) s =
  let '(tr, a, s1) := interp h p s in let '(tr', b, s2) := interp h (f a) s1 in (tr ++ tr', b, s2).
Proof.
  revert s. induction p as [a|c k IH]; intros s; cbn; [by destruct (interp h (f a) s) as [[? ?] ?]|].
  destruct (h s c) as [r s1]. rewrite IH. destruct (interp h (k r) s1) as [[tr a] s2].
  by destruct (interp h (f a) s2) as [[? ?] ?].
Qed.

Lemma goes_bind {A B} (m : M A) (f : A -> M B) c a c1 b c2 :
  goes m c a c1 -> goes (f a) c1 b c2 -> goes (m ≫= f) c b c2.
Proof.
  intros Hm Hf s. destruct (Hm s) as [tr Htr], (Hf s) as [tr' Htr']. exists (tr ++ tr').
  unfold exec, mbind, M_bind in *. by rewrite interp_bind, Htr, Htr'.
Qed.

Lemma silent_bind {A B} (m : M A) (f : A -> M B) c a b :
  silent m c a -> silent (f a) c b -> silent (m ≫= f) c b.
Proof.
  intros Hm Hf s. destruct (Hm s) as (tr & Htr & H1), (Hf s) as (tr' & Htr' & H2). exists (tr ++ tr').
  unfold exec, mbind, M_bind in *. rewrite interp_bind, Htr, Htr'. split; [done|]. by apply each_call_app.
Qed.

Lemma quiet_ret {A} (a : A) c : silent (mret a) c a.
Proof. intros s. exists []. split; [done|constructor]. Qed.

Lemma silent_call cl c a : no_write cl -> cluster_step c cl = (a, c) -> silent (call cl) c a.
Proof.
  intros Hn H s. exists [Ev cl a]. unfold exec, call. cbn. rewrite H. split; [done|].
  apply Forall_singleton. exact Hn.
Qed.

Lemma silent_goes {A} (m : M A) c a : silent m c a -> goes m c a c.
Proof. intros H s. destruct (H s) as (tr & ? & _). by exists tr. Qed.

Lemma goes_call cl c : goes (call cl) c (fst (cluster_step c cl)) (snd (cluster_step c cl)).
Proof. intros s. exists [Ev cl (fst (cluster_step c cl))]. unfold exec, call. cbn. by destruct (cluster_step c cl). Qed.

Lemma goes_after {B} cl (f : resp cl -> M B) c r c1 b c2 :
  cluster_step c cl = (r, c1) -> goes (f r) c1 b c2 -> goes (call cl ≫= f) c b c2.
Proof. intros H Hf. eapply goes_bind; [apply goes_call|]. by rewrite H. Qed.

Lemma silent_after {B} cl (f : resp cl -> M B) c r b :
  no_write cl -> cluster_step c cl = (r, c) -> silent (f r) c b -> silent (call cl ≫= f) c b.
Proof. intros Hn H Hf. eapply silent_bind; [by apply silent_call|done]. Qed.

(** ** The steps of a pass, as functions on the cluster *)

Definition annotate (k v : string) (c : Cluster) : Cluster :=
  let b := cl_binding c in
  if annotation b k == v then c
  else set_binding (with_mgb_meta (with_annotations (Some ({[ k := v ]} ∪ view (om_annotations (mgb_meta b)))) (mgb_meta b)) b) c.

Definition report `{V : Vendor} (status reason message url : string) (c : Cluster) : Cluster :=
  let b := cl_binding c in
  if statusUpToDate b status reason message url then c
  else set_binding (with_binding_status
    {| mgb_url := url; mgb_conditions := SetStatusCondition (status_of b) (registeredCondition b status reason message) (cl_now c) |} b) c.

(** The identity of a binding: all but annotations and status. *)
Definition same_identity (b b' : MCPGatewayBinding) : Prop :=
  mgb_spec b' = mgb_spec b /\ mgb_meta b' = with_annotations (om_annotations (mgb_meta b')) (mgb_meta b).

(** What the pass does not write stays. *)
Definition same_rest (c c' : Cluster) : Prop :=
  cl_get c' = cl_get c /\ cl_registrations c' = cl_registrations c /\ cl_now c' = cl_now c.

Section steps.
Context `{V : Vendor} {L : VendorLaws V}.

Lemma annotate_same k v c : annotation (cl_binding c) k = v -> annotate k v c = c.
Proof. intros H. unfold annotate. by rewrite bool_decide_eq_true_2. Qed.

Lemma annotation_annotate k v c : annotation (cl_binding (annotate k v c)) k = v.
Proof.
  unfold annotate. case_bool_decide as H; [done|]. unfold annotation, mget. cbn.
  by rewrite lookup_union, lookup_singleton_eq, union_Some_l.
Qed.

Lemma annotation_annotate_ne k v c k' : k <> k' -> annotation (cl_binding (annotate k v c)) k' = annotation (cl_binding c) k'.
Proof.
  intros Hk. unfold annotate. case_bool_decide as H; [done|]. unfold annotation, mget. cbn.
  rewrite lookup_union, lookup_singleton_ne by done. by rewrite left_id by apply _.
Qed.

Lemma annotate_identity k v c : same_identity (cl_binding c) (cl_binding (annotate k v c)).
Proof.
  unfold annotate. case_bool_decide; cbn; (split; [done|]); [|done].
  by destruct (mgb_meta (cl_binding c)).
Qed.

Lemma ensure_changed b k v :
  existsb (fun '(k, v) => annotation b k != v) (map_to_list ({[ k := v ]} : gmap string string)) = (annotation b k != v).
Proof. rewrite map_to_list_singleton. cbn. apply orb_false_r. Qed.

Lemma goes_Ensure k v c :
  goes (EnsureBindingAnnotations (cl_binding c) {[ k := v ]}) c (Ok (cl_binding (annotate k v c))) (annotate k v c).
Proof.
  intros s. unfold EnsureBindingAnnotations, annotate. rewrite ensure_changed.
  case_bool_decide as H; cbn [negb]; [by exists []|]. by eexists.
Qed.

Lemma silent_Ensure k v c :
  annotation (cl_binding c) k = v -> silent (EnsureBindingAnnotations (cl_binding c) {[ k := v ]}) c (Ok (cl_binding c)).
Proof.
  intros H s. exists []. unfold EnsureBindingAnnotations. rewrite ensure_changed, bool_decide_eq_true_2 by done. cbn.
  split; [done|constructor].
Qed.

Lemma report_meta st re msg url c : mgb_meta (cl_binding (report st re msg url c)) = mgb_meta (cl_binding c).
Proof. unfold report. by destruct (statusUpToDate _ _ _ _ _). Qed.

Lemma report_spec st re msg url c : mgb_spec (cl_binding (report st re msg url c)) = mgb_spec (cl_binding c).
Proof. unfold report. by destruct (statusUpToDate _ _ _ _ _). Qed.

Lemma report_slot st re msg url c k : slot k (report st re msg url c) = slot k c.
Proof. unfold report. destruct (statusUpToDate _ _ _ _ _); [done|]. by destruct k. Qed.

Lemma report_rest st re msg url c : same_rest c (report st re msg url c).
Proof. unfold report. by destruct (statusUpToDate _ _ _ _ _). Qed.

Lemma report_done st re msg url c : statusUpToDate (cl_binding (report st re msg url c)) st re msg url = true.
Proof.
  unfold report. destruct (statusUpToDate (cl_binding c) st re msg url) eqn:E; [done|]. unfold statusUpToDate.
  destruct (SetStatusCondition_set (status_of (cl_binding c)) (registeredCondition (cl_binding c) st re msg) (cl_now c))
    as (x & Hx & H1 & H2 & H3 & H4).
  lazymatch goal with |- context [FindStatusCondition ?l ?t] => replace (FindStatusCondition l t) with (Some x) by (symmetry; exact Hx) end.
  rewrite H1, H2, H3, H4. cbn. rewrite !bool_decide_eq_true_2 by done. apply Z.eqb_refl.
Qed.

Lemma goes_status st re msg url c :
  goes (UpdateBindingStatus (cl_binding c) st re msg url) c None (report st re msg url c).
Proof.
  intros s. unfold UpdateBindingStatus, report. destruct (statusUpToDate _ _ _ _ _); [by exists []|]. by eexists.
Qed.

Lemma silent_status st re msg url b c :
  statusUpToDate b st re msg url = true -> silent (UpdateBindingStatus b st re msg url) c None.
Proof. intros H s. exists []. unfold UpdateBindingStatus. rewrite H. split; [done|constructor]. Qed.

(** *** Owned objects *)

(** The cluster keeps a slot for the kind and stores what is written, up to the generation. *)
Class Kept (k : kind) `{O : Owned k} : Prop := {
  kept_get c rd ns name : (ns, name) = bindingKey (cl_binding c) ->
    getObject c rd k ns name = match slot k c with Some o => Ok o | None => Err missing end;
  kept_set o c : slot k (set_slot k o c) = o;
  kept_binding o c : cl_binding (set_slot k o c) = cl_binding c;
  kept_rest o c : same_rest c (set_slot k o c);
  kept_other o c k' : k' <> k -> slot k' (set_slot k o c) = slot k' c;
  stored_meta c o : exists g, meta_of k (stored k c o) = with_generation g (meta_of k o);
  stored_spec c o : spec_of (stored k c o) = spec_of o
}.

#[export] Instance Kept_HTTPRoute : Kept KHTTPRoute.
Proof.
  split; try done.
  - intros c rd ns name H. unfold getObject. by rewrite bool_decide_eq_true_2 by done.
  - by intros o c [].
  - intros c o. by eexists.
Qed.

#[export] Instance Kept_MCPServerRegistration : Kept KRegistration.
Proof.
  split; try done.
  - intros c rd ns name H. unfold getObject. by rewrite bool_decide_eq_true_2 by done.
  - by intros o c [].
  - intros c o. by eexists.
Qed.

(** The same object up to its status. *)
Definition alike (k : kind) `{O : Owned k} (o o' : option (obj k)) : Prop :=
  match o, o' with
  | Some x, Some y => meta_of k x = meta_of k y /\ spec_of x = spec_of y
  | None, None => True
  | _, _ => False
  end.

Lemma alike_refl k `{O : Owned k} o : alike k o o.
Proof. by destruct o. Qed.

(** Another cluster with the same binding metadata, where the owned object stands as in
    [c], up to its status. *)
Definition agrees (k : kind) `{O : Owned k} (c c' : Cluster) : Prop :=
  mgb_meta (cl_binding c') = mgb_meta (cl_binding c) /\ alike k (slot k c) (slot k c').

(** The slot holds an object of the binding's name and namespace, as the API server keeps it. *)
Definition keyed (k : kind) (c : Cluster) : Prop :=
  forall x, slot k c = Some x -> (om_namespace (meta_of k x), om_name (meta_of k x)) = bindingKey (cl_binding c).

Lemma settle_deleteStale k `{O : Owned k} `{!Kept k} c :
  exists c', goes (deleteStale k (cl_binding c)) c None c' /\
    cl_binding c' = cl_binding c /\ same_rest c c' /\ (forall k', k' <> k -> slot k' c' = slot k' c) /\
    (keyed k c -> keyed k c') /\
    forall c2, agrees k c' c2 -> silent (deleteStale k (cl_binding c2)) c2 None.
Proof.
  assert (Hread : forall c0, cluster_step c0 (CGet Cached k (om_namespace (mgb_meta (cl_binding c0))) (om_name (mgb_meta (cl_binding c0))))
                  = (match slot k c0 with Some o => Ok o | None => Err missing end, c0)).
  { intros c0. cbn. by rewrite kept_get. }
  destruct (slot k c) as [o|] eqn:Es; [destruct (IsControlledBy (meta_of k o) (mgb_meta (cl_binding c))) eqn:Ec|].
  - exists (set_slot k None c). split_and!; [|apply kept_binding|apply kept_rest|by intros k' ?; apply kept_other| |].
    + eapply goes_after; [apply Hread|]. rewrite Es. rewrite Ec.
      eapply goes_after; [reflexivity|]. apply silent_goes, quiet_ret.
    + intros _ x. by rewrite kept_set.
    + intros c2 [_ Hs]. rewrite kept_set in Hs. eapply silent_after; [done|apply Hread|].
      destruct (slot k c2); [done|]. apply quiet_ret.
  - exists c. split_and!; [|done..|].
    + eapply goes_after; [apply Hread|]. rewrite Es. rewrite Ec. apply silent_goes, quiet_ret.
    + intros c2 [Hm Hs]. eapply silent_after; [done|apply Hread|].
      rewrite Es in Hs. destruct (slot k c2) as [o2|]; [|done]. destruct Hs as [Hs _]. rewrite <- Hs, Hm, Ec. apply quiet_ret.
  - exists c. split_and!; [|done..|].
    + eapply goes_after; [apply Hread|]. rewrite Es. apply silent_goes, quiet_ret.
    + intros c2 [_ Hs]. eapply silent_after; [done|apply Hread|]. rewrite Es in Hs. destruct (slot k c2); [done|]. apply quiet_ret.
Qed.

(** Once the object is stored as desired, with the references left by setting the
    controller, nothing is left to do. *)
Lemma createOrUpdate_done k `{O : Owned k} `{!Kept k} c (o x : obj k) m m0 m1 :
  om_name (meta_of k o) = om_name (mgb_meta (cl_binding c)) ->
  om_namespace (meta_of k o) = om_namespace (mgb_meta (cl_binding c)) ->
  bindingController (cl_binding c) (meta_of k o) = Ok m ->
  slot k c = Some x -> spec_of x = spec_of o -> bindingController (cl_binding c) m0 = Ok m1 ->
  om_ownerReferences (meta_of k x) = om_ownerReferences m1 -> om_namespace (meta_of k x) = om_namespace m1 ->
  silent (createOrUpdate k (cl_binding c) o) c None.
Proof.
  intros Hn Hns Em Hx Hsp Hset Hrefs Hsame. unfold createOrUpdate. rewrite Em.
  pose proof (bindingController_spec _ _ _ Em) as [Hfm _].
  eapply silent_after; [done|cbn; rewrite kept_get; [reflexivity|]; unfold bindingKey; rewrite Hfm; cbn; congruence|].
  rewrite Hx. pose proof (SetControllerReference_again _ _ _ _ _ _ Hset Hrefs Hsame) as Hagain.
  fold (bindingController (cl_binding c) (meta_of k x)) in Hagain. rewrite Hagain.
  assert (Hal : ownersBefore (cl_binding c) (meta_of k x) = om_ownerReferences (meta_of k x)).
  { by destruct (OwnersAlias_old_or_new _ _ _ _ _ Hagain). }
  rewrite Hal, Hsp, !bool_decide_eq_true_2 by done. apply quiet_ret.
Qed.

Lemma settle_createOrUpdate k `{O : Owned k} `{!OwnedLaws k} `{!Kept k} c (o : obj k) :
  om_name (meta_of k o) = om_name (mgb_meta (cl_binding c)) ->
  om_namespace (meta_of k o) = om_namespace (mgb_meta (cl_binding c)) ->
  exists e c', goes (createOrUpdate k (cl_binding c) o) c e c' /\
    cl_binding c' = cl_binding c /\ same_rest c c' /\ (forall k', k' <> k -> slot k' c' = slot k' c) /\
    (keyed k c -> keyed k c') /\
    (e = None -> exists x, slot k c' = Some x /\ spec_of x = spec_of o) /\
    forall c2, agrees k c' c2 -> silent (createOrUpdate k (cl_binding c2) o) c2 e.
Proof.
  intros Hn Hns. unfold createOrUpdate.
  assert (Hctl : forall c2 m, mgb_meta (cl_binding c2) = mgb_meta (cl_binding c) ->
            bindingController (cl_binding c2) m = bindingController (cl_binding c) m /\
            ownersBefore (cl_binding c2) m = ownersBefore (cl_binding c) m).
  { intros c2 m Hm. unfold bindingController, ownersBefore. by rewrite Hm. }
  destruct (bindingController (cl_binding c) (meta_of k o)) as [m|e] eqn:Em.
  2:{ eexists _, c. split_and!; [apply silent_goes, quiet_ret|done..|]. intros c2 [Hm _].
      rewrite (proj1 (Hctl c2 _ Hm)), Em. apply quiet_ret. }
  pose proof (bindingController_spec _ _ _ Em) as [Hfm _].
  assert (Hread : forall c0, mgb_meta (cl_binding c0) = mgb_meta (cl_binding c) ->
            cluster_step c0 (CGet Cached k (om_namespace m) (om_name m))
            = (match slot k c0 with Some x => Ok x | None => Err missing end, c0)).
  { intros c0 H0. cbn. rewrite kept_get; [done|]. unfold bindingKey. rewrite H0, Hfm. cbn. congruence. }
  destruct (slot k c) as [x|] eqn:Es.
  - destruct (bindingController (cl_binding c) (meta_of k x)) as [m'|e] eqn:Em'.
    2:{ exists (Some (Wrap ("setting controller reference on existing " +:+ noun +:+ ": ") e)), c. split_and!; [|done..|].
        - eapply goes_after; [by apply Hread|]. rewrite Es, Em'. apply silent_goes, quiet_ret.
        - intros c2 [Hm Hs]. rewrite (proj1 (Hctl c2 _ Hm)), Em. eapply silent_after; [done|by apply Hread|].
          rewrite Es in Hs. destruct (slot k c2) as [x2|]; [|done]. destruct Hs as [Hs _].
          rewrite (proj1 (Hctl c2 _ Hm)), <- Hs, Em'. apply quiet_ret. }
    destruct ((ownersBefore (cl_binding c) (meta_of k x) != om_ownerReferences m') || (spec_of x != spec_of o)) eqn:Ech.
    + set (y := stored k c (set_spec (spec_of o) (set_meta m' x))).
      exists None, (set_slot k (Some y) c). split_and!; [|apply kept_binding|apply kept_rest..|by intros; apply kept_other| | |].
      * eapply goes_after; [by apply Hread|]. rewrite Es, Em', Ech. eapply goes_after; [reflexivity|].
        apply silent_goes, quiet_ret.
      * intros Hkey z. rewrite kept_set, kept_binding. intros [= <-]. rewrite <- (Hkey x Es).
        destruct (stored_meta c (set_spec (spec_of o) (set_meta m' x))) as [g Hg]. unfold y.
        rewrite Hg, meta_set_spec, meta_set_meta. pose proof (bindingController_spec _ _ _ Em') as [Hfm' _]. by rewrite Hfm'.
      * intros _. exists y. split; [apply kept_set|]. unfold y. by rewrite stored_spec, spec_set_spec.
      * intros c2 [Hm Hs]. rewrite kept_binding in Hm. rewrite kept_set in Hs.
        destruct (slot k c2) as [y2|] eqn:Es2; [|done]. destruct Hs as [Hs1 Hs2].
        destruct (stored_meta c (set_spec (spec_of o) (set_meta m' x))) as [g Hg].
        rewrite meta_set_spec, meta_set_meta in Hg.
        apply (createOrUpdate_done k c2 o y2 m (meta_of k x) m');
          rewrite ?(proj1 (Hctl c2 _ Hm)), ?Hm, <- ?Hs1, <- ?Hs2; try done; [|by unfold y; rewrite Hg..].
        unfold y. by rewrite stored_spec, spec_set_spec.
    + exists None, c. split_and!; [|done..| |].
      * eapply goes_after; [by apply Hread|]. rewrite Es, Em', Ech. apply silent_goes, quiet_ret.
      * intros _. exists x. split; [done|]. apply orb_false_iff in Ech as [_ Ech]. by bool_to_prop.
      * intros c2 [Hm Hs]. rewrite Es in Hs. rewrite (proj1 (Hctl c2 _ Hm)), Em. eapply silent_after; [done|by apply Hread|].
        destruct (slot k c2) as [x2|]; [|done]. destruct Hs as [<- <-].
        rewrite (proj1 (Hctl c2 _ Hm)), (proj2 (Hctl c2 _ Hm)), Em', Ech. apply quiet_ret.
  - set (y := stored k c (set_meta m o)).
    exists None, (set_slot k (Some y) c). split_and!; [|apply kept_binding|apply kept_rest..|by intros; apply kept_other| | |].
    + eapply goes_after; [by apply Hread|]. rewrite Es. eapply goes_after; [reflexivity|]. apply silent_goes, quiet_ret.
    + intros _ z. rewrite kept_set, kept_binding. intros [= <-].
      destruct (stored_meta c (set_meta m o)) as [g Hg]. unfold y. rewrite Hg, meta_set_meta, Hfm. unfold bindingKey. cbn. congruence.
    + intros _. exists y. split; [apply kept_set|]. unfold y. by rewrite stored_spec, spec_set_meta.
    + intros c2 [Hm Hs]. rewrite kept_binding in Hm. rewrite kept_set in Hs.
      destruct (slot k c2) as [y2|] eqn:Es2; [|done]. destruct Hs as [Hs1 Hs2].
      destruct (stored_meta c (set_meta m o)) as [g Hg]. rewrite meta_set_meta in Hg.
      apply (createOrUpdate_done k c2 o y2 m (meta_of k o) m);
        rewrite ?(proj1 (Hctl c2 _ Hm)), ?Hm, <- ?Hs1, <- ?Hs2; try done; [|by unfold y; rewrite Hg..].
      unfold y. by rewrite stored_spec, spec_set_meta.
Qed.

(** Applying succeeds where the controller reference can be set. *)
Lemma createOrUpdate_succeeds k `{O : Owned k} `{!OwnedLaws k} `{!Kept k} c (o : obj k) e c' :
  om_name (meta_of k o) = om_name (mgb_meta (cl_binding c)) ->
  om_namespace (meta_of k o) = om_namespace (mgb_meta (cl_binding c)) ->
  (exists m, bindingController (cl_binding c) (meta_of k o) = Ok m) ->
  (forall x, slot k c = Some x -> exists m, bindingController (cl_binding c) (meta_of k x) = Ok m) ->
  goes (createOrUpdate k (cl_binding c) o) c e c' -> e = None.
Proof.
  intros Hn Hns [m Em] Hslot Hg.
  enough (H : exists c2, goes (createOrUpdate k (cl_binding c) o) c None c2).
  { destruct H as [c2 H], (Hg emptyState) as [tr Htr], (H emptyState) as [tr' Htr']. rewrite Htr in Htr'. congruence. }
  unfold createOrUpdate. rewrite Em. pose proof (bindingController_spec _ _ _ Em) as [Hfm _].
  assert (Hread : cluster_step c (CGet Cached k (om_namespace m) (om_name m)) = (match slot k c with Some x => Ok x | None => Err missing end, c)).
  { cbn. rewrite kept_get; [done|]. unfold bindingKey. rewrite Hfm. cbn. congruence. }
  destruct (slot k c) as [x|] eqn:Es.
  - destruct (Hslot x eq_refl) as [m' Em']. destruct ((ownersBefore (cl_binding c) (meta_of k x) != om_ownerReferences m') || (spec_of x != spec_of o)) eqn:Ech.
    + eexists. eapply goes_after; [exact Hread|]. cbn beta iota. rewrite Em', Ech. eapply goes_after; [reflexivity|]. apply silent_goes, quiet_ret.
    + eexists. eapply goes_after; [exact Hread|]. cbn beta iota. rewrite Em', Ech. apply silent_goes, quiet_ret.
  - eexists. eapply goes_after; [exact Hread|]. cbn. eapply goes_after; [reflexivity|]. apply silent_goes, quiet_ret.
Qed.

(** *** Reads of what the pass does not write *)

(** The answer is the same in every cluster with the same other objects. *)
Definition steady {A} (m : M A) (c : Cluster) (a : A) : Prop :=
  forall c', cl_get c' = cl_get c -> silent m c' a.

Definition fixed_kind (k : kind) : bool := match k with KBinding | KHTTPRoute | KRegistration => false | _ => true end.

Lemma steady_ret {A} (a : A) c : steady (mret a) c a.
Proof. intros c' _. apply quiet_ret. Qed.

Lemma steady_bind {A B} (m : M A) (f : A -> M B) c a b : steady m c a -> steady (f a) c b -> steady (m ≫= f) c b.
Proof. intros Hm Hf c' Hc. eapply silent_bind; [by apply Hm|by apply Hf]. Qed.

Lemma step_fixed c c' rd k ns name :
  fixed_kind k = true -> cl_get c' = cl_get c -> cluster_step c' (CGet rd k ns name) = (cl_get c rd k ns name, c').
Proof. intros Hk <-. by destruct k. Qed.

Lemma steady_get {B} rd k ns name (f : result (obj k) -> M B) c b :
  fixed_kind k = true -> steady (f (cl_get c rd k ns name)) c b -> steady (call (CGet rd k ns name) ≫= f) c b.
Proof. intros Hk Hf c' Hc. eapply silent_after; [done|by apply step_fixed|by apply Hf]. Qed.

Lemma steady_GatewayAddress g n c : exists a, steady (GatewayAddress g n) c a.
Proof.
  unfold GatewayAddress. destruct (cl_get c Cached KGateway n g) as [gw|e] eqn:E; [|destruct (IsNotFound e) eqn:Ee];
    eexists; (apply steady_get; [done|]; rewrite E, ?Ee; apply steady_ret).
Qed.

Lemma steady_Scheme route g n c : exists a, steady (SchemeFromAcceptedRoute route g n) c a.
Proof.
  unfold SchemeFromAcceptedRoute. induction (route_parents route) as [|p ps IH]; cbn [schemeFromParents]; [eexists; apply steady_ret|].
  do 3 (lazymatch goal with |- context [if ?c then _ else _] => destruct c end; [exact IH|]).
  destruct (cl_get c Cached KGateway n g) as [gw|e] eqn:E; [|destruct (IsNotFound e) eqn:Ee];
    eexists; (apply steady_get; [done|]; rewrite E, ?Ee; apply steady_ret).
Qed.

Lemma steady_Endpoint srv c : exists a, steady (ResolveServiceEndpoint Direct srv) c a.
Proof.
  unfold ResolveServiceEndpoint. destruct (spec_serviceRef _); [|eexists; apply steady_ret].
  set (port := match spec_workloadRef (srv_spec srv) with Some _ => _ | None => _ end).
  assert (H : exists a, steady (resolveServicePort Direct (serviceNameFor srv) (om_namespace (srv_meta srv)) port) c a).
  { unfold resolveServicePort. destruct (0 <? port); [eexists; apply steady_ret|].
    destruct (cl_get c Direct KService (om_namespace (srv_meta srv)) (serviceNameFor srv)) as [svc|e] eqn:E.
    - destruct (svc_ports svc) as [|p0 ps] eqn:Ep; [|destruct (List.find (fun p => sp_name p == mcpPortName) (p0 :: ps)) eqn:Ef];
        eexists; (apply steady_get; [done|]; rewrite E, Ep, ?Ef; apply steady_ret).
    - destruct (IsNotFound e) eqn:Ee; eexists; (apply steady_get; [done|]; rewrite E, Ee; apply steady_ret). }
  destruct H as [a Ha]. eexists. eapply steady_bind; [exact Ha|apply steady_ret].
Qed.

End steps.
