(* ===== verification/Settling.v ===== *)
(** * Parts of a pass that settle

    A part of a provider's pass settles in a cluster when it answers and ends in a cluster
    where it would answer the same again without writing.  This file has the rules by which
    the convergence of whole passes is put together: one per construct of the handlers. *)

From S2P Require Import Prelude K8s GatewayApi ApiAlpha ApiBeta StatusAC Interact Conditions Ownership Service Gateway ConfigHash Handshake Reconcile Lifecycle Providers ProviderSafety QuietCluster.

(** ** What a part leaves alone *)

Lemma same_identity_trans b b1 b2 : same_identity b b1 -> same_identity b1 b2 -> same_identity b b2.
Proof. intros [H1 H2] [H3 H4]. split; [congruence|]. rewrite H4, H2. done. Qed.

Lemma same_rest_trans c c1 c2 : same_rest c c1 -> same_rest c1 c2 -> same_rest c c2.
Proof. unfold same_rest. intros (? & ? & ?) (? & ? & ?). split_and!; congruence. Qed.

Lemma same_identity_fields b b' : same_identity b b' ->
  mgb_spec b' = mgb_spec b /\ om_namespace (mgb_meta b') = om_namespace (mgb_meta b) /\ om_name (mgb_meta b') = om_name (mgb_meta b).
Proof. intros [Hs Hm]. rewrite Hm. done. Qed.

Lemma annotation_meta b b1 k : mgb_meta b1 = mgb_meta b -> annotation b1 k = annotation b k.
Proof. intros H. unfold annotation. by rewrite H. Qed.

Lemma annotate_rest k v c : same_rest c (annotate k v c).
Proof. unfold annotate. by case_bool_decide. Qed.

Lemma annotate_slot k v c kd : slot kd (annotate k v c) = slot kd c.
Proof. unfold annotate. case_bool_decide; [done|]. by destruct kd. Qed.

(** [c1] differs from [c] at most in the binding's annotations and status and in the slots. *)
Definition keeps_identity (c c1 : Cluster) : Prop := same_identity (cl_binding c) (cl_binding c1) /\ same_rest c c1.

(** ... of the annotations, only in those of [ks]. *)
Definition keeps_but (ks : list string) (c c1 : Cluster) : Prop :=
  keeps_identity c c1 /\ forall k, k ∉ ks -> annotation (cl_binding c1) k = annotation (cl_binding c) k.

(** ... not in the annotations, and of the slots only in those of [kds], which stay keyed. *)
Definition keeps_slots (kds : list kind) (c c1 : Cluster) : Prop :=
  mgb_meta (cl_binding c1) = mgb_meta (cl_binding c) /\ mgb_spec (cl_binding c1) = mgb_spec (cl_binding c) /\
  same_rest c c1 /\ (forall k, k ∉ kds -> slot k c1 = slot k c) /\ (forall k, keyed k c -> keyed k c1).

Definition owned_kinds : list kind := [KHTTPRoute; KRegistration].

Abbreviation status_only := (keeps_slots []).
Abbreviation keeps_binding := (keeps_slots owned_kinds).

Lemma keeps_slots_trans kds c c1 c2 : keeps_slots kds c c1 -> keeps_slots kds c1 c2 -> keeps_slots kds c c2.
Proof.
  intros (? & ? & Hr & Hs & Hk) (? & ? & Hr' & Hs' & Hk'). split_and!; [congruence..|by eapply same_rest_trans| |by auto].
  intros k ?. by rewrite Hs', Hs.
Qed.

Lemma keeps_slots_mono kds kds' c c1 : incl kds kds' -> keeps_slots kds c c1 -> keeps_slots kds' c c1.
Proof.
  intros Hi (? & ? & ? & Hs & ?). split_and!; [done..| |done]. intros k Hk. apply Hs. intros Hk'. apply Hk.
  rewrite list_elem_of_In in *. by apply Hi.
Qed.

Lemma keeps_slot k c c1 :
  cl_binding c1 = cl_binding c -> same_rest c c1 -> (forall k', k' <> k -> slot k' c1 = slot k' c) -> (keyed k c -> keyed k c1) ->
  keeps_slots [k] c c1.
Proof.
  intros H Hr Hs Hk. unfold keeps_slots. rewrite H. split_and!; [done..| |].
  - intros k' Hk'. apply Hs. intros ->. apply Hk', elem_of_cons. by left.
  - intros k'. destruct (decide (k' = k)) as [->|Hne]; [exact Hk|]. unfold keyed. by rewrite Hs, H.
Qed.

Lemma keeps_slots_identity kds c c1 : keeps_slots kds c c1 -> keeps_identity c c1.
Proof. intros (Hm & Hsp & Hr & _ & _). split; [|done]. split; [done|]. rewrite Hm. by destruct (mgb_meta (cl_binding c)). Qed.

Lemma keeps_slots_but kds ks c c1 : keeps_slots kds c c1 -> keeps_but ks c c1.
Proof. intros H. split; [by eapply keeps_slots_identity|]. intros k _. by apply annotation_meta, H. Qed.

Section settling.
Context `{V : Vendor} {L : VendorLaws V}.

(** What every relation used here guarantees and allows. *)
Class Keeps (R : Cluster -> Cluster -> Prop) : Prop := {
  keeps_it c c1 : R c c1 -> keeps_identity c c1;
  keeps_refl c : R c c;
  keeps_report st re msg url c : R c (report st re msg url c)
}.

#[export] Instance Keeps_slots kds : Keeps (keeps_slots kds).
Proof.
  split; [apply keeps_slots_identity|done|].
  intros. split_and!; [apply report_meta|apply report_spec|apply report_rest..|intros k _; apply report_slot|].
  intros k Hk x. rewrite report_slot. unfold bindingKey. rewrite report_meta. apply Hk.
Qed.

#[export] Instance Keeps_but ks : Keeps (keeps_but ks).
Proof.
  split; [by intros c c1 [? _]|by intros; apply (keeps_slots_but []), keeps_refl|].
  intros. by apply (keeps_slots_but []), keeps_report.
Qed.

(** A part [m] of the pass, as a function of the binding: from [c] it answers and ends in
    a cluster related by [R] where it would answer the same, silently. *)
Definition settling {A} (R : Cluster -> Cluster -> Prop) (m : MCPGatewayBinding -> M A) (c : Cluster) : Prop :=
  exists a c1, goes (m (cl_binding c)) c a c1 /\ R c c1 /\ silent (m (cl_binding c1)) c1 a.

Lemma settling_mono {A} (R R' : Cluster -> Cluster -> Prop) (m : MCPGatewayBinding -> M A) c :
  (forall c1, R c c1 -> R' c c1) -> settling R m c -> settling R' m c.
Proof. intros HR (a & c1 & ? & ?%HR & ?). by exists a, c1. Qed.

(** *** Sequencing *)

Lemma exec_assoc {A B C} (m : M A) (g : A -> M B) (f : B -> M C) s c :
  exec ((m ≫= g) ≫= f) s c = exec (m ≫= fun a => g a ≫= f) s c.
Proof.
  unfold exec, mbind, M_bind. rewrite !interp_bind. destruct (interp cluster_step (m s) c) as [[tr [a s1]] c1].
  rewrite !interp_bind. destruct (interp cluster_step (g a s1) c1) as [[tr' [b s2]] c2].
  destruct (interp cluster_step (f b s2) c2) as [[tr'' x] c3]. by rewrite app_assoc.
Qed.

Lemma settling_assoc {A B C} R (m : MCPGatewayBinding -> M A) (g : MCPGatewayBinding -> A -> M B) (f : MCPGatewayBinding -> B -> M C) c :
  settling R (fun b => m b ≫= fun a => g b a ≫= f b) c -> settling R (fun b => (m b ≫= g b) ≫= f b) c.
Proof.
  intros (a & c1 & Hg & Hr & Hs). exists a, c1. split_and!; [|done|]; intros s.
  - rewrite exec_assoc. apply Hg.
  - rewrite exec_assoc. apply Hs.
Qed.

Lemma settling_map {A B} R (m : MCPGatewayBinding -> M A) (f : A -> B) c :
  settling R m c -> settling R (fun b => a ← m b; mret (f a)) c.
Proof.
  intros (a & c1 & Hg & Hk & Hs). exists (f a), c1. split_and!; [|done|].
  - eapply goes_bind; [exact Hg|apply silent_goes, quiet_ret].
  - eapply silent_bind; [exact Hs|apply quiet_ret].
Qed.

Lemma settling_cont {A B} R (m : MCPGatewayBinding -> M A) (f g : MCPGatewayBinding -> A -> M B) c :
  (forall b a, f b a = g b a) -> settling R (fun b => m b ≫= f b) c -> settling R (fun b => m b ≫= g b) c.
Proof.
  intros Hfg. assert (He : forall b s c0, exec (m b ≫= g b) s c0 = exec (m b ≫= f b) s c0).
  { intros b s c0. unfold exec, mbind, M_bind. rewrite !interp_bind.
    destruct (interp cluster_step (m b s) c0) as [[tr [a s1]] c1]. by rewrite Hfg. }
  intros (a & c1 & Hg & HR & Hs). exists a, c1. split_and!; [|done|]; intros s; rewrite He; [apply Hg|apply Hs].
Qed.

(** A part whose continuation, on its answers, only gives an answer. *)
Lemma settling_then {A X Y} R (m : MCPGatewayBinding -> M X) (h : X -> Y) (f : MCPGatewayBinding -> Y -> M A) g c :
  (forall b x, f b (h x) = mret (g x)) -> settling R m c -> settling R (fun b => (x ← m b; mret (h x)) ≫= f b) c.
Proof.
  intros Hf (a & c1 & Hg & Hk & Hs). exists (g a), c1. split_and!; [|done|].
  - eapply goes_bind; [eapply goes_bind; [exact Hg|apply silent_goes, quiet_ret]|]. rewrite Hf. apply silent_goes, quiet_ret.
  - eapply silent_bind; [eapply silent_bind; [exact Hs|apply quiet_ret]|]. rewrite Hf. apply quiet_ret.
Qed.

Section rules.
Context {R : Cluster -> Cluster -> Prop} {K : Keeps R}.

Lemma settling_ret {A} (a : A) c : settling R (fun _ => mret a) c.
Proof. exists a, c. split_and!; [apply silent_goes, quiet_ret|apply keeps_refl|apply quiet_ret]. Qed.

Lemma settling_status {A} st re msg url (f : option error -> A) c :
  settling R (fun b => e ← UpdateBindingStatus b st re msg url; mret (f e)) c.
Proof.
  apply settling_map. exists None, (report st re msg url c).
  split_and!; [apply goes_status|apply keeps_report|]. apply silent_status, report_done.
Qed.

(** Reading on with an answer that does not depend on what the pass writes. *)
Lemma settling_steady {A B} (m : M A) (f : MCPGatewayBinding -> A -> M B) c a :
  steady m c a -> settling R (fun b => f b a) c -> settling R (fun b => m ≫= f b) c.
Proof.
  intros Hm (x & c1 & Hg & Hk & Hs). exists x, c1. split_and!; [|done|].
  - eapply goes_bind; [apply silent_goes, Hm; done|exact Hg].
  - eapply silent_bind; [apply Hm; apply (keeps_it _ _ Hk)|exact Hs].
Qed.

(** A read whose key is part of the binding's identity. *)
Lemma settling_read {A} rd k (ns name : MCPGatewayBinding -> string) (f : MCPGatewayBinding -> result (obj k) -> M A) c :
  fixed_kind k = true ->
  (forall b b', same_identity b b' -> ns b' = ns b /\ name b' = name b) ->
  settling R (fun b => f b (cl_get c rd k (ns (cl_binding c)) (name (cl_binding c)))) c ->
  settling R (fun b => call (CGet rd k (ns b) (name b)) ≫= f b) c.
Proof.
  intros Hk Hid (a & c1 & Hg & HR & Hs). destruct (keeps_it _ _ HR) as [Hi Hr]. exists a, c1. split_and!; [|done|].
  - eapply goes_after; [by apply (step_fixed c c)|exact Hg].
  - destruct (Hid _ _ Hi) as [-> ->]. eapply silent_after; [done|by apply (step_fixed c c1); [|apply Hr]|exact Hs].
Qed.

(** A condition on the binding's identity is decided once. *)
Lemma settling_if_bind {A B} (p : MCPGatewayBinding -> bool) (m1 m2 : MCPGatewayBinding -> M A) (f : MCPGatewayBinding -> A -> M B) c :
  (forall b b', same_identity b b' -> p b' = p b) ->
  settling R (fun b => m1 b ≫= f b) c -> settling R (fun b => m2 b ≫= f b) c ->
  settling R (fun b => (if p b then m1 b else m2 b) ≫= f b) c.
Proof.
  intros Hp H1 H2. destruct (p (cl_binding c)) eqn:E; [destruct H1 as (a & c1 & Hg & Hk & Hs)|destruct H2 as (a & c1 & Hg & Hk & Hs)];
    exists a, c1; rewrite (Hp (cl_binding c) (cl_binding c1)), E by apply (keeps_it _ _ Hk); done.
Qed.

Lemma settling_if {A} (p : MCPGatewayBinding -> bool) (m1 m2 : MCPGatewayBinding -> M A) c :
  (forall b b', same_identity b b' -> p b' = p b) ->
  settling R m1 c -> settling R m2 c -> settling R (fun b => if p b then m1 b else m2 b) c.
Proof.
  intros Hp H1 H2. destruct (p (cl_binding c)) eqn:E; [destruct H1 as (a & c1 & Hg & Hk & Hs)|destruct H2 as (a & c1 & Hg & Hk & Hs)];
    exists a, c1; rewrite (Hp (cl_binding c) (cl_binding c1)), E by apply (keeps_it _ _ Hk); done.
Qed.

End rules.

(** *** Recording *)

Lemma keeps_annotate k v ks c c1 : keeps_but ks (annotate k v c) c1 -> keeps_but (k :: ks) c c1.
Proof.
  intros [[Hi Hr] Ha]. split; [split|].
  - eapply same_identity_trans; [apply annotate_identity|exact Hi].
  - eapply same_rest_trans; [apply annotate_rest|exact Hr].
  - intros k' [Hne Hk']%not_elem_of_cons. rewrite Ha by done. apply annotation_annotate_ne. congruence.
Qed.

Lemma settling_Ensure {A} k v ks (f : MCPGatewayBinding -> M A) g c :
  k ∉ ks -> settling (keeps_but ks) f (annotate k v c) ->
  settling (keeps_but (k :: ks)) (fun b =>
    annotated ← EnsureBindingAnnotations b {[ k := v ]};
    match annotated with Err e => g e | Ok b' => f b' end) c.
Proof.
  intros Hk (a & c1 & Hg & HR & Hs). exists a, c1. split_and!; [|by eapply keeps_annotate|].
  - eapply goes_bind; [apply goes_Ensure|exact Hg].
  - eapply silent_bind; [apply silent_Ensure; rewrite (proj2 HR k Hk); apply annotation_annotate|exact Hs].
Qed.

Lemma goes_Backend srv c ep er :
  steady (ResolveServiceEndpoint Direct srv) c (ep, er) ->
  let c1 := annotate AnnotationServiceRef (RefKey (om_namespace (srv_meta srv)) (ep_name ep)) c in
  goes (ResolveAndRecordBackendService (cl_binding c) srv) c (Ok (cl_binding c1, ep, er)) c1.
Proof.
  intros Hst c1. unfold ResolveAndRecordBackendService. eapply goes_bind; [apply silent_goes, Hst; done|]. cbn beta iota.
  eapply goes_bind; [apply goes_Ensure|apply silent_goes, quiet_ret].
Qed.

Lemma silent_Backend srv c ep er :
  silent (ResolveServiceEndpoint Direct srv) c (ep, er) ->
  annotation (cl_binding c) AnnotationServiceRef = RefKey (om_namespace (srv_meta srv)) (ep_name ep) ->
  silent (ResolveAndRecordBackendService (cl_binding c) srv) c (Ok (cl_binding c, ep, er)).
Proof.
  intros Hst Ha. unfold ResolveAndRecordBackendService. eapply silent_bind; [exact Hst|]. cbn beta iota.
  eapply silent_bind; [by apply silent_Ensure|apply quiet_ret].
Qed.


Lemma settling_Backend {A} srv ks (f : result (MCPGatewayBinding * ServiceEndpoint * option error) -> M A) c :
  AnnotationServiceRef ∉ ks ->
  (forall ep er, settling (keeps_but ks) (fun b => f (Ok (b, ep, er)))
     (annotate AnnotationServiceRef (RefKey (om_namespace (srv_meta srv)) (ep_name ep)) c)) ->
  settling (keeps_but (AnnotationServiceRef :: ks)) (fun b => ResolveAndRecordBackendService b srv ≫= f) c.
Proof.
  intros Hk Hf. destruct (steady_Endpoint srv c) as [[ep er] Hep]. destruct (Hf ep er) as (a & c1 & Hg & HR & Hs).
  exists a, c1. split_and!; [|by eapply keeps_annotate|].
  - eapply goes_bind; [by apply goes_Backend|exact Hg].
  - destruct (keeps_annotate _ _ _ _ _ HR) as [[_ Hr] _]. eapply silent_bind; [apply silent_Backend; [apply Hep, Hr|]|exact Hs].
    rewrite (proj2 HR _ Hk). apply annotation_annotate.
Qed.

(** *** Owned objects *)

(** An owned object is applied, then the rest of the pass, which does not write it. *)
Lemma settling_apply {A} k `{O : Owned k} `{!OwnedLaws k} `{!Kept k} kds (o : MCPGatewayBinding -> obj k)
    (f : MCPGatewayBinding -> M A) (g : error -> A) c :
  k ∉ kds ->
  (forall b b', mgb_meta b' = mgb_meta b -> o b' = o b) ->
  (forall b, om_name (meta_of k (o b)) = om_name (mgb_meta b) /\ om_namespace (meta_of k (o b)) = om_namespace (mgb_meta b)) ->
  (forall c1, keeps_slots [k] c c1 -> settling (keeps_slots kds) f c1) ->
  settling (keeps_slots (k :: kds)) (fun b =>
    applied ← createOrUpdate k b (o b);
    match applied with Some e => mret (g e) | None => f b end) c.
Proof.
  intros Hk Ho Hname Hf. destruct (Hname (cl_binding c)) as [Hn Hns].
  destruct (settle_createOrUpdate k c (o (cl_binding c)) Hn Hns) as (e & c1 & Hg & Hb & Hr & Hother & Hkey & _ & Hs).
  assert (H1 : keeps_slots [k] c c1) by (by apply keeps_slot).
  assert (Hi : incl [k] (k :: kds)) by (intros x [<-|[]]; by left).
  destruct e as [e|].
  - exists (g e), c1. split_and!; [|by eapply keeps_slots_mono|].
    + eapply goes_bind; [exact Hg|apply silent_goes, quiet_ret].
    + eapply (silent_bind _ _ _ (Some e)); [|apply quiet_ret]. rewrite (Ho (cl_binding c)) by (by rewrite Hb).
      apply Hs. split; [done|apply alike_refl].
  - destruct (Hf c1 H1) as (a & c2 & Hg2 & H2 & Hs2). exists a, c2. split_and!.
    + eapply goes_bind; [exact Hg|]. by rewrite <- Hb.
    + eapply keeps_slots_trans; [by eapply keeps_slots_mono|]. eapply keeps_slots_mono; [|exact H2]. by apply incl_tl, incl_refl.
    + eapply (silent_bind _ _ _ None); [|exact Hs2]. destruct H2 as (Hm2 & _ & _ & Hsl2 & _).
      rewrite (Ho (cl_binding c)) by (rewrite Hm2; by rewrite Hb). apply Hs. split; [done|]. rewrite Hsl2 by done. apply alike_refl.
Qed.

(** *** Reads of the binding and its slots *)

Lemma read_binding c rd ns name :
  bindingKey (cl_binding c) = (ns, name) -> cluster_step c (CGet rd KBinding ns name) = (Ok (cl_binding c), c).
Proof. intros H. cbn. by rewrite bool_decide_eq_true_2. Qed.

Lemma read_slot k `{O : Owned k} `{!Kept k} c rd :
  cluster_step c (CGet rd k (om_namespace (mgb_meta (cl_binding c))) (om_name (mgb_meta (cl_binding c))))
  = (match slot k c with Some o => Ok o | None => Err missing end, c).
Proof. cbn. by rewrite kept_get. Qed.

Lemma settling_read_slot {A} k `{O : Owned k} `{!Kept k} rd kds (f : MCPGatewayBinding -> result (obj k) -> M A) c :
  k ∉ kds -> settling (keeps_slots kds) (fun b => f b match slot k c with Some o => Ok o | None => Err missing end) c ->
  settling (keeps_slots kds) (fun b => call (CGet rd k (om_namespace (mgb_meta b)) (om_name (mgb_meta b))) ≫= f b) c.
Proof.
  intros Hk (a & c1 & Hg & HR & Hs). exists a, c1. split_and!; [|done|].
  - eapply goes_after; [apply (read_slot k)|exact Hg].
  - eapply silent_after; [done|apply (read_slot k)|]. destruct HR as (_ & _ & _ & Hsl & _). by rewrite Hsl.
Qed.

(** A whole pass, from the read of the binding, runs twice: the second time silently. *)
Lemma settling_twice {A} R `{K : Keeps R} (m : MCPGatewayBinding -> M A) (err : error -> M A) c s :
  settling R m c ->
  let pass := got ← call (CGet Cached KBinding (fst (bindingKey (cl_binding c))) (snd (bindingKey (cl_binding c))));
              match got with Err e => err e | Ok b => m b end in
  exists tr res c1, exec pass s c = (tr, (res, s), c1) /\
    exists tr', exec pass s c1 = (tr', (res, s), c1) /\ each_call no_write tr'.
Proof.
  intros (res & c1 & Hg & HR & Hs) pass. destruct (keeps_it _ _ HR) as [Hid _].
  assert (Hpass : goes pass c res c1) by (eapply goes_after; [by apply read_binding|exact Hg]).
  assert (Hagain : silent pass c1 res).
  { eapply silent_after; [done|apply read_binding|exact Hs]. apply same_identity_fields in Hid as (_ & H1 & H2).
    unfold bindingKey. by rewrite H1, H2. }
  destruct (Hpass s) as [tr Htr]. exists tr, res, c1. split; [done|]. destruct (Hagain s) as (tr' & ? & ?). eauto.
Qed.

End settling.
