(* ===== verification/HttpRoute.v ===== *)
(** * The httproute provider (internal/controller/providers/httproute/controller.go)

    Turns a binding of provider "httproute" into an HTTPRoute on the Gateway its
    ConfigMap names, and publishes the URL once the Gateway accepted the route.  The
    ConfigMap is written by a tenant, so what is used from it is checked first. *)

From Stdlib Require Import Ascii.
From S2P Require Import Prelude K8s GatewayApi ApiAlpha ApiBeta Policy StatusAC Interact Conditions Ownership Service Gateway ConfigHash Handshake Reconcile Providers ProviderSafety.

Definition ProviderName : string := "httproute".

Definition configKeyGatewayName : string := "gateway-name".
Definition configKeyGatewayNamespace : string := "gateway-namespace".
Definition configKeyRouteHostname : string := "route-hostname".
Definition configKeyPublicHostname : string := "public-hostname".

Definition reasonRouteNotAccepted : string := "RouteNotAccepted".

Definition envAllowedGatewayNamespaces : string := "HTTPROUTE_ALLOWED_GATEWAY_NAMESPACES".

(** The part of the reconciler the passes depend on. *)
Record Reconciler := { AllowedGatewayNamespaces : list string }.

Definition requeue10s : Result := {| RequeueAfter := 10 * 1000000000 |}.

(** ** The allowlist *)

(** [os.Getenv] is the argument [getenv]. *)
Definition ParseAllowedGatewayNamespaces (getenv : string -> string) (flagValue : string) (flagSet : bool) : list string :=
  let raw := if negb flagSet then getenv envAllowedGatewayNamespaces else flagValue in
  split_trim raw.

(** [configMap.Data[key]] *)
Definition configValue (data : gmap string string) (key : string) : string := default "" (data !! key).

Section with_vendor.
Context `{V : Vendor}.

Definition ValidGatewayNamespace (ns : string) : bool := (List.length (IsDNS1123Label ns) =? 0)%nat.
Definition ValidGatewayName (name : string) : bool := (List.length (IsDNS1123Subdomain name) =? 0)%nat.

(** Allowed entries, dropped entries, error. *)
Definition ResolveAllowedGatewayNamespaces (getenv : string -> string) (flagValue : string) (flagSet : bool)
    : list string * list string * option error :=
  let parsed := ParseAllowedGatewayNamespaces getenv flagValue flagSet in
  let allowed := List.filter ValidGatewayNamespace parsed in
  let invalid := List.filter (fun ns => negb (ValidGatewayNamespace ns)) parsed in
  if (0 <? List.length parsed)%nat && (List.length allowed =? 0)%nat
  then ([], invalid, Some (Errorf ("httproute gateway-namespace allowlist was configured (" +:+ fmt.vs parsed
                                   +:+ ") but contains no valid RFC 1123 namespace names")))
  else (allowed, invalid, None).

(** ** The pass over a binding *)

Definition deleteStaleHTTPRoute (binding : MCPGatewayBinding) : M (option error) := deleteStale KHTTPRoute binding.

Definition setNotRegistered (binding : MCPGatewayBinding) (message : string) : M (option error) :=
  err ← deleteStaleHTTPRoute binding;
  match err with
  | Some e => mret (Some e)
  | None => UpdateBindingStatus binding ConditionFalse ReasonGatewayNotRegistered message ""
  end.

Definition applyHTTPRoute (binding : MCPGatewayBinding) (httpRoute : HTTPRoute) : M (option error) :=
  createOrUpdate KHTTPRoute binding httpRoute.

(** Inl is [done]: the binding was handled, with this error. *)
Definition resolveGatewayRef (r : Reconciler) (binding : MCPGatewayBinding) (data : gmap string string)
    : M (option error + string * string) :=
  let refuse message := err ← setNotRegistered binding message; mret (inl err) in
  let configRef := mgb_configRef (mgb_spec binding) in
  let gwName := configValue data configKeyGatewayName in
  let gwNamespace := configValue data configKeyGatewayNamespace in
  if gwName == "" then
    refuse ("ConfigMap " +:+ fmt.q configRef +:+ " missing required key " +:+ fmt.q configKeyGatewayName)
  else if gwNamespace == "" then
    refuse ("ConfigMap " +:+ fmt.q configRef +:+ " missing required key " +:+ fmt.q configKeyGatewayNamespace)
  else if negb (ValidGatewayName gwName) then
    refuse (fmt.q configKeyGatewayName +:+ " value " +:+ fmt.q gwName +:+ " is not a valid name (must be an RFC 1123 subdomain)")
  else if negb (ValidGatewayNamespace gwNamespace) then
    refuse (fmt.q configKeyGatewayNamespace +:+ " value " +:+ fmt.q gwNamespace
            +:+ " is not a valid namespace name (must be an RFC 1123 label)")
  else if (0 <? List.length (AllowedGatewayNamespaces r))%nat
          && negb (existsb (String.eqb gwNamespace) (AllowedGatewayNamespaces r)) then
    refuse (fmt.q configKeyGatewayNamespace +:+ " " +:+ fmt.q gwNamespace
            +:+ " is not in the operator's trusted gateway-namespace allowlist")
  else mret (inr (gwName, gwNamespace)).

Definition resolvePublicHost (data : gmap string string) (gwName gwNamespace : string) : M (result string) :=
  if configValue data configKeyPublicHostname != "" then mret (Ok (configValue data configKeyPublicHostname))
  else if configValue data configKeyRouteHostname != "" then mret (Ok (configValue data configKeyRouteHostname))
  else GatewayAddress gwName gwNamespace.

(** The HTTPRoute the pass asks for. *)
Definition desiredRoute (binding : MCPGatewayBinding) (gwName gwNamespace path : string) (hostnames : list string)
    (endpoint : ServiceEndpoint) : HTTPRoute :=
  {| route_meta := newMeta (om_name (mgb_meta binding)) (om_namespace (mgb_meta binding)) None;
     route_spec := routeSpec gwName gwNamespace None hostnames path endpoint;
     route_parents := [] |}.

(** From the route as read to the status. *)
Definition publishStatus (binding : MCPGatewayBinding) (data : gmap string string) (gwName gwNamespace path : string)
    (route : HTTPRoute) : M (Result * option error) :=
  if negb (IsHTTPRouteAccepted route gwName gwNamespace) then
    statusErr ← UpdateBindingStatus binding ConditionFalse reasonRouteNotAccepted "Waiting for gateway to accept HTTPRoute" "";
    mret (requeue10s, statusErr)
  else
    host ← resolvePublicHost data gwName gwNamespace;
    match host with
    | Err addrErr => mret (noRequeue, Some addrErr)
    | Ok publicHost =>
        if publicHost == "" then
          statusErr ← UpdateBindingStatus binding ConditionFalse ReasonPublicAddressPending
            "Waiting for public address: no public-hostname in ConfigMap and no Gateway status address available" "";
          mret (requeue10s, statusErr)
        else
          sch ← SchemeFromAcceptedRoute route gwName gwNamespace;
          match sch with
          | Err schemeErr => mret (noRequeue, Some schemeErr)
          | Ok scheme =>
              let statusURL := scheme +:+ "://" +:+ FormatHost publicHost +:+ path in
              err ← UpdateBindingStatus binding ConditionTrue ReasonGatewayRegistered "HTTPRoute accepted by gateway" statusURL;
              mret (noRequeue, err)
          end
    end.

(** The applied route is read back. *)
Definition publishRoute (binding : MCPGatewayBinding) (data : gmap string string) (gwName gwNamespace path : string)
    : M (Result * option error) :=
  got ← call (CGet Cached KHTTPRoute (om_namespace (mgb_meta binding)) (om_name (mgb_meta binding)));
  match got with
  | Err e => mret (noRequeue, Some e)
  | Ok route => publishStatus binding data gwName gwNamespace path route
  end.

(** From the annotations to the applied route. *)
Definition routeBinding (binding : MCPGatewayBinding) (mcpServer : MCPServer) (data : gmap string string)
    (gwName gwNamespace : string) : M (Result * option error) :=
  annotated ← EnsureBindingAnnotations binding {[ AnnotationGatewayRef := RefKey gwNamespace gwName ]};
  match annotated with
  | Err e => mret (noRequeue, Some e)
  | Ok binding1 =>
      let path := serverPath mcpServer in
      backend ← ResolveAndRecordBackendService binding1 mcpServer;
      match backend with
      | Err e | Ok (_, _, Some e) => mret (noRequeue, Some e)
      | Ok (binding2, endpoint, None) =>
          let routeHostname := configValue data configKeyRouteHostname in
          let invalid := if routeHostname != "" then ValidateHostname routeHostname else None in
          match invalid with
          | Some err =>
              e ← setNotRegistered binding2 ("invalid " +:+ fmt.q configKeyRouteHostname +:+ " in ConfigMap "
                    +:+ fmt.q (mgb_configRef (mgb_spec binding2)) +:+ ": " +:+ Error err);
              mret (noRequeue, e)
          | None =>
              let hostnames := if routeHostname != "" then [routeHostname] else [] in
              applied ← applyHTTPRoute binding2 (desiredRoute binding2 gwName gwNamespace path hostnames endpoint);
              match applied with
              | Some e => mret (noRequeue, Some e)
              | None => publishRoute binding2 data gwName gwNamespace path
              end
          end
      end
  end.

(** The pass from the binding as read. *)
Definition reconcileBinding (r : Reconciler) (binding : MCPGatewayBinding) : M (Result * option error) :=
  if mgb_provider (mgb_spec binding) != ProviderName then mret (noRequeue, None)
  else
    gotServer ← call (CGet Cached KMCPServer (om_namespace (mgb_meta binding)) (mgb_mcpServerRef (mgb_spec binding)));
    match gotServer with
    | Err e => if IsNotFound e then mret (noRequeue, None) else mret (noRequeue, Some e)
    | Ok mcpServer =>
        let configRef := mgb_configRef (mgb_spec binding) in
        if configRef == "" then
          err ← setNotRegistered binding "spec.configRef is required for httproute provider";
          mret (noRequeue, err)
        else
          gotConfig ← call (CGet Direct KConfigMap (om_namespace (mgb_meta binding)) configRef);
          match gotConfig with
          | Err e =>
              if negb (IsNotFound e) then mret (noRequeue, Some e)
              else err ← setNotRegistered binding ("ConfigMap " +:+ fmt.q configRef +:+ " not found");
                   mret (noRequeue, err)
          | Ok configMap =>
              ref ← resolveGatewayRef r binding (cm_data configMap);
              match ref with
              | inl refErr => mret (noRequeue, refErr)
              | inr (gwName, gwNamespace) => routeBinding binding mcpServer (cm_data configMap) gwName gwNamespace
              end
          end
    end.

Definition Reconcile (r : Reconciler) (req : Request) : M (Result * option error) :=
  got ← call (CGet Cached KBinding (fst req) (snd req));
  match got with
  | Err e => if IsNotFound e then mret (noRequeue, None) else mret (noRequeue, Some e)
  | Ok binding => reconcileBinding r binding
  end.

(** ** Watches *)

Definition findBindingsForConfigMap (o : ObjectMeta) : M (list Request) :=
  got ← call (CList KBinding (Some (om_namespace o)));
  match got with
  | Err _ => mret []
  | Ok items => mret (selectBindings ProviderName (fun b => mgb_configRef (mgb_spec b) == om_name o) items)
  end.

Definition findBindingsForGateway (o : ObjectMeta) : M (list Request) :=
  got ← call (CList KBinding None);
  match got with
  | Err _ => mret []
  | Ok items =>
      let want := RefKey (om_namespace o) (om_name o) in
      mret (selectBindings ProviderName (fun b => annotation b AnnotationGatewayRef == want) items)
  end.

Definition findBindingsForMCPServer (o : ObjectMeta) : M (list Request) :=
  got ← call (CList KBinding (Some (om_namespace o)));
  match got with
  | Err _ => mret []
  | Ok items => mret (selectBindings ProviderName (fun b => mgb_mcpServerRef (mgb_spec b) == om_name o) items)
  end.

End with_vendor.

(** ** Safety of a pass *)

(** What the pass may use as gateway coordinates: as the ConfigMap says, well-formed,
    and in the allowlist when there is one. *)
Definition gateway_ref `{V : Vendor} (r : Reconciler) (data : gmap string string) (gwName gwNamespace : string) : Prop :=
  gwName = configValue data configKeyGatewayName /\ gwNamespace = configValue data configKeyGatewayNamespace /\
  gwName <> "" /\ gwNamespace <> "" /\ ValidGatewayName gwName = true /\ ValidGatewayNamespace gwNamespace = true /\
  (AllowedGatewayNamespaces r = [] \/ In gwNamespace (AllowedGatewayNamespaces r)).

(** The pass read the binding, of this provider, its server and its ConfigMap. *)
Definition inputs_read `{V : Vendor} (r : Reconciler) (req : Request) (h : list event) (srv : MCPServer)
    (data : gmap string string) (gwName gwNamespace : string) : Prop :=
  exists b cm, In (Ev (CGet Cached KBinding (fst req) (snd req)) (Ok b)) h /\
    mgb_provider (mgb_spec b) = ProviderName /\
    In (Ev (CGet Cached KMCPServer (om_namespace (mgb_meta b)) (mgb_mcpServerRef (mgb_spec b))) (Ok srv)) h /\
    In (Ev (CGet Direct KConfigMap (om_namespace (mgb_meta b)) (mgb_configRef (mgb_spec b))) (Ok cm)) h /\
    data = cm_data cm /\ gateway_ref r data gwName gwNamespace.

(** The route hostnames: the configured one, when it is a valid name. *)
Definition hostnames_of `{V : Vendor} (data : gmap string string) (hostnames : list string) : Prop :=
  let configured := configValue data configKeyRouteHostname in
  configured = "" /\ hostnames = [] \/ valid_hostname configured /\ hostnames = [configured].

Definition desired_route `{V : Vendor} (r : Reconciler) (req : Request) (h : list event) (k : kind) : obj k -> Prop :=
  match k return obj k -> Prop with
  | KHTTPRoute => fun o => exists srv data gwName gwNamespace hostnames ep,
      inputs_read r req h srv data gwName gwNamespace /\ hostnames_of data hostnames /\
      ep_name ep = serviceNameFor srv /\
      route_spec o = routeSpec gwName gwNamespace None hostnames (serverPath srv) ep
  | _ => fun _ => False
  end.

(** Where a public host may come from. *)
Definition host_source (h : list event) (data : gmap string string) (gwName gwNamespace host : string) : Prop :=
  host <> "" /\
  (host = configValue data configKeyPublicHostname \/
   configValue data configKeyPublicHostname = "" /\ host = configValue data configKeyRouteHostname \/
   configValue data configKeyPublicHostname = "" /\ configValue data configKeyRouteHostname = "" /\
   exists gw, In (Ev (CGet Cached KGateway gwNamespace gwName) (Ok gw)) h /\ host = firstAddress (gtw_addresses gw) "").

(** The scheme is that of the Gateway as read, at the section of the parent status by which it
    accepted the route; http where the route names no such parent, or the Gateway is gone. *)
Definition scheme_source (h : list event) (route : HTTPRoute) (gwName gwNamespace scheme : string) : Prop :=
  (exists p gw, In p (route_parents route) /\ isParentAccepted p = true /\ pref_name (rps_parentRef p) = gwName /\
     parentNamespace route (rps_parentRef p) = gwNamespace /\
     In (Ev (CGet Cached KGateway gwNamespace gwName) (Ok gw)) h /\ scheme = servedScheme (servingListeners gw (pref_sectionName (rps_parentRef p)))) \/
  scheme = "http" /\
  ((forall p, In p (route_parents route) -> pref_name (rps_parentRef p) = gwName -> parentNamespace route (rps_parentRef p) = gwNamespace ->
      isParentAccepted p = false) \/
   exists e, In (Ev (CGet Cached KGateway gwNamespace gwName) (Err e)) h /\ IsNotFound e = true).

(** The route was read under the name of the binding whose status is to carry the URL. *)
Definition justified_url `{V : Vendor} (r : Reconciler) (req : Request) (h : list event) (b : MCPGatewayBinding) (url : string) : Prop :=
  exists srv data gwName gwNamespace route host scheme,
    inputs_read r req h srv data gwName gwNamespace /\
    read_named h b KHTTPRoute route /\ accepted_by route gwName gwNamespace /\
    host_source h data gwName gwNamespace host /\ scheme_source h route gwName gwNamespace scheme /\
    url = scheme +:+ "://" +:+ FormatHost host +:+ serverPath srv.

Section safety.
Context `{V : Vendor} {L : VendorLaws V} (r : Reconciler) (req : Request).

Abbreviation safe := (guard (provider_write req (desired_route r req) (justified_url r req))).

Lemma inputs_read_mono h h' srv data g n : incl h h' -> inputs_read r req h srv data g n -> inputs_read r req h' srv data g n.
Proof. intros Hi (b & cm & ? & ? & ? & ? & ?). exists b, cm. auto 10. Qed.

Lemma setNotRegistered_safe b msg s h : binding_seen req h b -> safe h (setNotRegistered b msg s).
Proof.
  intros Hb. unfold setNotRegistered. apply safe_step; [by apply safe_deleteStale; [left|]|].
  intros [e|] h' s' Hi; [done|]. apply safe_UpdateBindingStatus; [by eapply binding_seen_mono|auto].
Qed.

Lemma refuse_safe {B} b msg (f : option error -> B) s h :
  binding_seen req h b -> safe h ((e ← setNotRegistered b msg; mret (f e) : M B) s).
Proof. intros Hb. apply safe_step; [by apply setNotRegistered_safe|done]. Qed.

Lemma resolveGatewayRef_safe {B} b data (f : option error + string * string -> M B) s h :
  binding_seen req h b ->
  (forall e h' s', safe h' (f (inl e) s')) ->
  (forall g n, gateway_ref r data g n -> safe h (f (inr (g, n)) s)) ->
  safe h ((resolveGatewayRef r b data ≫= f) s).
Proof.
  intros Hb Hl Hr. unfold resolveGatewayRef.
  assert (Href : forall msg, safe h (((err ← setNotRegistered b msg; mret (inl err)) ≫= f) s)).
  { intros msg. apply guard_bind_assoc, safe_step; [by apply setNotRegistered_safe|]. intros e h' s' _. apply Hl. }
  do 5 (lazymatch goal with |- context [if ?c then _ else _] => destruct c eqn:? end; [apply Href|]).
  apply Hr. bool_to_prop. unfold gateway_ref. split_and!; try done.
  destruct (AllowedGatewayNamespaces r) as [|a l] eqn:Ea; [by left|right].
  match goal with H : andb _ _ = false |- _ => cbn [List.length Nat.ltb Nat.leb andb] in H; apply negb_false_iff in H;
    apply existsb_exists in H as (x & Hx & <-%String.eqb_eq) end. done.
Qed.

Lemma GatewayAddress_safe {B} g n (f : result string -> M B) s h :
  (forall e h' s', safe h' (f (Err e) s')) ->
  (forall a h' s', incl h h' ->
     (a = "" \/ exists gw, In (Ev (CGet Cached KGateway n g) (Ok gw)) h' /\ a = firstAddress (gtw_addresses gw) "") ->
     safe h' (f (Ok a) s')) ->
  safe h ((GatewayAddress g n ≫= f) s).
Proof.
  intros He Ho. unfold GatewayAddress. apply guard_bind_assoc, safe_read; [done|]. intros [gw|e].
  - apply Ho; [apply incl_tl, incl_refl|]. right. exists gw. split; [by left|done].
  - destruct (IsNotFound e); [|apply He]. apply Ho; [apply incl_tl, incl_refl|auto].
Qed.

Lemma resolvePublicHost_safe {B} data g n (f : result string -> M B) s h :
  (forall e h' s', safe h' (f (Err e) s')) ->
  (forall a h' s', incl h h' -> (a = "" \/ host_source h' data g n a) -> safe h' (f (Ok a) s')) ->
  safe h ((resolvePublicHost data g n ≫= f) s).
Proof.
  intros He Ho. unfold resolvePublicHost. case_bool_decide as E1; cbn.
  - case_bool_decide as E2; cbn.
    + apply GatewayAddress_safe; [done|]. intros a h' s' Hi Ha. apply Ho; [done|].
      destruct (decide (a = "")); [by left|right]. split; [done|]. destruct Ha as [?|Ha]; [done|auto].
    + apply Ho; [apply incl_refl|]. right. split; [done|auto].
  - apply Ho; [apply incl_refl|]. right. split; [done|auto].
Qed.

Lemma scheme_source_mono h h' route g n sch : incl h h' -> scheme_source h route g n sch -> scheme_source h' route g n sch.
Proof.
  intros Hi [(p & gw & H1 & H2 & H3 & H4 & H5 & H6)|[H1 [H|(e & H2 & H3)]]]; [left; exists p, gw; auto 10|right..]; (split; [done|]); [by left|].
  right. exists e. auto.
Qed.

Lemma scheme_safe {B} route g n (f : result string -> M B) s h :
  (forall e h' s', safe h' (f (Err e) s')) ->
  (forall a h' s', incl h h' -> scheme_source h' route g n a -> safe h' (f (Ok a) s')) ->
  safe h ((SchemeFromAcceptedRoute route g n ≫= f) s).
Proof.
  intros He Ho. unfold SchemeFromAcceptedRoute.
  assert (Hall : forall ps pre, route_parents route = pre ++ ps ->
    (forall p, In p pre -> pref_name (rps_parentRef p) = g -> parentNamespace route (rps_parentRef p) = n -> isParentAccepted p = false) ->
    safe h ((schemeFromParents route g n ps ≫= f) s)).
  { induction ps as [|p ps IH]; intros pre Hps Hseen; cbn [schemeFromParents].
    { apply Ho; [apply incl_refl|]. right. split; [done|]. left. rewrite Hps, app_nil_r. exact Hseen. }
    assert (Hskip : (pref_name (rps_parentRef p) = g -> parentNamespace route (rps_parentRef p) = n -> isParentAccepted p = false) ->
      safe h ((schemeFromParents route g n ps ≫= f) s)).
    { intros Hp. apply (IH (pre ++ [p])); [by rewrite <- app_assoc|]. intros q [Hq|[<-|[]]]%in_app_iff; [by apply Hseen|exact Hp]. }
    destruct (isParentAccepted p) eqn:Ea; cbn [negb]; [|by apply Hskip].
    case_bool_decide as E1; cbn [negb]; [|by apply Hskip]. case_bool_decide as E2; cbn [negb]; [|by apply Hskip].
    apply guard_bind_assoc, safe_read; [done|]. intros [gw|e].
    - apply Ho; [apply incl_tl, incl_refl|]. left. exists p, gw. split_and!; try done; [|by left|apply schemeOfGateway_served].
      rewrite Hps, in_app_iff. right. by left.
    - destruct (IsNotFound e) eqn:Ee; [|apply He]. apply Ho; [apply incl_tl, incl_refl|]. right. split; [done|]. right. exists e. split; [by left|done]. }
  by apply (Hall (route_parents route) []).
Qed.

Lemma publishRoute_safe b srv data g n s h :
  binding_seen req h b -> inputs_read r req h srv data g n -> safe h (publishRoute b data g n (serverPath srv) s).
Proof.
  intros Hb Hin. unfold publishRoute. apply safe_read; [done|]. intros [route|e]; [|done]. unfold publishStatus.
  set (h1 := _ :: h). assert (Hi1 : incl h h1) by apply incl_tl, incl_refl.
  destruct (IsHTTPRouteAccepted route g n) eqn:Eacc; cbn [negb].
  2:{ apply safe_status_end; [by eapply binding_seen_mono|auto]. }
  apply IsHTTPRouteAccepted_spec in Eacc. apply resolvePublicHost_safe; [done|]. intros host h2 s2 Hi2 Hhost.
  case_bool_decide as Eh; [apply safe_status_end; [|auto]; eapply binding_seen_mono; [|exact Hb]; by eapply incl_tran|].
  destruct Hhost as [?|Hhost]; [done|]. apply scheme_safe; [done|]. intros scheme h3 s3 Hi3 Hsc.
  assert (Hi03 : incl h h3) by (eapply incl_tran; [exact Hi1|]; by eapply incl_tran).
  apply safe_status_end; [by eapply binding_seen_mono|]. left. split; [done|]. intros h4 Hi4.
  exists srv, data, g, n, route, host, scheme. split_and!; try done.
  - eapply inputs_read_mono; [|exact Hin]. by eapply incl_tran.
  - apply Hi4, Hi3, Hi2. left. reflexivity.
  - destruct Hhost as [? [?|[?|(? & ? & gw & ? & ?)]]]; (split; [done|]); [auto..|]. right. right. split_and!; [done..|].
    exists gw. auto.
  - by eapply scheme_source_mono.
Qed.

Lemma routeBinding_safe b srv data g n s h :
  binding_seen req h b -> inputs_read r req h srv data g n -> safe h (routeBinding b srv data g n s).
Proof.
  intros Hb Hin. unfold routeBinding. apply safe_EnsureBindingAnnotations; [done| |intros b1 h1 s1 Hi1 Hb1|done].
  { intros k v. rewrite lookup_singleton_Some. intros [<- _]. cbn. auto. }
  apply safe_ResolveAndRecord; [done| |done]. intros b2 ep er h2 s2 Hi2 Hb2 Hep.
  assert (Hin2 : inputs_read r req h2 srv data g n) by (eapply inputs_read_mono; [|exact Hin]; by eapply incl_tran).
  destruct er as [e|]; [done|].
  destruct (if _ : bool then ValidateHostname _ else None) as [err|] eqn:Ehost; [by apply refuse_safe|].
  apply safe_step.
  - apply safe_createOrUpdate; [apply _|done..|]. intros h3 o Hi3 Hsp. exists srv, data, g, n, (if configValue data configKeyRouteHostname != "" then [configValue data configKeyRouteHostname] else []), ep.
    split_and!; [by eapply inputs_read_mono| |done|exact Hsp].
    unfold hostnames_of. destruct (configValue data configKeyRouteHostname != "") eqn:E.
    + right. split; [by apply ValidateHostname_None|done].
    + left. by bool_to_prop.
  - intros [e|] h3 s3 Hi3; [done|]. apply publishRoute_safe; [by eapply binding_seen_mono|by eapply inputs_read_mono].
Qed.

Lemma httproute_Reconcile_safe : mguard (provider_write req (desired_route r req) (justified_url r req)) (Reconcile r req).
Proof.
  intros s h. unfold Reconcile. apply safe_read; [done|]. intros [b|e]; [|by destruct (IsNotFound e)]. unfold reconcileBinding.
  case_bool_decide as Hp; [|done]. cbn [negb]. apply safe_read; [done|]. intros [srv|e]; [|by destruct (IsNotFound e)].
  assert (Hb : forall h', incl (Ev (CGet Cached KBinding (fst req) (snd req)) (Ok b) :: h) h' -> binding_seen req h' b).
  { intros h' Hi. left. apply Hi. by left. }
  case_bool_decide; [apply refuse_safe, Hb, incl_tl, incl_refl|].
  apply safe_read; [done|]. intros [cm|e].
  2:{ destruct (IsNotFound e); [|done]. apply refuse_safe, Hb. do 2 apply incl_tl. apply incl_refl. }
  apply resolveGatewayRef_safe; [apply Hb; do 2 apply incl_tl; apply incl_refl|done|]. intros g n Href.
  apply routeBinding_safe; [apply Hb; do 2 apply incl_tl; apply incl_refl|].
  exists b, cm. cbn. split_and!; auto.
Qed.


End safety.

(** ** A concrete pass *)

Definition sampleBinding : MCPGatewayBinding :=
  {| mgb_meta := {| om_name := "srv-gateway-binding"; om_namespace := "ns"; om_uid := "b-uid"; om_resourceVersion := "7";
                    om_generation := 1; om_deletionTimestamp := None; om_labels := None; om_annotations := None;
                    om_ownerReferences := [] |};
     mgb_spec := {| mgb_mcpServerRef := "srv"; mgb_provider := ProviderName; mgb_configRef := "gw" |};
     mgb_status := {| mgb_url := ""; mgb_conditions := [] |} |}.

Definition sampleConfig : ConfigMap :=
  {| cm_meta := newMeta "gw" "ns" None;
     cm_data := {[ configKeyGatewayName := "public"; configKeyGatewayNamespace := "edge"; configKeyRouteHostname := "mcp.example.com" ]};
     cm_binaryData := ∅ |}.

Definition sampleGateway : GatewayApi.Gateway :=
  {| gtw_meta := newMeta "public" "edge" None;
     gtw_listeners := [{| lis_name := "web"; lis_hostname := None; lis_protocol := HTTPSProtocolType |}];
     gtw_addresses := [{| ga_type := Some HostnameAddressType; ga_value := "lb.example.com" |}] |}.

Definition acceptedParent : RouteParentStatus :=
  {| rps_parentRef := {| pref_group := None; pref_kind := None; pref_namespace := Some "edge"; pref_name := "public";
                         pref_sectionName := None; pref_port := None |};
     rps_conditions := [condition_at 0 RouteConditionAccepted ConditionTrue "Accepted" "" 1;
                        condition_at 0 RouteConditionResolvedRefs ConditionTrue "ResolvedRefs" "" 1] |}.

Definition sampleRoute : HTTPRoute :=
  {| route_meta := newMeta "srv-gateway-binding" "ns" None;
     route_spec := routeSpec "public" "edge" None ["mcp.example.com"] "/mcp" {| ep_name := "srv"; ep_port := 8080 |};
     route_parents := [acceptedParent] |}.

Definition sampleGet (rd : reader) (k : kind) (ns name : string) : result (obj k) :=
  match k return result (obj k) with
  | KBinding => Ok sampleBinding
  | KMCPServer => Ok gatewayServer
  | KConfigMap => Ok sampleConfig
  | KGateway => Ok sampleGateway
  | KHTTPRoute => Ok sampleRoute
  | _ => Err (StatusError NotFound "not found")
  end.

Definition sampleWorld : World :=
  {| w_get := sampleGet; w_write := None; w_pods := []; w_servers := []; w_list := fun _ _ => []; w_status := None;
     w_dial := Err (Errorf "connection refused"); w_now := 5 |}.

Definition allowEdge : Reconciler := {| AllowedGatewayNamespaces := ["edge"] |}.

Definition samplePass : M (Result * option error) := @Reconcile modelVendor allowEdge ("ns", "srv-gateway-binding").

