(* ===== verification/HttpRouteConverge.v ===== *)
(** * Convergence of the httproute provider

    In a cluster where only the provider acts ([QuietCluster]), one pass does all there
    is to do: a second pass gives the same answer and writes nothing.  So the events of
    the provider's own writes do not keep it busy.  With valid inputs the pass succeeds and
    puts the route in place; and once the Gateway accepted it, the pass registers the
    binding, which the MCPServer controller then reports. *)

From S2P Require Import Prelude K8s GatewayApi ApiAlpha ApiBeta StatusAC Interact Conditions Ownership Service Gateway ConfigHash Handshake Reconcile Lifecycle Providers ProviderSafety QuietCluster Settling HttpRoute.

Section converge.
Context `{V : Vendor} {L : VendorLaws V}.

Lemma steady_resolvePublicHost data g n c : exists a, steady (resolvePublicHost data g n) c a.
Proof.
  unfold resolvePublicHost. do 2 (destruct (_ != _); [eexists; apply steady_ret|]). apply steady_GatewayAddress.
Qed.

Lemma settling_publishStatus data g n path route c :
  settling status_only (fun b => publishStatus b data g n path route) c.
Proof.
  unfold publishStatus. destruct (negb _); [apply settling_status|].
  destruct (steady_resolvePublicHost data g n c) as [[host|e] Hh]; eapply settling_steady; try exact Hh; cbn beta iota;
    [|apply settling_ret].
  destruct (host == ""); [apply settling_status|].
  destruct (steady_Scheme route g n c) as [[sch|e] Hsch]; eapply settling_steady; try exact Hsch; cbn beta iota;
    [apply settling_status|apply settling_ret].
Qed.

Lemma settling_publishRoute data g n path c : settling status_only (fun b => publishRoute b data g n path) c.
Proof.
  unfold publishRoute. apply (settling_read_slot KHTTPRoute); [apply not_elem_of_nil|].
  destruct (slot KHTTPRoute c) as [route|]; [apply settling_publishStatus|apply settling_ret].
Qed.

(** A refusal, with a message that may name what the binding's spec says. *)
Lemma settling_setNotRegistered (msg : MCPGatewayBinding -> string) c :
  (forall b b', mgb_spec b' = mgb_spec b -> msg b' = msg b) ->
  settling keeps_binding (fun b => setNotRegistered b (msg b)) c.
Proof.
  intros Hmsg. destruct (settle_deleteStale KHTTPRoute c) as (c1 & Hg & Hb & Hr & Hother & Hkey & Hs).
  set (c2 := report ConditionFalse ReasonGatewayNotRegistered (msg (cl_binding c)) "" c1). exists None, c2.
  assert (Hk : keeps_binding c c2).
  { eapply keeps_slots_trans; [|apply keeps_report]. apply (keeps_slots_mono [KHTTPRoute]); [by intros k [<-|[]]; left|].
    by apply keeps_slot. }
  split_and!; [|done|].
  - eapply goes_bind; [exact Hg|]. unfold c2. rewrite <- Hb. apply goes_status.
  - eapply silent_bind; [apply Hs; split; [apply report_meta|unfold c2; rewrite report_slot; apply alike_refl]|].
    rewrite (Hmsg (cl_binding c)) by apply Hk. apply silent_status, report_done.
Qed.

(** The part of the pass after the annotations. *)
Lemma settling_tail data g n path ep er c :
  settling keeps_binding (fun b =>
    match (Ok (b, ep, er) : result (MCPGatewayBinding * ServiceEndpoint * option error)) with
    | Err e | Ok (_, _, Some e) => mret (noRequeue, Some e)
    | Ok (binding2, endpoint, None) =>
        let routeHostname := configValue data configKeyRouteHostname in
        let invalid := if routeHostname != "" then ValidateHostname routeHostname else None in
        match invalid with
        | Some err =>
            e ← setNotRegistered binding2 ("invalid " +:+ fmt.q configKeyRouteHostname +:+ " in ConfigMap "
                  +:+ fmt.q (mgb_configRef (mgb_spec binding2)) +:+ ": " +:+ Error err);
            mret (noRequeue, e)
        | None =>
            let hostnames := if routeHostname != "" then [routeHostname] else [] in
            applied ← applyHTTPRoute binding2 (desiredRoute binding2 g n path hostnames endpoint);
            match applied with
            | Some e => mret (noRequeue, Some e)
            | None => publishRoute binding2 data g n path
            end
        end
    end) c.
Proof.
  destruct er as [e|]; [apply settling_ret|].
  cbn zeta. destruct (if _ : bool then ValidateHostname _ else None) as [err|].
  { apply settling_map. refine (settling_setNotRegistered (fun b => _) c _). by intros b b' ->. }
  eapply settling_mono; [intros c1; apply (keeps_slots_mono [KHTTPRoute]); intros k [<-|[]]; by left|].
  refine (settling_apply KHTTPRoute [] (fun b => desiredRoute b g n path _ ep) (fun b => publishRoute b data g n path)
            (fun e => (noRequeue, Some e)) c _ _ _ _).
  - apply not_elem_of_nil.
  - intros b b' H. unfold desiredRoute. by rewrite H.
  - by intros b.
  - intros c1 _. apply settling_publishRoute.
Qed.

(** The annotations a pass records. *)
Definition recorded : list string := [AnnotationGatewayRef; AnnotationServiceRef].

Lemma settling_routeBinding srv data g n c :
  settling (keeps_but recorded) (fun b => routeBinding b srv data g n) c.
Proof.
  unfold routeBinding, recorded. apply (settling_Ensure AnnotationGatewayRef); [by apply (bool_decide_unpack _)|].
  refine (settling_Backend srv [] _ _ _ _); [apply not_elem_of_nil|]. intros ep er.
  eapply settling_mono; [intros c1; apply keeps_slots_but|]. apply settling_tail.
Qed.

(** The decision on the gateway reference is taken from the ConfigMap and the binding's identity. *)
Lemma settling_resolveGatewayRef r srv data c :
  settling (keeps_but recorded) (fun b => ref ← resolveGatewayRef r b data;
    match ref with
    | inl refErr => mret (noRequeue, refErr)
    | inr (gwName, gwNamespace) => routeBinding b srv data gwName gwNamespace
    end) c.
Proof.
  assert (Href : forall msg, (forall b b', mgb_spec b' = mgb_spec b -> msg b' = msg b) ->
    settling (keeps_but recorded) (fun b => (e ← setNotRegistered b (msg b); mret (inl e)) ≫= fun ref : option error + string * string =>
      match ref with
      | inl refErr => mret (noRequeue, refErr)
      | inr (gwName, gwNamespace) => routeBinding b srv data gwName gwNamespace
      end) c).
  { intros msg Hmsg. refine (settling_then _ (fun b => setNotRegistered b (msg b)) inl _ (fun e => (noRequeue, e)) c _ _); [done|].
    eapply settling_mono; [intros c1; apply keeps_slots_but|by apply settling_setNotRegistered]. }
  unfold resolveGatewayRef. cbn zeta.
  do 2 (lazymatch goal with |- context [if ?c then _ else _] => destruct c end; [refine (Href (fun b => _) _); by intros b b' ->|]).
  do 3 (lazymatch goal with |- context [if ?c then _ else _] => destruct c end; [refine (Href (fun b => _) _); done|]).
  apply settling_routeBinding.
Qed.

Lemma settling_pass r c : settling (keeps_but recorded) (reconcileBinding r) c.
Proof.
  assert (Href : forall msg (f : option error -> Result * option error), (forall b b', mgb_spec b' = mgb_spec b -> msg b' = msg b) ->
    settling (keeps_but recorded) (fun b => e ← setNotRegistered b (msg b); mret (f e)) c).
  { intros msg f Hmsg. apply settling_map. eapply settling_mono; [intros c1; apply keeps_slots_but|by apply settling_setNotRegistered]. }
  unfold reconcileBinding.
  apply settling_if; [by intros b b' (-> & _)%same_identity_fields|apply settling_ret|].
  apply settling_read; [done|by intros b b' (-> & -> & _)%same_identity_fields|].
  destruct (cl_get _ _ _ _ _) as [srv|e]; [|destruct (IsNotFound e); apply settling_ret]. cbn zeta.
  apply settling_if; [by intros b b' (-> & _)%same_identity_fields|by refine (Href (fun _ => _) _ _)|].
  apply settling_read; [done|by intros b b' (-> & -> & _)%same_identity_fields|].
  destruct (cl_get _ _ _ _ _) as [cm|e]; [apply settling_resolveGatewayRef|].
  destruct (negb _); [apply settling_ret|]. refine (Href (fun b => _) _ _). by intros b b' ->.
Qed.

(** C21: In a cluster where only the provider acts, one pass over a binding does all there
    is to do: it ends in a cluster where a second pass answers the same, writes nothing
    and changes nothing, so the events of the provider's own writes cannot keep it busy. *)
Theorem httproute_converges r c s :
  let req := bindingKey (cl_binding c) in
  exists tr res c1, exec (Reconcile r req) s c = (tr, (res, s), c1) /\
    exists tr', exec (Reconcile r req) s c1 = (tr', (res, s), c1) /\ each_call no_write tr'.
Proof. exact (settling_twice (keeps_but recorded) (reconcileBinding r) _ c s (settling_pass r c)). Qed.

(** ** Registration once the Gateway accepts the route *)

Context {N : ControllerReferences V}.

(** The host the pass publishes. *)
Definition publicHost (data : gmap string string) (gw : GatewayApi.Gateway) : string :=
  if configValue data configKeyPublicHostname != "" then configValue data configKeyPublicHostname
  else if configValue data configKeyRouteHostname != "" then configValue data configKeyRouteHostname
  else firstAddress (gtw_addresses gw) "".

(** The scheme of the listener by which the Gateway accepted the route. *)
Definition acceptedScheme (gw : GatewayApi.Gateway) (route : HTTPRoute) (g n : string) : string :=
  match List.find (fun p => isParentAccepted p && (pref_name (rps_parentRef p) == g) && (parentNamespace route (rps_parentRef p) == n)) (route_parents route) with
  | Some p => servedScheme (servingListeners gw (pref_sectionName (rps_parentRef p)))
  | None => "http"
  end.

(** Everything the pass needs is there: the server, a ConfigMap with an admissible gateway
    reference and host name, the backend, and the Gateway with an address; a route under the
    binding's name is not controlled by anything else. *)
Record inputs_ready (r : Reconciler) (c : Cluster) (srv : MCPServer) (data : gmap string string) (g n : string)
    (ep : ServiceEndpoint) (gw : GatewayApi.Gateway) : Prop := {
  ready_provider : mgb_provider (mgb_spec (cl_binding c)) = ProviderName;
  ready_server : cl_get c Cached KMCPServer (om_namespace (mgb_meta (cl_binding c))) (mgb_mcpServerRef (mgb_spec (cl_binding c))) = Ok srv;
  ready_configRef : mgb_configRef (mgb_spec (cl_binding c)) <> "";
  ready_config : exists cm, cm_data cm = data /\
    cl_get c Direct KConfigMap (om_namespace (mgb_meta (cl_binding c))) (mgb_configRef (mgb_spec (cl_binding c))) = Ok cm;
  ready_ref : gateway_ref r data g n;
  ready_endpoint : goes (ResolveServiceEndpoint Direct srv) c (ep, None) c;
  ready_hostname : configValue data configKeyRouteHostname = "" \/ valid_hostname (configValue data configKeyRouteHostname);
  ready_gateway : cl_get c Cached KGateway n g = Ok gw;
  ready_host : publicHost data gw <> "";
  ready_route : forall x, cl_route c = Some x -> om_namespace (route_meta x) = om_namespace (mgb_meta (cl_binding c)) /\
    forall ref, GetControllerOf (route_meta x) = Some ref -> or_kind ref = MCPGatewayBindingKind /\
      or_name ref = om_name (mgb_meta (cl_binding c)) /\ ParseGroupVersion (or_apiVersion ref) = ParseGroupVersion MCPServerAPIVersion
}.

Definition routeHostnames (data : gmap string string) : list string :=
  if configValue data configKeyRouteHostname != "" then [configValue data configKeyRouteHostname] else [].

Lemma goes_unique {A} (m : M A) c a c1 a' c1' : goes m c a c1 -> goes m c a' c1' -> a = a' /\ c1 = c1'.
Proof.
  intros H H'. destruct (H emptyState) as [tr Htr], (H' emptyState) as [tr' Htr']. rewrite Htr in Htr'. by inversion Htr'.
Qed.

Lemma steady_of_goes srv c a : goes (ResolveServiceEndpoint Direct srv) c a c -> steady (ResolveServiceEndpoint Direct srv) c a.
Proof.
  intros H. destruct (steady_Endpoint srv c) as [a' Ha]. by destruct (goes_unique _ _ _ _ _ _ H (silent_goes _ _ _ (Ha c eq_refl))) as [-> _].
Qed.

Lemma resolveGatewayRef_ok r b data g n : gateway_ref r data g n -> resolveGatewayRef r b data = mret (inr (g, n)).
Proof.
  intros (-> & -> & H1 & H2 & H3 & H4 & H5). unfold resolveGatewayRef.
  rewrite H3, H4, !bool_decide_eq_false_2 by done. cbn [negb].
  destruct H5 as [->|H5]; [done|].
  rewrite (proj2 (existsb_exists _ _)); [by rewrite andb_false_r|]. eexists. split; [exact H5|]. apply String.eqb_refl.
Qed.

Lemma steady_host data g n gw c :
  cl_get c Cached KGateway n g = Ok gw -> steady (resolvePublicHost data g n) c (Ok (publicHost data gw)).
Proof.
  intros H. unfold resolvePublicHost, publicHost. do 2 (destruct (_ != _); [apply steady_ret|]).
  unfold GatewayAddress. apply steady_get; [done|]. rewrite H. apply steady_ret.
Qed.

Lemma steady_scheme_ok route g n gw c :
  cl_get c Cached KGateway n g = Ok gw -> steady (SchemeFromAcceptedRoute route g n) c (Ok (acceptedScheme gw route g n)).
Proof.
  intros H. unfold SchemeFromAcceptedRoute, acceptedScheme.
  induction (route_parents route) as [|p ps IH]; cbn [schemeFromParents List.find]; [apply steady_ret|].
  destruct (isParentAccepted p); cbn [negb andb]; [|exact IH]. destruct (_ == g); cbn [negb andb]; [|exact IH].
  destruct (_ == n); cbn [negb andb]; [|exact IH]. apply steady_get; [done|]. rewrite H, schemeOfGateway_served. apply steady_ret.
Qed.

Lemma upToDate_registered b re msg url :
  statusUpToDate b ConditionTrue re msg url = true -> binding_registered b /\ mgb_url (mgb_status b) = url.
Proof.
  unfold statusUpToDate, binding_registered. destruct (FindStatusCondition _ _) as [x|]; [|done]. intros H. bool_to_prop.
  split; [|done]. exists x. split_and!; [done|done|lia].
Qed.

(** With an accepted route the binding is reported as registered. *)
Lemma publishStatus_registers data g n gw path route c :
  cl_get c Cached KGateway n g = Ok gw -> publicHost data gw <> "" -> accepted_by route g n ->
  exists c1, goes (publishStatus (cl_binding c) data g n path route) c (noRequeue, None) c1 /\
    status_only c c1 /\ binding_registered (cl_binding c1) /\
    mgb_url (mgb_status (cl_binding c1)) = acceptedScheme gw route g n +:+ "://" +:+ FormatHost (publicHost data gw) +:+ path.
Proof.
  intros Hgw Hne Hacc. pose proof (steady_scheme_ok route g n gw c Hgw) as Hst.
  set (url := acceptedScheme gw route g n +:+ "://" +:+ FormatHost (publicHost data gw) +:+ path).
  exists (report ConditionTrue ReasonGatewayRegistered "HTTPRoute accepted by gateway" url c).
  refine (conj _ (conj (keeps_report _ _ _ _ c) (upToDate_registered _ _ _ _ (report_done _ _ _ _ _)))).
  unfold publishStatus. rewrite (proj2 (IsHTTPRouteAccepted_spec _ _ _) Hacc). cbn [negb].
  eapply goes_bind; [apply silent_goes, (steady_host data g n gw c Hgw); done|]. cbn beta iota.
  rewrite bool_decide_eq_false_2 by done. eapply goes_bind; [apply silent_goes, Hst; done|]. cbn beta iota.
  eapply goes_bind; [apply goes_status|apply silent_goes, quiet_ret].
Qed.

(** Reading the route back does not fail: it is waited for, or registered. *)
Lemma publishRoute_succeeds data g n gw path route c :
  cl_get c Cached KGateway n g = Ok gw -> publicHost data gw <> "" -> cl_route c = Some route ->
  exists res c1, goes (publishRoute (cl_binding c) data g n path) c res c1 /\ status_only c c1 /\ snd res = None.
Proof.
  intros Hgw Hne Hr.
  assert (H : exists res c1, goes (publishStatus (cl_binding c) data g n path route) c res c1 /\ status_only c c1 /\ snd res = None).
  { destruct (IsHTTPRouteAccepted route g n) eqn:Ea.
    - destruct (publishStatus_registers data g n gw path route c Hgw Hne) as (c1 & Hg & Hst & _); [by apply IsHTTPRouteAccepted_spec|]. eauto.
    - exists (requeue10s, None). eexists. split; [|split; [apply keeps_report|done]]. unfold publishStatus. rewrite Ea. cbn [negb].
      eapply goes_bind; [apply goes_status|apply silent_goes, quiet_ret]. }
  destruct H as (res & c1 & Hg & H). exists res, c1. split; [|exact H].
  eapply goes_after; [apply (read_slot KHTTPRoute)|]. cbn. by rewrite Hr.
Qed.

(** From a cluster with the inputs, the pass comes to [routeBinding]. *)
Lemma enter r c srv data g n ep gw c' res c1 :
  inputs_ready r c srv data g n ep gw -> keeps_identity c c' ->
  goes (routeBinding (cl_binding c') srv data g n) c' res c1 ->
  goes (Reconcile r (bindingKey (cl_binding c))) c' res c1.
Proof.
  intros [Hp Hs Hc (cm & <- & Hcm) Href _ _ _ _ _] [(Hspec & Hns & Hn)%same_identity_fields (Hget & _ & _)] Hg.
  unfold Reconcile. eapply goes_after.
  { apply read_binding. unfold bindingKey. cbn. by rewrite Hns, Hn. }
  unfold reconcileBinding. rewrite Hspec, Hns, Hp, bool_decide_eq_true_2 by done. cbn [negb].
  eapply goes_after; [by apply (step_fixed c)|]. rewrite Hs, bool_decide_eq_false_2 by done.
  eapply goes_after; [by apply (step_fixed c)|]. rewrite Hcm, (resolveGatewayRef_ok _ _ _ _ _ Href).
  eapply goes_bind; [apply silent_goes, quiet_ret|]. exact Hg.
Qed.

(** The cluster after a pass: the annotations are recorded and the route stands as desired,
    also for a later pass. *)
Definition routed (srv : MCPServer) (data : gmap string string) (g n : string) (ep : ServiceEndpoint) (c : Cluster) (x : HTTPRoute) : Prop :=
  annotation (cl_binding c) AnnotationGatewayRef = RefKey n g /\
  annotation (cl_binding c) AnnotationServiceRef = RefKey (om_namespace (srv_meta srv)) (ep_name ep) /\
  cl_route c = Some x /\ route_spec x = routeSpec g n None (routeHostnames data) (serverPath srv) ep /\
  forall c2, agrees KHTTPRoute c c2 ->
    silent (applyHTTPRoute (cl_binding c2) (desiredRoute (cl_binding c2) g n (serverPath srv) (routeHostnames data) ep)) c2 None.

Lemma hostname_passes data :
  configValue data configKeyRouteHostname = "" \/ valid_hostname (configValue data configKeyRouteHostname) ->
  (if configValue data configKeyRouteHostname != "" then ValidateHostname (configValue data configKeyRouteHostname) else None) = None.
Proof.
  intros [->|H]; [done|]. case_bool_decide; [done|]. by apply ValidateHostname_None.
Qed.

Lemma first_pass r c srv data g n ep gw :
  inputs_ready r c srv data g n ep gw ->
  exists res c1 x, goes (routeBinding (cl_binding c) srv data g n) c res c1 /\ keeps_identity c c1 /\
    snd res = None /\ routed srv data g n ep c1 x.
Proof.
  intros Hin. pose proof (steady_of_goes srv c _ (ready_endpoint _ _ _ _ _ _ _ _ Hin)) as Hep.
  set (c1 := annotate AnnotationGatewayRef (RefKey n g) c).
  set (c2 := annotate AnnotationServiceRef (RefKey (om_namespace (srv_meta srv)) (ep_name ep)) c1).
  set (o := desiredRoute (cl_binding c2) g n (serverPath srv) (routeHostnames data) ep).
  destruct (settle_createOrUpdate KHTTPRoute c2 o eq_refl eq_refl) as (e & c3 & Hg & Hb & Hr & _ & _ & Hx & Hs).
  assert (Hid : same_identity (cl_binding c) (cl_binding c2)).
  { eapply same_identity_trans; apply annotate_identity. }
  assert (Hr2 : same_rest c c2) by (eapply same_rest_trans; apply annotate_rest).
  assert (Hgo : forall res c4, goes (match e with Some e => mret (noRequeue, Some e) | None => publishRoute (cl_binding c3) data g n (serverPath srv) end) c3 res c4 ->
                goes (routeBinding (cl_binding c) srv data g n) c res c4).
  { intros res c4 Hgo. eapply goes_bind; [apply goes_Ensure|]. cbn beta iota. fold c1.
    eapply goes_bind; [apply goes_Backend; intros c' Hc'; apply Hep; rewrite Hc'; apply annotate_rest|]. cbn beta iota zeta. fold c2.
    rewrite hostname_passes by apply Hin. eapply goes_bind; [exact Hg|]. by rewrite <- Hb. }
  assert (He : e = None).
  { pose proof Hid as (Hi1 & Hi2 & Hi3)%same_identity_fields.
    eapply (createOrUpdate_succeeds KHTTPRoute c2 o); [done|done| | |exact Hg].
    - apply SetControllerReference_succeeds; [done|]. by intros ref.
    - intros x Hx'. assert (Hxc : cl_route c = Some x) by (rewrite <- Hx'; unfold c2, c1; symmetry; exact (eq_trans (annotate_slot _ _ _ KHTTPRoute) (annotate_slot _ _ _ KHTTPRoute))).
      destruct (ready_route _ _ _ _ _ _ _ _ Hin x Hxc) as [Hns Href]. apply SetControllerReference_succeeds; [by rewrite Hi2|].
      intros ref Hc. destruct (Href ref Hc) as (? & ? & ?). by rewrite Hi3. }
  subst e. destruct (Hx eq_refl) as (x & Hslot & Hspec). cbn in Hslot.
  assert (Hgw3 : cl_get c3 Cached KGateway n g = Ok gw) by (destruct Hr as (-> & _), Hr2 as (-> & _); apply Hin).
  destruct (publishRoute_succeeds data g n gw (serverPath srv) x c3 Hgw3 (ready_host _ _ _ _ _ _ _ _ Hin) Hslot)
    as (res & c4 & Hg4 & (Hm4 & Hsp4 & Hrest4 & Hsl4 & _) & Hres).
  pose proof (Hsl4 KHTTPRoute (not_elem_of_nil _)) as Hr4. cbn in Hr4.
  exists res, c4, x. split; [by apply Hgo|]. split.
  { split; [|eapply same_rest_trans; [exact Hr2|by eapply same_rest_trans]]. rewrite Hb in Hm4, Hsp4.
    destruct Hid as [Hi1 Hi2]. split; [congruence|]. by rewrite Hm4. }
  split; [exact Hres|]. rewrite Hb in Hm4.
  split; [rewrite (annotation_meta _ _ _ Hm4); unfold c2; rewrite annotation_annotate_ne by done; apply annotation_annotate|].
  split; [rewrite (annotation_meta _ _ _ Hm4); apply annotation_annotate|].
  split; [congruence|]. split; [exact Hspec|]. intros c5 [Hm5 Hal].
  assert (Ho : desiredRoute (cl_binding c5) g n (serverPath srv) (routeHostnames data) ep = o).
  { unfold o, desiredRoute. by rewrite Hm5, Hm4. }
  rewrite Ho. apply Hs. split; [by rewrite Hm5, Hm4, Hb|]. cbn in Hal. by rewrite Hr4 in Hal.
Qed.

(** A later pass, with the route accepted, registers the binding. *)
Lemma second_pass r c srv data g n ep gw c1 x x' :
  inputs_ready r c srv data g n ep gw -> keeps_identity c c1 -> routed srv data g n ep c1 x ->
  route_meta x' = route_meta x -> route_spec x' = route_spec x -> accepted_by x' g n ->
  exists c2, goes (Reconcile r (bindingKey (cl_binding c))) (set_route (Some x') c1) (noRequeue, None) c2 /\
    keeps_identity c c2 /\ binding_registered (cl_binding c2) /\
    mgb_url (mgb_status (cl_binding c2)) = acceptedScheme gw x' g n +:+ "://" +:+ FormatHost (publicHost data gw) +:+ serverPath srv.
Proof.
  intros Hin [Hid Hr] (Ha1 & Ha2 & Hx & Hspec & Hs) Hm' Hsp' Hacc.
  pose proof (steady_of_goes srv c _ (ready_endpoint _ _ _ _ _ _ _ _ Hin)) as Hep.
  set (c1' := set_route (Some x') c1).
  assert (Hgw : cl_get c1' Cached KGateway n g = Ok gw).
  { change (cl_get c1') with (cl_get c1). destruct Hr as (-> & _). apply Hin. }
  destruct (publishStatus_registers data g n gw (serverPath srv) x' c1' Hgw (ready_host _ _ _ _ _ _ _ _ Hin) Hacc)
    as (c2 & Hg & (Hm & Hsp & Hrest & _) & Hreg & Hurl).
  exists c2. split; [|split; [split|]; [|by eapply same_rest_trans; [exact Hr|]|done]].
  - eapply enter; [exact Hin|by split|].
    eapply goes_bind; [apply silent_goes, silent_Ensure, Ha1|]. cbn beta iota.
    eapply goes_bind; [apply silent_goes, silent_Backend; [apply Hep, Hr|exact Ha2]|]. cbn beta iota zeta.
    rewrite hostname_passes by apply Hin.
    eapply goes_bind; [apply silent_goes, Hs; split; [done|]; cbn; rewrite Hx; cbn; by rewrite Hm', Hsp'|]. cbn beta iota.
    eapply goes_after; [apply (read_slot KHTTPRoute)|]. exact Hg.
  - destruct Hid as [Hi1 Hi2]. split; [by rewrite Hsp|]. by rewrite Hm.
Qed.

(** The MCPServer controller reports a registered binding of its server as the address. *)
Lemma registered_reported srv gw c :
  spec_gateway (srv_spec srv) = Some gw ->
  bindingKey (cl_binding c) = (om_namespace (srv_meta srv), gatewayBindingName (om_name (srv_meta srv))) ->
  binding_registered (cl_binding c) ->
  exists gs, silent (reconcileGatewayCondition srv) c (Some gs) /\
    c_status (gws_condition gs) = ConditionTrue /\ gws_gatewayAddress gs = mgb_url (mgb_status (cl_binding c)).
Proof.
  intros Hgw Hkey (x & Hx & Hst & Hgen). eexists. split; [|split].
  - unfold reconcileGatewayCondition. rewrite Hgw. eapply silent_after; [done|by apply read_binding|].
    cbn iota beta. rewrite Hx, Hst, (proj2 (Z.ltb_ge _ _) Hgen). cbn [negb andb].
    unfold newCondition. eapply silent_bind; [eapply silent_after; [done|reflexivity|apply quiet_ret]|apply quiet_ret].
  - reflexivity.
  - reflexivity.
Qed.


End converge.

(** ** A concrete cluster *)

Definition sampleCluster : Cluster :=
  {| cl_binding := sampleBinding; cl_route := None; cl_registration := None; cl_registrations := [];
     cl_get := sampleGet; cl_now := 5 |}.

(** The first pass creates the route and waits for the Gateway. *)
Lemma samplePass_outcome tr res c1 :
  exec samplePass emptyState sampleCluster = (tr, (res, emptyState), c1) ->
  res = (requeue10s, None) /\ option_map (fun x => om_generation (route_meta x)) (cl_route c1) = Some 1.
Proof.
  intros H. split.
  - transitivity (fst (snd (fst (exec samplePass emptyState sampleCluster)))); [by rewrite H|vm_compute; reflexivity].
  - transitivity (option_map (fun x => om_generation (route_meta x)) (cl_route (snd (exec samplePass emptyState sampleCluster))));
      [by rewrite H|vm_compute; reflexivity].
Qed.

Lemma httproute_converges_witness :
  exists tr res c1, exec samplePass emptyState sampleCluster = (tr, (res, emptyState), c1) /\
    res = (requeue10s, None) /\ option_map (fun x => om_generation (route_meta x)) (cl_route c1) = Some 1 /\
    exists tr', exec samplePass emptyState c1 = (tr', (res, emptyState), c1) /\ each_call no_write tr'.
Proof.
  destruct (@httproute_converges modelVendor modelVendor_laws allowEdge sampleCluster emptyState) as (tr & res & c1 & H & H').
  exists tr, res, c1. split; [exact H|]. destruct (samplePass_outcome tr res c1 H) as [Hres Hgen].
  split; [exact Hres|]. split; [exact Hgen|exact H'].
Defined.

Lemma sample_inputs_ready :
  @inputs_ready modelVendor allowEdge sampleCluster gatewayServer (cm_data sampleConfig) "public" "edge"
    {| ep_name := "srv"; ep_port := 8080 |} sampleGateway.
Proof.
  split; [reflexivity|reflexivity|discriminate|by exists sampleConfig| |by intros s; exists []| |reflexivity|vm_compute; discriminate|done].
  - split_and!; try (vm_compute; done). right. by left.
  - right. unfold valid_hostname. split_and!; try (vm_compute; done); vm_compute; repeat constructor; lia.
Qed.

Lemma sample_accepted x :
  om_generation (route_meta x) = 1 ->
  accepted_by {| route_meta := route_meta x; route_spec := route_spec x; route_parents := [acceptedParent] |} "public" "edge".
Proof.
  intros Hgen. exists acceptedParent. cbn. rewrite Hgen. split_and!; [by left|done|done| |].
  - eexists. split; [by left|done].
  - eexists. split; [by right; left|done].
Qed.

