(* ===== verification/Kuadrant.v ===== *)
(** * The kuadrant provider (internal/controller/providers/kuadrant/controller.go)

    Turns a binding of provider "kuadrant" into an HTTPRoute on the Gateway behind an
    MCPGatewayExtension and an MCPServerRegistration under a tool prefix that no other
    registration uses, and publishes the extension's public URL once both are ready. *)

From Stdlib Require Import Ascii.
From S2P Require Import Prelude K8s GatewayApi ApiAlpha ApiBeta Policy StatusAC Interact Conditions Ownership Service Sha256 Gateway ConfigHash Handshake Reconcile Providers ProviderSafety.

Definition ProviderName : string := "kuadrant".

Definition configKeyExtensionName : string := "extension-name".
Definition configKeyExtensionNamespace : string := "extension-namespace".
Definition configKeyRouteHostname : string := "route-hostname".
Definition configKeyPrefix : string := "prefix".
Definition configKeySectionName : string := "section-name".

Definition reasonExtensionNotReady : string := "ExtensionNotReady".
Definition reasonRouteNotAccepted : string := "RouteNotAccepted".
Definition reasonRegistrationNotReady : string := "RegistrationNotReady".

Definition envAllowedExtensionNamespaces : string := "KUADRANT_ALLOWED_EXTENSION_NAMESPACES".

(** The part of the reconciler the passes depend on. *)
Record Reconciler := { AllowedExtensionNamespaces : list string }.

Record parsedConfig := {
  pc_extensionName : string;
  pc_extensionNamespace : string;
  pc_sectionName : string;
  pc_routeHostname : string;
  pc_prefix : string;
  pc_path : string;
  pc_prefixAutoGenerated : bool
}.

Record publicEndpoint := { pe_host : string; pe_scheme : string }.

Definition requeue10s : Result := {| RequeueAfter := 10 * 1000000000 |}.
Definition requeue30s : Result := {| RequeueAfter := 30 * 1000000000 |}.

(** [configMap.Data[key]] *)
Definition configValue (data : gmap string string) (key : string) : string := default "" (data !! key).

Definition isWildcard (h : string) : bool := strings.HasPrefix h "*.".

Definition isExtensionReady (ext : MCPGatewayExtension) : bool :=
  match FindStatusCondition (ext_conditions (ext_status ext)) "Ready" with
  | Some cond => c_status cond == ConditionTrue
  | None => false
  end.

Definition isRegistrationReady (reg : MCPServerRegistration) : bool :=
  match FindStatusCondition (reg_conditions (reg_status reg)) "Ready" with
  | Some cond => c_status cond == ConditionTrue
  | None => false
  end.

Definition guardDirectHostnameListener (listener : Listener) (sectionName : string) : option error :=
  match lis_hostname listener with
  | None => None
  | Some h =>
      if isWildcard h then None
      else if (lis_protocol listener == HTTPSProtocolType) || (lis_protocol listener == TLSProtocolType) then
        Some (Errorf ("gateway listener " +:+ fmt.q sectionName +:+ " uses HTTPS/TLS with a direct hostname " +:+ fmt.q h
                      +:+ "; HTTPS listeners require a wildcard hostname for per-server routing"))
      else None
  end.

(** ** Reading the Gateway *)

Definition gatewayNotFound (gwName gwNamespace : string) : error :=
  Errorf ("gateway " +:+ gwNamespace +:+ "/" +:+ gwName +:+ " not found").

Definition findGatewayListener (gwName gwNamespace sectionName : string) : M (result Listener) :=
  got ← call (CGet Cached KGateway gwNamespace gwName);
  match got with
  | Err e => if IsNotFound e then mret (Err (gatewayNotFound gwName gwNamespace)) else mret (Err e)
  | Ok gw =>
      match List.find (fun l => lis_name l == sectionName) (gtw_listeners gw) with
      | Some listener => mret (Ok listener)
      | None => mret (Err (Errorf ("gateway " +:+ gwNamespace +:+ "/" +:+ gwName +:+ " has no listener named " +:+ fmt.q sectionName)))
      end
  end.

Definition checkListenerHostnameGuard (gwName gwNamespace sectionName : string) : M (option error) :=
  got ← call (CGet Cached KGateway gwNamespace gwName);
  match got with
  | Err e => if IsNotFound e then mret None else mret (Some e)
  | Ok gw =>
      match List.find (fun l => lis_name l == sectionName) (gtw_listeners gw) with
      | Some listener => mret (guardDirectHostnameListener listener sectionName)
      | None => mret None
      end
  end.

Definition wildcardListeners (gw : GatewayApi.Gateway) : list string :=
  map lis_name (List.filter (fun l => match lis_hostname l with Some h => isWildcard h | None => false end) (gtw_listeners gw)).

Definition discoverWildcardListener (gwName gwNamespace : string) : M (result string) :=
  got ← call (CGet Cached KGateway gwNamespace gwName);
  match got with
  | Err e => if IsNotFound e then mret (Err (gatewayNotFound gwName gwNamespace)) else mret (Err e)
  | Ok gw =>
      match wildcardListeners gw with
      | [name] => mret (Ok name)
      | [] => mret (Err (Errorf ("gateway " +:+ gwNamespace +:+ "/" +:+ gwName +:+ " has no wildcard listeners; set "
                +:+ fmt.q configKeySectionName +:+ " in the ConfigMap to select a listener (also set "
                +:+ fmt.q configKeyRouteHostname +:+ " when that listener has no hostname of its own)")))
      | names => mret (Err (Errorf ("gateway " +:+ gwNamespace +:+ "/" +:+ gwName +:+ " has multiple wildcard listeners ("
                +:+ strings.Join names ", " +:+ "); set " +:+ fmt.q configKeySectionName +:+ " in the ConfigMap to select one")))
      end
  end.

(** The hostname with an optional warning. *)
Definition resolveHostname (mcpServerName mcpServerNamespace gwName gwNamespace sectionName : string)
    : M (result (string * string)) :=
  listener ←? findGatewayListener gwName gwNamespace sectionName;
  match lis_hostname listener with
  | None => mret (Err (Errorf ("gateway listener " +:+ fmt.q sectionName +:+ " has no hostname; set "
                               +:+ fmt.q configKeyRouteHostname +:+ " in the ConfigMap")))
  | Some h =>
      if isWildcard h then mret (Ok (mcpServerName +:+ "." +:+ mcpServerNamespace +:+ strings.drop 1 h, ""))
      else match guardDirectHostnameListener listener sectionName with
           | Some e => mret (Err e)
           | None => mret (Ok (h, "listener " +:+ fmt.q sectionName
                                  +:+ " uses a direct hostname; only one MCPServer can route through this listener"))
           end
  end.

Definition schemeFromListener (gwName gwNamespace sectionName : string) : M (result string) :=
  got ← call (CGet Cached KGateway gwNamespace gwName);
  match got with
  | Err e => if IsNotFound e then mret (Ok SchemeHTTP)
             else mret (Err (Wrap ("failed to get Gateway " +:+ gwNamespace +:+ "/" +:+ gwName +:+ ": ") e))
  | Ok gw =>
      match List.find (fun l => lis_name l == sectionName) (gtw_listeners gw) with
      | Some listener => mret (Ok (ProtocolToScheme (lis_protocol listener)))
      | None => mret (Ok SchemeHTTP)
      end
  end.

(** The first listener of the section with a hostname of its own. *)
Fixpoint directHostname (sectionName : string) (listeners : list Listener) : string :=
  match listeners with
  | [] => ""
  | l :: rest =>
      match lis_hostname l with
      | Some h => if (lis_name l == sectionName) && negb (isWildcard h) then h else directHostname sectionName rest
      | None => directHostname sectionName rest
      end
  end.

Definition listenerHostname (gwName gwNamespace sectionName : string) : M string :=
  if sectionName == "" then mret ""
  else
    got ← call (CGet Cached KGateway gwNamespace gwName);
    match got with
    | Err _ => mret ""
    | Ok gw => mret (directHostname sectionName (gtw_listeners gw))
    end.

(** [ref.Namespace], by default the extension's *)
Definition targetNamespace (ext : MCPGatewayExtension) : string :=
  let ns := tr_namespace (ext_targetRef (ext_spec ext)) in
  if ns == "" then om_namespace (ext_meta ext) else ns.

Definition resolvePublicEndpoint (ext : MCPGatewayExtension) : M (result (option publicEndpoint)) :=
  let ref := ext_targetRef (ext_spec ext) in
  let gwNamespace := targetNamespace ext in
  scheme ←? schemeFromListener (tr_name ref) gwNamespace (tr_sectionName ref);
  if ext_publicHost (ext_spec ext) != "" then
    mret (Ok (Some {| pe_host := ext_publicHost (ext_spec ext); pe_scheme := scheme |}))
  else
    listenerHost ← listenerHostname (tr_name ref) gwNamespace (tr_sectionName ref);
    if listenerHost != "" then mret (Ok (Some {| pe_host := listenerHost; pe_scheme := scheme |}))
    else mret (Ok None).

(** ** Prefixes *)

(** [hex.EncodeToString(h[:4])] is the first eight digits. *)
Definition autoPrefix (mcpServer : MCPServer) : string :=
  "mcp_" +:+ strings.take 8 (sha256.hex (om_name (srv_meta mcpServer) +:+ "/" +:+ om_namespace (srv_meta mcpServer))) +:+ "_".

Definition prefixConflict (binding : MCPGatewayBinding) (cfg : parsedConfig) (reg : MCPServerRegistration) : bool :=
  ((om_name (reg_meta reg) != om_name (mgb_meta binding)) || (om_namespace (reg_meta reg) != om_namespace (mgb_meta binding)))
  && (reg_prefix (reg_spec reg) == pc_prefix cfg).

(** The message of the first conflict; empty without one. *)
Definition checkPrefixConflict (binding : MCPGatewayBinding) (cfg : parsedConfig) : M (result string) :=
  got ← call (CList KRegistration None);
  match got with
  | Err e => mret (Err e)
  | Ok items =>
      match List.find (prefixConflict binding cfg) items with
      | Some reg =>
          let user := om_namespace (reg_meta reg) +:+ "/" +:+ om_name (reg_meta reg) in
          if pc_prefixAutoGenerated cfg then
            mret (Ok ("auto-generated prefix " +:+ fmt.q (pc_prefix cfg) +:+ " is already in use by MCPServerRegistration "
                      +:+ user +:+ "; set a custom " +:+ fmt.q configKeyPrefix +:+ " in ConfigMap "
                      +:+ fmt.q (mgb_configRef (mgb_spec binding)) +:+ " to resolve this"))
          else mret (Ok ("prefix " +:+ fmt.q (pc_prefix cfg) +:+ " is already in use by MCPServerRegistration " +:+ user))
      | None => mret (Ok "")
      end
  end.

Section with_vendor.
Context `{V : Vendor}.

Definition ValidExtensionNamespace (ns : string) : bool := (List.length (IsDNS1123Label ns) =? 0)%nat.
Definition ValidExtensionName (name : string) : bool := (List.length (IsDNS1123Subdomain name) =? 0)%nat.

(** ** The allowlist *)

Definition ParseAllowedExtensionNamespaces (getenv : string -> string) (flagValue : string) (flagSet : bool) : list string :=
  let raw := if negb flagSet then getenv envAllowedExtensionNamespaces else flagValue in
  split_trim raw.

Definition PartitionExtensionNamespaces (entries : list string) : list string * list string :=
  (List.filter ValidExtensionNamespace entries, List.filter (fun ns => negb (ValidExtensionNamespace ns)) entries).

Definition ResolveAllowedExtensionNamespaces (getenv : string -> string) (flagValue : string) (flagSet : bool)
    : list string * list string * option error :=
  let parsed := ParseAllowedExtensionNamespaces getenv flagValue flagSet in
  let '(allowed, invalid) := PartitionExtensionNamespaces parsed in
  if (0 <? List.length parsed)%nat && (List.length allowed =? 0)%nat
  then ([], invalid, Some (Errorf ("kuadrant extension-namespace allowlist was configured (" +:+ fmt.vs parsed
                                   +:+ ") but contains no valid RFC 1123 namespace names")))
  else (allowed, invalid, None).

(** ** The pass over a binding *)

Definition deleteStaleResources (binding : MCPGatewayBinding) : M (option error) :=
  err ← deleteStale KHTTPRoute binding;
  match err with
  | Some e => mret (Some e)
  | None => deleteStale KRegistration binding
  end.

Definition setNotRegistered (binding : MCPGatewayBinding) (message : string) : M (option error) :=
  err ← deleteStaleResources binding;
  match err with
  | Some e => mret (Some e)
  | None => UpdateBindingStatus binding ConditionFalse ReasonGatewayNotRegistered message ""
  end.

(** Inl is a nil config: the binding was handled, with this error; the binding returned
    with the config carries the recorded annotation. *)
Definition parseConfig (r : Reconciler) (binding : MCPGatewayBinding) (mcpServer : MCPServer)
    : M (option error + MCPGatewayBinding * parsedConfig) :=
  let refuse message := err ← setNotRegistered binding message; mret (inl err) in
  let configRef := mgb_configRef (mgb_spec binding) in
  if configRef == "" then refuse "spec.configRef is required for kuadrant provider"
  else
    got ← call (CGet Direct KConfigMap (om_namespace (mgb_meta binding)) configRef);
    match got with
    | Err e => if negb (IsNotFound e) then mret (inl (Some e))
               else refuse ("ConfigMap " +:+ fmt.q configRef +:+ " not found")
    | Ok configMap =>
        let data := cm_data configMap in
        let extName := configValue data configKeyExtensionName in
        let extNamespace := configValue data configKeyExtensionNamespace in
        if extName == "" then
          refuse ("ConfigMap " +:+ fmt.q configRef +:+ " missing required key " +:+ fmt.q configKeyExtensionName)
        else if extNamespace == "" then
          refuse ("ConfigMap " +:+ fmt.q configRef +:+ " missing required key " +:+ fmt.q configKeyExtensionNamespace)
        else if negb (ValidExtensionName extName) then
          refuse (fmt.q configKeyExtensionName +:+ " value " +:+ fmt.q extName +:+ " is not a valid RFC 1123 name")
        else if negb (ValidExtensionNamespace extNamespace) then
          refuse (fmt.q configKeyExtensionNamespace +:+ " value " +:+ fmt.q extNamespace +:+ " is not a valid RFC 1123 namespace name")
        else if (0 <? List.length (AllowedExtensionNamespaces r))%nat
                && negb (existsb (String.eqb extNamespace) (AllowedExtensionNamespaces r)) then
          refuse (fmt.q configKeyExtensionNamespace +:+ " " +:+ fmt.q extNamespace
                  +:+ " is not in the operator's trusted extension-namespace allowlist")
        else
          let configured := configValue data configKeyPrefix in
          annotated ← EnsureBindingAnnotations binding {[ AnnotationExtensionRef := RefKey extNamespace extName ]};
          match annotated with
          | Err e => mret (inl (Some e))
          | Ok binding' =>
              mret (inr (binding',
                {| pc_extensionName := extName; pc_extensionNamespace := extNamespace;
                   pc_sectionName := configValue data configKeySectionName;
                   pc_routeHostname := configValue data configKeyRouteHostname;
                   pc_prefix := if configured == "" then autoPrefix mcpServer else configured;
                   pc_path := serverPath mcpServer;
                   pc_prefixAutoGenerated := configured == "" |}))
          end
    end.

Definition resolveRouteHostname (binding : MCPGatewayBinding) (mcpServer : MCPServer) (cfg : parsedConfig)
    (gwName gwNamespace sectionName : string) : M (result (string * string)) :=
  if pc_routeHostname cfg == "" then
    resolveHostname (om_name (srv_meta mcpServer)) (om_namespace (srv_meta mcpServer)) gwName gwNamespace sectionName
  else match ValidateHostname (pc_routeHostname cfg) with
  | Some err => mret (Err (Errorf ("invalid " +:+ fmt.q configKeyRouteHostname +:+ " in ConfigMap "
                                   +:+ fmt.q (mgb_configRef (mgb_spec binding)) +:+ ": " +:+ Error err)))
  | None =>
      err ← checkListenerHostnameGuard gwName gwNamespace sectionName;
      match err with
      | Some e => mret (Err e)
      | None => mret (Ok (pc_routeHostname cfg, ""))
      end
  end.

(** The HTTPRoute the pass asks for. *)
Definition desiredRoute (binding : MCPGatewayBinding) (gwName gwNamespace hostname sectionName path : string)
    (endpoint : ServiceEndpoint) : HTTPRoute :=
  {| route_meta := newMeta (om_name (mgb_meta binding)) (om_namespace (mgb_meta binding)) None;
     route_spec := routeSpec gwName gwNamespace (Some sectionName) [hostname] path endpoint;
     route_parents := [] |}.

(** The binding with the recorded backend, unless the step failed. *)
Definition reconcileHTTPRoute (binding : MCPGatewayBinding) (mcpServer : MCPServer)
    (gwName gwNamespace hostname sectionName path : string) : M (result MCPGatewayBinding) :=
  backend ← ResolveAndRecordBackendService binding mcpServer;
  match backend with
  | Err e | Ok (_, _, Some e) => mret (Err e)
  | Ok (binding', endpoint, None) =>
      err ← createOrUpdate KHTTPRoute binding' (desiredRoute binding' gwName gwNamespace hostname sectionName path endpoint);
      match err with Some e => mret (Err e) | None => mret (Ok binding') end
  end.

Definition registrationSpec (binding : MCPGatewayBinding) (path prefix : string) : MCPServerRegistrationSpec :=
  {| reg_targetRef := {| tr_group := GatewayGroupName; tr_kind := "HTTPRoute"; tr_name := om_name (mgb_meta binding);
                         tr_namespace := ""; tr_sectionName := "" |};
     reg_prefix := prefix; reg_path := path; reg_state := "Enabled" |}.

Definition reconcileMCPServerRegistration (binding : MCPGatewayBinding) (path prefix : string) : M (option error) :=
  createOrUpdate KRegistration binding
    {| reg_meta := newMeta (om_name (mgb_meta binding)) (om_namespace (mgb_meta binding)) None;
       reg_spec := registrationSpec binding path prefix; reg_status := {| reg_conditions := [] |} |}.

(** From the read of the registration to the status. *)
Definition publishEndpoint (binding : MCPGatewayBinding) (cfg : parsedConfig) (ext : MCPGatewayExtension) (hostnameWarning : string)
    : M (Result * option error) :=
  resolved ← resolvePublicEndpoint ext;
  match resolved with
  | Err resolveErr =>
      err ← UpdateBindingStatus binding ConditionFalse ReasonGatewayNotRegistered (Error resolveErr) "";
      mret (noRequeue, err)
  | Ok None =>
      statusErr ← UpdateBindingStatus binding ConditionFalse ReasonPublicAddressPending
        "Waiting for public address: MCPGatewayExtension has no publicHost and no public listener hostname available" "";
      mret (requeue10s, statusErr)
  | Ok (Some ep) =>
      let statusURL := pe_scheme ep +:+ "://" +:+ FormatHost (pe_host ep) +:+ pc_path cfg in
      let statusMsg := "HTTPRoute accepted and MCPServerRegistration ready"
                       +:+ (if hostnameWarning != "" then "; " +:+ hostnameWarning else "") in
      err ← UpdateBindingStatus binding ConditionTrue ReasonGatewayRegistered statusMsg statusURL;
      mret (noRequeue, err)
  end.

(** From the applied route and registration to the status. *)
Definition publish (binding : MCPGatewayBinding) (cfg : parsedConfig) (ext : MCPGatewayExtension)
    (gwName gwNamespace hostnameWarning : string) : M (Result * option error) :=
  gotRoute ← call (CGet Cached KHTTPRoute (om_namespace (mgb_meta binding)) (om_name (mgb_meta binding)));
  match gotRoute with
  | Err e => mret (noRequeue, Some e)
  | Ok route =>
      if negb (IsHTTPRouteAccepted route gwName gwNamespace) then
        statusErr ← UpdateBindingStatus binding ConditionFalse reasonRouteNotAccepted "Waiting for gateway to accept HTTPRoute" "";
        mret (requeue10s, statusErr)
      else
        gotReg ← call (CGet Cached KRegistration (om_namespace (mgb_meta binding)) (om_name (mgb_meta binding)));
        match gotReg with
        | Err e => mret (noRequeue, Some e)
        | Ok reg =>
            if negb (isRegistrationReady reg) then
              let msg := match FindStatusCondition (reg_conditions (reg_status reg)) "Ready" with
                         | Some readyCond => c_message readyCond
                         | None => "Waiting for MCPServerRegistration to become ready"
                         end in
              statusErr ← UpdateBindingStatus binding ConditionFalse reasonRegistrationNotReady msg "";
              mret (requeue10s, statusErr)
            else publishEndpoint binding cfg ext hostnameWarning
        end
  end.

(** From the selected listener to the route, the registration and the status. *)
Definition routeAndRegister (binding : MCPGatewayBinding) (mcpServer : MCPServer) (cfg : parsedConfig) (ext : MCPGatewayExtension)
    (gwName gwNamespace sectionName : string) : M (Result * option error) :=
  resolved ← resolveRouteHostname binding mcpServer cfg gwName gwNamespace sectionName;
  match resolved with
  | Err resolveErr => err ← setNotRegistered binding (Error resolveErr); mret (noRequeue, err)
  | Ok (routeHostname, hostnameWarning) =>
      routed ← reconcileHTTPRoute binding mcpServer gwName gwNamespace routeHostname sectionName (pc_path cfg);
      match routed with
      | Err e => mret (noRequeue, Some e)
      | Ok binding' =>
          conflict ← checkPrefixConflict binding' cfg;
          match conflict with
          | Err e => mret (noRequeue, Some e)
          | Ok msg =>
              if msg != "" then err ← setNotRegistered binding' msg; mret (requeue30s, err)
              else
                registered ← reconcileMCPServerRegistration binding' (pc_path cfg) (pc_prefix cfg);
                match registered with
                | Some e => mret (noRequeue, Some e)
                | None => publish binding' cfg ext gwName gwNamespace hostnameWarning
                end
          end
      end
  end.

(** From the extension as read. *)
Definition reconcileExtension (binding : MCPGatewayBinding) (mcpServer : MCPServer) (cfg : parsedConfig) (ext : MCPGatewayExtension)
    : M (Result * option error) :=
  let gwName := tr_name (ext_targetRef (ext_spec ext)) in
  let gwNamespace := targetNamespace ext in
  annotated ← EnsureBindingAnnotations binding {[ AnnotationGatewayRef := RefKey gwNamespace gwName ]};
  match annotated with
  | Err e => mret (noRequeue, Some e)
  | Ok binding' =>
      if negb (isExtensionReady ext) then
        let default_msg := "MCPGatewayExtension " +:+ fmt.q (pc_extensionName cfg) +:+ " is not ready" in
        let msg := match FindStatusCondition (ext_conditions (ext_status ext)) "Ready" with
                   | Some readyCond => if c_message readyCond != "" then c_message readyCond else default_msg
                   | None => default_msg
                   end in
        statusErr ← UpdateBindingStatus binding' ConditionFalse reasonExtensionNotReady msg "";
        mret (requeue10s, statusErr)
      else
        section ← (if pc_sectionName cfg == "" then discoverWildcardListener gwName gwNamespace else mret (Ok (pc_sectionName cfg)));
        match section with
        | Err discoverErr => err ← setNotRegistered binding' (Error discoverErr); mret (noRequeue, err)
        | Ok sectionName => routeAndRegister binding' mcpServer cfg ext gwName gwNamespace sectionName
        end
  end.

(** The pass from the binding as read. *)
Definition reconcileBinding (r : Reconciler) (binding : MCPGatewayBinding) : M (Result * option error) :=
  if mgb_provider (mgb_spec binding) != ProviderName then mret (noRequeue, None)
  else
    gotServer ← call (CGet Cached KMCPServer (om_namespace (mgb_meta binding)) (mgb_mcpServerRef (mgb_spec binding)));
    match gotServer with
    | Err e => if IsNotFound e then mret (noRequeue, None) else mret (noRequeue, Some e)
    | Ok mcpServer =>
        parsed ← parseConfig r binding mcpServer;
        match parsed with
        | inl err => mret (noRequeue, err)
        | inr (binding', cfg) =>
            gotExt ← call (CGet Cached KExtension (pc_extensionNamespace cfg) (pc_extensionName cfg));
            match gotExt with
            | Err e =>
                if IsNotFound e then
                  err ← setNotRegistered binding' ("MCPGatewayExtension " +:+ fmt.q (pc_extensionName cfg)
                          +:+ " not found in namespace " +:+ fmt.q (pc_extensionNamespace cfg));
                  mret (noRequeue, err)
                else mret (noRequeue, Some e)
            | Ok ext => reconcileExtension binding' mcpServer cfg ext
            end
        end
    end.

Definition Reconcile (r : Reconciler) (req : Request) : M (Result * option error) :=
  got ← call (CGet Cached KBinding (fst req) (snd req));
  match got with
  | Err e => if IsNotFound e then mret (noRequeue, None) else mret (noRequeue, Some e)
  | Ok binding => reconcileBinding r binding
  end.

(** ** Watches *)

Definition findBindingsForConfigMap (o : ObjectMeta) : M (list Request) :=
  got ← call (CList KBinding (Some (om_namespace o)));
  match got with
  | Err _ => mret []
  | Ok items => mret (selectBindings ProviderName (fun b => mgb_configRef (mgb_spec b) == om_name o) items)
  end.

Definition findBindingsForGateway (o : ObjectMeta) : M (list Request) :=
  got ← call (CList KBinding None);
  match got with
  | Err _ => mret []
  | Ok items =>
      let want := RefKey (om_namespace o) (om_name o) in
      mret (selectBindings ProviderName (fun b => annotation b AnnotationGatewayRef == want) items)
  end.

Definition findBindingsForGatewayExtension (o : ObjectMeta) : M (list Request) :=
  got ← call (CList KBinding None);
  match got with
  | Err _ => mret []
  | Ok items =>
      let want := RefKey (om_namespace o) (om_name o) in
      mret (selectBindings ProviderName (fun b => annotation b AnnotationExtensionRef == want) items)
  end.

Definition findBindingsForMCPServer (o : ObjectMeta) : M (list Request) :=
  got ← call (CList KBinding (Some (om_namespace o)));
  match got with
  | Err _ => mret []
  | Ok items => mret (selectBindings ProviderName (fun b => mgb_mcpServerRef (mgb_spec b) == om_name o) items)
  end.

End with_vendor.

(** ** Safety of a pass *)

(** The configuration in use is what the binding's ConfigMap says, with a well-formed
    extension reference in an allowed namespace. *)
Definition config_read `{V : Vendor} (r : Reconciler) (req : Request) (h : list event) (srv : MCPServer) (cfg : parsedConfig) : Prop :=
  exists b cm, In (Ev (CGet Cached KBinding (fst req) (snd req)) (Ok b)) h /\
    mgb_provider (mgb_spec b) = ProviderName /\
    In (Ev (CGet Cached KMCPServer (om_namespace (mgb_meta b)) (mgb_mcpServerRef (mgb_spec b))) (Ok srv)) h /\
    In (Ev (CGet Direct KConfigMap (om_namespace (mgb_meta b)) (mgb_configRef (mgb_spec b))) (Ok cm)) h /\
    pc_extensionName cfg = configValue (cm_data cm) configKeyExtensionName /\ pc_extensionName cfg <> "" /\
    pc_extensionNamespace cfg = configValue (cm_data cm) configKeyExtensionNamespace /\ pc_extensionNamespace cfg <> "" /\
    ValidExtensionName (pc_extensionName cfg) = true /\ ValidExtensionNamespace (pc_extensionNamespace cfg) = true /\
    (AllowedExtensionNamespaces r = [] \/ In (pc_extensionNamespace cfg) (AllowedExtensionNamespaces r)) /\
    pc_path cfg = serverPath srv /\ pc_routeHostname cfg = configValue (cm_data cm) configKeyRouteHostname /\
    pc_prefix cfg = (if configValue (cm_data cm) configKeyPrefix == "" then autoPrefix srv else configValue (cm_data cm) configKeyPrefix).

(** The extension in use was read under that reference and is ready. *)
Definition extension_read `{V : Vendor} (r : Reconciler) (req : Request) (h : list event) (srv : MCPServer) (cfg : parsedConfig)
    (ext : MCPGatewayExtension) : Prop :=
  config_read r req h srv cfg /\
  In (Ev (CGet Cached KExtension (pc_extensionNamespace cfg) (pc_extensionName cfg)) (Ok ext)) h /\ isExtensionReady ext = true.

(** A listener that may carry per-server routes: not an HTTPS/TLS one bound to a single host. *)
Definition listener_shareable (l : Listener) : Prop :=
  lis_protocol l = HTTPSProtocolType \/ lis_protocol l = TLSProtocolType ->
  forall h, lis_hostname l = Some h -> isWildcard h = true.

(** The Gateway was looked at and the section's listener, when there is one, is shareable. *)
Definition section_checked (h : list event) (gwName gwNamespace sectionName : string) : Prop :=
  (exists gw, In (Ev (CGet Cached KGateway gwNamespace gwName) (Ok gw)) h /\
     forall l, List.find (fun l => lis_name l == sectionName) (gtw_listeners gw) = Some l -> listener_shareable l) \/
  (exists e, In (Ev (CGet Cached KGateway gwNamespace gwName) (Err e)) h /\ IsNotFound e = true).

(** The route's host: the configured, valid one, or one of the listener as read. *)
Definition route_host `{V : Vendor} (h : list event) (srv : MCPServer) (cfg : parsedConfig) (gwName gwNamespace sectionName host : string) : Prop :=
  pc_routeHostname cfg <> "" /\ host = pc_routeHostname cfg /\ valid_hostname host \/
  pc_routeHostname cfg = "" /\ exists gw l lh, In (Ev (CGet Cached KGateway gwNamespace gwName) (Ok gw)) h /\
    In l (gtw_listeners gw) /\ lis_name l = sectionName /\ lis_hostname l = Some lh /\
    host = if isWildcard lh then om_name (srv_meta srv) +:+ "." +:+ om_namespace (srv_meta srv) +:+ strings.drop 1 lh else lh.

(** No other registration of the list read has the prefix. *)
Definition prefix_free (h : list event) (b : MCPGatewayBinding) (prefix : string) : Prop :=
  exists items, In (Ev (CList KRegistration None) (Ok items)) h /\
    forall reg, In reg items -> reg_prefix (reg_spec reg) = prefix ->
      om_name (reg_meta reg) = om_name (mgb_meta b) /\ om_namespace (reg_meta reg) = om_namespace (mgb_meta b).

Definition desired_object `{V : Vendor} (r : Reconciler) (req : Request) (h : list event) (k : kind) : obj k -> Prop :=
  match k return obj k -> Prop with
  | KHTTPRoute => fun o => exists srv cfg ext sectionName host ep,
      let gwName := tr_name (ext_targetRef (ext_spec ext)) in let gwNamespace := targetNamespace ext in
      extension_read r req h srv cfg ext /\ ep_name ep = serviceNameFor srv /\
      section_checked h gwName gwNamespace sectionName /\ route_host h srv cfg gwName gwNamespace sectionName host /\
      route_spec o = routeSpec gwName gwNamespace (Some sectionName) [host] (serverPath srv) ep
  | KRegistration => fun o => exists srv cfg ext b,
      extension_read r req h srv cfg ext /\ binding_seen req h b /\ prefix_free h b (pc_prefix cfg) /\
      reg_spec o = registrationSpec b (serverPath srv) (pc_prefix cfg)
  | _ => fun _ => False
  end.

(** The scheme is that of the section's listener, http where it or the Gateway is not found. *)
Definition listener_scheme (h : list event) (gwName gwNamespace sectionName scheme : string) : Prop :=
  (exists gw, In (Ev (CGet Cached KGateway gwNamespace gwName) (Ok gw)) h /\
     scheme = match List.find (fun l => lis_name l == sectionName) (gtw_listeners gw) with
              | Some l => servedScheme [l]
              | None => "http"
              end) \/
  (exists e, In (Ev (CGet Cached KGateway gwNamespace gwName) (Err e)) h /\ IsNotFound e = true /\ scheme = "http").

(** Where the public host and scheme may come from. *)
Definition endpoint_source (h : list event) (ext : MCPGatewayExtension) (host scheme : string) : Prop :=
  let ref := ext_targetRef (ext_spec ext) in
  host <> "" /\ listener_scheme h (tr_name ref) (targetNamespace ext) (tr_sectionName ref) scheme /\
  (host = ext_publicHost (ext_spec ext) \/
   ext_publicHost (ext_spec ext) = "" /\ exists gw,
     In (Ev (CGet Cached KGateway (targetNamespace ext) (tr_name ref)) (Ok gw)) h /\
     host = directHostname (tr_sectionName ref) (gtw_listeners gw)).

(** Route and registration were read under the name of the binding whose status is to carry
    the URL. *)
Definition justified_url `{V : Vendor} (r : Reconciler) (req : Request) (h : list event) (b : MCPGatewayBinding) (url : string) : Prop :=
  exists srv cfg ext route reg host scheme,
    extension_read r req h srv cfg ext /\
    read_named h b KHTTPRoute route /\ accepted_by route (tr_name (ext_targetRef (ext_spec ext))) (targetNamespace ext) /\
    read_named h b KRegistration reg /\ isRegistrationReady reg = true /\
    endpoint_source h ext host scheme /\ url = scheme +:+ "://" +:+ FormatHost host +:+ serverPath srv.

Section safety.
Context `{V : Vendor} {L : VendorLaws V} (r : Reconciler) (req : Request).

Abbreviation safe := (guard (provider_write req (desired_object r req) (justified_url r req))).

Lemma config_read_mono h h' srv cfg : incl h h' -> config_read r req h srv cfg -> config_read r req h' srv cfg.
Proof. intros Hi (b & cm & ? & ? & ? & ? & ?). exists b, cm. auto 10. Qed.

Lemma extension_read_mono h h' srv cfg ext : incl h h' -> extension_read r req h srv cfg ext -> extension_read r req h' srv cfg ext.
Proof. intros Hi (? & ? & ?). split; [by eapply config_read_mono|auto]. Qed.

Lemma kuadrant_setNotRegistered_safe b msg s h : binding_seen req h b -> safe h (setNotRegistered b msg s).
Proof.
  intros Hb. unfold setNotRegistered, deleteStaleResources. apply guard_bind_assoc, safe_step; [by apply safe_deleteStale; [left|]|].
  intros [e|] h1 s1 Hi1; [done|]. apply safe_step; [apply safe_deleteStale; [by right|by eapply binding_seen_mono]|].
  intros [e|] h2 s2 Hi2; [done|]. apply safe_UpdateBindingStatus; [|auto]. eapply binding_seen_mono; [|exact Hb]. by eapply incl_tran.
Qed.

Lemma kuadrant_refuse_safe {B} b msg (f : option error -> B) s h :
  binding_seen req h b -> safe h ((e ← setNotRegistered b msg; mret (f e) : M B) s).
Proof. intros Hb. apply safe_step; [by apply kuadrant_setNotRegistered_safe|done]. Qed.

Lemma parseConfig_safe {B} b srv (f : option error + MCPGatewayBinding * parsedConfig -> M B) s h :
  In (Ev (CGet Cached KBinding (fst req) (snd req)) (Ok b)) h -> mgb_provider (mgb_spec b) = ProviderName ->
  In (Ev (CGet Cached KMCPServer (om_namespace (mgb_meta b)) (mgb_mcpServerRef (mgb_spec b))) (Ok srv)) h ->
  (forall e h' s', safe h' (f (inl e) s')) ->
  (forall b' cfg h' s', binding_seen req h' b' -> config_read r req h' srv cfg -> safe h' (f (inr (b', cfg)) s')) ->
  safe h ((parseConfig r b srv ≫= f) s).
Proof.
  intros Hb Hp Hs Hl Hr. unfold parseConfig.
  assert (Href : forall msg h0 s0, incl h h0 -> safe h0 (((err ← setNotRegistered b msg; mret (inl err)) ≫= f) s0)).
  { intros msg h0 s0 Hi. apply guard_bind_assoc, safe_step; [apply kuadrant_setNotRegistered_safe; left; auto|]. intros e h' s' _. apply Hl. }
  case_bool_decide as Ec; [apply Href, incl_refl|]. apply guard_bind_assoc, safe_read; [done|]. intros [cm|e].
  2:{ destruct (IsNotFound e); [|apply Hl]. apply Href, incl_tl, incl_refl. }
  do 5 (lazymatch goal with |- context [if ?c then _ else _] => destruct c eqn:? end; [apply Href, incl_tl, incl_refl|]).
  bool_to_prop. apply guard_bind_assoc, safe_EnsureBindingAnnotations.
  - left. by right.
  - intros k v. rewrite lookup_singleton_Some. intros [<- _]. cbn. auto.
  - intros b' h' s' Hi Hb'. apply Hr; [done|]. exists b, cm. cbn.
    split_and!; try done; [by apply Hi; right|by apply Hi; right|by apply Hi; left|].
    destruct (AllowedExtensionNamespaces r) as [|a l] eqn:Ea; [by left|right].
    match goal with H : andb _ _ = false |- _ => cbn [List.length Nat.ltb Nat.leb andb] in H; apply negb_false_iff in H;
      apply existsb_exists in H as (x & Hx & <-%String.eqb_eq) end. done.
  - intros e h' s'. apply Hl.
Qed.

Lemma guard_shareable l sn : guardDirectHostnameListener l sn = None -> listener_shareable l.
Proof.
  unfold guardDirectHostnameListener, listener_shareable. intros H Hp lh Hlh. rewrite Hlh in H. destruct (isWildcard lh); [done|].
  destruct Hp as [Hp|Hp]; rewrite Hp in H; done.
Qed.

Lemma wildcard_shareable l lh : lis_hostname l = Some lh -> isWildcard lh = true -> listener_shareable l.
Proof. intros H Hw _ h' H'. congruence. Qed.

(** A safe listener found under the section makes the section checked. *)
Lemma section_checked_found h g n sn gw l :
  In (Ev (CGet Cached KGateway n g) (Ok gw)) h ->
  List.find (fun l => lis_name l == sn) (gtw_listeners gw) = Some l -> listener_shareable l -> section_checked h g n sn.
Proof. intros Hgw Hf Hl. left. exists gw. split; [done|]. intros l' Hl'. rewrite Hf in Hl'. by injection Hl' as <-. Qed.

Lemma resolveHostname_safe {B} srv cfg g n sn (f : result (string * string) -> M B) s h :
  pc_routeHostname cfg = "" ->
  (forall e h' s', incl h h' -> safe h' (f (Err e) s')) ->
  (forall host w h' s', incl h h' -> section_checked h' g n sn -> route_host h' srv cfg g n sn host -> safe h' (f (Ok (host, w)) s')) ->
  safe h ((resolveHostname (om_name (srv_meta srv)) (om_namespace (srv_meta srv)) g n sn ≫= f) s).
Proof.
  intros Hcfg Herr Hok. unfold resolveHostname, findGatewayListener. do 2 apply guard_bind_assoc. apply safe_read; [done|].
  set (hgw := fun got => Ev (CGet Cached KGateway n g) got :: h). intros got.
  assert (Hi : incl h (hgw got)) by apply incl_tl, incl_refl.
  destruct got as [gw|e]; [|by destruct (IsNotFound e); apply Herr].
  destruct (List.find _ _) as [l|] eqn:El; [|by apply Herr].
  pose proof (find_some _ _ El) as [Hin Hname%bool_decide_eq_true]. cbn beta iota.
  change (safe (hgw (Ok gw)) ((match lis_hostname l with
    | None => mret (Err (Errorf ("gateway listener " +:+ fmt.q sn +:+ " has no hostname; set "
                               +:+ fmt.q configKeyRouteHostname +:+ " in the ConfigMap")))
    | Some h => if isWildcard h then mret (Ok (om_name (srv_meta srv) +:+ "." +:+ om_namespace (srv_meta srv) +:+ strings.drop 1 h, ""))
      else match guardDirectHostnameListener l sn with
           | Some e => mret (Err e)
           | None => mret (Ok (h, "listener " +:+ fmt.q sn
                                  +:+ " uses a direct hostname; only one MCPServer can route through this listener"))
           end
    end ≫= f) s)).
  destruct (lis_hostname l) as [lh|] eqn:Elh; [|by apply Herr].
  assert (Hread : In (Ev (CGet Cached KGateway n g) (Ok gw)) (hgw (Ok gw))) by (by left).
  destruct (isWildcard lh) eqn:Ew; [|destruct (guardDirectHostnameListener l sn) as [e|] eqn:Eg; [by apply Herr|]];
    (apply Hok; [done| |right; split; [done|]; exists gw, l, lh; by rewrite Ew]).
  - eapply section_checked_found; [done..|by eapply wildcard_shareable].
  - eapply section_checked_found; [done..|by eapply guard_shareable].
Qed.

Lemma resolveRouteHostname_safe {B} b srv cfg g n sn (f : result (string * string) -> M B) s h :
  (forall e h' s', incl h h' -> safe h' (f (Err e) s')) ->
  (forall host w h' s', incl h h' -> section_checked h' g n sn -> route_host h' srv cfg g n sn host -> safe h' (f (Ok (host, w)) s')) ->
  safe h ((resolveRouteHostname b srv cfg g n sn ≫= f) s).
Proof.
  intros Herr Hok. unfold resolveRouteHostname. case_bool_decide as Hc; [by apply (resolveHostname_safe srv cfg)|].
  destruct (ValidateHostname _) as [e|] eqn:Ev; [apply Herr, incl_refl|]. apply ValidateHostname_None in Ev.
  unfold checkListenerHostnameGuard. do 2 apply guard_bind_assoc. apply safe_read; [done|]. intros [gw|e].
  - destruct (List.find _ _) as [l|] eqn:El; [destruct (guardDirectHostnameListener l sn) as [e|] eqn:Eg|].
    + apply (Herr e). apply incl_tl, incl_refl.
    + apply (Hok (pc_routeHostname cfg) ""); [apply incl_tl, incl_refl| |by left].
      eapply section_checked_found; [by left|done|by eapply guard_shareable].
    + apply (Hok (pc_routeHostname cfg) ""); [apply incl_tl, incl_refl| |by left].
      left. exists gw. split; [by left|]. intros l. by rewrite El.
  - destruct (IsNotFound e) eqn:Ee; [|apply (Herr e), incl_tl, incl_refl].
    apply (Hok (pc_routeHostname cfg) ""); [apply incl_tl, incl_refl| |by left]. right. exists e. split; [by left|done].
Qed.

Lemma section_checked_mono h h' g n sn : incl h h' -> section_checked h g n sn -> section_checked h' g n sn.
Proof. intros Hi [(gw & ? & ?)|(e & ? & ?)]; [left; exists gw|right; exists e]; auto. Qed.

Lemma route_host_mono h h' srv cfg g n sn host : incl h h' -> route_host h srv cfg g n sn host -> route_host h' srv cfg g n sn host.
Proof. intros Hi [?|(? & gw & l & lh & ? & ?)]; [by left|right]. split; [done|]. exists gw, l, lh. auto. Qed.

Lemma extension_path h srv cfg ext : extension_read r req h srv cfg ext -> pc_path cfg = serverPath srv.
Proof. intros ((b & cm & H) & _). by destruct_and! H. Qed.

Lemma reconcileHTTPRoute_safe {B} b srv cfg ext host sn (f : result MCPGatewayBinding -> M B) s h :
  let g := tr_name (ext_targetRef (ext_spec ext)) in let n := targetNamespace ext in
  binding_seen req h b -> extension_read r req h srv cfg ext -> section_checked h g n sn -> route_host h srv cfg g n sn host ->
  (forall e h' s', safe h' (f (Err e) s')) ->
  (forall b' h' s', incl h h' -> binding_seen req h' b' -> safe h' (f (Ok b') s')) ->
  safe h ((reconcileHTTPRoute b srv g n host sn (pc_path cfg) ≫= f) s).
Proof.
  intros g n Hb Hext Hsec Hhost Herr Hok. unfold reconcileHTTPRoute. apply guard_bind_assoc.
  apply safe_ResolveAndRecord; [done| |intros e h' s'; apply Herr]. intros b' ep er h' s' Hi Hb' Hep.
  destruct er as [e|]; [apply Herr|]. apply guard_bind_assoc, safe_step.
  - apply safe_createOrUpdate; [apply _|done..|]. intros h2 o Hi2 Hsp. exists srv, cfg, ext, sn, host, ep. cbn zeta.
    assert (Hi02 : incl h h2) by (by eapply incl_tran).
    split_and!; [by eapply (extension_read_mono h)..|done|by eapply section_checked_mono|by eapply route_host_mono|].
    etransitivity; [exact Hsp|]. cbn. by rewrite (extension_path _ _ _ _ Hext).
  - intros [e|] h2 s2 Hi2; [apply Herr|]. apply Hok; [by eapply incl_tran|by eapply binding_seen_mono].
Qed.

Lemma checkPrefixConflict_safe {B} b cfg (f : result string -> M B) s h :
  (forall e h' s', safe h' (f (Err e) s')) ->
  (forall msg h' s', incl h h' -> (msg = "" -> prefix_free h' b (pc_prefix cfg)) -> safe h' (f (Ok msg) s')) ->
  safe h ((checkPrefixConflict b cfg ≫= f) s).
Proof.
  intros Herr Hok. unfold checkPrefixConflict. apply guard_bind_assoc, safe_read; [done|].
  intros [items|e]; [|apply Herr]. destruct (List.find _ _) as [reg|] eqn:Ef.
  - destruct (pc_prefixAutoGenerated cfg); (apply Hok; [apply incl_tl, incl_refl|by intros]).
  - apply Hok; [apply incl_tl, incl_refl|]. intros _. exists items. split; [by left|]. intros reg Hin Hp.
    pose proof (find_none _ _ Ef reg Hin) as Hn. unfold prefixConflict in Hn. rewrite Hp, (bool_decide_eq_true_2 (pc_prefix cfg = _)), andb_true_r in Hn by done.
    by bool_to_prop.
Qed.

Lemma schemeFromListener_safe {B} g n sn (f : result string -> M B) s h :
  (forall e h' s', incl h h' -> safe h' (f (Err e) s')) ->
  (forall x h' s', incl h h' -> listener_scheme h' g n sn x -> safe h' (f (Ok x) s')) ->
  safe h ((schemeFromListener g n sn ≫= f) s).
Proof.
  intros Herr Hok. unfold schemeFromListener. apply guard_bind_assoc, safe_read; [done|]. intros [gw|e].
  - destruct (List.find _ _) as [l|] eqn:El; (apply Hok; [apply incl_tl, incl_refl|]); left; exists gw; (split; [by left|]); rewrite El;
      [apply ProtocolToScheme_served|done].
  - destruct (IsNotFound e) eqn:Ee; [apply Hok; [apply incl_tl, incl_refl|]|apply Herr, incl_tl, incl_refl]. right. exists e. split_and!; [by left|done..].
Qed.

Lemma listener_scheme_mono h h' g n sn x : incl h h' -> listener_scheme h g n sn x -> listener_scheme h' g n sn x.
Proof. intros Hi [(gw & ? & ?)|(e & ? & ? & ?)]; [left; exists gw|right; exists e]; auto. Qed.

Lemma listenerHostname_safe {B} g n sn (f : string -> M B) s h :
  (forall x h' s', incl h h' ->
     (x = "" \/ exists gw, In (Ev (CGet Cached KGateway n g) (Ok gw)) h' /\ x = directHostname sn (gtw_listeners gw)) ->
     safe h' (f x s')) ->
  safe h ((listenerHostname g n sn ≫= f) s).
Proof.
  intros Hok. unfold listenerHostname. case_bool_decide; [apply Hok; [apply incl_refl|auto]|].
  apply guard_bind_assoc, safe_read; [done|]. intros [gw|e]; (apply Hok; [apply incl_tl, incl_refl|]); [|auto].
  right. exists gw. split; [by left|done].
Qed.

Lemma resolvePublicEndpoint_safe {B} ext (f : result (option publicEndpoint) -> M B) s h :
  (forall e h' s', incl h h' -> safe h' (f (Err e) s')) ->
  (forall h' s', incl h h' -> safe h' (f (Ok None) s')) ->
  (forall ep h' s', incl h h' -> endpoint_source h' ext (pe_host ep) (pe_scheme ep) -> safe h' (f (Ok (Some ep)) s')) ->
  safe h ((resolvePublicEndpoint ext ≫= f) s).
Proof.
  intros Herr Hnone Hsome. unfold resolvePublicEndpoint.
  apply guard_bind_assoc, schemeFromListener_safe; [intros e h' s'; by apply Herr|]. intros scheme h1 s1 Hi1 Hsch.
  cbn beta iota. case_bool_decide as Eph; cbn [negb].
  2:{ apply Hsome; [done|]. split; [done|]. split; [exact Hsch|]. by left. }
  apply guard_bind_assoc, listenerHostname_safe. intros x h2 s2 Hi2 Hx. case_bool_decide as Ex; cbn [negb].
  - apply Hnone. by eapply incl_tran.
  - apply Hsome; [by eapply incl_tran|]. split; [done|]. split; [by eapply listener_scheme_mono|]. right. split; [done|].
    by destruct Hx as [?|(gw & ? & ?)]; [|exists gw].
Qed.

Lemma publishEndpoint_safe b srv cfg ext route reg w s h :
  binding_seen req h b -> extension_read r req h srv cfg ext -> read_named h b KHTTPRoute route ->
  accepted_by route (tr_name (ext_targetRef (ext_spec ext))) (targetNamespace ext) ->
  read_named h b KRegistration reg -> isRegistrationReady reg = true ->
  safe h (publishEndpoint b cfg ext w s).
Proof.
  intros Hb Hext Hroute Hacc Hreg Hready. unfold publishEndpoint.
  apply resolvePublicEndpoint_safe.
  - intros e h' s' Hi. apply safe_status_end; [by eapply binding_seen_mono|auto].
  - intros h' s' Hi. apply safe_status_end; [by eapply binding_seen_mono|auto].
  - intros ep h' s' Hi Hep. apply safe_status_end; [by eapply binding_seen_mono|]. left. split; [done|]. intros h2 Hi2.
    assert (Hi02 : incl h h2) by (by eapply incl_tran).
    exists srv, cfg, ext, route, reg, (pe_host ep), (pe_scheme ep). split; [by eapply extension_read_mono|].
    split; [by apply Hi02|]. split; [done|]. split; [by apply Hi02|]. split; [done|]. split.
    + destruct Hep as (? & ? & [?|(? & gw & ? & ?)]); (split; [done|]; split; [by apply (listener_scheme_mono _ _ _ _ _ _ Hi2)|]); [by left|right].
      split; [done|]. exists gw. auto.
    + by rewrite (extension_path _ _ _ _ Hext).
Qed.

Lemma publish_safe b srv cfg ext w s h :
  binding_seen req h b -> extension_read r req h srv cfg ext ->
  safe h (publish b cfg ext (tr_name (ext_targetRef (ext_spec ext))) (targetNamespace ext) w s).
Proof.
  intros Hb Hext. unfold publish. apply safe_read; [done|]. intros [route|e]; [|done].
  destruct (IsHTTPRouteAccepted _ _ _) eqn:Eacc; cbn [negb].
  2:{ apply safe_status_end; [|auto]. eapply binding_seen_mono; [|exact Hb]. apply incl_tl, incl_refl. }
  apply IsHTTPRouteAccepted_spec in Eacc. apply safe_read; [done|]. intros [reg|e]; [|done].
  set (h2 := _ :: _ :: h). assert (Hi : incl h h2) by (do 2 apply incl_tl; apply incl_refl).
  destruct (isRegistrationReady reg) eqn:Er; cbn [negb].
  2:{ apply safe_status_end; [by eapply binding_seen_mono|auto]. }
  eapply publishEndpoint_safe; [by eapply binding_seen_mono|by eapply extension_read_mono| |exact Eacc| |exact Er].
  - right. left. reflexivity.
  - left. reflexivity.
Qed.

Lemma routeAndRegister_safe b srv cfg ext sn s h :
  binding_seen req h b -> extension_read r req h srv cfg ext ->
  safe h (routeAndRegister b srv cfg ext (tr_name (ext_targetRef (ext_spec ext))) (targetNamespace ext) sn s).
Proof.
  intros Hb Hext. unfold routeAndRegister. apply resolveRouteHostname_safe.
  { intros e h' s' Hi. apply kuadrant_refuse_safe. by eapply binding_seen_mono. }
  intros host w h1 s1 Hi1 Hsec Hhost.
  apply reconcileHTTPRoute_safe; [by eapply binding_seen_mono|by eapply extension_read_mono|done|done|done|].
  intros b2 h2 s2 Hi2 Hb2. apply checkPrefixConflict_safe; [done|]. intros msg h3 s3 Hi3 Hfree.
  assert (Hb3 : binding_seen req h3 b2) by (by eapply binding_seen_mono).
  assert (Hext3 : extension_read r req h3 srv cfg ext).
  { eapply extension_read_mono; [|exact Hext]. eapply incl_tran; [exact Hi1|]. by eapply incl_tran. }
  case_bool_decide as Em; cbn [negb]; [|by apply kuadrant_refuse_safe]. specialize (Hfree Em). apply safe_step.
  - apply safe_createOrUpdate; [apply _|done..|]. intros h4 o Hi4 Hsp. exists srv, cfg, ext, b2.
    split; [by eapply extension_read_mono|]. split; [by eapply binding_seen_mono|]. split.
    + destruct Hfree as (items & ? & ?). exists items. auto.
    + etransitivity; [exact Hsp|]. cbn. by rewrite (extension_path _ _ _ _ Hext).
  - intros [e|] h4 s4 Hi4; [done|]. eapply publish_safe; [by eapply binding_seen_mono|by eapply extension_read_mono].
Qed.

Lemma discoverWildcardListener_reads g n : mcalls no_write (discoverWildcardListener g n).
Proof.
  unfold discoverWildcardListener. apply mcalls_bind; [by apply mcalls_call|]. intros [gw|e]; [|destruct (IsNotFound e); calls_tac].
  destruct (wildcardListeners gw) as [|x [|]]; calls_tac.
Qed.

Lemma reconcileExtension_safe b srv cfg ext s h :
  binding_seen req h b -> config_read r req h srv cfg ->
  In (Ev (CGet Cached KExtension (pc_extensionNamespace cfg) (pc_extensionName cfg)) (Ok ext)) h ->
  safe h (reconcileExtension b srv cfg ext s).
Proof.
  intros Hb Hcfg Hext. unfold reconcileExtension. apply safe_EnsureBindingAnnotations; [done| | |done].
  { intros k v. rewrite lookup_singleton_Some. intros [<- _]. cbn. auto. }
  intros b1 h1 s1 Hi1 Hb1. destruct (isExtensionReady ext) eqn:Er; cbn [negb]; [|apply safe_status_end; auto].
  assert (Hext1 : extension_read r req h1 srv cfg ext) by (split; [by eapply config_read_mono|auto]).
  apply safe_step.
  - destruct (pc_sectionName cfg == ""); [|done].
    eapply (mguard_calls _ no_write); [apply provider_no_write|apply discoverWildcardListener_reads].
  - intros [sn|e] h2 s2 Hi2; [apply routeAndRegister_safe|apply kuadrant_refuse_safe]; [by eapply binding_seen_mono|by eapply extension_read_mono|by eapply binding_seen_mono].
Qed.

Lemma kuadrant_Reconcile_safe : mguard (provider_write req (desired_object r req) (justified_url r req)) (Reconcile r req).
Proof.
  intros s h. unfold Reconcile. apply safe_read; [done|]. intros [b|e]; [|by destruct (IsNotFound e)]. unfold reconcileBinding.
  case_bool_decide as Hp; [|done]. cbn [negb]. apply safe_read; [done|]. intros [srv|e]; [|by destruct (IsNotFound e)].
  apply parseConfig_safe; [by right; left|done|by left|done|]. intros b' cfg h' s' Hb' Hcfg.
  apply safe_read; [done|]. intros [ext|e].
  - apply reconcileExtension_safe; [|by eapply config_read_mono; [apply incl_tl, incl_refl|]|by left].
    eapply binding_seen_mono; [|exact Hb']. apply incl_tl, incl_refl.
  - destruct (IsNotFound e); [|done]. apply kuadrant_refuse_safe. eapply binding_seen_mono; [|exact Hb']. apply incl_tl, incl_refl.
Qed.

(** C12: Whatever the API server answers, a pass of the kuadrant provider reads its routing
    only from a ready extension in an allowed namespace; creates only under the binding's
    name, and updates and deletes only what it read under that name, if no other owner
    controls it or, for a delete, if the binding does.  What it writes is controlled by the
    binding: a route to the server's own Service, on a listener that, where the Gateway and
    the listener were found, is not an HTTPS/TLS one bound to a single host, and a
    registration whose prefix no other registration of the list just read has.  It
    publishes a URL only with Registered=True, after reading, under the binding's name, the
    route as accepted in its current generation and the registration as ready. *)
Theorem kuadrant_pass_safe s tr res s' tr1 c a tr2 :
  runs (Reconcile r req s) tr (res, s') -> tr = tr1 ++ Ev c a :: tr2 ->
  provider_write req (desired_object r req) (justified_url r req) (rev tr1) c.
Proof. apply mguard_runs, kuadrant_Reconcile_safe. Qed.

End safety.

(** ** Concrete passes *)

Definition kuadrantBinding : MCPGatewayBinding :=
  {| mgb_meta := {| om_name := "srv-gateway-binding"; om_namespace := "ns"; om_uid := "b-uid"; om_resourceVersion := "7";
                    om_generation := 1; om_deletionTimestamp := None; om_labels := None; om_annotations := None;
                    om_ownerReferences := [] |};
     mgb_spec := {| mgb_mcpServerRef := "srv"; mgb_provider := ProviderName; mgb_configRef := "gw" |};
     mgb_status := {| mgb_url := ""; mgb_conditions := [] |} |}.

Definition kuadrantConfig : ConfigMap :=
  {| cm_meta := newMeta "gw" "ns" None;
     cm_data := {[ configKeyExtensionName := "mcp-ext"; configKeyExtensionNamespace := "edge"; configKeyPrefix := "files_" ]};
     cm_binaryData := ∅ |}.

Definition kuadrantExtension : MCPGatewayExtension :=
  {| ext_meta := newMeta "mcp-ext" "edge" None;
     ext_spec := {| ext_publicHost := "mcp.example.com";
                    ext_targetRef := {| tr_group := GatewayGroupName; tr_kind := "Gateway"; tr_name := "public"; tr_namespace := "";
                                        tr_sectionName := "web" |} |};
     ext_status := {| ext_conditions := [condition_at 0 "Ready" ConditionTrue "Ready" "" 1] |} |}.

Definition kuadrantGateway : GatewayApi.Gateway :=
  {| gtw_meta := newMeta "public" "edge" None;
     gtw_listeners := [{| lis_name := "web"; lis_hostname := Some "*.mcp.local"; lis_protocol := HTTPSProtocolType |}];
     gtw_addresses := [] |}.

Definition kuadrantRoute : HTTPRoute :=
  {| route_meta := newMeta "srv-gateway-binding" "ns" None;
     route_spec := routeSpec "public" "edge" (Some "web") ["srv.ns.mcp.local"] "/mcp" {| ep_name := "srv"; ep_port := 8080 |};
     route_parents := [{| rps_parentRef := {| pref_group := None; pref_kind := None; pref_namespace := Some "edge";
                                              pref_name := "public"; pref_sectionName := Some "web"; pref_port := None |};
                          rps_conditions := [condition_at 0 RouteConditionAccepted ConditionTrue "Accepted" "" 1;
                                             condition_at 0 RouteConditionResolvedRefs ConditionTrue "ResolvedRefs" "" 1] |}] |}.

Definition kuadrantRegistration : MCPServerRegistration :=
  {| reg_meta := newMeta "srv-gateway-binding" "ns" None;
     reg_spec := registrationSpec kuadrantBinding "/mcp" "files_";
     reg_status := {| reg_conditions := [condition_at 0 "Ready" ConditionTrue "Ready" "" 1] |} |}.

Definition kuadrantGet (rd : reader) (k : kind) (ns name : string) : result (obj k) :=
  match k return result (obj k) with
  | KBinding => Ok kuadrantBinding
  | KMCPServer => Ok gatewayServer
  | KConfigMap => Ok kuadrantConfig
  | KExtension => Ok kuadrantExtension
  | KGateway => Ok kuadrantGateway
  | KHTTPRoute => Ok kuadrantRoute
  | KRegistration => Ok kuadrantRegistration
  | _ => Err (StatusError NotFound "not found")
  end.

Definition kuadrantWorld : World :=
  {| w_get := kuadrantGet; w_write := None; w_pods := []; w_servers := [];
     w_list := fun k _ => match k return list (obj k) with KRegistration => [kuadrantRegistration] | _ => [] end;
     w_status := None; w_dial := Err (Errorf "connection refused"); w_now := 5 |}.

Definition allowEdge : Reconciler := {| AllowedExtensionNamespaces := ["edge"] |}.

Definition kuadrantPass : M (Result * option error) := @Reconcile modelVendor allowEdge ("ns", "srv-gateway-binding").

Definition kuadrantTrace : list event := Eval vm_compute in fst (run_in kuadrantWorld kuadrantPass emptyState).

Lemma kuadrantTrace_run : fst (run_in kuadrantWorld kuadrantPass emptyState) = kuadrantTrace.
Proof. vm_compute. reflexivity. Qed.

Lemma kuadrantTrace_status : exists tr1 o a tr2,
  kuadrantTrace = tr1 ++ Ev (CUpdateStatus KBinding o) a :: tr2 /\ mgb_url (mgb_status o) = "https://mcp.example.com/mcp".
Proof. eexists [_; _; _; _; _; _; _; _; _; _; _; _; _; _; _; _; _; _], _, _, []. split; reflexivity. Qed.

(** The pass adopts route and registration and publishes the extension's URL. *)
Lemma kuadrant_pass_safe_witness :
  exists tr1 o a tr2,
    fst (run_in kuadrantWorld kuadrantPass emptyState) = tr1 ++ Ev (CUpdateStatus KBinding o) a :: tr2 /\
    mgb_url (mgb_status o) = "https://mcp.example.com/mcp" /\
    provider_write ("ns", "srv-gateway-binding") (@desired_object modelVendor allowEdge ("ns", "srv-gateway-binding"))
      (@justified_url modelVendor allowEdge ("ns", "srv-gateway-binding")) (rev tr1) (CUpdateStatus KBinding o).
Proof.
  destruct kuadrantTrace_status as (tr1 & o & a & tr2 & Htr & Hurl). exists tr1, o, a, tr2.
  pose proof (run_in_runs kuadrantWorld kuadrantPass emptyState) as Hrun. rewrite kuadrantTrace_run in *.
  split; [exact Htr|]. split; [exact Hurl|].
  destruct (snd (run_in kuadrantWorld kuadrantPass emptyState)) as [res s'].
  exact (@kuadrant_pass_safe modelVendor modelVendor_laws allowEdge ("ns", "srv-gateway-binding") emptyState _ _ _ tr1 _ a tr2 Hrun Htr).
Defined.
