(* ===== verification/KuadrantConverge.v ===== *)
(** * Convergence of the kuadrant provider

    As for the httproute provider: in a cluster where only the provider acts, one pass does
    all there is to do, as long as no other registration uses the binding's prefix.  With
    such a conflict every pass creates the HTTPRoute, then finds the conflict and deletes
    the route again. *)

From S2P Require Import Prelude K8s GatewayApi ApiAlpha ApiBeta StatusAC Interact Conditions Ownership Service Gateway ConfigHash Handshake Reconcile Lifecycle Providers ProviderSafety QuietCluster Settling Kuadrant.

(** ** Reads of the Gateway *)

Lemma steady_ret_ex {A} (a : A) c : exists x, steady (mret a) c x.
Proof. eexists. apply steady_ret. Qed.

Lemma steady_bind_ex {A B} (m : M A) (f : A -> M B) c :
  (exists a, steady m c a) -> (forall a, exists b, steady (f a) c b) -> exists b, steady (m ≫= f) c b.
Proof. intros [a Ha] Hf. destruct (Hf a) as [b Hb]. exists b. by eapply steady_bind. Qed.

Lemma steady_get_ex {B} rd k ns name (f : result (obj k) -> M B) c :
  fixed_kind k = true -> (forall r, exists b, steady (f r) c b) -> exists b, steady (call (CGet rd k ns name) ≫= f) c b.
Proof. intros Hk Hf. destruct (Hf (cl_get c rd k ns name)) as [b Hb]. exists b. by apply steady_get. Qed.

(** Walks a handler that only reads. *)
Ltac steady_step :=
  match goal with
  | |- exists _, steady (mret _) _ _ => apply steady_ret_ex
  | |- exists _, steady (mbind _ (call (CGet _ _ _ _))) _ _ => apply steady_get_ex; [done|intros ?]
  | |- exists _, steady (mbind _ _) _ _ => apply steady_bind_ex; [|intros ?]
  | |- exists _, steady (match ?x with _ => _ end) _ _ => destruct x
  end.

Lemma steady_discover g n c : exists a, steady (discoverWildcardListener g n) c a.
Proof. unfold discoverWildcardListener. repeat steady_step. Qed.

Lemma steady_hostname sn sns g n section c : exists a, steady (resolveHostname sn sns g n section) c a.
Proof. unfold resolveHostname, findGatewayListener. repeat steady_step. Qed.

Lemma steady_guard g n section c : exists a, steady (checkListenerHostnameGuard g n section) c a.
Proof. unfold checkListenerHostnameGuard. repeat steady_step. Qed.

Lemma steady_endpoint ext c : exists a, steady (resolvePublicEndpoint ext) c a.
Proof. unfold resolvePublicEndpoint, schemeFromListener, listenerHostname. repeat steady_step. Qed.

(** ** The pass *)

(** The prefix the binding's server is registered with. *)
Definition prefixOf (srv : MCPServer) (data : gmap string string) : string :=
  if configValue data configKeyPrefix == "" then autoPrefix srv else configValue data configKeyPrefix.

Definition registrationKey (reg : MCPServerRegistration) : string * string :=
  (om_namespace (reg_meta reg), om_name (reg_meta reg)).

(** The registrations of others do not use the prefix. *)
Definition prefix_unused (prefix : string) (c : Cluster) : Prop :=
  forall reg, In reg (cl_registrations c) -> reg_prefix (reg_spec reg) = prefix -> registrationKey reg = bindingKey (cl_binding c).

Section converge.
Context `{V : Vendor} {L : VendorLaws V}.

(** A refusal, with a message that may name what the binding's spec says. *)
Lemma settling_refusal (msg : MCPGatewayBinding -> string) c :
  (forall b b', mgb_spec b' = mgb_spec b -> msg b' = msg b) ->
  settling keeps_binding (fun b => setNotRegistered b (msg b)) c.
Proof.
  intros Hmsg. destruct (settle_deleteStale KHTTPRoute c) as (c1 & Hg1 & Hb1 & Hr1 & Ho1 & Hk1 & Hs1).
  destruct (settle_deleteStale KRegistration c1) as (c2 & Hg2 & Hb2 & Hr2 & Ho2 & Hk2 & Hs2).
  assert (H12 : keeps_binding c c2).
  { eapply keeps_slots_trans.
    - apply (keeps_slots_mono [KHTTPRoute]); [by intros k [<-|[]]; left|by apply keeps_slot].
    - apply (keeps_slots_mono [KRegistration]); [by intros k [<-|[]]; right; left|by apply keeps_slot]. }
  set (c3 := report ConditionFalse ReasonGatewayNotRegistered (msg (cl_binding c)) "" c2). exists None, c3.
  assert (H3 : keeps_binding c c3) by (eapply keeps_slots_trans; [exact H12|apply keeps_report]).
  assert (Hm : mgb_meta (cl_binding c3) = mgb_meta (cl_binding c)) by apply H3.
  split_and!; [|done|].
  - eapply goes_bind.
    + eapply goes_bind; [exact Hg1|]. cbn beta iota. rewrite <- Hb1. exact Hg2.
    + cbn beta iota. unfold c3. rewrite <- Hb1, <- Hb2. apply goes_status.
  - eapply silent_bind.
    + eapply silent_bind; [apply Hs1; split; [by rewrite Hm, Hb1|]|cbn beta iota; apply Hs2; split; [by rewrite Hm, Hb2, Hb1|]];
        unfold c3; rewrite report_slot; [|apply alike_refl]. rewrite Ho2 by done. apply alike_refl.
    + cbn beta iota. rewrite (Hmsg (cl_binding c)) by apply H3. apply silent_status, report_done.
Qed.

(** What refusals look like in the pass. *)
Lemma settling_refuse {A} ks (msg : MCPGatewayBinding -> string) (f : option error -> A) c :
  (forall b b', mgb_spec b' = mgb_spec b -> msg b' = msg b) ->
  settling (keeps_but ks) (fun b => e ← setNotRegistered b (msg b); mret (f e)) c.
Proof.
  intros Hmsg. apply settling_map. eapply settling_mono; [intros c1; apply keeps_slots_but|by apply settling_refusal].
Qed.

(** Without a conflict, the check passes, before the registration is written and after. *)
Lemma check_silent cfg c :
  prefix_unused (pc_prefix cfg) c -> keyed KRegistration c -> silent (checkPrefixConflict (cl_binding c) cfg) c (Ok "").
Proof.
  intros Hfree Hkey. unfold checkPrefixConflict. eapply silent_after; [done|reflexivity|]. cbn [listObjects].
  destruct (List.find _ _) as [reg|] eqn:Ef; [exfalso|apply quiet_ret].
  apply find_some in Ef as [Hin Hc]. apply in_app_iff in Hin. unfold prefixConflict in Hc. apply andb_true_iff in Hc as [Hne Hp].
  bool_to_prop. assert (Hk : registrationKey reg = bindingKey (cl_binding c)).
  { destruct Hin as [Hin|Hin]; [by apply Hfree|]. destruct (cl_registration c) as [x|] eqn:Ex; [|done].
    cbn in Hin. destruct Hin as [<-|[]]. apply Hkey. exact Ex. }
  unfold registrationKey, bindingKey in Hk. injection Hk as Hk1 Hk2. rewrite Hk1, Hk2, !bool_decide_eq_true_2 in Hne by done.
  done.
Qed.

Lemma settling_publish cfg ext g n warning c : settling status_only (fun b => publish b cfg ext g n warning) c.
Proof.
  unfold publish. apply (settling_read_slot KHTTPRoute); [apply not_elem_of_nil|].
  destruct (slot KHTTPRoute c) as [route|]; [|apply settling_ret]. destruct (negb _); [apply settling_status|].
  apply (settling_read_slot KRegistration); [apply not_elem_of_nil|].
  destruct (slot KRegistration c) as [reg|]; [|apply settling_ret]. cbn zeta. destruct (negb _); [apply settling_status|].
  unfold publishEndpoint. destruct (steady_endpoint ext c) as [[[ep|]|e] He]; eapply settling_steady; try exact He;
    cbn beta iota zeta; apply settling_status.
Qed.

(** From the applied route to the status. *)
Lemma settling_register cfg ext g n warning c :
  prefix_unused (pc_prefix cfg) c -> keyed KRegistration c ->
  settling (keeps_slots [KRegistration]) (fun b =>
    conflict ← checkPrefixConflict b cfg;
    match conflict with
    | Err e => mret (noRequeue, Some e)
    | Ok msg =>
        if msg != "" then err ← setNotRegistered b msg; mret (requeue30s, err)
        else
          registered ← reconcileMCPServerRegistration b (pc_path cfg) (pc_prefix cfg);
          match registered with
          | Some e => mret (noRequeue, Some e)
          | None => publish b cfg ext g n warning
          end
    end) c.
Proof.
  intros Hfree Hkey.
  assert (Hreg : settling (keeps_slots [KRegistration]) (fun b =>
    registered ← reconcileMCPServerRegistration b (pc_path cfg) (pc_prefix cfg);
    match registered with Some e => mret (noRequeue, Some e) | None => publish b cfg ext g n warning end) c).
  { unfold reconcileMCPServerRegistration.
    refine (settling_apply KRegistration [] (fun b => {| reg_meta := _; reg_spec := registrationSpec b _ _; reg_status := _ |})
              (fun b => publish b cfg ext g n warning) (fun e => (noRequeue, Some e)) c _ _ _ _).
    - apply not_elem_of_nil.
    - intros b b' H. unfold registrationSpec. by rewrite H.
    - by intros b.
    - intros c1 _. apply settling_publish. }
  destruct Hreg as (a & c1 & Hg & HR & Hs). exists a, c1. split_and!; [|done|].
  - eapply goes_bind; [by apply silent_goes, check_silent|exact Hg].
  - eapply silent_bind; [apply check_silent|exact Hs]; destruct HR as (Hm & _ & (_ & Hrest & _) & _ & Hk); [|by apply Hk].
    unfold prefix_unused, bindingKey in *. by rewrite Hm, Hrest.
Qed.

(** Recording and conflicts of others do not interfere. *)
Lemma prefix_unused_identity prefix c c1 : keeps_identity c c1 -> prefix_unused prefix c -> prefix_unused prefix c1.
Proof.
  intros [(_ & Hns & Hn)%same_identity_fields (_ & Hr & _)]. unfold prefix_unused, bindingKey. by rewrite Hr, Hns, Hn.
Qed.

Lemma annotate_keeps k v c : keeps_identity c (annotate k v c).
Proof. split; [apply annotate_identity|apply annotate_rest]. Qed.

Lemma keyed_annotate k v c kd : keyed kd c -> keyed kd (annotate k v c).
Proof.
  intros H x. rewrite annotate_slot. intros Hx. rewrite (H x Hx).
  destruct (annotate_keeps k v c) as [(_ & Hns & Hn)%same_identity_fields _]. unfold bindingKey. by rewrite Hns, Hn.
Qed.

Lemma settling_reconcileHTTPRoute cfg ext srv g n host section warning c :
  prefix_unused (pc_prefix cfg) c -> keyed KRegistration c ->
  settling (keeps_but [AnnotationServiceRef]) (fun b =>
    routed ← reconcileHTTPRoute b srv g n host section (pc_path cfg);
    match routed with
    | Err e => mret (noRequeue, Some e)
    | Ok binding' =>
        conflict ← checkPrefixConflict binding' cfg;
        match conflict with
        | Err e => mret (noRequeue, Some e)
        | Ok msg =>
            if msg != "" then err ← setNotRegistered binding' msg; mret (requeue30s, err)
            else
              registered ← reconcileMCPServerRegistration binding' (pc_path cfg) (pc_prefix cfg);
              match registered with
              | Some e => mret (noRequeue, Some e)
              | None => publish binding' cfg ext g n warning
              end
        end
    end) c.
Proof.
  intros Hfree Hkey. unfold reconcileHTTPRoute. apply settling_assoc. refine (settling_Backend srv [] _ _ _ _); [apply not_elem_of_nil|].
  intros ep [e|]; [exact (settling_ret (noRequeue, Some e) _)|]. cbn beta iota.
  set (c1 := annotate _ _ c).
  eapply settling_mono; [intros c2; apply (keeps_slots_but [KHTTPRoute; KRegistration])|]. apply settling_assoc.
  eapply settling_cont; [|refine (settling_apply KHTTPRoute [KRegistration] (fun b => desiredRoute b g n host section (pc_path cfg) ep)
    _ (fun e => (noRequeue, Some e)) c1 _ _ _ (fun c2 H2 => settling_register cfg ext g n warning c2 _ _))].
  - by intros b [e|].
  - by intros [?|?]%elem_of_cons; [|by apply not_elem_of_nil in H].
  - intros b b' H. unfold desiredRoute. by rewrite H.
  - by intros b.
  - eapply prefix_unused_identity; [by apply keeps_slots_identity in H2|]. by eapply prefix_unused_identity; [apply annotate_keeps|].
  - apply H2, keyed_annotate, Hkey.
Qed.

Lemma settling_routeAndRegister cfg ext srv g n section c :
  prefix_unused (pc_prefix cfg) c -> keyed KRegistration c ->
  settling (keeps_but [AnnotationServiceRef]) (fun b => routeAndRegister b srv cfg ext g n section) c.
Proof.
  intros Hfree Hkey. unfold routeAndRegister, resolveRouteHostname.
  destruct (pc_routeHostname cfg == ""); [|destruct (ValidateHostname (pc_routeHostname cfg)) as [err|]].
  - destruct (steady_hostname (om_name (srv_meta srv)) (om_namespace (srv_meta srv)) g n section c) as [[[h w]|e] Hst];
      eapply settling_steady; try exact Hst; cbn beta iota;
      [by apply settling_reconcileHTTPRoute|by refine (settling_refuse _ (fun _ => _) _ c _)].
  - refine (settling_refuse _ (fun b => _) _ c _). by intros b b' ->.
  - apply settling_assoc. destruct (steady_guard g n section c) as [[e|] Hst]; eapply settling_steady; try exact Hst.
    + refine (settling_refuse _ (fun _ => _) _ c _). done.
    + exact (settling_reconcileHTTPRoute cfg ext srv g n (pc_routeHostname cfg) section "" c Hfree Hkey).
Qed.

Lemma settling_reconcileExtension cfg ext srv c :
  prefix_unused (pc_prefix cfg) c -> keyed KRegistration c ->
  settling (keeps_but [AnnotationGatewayRef; AnnotationServiceRef]) (fun b => reconcileExtension b srv cfg ext) c.
Proof.
  intros Hfree Hkey. unfold reconcileExtension. cbn zeta.
  apply (settling_Ensure AnnotationGatewayRef); [by apply (bool_decide_unpack _)|].
  destruct (negb _); [apply settling_status|]. set (c1 := annotate _ _ c).
  assert (Hfree1 : prefix_unused (pc_prefix cfg) c1) by (by eapply prefix_unused_identity; [apply annotate_keeps|]).
  assert (Hkey1 : keyed KRegistration c1) by (by apply keyed_annotate).
  destruct (pc_sectionName cfg == ""); [|by apply settling_routeAndRegister].
  destruct (steady_discover (tr_name (ext_targetRef (ext_spec ext))) (targetNamespace ext) c1) as [[section|e] Hst];
    eapply settling_steady; try exact Hst; cbn beta iota; [by apply settling_routeAndRegister|by refine (settling_refuse _ (fun _ => _) _ c1 _)].
Qed.

(** The annotations a pass records. *)
Definition recorded_refs : list string := [AnnotationExtensionRef; AnnotationGatewayRef; AnnotationServiceRef].

(** From the parsed configuration on. *)
Definition afterConfig (mcpServer : MCPServer) (parsed : option error + MCPGatewayBinding * parsedConfig) : M (Result * option error) :=
  match parsed with
  | inl err => mret (noRequeue, err)
  | inr (binding', cfg) =>
      gotExt ← call (CGet Cached KExtension (pc_extensionNamespace cfg) (pc_extensionName cfg));
      match gotExt with
      | Err e =>
          if IsNotFound e then
            err ← setNotRegistered binding' ("MCPGatewayExtension " +:+ fmt.q (pc_extensionName cfg)
                    +:+ " not found in namespace " +:+ fmt.q (pc_extensionNamespace cfg));
            mret (noRequeue, err)
          else mret (noRequeue, Some e)
      | Ok ext => reconcileExtension binding' mcpServer cfg ext
      end
  end.

Lemma settling_afterConfig srv cfg c :
  prefix_unused (pc_prefix cfg) c -> keyed KRegistration c ->
  settling (keeps_but [AnnotationGatewayRef; AnnotationServiceRef]) (fun b => afterConfig srv (inr (b, cfg))) c.
Proof.
  intros Hfree Hkey. unfold afterConfig.
  apply (settling_read Cached KExtension (fun _ => pc_extensionNamespace cfg) (fun _ => pc_extensionName cfg)); [done..|].
  destruct (cl_get _ _ _ _ _) as [ext|e]; [by apply settling_reconcileExtension|].
  destruct (IsNotFound e); [by refine (settling_refuse _ (fun _ => _) _ c _)|apply settling_ret].
Qed.

Lemma settling_parseConfig r srv c :
  (forall cm, cl_get c Direct KConfigMap (om_namespace (mgb_meta (cl_binding c))) (mgb_configRef (mgb_spec (cl_binding c))) = Ok cm ->
     prefix_unused (prefixOf srv (cm_data cm)) c) ->
  keyed KRegistration c ->
  settling (keeps_but recorded_refs) (fun b => parseConfig r b srv ≫= afterConfig srv) c.
Proof.
  intros Hfree Hkey.
  assert (Href : forall msg, (forall b b', mgb_spec b' = mgb_spec b -> msg b' = msg b) ->
    settling (keeps_but recorded_refs) (fun b => (e ← setNotRegistered b (msg b); mret (inl e)) ≫= afterConfig srv) c).
  { intros msg Hmsg. refine (settling_then _ (fun b => setNotRegistered b (msg b)) inl (fun _ => afterConfig srv) (fun e => (noRequeue, e)) c _ _);
      [done|]. eapply settling_mono; [intros c1; apply keeps_slots_but|by apply settling_refusal]. }
  unfold parseConfig. cbn zeta.
  apply (settling_if_bind (fun b => mgb_configRef (mgb_spec b) == "") _ _ (fun _ => afterConfig srv));
    [by intros b b' (-> & _)%same_identity_fields|refine (Href (fun _ => _) _); done|].
  apply (settling_assoc _ (fun b => call (CGet Direct KConfigMap (om_namespace (mgb_meta b)) (mgb_configRef (mgb_spec b)))) _
           (fun _ => afterConfig srv)).
  apply (settling_read Direct KConfigMap (fun b => om_namespace (mgb_meta b)) (fun b => mgb_configRef (mgb_spec b)));
    [done|by intros b b' (-> & -> & _)%same_identity_fields|].
  destruct (cl_get c Direct KConfigMap _ _) as [cm|e]; [specialize (Hfree cm eq_refl)|].
  2:{ destruct (negb _); [exact (settling_ret (noRequeue, Some e) c)|]. refine (Href (fun b => _) _). by intros b b' ->. }
  do 2 (lazymatch goal with |- context [if ?c then _ else _] => destruct c end; [refine (Href (fun b => _) _); by intros b b' ->|]).
  do 3 (lazymatch goal with |- context [if ?c then _ else _] => destruct c end; [refine (Href (fun b => _) _); done|]).
  set (cfg := {| pc_extensionName := _ |}).
  apply (settling_assoc _ (fun b => EnsureBindingAnnotations b _) _ (fun _ => afterConfig srv)).
  eapply settling_cont; [|refine (settling_Ensure AnnotationExtensionRef _ [AnnotationGatewayRef; AnnotationServiceRef]
    (fun b => afterConfig srv (inr (b, cfg))) (fun e => mret (noRequeue, Some e)) c _ _)].
  - by intros b [b'|e].
  - by apply (bool_decide_unpack _).
  - apply settling_afterConfig; [|by apply keyed_annotate]. eapply prefix_unused_identity; [apply annotate_keeps|exact Hfree].
Qed.

(** The binding's prefix, as far as its server and ConfigMap can be read, is not used by another registration. *)
Definition no_conflict (c : Cluster) : Prop :=
  let b := cl_binding c in
  forall srv cm, cl_get c Cached KMCPServer (om_namespace (mgb_meta b)) (mgb_mcpServerRef (mgb_spec b)) = Ok srv ->
    cl_get c Direct KConfigMap (om_namespace (mgb_meta b)) (mgb_configRef (mgb_spec b)) = Ok cm ->
    prefix_unused (prefixOf srv (cm_data cm)) c.

Lemma settling_binding r c : no_conflict c -> keyed KRegistration c -> settling (keeps_but recorded_refs) (reconcileBinding r) c.
Proof.
  intros Hfree Hkey. unfold reconcileBinding.
  apply settling_if; [by intros b b' (-> & _)%same_identity_fields|apply settling_ret|].
  apply settling_read; [done|by intros b b' (-> & -> & _)%same_identity_fields|].
  destruct (cl_get _ _ _ _ _) as [srv|e] eqn:Es; [|destruct (IsNotFound e); apply settling_ret].
  apply settling_parseConfig; [|done]. intros cm Hcm. by apply Hfree.
Qed.

(** C31: In a cluster where only the provider acts and no other registration uses the
    binding's prefix, one pass over a binding does all there is to do for route,
    registration, annotations and status: a second pass answers the same, writes nothing
    and changes nothing. *)
Theorem kuadrant_converges r c s :
  no_conflict c -> keyed KRegistration c ->
  let req := bindingKey (cl_binding c) in
  exists tr res c1, exec (Reconcile r req) s c = (tr, (res, s), c1) /\
    exists tr', exec (Reconcile r req) s c1 = (tr', (res, s), c1) /\ each_call no_write tr'.
Proof.
  intros Hfree Hkey. exact (settling_twice (keeps_but recorded_refs) (reconcileBinding r) _ c s (settling_binding r c Hfree Hkey)).
Qed.

End converge.

(** ** Concrete clusters *)

Definition kuadrantCluster (others : list MCPServerRegistration) : Cluster :=
  {| cl_binding := kuadrantBinding; cl_route := None; cl_registration := None; cl_registrations := others;
     cl_get := kuadrantGet; cl_now := 5 |}.

(** A registration of another binding. *)
Definition otherRegistration (prefix : string) : MCPServerRegistration :=
  {| reg_meta := newMeta "other-gateway-binding" "ns" None;
     reg_spec := registrationSpec kuadrantBinding "/mcp" prefix; reg_status := {| reg_conditions := [] |} |}.

Lemma sample_no_conflict : no_conflict (kuadrantCluster [otherRegistration "mail_"]).
Proof.
  intros srv cm Hsrv Hcm reg Hin Hp. cbn in Hcm, Hsrv. injection Hcm as <-. injection Hsrv as <-.
  cbn in Hin. destruct Hin as [<-|[]]. vm_compute in Hp. discriminate Hp.
Qed.

Lemma kuadrant_converges_witness :
  exists tr res c1, exec kuadrantPass emptyState (kuadrantCluster [otherRegistration "mail_"]) = (tr, (res, emptyState), c1) /\
    exists tr', exec kuadrantPass emptyState c1 = (tr', (res, emptyState), c1) /\ each_call no_write tr'.
Proof.
  exact (@kuadrant_converges modelVendor modelVendor_laws allowEdge (kuadrantCluster [otherRegistration "mail_"]) emptyState
    sample_no_conflict (fun x Hx => match Hx with eq_refl => I end)).
Defined.

(** Creations and deletions of an HTTPRoute, in order. *)
Definition routeWrites (tr : list event) : list string :=
  omap (fun e => match e with
                 | Ev (CCreate KHTTPRoute _) _ => Some "create"
                 | Ev (CUpdate KHTTPRoute _) _ => Some "update"
                 | Ev (CDelete KHTTPRoute _ _) _ => Some "delete"
                 | _ => None
                 end) tr.

Definition afterPass (c : Cluster) : Cluster := snd (exec kuadrantPass emptyState c).
Definition ofPass (c : Cluster) : list event := fst (fst (exec kuadrantPass emptyState c)).

(** The cluster after the first pass that meets a registration with the binding's prefix. *)
Definition conflictCluster : Cluster := Eval vm_compute in afterPass (kuadrantCluster [otherRegistration "files_"]).

Lemma conflict_pass : afterPass conflictCluster = conflictCluster /\ routeWrites (ofPass conflictCluster) = ["create"; "delete"] /\
  mgb_url (mgb_status (cl_binding conflictCluster)) = "".
Proof. split_and!; vm_compute; reflexivity. Qed.

(** While another registration has the binding's prefix, the pass never settles: every
    pass, the first and any later one, creates the HTTPRoute, finds the conflict and
    deletes the route again, so that the server's route exists for a moment each time. *)
Theorem prefix_conflict_churns (n : nat) :
  let c := Nat.iter n afterPass (kuadrantCluster [otherRegistration "files_"]) in
  routeWrites (ofPass c) = ["create"; "delete"] /\ cl_route c = None.
Proof.
  cbn zeta. assert (H : forall m, Nat.iter (S m) afterPass (kuadrantCluster [otherRegistration "files_"]) = conflictCluster).
  { induction m as [|m IH]; [vm_compute; reflexivity|]. rewrite Nat.iter_succ, IH. apply conflict_pass. }
  destruct n as [|n]; [split; vm_compute; reflexivity|]. rewrite H. split; [apply conflict_pass|reflexivity].
Qed.
