(* ===== verification/ProviderScenarios.v ===== *)
(** * Behaviours of the providers worth knowing

    Three behaviours of the gateway providers that their comments and documentation do not
    lead one to expect, each shown by a run: an owner reference that is not repaired, a
    wildcard published as the host of a URL, and a route torn down by a failed read. *)

From S2P Require Import Prelude K8s GatewayApi ApiAlpha ApiBeta StatusAC Interact Conditions Ownership Service Gateway ConfigHash Handshake Reconcile Lifecycle Providers ProviderSafety QuietCluster Settling HttpRoute HttpRouteConverge Kuadrant KuadrantConverge.

(** ** Owner references are compared with themselves *)

Section aliasing.
Context `{V : Vendor} {L : VendorLaws V}.

(** When the slice taken before sees the overwritten reference, an object with the desired
    spec is not written, whatever its references were. *)
Lemma aliased_owners_not_written k `{O : Owned k} `{!OwnedLaws k} `{!Kept k} c (o x : obj k) m m' :
  om_name (meta_of k o) = om_name (mgb_meta (cl_binding c)) ->
  om_namespace (meta_of k o) = om_namespace (mgb_meta (cl_binding c)) ->
  bindingController (cl_binding c) (meta_of k o) = Ok m ->
  slot k c = Some x -> spec_of x = spec_of o ->
  bindingController (cl_binding c) (meta_of k x) = Ok m' ->
  ownersBefore (cl_binding c) (meta_of k x) = om_ownerReferences m' ->
  silent (createOrUpdate k (cl_binding c) o) c None.
Proof.
  intros Hn Hns Em Hx Hsp Em' Hal. unfold createOrUpdate. rewrite Em.
  pose proof (bindingController_spec _ _ _ Em) as [Hfm _].
  eapply silent_after; [done|cbn; rewrite kept_get; [reflexivity|]; unfold bindingKey; rewrite Hfm; cbn; congruence|].
  rewrite Hx, Em', Hal, Hsp, !bool_decide_eq_true_2 by done. apply quiet_ret.
Qed.

End aliasing.

(** The route of an earlier binding of the same name: as desired, with that binding's UID. *)
Definition staleOwner : OwnerReference :=
  {| or_apiVersion := MCPServerAPIVersion; or_kind := MCPGatewayBindingKind; or_name := "srv-gateway-binding"; or_uid := "old-uid";
     or_controller := Some true; or_blockOwnerDeletion := Some true |}.

Definition staleRoute : HTTPRoute :=
  {| route_meta := with_owners [staleOwner] (route_meta sampleRoute);
     route_spec := route_spec sampleRoute; route_parents := route_parents sampleRoute |}.

Definition staleCluster : Cluster := set_route (Some staleRoute) HttpRouteConverge.sampleCluster.

Definition routeUIDs (c : Cluster) : option (list string) :=
  option_map (fun x => map or_uid (om_ownerReferences (route_meta x))) (cl_route c).

(** The pass registers the binding and leaves the route to an owner that no longer exists. *)
Theorem stale_owner_not_repaired :
  om_uid (mgb_meta (cl_binding staleCluster)) = "b-uid" /\
  routeUIDs (snd (exec samplePass emptyState staleCluster)) = Some ["old-uid"] /\
  fst (snd (fst (exec samplePass emptyState staleCluster))) = (noRequeue, None) /\
  mgb_url (mgb_status (cl_binding (snd (exec samplePass emptyState staleCluster)))) = "https://mcp.example.com/mcp".
Proof. split_and!; vm_compute; reflexivity. Qed.

(** ** A wildcard as public host *)

Definition wildcardConfig : ConfigMap :=
  {| cm_meta := newMeta "gw" "ns" None;
     cm_data := {[ HttpRoute.configKeyGatewayName := "public"; HttpRoute.configKeyGatewayNamespace := "edge";
                   HttpRoute.configKeyRouteHostname := "*.example.com" ]};
     cm_binaryData := ∅ |}.

Definition wildcardGet (rd : reader) (k : kind) (ns name : string) : result (obj k) :=
  match k return result (obj k) with
  | KConfigMap => Ok wildcardConfig
  | k => sampleGet rd k ns name
  end.

Definition wildcardCluster : Cluster :=
  {| cl_binding := sampleBinding;
     cl_route := Some {| route_meta := with_generation 0 (route_meta sampleRoute);
                         route_spec := routeSpec "public" "edge" None ["*.example.com"] "/mcp" {| ep_name := "srv"; ep_port := 8080 |};
                         route_parents := route_parents sampleRoute |};
     cl_registration := None; cl_registrations := []; cl_get := wildcardGet; cl_now := 5 |}.

(** A wildcard is a valid route hostname, and without a public-hostname it becomes the URL's host. *)
Theorem wildcard_published_as_host :
  @ValidateHostname modelVendor "*.example.com" = None /\
  mgb_url (mgb_status (cl_binding (snd (exec samplePass emptyState wildcardCluster)))) = "https://*.example.com/mcp".
Proof. split; vm_compute; reflexivity. Qed.

(** ** A failed read tears the route down *)

Definition timeoutGet (rd : reader) (k : kind) (ns name : string) : result (obj k) :=
  match k return result (obj k) with
  | KGateway => Err (Errorf "context deadline exceeded")
  | k => kuadrantGet rd k ns name
  end.

(** A settled binding, and the same cluster while the Gateway cannot be read. *)
Definition settledCluster : Cluster := Eval vm_compute in afterPass (kuadrantCluster []).
Definition timeoutCluster : Cluster :=
  {| cl_binding := cl_binding settledCluster; cl_route := cl_route settledCluster; cl_registration := cl_registration settledCluster;
     cl_registrations := []; cl_get := timeoutGet; cl_now := 6 |}.

(** The pass deletes the route and the registration, and asks neither for a retry nor
    reports an error. *)
Theorem failed_gateway_read_tears_down :
  (exists x y, cl_route timeoutCluster = Some x /\ cl_registration timeoutCluster = Some y) /\
  cl_route (afterPass timeoutCluster) = None /\ cl_registration (afterPass timeoutCluster) = None /\
  fst (snd (fst (exec kuadrantPass emptyState timeoutCluster))) = (noRequeue, None).
Proof. split; [by do 2 eexists|]. split_and!; vm_compute; reflexivity. Qed.
