(* ===== verification/ProviderWatches.v ===== *)
(** * The providers watch what they read

    A provider reads a Gateway, an extension, a ConfigMap and the MCPServer, and sends a
    route to a Service.  Events of these objects lead back to the binding through its spec
    or through the references a pass records in its annotations; here it is shown that the
    record is made before the read, and that the watch mappings find it. *)

From S2P Require Import Prelude K8s GatewayApi ApiAlpha ApiBeta StatusAC Interact Conditions Ownership Service Gateway ConfigHash Handshake Reconcile Providers ProviderSafety HttpRoute Kuadrant.

(** ** The watches ([SetupWithManager])

    The mapping registered for events of a kind, given the object's metadata.  Bindings
    themselves and the objects they own lead back to the binding by the library. *)

Section watches.
Context `{V : Vendor}.

Definition httprouteWatches (k : kind) : option (ObjectMeta -> M (list Request)) :=
  match k with
  | KService => Some (FindBindingsForService HttpRoute.ProviderName)
  | KConfigMap => Some HttpRoute.findBindingsForConfigMap
  | KMCPServer => Some HttpRoute.findBindingsForMCPServer
  | KGateway => Some HttpRoute.findBindingsForGateway
  | _ => None
  end.

Definition kuadrantWatches (k : kind) : option (ObjectMeta -> M (list Request)) :=
  match k with
  | KService => Some (FindBindingsForService Kuadrant.ProviderName)
  | KConfigMap => Some Kuadrant.findBindingsForConfigMap
  | KMCPServer => Some Kuadrant.findBindingsForMCPServer
  | KGateway => Some Kuadrant.findBindingsForGateway
  | KExtension => Some findBindingsForGatewayExtension
  | _ => None
  end.

(** The controllers: the provider's name, its pass over a binding, its watches. *)
Inductive controller (req : Request) : string -> M (Result * option error) -> (kind -> option (ObjectMeta -> M (list Request))) -> Prop :=
| httproute_controller r : controller req HttpRoute.ProviderName (HttpRoute.Reconcile r req) httprouteWatches
| kuadrant_controller r : controller req Kuadrant.ProviderName (Kuadrant.Reconcile r req) kuadrantWatches.

(** Only kinds whose events reach the controller are read. *)
Definition reads_watched (watches : kind -> option (ObjectMeta -> M (list Request))) (c : Call) : Prop :=
  match c with
  | CGet _ k _ _ => In k [KBinding; KHTTPRoute; KRegistration] \/ is_Some (watches k)
  | _ => True
  end.

End watches.

(** ** What is on record *)

(** Some version of the binding, as the API server gave it or was sent it and took it,
    has the annotation. *)
Definition indexed (req : Request) (h : list event) (k v : string) : Prop :=
  (exists b, binding_seen req h b /\ annotation b k = v) \/
  exists base m b, In (Ev (CPatch KBinding base m) (Ok b)) h /\ annotation m k = v.

(** The MCPServer that the binding names, as read. *)
Definition server_read (req : Request) (h : list event) (srv : MCPServer) : Prop :=
  exists b, binding_seen req h b /\ In (Ev (CGet Cached KMCPServer (om_namespace (mgb_meta b)) (mgb_mcpServerRef (mgb_spec b))) (Ok srv)) h.

(** The only Service a route sends its requests to is that of the MCPServer the binding
    names, and it is recorded under the namespace of that server and its own name. *)
Definition backends_indexed (req : Request) (h : list event) (spec : HTTPRouteSpec) : Prop :=
  exists srv, server_read req h srv /\
    Forall (fun rule => Forall (fun ref => br_name ref = serviceNameFor srv) (rule_backendRefs rule)) (hrs_rules spec) /\
    indexed req h AnnotationServiceRef (RefKey (om_namespace (srv_meta srv)) (serviceNameFor srv)).

(** What must have been read or recorded before a call. *)
Definition recorded (req : Request) (h : list event) (c : Call) : Prop :=
  match c with
  | CGet _ KGateway ns n => indexed req h AnnotationGatewayRef (RefKey ns n)
  | CGet _ KExtension ns n => indexed req h AnnotationExtensionRef (RefKey ns n)
  | CGet _ KConfigMap ns n => exists b, binding_seen req h b /\ om_namespace (mgb_meta b) = ns /\ mgb_configRef (mgb_spec b) = n
  | CGet _ KMCPServer ns n => exists b, binding_seen req h b /\ om_namespace (mgb_meta b) = ns /\ mgb_mcpServerRef (mgb_spec b) = n
  | CCreate k o | CUpdate k o =>
      match k return obj k -> Prop with
      | KHTTPRoute => fun o => backends_indexed req h (route_spec o)
      | _ => fun _ => True
      end o
  | _ => True
  end.

Definition on_record `{V : Vendor} watches (req : Request) (h : list event) (c : Call) : Prop :=
  reads_watched watches c /\ recorded req h c.

(** Calls of which no record is asked. *)
Definition unwatched (c : Call) : Prop :=
  match c with
  | CGet _ k _ _ => In k [KBinding; KHTTPRoute; KRegistration; KService]
  | CCreate k _ | CUpdate k _ => k <> KHTTPRoute
  | _ => True
  end.

(** ... and reads of one Gateway. *)
Definition gateway_only (ns n : string) (c : Call) : Prop := unwatched c \/ c = CGet Cached KGateway ns n.

(** The kinds both providers watch. *)
Class WatchedByAll `{V : Vendor} (watches : kind -> option (ObjectMeta -> M (list Request))) : Prop :=
  { watched_by_all k : In k [KService; KConfigMap; KMCPServer; KGateway] -> is_Some (watches k) }.

#[export] Instance httproute_watched `{V : Vendor} : WatchedByAll httprouteWatches.
Proof. split. intros k Hk. repeat (destruct Hk as [<-|Hk]; [by eexists|]). destruct Hk. Qed.
#[export] Instance kuadrant_watched `{V : Vendor} : WatchedByAll kuadrantWatches.
Proof. split. intros k Hk. repeat (destruct Hk as [<-|Hk]; [by eexists|]). destruct Hk. Qed.

Section basics.
Context `{V : Vendor} {L : VendorLaws V}.
Context (watches : kind -> option (ObjectMeta -> M (list Request))) {Hw : WatchedByAll watches}.
Context (req : Request).

Abbreviation W := (on_record watches req).

Lemma unwatched_on_record h c : unwatched c -> W h c.
Proof.
  intros Hu. split; [|by destruct c as [? [] | [] | [] | | | | | | | | | |]; cbn in *; intuition discriminate].
  destruct c; try done. cbn in *. intuition; subst; auto. right. apply watched_by_all. cbn. auto.
Qed.

Lemma watched_on_record rd k ns n h : In k [KService; KConfigMap; KMCPServer; KGateway] ->
  recorded req h (CGet rd k ns n) -> W h (CGet rd k ns n).
Proof. intros Hk Hr. split; [right; by apply watched_by_all|done]. Qed.

End basics.

(** A call of which no record is asked, and a read of something on record. *)
Ltac free_call := apply (unwatched_on_record _); cbn; auto 6.
Ltac watched_call := apply (watched_on_record _); [cbn; by auto 6|].

Section record.
Context `{V : Vendor} {L : VendorLaws V}.
Context (watches : kind -> option (ObjectMeta -> M (list Request))) {Hw : WatchedByAll watches}.
Context (req : Request).

Abbreviation W := (on_record watches req).

Lemma indexed_mono h h' k v : incl h h' -> indexed req h k v -> indexed req h' k v.
Proof.
  intros Hi [(b & Hb & Ha)|(base & m & b & Hb & Ha)]; [left|right; eauto 6].
  exists b. split; [by eapply binding_seen_mono|done].
Qed.

Lemma server_read_mono h h' srv : incl h h' -> server_read req h srv -> server_read req h' srv.
Proof. intros Hi (b & Hb & Hs). exists b. split; [by eapply binding_seen_mono|by apply Hi]. Qed.

(** A part of the pass that makes only calls of one sort, then the rest. *)
Lemma record_calls {A} (P : Call -> Prop) (m : M A) s h :
  mcalls P m -> (forall h' c, incl h h' -> P c -> W h' c) -> guard W h (m s).
Proof.
  intros Hm HP. specialize (Hm s). revert h HP. induction (m s) as [a|c k IH]; intros h HP; cbn in *; [done|].
  destruct Hm as [Hc Hk]. split; [apply HP; [apply incl_refl|done]|]. intros r. apply IH; [done|].
  intros h' c' Hi. apply HP. intros x Hx. apply Hi. by right.
Qed.

Lemma record_part {A B} (P : Call -> Prop) (m : M A) (f : A -> M B) s h :
  mcalls P m -> (forall h' c, incl h h' -> P c -> W h' c) ->
  (forall a h' s', incl h h' -> guard W h' (f a s')) -> guard W h ((m ≫= f) s).
Proof.
  intros Hm HP Hf. apply guard_bind_hist; [by eapply record_calls|]. intros tr [a s'] _. apply Hf. by apply incl_appr, incl_refl.
Qed.

Lemma record_unwatched {A B} (m : M A) (f : A -> M B) s h :
  mcalls unwatched m -> (forall a h' s', incl h h' -> guard W h' (f a s')) -> guard W h ((m ≫= f) s).
Proof. intros Hm. apply (record_part _ _ _ _ _ Hm). intros h' c _. apply (unwatched_on_record _). Qed.

(** Once the Gateway is recorded, it may be read. *)
Lemma gateway_on_record h ns n : indexed req h AnnotationGatewayRef (RefKey ns n) ->
  forall h' c, incl h h' -> gateway_only ns n c -> W h' c.
Proof. intros Hix h' c Hi [?| ->]; [by apply (unwatched_on_record _)|]. watched_call. by eapply indexed_mono. Qed.

(** *** The shared steps *)

Lemma Ensure_unwatched b d : mcalls unwatched (EnsureBindingAnnotations b d).
Proof. unfold EnsureBindingAnnotations. by calls_tac. Qed.
Lemma UpdateBindingStatus_unwatched b st re msg url : mcalls unwatched (UpdateBindingStatus b st re msg url).
Proof. unfold UpdateBindingStatus. by calls_tac. Qed.
Lemma deleteStale_unwatched k `{O : Owned k} b : k = KHTTPRoute \/ k = KRegistration -> mcalls unwatched (deleteStale k b).
Proof. intros Hk. unfold deleteStale. calls_tac. destruct Hk as [-> | ->]; cbn; by auto 6. Qed.
Lemma Endpoint_unwatched srv : mcalls unwatched (ResolveServiceEndpoint Direct srv).
Proof. unfold ResolveServiceEndpoint, resolveServicePort. calls_tac; cbn; by auto 6. Qed.

Lemma annotation_set b k v :
  annotation (with_mgb_meta (with_annotations (Some (({[ k := v ]} : gmap string string) ∪ view (om_annotations (mgb_meta b)))) (mgb_meta b)) b) k = v.
Proof. unfold annotation, mget. cbn. by rewrite lookup_union, lookup_singleton_eq, union_Some_l. Qed.

Lemma record_Ensure {B} b k v (f : result MCPGatewayBinding -> M B) s h :
  binding_seen req h b ->
  (forall b' h' s', incl h h' -> binding_seen req h' b' -> indexed req h' k v -> guard W h' (f (Ok b') s')) ->
  (forall e h' s', guard W h' (f (Err e) s')) ->
  guard W h ((EnsureBindingAnnotations b {[ k := v ]} ≫= f) s).
Proof.
  intros Hb Hok Herr. unfold EnsureBindingAnnotations. rewrite map_to_list_singleton. cbn [existsb]. rewrite orb_false_r.
  case_bool_decide as E; cbn [negb].
  - apply (Hok b h s); [apply incl_refl|done|]. left. eauto.
  - apply guard_call; [free_call|]. intros [b'|e]; [|apply Herr]. apply Hok; [apply incl_tl, incl_refl|right; do 2 eexists; by left|].
    right. do 3 eexists. split; [by left|]. apply annotation_set.
Qed.

Lemma record_Backend {B} b srv (f : result (MCPGatewayBinding * ServiceEndpoint * option error) -> M B) s h :
  binding_seen req h b ->
  (forall b' ep er h' s', incl h h' -> binding_seen req h' b' -> ep_name ep = serviceNameFor srv ->
     indexed req h' AnnotationServiceRef (RefKey (om_namespace (srv_meta srv)) (serviceNameFor srv)) -> guard W h' (f (Ok (b', ep, er)) s')) ->
  (forall e h' s', guard W h' (f (Err e) s')) ->
  guard W h ((ResolveAndRecordBackendService b srv ≫= f) s).
Proof.
  intros Hb Hok Herr. unfold ResolveAndRecordBackendService. apply guard_bind_assoc, guard_bind_mwp.
  { eapply record_calls; [apply Endpoint_unwatched|]. intros h' c _. apply (unwatched_on_record _). }
  eapply mwp_mono; [apply mwp_ResolveServiceEndpoint_name|]. intros tr [ep er] s1 [Hep ->]. cbn in Hep.
  apply guard_bind_assoc, record_Ensure; [eapply binding_seen_mono; [|exact Hb]; by apply incl_appr, incl_refl| |intros e h2 s2; apply Herr].
  intros b' h2 s2 Hi2 Hb2 Hix. cbn. rewrite Hep in Hix. apply Hok; [|done..]. eapply incl_tran; [|exact Hi2]. by apply incl_appr, incl_refl.
Qed.

(** Applying an object whose spec is on record. *)
Lemma record_createOrUpdate k `{O : Owned k} `{!OwnedLaws k} b (o : obj k) s h :
  k = KHTTPRoute \/ k = KRegistration ->
  (forall h' o', incl h h' -> spec_of o' = spec_of o -> W h' (CCreate k o') /\ W h' (CUpdate k o')) ->
  guard W h (createOrUpdate k b o s).
Proof.
  intros Hk HW. unfold createOrUpdate. destruct (bindingController b (meta_of k o)) as [m|e]; [|done].
  apply guard_call; [free_call; by destruct Hk as [-> | ->]; auto|]. intros [ex|e].
  - destruct (bindingController b (meta_of k ex)) as [m'|e']; [|done]. destruct (_ || _); [|done].
    split; [|by intros []]. apply HW; [apply incl_tl, incl_refl|apply spec_set_spec].
  - destruct (IsNotFound e); [|done]. split; [|by intros []]. apply HW; [apply incl_tl, incl_refl|apply spec_set_meta].
Qed.

Lemma route_on_record h g n section hosts path ep srv :
  server_read req h srv -> ep_name ep = serviceNameFor srv ->
  indexed req h AnnotationServiceRef (RefKey (om_namespace (srv_meta srv)) (serviceNameFor srv)) ->
  backends_indexed req h (routeSpec g n section hosts path ep).
Proof. intros Hs He Hi. exists srv. split; [done|]. split; [by repeat constructor|done]. Qed.

Lemma record_route {B} b (o : HTTPRoute) g n section hosts path ep srv (f : option error -> M B) s h :
  route_spec o = routeSpec g n section hosts path ep ->
  server_read req h srv -> ep_name ep = serviceNameFor srv ->
  indexed req h AnnotationServiceRef (RefKey (om_namespace (srv_meta srv)) (serviceNameFor srv)) ->
  (forall e h' s', incl h h' -> guard W h' (f e s')) ->
  guard W h ((createOrUpdate KHTTPRoute b o ≫= f) s).
Proof.
  intros Hsp Hsrv Hep Hix Hf. apply guard_bind_hist; [|intros tr [e s'] _; apply Hf; by apply incl_appr, incl_refl].
  refine (record_createOrUpdate KHTTPRoute b o s h (or_introl eq_refl) _). intros h' o' Hi Ho. change (route_spec o' = route_spec o) in Ho.
  split; (split; [done|]); cbn; rewrite Ho, Hsp;
    (apply (route_on_record _ _ _ _ _ _ _ srv); [by eapply server_read_mono|done|by eapply indexed_mono]).
Qed.

End record.

(** ** The passes *)

Section httproute.
Context `{V : Vendor} {L : VendorLaws V}.
Context (req : Request).

Abbreviation W := (on_record httprouteWatches req).

Lemma httproute_setNotRegistered_unwatched b msg : mcalls unwatched (HttpRoute.setNotRegistered b msg).
Proof.
  unfold HttpRoute.setNotRegistered, deleteStaleHTTPRoute. apply mcalls_bind; [by apply deleteStale_unwatched; left|].
  intros [e|]; [done|apply UpdateBindingStatus_unwatched].
Qed.

Lemma resolveGatewayRef_unwatched r b data : mcalls unwatched (resolveGatewayRef r b data).
Proof.
  unfold resolveGatewayRef. cbn zeta.
  repeat (lazymatch goal with |- context [if ?c then _ else _] => destruct c end;
    [apply mcalls_bind; [apply httproute_setNotRegistered_unwatched|done]|]). done.
Qed.

Lemma publishRoute_gateway b data g n path : mcalls (gateway_only n g) (publishRoute b data g n path).
Proof.
  assert (Hu : forall A (m : M A), mcalls unwatched m -> mcalls (gateway_only n g) m) by (intros; eapply mcalls_mono; [by left|done]).
  unfold publishRoute, publishStatus, resolvePublicHost, GatewayAddress, SchemeFromAcceptedRoute.
  assert (Hs : forall route ps, mcalls (gateway_only n g) (schemeFromParents route g n ps)).
  { intros route. induction ps as [|p ps IH]; cbn [schemeFromParents]; [done|]. calls_tac; try apply IH; by right. }
  calls_tac; try (apply Hu, UpdateBindingStatus_unwatched); try apply Hs; try (by right); left; cbn; by auto.
Qed.

Lemma httproute_record r : mguard W (HttpRoute.Reconcile r req).
Proof.
  intros s h. unfold HttpRoute.Reconcile. apply guard_call; [free_call|]. intros [b|e]; [|by destruct (IsNotFound e)].
  set (h0 := Ev _ _ :: h). assert (Hb : binding_seen req h0 b) by (left; by left).
  assert (Hrefuse : forall msg h1 s1, guard W h1 ((e ← HttpRoute.setNotRegistered b msg; mret (noRequeue, e)) s1)).
  { intros msg h1 s1. apply (record_unwatched _); [apply httproute_setNotRegistered_unwatched|done]. }
  unfold HttpRoute.reconcileBinding. destruct (negb _); [done|].
  apply guard_call; [watched_call; by exists b|]. intros [srv|e]; [|by destruct (IsNotFound e)].
  destruct (_ == ""); [apply Hrefuse|]. apply guard_call; [watched_call; exists b; split_and!; [|done..]; eapply binding_seen_mono; [apply incl_tl, incl_refl|done]|].
  intros [cm|e]; [|destruct (negb _); [done|apply Hrefuse]].
  apply (record_unwatched _); [apply resolveGatewayRef_unwatched|]. intros [refErr|[g n]] h1 s1 Hi1; [done|].
  assert (Hb1 : binding_seen req h1 b).
  { eapply binding_seen_mono; [|exact Hb]. eapply incl_tran; [|exact Hi1]. do 2 apply incl_tl. apply incl_refl. }
  assert (Hsrv1 : server_read req h1 srv).
  { exists b. split; [done|]. apply Hi1. right. by left. }
  unfold routeBinding. apply (record_Ensure _); [exact Hb1| |done]. intros b1 h2 s2 Hi2 Hb2 Hgw. cbn.
  apply (record_Backend _); [exact Hb2| |done]. intros b2 ep [e|] h3 s3 Hi3 _ Hep Hsvc; [done|]. cbn zeta.
  destruct (if _ : bool then ValidateHostname _ else None) as [err|].
  { apply (record_unwatched _); [apply httproute_setNotRegistered_unwatched|done]. }
  unfold applyHTTPRoute.
  eapply (record_route _); [reflexivity|eapply server_read_mono, Hsrv1; by eapply incl_tran|exact Hep|exact Hsvc|]. intros [e|] h4 s4 Hi4; [done|].
  eapply record_calls; [apply publishRoute_gateway|]. apply (gateway_on_record _).
  eapply indexed_mono; [|exact Hgw]. by eapply incl_tran.
Qed.

End httproute.

Section kuadrant.
Context `{V : Vendor} {L : VendorLaws V}.
Context (req : Request).

Abbreviation W := (on_record kuadrantWatches req).

Lemma kuadrant_setNotRegistered_unwatched b msg : mcalls unwatched (Kuadrant.setNotRegistered b msg).
Proof.
  unfold Kuadrant.setNotRegistered, deleteStaleResources.
  apply mcalls_bind; [apply mcalls_bind; [by apply deleteStale_unwatched; left|]|].
  - intros [e|]; [done|]. by apply deleteStale_unwatched; right.
  - intros [e|]; [done|apply UpdateBindingStatus_unwatched].
Qed.

Lemma kuadrant_refuse_record {A} b msg (x : option error -> A) s h :
  guard W h ((e ← Kuadrant.setNotRegistered b msg; mret (x e) : M A) s).
Proof. apply (record_unwatched _); [apply kuadrant_setNotRegistered_unwatched|done]. Qed.

Lemma status_record {A} b st re msg url (x : option error -> A) s h :
  guard W h ((e ← UpdateBindingStatus b st re msg url; mret (x e) : M A) s).
Proof. apply (record_unwatched _); [apply UpdateBindingStatus_unwatched|done]. Qed.

Lemma checkPrefixConflict_unwatched b cfg : mcalls unwatched (checkPrefixConflict b cfg).
Proof. unfold checkPrefixConflict. by calls_tac. Qed.

(** The four reads of a Gateway. *)
Lemma discoverWildcardListener_gateway g n : mcalls (gateway_only n g) (discoverWildcardListener g n).
Proof.
  unfold discoverWildcardListener. apply mcalls_bind; [by apply mcalls_call; right|]. intros [gw|e]; [|destruct (IsNotFound e); calls_tac].
  destruct (wildcardListeners gw) as [|x [|]]; calls_tac.
Qed.
Lemma resolveRouteHostname_gateway b srv cfg g n sn : mcalls (gateway_only n g) (resolveRouteHostname b srv cfg g n sn).
Proof. unfold resolveRouteHostname, resolveHostname, findGatewayListener, checkListenerHostnameGuard. calls_tac; by right. Qed.
Lemma resolvePublicEndpoint_gateway ext :
  mcalls (gateway_only (targetNamespace ext) (tr_name (ext_targetRef (ext_spec ext)))) (resolvePublicEndpoint ext).
Proof. unfold resolvePublicEndpoint, schemeFromListener, listenerHostname. calls_tac; by right. Qed.

Lemma publish_record b cfg ext w s h :
  indexed req h AnnotationGatewayRef (RefKey (targetNamespace ext) (tr_name (ext_targetRef (ext_spec ext)))) ->
  guard W h (publish b cfg ext (tr_name (ext_targetRef (ext_spec ext))) (targetNamespace ext) w s).
Proof.
  intros Hix. unfold publish. apply guard_call; [free_call|]. intros [route|e]; [|done].
  destruct (negb _); [apply status_record|]. apply guard_call; [free_call|]. intros [reg|e]; [|done].
  destruct (negb _); [apply status_record|]. unfold publishEndpoint.
  eapply record_part; [apply resolvePublicEndpoint_gateway|apply (gateway_on_record _); eapply indexed_mono; [|exact Hix]; do 2 apply incl_tl; apply incl_refl|].
  intros [[ep|]|e] h' s' _; apply status_record.
Qed.

Lemma routeAndRegister_record b srv cfg ext sn s h : binding_seen req h b -> server_read req h srv ->
  indexed req h AnnotationGatewayRef (RefKey (targetNamespace ext) (tr_name (ext_targetRef (ext_spec ext)))) ->
  guard W h (routeAndRegister b srv cfg ext (tr_name (ext_targetRef (ext_spec ext))) (targetNamespace ext) sn s).
Proof.
  intros Hb Hsrv Hix. unfold routeAndRegister. eapply record_part; [apply resolveRouteHostname_gateway|by apply (gateway_on_record _)|].
  intros [[host w]|e] h1 s1 Hi1; [|apply kuadrant_refuse_record]. unfold reconcileHTTPRoute.
  apply guard_bind_assoc, (record_Backend _); [by eapply binding_seen_mono| |done]. intros b2 ep [e|] h2 s2 Hi2 _ Hep Hsvc; [done|].
  apply guard_bind_assoc.
  eapply (record_route _); [reflexivity|eapply server_read_mono, Hsrv; by eapply incl_tran|exact Hep|exact Hsvc|]. intros [e|] h3 s3 Hi3; [done|].
  refine (record_unwatched _ _ (checkPrefixConflict _ _) _ _ _ (checkPrefixConflict_unwatched _ _) _). intros [msg|e] h4 s4 Hi4; [|done].
  case_bool_decide; cbn [negb]; [|apply kuadrant_refuse_record].
  apply guard_bind_hist; [apply (record_createOrUpdate _); [apply _|by right|done]|].
  intros tr [[e|] s'] _; [done|]. apply publish_record. eapply indexed_mono; [|exact Hix].
  apply incl_appr. do 3 (eapply incl_tran; [eassumption|]). exact Hi4.
Qed.

(** From the extension as read. *)
Lemma reconcileExtension_record b srv cfg ext s h : binding_seen req h b -> server_read req h srv -> guard W h (reconcileExtension b srv cfg ext s).
Proof.
  intros Hb Hsrv. unfold reconcileExtension. apply (record_Ensure _); [exact Hb| |done]. intros b1 h1 s1 Hi1 Hb1 Hix.
  destruct (negb _); [apply status_record|].
  eapply record_part; [|by apply (gateway_on_record _)|].
  - destruct (_ == ""); [apply discoverWildcardListener_gateway|done].
  - intros [sn|e] h2 s2 Hi2; [|apply kuadrant_refuse_record].
    apply routeAndRegister_record; [by eapply binding_seen_mono|eapply server_read_mono, Hsrv; by eapply incl_tran|by eapply indexed_mono].
Qed.

(** The ConfigMap is the one the spec names; the extension is on record once it is known. *)
Lemma parseConfig_record {B} r b srv (f : option error + MCPGatewayBinding * parsedConfig -> M B) s h :
  binding_seen req h b ->
  (forall e h' s', guard W h' (f (inl e) s')) ->
  (forall b' cfg h' s', incl h h' -> binding_seen req h' b' ->
     indexed req h' AnnotationExtensionRef (RefKey (pc_extensionNamespace cfg) (pc_extensionName cfg)) ->
     guard W h' (f (inr (b', cfg)) s')) ->
  guard W h ((parseConfig r b srv ≫= f) s).
Proof.
  intros Hb Hstop Hok.
  assert (Hrefuse : forall msg h1 s1, guard W h1 (((e ← Kuadrant.setNotRegistered b msg; mret (inl e)) ≫= f) s1)).
  { intros msg h1 s1. apply guard_bind_assoc, (record_unwatched _); [apply kuadrant_setNotRegistered_unwatched|]. intros e h2 s2 _. apply Hstop. }
  unfold parseConfig. cbn zeta. destruct (_ == ""); [apply Hrefuse|].
  apply guard_bind_assoc, guard_call; [watched_call; by exists b|]. intros [cm|e]; [|destruct (negb _); [apply Hstop|apply Hrefuse]].
  repeat (lazymatch goal with |- context [if ?c then _ else _] => destruct c end; [apply Hrefuse|]).
  apply guard_bind_assoc, (record_Ensure _); [|intros b' h' s' Hi Hb' Hix; apply Hok; [by eapply incl_tran, Hi; apply incl_tl, incl_refl|done..]|intros e h' s'; apply Hstop].
  eapply binding_seen_mono; [|exact Hb]. apply incl_tl, incl_refl.
Qed.

Lemma kuadrant_record r : mguard W (Kuadrant.Reconcile r req).
Proof.
  intros s h. unfold Kuadrant.Reconcile. apply guard_call; [free_call|]. intros [b|e]; [|by destruct (IsNotFound e)].
  set (h0 := Ev _ _ :: h). assert (Hb : binding_seen req h0 b) by (left; by left).
  unfold Kuadrant.reconcileBinding. destruct (negb _); [done|].
  apply guard_call; [watched_call; by exists b|]. intros [srv|e]; [|by destruct (IsNotFound e)].
  apply parseConfig_record; [eapply binding_seen_mono; [apply incl_tl, incl_refl|exact Hb]|done|].
  intros b' cfg h1 s1 Hi1 Hb1 Hix. apply guard_call; [split; [by right|exact Hix]|]. intros [ext|e].
  - apply reconcileExtension_record; [eapply binding_seen_mono; [apply incl_tl, incl_refl|done]|].
    exists b. split; [left; right; apply Hi1; right; by left|right; apply Hi1; by left].
  - destruct (IsNotFound e); [apply kuadrant_refuse_record|done].
Qed.

End kuadrant.

(** ** What the watches find *)

Section wakes.
Context `{V : Vendor}.

(** The binding names the object: by annotation across namespaces, or in its spec for
    objects of its own namespace. *)
Definition refers (k : kind) (b : MCPGatewayBinding) (ns n : string) : Prop :=
  match k with
  | KGateway => annotation b AnnotationGatewayRef = RefKey ns n
  | KExtension => annotation b AnnotationExtensionRef = RefKey ns n
  | KService => annotation b AnnotationServiceRef = RefKey ns n
  | KConfigMap => mgb_configRef (mgb_spec b) = n
  | KMCPServer => mgb_mcpServerRef (mgb_spec b) = n
  | _ => False
  end.

(** Where bindings that name an object of the kind are looked for. *)
Definition scope (k : kind) (ns : string) : option string :=
  match k with KGateway | KExtension => None | _ => Some ns end.

(** The mapping lists the bindings of the scope once and answers exactly those of the
    provider that name the object; none when the list fails. *)
Definition wakes (p : string) (k : kind) (handler : ObjectMeta -> M (list Request)) : Prop :=
  forall o s tr reqs s', runs (handler o s) tr (reqs, s') ->
  s' = s /\ exists a, tr = [Ev (CList KBinding (scope k (om_namespace o))) a] /\
  match a with
  | Err _ => reqs = []
  | Ok items => forall q, In q reqs <->
      exists b, In b items /\ bindingKey b = q /\ mgb_provider (mgb_spec b) = p /\ refers k b (om_namespace o) (om_name o)
  end.

Lemma selectBindings_spec p (P : MCPGatewayBinding -> Prop) (sel : MCPGatewayBinding -> bool) items q :
  (forall b, sel b = true <-> P b) ->
  In q (selectBindings p sel items) <-> exists b, In b items /\ bindingKey b = q /\ mgb_provider (mgb_spec b) = p /\ P b.
Proof.
  intros HP. unfold selectBindings. rewrite in_map_iff. setoid_rewrite filter_In.
  split; intros (b & H); exists b; rewrite andb_true_iff, bool_decide_eq_true, HP in *; tauto.
Qed.

(** A mapping that lists and selects. *)
Lemma wakes_select p k handler (sel : ObjectMeta -> MCPGatewayBinding -> bool) :
  (forall o, handler o = got ← call (CList KBinding (scope k (om_namespace o)));
                         match got with Err _ => mret [] | Ok items => mret (selectBindings p (sel o) items) end) ->
  (forall o b, sel o b = true <-> refers k b (om_namespace o) (om_name o)) -> wakes p k handler.
Proof.
  intros Hh Hsel o s tr reqs s' Hr. rewrite Hh in Hr.
  destruct Hr as (a & tr' & -> & Hr). destruct a as [items|e]; destruct Hr as [-> [= -> ->]]; (split; [done|]; eexists; split; [done|]); [|done].
  intros q. by apply selectBindings_spec.
Qed.

Lemma httproute_wakes k handler : httprouteWatches k = Some handler -> wakes HttpRoute.ProviderName k handler.
Proof.
  destruct k; try done; intros [= <-]; (eapply wakes_select; [by intros o|]); intros o b; apply bool_decide_eq_true.
Qed.

Lemma kuadrant_wakes k handler : kuadrantWatches k = Some handler -> wakes Kuadrant.ProviderName k handler.
Proof.
  destruct k; try done; intros [= <-]; (eapply wakes_select; [by intros o|]); intros o b; apply bool_decide_eq_true.
Qed.

End wakes.

(** ** Watch completeness *)

(** C25: A provider misses no event of an object it gets by name: such an object is the
    binding, one it owns, or of a kind with a watch; each Gateway, extension, ConfigMap and
    MCPServer is read only after the binding was seen with the reference, or the reference
    was recorded in its annotations; a route is sent only to the Service of the MCPServer
    the binding names, once that is recorded under the server's namespace and its name; and
    the watch of a kind lists the bindings once, where the reference can be, and answers
    exactly those of the provider that name the object.  Lists (of the registrations, for
    prefix conflicts) are not among these reads. *)
Theorem provider_reads_watched `{V : Vendor} {L : VendorLaws V} req p pass watches s tr res s' tr1 c a tr2 :
  controller req p pass watches -> runs (pass s) tr (res, s') -> tr = tr1 ++ Ev c a :: tr2 ->
  reads_watched watches c /\ recorded req (rev tr1) c /\
  forall k handler, watches k = Some handler -> wakes p k handler.
Proof.
  intros [r|r] Hr Htr; (apply and_assoc; split; [|]).
  - exact (mguard_runs _ _ _ _ _ _ _ _ _ (httproute_record req r) Hr Htr).
  - apply httproute_wakes.
  - exact (mguard_runs _ _ _ _ _ _ _ _ _ (kuadrant_record req r) Hr Htr).
  - apply kuadrant_wakes.
Qed.

Lemma kuadrantTrace_gateway : exists tr1 a tr2,
  kuadrantTrace = tr1 ++ Ev (CGet Cached KGateway "edge" "public") a :: tr2.
Proof. eexists [_; _; _; _; _; _], _, _. reflexivity. Qed.

(** The Gateway of the sample pass is read once its reference is on record, and its
    events are mapped back by that reference. *)
Lemma provider_reads_watched_witness :
  exists tr1 a tr2, fst (run_in kuadrantWorld kuadrantPass emptyState) = tr1 ++ Ev (CGet Cached KGateway "edge" "public") a :: tr2 /\
    recorded ("ns", "srv-gateway-binding") (rev tr1) (CGet Cached KGateway "edge" "public") /\
    wakes Kuadrant.ProviderName KGateway (@Kuadrant.findBindingsForGateway).
Proof.
  destruct kuadrantTrace_gateway as (tr1 & a & tr2 & Htr). exists tr1, a, tr2.
  pose proof (run_in_runs kuadrantWorld kuadrantPass emptyState) as Hrun. rewrite kuadrantTrace_run in *.
  destruct (snd (run_in kuadrantWorld kuadrantPass emptyState)) as [res s'].
  destruct (@provider_reads_watched modelVendor modelVendor_laws _ _ _ _ emptyState _ res s' tr1 _ a tr2
    (@kuadrant_controller modelVendor ("ns", "srv-gateway-binding") allowEdge) Hrun Htr) as (_ & Hrec & Hw).
  split; [exact Htr|]. split; [exact Hrec|]. exact (Hw KGateway _ eq_refl).
Defined.
