(* ===== verification/Interference.v ===== *)
(** * The controllers beside other clients

    Whole passes against [SharedStore]: whatever others write between the calls and
    however stale the caches are, a pass changes only objects it may change as they are at
    that moment, because updates name the version that was checked, and status writes and
    patches leave the rest of the object.  The deletions that
    name none are the exception, and the scenarios at the end show what they can hit. *)

From S2P Require Import Prelude K8s GatewayApi ApiAlpha ApiBeta StatusAC Interact Conditions Ownership Service Gateway NetworkPolicy ConfigHash Deployment Handshake Reconcile Lifecycle SharedStore Providers ProviderSafety HttpRoute Kuadrant ProviderWatches.

(** ** The MCPServer reconciler *)

(** Only the version differs. *)
Definition same_but_version (m m' : ObjectMeta) : Prop :=
  m' = stamped (om_namespace m, om_name m) (om_uid m) (om_resourceVersion m') m.

(** The MCPServer [new] is [cur] with another status. *)
Definition restatused_server (cur new : MCPServer) : Prop :=
  srv_spec new = srv_spec cur /\ same_but_version (srv_meta cur) (srv_meta new).

(** What a step may do to the object under a key: nothing, or
    - create one of a managed kind in the server's namespace where there was none;
    - replace or remove one of a managed kind that the server, as read, may manage;
    - set the status of the MCPServer, and nothing else of it;
    - remove the binding under a name under which a manageable one was read. *)
Definition checked_change `{V : Vendor} (req : Request) (s : Step) (k : kind) (key : Key) : Prop :=
  exists srv, In srv (past (before s) KMCPServer) /\ key_of KMCPServer srv = req /\
    match live (before s) k !! key with
    | None => managed_kind k = true /\ fst key = fst req
    | Some cur =>
        managed_kind k = true /\ manageable (meta_of k cur) srv \/
        k = KMCPServer /\ key = req /\
          (exists cur new, live (before s) KMCPServer !! key = Some cur /\ live (after s) KMCPServer !! key = Some new /\
             restatused_server cur new) \/
        k = KBinding /\ exists b pre a, ev s = Ev (CDelete KBinding b pre) a /\ key_of KBinding b = key /\ manageable (mgb_meta b) srv
    end.

Definition checked `{V : Vendor} (req : Request) (s : Step) : Prop :=
  forall k key, live (after s) k !! key <> live (before s) k !! key -> checked_change req s k key.

Section reconciler.
Context `{V : Vendor} {L : VendorLaws V}.
Context (r : MCPServerReconciler) (req : Request).

Lemma no_write_effect c st st' : no_write c -> effect_of c st st' -> st' = st.
Proof. intros Hn [?|He]; [done|]. by destruct c. Qed.

(** The version that preconditions pin. *)
Lemma pinned_version m m' : meets (Some (pinned m)) m' = true -> om_resourceVersion m' = om_resourceVersion m.
Proof. cbn. intros H. by bool_to_prop. Qed.

(** Rewritten with the metadata it had, an object has another version. *)
Lemma rewritten_version k key cur o st st' : coherent st -> rewritten k key cur o st st' -> meta_of k o = meta_of k cur ->
  exists new, live st' k !! key = Some new /\ same_but_version (meta_of k cur) (meta_of k new) /\ exists m, new = with_meta_of k m o.
Proof.
  intros Hc (Hl & v & Hl') Hm. exists (with_meta_of k (stamped key (om_uid (meta_of k cur)) v (meta_of k o)) o). split; [done|].
  split; [|by eexists]. rewrite meta_with_meta, Hm. apply (coherent_live _ Hc) in Hl as [_ <-]. done.
Qed.

Lemma managed_step s srv h c a : ev s = Ev c a ->
  live_before req h srv -> managed_write srv h c -> effect_of c (before s) (after s) ->
  coherent (before s) -> reads_known h (before s) -> checked req s.
Proof.
  intros Hev [Hsrv _] Hw [Heq|He] Hc Hr k key Hne; [by rewrite Heq in Hne|].
  destruct (Hr _ _ _ _ _ Hsrv) as [Hin Hkey]. rewrite <- surjective_pairing in Hkey.
  assert (Hns : om_namespace (srv_meta srv) = fst req) by (by rewrite <- Hkey).
  exists srv. split; [done|]. split; [done|]. destruct c; try done.
  - destruct He as [Ho Hl]. destruct (Ho _ _ Hne) as [-> ->]. rewrite Hl. destruct Hw as (? & Hn & _). split; [done|].
    cbn. by rewrite Hn.
  - destruct He as [Ho Hl]. destruct (Ho _ _ Hne) as [-> ->]. destruct Hw as (? & o0 & Hrd & Hman & Hsv).
    rewrite (replaces_read _ _ _ _ _ Hc Hr Hrd Hsv Hl). by left.
  - destruct He as (Ho & cur & Hl & Hm). destruct (Ho _ _ Hne) as [-> ->]. rewrite Hl.
    destruct Hw as ([[-> ->]| ->] & Hrd & Hman).
    + left. split; [done|]. destruct Hrd as (rd & ns & name & Hrd). apply Hr in Hrd as [Hrd _].
      replace cur with o; [done|]. apply (coherent_unique _ Hc KService); [done|by apply (coherent_live _ Hc) in Hl as [? _]|].
      symmetry. by apply pinned_version.
    + right. right. split; [done|]. exists o, pre, a. done.
  - destruct He as (Ho & cur & x & Hrw). destruct (Ho _ _ Hne) as [-> ->]. destruct Hw as [-> ->].
    destruct (rewritten_version _ _ _ _ _ _ Hc Hrw (meta_with_status KMCPServer x cur)) as (new & Hn & Hv & m & ->).
    pose proof (proj1 Hrw) as Hl. rewrite Hl. right. left. split; [done|]. split; [by rewrite <- Hkey|]. exists cur, (with_meta_of KMCPServer m (with_status_of KMCPServer x cur)).
    split; [done|]. split; [done|]. by split.
Qed.

(** C8: No lost updates, no trespass: whatever other clients write between the calls of a
    reconcile, however stale its caches are and whichever answers are lost, each change it
    makes to the store is for an MCPServer that was read under the request's name, and either
    creates an object of a managed kind in its namespace where there was none, or replaces
    or removes one that at that very moment this MCPServer may manage, or sets the status
    of the MCPServer and leaves its metadata and spec as they are at that moment, or deletes
    the binding under a name under which a manageable one was read. *)
Theorem reconcile_changes_checked oracle s st :
  coherent st -> Forall (checked req) (steps_of oracle (Reconcile.Reconcile r req) s st).
Proof.
  intros Hst. eapply Forall_impl; [eapply (steps_guard (reconcile_discipline req)); [apply Reconcile_discipline|done]|].
  intros step (h & Hstep & Hc & Hr & _ & _). revert Hstep. destruct (ev step) as [c a] eqn:Hev. intros [[Hf|(srv & Hl & Hw & _)] He].
  - apply no_write_effect in He; [|by destruct c as [[] []| | | | | | | | | | | |]]. intros k key Hne. by rewrite He in Hne.
  - by eapply managed_step.
Qed.

End reconciler.

(** ** The providers *)

(** The binding [new] is [cur] with other index annotations, or with another status. *)
Definition reannotated (cur new : MCPGatewayBinding) : Prop :=
  mgb_spec new = mgb_spec cur /\ mgb_status new = mgb_status cur /\
  same_but_version (with_annotations (om_annotations (mgb_meta new)) (mgb_meta cur)) (mgb_meta new) /\
  forall k, ~ In k index_keys -> mget (om_annotations (mgb_meta new)) k = mget (om_annotations (mgb_meta cur)) k.

Definition restatused_binding (cur new : MCPGatewayBinding) : Prop :=
  mgb_spec new = mgb_spec cur /\ same_but_version (mgb_meta cur) (mgb_meta new).

(** What a step of a provider's pass may do, only to objects under the name of the binding it
    is for: create a route or registration where there was none; replace one that is
    controlled by no owner but a binding of that name at that moment; change the index
    annotations or the status of the binding; or delete under the name of a route or
    registration that was read as controlled by the binding. *)
Definition provider_checked_change (req : Request) (s : Step) (k : kind) (key : Key) : Prop :=
  key = req /\
  match live (before s) k !! key with
  | None => k = KHTTPRoute \/ k = KRegistration
  | Some cur =>
      (k = KHTTPRoute \/ k = KRegistration) /\
        (exists b, In b (past (before s) KBinding) /\ key_of KBinding b = req /\ adoptable b (meta_of k cur)) \/
      k = KBinding /\ (exists cur new, live (before s) KBinding !! key = Some cur /\ live (after s) KBinding !! key = Some new /\
        (reannotated cur new \/ restatused_binding cur new)) \/
      (k = KHTTPRoute \/ k = KRegistration) /\ exists o pre a b, ev s = Ev (CDelete k o pre) a /\ key_of k o = key /\
         In o (past (before s) k) /\ In b (past (before s) KBinding) /\ key_of KBinding b = req /\ IsControlledBy (meta_of k o) (mgb_meta b) = true
  end.

Definition provider_checked (req : Request) (s : Step) : Prop :=
  forall k key, live (after s) k !! key <> live (before s) k !! key -> provider_checked_change req s k key.

Section provider.
Context `{V : Vendor} {L : VendorLaws V}.
Context (req : Request) (D : list event -> forall k, obj k -> Prop) (J : list event -> MCPGatewayBinding -> string -> Prop).

(** The bindings a pass saw are versions there were of the one it is for. *)
Lemma binding_known h st b : reads_known h st -> patches_known h st -> obeyed (provider_write req D J) h ->
  binding_seen req h b -> In b (past st KBinding) /\ key_of KBinding b = req.
Proof.
  revert b. induction h as [|[c x] h IH]; intros b Hr Hp Hob Hb; [by destruct Hb as [[]|(? & ? & [])]|].
  assert (Hr' : reads_known h st) by (intros rd k ns n o Ho; apply (Hr rd k ns n o); by right).
  assert (Hp' : patches_known h st) by (intros k base m o Ho; apply (Hp k base m o); by right).
  destruct Hob as [Hc Hob]. destruct Hb as [H|(base & m & [H|H])].
  - apply Hr in H as [? Hkey]. split; [done|]. rewrite Hkey. by destruct req.
  - assert (exists base' m', c = CPatch KBinding base' m') as (base' & m' & ->) by (destruct c; try discriminate H; injection H as -> _ _ _; eauto).
    pose proof (f_equal (patched_of KBinding) H) as Hpo. rewrite patched_of_patch in Hpo. cbn in Hpo. destruct x as [x|e]; [|done].
    injection Hpo as -> ->. destruct (Hp KBinding base' m b (or_introl eq_refl)) as [Hin Hkey]. split; [done|].
    destruct Hc as (Hbase & Hm & _). apply (IH base') in Hbase as [_ Hbase]; [|done..]. rewrite Hkey, <- Hbase, Hm. done.
  - apply IH; [done..|]. right. eauto.
Qed.

Lemma merged_reannotated base m cur st st' key : coherent st -> reindexed base m ->
  rewritten KBinding key cur (merge_binding base m cur) st st' ->
  exists new, live st' KBinding !! key = Some new /\ reannotated cur new.
Proof.
  intros Hc (Hm & Hout & Hsub) (Hl & v & Hl'). eexists. split; [exact Hl'|]. apply (coherent_live _ Hc) in Hl as [_ <-].
  unfold merge_binding. set (A := merge_entries _ _ _). rewrite Hm. cbn. rewrite !merge_field_same, merge_entries_same. unfold reannotated. cbn.
  split; [by destruct (mgb_spec cur)|]. split; [done|]. split; [done|]. intros k Hk. by apply merge_entries_stay, Hout.
Qed.

Lemma provider_step s h c a : ev s = Ev c a ->
  (forall h k o, D h k o -> k = KHTTPRoute \/ k = KRegistration) ->
  provider_write req D J h c -> effect_of c (before s) (after s) ->
  coherent (before s) -> reads_known h (before s) -> patches_known h (before s) -> obeyed (provider_write req D J) h ->
  provider_checked req s.
Proof.
  intros Hev HD Hw [Heq|He] Hc Hr Hp Hob k key Hne; [by rewrite Heq in Hne|]. unfold provider_checked_change.
  assert (Hseen : forall b, binding_seen req h b -> In b (past (before s) KBinding) /\ key_of KBinding b = req) by (intros b; by apply binding_known).
  assert (Hnamed : forall b k (o : obj k), binding_seen req h b -> read_named h b k o -> In o (past (before s) k) /\ key_of k o = req).
  { intros b k' o Hb Ho. apply Hr in Ho as [? Hk]. split; [done|]. rewrite Hk. by apply Hseen in Hb as [_ <-]. }
  destruct c; try done.
  - destruct He as [Ho Hl]. destruct (Ho _ _ Hne) as [-> ->]. rewrite Hl. destruct Hw as (HDo & _ & b & Hb & _ & Hn & Hns).
    split; [|by eapply HD]. apply Hseen in Hb as [_ <-]. unfold key_of. by rewrite Hn, Hns.
  - destruct He as [Ho Hl]. destruct (Ho _ _ Hne) as [-> ->]. destruct Hw as (HDo & b & o0 & Hb & Hrd & Had & _ & Hsv & Hmeta).
    rewrite (replaces_read _ _ _ _ _ Hc Hr (read_named_before _ _ _ _ Hrd) Hsv Hl).
    split; [|left; split; [by eapply HD|]; exists b; destruct (Hseen _ Hb); by split].
    destruct (Hnamed _ _ _ Hb Hrd) as [_ <-]. unfold key_of. by rewrite Hmeta.
  - destruct He as (Ho & cur & Hl & _). destruct (Ho _ _ Hne) as [-> ->]. rewrite Hl. destruct Hw as (Hk & b & Hb & Hrd & Hctl).
    destruct (Hnamed _ _ _ Hb Hrd) as [Hin Hkey]. split; [done|]. right. right. split; [done|]. exists o, pre, a, b.
    destruct (Hseen _ Hb). done.
  - destruct k0; try done. destruct He as (Ho & cur & Hrw). destruct (Ho _ _ Hne) as [-> ->]. destruct Hw as [Hb Hre].
    destruct (merged_reannotated _ _ _ _ _ _ Hc Hre Hrw) as (new & Hn & Ha). pose proof (proj1 Hrw) as Hl. rewrite Hl.
    split; [|right; left; split; [done|]; exists cur, new; auto]. destruct (Hseen _ Hb) as [_ <-]. by rewrite (proj1 Hre).
  - destruct k0; try done. destruct He as (Ho & cur & x & Hrw). destruct (Ho _ _ Hne) as [-> ->]. destruct Hw as (b & Hb & Hrep & _).
    destruct (rewritten_version _ _ _ _ _ _ Hc Hrw (meta_with_status KBinding x cur)) as (new & Hn & Hv & m & ->).
    pose proof (proj1 Hrw) as Hl. rewrite Hl. split; [destruct (Hseen _ Hb) as [_ <-]; by rewrite Hrep|].
    right. left. split; [done|]. exists cur, (with_meta_of KBinding m (with_status_of KBinding x cur)). split; [done|]. split; [done|]. right. by split.
Qed.

End provider.

(** C13: The same for the providers, whatever others do: a pass changes only objects under the
    name of the binding it is for: it creates routes and registrations only where there is
    none, replaces only one that at that very moment is controlled by nobody but a binding
    of that name, changes of the binding itself only the index annotations or the status,
    everything else being left as it is at that moment, and deletes only routes and
    registrations, under the name of one that was read as controlled by the binding. *)
Theorem provider_changes_checked `{V : Vendor} {L : VendorLaws V} req p pass watches oracle s st :
  controller req p pass watches -> coherent st -> Forall (provider_checked req) (steps_of oracle pass s st).
Proof.
  intros [r|r] Hst; (eapply Forall_impl; [eapply steps_guard; [|exact Hst]|]).
  - apply (httproute_Reconcile_safe r req).
  - intros step (h & Hstep & Hc & Hr & Hp & Hob). revert Hstep. destruct (ev step) as [c a] eqn:Hev. intros [Hw He].
    eapply provider_step; try done. by intros h' [] o Ho; auto.
  - apply (kuadrant_Reconcile_safe r req).
  - intros step (h & Hstep & Hc & Hr & Hp & Hob). revert Hstep. destruct (ev step) as [c a] eqn:Hev. intros [Hw He].
    eapply provider_step; try done. by intros h' [] o Ho; auto.
Qed.

(** ** Concrete interleavings *)

Definition calm : Choice :=
  {| ch_others := []; ch_outcome := Served; ch_cached := 0; ch_admit := fun _ o => o; ch_uid := "new"; ch_finalizers := false;
     ch_answer := fun c => match c return resp c with
                           | CGet _ _ _ _ | CCreate _ _ | CUpdate _ _ | CListPods _ _ | CListMCPServers _ _ _ | CPatch _ _ _ | CList _ _ | CDial _ _ => Err stale
                           | CDelete _ _ _ | CApplyStatus _ _ _ | CUpdateStatus _ _ => None
                           | CNow => 0
                           | COut _ => tt
                           end |}.

(** Others write [l] before a call. *)
Definition after_others (l : list Other) : Choice :=
  {| ch_others := l; ch_outcome := ch_outcome calm; ch_cached := ch_cached calm; ch_admit := ch_admit calm; ch_uid := ch_uid calm;
     ch_finalizers := ch_finalizers calm; ch_answer := ch_answer calm |}.

Definition at_call (l : list (nat * list Other)) (n : nat) : Choice :=
  match List.find (fun x => (fst x =? n)%nat) l with Some x => after_others (snd x) | None => calm end.

Definition emptyStore : Store := {| live := fun _ => ∅; past := fun _ => []; next := 1 |}.

Lemma coherent_empty : coherent emptyStore.
Proof. by split. Qed.

(** A name for the call of a step, and whether it changed anything it names. *)
Definition call_name (c : Call) : string :=
  match c with
  | CGet Cached _ _ n => "get " +:+ n
  | CGet Direct _ _ n => "read " +:+ n
  | CCreate k o => "create " +:+ om_name (meta_of k o)
  | CUpdate k o => "update " +:+ om_name (meta_of k o)
  | CDelete k o _ => "delete " +:+ om_name (meta_of k o)
  | CApplyStatus _ n _ => "status " +:+ n
  | CPatch k _ o => "patch " +:+ om_name (meta_of k o)
  | CUpdateStatus k o => "status " +:+ om_name (meta_of k o)
  | CListPods _ _ | CListMCPServers _ _ _ | CList _ _ => "list"
  | CDial _ _ => "dial"
  | CNow => "now"
  | COut _ => "out"
  end.

Definition call_names (l : list Step) : list string := map (fun s => let '(Ev c _) := ev s in call_name c) l.

(** An owner reference of another controller. *)
Definition otherOwner : OwnerReference :=
  {| or_apiVersion := "example.com/v1"; or_kind := "Release"; or_name := "other"; or_uid := "other-uid";
     or_controller := Some true; or_blockOwnerDeletion := None |}.

Definition serverObjects : list Other :=
  [Write KMCPServer ("ns", "srv") "uid-1" sampleServer; Write KNamespace ("", "ns") "n" {| ns_meta := newMeta "ns" "" None |}].

Definition deploymentWith (owner : OwnerReference) (replicas : Z) : Deployment :=
  {| dep_meta := with_owners [owner] (newMeta "srv" "ns" None); dep_replicas := Some replicas; dep_selector := None;
     dep_template := {| pt_labels := None; pt_annotations := None;
                        pt_spec := {| ps_containers := []; ps_imagePullSecrets := []; ps_volumes := []; ps_serviceAccountName := "";
                                      ps_securityContext := None; ps_other := "" |} |};
     dep_observedGeneration := 0; dep_readyReplicas := 0; dep_conditions := [] |}.

(** The Deployment is taken over by another controller just before the update. *)
Definition takeover : nat -> Choice :=
  at_call [(0%nat, serverObjects ++ [Write KDeployment ("ns", "srv") "d-1" (deploymentWith sampleOwner 7)]);
           (8%nat, [Write KDeployment ("ns", "srv") "d-1" (deploymentWith otherOwner 3)])].

Definition takeoverSteps : list Step := steps_of takeover (@Reconcile.Reconcile modelVendor sampleReconciler ("ns", "srv")) emptyState emptyStore.

(** Who controls the Deployment before and after each step, and at what size. *)
Definition deploymentState (st : Store) : option (option string * option Z) :=
  option_map (fun d => (option_map or_name (GetControllerOf (dep_meta d)), dep_replicas d)) (live st KDeployment !! ("ns", "srv")).

Lemma reconcile_changes_checked_witness :
  nth_error (call_names takeoverSteps) 8 = Some "update srv" /\
  option_map (fun s => (deploymentState (before s), deploymentState (after s))) (nth_error takeoverSteps 8) =
    Some (Some (Some "other", Some 3), Some (Some "other", Some 3)) /\
  Forall (@checked modelVendor ("ns", "srv")) takeoverSteps.
Proof.
  split; [vm_compute; reflexivity|]. split; [vm_compute; reflexivity|].
  exact (@reconcile_changes_checked modelVendor modelVendor_laws sampleReconciler ("ns", "srv") takeover emptyState emptyStore coherent_empty).
Defined.

(** *** Deletions name no version

    The ConfigMap of a binding is gone, so its route is to be removed.  Between the read of
    the route and its deletion the route is removed and another one made under its name. *)
Definition bindingOwner : OwnerReference :=
  {| or_apiVersion := MCPServerAPIVersion; or_kind := MCPGatewayBindingKind; or_name := "srv-gateway-binding"; or_uid := "b-uid";
     or_controller := Some true; or_blockOwnerDeletion := Some true |}.

Definition routeOwnedBy (owner : OwnerReference) : HTTPRoute :=
  {| route_meta := with_owners [owner] (newMeta "srv-gateway-binding" "ns" None); route_spec := route_spec sampleRoute; route_parents := [] |}.

Definition routeRace : nat -> Choice :=
  at_call [(0%nat, [Write KBinding ("ns", "srv-gateway-binding") "b-uid" sampleBinding; Write KMCPServer ("ns", "srv") "uid-1" gatewayServer;
                    Write KHTTPRoute ("ns", "srv-gateway-binding") "r-1" (routeOwnedBy bindingOwner)]);
           (4%nat, [Remove KHTTPRoute ("ns", "srv-gateway-binding");
                    Write KHTTPRoute ("ns", "srv-gateway-binding") "r-2" (routeOwnedBy otherOwner)])].

Definition routeRaceSteps : list Step := steps_of routeRace samplePass emptyState emptyStore.

Definition routeState (st : Store) : option (option string) :=
  option_map (fun x => option_map or_name (GetControllerOf (route_meta x))) (live st KHTTPRoute !! ("ns", "srv-gateway-binding")).

Lemma provider_changes_checked_witness :
  List.length routeRaceSteps = 7%nat /\ Forall (provider_checked ("ns", "srv-gateway-binding")) routeRaceSteps.
Proof.
  split; [vm_compute; reflexivity|].
  exact (@provider_changes_checked modelVendor modelVendor_laws _ _ _ _ routeRace emptyState emptyStore
    (@httproute_controller modelVendor ("ns", "srv-gateway-binding") HttpRoute.allowEdge) coherent_empty).
Defined.

(** The pass deletes the route of another controller. *)
Theorem provider_delete_race :
  option_map (fun s => (routeState (before s), routeState (after s))) (nth_error routeRaceSteps 4) = Some (Some (Some "other"), None).
Proof. vm_compute. reflexivity. Qed.

(** The MCPServer reconciler does the same to a binding. *)
Definition bindingOwnedBy (owner : OwnerReference) : MCPGatewayBinding :=
  with_mgb_meta (with_owners [owner] (mgb_meta sampleBinding)) sampleBinding.

Definition bindingRace : nat -> Choice :=
  at_call [(0%nat, serverObjects ++ [Write KBinding ("ns", "srv-gateway-binding") "b-1" (bindingOwnedBy sampleOwner)]);
           (3%nat, [Remove KBinding ("ns", "srv-gateway-binding"); Write KBinding ("ns", "srv-gateway-binding") "b-2" (bindingOwnedBy otherOwner)])].

Definition bindingRaceSteps : list Step := steps_of bindingRace (@Reconcile.Reconcile modelVendor sampleReconciler ("ns", "srv")) emptyState emptyStore.

Definition bindingState (st : Store) : option (option string) :=
  option_map (fun x => option_map or_name (GetControllerOf (mgb_meta x))) (live st KBinding !! ("ns", "srv-gateway-binding")).

Theorem binding_delete_race :
  option_map (fun s => (bindingState (before s), bindingState (after s))) (nth_error bindingRaceSteps 3) = Some (Some (Some "other"), None).
Proof. vm_compute. reflexivity. Qed.
