(* ===== verification/ProviderRegistry.v ===== *)
(** * Starting the providers (internal/controller/providers/registry.go, crd_watcher.go)

    Providers register with the CRDs they need.  [SetupAll] starts those whose CRDs are
    served and hands the others to the CRD watcher, which tries them again on every CRD
    event and every five seconds until all are started.  What the API server serves, and
    whether a controller can be built, is the environment's; it may change at any time. *)

From Stdlib Require String.
From S2P Require Import Prelude K8s GatewayApi Handshake HttpRoute Kuadrant.

Record GroupVersionKind := { gvk_group : string; gvk_version : string; gvk_kind : string }.
#[export] Instance GroupVersionKind_eq_dec : EqDecision GroupVersionKind.
Proof. solve_decision. Defined.

(** A registration; the factory is known by the provider's name. *)
Record namedRegistration := { reg_name : string; reg_requiredCRDs : list GroupVersionKind }.

Definition Register (name : string) (requiredCRDs : list GroupVersionKind) (registry : list namedRegistration) : list namedRegistration :=
  registry ++ [{| reg_name := name; reg_requiredCRDs := requiredCRDs |}].

Definition gatewayCRDs : list GroupVersionKind :=
  [{| gvk_group := GatewayGroupName; gvk_version := "v1"; gvk_kind := "HTTPRoute" |};
   {| gvk_group := GatewayGroupName; gvk_version := "v1"; gvk_kind := "Gateway" |}].

(** The [init] functions of the two provider packages. *)
Definition init_httproute (registry : list namedRegistration) : list namedRegistration :=
  Register HttpRoute.ProviderName gatewayCRDs registry.

Definition init_kuadrant (registry : list namedRegistration) : list namedRegistration :=
  Register Kuadrant.ProviderName
    (gatewayCRDs ++ [{| gvk_group := KuadrantGroup; gvk_version := KuadrantVersion; gvk_kind := "MCPServerRegistration" |};
                     {| gvk_group := KuadrantGroup; gvk_version := KuadrantVersion; gvk_kind := "MCPGatewayExtension" |}]) registry.

Definition registry : list namedRegistration := init_kuadrant (init_httproute []).

(** ** The environment *)

(** [mapper.RESTMapping]: served, not served ([meta.IsNoMatchError]), or another error. *)
Inductive mapping := Mapped | NoMatch | MappingError (e : error).

(** The answers during one pass: of the RESTMapper when asked for a provider, and of the
    provider's factory. *)
Record Env := { restMapping : string -> GroupVersionKind -> mapping; factory : string -> option error }.

Fixpoint missingCRDs (ask : GroupVersionKind -> mapping) (gvks : list GroupVersionKind) : result (list GroupVersionKind) :=
  match gvks with
  | [] => Ok []
  | gvk :: rest =>
      match ask gvk with
      | Mapped => missingCRDs ask rest
      | NoMatch => match missingCRDs ask rest with Ok l => Ok (gvk :: l) | Err e => Err e end
      | MappingError e => Err e
      end
  end.

(** [launches] records the successful factory calls, oldest first. *)
Record crdWatcher := {
  pending : list namedRegistration;
  started : gmap string bool;
  launches : list string
}.

Definition requeue5s : Result := {| RequeueAfter := 5 * 1000000000 |}.

(** [w.started[name]] *)
Definition isStarted (w : crdWatcher) (name : string) : bool := default false (started w !! name).

Definition launch (name : string) (w : crdWatcher) : crdWatcher :=
  {| pending := pending w; started := <[name := true]> (started w); launches := launches w ++ [name] |}.

Definition set_pending (l : list namedRegistration) (w : crdWatcher) : crdWatcher :=
  {| pending := l; started := started w; launches := launches w |}.

(** The loop over the pending registrations, with those that remain so far. *)
Fixpoint tryPending (env : Env) (todo remaining : list namedRegistration) (w : crdWatcher) : list namedRegistration * crdWatcher :=
  match todo with
  | [] => (remaining, w)
  | nf :: rest =>
      if isStarted w (reg_name nf) then tryPending env rest remaining w
      else match missingCRDs (restMapping env (reg_name nf)) (reg_requiredCRDs nf) with
      | Err _ | Ok (_ :: _) => tryPending env rest (remaining ++ [nf]) w
      | Ok [] =>
          match factory env (reg_name nf) with
          | Some _ => tryPending env rest (remaining ++ [nf]) w
          | None => tryPending env rest remaining (launch (reg_name nf) w)
          end
      end
  end.

Definition Reconcile (env : Env) (w : crdWatcher) : Result * crdWatcher :=
  let '(remaining, w1) := tryPending env (pending w) [] w in
  let w2 := set_pending remaining w1 in
  (if (0 <? List.length (pending w2))%nat then requeue5s else noRequeue, w2).

(** The loop of [SetupAll]; an error of a factory aborts start-up. *)
Fixpoint setupLoop (env : Env) (todo : list namedRegistration) (w : crdWatcher) : crdWatcher * option error :=
  match todo with
  | [] => (w, None)
  | nf :: rest =>
      let start :=
        match factory env (reg_name nf) with
        | Some e => (w, Some (Wrap ("provider " +:+ reg_name nf +:+ ": ") e))
        | None => setupLoop env rest (launch (reg_name nf) w)
        end in
      match reg_requiredCRDs nf with
      | [] => start
      | _ =>
          match missingCRDs (restMapping env (reg_name nf)) (reg_requiredCRDs nf) with
          | Err _ | Ok (_ :: _) => setupLoop env rest (set_pending (pending w ++ [nf]) w)
          | Ok [] => start
          end
      end
  end.

(** [setup] is the answer of registering the watcher's controller, asked for when needed. *)
Definition SetupAll (env : Env) (setup : option error) (registry : list namedRegistration) : crdWatcher * option error :=
  let '(w, err) := setupLoop env registry {| pending := []; started := ∅; launches := [] |} in
  match err with
  | Some e => (w, Some e)
  | None => if (0 <? List.length (pending w))%nat then (w, setup) else (w, None)
  end.

(** ** Reachable states *)

(** A watcher after start-up and any number of passes, in any environments. *)
Inductive reachable (reg : list namedRegistration) : crdWatcher -> Prop :=
| reach_setup env setup w : SetupAll env setup reg = (w, None) -> reachable reg w
| reach_pass env w : reachable reg w -> reachable reg (snd (Reconcile env w)).

(** A provider's CRDs are all served and its controller can be built. *)
Definition available (env : Env) (nf : namedRegistration) : Prop :=
  Forall (fun gvk => restMapping env (reg_name nf) gvk = Mapped) (reg_requiredCRDs nf) /\ factory env (reg_name nf) = None.

(** Every provider is pending or was started, once, and [started] says which. *)
Record tracked (reg : list namedRegistration) (w : crdWatcher) : Prop := {
  tracked_perm : Permutation (map reg_name (pending w) ++ launches w) (map reg_name reg);
  tracked_pending : incl (pending w) reg;
  tracked_started name : isStarted w name = true <-> In name (launches w)
}.

Lemma missingCRDs_none ask gvks : missingCRDs ask gvks = Ok [] <-> Forall (fun gvk => ask gvk = Mapped) gvks.
Proof.
  induction gvks as [|g gvks IH]; cbn; [done|]. rewrite Forall_cons. destruct (ask g); [rewrite IH; naive_solver| |naive_solver].
  destruct (missingCRDs ask gvks); naive_solver.
Qed.

Lemma isStarted_launch n w m : isStarted (launch n w) m = true <-> m = n \/ isStarted w m = true.
Proof.
  unfold isStarted. cbn. destruct (decide (m = n)) as [->|Hm].
  - rewrite lookup_insert_eq. cbn. naive_solver.
  - rewrite lookup_insert_ne by done. naive_solver.
Qed.

(** The invariant of both loops: [names] are the providers not yet dealt with. *)
Record loop_inv (reg : list namedRegistration) (names : list string) (w : crdWatcher) : Prop := {
  li_perm : Permutation (names ++ launches w) (map reg_name reg);
  li_started name : isStarted w name = true <-> In name (launches w)
}.

Lemma loop_launch reg n names w : loop_inv reg (n :: names) w -> loop_inv reg names (launch n w).
Proof.
  intros [Hp Hs]. split.
  - cbn. rewrite app_assoc, (Permutation_app_comm (names ++ launches w) [n]). exact Hp.
  - intros m. rewrite isStarted_launch, Hs. cbn. rewrite in_app_iff. cbn. naive_solver.
Qed.

Lemma loop_perm reg names names' w : Permutation names names' -> loop_inv reg names w -> loop_inv reg names' w.
Proof. intros H [Hp Hs]. split; [by rewrite <- H|done]. Qed.

Lemma loop_not_started reg n names w : NoDup (map reg_name reg) -> loop_inv reg (n :: names) w -> isStarted w n = false.
Proof.
  intros Hnd [Hp Hs]. destruct (isStarted w n) eqn:E; [|done]. apply Hs in E. exfalso.
  rewrite <- Hp in Hnd. cbn in Hnd. apply NoDup_cons in Hnd as [Hn _]. apply Hn, list_elem_of_In, in_app_iff. auto.
Qed.

Lemma loop_set_pending reg names l w : loop_inv reg names w -> loop_inv reg names (set_pending l w).
Proof. by intros [? ?]; split. Qed.

Lemma tryPending_inv reg env todo remaining w :
  NoDup (map reg_name reg) -> incl (remaining ++ todo) reg ->
  loop_inv reg (map reg_name remaining ++ map reg_name todo) w ->
  let '(remaining', w') := tryPending env todo remaining w in
  incl remaining' reg /\ loop_inv reg (map reg_name remaining') w'.
Proof.
  intros Hnd. revert remaining w. induction todo as [|nf todo IH]; intros remaining w Hi Hl; cbn [tryPending map] in *.
  - rewrite !app_nil_r in *. done.
  - assert (Hl' : loop_inv reg (reg_name nf :: map reg_name remaining ++ map reg_name todo) w).
    { eapply loop_perm; [|exact Hl]. by rewrite <- Permutation_middle. }
    assert (Hkeep : let '(remaining', w') := tryPending env todo (remaining ++ [nf]) w in
                    incl remaining' reg /\ loop_inv reg (map reg_name remaining') w').
    { apply IH; [by rewrite <- app_assoc|]. by rewrite map_app, <- app_assoc. }
    rewrite (loop_not_started _ _ _ _ Hnd Hl').
    destruct (missingCRDs _ _) as [[|? ?]|?]; [|exact Hkeep..]. destruct (factory env (reg_name nf)); [exact Hkeep|].
    apply IH; [|by apply loop_launch]. intros x Hx. apply Hi. rewrite in_app_iff in *. cbn. naive_solver.
Qed.

Lemma Reconcile_tracked reg env w : NoDup (map reg_name reg) -> tracked reg w -> tracked reg (snd (Reconcile env w)).
Proof.
  intros Hnd [Hp Hi Hs]. unfold Reconcile.
  pose proof (tryPending_inv reg env (pending w) [] w Hnd Hi (Build_loop_inv _ _ _ Hp Hs)) as H.
  destruct (tryPending _ _ _ _) as [remaining w']. destruct H as [Hi' [Hp' Hs']]. by split.
Qed.

Lemma setupLoop_inv reg env todo w :
  incl (pending w ++ todo) reg -> loop_inv reg (map reg_name (pending w) ++ map reg_name todo) w ->
  forall w', setupLoop env todo w = (w', None) -> tracked reg w'.
Proof.
  revert w. induction todo as [|nf todo IH]; intros w Hi Hl w'; cbn [setupLoop map] in *.
  - intros [= <-]. rewrite app_nil_r in *. destruct Hl. by split.
  - assert (Hstart : match factory env (reg_name nf) with
                     | Some e => (w, Some (Wrap ("provider " +:+ reg_name nf +:+ ": ") e))
                     | None => setupLoop env todo (launch (reg_name nf) w)
                     end = (w', None) -> tracked reg w').
    { destruct (factory _ _); [done|]. apply IH.
      - intros x Hx. apply Hi. cbn in Hx. rewrite in_app_iff in *. cbn. naive_solver.
      - apply loop_launch. cbn. eapply loop_perm; [|exact Hl]. by rewrite <- Permutation_middle. }
    assert (Hdefer : setupLoop env todo (set_pending (pending w ++ [nf]) w) = (w', None) -> tracked reg w').
    { apply IH; cbn; [by rewrite <- app_assoc|]. apply loop_set_pending. by rewrite map_app, <- app_assoc. }
    destruct (reg_requiredCRDs nf) as [|g gs]; [exact Hstart|].
    destruct (missingCRDs _ _) as [[|? ?]|?]; [exact Hstart|exact Hdefer..].
Qed.

Lemma reachable_tracked reg w : NoDup (map reg_name reg) -> reachable reg w -> tracked reg w.
Proof.
  intros Hnd. induction 1 as [env setup w H|env w _ IH]; [|by apply Reconcile_tracked].
  unfold SetupAll in H. destruct (setupLoop _ _ _) as [w' [e|]] eqn:E; [done|].
  assert (w' = w) as -> by (destruct (0 <? _)%nat; congruence).
  refine (setupLoop_inv reg env reg {| pending := []; started := ∅; launches := [] |} (incl_refl reg) _ w E). split; [cbn; by rewrite app_nil_r|].
  intros name. unfold isStarted. cbn. rewrite lookup_empty. done.
Qed.

(** C36: After start-up and any number of passes, whatever CRDs were served and whichever
    factories failed in between, every registered provider is either still pending or
    was started exactly once, the watcher's memory says which, and a pass asks to be
    repeated exactly as long as a provider is pending. *)
Theorem providers_started_once reg w env :
  NoDup (map reg_name reg) -> reachable reg w ->
  NoDup (launches w) /\
  (forall nf, In nf reg -> (In (reg_name nf) (launches w) <-> isStarted w (reg_name nf) = true)) /\
  (forall nf, In nf reg -> isStarted w (reg_name nf) = false <-> In (reg_name nf) (map reg_name (pending w))) /\
  (RequeueAfter (fst (Reconcile env w)) <> 0 <-> pending (snd (Reconcile env w)) <> []).
Proof.
  intros Hnd Hr. pose proof (reachable_tracked _ _ Hnd Hr) as [Hp Hi Hs].
  assert (Hnd' : NoDup (map reg_name (pending w) ++ launches w)) by (by rewrite Hp).
  apply NoDup_app in Hnd' as (_ & Hdisj & Hl). split_and!; [done|by intros nf _; rewrite Hs| |].
  - intros nf Hin. assert (Hcase : In (reg_name nf) (map reg_name (pending w)) \/ In (reg_name nf) (launches w)).
    { apply in_app_iff. eapply Permutation_in; [symmetry; exact Hp|]. by apply in_map. }
    specialize (Hs (reg_name nf)). destruct (isStarted w (reg_name nf)).
    + split; [done|]. intros Hx. destruct (Hdisj (reg_name nf)); [by apply list_elem_of_In|]. apply list_elem_of_In. by apply Hs.
    + split; [intros _|done]. destruct Hcase as [?|?%Hs]; done.
  - unfold Reconcile. destruct (tryPending _ _ _ _) as [remaining w']. cbn. by destruct remaining.
Qed.

Lemma launches_grow_try env todo remaining w :
  forall remaining' w', tryPending env todo remaining w = (remaining', w') ->
  (exists l, launches w' = launches w ++ l) /\
  (forall nf, In nf todo -> available env nf -> isStarted w' (reg_name nf) = true).
Proof.
  revert remaining w. induction todo as [|nf todo IH]; intros remaining w remaining' w'; cbn [tryPending].
  - intros [= <- <-]. split; [exists []; by rewrite app_nil_r|done].
  - assert (Hmono : forall rem w1, tryPending env todo rem w1 = (remaining', w') -> isStarted w1 (reg_name nf) = true -> isStarted w' (reg_name nf) = true).
    { clear IH. induction todo as [|x todo IH]; intros rem w1; cbn [tryPending]; [by intros [= <- <-]|].
      destruct (isStarted w1 (reg_name x)); [by apply IH|]. destruct (missingCRDs _ _) as [[|? ?]|?]; [|by apply IH..].
      destruct (factory _ _); [by apply IH|]. intros H Hst. eapply IH; [exact H|]. apply isStarted_launch. auto. }
    destruct (isStarted w (reg_name nf)) eqn:Est.
    { intros H. destruct (IH _ _ _ _ H) as [Hl Ha]. split; [done|]. intros x [<-|Hx] Hav; [|by apply Ha]. by eapply Hmono. }
    assert (Hkeep : ~ available env nf -> tryPending env todo (remaining ++ [nf]) w = (remaining', w') ->
              (exists l, launches w' = launches w ++ l) /\
              (forall x, nf = x \/ In x todo -> available env x -> isStarted w' (reg_name x) = true)).
    { intros Hno H. destruct (IH _ _ _ _ H) as [Hl Ha]. split; [done|]. intros x [<-|Hx] Hav; [done|by apply Ha]. }
    unfold available at 1 in Hkeep. rewrite <- missingCRDs_none in Hkeep.
    destruct (missingCRDs _ _) as [[|? ?]|?]; [|apply Hkeep; naive_solver..].
    destruct (factory env (reg_name nf)) eqn:Ef; [apply Hkeep; naive_solver|].
    intros H. destruct (IH _ _ _ _ H) as [[l Hl] Ha]. split.
    + exists (reg_name nf :: l). rewrite Hl. cbn. by rewrite <- app_assoc.
    + intros x [<-|Hx] Hav; [|by apply Ha]. eapply Hmono; [exact H|]. apply isStarted_launch. auto.
Qed.

(** The watcher after the passes in the environments [envs], in order. *)
Definition passes (envs : list Env) (w : crdWatcher) : crdWatcher := fold_left (fun w env => snd (Reconcile env w)) envs w.

Lemma Reconcile_grows env w : exists l, launches (snd (Reconcile env w)) = launches w ++ l.
Proof.
  unfold Reconcile. destruct (tryPending _ _ _ _) as [rem w'] eqn:E. by destruct (launches_grow_try _ _ _ _ _ _ E) as [? _].
Qed.

Lemma passes_reachable reg envs w : reachable reg w -> reachable reg (passes envs w).
Proof. revert w. induction envs as [|env envs IH]; intros w H; [done|]. apply IH. by constructor. Qed.

Lemma passes_grow envs w : exists l, launches (passes envs w) = launches w ++ l.
Proof.
  revert w. induction envs as [|env envs IH]; intros w; [exists []; by rewrite app_nil_r|].
  change (passes (env :: envs) w) with (passes envs (snd (Reconcile env w))).
  destruct (IH (snd (Reconcile env w))) as [l ->], (Reconcile_grows env w) as [l' ->]. exists (l' ++ l). by rewrite app_assoc.
Qed.

Lemma in_map_unique reg (x y : namedRegistration) :
  NoDup (map reg_name reg) -> In x reg -> In y reg -> reg_name x = reg_name y -> x = y.
Proof.
  induction reg as [|z reg IH]; [done|]. cbn. rewrite NoDup_cons. intros [Hn Hnd] Hx Hy Heq.
  assert (Hno : forall t, In t reg -> reg_name z <> reg_name t).
  { intros t Ht E. apply Hn. rewrite E. apply list_elem_of_In. by apply in_map. }
  destruct Hx as [->|Hx], Hy as [->|Hy]; [done|by destruct (Hno y Hy)|by destruct (Hno x Hx)|auto].
Qed.

(** A provider that is not started is among the pending ones, with its own CRDs. *)
Lemma providers_pending reg w nf :
  NoDup (map reg_name reg) -> reachable reg w -> In nf reg -> isStarted w (reg_name nf) = false -> In nf (pending w).
Proof.
  intros Hnd Hr Hin Hst. pose proof (reachable_tracked _ _ Hnd Hr) as [Hp Hi Hs].
  assert (Hcase : In (reg_name nf) (map reg_name (pending w) ++ launches w)).
  { eapply Permutation_in; [symmetry; exact Hp|]. by apply in_map. }
  apply in_app_iff in Hcase as [Hc|Hc%Hs]; [|congruence]. apply in_map_iff in Hc as (nf' & Hn & Hin').
  replace nf with nf'; [done|]. apply (in_map_unique reg); auto.
Qed.

(** C37: A registered provider runs as soon as there is a single pass during which its CRDs
    are served and its controller can be built, whatever the passes before it met, and it
    keeps running through all later passes, without being started again. *)
Theorem provider_eventually_started reg w nf before env after :
  NoDup (map reg_name reg) -> reachable reg w -> In nf reg -> available env nf ->
  let w' := passes (before ++ env :: after) w in
  isStarted w' (reg_name nf) = true /\ List.count_occ String.string_dec (launches w') (reg_name nf) = 1%nat.
Proof.
  intros Hnd Hr Hin Hav. cbn zeta. set (w1 := passes before w). set (w2 := snd (Reconcile env w1)).
  assert (Hw' : passes (before ++ env :: after) w = passes after w2).
  { unfold passes, w2, w1. by rewrite fold_left_app. }
  rewrite Hw'. assert (Hr1 : reachable reg w1) by (by apply passes_reachable).
  assert (Hr' : reachable reg (passes after w2)) by (apply passes_reachable; by constructor).
  assert (Hst2 : isStarted w2 (reg_name nf) = true).
  { destruct (isStarted w1 (reg_name nf)) eqn:E1.
    - apply (tracked_started _ _ (reachable_tracked _ _ Hnd (reach_pass _ env _ Hr1))).
      destruct (Reconcile_grows env w1) as [l ->]. apply in_app_iff. left.
      by apply (tracked_started _ _ (reachable_tracked _ _ Hnd Hr1)).
    - pose proof (providers_pending reg w1 nf Hnd Hr1 Hin E1) as Hpend.
      unfold w2, Reconcile. destruct (tryPending _ _ _ _) as [rem w'] eqn:E.
      by apply (proj2 (launches_grow_try _ _ _ _ _ _ E)). }
  pose proof (reachable_tracked _ _ Hnd Hr') as [Hp _ Hs].
  assert (Hlaunch : In (reg_name nf) (launches (passes after w2))).
  { destruct (passes_grow after w2) as [l ->]. apply in_app_iff. left.
    by apply (tracked_started _ _ (reachable_tracked _ _ Hnd (reach_pass _ env _ Hr1))). }
  split; [by apply Hs|]. apply NoDup_count_occ'; [|done]. apply NoDup_ListNoDup.
  assert (Hall : NoDup (map reg_name (pending (passes after w2)) ++ launches (passes after w2))) by (by rewrite Hp).
  by apply NoDup_app in Hall as (_ & _ & ?).
Qed.

(** ** A concrete start *)

(** A cluster without the Gateway API, later with it and, last, with Kuadrant. *)
Definition bareEnv : Env := {| restMapping := fun _ _ => NoMatch; factory := fun _ => None |}.
Definition gatewayEnv : Env :=
  {| restMapping := fun _ g => if gvk_group g == GatewayGroupName then Mapped else NoMatch; factory := fun _ => None |}.
Definition brokenEnv : Env := {| restMapping := fun _ _ => MappingError (Errorf "discovery"); factory := fun _ => Some (Errorf "x") |}.

Definition bareWatcher : crdWatcher := fst (SetupAll bareEnv None registry).

Lemma bareWatcher_reachable : reachable registry bareWatcher.
Proof. apply (reach_setup registry bareEnv None). reflexivity. Qed.

Lemma registry_names : NoDup (map reg_name registry).
Proof. cbn. rewrite !NoDup_cons. split_and!; [set_solver|set_solver|constructor]. Qed.

Lemma providers_started_once_witness :
  let w := passes [gatewayEnv] bareWatcher in
  launches w = [HttpRoute.ProviderName] /\ map reg_name (pending w) = [Kuadrant.ProviderName] /\
  NoDup (launches w) /\ (RequeueAfter (fst (Reconcile brokenEnv w)) <> 0 <-> pending (snd (Reconcile brokenEnv w)) <> []).
Proof.
  cbn zeta. split; [reflexivity|]. split; [reflexivity|].
  destruct (providers_started_once registry (passes [gatewayEnv] bareWatcher) brokenEnv registry_names
              (passes_reachable registry [gatewayEnv] bareWatcher bareWatcher_reachable)) as (H1 & _ & _ & H4).
  split; [exact H1|exact H4].
Defined.

Lemma provider_eventually_started_witness :
  let nf := {| reg_name := HttpRoute.ProviderName; reg_requiredCRDs := gatewayCRDs |} in
  let w' := passes ([bareEnv; brokenEnv] ++ gatewayEnv :: [brokenEnv; gatewayEnv]) bareWatcher in
  available gatewayEnv nf /\ isStarted w' HttpRoute.ProviderName = true /\
  List.count_occ String.string_dec (launches w') HttpRoute.ProviderName = 1%nat.
Proof.
  cbn zeta. assert (Hav : available gatewayEnv {| reg_name := HttpRoute.ProviderName; reg_requiredCRDs := gatewayCRDs |}).
  { split; [|reflexivity]. repeat constructor. }
  split; [exact Hav|].
  exact (provider_eventually_started registry bareWatcher {| reg_name := HttpRoute.ProviderName; reg_requiredCRDs := gatewayCRDs |}
           [bareEnv; brokenEnv] gatewayEnv [brokenEnv; gatewayEnv] registry_names bareWatcher_reachable
           (or_introl eq_refl) Hav).
Defined.
