(* ===== verification/TlsSettings.v ===== *)
(** * TLS settings from the environment (cmd/tlsconfig.go)

    The operator reads its TLS profile from three environment variables, applies it to
    its own TLS configurations and hands the validated values on to the containers of
    MCP servers.  Which cipher suites and groups exist is a matter of the Go toolchain
    the operator is built with: [Toolchain] is what crypto/tls tells about it, and
    [go126] the tables of the toolchain named in go.mod. *)

From Stdlib Require Import Ascii.
From S2P Require Import Prelude K8s Interact Conditions Handshake.

Definition envTLSMinVersion : string := "TLS_MIN_VERSION".
Definition envTLSCipherSuites : string := "TLS_CIPHER_SUITES".
Definition envTLSGroups : string := "TLS_GROUPS".

Definition VersionTLS10 : Z := 0x0301.
Definition VersionTLS11 : Z := 0x0302.
Definition VersionTLS12 : Z := 0x0303.
Definition VersionTLS13 : Z := 0x0304.

(** [tls.CipherSuites], [tls.InsecureCipherSuites] by name and id, and [CurveID.String]. *)
Class Toolchain := {
  CipherSuites : list (string * Z);
  InsecureCipherSuites : list (string * Z);
  CurveName : Z -> string
}.

Record tlsSettings := {
  minVersionStr : string;
  minVersionCode : Z;
  cipherSuitesStr : string;
  cipherSuiteIDs : list Z;
  groupsStr : string;
  groupIDs : list Z
}.

Definition parseTLSVersion (s : string) : Z :=
  if s == "VersionTLS10" then VersionTLS10
  else if s == "VersionTLS11" then VersionTLS11
  else if s == "VersionTLS12" then VersionTLS12
  else if s == "VersionTLS13" then VersionTLS13
  else 0.

Definition CurveP256 : Z := 23.
Definition CurveP384 : Z := 24.
Definition CurveP521 : Z := 25.

(** The aliases kept for the NIST curves. *)
Definition groupAliases : gmap string Z :=
  list_to_map [("p-256", CurveP256); ("secp256r1", CurveP256); ("p-384", CurveP384); ("secp384r1", CurveP384);
               ("p-521", CurveP521); ("secp521r1", CurveP521)].

Section with_toolchain.
Context `{T : Toolchain}.

(** Later entries replace earlier ones of the same name. *)
Definition cipherLookup : gmap string Z :=
  fold_left (fun m '(name, id) => <[name := id]> m) (CipherSuites ++ InsecureCipherSuites) ∅.

(** The ids and the names that were recognised, in order. *)
Fixpoint cipherLoop (raw : list string) : list Z * list string :=
  match raw with
  | [] => ([], [])
  | entry :: rest =>
      let name := strings.TrimSpace entry in
      let '(suites, names) := cipherLoop rest in
      match cipherLookup !! name with
      | Some id => (id :: suites, name :: names)
      | None => (suites, names)
      end
  end.

Definition parseCipherSuites (s : string) : list Z * list string :=
  if s == "" then ([], []) else cipherLoop (strings.SplitByte ","%char s).

(** A name of its own, not the rendering of an unknown id. *)
Definition isNamed (id : Z) : bool := negb (strings.HasPrefix (CurveName id) "CurveID(").

Definition groupStep (m : gmap string Z) (id : Z) : gmap string Z :=
  if isNamed id then <[strings.ToLower (CurveName id) := id]> m else m.

Definition tlsGroupLookup : gmap string Z := groupAliases ∪ fold_left groupStep (seqZ 0 (2 ^ 16)) ∅.

Fixpoint groupLoop (raw : list string) (seen : list Z) : list Z * list string :=
  match raw with
  | [] => ([], [])
  | entry :: rest =>
      let name := strings.TrimSpace entry in
      if name == "" then groupLoop rest seen
      else match tlsGroupLookup !! strings.ToLower name with
      | Some g =>
          if bool_decide (g ∈ seen) then groupLoop rest seen
          else let '(groups, names) := groupLoop rest (g :: seen) in (g :: groups, CurveName g :: names)
      | None => groupLoop rest seen
      end
  end.

Definition parseTLSGroups (s : string) : list Z * list string :=
  if s == "" then ([], []) else groupLoop (strings.SplitByte ","%char s) [].

(** [os.Getenv] is the argument [getenv]. *)
Definition parseTLSSettings (getenv : string -> string) : result tlsSettings :=
  let version := parseTLSVersion (getenv envTLSMinVersion) in
  let '(ids, names) := parseCipherSuites (getenv envTLSCipherSuites) in
  let ciphers := if (0 <? List.length ids)%nat then (ids, strings.Join names ",") else ([], "") in
  let settings gids gstr :=
    {| minVersionStr := if 0 <? version then getenv envTLSMinVersion else "";
       minVersionCode := if 0 <? version then version else 0;
       cipherSuitesStr := snd ciphers; cipherSuiteIDs := fst ciphers;
       groupsStr := gstr; groupIDs := gids |} in
  let raw := getenv envTLSGroups in
  if raw != "" then
    let '(gids, gnames) := parseTLSGroups raw in
    if (List.length gids =? 0)%nat
    then Err (Errorf (envTLSGroups +:+ " contains no supported TLS groups: " +:+ fmt.q raw))
    else Ok (settings gids (strings.Join gnames ","))
  else Ok (settings [] "").

End with_toolchain.

Definition envVar (name value : string) : list EnvVar :=
  if value != "" then [{| ev_name := name; ev_value := value; ev_valueFrom := None |}] else [].

Definition envVars (s : tlsSettings) : list EnvVar :=
  envVar envTLSMinVersion (minVersionStr s) ++ envVar envTLSCipherSuites (cipherSuitesStr s) ++ envVar envTLSGroups (groupsStr s).

Definition applySettings (s : tlsSettings) (c : TLSConfig) : TLSConfig :=
  {| tc_minVersion := if 0 <? minVersionCode s then minVersionCode s else tc_minVersion c;
     tc_insecureSkipVerify := tc_insecureSkipVerify c;
     tc_rootCAs := tc_rootCAs c;
     tc_cipherSuites := if (minVersionCode s <? VersionTLS13) && (0 <? List.length (cipherSuiteIDs s))%nat
                        then cipherSuiteIDs s else tc_cipherSuites c;
     tc_curvePreferences := if (0 <? List.length (groupIDs s))%nat then groupIDs s else tc_curvePreferences c |}.

Definition tlsConfigFunc (s : tlsSettings) : option (TLSConfig -> TLSConfig) :=
  if (minVersionCode s =? 0) && (List.length (cipherSuiteIDs s) =? 0)%nat && (List.length (groupIDs s) =? 0)%nat
  then None else Some (applySettings s).

(** ** Round trip *)

(** The environment of a container that is given the variables. *)
Definition getenvOf (vars : list EnvVar) (name : string) : string :=
  match List.find (fun v => ev_name v == name) vars with Some v => ev_value v | None => "" end.

(** A name that survives being written into a comma-separated list. *)
Definition clean (name : string) : Prop := name <> "" /\ lacks ","%char name = true /\ strings.TrimSpace name = name.

(** What the code relies on: names have no comma and no outer blanks; named groups keep
    their ids apart when written in lower case, from each other and from the aliases;
    and the aliases stand for named groups. *)
Class ToolchainLaws (T : Toolchain) : Prop := {
  cipher_clean name id : In (name, id) (CipherSuites ++ InsecureCipherSuites) -> clean name;
  group_clean id : isNamed id = true -> clean (CurveName id);
  group_range id : isNamed id = true -> 0 <= id < 2 ^ 16;
  group_distinct id id' : isNamed id = true -> isNamed id' = true ->
    strings.ToLower (CurveName id) = strings.ToLower (CurveName id') -> id = id';
  alias_agrees id id' : isNamed id = true -> groupAliases !! strings.ToLower (CurveName id) = Some id' -> id' = id;
  alias_named name id : groupAliases !! name = Some id -> isNamed id = true
}.

(** The table of groups is large; proofs use its lemmas. *)
Opaque tlsGroupLookup.

Section roundtrip.
Context `{T : Toolchain} {L : ToolchainLaws T}.

Lemma cipherLookup_clean name id : cipherLookup !! name = Some id -> clean name.
Proof.
  unfold cipherLookup.
  assert (H : forall (l : list (string * Z)) (m : gmap string Z), (forall n i, In (n, i) l -> clean n) -> (forall n i, m !! n = Some i -> clean n) ->
            forall n i, fold_left (fun m '(name, id) => <[name := id]> m) l m !! n = Some i -> clean n).
  { induction l as [|[n0 i0] l IH]; cbn; intros m Hl Hm n i; [apply Hm|]. apply IH; [by eauto|].
    intros n1 i1. rewrite lookup_insert_Some. intros [[<- _]|[_ ?]]; eauto. }
  apply H; [apply cipher_clean|done].
Qed.

(** The loop over entries that are clean, recognised names. *)
Lemma cipherLoop_names raw : let '(ids, names) := cipherLoop raw in
  List.length ids = List.length names /\ Forall clean names /\ cipherLoop names = (ids, names).
Proof.
  induction raw as [|e raw IH]; cbn; [done|]. destruct (cipherLoop raw) as [ids names]. destruct IH as (Hlen & Hc & IH).
  destruct (cipherLookup !! strings.TrimSpace e) as [id|] eqn:E; [|done].
  pose proof (cipherLookup_clean _ _ E) as Hn. split_and!; [cbn; by rewrite Hlen|by constructor|].
  cbn. destruct Hn as (_ & _ & Ht). by rewrite Ht, E, IH.
Qed.

Lemma Join_clean names : names <> [] -> Forall clean names ->
  strings.Join names "," <> "" /\ strings.SplitByte ","%char (strings.Join names ",") = names.
Proof.
  intros Hne Hc. split.
  - apply Join_nonempty. destruct names as [|n l]; [done|]. apply Forall_cons in Hc as [[? _] _]. by constructor.
  - apply Split_Join; [done|]. eapply Forall_impl; [exact Hc|]. by intros n (_ & ? & _).
Qed.

Lemma parseCipherSuites_again raw ids names :
  parseCipherSuites raw = (ids, names) -> names <> [] ->
  strings.Join names "," <> "" /\ parseCipherSuites (strings.Join names ",") = (ids, names).
Proof.
  unfold parseCipherSuites at 1. case_bool_decide as Hraw; [congruence|]. intros H Hne.
  pose proof (cipherLoop_names (strings.SplitByte ","%char raw)) as Hl. rewrite H in Hl. destruct Hl as (_ & Hc & Hagain).
  destruct (Join_clean names Hne Hc) as [Hj Hs]. split; [done|]. unfold parseCipherSuites.
  by rewrite bool_decide_eq_false_2, Hs by done.
Qed.

Lemma parseCipherSuites_lengths raw ids names : parseCipherSuites raw = (ids, names) -> List.length ids = List.length names.
Proof.
  unfold parseCipherSuites. case_bool_decide as Hraw; [by intros [= <- <-]|]. intros H.
  pose proof (cipherLoop_names (strings.SplitByte ","%char raw)) as Hl. rewrite H in Hl. apply Hl.
Qed.

(** Folding over the ids keeps the id of every named one. *)
Lemma fold_group l m id :
  (forall id', In id' l -> isNamed id' = true -> strings.ToLower (CurveName id') = strings.ToLower (CurveName id) -> id' = id) ->
  isNamed id = true -> In id l \/ m !! strings.ToLower (CurveName id) = Some id ->
  fold_left groupStep l m !! strings.ToLower (CurveName id) = Some id.
Proof.
  intros Hu Hn. revert m Hu. induction l as [|x l IH]; intros m Hu H; cbn; [by destruct H|].
  apply IH; [intros; apply Hu; cbn; auto|]. unfold groupStep. destruct H as [[->|H]|H]; [right|by left|right].
  - by rewrite Hn, lookup_insert_eq.
  - destruct (isNamed x) eqn:Ex; [|done]. destruct (decide (strings.ToLower (CurveName x) = strings.ToLower (CurveName id))) as [Hx|Hx].
    + rewrite Hx, lookup_insert_eq. f_equal. apply Hu; cbn; auto.
    + by rewrite lookup_insert_ne.
Qed.

Lemma fold_named l m : (forall n id, m !! n = Some id -> isNamed id = true) ->
  forall n id, fold_left groupStep l m !! n = Some id -> isNamed id = true.
Proof.
  revert m. induction l as [|x l IH]; intros m Hm n id; cbn; [apply Hm|]. apply IH. unfold groupStep.
  destruct (isNamed x) eqn:E; [|done]. intros n' id'. rewrite lookup_insert_Some. intros [[_ <-]|[_ ?]]; eauto.
Qed.

Lemma tlsGroupLookup_named n id : tlsGroupLookup !! n = Some id -> isNamed id = true.
Proof.
  with_strategy transparent [tlsGroupLookup] (unfold tlsGroupLookup). rewrite lookup_union_Some_raw. intros [H|[_ H]]; [by eapply alias_named|].
  eapply fold_named; [|exact H]. intros ? ?. by rewrite lookup_empty.
Qed.

Lemma tlsGroupLookup_canonical id : isNamed id = true -> tlsGroupLookup !! strings.ToLower (CurveName id) = Some id.
Proof.
  intros Hn. with_strategy transparent [tlsGroupLookup] (unfold tlsGroupLookup). rewrite lookup_union_Some_raw.
  destruct (groupAliases !! strings.ToLower (CurveName id)) as [id'|] eqn:Ea; [left; f_equal; by eapply alias_agrees|right].
  split; [done|]. apply fold_group; [|done|].
  - intros id' _ Hn' He. by apply group_distinct.
  - left. apply list_elem_of_In, elem_of_seqZ. pose proof (group_range id Hn). lia.
Qed.

Lemma tlsGroupLookup_alias name id : groupAliases !! name = Some id -> tlsGroupLookup !! name = Some id.
Proof. intros H. with_strategy transparent [tlsGroupLookup] (unfold tlsGroupLookup). rewrite lookup_union_Some_raw. by left. Qed.

(** The loop answers named groups, each once, none of those seen. *)
Lemma groupLoop_spec raw seen : let '(ids, names) := groupLoop raw seen in
  names = map CurveName ids /\ NoDup ids /\ Forall (fun g => g ∉ seen) ids /\ Forall (fun g => isNamed g = true) ids.
Proof.
  revert seen. induction raw as [|e raw IH]; intros seen; cbn [groupLoop].
  { split_and!; [done|constructor..]. }
  destruct (strings.TrimSpace e == ""); [apply IH|]. destruct (tlsGroupLookup !! _) as [g|] eqn:Eg; [|apply IH].
  case_bool_decide as Hseen; [apply IH|]. specialize (IH (g :: seen)). destruct (groupLoop raw (g :: seen)) as [ids names].
  destruct IH as (-> & Hnd & Hs & Hn). split_and!; [done| | |].
  - constructor; [|done]. intros Hin. rewrite Forall_forall in Hs. apply (Hs g Hin), elem_of_cons. by left.
  - constructor; [done|]. eapply Forall_impl; [exact Hs|]. intros x Hx Hxs. apply Hx, elem_of_cons. by right.
  - constructor; [by eapply tlsGroupLookup_named|done].
Qed.

Lemma groupLoop_again ids seen :
  NoDup ids -> Forall (fun g => g ∉ seen) ids -> Forall (fun g => isNamed g = true) ids ->
  groupLoop (map CurveName ids) seen = (ids, map CurveName ids).
Proof.
  revert seen. induction ids as [|g ids IH]; intros seen; cbn [groupLoop map]; [done|].
  rewrite NoDup_cons, !Forall_cons. intros [Hg Hnd] [Hs Hss] [Hn Hns]. destruct (group_clean g Hn) as (Hne & _ & Ht).
  rewrite Ht, bool_decide_eq_false_2, (tlsGroupLookup_canonical g Hn), bool_decide_eq_false_2 by done.
  rewrite IH; [done|done| |done]. rewrite Forall_forall in *. intros x Hx. specialize (Hss x Hx).
  intros [->|?]%elem_of_cons; done.
Qed.

Lemma parseTLSGroups_again raw ids names :
  parseTLSGroups raw = (ids, names) -> ids <> [] ->
  strings.Join names "," <> "" /\ parseTLSGroups (strings.Join names ",") = (ids, names).
Proof.
  unfold parseTLSGroups at 1. case_bool_decide as Hraw; [congruence|]. intros H Hne.
  pose proof (groupLoop_spec (strings.SplitByte ","%char raw) []) as Hl. rewrite H in Hl. destruct Hl as (-> & Hnd & Hs & Hn).
  assert (Hc : Forall clean (map CurveName ids)).
  { apply Forall_map. eapply Forall_impl; [exact Hn|]. intros g Hg. by apply group_clean. }
  destruct (Join_clean (map CurveName ids)) as [Hj Hsplit]; [by destruct ids|done|]. split; [done|].
  unfold parseTLSGroups. rewrite bool_decide_eq_false_2, Hsplit by done. by apply groupLoop_again.
Qed.

Lemma getenvOf_envVars s :
  getenvOf (envVars s) envTLSMinVersion = minVersionStr s /\
  getenvOf (envVars s) envTLSCipherSuites = cipherSuitesStr s /\ getenvOf (envVars s) envTLSGroups = groupsStr s.
Proof.
  unfold getenvOf, envVars, envVar. destruct s as [v vc cs ids gs gids]. cbn.
  repeat case_bool_decide; subst; cbn; done.
Qed.

(** The variables handed to an MCP server's container carry exactly the operator's
    validated TLS settings: reading them there, with the same toolchain, gives the same
    settings, so propagation neither loses nor changes a version, suite or group. *)
Theorem tls_settings_roundtrip getenv s :
  parseTLSSettings getenv = Ok s -> parseTLSSettings (getenvOf (envVars s)) = Ok s.
Proof.
  unfold parseTLSSettings. intros H.
  destruct (parseCipherSuites (getenv envTLSCipherSuites)) as [ids names] eqn:Ec.
  pose proof (parseCipherSuites_lengths _ _ _ Ec) as Hlen.
  set (version := parseTLSVersion (getenv envTLSMinVersion)) in *.
  set (ciphers := if (0 <? List.length ids)%nat then (ids, strings.Join names ",") else ([], "")) in *.
  assert (Hfields : exists gids gstr, s =
            {| minVersionStr := if 0 <? version then getenv envTLSMinVersion else "";
               minVersionCode := if 0 <? version then version else 0;
               cipherSuitesStr := snd ciphers; cipherSuiteIDs := fst ciphers; groupsStr := gstr; groupIDs := gids |} /\
            (gids = [] /\ gstr = "" \/ gids <> [] /\ gstr <> "" /\ exists gnames, gstr = strings.Join gnames "," /\
               parseTLSGroups gstr = (gids, gnames))).
  { case_bool_decide; cbn in H; [by exists [], ""; split; [congruence|auto]|].
    destruct (parseTLSGroups (getenv envTLSGroups)) as [gids gnames] eqn:Eg.
    destruct gids as [|g gids]; cbn in H; [done|]. exists (g :: gids), (strings.Join gnames ","). split; [congruence|right].
    destruct (parseTLSGroups_again _ _ _ Eg) as [? ?]; [done|]. eauto 6. }
  destruct Hfields as (gids & gstr & -> & Hg). destruct (getenvOf_envVars
    {| minVersionStr := if 0 <? version then getenv envTLSMinVersion else "";
       minVersionCode := if 0 <? version then version else 0;
       cipherSuitesStr := snd ciphers; cipherSuiteIDs := fst ciphers; groupsStr := gstr; groupIDs := gids |}) as (-> & -> & ->).
  cbn [minVersionStr cipherSuitesStr groupsStr].
  assert (Hv : parseTLSVersion (if 0 <? version then getenv envTLSMinVersion else "") = if 0 <? version then version else 0).
  { by destruct (0 <? version). }
  assert (Hc : exists names', parseCipherSuites (snd ciphers) = (fst ciphers, names') /\
            (0 < List.length (fst ciphers) -> strings.Join names' "," = snd ciphers)%nat).
  { unfold ciphers. destruct (Nat.ltb_spec 0 (List.length ids)); [|by exists []]. exists names.
    destruct (parseCipherSuites_again _ _ _ Ec) as [_ ?]; [|done]. intros ->. cbn in Hlen. lia. }
  destruct Hc as (names' & -> & Hj). rewrite Hv.
  assert (Hcc : (if (0 <? List.length (fst ciphers))%nat then (fst ciphers, strings.Join names' ",") else ([], "")) = ciphers).
  { destruct (Nat.ltb_spec 0 (List.length (fst ciphers))) as [Hl|Hl]; [rewrite Hj by done; by destruct ciphers|].
    unfold ciphers in *. destruct (Nat.ltb_spec 0 (List.length ids)); [cbn in Hl; lia|done]. }
  rewrite Hcc.
  assert (Hvv : (0 <? (if 0 <? version then version else 0)) = (0 <? version)) by (by destruct (0 <? version) eqn:E).
  rewrite Hvv. destruct Hg as [[-> ->]|(Hne & Hgs & gnames & -> & Hp)]; [by destruct (0 <? version)|].
  rewrite bool_decide_eq_false_2, Hp by done. cbn [negb]. destruct gids; [done|]. cbn. by destruct (0 <? version).
Qed.

End roundtrip.

(** The profile changes only the version floor, suites and groups. *)
Lemma tlsConfigFunc_trust s p cfg :
  tlsConfigFunc s = Some p ->
  tc_insecureSkipVerify (p cfg) = tc_insecureSkipVerify cfg /\ tc_rootCAs (p cfg) = tc_rootCAs cfg.
Proof. unfold tlsConfigFunc. destruct (_ && _ && _); [done|]. by intros [= <-]. Qed.

(** ** The toolchain of go.mod *)

Definition go126Groups : list (Z * string) :=
  [(23, "CurveP256"); (24, "CurveP384"); (25, "CurveP521"); (29, "X25519");
   (4587, "SecP256r1MLKEM768"); (4588, "X25519MLKEM768"); (4589, "SecP384r1MLKEM1024")].

Definition go126 : Toolchain := {|
  CipherSuites :=
    [("TLS_AES_128_GCM_SHA256", 0x1301); ("TLS_AES_256_GCM_SHA384", 0x1302); ("TLS_CHACHA20_POLY1305_SHA256", 0x1303);
     ("TLS_ECDHE_ECDSA_WITH_AES_128_CBC_SHA", 0xc009); ("TLS_ECDHE_ECDSA_WITH_AES_256_CBC_SHA", 0xc00a);
     ("TLS_ECDHE_RSA_WITH_AES_128_CBC_SHA", 0xc013); ("TLS_ECDHE_RSA_WITH_AES_256_CBC_SHA", 0xc014);
     ("TLS_ECDHE_ECDSA_WITH_AES_128_GCM_SHA256", 0xc02b); ("TLS_ECDHE_ECDSA_WITH_AES_256_GCM_SHA384", 0xc02c);
     ("TLS_ECDHE_RSA_WITH_AES_128_GCM_SHA256", 0xc02f); ("TLS_ECDHE_RSA_WITH_AES_256_GCM_SHA384", 0xc030);
     ("TLS_ECDHE_RSA_WITH_CHACHA20_POLY1305_SHA256", 0xcca8); ("TLS_ECDHE_ECDSA_WITH_CHACHA20_POLY1305_SHA256", 0xcca9)];
  InsecureCipherSuites :=
    [("TLS_RSA_WITH_RC4_128_SHA", 0x0005); ("TLS_RSA_WITH_3DES_EDE_CBC_SHA", 0x000a); ("TLS_RSA_WITH_AES_128_CBC_SHA", 0x002f);
     ("TLS_RSA_WITH_AES_256_CBC_SHA", 0x0035); ("TLS_RSA_WITH_AES_128_CBC_SHA256", 0x003c);
     ("TLS_RSA_WITH_AES_128_GCM_SHA256", 0x009c); ("TLS_RSA_WITH_AES_256_GCM_SHA384", 0x009d);
     ("TLS_ECDHE_ECDSA_WITH_RC4_128_SHA", 0xc007); ("TLS_ECDHE_RSA_WITH_RC4_128_SHA", 0xc011);
     ("TLS_ECDHE_RSA_WITH_3DES_EDE_CBC_SHA", 0xc012); ("TLS_ECDHE_ECDSA_WITH_AES_128_CBC_SHA256", 0xc023);
     ("TLS_ECDHE_RSA_WITH_AES_128_CBC_SHA256", 0xc027)];
  CurveName := fun id =>
    match List.find (fun '(n, _) => n =? id) go126Groups with
    | Some (_, name) => name
    | None => "CurveID(" +:+ fmt.d id +:+ ")"
    end
|}.

Lemma go126_named id : @isNamed go126 id = true -> In id (map fst go126Groups).
Proof.
  unfold isNamed. cbn [CurveName go126]. destruct (List.find _ _) as [[n name]|] eqn:E.
  - intros _. apply find_some in E as [Hin ->%Z.eqb_eq]. by apply (in_map fst) in Hin.
  - rewrite (proj2 (HasPrefix_spec _ _)); [done|]. by eexists.
Qed.

Lemma go126_clean : forallb (fun '(name, _) => negb (name == "") && lacks ","%char name && (strings.TrimSpace name == name))
  (@CipherSuites go126 ++ @InsecureCipherSuites go126) = true.
Proof. vm_compute. reflexivity. Qed.

Lemma go126_laws : ToolchainLaws go126.
Proof.
  split.
  - intros name id Hin. pose proof go126_clean as Hc. rewrite forallb_forall in Hc. specialize (Hc _ Hin). cbn beta iota in Hc.
    bool_to_prop. by split_and!.
  - intros id Hn%go126_named. repeat (destruct Hn as [<-|Hn]; [split_and!; [done|vm_compute; reflexivity..]|]). done.
  - intros id Hn%go126_named. repeat (destruct Hn as [<-|Hn]; [cbn; lia|]). done.
  - intros id id' Hn%go126_named Hn'%go126_named.
    repeat (destruct Hn as [<-|Hn]; [repeat (destruct Hn' as [<-|Hn']; [vm_compute; congruence|]); done|]). done.
  - intros id id' Hn%go126_named.
    repeat (destruct Hn as [<-|Hn]; [vm_compute; congruence|]). done.
  - intros name id H. unfold groupAliases in H. apply elem_of_list_to_map_2 in H. rewrite !elem_of_cons in H.
    destruct_or! H; try (injection H as -> ->; vm_compute; reflexivity). by apply not_elem_of_nil in H.
Qed.

(** A profile with a version, a suite it knows among others, and groups by alias, twice. *)
Definition sampleTLSEnv (name : string) : string :=
  if name == envTLSMinVersion then "VersionTLS12"
  else if name == envTLSCipherSuites then " TLS_AES_128_GCM_SHA256, BOGUS,TLS_ECDHE_RSA_WITH_AES_128_GCM_SHA256"
  else if name == envTLSGroups then "x25519, secp256r1 ,P-256"
  else "".

Definition sampleTLSSettings : tlsSettings :=
  {| minVersionStr := "VersionTLS12"; minVersionCode := VersionTLS12;
     cipherSuitesStr := "TLS_AES_128_GCM_SHA256,TLS_ECDHE_RSA_WITH_AES_128_GCM_SHA256"; cipherSuiteIDs := [0x1301; 0xc02f];
     groupsStr := "X25519,CurveP256"; groupIDs := [29; 23] |}.

Lemma sampleGroups_parsed : @parseTLSGroups go126 "x25519, secp256r1 ,P-256" = ([29; 23], ["X25519"; "CurveP256"]).
Proof.
  unfold parseTLSGroups. change ("x25519, secp256r1 ,P-256" == "") with false. cbv iota.
  replace (strings.SplitByte ","%char "x25519, secp256r1 ,P-256") with ["x25519"; " secp256r1 "; "P-256"] by reflexivity.
  assert (Hx : @tlsGroupLookup go126 !! "x25519" = Some 29) by exact (@tlsGroupLookup_canonical go126 go126_laws 29 eq_refl).
  assert (Hs : @tlsGroupLookup go126 !! "secp256r1" = Some 23) by (apply tlsGroupLookup_alias; reflexivity).
  assert (Hp : @tlsGroupLookup go126 !! "p-256" = Some 23) by (apply tlsGroupLookup_alias; reflexivity).
  cbn [groupLoop].
  replace (strings.TrimSpace "x25519") with "x25519" by reflexivity.
  replace (strings.TrimSpace " secp256r1 ") with "secp256r1" by reflexivity.
  replace (strings.TrimSpace "P-256") with "P-256" by reflexivity.
  replace (strings.ToLower "x25519") with "x25519" by reflexivity.
  replace (strings.ToLower "secp256r1") with "secp256r1" by reflexivity.
  replace (strings.ToLower "P-256") with "p-256" by reflexivity.
  rewrite Hx, Hs, Hp. reflexivity.
Qed.

Lemma sampleTLSSettings_parsed : @parseTLSSettings go126 sampleTLSEnv = Ok sampleTLSSettings.
Proof.
  unfold parseTLSSettings. replace (sampleTLSEnv envTLSGroups) with "x25519, secp256r1 ,P-256" by reflexivity.
  rewrite sampleGroups_parsed. vm_compute. reflexivity.
Qed.

Lemma tls_settings_roundtrip_witness :
  @parseTLSSettings go126 sampleTLSEnv = Ok sampleTLSSettings /\
  @parseTLSSettings go126 (getenvOf (envVars sampleTLSSettings)) = Ok sampleTLSSettings.
Proof.
  split; [exact sampleTLSSettings_parsed|].
  exact (@tls_settings_roundtrip go126 go126_laws sampleTLSEnv sampleTLSSettings sampleTLSSettings_parsed).
Defined.
