(* ===== verification/LogLevel.v ===== *)
(** * The runtime log level (cmd/loglevel.go)

    The operator watches one ConfigMap and sets its logger's level from it.  An atomic
    level is a cell shared by the logger and the reconciler, so levels live in a store and
    an [AtomicLevel] is the index of its cell. *)

From Stdlib Require Import Ascii.
From S2P Require Import Prelude K8s Interact Policy ConfigHash Handshake.

Definition defaultLoggingConfigMapName : string := "mcp-lifecycle-operator-config".
Definition defaultLoggingConfigMapKey : string := "log-level".
Definition podNamespaceEnvVar : string := "POD_NAMESPACE".
Definition serviceAccountNamespaceFile : string := "/var/run/secrets/kubernetes.io/serviceaccount/namespace".

(** zapcore's levels: an int8. *)
Definition DebugLevel : Z := -1.
Definition InfoLevel : Z := 0.
Definition ErrorLevel : Z := 2.
Definition PanicLevel : Z := 4.

(** The conversion [int8(v)]. *)
Definition int8 (v : Z) : Z := (v + 2 ^ 7) mod 2 ^ 8 - 2 ^ 7.

(** ** The level of the logger *)

Abbreviation Levels := (list Z).
Abbreviation AtomicLevel := nat.

(** [uzap.NewAtomicLevelAt] *)
Definition NewAtomicLevelAt (level : Z) (store : Levels) : AtomicLevel * Levels :=
  (List.length store, store ++ [level]).

(** What the interface [opts.Level] may hold: the level, a pointer to one, or some other
    enabler. *)
Inductive LevelEnabler := Atomic (a : AtomicLevel) | AtomicPtr (a : AtomicLevel) | OtherEnabler (min : Z).

Record Options := { opt_Level : option LevelEnabler; opt_Development : bool }.

Definition extractAtomicLevel (opts : Options) (store : Levels) : AtomicLevel * Levels :=
  match opt_Level opts with
  | Some (Atomic level) => (level, store)
  | Some (AtomicPtr level) => (level, store)
  | _ => if opt_Development opts then NewAtomicLevelAt DebugLevel store else NewAtomicLevelAt InfoLevel store
  end.

(** The logger is built on the extracted level. *)
Definition startLogging (opts : Options) (store : Levels) : AtomicLevel * Options * Levels :=
  let '(atomicLevel, store') := extractAtomicLevel opts store in
  (atomicLevel, {| opt_Level := Some (AtomicPtr atomicLevel); opt_Development := opt_Development opts |}, store').

(** The least level the logger writes. *)
Definition loggerLevel (opts : Options) (store : Levels) : option Z :=
  match opt_Level opts with
  | Some (Atomic a) => store !! a
  | Some (AtomicPtr a) => store !! a
  | Some (OtherEnabler min) => Some min
  | None => None
  end.

(** ** Parsing *)

Definition namedLevels : gmap string Z :=
  list_to_map [("debug", DebugLevel); ("info", InfoLevel); ("error", ErrorLevel); ("panic", PanicLevel)].

Definition parseLogLevel (v : string) : result Z :=
  let value := strings.TrimSpace v in
  if value == "" then Err (Errorf "log level must not be empty")
  else match namedLevels !! strings.ToLower value with
  | Some level => Ok level
  | None =>
      match Atoi value with
      | None => Err (Errorf ("invalid log level " +:+ fmt.q value))
      | Some logLevel =>
          if (logLevel <=? 0) || (128 <? logLevel) then Err (Errorf ("invalid log level " +:+ fmt.q value))
          else Ok (int8 (- logLevel))
      end
  end.

(** ** Where the ConfigMap is *)

(** The environment and the file system of the operator's pod. *)
Record Host := { getenv : string -> string; readFile : string -> option string }.

Definition detectOperatorNamespace (host : Host) : string :=
  let ns := strings.TrimSpace (getenv host podNamespaceEnvVar) in
  if ns != "" then ns
  else match readFile host serviceAccountNamespaceFile with
       | None => ""
       | Some data => strings.TrimSpace data
       end.

Definition resolveLoggingNamespace (host : Host) (namespaceOverride : string) : string :=
  let ns := strings.TrimSpace namespaceOverride in
  if ns != "" then ns else detectOperatorNamespace host.

(** ** The reconciler *)

Record logLevelReconciler := { atomicLevel : AtomicLevel; key : string }.

Definition Reconcile (r : logLevelReconciler) (req : Request) (store : Levels) : prog (Result * option error * Levels) :=
  Do (CGet Direct KConfigMap (fst req) (snd req)) (fun got =>
  match got with
  | Err err => if IsNotFound err then Ret (noRequeue, None, store) else Ret (noRequeue, Some err, store)
  | Ok cm =>
      match cm_data cm !! key r with
      | None => Ret (noRequeue, None, store)
      | Some levelStr =>
          match parseLogLevel levelStr with
          | Err _ => Ret (noRequeue, None, store)
          | Ok level =>
              Ret (noRequeue, None,
                   if bool_decide (store !! atomicLevel r = Some level) then store else <[atomicLevel r := level]> store)
          end
      end
  end).

(** The controller that is registered: its event filter and its reconciler.  [Ok None]
    when the watch is disabled. *)
Record Watch := { eventFilter : ObjectMeta -> bool; watchReconciler : logLevelReconciler }.

Definition setupLogLevelFromConfigMap (atomicLevel : AtomicLevel) (namespace name key : string) : result (option Watch) :=
  if name == "" then Ok None
  else if namespace == "" then Ok None
  else if key == "" then Err (Errorf "logging configmap key must not be empty")
  else Ok (Some {| eventFilter := fun m => (om_namespace m == namespace) && (om_name m == name);
                   watchReconciler := {| atomicLevel := atomicLevel; key := key |} |}).

(** ** What is accepted *)

Lemma int8_small v : - 2 ^ 7 <= v < 2 ^ 7 -> int8 v = v.
Proof. unfold int8. intros H. rewrite Z.mod_small; lia. Qed.

Lemma namedLevels_bound name l : namedLevels !! name = Some l -> In (name, l) [("debug", -1); ("info", 0); ("error", 2); ("panic", 4)].
Proof. intros H. apply list_elem_of_In. by apply elem_of_list_to_map_2 in H. Qed.

Lemma parseLogLevel_bound v l : parseLogLevel v = Ok l -> -128 <= l <= 4.
Proof.
  unfold parseLogLevel. case_bool_decide; [done|].
  destruct (namedLevels !! _) as [l'|] eqn:E.
  - intros [= <-]. apply namedLevels_bound in E. cbn in E. destruct_or! E; try done; injection E as _ <-; lia.
  - destruct (Atoi _) as [n|]; [|done]. destruct (_ || _) eqn:Eb; [done|]. intros [= <-]. bool_to_prop.
    rewrite int8_small; lia.
Qed.

(** Negating a verbosity never wraps around. *)
Lemma parseLogLevel_spec v l :
  parseLogLevel v = Ok l <->
  namedLevels !! strings.ToLower (strings.TrimSpace v) = Some l \/
  namedLevels !! strings.ToLower (strings.TrimSpace v) = None /\
    exists n, Atoi (strings.TrimSpace v) = Some n /\ 1 <= n <= 128 /\ l = - n.
Proof.
  unfold parseLogLevel. destruct (strings.TrimSpace v == "") eqn:E0.
  - bool_to_prop. rewrite E0. split; [done|]. intros [H|(_ & n & H & _)]; by vm_compute in H.
  - destruct (namedLevels !! _) as [l'|] eqn:E.
    + split; [intros [= <-]; by left|]. intros [[= <-]|[? _]]; [done|congruence].
    + destruct (Atoi _) as [n|]; [|split; [done|]; intros [?|(_ & n & ? & _)]; congruence].
      destruct ((n <=? 0) || (128 <? n)) eqn:Eb.
      * split; [done|]. intros [?|(_ & n' & [= <-] & ? & _)]; [congruence|].
        apply orb_true_iff in Eb. rewrite Z.leb_le, Z.ltb_lt in Eb. lia.
      * bool_to_prop. rewrite int8_small by lia. split.
        -- intros [= <-]. right. split; [done|]. eexists. split_and!; [done|lia..].
        -- intros [?|(_ & n' & [= <-] & _ & ->)]; [congruence|done].
Qed.

Lemma verbosities_parsed :
  forallb (fun n => match parseLogLevel (fmt.d n) with Ok l => l =? - n | Err _ => false end) (seqZ 1 128) = true.
Proof. vm_compute. reflexivity. Qed.

(** A level is accepted exactly when it is one of the four names, in any case, or a
    verbosity N in 1..128, which becomes the level -N: negating and narrowing to eight
    bits never wraps around, every accepted level is in -128..4, and each of the 128
    verbosities, written in decimal, is accepted. *)
Theorem log_level_parse_bounds :
  (forall v l, parseLogLevel v = Ok l <->
     namedLevels !! strings.ToLower (strings.TrimSpace v) = Some l \/
     namedLevels !! strings.ToLower (strings.TrimSpace v) = None /\
       exists n, Atoi (strings.TrimSpace v) = Some n /\ 1 <= n <= 128 /\ l = - n) /\
  (forall v l, parseLogLevel v = Ok l -> -128 <= l <= 4) /\
  (forall n, 1 <= n <= 128 -> parseLogLevel (fmt.d n) = Ok (- n)).
Proof.
  split_and!; [exact parseLogLevel_spec|exact parseLogLevel_bound|]. intros n Hn.
  pose proof verbosities_parsed as H. rewrite forallb_forall in H. specialize (H n).
  destruct (parseLogLevel (fmt.d n)) as [l|e]; [f_equal; apply Z.eqb_eq, H|discriminate H];
    apply list_elem_of_In, elem_of_seqZ; lia.
Qed.

(** ** Histories *)

(** The passes of a reconciler for the ConfigMap [req], one after the other; what each
    reads is up to the API server. *)
Inductive passes (r : logLevelReconciler) (req : Request) : list event -> Levels -> Levels -> Prop :=
| passes_none store : passes r req [] store store
| passes_more store tr res store1 h store2 :
    runs (Reconcile r req store) tr (res, store1) -> passes r req h store1 store2 -> passes r req (tr ++ h) store store2.

(** The level a read asks for, if it is a readable ConfigMap with a valid value. *)
Definition accepted (k : string) (e : event) : option Z :=
  cm ← read_of KConfigMap e; v ← cm_data cm !! k; match parseLogLevel v with Ok l => Some l | Err _ => None end.

Definition lastAccepted (k : string) (h : list event) (initial : Z) : Z :=
  fold_left (fun l e => default l (accepted k e)) h initial.

Lemma accepted_read k rd ns n cm :
  accepted k (Ev (CGet rd KConfigMap ns n) (Ok cm)) =
  match cm_data cm !! k with Some v => match parseLogLevel v with Ok l => Some l | Err _ => None end | None => None end.
Proof.
  unfold accepted, read_of. destruct (decide (KConfigMap = KConfigMap)) as [e|]; [|done].
  rewrite (Eqdep_dec.UIP_dec kind_eq_dec e eq_refl). cbn. by destruct (cm_data cm !! k).
Qed.

(** A pass reads the ConfigMap once, and reports nothing but a failure to read it. *)
Lemma Reconcile_pass r req store tr res store1 :
  runs (Reconcile r req store) tr (res, store1) ->
  exists e, tr = [e] /\ store1 = match accepted (key r) e with Some l => <[atomicLevel r := l]> store | None => store end /\
    snd res = match read_error e with Some err => if IsNotFound err then None else Some err | None => None end.
Proof.
  unfold Reconcile. cbn [runs]. intros (got & tr' & -> & Hr). exists (Ev (CGet Direct KConfigMap (fst req) (snd req)) got).
  destruct got as [cm|err].
  - rewrite accepted_read. cbn [read_error].
    destruct (cm_data cm !! key r) as [v|]; [destruct (parseLogLevel v) as [l|]|]; destruct Hr as [-> [= -> ->]]; [|by split_and!..].
    split; [done|]. split; [|done]. case_bool_decide as E; [|done]. symmetry. by apply list_insert_id.
  - destruct (IsNotFound err) eqn:E; destruct Hr as [-> [= -> ->]]; cbn; rewrite E; by split_and!.
Qed.

Lemma passes_store r req h store store' initial :
  passes r req h store store' -> store !! atomicLevel r = Some initial ->
  store' = <[atomicLevel r := lastAccepted (key r) h initial]> store.
Proof.
  intros H. revert initial. induction H as [store|store tr res store1 h store2 Hr _ IH]; intros initial Hi.
  - symmetry. by apply list_insert_id.
  - apply Reconcile_pass in Hr as (e & -> & -> & _). unfold lastAccepted. cbn [app fold_left].
    destruct (accepted (key r) e) as [l|]; cbn [default]; [|by apply IH].
    rewrite (IH l); [by rewrite list_insert_insert_eq|]. apply list_lookup_insert_eq. by eapply lookup_lt_Some.
Qed.

Lemma lastAccepted_bound k h initial : -128 <= initial <= 127 -> -128 <= lastAccepted k h initial <= 127.
Proof.
  unfold lastAccepted. revert initial. induction h as [|e h IH]; intros initial Hi; cbn; [done|]. apply IH.
  destruct (accepted k e) as [l|] eqn:E; cbn; [|done]. unfold accepted in E.
  destruct (read_of _ e); [|done]. cbn in E. destruct (_ !! _) as [v|]; [|done]. cbn in E.
  destruct (parseLogLevel v) eqn:Ep; [|done]. injection E as <-. apply parseLogLevel_bound in Ep. lia.
Qed.

Lemma startLogging_cell opts store a opts' store' :
  (forall b, opt_Level opts = Some (Atomic b) \/ opt_Level opts = Some (AtomicPtr b) -> (b < List.length store)%nat) ->
  startLogging opts store = (a, opts', store') ->
  exists initial, store' !! a = Some initial /\ loggerLevel opts' store' = Some initial /\ opt_Level opts' = Some (AtomicPtr a) /\
    (opt_Level opts = None -> initial = if opt_Development opts then DebugLevel else InfoLevel).
Proof.
  intros Hs. unfold startLogging, extractAtomicLevel, NewAtomicLevelAt, loggerLevel.
  destruct (opt_Level opts) as [[b|b|m]|] eqn:E.
  1,2: intros [= <- <- <-]; cbn [opt_Level]; destruct (lookup_lt_is_Some_2 store b) as [x Hx]; [apply Hs; auto|];
    exists x; rewrite Hx; by split_and!.
  all: destruct (opt_Development opts); intros [= <- <- <-]; cbn [opt_Level]; eexists;
    rewrite list_lookup_middle by done; by split_and!.
Qed.

(** Whatever is read from the API server, and however often, the level the logger uses
    is the last valid one read under the key, or the one it started with: a missing
    ConfigMap, a missing key, an invalid value and a failed read leave the level alone.
    Without a level on the command line it starts at debug in development mode and at info
    otherwise. *)
Theorem log_level_tracks_configmap opts store a opts' store' namespace name k w h store'' :
  (forall b, opt_Level opts = Some (Atomic b) \/ opt_Level opts = Some (AtomicPtr b) -> (b < List.length store)%nat) ->
  startLogging opts store = (a, opts', store') ->
  setupLogLevelFromConfigMap a namespace name k = Ok (Some w) ->
  passes (watchReconciler w) (namespace, name) h store' store'' ->
  exists initial, loggerLevel opts' store' = Some initial /\
    (opt_Level opts = None -> initial = if opt_Development opts then DebugLevel else InfoLevel) /\
    loggerLevel opts' store'' = Some (lastAccepted k h initial) /\
    (-128 <= initial <= 127 -> -128 <= lastAccepted k h initial <= 127).
Proof.
  intros Hs Hl Hw Hp. destruct (startLogging_cell _ _ _ _ _ Hs Hl) as (initial & Hc & Hlog & Ho & Hd).
  unfold setupLogLevelFromConfigMap in Hw. repeat case_bool_decide; try done. injection Hw as <-. cbn in Hp.
  apply (passes_store _ _ _ _ _ initial) in Hp; [|done]. cbn [atomicLevel key] in Hp. exists initial.
  split_and!; [done..| |apply lastAccepted_bound]. unfold loggerLevel. rewrite Ho, Hp.
  apply list_lookup_insert_eq. by eapply lookup_lt_Some.
Qed.

Definition levelConfig (value : string) : ConfigMap :=
  {| cm_meta := newMeta "cfg" "ns" None; cm_data := {["log-level" := value]}; cm_binaryData := ∅ |}.

(** Started at info; the ConfigMap asks for verbosity 5, then for nonsense, then is gone. *)
Lemma log_level_tracks_configmap_witness :
  exists h store, passes {| atomicLevel := 0; key := "log-level" |} ("ns", "cfg") h [InfoLevel] store /\
    loggerLevel {| opt_Level := Some (AtomicPtr 0%nat); opt_Development := false |} store = Some (-5).
Proof.
  pose (read := fun a => Ev (CGet Direct KConfigMap "ns" "cfg") a).
  pose (gone := StatusError NotFound "not found").
  assert (Hp : passes {| atomicLevel := 0; key := "log-level" |} ("ns", "cfg")
                 ([read (Ok (levelConfig " 5 "))] ++ [read (Ok (levelConfig "loud"))] ++ [read (Err gone)] ++ []) [InfoLevel] [-5]).
  { eapply passes_more; [cbn [Reconcile runs]; exists (Ok (levelConfig " 5 ")), []; split; [reflexivity|]; vm_compute; split; reflexivity|].
    eapply passes_more; [cbn [Reconcile runs]; exists (Ok (levelConfig "loud")), []; split; [reflexivity|]; vm_compute; split; reflexivity|].
    eapply passes_more; [cbn [Reconcile runs]; exists (Err gone), []; split; [reflexivity|]; vm_compute; split; reflexivity|].
    constructor. }
  eexists _, [-5]. split; [exact Hp|].
  destruct (log_level_tracks_configmap {| opt_Level := None; opt_Development := false |} [] 0%nat
    {| opt_Level := Some (AtomicPtr 0%nat); opt_Development := false |} [InfoLevel] "ns" "cfg" "log-level" _ _ [-5]
    ltac:(intros b [H|H]; discriminate H) eq_refl eq_refl Hp) as (initial & Hi & _ & Hl & _).
  cbn in Hi. injection Hi as <-. exact Hl.
Defined.
