(* ===== verification/Startup.v ===== *)
(** * Start-up (cmd/main.go)

    [start] is the operator's [main] up to the start of the manager: flags and environment
    in, the assembled operator out, an error where the program exits with status 1.  What
    the manager answers to each registration is its argument [mgr]. *)

From Stdlib Require Import Ascii.
From S2P Require Import Prelude K8s Interact Policy Conditions ConfigHash Service Handshake GatewayApi NetworkPolicy Providers ProviderSafety HttpRoute Kuadrant ProviderRegistry TlsSettings LogLevel.

(** ** Flags *)

(** The command-line flags; [visited] are those given explicitly ([flag.Visit]). *)
Record Flags := {
  metricsAddr : string; metricsCertPath : string; metricsCertName : string; metricsCertKey : string;
  webhookCertPath : string; webhookCertName : string; webhookCertKey : string;
  enableLeaderElection : bool; probeAddr : string; secureMetrics : bool; enableHTTP2 : bool;
  loggingConfigMapName : string; loggingConfigMapNamespace : string; loggingConfigMapKey : string;
  enableWebhook : bool; imageAllowlist : string; requireImageDigest : bool; maxStorageMounts : Z;
  requiredLabels : string; disallowPrivilegedSecurityContext : bool;
  networkPolicyDefaultPosture : string;
  httprouteAllowedGatewayNamespaces : string; kuadrantAllowedExtensionNamespaces : string;
  zapOptions : Options;
  visited : list string
}.

Definition defaultFlags : Flags := {|
  metricsAddr := "0"; metricsCertPath := ""; metricsCertName := "tls.crt"; metricsCertKey := "tls.key";
  webhookCertPath := ""; webhookCertName := "tls.crt"; webhookCertKey := "tls.key";
  enableLeaderElection := false; probeAddr := ":8081"; secureMetrics := true; enableHTTP2 := false;
  loggingConfigMapName := defaultLoggingConfigMapName; loggingConfigMapNamespace := "";
  loggingConfigMapKey := defaultLoggingConfigMapKey;
  enableWebhook := false; imageAllowlist := ""; requireImageDigest := false; maxStorageMounts := -1;
  requiredLabels := ""; disallowPrivilegedSecurityContext := true;
  networkPolicyDefaultPosture := "open";
  httprouteAllowedGatewayNamespaces := ""; kuadrantAllowedExtensionNamespaces := "";
  zapOptions := {| opt_Level := None; opt_Development := false |};
  visited := []
|}.

Definition flagSet (flags : Flags) (name : string) : bool := existsb (String.eqb name) (visited flags).

(** ** Servers *)

(** A server's [tls.Config]: the settings of [TLSConfig] and the protocols it negotiates. *)
Record ServerTLS := { st_config : TLSConfig; st_nextProtos : list string }.

Definition disableHTTP2 (c : ServerTLS) : ServerTLS := {| st_config := st_config c; st_nextProtos := ["http/1.1"] |}.

Definition withProfile (p : TLSConfig -> TLSConfig) (c : ServerTLS) : ServerTLS :=
  {| st_config := p (st_config c); st_nextProtos := st_nextProtos c |}.

Definition serverTLSOpts (flags : Flags) (tlsCfg : tlsSettings) : list (ServerTLS -> ServerTLS) :=
  (if negb (enableHTTP2 flags) then [disableHTTP2] else [])
  ++ match tlsConfigFunc tlsCfg with Some p => [withProfile p] | None => [] end.

Definition applyTLSOpts (opts : list (ServerTLS -> ServerTLS)) (c : ServerTLS) : ServerTLS := fold_left (fun c f => f c) opts c.

(** [webhook.Options] *)
Record WebhookOptions := {
  wo_tlsOpts : list (ServerTLS -> ServerTLS);
  wo_certDir : string; wo_certName : string; wo_keyName : string
}.

(** [metricsserver.Options]; [mo_authFilter] when requests are authenticated and authorised. *)
Record MetricsOptions := {
  mo_bindAddress : string; mo_secureServing : bool; mo_authFilter : bool;
  mo_tlsOpts : list (ServerTLS -> ServerTLS);
  mo_certDir : string; mo_certName : string; mo_keyName : string
}.

Definition webhookServerOptions (flags : Flags) (opts : list (ServerTLS -> ServerTLS)) : WebhookOptions :=
  let given := (0 <? String.length (webhookCertPath flags))%nat in
  {| wo_tlsOpts := opts;
     wo_certDir := if given then webhookCertPath flags else "";
     wo_certName := if given then webhookCertName flags else "";
     wo_keyName := if given then webhookCertKey flags else "" |}.

Definition metricsServerOptions (flags : Flags) (opts : list (ServerTLS -> ServerTLS)) : MetricsOptions :=
  let given := (0 <? String.length (metricsCertPath flags))%nat in
  {| mo_bindAddress := metricsAddr flags; mo_secureServing := secureMetrics flags; mo_authFilter := secureMetrics flags;
     mo_tlsOpts := opts;
     mo_certDir := if given then metricsCertPath flags else "";
     mo_certName := if given then metricsCertName flags else "";
     mo_keyName := if given then metricsCertKey flags else "" |}.

(** ** Advisories *)

Definition openPostureStartupAdvisory (posture : string) : string :=
  if posture != PostureOpen then ""
  else "WARNING: NetworkPolicy default posture is " +:+ fmt.q "open" +:+ ": managed MCP servers that leave "
       +:+ "spec.network.ingressFrom unset are reachable from any pod in any namespace, which permits "
       +:+ "lateral movement on a multi-tenant cluster. Set spec.network.ingressFrom per server, or start "
       +:+ "the operator with --network-policy-default-posture=restricted, to limit ingress. Each server "
       +:+ "reports its effective posture in the NetworkPolicyRestricted status condition.".

Definition restrictedWithoutNamespace : string :=
  "Restricted NetworkPolicy posture is set but the operator namespace could not be "
  +:+ "determined; operator verification traffic to operands without an explicit ingress source will "
  +:+ "be blocked and they may never become Ready".

Definition noAdmissionRules : string :=
  "WARNING: validating admission webhook is enabled but no admission rules are "
  +:+ "configured; MCPServer specs are admitted without validation. Configure an image allowlist, "
  +:+ "digest pinning, storage-mount or securityContext policy to enforce admission.".

Definition webhookDisabled : string :=
  "WARNING: validating admission webhook is disabled (--enable-webhook=false); "
  +:+ "image allowlist, digest pinning, storage-mount and securityContext admission policies are "
  +:+ "NOT enforced. Enable the webhook in production to validate MCPServer specs.".

(** ** Assembly *)

Definition parseAdmissionFlags (getenv : string -> string) (imageAllowlist : string) (requireImageDigest : bool)
    (maxStorageMounts : Z) (requiredLabels : string)
    (disallowPrivilegedSecurityContext disallowPrivilegedSecurityContextSet : bool) : AdmissionPolicy :=
  ParseAdmissionPolicy getenv
    {| pf_ImageAllowlist := imageAllowlist; pf_RequireImageDigest := requireImageDigest;
       pf_MaxStorageMounts := maxStorageMounts; pf_RequiredLabels := requiredLabels;
       pf_DisallowPrivilegedSecurityContext := disallowPrivilegedSecurityContext;
       pf_DisallowPrivilegedSecurityContextSet := disallowPrivilegedSecurityContextSet |}.

Definition admissionPolicyOf (getenv : string -> string) (flags : Flags) : option AdmissionPolicy :=
  if enableWebhook flags then
    Some (parseAdmissionFlags getenv (imageAllowlist flags) (requireImageDigest flags) (maxStorageMounts flags)
            (requiredLabels flags) (disallowPrivilegedSecurityContext flags)
            (flagSet flags "disallow-privileged-security-context"))
  else None.

Definition hasRules (policy : option AdmissionPolicy) : bool :=
  match policy with Some p => HasActiveRules p | None => false end.

Definition newReconciler (scheme : kind -> option string) (host : Host) (flags : Flags) (posture : string)
    (tlsCfg : tlsSettings) : MCPServerReconciler :=
  {| Scheme := scheme; Recorder := true;
     TLSEnvVars := if strings.EqualFold (getenv host "PROPAGATE_TLS_ENV_VARS") "true" then envVars tlsCfg else [];
     TLSProfile := tlsConfigFunc tlsCfg;
     NetworkPolicyDefaultPosture := posture;
     OperatorNamespace := detectOperatorNamespace host;
     OperatorPodLabels := {[ "control-plane" := "controller-manager"; "app.kubernetes.io/name" := "mcp-lifecycle-operator" ]};
     WebhookEnabled := enableWebhook flags;
     AdmissionPolicyActive := enableWebhook flags && hasRules (admissionPolicyOf (getenv host) flags) |}.

(** The registrations that the manager may refuse. *)
Record Manager := {
  cacheOptions : option error; newManager : option error; setupReconciler : option error;
  providerEnv : ProviderRegistry.Env; setupWatcher : option error;
  alphaWebhook : option error; betaWebhook : option error;
  healthzCheck : option error; readyzCheck : option error; loggingController : option error
}.

(** The operator as it is when the manager starts. *)
Record Operator := {
  op_level : AtomicLevel; op_zap : Options; op_levels : Levels;
  op_webhookServer : WebhookOptions; op_metricsServer : MetricsOptions;
  op_reconciler : MCPServerReconciler;
  op_admission : option AdmissionPolicy;
  op_httproute : HttpRoute.Reconciler; op_kuadrant : Kuadrant.Reconciler;
  op_providers : crdWatcher;
  op_logging : option Watch;
  op_warnings : list string
}.

Definition proceed {A B} (m : result A) (f : A -> result B) : result B :=
  match m with Ok a => f a | Err e => Err e end.

Definition attempt {B} (err : option error) (next : result B) : result B :=
  match err with Some e => Err e | None => next end.

Section with_vendor.
Context `{V : Vendor} `{T : Toolchain}.

(** The entries the provider's package variable is set to. *)
Definition configureHTTPRouteProvider (getenv : string -> string) (allowedGatewayNamespaces : string) (flagSet : bool)
    : result (list string) :=
  let '(allowed, invalid, err) := ResolveAllowedGatewayNamespaces getenv allowedGatewayNamespaces flagSet in
  attempt err (Ok allowed).

Definition configureKuadrantProvider (getenv : string -> string) (allowedExtensionNamespaces : string) (flagSet : bool)
    : result (list string) :=
  let '(allowed, invalid, err) := ResolveAllowedExtensionNamespaces getenv allowedExtensionNamespaces flagSet in
  attempt err (Ok allowed).

(** The reconcilers the [Setup] functions of the providers build from their package variables. *)
Definition httprouteSetup (allowedGatewayNamespaces : list string) : HttpRoute.Reconciler :=
  {| AllowedGatewayNamespaces := allowedGatewayNamespaces |}.
Definition kuadrantSetup (allowedExtensionNamespaces : list string) : Kuadrant.Reconciler :=
  {| AllowedExtensionNamespaces := allowedExtensionNamespaces |}.

(** From the reconciler to the start of the manager. *)
Definition startControllers (host : Host) (flags : Flags) (logging : AtomicLevel * Options * Levels) (posture : string)
    (tlsOpts : list (ServerTLS -> ServerTLS)) (r : MCPServerReconciler) (mgr : Manager) : result Operator :=
  let '(level, zap, levels) := logging in
  let policy := admissionPolicyOf (getenv host) flags in
  attempt (setupReconciler mgr) (
  proceed (configureHTTPRouteProvider (getenv host) (httprouteAllowedGatewayNamespaces flags)
             (flagSet flags "httproute-allowed-gateway-namespaces")) (fun gateways =>
  proceed (configureKuadrantProvider (getenv host) (kuadrantAllowedExtensionNamespaces flags)
             (flagSet flags "kuadrant-allowed-extension-namespaces")) (fun extensions =>
  let '(watcher, err) := SetupAll (providerEnv mgr) (setupWatcher mgr) registry in
  attempt err (
  attempt (if enableWebhook flags then alphaWebhook mgr else None) (
  attempt (betaWebhook mgr) (
  attempt (healthzCheck mgr) (
  attempt (readyzCheck mgr) (
  proceed (setupLogLevelFromConfigMap level (resolveLoggingNamespace host (loggingConfigMapNamespace flags))
             (loggingConfigMapName flags) (loggingConfigMapKey flags)) (fun watch =>
  attempt (match watch with Some _ => loggingController mgr | None => None end) (
  let warn (b : bool) (msg : string) := if b then [msg] else [] in
  Ok {| op_level := level; op_zap := zap; op_levels := levels;
        op_webhookServer := webhookServerOptions flags tlsOpts;
        op_metricsServer := metricsServerOptions flags tlsOpts;
        op_reconciler := r; op_admission := policy;
        op_httproute := httprouteSetup gateways; op_kuadrant := kuadrantSetup extensions;
        op_providers := watcher; op_logging := watch;
        op_warnings := warn (openPostureStartupAdvisory posture != "") (openPostureStartupAdvisory posture)
          ++ warn ((posture == PostureRestricted) && (OperatorNamespace r == "")) restrictedWithoutNamespace
          ++ warn (enableWebhook flags && negb (hasRules policy)) noAdmissionRules
          ++ warn (negb (enableWebhook flags)) webhookDisabled |})))))))))).

Definition start (scheme : kind -> option string) (host : Host) (flags : Flags) (levels : Levels) (mgr : Manager) : result Operator :=
  let logging := startLogging (zapOptions flags) levels in
  proceed (ParseDefaultPosture (networkPolicyDefaultPosture flags)) (fun posture =>
  proceed (parseTLSSettings (getenv host)) (fun tlsCfg =>
  attempt (cacheOptions mgr) (
  attempt (newManager mgr) (
  startControllers host flags logging posture (serverTLSOpts flags tlsCfg) (newReconciler scheme host flags posture tlsCfg) mgr)))).

End with_vendor.

(** ** What a started operator is *)

Section started.
Context `{V : Vendor} `{T : Toolchain}.
Context (scheme : kind -> option string) (host : Host) (flags : Flags) (levels : Levels) (mgr : Manager).

(** The entries configured for the providers: of the flag if it was given, of the
    environment otherwise. *)
Definition gatewayEntries : list string :=
  ParseAllowedGatewayNamespaces (getenv host) (httprouteAllowedGatewayNamespaces flags)
    (flagSet flags "httproute-allowed-gateway-namespaces").
Definition extensionEntries : list string :=
  ParseAllowedExtensionNamespaces (getenv host) (kuadrantAllowedExtensionNamespaces flags)
    (flagSet flags "kuadrant-allowed-extension-namespaces").

Lemma proceed_Ok {A B} (m : result A) (f : A -> result B) b : proceed m f = Ok b -> exists a, m = Ok a /\ f a = Ok b.
Proof. destruct m; [eauto|done]. Qed.

Lemma attempt_Ok {B} err (next : result B) b : attempt err next = Ok b -> err = None /\ next = Ok b.
Proof. by destruct err. Qed.

Lemma In_warn (b : bool) (m x : string) : In x (if b then [m] else []) <-> b = true /\ m = x.
Proof. destruct b; cbn; intuition congruence. Qed.

Lemma warnings_distinct posture : posture = PostureOpen \/ posture = PostureRestricted ->
  openPostureStartupAdvisory posture <> noAdmissionRules /\ openPostureStartupAdvisory posture <> webhookDisabled /\
  restrictedWithoutNamespace <> noAdmissionRules /\ restrictedWithoutNamespace <> webhookDisabled /\ noAdmissionRules <> webhookDisabled.
Proof. intros [-> | ->]; split_and!; vm_compute; discriminate. Qed.

Lemma start_inv op :
  start scheme host flags levels mgr = Ok op ->
  exists posture tlsCfg gateways extensions,
    ParseDefaultPosture (networkPolicyDefaultPosture flags) = Ok posture /\
    parseTLSSettings (getenv host) = Ok tlsCfg /\
    configureHTTPRouteProvider (getenv host) (httprouteAllowedGatewayNamespaces flags)
      (flagSet flags "httproute-allowed-gateway-namespaces") = Ok gateways /\
    configureKuadrantProvider (getenv host) (kuadrantAllowedExtensionNamespaces flags)
      (flagSet flags "kuadrant-allowed-extension-namespaces") = Ok extensions /\
    op_reconciler op = newReconciler scheme host flags posture tlsCfg /\
    op_admission op = admissionPolicyOf (getenv host) flags /\
    wo_tlsOpts (op_webhookServer op) = serverTLSOpts flags tlsCfg /\
    mo_tlsOpts (op_metricsServer op) = serverTLSOpts flags tlsCfg /\
    AllowedGatewayNamespaces (op_httproute op) = gateways /\
    AllowedExtensionNamespaces (op_kuadrant op) = extensions /\
    SetupAll (providerEnv mgr) (setupWatcher mgr) registry = (op_providers op, None) /\
    (In noAdmissionRules (op_warnings op) <-> enableWebhook flags = true /\ hasRules (admissionPolicyOf (getenv host) flags) = false) /\
    (In webhookDisabled (op_warnings op) <-> enableWebhook flags = false).
Proof.
  unfold start, startControllers. destruct (startLogging _ _) as [[level zap] levels'].
  intros (posture & Hp & H)%proceed_Ok. apply proceed_Ok in H as (tlsCfg & Ht & H).
  do 3 apply attempt_Ok in H as [_ H]. apply proceed_Ok in H as (gateways & Hg & H). apply proceed_Ok in H as (extensions & He & H).
  destruct (SetupAll _ _ _) as [watcher err] eqn:Hs. apply attempt_Ok in H as [-> H]. do 4 apply attempt_Ok in H as [_ H].
  apply proceed_Ok in H as (watch & _ & H). apply attempt_Ok in H as [_ H].
  assert (Hop : forall x, Ok x = Ok op -> x = op) by congruence. apply Hop in H. clear Hop. subst op.
  exists posture, tlsCfg, gateways, extensions.
  assert (Hw : posture = PostureOpen \/ posture = PostureRestricted).
  { unfold ParseDefaultPosture in Hp. split_ifs_in Hp; try discriminate Hp; injection Hp as <-; auto. }
  split_and!; try done; cbn [op_warnings]; rewrite !in_app_iff, !In_warn, ?andb_true_iff, !negb_true_iff;
    apply warnings_distinct in Hw; intuition congruence.
Qed.

(** *** Allowlists *)

Lemma configureHTTPRouteProvider_spec value set :
  let entries := ParseAllowedGatewayNamespaces (getenv host) value set in
  match configureHTTPRouteProvider (getenv host) value set with
  | Ok allowed => allowed = List.filter ValidGatewayNamespace entries /\ (entries = [] <-> allowed = [])
  | Err _ => entries <> [] /\ List.filter ValidGatewayNamespace entries = []
  end.
Proof.
  unfold configureHTTPRouteProvider, ResolveAllowedGatewayNamespaces. cbn zeta.
  set (entries := ParseAllowedGatewayNamespaces _ _ _). clearbody entries.
  destruct entries as [|e l]; cbn [List.length Nat.ltb Nat.leb andb]; [by split|].
  destruct (List.filter ValidGatewayNamespace (e :: l)) as [|x k]; by split.
Qed.

Lemma configureKuadrantProvider_spec value set :
  let entries := ParseAllowedExtensionNamespaces (getenv host) value set in
  match configureKuadrantProvider (getenv host) value set with
  | Ok allowed => allowed = List.filter ValidExtensionNamespace entries /\ (entries = [] <-> allowed = [])
  | Err _ => entries <> [] /\ List.filter ValidExtensionNamespace entries = []
  end.
Proof.
  unfold configureKuadrantProvider, ResolveAllowedExtensionNamespaces, PartitionExtensionNamespaces. cbn zeta.
  set (entries := ParseAllowedExtensionNamespaces _ _ _). clearbody entries.
  destruct entries as [|e l]; cbn [List.length Nat.ltb Nat.leb andb]; [by split|].
  destruct (List.filter ValidExtensionNamespace (e :: l)) as [|x k]; by split.
Qed.

(** The allowlists of a started operator. *)
Lemma started_allowlists op :
  start scheme host flags levels mgr = Ok op ->
  AllowedGatewayNamespaces (op_httproute op) = List.filter ValidGatewayNamespace gatewayEntries /\
  (gatewayEntries = [] <-> AllowedGatewayNamespaces (op_httproute op) = []) /\
  AllowedExtensionNamespaces (op_kuadrant op) = List.filter ValidExtensionNamespace extensionEntries /\
  (extensionEntries = [] <-> AllowedExtensionNamespaces (op_kuadrant op) = []).
Proof.
  intros (posture & tlsCfg & gateways & extensions & _ & _ & Hg & He & _ & _ & _ & _ & -> & -> & _)%start_inv.
  pose proof (configureHTTPRouteProvider_spec (httprouteAllowedGatewayNamespaces flags) (flagSet flags "httproute-allowed-gateway-namespaces")) as H1.
  pose proof (configureKuadrantProvider_spec (kuadrantAllowedExtensionNamespaces flags) (flagSet flags "kuadrant-allowed-extension-namespaces")) as H2.
  cbn zeta in *. rewrite Hg in H1. rewrite He in H2. destruct H1, H2. by split_and!.
Qed.

(** C23: The trust controls fail closed.  If any entry is configured for a provider, by the
    flag or, when the flag is not given, by the environment, then the operator does not
    start at all unless one of them is a valid namespace, and a started operator's
    allowlist is the valid entries: a configured control never becomes unrestricted. *)
Theorem startup_fails_closed :
  match start scheme host flags levels mgr with
  | Err _ => True
  | Ok op =>
      (forall ns, In ns (AllowedGatewayNamespaces (op_httproute op)) <-> In ns gatewayEntries /\ ValidGatewayNamespace ns = true) /\
      (forall ns, In ns (AllowedExtensionNamespaces (op_kuadrant op)) <-> In ns extensionEntries /\ ValidExtensionNamespace ns = true) /\
      (gatewayEntries <> [] -> exists ns, In ns gatewayEntries /\ ValidGatewayNamespace ns = true) /\
      (extensionEntries <> [] -> exists ns, In ns extensionEntries /\ ValidExtensionNamespace ns = true) /\
      (AllowedGatewayNamespaces (op_httproute op) = [] -> gatewayEntries = []) /\
      (AllowedExtensionNamespaces (op_kuadrant op) = [] -> extensionEntries = [])
  end.
Proof.
  destruct (start scheme host flags levels mgr) as [op|] eqn:E; [|done].
  destruct (started_allowlists op E) as (Hg & Hg0 & He & He0).
  assert (Hex : forall (f : string -> bool) l, List.filter f l <> [] -> exists ns, In ns l /\ f ns = true).
  { intros f l Hl. destruct (List.filter f l) as [|x k] eqn:Ef; [done|]. exists x. apply filter_In. rewrite Ef. by left. }
  split_and!; [intros ns; by rewrite Hg, filter_In|intros ns; by rewrite He, filter_In| | |tauto..].
  - rewrite Hg0, Hg. apply Hex.
  - rewrite He0, He. apply Hex.
Qed.

(** *** Providers *)

Context {L : VendorLaws V}.

(** C14: End to end, an operator configured with gateway namespaces attaches HTTPRoutes, in
    any pass of its httproute provider and whatever the tenant's ConfigMap says, only to
    Gateways in namespaces among the configured entries; and one configured with
    extension namespaces writes routes and registrations, in any pass of its kuadrant
    provider, only after reading a ready extension from one of those. *)
Theorem started_providers_confined op req s tr res s' tr1 c a tr2 :
  start scheme host flags levels mgr = Ok op -> tr = tr1 ++ Ev c a :: tr2 ->
  (gatewayEntries <> [] -> runs (HttpRoute.Reconcile (op_httproute op) req s) tr (res, s') ->
   forall o, c = CCreate KHTTPRoute o \/ c = CUpdate KHTTPRoute o ->
   forall p, In p (hrs_parentRefs (route_spec o)) -> exists ns, pref_namespace p = Some ns /\ In ns gatewayEntries) /\
  (extensionEntries <> [] -> runs (Kuadrant.Reconcile (op_kuadrant op) req s) tr (res, s') ->
   forall k o, c = CCreate k o \/ c = CUpdate k o ->
   exists ns name ext, In ns extensionEntries /\ isExtensionReady ext = true /\ In (Ev (CGet Cached KExtension ns name) (Ok ext)) tr1).
Proof.
  intros Hs Htr. destruct (started_allowlists op Hs) as (Hg & Hg0 & He & He0). split.
  - intros Hne Hr o Hc p Hp.
    pose proof (mguard_runs _ _ _ _ _ _ _ _ _ (httproute_Reconcile_safe (op_httproute op) req) Hr Htr) as Hw.
    assert (Hd : desired_route (op_httproute op) req (rev tr1) KHTTPRoute o) by (destruct Hc as [-> | ->]; apply Hw).
    destruct Hd as (srv & data & g & n & hosts & ep & (b & cm & _ & _ & _ & _ & _ & (_ & _ & _ & _ & _ & _ & Ha)) & _ & _ & Hsp).
    rewrite Hsp in Hp. cbn in Hp. destruct Hp as [<-|Hp]; [|done]. exists n. split; [done|]. destruct Ha as [Ha|Ha]; [by apply Hg0 in Ha|].
    rewrite Hg in Ha. by apply filter_In in Ha as [? _].
  - intros Hne Hr k o Hc.
    pose proof (mguard_runs _ _ _ _ _ _ _ _ _ (kuadrant_Reconcile_safe (op_kuadrant op) req) Hr Htr) as Hw.
    assert (Hd : desired_object (op_kuadrant op) req (rev tr1) k o) by (destruct Hc as [-> | ->]; apply Hw).
    assert (Hx : exists srv cfg ext, extension_read (op_kuadrant op) req (rev tr1) srv cfg ext).
    { destruct k; try done; [destruct Hd as (srv & cfg & ext & ? & ? & ? & Hx & _)|destruct Hd as (srv & cfg & ext & ? & Hx & _)];
        by exists srv, cfg, ext. }
    destruct Hx as (srv & cfg & ext & (b & cm & _ & _ & _ & _ & _ & _ & _ & _ & _ & _ & Ha & _) & Hin & Hrdy).
    exists (pc_extensionNamespace cfg), (pc_extensionName cfg), ext. rewrite <- in_rev in Hin. split_and!; [|done..].
    destruct Ha as [Ha|Ha]; [by apply He0 in Ha|]. rewrite He in Ha. by apply filter_In in Ha as [? _].
Qed.

(** *** Admission *)

(** C24: What the operator reports about admission is true of the webhook it registered:
    PolicyEnforced=True exactly when that webhook rejects some MCPServer, and otherwise
    one of the two start-up warnings says why not. *)
Theorem startup_policy_enforced_truthful op :
  start scheme host flags levels mgr = Ok op ->
  (fst (fst (policyEnforced (op_reconciler op))) = ConditionTrue <-> exists srv, validate (op_admission op) srv <> []) /\
  (fst (fst (policyEnforced (op_reconciler op))) = ConditionTrue <->
     ~ In noAdmissionRules (op_warnings op) /\ ~ In webhookDisabled (op_warnings op)).
Proof.
  intros (posture & tlsCfg & gateways & extensions & _ & _ & _ & _ & -> & -> & _ & _ & _ & _ & _ & -> & ->)%start_inv.
  unfold policyEnforced, newReconciler, admissionPolicyOf. cbn [WebhookEnabled AdmissionPolicyActive].
  destruct (enableWebhook flags); cbn [negb andb hasRules fst snd].
  - unfold parseAdmissionFlags. rewrite <- active_rules_iff_rejects. destruct (HasActiveRules _);
      cbn [negb fst]; unfold ConditionTrue, ConditionFalse; intuition congruence.
  - cbn [validate]. unfold ConditionTrue, ConditionFalse. split; [split; [done|by intros [srv Hsrv]]|intuition congruence].
Qed.

(** *** TLS *)

Lemma parseTLSSettings_code tlsCfg :
  parseTLSSettings (getenv host) = Ok tlsCfg ->
  minVersionCode tlsCfg = parseTLSVersion (getenv host envTLSMinVersion) /\
  (getenv host envTLSGroups <> "" -> groupIDs tlsCfg <> []).
Proof.
  unfold parseTLSSettings. assert (Hv : 0 <= parseTLSVersion (getenv host envTLSMinVersion)).
  { unfold parseTLSVersion. repeat case_bool_decide; done. }
  destruct (parseCipherSuites _) as [ids names]. case_bool_decide as Hg; cbn [negb].
  - intros [= <-]. cbn. split; [|done]. destruct (Z.ltb_spec 0 (parseTLSVersion (getenv host envTLSMinVersion))); lia.
  - destruct (parseTLSGroups _) as [[|g gids] gnames]; cbn; [done|]. intros [= <-]. cbn. split; [|done].
    destruct (Z.ltb_spec 0 (parseTLSVersion (getenv host envTLSMinVersion))); lia.
Qed.

(** The options of both servers, on any configuration. *)
Lemma serverTLSOpts_spec tlsCfg c :
  let c' := applyTLSOpts (serverTLSOpts flags tlsCfg) c in
  st_nextProtos c' = (if enableHTTP2 flags then st_nextProtos c else ["http/1.1"]) /\
  st_config c' = match tlsConfigFunc tlsCfg with Some p => p (st_config c) | None => st_config c end.
Proof. unfold serverTLSOpts, applyTLSOpts. by destruct (enableHTTP2 flags), (tlsConfigFunc tlsCfg). Qed.

(** C38: The TLS environment reaches every TLS endpoint of a started operator: its webhook
    and metrics servers negotiate HTTP/1.1 only unless HTTP/2 is enabled, a recognised
    minimum version is theirs, a configured list of groups is never replaced by the
    default one, and no setting touches certificate verification, of the servers or of
    the handshakes the reconciler makes. *)
Theorem startup_tls_sound op c :
  start scheme host flags levels mgr = Ok op ->
  let c' := applyTLSOpts (wo_tlsOpts (op_webhookServer op)) c in
  applyTLSOpts (mo_tlsOpts (op_metricsServer op)) c = c' /\
  st_nextProtos c' = (if enableHTTP2 flags then st_nextProtos c else ["http/1.1"]) /\
  (parseTLSVersion (getenv host envTLSMinVersion) <> 0 ->
     tc_minVersion (st_config c') = parseTLSVersion (getenv host envTLSMinVersion)) /\
  (getenv host envTLSGroups <> "" -> tc_curvePreferences (st_config c') <> []) /\
  tc_insecureSkipVerify (st_config c') = tc_insecureSkipVerify (st_config c) /\
  tc_rootCAs (st_config c') = tc_rootCAs (st_config c) /\
  keeps_trust (op_reconciler op).
Proof.
  intros (posture & tlsCfg & _ & _ & _ & Ht & _ & _ & Hr & _ & Hw & Hm & _)%start_inv. cbn zeta.
  rewrite Hw, Hm. destruct (serverTLSOpts_spec tlsCfg c) as [Hn Hc]. cbn zeta in *. rewrite Hn, Hc.
  destruct (parseTLSSettings_code tlsCfg Ht) as [Hv Hg]. rewrite <- Hv.
  assert (Htrust : keeps_trust (op_reconciler op)).
  { rewrite Hr. intros p cfg Hp. by apply (tlsConfigFunc_trust tlsCfg). }
  assert (Hpos : 0 <= minVersionCode tlsCfg) by (rewrite Hv; unfold parseTLSVersion; repeat case_bool_decide; done).
  destruct (tlsConfigFunc tlsCfg) as [p|] eqn:Hp.
  - pose proof (tlsConfigFunc_trust tlsCfg p (st_config c) Hp) as [Hs Hroot]. rewrite Hs, Hroot.
    unfold tlsConfigFunc in Hp. destruct (_ && _ && _); [done|]. injection Hp as <-. cbn.
    split_and!; try done.
    + intros Hne. destruct (Z.ltb_spec 0 (minVersionCode tlsCfg)); [done|lia].
    + intros Hne. specialize (Hg Hne). by destruct (groupIDs tlsCfg).
  - unfold tlsConfigFunc in Hp. destruct (_ && _ && _) eqn:E; [|done]. bool_to_prop.
    split_and!; try done. intros Hne. specialize (Hg Hne). by destruct (groupIDs tlsCfg).
Qed.

End started.

(** ** A concrete start *)

Definition sampleHost : Host :=
  {| getenv := fun name => if name == podNamespaceEnvVar then " mcp-system "
                           else if name == envAllowedGatewayNamespaces then "edge, "
                           else if name == envAllowedExtensionNamespaces then "edge"
                           else if name == envTLSMinVersion then "VersionTLS13" else "";
     readFile := fun _ => None |}.

Definition readyManager : Manager :=
  {| cacheOptions := None; newManager := None; setupReconciler := None;
     providerEnv := {| restMapping := fun _ _ => Mapped; factory := fun _ => None |}; setupWatcher := None;
     alphaWebhook := None; betaWebhook := None; healthzCheck := None; readyzCheck := None; loggingController := None |}.

Definition withWebhook : Flags :=
  {| metricsAddr := metricsAddr defaultFlags; metricsCertPath := ""; metricsCertName := ""; metricsCertKey := "";
     webhookCertPath := ""; webhookCertName := ""; webhookCertKey := "";
     enableLeaderElection := true; probeAddr := probeAddr defaultFlags; secureMetrics := true; enableHTTP2 := false;
     loggingConfigMapName := defaultLoggingConfigMapName; loggingConfigMapNamespace := "";
     loggingConfigMapKey := defaultLoggingConfigMapKey;
     enableWebhook := true; imageAllowlist := ""; requireImageDigest := false; maxStorageMounts := -1;
     requiredLabels := ""; disallowPrivilegedSecurityContext := true; networkPolicyDefaultPosture := "Restricted";
     httprouteAllowedGatewayNamespaces := ""; kuadrantAllowedExtensionNamespaces := "";
     zapOptions := zapOptions defaultFlags; visited := ["enable-webhook"; "network-policy-default-posture"] |}.

Definition sampleStart : result Operator :=
  @start modelVendor go126 (Scheme sampleReconciler) sampleHost withWebhook [] readyManager.

Definition unstarted : Operator :=
  {| op_level := 0; op_zap := zapOptions defaultFlags; op_levels := [];
     op_webhookServer := webhookServerOptions defaultFlags []; op_metricsServer := metricsServerOptions defaultFlags [];
     op_reconciler := sampleReconciler; op_admission := None; op_httproute := httprouteSetup []; op_kuadrant := kuadrantSetup [];
     op_providers := {| pending := []; started := ∅; launches := [] |}; op_logging := None; op_warnings := [] |}.

Definition sampleOperator : Operator := match sampleStart with Ok op => op | Err _ => unstarted end.

Lemma sampleStart_ok : match sampleStart with Ok _ => true | Err _ => false end = true.
Proof. vm_compute. reflexivity. Qed.

Lemma sampleOperator_started : sampleStart = Ok sampleOperator.
Proof. pose proof sampleStart_ok as H. unfold sampleOperator. by destruct sampleStart. Qed.

Lemma startup_policy_enforced_truthful_witness :
  sampleStart = Ok sampleOperator /\
  (fst (fst (policyEnforced (op_reconciler sampleOperator))) = ConditionTrue <->
   exists srv, validate (op_admission sampleOperator) srv <> []).
Proof.
  split; [exact sampleOperator_started|].
  exact (proj1 (@startup_policy_enforced_truthful modelVendor go126 (Scheme sampleReconciler) sampleHost withWebhook [] readyManager
                  sampleOperator sampleOperator_started)).
Defined.

Definition emptyTLS : ServerTLS :=
  {| st_config := {| tc_minVersion := 0; tc_insecureSkipVerify := false; tc_rootCAs := None; tc_cipherSuites := []; tc_curvePreferences := [] |};
     st_nextProtos := ["h2"] |}.

Lemma startup_tls_sound_witness :
  sampleStart = Ok sampleOperator /\
  tc_minVersion (st_config (applyTLSOpts (wo_tlsOpts (op_webhookServer sampleOperator)) emptyTLS)) = VersionTLS13 /\
  st_nextProtos (applyTLSOpts (wo_tlsOpts (op_webhookServer sampleOperator)) emptyTLS) = ["http/1.1"].
Proof.
  split; [exact sampleOperator_started|].
  destruct (@startup_tls_sound modelVendor go126 (Scheme sampleReconciler) sampleHost withWebhook [] readyManager
              sampleOperator emptyTLS sampleOperator_started) as (_ & Hn & Hv & _).
  split; [exact (Hv ltac:(vm_compute; discriminate))|exact Hn].
Defined.

Lemma sampleOperator_httproute : op_httproute sampleOperator = HttpRoute.allowEdge.
Proof. vm_compute. reflexivity. Qed.

Definition samplePassTrace : list event := Eval vm_compute in fst (run_in sampleWorld samplePass emptyState).

Lemma samplePassTrace_run : fst (run_in sampleWorld samplePass emptyState) = samplePassTrace.
Proof. vm_compute. reflexivity. Qed.

Lemma samplePassTrace_update : exists tr1 o a tr2,
  samplePassTrace = tr1 ++ Ev (CUpdate KHTTPRoute o) a :: tr2 /\ List.length (hrs_parentRefs (route_spec o)) = 1%nat.
Proof. eexists [_; _; _; _; _; _], _, _, [_; _; _; _]. split; reflexivity. Qed.

(** The started operator's httproute provider updates a route with one parent, in "edge". *)
Lemma started_providers_confined_witness :
  exists tr1 o a tr2 p, fst (run_in sampleWorld samplePass emptyState) = tr1 ++ Ev (CUpdate KHTTPRoute o) a :: tr2 /\
    In p (hrs_parentRefs (route_spec o)) /\ exists ns, pref_namespace p = Some ns /\ In ns ["edge"].
Proof.
  destruct samplePassTrace_update as (tr1 & o & a & tr2 & Htr & Hlen).
  pose proof (run_in_runs sampleWorld samplePass emptyState) as Hrun. rewrite samplePassTrace_run in *.
  destruct (snd (run_in sampleWorld samplePass emptyState)) as [res s'].
  destruct (hrs_parentRefs (route_spec o)) as [|p ps] eqn:Hps; [discriminate Hlen|].
  exists tr1, o, a, tr2, p. split; [exact Htr|]. split; [rewrite Hps; left; reflexivity|].
  refine (proj1 (@started_providers_confined modelVendor go126 (Scheme sampleReconciler) sampleHost withWebhook [] readyManager
    modelVendor_laws sampleOperator ("ns", "srv-gateway-binding") emptyState samplePassTrace res s' tr1 _ a tr2
    sampleOperator_started Htr) _ _ o (or_intror eq_refl) p _).
  - vm_compute. discriminate.
  - rewrite sampleOperator_httproute. exact Hrun.
  - rewrite Hps. left. reflexivity.
Defined.
