(* ===== verification/Coverage.v ===== *)
(** * The coverage build (cmd/coverage.go, cmd/coverage_noop.go)

    The coverage-instrumented manager writes its counters while it runs.  Its code talks to
    the environment, the file system, the clock and the manager, and its flush loop ends only
    when the manager cancels it, so it is an interaction tree over [hostE].  [completes] is
    the set of its complete behaviours. *)

From S2P Require Import Prelude K8s Policy.
From ITree Require Import ITree.

(** ** Calls *)

(** What a [select] over [ctx.Done()] and [ticker.C] received. *)
Inductive Wake := Done | Tick.

Record coverageFlusher := { dir : string }.

(** [Stat] answers [info.IsDir()], [CreateTemp] the name of the file it opened.  [Exit] is
    the variable [osExit]: the process ends there, unless a test replaced it. *)
Inductive hostE : Type -> Type :=
| Getenv (name : string) : hostE string
| Stat (path : string) : hostE (result bool)
| CreateTemp (path pattern : string) : hostE (result string)
| Close (name : string) : hostE (option error)
| Remove (name : string) : hostE (option error)
| WriteMetaDir (path : string) : hostE (option error)
| WriteCountersDir (path : string) : hostE (option error)
| NewTicker (interval : Z) : hostE unit
| StopTicker : hostE unit
| Select : hostE Wake
| LogError (err : error) (msg : string) : hostE unit
| LogInfo (msg : string) : hostE unit
| Exit (code : Z) : hostE unit
| AddRunnable (r : coverageFlusher) : hostE (option error)
| StartManager : hostE (option error).

Abbreviation io := (itree hostE).
Abbreviation perform := (@ITree.trigger hostE _).

#[local] Instance io_ret : MRet io := fun A a => Ret a.
#[local] Instance io_bind : MBind io := fun A B f m => ITree.bind m f.

(** [if err != nil { setupLog.Error(err, msg) }] *)
Definition logOn (err : option error) (msg : string) : io unit :=
  match err with Some e => perform (LogError e msg) | None => mret tt end.

(** ** Flushing *)

Definition coverageFlushInterval : Z := 10 * 1000000000.

(** One iteration of the loop: [inr] when it returns. *)
Definition flushRound (flush : io (option error)) : io (unit + unit) :=
  woken ← perform Select;
  match woken with
  | Done =>
      err ← flush;
      logOn err "coverage: final counter flush failed" ;;
      perform StopTicker ;;
      mret (inr tt)
  | Tick =>
      err ← flush;
      logOn err "coverage: counter flush failed" ;;
      mret (inl tt)
  end.

Definition flushCoverageLoop (interval : Z) (flush : io (option error)) : io unit :=
  perform (NewTicker interval) ;;
  err ← flush;
  logOn err "coverage: initial counter flush failed" ;;
  ITree.iter (fun _ => flushRound flush) tt.

Definition Start (c : coverageFlusher) : io (option error) :=
  flushCoverageLoop coverageFlushInterval (perform (WriteCountersDir (dir c))) ;;
  mret None.

Definition NeedLeaderElection (c : coverageFlusher) : bool := false.

(** ** Enabling *)

Definition verifyCoverageDir (path : string) : io (option error) :=
  info ← perform (Stat path);
  match info with
  | Err e => mret (Some (Wrap "stat GOCOVERDIR: " e))
  | Ok false => mret (Some (Errorf ("GOCOVERDIR " +:+ fmt.q path +:+ " is not a directory")))
  | Ok true =>
      probe ← perform (CreateTemp path ".coverage-writable-");
      match probe with
      | Err e => mret (Some (Wrap ("GOCOVERDIR " +:+ fmt.q path +:+ " is not writable: ") e))
      | Ok name =>
          perform (Close name) ;;
          perform (Remove name) ;;
          mret None
      end
  end.

Definition coverageRunnable : io (option coverageFlusher) :=
  path ← perform (Getenv "GOCOVERDIR");
  if path == "" then mret None
  else
    unusable ← verifyCoverageDir path;
    match unusable with
    | Some err =>
        perform (LogError err "coverage: GOCOVERDIR is set but unusable") ;;
        perform (Exit 1) ;;
        mret None
    | None =>
        meta ← perform (WriteMetaDir path);
        match meta with
        | Some err =>
            perform (LogInfo "coverage instrumentation not enabled; skipping counter flushing") ;;
            mret None
        | None =>
            perform (LogInfo "coverage counter flushing enabled") ;;
            mret (Some {| dir := path |})
        end
    end.

(** The build tag [e2ecoverage] selects one of the two files. *)
Inductive Build := Production | E2ECoverage.

Definition startCoverageFlushing (build : Build) : io unit :=
  match build with
  | Production => mret tt
  | E2ECoverage =>
      runnable ← coverageRunnable;
      match runnable with
      | None => mret tt
      | Some c =>
          added ← perform (AddRunnable c);
          match added with
          | None => mret tt
          | Some err =>
              perform (LogError err "coverage: failed to register flushing runnable") ;;
              perform (Exit 1)
          end
      end
  end.

(** The end of [main]: everything else is set up, the manager starts. *)
Definition launch (build : Build) : io unit :=
  startCoverageFlushing build ;;
  perform (LogInfo "starting manager") ;;
  err ← perform StartManager;
  match err with
  | Some e => perform (LogError e "problem running manager") ;; perform (Exit 1)
  | None => mret tt
  end.

(** ** Behaviours *)

Inductive occurrence := Occ (X : Type) (e : hostE X) (x : X).
Arguments Occ {X} e x.

(** [finishes n t l r]: [t] returns [r] within [n] nodes, having performed [l]. *)
Fixpoint finishes {R} (n : nat) (t : io R) (l : list occurrence) (r : R) : Prop :=
  match n with
  | O => False
  | S n' =>
      match observe t with
      | RetF a => l = [] /\ a = r
      | TauF t' => finishes n' t' l r
      | VisF e k => exists x l', l = Occ e x :: l' /\ finishes n' (k x) l' r
      end
  end.

Definition completes {R} (t : io R) (l : list occurrence) (r : R) : Prop := exists n, finishes n t l r.

Lemma completes_observe {R} (t : io R) l r :
  completes t l r <->
  match observe t with
  | RetF a => l = [] /\ a = r
  | TauF t' => completes t' l r
  | VisF e k => exists x l', l = Occ e x :: l' /\ completes (k x) l' r
  end.
Proof.
  split.
  - intros [[|n] H]; [done|]. cbn in H. unfold completes. destruct (observe t); eauto.
    destruct H as (x & l' & ? & ?). eauto.
  - unfold completes. destruct (observe t) eqn:E; intros H.
    + exists 1%nat. cbn. by rewrite E.
    + destruct H as [n H]. exists (S n). cbn. by rewrite E.
    + destruct H as (x & l' & ? & n & H). exists (S n). cbn. rewrite E. eauto.
Qed.

Lemma completes_ret {R} (a r : R) l : completes (mret a) l r <-> l = [] /\ a = r.
Proof. by rewrite completes_observe. Qed.

Lemma completes_perform {X} (e : hostE X) l x : completes (perform e) l x <-> l = [Occ e x].
Proof.
  rewrite completes_observe. cbn. split.
  - intros (y & l' & -> & H). rewrite completes_observe in H. cbn in H. by destruct H as [-> ->].
  - intros ->. exists x, []. split; [done|]. by apply completes_observe.
Qed.

Lemma observe_bind {A B} (m : io A) (f : A -> io B) :
  observe (m ≫= f) =
  match observe m with
  | RetF a => observe (f a)
  | TauF m' => TauF (m' ≫= f)
  | VisF e k => VisF e (fun x => k x ≫= f)
  end.
Proof. unfold mbind, io_bind, ITree.bind, observe. cbn. unfold observe. by destruct (_observe m). Qed.

Lemma completes_bind {A B} (m : io A) (f : A -> io B) l r :
  completes (m ≫= f) l r <-> exists l1 l2 a, l = l1 ++ l2 /\ completes m l1 a /\ completes (f a) l2 r.
Proof.
  split.
  - intros [n H]. revert m l H. induction n as [|n IH]; intros m l H; [done|]. cbn in H. rewrite observe_bind in H.
    destruct (observe m) as [a|m'|X e k] eqn:E.
    + exists [], l, a. split_and!; [done|by apply completes_observe; rewrite E|]. by exists (S n).
    + apply IH in H as (l1 & l2 & a & -> & H1 & H2). exists l1, l2, a. split_and!; [done| |done].
      apply completes_observe. by rewrite E.
    + destruct H as (x & l' & -> & (l1 & l2 & a & -> & H1 & H2)%IH). exists (Occ e x :: l1), l2, a.
      split_and!; [done| |done]. apply completes_observe. rewrite E. eauto.
  - intros (l1 & l2 & a & -> & [n H1] & H2). revert m l1 H1. induction n as [|n IH]; intros m l1 H1; [done|].
    cbn in H1. rewrite completes_observe, observe_bind. destruct (observe m) as [b|m'|X e k].
    + destruct H1 as [-> ->]. by apply completes_observe in H2.
    + by apply IH.
    + destruct H1 as (x & l' & -> & H1). exists x, (l' ++ l2). split; [done|]. by apply IH.
Qed.

Lemma observe_iter {I R} (body : I -> io (I + R)) i :
  observe (ITree.iter body i) =
  observe (body i ≫= fun lr => match lr with inl j => Tau (ITree.iter body j) | inr x => mret x end).
Proof. done. Qed.

Lemma completes_iter {I R} (body : I -> io (I + R)) i l r :
  completes (ITree.iter body i) l r <->
  exists l1 l2 lr, l = l1 ++ l2 /\ completes (body i) l1 lr /\
    match lr with inl j => completes (ITree.iter body j) l2 r | inr x => l2 = [] /\ x = r end.
Proof.
  rewrite completes_observe, observe_iter, <- completes_observe, completes_bind.
  split; intros (l1 & l2 & lr & -> & H1 & H2); exists l1, l2, lr; (split_and!; [done..|]); destruct lr; try done.
  - by rewrite completes_observe in H2.
  - by apply completes_ret in H2.
  - by rewrite completes_observe.
  - by apply completes_ret.
Qed.

(** ** The flush loop *)

Definition logged (err : option error) (msg : string) : list occurrence :=
  match err with Some e => [Occ (LogError e msg) tt] | None => [] end.

(** One flush into [path], answered [err]. *)
Definition flushed (path msg : string) (err : option error) : list occurrence :=
  Occ (WriteCountersDir path) err :: logged err msg.

Definition ticked (path : string) (errs : list (option error)) : list occurrence :=
  concat (map (fun err => Occ Select Tick :: flushed path "coverage: counter flush failed" err) errs).

Definition cancelled (path : string) (err : option error) : list occurrence :=
  Occ Select Done :: flushed path "coverage: final counter flush failed" err ++ [Occ StopTicker tt].

Lemma completes_logOn err msg l r : completes (logOn err msg) l r <-> l = logged err msg.
Proof.
  destruct r. destruct err as [e|]; cbn [logOn logged]; [apply completes_perform|].
  rewrite completes_ret. intuition.
Qed.

(** Takes the behaviour of straight-line code apart. *)
Ltac taken_apart :=
  repeat match goal with
  | H : completes (_ ≫= _) _ _ |- _ => apply completes_bind in H as (? & ? & ? & -> & ? & ?)
  | H : completes (perform _) _ _ |- _ => apply completes_perform in H; subst
  | H : completes (ITree.trigger _) _ _ |- _ => apply completes_perform in H; subst
  | H : completes (mret _) _ _ |- _ => apply completes_ret in H as [-> H]; simplify_eq
  | H : completes (logOn _ _) _ _ |- _ => apply completes_logOn in H; subst
  end.

Lemma completes_flush {R} path msg (k : io R) l r :
  completes (err ← perform (WriteCountersDir path); logOn err msg ;; k) l r <->
  exists err l', l = flushed path msg err ++ l' /\ completes k l' r.
Proof.
  split.
  - intros H. taken_apart. eexists _, _. split; [|eassumption]. by rewrite app_assoc.
  - intros (err & l' & -> & H). apply completes_bind. exists [Occ (WriteCountersDir path) err], (logged err msg ++ l'), err.
    split_and!; [done|by apply completes_perform|]. apply completes_bind. exists (logged err msg), l', tt.
    split_and!; [done|by apply completes_logOn|done].
Qed.

Section loop.
Context (path : string).
Abbreviation flush := (perform (WriteCountersDir path)).

Lemma completes_round l lr :
  completes (flushRound flush) l lr <->
  match lr with
  | inl _ => exists err, l = Occ Select Tick :: flushed path "coverage: counter flush failed" err
  | inr _ => exists err, l = cancelled path err
  end.
Proof.
  unfold flushRound, cancelled. split.
  - intros H. apply completes_bind in H as (l1 & l2 & w & -> & ->%completes_perform & H).
    destruct w; apply completes_flush in H as (err & l' & -> & H); taken_apart; exists err; cbn; try rewrite app_nil_r; repeat match goal with x : () |- _ => destruct x end; done.
  - destruct lr as [[]|[]]; intros [err ->]; apply completes_bind.
    + exists [Occ Select Tick], (flushed path "coverage: counter flush failed" err), Tick.
      split_and!; [done|by apply completes_perform|]. apply completes_flush. exists err, [].
      split; [by rewrite app_nil_r|by apply completes_ret].
    + eexists [Occ Select Done], _, Done. split_and!; [done|by apply completes_perform|]. apply completes_flush.
      eexists err, _. split; [done|]. apply completes_bind. exists [Occ StopTicker tt], [], tt.
      split_and!; [done|by apply completes_perform|by apply completes_ret].
Qed.

Lemma completes_rounds l r :
  completes (ITree.iter (fun _ => flushRound flush) tt) l r <-> exists ticks last, l = ticked path ticks ++ cancelled path last.
Proof.
  split.
  - revert r. induction l as [l IH] using (induction_ltof1 _ (@length _)). intros r H.
    apply completes_iter in H as (l1 & l2 & lr & -> & H1%completes_round & H2). destruct lr as [[]|[]].
    + destruct H1 as [err ->]. apply IH in H2 as (ticks & last & ->).
      * exists (err :: ticks), last. cbn. by rewrite <- !app_assoc.
      * unfold ltof. cbn. rewrite length_app. lia.
    + destruct H1 as [last ->], H2 as [-> _]. exists [], last. by rewrite app_nil_r.
  - destruct r. intros (ticks & last & ->). induction ticks as [|err ticks IH]; apply completes_iter.
    + exists (cancelled path last), [], (inr tt). split_and!; [by rewrite app_nil_r|apply completes_round; eauto|done..].
    + eexists (_ :: flushed path _ err), _, (inl tt). split_and!; [|apply completes_round; eauto|exact IH].
      cbn. by rewrite <- !app_assoc.
Qed.

(** The complete behaviours of the flush loop: one flush at once, one after every tick, one
    after the cancellation, which is the last thing it waits for; a failed flush is logged
    and changes nothing else.  Whatever the flushes answer, each of these behaviours is
    possible: the loop returns when it is cancelled. *)
Theorem flush_loop_behaviour interval l r :
  completes (flushCoverageLoop interval flush) l r <->
  exists first ticks last,
    l = Occ (NewTicker interval) tt :: flushed path "coverage: initial counter flush failed" first
        ++ ticked path ticks ++ cancelled path last.
Proof.
  unfold flushCoverageLoop. split.
  - intros H. apply completes_bind in H as (l1 & l2 & [] & -> & ->%completes_perform & H).
    apply completes_flush in H as (first & l' & -> & (ticks & last & ->)%completes_rounds). by exists first, ticks, last.
  - intros (first & ticks & last & ->). apply completes_bind. eexists [Occ (NewTicker interval) tt], _, tt.
    split_and!; [done|by apply completes_perform|]. apply completes_flush. eexists first, _. split; [done|].
    apply completes_rounds. eauto.
Qed.

End loop.

(** ** Counting flushes *)

Definition isFlush (o : occurrence) : bool :=
  match o with Occ e _ => match e with WriteCountersDir _ => true | _ => false end end.
Definition isTick (o : occurrence) : bool :=
  match o with Occ e x => match e in hostE X return X -> bool with
                          | Select => fun w => match w with Tick => true | Done => false end
                          | _ => fun _ => false end x end.

Definition flushes (l : list occurrence) : nat := length (List.filter isFlush l).
Definition ticks (l : list occurrence) : nat := length (List.filter isTick l).

Lemma flushes_app l l' : flushes (l ++ l') = (flushes l + flushes l')%nat.
Proof. unfold flushes. by rewrite List.filter_app, length_app. Qed.

Lemma ticks_app l l' : ticks (l ++ l') = (ticks l + ticks l')%nat.
Proof. unfold ticks. by rewrite List.filter_app, length_app. Qed.

Lemma counts_flushed path msg err : flushes (flushed path msg err) = 1%nat /\ ticks (flushed path msg err) = 0%nat.
Proof. by destruct err. Qed.

Lemma counts_ticked path errs : flushes (ticked path errs) = length errs /\ ticks (ticked path errs) = length errs.
Proof.
  induction errs as [|err errs [IH1 IH2]]; [done|]. cbn [ticked map concat].
  rewrite flushes_app, ticks_app. unfold ticked in IH1, IH2. rewrite IH1, IH2. by destruct err.
Qed.

(** Counters are written once more than the loop was woken. *)
Corollary flush_count path interval l r :
  completes (flushCoverageLoop interval (perform (WriteCountersDir path))) l r -> flushes l = (ticks l + 2)%nat.
Proof.
  intros (first & errs & last & ->)%flush_loop_behaviour. rewrite (app_comm_cons _ _ (Occ _ _)), app_assoc.
  rewrite !flushes_app, !ticks_app. destruct (counts_ticked path errs) as [-> ->].
  destruct first, last; cbn; lia.
Qed.

(** ** Enabling *)

(** What precedes a flusher: the environment names a directory, a file could be created in
    it, which was removed again, and the binary is instrumented. *)
Definition enabled (path name : string) (closed removed : option error) : list occurrence :=
  [Occ (Getenv "GOCOVERDIR") path; Occ (Stat path) (Ok true); Occ (CreateTemp path ".coverage-writable-") (Ok name);
   Occ (Close name) closed; Occ (Remove name) removed; Occ (WriteMetaDir path) None;
   Occ (LogInfo "coverage counter flushing enabled") tt].

Definition isExit (o : occurrence) : bool := match o with Occ e _ => match e with Exit _ => true | _ => false end end.
Definition isStart (o : occurrence) : bool := match o with Occ e _ => match e with StartManager => true | _ => false end end.

Abbreviation exits l := (existsb isExit l).

Lemma verified path l res :
  completes (verifyCoverageDir path) l res ->
  exits l = false /\
  match res with
  | None => exists name closed removed,
      l = [Occ (Stat path) (Ok true); Occ (CreateTemp path ".coverage-writable-") (Ok name); Occ (Close name) closed; Occ (Remove name) removed]
  | Some _ => True
  end.
Proof.
  unfold verifyCoverageDir. intros H. apply completes_bind in H as (l1 & l2 & info & -> & ->%completes_perform & H).
  destruct info as [[]|e]; [|by taken_apart..].
  apply completes_bind in H as (l1 & l3 & probe & -> & ->%completes_perform & H). destruct probe as [name|e]; [|by taken_apart].
  taken_apart. split; [done|]. eexists _, _, _. reflexivity.
Qed.

(** A flusher is made exactly after the directory and the binary passed; the process exits
    exactly when GOCOVERDIR names a directory that did not. *)
Theorem coverage_decision l res :
  completes coverageRunnable l res ->
  match res with
  | Some c => exists name closed removed, dir c <> "" /\ l = enabled (dir c) name closed removed
  | None => exists path rest, l = Occ (Getenv "GOCOVERDIR") path :: rest /\
      (path = "" /\ rest = [] \/
       path <> "" /\ (exists checks err, completes (verifyCoverageDir path) checks (Some err) /\
         rest = checks ++ [Occ (LogError err "coverage: GOCOVERDIR is set but unusable") tt; Occ (Exit 1) tt]) \/
       path <> "" /\ exits rest = false /\ exists checks err, completes (verifyCoverageDir path) checks None /\
         firstn (S (length checks)) rest = checks ++ [Occ (WriteMetaDir path) (Some err)])
  end.
Proof.
  unfold coverageRunnable. intros H. apply completes_bind in H as (l1 & l2 & path & -> & ->%completes_perform & H).
  destruct (path == "") eqn:Ep; [apply bool_decide_eq_true in Ep|apply bool_decide_eq_false in Ep].
  { apply completes_ret in H as [-> <-]. exists path, []. auto. }
  apply completes_bind in H as (l1 & l3 & unusable & -> & Hv & H). destruct unusable as [err|].
  - taken_apart. exists path. eexists. split; [reflexivity|]. right. left. split; [done|]. exists l1, err. split; [done|].
    repeat match goal with x : () |- _ => destruct x end. done.
  - destruct (verified _ _ _ Hv) as (Hx & name & closed & removed & ->).
    apply completes_bind in H as (l1 & l4 & meta & -> & ->%completes_perform & H). destruct meta as [err|]; taken_apart.
    + exists path. eexists. split; [reflexivity|]. do 2 right. split_and!; [done|done|]. eexists _, err. by split; [exact Hv|].
    + exists name, closed, removed. split; [done|]. cbn. by repeat match goal with x : () |- _ => destruct x end.
Qed.

(** *** Composition with the start of the manager *)

Lemma app_free {l1 l2 : list occurrence} : exits (l1 ++ l2) = false -> exits l1 = false /\ exits l2 = false.
Proof. rewrite existsb_app. apply orb_false_iff. Qed.

(** A manager that runs, of the coverage build, has no GOCOVERDIR, or one it could write to:
    a directory in which a file was created and removed before anything else.  The
    production build does nothing but start the manager, whatever the environment is. *)
Theorem coverage_launch build l r :
  completes (launch build) l r -> exits l = false ->
  match build with
  | Production => exists msg, l = [Occ (LogInfo msg) tt; Occ StartManager None]
  | E2ECoverage => exists path rest, l = Occ (Getenv "GOCOVERDIR") path :: rest /\
      (path = "" \/
       exists name closed removed tail,
         rest = Occ (Stat path) (Ok true) :: Occ (CreateTemp path ".coverage-writable-") (Ok name)
                :: Occ (Close name) closed :: Occ (Remove name) removed :: tail)
  end.
Proof.
  unfold launch. intros (l1 & l2 & [] & -> & Hs & H)%completes_bind [Hx1 Hx2]%app_free. destruct build; cbn [startCoverageFlushing] in Hs.
  - apply completes_ret in Hs as [-> _]. exists "starting manager". cbn.
    apply completes_bind in H as (l1 & l3 & [] & -> & ->%completes_perform & H).
    apply completes_bind in H as (l1 & l4 & err & -> & ->%completes_perform & H). destruct err; taken_apart; [done|reflexivity].
  - apply completes_bind in Hs as (k1 & k2 & runnable & -> & Hr%coverage_decision & _). apply app_free in Hx1 as [Hk _].
    destruct runnable as [c|].
    + destruct Hr as (name & closed & removed & _ & ->). exists (dir c). eexists. split; [reflexivity|]. right.
      exists name, closed, removed. eexists. reflexivity.
    + destruct Hr as (path & rest & -> & [[-> ->]|[(_ & checks & err & _ & ->)|(_ & Hrest & checks & err & Hv & Hf)]]).
      * exists "". eexists. split; [reflexivity|by left].
      * change (exits (checks ++ [Occ (LogError err "coverage: GOCOVERDIR is set but unusable") tt; Occ (Exit 1) tt]) = false) in Hk.
        apply app_free in Hk as [_ Hk]. done.
      * exists path. eexists. split; [reflexivity|]. right. apply verified in Hv as (_ & name & closed & removed & ->).
        exists name, closed, removed. destruct rest as [|o1 [|o2 [|o3 [|o4 rest]]]]; try discriminate Hf.
        cbn in Hf. injection Hf as -> -> -> -> _. eexists. reflexivity.
Qed.

(** A coverage build whose directory is usable registers its flusher, then starts the manager. *)
Example coverage_launch_witness :
  let run := enabled "/cov" "/cov/.coverage-writable-1" None None
             ++ [Occ (AddRunnable {| dir := "/cov" |}) None; Occ (LogInfo "starting manager") tt; Occ StartManager None] in
  completes (launch E2ECoverage) run tt /\
  exists path rest, run = Occ (Getenv "GOCOVERDIR") path :: rest /\
    (path = "" \/
     exists name closed removed tail,
       rest = Occ (Stat path) (Ok true) :: Occ (CreateTemp path ".coverage-writable-") (Ok name)
              :: Occ (Close name) closed :: Occ (Remove name) removed :: tail).
Proof.
  intros run. assert (H : completes (launch E2ECoverage) run tt).
  { unfold run. repeat (apply completes_observe; hnf; eexists _, _; split; [reflexivity|]). by apply completes_observe. }
  split; [exact H|]. exact (coverage_launch E2ECoverage run tt H eq_refl).
Defined.
