(* ===== verification/OwnObjects.v ===== *)
(** * The objects of one MCPServer, as its reconciler may change them

    A cluster in which nobody but the operator writes the Deployment, Service,
    NetworkPolicy and binding of one MCPServer: [Home] holds what the operator governs of
    them, [served] what the API server may answer and do.  The steps say what an effective
    write makes of each object, computed from any object that agrees with what is stored;
    chains of steps come to rest ([within]). *)

From S2P Require Import Prelude K8s GatewayApi ApiAlpha ApiBeta StatusAC Interact Conditions AuditLog Ownership GoJSON Sha256 Metadata Service.
From S2P Require Import Gateway NetworkPolicy ConfigHash Deployment.

(** ** Chains that come to rest *)

Section rest.
Context {A : Type} (R : A -> A -> Prop).

(** From [x], at most [n] steps of any chain change anything. *)
Fixpoint within (n : nat) (x : A) : Prop :=
  forall y, R x y -> y = x \/ match n with O => False | S n' => within n' y end.

Lemma within_S n x : within n x -> within (S n) x.
Proof. revert x. induction n as [|n IH]; intros x H y Hy; destruct (H y Hy) as [->|Hn]; [by left|done|by left|right; by apply IH]. Qed.

Lemma within_rtc n x y : within n x -> rtc R x y -> y = x \/ exists m, n = S m /\ within m y.
Proof.
  intros Hn Hr. revert n Hn. induction Hr as [x|x y z Hxy _ IH]; intros n Hn; [by left|].
  destruct n as [|n]; cbn in Hn; destruct (Hn y Hxy) as [->|Hy]; [by apply IH|done|by apply IH|].
  right. exists n. split; [done|]. destruct (IH n Hy) as [->|(m & -> & Hz)]; [done|by apply within_S].
Qed.

(** How often consecutive elements of [x :: l] differ. *)
Fixpoint changes `{EqDecision A} (x : A) (l : list A) : nat :=
  match l with [] => O | y :: l' => ((if decide (y = x) then 0 else 1) + changes y l')%nat end.

Inductive chained : A -> list A -> Prop :=
| chained_nil x : chained x []
| chained_cons x y l : rtc R x y -> chained y l -> chained x (y :: l).

Lemma changes_within `{EqDecision A} n x l : within n x -> chained x l -> (changes x l <= n)%nat.
Proof.
  intros Hn Hl. revert n Hn. induction Hl as [x|x y l Hxy _ IH]; intros n Hn; cbn; [lia|].
  destruct (within_rtc n x y Hn Hxy) as [->|(m & -> & Hm)].
  - rewrite decide_True by done. by apply IH.
  - specialize (IH m Hm). destruct (decide (y = x)); lia.
Qed.

End rest.

(** ** What the operator governs *)

Definition full (m : gomap) : gomap := Some (view m).

(** Metadata without what the API server manages; nil and empty maps are one on the wire. *)
Definition governedMeta (m : ObjectMeta) : ObjectMeta :=
  {| om_name := om_name m; om_namespace := om_namespace m; om_uid := ""; om_resourceVersion := ""; om_generation := 0;
     om_deletionTimestamp := None; om_labels := full (om_labels m); om_annotations := full (om_annotations m);
     om_ownerReferences := om_ownerReferences m |}.

(** Without the status, a Service's type and allocated fields, and the annotations that the
    providers put on a binding: the operator writes those back as it read them. *)
Definition governed (k : kind) : obj k -> obj k :=
  match k return obj k -> obj k with
  | KDeployment => fun d =>
      {| dep_meta := governedMeta (dep_meta d); dep_replicas := dep_replicas d; dep_selector := dep_selector d;
         dep_template := {| pt_labels := full (pt_labels (dep_template d)); pt_annotations := full (pt_annotations (dep_template d));
                            pt_spec := pt_spec (dep_template d) |};
         dep_observedGeneration := 0; dep_readyReplicas := 0; dep_conditions := [] |}
  | KService => fun s =>
      {| svc_meta := governedMeta (svc_meta s); svc_type := ""; svc_selector := full (svc_selector s); svc_ports := svc_ports s;
         svc_sessionAffinity := svc_sessionAffinity s; svc_other := "" |}
  | KNetworkPolicy => fun n => {| np_meta := governedMeta (np_meta n); np_spec := np_spec n |}
  | KBinding => fun b =>
      {| mgb_meta := governedMeta (with_annotations None (mgb_meta b)); mgb_spec := mgb_spec b;
         mgb_status := {| mgb_url := ""; mgb_conditions := [] |} |}
  | _ => fun o => o
  end.

(** ** The cluster *)

(** Fields the API server fills in when they are left out. *)
Record Defaults := {
  d_replicas : option Z -> option Z;
  d_podSpec : PodSpec -> PodSpec;
  d_ports : list ServicePort -> list ServicePort;
  d_policy : NetworkPolicySpec -> NetworkPolicySpec
}.

(** What is stored of a written object. *)
Definition stored (D : Defaults) (k : kind) : obj k -> obj k :=
  match k return obj k -> obj k with
  | KDeployment => fun d => governed KDeployment
      {| dep_meta := dep_meta d; dep_replicas := d_replicas D (dep_replicas d); dep_selector := dep_selector d;
         dep_template := {| pt_labels := pt_labels (dep_template d); pt_annotations := pt_annotations (dep_template d);
                            pt_spec := d_podSpec D (pt_spec (dep_template d)) |};
         dep_observedGeneration := 0; dep_readyReplicas := 0; dep_conditions := [] |}
  | KService => fun s => governed KService
      {| svc_meta := svc_meta s; svc_type := svc_type s; svc_selector := svc_selector s; svc_ports := d_ports D (svc_ports s);
         svc_sessionAffinity := svc_sessionAffinity s; svc_other := svc_other s |}
  | KNetworkPolicy => fun n => governed KNetworkPolicy {| np_meta := np_meta n; np_spec := d_policy D (np_spec n) |}
  | k => governed k
  end.

Record Home := {
  hm_deployment : option Deployment;
  hm_service : option Service;
  hm_policy : option NetworkPolicy;
  hm_binding : option MCPGatewayBinding
}.

Definition home (k : kind) : Home -> option (obj k) :=
  match k return Home -> option (obj k) with
  | KDeployment => hm_deployment
  | KService => hm_service
  | KNetworkPolicy => hm_policy
  | KBinding => hm_binding
  | _ => fun _ => None
  end.

Definition put_home (k : kind) : option (obj k) -> Home -> Home :=
  match k return option (obj k) -> Home -> Home with
  | KDeployment => fun o H => {| hm_deployment := o; hm_service := hm_service H; hm_policy := hm_policy H; hm_binding := hm_binding H |}
  | KService => fun o H => {| hm_deployment := hm_deployment H; hm_service := o; hm_policy := hm_policy H; hm_binding := hm_binding H |}
  | KNetworkPolicy => fun o H => {| hm_deployment := hm_deployment H; hm_service := hm_service H; hm_policy := o; hm_binding := hm_binding H |}
  | KBinding => fun o H => {| hm_deployment := hm_deployment H; hm_service := hm_service H; hm_policy := hm_policy H; hm_binding := o |}
  | _ => fun _ H => H
  end.

(** A server read in different passes: its spec and identity stay. *)
Definition same_server (srv srv' : MCPServer) : Prop :=
  srv_spec srv' = srv_spec srv /\ om_name (srv_meta srv') = om_name (srv_meta srv) /\
  om_namespace (srv_meta srv') = om_namespace (srv_meta srv) /\ om_uid (srv_meta srv') = om_uid (srv_meta srv).

Definition own_name (srv : MCPServer) (k : kind) : string :=
  match k with KBinding => gatewayBindingName (om_name (srv_meta srv)) | _ => om_name (srv_meta srv) end.

Definition own_key (srv : MCPServer) (k : kind) (ns name : string) : Prop :=
  ns = om_namespace (srv_meta srv) /\ name = own_name srv k.

(** A read of an object that holds still: it, its absence, or a failure of the read. *)
Definition steady_read {A} (same : A -> Prop) (absent : Prop) (r : result A) : Prop :=
  match r with Ok o => same o | Err e => IsNotFound e = true -> absent end.

Section cluster.
Context (D : Defaults) (inputs : forall k, string -> string -> option (obj k)) (workload : option LabelSelector) (srv : MCPServer).

(** The server keeps its identity and spec, a workload it refers to its selector. *)
Definition keeps_identity_of (k : kind) (name : string) : result (obj k) -> Prop :=
  match k return result (obj k) -> Prop with
  | KDeployment => fun a => forall d, In name (extractWorkloadRefNames srv) -> a = Ok d -> dep_selector d = workload
  | KDaemonSet => fun a => forall d, In name (extractWorkloadRefNames srv) -> a = Ok d -> ds_selector d = workload
  | KStatefulSet => fun a => forall d, In name (extractWorkloadRefNames srv) -> a = Ok d -> sts_selector d = workload
  | KMCPServer => fun a => forall srv', a = Ok srv' -> same_server srv srv'
  | _ => fun _ => True
  end.

(** [served H c a H']: in a cluster that holds [H], the call [c] may answer [a] and leave
    [H'].  A write takes effect or not, whatever it answers. *)
Definition served (H : Home) (c : Call) : resp c -> Home -> Prop :=
  match c return resp c -> Home -> Prop with
  | CGet _ k ns name => fun a H' => H' = H /\
      (managed_kind k = true -> own_key srv k ns name ->
         steady_read (fun o => home k H = Some (governed k o)) (home k H = None) a) /\
      (k = KConfigMap \/ k = KSecret ->
         steady_read (fun o => inputs k ns name = Some o) (inputs k ns name = None) a) /\
      keeps_identity_of k name a
  | CCreate k o => fun _ H' => H' = H \/
      own_key srv k (om_namespace (meta_of k o)) (om_name (meta_of k o)) /\ home k H = None /\ H' = put_home k (Some (stored D k o)) H
  | CUpdate k o => fun _ H' => H' = H \/
      own_key srv k (om_namespace (meta_of k o)) (om_name (meta_of k o)) /\ home k H <> None /\ H' = put_home k (Some (stored D k o)) H
  | CDelete k o _ => fun _ H' => H' = H \/
      own_key srv k (om_namespace (meta_of k o)) (om_name (meta_of k o)) /\ H' = put_home k None H
  | CPatch _ _ _ | CUpdateStatus _ _ => fun _ _ => True
  | _ => fun _ H' => H' = H
  end.

(** Every run of [p] in a cluster that holds [H] ends with [Q]. *)
Fixpoint quietly {A} (p : prog A) (H : Home) (Q : A -> Home -> Prop) : Prop :=
  match p with
  | Ret a => Q a H
  | Do c k => forall a H', served H c a H' -> quietly (k a) H' Q
  end.

(** ... and one of its runs. *)
Fixpoint quiet_run {A} (p : prog A) (H : Home) (a : A) (H' : Home) : Prop :=
  match p with
  | Ret b => b = a /\ H' = H
  | Do c k => exists x H1, served H c x H1 /\ quiet_run (k x) H1 a H'
  end.

Lemma quietly_run {A} (p : prog A) H Q a H' : quietly p H Q -> quiet_run p H a H' -> Q a H'.
Proof. revert H. induction p as [b|c k IH]; intros H; cbn; [by intros ? [<- ->]|]. intros Hq (x & H1 & Hs & Hr). eauto. Qed.

Lemma quietly_mono {A} (p : prog A) H (Q Q' : A -> Home -> Prop) :
  quietly p H Q -> (forall a H', Q a H' -> Q' a H') -> quietly p H Q'.
Proof. revert H. induction p as [b|c k IH]; intros H; cbn; eauto. Qed.

Lemma quietly_bind {A B} (p : prog A) (f : A -> prog B) H Q :
  quietly p H (fun a H' => quietly (f a) H' Q) -> quietly (pbind p f) H Q.
Proof. revert H. induction p as [b|c k IH]; intros H; cbn; eauto. Qed.

(** The same on [M], from any memory. *)
Definition mquiet {A} (m : M A) (H : Home) (Q : A -> Home -> Prop) : Prop :=
  forall s, quietly (m s) H (fun '(a, _) H' => Q a H').

Lemma mquiet_ret {A} (a : A) H Q : Q a H -> mquiet (mret a) H Q.
Proof. by intros ? s. Qed.

Lemma mquiet_bind {A B} (m : M A) (f : A -> M B) H Q :
  mquiet m H (fun a H' => mquiet (f a) H' Q) -> mquiet (m ≫= f) H Q.
Proof. intros Hm s. apply quietly_bind. eapply quietly_mono; [apply Hm|]. intros [a s'] H' Hf. apply Hf. Qed.

Lemma mquiet_mono {A} (m : M A) H (Q Q' : A -> Home -> Prop) :
  mquiet m H Q -> (forall a H', Q a H' -> Q' a H') -> mquiet m H Q'.
Proof. intros Hm HQ s. eapply quietly_mono; [apply Hm|]. intros [a s']. auto. Qed.

Lemma mquiet_call c H (Q : resp c -> Home -> Prop) : (forall a H', served H c a H' -> Q a H') -> mquiet (call c) H Q.
Proof. intros HQ s. cbn. auto. Qed.

Lemma mquiet_state {B} (f : RState -> M B) H Q : (forall s, mquiet (f s) H Q) -> mquiet (get_state ≫= f) H Q.
Proof. intros Hf s. apply Hf. Qed.

Lemma mquiet_put s H (Q : unit -> Home -> Prop) : Q tt H -> mquiet (put_state s) H Q.
Proof. by intros ? s'. Qed.

(** What writes none of the objects leaves them, whatever it answers. *)
Definition harmless (c : Call) : Prop := match c with CApplyStatus _ _ _ => True | c => no_write c end.

Lemma mquiet_harmless {A} (m : M A) H : mcalls harmless m -> mquiet m H (fun _ H' => H' = H).
Proof.
  intros Hm s. specialize (Hm s). induction (m s) as [[a s']|c k IH]; cbn; [done|]. destruct Hm as [Hc Hk]. intros x H' Hs.
  assert (H' = H) as -> by (destruct c; try done; by destruct Hs). by apply IH.
Qed.

End cluster.

(** ** Metadata, up to what the API server manages *)

Lemma view_full m : view (full m) = view m.
Proof. done. Qed.

Lemma full_deleteKeys keys m : deleteKeys keys (full m) = full (deleteKeys keys m).
Proof. destruct m as [g|]; [done|]. unfold full. cbn. f_equal. by apply map_empty_difference. Qed.

Lemma full_deleteKey k m : deleteKey k (full m) = full (deleteKey k m).
Proof. destruct m as [g|]; [done|]. unfold full. cbn. by rewrite delete_empty. Qed.

Lemma full_if (b : bool) (m m' : gomap) : (if b then full m else full m') = full (if b then m else m').
Proof. by destruct b. Qed.

Lemma full_setKey k v g : full (setKey k v (Some g)) = setKey k v (Some g).
Proof. done. Qed.

Lemma governedMeta_eq o o' : governedMeta o = governedMeta o' <->
  om_name o = om_name o' /\ om_namespace o = om_namespace o' /\ om_ownerReferences o = om_ownerReferences o' /\
  view (om_labels o) = view (om_labels o') /\ view (om_annotations o) = view (om_annotations o').
Proof.
  unfold governedMeta, full. split; [intros H; injection H as ? ? Hl Ha ?; by split_and!|].
  by intros (-> & -> & -> & -> & ->).
Qed.

Lemma applyCustom_governed srv o :
  applyCustomObjectMetadata srv (governedMeta o) =
  match applyCustomObjectMetadata srv o with Ok o' => Ok (governedMeta o') | Err e => Err e end.
Proof.
  unfold applyCustomObjectMetadata. cbn [governedMeta om_labels om_annotations].
  change (recorded managedExtraLabels (full (om_annotations o))) with (recorded managedExtraLabels (om_annotations o)).
  destruct (recorded managedExtraLabels (om_annotations o)) as [curL|]; [|done].
  set (eL := filterReservedKeys _). set (eA := filterReservedAnnotationKeys _).
  rewrite full_deleteKeys, full_deleteKey.
  assert (Hp : forall l a l' a', (if view eL == curL then (full l, full a) else (full l', full a')) =
    (full (fst (if view eL == curL then (l, a) else (l', a'))), full (snd (if view eL == curL then (l, a) else (l', a'))))).
  { intros. by destruct (_ == _). }
  rewrite Hp. destruct (if view eL == curL then _ else _) as [l1 a1]. cbn [fst snd].
  change (recorded managedExtraAnnotations (full a1)) with (recorded managedExtraAnnotations a1).
  destruct (recorded managedExtraAnnotations a1) as [curA|]; [|done].
  rewrite full_deleteKeys, full_deleteKey, full_if. destruct (_ && _ && _ && _); [done|].
  rewrite !mergeMaps_orMake. cbn [view_full]. rewrite !view_full.
  by destruct (_ && _), (_ && _).
Qed.

Section metadata.
Context `{V : Vendor} {L : VendorLaws V}.

(** Owner and custom metadata applied to what they had been applied to before. *)
Lemma metadata_settled srv m0 m1 m2 n0 n1 n2 :
  extras_well_formed srv ->
  setController srv m0 = Ok m1 -> applyCustomObjectMetadata srv m1 = Ok m2 ->
  governedMeta n0 = governedMeta m2 ->
  setController srv n0 = Ok n1 -> applyCustomObjectMetadata srv n1 = Ok n2 ->
  n1 = n0 /\ governedMeta n2 = governedMeta m2.
Proof.
  intros Hwf Hs Ha Hg Hs' Ha'. apply governedMeta_eq in Hg as Hf. destruct Hf as (_ & Hns & Ho & _).
  destruct (applyCustom_meta _ _ _ Ha) as (_ & Hns2 & _ & _ & Ho2 & _).
  assert (n1 = n0) as ->.
  { unfold setController in Hs, Hs'. rewrite (SetControllerReference_again _ _ _ _ _ _ Hs) in Hs'; [congruence|congruence|].
    congruence. }
  split; [done|]. pose proof (applyCustom_governed srv n0) as H. rewrite Hg, applyCustom_governed, (applyCustom_idempotent _ _ _ Hwf Ha), Ha' in H.
  assert (Hok : forall a b : ObjectMeta, Ok a = Ok b -> b = a) by congruence. by apply Hok.
Qed.

Lemma recorded_governed srv o o' n :
  extras_well_formed srv -> applyCustomObjectMetadata srv o = Ok o' -> governedMeta n = governedMeta o' ->
  recorded managedExtraLabels (om_annotations n) = Ok (view (effL srv)) /\
  recorded managedExtraAnnotations (om_annotations n) = Ok (view (effA srv)).
Proof.
  intros Hwf Ha Hg. apply governedMeta_eq in Hg as (_ & _ & _ & _ & Hv). unfold recorded, mget. rewrite Hv.
  by apply (recorded_after srv o o').
Qed.

End metadata.

(** ** What each object may become

    One step of a slot is one effective write of the reconciler, computed from any object
    that agrees with what is stored. *)

Section steps.
Context `{V : Vendor} {L : VendorLaws V}.
Context (D : Defaults) (inputs : forall k, string -> string -> option (obj k)).
Context (r : MCPServerReconciler) (srv : MCPServer) (Hwf : extras_well_formed srv).

(** Metadata that the operator has written. *)
Definition meta_settled (n : ObjectMeta) : Prop :=
  exists m0 m1 m2, setController srv m0 = Ok m1 /\ applyCustomObjectMetadata srv m1 = Ok m2 /\ governedMeta n = governedMeta m2.

Lemma meta_settled_made m0 m1 m2 n :
  setController srv m0 = Ok m1 -> applyCustomObjectMetadata srv m1 = Ok m2 -> governedMeta n = governedMeta m2 -> meta_settled n.
Proof. intros. by exists m0, m1, m2. Qed.

Lemma meta_settled_again n n' n1 n2 :
  meta_settled n -> governedMeta n' = governedMeta n -> setController srv n' = Ok n1 -> applyCustomObjectMetadata srv n1 = Ok n2 ->
  n1 = n' /\ governedMeta n2 = governedMeta n.
Proof.
  intros (m0 & m1 & m2 & H0 & H1 & Hn) Hn' Hs Ha. rewrite Hn in *.
  by apply (metadata_settled srv m0 m1 m2 n' n1 n2).
Qed.

Lemma meta_settled_recorded n n' : meta_settled n -> governedMeta n' = governedMeta n ->
  recorded managedExtraLabels (om_annotations n') = Ok (view (effL srv)) /\
  recorded managedExtraAnnotations (om_annotations n') = Ok (view (effA srv)).
Proof. intros (m0 & m1 & m2 & _ & H1 & Hn) Hn'. eapply recorded_governed; [done|exact H1|congruence]. Qed.

Lemma applyCustom_settled n : meta_settled n -> exists o, applyCustomObjectMetadata srv n = Ok o /\ governedMeta o = governedMeta n.
Proof.
  intros (m0 & m1 & m2 & _ & H1 & Hn). pose proof (applyCustom_governed srv n) as H.
  rewrite Hn, applyCustom_governed, (applyCustom_idempotent _ _ _ Hwf H1) in H.
  destruct (applyCustomObjectMetadata srv n) as [o|e]; [|done]. exists o. split; [done|]. congruence.
Qed.

(** *** The Deployment *)

Fixpoint hashed_from (k : kind) (stream : string -> obj k -> string) (namespace : string) (names : list string)
    (h : string) (dataWritten : bool) : string * bool :=
  match names with
  | [] => (h, dataWritten)
  | name :: names' =>
      match inputs k namespace name with
      | None => hashed_from k stream namespace names' h dataWritten
      | Some o => hashed_from k stream namespace names' (h +:+ stream name o) true
      end
  end.

Definition config_hash : string :=
  let ns := om_namespace (srv_meta srv) in
  let hw1 := hashed_from KConfigMap configMapStream ns (sort_strings (extractConfigMapNames srv)) "" false in
  let hw := hashed_from KSecret secretStream ns (sort_strings (extractPodSecretNames srv)) (fst hw1) (snd hw1) in
  if snd hw then sha256.hex (fst hw) else "".

Definition with_hash (h : string) (d : Deployment) : Deployment :=
  if h != "" then with_template_annotations (setKey configHashAnnotation h (orMake (pt_annotations (dep_template d)))) d else d.

(** The Deployment the spec asks for. *)
Definition wanted_deployment (want : Deployment) : Prop :=
  exists d0 m, createDeployment r srv = Ok d0 /\ setController srv (dep_meta d0) = Ok m /\
    want = with_hash config_hash (with_dep_meta m d0).

Inductive deployment_step : option Deployment -> option Deployment -> Prop :=
| deployment_created want w :
    wanted_deployment want -> applyCustomDeploymentMetadata srv want = Ok w ->
    deployment_step None (Some (stored D KDeployment w))
| deployment_updated want base m w :
    wanted_deployment want -> setController srv (dep_meta base) = Ok m ->
    applyCustomDeploymentMetadata srv (withDesired want (with_dep_meta m base)) = Ok w ->
    deployment_step (Some (governed KDeployment base)) (Some (stored D KDeployment w)).

Lemma wanted_unique want want' : wanted_deployment want -> wanted_deployment want' -> want' = want.
Proof. intros (d0 & m & Hd & Hm & ->) (d0' & m' & Hd' & Hm' & ->). simplify_eq. congruence. Qed.

Lemma with_hash_meta h d : dep_meta (with_hash h d) = dep_meta d.
Proof. unfold with_hash. by destruct (_ != _). Qed.

Lemma wanted_meta want : wanted_deployment want ->
  (exists m, setController srv m = Ok (dep_meta want)) /\ om_annotations (dep_meta want) = None.
Proof.
  intros (d0 & m & Hd & Hm & ->). rewrite with_hash_meta. cbn. split; [eauto|].
  apply SetControllerReference_frame in Hm. rewrite Hm. cbn. unfold createDeployment in Hd. repeat case_match; by simplify_eq.
Qed.

(** The template after the custom metadata, when the records are those of the spec or none. *)
Lemma full_refresh cur eff m : cur = view eff \/ cur = ∅ -> full (refresh (Some cur) eff m) = Some (view eff ∪ view m).
Proof.
  intros Hc. unfold full. f_equal. destruct Hc as [->| ->].
  - unfold refresh. rewrite bool_decide_eq_true_2 by done. destruct (Nat.ltb_spec 0 (mlen eff)); [done|].
    unfold mlen in *. rewrite (map_size_empty_inv (view eff)) by lia. by rewrite (left_id_L ∅ (∪)).
  - apply refresh_disjoint. intros k _. apply lookup_empty.
Qed.

(** Written from up-to-date metadata. *)
Definition deployment_final (x : option Deployment) : Prop :=
  exists d want, x = Some d /\ governed KDeployment d = d /\ wanted_deployment want /\ meta_settled (dep_meta d) /\
    dep_replicas d = d_replicas D (dep_replicas want) /\
    dep_template d = {| pt_labels := Some (view (effL srv) ∪ view (pt_labels (dep_template want)));
                        pt_annotations := Some (view (effA srv) ∪ view (pt_annotations (dep_template want)));
                        pt_spec := d_podSpec D (pt_spec (dep_template want)) |}.

Lemma created_final x w : deployment_step None x -> x = Some w -> deployment_final x.
Proof.
  intros H. inversion H as [want w' Hw Ha|]; subst. intros _. destruct (wanted_meta _ Hw) as [[m Hm] Hann].
  pose proof (applyCustomDeployment_inv _ _ _ Ha) as (Hmeta & curL & curA & HL & HA & Hd). rewrite Hann in HL, HA.
  cbn in HL, HA. injection HL as <-. injection HA as <-.
  eexists _, want. split; [reflexivity|]. split; [done|]. split; [done|]. split_and!.
  - by apply (meta_settled_made m (dep_meta want) (dep_meta w')).
  - cbn. by rewrite Hd.
  - rewrite Hd. cbn. by rewrite !full_refresh by auto.
Qed.

Lemma updated_settled x d : deployment_step x (Some d) -> meta_settled (dep_meta d).
Proof.
  intros H. inversion H as [want w Hw Ha|want base m w Hw Hm Ha]; subst; apply applyCustomDeployment_inv in Ha as [Ha _].
  - destruct (wanted_meta _ Hw) as [[m Hm] _]. by apply (meta_settled_made m (dep_meta want) (dep_meta w)).
  - by apply (meta_settled_made (dep_meta base) m (dep_meta w)).
Qed.

(** A write over metadata that is up to date. *)
Lemma settled_final d y : meta_settled (dep_meta d) -> deployment_step (Some d) y ->
  deployment_final y /\ (deployment_final (Some d) -> y = Some d).
Proof.
  intros Hs H. inversion H as [|want base m w Hw Hm Ha]; subst. cbn [governed dep_meta] in Hs.
  pose proof (applyCustomDeployment_inv _ _ _ Ha) as (Hmeta & curL & curA & HL & HA & Hd).
  cbn [withDesired with_dep_meta dep_meta] in Hmeta, HL, HA. destruct (meta_settled_again _ (dep_meta base) _ _ Hs eq_refl Hm Hmeta) as [-> Hg].
  destruct (meta_settled_recorded _ (dep_meta base) Hs eq_refl) as [HL' HA']. rewrite HL' in HL. rewrite HA' in HA. injection HL as <-. injection HA as <-.
  assert (Hf : deployment_final (Some (stored D KDeployment w))).
  { eexists _, want. split; [reflexivity|]. split; [done|]. split; [done|]. split_and!.
    - by apply (meta_settled_made (dep_meta base) (dep_meta base) (dep_meta w)).
    - by rewrite Hd.
    - rewrite Hd. cbn. by rewrite !full_refresh by auto. }
  split; [exact Hf|]. intros (d1 & want1 & Hd1 & _ & Hw1 & _ & Hr1 & Ht1). injection Hd1 as <-.
  rewrite (wanted_unique _ _ Hw Hw1) in *. f_equal. cbn in Hr1, Ht1. rewrite Hd. unfold stored, governed. cbn.
  rewrite !full_refresh by auto. rewrite Ht1, Hr1. cbn in Hg. by rewrite Hg.
Qed.

Lemma deployment_within x : within deployment_step 2 x.
Proof.
  intros y Hxy. right. destruct y as [d|]; [|inversion Hxy]. apply updated_settled in Hxy as Hs.
  intros z Hyz. destruct (settled_final d z Hs Hyz) as [Hz _]. right. destruct z as [d2|]; [|inversion Hyz].
  apply updated_settled in Hyz as Hs2. intros t Hzt. left. by apply (settled_final d2 t).
Qed.

(** *** The Service *)

Context (selector : gomap).

Definition wanted_service (want : Service) : Prop :=
  exists m, setController srv (svc_meta (createService srv selector)) = Ok m /\ want = with_svc_meta m (createService srv selector).

Inductive service_step : option Service -> option Service -> Prop :=
| service_created want m :
    spec_serviceRef (srv_spec srv) = None -> wanted_service want -> applyCustomServiceMetadata srv (svc_meta want) = Ok m ->
    service_step None (Some (stored D KService (with_svc_meta m want)))
| service_updated want base m1 m2 :
    spec_serviceRef (srv_spec srv) = None -> wanted_service want ->
    setController srv (svc_meta base) = Ok m1 -> applyCustomServiceMetadata srv m1 = Ok m2 ->
    service_step (Some (governed KService base))
      (Some (stored D KService {| svc_meta := m2; svc_type := svc_type base; svc_selector := svc_selector want; svc_ports := svc_ports want;
                                  svc_sessionAffinity := svc_sessionAffinity want; svc_other := svc_other base |}))
| service_deleted base :
    spec_serviceRef (srv_spec srv) <> None -> service_step (Some base) None.

Definition service_final (s : Service) : Prop :=
  governed KService s = s /\ meta_settled (svc_meta s) /\
  exists want, wanted_service want /\ svc_selector s = full (svc_selector want) /\ svc_ports s = d_ports D (svc_ports want) /\
    svc_sessionAffinity s = svc_sessionAffinity want.

Lemma service_step_final x y : service_step x y ->
  match y with Some s => service_final s /\ spec_serviceRef (srv_spec srv) = None | None => spec_serviceRef (srv_spec srv) <> None end.
Proof.
  intros [want m Hr Hw Ha|want base m1 m2 Hr Hw Hm Ha|base Hr]; [..|done]; (split; [|done]); (split_and!; [done| |by exists want]).
  - destruct Hw as (m0 & Hm & ->). by apply (meta_settled_made (svc_meta (createService srv selector)) m0 m).
  - by apply (meta_settled_made (svc_meta base) m1 m2).
Qed.

Lemma service_within x : within service_step 1 x.
Proof.
  intros y Hxy. right. apply service_step_final in Hxy. destruct y as [s|]; cbn.
  - destruct Hxy as ((Hg & Hs & want & (m & Hm & Hw) & Hsel & Hp & Haff) & Hr). intros z Hz. left.
    inversion Hz as [|want' base m1 m2 _ (m' & Hm' & Hw') Hm1 Ha|]; [subst s|done].
    destruct (meta_settled_again _ (svc_meta base) _ _ Hs eq_refl Hm1 Ha) as [-> Hmeta].
    assert (want' = want) as -> by congruence. cbn in Hsel, Hp, Haff, Hmeta. unfold stored, governed. cbn.
    by rewrite Hmeta, Hsel, Hp, Haff.
  - intros z Hz. inversion Hz; done.
Qed.

(** *** The NetworkPolicy *)

Definition peers_from : list NetworkPolicyPeer :=
  if NetworkPolicyDefaultPosture r != PostureRestricted then []
  else match spec_gateway (srv_spec srv), ingressFrom srv with
  | Some gw, [] =>
      let configKey := if gw_provider gw == gatewayProviderHTTPRoute then Some gatewayConfigKeyNamespace
                       else if gw_provider gw == gatewayProviderKuadrant then Some kuadrantConfigKeyExtensionNamespace
                       else None in
      match configKey with
      | None => []
      | Some key =>
          let ns := if gw_configRef gw == "" then ""
                    else match inputs KConfigMap (om_namespace (srv_meta srv)) (gw_configRef gw) with
                         | None => ""
                         | Some cm => strings.TrimSpace (default "" (cm_data cm !! key))
                         end in
          if ns == "" then [] else [namespaceNamePeer ns]
      end
  | _, _ => []
  end.

Definition policy0 : NetworkPolicy := createNetworkPolicy r srv (operatorIngressPeers r srv ++ peers_from).

Definition wanted_policy (want : NetworkPolicy) : Prop :=
  exists m, setController srv (np_meta policy0) = Ok m /\ want = with_np_meta m policy0.

Definition relabelled (want : NetworkPolicy) (m : ObjectMeta) : ObjectMeta :=
  with_labels (Some (view (om_labels (np_meta want)) ∪ view (om_labels m))) m.

Inductive policy_step : option NetworkPolicy -> option NetworkPolicy -> Prop :=
| policy_created want m :
    wanted_policy want -> applyCustomNetworkPolicyMetadata srv (np_meta want) = Ok m ->
    policy_step None (Some (stored D KNetworkPolicy (with_np_meta m want)))
| policy_updated want base m1 m3 :
    wanted_policy want -> setController srv (np_meta base) = Ok m1 ->
    applyCustomNetworkPolicyMetadata srv (relabelled want m1) = Ok m3 ->
    policy_step (Some (governed KNetworkPolicy base)) (Some (stored D KNetworkPolicy {| np_meta := m3; np_spec := np_spec want |})).

Abbreviation managed_labels := (managedWorkloadLabels (om_name (srv_meta srv))).

Lemma wanted_policy_labels want : wanted_policy want ->
  om_labels (np_meta want) = Some managed_labels /\ np_spec want = np_spec policy0 /\ exists m, setController srv m = Ok (np_meta want).
Proof.
  intros (m & Hm & ->). split_and!; [|done|by eexists]. cbn. apply SetControllerReference_frame in Hm. by rewrite Hm.
Qed.

Lemma setController_relabelled a b l : setController srv a = Ok b -> setController srv (with_labels l b) = Ok (with_labels l b).
Proof. intros H. by apply (SetControllerReference_again _ _ _ _ _ _ H). Qed.

Lemma managed_effL_disjoint : managed_labels ##ₘ view (effL srv).
Proof.
  apply map_disjoint_spec. intros k x y Hx Hy. rewrite effL_reserved in Hy; [done|]. by eapply reserved_labels.
Qed.

(** The annotations do not depend on the labels. *)
Lemma applyCustom_relabelled o l o1 o2 :
  applyCustomObjectMetadata srv o = Ok o1 -> applyCustomObjectMetadata srv (with_labels l o) = Ok o2 ->
  om_annotations o2 = om_annotations o1.
Proof.
  unfold applyCustomObjectMetadata. cbn [with_labels om_annotations om_labels].
  destruct (recorded managedExtraLabels _) as [curL|]; [|done]. destruct (view _ == curL); cbv beta iota zeta;
    (destruct (recorded managedExtraAnnotations _) as [curA|]; [|done]); destruct (_ && _ && _ && _);
    rewrite ?mergeMaps_orMake; intros H1 H2; simplify_eq; done.
Qed.

Lemma managed_after_apply o o' : applyCustomObjectMetadata srv o = Ok o' ->
  (recorded managedExtraLabels (om_annotations o) = Ok (view (effL srv)) \/ recorded managedExtraLabels (om_annotations o) = Ok ∅) ->
  view (om_labels o') = view (effL srv) ∪ view (om_labels o).
Proof.
  intros Ha Hr. apply map_eq. intros k. rewrite lookup_union.
  destruct Hr as [Hr|Hr]; pose proof (applyCustom_labels _ _ _ _ k Ha Hr) as E; unfold mget, merged in E; rewrite E;
    destruct (view (effL srv) !! k); rewrite ?lookup_empty; unfold mget; by destruct (view (om_labels o) !! k).
Qed.

Definition policy_final (n : NetworkPolicy) : Prop :=
  governed KNetworkPolicy n = n /\ meta_settled (np_meta n) /\ managed_labels ⊆ view (om_labels (np_meta n)) /\
  np_spec n = d_policy D (np_spec policy0).

Lemma policy_step_settled x n : policy_step x (Some n) -> meta_settled (np_meta n) /\ (x = None -> policy_final n).
Proof.
  intros H. inversion H as [want m Hw Ha|want base m1 m3 Hw Hm Ha]; subst; destruct (wanted_policy_labels _ Hw) as (Hl & Hsp & m0 & Hm0).
  - assert (Hs : meta_settled (np_meta (stored D KNetworkPolicy (with_np_meta m want))))
      by (by apply (meta_settled_made m0 (np_meta want) m)).
    split; [exact Hs|]. intros _. split_and!; [done|exact Hs| |by cbn; rewrite Hsp].
    assert (Hann : om_annotations (np_meta want) = None).
    { destruct Hw as (m' & Hm' & ->). cbn. apply SetControllerReference_frame in Hm'. by rewrite Hm'. }
    cbn. rewrite (managed_after_apply _ _ Ha) by (rewrite Hann; by right). rewrite Hl. cbn.
    apply map_union_subseteq_r. symmetry. apply managed_effL_disjoint.
  - split; [|done]. apply (meta_settled_made (relabelled want m1) (relabelled want m1) m3); [|done..].
    by eapply setController_relabelled.
Qed.

Lemma policy_settled_final n y : meta_settled (np_meta n) -> policy_step (Some n) y ->
  exists n', y = Some n' /\ policy_final n' /\ (policy_final n -> n' = n).
Proof.
  intros Hs H. inversion H as [|want base m1 m3 Hw Hm Ha]; subst n y. cbn [governed np_meta] in Hs.
  destruct (wanted_policy_labels _ Hw) as (Hl & Hsp & _). unfold relabelled in Ha. rewrite Hl in Ha. cbn [view from_option id] in Ha.
  assert (Hb : meta_settled (np_meta base)) by exact Hs. destruct Hs as (k0 & k1 & k2 & Hk0 & Hk1 & Hk). pose proof (proj1 (governedMeta_eq _ _) Hk) as (_ & Hns & Ho & _).
  destruct (applyCustom_meta _ _ _ Hk1) as (_ & Hns2 & _ & _ & Ho2 & _).
  assert (m1 = np_meta base) as ->.
  { unfold setController in Hk0, Hm. cbn in Ho, Hns. rewrite (SetControllerReference_again _ _ _ _ _ _ Hk0) in Hm; congruence. }
  set (l := managed_labels ∪ view (om_labels (np_meta base))) in *.
  destruct (meta_settled_recorded (np_meta base) (np_meta base)) as [HrL HrA]; [done..|].
  destruct (merged_after _ _ _ Hk1) as [Hsub _]. apply governedMeta_eq in Hk as (_ & _ & _ & Hlab & Hann). rewrite <- Hlab in Hsub. cbn in Hsub.
  assert (Hview : view (om_labels m3) = l).
  { rewrite (managed_after_apply _ _ Ha) by (by left). cbn. fold l. unfold l.
    rewrite (map_union_assoc (view (effL srv))), (map_union_comm (view (effL srv))), <- (map_union_assoc managed_labels)
      by (symmetry; apply managed_effL_disjoint).
    rewrite (map_subseteq_union (view (effL srv))) by exact Hsub. done. }
  destruct (applyCustom_settled _ Hb) as (o1 & Ho1 & Hg1).
  apply governedMeta_eq in Hg1 as (_ & _ & _ & _ & Hann1).
  assert (Hg : governedMeta m3 = governedMeta (with_labels (Some l) (np_meta base))).
  { destruct (applyCustom_meta _ _ _ Ha) as (? & ? & _ & _ & ? & _). apply governedMeta_eq. split_and!; [done..|].
    by rewrite (applyCustom_relabelled _ _ _ _ Ho1 Ha). }
  eexists. split; [reflexivity|]. split.
  - split_and!; [done| | |by cbn; rewrite Hsp].
    + apply (meta_settled_made (with_labels (Some l) (np_meta base)) (with_labels (Some l) (np_meta base)) m3); [|done..].
      by apply (setController_relabelled (np_meta base)).
    + cbn. rewrite Hview. apply map_union_subseteq_l.
  - intros (_ & _ & Hman & Hspec). change (np_spec base = d_policy D (np_spec policy0)) in Hspec.
    change (managed_labels ⊆ view (om_labels (np_meta base))) in Hman.
    assert (Hsame : governedMeta m3 = governedMeta (np_meta base)).
    { rewrite Hg. apply governedMeta_eq. split_and!; [done..| |done]. cbn [with_labels om_labels view from_option id].
      unfold l. by rewrite (map_subseteq_union _ _ Hman). }
    unfold stored, governed. cbn [np_meta np_spec]. by rewrite Hsame, Hsp, Hspec.
Qed.

Lemma policy_within x : within policy_step 2 x.
Proof.
  intros y Hxy. right. destruct y as [n|]; [|inversion Hxy]. destruct (policy_step_settled _ _ Hxy) as [Hs _].
  intros z Hyz. right. destruct (policy_settled_final n z Hs Hyz) as (n' & -> & Hf & _).
  intros t Ht. left. destruct (policy_settled_final n' t (proj1 (proj2 Hf)) Ht) as (n2 & -> & _ & ->); done.
Qed.

(** *** The binding *)

Inductive binding_step : option MCPGatewayBinding -> option MCPGatewayBinding -> Prop :=
| binding_removed base : spec_gateway (srv_spec srv) = None -> binding_step (Some base) None
| binding_created gw m :
    spec_gateway (srv_spec srv) = Some gw -> setController srv (mgb_meta (desiredBinding srv gw)) = Ok m ->
    binding_step None (Some (stored D KBinding (with_mgb_meta m (desiredBinding srv gw))))
| binding_replaced gw base :
    spec_gateway (srv_spec srv) = Some gw -> mgb_provider (mgb_spec base) <> gw_provider gw ->
    binding_step (Some (governed KBinding base)) None
| binding_updated gw base :
    spec_gateway (srv_spec srv) = Some gw ->
    binding_step (Some (governed KBinding base))
      (Some (stored D KBinding {| mgb_meta := mgb_meta base; mgb_spec := mgb_spec (desiredBinding srv gw); mgb_status := mgb_status base |})).

Definition binding_final (b : MCPGatewayBinding) : Prop :=
  exists gw, spec_gateway (srv_spec srv) = Some gw /\ mgb_spec b = mgb_spec (desiredBinding srv gw).

Lemma binding_step_final x b : binding_step x (Some b) -> binding_final b.
Proof. intros H. inversion H; subst; by eexists. Qed.

Lemma binding_final_step b y : binding_final b -> binding_step (Some b) y -> y = Some b.
Proof.
  intros (gw & Hgw & Hb) H. inversion H as [base Hn|gw' m Hg|gw' base Hg Hp|gw' base Hg]; subst; try congruence.
  - cbn in Hb. assert (gw' = gw) as -> by congruence. by rewrite Hb in Hp.
  - assert (gw' = gw) as -> by congruence. cbn in Hb. unfold stored, governed. cbn. by rewrite Hb.
Qed.

Lemma binding_within x : within binding_step 2 x.
Proof.
  intros y Hxy. right. destruct y as [b|].
  - intros z Hz. left. eapply binding_final_step; [by eapply binding_step_final|done].
  - intros z Hz. right. inversion Hz as [|gw m| |]; subst. intros t Ht. left. eapply binding_final_step; [by eapply binding_step_final|done].
Qed.

End steps.
