(* ===== verification/OwnWrites.v ===== *)
(** * The operator's own writes come to rest

    Whole passes of the MCPServer reconciler in the cluster of [OwnObjects].  Everything but
    the four objects, the server's spec and the inputs is arbitrary in every pass: statuses,
    Pods, dials, the clock, failures of any call, and the memory of the reconciler.  However
    many passes run, each of the four objects changes at most twice, so the watches on them
    cannot keep the operator busy. *)

From S2P Require Import Prelude K8s GatewayApi ApiAlpha ApiBeta StatusAC Interact Conditions AuditLog Ownership GoJSON Sha256 Metadata Service.
From S2P Require Import Gateway NetworkPolicy Validation ConfigHash Deployment Handshake Byo Reconcile Lifecycle OwnObjects.

(** ** The passes *)

(** [SetControllerReference] takes the owner's name, namespace and UID only. *)
Class OwnerIdentity (V : Vendor) : Prop :=
  SetControllerReference_identity : forall av k o o' m,
    om_name o' = om_name o -> om_namespace o' = om_namespace o -> om_uid o' = om_uid o ->
    SetControllerReference av k o' m = SetControllerReference av k o m.

(** The server as the steps see it. *)
Definition anonymous (srv : MCPServer) : MCPServer :=
  {| srv_meta := {| om_name := om_name (srv_meta srv); om_namespace := om_namespace (srv_meta srv); om_uid := om_uid (srv_meta srv);
                    om_resourceVersion := ""; om_generation := 0; om_deletionTimestamp := None; om_labels := None;
                    om_annotations := None; om_ownerReferences := [] |};
     srv_spec := srv_spec srv; srv_status := zeroStatus |}.

Lemma same_anonymous srv srv' : same_server srv srv' -> anonymous srv' = anonymous srv.
Proof. unfold anonymous. by intros (-> & -> & -> & ->). Qed.

Section passes.
Context `{V : Vendor} {L : VendorLaws V} {I : OwnerIdentity V}.
Context (D : Defaults) (inputs : forall k, string -> string -> option (obj k)) (workload : option LabelSelector).
Context (r : MCPServerReconciler) (srv : MCPServer).

Definition service_selector : gomap :=
  match spec_workloadRef (srv_spec srv) with
  | Some _ => option_map ls_matchLabels workload
  | None => Some (managedWorkloadSelector (om_name (srv_meta srv)))
  end.

(** One effective write. *)
Inductive drift (H : Home) : Home -> Prop :=
| drift_deployment y : deployment_step D inputs r srv (hm_deployment H) y -> drift H (put_home KDeployment y H)
| drift_service y : service_step D srv service_selector (hm_service H) y -> drift H (put_home KService y H)
| drift_policy y : policy_step D inputs r srv (hm_policy H) y -> drift H (put_home KNetworkPolicy y H)
| drift_binding y : binding_step D srv (hm_binding H) y -> drift H (put_home KBinding y H).

Abbreviation drifts := (rtc drift).
Abbreviation quiet_in := (mquiet D inputs workload srv).

Definition mdrifts {A} (m : M A) : Prop := forall H, quiet_in m H (fun _ H' => drifts H H').

Lemma mdrifts_bind {A B} (m : M A) (f : A -> M B) : mdrifts m -> (forall a, mdrifts (f a)) -> mdrifts (m ≫= f).
Proof.
  intros Hm Hf H. apply mquiet_bind. eapply mquiet_mono; [apply Hm|]. intros a H1 H01. eapply mquiet_mono; [apply Hf|].
  intros b H2 H12. by transitivity H1.
Qed.

Lemma mdrifts_harmless {A} (m : M A) : mcalls harmless m -> mdrifts m.
Proof. intros Hm H. eapply mquiet_mono; [by apply mquiet_harmless|]. by intros a H' ->. Qed.

Lemma mquiet_after {A B} (m : M A) (f : A -> M B) H Q :
  mcalls harmless m -> (forall a, quiet_in (f a) H Q) -> quiet_in (m ≫= f) H Q.
Proof. intros Hm Hf. apply mquiet_bind. eapply mquiet_mono; [by apply mquiet_harmless|]. by intros a H' ->. Qed.

Lemma no_write_harmless c : no_write c -> harmless c.
Proof. by destruct c. Qed.

Lemma harmless_outputs {A} (m : M A) : mcalls outputs m -> mcalls harmless m.
Proof. apply mcalls_mono. by intros []. Qed.

Lemma harmless_quiet {A} srv' (m : M A) : mcalls (quiet_call srv') m -> mcalls harmless m.
Proof. apply mcalls_mono. intros c [_ H]. by apply no_write_harmless. Qed.

(** *** The server of a pass *)

Context (srv' : MCPServer) (Hsame : same_server srv srv').

Lemma same_setController o : setController srv' o = setController srv o.
Proof. destruct Hsame as (_ & ? & ? & ?). by apply SetControllerReference_identity. Qed.

Ltac by_anonymous :=
  match goal with |- ?f srv' = _ => change (f (anonymous srv') = f (anonymous srv)) end; by rewrite (same_anonymous _ _ Hsame).

Lemma same_createDeployment : createDeployment r srv' = createDeployment r srv.
Proof. by_anonymous. Qed.
Lemma same_createService : createService srv' = createService srv.
Proof. by_anonymous. Qed.
Lemma same_policy : createNetworkPolicy r srv' = createNetworkPolicy r srv.
Proof. by_anonymous. Qed.
Lemma same_operatorIngressPeers : operatorIngressPeers r srv' = operatorIngressPeers r srv.
Proof. by_anonymous. Qed.
Lemma same_desiredBinding : desiredBinding srv' = desiredBinding srv.
Proof. by_anonymous. Qed.
Lemma same_applyCustom : applyCustomObjectMetadata srv' = applyCustomObjectMetadata srv.
Proof. by_anonymous. Qed.
Lemma same_applyCustomDeployment : applyCustomDeploymentMetadata srv' = applyCustomDeploymentMetadata srv.
Proof. by_anonymous. Qed.
Lemma same_config_hash : config_hash inputs srv' = config_hash inputs srv.
Proof. match goal with |- _ = _ => change (config_hash inputs (anonymous srv') = config_hash inputs (anonymous srv)) end. by rewrite (same_anonymous _ _ Hsame). Qed.
Lemma same_peers_from : peers_from inputs r srv' = peers_from inputs r srv.
Proof. change (peers_from inputs r (anonymous srv') = peers_from inputs r (anonymous srv)). by rewrite (same_anonymous _ _ Hsame). Qed.

(** *** Reads of inputs *)

Lemma quiet_read {B} rd k ns name (f : result (obj k) -> M B) H Q :
  (forall a, served D inputs workload srv H (CGet rd k ns name) a H -> quiet_in (f a) H Q) ->
  quiet_in (call (CGet rd k ns name) ≫= f) H Q.
Proof.
  intros Hf. apply mquiet_bind, mquiet_call. intros a H' Hs. assert (H' = H) as -> by (by destruct Hs). by apply Hf.
Qed.

Lemma quiet_hashObjects k stream ns names h w H :
  k = KConfigMap \/ k = KSecret ->
  quiet_in (hashObjects k stream ns names h w) H
    (fun res H' => H' = H /\ forall x, res = Ok x -> x = hashed_from inputs k stream ns names h w).
Proof.
  intros Hk. revert h w. induction names as [|n names IH]; intros h w; cbn [hashObjects hashed_from].
  - apply mquiet_ret. split; [done|]. congruence.
  - apply quiet_read. intros a (_ & _ & Hin & _). specialize (Hin Hk). destruct a as [o|e]; cbn in Hin.
    + rewrite Hin. apply IH.
    + destruct (IsNotFound e); [rewrite (Hin eq_refl); apply IH|]. by apply mquiet_ret.
Qed.

Lemma quiet_applyConfigHash d H :
  quiet_in (applyConfigHash srv' d) H
    (fun res H' => H' = H /\ forall d', res = Ok d' -> d' = with_hash (config_hash inputs srv) d).
Proof.
  rewrite <- same_config_hash. unfold applyConfigHash. apply mquiet_bind.
  apply (mquiet_mono _ _ _ _ _ _ (fun res H' => H' = H /\ forall x, res = Ok x -> x = config_hash inputs srv')).
  - unfold computeConfigHash, config_hash. cbn zeta.
    destruct (_ && _) eqn:E.
    { apply mquiet_ret. split; [done|]. intros x [= <-]. apply andb_true_iff in E as [E1 E2]. apply Nat.eqb_eq in E1, E2.
      apply nil_length_inv in E1, E2. rewrite E1, E2. done. }
    apply mquiet_bind. eapply mquiet_mono; [apply quiet_hashObjects; by left|]. intros [x|e] H' [-> Hx]; [|by apply mquiet_ret].
    rewrite <- (Hx x eq_refl). apply mquiet_bind. eapply mquiet_mono; [apply quiet_hashObjects; by right|].
    intros [y|e] H' [-> Hy]; [|by apply mquiet_ret]. rewrite <- (Hy y eq_refl).
    destruct (snd y); apply mquiet_ret; split; try done; congruence.
  - intros [h|e] H' [-> Hh]; [|by apply mquiet_ret]. rewrite <- (Hh h eq_refl). unfold with_hash.
    destruct (h != ""); apply mquiet_ret; split; try done; congruence.
Qed.

(** *** The Deployment *)

Lemma drifts_put H H' : H' = H \/ drift H H' -> drifts H H'.
Proof. intros [->|Hd]; [reflexivity|by apply rtc_once]. Qed.

Lemma drifts_reconcileDeployment : mdrifts (reconcileDeployment r srv').
Proof.
  intros H. unfold reconcileDeployment. rewrite same_createDeployment.
  destruct (createDeployment r srv) as [d0|e] eqn:Ed; [|by apply mquiet_ret].
  rewrite same_setController. destruct (setController srv (dep_meta d0)) as [m|e] eqn:Em; [|by apply mquiet_ret].
  apply mquiet_bind. eapply mquiet_mono; [apply quiet_applyConfigHash|]. intros [want|e] H' [-> Hw]; [|by apply mquiet_ret].
  specialize (Hw want eq_refl). assert (Hwant : wanted_deployment inputs r srv want) by (by exists d0, m).
  assert (Hkey : own_key srv KDeployment (om_namespace (dep_meta want)) (om_name (dep_meta want))).
  { rewrite Hw, with_hash_meta. cbn. apply SetControllerReference_frame in Em. rewrite Em. unfold createDeployment in Ed.
    repeat case_match; by simplify_eq. }
  apply quiet_read. intros got (_ & Hown & _). specialize (Hown eq_refl Hkey). destruct got as [ex|e]; cbn in Hown.
  - apply mquiet_after; [apply harmless_outputs, validateOwnership_outputs|]. intros [e|]; [by apply mquiet_ret|].
    rewrite same_setController. destruct (setController srv (dep_meta ex)) as [m1|e] eqn:Em1; [|by apply mquiet_ret].
    destruct (deploymentNeedsUpdate _ _ _ _); [|by apply mquiet_ret]. rewrite same_applyCustomDeployment.
    destruct (applyCustomDeploymentMetadata srv _) as [d|e] eqn:Ea; [|by apply mquiet_ret].
    apply mquiet_bind, mquiet_call. intros updated H' Hs.
    assert (Hd : drifts H H').
    { apply drifts_put. destruct Hs as [->|(_ & _ & ->)]; [by left|right]. apply drift_deployment.
      cbn in Hown. rewrite Hown. by apply (deployment_updated _ _ _ _ want ex m1). }
    destruct updated as [st|e]; [|by apply mquiet_ret].
    eapply mquiet_mono; [apply mquiet_harmless, mcalls_call; done|]. by intros a H2 ->.
  - destruct (IsNotFound e); [|by apply mquiet_ret]. specialize (Hown eq_refl). rewrite same_applyCustomDeployment.
    destruct (applyCustomDeploymentMetadata srv want) as [d|e'] eqn:Ea; [|by apply mquiet_ret].
    apply mquiet_call. intros a H' Hs. apply drifts_put. destruct Hs as [->|(_ & _ & ->)]; [by left|right].
    apply drift_deployment. cbn in Hown. rewrite Hown. by apply (deployment_created _ _ _ _ want).
Qed.

(** *** The Service *)

Lemma drifts_reconcileService : spec_serviceRef (srv_spec srv) = None -> mdrifts (reconcileService r srv' service_selector).
Proof.
  intros Href H. unfold reconcileService. rewrite same_createService, same_setController.
  destruct (setController srv (svc_meta (createService srv service_selector))) as [m|e] eqn:Em; [|by apply mquiet_ret]. cbn zeta.
  set (want := with_svc_meta m (createService srv service_selector)).
  assert (Hw : wanted_service srv service_selector want) by (by exists m).
  assert (Hkey : own_key srv KService (om_namespace (svc_meta want)) (om_name (svc_meta want))).
  { unfold want. cbn. apply SetControllerReference_frame in Em. by rewrite Em. }
  apply quiet_read. intros got (_ & Hown & _). specialize (Hown eq_refl Hkey). destruct got as [ex|e]; cbn in Hown.
  - apply mquiet_after; [apply harmless_outputs, validateOwnership_outputs|]. intros [e|]; [by apply mquiet_ret|].
    rewrite same_setController. destruct (setController srv (svc_meta ex)) as [m1|e] eqn:Em1; [|by apply mquiet_ret].
    destruct (serviceNeedsUpdate _ _ _ _); [|by apply mquiet_ret]. unfold applyCustomServiceMetadata. rewrite same_applyCustom.
    destruct (applyCustomObjectMetadata srv m1) as [m2|e] eqn:Ea; [|by apply mquiet_ret].
    apply mquiet_bind, mquiet_call. intros updated H' Hs.
    assert (Hd : drifts H H'); [|by destruct updated; apply mquiet_ret].
    apply drifts_put. destruct Hs as [->|(_ & _ & ->)]; [by left|right]. apply drift_service.
    cbn in Hown. rewrite Hown. by apply (service_updated _ _ _ want ex m1).
  - destruct (IsNotFound e); [|by apply mquiet_ret]. specialize (Hown eq_refl). unfold applyCustomServiceMetadata. rewrite same_applyCustom.
    destruct (applyCustomObjectMetadata srv (svc_meta want)) as [m'|e'] eqn:Ea; [|by apply mquiet_ret].
    apply mquiet_bind, mquiet_call. intros a H' Hs.
    assert (Hd : drifts H H'); [|by destruct a; apply mquiet_ret].
    apply drifts_put. destruct Hs as [->|(_ & _ & ->)]; [by left|right].
    apply drift_service. cbn in Hown. rewrite Hown. by apply service_created.
Qed.

Lemma drifts_cleanupManagedService : spec_serviceRef (srv_spec srv) <> None -> mdrifts (cleanupManagedServiceForBYO srv').
Proof.
  intros Href H. destruct Hsame as (_ & Hn & Hns & _). unfold cleanupManagedServiceForBYO.
  match goal with |- mquiet _ _ _ _ (if ?b then _ else _) _ _ => destruct b end; [by apply mquiet_ret|].
  apply quiet_read. intros got (_ & Hown & _). specialize (Hown eq_refl). rewrite Hns, Hn in Hown. specialize (Hown (conj eq_refl eq_refl)).
  destruct got as [ex|e]; [|by destruct (IsNotFound e); apply mquiet_ret]. cbn in Hown.
  destruct (GetControllerOf (svc_meta ex)); [|by apply mquiet_ret]. destruct (_ != _); [by apply mquiet_ret|].
  apply mquiet_after; [by apply mcalls_call|]. intros [ext|e]; [|by destruct (IsNotFound e); apply mquiet_ret].
  apply mquiet_bind, mquiet_call. intros a H' Hs.
  assert (Hd : drifts H H'); [|by destruct a as [e|]; [destruct (_ || _)|]; apply mquiet_ret].
  apply drifts_put. destruct Hs as [->|(_ & ->)]; [by left|right]. apply drift_service. rewrite Hown. by apply service_deleted.
Qed.

Lemma drifts_reconcileServiceOrBYO sel :
  (spec_serviceRef (srv_spec srv) = None -> sel = service_selector) -> mdrifts (reconcileServiceOrBYO r srv' sel).
Proof.
  intros Hsel. unfold reconcileServiceOrBYO. rewrite (proj1 Hsame). destruct (spec_serviceRef (srv_spec srv)) as [ref|] eqn:Er.
  - apply mdrifts_bind.
    { apply mdrifts_harmless. unfold ResolveServiceEndpoint, resolveServicePort. calls_tac. }
    intros res. destruct (snd res); [by apply mdrifts_harmless|]. apply mdrifts_bind; [|intros; by apply mdrifts_harmless].
    apply drifts_cleanupManagedService. by rewrite Er.
  - rewrite (Hsel eq_refl). apply mdrifts_bind; [by apply drifts_reconcileService|]. intros e. apply mdrifts_harmless.
    unfold observePhase. calls_tac.
Qed.

(** *** The NetworkPolicy *)

Lemma quiet_gatewayIngressPeers H :
  quiet_in (gatewayIngressPeers r srv') H
    (fun res H' => H' = H /\ forall peers, res = Ok peers -> peers = peers_from inputs r srv).
Proof.
  rewrite <- same_peers_from. unfold gatewayIngressPeers, peers_from.
  destruct (_ != PostureRestricted); [apply mquiet_ret; split; [done|congruence]|].
  destruct (spec_gateway (srv_spec srv')) as [gw|]; [|apply mquiet_ret; split; [done|congruence]].
  destruct (ingressFrom srv'); [|apply mquiet_ret; split; [done|congruence]]. cbn zeta.
  destruct (if gw_provider gw == gatewayProviderHTTPRoute then _ else _) as [key|]; [|apply mquiet_ret; split; [done|congruence]].
  apply mquiet_bind.
  apply (mquiet_mono _ _ _ _ _ _ (fun res H' => H' = H /\ forall ns, res = Ok ns -> ns =
    if gw_configRef gw == "" then ""
    else match inputs KConfigMap (om_namespace (srv_meta srv')) (gw_configRef gw) with
         | None => "" | Some cm => strings.TrimSpace (default "" (cm_data cm !! key)) end)).
  - unfold resolveGatewaySourceNamespace. destruct (gw_configRef gw == ""); [apply mquiet_ret; split; [done|congruence]|].
    apply quiet_read. intros a (_ & _ & Hin & _). specialize (Hin (or_introl eq_refl)). destruct a as [cm|e]; cbn in Hin.
    + rewrite Hin. apply mquiet_ret. split; [done|congruence].
    + destruct (IsNotFound e); [rewrite (Hin eq_refl)|]; apply mquiet_ret; split; try done; congruence.
  - intros [ns|e] H' [-> Hns]; [|by apply mquiet_ret]. rewrite <- (Hns ns eq_refl).
    destruct (ns == ""); apply mquiet_ret; split; try done; congruence.
Qed.

Lemma drifts_ensureNetworkPolicy : mdrifts (ensureNetworkPolicy r srv').
Proof.
  intros H. unfold ensureNetworkPolicy. apply mquiet_bind. eapply mquiet_mono; [apply quiet_gatewayIngressPeers|].
  intros [peers|e] H' [-> Hp]; [|by apply mquiet_ret]. rewrite (Hp peers eq_refl), same_policy, same_operatorIngressPeers.
  fold (policy0 inputs r srv). rewrite same_setController.
  destruct (setController srv (np_meta (policy0 inputs r srv))) as [m|e] eqn:Em; [|by apply mquiet_ret]. cbn zeta.
  set (want := with_np_meta m (policy0 inputs r srv)).
  assert (Hw : wanted_policy inputs r srv want) by (by exists m).
  assert (Hkey : own_key srv KNetworkPolicy (om_namespace (np_meta want)) (om_name (np_meta want))).
  { unfold want. cbn [with_np_meta np_meta]. apply SetControllerReference_frame in Em. by rewrite Em. }
  apply quiet_read. intros got (_ & Hown & _). specialize (Hown eq_refl Hkey). destruct got as [ex|e]; cbn [steady_read home] in Hown.
  - apply mquiet_after; [apply harmless_outputs, validateOwnership_outputs|]. intros [e|]; [by apply mquiet_ret|].
    rewrite same_setController. destruct (setController srv (np_meta ex)) as [m1|e] eqn:Em1; [|by apply mquiet_ret].
    destruct (networkPolicyNeedsUpdate _ _ _ _); [|by apply mquiet_ret]. unfold applyCustomNetworkPolicyMetadata. rewrite same_applyCustom.
    destruct (applyCustomObjectMetadata srv _) as [m3|e] eqn:Ea; [|by apply mquiet_ret].
    apply mquiet_bind, mquiet_call. intros updated H' Hs.
    assert (Hd : drifts H H').
    { apply drifts_put. destruct Hs as [->|(_ & _ & ->)]; [by left|right]. apply drift_policy.
      rewrite Hown. by apply (policy_updated _ _ _ _ want ex m1). }
    destruct updated as [st|e]; [|by apply mquiet_ret]. apply mquiet_after; [|intros; by apply mquiet_ret].
    unfold auditNetworkPolicyUpdated, audit. calls_tac.
  - destruct (IsNotFound e); [|by apply mquiet_ret]. specialize (Hown eq_refl). unfold applyCustomNetworkPolicyMetadata. rewrite same_applyCustom.
    destruct (applyCustomObjectMetadata srv (np_meta want)) as [m'|e'] eqn:Ea; [|by apply mquiet_ret].
    apply mquiet_bind, mquiet_call. intros a H' Hs.
    assert (Hd : drifts H H').
    { apply drifts_put. destruct Hs as [->|(_ & _ & ->)]; [by left|right]. apply drift_policy.
      rewrite Hown. by apply policy_created. }
    destruct a as [st|e2]; [|by apply mquiet_ret]. apply mquiet_after; [|intros; by apply mquiet_ret].
    unfold auditNetworkPolicyCreated, audit. calls_tac.
Qed.

(** *** The binding *)

Lemma quiet_delete_binding ex H :
  hm_binding H = Some (governed KBinding ex) ->
  (spec_gateway (srv_spec srv) = None \/ exists gw, spec_gateway (srv_spec srv) = Some gw /\ mgb_provider (mgb_spec ex) <> gw_provider gw) ->
  quiet_in (call (CDelete KBinding ex None)) H (fun _ H' => drifts H H').
Proof.
  intros Hown Hwhy. apply mquiet_call. intros a H' Hs. apply drifts_put. destruct Hs as [->|(_ & ->)]; [by left|right].
  apply drift_binding. rewrite Hown. destruct Hwhy as [Hn|(gw & Hg & Hp)]; [by apply binding_removed|by eapply binding_replaced].
Qed.

Lemma binding_key : own_key srv KBinding (om_namespace (srv_meta srv')) (gatewayBindingName (om_name (srv_meta srv'))).
Proof. destruct Hsame as (_ & Hn & Hns & _). by rewrite Hn, Hns. Qed.

Lemma drifts_cleanupGatewayBinding : mdrifts (cleanupGatewayBindingIfRemoved r srv').
Proof.
  intros H. unfold cleanupGatewayBindingIfRemoved. rewrite (proj1 Hsame). destruct (spec_gateway (srv_spec srv)) eqn:Eg; [by apply mquiet_ret|].
  apply quiet_read. intros got (_ & Hown & _). specialize (Hown eq_refl binding_key). destruct got as [ex|e]; [|by apply mquiet_ret].
  apply mquiet_after; [apply harmless_outputs, validateOwnership_outputs|]. intros [e|]; [by apply mquiet_ret|].
  apply mquiet_bind. eapply mquiet_mono; [by apply quiet_delete_binding; [|by left]|]. intros a H' Hd. by apply mquiet_ret.
Qed.

Lemma drifts_reconcileGatewayBinding : mdrifts (reconcileGatewayBinding r srv').
Proof.
  intros H. unfold reconcileGatewayBinding. apply quiet_read. intros got (_ & Hown & _). specialize (Hown eq_refl binding_key).
  rewrite (proj1 Hsame). destruct (spec_gateway (srv_spec srv)) as [gw|] eqn:Eg.
  - rewrite same_desiredBinding, same_setController.
    destruct (setController srv (mgb_meta (desiredBinding srv gw))) as [m|e] eqn:Em; [|by apply mquiet_ret]. cbn zeta.
    destruct got as [ex|e]; cbn [steady_read home] in Hown.
    + apply mquiet_after; [apply harmless_outputs, validateOwnership_outputs|]. intros [e|]; [by apply mquiet_ret|].
      destruct (_ != mgb_provider _) eqn:Ep; [|destruct (_ != mgb_spec _); [|by apply mquiet_ret]]; apply mquiet_bind.
      * eapply mquiet_mono; [apply quiet_delete_binding; [done|right; exists gw; split; [done|]]|intros [e|] H' Hd; by apply mquiet_ret].
        apply negb_true_iff, bool_decide_eq_false in Ep. exact Ep.
      * apply mquiet_call. intros a H' Hs.
        assert (Hd : drifts H H'); [|by destruct a; apply mquiet_ret].
        apply drifts_put. destruct Hs as [->|(_ & _ & ->)]; [by left|right]. apply drift_binding. rewrite Hown. by eapply binding_updated.
    + destruct (IsNotFound e); [|by apply mquiet_ret]. specialize (Hown eq_refl). apply mquiet_bind, mquiet_call. intros a H' Hs.
      assert (Hd : drifts H H'); [|by destruct a; apply mquiet_ret].
      apply drifts_put. destruct Hs as [->|(_ & _ & ->)]; [by left|right]. apply drift_binding. rewrite Hown. by apply binding_created.
  - destruct got as [ex|e]; [|by destruct (IsNotFound e); apply mquiet_ret].
    apply mquiet_after; [apply harmless_outputs, validateOwnership_outputs|]. intros [e|]; [by apply mquiet_ret|].
    by apply quiet_delete_binding; [|by left].
Qed.

(** *** Whole passes *)

Lemma mquiet_returns {A} (m : M A) (Post : A -> Prop) H :
  mcalls harmless m -> returns m Post -> quiet_in m H (fun a H' => H' = H /\ Post a).
Proof.
  intros Hc Hr s.
  assert (Hq : forall p : prog (A * RState), calls_all harmless p -> (forall tr a s', runs p tr (a, s') -> Post a) ->
    quietly D inputs workload srv p H (fun '(a, _) H' => H' = H /\ Post a)).
  { induction p as [[a s']|c k IH]; cbn; intros Hcs Hps; [split; [done|by apply (Hps [] a s')]|].
    destruct Hcs as [Hc1 Hck]. intros x H' Hs. assert (H' = H) as -> by (destruct c; try done; by destruct Hs).
    apply IH; [done|]. intros tr a s' Hrun. apply (Hps (Ev c x :: tr) a s'). eauto. }
  apply Hq; [apply Hc|]. intros tr a s' Hrun. exact (mwp_runs m s _ (Hr s) tr a s' Hrun).
Qed.

Lemma same_refs : extractWorkloadRefNames srv' = extractWorkloadRefNames srv.
Proof. unfold extractWorkloadRefNames. by rewrite (proj1 Hsame). Qed.

Definition selected (res : result (option Validation.workload)) : Prop :=
  forall w, res = Ok (Some w) -> workloadSelector w = workload.

Lemma quiet_getWorkload ref knd H :
  spec_workloadRef (srv_spec srv) = Some ref ->
  quiet_in (getWorkload Direct (wr_name ref) knd (om_namespace (srv_meta srv'))) H
    (fun res H' => H' = H /\ forall w, res = Ok w -> workloadSelector w = workload).
Proof.
  intros Hr. assert (Hin : In (wr_name ref) (extractWorkloadRefNames srv)) by (unfold extractWorkloadRefNames; rewrite Hr; by left).
  unfold getWorkload. cbn zeta. repeat case_bool_decide; try (by apply mquiet_ret);
    apply quiet_read; intros a (_ & _ & _ & Hid); cbn in Hid; apply mquiet_ret; (split; [done|]); destruct a as [d|e]; try done;
    intros w [= <-]; by apply Hid.
Qed.

Lemma quiet_validate H :
  quiet_in (validateConfigAndResolveWorkload srv') H (fun res H' => H' = H /\ selected res).
Proof.
  unfold validateConfigAndResolveWorkload. apply mquiet_bind.
  apply (mquiet_mono _ _ _ _ _ _ (fun res H' => H' = H /\ selected res)).
  - rewrite (proj1 Hsame). destruct (spec_workloadRef (srv_spec srv)) as [ref|] eqn:Er; [|by apply mquiet_ret].
    apply mquiet_bind. unfold validateWorkloadRef. cbn zeta. apply mquiet_bind.
    eapply mquiet_mono; [by apply quiet_getWorkload|]. intros [w|e] H' [-> Hw].
    + rewrite (proj1 Hsame). assert (Hres : selected (Ok (Some w))) by (intros w' [= <-]; by apply Hw).
      destruct (spec_serviceRef _); [by do 2 apply mquiet_ret|].
      repeat case_match; by do 2 apply mquiet_ret.
    + destruct (asValidationError e) as [[]|]; by do 2 apply mquiet_ret.
  - intros [w|e] H' [-> Hw]; [|by apply mquiet_ret]. apply mquiet_after.
    + unfold validateServiceRef, validateManaged, validateTLS, validateCABundleSecret, andThen.
      calls_tac; apply calls_eachM; intros; unfold validateStorageMount, validateEnvFrom, validateEnvValueFrom,
        validateReferencedConfigMap, validateReferencedSecret, andThen; calls_tac.
    + intros [e|]; by apply mquiet_ret.
Qed.

(** What the failure handlers and the end of the endpoint phase call. *)
Lemma harmless_silent {A} (m : M A) : silent m -> mcalls harmless m.
Proof. intros [H _]. by apply harmless_outputs. Qed.

Lemma harmless_clock {A} (m : M A) : mcalls reads_clock m -> mcalls harmless m.
Proof. apply mcalls_mono. intros c Hc. by destruct c. Qed.

Lemma harmless_conditionFor t st rs ms : mcalls harmless (conditionFor srv' t st rs ms).
Proof. apply harmless_clock. unfold conditionFor, newCondition. calls_tac. Qed.

Lemma harmless_append conds fresh : mcalls harmless (appendPersistentConditions r srv' conds fresh).
Proof. apply mcalls_bind; [apply harmless_clock, policyEnforcedCondition_calls|]. intros. calls_tac. Qed.

Lemma harmless_reportFailure st err : mcalls harmless (reportFailure srv' st err).
Proof. unfold reportFailure, applyStatus. calls_tac. Qed.

Lemma harmless_reconcilePermanentValidationError reason message :
  mcalls harmless (reconcilePermanentValidationError r srv' reason message).
Proof.
  unfold reconcilePermanentValidationError.
  apply mcalls_bind; [apply harmless_conditionFor|]. intros acc.
  apply mcalls_bind; [apply harmless_silent, silent_out|]. intros _.
  apply mcalls_bind; [apply harmless_silent, silent_out|]. intros _.
  apply mcalls_bind; [apply harmless_conditionFor|]. intros avail.
  apply mcalls_bind; [apply harmless_clock, newNotVerifiedCondition_calls|]. intros ver.
  apply mcalls_bind; [apply harmless_append|]. intros conds.
  apply mcalls_bind; [by apply mcalls_call|]. intros [e|]; [apply mcalls_ret|].
  apply mcalls_bind; [apply harmless_silent, silent_if; [apply silent_ret|apply silent_Eventf]|]. intros _.
  apply mcalls_bind; [apply harmless_silent, silent_out|]. intros _.
  apply mcalls_bind; [apply harmless_silent, silent_out|]. intros _. apply mcalls_ret.
Qed.

Lemma harmless_handleDeploymentReconcileError acc err : mcalls harmless (handleDeploymentReconcileError r srv' acc err).
Proof.
  unfold handleDeploymentReconcileError. destruct (IsConflict err); [apply mcalls_ret|].
  apply mcalls_bind; [apply harmless_silent, silent_out|]. intros _.
  apply mcalls_bind; [apply harmless_conditionFor|]. intros avail.
  apply mcalls_bind; [apply harmless_clock, newNotVerifiedCondition_calls|]. intros ver.
  apply mcalls_bind; [apply harmless_silent, silent_out|]. intros _.
  apply mcalls_bind; [apply harmless_silent, silent_if; [apply silent_ret|apply silent_Eventf]|]. intros _.
  apply mcalls_bind; [apply harmless_append|]. intros conds. apply harmless_reportFailure.
Qed.

Lemma harmless_handleResourceFailure base acc err params :
  (forall s m, silent (fp_emitEvent params s m)) -> mcalls harmless (handleResourceFailure r srv' base acc err params).
Proof.
  intros He. unfold handleResourceFailure. destruct (IsConflict err); [apply mcalls_ret|].
  apply mcalls_bind; [apply harmless_silent, silent_out|]. intros _.
  apply mcalls_bind; [apply harmless_conditionFor|]. intros avail.
  apply mcalls_bind; [apply harmless_clock, newNotVerifiedCondition_calls|]. intros ver.
  apply mcalls_bind; [apply harmless_silent, silent_out|]. intros _.
  apply mcalls_bind; [apply harmless_silent, silent_if; [apply silent_ret|apply He]|]. intros _.
  apply mcalls_bind; [apply harmless_append|]. intros conds. apply harmless_reportFailure.
Qed.

Lemma harmless_finishEndpoint hash diff ver n gwErr : mcalls harmless (finishEndpoint r srv' hash diff ver n gwErr).
Proof.
  unfold finishEndpoint. apply mcalls_bind; [unfold updateTLSCABundleHash; calls_tac|]. intros _.
  apply mcalls_bind; [unfold emitCapabilityChangeDetected, Eventf, auditCapabilityChange, audit; calls_tac|]. intros _.
  apply mcalls_bind; [eapply harmless_quiet, sub_handshakeRequeue|]. intros [res|]; apply mcalls_ret.
Qed.

Lemma drifts_reconcileEndpoint acc avail base ep np : mdrifts (reconcileEndpoint r srv' acc avail base ep np).
Proof.
  unfold reconcileEndpoint. apply mdrifts_bind; [apply drifts_reconcileGatewayBinding|]. intros gwErr. apply mdrifts_harmless.
  apply mcalls_bind; [apply harmless_silent, silent_out|]. intros _.
  destruct gwErr as [e|]; [apply harmless_handleResourceFailure; intros; apply silent_Eventf|].
  apply mcalls_bind; [eapply harmless_quiet, sub_currentCABundleHash|]. intros hash.
  apply mcalls_bind; [eapply harmless_quiet, sub_reconcileHandshake|]. intros hs.
  apply mcalls_bind; [apply harmless_silent, silent_out|]. intros _.
  apply mcalls_bind; [eapply harmless_quiet, sub_retryCount|]. intros counted.
  apply mcalls_bind; [eapply harmless_quiet, sub_gatewayOverride|]. intros gw.
  apply mcalls_bind; [apply harmless_silent, silent_if; [apply silent_Eventf|apply silent_ret]|]. intros _.
  apply mcalls_bind; [apply harmless_clock, policyEnforcedCondition_calls|]. intros pe.
  apply mcalls_bind; [by apply mcalls_call|]. intros [e|]; [apply mcalls_ret|]. apply harmless_finishEndpoint.
Qed.

Lemma drifts_reconcileBYO acc w H :
  spec_workloadRef (srv_spec srv) <> None -> (forall w', w = Some w' -> workloadSelector w' = workload) ->
  quiet_in (reconcileBYO r srv' acc w) H (fun _ H' => drifts H H').
Proof.
  intros Hr Hw. unfold reconcileBYO. apply mquiet_bind.
  eapply mquiet_mono; [apply (mquiet_returns _ (fun res => forall o, res = Ok o -> wo_selector o = workload)); [eapply harmless_quiet, sub_observeWorkload|]|].
  { intros s. destruct w as [w|]; [|by apply mwp_ret]. specialize (Hw w eq_refl).
    destruct w as [d|ds|sts]; apply mwp_bind; (eapply mwp_mono; [apply mwp_any|]); intros tr c s' _; apply mwp_ret; by intros o [= <-]. }
  intros [o|e] H' [-> Ho]; [|by apply mquiet_ret]. specialize (Ho o eq_refl).
  apply mquiet_after; [apply harmless_silent, silent_out|]. intros _.
  apply mquiet_after; [apply harmless_silent, silent_maybeEmit|]. intros _. revert H.
  apply mdrifts_bind.
  { apply drifts_reconcileServiceOrBYO. intros _. unfold service_selector. destruct (spec_workloadRef (srv_spec srv)); [|done]. by rewrite Ho. }
  intros [ep [e|]]; cbn [fst snd]; [|apply drifts_reconcileEndpoint].
  apply mdrifts_harmless, harmless_handleResourceFailure. intros; apply silent_Eventf.
Qed.

Lemma drifts_reconcileManaged acc : spec_workloadRef (srv_spec srv) = None -> mdrifts (reconcileManaged r srv' acc).
Proof.
  intros Hr. unfold reconcileManaged. cbn zeta. apply mdrifts_bind; [apply drifts_reconcileDeployment|]. intros dep.
  apply mdrifts_bind; [apply mdrifts_harmless, harmless_silent, silent_out|]. intros _.
  destruct dep as [d|e]; [|apply mdrifts_harmless, harmless_handleDeploymentReconcileError].
  apply mdrifts_bind.
  { apply drifts_reconcileServiceOrBYO. intros _. unfold service_selector. rewrite Hr. f_equal. f_equal. apply Hsame. }
  intros [ep [e|]]; cbn [fst snd].
  { apply mdrifts_harmless, harmless_handleResourceFailure. intros; apply silent_Eventf. }
  apply mdrifts_bind; [apply drifts_ensureNetworkPolicy|]. intros np.
  apply mdrifts_bind; [apply mdrifts_harmless, harmless_silent, silent_out|]. intros _.
  destruct np as [np|e]; [|apply mdrifts_harmless, harmless_handleResourceFailure; intros; apply silent_Eventf].
  apply mdrifts_bind.
  { apply mdrifts_harmless, harmless_clock. unfold networkPolicyPostureConditionFor, newCondition. destruct (posture srv' np) as [[? ?] ?]. calls_tac. }
  intros posture. apply mdrifts_bind; [apply mdrifts_harmless, harmless_silent, silent_out|]. intros _.
  apply mdrifts_bind; [apply mdrifts_harmless; eapply mcalls_mono; [apply no_write_harmless|]; eapply mcalls_mono; [apply observes_no_write|apply reconcileAvailableCondition_calls]|].
  intros avail. apply mdrifts_bind; [apply mdrifts_harmless, harmless_silent, silent_out|]. intros _.
  apply mdrifts_bind; [apply mdrifts_harmless, harmless_silent, silent_maybeEmit|]. intros _. apply drifts_reconcileEndpoint.
Qed.

Lemma drifts_reconcileLive : mdrifts (reconcileLive r srv').
Proof.
  unfold reconcileLive. cbn zeta. apply mdrifts_bind; [apply drifts_cleanupGatewayBinding|]. intros _ H.
  apply mquiet_bind. eapply mquiet_mono; [apply quiet_validate|]. intros validated H' [-> Hsel].
  apply mquiet_after; [apply harmless_silent, silent_out|]. intros _. destruct validated as [w|e].
  - apply mquiet_after; [apply harmless_conditionFor|]. intros acc.
    apply mquiet_after; [apply harmless_silent, silent_out|]. intros _.
    apply mquiet_after; [apply harmless_silent, silent_if; [apply silent_Eventf|apply silent_ret]|]. intros _.
    rewrite (proj1 Hsame). destruct (spec_workloadRef (srv_spec srv)) as [ref|] eqn:Er; [|by apply drifts_reconcileManaged].
    apply drifts_reconcileBYO; [by rewrite Er|]. intros w' ->. by apply Hsel.
  - destruct (asValidationError e) as [[reason message]|]; [|by apply mquiet_ret].
    apply mquiet_after; [apply harmless_reconcilePermanentValidationError|]. intros a. by apply mquiet_ret.
Qed.

End passes.

(** ** Any number of passes *)

#[export] Instance DeploymentCondition_eq_dec : EqDecision DeploymentCondition.
Proof. solve_decision. Defined.
#[export] Instance Deployment_eq_dec : EqDecision Deployment.
Proof. solve_decision. Defined.
#[export] Instance Service_eq_dec : EqDecision Service.
Proof. solve_decision. Defined.
#[export] Instance NetworkPolicy_eq_dec : EqDecision NetworkPolicy.
Proof. solve_decision. Defined.
#[export] Instance BindingStatus_eq_dec : EqDecision MCPGatewayBindingStatus.
Proof. solve_decision. Defined.
#[export] Instance GatewayBinding_eq_dec : EqDecision MCPGatewayBinding.
Proof. solve_decision. Defined.
#[export] Instance Home_eq_dec : EqDecision Home.
Proof. solve_decision. Defined.

Section settle.
Context `{V : Vendor} {L : VendorLaws V} {I : OwnerIdentity V}.
Context (D : Defaults) (inputs : forall k, string -> string -> option (obj k)) (workload : option LabelSelector).
Context (r : MCPServerReconciler) (srv : MCPServer).

Lemma drifts_Reconcile : mdrifts D inputs workload r srv (Reconcile r (requestFor srv)).
Proof.
  intros H. unfold Reconcile, requestFor. apply quiet_read. intros got (_ & _ & _ & Hid). cbn in Hid. destruct got as [srv'|e].
  - specialize (Hid srv' eq_refl). revert H. apply mdrifts_bind.
    + apply mdrifts_harmless. unfold shouldSkipReconciliation. calls_tac.
    + intros [[] [e|]]; try (by apply mdrifts_harmless). by apply drifts_reconcileLive.
  - revert H. apply mdrifts_harmless. unfold cleanupMetrics. calls_tac.
Qed.

(** A pass, from any memory, in a cluster that holds [H], may leave [H']. *)
Definition pass (H H' : Home) : Prop :=
  exists s a, quiet_run D inputs workload srv (Reconcile r (requestFor srv) s) H a H'.

Inductive passes : Home -> list Home -> Prop :=
| passes_nil H : passes H []
| passes_cons H H' l : pass H H' -> passes H' l -> passes H (H' :: l).

Lemma pass_drifts H H' : pass H H' -> rtc (drift D inputs workload r srv) H H'.
Proof.
  intros (s & [a s'] & Hr). exact (quietly_run _ _ _ _ _ _ _ _ _ (drifts_Reconcile H s) Hr).
Qed.

(** One object along the passes. *)
Lemma passes_chained {A} (R : A -> A -> Prop) (get : Home -> A) H l :
  (forall H H', drift D inputs workload r srv H H' -> get H' = get H \/ R (get H) (get H')) ->
  passes H l -> chained R (get H) (map get l).
Proof.
  intros HR. induction 1 as [H|H H' l Hp _ IH]; cbn; constructor; [|exact IH]. apply pass_drifts in Hp.
  clear IH. induction Hp as [x|x y z Hxy _ IHp]; [constructor|]. destruct (HR _ _ Hxy) as [<-|Hs]; [exact IHp|by econstructor].
Qed.

(** C9: In a cluster where only the operator writes the objects of an MCPServer, any number
    of passes changes its Deployment, NetworkPolicy and binding at most twice and its Service
    at most once, whatever else happens: calls fail before or after they took effect,
    Pods, statuses, endpoints and the clock behave as they like, the operator restarts, and
    the API server fills in defaults of its own.  So the operator's own writes cannot keep
    it busy: from some pass on every write leaves what is stored as it is.  The server's spec
    and what it refers to stay as they are, and the four objects are read as stored. *)
Theorem own_writes_settle H Hs :
  extras_well_formed srv -> passes H Hs ->
  (changes (hm_deployment H) (map hm_deployment Hs) <= 2)%nat /\
  (changes (hm_service H) (map hm_service Hs) <= 1)%nat /\
  (changes (hm_policy H) (map hm_policy Hs) <= 2)%nat /\
  (changes (hm_binding H) (map hm_binding Hs) <= 2)%nat.
Proof.
  intros Hwf Hp. split_and!.
  - eapply changes_within; [apply (deployment_within D inputs r srv Hwf)|]. eapply passes_chained; [|exact Hp].
    intros H1 H2 []; cbn; auto.
  - eapply changes_within; [apply (service_within D srv Hwf (service_selector workload srv))|]. eapply passes_chained; [|exact Hp].
    intros H1 H2 []; cbn; auto.
  - eapply changes_within; [apply (policy_within D inputs r srv Hwf)|]. eapply passes_chained; [|exact Hp].
    intros H1 H2 []; cbn; auto.
  - eapply changes_within; [apply (binding_within D srv)|]. eapply passes_chained; [|exact Hp].
    intros H1 H2 []; cbn; auto.
Qed.

End settle.

(** ** Writes that change nothing

    Settled objects may still be written: where the API server fills in a field that the
    spec may leave out, the comparison of what is stored with what is wanted never ends
    equal, and every pass issues an update (and its audit record) that has no effect. *)

Lemma map_fixed {A} (f : A -> A) l x : map f l = l -> In x l -> f x = x.
Proof. induction l as [|y l IH]; cbn; [done|]. intros [= Hy Hl] [->|Hx]; auto. Qed.

(** The protocol of a NetworkPolicy port is TCP unless it is given. *)
Definition protocolFilled (p : NetworkPolicyPort) : NetworkPolicyPort :=
  {| npp_protocol := Some (default "TCP" (npp_protocol p)); npp_port := npp_port p; npp_endPort := npp_endPort p |}.

Definition protocolsFilled (s : NetworkPolicySpec) : NetworkPolicySpec :=
  {| nps_podSelector := nps_podSelector s; nps_policyTypes := nps_policyTypes s;
     nps_ingress := map (fun i => {| ir_ports := map protocolFilled (ir_ports i); ir_from := ir_from i |}) (nps_ingress s);
     nps_egress := map (fun e => {| er_ports := map protocolFilled (er_ports e); er_to := er_to e |}) (nps_egress s) |}.

(** An egress port without a protocol: the stored policy always differs from the wanted one. *)
Theorem unset_protocol_rewrites r srv n port peers m existing ownerChanged :
  spec_network (srv_spec srv) = Some n -> In port (net_egressPorts n) -> npp_protocol port = None ->
  let want := with_np_meta m (createNetworkPolicy r srv peers) in
  np_spec existing = protocolsFilled (np_spec want) ->
  networkPolicyNeedsUpdate srv want existing ownerChanged = true.
Proof.
  intros Hn Hin Hport want He. unfold networkPolicyNeedsUpdate. rewrite He.
  destruct (np_spec want == protocolsFilled (np_spec want)) eqn:E; [|done]. apply bool_decide_eq_true in E. exfalso.
  assert (Hrule : In {| er_ports := net_egressPorts n; er_to := net_egressTo n |} (nps_egress (np_spec want))).
  { assert (Hne : net_egressPorts n <> []) by (intros Hnil; by rewrite Hnil in Hin). revert Hne. cbn. unfold buildEgressRules. rewrite Hn.
    destruct (net_egressTo n), (net_egressPorts n); intros Hne; [by destruct Hne|right; by left..]. }
  apply (f_equal nps_egress) in E. symmetry in E. apply (map_fixed _ _ _ E) in Hrule.
  apply (f_equal er_ports) in Hrule. cbn in Hrule. apply (map_fixed _ _ _ Hrule) in Hin.
  apply (f_equal npp_protocol) in Hin. by rewrite Hport in Hin.
Qed.

(** The mode of the files of a ConfigMap or Secret volume is 0644 unless it is given; it is
    one of the fields that [cmv_other] and [sv_other] stand for. *)
Definition modeFilled (mode : string) (v : Volume) : Volume :=
  {| vol_name := vol_name v;
     vol_configMap := option_map (fun c => {| cmv_name := cmv_name c; cmv_optional := cmv_optional c;
                                              cmv_other := if cmv_other c == "" then mode else cmv_other c |}) (vol_configMap v);
     vol_secret := option_map (fun c => {| sv_secretName := sv_secretName c; sv_optional := sv_optional c;
                                           sv_other := if sv_other c == "" then mode else sv_other c |}) (vol_secret v);
     vol_emptyDir := vol_emptyDir v; vol_other := vol_other v |}.

(** A ConfigMap mounted without a mode: the stored Deployment always differs from the wanted one. *)
Theorem unset_mode_rewrites `{V : Vendor} r srv d0 want storage cm mode existing ownerChanged :
  createDeployment r srv = Ok d0 -> pt_spec (dep_template want) = pt_spec (dep_template d0) ->
  In storage (cfg_storage (spec_config (srv_spec srv))) ->
  ss_type (sm_source storage) = StorageTypeConfigMap -> ss_configMap (sm_source storage) = Some cm -> cmv_other cm = "" -> mode <> "" ->
  ps_volumes (pt_spec (dep_template existing)) = map (modeFilled mode) (ps_volumes (pt_spec (dep_template want))) ->
  deploymentNeedsUpdate srv existing want ownerChanged = true.
Proof.
  intros Hd Hw Hin Ht Hcm Hother Hmode He. unfold deploymentNeedsUpdate. rewrite Hw.
  destruct (createDeployment_one _ _ _ Hd) as [c Hc]. rewrite Hc. destruct (ps_containers (pt_spec (dep_template existing))) as [|old l]; [done|].
  assert (Hne : (ps_volumes (pt_spec (dep_template existing)) != ps_volumes (pt_spec (dep_template d0))) = true); [|by rewrite Hne, !orb_true_r].
  apply negb_true_iff, bool_decide_eq_false. rewrite He, Hw. intros Hfix.
  assert (Hvol : exists i, In (storageVolumeOf i storage) (ps_volumes (pt_spec (dep_template d0)))).
  { assert (Hps : ps_volumes (pt_spec (dep_template d0)) = indexed storageVolumeOf (cfg_storage (spec_config (srv_spec srv))) 0).
    { unfold createDeployment, processStorageMounts in Hd. repeat case_match; by simplify_eq. }
    rewrite Hps. clear -Hin. generalize 0. induction (cfg_storage _) as [|x l IH]; intros i; [done|]. destruct Hin as [->|Hin].
    - exists i. by left.
    - destruct (IH Hin (i + 1)) as [j Hj]. exists j. by right. }
  destruct Hvol as [i Hi]. apply (map_fixed _ _ _ Hfix) in Hi. apply (f_equal vol_configMap) in Hi. cbn in Hi.
  rewrite Ht, bool_decide_eq_true_2, Hcm in Hi by done. cbn in Hi. rewrite Hother in Hi. cbn in Hi.
  apply Hmode. injection Hi as Hi. apply (f_equal cmv_other) in Hi. cbn in Hi. congruence.
Qed.

(** ** Concrete passes *)

Definition notThere : error := StatusError NotFound "not found".

Definition own_keyb (srv : MCPServer) (k : kind) (ns name : string) : bool :=
  (ns == om_namespace (srv_meta srv)) && (name == own_name srv k).

Definition quiet_get (srv : MCPServer) (H : Home) (k : kind) (ns name : string) : result (obj k) :=
  let here := if own_keyb srv k ns name then match home k H with Some o => Ok o | None => Err notThere end else Err notThere in
  match k return result (obj k) -> result (obj k) with
  | KMCPServer => fun _ => Ok srv
  | KNamespace => fun _ => Ok {| ns_meta := newMeta name "" None |}
  | _ => fun here => here
  end here.

Definition asWritten : Defaults := {| d_replicas := id; d_podSpec := id; d_ports := id; d_policy := id |}.

(** A cluster where every call succeeds, nothing answers a dial and no inputs exist. *)
Definition quiet_answer (srv : MCPServer) (H : Home) (c : Call) : resp c * Home :=
  let own k o := own_keyb srv k (om_namespace (meta_of k o)) (om_name (meta_of k o)) in
  match c return resp c * Home with
  | CGet _ k ns name => (quiet_get srv H k ns name, H)
  | CCreate k o => (Ok o, match home k H with None => if own k o then put_home k (Some (stored asWritten k o)) H else H | Some _ => H end)
  | CUpdate k o => (Ok o, match home k H with Some _ => if own k o then put_home k (Some (stored asWritten k o)) H else H | None => H end)
  | CDelete k o _ => (None, if own k o then put_home k None H else H)
  | CPatch k _ o => (Ok o, H)
  | CUpdateStatus _ _ | CApplyStatus _ _ _ => (None, H)
  | CList _ _ | CListPods _ _ | CListMCPServers _ _ _ => (Ok [], H)
  | CDial _ _ => (Err (Errorf "connection refused"), H)
  | CNow => (0, H)
  | COut _ => (tt, H)
  end.

Definition canonical (H : Home) : Prop := forall k o, home k H = Some o -> governed k o = o.

Lemma governed_twice k o : governed k (governed k o) = governed k o.
Proof. by destruct k. Qed.

Lemma canonical_put k o H : canonical H -> (forall x, o = Some x -> governed k x = x) -> canonical (put_home k o H).
Proof.
  intros HH Ho k' x. destruct k, k'; cbn; intros Hx; try done;
    try (by apply Ho); by (apply (HH KDeployment)||apply (HH KService)||apply (HH KNetworkPolicy)||apply (HH KBinding)).
Qed.

Lemma stored_canonical D k o : governed k (stored D k o) = stored D k o.
Proof. by destruct k. Qed.

Lemma own_keyb_spec srv k ns name : own_keyb srv k ns name = true <-> own_key srv k ns name.
Proof. unfold own_keyb, own_key. by rewrite andb_true_iff, !bool_decide_eq_true. Qed.

Lemma quiet_answer_served srv H c :
  extractWorkloadRefNames srv = [] -> canonical H ->
  served asWritten (fun _ _ _ => None) None srv H c (fst (quiet_answer srv H c)) (snd (quiet_answer srv H c)) /\
  canonical (snd (quiet_answer srv H c)).
Proof.
  intros Hrefs HH. destruct c; cbn [quiet_answer fst snd]; try done.
  - split; [|done]. split; [done|]. unfold quiet_get. split_and!.
    + intros Hk Hown. rewrite (proj2 (own_keyb_spec _ _ _ _) Hown).
      destruct k; try done; match goal with |- context [home ?k H] => destruct (home k H) eqn:E end; cbn [steady_read];
        try (by intros _); by rewrite (HH _ _ E).
    + intros [-> | ->]; cbn; by destruct (own_keyb _ _ _ _).
    + destruct k; cbn; try done; try (rewrite Hrefs; by intros ? []). by intros srv' [= <-].
  - destruct (home k H) eqn:Eh; [by split; [left|]|]. destruct (own_keyb _ _ _ _) eqn:Eo; [|by split; [left|]].
    apply own_keyb_spec in Eo. split; [by right|]. apply canonical_put; [done|]. intros x [= <-]. apply stored_canonical.
  - destruct (home k H) eqn:Eh; [|by split; [left|]]. destruct (own_keyb _ _ _ _) eqn:Eo; [|by split; [left|]].
    apply own_keyb_spec in Eo. split; [right; by rewrite Eh|]. apply canonical_put; [done|]. intros x [= <-]. apply stored_canonical.
  - destruct (own_keyb _ _ _ _) eqn:Eo; [|by split; [left|]]. apply own_keyb_spec in Eo. split; [by right|]. by apply canonical_put.
Qed.

Lemma quiet_answer_run {A} srv (p : prog A) H :
  extractWorkloadRefNames srv = [] -> canonical H ->
  let out := interp (quiet_answer srv) p H in
  quiet_run asWritten (fun _ _ _ => None) None srv p H (snd (fst out)) (snd out) /\ canonical (snd out).
Proof.
  intros Hrefs. revert H. induction p as [a|c k IH]; intros H HH; [done|]. cbn.
  destruct (quiet_answer_served srv H c Hrefs HH) as [Hs Hc]. destruct (quiet_answer srv H c) as [x H1] eqn:E. cbn [fst snd] in *.
  specialize (IH x H1 Hc). destruct (interp (quiet_answer srv) (k x) H1) as [[tr a] H2]. cbn [fst snd] in *. destruct IH as [Hr Hc2].
  split; [|done]. by exists x, H1.
Qed.

(** A server with extra labels whose binding asked for another provider. *)
Definition quietServer : MCPServer :=
  serverWith {| spec_extraLabels := Some {[ "team" := "blue" ]}; spec_extraAnnotations := None; spec_workloadRef := None;
                spec_serviceRef := None; spec_source := spec_source sampleSpec; spec_config := spec_config sampleSpec;
                spec_runtime := zeroRuntime; spec_mcp := {| mcp_stateless := None |}; spec_network := None; spec_transport := None;
                spec_gateway := Some {| gw_provider := "httproute"; gw_configRef := "gw" |} |}.

Definition homeBefore : Home :=
  {| hm_deployment := Some (governed KDeployment
       (with_dep_meta (with_owners [sampleOwner] (newMeta "srv" "ns" (Some {[ "old" := "label" ]}))) (builtFor tlsReconciler richServer)));
     hm_service := None; hm_policy := None;
     hm_binding := Some (governed KBinding
       {| mgb_meta := with_owners [sampleOwner] (newMeta "srv-gateway-binding" "ns" None);
          mgb_spec := {| mgb_mcpServerRef := "srv"; mgb_provider := "kuadrant"; mgb_configRef := "gw" |};
          mgb_status := {| mgb_url := ""; mgb_conditions := [] |} |}) |}.

Definition pass_of (H : Home) : Home :=
  snd (interp (quiet_answer quietServer) (@Reconcile modelVendor sampleReconciler (requestFor quietServer) emptyState) H).

#[local] Instance modelVendor_identity : OwnerIdentity modelVendor.
Proof.
  intros av k o o' m Hn _ Hu. cbn. unfold setControllerReference, controllerRef.
  assert (Hs : forall ref, sameOwner k o' ref = sameOwner k o ref) by (intros; unfold sameOwner; by rewrite Hn).
  assert (Hup : forall ref l, upsertOwnerRef k o' ref l = upsertOwnerRef k o ref l).
  { intros ref. induction l as [|x l IH]; cbn; [done|]. by rewrite Hs, IH. }
  rewrite Hup, Hn, Hu. destruct (GetControllerOf m); [by rewrite Hs|done].
Qed.

Lemma pass_of_pass H : canonical H -> @pass modelVendor asWritten (fun _ _ _ => None) None sampleReconciler quietServer H (pass_of H) /\ canonical (pass_of H).
Proof.
  intros HH. destruct (quiet_answer_run quietServer (@Reconcile modelVendor sampleReconciler (requestFor quietServer) emptyState) H eq_refl HH) as [Hr Hc].
  split; [|exact Hc]. eexists _, _. exact Hr.
Qed.

Lemma homeBefore_canonical : canonical homeBefore.
Proof. intros [] o H; cbn in H; try done; by injection H as <-. Qed.

(** The Deployment is updated, Service and NetworkPolicy are created, the binding is deleted
    and, in the second pass, created again; the third pass changes nothing. *)
Lemma own_writes_settle_witness :
  let h1 := pass_of homeBefore in let h2 := pass_of h1 in let h3 := pass_of h2 in
  h3 = h2 /\
  changes (hm_deployment homeBefore) (map hm_deployment [h1; h2; h3]) = 1%nat /\
  changes (hm_binding homeBefore) (map hm_binding [h1; h2; h3]) = 2%nat /\
  (changes (hm_service homeBefore) (map hm_service [h1; h2; h3]) <= 1)%nat.
Proof.
  intros h1 h2 h3. destruct (pass_of_pass _ homeBefore_canonical) as [Hp1 Hc1]. destruct (pass_of_pass _ Hc1) as [Hp2 Hc2].
  destruct (pass_of_pass _ Hc2) as [Hp3 _].
  assert (Hb : forall a b : Home, bool_decide (a = b) = true -> a = b) by (intros a b Hab; by apply bool_decide_eq_true in Hab).
  split; [apply Hb; vm_compute; reflexivity|]. split; [vm_compute; reflexivity|]. split; [vm_compute; reflexivity|].
  destruct (@own_writes_settle modelVendor modelVendor_laws modelVendor_identity asWritten (fun _ _ _ => None) None sampleReconciler
              quietServer homeBefore [h1; h2; h3]) as (_ & Hsvc & _).
  - split; apply well_formed_ascii; vm_compute; reflexivity.
  - subst h3 h2 h1. eapply passes_cons; [exact Hp1|]. eapply passes_cons; [exact Hp2|]. eapply passes_cons; [exact Hp3|]. apply passes_nil.
  - exact Hsvc.
Defined.
