(* ===== verification/Schemes.v ===== *)
(** * The client's scheme (cmd/main.go, the register files of the API packages)

    Which Go type stands for which kind on the wire.  [runtime.Scheme] and the install
    functions of other modules are parameters; the packages' own registrations and their
    order in [init] are definitions.  The theorem says that the operator's own types have
    one kind each, the one the rest of the library assumes. *)

From S2P Require Import Prelude K8s GatewayApi ApiAlpha ApiBeta StatusAC Interact Service ProviderRegistry.

Record GoType := { gt_package : string; gt_name : string }.
#[export] Instance GoType_eq_dec : EqDecision GoType.
Proof. solve_decision. Defined.

Record GroupVersion := { gv_group : string; gv_version : string }.

Definition WithKind (gv : GroupVersion) (k : string) : GroupVersionKind :=
  {| gvk_group := gv_group gv; gvk_version := gv_version gv; gvk_kind := k |}.

(** [runtime.Scheme], as far as it is used here: [scheme.AddKnownTypes], which names each
    type's kind after the type and panics ([None]) where another type has the kind, and
    [metav1.AddToGroupVersion], which adds the meta types. *)
Class Schemes := {
  Scheme : Type;
  NewScheme : Scheme;
  registered : Scheme -> GroupVersionKind -> GoType -> Prop;
  AddKnownTypes : GroupVersion -> list GoType -> Scheme -> option Scheme;
  AddToGroupVersion : GroupVersion -> Scheme -> option Scheme
}.

Definition metaPackage : string := "k8s.io/apimachinery/pkg/apis/meta/v1".

Class SchemeLaws (S : Schemes) : Prop := {
  NewScheme_empty g t : ~ registered NewScheme g t;
  AddKnownTypes_adds gv ts s s' : AddKnownTypes gv ts s = Some s' ->
    forall g t, registered s' g t <-> registered s g t \/ In t ts /\ g = WithKind gv (gt_name t);
  AddToGroupVersion_adds gv s s' : AddToGroupVersion gv s = Some s' ->
    forall g t, gt_package t <> metaPackage -> registered s' g t <-> registered s g t
}.

Section with_schemes.
Context `{S : Schemes} {L : SchemeLaws S}.

(** A [SchemeBuilder]'s [AddToScheme]; [utilruntime.Must] makes an error a panic. *)
Definition Installer : Type := Scheme -> option Scheme.

(** ** Registrations *)

Definition alphaPackage : string := "github.com/kubernetes-sigs/mcp-lifecycle-operator/api/v1alpha1".
Definition betaPackage : string := "github.com/kubernetes-sigs/mcp-lifecycle-operator/api/v1beta1".
Definition kuadrantPackage : string := "github.com/kubernetes-sigs/mcp-lifecycle-operator/internal/controller/providers/kuadrant/api".

Definition alphaGroupVersion : GroupVersion := {| gv_group := ApiAlpha.GroupVersion_Group; gv_version := ApiAlpha.GroupVersion_Version |}.
Definition betaGroupVersion : GroupVersion := {| gv_group := ApiBeta.GroupVersion_Group; gv_version := ApiBeta.GroupVersion_Version |}.
Definition kuadrantGroupVersion : GroupVersion := {| gv_group := KuadrantGroup; gv_version := KuadrantVersion |}.

(** What the packages' [init] functions hand to [SchemeBuilder.Register], file by file. *)
Definition alphaBindingTypes : list GoType := map (Build_GoType alphaPackage) ["MCPGatewayBinding"; "MCPGatewayBindingList"].
Definition alphaServerTypes : list GoType := map (Build_GoType alphaPackage) ["MCPServer"; "MCPServerList"].
Definition betaTypes : list GoType := map (Build_GoType betaPackage) ["MCPServer"; "MCPServerList"].

(** The builder's function: the registered types, then the meta types. *)
Definition alphaAddToScheme : Installer := fun s => AddKnownTypes alphaGroupVersion (alphaBindingTypes ++ alphaServerTypes) s ≫= AddToGroupVersion alphaGroupVersion.
Definition betaAddToScheme : Installer := fun s => AddKnownTypes betaGroupVersion betaTypes s ≫= AddToGroupVersion betaGroupVersion.

Definition addKnownTypes : Installer := fun s =>
  AddKnownTypes kuadrantGroupVersion
    (map (Build_GoType kuadrantPackage)
       ["MCPServerRegistration"; "MCPServerRegistrationList"; "MCPGatewayExtension"; "MCPGatewayExtensionList"]) s
  ≫= AddToGroupVersion kuadrantGroupVersion.

(** [init] of cmd/main.go. *)
Definition init (clientgo gatewayInstall apiextensions : Installer) : option Scheme :=
  s ← clientgo NewScheme;
  s ← alphaAddToScheme s;
  s ← betaAddToScheme s;
  s ← gatewayInstall s;
  s ← apiextensions s;
  addKnownTypes s.

(** ** The operator's own kinds *)

Definition own_packages : list string := [alphaPackage; betaPackage; kuadrantPackage].

(** An install function of another module registers none of the operator's types. *)
Definition foreign (f : Installer) : Prop :=
  forall s s', f s = Some s' -> forall g t, In (gt_package t) own_packages -> registered s' g t <-> registered s g t.

(** The types behind the kinds that the handlers read and write, and the kinds. *)
Definition own_type (k : kind) : option (GoType * GroupVersion) :=
  match k with
  | KMCPServer => Some ({| gt_package := betaPackage; gt_name := "MCPServer" |}, betaGroupVersion)
  | KBinding => Some ({| gt_package := alphaPackage; gt_name := "MCPGatewayBinding" |}, alphaGroupVersion)
  | KRegistration => Some ({| gt_package := kuadrantPackage; gt_name := "MCPServerRegistration" |}, kuadrantGroupVersion)
  | KExtension => Some ({| gt_package := kuadrantPackage; gt_name := "MCPGatewayExtension" |}, kuadrantGroupVersion)
  | _ => None
  end.

Lemma installed gv ts s s' : (AddKnownTypes gv ts s ≫= AddToGroupVersion gv) = Some s' ->
  forall g t, In (gt_package t) own_packages -> registered s' g t <-> registered s g t \/ In t ts /\ g = WithKind gv (gt_name t).
Proof.
  intros (s1 & H1 & H2)%bind_Some g t Ht. rewrite (AddToGroupVersion_adds _ _ _ H2), (AddKnownTypes_adds _ _ _ _ H1); [done|].
  intros Heq. rewrite Heq in Ht. by repeat destruct Ht as [Ht|Ht].
Qed.

(** In the scheme of a started operator each of its own types has exactly one kind, so the
    client and the owner references know it by that: an MCPServer is the v1beta1 one, as
    [setController] writes it, and what the kuadrant provider waits for before it starts is
    what its client then asks for. *)
Theorem own_kinds_unique clientgo gatewayInstall apiextensions s k t gv :
  foreign clientgo -> foreign gatewayInstall -> foreign apiextensions ->
  init clientgo gatewayInstall apiextensions = Some s -> own_type k = Some (t, gv) ->
  (forall g, registered s g t <-> g = WithKind gv (gt_name t)) /\
  (k = KMCPServer -> MCPServerAPIVersion = gv_group gv +:+ "/" +:+ gv_version gv /\ MCPServerKind = gt_name t) /\
  (k = KRegistration \/ k = KExtension -> exists reg, In reg registry /\ reg_name reg = Kuadrant.ProviderName /\
     In (WithKind gv (gt_name t)) (reg_requiredCRDs reg)).
Proof.
  unfold init. intros Hc Hg Ha (s1 & H1 & (s2 & H2 & (s3 & H3 & (s4 & H4 & (s5 & H5 & H6)%bind_Some)%bind_Some)%bind_Some)%bind_Some)%bind_Some Hk.
  assert (Hp : In (gt_package t) own_packages) by (destruct k; try done; injection Hk as <- <-; cbn; auto).
  split; [intros g|split].
  - rewrite (installed _ _ _ _ H6), (Ha _ _ H5), (Hg _ _ H4), (installed _ _ _ _ H3), (installed _ _ _ _ H2), (Hc _ _ H1) by done.
    pose proof (NewScheme_empty g t) as Hn.
    destruct k; try done; injection Hk as <- <-; cbn; split; try (intros ->; tauto);
      intros H; repeat match goal with
      | H : _ \/ _ |- _ => destruct H
      | H : _ /\ _ |- _ => destruct H
      end; done.
  - by intros ->; injection Hk as <- <-.
  - intros [-> | ->]; injection Hk as <- <-; (eexists; split; [right; left; reflexivity|]; split; [done|]); cbn; auto 10.
Qed.

End with_schemes.

(** ** A concrete scheme *)

Definition listScheme : Schemes := {|
  Scheme := list (GroupVersionKind * GoType);
  NewScheme := [];
  registered := fun s g t => In (g, t) s;
  AddKnownTypes := fun gv ts s => Some (s ++ map (fun t => (WithKind gv (gt_name t), t)) ts);
  AddToGroupVersion := fun gv s => Some (s ++ [(WithKind gv "WatchEvent", {| gt_package := metaPackage; gt_name := "WatchEvent" |})])
|}.

#[local] Instance listScheme_laws : SchemeLaws listScheme.
Proof.
  split; cbn.
  - tauto.
  - intros gv ts s s' [= <-] g t. rewrite in_app_iff, in_map_iff. split; [intros [?|(x & [= <- <-] & ?)]|intros [?|[? ->]]]; eauto.
  - intros gv s s' [= <-] g t Ht. rewrite in_app_iff. cbn. split; [intros [?|[[= <- <-]|[]]]|]; [done|by destruct Ht|auto].
Qed.

Lemma own_kinds_unique_witness :
  exists s, @init listScheme Some Some Some = Some s /\
  forall g, @registered listScheme s g {| gt_package := betaPackage; gt_name := "MCPServer" |} <->
    g = {| gvk_group := "mcp.x-k8s.io"; gvk_version := "v1beta1"; gvk_kind := "MCPServer" |}.
Proof.
  assert (Hf : @foreign listScheme Some) by (by intros s s' [= <-]).
  eexists. split; [reflexivity|].
  exact (proj1 (@own_kinds_unique listScheme listScheme_laws Some Some Some _ KMCPServer _ _ Hf Hf Hf eq_refl eq_refl)).
Defined.
