(* ===== verification/Readiness.v ===== *)
(** * A healthy server is reported ready

    The counterpart of Promise: what it takes for a pass to publish Verified=True.  [healthy]
    says of each answer that it is one of a cluster in which the server runs; in every
    execution with healthy answers, [Reconcile] gets to the end and publishes the server as
    Accepted, Available and Verified, with its address. *)

From S2P Require Import Prelude K8s GatewayApi ApiAlpha ApiBeta StatusAC Interact Conditions AuditLog Ownership GoJSON Metadata Service.
From S2P Require Import Gateway NetworkPolicy Validation ConfigHash Deployment Handshake Byo Reconcile Lifecycle Memory Promise.

(** ** Executions whose answers satisfy a predicate *)

Section leads.
Context (A : event -> Prop).

Definition leads {X} (m : M X) (R : list event -> X -> Prop) : Prop :=
  forall s, mwp m s (fun tr x _ => Forall A tr -> R tr x).

Definition yields {X} (m : M X) (P : X -> Prop) : Prop := leads m (fun _ => P).

Lemma leads_ret {X} (x : X) (R : list event -> X -> Prop) : R [] x -> leads (mret x) R.
Proof. by intros HR s _. Qed.

Lemma leads_call c (R : list event -> resp c -> Prop) : (forall a, A (Ev c a) -> R [Ev c a] a) -> leads (call c) R.
Proof. intros HR s. apply mwp_call. intros a [Ha _]%Forall_cons. by apply HR. Qed.

Lemma leads_mwp {X} (m : M X) (R : list event -> X -> Prop) : (forall s, mwp m s (fun tr x _ => R tr x)) -> leads m R.
Proof. intros Hm s. eapply mwp_mono; [apply Hm|]. auto. Qed.

Lemma leads_mono {X} (m : M X) (R R' : list event -> X -> Prop) : leads m R -> (forall tr x, R tr x -> R' tr x) -> leads m R'.
Proof. intros Hm HR s. eapply mwp_mono; [apply Hm|]. auto. Qed.

Lemma leads_bind_trace {X Y} (m : M X) (f : X -> M Y) R1 R :
  leads m R1 -> (forall tr x, R1 tr x -> leads (f x) (fun tr' y => R (tr ++ tr') y)) -> leads (m ≫= f) R.
Proof.
  intros Hm Hf s. apply mwp_bind. eapply mwp_mono; [apply Hm|]. intros tr x s' HP.
  unfold mwp. apply wp_runs. intros tr' [y s''] Hr [H1 H2]%Forall_app.
  exact (mwp_runs _ _ _ (Hf tr x (HP H1) s') _ _ _ Hr H2).
Qed.

(** What is said of a trace may be found in its end. *)
Definition suffixed {X} (R : list event -> X -> Prop) : Prop := forall tr tr' x, R tr' x -> R (tr ++ tr') x.

Lemma leads_bind {X Y} (m : M X) (f : X -> M Y) P R :
  suffixed R -> yields m P -> (forall x, P x -> leads (f x) R) -> leads (m ≫= f) R.
Proof.
  intros HR Hm Hf. eapply leads_bind_trace; [exact Hm|]. intros tr x HP. eapply leads_mono; [by apply Hf|]. auto.
Qed.

Lemma suffixed_const {X} (P : X -> Prop) : suffixed (fun _ => P).
Proof. by intros tr tr' x. Qed.

Lemma yields_bind {X Y} (m : M X) (f : X -> M Y) P Q : yields m P -> (forall x, P x -> yields (f x) Q) -> yields (m ≫= f) Q.
Proof. apply leads_bind, suffixed_const. Qed.

Lemma yields_call c (P : resp c -> Prop) : (forall a, A (Ev c a) -> P a) -> yields (call c) P.
Proof. intros H. by apply leads_call. Qed.

Lemma yields_any {X} (m : M X) : yields m (fun _ => True).
Proof. intros s. unfold mwp. apply wp_runs. by intros tr [x s']. Qed.

Lemma leads_after {X Y} (m : M X) (f : X -> M Y) R : suffixed R -> (forall x, leads (f x) R) -> leads (m ≫= f) R.
Proof. intros HR Hf. eapply leads_bind; [done|apply yields_any|auto]. Qed.

Lemma yields_returns {X} (m : M X) P : returns m P -> yields m P.
Proof. intros Hm. apply leads_mwp. exact Hm. Qed.

End leads.

(** ** A cluster in which the server runs *)

Section healthy.
Context `{V : Vendor}.
Context (srv : MCPServer).

(** What the operator recorded on an object about custom metadata can be read back. *)
Definition readable (o : ObjectMeta) : Prop :=
  (exists L, recorded managedExtraLabels (om_annotations o) = Ok L) /\
  (exists N, recorded managedExtraAnnotations (om_annotations o) = Ok N).

(** An object the server controls, or a deleted server of its name controlled. *)
Definition adopted (o : ObjectMeta) : Prop :=
  om_namespace o = om_namespace (srv_meta srv) /\ readable o /\
  exists ref, GetControllerOf o = Some ref /\ or_kind ref = MCPServerKind /\ or_name ref = om_name (srv_meta srv) /\
    ParseGroupVersion (or_apiVersion ref) = Some GroupVersion_Group.

Definition missing {X} (a : result X) : Prop := exists e, a = Err e /\ IsNotFound e = true.

(** A referenced workload that serves, with a selector a Service can use where it needs one. *)
Definition fit_workload (w : workload) : Prop :=
  byo_serving w /\
  (spec_serviceRef (srv_spec srv) <> None \/
   exists sel, workloadSelector w = Some sel /\ size (ls_matchLabels sel) <> O /\ ls_matchExpressions sel = []).

Definition referenced {X} (w : X -> workload) (a : result X) : Prop :=
  spec_workloadRef (srv_spec srv) <> None -> exists o, a = Ok o /\ fit_workload (w o).

Definition tlsConfig : option TLSClientConfig :=
  match spec_transport (srv_spec srv) with Some t => tr_tls t | None => None end.

(** The CA bundle the server names, where it is used, holds certificates. *)
Definition fit_secret (name : string) (sec : Secret) : Prop :=
  forall tls ref, tlsConfig = Some tls -> tls_caBundleSecret tls = Some ref -> secref_name ref = name ->
    exists pem, sec_data sec !! "ca.crt" = Some pem /\ AppendCertsFromPEM pem = true.

Definition registered_binding (b : MCPGatewayBinding) : Prop :=
  exists c, FindStatusCondition (mgb_conditions (mgb_status b)) ConditionTypeRegistered = Some c /\
    c_status c = ConditionTrue /\ om_generation (mgb_meta b) <= c_observedGeneration c.

(** Reads: the server is there and is not being deleted, what it references exists, and the
    operator's own objects are missing or can be adopted, except for the workload, which
    serves, and for the binding of a server with a gateway, which is registered. *)
Definition healthy_read (rd : reader) (k : kind) (name : string) : result (obj k) -> Prop :=
  match k return result (obj k) -> Prop with
  | KMCPServer => fun a => a = Ok srv
  | KNamespace => fun a => exists ns, a = Ok ns /\ om_deletionTimestamp (ns_meta ns) = None
  | KDeployment => fun a =>
      match rd with
      | Cached => exists d, a = Ok d /\ adopted (dep_meta d) /\ dep_replicas d <> Some 0 /\ serving d
      | Direct => referenced WDeployment a
      end
  | KDaemonSet => referenced WDaemonSet
  | KStatefulSet => referenced WStatefulSet
  | KService => fun a =>
      match spec_serviceRef (srv_spec srv) with
      | None => missing a \/ exists svc, a = Ok svc /\ adopted (svc_meta svc)
      | Some ref => exists svc, a = Ok svc /\ (name = sr_name ref -> svc_ports svc <> [])
      end \/ (name <> serviceNameFor srv /\ missing a)
  | KNetworkPolicy => fun a => missing a \/ exists np, a = Ok np /\ adopted (np_meta np)
  | KBinding => fun a =>
      match spec_gateway (srv_spec srv) with
      | None => missing a \/ exists b, a = Ok b /\ adopted (mgb_meta b)
      | Some _ => exists b, a = Ok b /\ adopted (mgb_meta b) /\ registered_binding b
      end
  | KConfigMap => fun a => exists cm, a = Ok cm
  | KSecret => fun a => exists sec, a = Ok sec /\ fit_secret name sec
  | _ => fun _ => True
  end.

(** Writes are accepted, the endpoint answers or asks for credentials. *)
Definition healthy (e : event) : Prop :=
  let 'Ev c a := e in
  match c return resp c -> Prop with
  | CGet rd k _ name => healthy_read rd k name
  | CCreate _ _ | CUpdate _ _ | CPatch _ _ _ => fun a => exists o, a = Ok o
  | CDelete _ _ _ | CApplyStatus _ _ _ | CUpdateStatus _ _ => fun a => a = None
  | CDial _ _ => fun a => (exists info, a = Ok info) \/ exists e, a = Err e /\ isHTTPAuthError e = true
  | _ => fun _ => True
  end a.

(** ** Specs that can run *)

Definition fit_mount (m : StorageMount) : Prop :=
  let src := sm_source m in
  ss_type src = StorageTypeConfigMap /\ (exists cm, ss_configMap src = Some cm /\ cmv_name cm <> "") \/
  ss_type src = StorageTypeSecret /\ (exists sec, ss_secret src = Some sec /\ sv_secretName sec <> "") \/
  ss_type src = StorageTypeEmptyDir /\ ss_emptyDir src <> None.

Definition fit_spec : Prop :=
  om_deletionTimestamp (srv_meta srv) = None /\
  match spec_workloadRef (srv_spec srv) with
  | None => src_type (spec_source (srv_spec srv)) = SourceTypeContainerImage /\
            src_containerImage (spec_source (srv_spec srv)) <> None /\ Forall fit_mount (cfg_storage (spec_config (srv_spec srv)))
  | Some ref => In (wr_kind ref) [WorkloadKindDeployment; WorkloadKindDaemonSet; WorkloadKindStatefulSet]
  end /\
  match spec_network (srv_spec srv) with Some n => validateNetwork n = None | None => True end /\
  (forall tls, tlsConfig = Some tls -> tls_enabled tls = true -> tls_insecureSkipVerify tls = true -> tls_caBundleSecret tls = None).

(** ** What is published *)

Definition reported_ready (tr : list event) (x : Result * option error) : Prop :=
  x = (noRequeue, None) /\
  exists st, In (Ev (CApplyStatus (om_namespace (srv_meta srv)) (om_name (srv_meta srv)) st) None) tr /\
    sac_observedGeneration st = Some (om_generation (srv_meta srv)) /\
    published_status st ConditionTypeAccepted = Some ConditionTrue /\
    published_status st ConditionTypeAvailable = Some ConditionTrue /\
    published_status st ConditionTypeVerified = Some ConditionTrue /\
    (spec_gateway (srv_spec srv) <> None -> published_status st ConditionTypeGatewayRegistered = Some ConditionTrue) /\
    exists url, sac_address st = Some {| aac_url := Some url |} /\
      (spec_gateway (srv_spec srv) = None -> spec_serviceRef (srv_spec srv) = None ->
       url = endpointURL srv {| ep_name := om_name (srv_meta srv); ep_port := cfg_port (spec_config (srv_spec srv)) |}).

End healthy.

(** ** The phases of a pass *)

Section phases.
Context `{V : Vendor} {L : VendorLaws V} {N : ControllerReferences V}.
Context (r : MCPServerReconciler) (srv : MCPServer).

Abbreviation gives := (yields (healthy srv)).
Abbreviation succeeds := (fun e : option error => e = None).

Lemma healthy_get rd k ns n (P : result (obj k) -> Prop) :
  (forall a, healthy_read srv rd k n a -> P a) -> gives (call (CGet rd k ns n)) P.
Proof. intros H. apply yields_call. intros a Ha. by apply H. Qed.

Lemma gives_get {X} rd k ns n (f : result (obj k) -> M X) P :
  (forall a, healthy_read srv rd k n a -> gives (f a) P) -> gives (call (CGet rd k ns n) ≫= f) P.
Proof. intros H. eapply yields_bind; [|exact H]. apply healthy_get. auto. Qed.

Lemma gives_ret {X} (x : X) (P : X -> Prop) : P x -> gives (mret x) P.
Proof. intros H. by apply (leads_ret _ x (fun _ => P)). Qed.

Lemma gives_create {X} k o (f : result (obj k) -> M X) P : (forall o', gives (f (Ok o')) P) -> gives (call (CCreate k o) ≫= f) P.
Proof. intros H. apply (yields_bind _ _ _ (fun a => exists o', a = Ok o')); [by apply yields_call|]. by intros a [o' ->]. Qed.

Lemma gives_update {X} k o (f : result (obj k) -> M X) P : (forall o', gives (f (Ok o')) P) -> gives (call (CUpdate k o) ≫= f) P.
Proof. intros H. apply (yields_bind _ _ _ (fun a => exists o', a = Ok o')); [by apply yields_call|]. by intros a [o' ->]. Qed.

Lemma gives_skip {X Y} (m : M X) (f : X -> M Y) P : (forall x, gives (f x) P) -> gives (m ≫= f) P.
Proof. intros H. apply leads_after; [apply suffixed_const|exact H]. Qed.

(** *** Metadata *)

Lemma applyCustom_succeeds o : readable o -> exists o', applyCustomObjectMetadata srv o = Ok o'.
Proof.
  intros [[cl HL] [ca HA]]. unfold applyCustomObjectMetadata. rewrite HL. fold (effL srv) (effA srv).
  replace (if view (effL srv) == cl then _ else _)
    with (cleaned (view (effL srv)) cl (om_labels o), unrecorded managedExtraLabels (view (effL srv)) cl (om_annotations o))
    by (unfold cleaned, unrecorded; by case_bool_decide).
  cbv beta iota zeta. assert (HA' : recorded managedExtraAnnotations (unrecorded managedExtraLabels (view (effL srv)) cl (om_annotations o)) = Ok ca).
  { unfold unrecorded. case_bool_decide; [done|]. revert HA. unfold recorded, mget. by rewrite deleteKey_lookup, decide_False by done. }
  rewrite HA', !mergeMaps_orMake. destruct (_ && _ && _ && _); eauto.
Qed.

Lemma readable_owners o l : readable (with_owners l o) <-> readable o.
Proof. done. Qed.

Lemma readable_labels o l : readable (with_labels l o) <-> readable o.
Proof. done. Qed.

Lemma readable_new name ns l : readable (newMeta name ns l).
Proof. split; by eexists. Qed.

Lemma setController_succeeds o : om_namespace o = om_namespace (srv_meta srv) ->
  (forall ref, GetControllerOf o = Some ref -> or_kind ref = MCPServerKind /\ or_name ref = om_name (srv_meta srv) /\
     ParseGroupVersion (or_apiVersion ref) = Some GroupVersion_Group) ->
  readable o -> exists o', setController srv o = Ok o' /\ readable o'.
Proof.
  intros Hns Href Hr. destruct (SetControllerReference_succeeds MCPServerAPIVersion MCPServerKind (srv_meta srv) o Hns) as [o' Ho].
  - intros ref Hc. rewrite ParseGroupVersion_own. by apply Href.
  - exists o'. split; [exact Ho|]. rewrite (setController_frame srv o o' Ho). exact Hr.
Qed.

Lemma setController_new name l :
  exists o', setController srv (newMeta name (om_namespace (srv_meta srv)) l) = Ok o' /\ readable o'.
Proof. by apply setController_succeeds; [| |apply readable_new]. Qed.

Lemma setController_adopted o : adopted srv o -> exists o', setController srv o = Ok o' /\ readable o'.
Proof.
  intros (Hns & Hr & ref & Hc & Href). apply setController_succeeds; [done| |done]. intros ref' Hc'. congruence.
Qed.

Lemma adopted_manageable o : adopted srv o -> manageable o srv.
Proof. intros (Hns & _ & ref & Hc & Hk & Hn & Hg). exists ref. split; [done|]. by right. Qed.

Lemma gives_ownership {X} k o (f : option error -> M X) P :
  adopted srv o -> gives (f None) P -> gives (validateOwnership r k o srv ≫= f) P.
Proof.
  intros Ho Hf. eapply (yields_bind _ _ _ succeeds); [|by intros ? ->]. apply leads_mwp. intros s.
  apply mwp_validateOwnership; [done|]. intros fields msg Hno. by destruct (Hno (adopted_manageable _ Ho)).
Qed.

(** *** Validation *)

Lemma gives_andThen m k : gives m succeeds -> gives k succeeds -> gives (andThen m k) succeeds.
Proof. intros Hm Hk. eapply yields_bind; [exact Hm|]. by intros ? ->. Qed.

Lemma gives_eachM {X} (f : X -> Z -> M (option error)) l :
  (forall x i, In x l -> gives (f x i) succeeds) -> forall i, gives (eachM f l i) succeeds.
Proof.
  induction l as [|x l IH]; intros Hf i; cbn [eachM]; [by apply gives_ret|].
  apply gives_andThen; [apply Hf; by left|]. apply IH. intros. apply Hf. by right.
Qed.

Lemma gives_configMap ns n desc : gives (validateReferencedConfigMap ns n desc) succeeds.
Proof. apply gives_get. intros a [cm ->]. by apply gives_ret. Qed.

Lemma gives_secret ns n desc : gives (validateReferencedSecret ns n desc) succeeds.
Proof. apply gives_get. intros a (sec & -> & _). by apply gives_ret. Qed.

Lemma gives_mount m i : fit_mount m -> gives (validateStorageMount srv m i) succeeds.
Proof.
  unfold validateStorageMount. intros [[-> (cm & -> & Hn)]|[[-> (sec & -> & Hn)]|[-> Hs]]]; cbn -[bool_decide].
  - rewrite (bool_decide_eq_true_2 (_ = StorageTypeConfigMap)), (bool_decide_eq_false_2 (cmv_name cm = "")) by done.
    destruct (isOptional _); [by apply gives_ret|apply gives_configMap].
  - rewrite (bool_decide_eq_false_2 (_ = StorageTypeConfigMap)), (bool_decide_eq_true_2 (_ = StorageTypeSecret)) by done.
    rewrite (bool_decide_eq_false_2 (sv_secretName sec = "")) by done. destruct (isOptional _); [by apply gives_ret|apply gives_secret].
  - rewrite (bool_decide_eq_false_2 (_ = StorageTypeConfigMap)), (bool_decide_eq_false_2 (_ = StorageTypeSecret)) by done.
    rewrite (bool_decide_eq_true_2 (_ = StorageTypeEmptyDir)) by done. destruct (ss_emptyDir _); [by apply gives_ret|done].
Qed.

Lemma gives_envFrom e i : gives (validateEnvFrom srv e i) succeeds.
Proof.
  apply gives_andThen.
  - destruct (ef_configMapRef e) as [ref|]; [destruct (isOptional _)|]; try (by apply gives_ret). apply gives_configMap.
  - destruct (ef_secretRef e) as [ref|]; [destruct (isOptional _)|]; try (by apply gives_ret). apply gives_secret.
Qed.

Lemma gives_env e i : gives (validateEnvValueFrom srv e i) succeeds.
Proof.
  unfold validateEnvValueFrom. destruct (ev_valueFrom e) as [vf|]; [|by apply gives_ret]. apply gives_andThen.
  - destruct (evs_configMapKeyRef vf) as [ref|]; [destruct (isOptional _)|]; try (by apply gives_ret). apply gives_configMap.
  - destruct (evs_secretKeyRef vf) as [ref|]; [destruct (isOptional _)|]; try (by apply gives_ret). apply gives_secret.
Qed.

Lemma gives_managed : Forall fit_mount (cfg_storage (spec_config (srv_spec srv))) -> gives (validateManaged srv) succeeds.
Proof.
  intros Hm. rewrite Forall_forall in Hm. apply gives_andThen; [|apply gives_andThen]; apply gives_eachM; intros x i Hx.
  - apply gives_mount, Hm. by apply list_elem_of_In.
  - apply gives_envFrom.
  - apply gives_env.
Qed.

Lemma gives_serviceRef ref : spec_serviceRef (srv_spec srv) = Some ref -> gives (validateServiceRef srv ref) succeeds.
Proof.
  intros Hs. apply gives_get. cbn. rewrite Hs. unfold serviceNameFor. rewrite Hs. intros a [(svc & -> & _)|[Hn _]]; [by apply gives_ret|done].
Qed.

(** The secret of the CA bundle, as read by any of its users. *)
Lemma gives_tls : fit_spec srv -> gives (validateTLS srv) succeeds.
Proof.
  intros (_ & _ & _ & Htls). unfold validateTLS. unfold tlsConfig in Htls.
  destruct (spec_transport (srv_spec srv)) as [[[tls|]]|] eqn:Et; try (by apply gives_ret).
  destruct (tls_enabled tls) eqn:Een; [|by apply gives_ret]. destruct (tls_caBundleSecret tls) as [ref|] eqn:Eref; [|by apply gives_ret].
  destruct (tls_insecureSkipVerify tls) eqn:Ei; [specialize (Htls tls eq_refl Een Ei); congruence|].
  apply gives_get. intros a (sec & -> & Hfit). apply gives_ret.
  destruct (Hfit tls ref) as (pem & Hp & Ha); [by unfold tlsConfig; rewrite Et|done..|].
  change Validation.caBundleKey with "ca.crt". by rewrite Hp, Ha.
Qed.

Lemma gives_workloadRef ref : spec_workloadRef (srv_spec srv) = Some ref -> In (wr_kind ref) [WorkloadKindDeployment; WorkloadKindDaemonSet; WorkloadKindStatefulSet] ->
  gives (validateWorkloadRef srv ref) (fun res => exists w, res = Ok w /\ byo_serving w).
Proof.
  intros Href Hk. unfold validateWorkloadRef.
  apply (yields_bind _ _ _ (fun got => exists w, got = Ok w /\ fit_workload srv w)).
  - unfold getWorkload. destruct Hk as [<-|[<-|[<-|[]]]]; cbn -[call];
      apply gives_get; intros a Ha; (destruct Ha as (o & -> & Ho); [by rewrite Href|]); apply gives_ret; by eexists.
  - intros got (w & -> & Hs & Hsel). destruct (spec_serviceRef (srv_spec srv)) as [s|]; [by apply gives_ret; eauto|].
    destruct Hsel as [|(sel & -> & Hl & He)]; [done|]. rewrite (proj2 (Nat.eqb_neq _ _) Hl), He. by apply gives_ret; eauto.
Qed.

Definition workload_found (res : result (option workload)) : Prop :=
  exists w, res = Ok w /\
    match spec_workloadRef (srv_spec srv) with Some _ => exists w', w = Some w' /\ byo_serving w' | None => w = None end.

Lemma gives_validate : fit_spec srv -> gives (validateConfigAndResolveWorkload srv) workload_found.
Proof.
  intros Hfit. pose proof Hfit as (_ & Hw & Hn & _). unfold validateConfigAndResolveWorkload.
  apply (yields_bind _ _ _ workload_found).
  - unfold workload_found. destruct (spec_workloadRef (srv_spec srv)) as [ref|] eqn:Eref; [|by apply gives_ret; eauto].
    eapply yields_bind; [by apply gives_workloadRef|]. intros res (w & -> & Hs). apply gives_ret. eauto.
  - intros res (w & -> & Hs). apply (yields_bind _ _ _ succeeds); [|intros ? ->; apply gives_ret; by exists w].
    apply gives_andThen; [|apply gives_andThen; [|apply gives_andThen]].
    + destruct (spec_serviceRef (srv_spec srv)) eqn:E; [by apply gives_serviceRef|by apply gives_ret].
    + destruct (spec_workloadRef (srv_spec srv)); [by apply gives_ret|apply gives_managed, Hw].
    + apply gives_ret. by destruct (spec_network (srv_spec srv)).
    + by apply gives_tls.
Qed.

(** *** The operator's objects *)

Lemma gives_hashObjects k stream ns names h w :
  (forall a n, healthy_read srv Direct k n a -> exists o, a = Ok o) ->
  gives (hashObjects k stream ns names h w) (fun res => exists hw, res = Ok hw).
Proof.
  intros Hk. revert h w. induction names as [|n names IH]; intros h w; cbn [hashObjects]; [apply gives_ret; eauto|].
  apply gives_get. intros a Ha. by destruct (Hk _ _ Ha) as [o ->].
Qed.

Lemma gives_configHash d : gives (applyConfigHash srv d) (fun res => exists d', res = Ok d' /\ dep_meta d' = dep_meta d).
Proof.
  apply (yields_bind _ _ _ (fun res => exists h, res = Ok h)).
  - unfold computeConfigHash. destruct (_ && _); [apply gives_ret; eauto|].
    eapply yields_bind; [apply gives_hashObjects; by intros a n [cm ->]; eauto|]. intros res [hw ->].
    eapply yields_bind; [apply gives_hashObjects; by intros a n (sec & -> & _); eauto|]. intros res [hw2 ->].
    destruct (snd hw2); apply gives_ret; eauto.
  - intros res [h ->]. destruct (h != ""); apply gives_ret; eauto.
Qed.

Definition deployed (res : result Deployment) : Prop := exists d, res = Ok d /\ dep_replicas d <> Some 0 /\ serving d.

Lemma createDeployment_meta r' d : createDeployment r' srv = Ok d ->
  dep_meta d = newMeta (om_name (srv_meta srv)) (om_namespace (srv_meta srv)) (Some (managedWorkloadLabels (om_name (srv_meta srv)))).
Proof. unfold createDeployment. intros H. repeat case_match; by simplify_eq. Qed.

Lemma gives_reconcileDeployment : spec_workloadRef (srv_spec srv) = None -> fit_spec srv -> gives (reconcileDeployment r srv) deployed.
Proof.
  intros Hw (_ & Hfit & _). rewrite Hw in Hfit. destruct Hfit as (Ht & Hi & _). unfold reconcileDeployment.
  assert (Hd : exists d, createDeployment r srv = Ok d).
  { unfold createDeployment. rewrite Ht, bool_decide_eq_true_2 by done. destruct (src_containerImage _); [|done]. cbn. eauto. }
  destruct Hd as [d Hd]. rewrite Hd.
  destruct (setController_new (om_name (srv_meta srv)) (Some (managedWorkloadLabels (om_name (srv_meta srv))))) as (m & Hm & _).
  rewrite (createDeployment_meta _ _ Hd), Hm. eapply yields_bind; [apply gives_configHash|]. intros res (d' & -> & _).
  apply gives_get. intros a (ex & -> & Hex & Hrep & Hs). apply gives_ownership; [done|].
  destruct (setController_adopted _ Hex) as (m1 & Hm1 & Hr1). rewrite Hm1. destruct (deploymentNeedsUpdate _ _ _ _).
  - assert (Hd2 : exists d2, applyCustomDeploymentMetadata srv (withDesired d' (with_dep_meta m1 ex)) = Ok d2).
    { unfold applyCustomDeploymentMetadata. cbn. destruct (applyCustom_succeeds m1 Hr1) as [m2 ->]. eauto. }
    destruct Hd2 as [d2 ->]. apply gives_update. intros stored.
    apply healthy_get. intros a (d3 & -> & _ & Hd3). by exists d3.
  - apply gives_ret. exists (with_dep_meta m1 ex). split; [done|]. split; [done|].
    apply setController_frame in Hm1. rewrite Hm1. exact Hs.
Qed.

Lemma gives_reconcileService sel : spec_serviceRef (srv_spec srv) = None -> gives (reconcileService r srv sel) succeeds.
Proof.
  intros Hs. unfold reconcileService.
  destruct (setController_new (om_name (srv_meta srv)) (Some (managedWorkloadLabels (om_name (srv_meta srv))))) as (m & Hm & Hr).
  change (svc_meta (createService srv sel)) with (newMeta (om_name (srv_meta srv)) (om_namespace (srv_meta srv)) (Some (managedWorkloadLabels (om_name (srv_meta srv))))).
  rewrite Hm. apply gives_get. cbn [healthy_read]. rewrite Hs.
  assert (Hcreate : forall e, IsNotFound e = true -> gives (if IsNotFound e then
     match applyCustomServiceMetadata srv m with
     | Err e' => mret (Some (Wrap "applying custom metadata failed; " e'))
     | Ok m' => created ← call (CCreate KService (with_svc_meta m' (with_svc_meta m (createService srv sel))));
                match created with Err e' => mret (Some e') | Ok _ => mret None end
     end else mret (Some e)) succeeds).
  { intros e ->. destruct (applyCustom_succeeds m Hr) as [m' Hm']. unfold applyCustomServiceMetadata. rewrite Hm'.
    apply gives_create. intros o. by apply gives_ret. }
  intros a [[(e & -> & He)|(ex & -> & Hex)]|[_ (e & -> & He)]]; [by apply Hcreate| |by apply Hcreate].
  apply gives_ownership; [done|]. destruct (setController_adopted _ Hex) as (m1 & -> & Hr1).
  destruct (serviceNeedsUpdate _ _ _ _); [|by apply gives_ret].
  unfold applyCustomServiceMetadata. destruct (applyCustom_succeeds m1 Hr1) as [m2 ->].
  apply gives_update. intros o. by apply gives_ret.
Qed.

Definition resolved (res : ServiceEndpoint * option error) : Prop :=
  snd res = None /\
  (spec_serviceRef (srv_spec srv) = None ->
   fst res = {| ep_name := om_name (srv_meta srv); ep_port := cfg_port (spec_config (srv_spec srv)) |}).

Lemma gives_cleanupManagedService ref : spec_serviceRef (srv_spec srv) = Some ref -> gives (cleanupManagedServiceForBYO srv) succeeds.
Proof.
  intros Hs. unfold cleanupManagedServiceForBYO, serviceNameFor. rewrite Hs.
  destruct (sr_name ref == om_name (srv_meta srv)); [by apply gives_ret|].
  apply gives_get. cbn [healthy_read]. rewrite Hs. intros a [(svc & -> & _)|[_ (e & -> & He)]]; [|rewrite He; by apply gives_ret].
  destruct (GetControllerOf _) as [owner|]; [|by apply gives_ret]. destruct (or_uid owner != om_uid (srv_meta srv)); [by apply gives_ret|].
  apply gives_get. cbn [healthy_read]. unfold serviceNameFor. rewrite Hs. intros a [(ext & -> & _)|[Hn _]]; [|done].
  apply (yields_bind _ _ _ succeeds); [by apply yields_call|]. intros ? ->. by apply gives_ret.
Qed.

Lemma gives_service sel : gives (reconcileServiceOrBYO r srv sel) resolved.
Proof.
  unfold reconcileServiceOrBYO, resolved. destruct (spec_serviceRef (srv_spec srv)) as [ref|] eqn:Hs.
  - apply (yields_bind _ _ _ (fun res => snd res = None)).
    + unfold ResolveServiceEndpoint. rewrite Hs. apply (yields_bind _ _ _ (fun res => snd res = None)); [|intros ? H; by apply gives_ret].
      unfold resolveServicePort. destruct (0 <? _); [by apply gives_ret|]. apply gives_get. cbn [healthy_read].
      unfold serviceNameFor. rewrite Hs. intros a [(svc & -> & Hp)|[Hn _]]; [|done]. specialize (Hp eq_refl).
      destruct (svc_ports svc); [done|]. destruct (List.find _ _); by apply gives_ret.
    + intros res ->. apply (yields_bind _ _ _ succeeds); [by eapply gives_cleanupManagedService|]. intros ? ->. by apply gives_ret.
  - eapply yields_bind; [by apply gives_reconcileService|]. intros ? ->. apply gives_skip. intros _. apply gives_ret.
    split; [done|]. intros _. unfold serviceNameFor. by rewrite Hs.
Qed.

Lemma gives_gatewayPeers : gives (gatewayIngressPeers r srv) (fun res => exists peers, res = Ok peers).
Proof.
  unfold gatewayIngressPeers. destruct (_ != _); [apply gives_ret; eauto|].
  destruct (spec_gateway (srv_spec srv)) as [gw|]; [|apply gives_ret; eauto]. destruct (ingressFrom srv); [|apply gives_ret; eauto].
  destruct (if _ == _ then _ else _) as [key|]; [|apply gives_ret; eauto].
  apply (yields_bind _ _ _ (fun res => exists ns, res = Ok ns)).
  - unfold resolveGatewaySourceNamespace. destruct (gw_configRef gw == ""); [apply gives_ret; eauto|].
    apply gives_get. intros a [cm ->]. apply gives_ret. eauto.
  - intros res [ns ->]. destruct (ns == ""); apply gives_ret; eauto.
Qed.

Lemma gives_ensureNetworkPolicy : gives (ensureNetworkPolicy r srv) (fun res => exists np, res = Ok np).
Proof.
  unfold ensureNetworkPolicy. eapply yields_bind; [apply gives_gatewayPeers|]. intros res [peers ->].
  destruct (setController_new (om_name (srv_meta srv)) (Some (managedWorkloadLabels (om_name (srv_meta srv))))) as (m & Hm & Hr).
  cbn [np_meta createNetworkPolicy]. rewrite Hm. apply gives_get. intros a [(e & -> & He)|(ex & -> & Hex)].
  - rewrite He. unfold applyCustomNetworkPolicyMetadata. cbn [np_meta with_np_meta]. destruct (applyCustom_succeeds m Hr) as [m' ->].
    apply gives_create. intros o. apply gives_skip. intros _. apply gives_ret. eauto.
  - apply gives_ownership; [done|]. destruct (setController_adopted _ Hex) as (m1 & -> & Hr1).
    destruct (networkPolicyNeedsUpdate _ _ _ _); [|apply gives_ret; eauto]. unfold applyCustomNetworkPolicyMetadata.
    match goal with |- context [applyCustomObjectMetadata srv (with_labels ?l m1)] =>
      destruct (applyCustom_succeeds (with_labels l m1) Hr1) as [m2 ->] end.
    apply gives_update. intros o. apply gives_skip. intros _. apply gives_ret. eauto.
Qed.

Lemma gives_delete {X} k o pre (f : option error -> M X) P : gives (f None) P -> gives (call (CDelete k o pre) ≫= f) P.
Proof. intros H. apply (yields_bind _ _ _ succeeds); [by apply yields_call|]. by intros ? ->. Qed.

Lemma gives_reconcileGatewayBinding : gives (reconcileGatewayBinding r srv) succeeds.
Proof.
  unfold reconcileGatewayBinding. apply gives_get. cbn [healthy_read]. destruct (spec_gateway (srv_spec srv)) as [gw|].
  - intros a (b & -> & Hb & _).
    destruct (setController_new (gatewayBindingName (om_name (srv_meta srv))) None) as (m & Hm & _).
    cbn [mgb_meta desiredBinding]. rewrite Hm. apply gives_ownership; [done|].
    destruct (_ != _); [apply gives_delete; by apply gives_ret|].
    destruct (_ != _); [apply gives_update; intros o|]; by apply gives_ret.
  - intros a [(e & -> & He)|(b & -> & Hb)]; [rewrite He; by apply gives_ret|].
    apply gives_ownership; [done|]. by apply yields_call.
Qed.

(** *** The status *)

Definition registered_status (x : option gatewayStatus) : Prop :=
  exists g, x = Some g /\ c_type (gws_condition g) = ConditionTypeGatewayRegistered /\
    c_status (gws_condition g) = ConditionTrue /\ gws_err g = None.

Definition gateway_registered (x : option gatewayStatus) : Prop :=
  match spec_gateway (srv_spec srv) with Some _ => registered_status x | None => x = None end.

Lemma gives_newCondition t st rs ms g : gives (newCondition t st rs ms g) (is_condition t st).
Proof. apply leads_mwp. intros s. by apply mwp_newCondition. Qed.

Lemma gives_gatewayCondition : gives (reconcileGatewayCondition srv) gateway_registered.
Proof.
  unfold reconcileGatewayCondition, gateway_registered. destruct (spec_gateway (srv_spec srv)) as [gw|] eqn:Eg; [|by apply gives_ret].
  apply gives_get. cbn [healthy_read]. rewrite Eg. intros a (b & -> & _ & c & Hc & Hst & Hgen).
  rewrite Hc, Hst, bool_decide_eq_true_2 by done. rewrite (proj2 (Z.ltb_ge _ _) Hgen). cbn [andb negb].
  eapply yields_bind; [apply gives_newCondition|]. intros c' [Ht Hs]. apply gives_ret. eexists. by repeat split.
Qed.

Lemma gives_gatewayOverride avail url :
  gives (gatewayOverride srv avail url) (fun x => gateway_registered (fst (fst x)) /\ snd (fst x) = avail /\
    (spec_gateway (srv_spec srv) = None -> snd x = url)).
Proof.
  unfold gatewayOverride. eapply yields_bind; [apply gives_gatewayCondition|]. unfold gateway_registered. intros x Hx.
  destruct (spec_gateway (srv_spec srv)) as [gw|]; [|subst x; by apply gives_ret].
  destruct Hx as (g & -> & Ht & Hs & He).
  apply (yields_bind _ _ _ (fun y => registered_status (Some (fst (fst y))) /\ snd (fst y) = avail)).
  - unfold applyGatewayStatus. apply gives_skip. intros _. cbn [gws_condition with_gws_condition].
    autorewrite with cond. rewrite Hs. rewrite (bool_decide_eq_true_2 (ConditionTrue = ConditionTrue)) by done. cbn [negb andb].
    apply gives_ret. split; [|done]. eexists. split; [done|]. cbn. autorewrite with cond. done.
  - intros y [Hg Ha]. apply gives_ret. by split.
Qed.

(** *** The handshake *)

Definition verified (c : Condition) : Prop := is_condition ConditionTypeVerified ConditionTrue c.

Lemma gives_verifiedWith rs ms : gives (verifiedWith srv ConditionTrue rs ms) verified.
Proof.
  eapply yields_bind; [apply gives_newCondition|]. intros c [Ht Hs]. apply gives_ret. unfold verified, is_condition. by autorewrite with cond.
Qed.

Lemma gives_transport : fit_spec srv -> gives (handshakeTransport r srv) (fun res => exists tp, res = Ok tp).
Proof.
  intros _. unfold handshakeTransport. destruct (spec_transport (srv_spec srv)) as [[[tls|]]|] eqn:Et; [|by apply gives_ret; eauto..].
  apply gives_skip. intros _. apply (yields_bind _ _ _ (fun res => exists tp, res = Ok tp)).
  - unfold buildTLSTransport. destruct (tls_enabled tls); [|apply gives_ret; eauto]. cbn [negb].
    destruct (tls_insecureSkipVerify tls); [apply gives_ret; eauto|].
    destruct (tls_caBundleSecret tls) as [ref|] eqn:Eref; [|apply gives_ret; eauto].
    apply gives_get. intros a (sec & -> & Hfit).
    destruct (Hfit tls ref) as (pem & Hp & Ha); [by unfold tlsConfig; rewrite Et|done..|].
    change Handshake.caBundleKey with "ca.crt". rewrite Hp, Ha. apply gives_ret. eauto.
  - intros res [[cfg|] ->]; apply gives_ret; eauto.
Qed.

Lemma gives_attempt url : fit_spec srv -> gives (attemptHandshake r srv url) (fun x => verified (fst x)).
Proof.
  intros Hfit. unfold attemptHandshake. eapply yields_bind; [by apply gives_transport|]. intros res [tp ->].
  apply gives_skip. intros _. apply gives_skip. intros start.
  apply (yields_bind _ _ _ (fun a => (exists info, a = Ok info) \/ exists e, a = Err e /\ isHTTPAuthError e = true)); [by apply yields_call|].
  intros dialed Hd. apply gives_skip. intros now. apply gives_skip. intros _. destruct Hd as [[info ->]|(e & -> & He)].
  - do 2 (apply gives_skip; intros _). eapply yields_bind; [apply gives_verifiedWith|]. intros c Hc. by apply gives_ret.
  - rewrite He. do 3 (apply gives_skip; intros _). eapply yields_bind; [apply gives_verifiedWith|]. intros c Hc. by apply gives_ret.
Qed.

Lemma gives_handshake url avail hash :
  fit_spec srv -> c_status avail = ConditionTrue -> c_reason avail = ReasonAvailable ->
  gives (reconcileHandshake r srv url avail hash) (fun x => verified (fst x)).
Proof.
  intros Hfit Hs Hr. unfold reconcileHandshake. apply gives_skip. intros s. rewrite Hs, Hr.
  rewrite (bool_decide_eq_true_2 (ConditionTrue = ConditionTrue)), (bool_decide_eq_true_2 (ReasonAvailable = ReasonAvailable)) by done. cbn [negb orb].
  destruct (FindStatusCondition _ _) as [c|] eqn:Ec; [|by apply gives_attempt]. destruct (st_serverInfo _) as [info|]; [|by apply gives_attempt].
  destruct (isTrue (Some c)) eqn:Et; [|by apply gives_attempt]. destruct (_ && _); [|by apply gives_attempt].
  apply gives_skip. intros _. apply gives_ret. split; [by apply FindStatusCondition_type in Ec as [? _]|by apply bool_decide_eq_true in Et].
Qed.

Lemma gives_counted c : verified c -> gives (reconcileHandshakeEventsAndRetryCount r srv c) (fun x => verified (snd x)).
Proof.
  intros Hc. unfold reconcileHandshakeEventsAndRetryCount. apply gives_skip. intros s. destruct (_ != _).
  - apply gives_skip. intros _. by apply gives_ret.
  - do 3 (apply gives_skip; intros _). apply gives_ret. cbn [snd]. by destruct (_ <=? _).
Qed.

Lemma gives_finish hash diff c n : verified c -> gives (finishEndpoint r srv hash diff c n None) (fun x => x = (noRequeue, None)).
Proof.
  intros [_ Hc]. unfold finishEndpoint. do 2 (apply gives_skip; intros _).
  apply (yields_bind _ _ _ (fun x => x = None)); [|intros ? ->; by apply gives_ret].
  unfold handshakeRequeue. rewrite Hc. by apply gives_ret.
Qed.

(** *** The end of a pass *)

Abbreviation reaches := (fun m => leads (healthy srv) m (reported_ready srv)).

Lemma suffixed_ready : suffixed (reported_ready srv).
Proof.
  intros tr tr' x [Hx (st & Hin & H)]. split; [done|]. exists st. split; [|done]. apply in_app_iff. by right.
Qed.

Lemma reaches_bind {X} (m : M X) f P : gives m P -> (forall x, P x -> reaches (f x)) -> reaches (m ≫= f).
Proof. apply leads_bind, suffixed_ready. Qed.

Lemma reaches_skip {X} (m : M X) f : (forall x, reaches (f x)) -> reaches (m ≫= f).
Proof. apply leads_after, suffixed_ready. Qed.

Lemma endpointStatus_ready base gw acc avail ver np pe url info :
  base_status srv base -> gateway_registered gw -> is_condition ConditionTypeAccepted ConditionTrue acc ->
  is_condition ConditionTypeAvailable ConditionTrue avail -> verified ver ->
  let st := endpointStatus base gw acc avail ver np pe url info in
  sac_observedGeneration st = Some (om_generation (srv_meta srv)) /\
  published_status st ConditionTypeAccepted = Some ConditionTrue /\
  published_status st ConditionTypeAvailable = Some ConditionTrue /\
  published_status st ConditionTypeVerified = Some ConditionTrue /\
  (spec_gateway (srv_spec srv) <> None -> published_status st ConditionTypeGatewayRegistered = Some ConditionTrue) /\
  sac_address st = Some {| aac_url := Some url |}.
Proof.
  intros (Hg & _ & _ & Hc & _) Hgw [Ha1 Ha2] [Hv1 Hv2] [Hr1 Hr2]. unfold gateway_registered in Hgw.
  unfold endpointStatus, withAddressWhenVerified, applyGatewayStatusToAC, published_status.
  rewrite Hr2, (bool_decide_eq_true_2 (ConditionTrue = ConditionTrue)) by done.
  destruct (spec_gateway (srv_spec srv)) as [g0|].
  - destruct Hgw as ([c [bs|] ad er] & -> & Ht & Hs & He); cbn in Ht, Hs; destruct np, info;
      cbn; rewrite Hc; cbn; rewrite Ha1, Hv1, Hr1, Ht; split_and!; intros;
      first [exact Hg | exact (f_equal Some Ha2) | exact (f_equal Some Hv2) | exact (f_equal Some Hr2) | exact (f_equal Some Hs) | done].
  - subst gw. destruct np, info; cbn; rewrite Hc; cbn; rewrite Ha1, Hv1, Hr1; split_and!; intros;
      first [exact Hg | exact (f_equal Some Ha2) | exact (f_equal Some Hv2) | exact (f_equal Some Hr2) | done].
Qed.

Lemma reaches_reconcileEndpoint acc avail base ep np :
  fit_spec srv -> base_status srv base -> is_condition ConditionTypeAccepted ConditionTrue acc ->
  is_condition ConditionTypeAvailable ConditionTrue avail -> c_reason avail = ReasonAvailable -> resolved (ep, None) ->
  reaches (reconcileEndpoint r srv acc avail base ep np).
Proof.
  intros Hfit Hb Hacc Hav Hrs [_ Hep]. unfold reconcileEndpoint.
  eapply reaches_bind; [apply gives_reconcileGatewayBinding|]. intros ? ->. apply reaches_skip. intros _. apply reaches_skip. intros hash.
  eapply reaches_bind; [apply gives_handshake; [done|apply Hav|done]|]. intros [c info] Hc. cbn [fst snd] in *. apply reaches_skip. intros _.
  eapply reaches_bind; [by apply gives_counted|]. intros [n ver] Hver. cbn [fst snd] in *.
  eapply reaches_bind; [apply gives_gatewayOverride|]. intros [[gw avail'] url] (Hgw & -> & Hurl). cbn [fst snd] in *.
  apply reaches_skip. intros _. apply reaches_skip. intros pe.
  pose proof (endpointStatus_ready base gw acc avail ver np pe url info Hb Hgw Hacc Hav Hver) as Hst. cbv zeta in Hst.
  set (st := endpointStatus _ _ _ _ _ _ _ _ _) in *.
  eapply (leads_bind_trace _ _ _ (fun tr a => In (Ev (CApplyStatus (om_namespace (srv_meta srv)) (om_name (srv_meta srv)) st) a) tr /\ a = None)).
  { apply leads_call. intros a Ha. split; [by left|exact Ha]. }
  intros tr a [Hin ->].
  assert (Herr : match gw with Some g => gws_err g | None => None end = None).
  { unfold gateway_registered in Hgw. destruct (spec_gateway (srv_spec srv)); [|by subst]. by destruct Hgw as (gs & -> & _ & _ & He). }
  rewrite Herr. eapply leads_mono; [by apply gives_finish|]. intros tr' x ->. split; [done|]. exists st.
  destruct Hst as (H1 & H2 & H3 & H4 & H5 & H6). split_and!; try done; [apply in_app_iff; by left|].
  exists url. split; [done|]. intros Hno Hns. cbn in Hep. by rewrite (Hurl Hno), (Hep Hns).
Qed.

Lemma gives_conditionFor t st rs ms : gives (conditionFor srv t st rs ms) (is_condition t st).
Proof. apply yields_returns, returns_conditionFor. Qed.

Lemma gives_available d acc g ex : c_status acc <> ConditionFalse -> dep_replicas d <> Some 0 -> serving d ->
  gives (reconcileAvailableCondition d acc g ex)
    (fun c => is_condition ConditionTypeAvailable ConditionTrue c /\ c_reason c = ReasonAvailable).
Proof.
  intros Ha Hr Hs. apply leads_mwp. intros s. eapply mwp_mono; [apply mwp_reconcileAvailableCondition|].
  intros tr c s' (_ & Ht & _ & [_ Hav] & _). destruct Hav; [done|]. by repeat split.
Qed.

Lemma gives_observeWorkload w acc : c_status acc <> ConditionFalse -> byo_serving w ->
  gives (observeWorkload srv (Some w) acc) (fun res => exists obs, res = Ok obs /\
    is_condition ConditionTypeAvailable ConditionTrue (wo_availability obs) /\ c_reason (wo_availability obs) = ReasonAvailable).
Proof.
  intros Ha Hs.
  assert (Hok : gives (observeWorkload srv (Some w) acc) (fun res => exists obs, res = Ok obs))
    by (destruct w; apply gives_skip; intros c; apply gives_ret; eauto).
  intros s. specialize (Hok s). pose proof (mwp_observeWorkload srv w acc s Ha) as Hobs. unfold mwp in *.
  pose proof (wp_conj _ _ _ Hok Hobs) as Hboth. eapply wp_mono; [exact Hboth|]. intros tr [res s'] [H1 H2] Htr.
  destruct (H1 Htr) as [obs ->]. destruct H2 as [(Ht & [_ Hav] & _) _]. destruct (Hav Hs). exists obs. by repeat split.
Qed.

Lemma reaches_reconcileManaged acc : spec_workloadRef (srv_spec srv) = None -> fit_spec srv ->
  is_condition ConditionTypeAccepted ConditionTrue acc -> reaches (reconcileManaged r srv acc).
Proof.
  intros Hw Hfit Hacc. assert (Hnf : c_status acc <> ConditionFalse) by (destruct Hacc as [_ ->]; done). unfold reconcileManaged.
  eapply reaches_bind; [by apply gives_reconcileDeployment|]. intros res (d & -> & Hrep & Hs). apply reaches_skip. intros _.
  eapply reaches_bind; [apply gives_service|]. intros [ep e] Hep. pose proof (proj1 Hep) as He. cbn in He. subst e. cbn [fst snd].
  eapply reaches_bind; [apply gives_ensureNetworkPolicy|]. intros res [np ->]. do 3 (apply reaches_skip; intros ?).
  eapply reaches_bind; [by apply gives_available|]. intros av [Hav Hrs]. do 2 (apply reaches_skip; intros _).
  by apply reaches_reconcileEndpoint; [|apply workloadStatus_base|..].
Qed.

Lemma reaches_reconcileBYO acc w : fit_spec srv -> byo_serving w ->
  is_condition ConditionTypeAccepted ConditionTrue acc -> reaches (reconcileBYO r srv acc (Some w)).
Proof.
  intros Hfit Hs Hacc. assert (Hnf : c_status acc <> ConditionFalse) by (destruct Hacc as [_ ->]; done). unfold reconcileBYO.
  eapply reaches_bind; [by apply gives_observeWorkload|]. intros res (obs & -> & Hav & Hrs). do 2 (apply reaches_skip; intros _).
  eapply reaches_bind; [apply gives_service|]. intros [ep e] Hep. pose proof (proj1 Hep) as He. cbn in He. subst e. cbn [fst snd].
  by apply reaches_reconcileEndpoint; [|apply workloadStatus_base|..].
Qed.

Lemma reaches_reconcileLive : fit_spec srv -> reaches (reconcileLive r srv).
Proof.
  intros Hfit. unfold reconcileLive. apply reaches_skip. intros _.
  eapply reaches_bind; [by apply gives_validate|]. intros res (w & -> & Hw). apply reaches_skip. intros _.
  eapply reaches_bind; [apply gives_conditionFor|]. intros acc Hacc. do 2 (apply reaches_skip; intros _).
  destruct (spec_workloadRef (srv_spec srv)) eqn:Ew; [|by apply reaches_reconcileManaged].
  destruct Hw as (w' & -> & Hs). by apply reaches_reconcileBYO.
Qed.

End phases.

(** C2: A healthy server is reported ready: in every execution of Reconcile for a server
    whose spec can run, in which the reads find what the spec names, the workload serves,
    the operator's own objects are missing or its own, the gateway binding (if any) is
    registered, writes are accepted and the endpoint answers (or asks for credentials), the
    pass ends without error or requeue and publishes the server as Accepted, Available,
    Verified and, with a gateway, GatewayRegistered for its generation, with its address;
    whatever the status said before and however many handshakes had failed. *)
Theorem healthy_server_reported_ready `{V : Vendor} {L : VendorLaws V} {N : ControllerReferences V} r srv s tr x s' :
  fit_spec srv -> runs (Reconcile r (requestFor srv) s) tr (x, s') -> Forall (healthy srv) tr -> reported_ready srv tr x.
Proof.
  intros Hfit Hr. revert Hr. refine (mwp_runs _ _ (fun tr x _ => Forall (healthy srv) tr -> reported_ready srv tr x) _ tr x s'). revert s.
  change (leads (healthy srv) (Reconcile r (requestFor srv)) (reported_ready srv)).
  unfold Reconcile, requestFor. eapply reaches_bind; [apply healthy_get; intros a Ha; exact Ha|]. intros a ->.
  apply (reaches_bind srv _ _ (fun x => x = (false, None))).
  - unfold shouldSkipReconciliation. rewrite (proj1 Hfit). apply gives_get. intros a (n & -> & Hn). rewrite Hn. by apply gives_ret.
  - intros ? ->. by apply reaches_reconcileLive.
Qed.

(** ** A concrete server

    Behind a gateway that has registered it, after ten failed handshakes. *)

Definition healthyWorld : World :=
  let w := liveWorld gatewayServer in
  {| w_get := fun rd k ns n => match k return result (obj k) with
                               | KBinding => Ok registeredBinding
                               | KConfigMap => Ok {| cm_meta := newMeta n ns None; cm_data := ∅; cm_binaryData := ∅ |}
                               | KSecret => Ok {| sec_meta := newMeta n ns None; sec_data := ∅ |}
                               | k => w_get w rd k ns n
                               end;
     w_write := None; w_pods := []; w_servers := []; w_list := fun _ _ => []; w_status := None; w_dial := w_dial w; w_now := 5 |}.

Definition exhausted : RState :=
  {| tlsCABundleHashes := ∅; handshakeRetries := {[ "ns/srv" := {| hr_generation := 1; hr_count := 10 |} ]} |}.

Lemma answers_run {X S} (A : event -> Prop) (h : S -> forall c, resp c * S) (p : prog X) s :
  (forall s c, A (Ev c (fst (h s c)))) -> Forall A (fst (fst (interp h p s))).
Proof.
  intros Hh. revert s. induction p as [x|c k IH]; intros s; cbn; [constructor|].
  pose proof (Hh s c) as Hc. destruct (h s c) as [a s1]. specialize (IH a s1). destruct (interp h (k a) s1) as [[tr x] s2]. by constructor.
Qed.

Lemma ownedMeta_adopted o : om_namespace o = "ns" -> om_annotations o = None -> om_ownerReferences o = [sampleOwner] ->
  @adopted modelVendor gatewayServer o.
Proof.
  intros Hns Ha Ho. split; [exact Hns|]. split; [unfold readable; rewrite Ha; split; by eexists|].
  exists sampleOwner. split; [|done]. unfold GetControllerOf. by rewrite Ho.
Qed.

Lemma healthyWorld_healthy u c : @healthy modelVendor gatewayServer (Ev c (fst (answer healthyWorld u c))).
Proof.
  destruct c as [rd k ns n|k o|k o|k o pre|ns sel|ns ik v|ns n st|k b o|k o|k ns|url tp| |o]; try (by eexists); try done; [|by left; eexists].
  destruct k; try done; try (by intros Hw; destruct (Hw eq_refl)); cbn.
  - by eexists.
  - destruct rd; [|by intros Hw; destruct (Hw eq_refl)]. eexists. split; [reflexivity|]. split; [by apply ownedMeta_adopted|].
    split; [done|]. split; [reflexivity|]. split; [done|]. vm_compute. by intros [_ ?].
  - left. right. eexists. split; [reflexivity|]. by apply ownedMeta_adopted.
  - left. by eexists.
  - eexists. split; [reflexivity|]. split; [by apply ownedMeta_adopted|]. eexists. split; [reflexivity|]. cbn. split; [done|lia].
  - by eexists.
  - eexists. split; [reflexivity|]. by intros tls ref Htls.
Qed.

Lemma healthy_server_reported_ready_witness :
  let run := run_in healthyWorld (@Reconcile modelVendor sampleReconciler ("ns", "srv")) exhausted in
  map (fun st => (published_status st ConditionTypeAvailable, published_status st ConditionTypeGatewayRegistered, sac_address st))
      (statuses (fst run)) = [(Some "True", Some "True", Some {| aac_url := Some "https://gw.example/mcp" |})] /\
  reported_ready gatewayServer (fst run) (fst (snd run)).
Proof.
  intros run. split; [vm_compute; reflexivity|]. destruct (snd run) as [x s'] eqn:Ex. cbn [fst].
  refine (@healthy_server_reported_ready modelVendor modelVendor_laws modelVendor_references sampleReconciler gatewayServer exhausted (fst run) x s' _ _ _).
  - split; [reflexivity|]. cbn. by split_and!.
  - rewrite <- Ex. apply (run_in_runs healthyWorld (@Reconcile modelVendor sampleReconciler ("ns", "srv")) exhausted).
  - apply answers_run. exact healthyWorld_healthy.
Defined.
